(* ===== verification/_CoqProject ===== *)
-Q . S2P
Prelude.v
Crc16.v
Machine.v
Libmodbus.v
SlaveState.v
Layout.v
SlaveMapping.v
SlaveHandlers.v
SlaveDiag.v
SlaveFile.v
SlaveConfig.v
RegTable.v
SlaveLoop.v
System.v
Channels.v
EffChannels.v
SharedTable.v
SensorCache.v
SensorSets.v
FrotoCrc.v
Protobuf.v
FrotoHeader.v
FrotoReply.v
FrotoMessage.v
FrotoEnds.v
BtState.v
BtDevices.v
BtConn.v
BtLoop.v
BtDemo.v
BtTurns.v
BtSafety.v
BtRecovery.v
BtReports.v
Collect.v
CollectWave.v
CollectRun.v
Huffman.v
Dwt.v
WaveSnap.v
