(* ===== verification/Prelude.v ===== *)
(** * Verification of the gateway: Modbus RTU slave, device channels, Bluetooth connections, Froto messages, collection of measurements, wave compression

    ** The program

    The repository is a gateway for wireless condition-monitoring sensors. Its
    own core logic that is modelled here comes in six parts.

    The Modbus RTU slave ([src/modbus_rtu/modbus_slave], over the copy of libmodbus in
    [src/modbus_rtu/libmodbus-3.1.11]) publishes measurements as registers. Two
    threads share one [controller]: [app_mslave_mloop] receives a request on
    the serial line, validates it, finds the register block of its address and
    answers; [pthandler_mslave_ipc_service] wakes up periodically, loads the
    configuration, the device list and the measurements from a shared memory,
    reopens the port and rebuilds the register blocks when they changed, and writes the
    measurements into the registers.

    The database process ([src/skf_gw_mqtt/sqlite/main.c]) writes that shared
    memory. Requests of other processes insert, update and delete devices in a
    database; the process assigns every device a channel, which fixes its registers, writes the
    channel into the description of the device, and puts the device into the
    device table of the shared memory. In the extensible register mode every
    channel has a block of 128 registers, in the efficient mode the blocks have
    the size of the sensor type, and holes are reused. The measurements of a sensor
    come one by one; the process collects them and writes a set at a time into
    the slots of the sensor's channel, when the set is full or a timer expires.

    The gateway process ([src/skf_gw]) talks to the sensors over Bluetooth in the
    Froto protocol, whose messages are encoded with nanopb. A thread that sends a
    request registers the reply it expects and waits on a condition variable, with a
    time-out; the thread that receives cuts what has arrived into messages, decodes the header of
    each, puts it into the queue of the first registration that waits for it and wakes the
    waiter, which takes it and removes its registration. Up to 40 requests wait at a time, up to ten for one sensor;
    a reply in blocks keeps its registration until the last one.

    With such requests the gateway process collects what a connected Predict sensor has measured
    ([sensor_interface_insight_predict.c]): the short data, three types at a time, and, when the periods of the
    configuration say that the sensor has taken one since, six waveforms, which come in blocks and
    go into files. A request without an answer is repeated up to three times. Each value, and the name of
    each file, goes as an item to the thread of the database.

    The Bluetooth process ([src/skf_gw/source/src/ble]), which the gateway process starts, keeps
    up to four sensors connected. The bus reports the devices that are heard, and
    changes of their properties; a thread makes a pass every eight seconds: it takes a free
    slot and the first address of the white list that has been heard within five seconds and has no slot,
    puts the address to the end of the list, asks BlueZ to connect, and waits. The
    callbacks of the bus and the replies fill and free the slot and queue events, which another
    thread turns into messages to the general process; a third disconnects on
    command and changes the role from client to server and back; the main thread
    restarts the bus. A detector ends the process when devices are heard but never found.

    The wave compression ([src/DWT_Huffman]) transforms a wave with the Haar
    transform, drops small coefficients, quantises, and encodes with a static
    Huffman code, in chunks; and undoes all of it.

    ** The files

    The slave, from the bottom up:
    - [Prelude]: words of 8, 16 and 32 bits, their bytes, lists used as
      buffers; the hint databases [words].
    - [Crc16] ([util_tool.c]): CRC, ELF hash, hexadecimal digits.
    - [Machine] ([app_mslave.h], [modbus.h], [modbus-private.h]): the structures,
      and the monad the slave's code runs in.
    - [Libmodbus] ([modbus.c], [modbus-rtu.c], [app_modbus_common.c]): the
      functions of libmodbus that the slave calls.
    - [SlaveState] ([app_mslave.c]): mode, counters, event log.
    - [Layout] ([app_mslave_ipc.c]): byte orders, descriptions of devices, the
      remapping block.
    - [SlaveMapping] ([app_mslave.c]): requests, their validation, the queue of
      register blocks.
    - [SlaveHandlers], [SlaveDiag], [SlaveFile] ([app_mslave.c]): the handlers
      of the function codes.
    - [SlaveConfig] ([app_mslave_ipc.c], [app_mslave.c]): the configuration, the
      port, the update of the mapping.
    - [RegTable] ([app_mslave_ipc.c]): the measurements into the registers.
    - [SlaveLoop] ([app_mslave.c]): the main loop.
    - [System] ([main.c], [app_mslave.c], [app_mslave_ipc.c]): start-up, and the
      two threads as a step relation.

    The database process ([skf_gw_mqtt/sqlite/main.c]): [Channels] has the requests
    and start-up in both modes, and the extensible mode's theorems; [EffChannels] those of
    the efficient mode; [SharedTable] composes it with [System]: what the
    process writes, the slave serves. [SensorCache] has the insertion of
    measurements, the instances of the Predict sensors, the buffer of the Insight-T
    sensors and the timers, over [Channels], and their safety; [SensorSets] says what a
    collected set is and what reaches the shared memory, and composes it with
    [RegTable], which loads it.

    The gateway process: [Protobuf] ([middleware/protobuf/pb_decode.c],
    [pb_encode.c]) has the streams and the loop over the fields of a message,
    [FrotoHeader] ([nanopb_protocol/Froto.pb.h], [app_froto_common.c]) the header and its callbacks,
    [FrotoReply] ([app_froto_new.c]) the registrations, the delivery and the waiting threads,
    [FrotoMessage] ([app_froto_new.c]) the messages of a buffer, and the way from a
    request to its reply, [FrotoEnds] the end of its loops, [FrotoCrc] ([app_froto_common.c]) the
    checksum of the blocks of measurements. [Collect] ([sensor_interface_insight_predict.c], [app_froto_common.c],
    [app_froto_data_upload_decoder.c]) has the collection of measurements; [CollectWave] follows the transfer of a waveform,
    [CollectRun] the short data and the collection as a whole.

    The Bluetooth process: [BtState] ([bt_connection_new.h], [sys_def.h], [app_common.c],
    [ell/queue.c]) has its state, the queues, the white list and the addresses as text;
    [BtDevices] ([bt_connection_new.c]) the devices that were heard and the detector;
    [BtConn] ([bt_connection_new.c]) the slots, the pass, the replies, the changes of properties, the
    disconnection, the characteristics; [BtLoop] ([app_pro_ble_new.c], [sys_def.c]) the
    threads, as labels and runs, with the messages, the proxies that come and go, the roles and the
    restart. Their theorems: [BtTurns] (whose turn it is), [BtSafety] (the flag, one slot for a
    sensor), [BtRecovery] (the detector), [BtReports] (what the general process is told, and the
    text of an address); [BtDemo] has a concrete bus and runs for the witnesses.

    The compression: [Huffman] ([huffman.c], [huffman_table.h]), [Dwt]
    ([dwt.c]), [WaveSnap] ([main.c]).

    ** How code is translated

    A function of the slave that touches the controller, the line or a mutex is
    a computation [M A := world -> option (A * world)]. The [world] holds the
    controller, [errno], the mutexes the thread holds, the bytes waiting on the
    line and the events to come (bytes in bursts, time-outs, errors), what was
    sent, the remapping table, and oracles for what the environment decides
    (results of [write], of [pthread_mutex_trylock], of [malloc], of [time], of opening a
    port). [None] is behaviour the language does not define (an access outside
    an array, a NULL dereference), a self-deadlock, or fuel used up; so a theorem that a computation is
    [Some] says that none of these occurs. A pointer that a function compares with
    NULL is a [ptr] or an [option]; output parameters are returned. Integers are
    [Z] with the wrap-around of their width written out ([u8], [u16], [u32]).
    A loop whose recursion is not structural has fuel: [RECEIVE_FUEL] = 257 (a
    frame has at most 256 bytes and each turn but the last reads one),
    [FILL_FUEL] = 4056 (bytes of a file buffer), [PATTERN_FUEL] = 35
    (a request has at most 0xF5 / 7 patterns), [ALARM_FUEL] = 5 (digits of an alarm code),
    [decode_fuel] (one turn per bit of the buffer, and one), [chunk_fuel] (one turn per
    coefficient, and one) and 41 turns of [eff_search] (the channel grows from 1 to 41 at
    most: [EffChannels.eff_search_fuel]); the theorems on results show that each is enough. Endless
    loops are run for any given number of rounds ([app_mslave_mloop], [wait_loop])
    or over a list of the environment's answers ([app_mslave_ipc_load_conf]).

    The database process is a function on [sql_state]: its channel tables, its
    counter and the bytes of the shared memory; [None] is a read past a table.
    What the database is asked is the result [db_call]; whether it has an item
    is an argument, the rows it returns at start-up are arguments. Its sensor data
    are functions on [sd_cache], which extends [sql_state]: an insertion ends in
    [SdRun], in [SdExit] when no timer can be had, or in [SdUndefined]; whether the semaphore
    is free at each attempt is an argument; [sd_step] is one insertion, expiry of an armed
    timer or other request.

    nanopb's functions are readers, [pb_istream_t -> outcome A]: [Ok] with the stream
    behind what was read, [Failed] with the stream as a failed call leaves it, or
    [Undef Wild] for a read outside of the buffer or a call of an address that is no function, or [Undef NoFuel] when fuel is used up.
    [VARINT_FUEL] is 10, the bytes of a 64-bit number; [stream_fuel] is one more than the bytes
    left, of which every turn of the loops takes one ([Protobuf.decode_fields_at] shows
    that it is enough for the fields of a message within its buffer, [FrotoEnds.parser_ends] for every loop of
    the parser, on any bytes; the ending [Running] is that of fuel used up). The registrations are a
    list in the order of the queue, with the flags of the condition variables; each step that
    is taken under the lock of the queue is a function, and [FrotoReply.act] lists them, so that an interleaving
    of the threads is a list of steps. What [pthread_mutex_trylock] and the wait return is an argument.

    The Bluetooth process is a state [BtLoop.world] and labels: [BtLoop.do_label] is [None] where
    the thread of the label cannot take it. The parallel arrays of the slots are a list of records, a pointer to a
    proxy is a number or [None]; what BlueZ answers about a proxy is the record
    [BtDevices.dbus], a parameter; what a function asks BlueZ to do is a list of
    [BtConn.action]. A function that waits is cut there: the part before, and the parts after
    the reply and after the time-out, between which the other threads take their labels; under
    a lock it is one step. No fuel is needed: every loop is over four slots or a list.

    The collection is a function on [Collect.store]: the files, the open descriptors with their positions, the items
    in the heap, the queue of the database and the requests made. An item that was freed or handed over is [None] in
    the heap, a closed descriptor is [None] in its table, and a use of either, like a division by zero or a read behind the end of
    the data, gives [None]. What is met in each attempt (time, answer of the database, of [open], of
    the sensor) is an environment per group or waveform and attempt; a variable that is read before it is set is an argument.
    Whether the waveforms of the acceleration are wanted is decided by the build and is an argument. [COLLECT_FUEL] is 25, the number of
    types of short data, of which each turn asks for one at least ([CollectRun.every_type_is_asked_for]).

    In the compression a [float] that is always a whole number is a [Z], and a
    result beyond 2^24, where a [float] stops to hold every whole number, is
    [None].

    ** What the theorems show

    - The slave as a whole. [SlaveLoop.read_request_end_to_end]: one round
      answers a read request on the line with the frame the register blocks
      define. [SlaveLoop.main_loop_safe], [System.system_safe]: from start-up on,
      in every interleaving of rounds, updates and arriving bytes, the invariant holds
      and nothing undefined happens. [System.startup_serves]: with a valid
      configuration start-up ends with the port open and the blocks of the
      devices. [SlaveLoop.only_accepted_frames_answered],
      [SlaveLoop.listen_only_is_silent], [SlaveLoop.closed_port_stays_silent]: when nothing
      is sent.
    - Framing and replies. [Libmodbus.modbus_receive_frame],
      [Libmodbus.modbus_reply_reads], [Libmodbus.send_then_check],
      [Libmodbus.corrupted_byte_refused], [Crc16.util_tool_cal_crc16_correct].
    - Handlers against executable specifications.
      [SlaveHandlers.read_request_answered], [SlaveDiag.diagnostics_answered],
      [SlaveFile.file_record_answered], [SlaveMapping.validate_pkt_verdict].
    - The register map. [SlaveMapping.create_extensible_mapping],
      [SlaveMapping.locate_mapping_first_match],
      [SlaveMapping.remap_disjoint_from_sensors], [Layout.layout_name_roundtrip],
      [Layout.remapping_copies], [RegTable.measurement_written].
    - The database process. In the extensible mode: [SharedTable.inserted_device_is_served]: a device
      of a served type that is inserted has its registers in the slave that starts on the shared
      memory; [Channels.channels_stay_consistent] over all sequences of requests after a start with a gateway,
      [Channels.device_gets_channel], [Channels.restart_restores_channels],
      [SharedTable.written_item_well_typed],
      [EffChannels.efficient_blocks_follow_each_other].
    - The measurements. [SensorSets.collected_set_loaded_by_slave]: what a Predict
      sensor sent is what the slave loads for its channel;
      [SensorSets.predict_set_written] and [SensorSets.insight_t_set_written] for the sets
      in the shared memory, the first under any interleaving with other sensors, timers and
      requests; [SensorCache.measurements_stay_in_place]: nothing else is touched.
    - The messages of the sensors. [FrotoMessage.request_gets_reply]: from the registration over a
      received buffer to the return of the call, under any steps of other threads that keep to their own registrations, the request gets exactly its reply;
      [FrotoMessage.messages_are_split], [FrotoReply.own_reply_returned],
      [FrotoReply.reply_goes_to_first_match], [FrotoReply.delivery_ends], [FrotoEnds.parser_ends] for any bytes, [FrotoReply.registrations_bounded];
      [FrotoHeader.header_roundtrip], [FrotoHeader.header_within_buffer] for any bytes,
      [Protobuf.varint_roundtrip]; [FrotoCrc.froto_crc32_correct], [FrotoCrc.froto_crc32_notices_damage].
    - The collection. [CollectRun.collection_is_safe]: whatever the sensor answers, the collection ends and nothing is
      used after it was given away; [CollectWave.waveform_is_stored]: a waveform that arrives is in its file, whole;
      [CollectRun.wave_due]: when waveforms are asked for; [CollectRun.every_type_is_asked_for];
      [CollectWave.block_loop_fate]: every end of a transfer.
    - The connections of the sensors. [BtReports.sensor_is_connected]: from the pass over the reports of BlueZ to the
      message to the general process; [BtTurns.every_sensor_gets_its_turn], [BtTurns.free_slot_is_found]: in any
      run the sensors take turns; [BtSafety.one_slot_per_sensor], [BtSafety.flag_means_waiting]: invariants of
      the runs; [BtRecovery.gives_up_when_proxies_are_lost]: when exactly the detector ends the process;
      [BtReports.restart_is_reported], [BtReports.disconnection_names_its_slot], [BtReports.addr_round_trip].
    - The compression. [Huffman.huffman_roundtrip], [Huffman.decoder_total],
      [Huffman.encoder_output], [Huffman.check_mode_agrees],
      [Dwt.haar_transform_correct], [Dwt.haar_roundtrip_error],
      [WaveSnap.wave_recovered].
    - What the code does and does not mean to do. [SlaveState.event_log_is_rotated],
      [SlaveConfig.port_change_drops_the_port],
      [SlaveMapping.efficient_mode_always_fails],
      [SlaveLoop.comm_errors_never_counted], [SlaveLoop.frame_after_foreign_is_ignored],
      [SlaveFile.file_record_128_is_empty], [RegTable.name_digit_stops_update],
      [Huffman.escape_symbol_is_lost], [Dwt.short_wave_not_inverted],
      [WaveSnap.dense_wave_overflows], [Channels.full_table_takes_channel_40],
      [Channels.device_41_overwrites_sensor_data],
      [EffChannels.deletions_make_blocks_overlap],
      [EffChannels.deletions_make_search_leave_table],
      [SharedTable.pro_sensor_has_no_registers],
      [SensorSets.busy_semaphore_strands_set],
      [SensorSets.timer_writes_other_channel], [SensorSets.sensor_change_loses_pieces],
      [SensorSets.ignored_type_sets_time_bit], [FrotoMessage.truncated_message],
      [FrotoMessage.message_without_header], [FrotoHeader.cloud_flag_is_called],
      [FrotoReply.second_ack_is_mixed], [FrotoReply.checked_reply_searched_forever],
      [FrotoReply.last_block_stays_registered], [FrotoReply.lost_wakeup],
      [FrotoReply.two_replies_lost], [BtReports.sensor_takes_two_slots], [BtReports.refused_sensor_takes_two_slots], [BtReports.slot_is_lost],
      [BtReports.disconnections_name_one_slot], [BtReports.slot_3_has_bit_0],
      [CollectWave.damaged_block_is_left_out], [CollectWave.damaged_last_block_is_lost],
      [CollectRun.no_period_divides_by_zero], [CollectRun.manual_trigger_divides_by_zero], and further theorems in the files.

    ** Assumptions

    The target is little-endian with 64-bit [time_t]. The slave never enables
    libmodbus' error recovery or quirks, so their branches are not reached and
    not modelled. The context pointer the handlers pass to libmodbus is the
    controller's [mctx]. The several [malloc]s of [modbus_new_rtu] succeed or fail
    together; the allocation of a queue entry ends the process when it fails, as
    [l_malloc] does. The other thread acts between whole rounds and whole
    updates, and shows inside them only in the result of
    [pthread_mutex_trylock]. How the compiler lays out the structures in shared memory, and
    the files of alarm codes, are parameters ([System.shm_layout]); the results of
    [pthread_mutex_init] and of the functions that create the shared memory and
    the semaphore are parameters of start-up. The remapping table is loaded from a JSON file
    by code that is not modelled; [remap_ok] states the ranges it checks. The database
    process and the slave agree on the layout of a device item
    ([SharedTable.same_layout]) and of a piece of sensor data ([SensorSets.same_sd_layout]), which concrete layouts satisfy. The name ids of
    the rows the database returns differ: they are its key. The memory that
    [l_malloc] returns for a registration is not that of another one, and a thread's condition variable
    is its own while it is registered ([FrotoReply.foreign]). In the Bluetooth process the memory for queues
    and mutexes is had, a condition variable can be destroyed within twenty seconds, and what BlueZ answers about
    a proxy (interface, path, address, UUID) does not change while the proxy exists; the restart of
    the bus is one step, taken while no pass and no command waits, after which the
    adapter is back within the ten seconds. In the collection memory is had and [write] writes
    everything, [pb_decode] accepts the message, which has one [data_upload], and the strings that are copied into an item fit.

    ** Not modelled

    Printing and debug dumps; the JSON loader of the remapping table; creation of the shared
    memory and the semaphores; the functions of libmodbus that the slave does not call; the
    statistics, the error measure and [free_huffman_tree] of the compression; of the
    database process the conversion of the gateway's row, the database calls, the message queue,
    and a timer that expires in its own thread inside an insertion; of the gateway process
    the rest of nanopb (arrays, pointers, extensions, encoding from descriptors), [app_froto_n_parser],
    which is called for a message that nobody waits for and passes it to no processor, the messages other
    than the header and the data of a measurement, the sending, and what is above Froto: the encoders of the requests, the time, the
    commands, the configuration and the firmware of a sensor, the collection from the Pro and Insight-T sensors, the handlers of
    [app_pro_general_new.c], the database module; of the Bluetooth process the reading and writing of
    characteristics, the registration of the local service and of advertisements, the calls that power the adapter and scan,
    the commands that only make them, the search of a server for its device, the deadlines, and the process for the raw HCI device. The
    rest of the repository is vendored code (BlueZ, the nRF SDK samples,
    cJSON, SQLite), input and output around such libraries, and the
    MQTT process, which has not been reached. *)
From Stdlib Require Import ZArith Lia List Bool.
From stdpp Require Import base list numbers.

#[global] Set Default Goal Selector "!".

Declare Scope word_scope.
Delimit Scope word_scope with word.
Open Scope Z_scope.

(** ** Fixed-width unsigned integers

    An unsigned [w]-bit integer is a [Z]; a store into it wraps. *)

Definition u8 (x : Z) : Z := x mod 256.
Definition u16 (x : Z) : Z := x mod 65536.
Definition u32 (x : Z) : Z := x mod 4294967296.

Definition is_u8 (x : Z) : Prop := 0 <= x < 256.
Definition is_u16 (x : Z) : Prop := 0 <= x < 65536.
Definition is_u32 (x : Z) : Prop := 0 <= x < 4294967296.

#[global] Instance is_u8_dec x : Decision (is_u8 x).
Proof. unfold is_u8. apply _. Defined.
#[global] Instance is_u16_dec x : Decision (is_u16 x).
Proof. unfold is_u16. apply _. Defined.
#[global] Instance is_u32_dec x : Decision (is_u32 x).
Proof. unfold is_u32. apply _. Defined.

Create HintDb words.
Create Rewrite HintDb words.

Lemma u8_range x : is_u8 (u8 x).
Proof. apply Z.mod_pos_bound; lia. Qed.
Lemma u16_range x : is_u16 (u16 x).
Proof. apply Z.mod_pos_bound; lia. Qed.
Lemma u32_range x : is_u32 (u32 x).
Proof. apply Z.mod_pos_bound; lia. Qed.

Lemma u8_id x : is_u8 x -> u8 x = x.
Proof. apply Z.mod_small. Qed.
Lemma u16_id x : is_u16 x -> u16 x = x.
Proof. apply Z.mod_small. Qed.
Lemma u32_id x : is_u32 x -> u32 x = x.
Proof. apply Z.mod_small. Qed.

Lemma is_u8_u16 x : is_u8 x -> is_u16 x.
Proof. unfold is_u8, is_u16; lia. Qed.

#[export] Hint Resolve u8_range u16_range u32_range is_u8_u16 : words.

(** Solves goals about ranges of words: unfold everything to bounds. *)
Ltac word_lia :=
  unfold is_u8, is_u16, is_u32, u8, u16, u32 in *;
  repeat match goal with
  | H : _ /\ _ |- _ => destruct H
  end;
  Z.div_mod_to_equations; lia.

(** ** Bytes of a word

    [hi8]/[lo8] are the two bytes of a 16-bit word, [be16] puts them
    together: the [(x >> 8) & 0xFF], [x & 0xFF] and [(a << 8) | b] of C. *)

(** A property of all bytes can be checked by evaluation. *)
Lemma all_bytes (P : Z -> bool) :
  forallb P (map Z.of_nat (seq 0 256)) = true -> forall b, is_u8 b -> P b = true.
Proof.
  intros H b Hb. rewrite forallb_forall in H. apply H.
  apply in_map_iff. exists (Z.to_nat b). rewrite in_seq. word_lia.
Qed.

Definition hi8 (x : Z) : Z := Z.land (Z.shiftr x 8) 255.
Definition lo8 (x : Z) : Z := Z.land x 255.
Definition be16 (a b : Z) : Z := Z.lor (Z.shiftl a 8) b.

Lemma lo8_mod x : lo8 x = x mod 256.
Proof. unfold lo8. change 255 with (Z.ones 8). apply Z.land_ones. lia. Qed.

Lemma hi8_div x : hi8 x = (x / 256) mod 256.
Proof.
  unfold hi8. change 255 with (Z.ones 8).
  rewrite Z.land_ones, Z.shiftr_div_pow2 by lia. done.
Qed.

Lemma land_shiftl_low a b n :
  0 <= n -> 0 <= b < 2 ^ n -> Z.land (Z.shiftl a n) b = 0.
Proof.
  intros Hn Hb. apply Z.bits_inj'. intros i Hi.
  rewrite Z.land_spec, Z.bits_0. destruct (Z.ltb_spec i n).
  - by rewrite Z.shiftl_spec_low by lia.
  - rewrite <- (Z.mod_small b (2 ^ n)) by lia.
    rewrite Z.mod_pow2_bits_high by lia. apply andb_false_r.
Qed.

Lemma lor_shiftl_add a b n :
  0 <= n -> 0 <= b < 2 ^ n -> Z.lor (Z.shiftl a n) b = a * 2 ^ n + b.
Proof.
  intros Hn Hb. rewrite <- Z.add_nocarry_lor by by apply land_shiftl_low.
  by rewrite Z.shiftl_mul_pow2.
Qed.

Lemma be16_add a b : is_u8 b -> be16 a b = a * 256 + b.
Proof. intros Hb. unfold be16. by rewrite lor_shiftl_add. Qed.

Lemma hi8_range x : is_u8 (hi8 x).
Proof. rewrite hi8_div. apply u8_range. Qed.
Lemma lo8_range x : is_u8 (lo8 x).
Proof. rewrite lo8_mod. apply u8_range. Qed.

Lemma be16_range a b : is_u8 a -> is_u8 b -> is_u16 (be16 a b).
Proof. intros Ha Hb. rewrite be16_add by done. word_lia. Qed.

Lemma be16_hi_lo x : is_u16 x -> be16 (hi8 x) (lo8 x) = x.
Proof.
  intros Hx. rewrite be16_add by apply lo8_range.
  rewrite hi8_div, lo8_mod. word_lia.
Qed.

Lemma hi8_be16 a b : is_u8 a -> is_u8 b -> hi8 (be16 a b) = a.
Proof. intros Ha Hb. rewrite be16_add, hi8_div by done. word_lia. Qed.
Lemma lo8_be16 a b : is_u8 a -> is_u8 b -> lo8 (be16 a b) = b.
Proof. intros Ha Hb. rewrite be16_add, lo8_mod by done. word_lia. Qed.

#[export] Hint Resolve hi8_range lo8_range be16_range : words.

(** ** Lists used as buffers

    A buffer that is being filled is written [done ++ rest]. *)

Lemma insert_app_here (done rest : list Z) (x v : Z) :
  <[length done := v]> (done ++ x :: rest) = done ++ v :: rest.
Proof.
  rewrite insert_app_r_alt by lia. by rewrite Nat.sub_diag.
Qed.

Lemma u8_land255 x : u8 (Z.land x 255) = lo8 x.
Proof. fold (lo8 x). apply u8_id, lo8_range. Qed.

Lemma u8_shiftr8 x : u8 (Z.shiftr x 8) = hi8 x.
Proof.
  unfold u8, hi8. change 255 with (Z.ones 8). by rewrite Z.land_ones.
Qed.

Lemma u8_lo8 x : u8 (lo8 x) = lo8 x.
Proof. apply u8_id, lo8_range. Qed.
Lemma u8_u8 x : u8 (u8 x) = u8 x.
Proof. apply u8_id, u8_range. Qed.

#[export] Hint Rewrite u8_land255 u8_shiftr8 u8_lo8 u8_u8 : words.

Lemma Forall_u8_insert i v l : Forall is_u8 l -> Forall is_u8 (<[i := u8 v]> l).
Proof. intros. apply Forall_insert; [done|apply u8_range]. Qed.

Lemma Forall_u8_replicate n : Forall is_u8 (replicate n 0).
Proof. apply Forall_replicate. unfold is_u8; lia. Qed.

Lemma nth_u8 l i : Forall is_u8 l -> is_u8 (nth i l 0).
Proof.
  intros H. destruct (lt_dec i (length l)) as [Hi|Hi].
  - by apply Forall_nth.
  - rewrite nth_overflow by lia. unfold is_u8; lia.
Qed.
#[export] Hint Resolve Forall_u8_insert Forall_u8_replicate nth_u8 : words.

Lemma shiftl8_add a b : is_u8 b -> Z.shiftl a 8 + b = be16 a b.
Proof. intros Hb. by rewrite be16_add, Z.shiftl_mul_pow2. Qed.

Lemma nth_replicate0 i n : nth i (replicate n 0) 0 = 0.
Proof. revert i. induction n as [|n IH]; intros [|i]; simpl; auto. Qed.

Lemma map_nth_seq (l : list Z) m :
  (m <= length l)%nat -> map (fun k => nth k l 0) (seq 0 m) = take m l.
Proof.
  revert l. induction m as [|m IH]; intros [|x l] H; simpl in H; try done; [lia|].
  cbn [seq map]. rewrite <- seq_shift, map_map. cbn [nth]. by rewrite IH by lia.
Qed.
