(* ===== verification/Crc16.v ===== *)
(** * Crc16: the checksum, hash and hexadecimal helpers

    [modbus_slave/util_tool.c]: the table-driven Modbus CRC-16, the ELF hash
    that detects shared-memory updates, and the hexadecimal digit helpers.
    The CRC is proved equal to the bitwise CRC-16/MODBUS definition and to
    detect every corruption confined to one byte. *)

From S2P Require Import Prelude.
From Stdlib Require Import ZArith Lia List.
From stdpp Require Import base list numbers.
Open Scope Z_scope.

(** ** The two lookup tables ([util_tool.c], same tables in [modbus-rtu.c]) *)

Definition table_crc_hi : list Z :=
  [
   0x00; 0xC1; 0x81; 0x40; 0x01; 0xC0; 0x80; 0x41; 0x01; 0xC0; 0x80; 0x41; 0x00; 0xC1;
   0x81; 0x40; 0x01; 0xC0; 0x80; 0x41; 0x00; 0xC1; 0x81; 0x40; 0x00; 0xC1; 0x81; 0x40;
   0x01; 0xC0; 0x80; 0x41; 0x01; 0xC0; 0x80; 0x41; 0x00; 0xC1; 0x81; 0x40; 0x00; 0xC1;
   0x81; 0x40; 0x01; 0xC0; 0x80; 0x41; 0x00; 0xC1; 0x81; 0x40; 0x01; 0xC0; 0x80; 0x41;
   0x01; 0xC0; 0x80; 0x41; 0x00; 0xC1; 0x81; 0x40; 0x01; 0xC0; 0x80; 0x41; 0x00; 0xC1;
   0x81; 0x40; 0x00; 0xC1; 0x81; 0x40; 0x01; 0xC0; 0x80; 0x41; 0x00; 0xC1; 0x81; 0x40;
   0x01; 0xC0; 0x80; 0x41; 0x01; 0xC0; 0x80; 0x41; 0x00; 0xC1; 0x81; 0x40; 0x00; 0xC1;
   0x81; 0x40; 0x01; 0xC0; 0x80; 0x41; 0x01; 0xC0; 0x80; 0x41; 0x00; 0xC1; 0x81; 0x40;
   0x01; 0xC0; 0x80; 0x41; 0x00; 0xC1; 0x81; 0x40; 0x00; 0xC1; 0x81; 0x40; 0x01; 0xC0;
   0x80; 0x41; 0x01; 0xC0; 0x80; 0x41; 0x00; 0xC1; 0x81; 0x40; 0x00; 0xC1; 0x81; 0x40;
   0x01; 0xC0; 0x80; 0x41; 0x00; 0xC1; 0x81; 0x40; 0x01; 0xC0; 0x80; 0x41; 0x01; 0xC0;
   0x80; 0x41; 0x00; 0xC1; 0x81; 0x40; 0x00; 0xC1; 0x81; 0x40; 0x01; 0xC0; 0x80; 0x41;
   0x01; 0xC0; 0x80; 0x41; 0x00; 0xC1; 0x81; 0x40; 0x01; 0xC0; 0x80; 0x41; 0x00; 0xC1;
   0x81; 0x40; 0x00; 0xC1; 0x81; 0x40; 0x01; 0xC0; 0x80; 0x41; 0x00; 0xC1; 0x81; 0x40;
   0x01; 0xC0; 0x80; 0x41; 0x01; 0xC0; 0x80; 0x41; 0x00; 0xC1; 0x81; 0x40; 0x01; 0xC0;
   0x80; 0x41; 0x00; 0xC1; 0x81; 0x40; 0x00; 0xC1; 0x81; 0x40; 0x01; 0xC0; 0x80; 0x41;
   0x01; 0xC0; 0x80; 0x41; 0x00; 0xC1; 0x81; 0x40; 0x00; 0xC1; 0x81; 0x40; 0x01; 0xC0;
   0x80; 0x41; 0x00; 0xC1; 0x81; 0x40; 0x01; 0xC0; 0x80; 0x41; 0x01; 0xC0; 0x80; 0x41;
   0x00; 0xC1; 0x81; 0x40
  ].

Definition table_crc_lo : list Z :=
  [
   0x00; 0xC0; 0xC1; 0x01; 0xC3; 0x03; 0x02; 0xC2; 0xC6; 0x06; 0x07; 0xC7; 0x05; 0xC5;
   0xC4; 0x04; 0xCC; 0x0C; 0x0D; 0xCD; 0x0F; 0xCF; 0xCE; 0x0E; 0x0A; 0xCA; 0xCB; 0x0B;
   0xC9; 0x09; 0x08; 0xC8; 0xD8; 0x18; 0x19; 0xD9; 0x1B; 0xDB; 0xDA; 0x1A; 0x1E; 0xDE;
   0xDF; 0x1F; 0xDD; 0x1D; 0x1C; 0xDC; 0x14; 0xD4; 0xD5; 0x15; 0xD7; 0x17; 0x16; 0xD6;
   0xD2; 0x12; 0x13; 0xD3; 0x11; 0xD1; 0xD0; 0x10; 0xF0; 0x30; 0x31; 0xF1; 0x33; 0xF3;
   0xF2; 0x32; 0x36; 0xF6; 0xF7; 0x37; 0xF5; 0x35; 0x34; 0xF4; 0x3C; 0xFC; 0xFD; 0x3D;
   0xFF; 0x3F; 0x3E; 0xFE; 0xFA; 0x3A; 0x3B; 0xFB; 0x39; 0xF9; 0xF8; 0x38; 0x28; 0xE8;
   0xE9; 0x29; 0xEB; 0x2B; 0x2A; 0xEA; 0xEE; 0x2E; 0x2F; 0xEF; 0x2D; 0xED; 0xEC; 0x2C;
   0xE4; 0x24; 0x25; 0xE5; 0x27; 0xE7; 0xE6; 0x26; 0x22; 0xE2; 0xE3; 0x23; 0xE1; 0x21;
   0x20; 0xE0; 0xA0; 0x60; 0x61; 0xA1; 0x63; 0xA3; 0xA2; 0x62; 0x66; 0xA6; 0xA7; 0x67;
   0xA5; 0x65; 0x64; 0xA4; 0x6C; 0xAC; 0xAD; 0x6D; 0xAF; 0x6F; 0x6E; 0xAE; 0xAA; 0x6A;
   0x6B; 0xAB; 0x69; 0xA9; 0xA8; 0x68; 0x78; 0xB8; 0xB9; 0x79; 0xBB; 0x7B; 0x7A; 0xBA;
   0xBE; 0x7E; 0x7F; 0xBF; 0x7D; 0xBD; 0xBC; 0x7C; 0xB4; 0x74; 0x75; 0xB5; 0x77; 0xB7;
   0xB6; 0x76; 0x72; 0xB2; 0xB3; 0x73; 0xB1; 0x71; 0x70; 0xB0; 0x50; 0x90; 0x91; 0x51;
   0x93; 0x53; 0x52; 0x92; 0x96; 0x56; 0x57; 0x97; 0x55; 0x95; 0x94; 0x54; 0x9C; 0x5C;
   0x5D; 0x9D; 0x5F; 0x9F; 0x9E; 0x5E; 0x5A; 0x9A; 0x9B; 0x5B; 0x99; 0x59; 0x58; 0x98;
   0x88; 0x48; 0x49; 0x89; 0x4B; 0x8B; 0x8A; 0x4A; 0x4E; 0x8E; 0x8F; 0x4F; 0x8D; 0x4D;
   0x4C; 0x8C; 0x44; 0x84; 0x85; 0x45; 0x87; 0x47; 0x46; 0x86; 0x82; 0x42; 0x43; 0x83;
   0x41; 0x81; 0x80; 0x40
  ].

(** ** [util_tool_cal_crc16] *)

(** The loop state: the bytes [crc_hi] and [crc_lo]. *)
Record crc_state := CrcState { crc_hi : Z; crc_lo : Z }.

Definition crc_init : crc_state := CrcState 0xFF 0xFF.

(** One iteration of the [while] loop. *)
Definition crc_step (st : crc_state) (b : Z) : crc_state :=
  let i := Z.lxor (crc_lo st) b in
  CrcState (nth (Z.to_nat i) table_crc_lo 0)
           (Z.lxor (crc_hi st) (nth (Z.to_nat i) table_crc_hi 0)).

Definition crc_run (st : crc_state) (bytes : list Z) : crc_state :=
  fold_left crc_step bytes st.

Definition crc_value (st : crc_state) : Z := be16 (crc_hi st) (crc_lo st).

(** The checksum of all of [bytes]. *)
Definition crc_of (bytes : list Z) : Z := crc_value (crc_run crc_init bytes).

(** [None]: the loop would read past the end of the buffer. *)
Definition util_tool_cal_crc16 (buffer : list Z) (buffer_length : Z) : option Z :=
  if buffer_length <=? Z.of_nat (length buffer)
  then Some (crc_of (take (Z.to_nat buffer_length) buffer))
  else None.

(** ** [util_tool_cal_elfhash] *)

(** One iteration: shift in a byte, fold the top nibble back. *)
Definition elf_step (hash b : Z) : Z :=
  let hash := u32 (Z.shiftl hash 4 + Z.land b 0xFF) in
  let x := Z.land hash 0xF0000000 in
  let hash := if negb (x =? 0) then Z.lxor hash (Z.shiftr x 24) else hash in
  Z.land hash (Z.lxor x 0xFFFFFFFF).

(** A NULL input gives 0; [None] is a read past the end of the buffer. *)
Definition util_tool_cal_elfhash (inputData : option (list Z)) (n : Z) : option Z :=
  match inputData with
  | None => Some 0
  | Some bytes =>
      if n <=? Z.of_nat (length bytes)
      then Some (fold_left elf_step (take (Z.to_nat n) bytes) 0)
      else None
  end.

(** ** Hexadecimal digits *)

Definition util_tool_is_hex_char (kpch : Z) : bool :=
  if (48 <=? kpch) && (kpch <=? 57) then true
  else if (97 <=? kpch) && (kpch <=? 102) then true
  else if (65 <=? kpch) && (kpch <=? 70) then true
  else false.

Definition util_tool_hex_char_to_uint8 (kpch : Z) : Z :=
  if (48 <=? kpch) && (kpch <=? 57) then kpch - 48
  else if (97 <=? kpch) && (kpch <=? 102) then kpch - 97 + 10
  else if (65 <=? kpch) && (kpch <=? 70) then kpch - 65 + 10
  else 0.

(** ** Reference: CRC-16/MODBUS bit by bit

    Reflected polynomial 0xA001, initial value 0xFFFF, no final xor. *)

Definition crc_bit (c : Z) : Z :=
  if Z.odd c then Z.lxor (Z.shiftr c 1) 0xA001 else Z.shiftr c 1.

Definition crc_bit8 (c : Z) : Z :=
  crc_bit (crc_bit (crc_bit (crc_bit (crc_bit (crc_bit (crc_bit (crc_bit c))))))).

Definition crc16_ref (bytes : list Z) : Z :=
  fold_left (fun c b => crc_bit8 (Z.lxor c b)) bytes 0xFFFF.

(** ** Lemmas on the loop *)

Definition crc_wf (st : crc_state) : Prop := is_u8 (crc_hi st) /\ is_u8 (crc_lo st).

Lemma is_u8_lxor a b : is_u8 a -> is_u8 b -> is_u8 (Z.lxor a b).
Proof.
  intros Ha Hb. assert (0 <= Z.lxor a b) by (apply Z.lxor_nonneg; word_lia).
  split; [done|].
  destruct (Z.eq_dec (Z.lxor a b) 0) as [->|Hn]; [lia|].
  apply (Z.log2_lt_pow2 _ 8); [lia|].
  eapply Z.le_lt_trans; [apply Z.log2_lxor; word_lia|].
  assert (forall x, is_u8 x -> Z.log2 x < 8) as Hl.
  { intros x Hx. destruct (Z.eq_dec x 0) as [->|]; [done|].
    apply (Z.log2_lt_pow2 x 8); word_lia. }
  apply Z.max_lub_lt; auto.
Qed.
#[export] Hint Resolve is_u8_lxor : words.

Lemma table_lo_range b : is_u8 b -> is_u8 (nth (Z.to_nat b) table_crc_lo 0).
Proof.
  intros Hb. apply (bool_decide_eq_true_1 (is_u8 _)).
  generalize b Hb. apply (all_bytes (fun b => bool_decide (is_u8 (nth (Z.to_nat b) table_crc_lo 0)))).
  by vm_compute.
Qed.

Lemma table_hi_range b : is_u8 b -> is_u8 (nth (Z.to_nat b) table_crc_hi 0).
Proof.
  intros Hb. apply (bool_decide_eq_true_1 (is_u8 _)).
  generalize b Hb. apply (all_bytes (fun b => bool_decide (is_u8 (nth (Z.to_nat b) table_crc_hi 0)))).
  by vm_compute.
Qed.
#[export] Hint Resolve table_lo_range table_hi_range : words.

Lemma crc_step_wf st b : crc_wf st -> is_u8 b -> crc_wf (crc_step st b).
Proof. 
  intros [Hh Hl] Hb. unfold crc_step.
  split; cbn [crc_hi crc_lo]; auto 6 with words.
Qed.

Lemma crc_run_wf st bytes : crc_wf st -> Forall is_u8 bytes -> crc_wf (crc_run st bytes).
Proof.
  intros Hst Hb. revert st Hst. induction Hb; intros st Hst; [done|].
  simpl. apply IHHb. by apply crc_step_wf.
Qed.

Lemma crc_init_wf : crc_wf crc_init.
Proof. split; vm_compute; split; congruence. Qed.
#[export] Hint Resolve crc_step_wf crc_run_wf crc_init_wf : words.

Lemma crc_run_app st l1 l2 : crc_run st (l1 ++ l2) = crc_run (crc_run st l1) l2.
Proof. apply fold_left_app. Qed.

Lemma crc_of_range bytes : Forall is_u8 bytes -> is_u16 (crc_of bytes).
Proof.
  intros H. destruct (crc_run_wf crc_init bytes crc_init_wf H).
  by apply be16_range.
Qed.
#[export] Hint Resolve crc_of_range : words.

Lemma crc_value_inj st st' : crc_wf st -> crc_wf st' ->
  crc_value st = crc_value st' -> st = st'.
Proof.
  destruct st as [h l], st' as [h' l']; intros [Hh Hl] [Hh' Hl']; simpl in *.
  unfold crc_value; simpl. intros E. f_equal.
  - by rewrite <- (hi8_be16 h l), E, hi8_be16.
  - by rewrite <- (lo8_be16 h l), E, lo8_be16.
Qed.

(** ** Linearity of the bitwise step *)

Lemma lxor_swap a b c d :
  Z.lxor (Z.lxor a b) (Z.lxor c d) = Z.lxor (Z.lxor a c) (Z.lxor b d).
Proof.
  rewrite !Z.lxor_assoc. f_equal. rewrite <- !Z.lxor_assoc. f_equal.
  apply Z.lxor_comm.
Qed.

Lemma crc_bit_lxor a b : crc_bit (Z.lxor a b) = Z.lxor (crc_bit a) (crc_bit b).
Proof.
  unfold crc_bit. rewrite <- !Z.bit0_odd, Z.lxor_spec, Z.shiftr_lxor.
  destruct (Z.testbit a 0), (Z.testbit b 0); simpl.
  - by rewrite lxor_swap, Z.lxor_nilpotent, Z.lxor_0_r.
  - by rewrite !Z.lxor_assoc, (Z.lxor_comm (Z.shiftr b 1)).
  - by rewrite Z.lxor_assoc.
  - done.
Qed.

Lemma crc_bit8_lxor a b : crc_bit8 (Z.lxor a b) = Z.lxor (crc_bit8 a) (crc_bit8 b).
Proof. unfold crc_bit8. by rewrite !crc_bit_lxor. Qed.

(** Eight steps on a value whose low byte is zero just shift it down. *)
Lemma crc_bit_even a : crc_bit (2 * a) = a.
Proof.
  unfold crc_bit. rewrite Z.odd_mul. simpl.
  by rewrite Z.shiftr_div_pow2, Z.mul_comm, Z.div_mul.
Qed.

Lemma crc_bit8_high a : crc_bit8 (Z.shiftl a 8) = a.
Proof.
  rewrite Z.shiftl_mul_pow2 by lia.
  replace (a * 2 ^ 8) with (2 * (2 * (2 * (2 * (2 * (2 * (2 * (2 * a)))))))) by lia.
  unfold crc_bit8. by rewrite !crc_bit_even.
Qed.

(** The tables hold the bitwise remainder of every byte. *)
Lemma table_is_crc_bit8 b : is_u8 b ->
  crc_bit8 b = be16 (nth (Z.to_nat b) table_crc_lo 0) (nth (Z.to_nat b) table_crc_hi 0).
Proof.
  intros Hb. apply Z.eqb_eq. generalize b Hb.
  apply (all_bytes (fun b => crc_bit8 b =?
    be16 (nth (Z.to_nat b) table_crc_lo 0) (nth (Z.to_nat b) table_crc_hi 0))).
  by vm_compute.
Qed.

Lemma lor_lxor_byte a b : is_u8 b -> be16 a b = Z.lxor (Z.shiftl a 8) b.
Proof.
  intros Hb. unfold be16. symmetry. apply Z.lxor_lor.
  apply land_shiftl_low; [lia|]. exact Hb.
Qed.

(** One table step is eight bitwise steps. *)
Lemma crc_step_bit8 st b : crc_wf st -> is_u8 b ->
  crc_value (crc_step st b) = crc_bit8 (Z.lxor (crc_value st) b).
Proof.
  intros [Hh Hl] Hb. unfold crc_value, crc_step; cbn [crc_hi crc_lo].
  set (i := Z.lxor (crc_lo st) b). assert (is_u8 i) by (unfold i; auto with words).
  rewrite (lor_lxor_byte (crc_hi st)) by done.
  rewrite Z.lxor_assoc. fold i.
  rewrite crc_bit8_lxor, crc_bit8_high, table_is_crc_bit8 by done.
  rewrite !lor_lxor_byte by auto 6 with words.
  rewrite <- !Z.lxor_assoc.
  by rewrite (Z.lxor_comm (crc_hi st)), !Z.lxor_assoc, (Z.lxor_comm (crc_hi st)).
Qed.

Lemma crc_run_bit8 st bytes : crc_wf st -> Forall is_u8 bytes ->
  crc_value (crc_run st bytes) =
  fold_left (fun c b => crc_bit8 (Z.lxor c b)) bytes (crc_value st).
Proof.
  intros Hst Hb. revert st Hst. induction Hb as [|b l Hb Hl IH]; intros st Hst; [done|].
  simpl. by rewrite IH, crc_step_bit8 by auto with words.
Qed.

(** ** Injectivity: the step loses no information *)

(** The low-byte table is a permutation, so the index can be recovered. *)
Definition inv_lo (v : Z) : Z :=
  match find (fun b => nth (Z.to_nat b) table_crc_lo 0 =? v) (map Z.of_nat (seq 0 256)) with
  | Some b => b
  | None => 0
  end.

Lemma inv_lo_table b : is_u8 b -> inv_lo (nth (Z.to_nat b) table_crc_lo 0) = b.
Proof.
  intros Hb. apply Z.eqb_eq. generalize b Hb.
  apply (all_bytes (fun b => inv_lo (nth (Z.to_nat b) table_crc_lo 0) =? b)).
  by vm_compute.
Qed.

Lemma lxor_cancel_l a b c : Z.lxor a b = Z.lxor a c -> b = c.
Proof.
  intros E. rewrite <- (Z.lxor_0_l b), <- (Z.lxor_0_l c), <- (Z.lxor_nilpotent a).
  by rewrite !Z.lxor_assoc, E.
Qed.
Lemma lxor_cancel_r a b c : Z.lxor a c = Z.lxor b c -> a = b.
Proof. rewrite (Z.lxor_comm a), (Z.lxor_comm b). apply lxor_cancel_l. Qed.

Lemma crc_step_index st st' b b' :
  crc_wf st -> crc_wf st' -> is_u8 b -> is_u8 b' ->
  crc_step st b = crc_step st' b' ->
  Z.lxor (crc_lo st) b = Z.lxor (crc_lo st') b' /\ crc_hi st = crc_hi st'.
Proof.
  intros [Hh Hl] [Hh' Hl'] Hb Hb' E.
  pose proof (f_equal crc_hi E) as E1. pose proof (f_equal crc_lo E) as E2.
  unfold crc_step in E1, E2; cbn [crc_hi crc_lo] in E1, E2.
  apply (f_equal inv_lo) in E1. rewrite !inv_lo_table in E1 by auto with words.
  split; [done|]. rewrite E1 in E2. by apply lxor_cancel_r in E2.
Qed.

Lemma crc_step_inj_state st st' b :
  crc_wf st -> crc_wf st' -> is_u8 b -> crc_step st b = crc_step st' b -> st = st'.
Proof.
  intros H H' Hb E. apply crc_step_index in E as [E1 E2]; [|done..].
  apply lxor_cancel_r in E1. destruct st, st'; simpl in *; congruence.
Qed.

Lemma crc_step_inj_byte st b b' :
  crc_wf st -> is_u8 b -> is_u8 b' -> crc_step st b = crc_step st b' -> b = b'.
Proof.
  intros H Hb Hb' E. apply crc_step_index in E as [E1 _]; [|done..].
  by apply lxor_cancel_l in E1.
Qed.

Lemma crc_run_inj st st' bytes :
  crc_wf st -> crc_wf st' -> Forall is_u8 bytes ->
  crc_run st bytes = crc_run st' bytes -> st = st'.
Proof.
  intros Hst Hst' Hb. revert st st' Hst Hst'.
  induction Hb as [|b l Hb Hl IH]; intros st st' Hst Hst' E; [done|].
  simpl in E. apply IH in E; [|auto with words..].
  by apply crc_step_inj_state in E.
Qed.

(** ** Theorems *)

(** C40: the table-driven loop computes the CRC-16/MODBUS checksum as defined
    bit by bit (reflected polynomial 0xA001, initial value 0xFFFF), for every
    prefix of every byte buffer. *)
Theorem util_tool_cal_crc16_correct buffer n :
  Forall is_u8 buffer -> n <= Z.of_nat (length buffer) ->
  util_tool_cal_crc16 buffer n = Some (crc16_ref (take (Z.to_nat n) buffer)).
Proof.
  intros Hb Hn. unfold util_tool_cal_crc16.
  rewrite (proj2 (Z.leb_le _ _) Hn). f_equal. unfold crc_of, crc16_ref.
  rewrite crc_run_bit8; [done|apply crc_init_wf|by apply Forall_take].
Qed.

Lemma util_tool_cal_crc16_correct_witness :
  util_tool_cal_crc16 [0x01; 0x03; 0x00; 0x00; 0x00; 0x0A; 0xC5] 6 =
  Some (crc16_ref [0x01; 0x03; 0x00; 0x00; 0x00; 0x0A]).
Proof.
  apply (util_tool_cal_crc16_correct [0x01; 0x03; 0x00; 0x00; 0x00; 0x0A; 0xC5] 6).
  - repeat constructor; unfold is_u8; lia.
  - simpl; lia.
Defined.

(** Two messages that differ in exactly one byte have different checksums. *)
Lemma crc_byte_error pre b b' post :
  Forall is_u8 pre -> Forall is_u8 post -> is_u8 b -> is_u8 b' -> b <> b' ->
  crc_of (pre ++ b :: post) <> crc_of (pre ++ b' :: post).
Proof.
  intros Hpre Hpost Hb Hb' Hne E. apply Hne. unfold crc_of in E.
  assert (crc_wf (crc_run crc_init pre)) by auto with words.
  rewrite !crc_run_app in E. simpl in E.
  apply crc_value_inj in E; [|auto with words..].
  apply crc_run_inj in E; [|auto with words..].
  by apply crc_step_inj_byte in E.
Qed.
