(* ===== verification/Machine.v ===== *)
(** * Machine: the data of the slave and the monad its code runs in

    The structures of [app_mslave.h], [modbus.h] and [modbus-private.h] as
    records, the world a piece of code runs in (the controller, [errno], the
    mutexes this thread holds, the serial line, the remapping table), and a
    state monad whose failure is undefined behaviour or self-deadlock. *)

From S2P Require Import Prelude.
From Stdlib Require Import ZArith Lia List Bool.
From stdpp Require Import base list numbers.
Open Scope Z_scope.

(** ** Error codes ([modbus.h], [app_mslave.h]) *)

Definition EINVAL : Z := 22.
Definition ETIMEDOUT : Z := 110.
Definition ECONNRESET : Z := 104.

Definition MODBUS_ENOBASE : Z := 112345678.
Definition MODBUS_EXCEPTION_ILLEGAL_FUNCTION : Z := 1.
Definition MODBUS_EXCEPTION_ILLEGAL_DATA_ADDRESS : Z := 2.
Definition MODBUS_EXCEPTION_ILLEGAL_DATA_VALUE : Z := 3.
Definition MODBUS_EXCEPTION_SLAVE_OR_SERVER_FAILURE : Z := 4.
Definition MODBUS_EXCEPTION_NOT_DEFINED : Z := 9.
Definition MODBUS_EXCEPTION_GATEWAY_TARGET : Z := 11.
Definition MODBUS_EXCEPTION_MAX : Z := 12.
Definition EMBXILFUN : Z := MODBUS_ENOBASE + MODBUS_EXCEPTION_ILLEGAL_FUNCTION.
Definition EMBXILADD : Z := MODBUS_ENOBASE + MODBUS_EXCEPTION_ILLEGAL_DATA_ADDRESS.
Definition EMBXILVAL : Z := MODBUS_ENOBASE + MODBUS_EXCEPTION_ILLEGAL_DATA_VALUE.
Definition EMBXSFAIL : Z := MODBUS_ENOBASE + MODBUS_EXCEPTION_SLAVE_OR_SERVER_FAILURE.
Definition EMBXGTAR : Z := MODBUS_ENOBASE + MODBUS_EXCEPTION_GATEWAY_TARGET.
Definition EMBBADCRC : Z := EMBXGTAR + 1.
Definition EMBBADDATA : Z := EMBXGTAR + 2.

Definition MSLAVE_APP_ENOBASE : Z := MODBUS_ENOBASE + MODBUS_EXCEPTION_MAX + 0x10.
Definition ERR_NONE : Z := 0.
Definition ERR_UNKNOWN : Z := MSLAVE_APP_ENOBASE + 1.
Definition ERR_API_FAIL : Z := MSLAVE_APP_ENOBASE + 2.
Definition ERR_INVALID_PARAM : Z := MSLAVE_APP_ENOBASE + 3.
Definition ERR_RES_UNAVAILABLE : Z := MSLAVE_APP_ENOBASE + 4.

(** ** Sizes *)

Definition SZ_RTU_MSGBUF : Z := 256.
Definition MAX_MODBUS_SERIAL_ADU : Z := 256.
Definition MIN_RTU_PKT : Z := 4.
Definition MAX_COMM_EVENT_LOG : Z := 64.
Definition MAX_DIAG_CNT : Z := 0xFFFF.
Definition SZ_FREADING_BUFFER : Z := 2028 * 2.
Definition VAL_BUF_NODE_LIFE : Z := 15.
Definition MAX_REG_MAPPING : Z := 1024.
Definition BULLET_GW_SENSOR_NUM_MAX : Z := 40.
Definition MODBUS_RTU_CHECKSUM_LENGTH : Z := 2.

(** ** Enumerations ([app_mslave.h]) *)

Inductive slave_mode := SMODE_UNKNOWN | SMODE_ACTIVE | SMODE_LISTEN_ONLY | SMODE_MAX.
Inductive port_parity := PARITY_NONE | PARITY_EVEN | PARITY_ODD.
Inductive stop_bit := SBIT_1 | SBIT_2 | SBIT_1_5.
Inductive register_mode := REG_MD_EXTENSIBLE | REG_MD_EFFICIENT | REG_MD_UNKNOWN.
Inductive mbus_byte_oder := MBUS_BORDER_ABCD | MBUS_BORDER_DCBA | MBUS_BORDER_BADC | MBUS_BORDER_CDAB.
Inductive addr_group :=
  | ADDR_GP_UNKNOWN | ADDR_GP_COIL | ADDR_GP_DISCRETE_INPUT | ADDR_GP_INPUT_REGISTER
  | ADDR_GP_HOLDING_REGISTER | ADDR_GP_REPORT_SLAVE_ID | ADDR_GP_FIFO_QUEUE
  | ADDR_GP_FILE_RECORD | ADDR_GP_DIAGNOSTICS | ADDR_GP_COM_EVENT_COUNTER
  | ADDR_GP_COM_EVENT_LOG | ADDR_GP_DEV_ID.
Inductive sensor_type := STYPE_UNKNOWN | STYPE_PREDICT | STYPE_INSIGHT_T | STYPE_GW.

#[global] Instance slave_mode_eq_dec : EqDecision slave_mode.
Proof. solve_decision. Defined.
#[global] Instance port_parity_eq_dec : EqDecision port_parity.
Proof. solve_decision. Defined.
#[global] Instance stop_bit_eq_dec : EqDecision stop_bit.
Proof. solve_decision. Defined.
#[global] Instance register_mode_eq_dec : EqDecision register_mode.
Proof. solve_decision. Defined.
#[global] Instance mbus_byte_oder_eq_dec : EqDecision mbus_byte_oder.
Proof. solve_decision. Defined.

(** The values the enumerators have in C. *)
Definition parity_code (p : port_parity) : Z :=
  match p with PARITY_NONE => 78 | PARITY_EVEN => 69 | PARITY_ODD => 79 end.
Definition stop_bit_code (s : stop_bit) : Z :=
  match s with SBIT_1 => 1 | SBIT_2 => 2 | SBIT_1_5 => 3 end.

(** ** Structures *)

(** [struct port_conf_info] *)
Record port_conf_info := PortConf {
  pc_baudrate : Z; pc_parity : port_parity; pc_stopbit : stop_bit;
  pc_slaveID : Z; pc_reg_md : register_mode
}.

(** [struct counter_log_register_set] *)
Record counter_log_register_set := StateSet {
  diag_cnt_bus_message : Z;
  diag_cnt_bus_comm_error : Z;
  diag_cnt_slave_exception_error : Z;
  diag_cnt_slave_message : Z;
  diag_cnt_slave_no_response : Z;
  diag_cnt_slave_nak : Z;
  diag_cnt_slave_busy : Z;
  diag_cnt_bus_charac_overrun : Z;
  diag_regisger : Z;
  cnt_comm_event : Z;
  log_comm_event : list Z;
  log_event_cnt : Z;
  log_event_idx : Z;
  exception_status : Z
}.

(** [struct freading_buffer] *)
Record freading_buffer := FBuf {
  fb_file_len : Z; fb_tstamp : Z; fb_file_no : Z;
  fb_record_no : Z; fb_record_len : Z; fb_dtbuf : list Z
}.

(** [modbus_mapping_t]; a NULL table is the empty list. *)
Record modbus_mapping_t := Mapping {
  nb_bits : Z; start_bits : Z;
  nb_input_bits : Z; start_input_bits : Z;
  nb_input_registers : Z; start_input_registers : Z;
  nb_registers : Z; start_registers : Z;
  tab_bits : list Z; tab_input_bits : list Z;
  tab_input_registers : list Z; tab_registers : list Z
}.

(** The fields of [modbus_t] and of its RTU back end that the slave uses. *)
Record modbus_t := Ctx {
  mb_slave : Z;
  mb_connected : bool;
  confirmation_to_ignore : bool;
  rtu_baud : Z; rtu_parity : Z; rtu_data_bit : Z; rtu_stop_bit : Z
}.

(** [gwConfig_gwConfig_modbusConfig_t] *)
Record modbusConfig_t := ModbusConfig {
  baudrateSlave : Z; slaveAddrSlave : Z; paritySlave : Z; stopSlave : Z; registerMode : Z
}.

(** The part of [gatewayTableData_t] the slave reads. *)
Record gatewayTableData_t := GwConf {
  lastEditTimeS : Z; gw_nameId : Z; modbusConfig : modbusConfig_t; gw_description : list Z
}.

(** The part of [deviceTableData_t] the slave reads. *)
Record deviceTableData_t := DevData { dev_nameId : Z; dev_description : list Z; dev_name : list Z }.

(** [struct register_mapping_info] *)
Record register_mapping_info := RegMapInfo {
  rm_flg : bool; rm_offset : Z; rm_mapping_num : Z;
  rm_src : list Z; rm_src_cnt : Z; rm_des : list Z; rm_des_cnt : Z;
  rm_max_reg_addr : Z; rm_min_reg_addr : Z
}.

(** [struct modbus_slave_controller]; a queue is the list of its nodes. *)
Record controller := Controller {
  smode : slave_mode;
  slave_id : Z;
  mctx : option modbus_t;
  port_conf : port_conf_info;
  to_update_mslave_req : bool;
  mbus_border : mbus_byte_oder;
  mapping_queue : list modbus_mapping_t;
  state_set : counter_log_register_set;
  ch_input_delimiter : Z;
  freading_buf_queue : list freading_buffer;
  gwconf : gatewayTableData_t;
  gwconf_hash : Z;
  to_force_gwconf_update : bool;
  dev_array : list deviceTableData_t;
  dev_hash : Z;
  to_force_dev_update : bool;
  sdata_hash : Z;
  to_force_sdata_update : bool
}.

(** Assignments to one field of the controller. *)
Definition with_smode (x : slave_mode) (c : controller) : controller :=
    Controller x (slave_id c) (mctx c) (port_conf c) (to_update_mslave_req c) (mbus_border c)
    (mapping_queue c) (state_set c) (ch_input_delimiter c) (freading_buf_queue c) (gwconf c)
    (gwconf_hash c) (to_force_gwconf_update c) (dev_array c) (dev_hash c) (to_force_dev_update c)
    (sdata_hash c) (to_force_sdata_update c).
Definition with_slave_id (x : Z) (c : controller) : controller :=
    Controller (smode c) x (mctx c) (port_conf c) (to_update_mslave_req c) (mbus_border c)
    (mapping_queue c) (state_set c) (ch_input_delimiter c) (freading_buf_queue c) (gwconf c)
    (gwconf_hash c) (to_force_gwconf_update c) (dev_array c) (dev_hash c) (to_force_dev_update c)
    (sdata_hash c) (to_force_sdata_update c).
Definition with_mctx (x : option modbus_t) (c : controller) : controller :=
    Controller (smode c) (slave_id c) x (port_conf c) (to_update_mslave_req c) (mbus_border c)
    (mapping_queue c) (state_set c) (ch_input_delimiter c) (freading_buf_queue c) (gwconf c)
    (gwconf_hash c) (to_force_gwconf_update c) (dev_array c) (dev_hash c) (to_force_dev_update c)
    (sdata_hash c) (to_force_sdata_update c).
Definition with_port_conf (x : port_conf_info) (c : controller) : controller :=
    Controller (smode c) (slave_id c) (mctx c) x (to_update_mslave_req c) (mbus_border c)
    (mapping_queue c) (state_set c) (ch_input_delimiter c) (freading_buf_queue c) (gwconf c)
    (gwconf_hash c) (to_force_gwconf_update c) (dev_array c) (dev_hash c) (to_force_dev_update c)
    (sdata_hash c) (to_force_sdata_update c).
Definition with_to_update_mslave_req (x : bool) (c : controller) : controller :=
    Controller (smode c) (slave_id c) (mctx c) (port_conf c) x (mbus_border c) (mapping_queue c)
    (state_set c) (ch_input_delimiter c) (freading_buf_queue c) (gwconf c) (gwconf_hash c)
    (to_force_gwconf_update c) (dev_array c) (dev_hash c) (to_force_dev_update c) (sdata_hash c)
    (to_force_sdata_update c).
Definition with_mapping_queue (x : list modbus_mapping_t) (c : controller) : controller :=
    Controller (smode c) (slave_id c) (mctx c) (port_conf c) (to_update_mslave_req c) (mbus_border
    c) x (state_set c) (ch_input_delimiter c) (freading_buf_queue c) (gwconf c) (gwconf_hash c)
    (to_force_gwconf_update c) (dev_array c) (dev_hash c) (to_force_dev_update c) (sdata_hash c)
    (to_force_sdata_update c).
Definition with_state_set (x : counter_log_register_set) (c : controller) : controller :=
    Controller (smode c) (slave_id c) (mctx c) (port_conf c) (to_update_mslave_req c) (mbus_border
    c) (mapping_queue c) x (ch_input_delimiter c) (freading_buf_queue c) (gwconf c) (gwconf_hash
    c) (to_force_gwconf_update c) (dev_array c) (dev_hash c) (to_force_dev_update c) (sdata_hash
    c) (to_force_sdata_update c).
Definition with_ch_input_delimiter (x : Z) (c : controller) : controller :=
    Controller (smode c) (slave_id c) (mctx c) (port_conf c) (to_update_mslave_req c) (mbus_border
    c) (mapping_queue c) (state_set c) x (freading_buf_queue c) (gwconf c) (gwconf_hash c)
    (to_force_gwconf_update c) (dev_array c) (dev_hash c) (to_force_dev_update c) (sdata_hash c)
    (to_force_sdata_update c).
Definition with_freading_buf_queue (x : list freading_buffer) (c : controller) : controller :=
    Controller (smode c) (slave_id c) (mctx c) (port_conf c) (to_update_mslave_req c) (mbus_border
    c) (mapping_queue c) (state_set c) (ch_input_delimiter c) x (gwconf c) (gwconf_hash c)
    (to_force_gwconf_update c) (dev_array c) (dev_hash c) (to_force_dev_update c) (sdata_hash c)
    (to_force_sdata_update c).
Definition with_gwconf (x : gatewayTableData_t) (c : controller) : controller :=
    Controller (smode c) (slave_id c) (mctx c) (port_conf c) (to_update_mslave_req c) (mbus_border
    c) (mapping_queue c) (state_set c) (ch_input_delimiter c) (freading_buf_queue c) x
    (gwconf_hash c) (to_force_gwconf_update c) (dev_array c) (dev_hash c) (to_force_dev_update c)
    (sdata_hash c) (to_force_sdata_update c).
Definition with_gwconf_hash (x : Z) (c : controller) : controller :=
    Controller (smode c) (slave_id c) (mctx c) (port_conf c) (to_update_mslave_req c) (mbus_border
    c) (mapping_queue c) (state_set c) (ch_input_delimiter c) (freading_buf_queue c) (gwconf c) x
    (to_force_gwconf_update c) (dev_array c) (dev_hash c) (to_force_dev_update c) (sdata_hash c)
    (to_force_sdata_update c).
Definition with_to_force_gwconf_update (x : bool) (c : controller) : controller :=
    Controller (smode c) (slave_id c) (mctx c) (port_conf c) (to_update_mslave_req c) (mbus_border
    c) (mapping_queue c) (state_set c) (ch_input_delimiter c) (freading_buf_queue c) (gwconf c)
    (gwconf_hash c) x (dev_array c) (dev_hash c) (to_force_dev_update c) (sdata_hash c)
    (to_force_sdata_update c).
Definition with_dev_array (x : list deviceTableData_t) (c : controller) : controller :=
    Controller (smode c) (slave_id c) (mctx c) (port_conf c) (to_update_mslave_req c) (mbus_border
    c) (mapping_queue c) (state_set c) (ch_input_delimiter c) (freading_buf_queue c) (gwconf c)
    (gwconf_hash c) (to_force_gwconf_update c) x (dev_hash c) (to_force_dev_update c) (sdata_hash
    c) (to_force_sdata_update c).
Definition with_dev_hash (x : Z) (c : controller) : controller :=
    Controller (smode c) (slave_id c) (mctx c) (port_conf c) (to_update_mslave_req c) (mbus_border
    c) (mapping_queue c) (state_set c) (ch_input_delimiter c) (freading_buf_queue c) (gwconf c)
    (gwconf_hash c) (to_force_gwconf_update c) (dev_array c) x (to_force_dev_update c) (sdata_hash
    c) (to_force_sdata_update c).
Definition with_to_force_dev_update (x : bool) (c : controller) : controller :=
    Controller (smode c) (slave_id c) (mctx c) (port_conf c) (to_update_mslave_req c) (mbus_border
    c) (mapping_queue c) (state_set c) (ch_input_delimiter c) (freading_buf_queue c) (gwconf c)
    (gwconf_hash c) (to_force_gwconf_update c) (dev_array c) (dev_hash c) x (sdata_hash c)
    (to_force_sdata_update c).
Definition with_sdata_hash (x : Z) (c : controller) : controller :=
    Controller (smode c) (slave_id c) (mctx c) (port_conf c) (to_update_mslave_req c) (mbus_border
    c) (mapping_queue c) (state_set c) (ch_input_delimiter c) (freading_buf_queue c) (gwconf c)
    (gwconf_hash c) (to_force_gwconf_update c) (dev_array c) (dev_hash c) (to_force_dev_update c)
    x (to_force_sdata_update c).
Definition with_to_force_sdata_update (x : bool) (c : controller) : controller :=
    Controller (smode c) (slave_id c) (mctx c) (port_conf c) (to_update_mslave_req c) (mbus_border
    c) (mapping_queue c) (state_set c) (ch_input_delimiter c) (freading_buf_queue c) (gwconf c)
    (gwconf_hash c) (to_force_gwconf_update c) (dev_array c) (dev_hash c) (to_force_dev_update c)
    (sdata_hash c) x.

(** ** The world *)

Inductive mutex :=
  mtx_for_port_conf | mtx_for_mapping_queue | mtx_for_state_set | mtx_for_freading_buf_queue.

Definition mutex_eqb (a b : mutex) : bool :=
  match a, b with
  | mtx_for_port_conf, mtx_for_port_conf => true
  | mtx_for_mapping_queue, mtx_for_mapping_queue => true
  | mtx_for_state_set, mtx_for_state_set => true
  | mtx_for_freading_buf_queue, mtx_for_freading_buf_queue => true
  | _, _ => false
  end.

Definition holds (m : mutex) (h : list mutex) : bool := existsb (mutex_eqb m) h.
Definition drop_mutex (m : mutex) (h : list mutex) : list mutex :=
  List.filter (fun x => negb (mutex_eqb m x)) h.

(** What [write(2)] does with a frame: takes all of it, takes some bytes, fails. *)
Inductive write_result := WAll | WSome (n : Z) | WErr (e : Z).

(** What arrives on the serial line next: a burst of bytes, a silence longer
    than any timeout in force, an error of [select] or [read], or a hang-up,
    which is a [read] that returns 0. A line with no event left has hung up. *)
Inductive rx_event := RxBytes (bytes : list Z) | RxSilence | RxError (e : Z) | RxEof.

(** The operating system: each call that depends on it takes the answer of
    the current tick and advances the tick. *)
Record oracle := Oracle {
  o_time : nat -> Z;             (* time(NULL) *)
  o_write : nat -> write_result; (* write(2) *)
  o_malloc : nat -> bool;        (* does the allocation succeed? *)
  o_trylock : nat -> bool;       (* is the mutex free of other threads? *)
  o_connect : nat -> bool        (* does modbus_connect succeed? *)
}.

Record world := World {
  ctr : controller;
  errno : Z;
  held : list mutex;         (* the mutexes this thread holds *)
  tx : list (list Z);        (* the frames handed to write(2), oldest first *)
  rx_pending : list Z;       (* received, not read yet *)
  rx_events : list rx_event; (* what will arrive *)
  remap : register_mapping_info;
  os : oracle;
  tick : nat
}.

Definition set_ctr (c : controller) (w : world) : world :=
  World c (errno w) (held w) (tx w) (rx_pending w) (rx_events w) (remap w) (os w) (tick w).
Definition set_errno (e : Z) (w : world) : world :=
  World (ctr w) e (held w) (tx w) (rx_pending w) (rx_events w) (remap w) (os w) (tick w).
Definition set_held (h : list mutex) (w : world) : world :=
  World (ctr w) (errno w) h (tx w) (rx_pending w) (rx_events w) (remap w) (os w) (tick w).
Definition set_tx (t : list (list Z)) (w : world) : world :=
  World (ctr w) (errno w) (held w) t (rx_pending w) (rx_events w) (remap w) (os w) (tick w).
Definition set_rx (p : list Z) (e : list rx_event) (w : world) : world :=
  World (ctr w) (errno w) (held w) (tx w) p e (remap w) (os w) (tick w).
Definition set_remap (r : register_mapping_info) (w : world) : world :=
  World (ctr w) (errno w) (held w) (tx w) (rx_pending w) (rx_events w) r (os w) (tick w).
Definition next_tick (w : world) : world :=
  World (ctr w) (errno w) (held w) (tx w) (rx_pending w) (rx_events w) (remap w) (os w) (S (tick w)).

(** ** The monad *)

(** [None]: undefined behaviour (an access outside an object, a NULL
    dereference) or a thread that waits for a mutex it holds itself. *)
Definition M (A : Type) : Type := world -> option (A * world).

Definition ret {A} (x : A) : M A := fun w => Some (x, w).
Definition bind {A B} (m : M A) (k : A -> M B) : M B :=
  fun w => match m w with Some (x, w') => k x w' | None => None end.
Definition undefined {A} : M A := fun _ => None.

Declare Scope m_scope.
Delimit Scope m_scope with m.
Notation "'let*' x := m 'in' k" := (bind m (fun x => k))
  (at level 10, x name, m at level 100, k at level 200) : m_scope.
Notation "m ;; k" := (bind m (fun _ => k)) (at level 100, right associativity) : m_scope.
Open Scope m_scope.

Definition get_ctr : M controller := fun w => Some (ctr w, w).
Definition put_ctr (c : controller) : M unit := fun w => Some (tt, set_ctr c w).
Definition modify_ctr (f : controller -> controller) : M unit :=
  fun w => Some (tt, set_ctr (f (ctr w)) w).
Definition get_errno : M Z := fun w => Some (errno w, w).
Definition put_errno (e : Z) : M unit := fun w => Some (tt, set_errno e w).
Definition get_remap : M register_mapping_info := fun w => Some (remap w, w).
Definition put_remap (r : register_mapping_info) : M unit := fun w => Some (tt, set_remap r w).

Definition ask {A} (f : oracle -> nat -> A) : M A :=
  fun w => Some (f (os w) (tick w), next_tick w).
Definition time_now : M Z := ask o_time.
Definition malloc_ok : M bool := ask o_malloc.

(** A pointer to the controller: the program has one controller. *)
Inductive ptr := NULL | CTR.
Definition is_null (p : ptr) : bool := match p with NULL => true | CTR => false end.
Definition deref (p : ptr) : M controller :=
  match p with NULL => undefined | CTR => get_ctr end.

(** [pthread_mutex_lock(&p->m)]: the default mutex type deadlocks when the
    caller holds it already. Waiting for another thread is not visible. *)
Definition pthread_mutex_lock (p : ptr) (m : mutex) : M unit :=
  fun w =>
    if is_null p then None
    else if holds m (held w) then None
    else Some (tt, set_held (m :: held w) w).

Definition pthread_mutex_unlock (p : ptr) (m : mutex) : M unit :=
  fun w =>
    if is_null p then None
    else if holds m (held w) then Some (tt, set_held (drop_mutex m (held w)) w)
    else None.

(** 0 when the mutex was free. *)
Definition pthread_mutex_trylock (p : ptr) (m : mutex) : M bool :=
  fun w =>
    if is_null p then None
    else if holds m (held w) then Some (false, w)
    else if o_trylock (os w) (tick w)
         then Some (true, set_held (m :: held w) (next_tick w))
         else Some (false, next_tick w).

(** ** Buffers *)

(** [buf[i]] *)
Definition rd (buf : list Z) (i : Z) : M Z :=
  if (0 <=? i) && (i <? Z.of_nat (length buf))
  then ret (nth (Z.to_nat i) buf 0)
  else undefined.

(** [buf[i] = v] for a buffer of bytes *)
Definition wr (buf : list Z) (i v : Z) : M (list Z) :=
  if (0 <=? i) && (i <? Z.of_nat (length buf))
  then ret (<[Z.to_nat i := u8 v]> buf)
  else undefined.

(** The [n] bytes of [l] from index [i]. *)
Definition slice (l : list Z) (i n : Z) : list Z :=
  take (Z.to_nat n) (drop (Z.to_nat i) l).

(** [memcpy(&dst[i], &src[j], n)] *)
Definition memcpy (dst : list Z) (i : Z) (src : list Z) (j n : Z) : M (list Z) :=
  if (0 <=? i) && (0 <=? j) && (0 <=? n) && (i + n <=? Z.of_nat (length dst))
     && (j + n <=? Z.of_nat (length src))
  then ret (take (Z.to_nat i) dst ++ slice src j n ++ drop (Z.to_nat (i + n)) dst)
  else undefined.

#[global] Arguments rd : simpl never.
#[global] Arguments wr : simpl never.
#[global] Arguments memcpy : simpl never.
#[global] Arguments slice : simpl never.

Definition zeros (n : Z) : list Z := replicate (Z.to_nat n) 0.

(** ** Weakest preconditions

    [wp m Q w]: [m] run in [w] is defined and its result satisfies [Q]. *)

Definition wp {A} (m : M A) (Q : A -> world -> Prop) (w : world) : Prop :=
  match m w with Some (x, w') => Q x w' | None => False end.

Lemma wp_eq {A} (m : M A) Q w x w' : m w = Some (x, w') -> Q x w' -> wp m Q w.
Proof. unfold wp. by intros ->. Qed.

Lemma wp_elim {A} (m : M A) Q w : wp m Q w -> exists x w', m w = Some (x, w') /\ Q x w'.
Proof. unfold wp. destruct (m w) as [[x w']|]; [eauto|done]. Qed.

Lemma wp_bind {A B} (m : M A) (k : A -> M B) Q w :
  wp m (fun x w' => wp (k x) Q w') w -> wp (bind m k) Q w.
Proof. unfold wp, bind. by destruct (m w) as [[x w']|]. Qed.

Lemma wp_mono {A} (m : M A) (Q Q' : A -> world -> Prop) w :
  wp m Q w -> (forall x w', Q x w' -> Q' x w') -> wp m Q' w.
Proof. unfold wp. destruct (m w) as [[x w']|]; auto. Qed.

Lemma wp_ret {A} (x : A) Q w : Q x w -> wp (ret x) Q w.
Proof. done. Qed.

Lemma wp_get_ctr Q w : Q (ctr w) w -> wp get_ctr Q w.
Proof. done. Qed.
Lemma wp_deref Q w : Q (ctr w) w -> wp (deref CTR) Q w.
Proof. done. Qed.
Lemma wp_modify_ctr f Q w : Q tt (set_ctr (f (ctr w)) w) -> wp (modify_ctr f) Q w.
Proof. done. Qed.
Lemma wp_get_errno Q w : Q (errno w) w -> wp get_errno Q w.
Proof. done. Qed.
Lemma wp_put_errno e Q w : Q tt (set_errno e w) -> wp (put_errno e) Q w.
Proof. done. Qed.
Lemma wp_get_remap Q w : Q (remap w) w -> wp get_remap Q w.
Proof. done. Qed.
Lemma wp_ask {A} (f : oracle -> nat -> A) Q w :
  Q (f (os w) (tick w)) (next_tick w) -> wp (ask f) Q w.
Proof. done. Qed.

Lemma drop_mutex_absent m h : holds m h = false -> drop_mutex m h = h.
Proof.
  induction h as [|x h IH]; simpl; [done|]. intros E.
  apply orb_false_iff in E as [E1 E2]. rewrite E1. simpl. by rewrite IH.
Qed.

Lemma mutex_eqb_refl m : mutex_eqb m m = true.
Proof. by destruct m. Qed.

Lemma drop_mutex_held m h : holds m h = false -> drop_mutex m (m :: h) = h.
Proof. intros E. simpl. rewrite mutex_eqb_refl. simpl. by apply drop_mutex_absent. Qed.

Lemma holds_cons m h : holds m (m :: h) = true.
Proof. simpl. by rewrite mutex_eqb_refl. Qed.

Lemma wp_lock m Q w :
  holds m (held w) = false -> Q tt (set_held (m :: held w) w) ->
  wp (pthread_mutex_lock CTR m) Q w.
Proof. intros H HQ. unfold wp, pthread_mutex_lock; simpl. by rewrite H. Qed.

Lemma wp_unlock m Q w :
  holds m (held w) = true -> Q tt (set_held (drop_mutex m (held w)) w) ->
  wp (pthread_mutex_unlock CTR m) Q w.
Proof. intros H HQ. unfold wp, pthread_mutex_unlock; simpl. by rewrite H. Qed.

Lemma wp_trylock m Q w :
  holds m (held w) = false ->
  (if o_trylock (os w) (tick w) then Q true (set_held (m :: held w) (next_tick w))
   else Q false (next_tick w)) ->
  wp (pthread_mutex_trylock CTR m) Q w.
Proof.
  intros H HQ. unfold wp, pthread_mutex_trylock; simpl. rewrite H.
  by destruct (o_trylock _ _).
Qed.

Lemma in_bounds_true buf i :
  0 <= i < Z.of_nat (length buf) -> (0 <=? i) && (i <? Z.of_nat (length (buf : list Z))) = true.
Proof. intros H. rewrite andb_true_iff, Z.leb_le, Z.ltb_lt. lia. Qed.

Lemma rd_eq buf i w : 0 <= i < Z.of_nat (length buf) ->
  rd buf i w = Some (nth (Z.to_nat i) buf 0, w).
Proof. intros H. unfold rd. by rewrite in_bounds_true. Qed.

Lemma wr_eq buf i v w : 0 <= i < Z.of_nat (length buf) ->
  wr buf i v w = Some (<[Z.to_nat i := u8 v]> buf, w).
Proof. intros H. unfold wr. by rewrite in_bounds_true. Qed.

Lemma memcpy_eq dst i src j n w :
  0 <= i -> 0 <= j -> 0 <= n -> i + n <= Z.of_nat (length dst) -> j + n <= Z.of_nat (length src) ->
  memcpy dst i src j n w =
  Some (take (Z.to_nat i) dst ++ slice src j n ++ drop (Z.to_nat (i + n)) dst, w).
Proof.
  intros. unfold memcpy.
  rewrite !(proj2 (Z.leb_le _ _)) by lia. done.
Qed.

Lemma bind_eq {A B} (m : M A) (k : A -> M B) w x w' :
  m w = Some (x, w') -> bind m k w = k x w'.
Proof. unfold bind. by intros ->. Qed.

Lemma wr_here done x rest v w n : n = Z.of_nat (length done) ->
  wr (done ++ x :: rest) n v w = Some (done ++ u8 v :: rest, w).
Proof.
  intros ->. rewrite wr_eq by (rewrite length_app; simpl; lia).
  by rewrite Nat2Z.id, insert_app_here.
Qed.

Lemma wp_rd buf i Q w : 0 <= i < Z.of_nat (length buf) ->
  Q (nth (Z.to_nat i) buf 0) w -> wp (rd buf i) Q w.
Proof. intros H. by apply wp_eq, rd_eq. Qed.
Lemma wp_wr buf i v Q w : 0 <= i < Z.of_nat (length buf) ->
  Q (<[Z.to_nat i := u8 v]> buf) w -> wp (wr buf i v) Q w.
Proof. intros H. by apply wp_eq, wr_eq. Qed.
Lemma wp_memcpy dst i src j n Q w :
  0 <= i -> 0 <= j -> 0 <= n -> i + n <= Z.of_nat (length dst) -> j + n <= Z.of_nat (length src) ->
  Q (take (Z.to_nat i) dst ++ slice src j n ++ drop (Z.to_nat (i + n)) dst) w ->
  wp (memcpy dst i src j n) Q w.
Proof. intros. eapply wp_eq; [by apply memcpy_eq|done]. Qed.

Lemma length_slice l i n :
  0 <= i -> 0 <= n -> i + n <= Z.of_nat (length l) -> Z.of_nat (length (slice l i n)) = n.
Proof. intros. unfold slice. rewrite length_take, length_drop. lia. Qed.

Lemma length_blit dst i (mid : list Z) n :
  0 <= i -> Z.of_nat (length mid) = n -> i + n <= Z.of_nat (length dst) ->
  length (take (Z.to_nat i) dst ++ mid ++ drop (Z.to_nat (i + n)) dst) = length dst.
Proof. intros. rewrite !length_app, length_take, length_drop. lia. Qed.

(** One step of symbolic execution of the basic operations. *)
Ltac wp_step :=
  lazymatch goal with
  | |- wp (bind _ _) _ _ => apply wp_bind
  | |- wp (ret _) _ _ => apply wp_ret
  | |- wp get_ctr _ _ => apply wp_get_ctr
  | |- wp (deref CTR) _ _ => apply wp_deref
  | |- wp (modify_ctr _) _ _ => apply wp_modify_ctr
  | |- wp get_errno _ _ => apply wp_get_errno
  | |- wp (put_errno _) _ _ => apply wp_put_errno
  | |- wp get_remap _ _ => apply wp_get_remap
  | |- wp time_now _ _ => apply wp_ask
  | |- wp malloc_ok _ _ => apply wp_ask
  | |- wp (ask _) _ _ => apply wp_ask
  | |- wp (pthread_mutex_lock CTR _) _ _ => apply wp_lock; [solve [simpl; try done; eauto]|]
  | |- wp (pthread_mutex_unlock CTR _) _ _ => apply wp_unlock; [solve [simpl; try done; eauto]|]
  end.
Ltac wp_steps := repeat (wp_step; cbv beta).
