(* ===== verification/Libmodbus.v ===== *)
(** * Libmodbus: the functions of the bundled libmodbus the slave calls

    [libmodbus-3.1.11/src/modbus.c] and [modbus-rtu.c] (the copy in the
    repository, with its local extensions for function codes 0x08 and 0x14):
    sending, the framing state machine of the receiver, the CRC check and
    slave filter, replies to the four read functions, exception replies. *)

From S2P Require Import Prelude Crc16 Machine.
From Stdlib Require Import ZArith Lia ZifyBool List Bool.
From stdpp Require Import base list numbers.
Open Scope Z_scope.
Open Scope m_scope.

Definition MODBUS_BROADCAST_ADDRESS : Z := 0.
Definition MODBUS_RTU_MAX_ADU_LENGTH : Z := 256.
Definition MODBUS_RTU_HEADER_LENGTH : Z := 1.
Definition MAX_MESSAGE_LENGTH : Z := 260.
Definition MODBUS_MAX_READ_BITS : Z := 2000.
Definition MODBUS_MAX_READ_REGISTERS : Z := 125.
Definition EBADF : Z := 9.

Definition MODBUS_FC_READ_COILS : Z := 0x01.
Definition MODBUS_FC_READ_DISCRETE_INPUTS : Z := 0x02.
Definition MODBUS_FC_READ_HOLDING_REGISTERS : Z := 0x03.
Definition MODBUS_FC_READ_INPUT_REGISTERS : Z := 0x04.
Definition MODBUS_FC_WRITE_SINGLE_COIL : Z := 0x05.
Definition MODBUS_FC_WRITE_SINGLE_REGISTER : Z := 0x06.
Definition MODBUS_FC_READ_EXCEPTION_STATUS : Z := 0x07.
Definition MODBUS_FC_DIAGNOSTIC : Z := 0x08.
Definition MODBUS_FC_GET_COM_EVENT_COUNTER : Z := 0x0B.
Definition MODBUS_FC_GET_COM_EVENT_LOG : Z := 0x0C.
Definition MODBUS_FC_WRITE_MULTIPLE_COILS : Z := 0x0F.
Definition MODBUS_FC_WRITE_MULTIPLE_REGISTERS : Z := 0x10.
Definition MODBUS_FC_REPORT_SLAVE_ID : Z := 0x11.
Definition MODBUS_FC_READ_FILE_RECORD : Z := 0x14.
Definition MODBUS_FC_MASK_WRITE_REGISTER : Z := 0x16.
Definition MODBUS_FC_WRITE_AND_READ_REGISTERS : Z := 0x17.
Definition MODBUS_FC_READ_FIFO_QUEUE : Z := 0x18.
Definition MODBUS_FC_READ_DEV_ID : Z := 0x2B.

(** ** The context *)

(** [_modbus_init_common] followed by what [modbus_new_rtu] fills in. *)
Definition init_context (baud parity data_bit stop_bit : Z) : modbus_t :=
  Ctx (-1) false false baud parity data_bit stop_bit.

(** NULL is [None]; the device name is a constant of the program. *)
Definition modbus_new_rtu (baud parity data_bit stop_bit : Z) : M (option modbus_t) :=
  if baud =? 0 then put_errno EINVAL ;; ret None
  else
    let* ok := malloc_ok in
    if negb ok then ret None
    else if (parity =? 78) || (parity =? 69) || (parity =? 79)
    then ret (Some (init_context baud parity data_bit stop_bit))
    else put_errno EINVAL ;; ret None.

(** [_modbus_set_slave] behind [modbus_set_slave]; no quirk is ever enabled. *)
Definition modbus_set_slave (ctx : modbus_t) (slave : Z) : M modbus_t :=
  if (0 <=? slave) && (slave <=? 247)
  then ret (Ctx slave (mb_connected ctx) (confirmation_to_ignore ctx)
                (rtu_baud ctx) (rtu_parity ctx) (rtu_data_bit ctx) (rtu_stop_bit ctx))
  else put_errno EINVAL ;; ret ctx.

Definition modbus_get_slave (ctx : option modbus_t) : M Z :=
  match ctx with
  | None => put_errno EINVAL ;; ret (-1)
  | Some c => ret (mb_slave c)
  end.

Definition modbus_connect (ctx : modbus_t) : M (option modbus_t) :=
  let* ok := ask o_connect in
  if ok
  then ret (Some (Ctx (mb_slave ctx) true (confirmation_to_ignore ctx)
                      (rtu_baud ctx) (rtu_parity ctx) (rtu_data_bit ctx) (rtu_stop_bit ctx)))
  else ret None.

Definition modbus_flush : M unit := fun w => Some (tt, set_rx [] (rx_events w) w).

(** ** Sending *)

(** [crc16] of [modbus-rtu.c]: the loop and the tables of [util_tool.c]. *)
Definition crc16 (buffer : list Z) (buffer_length : Z) : M Z :=
  if u16 buffer_length <=? Z.of_nat (length buffer)
  then ret (crc_of (take (Z.to_nat (u16 buffer_length)) buffer))
  else undefined.

Definition modbus_rtu_send_msg_pre (req : list Z) (req_length : Z) : M (list Z * Z) :=
  let* crc := crc16 req req_length in
  let* req := wr req req_length (Z.land crc 0x00FF) in
  let* req := wr req (req_length + 1) (Z.shiftr crc 8) in
  ret (req, req_length + 2).

(** [write(2)] on the port: the bytes handed over are recorded. *)
Definition write_port (ctx : modbus_t) (buf : list Z) (n : Z) : M Z :=
  fun w =>
    if negb (mb_connected ctx) then Some (-1, set_errno EBADF w)
    else if (n <? 0) || (Z.of_nat (length buf) <? n) then None
    else
      let w1 := next_tick (set_tx (tx w ++ [take (Z.to_nat n) buf]) w) in
      match o_write (os w) (tick w) with
      | WAll => Some (n, w1)
      | WSome k => Some (k, w1)
      | WErr e => Some (-1, set_errno e w1)
      end.

Definition modbus_rtu_send (ctx : modbus_t) (req : list Z) (req_length : Z) : M Z :=
  write_port ctx req req_length.

(** [send_msg]; link recovery is never enabled, so the loop runs once. *)
Definition send_msg (ctx : modbus_t) (msg : list Z) (msg_length : Z) : M Z :=
  let* p := modbus_rtu_send_msg_pre msg msg_length in
  let* rc := modbus_rtu_send ctx (fst p) (snd p) in
  if (0 <? rc) && negb (rc =? snd p)
  then put_errno EMBBADDATA ;; ret (-1)
  else ret rc.

(** ** Receiving *)

Inductive msg_type_t := MSG_INDICATION | MSG_CONFIRMATION.
Inductive rx_step := STEP_FUNCTION | STEP_META | STEP_DATA.

#[global] Instance rx_step_eq_dec : EqDecision rx_step.
Proof. solve_decision. Defined.

Definition is_indication (t : msg_type_t) : bool :=
  match t with MSG_INDICATION => true | MSG_CONFIRMATION => false end.

Definition compute_meta_length_after_function (function : Z) (msg_type : msg_type_t) : Z :=
  match msg_type with
  | MSG_INDICATION =>
      if function <=? MODBUS_FC_WRITE_SINGLE_REGISTER then 4
      else if (function =? MODBUS_FC_WRITE_MULTIPLE_COILS)
              || (function =? MODBUS_FC_WRITE_MULTIPLE_REGISTERS) then 5
      else if function =? MODBUS_FC_MASK_WRITE_REGISTER then 6
      else if function =? MODBUS_FC_WRITE_AND_READ_REGISTERS then 9
      else if function =? MODBUS_FC_DIAGNOSTIC then 4
      else if function =? MODBUS_FC_READ_FILE_RECORD then 1
      else 0
  | MSG_CONFIRMATION =>
      if (function =? MODBUS_FC_WRITE_SINGLE_COIL)
         || (function =? MODBUS_FC_WRITE_SINGLE_REGISTER)
         || (function =? MODBUS_FC_WRITE_MULTIPLE_COILS)
         || (function =? MODBUS_FC_WRITE_MULTIPLE_REGISTERS) then 4
      else if function =? MODBUS_FC_MASK_WRITE_REGISTER then 6
      else 1
  end.

Definition compute_data_length_after_meta (msg : list Z) (msg_type : msg_type_t) : M Z :=
  let* function := rd msg MODBUS_RTU_HEADER_LENGTH in
  let* len :=
    match msg_type with
    | MSG_INDICATION =>
        if (function =? MODBUS_FC_WRITE_MULTIPLE_COILS)
           || (function =? MODBUS_FC_WRITE_MULTIPLE_REGISTERS)
        then rd msg (MODBUS_RTU_HEADER_LENGTH + 5)
        else if function =? MODBUS_FC_WRITE_AND_READ_REGISTERS
        then rd msg (MODBUS_RTU_HEADER_LENGTH + 9)
        else if function =? MODBUS_FC_READ_FILE_RECORD
        then rd msg (MODBUS_RTU_HEADER_LENGTH + 1)
        else ret 0
    | MSG_CONFIRMATION =>
        if (function <=? MODBUS_FC_READ_INPUT_REGISTERS)
           || (function =? MODBUS_FC_REPORT_SLAVE_ID)
           || (function =? MODBUS_FC_WRITE_AND_READ_REGISTERS)
        then rd msg (MODBUS_RTU_HEADER_LENGTH + 1)
        else ret 0
    end in
  ret (len + MODBUS_RTU_CHECKSUM_LENGTH).

(** Waits for input: the bytes available, or the [errno] of the failure.
    Without a timeout ([timed = false]) a silence is waited out. *)
Fixpoint wait_input (timed : bool) (es : list rx_event) : (list Z + Z) * list rx_event :=
  match es with
  | [] => (inr ECONNRESET, [])
  | RxBytes [] :: es => wait_input timed es
  | RxBytes l :: es => (inl l, es)
  | RxSilence :: es => if timed then (inr ETIMEDOUT, es) else wait_input timed es
  | RxError e :: es => (inr e, es)
  | RxEof :: es => (inr ECONNRESET, es)
  end.

(** [select] followed by [read] of at most [n] bytes; [None] is the failure
    of either, with [errno] set. *)
Definition select_recv (timed : bool) (n : Z) : M (option (list Z)) :=
  fun w =>
    match rx_pending w with
    | [] =>
        match wait_input timed (rx_events w) with
        | (inl l, es) => Some (Some (take (Z.to_nat n) l), set_rx (drop (Z.to_nat n) l) es w)
        | (inr e, es) => Some (None, set_errno e (set_rx [] es w))
        end
    | l => Some (Some (take (Z.to_nat n) l), set_rx (drop (Z.to_nat n) l) (rx_events w) w)
    end.

(** The [switch] on [step] once [length_to_read] is 0: the next step and the
    bytes it needs, or nothing when the frame would be too long. *)
Definition next_phase (t : msg_type_t) (step : rx_step) (msg : list Z) (msg_length : Z)
    : M (option (rx_step * Z)) :=
  let data_phase :=
    let* length_to_read := compute_data_length_after_meta msg t in
    if MODBUS_RTU_MAX_ADU_LENGTH <? msg_length + length_to_read
    then put_errno EMBBADDATA ;; ret None
    else ret (Some (STEP_DATA, length_to_read)) in
  match step with
  | STEP_FUNCTION =>
      let* f := rd msg MODBUS_RTU_HEADER_LENGTH in
      let length_to_read := compute_meta_length_after_function f t in
      if negb (length_to_read =? 0) then ret (Some (STEP_META, length_to_read))
      else data_phase
  | STEP_META => data_phase
  | STEP_DATA => ret (Some (STEP_DATA, 0))
  end.

(** The [while] loop of [_modbus_receive_msg]; the result is the buffer and
    the length of the message, or no length after an error. *)
Fixpoint receive_loop (fuel : nat) (t : msg_type_t) (timed : bool) (step : rx_step)
    (msg : list Z) (msg_length length_to_read : Z) : M (list Z * option Z) :=
  if length_to_read =? 0 then ret (msg, Some msg_length)
  else
  match fuel with
  | O => undefined
  | S fuel =>
    let* got := select_recv timed length_to_read in
    match got with
    | None => ret (msg, None)
    | Some bytes =>
        let rc := Z.of_nat (length bytes) in
        let* msg := memcpy msg msg_length bytes 0 rc in
        let msg_length := msg_length + rc in
        let length_to_read := length_to_read - rc in
        if negb (length_to_read =? 0)
        then receive_loop fuel t true step msg msg_length length_to_read
        else
          let* next := next_phase t step msg msg_length in
          match next with
          | None => ret (msg, None)
          | Some (step, length_to_read) =>
              receive_loop fuel t true step msg msg_length length_to_read
          end
    end
  end.

(** Every iteration stores at least one byte, and at most 256 are stored. *)
Definition RECEIVE_FUEL : nat := 257.

(** [_modbus_rtu_check_integrity] *)
Definition modbus_rtu_check_integrity (ctx : modbus_t) (msg : list Z) (msg_length : Z) : M Z :=
  let* slave := rd msg 0 in
  let* crc_calculated := crc16 msg (msg_length - 2) in
  let* h := rd msg (msg_length - 1) in
  let* l := rd msg (msg_length - 2) in
  let crc_received := be16 h l in
  if negb (crc_calculated =? crc_received)
  then put_errno EMBBADCRC ;; ret (-1)
  else if negb (slave =? mb_slave ctx) && negb (slave =? MODBUS_BROADCAST_ADDRESS)
  then ret 0
  else ret msg_length.

Definition modbus_receive_msg (ctx : modbus_t) (msg : list Z) (t : msg_type_t)
    : M (list Z * Z) :=
  if negb (mb_connected ctx) then ret (msg, -1)
  else
    let* r := receive_loop RECEIVE_FUEL t (negb (is_indication t)) STEP_FUNCTION msg 0
                (MODBUS_RTU_HEADER_LENGTH + 1) in
    match snd r with
    | None => ret (fst r, -1)
    | Some n => let* rc := modbus_rtu_check_integrity ctx (fst r) n in ret (fst r, rc)
    end.

Definition set_confirmation_to_ignore (b : bool) (c : modbus_t) : modbus_t :=
  Ctx (mb_slave c) (mb_connected c) b (rtu_baud c) (rtu_parity c) (rtu_data_bit c) (rtu_stop_bit c).

(** [_modbus_rtu_receive]: the result is the buffer, the context and [rc]. *)
Definition modbus_rtu_receive (ctx : modbus_t) (req : list Z) : M (list Z * modbus_t * Z) :=
  if confirmation_to_ignore ctx
  then
    let* r := modbus_receive_msg ctx req MSG_CONFIRMATION in
    ret (fst r, set_confirmation_to_ignore false ctx, 0)
  else
    let* r := modbus_receive_msg ctx req MSG_INDICATION in
    ret (fst r, if snd r =? 0 then set_confirmation_to_ignore true ctx else ctx, snd r).

Definition modbus_receive (ctx : option modbus_t) (req : list Z)
    : M (list Z * option modbus_t * Z) :=
  match ctx with
  | None => put_errno EINVAL ;; ret (req, None, -1)
  | Some c =>
      let* r := modbus_rtu_receive c req in
      ret (fst (fst r), Some (snd (fst r)), snd r)
  end.

(** ** Replies *)

Record sft_t := Sft { sft_slave : Z; sft_function : Z }.

Definition modbus_rtu_build_response_basis (sft : sft_t) (rsp : list Z) : M (list Z * Z) :=
  let* rsp := wr rsp 0 (sft_slave sft) in
  let* rsp := wr rsp 1 (sft_function sft) in
  ret (rsp, 2).

(** The loop of [response_io_status] from index [i], [n] bits to go. *)
Fixpoint io_status_loop (n : nat) (tab : list Z) (i : Z) (shift one_byte : Z)
    (rsp : list Z) (offset : Z) : M (list Z * Z) :=
  match n with
  | O =>
      if negb (shift =? 0)
      then let* rsp := wr rsp offset one_byte in ret (rsp, offset + 1)
      else ret (rsp, offset)
  | S n =>
      let* b := rd tab i in
      let one_byte := Z.lor one_byte (Z.shiftl b shift) in
      if shift =? 7
      then let* rsp := wr rsp offset one_byte in
           io_status_loop n tab (i + 1) 0 0 rsp (offset + 1)
      else io_status_loop n tab (i + 1) (shift + 1) one_byte rsp offset
  end.

Definition response_io_status (tab : list Z) (address nb : Z) (rsp : list Z) (offset : Z)
    : M (list Z * Z) :=
  io_status_loop (Z.to_nat nb) tab address 0 0 rsp offset.

Definition response_exception (sft : sft_t) (exception_code : Z) (rsp : list Z) (to_flush : bool)
    : M (list Z * Z) :=
  (if to_flush then modbus_flush else ret tt) ;;
  let sft := Sft (sft_slave sft) (sft_function sft + 0x80) in
  let* r := modbus_rtu_build_response_basis sft rsp in
  let* rsp := wr (fst r) (snd r) exception_code in
  ret (rsp, snd r + 1).

(** The register loop of [modbus_reply]. *)
Fixpoint reg_loop (n : nat) (tab : list Z) (i : Z) (rsp : list Z) (rsp_length : Z)
    : M (list Z * Z) :=
  match n with
  | O => ret (rsp, rsp_length)
  | S n =>
      let* v := rd tab i in
      let* rsp := wr rsp rsp_length (Z.shiftr v 8) in
      let* rsp := wr rsp (rsp_length + 1) (Z.land v 0xFF) in
      reg_loop n tab (i + 1) rsp (rsp_length + 2)
  end.

(** The case [MODBUS_FC_READ_COILS] / [MODBUS_FC_READ_DISCRETE_INPUTS]. *)
Definition reply_read_bits (req : list Z) (sft : sft_t) (address : Z) (mb : modbus_mapping_t)
    : M (list Z * Z) :=
  let is_input := sft_function sft =? MODBUS_FC_READ_DISCRETE_INPUTS in
  let start := if is_input then start_input_bits mb else start_bits mb in
  let nbb := if is_input then nb_input_bits mb else nb_bits mb in
  let tab := if is_input then tab_input_bits mb else tab_bits mb in
  let rsp := zeros MAX_MESSAGE_LENGTH in
  let* h := rd req 4 in
  let* l := rd req 5 in
  let nb := Z.shiftl h 8 + l in
  let mapping_address := address - start in
  if (nb <? 1) || (MODBUS_MAX_READ_BITS <? nb)
  then response_exception sft MODBUS_EXCEPTION_ILLEGAL_DATA_VALUE rsp true
  else if (mapping_address <? 0) || (nbb <? mapping_address + nb)
  then response_exception sft MODBUS_EXCEPTION_ILLEGAL_DATA_ADDRESS rsp false
  else
    let* r := modbus_rtu_build_response_basis sft rsp in
    let* rsp := wr (fst r) (snd r) (nb / 8 + (if nb mod 8 =? 0 then 0 else 1)) in
    response_io_status tab mapping_address nb rsp (snd r + 1).

(** The case [MODBUS_FC_READ_HOLDING_REGISTERS] / [MODBUS_FC_READ_INPUT_REGISTERS]. *)
Definition reply_read_registers (req : list Z) (sft : sft_t) (address : Z) (mb : modbus_mapping_t)
    : M (list Z * Z) :=
  let is_input := sft_function sft =? MODBUS_FC_READ_INPUT_REGISTERS in
  let start := if is_input then start_input_registers mb else start_registers mb in
  let nbr := if is_input then nb_input_registers mb else nb_registers mb in
  let tab := if is_input then tab_input_registers mb else tab_registers mb in
  let rsp := zeros MAX_MESSAGE_LENGTH in
  let* h := rd req 4 in
  let* l := rd req 5 in
  let nb := Z.shiftl h 8 + l in
  let mapping_address := address - start in
  if (nb <? 1) || (MODBUS_MAX_READ_REGISTERS <? nb)
  then response_exception sft MODBUS_EXCEPTION_ILLEGAL_DATA_VALUE rsp true
  else if (mapping_address <? 0) || (nbr <? mapping_address + nb)
  then response_exception sft MODBUS_EXCEPTION_ILLEGAL_DATA_ADDRESS rsp false
  else
    let* r := modbus_rtu_build_response_basis sft rsp in
    let* rsp := wr (fst r) (snd r) (Z.shiftl nb 1) in
    reg_loop (Z.to_nat nb) tab mapping_address rsp (snd r + 1).

(** [modbus_reply] for the four read functions, the only ones the slave hands
    to it; its other cases are outside this model and reaching one is
    [undefined]. *)
Definition modbus_reply (ctx : option modbus_t) (req : list Z) (req_length : Z)
    (mb_mapping : modbus_mapping_t) : M Z :=
  match ctx with
  | None => put_errno EINVAL ;; ret (-1)
  | Some ctx =>
      let* slave := rd req 0 in
      let* function := rd req 1 in
      let* a := rd req 2 in
      let* b := rd req 3 in
      let address := Z.shiftl a 8 + b in
      let sft := Sft slave function in
      let* r :=
        if (function =? MODBUS_FC_READ_COILS) || (function =? MODBUS_FC_READ_DISCRETE_INPUTS)
        then reply_read_bits req sft address mb_mapping
        else if (function =? MODBUS_FC_READ_HOLDING_REGISTERS)
                || (function =? MODBUS_FC_READ_INPUT_REGISTERS)
        then reply_read_registers req sft address mb_mapping
        else undefined in
      if slave =? MODBUS_BROADCAST_ADDRESS then ret 0
      else send_msg ctx (fst r) (snd r)
  end.

Definition modbus_reply_exception (ctx : option modbus_t) (req : list Z) (exception_code : Z)
    : M Z :=
  match ctx with
  | None => put_errno EINVAL ;; ret (-1)
  | Some ctx =>
      let* slave := rd req 0 in
      let* function := rd req 1 in
      let* r := modbus_rtu_build_response_basis (Sft slave (function + 0x80))
                  (zeros MAX_MESSAGE_LENGTH) in
      if exception_code <? MODBUS_EXCEPTION_MAX
      then
        let* rsp := wr (fst r) (snd r) exception_code in
        send_msg ctx rsp (snd r + 1)
      else put_errno EINVAL ;; ret (-1)
  end.

(** Frees the tables and the structure; [modbus_mapping_new_start_address]
    allocates them, each table zeroed, and no table for a zero count. *)
Definition new_table (n : Z) : M (option (list Z)) :=
  if n =? 0 then ret (Some [])
  else let* ok := malloc_ok in ret (if ok then Some (zeros n) else None).

Definition modbus_mapping_new_start_address (start_bits nb_bits start_input_bits nb_input_bits
    start_registers nb_registers start_input_registers nb_input_registers : Z)
    : M (option modbus_mapping_t) :=
  let* ok := malloc_ok in
  if negb ok then ret None
  else
    let* t0 := new_table nb_bits in
    match t0 with None => ret None | Some tab_bits =>
    let* t1 := new_table nb_input_bits in
    match t1 with None => ret None | Some tab_input_bits =>
    let* t4 := new_table nb_registers in
    match t4 with None => ret None | Some tab_registers =>
    let* t3 := new_table nb_input_registers in
    match t3 with None => ret None | Some tab_input_registers =>
      ret (Some (Mapping nb_bits start_bits nb_input_bits start_input_bits
                   nb_input_registers start_input_registers nb_registers start_registers
                   tab_bits tab_input_bits tab_input_registers tab_registers))
    end end end end.

(** ** [app_modbus_common.c] *)

Definition app_modbus_com_send_msg (ctx : option modbus_t) (msg : list Z) (msg_length : Z) : M Z :=
  match ctx with
  | None => ret (-1)
  | Some ctx =>
      if (msg_length <=? 0) || (SZ_RTU_MSGBUF <? msg_length) then ret (-1)
      else
        let* p := modbus_rtu_send_msg_pre msg msg_length in
        let* rc := modbus_rtu_send ctx (fst p) (snd p) in
        if (0 <? rc) && negb (rc =? snd p)
        then put_errno EMBBADDATA ;; ret (-1)
        else ret rc
  end.

(** ** Sending: what reaches the line *)

(** The frame of a message: the message and its checksum, low byte first. *)
Definition rtu_frame (p : list Z) : list Z := p ++ [lo8 (crc_of p); hi8 (crc_of p)].

Lemma length_rtu_frame p : length (rtu_frame p) = (length p + 2)%nat.
Proof. unfold rtu_frame. by rewrite length_app. Qed.

Lemma crc16_eq buf n w : 0 <= n < 65536 -> n <= Z.of_nat (length buf) ->
  crc16 buf n w = Some (crc_of (take (Z.to_nat n) buf), w).
Proof.
  intros Hn Hl. unfold crc16. rewrite u16_id by done.
  by rewrite (proj2 (Z.leb_le _ _) Hl).
Qed.

Lemma send_msg_pre_eq p x y rest n w :
  n = Z.of_nat (length p) -> n < 65536 ->
  modbus_rtu_send_msg_pre (p ++ x :: y :: rest) n w = Some ((rtu_frame p ++ rest, n + 2), w).
Proof.
  intros -> Hn. unfold modbus_rtu_send_msg_pre, bind.
  rewrite crc16_eq, Nat2Z.id by (rewrite ?length_app; lia).
  rewrite take_app_length. rewrite wr_here by done.
  replace (p ++ u8 (Z.land (crc_of p) 0x00FF) :: y :: rest)
    with ((p ++ [lo8 (crc_of p)]) ++ y :: rest).
  2: { change 0x00FF with 255. by rewrite u8_land255, <- app_assoc. }
  rewrite wr_here by (rewrite length_app; simpl; lia).
  unfold ret, rtu_frame. rewrite u8_shiftr8, <- !app_assoc. done.
Qed.

(** [write(2)] of the frame [f] and the checks on its result. *)
Definition send_result (f : list Z) (w : world) : Z * world :=
  let w1 := next_tick (set_tx (tx w ++ [f]) w) in
  let n := Z.of_nat (length f) in
  match o_write (os w) (tick w) with
  | WAll => (n, w1)
  | WSome k => if (0 <? k) && negb (k =? n) then (-1, set_errno EMBBADDATA w1) else (k, w1)
  | WErr e => (-1, set_errno e w1)
  end.

(** Two bytes of room behind the message hold its checksum. *)
Lemma room_for_crc (buf : list Z) n :
  0 <= n -> n + 2 <= Z.of_nat (length buf) ->
  exists x y rest, buf = take (Z.to_nat n) buf ++ x :: y :: rest.
Proof.
  intros Hn Hl. pose proof (take_drop (Z.to_nat n) buf) as E.
  pose proof (length_drop buf (Z.to_nat n)) as L.
  destruct (drop (Z.to_nat n) buf) as [|x [|y rest]] eqn:D; simpl in L; [lia..|].
  by exists x, y, rest.
Qed.

Lemma write_frame_eq ctx p rest n w :
  mb_connected ctx = true -> n = Z.of_nat (length p) ->
  write_port ctx (rtu_frame p ++ rest) (n + 2) w =
  Some (match o_write (os w) (tick w) with
        | WAll => (n + 2, next_tick (set_tx (tx w ++ [rtu_frame p]) w))
        | WSome k => (k, next_tick (set_tx (tx w ++ [rtu_frame p]) w))
        | WErr e => (-1, set_errno e (next_tick (set_tx (tx w ++ [rtu_frame p]) w)))
        end).
Proof.
  intros Hc ->. unfold write_port. rewrite Hc; simpl negb; cbv iota.
  pose proof (length_rtu_frame p) as L.
  rewrite (proj2 (Z.ltb_ge _ _)) by lia.
  rewrite (proj2 (Z.ltb_ge _ _)) by (rewrite length_app; lia). simpl orb; cbv iota.
  replace (Z.to_nat (Z.of_nat (length p) + 2)) with (length (rtu_frame p)) by lia.
  rewrite take_app_length. by destruct (o_write _ _).
Qed.

Lemma send_msg_eq ctx msg n w :
  mb_connected ctx = true -> 0 <= n < 65536 -> n + 2 <= Z.of_nat (length msg) ->
  send_msg ctx msg n w = Some (send_result (rtu_frame (take (Z.to_nat n) msg)) w).
Proof.
  intros Hc Hn Hl. destruct (room_for_crc msg n) as (x & y & rest & E); [lia..|].
  set (p := take (Z.to_nat n) msg) in *. rewrite E.
  assert (n = Z.of_nat (length p)) as Hp by (unfold p; rewrite length_take; lia).
  unfold send_msg, bind. rewrite send_msg_pre_eq by lia. cbn [fst snd].
  unfold modbus_rtu_send. rewrite write_frame_eq by done. unfold send_result.
  replace (Z.of_nat (length (rtu_frame p))) with (n + 2) by (rewrite length_rtu_frame; lia).
  destruct (o_write _ _) as [|k|e]; simpl.
  - rewrite Z.eqb_refl, andb_false_r. done.
  - by destruct ((0 <? k) && negb (k =? n + 2)).
  - done.
Qed.

Lemma app_send_msg_eq ctx msg n w :
  mb_connected ctx = true -> 0 < n <= SZ_RTU_MSGBUF -> n + 2 <= Z.of_nat (length msg) ->
  app_modbus_com_send_msg (Some ctx) msg n w =
  Some (send_result (rtu_frame (take (Z.to_nat n) msg)) w).
Proof.
  intros Hc Hn Hl. unfold SZ_RTU_MSGBUF in *. unfold app_modbus_com_send_msg.
  rewrite (proj2 (Z.leb_gt _ _)), (proj2 (Z.ltb_ge _ _)) by (unfold SZ_RTU_MSGBUF; lia).
  apply send_msg_eq; [done|lia..].
Qed.

(** The world after a frame was handed to [write(2)], up to [errno]. *)
Definition sent (f : list Z) (e : Z) (w : world) : world :=
  set_errno e (next_tick (set_tx (tx w ++ [f]) w)).

Lemma send_result_sent f w :
  exists rc e, send_result f w = (rc, sent f e w).
Proof.
  unfold send_result, sent. destruct (o_write _ _) as [|k|e].
  - by exists (Z.of_nat (length f)), (errno w).
  - destruct (_ && _); [by exists (-1), EMBBADDATA|by exists k, (errno w)].
  - by exists (-1), e.
Qed.

Lemma wp_send ctx msg n Q w :
  mb_connected ctx = true -> 0 <= n < 65536 -> n + 2 <= Z.of_nat (length msg) ->
  (forall rc e, Q rc (sent (rtu_frame (take (Z.to_nat n) msg)) e w)) ->
  wp (send_msg ctx msg n) Q w.
Proof.
  intros Hc Hn Hl HQ. unfold wp. rewrite send_msg_eq by done.
  by destruct (send_result_sent (rtu_frame (take (Z.to_nat n) msg)) w) as (rc & e & ->).
Qed.

(** A NULL context sends nothing. *)
Definition ctx_ok (ctx : option modbus_t) : Prop :=
  match ctx with None => True | Some c => mb_connected c = true end.

Definition sent_by (ctx : option modbus_t) (f : list Z) (e : Z) (w : world) : world :=
  match ctx with None => set_errno e w | Some _ => sent f e w end.

Lemma set_errno_id w : set_errno (errno w) w = w.
Proof. by destruct w. Qed.

Lemma wp_app_send ctx msg n Q w :
  ctx_ok ctx -> 0 < n <= 254 -> n + 2 <= Z.of_nat (length msg) ->
  (forall rc e, Q rc (sent_by ctx (rtu_frame (take (Z.to_nat n) msg)) e w)) ->
  wp (app_modbus_com_send_msg ctx msg n) Q w.
Proof.
  intros Hc Hn Hl HQ. destruct ctx as [c|]; cbn [ctx_ok sent_by] in *.
  - unfold wp. rewrite app_send_msg_eq by (unfold SZ_RTU_MSGBUF; done || lia).
    by destruct (send_result_sent (rtu_frame (take (Z.to_nat n) msg)) w) as (rc & e & ->).
  - apply wp_ret. specialize (HQ (-1) (errno w)). by rewrite set_errno_id in HQ.
Qed.

(** ** Exception replies *)

(** The message of an exception reply, before the checksum. *)
Definition exception_pdu (req : list Z) (code : Z) : list Z :=
  [u8 (nth 0 req 0); u8 (nth 1 req 0 + 0x80); u8 code].

Lemma build_response_basis_eq sft n w : (2 <= n)%nat ->
  modbus_rtu_build_response_basis sft (replicate n 0) w =
  Some ((u8 (sft_slave sft) :: u8 (sft_function sft) :: replicate (n - 2) 0, 2), w).
Proof.
  intros Hn. destruct n as [|[|n]]; [lia..|].
  unfold modbus_rtu_build_response_basis, bind.
  rewrite !wr_eq by (simpl; lia). simpl. by rewrite Nat.sub_0_r.
Qed.

Lemma response_exception_eq sft code w :
  response_exception sft code (zeros MAX_MESSAGE_LENGTH) false w =
  Some (([u8 (sft_slave sft); u8 (sft_function sft + 0x80); u8 code] ++ replicate 257 0, 3), w).
Proof.
  unfold response_exception, bind, ret. unfold zeros.
  rewrite build_response_basis_eq by (vm_compute; lia). cbn [fst snd sft_slave sft_function].
  change (replicate (Z.to_nat MAX_MESSAGE_LENGTH - 2) 0) with (0 :: replicate 257 0).
  apply (f_equal (fun o => match o with Some (r, w') => Some ((r, 3), w') | None => None end)
    (wr_here [u8 (sft_slave sft); u8 (sft_function sft + 0x80)] 0 (replicate 257 0) code w 2 eq_refl)).
Qed.

Lemma modbus_reply_exception_eq c req code w :
  mb_connected c = true -> (2 <= length req)%nat -> code < MODBUS_EXCEPTION_MAX ->
  modbus_reply_exception (Some c) req code w =
  Some (send_result (rtu_frame (exception_pdu req code)) w).
Proof.
  intros Hc Hr Hcode. unfold modbus_reply_exception, bind, ret.
  rewrite !rd_eq by lia. unfold zeros.
  rewrite build_response_basis_eq by (vm_compute; lia). cbn [fst snd sft_slave sft_function].
  rewrite (proj2 (Z.ltb_lt _ _) Hcode).
  change (replicate (Z.to_nat MAX_MESSAGE_LENGTH - 2) 0) with (0 :: replicate 257 0).
  change (u8 (nth (Z.to_nat 0) req 0) :: u8 (nth (Z.to_nat 1) req 0 + 0x80) :: 0 :: replicate 257 0)
    with ([u8 (nth 0 req 0); u8 (nth 1 req 0 + 0x80)] ++ 0 :: replicate 257 0).
  rewrite wr_here by done. rewrite send_msg_eq; [|done|lia|simpl; lia].
  done.
Qed.

Lemma wp_reply_exception ctx req code Q w :
  ctx_ok ctx -> (2 <= length req)%nat -> code < MODBUS_EXCEPTION_MAX ->
  (forall rc e, Q rc (sent_by ctx (rtu_frame (exception_pdu req code)) e w)) ->
  wp (modbus_reply_exception ctx req code) Q w.
Proof.
  intros Hc Hr Hcode HQ. destruct ctx as [c|]; cbn [ctx_ok sent_by] in *.
  - unfold wp. rewrite modbus_reply_exception_eq by done.
    by destruct (send_result_sent (rtu_frame (exception_pdu req code)) w) as (rc & e & ->).
  - unfold modbus_reply_exception. wp_steps. apply HQ.
Qed.

(** ** Register replies *)

(** The registers of a reply: high byte first. *)
Definition be_bytes (regs : list Z) : list Z := flat_map (fun v => [hi8 v; lo8 v]) regs.

Lemma length_be_bytes regs : length (be_bytes regs) = (2 * length regs)%nat.
Proof. induction regs; simpl; lia. Qed.

Lemma slice_cons l i n : 0 <= i < Z.of_nat (length l) -> 0 < n ->
  slice l i n = nth (Z.to_nat i) l 0 :: slice l (i + 1) (n - 1).
Proof.
  intros Hi Hn. unfold slice.
  destruct (nth_lookup_or_length l (Z.to_nat i) 0) as [E|]; [|lia].
  rewrite (drop_S _ _ _ E).
  replace (S (Z.to_nat i)) with (Z.to_nat (i + 1)) by lia.
  replace (Z.to_nat n) with (S (Z.to_nat (n - 1))) by lia. done.
Qed.

Lemma wr2_here done x y rest a b w n : n = Z.of_nat (length done) ->
  (let* r := wr (done ++ x :: y :: rest) n a in wr r (n + 1) b) w =
  Some (done ++ u8 a :: u8 b :: rest, w).
Proof.
  intros ->. unfold bind. rewrite wr_here by done.
  replace (done ++ u8 a :: y :: rest) with ((done ++ [u8 a]) ++ y :: rest)
    by by rewrite <- app_assoc.
  rewrite wr_here by (rewrite length_app; simpl; lia). by rewrite <- app_assoc.
Qed.

Lemma reg_loop_eq n tab i done rest w :
  0 <= i -> i + Z.of_nat n <= Z.of_nat (length tab) -> (2 * n <= length rest)%nat ->
  reg_loop n tab i (done ++ rest) (Z.of_nat (length done)) w =
  Some (((done ++ be_bytes (slice tab i (Z.of_nat n))) ++ drop (2 * n) rest,
         Z.of_nat (length done) + 2 * Z.of_nat n), w).
Proof.
  revert i done rest. induction n as [|n IH]; intros i done rest Hi Ht Hr.
  - simpl. unfold ret. unfold slice. simpl. rewrite app_nil_r, drop_0, Z.add_0_r. done.
  - destruct rest as [|x [|y rest]]; [simpl in Hr; lia..|].
    cbn [reg_loop]. unfold bind at 1. rewrite rd_eq by lia.
    set (v := nth (Z.to_nat i) tab 0).
    unfold bind at 1. rewrite wr_here by done. unfold bind.
    replace (done ++ u8 (Z.shiftr v 8) :: y :: rest)
      with ((done ++ [hi8 v]) ++ y :: rest) by (by rewrite u8_shiftr8, <- app_assoc).
    rewrite wr_here by (rewrite length_app; simpl; lia).
    change 0xFF with 255. rewrite u8_land255.
    replace ((done ++ [hi8 v]) ++ lo8 v :: rest) with ((done ++ [hi8 v; lo8 v]) ++ rest)
      by by rewrite <- !app_assoc.
    replace (Z.of_nat (length done) + 2) with (Z.of_nat (length (done ++ [hi8 v; lo8 v])))
      by (rewrite length_app; simpl; lia).
    rewrite IH by (simpl in Hr; lia).
    rewrite (slice_cons tab i) by lia. replace (Z.of_nat (S n) - 1) with (Z.of_nat n) by lia.
    f_equal. f_equal. f_equal.
    + replace (2 * S n)%nat with (S (S (2 * n))) by lia.
      cbn [drop be_bytes flat_map]. fold (be_bytes (slice tab (i + 1) (Z.of_nat n))).
      by rewrite <- !app_assoc.
    + rewrite length_app; simpl length. lia.
Qed.

(** ** Bit replies *)

(** The bits of a reply, first bit lowest, eight to a byte. *)
Fixpoint pack_bits (shift acc : Z) (bits : list Z) : list Z :=
  match bits with
  | [] => if shift =? 0 then [] else [u8 acc]
  | b :: bits =>
      let acc := Z.lor acc (Z.shiftl b shift) in
      if shift =? 7 then u8 acc :: pack_bits 0 0 bits else pack_bits (shift + 1) acc bits
  end.

Lemma length_pack_bits shift acc bits : 0 <= shift <= 7 ->
  Z.of_nat (length (pack_bits shift acc bits)) = (shift + Z.of_nat (length bits) + 7) / 8.
Proof.
  revert shift acc. induction bits as [|b l IH]; intros shift acc Hs; cbn [pack_bits].
  - destruct (Z.eqb_spec shift 0); simpl length; Z.div_mod_to_equations; lia.
  - destruct (Z.eqb_spec shift 7) as [->|]; cbn [length];
      rewrite ?Nat2Z.inj_succ, IH by lia; Z.div_mod_to_equations; lia.
Qed.

Lemma io_status_loop_eq n tab i shift acc done rest w :
  0 <= i -> i + Z.of_nat n <= Z.of_nat (length tab) -> 0 <= shift <= 7 ->
  (shift + Z.of_nat n + 7) / 8 <= Z.of_nat (length rest) ->
  let out := pack_bits shift acc (slice tab i (Z.of_nat n)) in
  io_status_loop n tab i shift acc (done ++ rest) (Z.of_nat (length done)) w =
  Some (((done ++ out) ++ drop (length out) rest,
         Z.of_nat (length done) + Z.of_nat (length out)), w).
Proof.
  revert i shift acc done rest. induction n as [|n IH]; intros i shift acc done rest Hi Ht Hs Hr.
  - unfold slice; simpl take; simpl. destruct (Z.eqb_spec shift 0); simpl.
    + by rewrite app_nil_r, drop_0, Z.add_0_r.
    + destruct rest as [|x rest]; [simpl in Hr; Z.div_mod_to_equations; lia|].
      unfold bind. rewrite wr_here by done. simpl. by rewrite <- app_assoc, drop_0.
  - rewrite (slice_cons tab i) by lia. replace (Z.of_nat (S n) - 1) with (Z.of_nat n) by lia.
    cbn [io_status_loop pack_bits]. unfold bind at 1. rewrite rd_eq by lia.
    destruct (Z.eqb_spec shift 7) as [->|].
    + destruct rest as [|x rest]; [simpl in Hr; Z.div_mod_to_equations; lia|].
      unfold bind. rewrite wr_here by done.
      set (v := u8 _).
      replace (done ++ v :: rest) with ((done ++ [v]) ++ rest) by by rewrite <- app_assoc.
      replace (Z.of_nat (length done) + 1) with (Z.of_nat (length (done ++ [v])))
        by (rewrite length_app; simpl; lia).
      rewrite IH by (simpl in Hr; Z.div_mod_to_equations; lia).
      f_equal. f_equal. f_equal.
      * cbn [length drop]. by rewrite <- !app_assoc.
      * rewrite length_app; simpl length. lia.
    + by rewrite IH by (Z.div_mod_to_equations; lia).
Qed.

(** ** The reply to a read request *)

Section read_reply.
Context (mb : modbus_mapping_t) (req : list Z).

Definition req_slave : Z := nth 0 req 0.
Definition req_function : Z := nth 1 req 0.
Definition req_address : Z := be16 (nth 2 req 0) (nth 3 req 0).
Definition req_quantity : Z := be16 (nth 4 req 0) (nth 5 req 0).

(** The block of the mapping that a read function addresses. *)
Definition block_start : Z :=
  if req_function =? 1 then start_bits mb else if req_function =? 2 then start_input_bits mb
  else if req_function =? 3 then start_registers mb else start_input_registers mb.
Definition block_size : Z :=
  if req_function =? 1 then nb_bits mb else if req_function =? 2 then nb_input_bits mb
  else if req_function =? 3 then nb_registers mb else nb_input_registers mb.
Definition block_table : list Z :=
  if req_function =? 1 then tab_bits mb else if req_function =? 2 then tab_input_bits mb
  else if req_function =? 3 then tab_registers mb else tab_input_registers mb.

Definition in_block : bool :=
  (block_start <=? req_address) && (req_address + req_quantity <=? block_start + block_size).

Definition block_data : list Z := slice block_table (req_address - block_start) req_quantity.

(** The message that answers the request, before the checksum. *)
Definition read_pdu : list Z :=
  if in_block
  then if req_function <=? 2
       then [req_slave; req_function; (req_quantity + 7) / 8] ++ pack_bits 0 0 block_data
       else [req_slave; req_function; 2 * req_quantity] ++ be_bytes block_data
  else exception_pdu req MODBUS_EXCEPTION_ILLEGAL_DATA_ADDRESS.
End read_reply.

(** The tables have the sizes the counts say. *)
Definition mapping_ok (mb : modbus_mapping_t) : Prop :=
  nb_bits mb = Z.of_nat (length (tab_bits mb)) /\
  nb_input_bits mb = Z.of_nat (length (tab_input_bits mb)) /\
  nb_registers mb = Z.of_nat (length (tab_registers mb)) /\
  nb_input_registers mb = Z.of_nat (length (tab_input_registers mb)).

Lemma header_eq s f w : is_u8 s -> is_u8 f ->
  modbus_rtu_build_response_basis (Sft s f) (zeros MAX_MESSAGE_LENGTH) w =
  Some (([s; f] ++ 0 :: replicate 257 0, 2), w).
Proof.
  intros Hs Hf. unfold zeros. rewrite build_response_basis_eq by (vm_compute; lia).
  cbn [sft_slave sft_function]. by rewrite (u8_id s), (u8_id f).
Qed.

(** The message is at the head of the reply buffer. *)
Lemma send_reply_eq c pdu rest n w :
  mb_connected c = true -> n = Z.of_nat (length pdu) -> n < 65536 ->
  (2 <= length rest)%nat ->
  send_msg c (pdu ++ rest) n w = Some (send_result (rtu_frame pdu) w).
Proof.
  intros Hc -> Hn Hr. rewrite send_msg_eq by (rewrite ?length_app; done || lia).
  by rewrite Nat2Z.id, take_app_length.
Qed.

Definition read_quantity_ok (req : list Z) : Prop :=
  1 <= req_quantity req <= (if req_function req <=? 2 then MODBUS_MAX_READ_BITS
                            else MODBUS_MAX_READ_REGISTERS).

Lemma length_block_data mb req :
  mapping_ok mb -> 1 <= req_function req <= 4 -> 1 <= req_quantity req -> in_block mb req = true ->
  Z.of_nat (length (block_data mb req)) = req_quantity req.
Proof.
  intros (H1 & H2 & H3 & H4) Hf Hq Hb. unfold in_block in Hb.
  rewrite andb_true_iff, !Z.leb_le in Hb. unfold block_data. apply length_slice; [lia..|].
  unfold block_size, block_table in *.
  repeat case_match; lia.
Qed.

Lemma out_of_block mb req :
  (req_address req - block_start mb req <? 0)
  || (block_size mb req <? req_address req - block_start mb req + req_quantity req)
  = negb (in_block mb req).
Proof.
  unfold in_block. rewrite negb_andb.
  f_equal; apply eq_true_iff_eq; rewrite ?negb_true_iff, ?Z.ltb_lt, ?Z.leb_gt; lia.
Qed.

(** A reply buffer that holds the message [pdu] and [room] more bytes. *)
Definition holds_pdu (pdu : list Z) (r : list Z * Z) : Prop :=
  exists rest, (2 <= length rest)%nat /\ r = (pdu ++ rest, Z.of_nat (length pdu)).

Lemma exception_holds_pdu req code w : Forall is_u8 req ->
  exists r, holds_pdu (exception_pdu req code) r /\
  response_exception (Sft (req_slave req) (req_function req)) code (zeros MAX_MESSAGE_LENGTH)
    false w = Some (r, w).
Proof.
  intros Hreq. rewrite response_exception_eq. eexists; split; [|reflexivity].
  exists (replicate 257 0). by rewrite length_replicate; split; [lia|].
Qed.

Ltac request_quantity req :=
  do 2 (erewrite bind_eq by (apply rd_eq; lia));
  rewrite shiftl8_add by (by apply nth_u8);
  change (Z.to_nat 4) with 4%nat; change (Z.to_nat 5) with 5%nat; fold (req_quantity req).

Lemma reply_read_bits_eq mb req w :
  mapping_ok mb -> Forall is_u8 req -> (6 <= length req)%nat ->
  1 <= req_function req <= 2 -> 1 <= req_quantity req <= MODBUS_MAX_READ_BITS ->
  exists r, holds_pdu (read_pdu mb req) r /\
  reply_read_bits req (Sft (req_slave req) (req_function req)) (req_address req) mb w = Some (r, w).
Proof.
  intros Hmb Hreq Hlen Hf Hq. unfold reply_read_bits, MODBUS_MAX_READ_BITS in *.
  request_quantity req. cbn [sft_function].
  unfold MODBUS_FC_READ_DISCRETE_INPUTS.
  replace (if req_function req =? 2 then start_input_bits mb else start_bits mb)
    with (block_start mb req) by (unfold block_start; repeat case_match; lia).
  replace (if req_function req =? 2 then nb_input_bits mb else nb_bits mb)
    with (block_size mb req) by (unfold block_size; repeat case_match; lia).
  replace (if req_function req =? 2 then tab_input_bits mb else tab_bits mb)
    with (block_table mb req) by (unfold block_table; repeat case_match; try done; lia).
  rewrite (proj2 (Z.ltb_ge _ 1)), (proj2 (Z.ltb_ge 2000 _)) by lia. cbv zeta. cbn [orb].
  rewrite out_of_block. unfold read_pdu.
  destruct (in_block mb req) eqn:Hin; cbn [negb]; [|by apply exception_holds_pdu].
  rewrite (proj2 (Z.leb_le (req_function req) 2)) by lia.
  pose proof (length_block_data mb req Hmb ltac:(lia) ltac:(lia) Hin) as Hbd.
  assert (is_u8 (req_slave req)) by by apply nth_u8.
  assert (is_u8 (req_function req)) by by apply nth_u8.
  erewrite bind_eq by by apply header_eq. cbn [fst snd].
  erewrite bind_eq by by apply wr_here.
  replace (u8 (req_quantity req / 8 + _)) with ((req_quantity req + 7) / 8).
  2: { rewrite u8_id; [|unfold is_u8]; destruct (Z.eqb_spec (req_quantity req mod 8) 0);
       Z.div_mod_to_equations; lia. }
  unfold response_io_status.
  pose proof (length_pack_bits 0 0 (block_data mb req) ltac:(lia)) as Hp.
  epose proof (io_status_loop_eq (Z.to_nat (req_quantity req)) (block_table mb req)
    (req_address req - block_start mb req) 0 0
    [req_slave req; req_function req; (req_quantity req + 7) / 8] (replicate 257 0) w) as E.
  destruct Hmb as (M1 & M2 & M3 & M4). unfold in_block in Hin.
  rewrite Z2Nat.id in E by lia. fold (block_data mb req) in E.
  eexists; split; [|apply E].
  - exists (drop (length (pack_bits 0 0 (block_data mb req))) (replicate 257 0)).
    rewrite length_drop, length_replicate, length_app. simpl length.
    split; [|f_equal]; Z.div_mod_to_equations; lia.
  - lia.
  - unfold block_start, block_size, block_table in *; repeat case_match; lia.
  - lia.
  - rewrite length_replicate. Z.div_mod_to_equations; lia.
Qed.

Lemma reply_read_registers_eq mb req w :
  mapping_ok mb -> Forall is_u8 req -> (6 <= length req)%nat ->
  3 <= req_function req <= 4 -> 1 <= req_quantity req <= MODBUS_MAX_READ_REGISTERS ->
  exists r, holds_pdu (read_pdu mb req) r /\
  reply_read_registers req (Sft (req_slave req) (req_function req)) (req_address req) mb w =
  Some (r, w).
Proof.
  intros Hmb Hreq Hlen Hf Hq. unfold reply_read_registers, MODBUS_MAX_READ_REGISTERS in *.
  request_quantity req. cbn [sft_function].
  unfold MODBUS_FC_READ_INPUT_REGISTERS.
  replace (if req_function req =? 4 then start_input_registers mb else start_registers mb)
    with (block_start mb req) by (unfold block_start; repeat case_match; lia).
  replace (if req_function req =? 4 then nb_input_registers mb else nb_registers mb)
    with (block_size mb req) by (unfold block_size; repeat case_match; lia).
  replace (if req_function req =? 4 then tab_input_registers mb else tab_registers mb)
    with (block_table mb req) by (unfold block_table; repeat case_match; try done; lia).
  rewrite (proj2 (Z.ltb_ge _ 1)), (proj2 (Z.ltb_ge 125 _)) by lia. cbv zeta. cbn [orb].
  rewrite out_of_block. unfold read_pdu.
  destruct (in_block mb req) eqn:Hin; cbn [negb]; [|by apply exception_holds_pdu].
  rewrite (proj2 (Z.leb_gt (req_function req) 2)) by lia.
  pose proof (length_block_data mb req Hmb ltac:(lia) ltac:(lia) Hin) as Hbd.
  assert (is_u8 (req_slave req)) by by apply nth_u8.
  assert (is_u8 (req_function req)) by by apply nth_u8.
  erewrite bind_eq by by apply header_eq. cbn [fst snd].
  erewrite bind_eq by by apply wr_here.
  rewrite Z.shiftl_mul_pow2, u8_id by (unfold is_u8; lia).
  replace (req_quantity req * 2 ^ 1) with (2 * req_quantity req) by lia.
  pose proof (length_be_bytes (block_data mb req)) as Hp.
  epose proof (reg_loop_eq (Z.to_nat (req_quantity req)) (block_table mb req)
    (req_address req - block_start mb req)
    [req_slave req; req_function req; 2 * req_quantity req] (replicate 257 0) w) as E.
  destruct Hmb as (M1 & M2 & M3 & M4). unfold in_block in Hin.
  rewrite Z2Nat.id in E by lia. fold (block_data mb req) in E.
  eexists; split; [|apply E].
  - exists (drop (2 * Z.to_nat (req_quantity req)) (replicate 257 0)).
    rewrite length_drop, length_replicate, length_app. simpl length.
    split; [|f_equal]; lia.
  - lia.
  - unfold block_start, block_size, block_table in *; repeat case_match; lia.
  - rewrite length_replicate. lia.
Qed.

Lemma length_read_pdu mb req :
  mapping_ok mb -> 1 <= req_function req <= 4 -> read_quantity_ok req ->
  Z.of_nat (length (read_pdu mb req)) <= 253.
Proof.
  intros Hmb Hf Hq. unfold read_pdu, read_quantity_ok, MODBUS_MAX_READ_BITS,
    MODBUS_MAX_READ_REGISTERS in *.
  destruct (in_block mb req) eqn:Hin; [|simpl; lia].
  pose proof (length_block_data mb req Hmb Hf ltac:(lia) Hin) as Hbd.
  pose proof (length_pack_bits 0 0 (block_data mb req) ltac:(lia)) as Hp.
  pose proof (length_be_bytes (block_data mb req)) as Hr.
  destruct (Z.leb_spec (req_function req) 2); rewrite length_app; simpl length;
    Z.div_mod_to_equations; lia.
Qed.

Lemma modbus_reply_eq c mb req n w :
  mb_connected c = true -> mapping_ok mb -> Forall is_u8 req -> (6 <= length req)%nat ->
  req_slave req <> 0 -> 1 <= req_function req <= 4 -> read_quantity_ok req ->
  modbus_reply (Some c) req n mb w = Some (send_result (rtu_frame (read_pdu mb req)) w).
Proof.
  intros Hc Hmb Hreq Hlen Hs Hf Hq. unfold modbus_reply.
  do 4 (erewrite bind_eq by (apply rd_eq; lia)).
  rewrite shiftl8_add by by apply nth_u8.
  change (Z.to_nat 0) with 0%nat. change (Z.to_nat 1) with 1%nat.
  change (Z.to_nat 2) with 2%nat. change (Z.to_nat 3) with 3%nat.
  fold (req_address req) (req_slave req) (req_function req).
  rewrite (proj2 (Z.eqb_neq (req_slave req) MODBUS_BROADCAST_ADDRESS)) by done.
  pose proof (length_read_pdu mb req Hmb Hf Hq) as Hl.
  assert (exists r, holds_pdu (read_pdu mb req) r /\
    (if (req_function req =? MODBUS_FC_READ_COILS) || (req_function req =? MODBUS_FC_READ_DISCRETE_INPUTS)
     then reply_read_bits req (Sft (req_slave req) (req_function req)) (req_address req) mb
     else if (req_function req =? MODBUS_FC_READ_HOLDING_REGISTERS)
             || (req_function req =? MODBUS_FC_READ_INPUT_REGISTERS)
     then reply_read_registers req (Sft (req_slave req) (req_function req)) (req_address req) mb
     else undefined) w = Some (r, w)) as (r & (rest & Hrest & ->) & E).
  { unfold read_quantity_ok in Hq. unfold MODBUS_FC_READ_COILS, MODBUS_FC_READ_DISCRETE_INPUTS,
      MODBUS_FC_READ_HOLDING_REGISTERS, MODBUS_FC_READ_INPUT_REGISTERS.
    destruct (Z.leb_spec (req_function req) 2).
    - replace ((req_function req =? 1) || (req_function req =? 2)) with true by lia.
      apply reply_read_bits_eq; done || lia.
    - replace ((req_function req =? 1) || (req_function req =? 2)) with false by lia.
      replace ((req_function req =? 3) || (req_function req =? 4)) with true by lia.
      apply reply_read_registers_eq; done || lia. }
  erewrite bind_eq by apply E. cbn [fst snd]. apply send_reply_eq; done || lia.
Qed.

Lemma wp_modbus_reply ctx mb req n Q w :
  ctx_ok ctx -> mapping_ok mb -> Forall is_u8 req -> (6 <= length req)%nat ->
  req_slave req <> 0 -> 1 <= req_function req <= 4 -> read_quantity_ok req ->
  (forall rc e, Q rc (sent_by ctx (rtu_frame (read_pdu mb req)) e w)) ->
  wp (modbus_reply ctx req n mb) Q w.
Proof.
  intros Hc Hmb Hreq Hlen Hs Hf Hq HQ. destruct ctx as [c|]; cbn [ctx_ok sent_by] in *.
  - unfold wp. rewrite modbus_reply_eq by done.
    by destruct (send_result_sent (rtu_frame (read_pdu mb req)) w) as (rc & e & ->).
  - unfold modbus_reply. wp_steps. apply HQ.
Qed.

(** ** Receiving *)

(** Everything that can still arrive before the line changes. *)
Definition bytes_only (e : rx_event) : Prop := match e with RxBytes _ => True | _ => False end.
Definition event_bytes (e : rx_event) : list Z := match e with RxBytes l => l | _ => [] end.
Definition stream (w : world) : list Z := rx_pending w ++ concat (map event_bytes (rx_events w)).

Definition line_ok (w : world) : Prop :=
  Forall is_u8 (rx_pending w) /\ Forall (fun e => Forall is_u8 (event_bytes e)) (rx_events w).

Lemma wait_input_bytes timed es l es' :
  wait_input timed es = (inl l, es') -> Forall (fun e => Forall is_u8 (event_bytes e)) es ->
  l <> [] /\ Forall is_u8 l /\ Forall (fun e => Forall is_u8 (event_bytes e)) es'.
Proof.
  induction es as [|[[|b bs]| | |] es IH]; cbn [wait_input]; intros E H; try discriminate;
    apply Forall_cons_1 in H as [H1 H2]; cbn [event_bytes] in H1.
  - by apply IH.
  - by simplify_eq.
  - destruct timed; [done|by apply IH].
Qed.

Lemma wait_input_error timed es e es' :
  wait_input timed es = (inr e, es') -> Forall (fun e => Forall is_u8 (event_bytes e)) es ->
  Forall (fun e => Forall is_u8 (event_bytes e)) es'.
Proof.
  induction es as [|[[|b bs]| | |] es IH]; simpl; intros E H; simplify_eq; try done;
    (apply Forall_cons_1 in H as [H1 H2]; try done).
  - by apply IH.
  - destruct timed; [by simplify_eq|by apply IH].
Qed.

(** A world that differs only in what the line holds and in [errno]. *)
Definition rx_moved (w w' : world) : Prop :=
  line_ok w' /\ exists p es e, w' = set_errno e (set_rx p es w).

Lemma rx_moved_refl w : line_ok w -> rx_moved w w.
Proof. intros H. split; [done|]. exists (rx_pending w), (rx_events w), (errno w). by destruct w. Qed.

Lemma rx_moved_trans w w' w'' : rx_moved w w' -> rx_moved w' w'' -> rx_moved w w''.
Proof.
  intros [_ (p & es & e & ->)] [H (p' & es' & e' & ->)]. split; [done|].
  by exists p', es', e'.
Qed.

Lemma wp_select_recv timed n (Q : option (list Z) -> world -> Prop) w :
  line_ok w -> 0 < n ->
  (forall w', rx_moved w w' -> Q None w') ->
  (forall bytes w', rx_moved w w' -> Forall is_u8 bytes -> 0 < Z.of_nat (length bytes) <= n ->
    Q (Some bytes) w') ->
  wp (select_recv timed n) Q w.
Proof.
  intros [Hp He] Hn HN HS. unfold wp, select_recv.
  assert (forall l es, l <> [] -> Forall is_u8 l ->
    Forall (fun e => Forall is_u8 (event_bytes e)) es ->
    Q (Some (take (Z.to_nat n) l)) (set_rx (drop (Z.to_nat n) l) es w)) as HT.
  { intros l es Hl Hb Hes. apply HS.
    - split; [by split; [apply Forall_drop|]|].
      exists (drop (Z.to_nat n) l), es, (errno w). by destruct w.
    - by apply Forall_take.
    - rewrite length_take. destruct l; [done|]. simpl length. lia. }
  destruct (rx_pending w) as [|b bs] eqn:E; [|by apply HT].
  destruct (wait_input timed (rx_events w)) as [[l|e] es] eqn:E'.
  - destruct (wait_input_bytes _ _ _ _ E' He) as (H1 & H2 & H3). by apply HT.
  - apply HN. split; [|by exists [], es, e].
    split; [done|]. by apply (wait_input_error _ _ _ _ E').
Qed.

Lemma compute_meta_range f t : 0 <= compute_meta_length_after_function f t <= 9.
Proof. unfold compute_meta_length_after_function. repeat case_match; lia. Qed.

(** A receive buffer. *)
Definition msg_buf (msg : list Z) : Prop := Z.of_nat (length msg) = SZ_RTU_MSGBUF /\ Forall is_u8 msg.

Lemma wp_compute_data_length msg t (Q : Z -> world -> Prop) w :
  msg_buf msg -> (forall n, 2 <= n <= 257 -> Q n w) -> wp (compute_data_length_after_meta msg t) Q w.
Proof.
  intros [Hl Hb] HQ. unfold SZ_RTU_MSGBUF in Hl.
  unfold compute_data_length_after_meta, MODBUS_RTU_HEADER_LENGTH, MODBUS_RTU_CHECKSUM_LENGTH.
  assert (forall i, 0 <= nth i msg 0 <= 255) as Hn.
  { intros i. pose proof (nth_u8 msg i Hb) as H. unfold is_u8 in H. lia. }
  wp_step. apply wp_rd; [lia|]. set (f := nth _ _ _).
  assert (forall i, 0 <= i < 256 -> wp (let* len := rd msg i in ret (len + 2)) Q w) as H1.
  { intros i Hi. wp_step. apply wp_rd; [lia|]. apply wp_ret, HQ. specialize (Hn (Z.to_nat i)). lia. }
  assert (wp (let* len := ret 0 in ret (len + 2)) Q w) as H0 by (wp_steps; apply HQ; lia).
  destruct t; repeat case_match; first [exact H0|apply H1; lia].
Qed.

(** Where each step of the receiver stands: [n] is the length it aims at. *)
Definition step_ok (step : rx_step) (n : Z) : Prop :=
  match step with STEP_FUNCTION => n = 2 | STEP_META => 3 <= n <= 11 | STEP_DATA => 4 <= n <= 256 end.

Lemma rx_moved_errno e w : line_ok w -> rx_moved w (set_errno e w).
Proof.
  intros H. split; [done|]. exists (rx_pending w), (rx_events w), e. by destruct w.
Qed.

Lemma wp_next_phase t step msg n (Q : option (rx_step * Z) -> world -> Prop) w :
  line_ok w -> msg_buf msg -> step_ok step n -> step <> STEP_DATA ->
  (forall w', rx_moved w w' -> Q None w') ->
  (forall step' ltr, 0 < ltr -> step_ok step' (n + ltr) -> Q (Some (step', ltr)) w) ->
  wp (next_phase t step msg n) Q w.
Proof.
  intros Hw Hm Hs Hd HN HS. unfold next_phase, MODBUS_RTU_MAX_ADU_LENGTH.
  assert (2 <= n <= 11) as Hn by (destruct step; simpl in Hs; done || lia).
  assert (wp (let* ltr := compute_data_length_after_meta msg t in
     if 256 <? n + ltr then put_errno EMBBADDATA ;; ret None
     else ret (Some (STEP_DATA, ltr))) Q w) as HD.
  { wp_step. apply wp_compute_data_length; [done|]. intros k Hk.
    destruct (Z.ltb_spec 256 (n + k)); wp_steps; [by apply HN, rx_moved_errno|].
    apply HS; [lia|]. simpl. lia. }
  destruct step; [|exact HD|done]. simpl in Hs.
  wp_step. apply wp_rd; [destruct Hm; unfold SZ_RTU_MSGBUF, MODBUS_RTU_HEADER_LENGTH in *; lia|].
  pose proof (compute_meta_range (nth (Z.to_nat MODBUS_RTU_HEADER_LENGTH) msg 0) t) as Hr.
  destruct (Z.eqb_spec (compute_meta_length_after_function
    (nth (Z.to_nat MODBUS_RTU_HEADER_LENGTH) msg 0) t) 0) as [E|E]; cbn [negb]; [exact HD|].
  wp_steps. apply HS; simpl; lia.
Qed.

Lemma msg_buf_blit msg n bytes :
  msg_buf msg -> Forall is_u8 bytes -> 0 <= n -> n + Z.of_nat (length bytes) <= 256 ->
  msg_buf (take (Z.to_nat n) msg ++ bytes ++ drop (Z.to_nat (n + Z.of_nat (length bytes))) msg).
Proof.
  intros [Hl Hb] Hy Hn Hle. unfold msg_buf, SZ_RTU_MSGBUF in *. split.
  - rewrite length_blit by lia. done.
  - apply Forall_app_2; [by apply Forall_take|].
    apply Forall_app_2; [done|by apply Forall_drop].
Qed.

Lemma slice_all (l : list Z) : slice l 0 (Z.of_nat (length l)) = l.
Proof. unfold slice. by rewrite Nat2Z.id, drop_0, take_ge by lia. Qed.

(** The receiver always terminates within its fuel, stays inside the buffer
    and returns messages of 4 to 256 bytes. *)
Lemma wp_receive_loop fuel t timed step msg n ltr (Q : list Z * option Z -> world -> Prop) w :
  line_ok w -> msg_buf msg -> 0 <= n -> 0 < ltr -> step_ok step (n + ltr) ->
  256 < n + Z.of_nat fuel ->
  (forall msg' w', rx_moved w w' -> msg_buf msg' -> Q (msg', None) w') ->
  (forall msg' k w', rx_moved w w' -> msg_buf msg' -> 4 <= k <= 256 -> Q (msg', Some k) w') ->
  wp (receive_loop fuel t timed step msg n ltr) Q w.
Proof.
  revert timed step msg n ltr w. induction fuel as [|fuel IH];
    intros timed step msg n ltr w Hw Hm Hn Hltr Hs Hf HN HS.
  { destruct step; simpl in Hs; lia. }
  assert (n + ltr <= 256) as Hle by (destruct step; simpl in Hs; lia).
  cbn [receive_loop]. rewrite (proj2 (Z.eqb_neq ltr 0)) by lia.
  wp_step. apply wp_select_recv; [done..| |].
  { intros w' Hw'. apply wp_ret. by apply HN. }
  intros bytes w' Hw' Hy Hlen. pose proof (proj1 Hw') as Hok.
  assert (Z.of_nat (length msg) = 256) as Hml by apply Hm.
  wp_step. apply wp_memcpy; [lia..|].
  rewrite slice_all.
  pose proof (msg_buf_blit msg n bytes Hm Hy Hn ltac:(lia)) as Hm2.
  set (msg2 := take _ _ ++ _) in *. set (rc := Z.of_nat (length bytes)) in *.
  assert (forall m' w2, rx_moved w' w2 -> msg_buf m' -> Q (m', None) w2) as HN'.
  { intros m' w2 H2. apply HN. by eapply rx_moved_trans. }
  assert (forall m' k w2, rx_moved w' w2 -> msg_buf m' -> 4 <= k <= 256 -> Q (m', Some k) w2) as HS'.
  { intros m' k w2 H2. apply HS. by eapply rx_moved_trans. }
  destruct (Z.eqb_spec (ltr - rc) 0) as [E|E]; cbn [negb].
  2: { apply IH; try done; [lia..| |lia]. by replace (n + rc + (ltr - rc)) with (n + ltr) by lia. }
  replace (n + ltr) with (n + rc) in Hs by lia. wp_step.
  destruct step.
  3: { simpl. apply wp_ret. destruct fuel; simpl; apply wp_ret; apply HS'; simpl in Hs; try done;
       by apply rx_moved_refl. }
  all: apply wp_next_phase; [done..| |].
  all: try (intros w2 H2; apply wp_ret; by apply HN').
  all: intros step' k Hk Hs'; apply IH; try done; lia.
Qed.

(** ** The integrity check *)

Definition crc_valid (msg : list Z) (n : Z) : Prop :=
  crc_of (take (Z.to_nat (n - 2)) msg) =
  be16 (nth (Z.to_nat (n - 1)) msg 0) (nth (Z.to_nat (n - 2)) msg 0).

#[global] Instance crc_valid_dec msg n : Decision (crc_valid msg n).
Proof. unfold crc_valid. apply _. Defined.

Lemma check_integrity_eq c msg n w :
  4 <= n <= Z.of_nat (length msg) -> n < 65536 ->
  modbus_rtu_check_integrity c msg n w =
  if bool_decide (crc_valid msg n)
  then if negb (nth 0 msg 0 =? mb_slave c) && negb (nth 0 msg 0 =? MODBUS_BROADCAST_ADDRESS)
       then Some (0, w) else Some (n, w)
  else Some (-1, set_errno EMBBADCRC w).
Proof.
  intros Hn Hn2. unfold modbus_rtu_check_integrity.
  erewrite bind_eq by (apply rd_eq; lia). erewrite bind_eq by (apply crc16_eq; lia).
  do 2 (erewrite bind_eq by (apply rd_eq; lia)). change (Z.to_nat 0) with 0%nat.
  unfold crc_valid. case_bool_decide as E; [rewrite E, Z.eqb_refl|rewrite (proj2 (Z.eqb_neq _ _) E)];
    cbn [negb]; [|done].
  by destruct (_ && _).
Qed.

(** What a successful receive promises to the slave. *)
Definition received_ok (ctx : option modbus_t) (msg : list Z) (rc : Z) : Prop :=
  rc <= 256 /\
  (0 < rc -> exists c, ctx = Some c /\ 4 <= rc /\ crc_valid msg rc /\
     (nth 0 msg 0 = mb_slave c \/ nth 0 msg 0 = MODBUS_BROADCAST_ADDRESS)).

(** The same context, whichever confirmation it expects. *)
Definition same_ctx (ctx ctx' : option modbus_t) : Prop :=
  match ctx, ctx' with
  | None, None => True
  | Some c, Some c' => exists b, c' = set_confirmation_to_ignore b c
  | _, _ => False
  end.

Lemma same_ctx_refl ctx : same_ctx ctx ctx.
Proof. destruct ctx as [c|]; [|done]. exists (confirmation_to_ignore c). by destruct c. Qed.

Lemma wp_receive_msg c msg t (Q : list Z * Z -> world -> Prop) w :
  mb_connected c = true -> line_ok w -> msg_buf msg ->
  (forall msg' rc w', rx_moved w w' -> msg_buf msg' -> received_ok (Some c) msg' rc ->
     Q (msg', rc) w') ->
  wp (modbus_receive_msg c msg t) Q w.
Proof.
  intros Hc Hw Hm HQ. unfold modbus_receive_msg. rewrite Hc. cbn [negb].
  wp_step. apply wp_receive_loop; [done|done|lia|by vm_compute|done|by vm_compute| |].
  - intros msg' w' Hw' Hm'. cbn [fst snd]. apply wp_ret. apply HQ; [done..|]. split; [lia|lia].
  - intros msg' k w' Hw' Hm' Hk. cbn [fst snd]. wp_step.
    pose proof (proj1 Hm') as Hl. unfold SZ_RTU_MSGBUF in Hl.
    unfold wp. rewrite check_integrity_eq by lia.
    case_bool_decide as Hcrc.
    + destruct (negb _ && _) eqn:E.
      * apply HQ; [done..|]. split; lia.
      * apply HQ; [done..|]. split; [lia|]. intros _. exists c.
        split; [done|]. split; [lia|]. split; [done|].
        apply andb_false_iff in E as [E|E]; apply negb_false_iff, Z.eqb_eq in E; auto.
    + apply HQ; [|done|].
      * eapply rx_moved_trans; [done|]. apply rx_moved_errno. apply Hw'.
      * split; lia.
Qed.

Lemma wp_modbus_receive ctx req (Q : list Z * option modbus_t * Z -> world -> Prop) w :
  ctx_ok ctx -> line_ok w -> msg_buf req ->
  (forall msg ctx' rc w', rx_moved w w' -> msg_buf msg -> same_ctx ctx ctx' ->
     received_ok ctx msg rc -> Q (msg, ctx', rc) w') ->
  wp (modbus_receive ctx req) Q w.
Proof.
  intros Hc Hw Hm HQ. destruct ctx as [c|]; cbn [ctx_ok modbus_receive] in *.
  2: { wp_steps. apply HQ; [by apply rx_moved_errno|done|done|split; lia]. }
  wp_step. unfold modbus_rtu_receive. destruct (confirmation_to_ignore c).
  - wp_step. apply wp_receive_msg; [done..|]. intros msg rc w' Hw' Hm' Hr. wp_steps.
    apply HQ; [done..| |].
    + by exists false.
    + cbn [fst snd]. split; lia.
  - wp_step. apply wp_receive_msg; [done..|]. intros msg rc w' Hw' Hm' Hr. wp_steps.
    apply HQ; [done..| |done]. cbn [snd].
    destruct (rc =? 0); [by exists true|apply same_ctx_refl].
Qed.

(** ** Framing does not depend on how the bytes arrive *)

(** The data bytes a request announces, and the length of its frame. *)
Definition request_data_length (l : list Z) : Z :=
  let f := nth 1 l 0 in
  if (f =? MODBUS_FC_WRITE_MULTIPLE_COILS) || (f =? MODBUS_FC_WRITE_MULTIPLE_REGISTERS)
  then nth 6 l 0
  else if f =? MODBUS_FC_WRITE_AND_READ_REGISTERS then nth 10 l 0
  else if f =? MODBUS_FC_READ_FILE_RECORD then nth 2 l 0
  else 0.

Definition request_meta_length (l : list Z) : Z :=
  compute_meta_length_after_function (nth 1 l 0) MSG_INDICATION.

Definition request_length (l : list Z) : Z :=
  2 + request_meta_length l + request_data_length l + 2.

(** The length each step of the receiver aims at. *)
Definition step_target (step : rx_step) (s : list Z) : Z :=
  match step with
  | STEP_FUNCTION => 2
  | STEP_META => 2 + request_meta_length s
  | STEP_DATA => request_length s
  end.

Definition line_bytes (w : world) : Prop := Forall bytes_only (rx_events w).

(** [msg] starts with the first [n] bytes of [s]. *)
Definition agrees (n : Z) (msg s : list Z) : Prop := take (Z.to_nat n) msg = take (Z.to_nat n) s.

Lemma agrees_nth n msg s i : agrees n msg s -> (Z.of_nat i < n) -> nth i msg 0 = nth i s 0.
Proof.
  intros H Hi. unfold agrees in H.
  rewrite !nth_lookup. rewrite <- (lookup_take_lt msg (Z.to_nat n) i) by lia.
  rewrite <- (lookup_take_lt s (Z.to_nat n) i) by lia. by rewrite H.
Qed.

Lemma wait_input_stream timed es :
  Forall bytes_only es -> concat (map event_bytes es) <> [] ->
  exists l es', wait_input timed es = (inl l, es') /\ l <> [] /\ Forall bytes_only es' /\
    concat (map event_bytes es) = l ++ concat (map event_bytes es').
Proof.
  induction es as [|[[|b bs]| | |] es IH]; intros H Hne; apply Forall_cons_1 in H as [H1 H2] || done;
    try done.
  - by apply IH.
  - by exists (b :: bs), es.
Qed.

Lemma select_recv_stream timed n w :
  line_bytes w -> stream w <> [] -> 0 < n ->
  exists bytes w', select_recv timed n w = Some (Some bytes, w') /\
    0 < Z.of_nat (length bytes) <= n /\ stream w = bytes ++ stream w' /\ line_bytes w' /\
    exists p es, w' = set_rx p es w.
Proof.
  intros Hw Hne Hn. unfold select_recv, stream in *.
  assert (forall l : list Z, l <> [] ->
    0 < Z.of_nat (length (take (Z.to_nat n) l)) <= n) as HL.
  { intros l Hl. rewrite length_take. destruct l; [done|]. simpl length. lia. }
  destruct (rx_pending w) as [|b bs] eqn:E.
  - destruct (wait_input_stream timed (rx_events w) Hw Hne) as (l & es & -> & Hl & Hes & ->).
    exists (take (Z.to_nat n) l), (set_rx (drop (Z.to_nat n) l) es w).
    split; [done|]. split; [by apply HL|]. split; [simpl; by rewrite app_assoc, take_drop|].
    split; [done|]. eauto.
  - exists (take (Z.to_nat n) (b :: bs)), (set_rx (drop (Z.to_nat n) (b :: bs)) (rx_events w) w).
    split; [done|]. split; [by apply HL|]. split; [simpl; by rewrite app_assoc, take_drop|].
    split; [done|]. eauto.
Qed.

Lemma compute_data_length_eq n msg s w :
  msg_buf msg -> agrees n msg s -> 2 + request_meta_length s <= n ->
  compute_data_length_after_meta msg MSG_INDICATION w = Some (request_data_length s + 2, w).
Proof.
  intros [Hl Hb] Ha Hn. unfold SZ_RTU_MSGBUF in Hl.
  unfold compute_data_length_after_meta, MODBUS_RTU_HEADER_LENGTH.
  erewrite bind_eq by (apply rd_eq; lia). change (Z.to_nat 1) with 1%nat.
  unfold request_data_length, request_meta_length, compute_meta_length_after_function in *.
  unfold MODBUS_FC_WRITE_MULTIPLE_COILS, MODBUS_FC_WRITE_MULTIPLE_REGISTERS,
    MODBUS_FC_WRITE_AND_READ_REGISTERS, MODBUS_FC_READ_FILE_RECORD,
    MODBUS_FC_WRITE_SINGLE_REGISTER, MODBUS_FC_MASK_WRITE_REGISTER, MODBUS_FC_DIAGNOSTIC in *.
  assert (nth 1 msg 0 = nth 1 s 0) as -> by
    (apply (agrees_nth n); [done|]; repeat case_match; lia).
  set (f := nth 1 s 0) in *.
  destruct (Z.eqb_spec f 15); [|destruct (Z.eqb_spec f 16); [|destruct (Z.eqb_spec f 23);
    [|destruct (Z.eqb_spec f 20)]]]; cbn [orb];
    try (erewrite bind_eq by (apply rd_eq; lia); simpl Z.to_nat;
         rewrite (agrees_nth n msg s) by (done || (repeat case_match; lia)); done).
  done.
Qed.

Lemma nth_byte_range (s : list Z) i : Forall is_u8 s -> 0 <= nth i s 0 <= 255.
Proof. intros H. pose proof (nth_u8 s i H) as B. unfold is_u8 in B. lia. Qed.

Lemma request_lengths s : Forall is_u8 s ->
  0 <= request_meta_length s <= 9 /\ 0 <= request_data_length s <= 255.
Proof.
  intros H. split; [apply compute_meta_range|].
  unfold request_data_length. repeat case_match; try apply nth_byte_range; done || lia.
Qed.

Lemma next_phase_eq step n msg s w :
  msg_buf msg -> Forall is_u8 s -> agrees n msg s -> n = step_target step s ->
  request_length s <= 256 -> step <> STEP_DATA ->
  exists step', next_phase MSG_INDICATION step msg n w =
    Some (Some (step', step_target step' s - n), w) /\ n < step_target step' s.
Proof.
  intros Hm Hs Ha -> Hle Hd. pose proof (request_lengths s Hs) as [Hr1 Hr2].
  unfold request_length in Hle.
  assert (forall k, 2 + request_meta_length s = k -> agrees k msg s ->
    (let* ltr := compute_data_length_after_meta msg MSG_INDICATION in
     if MODBUS_RTU_MAX_ADU_LENGTH <? k + ltr then put_errno EMBBADDATA ;; ret None
     else ret (Some (STEP_DATA, ltr))) w = Some (Some (STEP_DATA, request_length s - k), w)) as HD.
  { intros k Hk Ha'. erewrite bind_eq by (eapply compute_data_length_eq; done || lia).
    unfold MODBUS_RTU_MAX_ADU_LENGTH. rewrite (proj2 (Z.ltb_ge _ _)) by lia.
    unfold ret. repeat f_equal. unfold request_length. lia. }
  destruct step; cbn [step_target] in *; [|exists STEP_DATA|done].
  - unfold next_phase. pose proof (proj1 Hm) as Hl. unfold SZ_RTU_MSGBUF in Hl.
    erewrite bind_eq by (apply rd_eq; unfold MODBUS_RTU_HEADER_LENGTH; lia).
    change (nth (Z.to_nat MODBUS_RTU_HEADER_LENGTH) msg 0) with (nth 1 msg 0).
    rewrite (agrees_nth 2 msg s) by done. fold (request_meta_length s).
    destruct (Z.eqb_spec (request_meta_length s) 0) as [E|E]; cbn [negb].
    + exists STEP_DATA. split; [|cbn [step_target]; unfold request_length; lia].
      apply HD; [lia|done].
    + exists STEP_META. split; [|cbn [step_target]; lia].
      unfold ret. repeat f_equal. cbn [step_target]. lia.
  - cbn [step_target]. split; [by apply HD|unfold request_length; lia].
Qed.

Lemma agrees_blit n msg s bytes rest :
  agrees n msg s -> Z.of_nat (length msg) = 256 -> 0 <= n -> n + Z.of_nat (length bytes) <= 256 ->
  drop (Z.to_nat n) s = bytes ++ rest ->
  agrees (n + Z.of_nat (length bytes))
    (take (Z.to_nat n) msg ++ bytes ++ drop (Z.to_nat (n + Z.of_nat (length bytes))) msg) s.
Proof.
  unfold agrees. intros Ha Hl Hn Hle Hd.
  assert (length (take (Z.to_nat n) msg) = Z.to_nat n) as L by (rewrite length_take; lia).
  assert (s = (take (Z.to_nat n) s ++ bytes) ++ rest) as S
    by (rewrite <- app_assoc, <- Hd; by rewrite take_drop).
  rewrite app_assoc. rewrite take_app_length' by (rewrite length_app, L; lia).
  rewrite Ha in L |- *. rewrite S at 2.
  by rewrite take_app_length' by (rewrite length_app, L; lia).
Qed.

(** Once the whole frame is on the line, the receiver takes exactly the frame. *)
Lemma receive_loop_frame fuel timed step msg n s w :
  line_bytes w -> Forall is_u8 s -> request_length s <= Z.of_nat (length s) ->
  request_length s <= 256 -> stream w = drop (Z.to_nat n) s ->
  msg_buf msg -> agrees n msg s -> 0 <= n < step_target step s -> 256 < n + Z.of_nat fuel ->
  exists msg' w', receive_loop fuel MSG_INDICATION timed step msg n (step_target step s - n) w =
      Some ((msg', Some (request_length s)), w') /\
    msg_buf msg' /\ agrees (request_length s) msg' s /\
    stream w' = drop (Z.to_nat (request_length s)) s /\ line_bytes w' /\
    exists p es, w' = set_rx p es w.
Proof.
  revert timed step msg n w. induction fuel as [|fuel IH];
    intros timed step msg n w Hw Hs Hlen Hle Hst Hm Ha Hn Hf.
  all: pose proof (request_lengths s Hs) as [Hr1 Hr2].
  all: assert (step_target step s <= request_length s) as Htl by
    (destruct step; cbn [step_target]; unfold request_length in *; lia).
  { lia. }
  cbn [receive_loop]. rewrite (proj2 (Z.eqb_neq (_ - n) 0)) by lia.
  destruct (select_recv_stream timed (step_target step s - n) w) as
    (bytes & w1 & E & Hb & Hst1 & Hw1 & Hex); [done| |lia|].
  { rewrite Hst. intros E. apply (f_equal length) in E. rewrite length_drop in E.
    simpl length in E. lia. }
  erewrite bind_eq by apply E. cbv zeta.
  pose proof (proj1 Hm) as Hml. unfold SZ_RTU_MSGBUF in Hml.
  cbv iota beta. erewrite bind_eq by (apply memcpy_eq; lia). rewrite slice_all.
  rewrite Hst in Hst1.
  pose proof (agrees_blit n msg s bytes _ Ha Hml ltac:(lia) ltac:(lia) Hst1) as Ha2.
  assert (Forall is_u8 bytes) as Hby.
  { assert (Forall is_u8 (drop (Z.to_nat n) s)) as H by by apply Forall_drop.
    rewrite Hst1 in H. by apply Forall_app in H as [H _]. }
  pose proof (msg_buf_blit msg n bytes Hm Hby ltac:(lia) ltac:(lia)) as Hm2.
  set (msg2 := take _ _ ++ _) in *. set (rc := Z.of_nat (length bytes)) in *.
  assert (stream w1 = drop (Z.to_nat (n + rc)) s) as Hst2.
  { replace (Z.to_nat (n + rc)) with (Z.to_nat n + length bytes)%nat by lia.
    rewrite <- drop_drop, Hst1. by rewrite drop_app_length. }
  assert (forall step', n + rc < step_target step' s ->
    exists msg' w', receive_loop fuel MSG_INDICATION true step' msg2 (n + rc)
      (step_target step' s - (n + rc)) w1 = Some ((msg', Some (request_length s)), w') /\
    msg_buf msg' /\ agrees (request_length s) msg' s /\
    stream w' = drop (Z.to_nat (request_length s)) s /\ line_bytes w' /\
    exists p es, w' = set_rx p es w) as Hrec.
  { intros step' Hlt. destruct (IH true step' msg2 (n + rc) w1) as
      (m & w' & E' & H1 & H2 & H3 & H4 & p & es & ->); try done; try lia.
    exists m, (set_rx p es w1). repeat (split; [done|]). destruct Hex as (p' & es' & ->). eauto. }
  destruct (Z.eqb_spec (step_target step s - n - rc) 0) as [E0|E0]; cbn [negb].
  2: { replace (step_target step s - n - rc) with (step_target step s - (n + rc)) by lia.
       apply Hrec. lia. }
  assert (n + rc = step_target step s) as Htgt by lia.
  destruct (decide (step = STEP_DATA)) as [->|Hd].
  - cbn [next_phase step_target] in *. erewrite bind_eq by done.
    exists msg2, w1. rewrite Htgt in *. destruct fuel; (split; [done|]); eauto 6.
  - destruct (next_phase_eq step (n + rc) msg2 s w1) as (step' & E' & Hlt); [done..|].
    erewrite bind_eq by apply E'. by apply Hrec.
Qed.

Lemma crc_valid_agrees n msg s : 2 <= n -> agrees n msg s -> crc_valid msg n <-> crc_valid s n.
Proof.
  intros Hn H. unfold crc_valid.
  assert (agrees (n - 2) msg s) as H2.
  { unfold agrees in *. apply (f_equal (take (Z.to_nat (n - 2)))) in H.
    rewrite !take_take in H. by replace (Z.to_nat (n - 2) `min` Z.to_nat n)%nat
      with (Z.to_nat (n - 2)) in H by lia. }
  unfold agrees in H2. by rewrite H2, !(agrees_nth n msg s) by (done || lia).
Qed.

(** The answer of the integrity check to the [n] bytes at the head of [s]. *)
Definition integrity (c : modbus_t) (s : list Z) (n : Z) : Z :=
  if bool_decide (crc_valid s n)
  then if (nth 0 s 0 =? mb_slave c) || (nth 0 s 0 =? MODBUS_BROADCAST_ADDRESS) then n else 0
  else -1.

Lemma receive_msg_frame c s w :
  mb_connected c = true -> line_bytes w -> Forall is_u8 s -> stream w = s ->
  request_length s <= Z.of_nat (length s) -> request_length s <= MODBUS_RTU_MAX_ADU_LENGTH ->
  exists msg w', modbus_receive_msg c (zeros SZ_RTU_MSGBUF) MSG_INDICATION w =
      Some ((msg, integrity c s (request_length s)), w') /\
    msg_buf msg /\ agrees (request_length s) msg s /\
    stream w' = drop (Z.to_nat (request_length s)) s /\ line_bytes w' /\
    exists p es e, w' = set_errno e (set_rx p es w).
Proof.
  intros Hc Hw Hs Hst Hlen Hle. unfold modbus_receive_msg. rewrite Hc. cbn [negb].
  pose proof (request_lengths s Hs) as [Hr1 Hr2].
  destruct (receive_loop_frame RECEIVE_FUEL (negb (is_indication MSG_INDICATION)) STEP_FUNCTION
    (zeros SZ_RTU_MSGBUF) 0 s w) as (msg & w' & E & Hm & Ha & Hst' & Hl' & p & es & ->);
    try done.
  { split; [done|]. apply Forall_u8_replicate. }
  cbn [step_target] in E. erewrite bind_eq by apply E. cbn [fst snd].
  assert (4 <= request_length s) as Hge by (unfold request_length; lia).
  pose proof (proj1 Hm) as Hml. unfold SZ_RTU_MSGBUF, MODBUS_RTU_MAX_ADU_LENGTH in *.
  unfold bind. rewrite check_integrity_eq by lia.
  rewrite (agrees_nth (request_length s) msg s 0) by (done || lia). unfold integrity.
  rewrite (bool_decide_ext _ _ (crc_valid_agrees (request_length s) msg s ltac:(lia) Ha)).
  case_bool_decide as Hv.
  - rewrite <- negb_orb. exists msg, (set_rx p es w).
    split; [by destruct (_ || _)|]. do 4 (split; [done|]).
    exists p, es, (errno w). by destruct w.
  - exists msg, (set_errno EMBBADCRC (set_rx p es w)). do 5 (split; [done|]).
    by exists p, es, EMBBADCRC.
Qed.

(** C15: what the receiver returns depends on the bytes of the line only, not
    on how they arrive: however the bytes of a request are split into bursts,
    [modbus_receive] takes exactly the bytes of the frame whose length the
    function code announces, leaves the rest on the line, and returns the
    length of the frame, 0 for another slave's frame, or -1 for a bad CRC. *)
Theorem modbus_receive_frame c s w :
  mb_connected c = true -> confirmation_to_ignore c = false ->
  line_bytes w -> Forall is_u8 s -> stream w = s ->
  request_length s <= Z.of_nat (length s) -> request_length s <= MODBUS_RTU_MAX_ADU_LENGTH ->
  exists msg w', modbus_receive (Some c) (zeros SZ_RTU_MSGBUF) w =
      Some ((msg, Some (if integrity c s (request_length s) =? 0
                        then set_confirmation_to_ignore true c else c),
             integrity c s (request_length s)), w') /\
    take (Z.to_nat (request_length s)) msg = take (Z.to_nat (request_length s)) s /\
    stream w' = drop (Z.to_nat (request_length s)) s /\ line_bytes w'.
Proof.
  intros Hc Hi Hw Hs Hst Hlen Hle. unfold modbus_receive, modbus_rtu_receive. rewrite Hi.
  destruct (receive_msg_frame c s w) as (msg & w' & E & _ & Ha & Hst' & Hl & _); [done..|].
  exists msg, w'. split; [|done]. unfold bind. by rewrite E.
Qed.

Definition example_ctx : modbus_t := Ctx 17 true false 9600 78 8 1.
Definition example_world (events : list rx_event) : world :=
  World (Controller SMODE_ACTIVE 17 (Some example_ctx)
           (PortConf 9600 PARITY_NONE SBIT_1 17 REG_MD_EXTENSIBLE) false MBUS_BORDER_CDAB []
           (StateSet 0 0 0 0 0 0 0 0 0 0 (zeros MAX_COMM_EVENT_LOG) 0 0 0) 0 []
           (GwConf 0 0 (ModbusConfig 9600 17 0 0 0) []) 0 false [] 0 false 0 false)
    0 [] [] [] events (RegMapInfo false 0 0 [] 0 [] 0 0 0)
    (Oracle (fun _ => 0) (fun _ => WAll) (fun _ => true) (fun _ => true) (fun _ => true)) 0.

Lemma modbus_receive_frame_witness :
  exists msg w', modbus_receive (Some example_ctx) (zeros SZ_RTU_MSGBUF)
      (example_world [RxBytes [17]; RxBytes [3; 0]; RxBytes [0x6B; 0; 3; 0x76; 0x87; 99]]) =
      Some ((msg, Some example_ctx, 8), w') /\
    take 8 msg = [17; 3; 0; 0x6B; 0; 3; 0x76; 0x87] /\ stream w' = [99] /\ line_bytes w'.
Proof.
  apply (modbus_receive_frame example_ctx [17; 3; 0; 0x6B; 0; 3; 0x76; 0x87; 99]);
    try (vm_compute; congruence); repeat constructor; unfold is_u8; lia.
Defined.

Lemma rtu_frame_valid p rest : Forall is_u8 p ->
  crc_valid (rtu_frame p ++ rest) (Z.of_nat (length p) + 2).
Proof.
  intros Hp. unfold crc_valid, rtu_frame.
  replace (Z.to_nat (Z.of_nat (length p) + 2 - 2)) with (length p + 0)%nat by lia.
  replace (Z.to_nat (Z.of_nat (length p) + 2 - 1)) with (length p + 1)%nat by lia.
  rewrite <- app_assoc, take_app_add, !app_nth2_plus. cbn [take app nth].
  rewrite app_nil_r.
  by rewrite be16_hi_lo by auto with words.
Qed.

(** a message sent by the slave comes back through the integrity check of
    a receiver with the same address: the two checksum bytes the sender
    appends (low byte first) are the ones the receiver expects. *)
Theorem send_then_check c p pad w :
  Forall is_u8 p -> 2 <= Z.of_nat (length p) <= 254 -> nth 0 p 0 = mb_slave c ->
  exists frame, modbus_rtu_send_msg_pre (p ++ 0 :: 0 :: pad) (Z.of_nat (length p)) w =
      Some ((frame, Z.of_nat (length p) + 2), w) /\
    modbus_rtu_check_integrity c frame (Z.of_nat (length p) + 2) w =
      Some (Z.of_nat (length p) + 2, w).
Proof.
  intros Hp Hl Hs. exists (rtu_frame p ++ pad). split; [apply send_msg_pre_eq; lia|].
  pose proof (length_rtu_frame p) as L.
  rewrite check_integrity_eq by (rewrite ?length_app; lia).
  rewrite bool_decide_eq_true_2 by by apply rtu_frame_valid.
  unfold rtu_frame. rewrite <- app_assoc, app_nth1, Hs, Z.eqb_refl by lia. done.
Qed.

Lemma send_then_check_witness :
  exists frame, modbus_rtu_send_msg_pre [17; 3; 2; 0xAE; 0x41; 0; 0; 0] 5 (example_world []) =
      Some ((frame, 7), example_world []) /\
    modbus_rtu_check_integrity example_ctx frame 7 (example_world []) =
      Some (7, example_world []).
Proof.
  apply (send_then_check example_ctx [17; 3; 2; 0xAE; 0x41] [0]);
    [repeat constructor; unfold is_u8; lia|simpl; lia|reflexivity].
Defined.

Lemma crc_valid_crc pre b post n : Forall is_u8 (pre ++ b :: post) ->
  Z.of_nat (length (pre ++ b :: post)) = n ->
  crc_valid (pre ++ b :: post) n -> (2 <= length post)%nat ->
  crc_of (pre ++ b :: take (length post - 2) post) =
  be16 (nth 1 (drop (length post - 2) post) 0) (nth 0 (drop (length post - 2) post) 0).
Proof.
  intros Hb Hn Hv Hp. unfold crc_valid in Hv. rewrite length_app in Hn. simpl length in Hn.
  replace (Z.to_nat (n - 2)) with (length pre + S (length post - 2))%nat in Hv by lia.
  replace (Z.to_nat (n - 1)) with (length pre + S (S (length post - 2)))%nat in Hv by lia.
  rewrite take_app_add, !app_nth2_plus in Hv. cbn [take nth] in Hv.
  rewrite Hv. f_equal; rewrite !nth_lookup, lookup_drop; do 3 f_equal; lia.
Qed.

(** a frame in which one byte of the message was corrupted on the line is
    refused: the integrity check returns -1 and sets [errno] to [EMBBADCRC]. *)
Theorem corrupted_byte_refused c pre b b' post w :
  Forall is_u8 (pre ++ b :: post) -> is_u8 b' -> b <> b' ->
  (2 <= length post)%nat -> 4 <= Z.of_nat (length (pre ++ b :: post)) <= 256 ->
  crc_valid (pre ++ b :: post) (Z.of_nat (length (pre ++ b :: post))) ->
  modbus_rtu_check_integrity c (pre ++ b' :: post) (Z.of_nat (length (pre ++ b :: post))) w =
  Some (-1, set_errno EMBBADCRC w).
Proof.
  intros Hb Hb' Hne Hp Hl Hv.
  assert (length (pre ++ b' :: post) = length (pre ++ b :: post)) as L by by rewrite !length_app.
  rewrite check_integrity_eq by lia. rewrite bool_decide_eq_false_2; [done|]. intros Hv'.
  apply crc_valid_crc in Hv; [|done..].
  apply Forall_app in Hb as [H1 H2]. apply Forall_cons_1 in H2 as [H2 H3].
  apply crc_valid_crc in Hv'; [|by apply Forall_app_2; [|constructor]|by rewrite L|done].
  rewrite <- Hv in Hv'. symmetry in Hv'. revert Hv'.
  apply crc_byte_error; auto. by apply Forall_take.
Qed.

Lemma corrupted_byte_refused_witness :
  modbus_rtu_check_integrity example_ctx ([17; 3] ++ 1 :: [0x6B; 0; 3; 0x76; 0x87]) 8
    (example_world []) = Some (-1, set_errno EMBBADCRC (example_world [])).
Proof.
  apply (corrupted_byte_refused example_ctx [17; 3] 0 1 [0x6B; 0; 3; 0x76; 0x87]);
    try (vm_compute; congruence).
  - repeat constructor; unfold is_u8; lia.
  - split; lia.
  - simpl; lia.
  - simpl; lia.
Defined.

(** [modbus_reply] answers each of the four read functions with exactly
    the addressed slice of the mapping, encoded as the protocol wants it
    (registers high byte first, bits packed low bit first), or with exception
    2 when the range leaves the mapping, and one frame with a valid checksum
    reaches the line. *)
Theorem modbus_reply_reads c mb req n w :
  mb_connected c = true -> mapping_ok mb -> Forall is_u8 req -> (6 <= length req)%nat ->
  req_slave req <> 0 -> 1 <= req_function req <= 4 -> read_quantity_ok req ->
  o_write (os w) (tick w) = WAll ->
  modbus_reply (Some c) req n mb w =
  Some (Z.of_nat (length (read_pdu mb req)) + 2,
        next_tick (set_tx (tx w ++ [rtu_frame (read_pdu mb req)]) w)).
Proof.
  intros Hc Hmb Hreq Hlen Hs Hf Hq Hw. rewrite modbus_reply_eq by done.
  unfold send_result. rewrite Hw, length_rtu_frame. do 3 f_equal. lia.
Qed.

Definition example_mapping : modbus_mapping_t :=
  Mapping 0 0 0 0 0 0 4 0x80 [] [] [] [0x0102; 0xFFFE; 7; 8].

Lemma modbus_reply_reads_witness :
  modbus_reply (Some example_ctx) [17; 3; 0; 0x81; 0; 2; 0; 0] 8 example_mapping (example_world []) =
  Some (9, next_tick (set_tx [rtu_frame [17; 3; 4; 0xFF; 0xFE; 0; 7]] (example_world []))).
Proof.
  apply (modbus_reply_reads example_ctx example_mapping [17; 3; 0; 0x81; 0; 2; 0; 0] 8
    (example_world [])); try (vm_compute; congruence).
  - by repeat split.
  - repeat constructor; unfold is_u8; lia.
  - simpl; lia.
  - vm_compute; split; congruence.
  - vm_compute; split; congruence.
Defined.

(** ** Packed bits *)

Lemma lor_bit_testbit acc b shift j : 0 <= shift -> 0 <= acc < 2 ^ shift -> b = 0 \/ b = 1 -> 0 <= j ->
  Z.testbit (Z.lor acc (Z.shiftl b shift)) j =
  if j <? shift then Z.testbit acc j else if j =? shift then b =? 1 else false.
Proof.
  intros Hs Ha Hb Hj. rewrite Z.lor_spec.
  destruct (Z.ltb_spec j shift); [by rewrite Z.shiftl_spec_low, orb_false_r by lia|].
  rewrite (Z.shiftl_spec_high _ _ _ Hj) by lia.
  replace (Z.testbit acc j) with false.
  2: { destruct (Z.eq_dec acc 0) as [->|]; [by rewrite Z.bits_0|]. symmetry.
       apply Z.bits_above_log2; [lia|]. apply Z.log2_lt_pow2; [lia|].
       eapply Z.lt_le_trans; [apply Ha|]. apply Z.pow_le_mono_r; lia. }
  destruct (Z.eqb_spec j shift) as [->|]; [rewrite Z.sub_diag; by destruct Hb as [->| ->]|].
  destruct Hb as [->| ->]; [by rewrite Z.bits_0|]. simpl orb.
  change 1 with (2 ^ 0). apply Z.pow2_bits_false. lia.
Qed.

Lemma lor_bit_bound acc b shift : 0 <= shift -> 0 <= acc < 2 ^ shift -> b = 0 \/ b = 1 ->
  0 <= Z.lor acc (Z.shiftl b shift) < 2 ^ (shift + 1).
Proof.
  intros Hs Ha Hb. rewrite Z.lor_comm, lor_shiftl_add by done.
  rewrite Z.pow_add_r by lia. destruct Hb as [->| ->]; lia.
Qed.

Lemma nth_cons_S {A} n (x : A) l d : nth (S n) (x :: l) d = nth n l d.
Proof. done. Qed.

Lemma pack_bits_spec bits shift acc j :
  0 <= shift <= 7 -> 0 <= acc < 2 ^ shift -> Forall (fun b => b = 0 \/ b = 1) bits ->
  0 <= j < shift + Z.of_nat (length bits) ->
  Z.testbit (nth (Z.to_nat (j / 8)) (pack_bits shift acc bits) 0) (j mod 8) =
  if j <? shift then Z.testbit acc j else nth (Z.to_nat (j - shift)) bits 0 =? 1.
Proof.
  revert shift acc j. induction bits as [|b bits IH]; intros shift acc j Hs Ha Hb Hj; cbn [pack_bits].
  - simpl length in Hj. rewrite (proj2 (Z.eqb_neq shift 0)), (proj2 (Z.ltb_lt j shift)) by lia.
    rewrite Z.div_small, Z.mod_small by lia. simpl nth. rewrite u8_id; [done|].
    unfold is_u8. assert (2 ^ shift <= 2 ^ 7) by (apply Z.pow_le_mono_r; lia). lia.
  - apply Forall_cons_1 in Hb as [Hb Hbs]. simpl length in Hj.
    pose proof (lor_bit_bound acc b shift ltac:(lia) Ha Hb) as Hacc.
    set (acc' := Z.lor acc (Z.shiftl b shift)) in *.
    assert (forall k, 0 <= k -> Z.testbit acc' k = if k <? shift then Z.testbit acc k
      else if k =? shift then b =? 1 else false) as Ht
      by (intros; apply lor_bit_testbit; done || lia).
    assert (forall k, shift < k -> nth (Z.to_nat (k - shift)) (b :: bits) 0 =
      nth (Z.to_nat (k - (shift + 1))) bits 0) as Hnth.
    { intros k Hk. replace (Z.to_nat (k - shift)) with (S (Z.to_nat (k - (shift + 1)))) by lia. done. }
    destruct (Z.eqb_spec shift 7) as [->|Hs7].
    + destruct (Z.ltb_spec j 8).
      * rewrite Z.div_small, Z.mod_small by lia. cbn [nth]. rewrite u8_id by exact Hacc.
        rewrite Ht by lia. destruct (Z.ltb_spec j 7); [done|].
        replace j with 7 by lia. done.
      * replace j with (j - 8 + 1 * 8) at 1 2 by lia. rewrite Z.div_add, Z.mod_add by lia.
        replace (Z.to_nat ((j - 8) / 8 + 1)) with (S (Z.to_nat ((j - 8) / 8)))
          by (Z.div_mod_to_equations; lia).
        rewrite nth_cons_S, IH by (done || lia). rewrite (proj2 (Z.ltb_ge _ _)) by lia.
        rewrite (proj2 (Z.ltb_ge j 7)), Hnth by lia. do 3 f_equal; lia.
    + rewrite IH by (done || lia). destruct (Z.ltb_spec j shift).
      * rewrite (proj2 (Z.ltb_lt j (shift + 1))), Ht by lia. by rewrite (proj2 (Z.ltb_lt _ _)).
      * destruct (Z.ltb_spec j (shift + 1)).
        -- replace j with shift by lia. rewrite Ht by lia. rewrite Z.ltb_irrefl, Z.eqb_refl, Z.sub_diag.
           done.
        -- by rewrite Hnth by lia.
Qed.

(** the data bytes of a coil or discrete-input reply are the bits of the
    addressed range in order: bit [k] of the range is bit [k mod 8] of data
    byte [k / 8], and there are just enough bytes. *)
Theorem read_bits_encoding mb req k :
  mapping_ok mb -> 1 <= req_function req <= 2 -> 1 <= req_quantity req ->
  in_block mb req = true -> Forall (fun b => b = 0 \/ b = 1) (block_table mb req) ->
  0 <= k < req_quantity req ->
  let data := drop 3 (read_pdu mb req) in
  Z.of_nat (length data) = (req_quantity req + 7) / 8 /\
  Z.testbit (nth (Z.to_nat (k / 8)) data 0) (k mod 8) =
  (nth (Z.to_nat (req_address req - block_start mb req + k)) (block_table mb req) 0 =? 1).
Proof.
  intros Hmb Hf Hq Hin Hbits Hk. unfold read_pdu. rewrite Hin, (proj2 (Z.leb_le _ 2)) by lia.
  cbn [app drop]. rewrite drop_0.
  pose proof (length_block_data mb req Hmb ltac:(lia) Hq Hin) as Hl. split.
  - rewrite length_pack_bits, Hl by lia. f_equal; lia.
  - rewrite pack_bits_spec; [|lia|simpl; lia| |lia].
    + rewrite (proj2 (Z.ltb_ge k 0)), Z.sub_0_r by lia. f_equal.
      unfold block_data, slice. rewrite !nth_lookup, lookup_take_lt, lookup_drop by lia.
      do 3 f_equal. unfold in_block in Hin. lia.
    + by apply Forall_take, Forall_drop.
Qed.

Definition example_bits : modbus_mapping_t :=
  Mapping 12 100 0 0 0 0 0 0 [1; 0; 1; 1; 0; 0; 0; 0; 1; 1; 0; 1] [] [] [].

Lemma read_bits_encoding_witness :
  let data := drop 3 (read_pdu example_bits [17; 1; 0; 101; 0; 9]) in
  Z.of_nat (length data) = 2 /\ Z.testbit (nth 0 data 0) 1 = true.
Proof.
  apply (read_bits_encoding example_bits [17; 1; 0; 101; 0; 9] 1); try (vm_compute; congruence).
  - by repeat split.
  - vm_compute; split; congruence.
  - repeat (apply Forall_cons_2; [lia|]). apply Forall_nil_2.
  - vm_compute; split; congruence.
Defined.
