(* ===== verification/SlaveState.v ===== *)
(** * SlaveState: the controller's mode, counters and event log

    The functions of [app_mslave.c] that read and write single fields of the
    controller and its [counter_log_register_set]: the slave mode, the
    diagnostic counters of function code 0x08, the communication event log of
    0x0C, the exception status of 0x07. *)

From S2P Require Import Prelude Machine.
From Stdlib Require Import ZArith Lia List Bool.
From stdpp Require Import base list numbers.
Open Scope Z_scope.
Open Scope m_scope.

(** ** Assignments to one field of the state set *)

Definition with_diag_cnt_bus_message (x : Z) (s : counter_log_register_set) : counter_log_register_set :=
  StateSet x (diag_cnt_bus_comm_error s) (diag_cnt_slave_exception_error s)
    (diag_cnt_slave_message s) (diag_cnt_slave_no_response s) (diag_cnt_slave_nak s)
    (diag_cnt_slave_busy s) (diag_cnt_bus_charac_overrun s) (diag_regisger s)
    (cnt_comm_event s) (log_comm_event s) (log_event_cnt s) (log_event_idx s)
    (exception_status s).
Definition with_diag_cnt_bus_comm_error (x : Z) (s : counter_log_register_set) : counter_log_register_set :=
  StateSet (diag_cnt_bus_message s) x (diag_cnt_slave_exception_error s)
    (diag_cnt_slave_message s) (diag_cnt_slave_no_response s) (diag_cnt_slave_nak s)
    (diag_cnt_slave_busy s) (diag_cnt_bus_charac_overrun s) (diag_regisger s)
    (cnt_comm_event s) (log_comm_event s) (log_event_cnt s) (log_event_idx s)
    (exception_status s).
Definition with_diag_cnt_slave_exception_error (x : Z) (s : counter_log_register_set) : counter_log_register_set :=
  StateSet (diag_cnt_bus_message s) (diag_cnt_bus_comm_error s) x (diag_cnt_slave_message s)
    (diag_cnt_slave_no_response s) (diag_cnt_slave_nak s) (diag_cnt_slave_busy s)
    (diag_cnt_bus_charac_overrun s) (diag_regisger s) (cnt_comm_event s) (log_comm_event s)
    (log_event_cnt s) (log_event_idx s) (exception_status s).
Definition with_diag_cnt_slave_message (x : Z) (s : counter_log_register_set) : counter_log_register_set :=
  StateSet (diag_cnt_bus_message s) (diag_cnt_bus_comm_error s)
    (diag_cnt_slave_exception_error s) x (diag_cnt_slave_no_response s) (diag_cnt_slave_nak
    s) (diag_cnt_slave_busy s) (diag_cnt_bus_charac_overrun s) (diag_regisger s)
    (cnt_comm_event s) (log_comm_event s) (log_event_cnt s) (log_event_idx s)
    (exception_status s).
Definition with_diag_cnt_slave_no_response (x : Z) (s : counter_log_register_set) : counter_log_register_set :=
  StateSet (diag_cnt_bus_message s) (diag_cnt_bus_comm_error s)
    (diag_cnt_slave_exception_error s) (diag_cnt_slave_message s) x (diag_cnt_slave_nak s)
    (diag_cnt_slave_busy s) (diag_cnt_bus_charac_overrun s) (diag_regisger s)
    (cnt_comm_event s) (log_comm_event s) (log_event_cnt s) (log_event_idx s)
    (exception_status s).
Definition with_diag_cnt_slave_nak (x : Z) (s : counter_log_register_set) : counter_log_register_set :=
  StateSet (diag_cnt_bus_message s) (diag_cnt_bus_comm_error s)
    (diag_cnt_slave_exception_error s) (diag_cnt_slave_message s)
    (diag_cnt_slave_no_response s) x (diag_cnt_slave_busy s) (diag_cnt_bus_charac_overrun s)
    (diag_regisger s) (cnt_comm_event s) (log_comm_event s) (log_event_cnt s) (log_event_idx
    s) (exception_status s).
Definition with_diag_cnt_slave_busy (x : Z) (s : counter_log_register_set) : counter_log_register_set :=
  StateSet (diag_cnt_bus_message s) (diag_cnt_bus_comm_error s)
    (diag_cnt_slave_exception_error s) (diag_cnt_slave_message s)
    (diag_cnt_slave_no_response s) (diag_cnt_slave_nak s) x (diag_cnt_bus_charac_overrun s)
    (diag_regisger s) (cnt_comm_event s) (log_comm_event s) (log_event_cnt s) (log_event_idx
    s) (exception_status s).
Definition with_diag_cnt_bus_charac_overrun (x : Z) (s : counter_log_register_set) : counter_log_register_set :=
  StateSet (diag_cnt_bus_message s) (diag_cnt_bus_comm_error s)
    (diag_cnt_slave_exception_error s) (diag_cnt_slave_message s)
    (diag_cnt_slave_no_response s) (diag_cnt_slave_nak s) (diag_cnt_slave_busy s) x
    (diag_regisger s) (cnt_comm_event s) (log_comm_event s) (log_event_cnt s) (log_event_idx
    s) (exception_status s).
Definition with_cnt_comm_event (x : Z) (s : counter_log_register_set) : counter_log_register_set :=
  StateSet (diag_cnt_bus_message s) (diag_cnt_bus_comm_error s)
    (diag_cnt_slave_exception_error s) (diag_cnt_slave_message s)
    (diag_cnt_slave_no_response s) (diag_cnt_slave_nak s) (diag_cnt_slave_busy s)
    (diag_cnt_bus_charac_overrun s) (diag_regisger s) x (log_comm_event s) (log_event_cnt s)
    (log_event_idx s) (exception_status s).
Definition with_log_comm_event (x : list Z) (s : counter_log_register_set) : counter_log_register_set :=
  StateSet (diag_cnt_bus_message s) (diag_cnt_bus_comm_error s)
    (diag_cnt_slave_exception_error s) (diag_cnt_slave_message s)
    (diag_cnt_slave_no_response s) (diag_cnt_slave_nak s) (diag_cnt_slave_busy s)
    (diag_cnt_bus_charac_overrun s) (diag_regisger s) (cnt_comm_event s) x (log_event_cnt s)
    (log_event_idx s) (exception_status s).
Definition with_log_event_cnt (x : Z) (s : counter_log_register_set) : counter_log_register_set :=
  StateSet (diag_cnt_bus_message s) (diag_cnt_bus_comm_error s)
    (diag_cnt_slave_exception_error s) (diag_cnt_slave_message s)
    (diag_cnt_slave_no_response s) (diag_cnt_slave_nak s) (diag_cnt_slave_busy s)
    (diag_cnt_bus_charac_overrun s) (diag_regisger s) (cnt_comm_event s) (log_comm_event s)
    x (log_event_idx s) (exception_status s).
Definition with_log_event_idx (x : Z) (s : counter_log_register_set) : counter_log_register_set :=
  StateSet (diag_cnt_bus_message s) (diag_cnt_bus_comm_error s)
    (diag_cnt_slave_exception_error s) (diag_cnt_slave_message s)
    (diag_cnt_slave_no_response s) (diag_cnt_slave_nak s) (diag_cnt_slave_busy s)
    (diag_cnt_bus_charac_overrun s) (diag_regisger s) (cnt_comm_event s) (log_comm_event s)
    (log_event_cnt s) x (exception_status s).
Definition with_exception_status (x : Z) (s : counter_log_register_set) : counter_log_register_set :=
  StateSet (diag_cnt_bus_message s) (diag_cnt_bus_comm_error s)
    (diag_cnt_slave_exception_error s) (diag_cnt_slave_message s)
    (diag_cnt_slave_no_response s) (diag_cnt_slave_nak s) (diag_cnt_slave_busy s)
    (diag_cnt_bus_charac_overrun s) (diag_regisger s) (cnt_comm_event s) (log_comm_event s)
    (log_event_cnt s) (log_event_idx s) x.

(** [memset] to zero. *)
Definition zero_state_set : counter_log_register_set :=
  StateSet 0 0 0 0 0 0 0 0 0 0 (zeros MAX_COMM_EVENT_LOG) 0 0 0.

Definition set_state_set (f : counter_log_register_set -> counter_log_register_set) : M unit :=
  modify_ctr (fun c => with_state_set (f (state_set c)) c).

(** ** Mode, context, request flag *)

(** NULL is left alone. *)
Definition to_set_port_conf_default (pt_port_conf : option port_conf_info) : option port_conf_info :=
  match pt_port_conf with
  | None => None
  | Some _ => Some (PortConf 115200 PARITY_NONE SBIT_1 1 REG_MD_EXTENSIBLE)
  end.

Definition app_mslave_set_mctx (p : ptr) (pt_mctx : option modbus_t) : M Z :=
  if is_null p then ret ERR_INVALID_PARAM
  else modify_ctr (with_mctx pt_mctx) ;; ret ERR_NONE.

Definition app_mslave_get_mctx (p : ptr) : M (option modbus_t) :=
  if is_null p then ret None else let* c := deref p in ret (mctx c).

Definition app_mslave_get_mbus_border (p : ptr) : M mbus_byte_oder :=
  if is_null p then ret MBUS_BORDER_CDAB else let* c := deref p in ret (mbus_border c).

(** The register mode of the [regAddressMode_t] values 0 to 7. *)
Definition app_mslave_get_reg_mode (regmdval : Z) : register_mode :=
  if regmdval =? 0 then REG_MD_EXTENSIBLE
  else if regmdval =? 1 then REG_MD_EFFICIENT
  else if regmdval =? 2 then REG_MD_EXTENSIBLE
  else if regmdval =? 3 then REG_MD_EFFICIENT
  else if regmdval =? 4 then REG_MD_EXTENSIBLE
  else if regmdval =? 5 then REG_MD_EFFICIENT
  else if regmdval =? 6 then REG_MD_EXTENSIBLE
  else if regmdval =? 7 then REG_MD_EFFICIENT
  else REG_MD_UNKNOWN.

Definition app_mslave_set_to_update_mslave (p : ptr) (newstate : bool) : M unit :=
  if is_null p then ret tt else modify_ctr (with_to_update_mslave_req newstate).

Definition app_mslave_get_to_update_mslave (p : ptr) : M bool :=
  if is_null p then ret false else let* c := deref p in ret (to_update_mslave_req c).

(** The mode's place in the C enumeration. *)
Definition mode_code (m : slave_mode) : Z :=
  match m with SMODE_UNKNOWN => 0 | SMODE_ACTIVE => 1 | SMODE_LISTEN_ONLY => 2 | SMODE_MAX => 3 end.

Definition app_mslave_set_mode (p : ptr) (new_mode : slave_mode) : M Z :=
  if is_null p then ret ERR_INVALID_PARAM
  else if (mode_code new_mode <=? mode_code SMODE_UNKNOWN)
          || (mode_code SMODE_MAX <=? mode_code new_mode)
  then ret ERR_INVALID_PARAM
  else modify_ctr (with_smode new_mode) ;; ret ERR_NONE.

Definition app_mslave_get_mode (p : ptr) : M slave_mode :=
  let* c := deref p in ret (smode c).

(** ** The state set *)

Definition app_mslave_clear_state_set (p : ptr) : M Z :=
  if is_null p then ret ERR_INVALID_PARAM
  else
    pthread_mutex_lock p mtx_for_state_set ;;
    set_state_set (fun _ => zero_state_set) ;;
    pthread_mutex_unlock p mtx_for_state_set ;;
    ret ERR_NONE.

Definition app_mslave_get_diagnostic_register (p : ptr) : M Z :=
  pthread_mutex_lock p mtx_for_state_set ;;
  let* c := deref p in
  pthread_mutex_unlock p mtx_for_state_set ;;
  ret (diag_regisger (state_set c)).

(** A to-do in the source. *)
Definition app_mslave_set_diagnostic_register (p : ptr) : M Z := ret ERR_API_FAIL.

(** The increment all counters share: saturating at [MAX_DIAG_CNT]. *)
Definition bump (get : counter_log_register_set -> Z)
    (set : Z -> counter_log_register_set -> counter_log_register_set)
    (s : counter_log_register_set) : counter_log_register_set :=
  if get s <? MAX_DIAG_CNT then set (u16 (get s + 1)) s else s.

Definition inc_cnt (get : counter_log_register_set -> Z)
    (set : Z -> counter_log_register_set -> counter_log_register_set) (p : ptr) : M Z :=
  if is_null p then ret ERR_INVALID_PARAM
  else
    pthread_mutex_lock p mtx_for_state_set ;;
    set_state_set (bump get set) ;;
    pthread_mutex_unlock p mtx_for_state_set ;;
    ret ERR_NONE.

(** The read all counters share; [null] is returned for a NULL controller. *)
Definition get_cnt (get : counter_log_register_set -> Z) (null : Z) (p : ptr) : M Z :=
  if is_null p then ret null
  else
    pthread_mutex_lock p mtx_for_state_set ;;
    let* c := deref p in
    pthread_mutex_unlock p mtx_for_state_set ;;
    ret (get (state_set c)).

Definition app_mslave_inc_bus_msg_cnt : ptr -> M Z :=
  inc_cnt diag_cnt_bus_message with_diag_cnt_bus_message.
Definition app_mslave_get_bus_msg_cnt : ptr -> M Z :=
  get_cnt diag_cnt_bus_message 0.
Definition app_mslave_inc_bus_comm_error_cnt : ptr -> M Z :=
  inc_cnt diag_cnt_bus_comm_error with_diag_cnt_bus_comm_error.
Definition app_mslave_get_bus_comm_error_cnt : ptr -> M Z :=
  get_cnt diag_cnt_bus_comm_error 0.
Definition app_mslave_inc_slave_exception_error_cnt : ptr -> M Z :=
  inc_cnt diag_cnt_slave_exception_error with_diag_cnt_slave_exception_error.
Definition app_mslave_get_slave_exception_error_cnt : ptr -> M Z :=
  get_cnt diag_cnt_slave_exception_error 0.
Definition app_mslave_inc_slave_msg_cnt : ptr -> M Z :=
  inc_cnt diag_cnt_slave_message with_diag_cnt_slave_message.
Definition app_mslave_get_slave_msg_cnt : ptr -> M Z :=
  get_cnt diag_cnt_slave_message (u16 ERR_INVALID_PARAM).
Definition app_mslave_inc_slave_no_resp_cnt : ptr -> M Z :=
  inc_cnt diag_cnt_slave_no_response with_diag_cnt_slave_no_response.
Definition app_mslave_get_slave_no_resp_cnt : ptr -> M Z :=
  get_cnt diag_cnt_slave_no_response 0.
Definition app_mslave_inc_slave_nak_cnt : ptr -> M Z :=
  inc_cnt diag_cnt_slave_nak with_diag_cnt_slave_nak.
Definition app_mslave_get_slave_nak_cnt : ptr -> M Z :=
  get_cnt diag_cnt_slave_nak 0.
Definition app_mslave_inc_slave_busy_cnt : ptr -> M Z :=
  inc_cnt diag_cnt_slave_busy with_diag_cnt_slave_busy.
Definition app_mslave_get_slave_busy_cnt : ptr -> M Z :=
  get_cnt diag_cnt_slave_busy 0.
Definition app_mslave_inc_bus_charac_overrun_cnt : ptr -> M Z :=
  inc_cnt diag_cnt_bus_charac_overrun with_diag_cnt_bus_charac_overrun.
Definition app_mslave_get_slave_bus_charac_overrun_cnt : ptr -> M Z :=
  get_cnt diag_cnt_bus_charac_overrun 0.
Definition app_mslave_inc_comm_event_cnt : ptr -> M Z :=
  inc_cnt cnt_comm_event with_cnt_comm_event.
Definition app_mslave_get_comm_event_cnt : ptr -> M Z :=
  get_cnt cnt_comm_event 0.

(** ** The communication event log *)

Definition app_mslave_set_comm_event_log (p : ptr) (event_byte : Z) : M Z :=
  if is_null p then ret ERR_INVALID_PARAM
  else
    pthread_mutex_lock p mtx_for_state_set ;;
    let* c := deref p in
    let s := state_set c in
    let* log := wr (log_comm_event s) (log_event_idx s mod MAX_COMM_EVENT_LOG) event_byte in
    set_state_set (with_log_comm_event log) ;;
    set_state_set (with_log_event_idx (u8 ((log_event_idx s + 1) mod MAX_COMM_EVENT_LOG))) ;;
    (if log_event_cnt s <? MAX_COMM_EVENT_LOG
     then set_state_set (with_log_event_cnt (u8 (log_event_cnt s + 1)))
     else ret tt) ;;
    pthread_mutex_unlock p mtx_for_state_set ;;
    ret ERR_NONE.

(** The copy loop from index [i], [n] bytes to go; the index expression is
    computed in [uint32_t]. *)
Fixpoint event_log_loop (n : nat) (log : list Z) (idx i : Z) (resbuf : list Z) : M (list Z) :=
  match n with
  | O => ret resbuf
  | S n =>
      let* b := rd log (u32 (0xFF + idx - 1 - i) mod MAX_COMM_EVENT_LOG) in
      let* resbuf := wr resbuf (i mod MAX_COMM_EVENT_LOG) b in
      event_log_loop n log idx (i + 1) resbuf
  end.

(** The result is the number of bytes and the filled buffer. *)
Definition app_mslave_get_comm_event_log (p : ptr) (pt_resbuf : option (list Z))
    : M (Z * option (list Z)) :=
  match pt_resbuf with
  | None => ret (0, None)
  | Some resbuf =>
      if is_null p then ret (0, Some resbuf)
      else
        pthread_mutex_lock p mtx_for_state_set ;;
        let* c := deref p in
        let s := state_set c in
        let tpret := if MAX_COMM_EVENT_LOG <? log_event_cnt s
                     then MAX_COMM_EVENT_LOG else log_event_cnt s in
        let* resbuf := event_log_loop (Z.to_nat tpret) (log_comm_event s) (log_event_idx s) 0 resbuf in
        pthread_mutex_unlock p mtx_for_state_set ;;
        ret (tpret, Some resbuf)
  end.

(** ** The exception status *)

(** The guard tests the local [tpret], which is [ERR_NONE], for NULL. *)
Definition app_mslave_set_exception_status (p : ptr) (except_status : Z) : M Z :=
  let tpret := ERR_NONE in
  if tpret =? 0 then ret ERR_INVALID_PARAM
  else
    pthread_mutex_lock p mtx_for_state_set ;;
    set_state_set (with_exception_status (u8 except_status)) ;;
    pthread_mutex_unlock p mtx_for_state_set ;;
    ret tpret.

Definition app_mslave_get_exception_status (p : ptr) : M Z :=
  if is_null p then ret 0
  else
    pthread_mutex_lock p mtx_for_state_set ;;
    let* c := deref p in
    pthread_mutex_unlock p mtx_for_state_set ;;
    ret (exception_status (state_set c)).

(** ** The operations as functions of the state *)

(** The world after a change of the state set. *)
Definition upd_state (f : counter_log_register_set -> counter_log_register_set) (w : world) : world :=
  set_ctr (with_state_set (f (state_set (ctr w))) (ctr w)) w.

Lemma state_set_upd f w : state_set (ctr (upd_state f w)) = f (state_set (ctr w)).
Proof. done. Qed.

(** Nothing but the state set changed. *)
Lemma upd_state_upd f g w : upd_state f (upd_state g w) = upd_state (fun s => f (g s)) w.
Proof. done. Qed.

Definition free (m : mutex) (w : world) : Prop := holds m (held w) = false.

Lemma unlocked_state f w : free mtx_for_state_set w ->
  set_held (drop_mutex mtx_for_state_set (mtx_for_state_set :: held w))
    (upd_state f (set_held (mtx_for_state_set :: held w) w)) = upd_state f w.
Proof. intros H. rewrite drop_mutex_held by done. by destruct w. Qed.

Lemma relocked w m : free m w ->
  set_held (drop_mutex m (m :: held w)) (set_held (m :: held w) w) = w.
Proof. intros H. rewrite drop_mutex_held by done. by destruct w. Qed.

(** A critical section of the state-set mutex. *)
Ltac state_section :=
  unfold bind, pthread_mutex_lock, pthread_mutex_unlock, set_state_set, modify_ctr, ret, deref, get_ctr;
  cbn [is_null]; match goal with H : free _ ?w |- _ => unfold free in H; rewrite H end;
  cbn -[holds drop_mutex]; rewrite ?holds_cons.

Lemma clear_state_set_eq w : free mtx_for_state_set w ->
  app_mslave_clear_state_set CTR w = Some (ERR_NONE, upd_state (fun _ => zero_state_set) w).
Proof.
  intros H. unfold app_mslave_clear_state_set. state_section.
  rewrite <- (unlocked_state _ w) by done. done.
Qed.

Lemma inc_cnt_eq get set w : free mtx_for_state_set w ->
  inc_cnt get set CTR w = Some (ERR_NONE, upd_state (bump get set) w).
Proof.
  intros H. unfold inc_cnt. state_section.
  rewrite <- (unlocked_state _ w) by done. done.
Qed.

Lemma get_cnt_eq get null w : free mtx_for_state_set w ->
  get_cnt get null CTR w = Some (get (state_set (ctr w)), w).
Proof.
  intros H. unfold get_cnt. state_section.
  by rewrite relocked.
Qed.

Lemma get_diagnostic_register_eq w : free mtx_for_state_set w ->
  app_mslave_get_diagnostic_register CTR w = Some (diag_regisger (state_set (ctr w)), w).
Proof.
  intros H. unfold app_mslave_get_diagnostic_register. state_section.
  by rewrite relocked.
Qed.

Lemma get_exception_status_eq w : free mtx_for_state_set w ->
  app_mslave_get_exception_status CTR w = Some (exception_status (state_set (ctr w)), w).
Proof. apply (get_cnt_eq exception_status 0). Qed.

(** ** The counters *)

Inductive diag_counter :=
  | CntBusMsg | CntBusCommError | CntException | CntSlaveMsg | CntNoResp
  | CntNak | CntBusy | CntOverrun | CntCommEvent.

#[global] Instance diag_counter_eq_dec : EqDecision diag_counter.
Proof. solve_decision. Defined.

Definition counter_inc (k : diag_counter) : ptr -> M Z :=
  match k with
  | CntBusMsg => app_mslave_inc_bus_msg_cnt
  | CntBusCommError => app_mslave_inc_bus_comm_error_cnt
  | CntException => app_mslave_inc_slave_exception_error_cnt
  | CntSlaveMsg => app_mslave_inc_slave_msg_cnt
  | CntNoResp => app_mslave_inc_slave_no_resp_cnt
  | CntNak => app_mslave_inc_slave_nak_cnt
  | CntBusy => app_mslave_inc_slave_busy_cnt
  | CntOverrun => app_mslave_inc_bus_charac_overrun_cnt
  | CntCommEvent => app_mslave_inc_comm_event_cnt
  end.

Definition counter_get (k : diag_counter) : ptr -> M Z :=
  match k with
  | CntBusMsg => app_mslave_get_bus_msg_cnt
  | CntBusCommError => app_mslave_get_bus_comm_error_cnt
  | CntException => app_mslave_get_slave_exception_error_cnt
  | CntSlaveMsg => app_mslave_get_slave_msg_cnt
  | CntNoResp => app_mslave_get_slave_no_resp_cnt
  | CntNak => app_mslave_get_slave_nak_cnt
  | CntBusy => app_mslave_get_slave_busy_cnt
  | CntOverrun => app_mslave_get_slave_bus_charac_overrun_cnt
  | CntCommEvent => app_mslave_get_comm_event_cnt
  end.

(** The field of a counter. *)
Definition counter_field (k : diag_counter) : counter_log_register_set -> Z :=
  match k with
  | CntBusMsg => diag_cnt_bus_message | CntBusCommError => diag_cnt_bus_comm_error
  | CntException => diag_cnt_slave_exception_error | CntSlaveMsg => diag_cnt_slave_message
  | CntNoResp => diag_cnt_slave_no_response | CntNak => diag_cnt_slave_nak
  | CntBusy => diag_cnt_slave_busy | CntOverrun => diag_cnt_bus_charac_overrun
  | CntCommEvent => cnt_comm_event
  end.
Definition counter_set (k : diag_counter) : Z -> counter_log_register_set -> counter_log_register_set :=
  match k with
  | CntBusMsg => with_diag_cnt_bus_message | CntBusCommError => with_diag_cnt_bus_comm_error
  | CntException => with_diag_cnt_slave_exception_error
  | CntSlaveMsg => with_diag_cnt_slave_message
  | CntNoResp => with_diag_cnt_slave_no_response | CntNak => with_diag_cnt_slave_nak
  | CntBusy => with_diag_cnt_slave_busy | CntOverrun => with_diag_cnt_bus_charac_overrun
  | CntCommEvent => with_cnt_comm_event
  end.

Definition count (k : diag_counter) : counter_log_register_set -> counter_log_register_set :=
  bump (counter_field k) (counter_set k).

Lemma counter_inc_eq k w : free mtx_for_state_set w ->
  counter_inc k CTR w = Some (ERR_NONE, upd_state (count k) w).
Proof. destruct k; apply inc_cnt_eq. Qed.

Lemma counter_get_eq k w : free mtx_for_state_set w ->
  counter_get k CTR w = Some (counter_field k (state_set (ctr w)), w).
Proof. destruct k; apply get_cnt_eq. Qed.

Lemma counter_field_set k k' x s :
  counter_field k' (counter_set k x s) = if decide (k = k') then x else counter_field k' s.
Proof. destruct k, k'; reflexivity. Qed.

Lemma counter_field_count k k' s : 0 <= counter_field k s ->
  counter_field k' (count k s) =
  if decide (k = k') then (if counter_field k s <? MAX_DIAG_CNT then counter_field k s + 1
                           else counter_field k s)
  else counter_field k' s.
Proof.
  intros H. unfold count, bump. destruct (Z.ltb_spec (counter_field k s) MAX_DIAG_CNT).
  - rewrite counter_field_set. case_decide; [|done]. apply u16_id.
    unfold is_u16, MAX_DIAG_CNT in *. lia.
  - case_decide; [by subst|done].
Qed.

(** [n] calls of an operation. *)
Fixpoint repeat_op (n : nat) (m : M Z) : M unit :=
  match n with O => ret tt | S n => m ;; repeat_op n m end.

(** each of the nine diagnostic counters counts its calls exactly and
    stops at 0xFFFF without wrapping, and counting one leaves the other eight
    and everything outside the state set as they were. *)
Theorem counters_saturate k n w :
  free mtx_for_state_set w -> (forall k', 0 <= counter_field k' (state_set (ctr w)) <= MAX_DIAG_CNT) ->
  exists f, repeat_op n (counter_inc k CTR) w = Some (tt, upd_state f w) /\
    forall k', counter_get k' CTR (upd_state f w) =
      Some (if decide (k = k') then Z.min MAX_DIAG_CNT (counter_field k' (state_set (ctr w)) + Z.of_nat n)
            else counter_field k' (state_set (ctr w)), upd_state f w).
Proof.
  revert w. induction n as [|n IH]; intros w Hw Hr.
  - exists (fun s => s). split; [by destruct w as [[]]|]. intros k'.
    rewrite counter_get_eq by done. rewrite state_set_upd. do 2 f_equal.
    specialize (Hr k'). case_decide; lia.
  - cbn [repeat_op]. unfold bind. rewrite counter_inc_eq by done.
    assert (forall k', counter_field k' (count k (state_set (ctr w))) =
      if decide (k = k') then Z.min MAX_DIAG_CNT (counter_field k (state_set (ctr w)) + 1)
      else counter_field k' (state_set (ctr w))) as Hc.
    { intros k'. rewrite counter_field_count by apply Hr. case_decide; [|done].
      specialize (Hr k). destruct (Z.ltb_spec (counter_field k (state_set (ctr w))) MAX_DIAG_CNT); lia. }
    destruct (IH (upd_state (count k) w)) as (f & E & Hf); [done| |].
    { intros k'. rewrite state_set_upd, Hc. pose proof (Hr k). pose proof (Hr k').
      case_decide; unfold MAX_DIAG_CNT in *; lia. }
    exists (fun s => f (count k s)). rewrite upd_state_upd in E. split; [done|].
    intros k'. specialize (Hf k'). rewrite upd_state_upd, state_set_upd in Hf. rewrite Hf, Hc.
    do 2 f_equal. specialize (Hr k'). case_decide; [subst|done].
    lia.
Qed.

Definition idle_world : world :=
  World (Controller SMODE_ACTIVE 17 (Some (Ctx 17 true false 9600 78 8 1))
           (PortConf 9600 PARITY_NONE SBIT_1 17 REG_MD_EXTENSIBLE) false MBUS_BORDER_CDAB []
           zero_state_set 0 [] (GwConf 0 0 (ModbusConfig 9600 17 0 0 0) []) 0 false [] 0 false 0 false)
    0 [] [] [] [] (RegMapInfo false 0 0 [] 0 [] 0 0 0)
    (Oracle (fun _ => 0) (fun _ => WAll) (fun _ => true) (fun _ => true) (fun _ => true)) 0.

Lemma counters_saturate_witness :
  exists f, repeat_op 3 (counter_inc CntNak CTR) idle_world = Some (tt, upd_state f idle_world) /\
    forall k', counter_get k' CTR (upd_state f idle_world) =
      Some (if decide (CntNak = k') then 3 else 0, upd_state f idle_world).
Proof.
  destruct (counters_saturate CntNak 3 idle_world) as (f & E & H).
  - reflexivity.
  - intros []; vm_compute; split; congruence.
  - exists f. split; [exact E|]. intros k'. rewrite H. by destruct k'.
Defined.

(** ** The event log *)

(** The log after the events [L] (newest first) since it was cleared. *)
Definition event_ring (s : counter_log_register_set) (L : list Z) : Prop :=
  length (log_comm_event s) = 64%nat /\ 0 <= log_event_idx s < 64 /\
  log_event_cnt s = Z.min 64 (Z.of_nat (length L)) /\
  forall k, 0 <= k < 64 ->
    nth (Z.to_nat ((log_event_idx s - 1 - k) mod 64)) (log_comm_event s) 0 = nth (Z.to_nat k) L 0.

Lemma event_ring_empty : event_ring zero_state_set [].
Proof.
  split; [done|]. split; [simpl; lia|]. split; [done|]. intros k Hk.
  unfold zero_state_set, zeros; cbn [log_comm_event]. rewrite nth_replicate0.
  by destruct (Z.to_nat k).
Qed.

Definition push_event (b : Z) (s : counter_log_register_set) : counter_log_register_set :=
  let s1 := with_log_comm_event (<[Z.to_nat (log_event_idx s) := u8 b]> (log_comm_event s)) s in
  let s2 := with_log_event_idx ((log_event_idx s + 1) mod 64) s1 in
  if log_event_cnt s <? 64 then with_log_event_cnt (log_event_cnt s + 1) s2 else s2.

Lemma event_ring_push s L b : event_ring s L -> is_u8 b -> event_ring (push_event b s) (b :: L).
Proof.
  intros (Hl & Hi & Hc & Hk) Hb. unfold event_ring, push_event.
  assert (forall s', log_comm_event (if log_event_cnt s <? 64 then with_log_event_cnt (log_event_cnt s + 1) s' else s')
    = log_comm_event s') as E1 by (intros; by case_match).
  assert (forall s', log_event_idx (if log_event_cnt s <? 64 then with_log_event_cnt (log_event_cnt s + 1) s' else s')
    = log_event_idx s') as E2 by (intros; by case_match).
  rewrite E1, E2. cbn [log_comm_event log_event_idx with_log_event_idx with_log_comm_event].
  rewrite length_insert. split; [done|]. split; [apply Z.mod_pos_bound; lia|]. split.
  - cbn [length]. destruct (Z.ltb_spec (log_event_cnt s) 64); cbn [log_event_cnt with_log_event_cnt
      with_log_event_idx with_log_comm_event]; lia.
  - intros k Hk'. rewrite u8_id by done. rewrite nth_lookup.
    destruct (Z.eq_dec k 0) as [->|Hk0].
    + replace (((log_event_idx s + 1) mod 64 - 1 - 0) mod 64) with (log_event_idx s)
        by (Z.div_mod_to_equations; lia).
      by rewrite list_lookup_insert_eq by lia.
    + replace (((log_event_idx s + 1) mod 64 - 1 - k) mod 64)
        with ((log_event_idx s - 1 - (k - 1)) mod 64) by (Z.div_mod_to_equations; lia).
      rewrite list_lookup_insert_ne by (Z.div_mod_to_equations; lia).
      rewrite <- nth_lookup, Hk by lia.
      by replace (Z.to_nat k) with (S (Z.to_nat (k - 1))) by lia.
Qed.

Lemma set_comm_event_log_eq b L w :
  free mtx_for_state_set w -> event_ring (state_set (ctr w)) L -> is_u8 b ->
  app_mslave_set_comm_event_log CTR b w = Some (ERR_NONE, upd_state (push_event b) w).
Proof.
  intros H (Hl & Hi & Hc & _) Hb. unfold free in H.
  assert (0 <= log_event_cnt (state_set (ctr w)) <= 64) as Hcnt by lia. clear Hc.
  destruct w as [c e h t rp re rm o tk]. destruct c as [? ? ? ? ? ? ? ss].
  destruct ss as [d0 d1 d2 d3 d4 d5 d6 d7 d8 d9 log cnt idx ex].
  cbn -[Z.modulo holds] in H, Hl, Hi, Hcnt.
  unfold app_mslave_set_comm_event_log, MAX_COMM_EVENT_LOG, upd_state, push_event, bind,
    pthread_mutex_lock, pthread_mutex_unlock, deref, get_ctr, set_state_set, modify_ctr, ret.
  cbn -[Z.modulo wr holds drop_mutex Z.ltb]. rewrite H. cbn -[Z.modulo wr holds drop_mutex Z.ltb].
  rewrite (Z.mod_small idx) by lia. rewrite wr_eq by lia.
  rewrite (u8_id ((_ + 1) mod 64)) by (unfold is_u8; Z.div_mod_to_equations; lia).
  destruct (Z.ltb_spec cnt 64); cbn -[Z.modulo holds drop_mutex];
    rewrite holds_cons, drop_mutex_held by done; [|done].
  by rewrite (u8_id (_ + 1)) by (unfold is_u8; lia).
Qed.

(** The copy loop fills the buffer from the front. *)
Lemma event_log_loop_eq n log idx i done rest w :
  length log = 64%nat -> 0 <= idx < 64 -> 0 <= i -> i + Z.of_nat n <= 64 ->
  i = Z.of_nat (length done) -> (n <= length rest)%nat -> Forall is_u8 log ->
  event_log_loop n log idx i (done ++ rest) w =
  Some (done ++ map (fun k => nth (Z.to_nat ((idx - 1 - (i + Z.of_nat k + 1)) mod 64)) log 0) (seq 0 n)
          ++ drop n rest, w).
Proof.
  intros Hl Hidx. revert i done rest. induction n as [|n IH]; intros i done rest Hi Hn Hd Hr Hu.
  - simpl. by rewrite drop_0.
  - destruct rest as [|x rest]; [simpl in Hr; lia|]. cbn [event_log_loop].
    unfold MAX_COMM_EVENT_LOG in *.
    replace (u32 (0xFF + idx - 1 - i) mod 64) with ((idx - 1 - (i + 1)) mod 64).
    2: { unfold u32. rewrite (Z.mod_small _ 4294967296) by lia.
         replace (0xFF + idx - 1 - i) with (idx - 1 - (i + 1) + 4 * 64) by lia.
         by rewrite Z.mod_add. }
    erewrite bind_eq by (apply rd_eq; rewrite Hl; Z.div_mod_to_equations; lia).
    rewrite (Z.mod_small i 64) by lia.
    erewrite bind_eq by (by apply wr_here).
    rewrite u8_id by by apply nth_u8.
    set (b := nth _ _ _).
    replace (done ++ b :: rest) with ((done ++ [b]) ++ rest) by by rewrite <- app_assoc.
    rewrite (IH (i + 1) (done ++ [b])); [|lia|lia|rewrite length_app; simpl; lia|simpl in Hr; lia|done].
    rewrite <- app_assoc. cbn [seq map drop app]. rewrite <- seq_shift, map_map.
    replace (i + Z.of_nat 0 + 1) with (i + 1) by lia. fold b.
    apply (f_equal (fun l => Some (done ++ b :: l ++ drop n rest, w))).
    apply map_ext. intros k. do 3 f_equal. lia.
Qed.

(** The bytes [app_mslave_get_comm_event_log] delivers after the events [L]
    (newest first). *)
Definition delivered_log (L : list Z) : list Z :=
  map (fun k => if (k =? 63)%nat then nth 0 L 0 else nth (S k) L 0) (seq 0 (length L `min` 64)).

Lemma get_comm_event_log_eq L buf w :
  free mtx_for_state_set w -> event_ring (state_set (ctr w)) L ->
  Forall is_u8 (log_comm_event (state_set (ctr w))) -> length buf = 64%nat ->
  app_mslave_get_comm_event_log CTR (Some buf) w =
  Some ((Z.min 64 (Z.of_nat (length L)),
         Some (delivered_log L ++ drop (length L `min` 64) buf)), w).
Proof.
  intros H (Hl & Hi & Hc & Hk) Hu Hbuf. unfold app_mslave_get_comm_event_log, MAX_COMM_EVENT_LOG.
  cbn [is_null]. unfold bind at 1, pthread_mutex_lock. cbn [is_null]. rewrite H.
  unfold bind at 1, deref, get_ctr. cbv zeta. cbn [ctr set_held].
  rewrite (proj2 (Z.ltb_ge _ _)) by lia. rewrite Hc.
  change buf with ([] ++ buf) at 1.
  erewrite bind_eq by (apply event_log_loop_eq; done || (simpl; lia)).
  unfold bind, pthread_mutex_unlock, ret. cbn [is_null]. cbn [held set_held]. rewrite holds_cons.
  rewrite relocked by done. cbn [app].
  replace (Z.to_nat (Z.min 64 (Z.of_nat (length L)))) with (length L `min` 64)%nat by lia.
  do 4 f_equal. unfold delivered_log. f_equal. apply map_ext_in. intros k Hin.
  apply in_seq in Hin. destruct (Nat.eqb_spec k 63) as [->|Hne].
  - change (nth 0 L 0) with (nth (Z.to_nat 0) L 0). rewrite <- (Hk 0) by lia. do 2 f_equal. Z.div_mod_to_equations. lia.
  - replace (log_event_idx (state_set (ctr w)) - 1 - (0 + Z.of_nat k + 1))
      with (log_event_idx (state_set (ctr w)) - 1 - Z.of_nat (S k)) by lia.
    rewrite Hk by lia. by rewrite Nat2Z.id.
Qed.

(** [n] events logged one after the other, oldest first. *)
Fixpoint log_events (es : list Z) : M unit :=
  match es with
  | [] => ret tt
  | e :: es => app_mslave_set_comm_event_log CTR e ;; log_events es
  end.

Lemma log_events_eq es L w :
  free mtx_for_state_set w -> event_ring (state_set (ctr w)) L -> Forall is_u8 es ->
  Forall is_u8 (log_comm_event (state_set (ctr w))) ->
  exists f, log_events es w = Some (tt, upd_state f w) /\
    event_ring (f (state_set (ctr w))) (rev es ++ L) /\
    Forall is_u8 (log_comm_event (f (state_set (ctr w)))).
Proof.
  revert L w. induction es as [|e es IH]; intros L w H HL He Hu.
  - exists (fun s => s). split; [by destruct w as [[]]|done].
  - apply Forall_cons_1 in He as [He Hes]. cbn [log_events].
    erewrite bind_eq by by eapply set_comm_event_log_eq.
    destruct (IH (e :: L) (upd_state (push_event e) w)) as (f & E & Hr & Hf).
    + done.
    + by apply event_ring_push.
    + done.
    + rewrite state_set_upd. unfold push_event. case_match; by apply Forall_u8_insert.
    + exists (fun s => f (push_event e s)). rewrite upd_state_upd in E.
      split; [done|]. rewrite state_set_upd in Hr, Hf. cbn [rev]. by rewrite <- app_assoc.
Qed.

Lemma delivered_log_eq L : L <> [] ->
  delivered_log L = take 63 (tail L) ++ [if (length L <? 64)%nat then 0 else nth 0 L 0].
Proof.
  intros HL. destruct L as [|x L]; [done|]. cbn [tail]. unfold delivered_log.
  set (n := length (x :: L)). assert (n = S (length L)) as Hn by done.
  replace (n `min` 64)%nat with (S ((n `min` 64) - 1)) by lia.
  set (m := ((n `min` 64) - 1)%nat). rewrite seq_S, map_app. cbn [map Nat.add].
  f_equal; [|f_equal].
  - replace (take 63 L) with (take m L).
    2: { destruct (Nat.leb_spec 64 n); [by replace m with 63%nat by lia|].
         rewrite !take_ge by lia. done. }
    rewrite <- map_nth_seq by lia. apply map_ext_in. intros k Hk. apply in_seq in Hk.
    rewrite (proj2 (Nat.eqb_neq k 63)) by lia. done.
  - destruct (Nat.ltb_spec n 64).
    + rewrite (proj2 (Nat.eqb_neq m 63)) by lia. apply nth_overflow. simpl; lia.
    + by replace m with 63%nat by lia.
Qed.

(** the communication event log, as the code delivers it. After the events
    [es] (oldest first, at least one) since the log was cleared, the number of
    bytes is right, but they are rotated by one: byte 0 is the event BEFORE
    the latest one, and the latest event is delivered, as the last byte, only
    when 64 or more were logged; before that the last byte is 0. (The ring
    index is computed from 0xFF where 0x100 is meant.) *)
Theorem event_log_is_rotated es buf w :
  free mtx_for_state_set w -> state_set (ctr w) = zero_state_set -> Forall is_u8 es ->
  es <> [] -> length buf = 64%nat ->
  exists w', log_events es w = Some (tt, w') /\
    app_mslave_get_comm_event_log CTR (Some buf) w' =
    Some ((Z.min 64 (Z.of_nat (length es)),
           Some ((take 63 (tail (rev es)) ++
                    [if (length es <? 64)%nat then 0 else nth 0 (rev es) 0]) ++
                 drop (length es `min` 64) buf)), w').
Proof.
  intros H Hz Hes Hne Hbuf.
  destruct (log_events_eq es [] w) as (f & E & Hr & Hu); [done| |done| |].
  - rewrite Hz. apply event_ring_empty.
  - rewrite Hz. apply Forall_u8_replicate.
  - exists (upd_state f w). split; [done|]. rewrite app_nil_r in Hr.
    rewrite (get_comm_event_log_eq (rev es)) by done.
    rewrite delivered_log_eq, length_rev; [done|]. intros E2. apply Hne.
    apply (f_equal (@rev Z)) in E2. by rewrite rev_involutive in E2.
Qed.

Lemma event_log_is_rotated_witness :
  exists w', log_events [1; 2; 3] idle_world = Some (tt, w') /\
    app_mslave_get_comm_event_log CTR (Some (replicate 64 9)) w' =
    Some ((3, Some (([2; 1] ++ [0]) ++ replicate 61 9)), w').
Proof.
  apply (event_log_is_rotated [1; 2; 3] (replicate 64 9) idle_world);
    try reflexivity; [|discriminate].
  repeat constructor; unfold is_u8; lia.
Defined.

(** the exception status can never be set: the setter tests the local
    error code, which is still zero, for NULL, so every call returns
    [ERR_INVALID_PARAM] and leaves the world as it was. *)
Theorem exception_status_never_set p v w :
  app_mslave_set_exception_status p v w = Some (ERR_INVALID_PARAM, w).
Proof. done. Qed.
