(* ===== verification/Layout.v ===== *)
(** * Layout: where a device's data lives in the register map

    [app_mslave_ipc.c]: the byte orders of multi-byte values, the layout
    description string of a gateway or sensor (["CH02-AD000F-L2F-PRS"]), the
    offset of the remapping table, and the copy into the remapping block. *)

From S2P Require Import Prelude Crc16 Machine SlaveState.
From Stdlib Require Import ZArith Lia ZifyBool List Bool.
From stdpp Require Import base list numbers.
Open Scope Z_scope.
Open Scope m_scope.

(** ** Byte orders *)

(** [to_set_uint16]: the register value stored for [val]. *)
Definition to_set_uint16 (val : Z) : M Z :=
  let* kp_border := app_mslave_get_mbus_border CTR in
  let a := Z.land (Z.shiftr val 8) 0xFF in
  let b := Z.land (Z.shiftr val 0) 0xFF in
  match kp_border with
  | MBUS_BORDER_BADC | MBUS_BORDER_DCBA => ret (be16 b a)
  | _ => ret (be16 a b)
  end.

(** The two registers stored for the bytes [a b c d], high byte first. *)
Definition order_words (kp_border : mbus_byte_oder) (a b c d : Z) : list Z :=
  match kp_border with
  | MBUS_BORDER_BADC => [be16 b a; be16 d c]
  | MBUS_BORDER_CDAB => [be16 c d; be16 a b]
  | MBUS_BORDER_DCBA => [be16 d c; be16 b a]
  | MBUS_BORDER_ABCD => [be16 a b; be16 c d]
  end.

Definition to_set_uint32 (val : Z) : M (list Z) :=
  let* kp_border := app_mslave_get_mbus_border CTR in
  let a := Z.land (Z.shiftr val 24) 0xFF in
  let b := Z.land (Z.shiftr val 16) 0xFF in
  let c := Z.land (Z.shiftr val 8) 0xFF in
  let d := Z.land (Z.shiftr val 0) 0xFF in
  ret (order_words kp_border a b c d).

(** [val] is the bit pattern of the float. *)
Definition to_set_float (val : Z) : M (list Z) :=
  let* kp_border := app_mslave_get_mbus_border CTR in
  let a := Z.land (Z.shiftr val 24) 0xFF in
  let b := Z.land (Z.shiftr val 16) 0xFF in
  let c := Z.land (Z.shiftr val 8) 0xFF in
  let d := Z.land (Z.shiftr val 0) 0xFF in
  ret (order_words kp_border a b c d).

(** ** Layout description *)

Definition SENSOR_NAME_CHN_OFFSET : nat := 0x2.
Definition SENSOR_NAME_START_ADDR_OFFSET : nat := 0x7.
Definition SENSOR_NAME_REG_LEN_OFFSET : nat := 0xD.
Definition SENSOR_NAME_REG_LEN_LENGTH : nat := 0x2.
Definition SENSOR_NAME_TYPE_OFFSET : nat := 0x10.
Definition SENSOR_NAME_TYPE_LENGTH : nat := 0x3.

(** "PRS", "ITS", "GWY" *)
Definition MODBUS_PRODUCT_TYPE_PREDICT_SENSOR : list Z := [80; 82; 83].
Definition MODBUS_PRODUCT_TYPE_INSIGHT_T_SENSOR : list Z := [73; 84; 83].
Definition MODBUS_PRODUCT_TYPE_GATEWAY : list Z := [71; 87; 89].

(** [struct sdata_layout] *)
Record sdata_layout := Layout {
  lay_is_valid : bool; lay_nameid : Z; lay_ch : Z; lay_addr : Z; lay_regnum : Z;
  lay_stype : sensor_type
}.

(** [memcmp(a, b, n) == 0] *)
Definition memeq (a b : list Z) (n : nat) : bool := bool_decide (take n a = take n b).

Definition app_mslave_get_reg_mapping_info : M register_mapping_info := get_remap.

Definition app_mslave_get_reg_mapping_offset : M Z :=
  let* g := get_remap in ret (if rm_flg g then rm_offset g else 0).

(** The field parsing that the two layout functions share: the layout with
    the type still unknown, or the invalid layout at the first bad field. *)
Definition parse_layout_fields (d : list Z) : sdata_layout :=
  let lay := Layout false 0 0 0 0 STYPE_UNKNOWN in
  let at_ i := nth i d 0 in
  let hex i := util_tool_is_hex_char (at_ i) in
  let val i := util_tool_hex_char_to_uint8 (at_ i) in
  if negb (hex SENSOR_NAME_CHN_OFFSET) || negb (hex (SENSOR_NAME_CHN_OFFSET + 1)%nat) then lay
  else
  let ch := u16 (val SENSOR_NAME_CHN_OFFSET * 16 + val (SENSOR_NAME_CHN_OFFSET + 1)%nat) in
  if negb (hex SENSOR_NAME_START_ADDR_OFFSET) || negb (hex (SENSOR_NAME_START_ADDR_OFFSET + 1)%nat)
     || negb (hex (SENSOR_NAME_START_ADDR_OFFSET + 2)%nat)
     || negb (hex (SENSOR_NAME_START_ADDR_OFFSET + 3)%nat)
  then Layout false 0 ch 0 0 STYPE_UNKNOWN
  else
  let addr := u16 (val SENSOR_NAME_START_ADDR_OFFSET * 16 * 16 * 16) in
  let addr := u16 (addr + val (SENSOR_NAME_START_ADDR_OFFSET + 1)%nat * 16 * 16) in
  let addr := u16 (addr + val (SENSOR_NAME_START_ADDR_OFFSET + 2)%nat * 16) in
  let addr := u16 (addr + val (SENSOR_NAME_START_ADDR_OFFSET + 3)%nat) in
  if negb (hex SENSOR_NAME_REG_LEN_OFFSET) || negb (hex (SENSOR_NAME_REG_LEN_LENGTH + 1)%nat)
  then Layout false 0 ch addr 0 STYPE_UNKNOWN
  else
  let regnum := u16 (val SENSOR_NAME_REG_LEN_OFFSET * 16 + val (SENSOR_NAME_REG_LEN_OFFSET + 1)%nat) in
  Layout true 0 ch addr regnum STYPE_UNKNOWN.

(** The end of both functions: the name id, and the offset of the remapping. *)
Definition finish_layout (lay : sdata_layout) (nameid : Z) (stype : sensor_type) : M sdata_layout :=
  let* kpu16 := app_mslave_get_reg_mapping_offset in
  let addr := if lay_addr lay + kpu16 <=? 0xFFFF then u16 (lay_addr lay + kpu16) else lay_addr lay in
  ret (Layout true nameid (lay_ch lay) addr (lay_regnum lay) stype).

Definition invalid_layout (lay : sdata_layout) : sdata_layout :=
  Layout false (lay_nameid lay) (lay_ch lay) (lay_addr lay) (lay_regnum lay) (lay_stype lay).

(** [app_mslave_ipc_get_sdata_layout_info], the version on [description]. *)
Definition app_mslave_ipc_get_sdata_layout_info (pt_devinfo : option deviceTableData_t)
    : M sdata_layout :=
  match pt_devinfo with
  | None => ret (Layout false 0 0 0 0 STYPE_UNKNOWN)
  | Some dev =>
      let d := dev_description dev in
      let lay := parse_layout_fields d in
      if negb (lay_is_valid lay) then ret lay
      else
        let ty := drop SENSOR_NAME_TYPE_OFFSET d in
        if memeq ty MODBUS_PRODUCT_TYPE_PREDICT_SENSOR SENSOR_NAME_TYPE_LENGTH
        then finish_layout lay (dev_nameId dev) STYPE_PREDICT
        else if memeq ty MODBUS_PRODUCT_TYPE_INSIGHT_T_SENSOR SENSOR_NAME_TYPE_LENGTH
        then finish_layout lay (dev_nameId dev) STYPE_INSIGHT_T
        else ret (invalid_layout lay)
  end.

Definition app_mslave_ipc_get_gwconf_layout_info (pt_gwconf : option gatewayTableData_t)
    : M sdata_layout :=
  match pt_gwconf with
  | None => ret (Layout false 0 0 0 0 STYPE_UNKNOWN)
  | Some gw =>
      let d := gw_description gw in
      let lay := parse_layout_fields d in
      if negb (lay_is_valid lay) then ret lay
      else
        let ty := drop SENSOR_NAME_TYPE_OFFSET d in
        if memeq ty MODBUS_PRODUCT_TYPE_PREDICT_SENSOR SENSOR_NAME_TYPE_LENGTH
        then finish_layout lay (gw_nameId gw) STYPE_PREDICT
        else if memeq ty MODBUS_PRODUCT_TYPE_INSIGHT_T_SENSOR SENSOR_NAME_TYPE_LENGTH
        then finish_layout lay (gw_nameId gw) STYPE_INSIGHT_T
        else if memeq ty MODBUS_PRODUCT_TYPE_GATEWAY SENSOR_NAME_TYPE_LENGTH
        then finish_layout lay (gw_nameId gw) STYPE_GW
        else ret (invalid_layout lay)
  end.

(** ** The remapping block *)

Definition with_tab_registers (t : list Z) (m : modbus_mapping_t) : modbus_mapping_t :=
  Mapping (nb_bits m) (start_bits m) (nb_input_bits m) (start_input_bits m)
    (nb_input_registers m) (start_input_registers m) (nb_registers m) (start_registers m)
    (tab_bits m) (tab_input_bits m) (tab_input_registers m) t.

(** One iteration of [to_update_remapping_block], on the queue that holds both
    blocks: [des] and [src] are positions in it and may be equal. *)
Definition remap_step (des src : nat) (info : register_mapping_info) (i : Z)
    (q : list modbus_mapping_t) : list modbus_mapping_t :=
  match q !! des, q !! src with
  | Some pt_des_blk, Some pt_src_blk =>
      let kp_src_addr := nth (Z.to_nat (i mod MAX_REG_MAPPING)) (rm_src info) 0 in
      let kp_des_addr := nth (Z.to_nat (i mod MAX_REG_MAPPING)) (rm_des info) 0 in
      if (kp_src_addr <? start_registers pt_src_blk)
         || (start_registers pt_src_blk + nb_registers pt_src_blk <=? kp_src_addr) then q
      else if (kp_des_addr <? start_registers pt_des_blk)
         || (start_registers pt_des_blk + nb_registers pt_des_blk <=? kp_des_addr) then q
      else if bool_decide (tab_registers pt_src_blk = []) || bool_decide (tab_registers pt_des_blk = [])
      then q
      else if (nb_registers pt_src_blk <=? 0) || (nb_registers pt_des_blk <=? 0) then q
      else
        let kp_regval := nth (Z.to_nat ((kp_src_addr - start_registers pt_src_blk)
                                        mod nb_registers pt_src_blk)) (tab_registers pt_src_blk) 0 in
        <[des := with_tab_registers
                   (<[Z.to_nat ((kp_des_addr - start_registers pt_des_blk)
                                mod nb_registers pt_des_blk) := kp_regval]>
                      (tab_registers pt_des_blk)) pt_des_blk]> q
  | _, _ => q
  end.

(** The [for] loop from [i], [n] entries to go. *)
Fixpoint remap_loop (n : nat) (des src : nat) (info : register_mapping_info) (i : Z)
    (q : list modbus_mapping_t) : list modbus_mapping_t :=
  match n with
  | O => q
  | S n => remap_loop n des src info (i + 1) (remap_step des src info i q)
  end.

(** NULL pointers are [None]; the blocks are nodes of the mapping queue. *)
Definition to_update_remapping_block (pt_des_blk pt_src_blk : option nat)
    (pt_remap_info : option register_mapping_info) : M Z :=
  match pt_des_blk, pt_src_blk, pt_remap_info with
  | Some d, Some s, Some info =>
      modify_ctr (fun c => with_mapping_queue
        (remap_loop (Z.to_nat (rm_mapping_num info)) d s info 0 (mapping_queue c)) c) ;;
      ret ERR_NONE
  | _, _, _ => ret ERR_INVALID_PARAM
  end.

(** ** Layout names *)

(** The lower-case hexadecimal digit of [n], as ["%x"] prints it. *)
Definition hex_digit (n : Z) : Z := if n <? 10 then 48 + n else 87 + n.

(** The string [SENSOR_NAME_BUILD_STRING] ("CH%02x-AD%04x-L%02x-%s") prints. *)
Definition layout_name (ch addr regnum : Z) (ty : list Z) : list Z :=
  [67; 72; hex_digit (ch / 16); hex_digit (ch mod 16); 45; 65; 68;
   hex_digit (addr / 4096); hex_digit (addr / 256 mod 16); hex_digit (addr / 16 mod 16);
   hex_digit (addr mod 16); 45; 76; hex_digit (regnum / 16); hex_digit (regnum mod 16); 45] ++ ty.

Definition type_code (t : sensor_type) : list Z :=
  match t with
  | STYPE_PREDICT => MODBUS_PRODUCT_TYPE_PREDICT_SENSOR
  | STYPE_INSIGHT_T => MODBUS_PRODUCT_TYPE_INSIGHT_T_SENSOR
  | STYPE_GW => MODBUS_PRODUCT_TYPE_GATEWAY
  | STYPE_UNKNOWN => []
  end.

(** The address a device gets when the remapping table shifts the map. *)
Definition shifted (info : register_mapping_info) (addr : Z) : Z :=
  let off := if rm_flg info then rm_offset info else 0 in
  if addr + off <=? 0xFFFF then addr + off else addr.

Lemma hex_digit_ok n : 0 <= n < 16 ->
  util_tool_is_hex_char (hex_digit n) = true /\ util_tool_hex_char_to_uint8 (hex_digit n) = n.
Proof.
  intros H. unfold hex_digit, util_tool_is_hex_char, util_tool_hex_char_to_uint8.
  destruct (Z.ltb_spec n 10).
  - rewrite !(proj2 (Z.leb_le _ _)) by lia. simpl. lia.
  - rewrite (proj2 (Z.leb_le 48 _)), (proj2 (Z.leb_gt _ 57)), !(proj2 (Z.leb_le _ _)) by lia.
    simpl. lia.
Qed.

Lemma parse_layout_name ch addr regnum rest :
  is_u8 ch -> is_u16 addr -> is_u8 regnum ->
  parse_layout_fields (layout_name ch addr regnum rest) =
  Layout true 0 ch addr regnum STYPE_UNKNOWN.
Proof.
  unfold is_u8, is_u16. intros Hc Ha Hr. unfold parse_layout_fields, layout_name.
  set (d := _ ++ _). cbv zeta.
  assert (forall n, 0 <= n < 16 -> util_tool_is_hex_char (hex_digit n) = true) as Hx
    by (intros; by apply hex_digit_ok).
  assert (forall n, 0 <= n < 16 -> util_tool_hex_char_to_uint8 (hex_digit n) = n) as Hv
    by (intros; by apply hex_digit_ok).
  unfold d; cbn [app nth SENSOR_NAME_CHN_OFFSET SENSOR_NAME_START_ADDR_OFFSET
    SENSOR_NAME_REG_LEN_OFFSET SENSOR_NAME_REG_LEN_LENGTH Nat.add].
  rewrite !Hx by (Z.div_mod_to_equations; lia). cbn [negb orb].
  rewrite !Hv by (Z.div_mod_to_equations; lia). unfold u16.
  f_equal; Z.div_mod_to_equations; lia.
Qed.

#[global] Instance sensor_type_eq_dec : EqDecision sensor_type.
Proof. solve_decision. Defined.

Lemma memeq_type t t' pad : t <> STYPE_UNKNOWN -> t' <> STYPE_UNKNOWN ->
  memeq (type_code t ++ pad) (type_code t') SENSOR_NAME_TYPE_LENGTH = bool_decide (t = t').
Proof. destruct t, t'; try done; intros _ _; reflexivity. Qed.

Lemma finish_layout_eq lay nameid t w :
  0 <= lay_addr lay -> 0 <= rm_offset (remap w) ->
  finish_layout lay nameid t w =
  Some (Layout true nameid (lay_ch lay) (shifted (remap w) (lay_addr lay)) (lay_regnum lay) t, w).
Proof.
  intros Ha Ho. unfold finish_layout, app_mslave_get_reg_mapping_offset, shifted, bind, get_remap, ret.
  set (off := if rm_flg (remap w) then _ else _). assert (0 <= off) by (unfold off; case_match; lia).
  destruct (Z.leb_spec (lay_addr lay + off) 0xFFFF); [|done].
  by rewrite u16_id by (unfold is_u16; lia).
Qed.

(** layout names round-trip: the description string that the configuration
    side prints for channel [ch], start address [addr], length [regnum] and a
    product type is parsed back to exactly these values, moved by the offset
    of the remapping table; gateways accept all three types, sensors only the
    two sensor types. *)
Theorem layout_name_roundtrip ch addr regnum t pad nameid nm gw w :
  is_u8 ch -> is_u16 addr -> is_u8 regnum -> t <> STYPE_UNKNOWN -> 0 <= rm_offset (remap w) ->
  gw_description gw = layout_name ch addr regnum (type_code t ++ pad) ->
  app_mslave_ipc_get_gwconf_layout_info (Some gw) w =
    Some (Layout true (gw_nameId gw) ch (shifted (remap w) addr) regnum t, w) /\
  (app_mslave_ipc_get_sdata_layout_info
     (Some (DevData nameid (layout_name ch addr regnum (type_code t ++ pad)) nm)) w =
   if bool_decide (t = STYPE_GW) then Some (Layout false 0 ch addr regnum STYPE_UNKNOWN, w)
   else Some (Layout true nameid ch (shifted (remap w) addr) regnum t, w)).
Proof.
  intros Hc Ha Hr Ht Ho Hg.
  unfold app_mslave_ipc_get_gwconf_layout_info, app_mslave_ipc_get_sdata_layout_info.
  cbn [dev_description dev_nameId]. rewrite Hg, !parse_layout_name by done.
  cbn [lay_is_valid negb]. cbv zeta.
  change (drop SENSOR_NAME_TYPE_OFFSET (layout_name ch addr regnum (type_code t ++ pad)))
    with (drop 0 (type_code t ++ pad)). rewrite drop_0.
  change MODBUS_PRODUCT_TYPE_PREDICT_SENSOR with (type_code STYPE_PREDICT).
  change MODBUS_PRODUCT_TYPE_INSIGHT_T_SENSOR with (type_code STYPE_INSIGHT_T).
  change MODBUS_PRODUCT_TYPE_GATEWAY with (type_code STYPE_GW).
  rewrite !memeq_type by done. unfold is_u16 in Ha.
  destruct t; try done; cbn [bool_decide decide sensor_type_eq_dec];
    repeat (case_bool_decide; try done); rewrite ?finish_layout_eq by (simpl; lia); done.
Qed.

Lemma layout_name_roundtrip_witness :
  let gw := GwConf 1 7 (ModbusConfig 9600 17 0 0 0) (layout_name 2 15 47 [71; 87; 89]) in
  app_mslave_ipc_get_gwconf_layout_info (Some gw) idle_world =
    Some (Layout true 7 2 15 47 STYPE_GW, idle_world) /\
  app_mslave_ipc_get_sdata_layout_info (Some (DevData 9 (layout_name 2 15 47 [71; 87; 89]) [])) idle_world =
    Some (Layout false 0 2 15 47 STYPE_UNKNOWN, idle_world).
Proof.
  apply (layout_name_roundtrip 2 15 47 STYPE_GW []); try (vm_compute; congruence);
    unfold is_u8, is_u16; split; lia.
Defined.

(** the low digit of the register count is never checked: whatever byte
    [x] stands there, the description is accepted, and a byte that is no
    digit counts as 0. (The code tests byte 3, the low digit of the channel,
    a second time instead of byte 14.) *)
Theorem reg_length_low_digit_unchecked ch addr hi x pad nameid nm w :
  is_u8 ch -> is_u16 addr -> 0 <= hi < 16 -> util_tool_is_hex_char x = false ->
  0 <= rm_offset (remap w) ->
  app_mslave_ipc_get_sdata_layout_info
    (Some (DevData nameid (<[14%nat := x]> (layout_name ch addr (hi * 16)
       (MODBUS_PRODUCT_TYPE_PREDICT_SENSOR ++ pad))) nm)) w =
  Some (Layout true nameid ch (shifted (remap w) addr) (hi * 16) STYPE_PREDICT, w).
Proof.
  intros Hc Ha Hh Hx Ho. unfold app_mslave_ipc_get_sdata_layout_info. cbn [dev_description dev_nameId].
  assert (util_tool_hex_char_to_uint8 x = 0) as Hx0.
  { unfold util_tool_is_hex_char, util_tool_hex_char_to_uint8 in *.
    repeat (case_match; [discriminate|]). done. }
  pose proof (parse_layout_name ch addr (hi * 16) (MODBUS_PRODUCT_TYPE_PREDICT_SENSOR ++ pad)
    Hc Ha ltac:(unfold is_u8; lia)) as E.
  set (d := layout_name _ _ _ _) in *.
  assert (parse_layout_fields (<[14%nat := x]> d) = parse_layout_fields d) as ->.
  { unfold parse_layout_fields, d, layout_name.
    cbn [app insert list_insert nth SENSOR_NAME_CHN_OFFSET SENSOR_NAME_START_ADDR_OFFSET
      SENSOR_NAME_REG_LEN_OFFSET SENSOR_NAME_REG_LEN_LENGTH Nat.add].
    rewrite Hx0. replace (hi * 16 mod 16) with 0 by (by rewrite Z.mod_mul).
    by replace (util_tool_hex_char_to_uint8 (hex_digit 0)) with 0. }
  rewrite E. cbn [lay_is_valid negb]. cbv zeta.
  change (drop SENSOR_NAME_TYPE_OFFSET (<[14%nat:=x]> d))
    with (drop 0 (MODBUS_PRODUCT_TYPE_PREDICT_SENSOR ++ pad)). rewrite drop_0.
  cbn -[finish_layout]. apply finish_layout_eq; [unfold is_u16 in Ha; simpl; lia|done].
Qed.

Lemma reg_length_low_digit_unchecked_witness :
  app_mslave_ipc_get_sdata_layout_info
    (Some (DevData 9 (<[14%nat := 90]> (layout_name 2 15 (2 * 16) [80; 82; 83])) [])) idle_world =
  Some (Layout true 9 2 15 32 STYPE_PREDICT, idle_world).
Proof.
  apply (reg_length_low_digit_unchecked 2 15 2 90 []); try (vm_compute; congruence);
    unfold is_u8, is_u16; split; lia.
Defined.

(** ** What remapping copies *)

(** A block of holding registers with its table. *)
Definition reg_block (m : modbus_mapping_t) : Prop :=
  0 <= start_registers m /\ 0 < nb_registers m /\
  nb_registers m = Z.of_nat (length (tab_registers m)).

Definition block_has (m : modbus_mapping_t) (addr : Z) : Prop :=
  start_registers m <= addr < start_registers m + nb_registers m.

#[global] Instance block_has_dec m addr : Decision (block_has m addr).
Proof. unfold block_has. apply _. Defined.

Definition reg_at (m : modbus_mapping_t) (addr : Z) : Z :=
  nth (Z.to_nat (addr - start_registers m)) (tab_registers m) 0.

Definition entry_src (info : register_mapping_info) (j : Z) : Z := nth (Z.to_nat j) (rm_src info) 0.
Definition entry_des (info : register_mapping_info) (j : Z) : Z := nth (Z.to_nat j) (rm_des info) 0.

(** The destination block after step [i], given what the source holds. *)
Definition after_step (info : register_mapping_info) (i : Z) (sb db : modbus_mapping_t)
    : modbus_mapping_t :=
  if bool_decide (block_has sb (entry_src info i) /\ block_has db (entry_des info i))
  then with_tab_registers
         (<[Z.to_nat (entry_des info i - start_registers db) := reg_at sb (entry_src info i)]>
            (tab_registers db)) db
  else db.

Lemma remap_step_eq des src info i q sb db :
  q !! src = Some sb -> q !! des = Some db -> reg_block sb -> reg_block db ->
  0 <= i < MAX_REG_MAPPING ->
  remap_step des src info i q = <[des := after_step info i sb db]> q.
Proof.
  intros Hs Hd (S1 & S2 & S3) (D1 & D2 & D3) Hi. unfold remap_step, after_step.
  rewrite Hs, Hd, Z.mod_small by done. cbv zeta. fold (entry_src info i) (entry_des info i).
  destruct (decide (block_has sb (entry_src info i) /\ block_has db (entry_des info i))) as [H|H];
    [rewrite (bool_decide_eq_true_2 _ H)|rewrite (bool_decide_eq_false_2 _ H)];
    unfold block_has, reg_at in *.
  - destruct H as [[H1 H2] [H3 H4]].
    rewrite !(proj2 (Z.ltb_ge _ _)), !(proj2 (Z.leb_gt _ _)) by lia. cbn [orb].
    assert (tab_registers sb <> []) by (intros E; rewrite E in S3; simpl in S3; lia).
    assert (tab_registers db <> []) by (intros E; rewrite E in D3; simpl in D3; lia).
    rewrite (bool_decide_eq_false_2 (tab_registers sb = [])) by done.
    rewrite (bool_decide_eq_false_2 (tab_registers db = [])) by done. cbn [orb].
    by rewrite !Z.mod_small by lia.
  - rewrite (list_insert_id q des db) by done.
    destruct (_ || _) eqn:E1; [done|]. destruct ((entry_des info i <? _) || _) eqn:E2; [done|].
    exfalso. apply H. lia.
Qed.

Lemma after_step_block info i sb db : reg_block db -> reg_block (after_step info i sb db) /\
  start_registers (after_step info i sb db) = start_registers db /\
  nb_registers (after_step info i sb db) = nb_registers db.
Proof.
  intros (D1 & D2 & D3). unfold after_step. case_bool_decide; [|done].
  split; [|done]. split; [done|]. split; [done|]. cbn. by rewrite length_insert.
Qed.

(** The destination block after the loop from [i]. *)
Fixpoint after_loop (n : nat) (info : register_mapping_info) (i : Z) (sb db : modbus_mapping_t)
    : modbus_mapping_t :=
  match n with O => db | S n => after_loop n info (i + 1) sb (after_step info i sb db) end.

Lemma remap_loop_eq n des src info i q sb db :
  des <> src -> q !! src = Some sb -> q !! des = Some db -> reg_block sb -> reg_block db ->
  0 <= i -> i + Z.of_nat n <= MAX_REG_MAPPING ->
  remap_loop n des src info i q = <[des := after_loop n info i sb db]> q.
Proof.
  revert i q db. induction n as [|n IH]; intros i q db Hne Hs Hd Sb Db Hi Hn; cbn [remap_loop after_loop].
  - by rewrite list_insert_id.
  - rewrite (remap_step_eq _ _ _ _ _ sb db) by (done || lia).
    rewrite (IH (i + 1) _ (after_step info i sb db)); [by rewrite list_insert_insert_eq|done| | |done| |lia|lia].
    + by rewrite list_lookup_insert_ne.
    + apply list_lookup_insert_eq. by eapply lookup_lt_Some.
    + by apply after_step_block.
Qed.

Lemma reg_at_after_step info i sb db addr : reg_block db -> block_has db addr ->
  reg_at (after_step info i sb db) addr =
  if bool_decide (block_has sb (entry_src info i) /\ entry_des info i = addr)
  then reg_at sb (entry_src info i) else reg_at db addr.
Proof.
  intros (D1 & D2 & D3) [A1 A2]. unfold after_step, block_has.
  destruct (decide (entry_des info i = addr)) as [<-|Hne].
  - case_bool_decide as H; case_bool_decide as H'; try done; try lia.
    unfold reg_at at 1. cbn. rewrite nth_lookup, list_lookup_insert_eq by lia. done.
  - rewrite (bool_decide_eq_false_2 (_ /\ entry_des info i = addr)) by tauto.
    case_bool_decide; [|done]. unfold reg_at. cbn.
    rewrite !nth_lookup, list_lookup_insert_ne by lia. done.
Qed.

Lemma reg_at_after_loop_other n info i sb db addr :
  reg_block db -> block_has db addr ->
  (forall k, i <= k < i + Z.of_nat n -> entry_des info k <> addr) ->
  reg_at (after_loop n info i sb db) addr = reg_at db addr.
Proof.
  revert i db. induction n as [|n IH]; intros i db Hb Ha Hk; cbn [after_loop]; [done|].
  destruct (after_step_block info i sb db Hb) as (B1 & B2 & B3).
  rewrite IH; [|done|unfold block_has; by rewrite B2, B3|intros; apply Hk; lia].
  rewrite reg_at_after_step by done. rewrite bool_decide_eq_false_2; [done|].
  intros [_ E]. by apply (Hk i); [lia|].
Qed.

Lemma reg_at_after_loop n info i sb db j :
  reg_block db -> i <= j < i + Z.of_nat n ->
  block_has sb (entry_src info j) -> block_has db (entry_des info j) ->
  (forall k, j < k < i + Z.of_nat n -> entry_des info k <> entry_des info j) ->
  reg_at (after_loop n info i sb db) (entry_des info j) = reg_at sb (entry_src info j).
Proof.
  revert i db. induction n as [|n IH]; intros i db Hb Hj Hs Hd Hk; [lia|]. cbn [after_loop].
  destruct (after_step_block info i sb db Hb) as (B1 & B2 & B3).
  destruct (Z.eq_dec i j) as [<-|Hne].
  - rewrite reg_at_after_loop_other; [|done|unfold block_has; by rewrite B2, B3|intros; apply Hk; lia].
    rewrite reg_at_after_step by done. by rewrite bool_decide_eq_true_2.
  - apply IH; [done|lia|done|unfold block_has; by rewrite B2, B3|intros; apply Hk; lia].
Qed.

(** remapping copies every listed register: after
    [to_update_remapping_block], the destination register of table entry [j]
    holds the value of its source register, whenever both lie in the blocks
    and no later entry has the same destination; the source block and every
    other block keep their registers. *)
Theorem remapping_copies des src info sb db j w :
  des <> src -> mapping_queue (ctr w) !! src = Some sb -> mapping_queue (ctr w) !! des = Some db ->
  reg_block sb -> reg_block db -> 0 <= rm_mapping_num info <= MAX_REG_MAPPING ->
  0 <= j < rm_mapping_num info ->
  block_has sb (entry_src info j) -> block_has db (entry_des info j) ->
  (forall k, j < k < rm_mapping_num info -> entry_des info k <> entry_des info j) ->
  exists db' w', to_update_remapping_block (Some des) (Some src) (Some info) w = Some (ERR_NONE, w') /\
    mapping_queue (ctr w') = <[des := db']> (mapping_queue (ctr w)) /\
    reg_at db' (entry_des info j) = reg_at sb (entry_src info j).
Proof.
  intros Hne Hs Hd Sb Db Hn Hj H1 H2 H3.
  exists (after_loop (Z.to_nat (rm_mapping_num info)) info 0 sb db).
  eexists. split; [reflexivity|]. cbn [ctr set_ctr with_mapping_queue mapping_queue]. split.
  - apply remap_loop_eq; done || lia.
  - apply reg_at_after_loop; try done; [lia|]. intros k Hk. apply H3. lia.
Qed.

Definition remap_world : world :=
  set_ctr (with_mapping_queue
    [Mapping 0 0 0 0 0 0 2 0x80 [] [] [] [11; 22]; Mapping 0 0 0 0 0 0 2 0x300 [] [] [] [0; 0]]
    (ctr idle_world)) idle_world.

Lemma remapping_copies_witness :
  exists db' w', to_update_remapping_block (Some 1%nat) (Some 0%nat)
      (Some (RegMapInfo true 0 1 [0x81] 1 [0x300] 1 0x300 0x300)) remap_world = Some (ERR_NONE, w') /\
    mapping_queue (ctr w') = <[1%nat := db']> (mapping_queue (ctr remap_world)) /\
    reg_at db' 0x300 = 22.
Proof.
  apply (remapping_copies 1 0 (RegMapInfo true 0 1 [0x81] 1 [0x300] 1 0x300 0x300)
    (Mapping 0 0 0 0 0 0 2 0x80 [] [] [] [11; 22])
    (Mapping 0 0 0 0 0 0 2 0x300 [] [] [] [0; 0]) 0 remap_world);
    try (vm_compute; repeat split; congruence).
  intros k Hk. cbn in Hk. lia.
Defined.
