(* ===== verification/SlaveMapping.v ===== *)
(** * SlaveMapping: requests, the mapping queue and its construction

    [app_mslave.c]: the fields of a request, its validation, the search of the
    mapping queue, and the creation of the queue in the two register modes. *)

From S2P Require Import Prelude Crc16 Machine Libmodbus SlaveState Layout.
From Stdlib Require Import ZArith Lia ZifyBool List Bool.
From stdpp Require Import base list numbers.
Open Scope Z_scope.
Open Scope m_scope.

(** ** Fields of a request *)

(** NULL packets are [None]; a read past the packet is undefined. *)
Definition app_mslave_pick_starting_address (pt_msg : option (list Z)) (len : Z) : M Z :=
  match pt_msg with
  | Some msg =>
      if MIN_RTU_PKT <=? len
      then let* h := rd msg 2 in let* l := rd msg 3 in ret (be16 h l)
      else ret 0
  | None => ret 0
  end.

(** The guard is a disjunction: a NULL packet with a long length is read. *)
Definition app_mslave_pick_quantity (pt_msg : option (list Z)) (len : Z) : M Z :=
  match pt_msg with
  | Some msg => let* h := rd msg 4 in let* l := rd msg 5 in ret (be16 h l)
  | None => if MIN_RTU_PKT <=? len then undefined else ret 0
  end.

Definition app_mslave_pick_fun_code (pt_msg : option (list Z)) (len : Z) : M Z :=
  match pt_msg with
  | Some msg => if MIN_RTU_PKT <=? len then rd msg 1 else ret 0
  | None => ret 0
  end.

Definition app_mslave_pick_slave_id (pt_msg : option (list Z)) (len : Z) : M Z :=
  match pt_msg with
  | Some msg => if MIN_RTU_PKT <=? len then rd msg 0 else ret 0
  | None => ret 0
  end.

Definition is_fun_code_for_reading (fcode : Z) : bool :=
  if (fcode =? MODBUS_FC_READ_COILS) || (fcode =? MODBUS_FC_READ_DISCRETE_INPUTS)
     || (fcode =? MODBUS_FC_READ_HOLDING_REGISTERS) || (fcode =? MODBUS_FC_READ_INPUT_REGISTERS)
     || (fcode =? MODBUS_FC_READ_EXCEPTION_STATUS) then true
  else if fcode =? MODBUS_FC_REPORT_SLAVE_ID then true
  else if fcode =? MODBUS_FC_READ_FIFO_QUEUE then true
  else if fcode =? MODBUS_FC_READ_FILE_RECORD then true
  else if fcode =? MODBUS_FC_DIAGNOSTIC then true
  else if fcode =? MODBUS_FC_GET_COM_EVENT_COUNTER then true
  else if fcode =? MODBUS_FC_GET_COM_EVENT_LOG then true
  else if fcode =? MODBUS_FC_READ_DEV_ID then true
  else false.

(** [app_mslave_validate_pkt]; [len] is a [uint8_t]. *)
Definition app_mslave_validate_pkt (p : ptr) (pt_msg : option (list Z)) (len : Z) : M Z :=
  let len := u8 len in
  match pt_msg with
  | None => ret ERR_INVALID_PARAM
  | Some msg =>
      if is_null p || (len <? MIN_RTU_PKT) then ret ERR_INVALID_PARAM
      else
        pthread_mutex_lock p mtx_for_port_conf ;;
        let* b0 := rd msg 0 in
        let* ctx := app_mslave_get_mctx p in
        let* slave := modbus_get_slave ctx in
        if negb (b0 =? slave)
        then pthread_mutex_unlock p mtx_for_port_conf ;; ret EMBXSFAIL
        else
          pthread_mutex_unlock p mtx_for_port_conf ;;
          match util_tool_cal_crc16 msg (len - 2) with
          | None => undefined
          | Some tp_crc_calculated =>
              let* h := rd msg (len - 1) in
              let* l := rd msg (len - 2) in
              let tp_crc_received := be16 h l in
              if negb (tp_crc_calculated =? tp_crc_received)
              then let* _ := app_mslave_inc_bus_comm_error_cnt p in ret EMBBADCRC
              else
                let* f := rd msg 1 in
                if negb (is_fun_code_for_reading f) then ret EMBXILFUN else ret ERR_NONE
          end
  end.

(** The enumerator of [MODBUS_FC_READ_DEV_ID] (0x2B) is stored as it is, which
    is no [addr_group]; it is mapped to [None]. *)
Definition app_mslave_get_op_addr_group (p : ptr) (pt_msg : option (list Z)) (len : Z)
    : M (option addr_group) :=
  match pt_msg with
  | None => ret (Some ADDR_GP_UNKNOWN)
  | Some msg =>
      if is_null p || (u8 len <? MIN_RTU_PKT) then ret (Some ADDR_GP_UNKNOWN)
      else
        let* f := rd msg 1 in
        ret (if f =? MODBUS_FC_READ_COILS then Some ADDR_GP_COIL
             else if f =? MODBUS_FC_READ_DISCRETE_INPUTS then Some ADDR_GP_DISCRETE_INPUT
             else if f =? MODBUS_FC_READ_HOLDING_REGISTERS then Some ADDR_GP_HOLDING_REGISTER
             else if f =? MODBUS_FC_READ_INPUT_REGISTERS then Some ADDR_GP_INPUT_REGISTER
             else if f =? MODBUS_FC_REPORT_SLAVE_ID then Some ADDR_GP_REPORT_SLAVE_ID
             else if f =? MODBUS_FC_READ_FIFO_QUEUE then Some ADDR_GP_FIFO_QUEUE
             else if f =? MODBUS_FC_READ_FILE_RECORD then Some ADDR_GP_FILE_RECORD
             else if f =? MODBUS_FC_DIAGNOSTIC then Some ADDR_GP_DIAGNOSTICS
             else if f =? MODBUS_FC_GET_COM_EVENT_COUNTER then Some ADDR_GP_COM_EVENT_COUNTER
             else if f =? MODBUS_FC_GET_COM_EVENT_LOG then Some ADDR_GP_COM_EVENT_LOG
             else if f =? MODBUS_FC_READ_DEV_ID then None
             else Some ADDR_GP_UNKNOWN)
  end.

(** ** The mapping queue *)

(** [l_queue_push_tail]; the position of the new node is its handle. *)
Definition push_mapping (m : modbus_mapping_t) : M unit :=
  modify_ctr (fun c => with_mapping_queue (mapping_queue c ++ [m]) c).

Definition app_mslave_append_mapping (p : ptr) (pt_mapping : option modbus_mapping_t) : M Z :=
  match pt_mapping with
  | None => ret ERR_INVALID_PARAM
  | Some m =>
      if is_null p then ret ERR_INVALID_PARAM
      else
        pthread_mutex_lock p mtx_for_mapping_queue ;;
        push_mapping m ;;
        pthread_mutex_unlock p mtx_for_mapping_queue ;;
        ret ERR_NONE
  end.

(** Does the node match? The bounds are [uint16_t]; the discrete-input case
    has a disjunction where the others have a conjunction. *)
Definition mapping_matches (m : modbus_mapping_t) (kp_addr : Z) (addr_gp : addr_group) : bool :=
  match addr_gp with
  | ADDR_GP_COIL =>
      (u16 (start_bits m) <=? kp_addr) && (kp_addr <? u16 (start_bits m + nb_bits m))
  | ADDR_GP_DISCRETE_INPUT =>
      (u16 (start_input_bits m) <=? kp_addr)
      || (kp_addr <? u16 (start_input_bits m + nb_input_bits m))
  | ADDR_GP_HOLDING_REGISTER =>
      (u16 (start_registers m) <=? kp_addr)
      && (kp_addr <? u16 (start_registers m + nb_registers m))
  | ADDR_GP_INPUT_REGISTER =>
      (u16 (start_input_registers m) <=? kp_addr)
      && (kp_addr <? u16 (start_input_registers m + nb_input_registers m))
  | _ => false
  end.

(** The [while] loop over the queue entries from position [i]. *)
Fixpoint locate_from (q : list modbus_mapping_t) (i : nat) (kp_addr : Z) (addr_gp : addr_group)
    : option nat :=
  match q with
  | [] => None
  | m :: q => if mapping_matches m kp_addr addr_gp then Some i else locate_from q (S i) kp_addr addr_gp
  end.

Definition app_mslave_locate_mapping (p : ptr) (kp_addr : Z) (addr_gp : addr_group)
    : M (option nat) :=
  if is_null p then ret None
  else
    let* c := deref p in
    if Z.of_nat (length (mapping_queue c)) <=? 0 then ret None
    else ret (locate_from (mapping_queue c) 0 kp_addr addr_gp).

(** [l_queue_foreach_remove] with [cbk_q_rm_mapping], which frees every node
    and always answers true. *)
Definition cbk_q_rm_mapping (_ : modbus_mapping_t) : bool := true.

Definition app_mslave_release_mapping_none_thread_safe (p : ptr) : M Z :=
  let* c := deref p in
  put_ctr (with_mapping_queue (List.filter (fun m => negb (cbk_q_rm_mapping m)) (mapping_queue c)) c) ;;
  ret ERR_NONE.

Definition app_mslave_release_mapping (p : ptr) : M Z :=
  pthread_mutex_lock p mtx_for_mapping_queue ;;
  let* c := deref p in
  put_ctr (with_mapping_queue (List.filter (fun m => negb (cbk_q_rm_mapping m)) (mapping_queue c)) c) ;;
  pthread_mutex_unlock p mtx_for_mapping_queue ;;
  ret ERR_NONE.

(** ** Creation of the queue *)

Definition MAX_REG_NUMBER : Z := 0xFFFF.
Definition MODBUS_REG_GATEWAY_START_ADDR_OFFSET : Z := 0x0.
Definition MODBUS_REG_GATEWAY_LENGTH : Z := 0x80.
Definition MODBUS_REG_SENSOR_START_ADDR_OFFSET : Z := 0x80.
Definition MODBUS_REG_SENSOR_LENGTH : Z := 0x80.

Definition new_reg_block (addr num : Z) : M (option modbus_mapping_t) :=
  modbus_mapping_new_start_address 0 0 0 0 addr num 0 0.

(** [&pt_mslave_ctr->dev_array[i]] *)
Definition dev_at (p : ptr) (i : nat) : M deviceTableData_t :=
  let* c := deref p in
  match dev_array c !! i with Some d => ret d | None => undefined end.

Definition sensor_layout (p : ptr) (i : nat) : M sdata_layout :=
  let* d := dev_at p i in app_mslave_ipc_get_sdata_layout_info (Some d).

(** Does the remapping range [info] miss the block of [lay]? *)
Definition remap_misses (info : register_mapping_info) (lay : sdata_layout) : bool :=
  (lay_addr lay + lay_regnum lay <? rm_min_reg_addr info) || (rm_max_reg_addr info <? lay_addr lay).

(** The overlap check of both creation functions from sensor [i], [n] to go. *)
Fixpoint remap_overlaps (n i : nat) (p : ptr) : M bool :=
  match n with
  | O => ret false
  | S n =>
      let* lay := sensor_layout p i in
      if negb (lay_is_valid lay) then remap_overlaps n (S i) p
      else
        let* info := app_mslave_get_reg_mapping_info in
        if remap_misses info lay then remap_overlaps n (S i) p else ret true
  end.

Definition SENSORS : nat := Z.to_nat BULLET_GW_SENSOR_NUM_MAX.

Definition to_create_efficient_reg_mapping (p : ptr) : M Z :=
  let tpret := ERR_API_FAIL in
  pthread_mutex_lock p mtx_for_mapping_queue ;;
  pthread_mutex_unlock p mtx_for_mapping_queue ;;
  pthread_mutex_lock p mtx_for_mapping_queue ;;
  let* _ := app_mslave_release_mapping_none_thread_safe p in
  let* pt_mapping := new_reg_block 0 MAX_REG_NUMBER in
  match pt_mapping with
  | None => pthread_mutex_unlock p mtx_for_mapping_queue ;; ret ERR_API_FAIL
  | Some m =>
      push_mapping m ;;
      let* info := app_mslave_get_reg_mapping_info in
      if negb (rm_flg info)
      then pthread_mutex_unlock p mtx_for_mapping_queue ;; ret tpret
      else
        let* over := remap_overlaps SENSORS 0 p in
        if over
        then
          pthread_mutex_unlock p mtx_for_mapping_queue ;;
          put_remap (RegMapInfo false (rm_offset info) (rm_mapping_num info) (rm_src info)
                       (rm_src_cnt info) (rm_des info) (rm_des_cnt info)
                       (rm_max_reg_addr info) (rm_min_reg_addr info)) ;;
          ret tpret
        else pthread_mutex_unlock p mtx_for_mapping_queue ;; ret tpret
  end.

(** The sensor loop of the first extensible version; true when it completes. *)
Fixpoint fixed_blocks (n : nat) (p : ptr) (kp_addr : Z) : M bool :=
  match n with
  | O => ret true
  | S n =>
      if 0xFFFF <? kp_addr + MODBUS_REG_SENSOR_LENGTH then ret false
      else
        let* pt_mapping := new_reg_block kp_addr MODBUS_REG_SENSOR_LENGTH in
        match pt_mapping with
        | None => ret false
        | Some m =>
            let* _ := app_mslave_append_mapping p (Some m) in
            fixed_blocks n p (u16 (kp_addr + MODBUS_REG_SENSOR_LENGTH))
        end
  end.

Definition to_create_extensible_reg_mapping (p : ptr) : M Z :=
  pthread_mutex_lock p mtx_for_mapping_queue ;;
  pthread_mutex_unlock p mtx_for_mapping_queue ;;
  let* pt_mapping := new_reg_block MODBUS_REG_GATEWAY_START_ADDR_OFFSET MODBUS_REG_GATEWAY_LENGTH in
  match pt_mapping with
  | None => ret ERR_API_FAIL
  | Some m =>
      let* _ := app_mslave_append_mapping p (Some m) in
      let* ok := fixed_blocks SENSORS p MODBUS_REG_SENSOR_START_ADDR_OFFSET in
      ret (if ok then ERR_NONE else ERR_API_FAIL)
  end.

(** The sensor loop of the second version from sensor [i], [n] to go; false
    after a failed allocation. *)
Fixpoint sensor_blocks (n i : nat) (p : ptr) : M bool :=
  match n with
  | O => ret true
  | S n =>
      let* lay := sensor_layout p i in
      if negb (lay_is_valid lay) then sensor_blocks n (S i) p
      else if 0xFFFF <? lay_addr lay + lay_regnum lay then sensor_blocks n (S i) p
      else
        let* pt_mapping := new_reg_block (lay_addr lay) (lay_regnum lay) in
        match pt_mapping with
        | None => ret false
        | Some m => push_mapping m ;; sensor_blocks n (S i) p
        end
  end.

Definition to_create_extensible_reg_mapping_v2 (p : ptr) : M Z :=
  pthread_mutex_lock p mtx_for_mapping_queue ;;
  pthread_mutex_unlock p mtx_for_mapping_queue ;;
  pthread_mutex_lock p mtx_for_mapping_queue ;;
  let* _ := app_mslave_release_mapping_none_thread_safe p in
  let fail := pthread_mutex_unlock p mtx_for_mapping_queue ;; ret ERR_API_FAIL in
  let done := pthread_mutex_unlock p mtx_for_mapping_queue ;; ret ERR_NONE in
  let* c := deref p in
  let* lay := app_mslave_ipc_get_gwconf_layout_info (Some (gwconf c)) in
  if negb (lay_is_valid lay) || (0xFFFF <? lay_addr lay + lay_regnum lay) then fail
  else
    let* pt_mapping := new_reg_block (lay_addr lay) (lay_regnum lay) in
    match pt_mapping with
    | None => fail
    | Some m =>
        push_mapping m ;;
        let* ok := sensor_blocks SENSORS 0 p in
        if negb ok then fail
        else
          let* info := app_mslave_get_reg_mapping_info in
          if negb (rm_flg info) then done
          else
            let* over := remap_overlaps SENSORS 0 p in
            if over then fail
            else
              let* pt_mapping := new_reg_block (rm_min_reg_addr info)
                (u16 (rm_max_reg_addr info - rm_min_reg_addr info + 1)) in
              match pt_mapping with
              | None => fail
              | Some m => push_mapping m ;; done
              end
    end.

Definition app_mslave_create_mapping (p : ptr) : M Z :=
  let* got := pthread_mutex_trylock p mtx_for_port_conf in
  if negb got
  then app_mslave_set_to_update_mslave p true ;; ret ERR_API_FAIL
  else
    app_mslave_set_to_update_mslave p false ;;
    let* c := deref p in
    let kp_reg_md := pc_reg_md (port_conf c) in
    pthread_mutex_unlock p mtx_for_port_conf ;;
    match kp_reg_md with
    | REG_MD_EXTENSIBLE => to_create_extensible_reg_mapping_v2 p
    | REG_MD_EFFICIENT => to_create_efficient_reg_mapping p
    | REG_MD_UNKNOWN => ret ERR_API_FAIL
    end.

(** ** What the search of the queue finds *)

(** Start and size of the part of a mapping that an address group addresses. *)
Definition group_start (g : addr_group) (m : modbus_mapping_t) : Z :=
  match g with
  | ADDR_GP_COIL => start_bits m | ADDR_GP_DISCRETE_INPUT => start_input_bits m
  | ADDR_GP_HOLDING_REGISTER => start_registers m | _ => start_input_registers m
  end.
Definition group_size (g : addr_group) (m : modbus_mapping_t) : Z :=
  match g with
  | ADDR_GP_COIL => nb_bits m | ADDR_GP_DISCRETE_INPUT => nb_input_bits m
  | ADDR_GP_HOLDING_REGISTER => nb_registers m | _ => nb_input_registers m
  end.

Definition covers (g : addr_group) (m : modbus_mapping_t) (addr : Z) : Prop :=
  group_start g m <= addr < group_start g m + group_size g m.

(** The end of the block is a [uint16_t]. *)
Definition fits16 (g : addr_group) (m : modbus_mapping_t) : Prop :=
  0 <= group_start g m /\ 0 <= group_size g m /\ group_start g m + group_size g m <= 0xFFFF.

Lemma locate_from_spec q i addr g :
  match locate_from q i addr g with
  | Some k => exists j m, k = (i + j)%nat /\ q !! j = Some m /\ mapping_matches m addr g = true /\
      forall j' m', (j' < j)%nat -> q !! j' = Some m' -> mapping_matches m' addr g = false
  | None => forall j m, q !! j = Some m -> mapping_matches m addr g = false
  end.
Proof.
  revert i. induction q as [|x q IH]; intros i; cbn [locate_from]; [done|].
  destruct (mapping_matches x addr g) eqn:E.
  - exists 0%nat, x. split; [lia|]. split; [done|]. split; [done|]. intros; lia.
  - specialize (IH (S i)). destruct (locate_from q (S i) addr g) as [k|].
    + destruct IH as (j & m & -> & Hj & Hm & Hb). exists (S j), m. split; [lia|].
      split; [done|]. split; [done|]. intros [|j'] m' Hlt Hm'; [by simplify_eq/=|].
      apply (Hb j'); [lia|done].
    + intros [|j] m Hm; [by simplify_eq/=|]. by apply (IH j).
Qed.

Lemma locate_mapping_eq addr g w :
  app_mslave_locate_mapping CTR addr g w = Some (locate_from (mapping_queue (ctr w)) 0 addr g, w).
Proof.
  unfold app_mslave_locate_mapping, bind, deref, get_ctr. cbn [is_null].
  destruct (mapping_queue (ctr w)) eqn:E; [done|].
  by rewrite (proj2 (Z.leb_gt _ 0)) by (simpl length; lia).
Qed.

Lemma locate_from_lt q addr g i : locate_from q 0 addr g = Some i -> exists m, q !! i = Some m.
Proof.
  intros E. pose proof (locate_from_spec q 0 addr g) as H. rewrite E in H.
  destruct H as (j & m & -> & H & _). eauto.
Qed.

Lemma matches_covers g m addr :
  g = ADDR_GP_COIL \/ g = ADDR_GP_HOLDING_REGISTER \/ g = ADDR_GP_INPUT_REGISTER ->
  fits16 g m -> mapping_matches m addr g = true <-> covers g m addr.
Proof.
  intros Hg (H1 & H2 & H3). unfold covers.
  assert (forall s n, 0 <= s -> 0 <= n -> s + n <= 0xFFFF ->
    (u16 s <=? addr) && (addr <? u16 (s + n)) = true <-> s <= addr < s + n) as H.
  { intros s n ???. rewrite !u16_id by (unfold is_u16; lia). lia. }
  destruct Hg as [Hg|[Hg|Hg]]; subst g; cbn [mapping_matches group_start group_size] in *; by apply H.
Qed.

(** the search for the block of a coil, holding-register or input-register
    address finds the first block of the queue that covers the address, and
    fails exactly when no block covers it, for blocks that end at 0xFFFF or
    below. *)
Theorem locate_mapping_first_match g addr w :
  g = ADDR_GP_COIL \/ g = ADDR_GP_HOLDING_REGISTER \/ g = ADDR_GP_INPUT_REGISTER ->
  Forall (fits16 g) (mapping_queue (ctr w)) ->
  exists r, app_mslave_locate_mapping CTR addr g w = Some (r, w) /\
    match r with
    | Some i => exists m, mapping_queue (ctr w) !! i = Some m /\ covers g m addr /\
        forall j m', (j < i)%nat -> mapping_queue (ctr w) !! j = Some m' -> ~ covers g m' addr
    | None => forall m, m ∈ mapping_queue (ctr w) -> ~ covers g m addr
    end.
Proof.
  intros Hg Hq. eexists; split; [apply locate_mapping_eq|].
  assert (forall j m, mapping_queue (ctr w) !! j = Some m -> fits16 g m) as Hf
    by (intros j m Hj; by eapply Forall_lookup_1).
  assert (forall j m, mapping_queue (ctr w) !! j = Some m ->
    mapping_matches m addr g = false -> ~ covers g m addr) as Hn.
  { intros j m Hj E Hc. apply matches_covers in Hc; [congruence|done|by eapply Hf]. }
  pose proof (locate_from_spec (mapping_queue (ctr w)) 0 addr g) as H.
  destruct (locate_from _ _ _ _) as [k|].
  - destruct H as (j & m & -> & Hj & Hm & Hb). exists m. split; [done|].
    split; [by apply matches_covers; [|eapply Hf|]|]. eauto.
  - intros m Hm. apply list_elem_of_lookup in Hm as [j Hj]. eauto.
Qed.

Definition two_blocks_world : world :=
  set_ctr (with_mapping_queue
    [Mapping 0 0 0 0 0 0 2 0 [] [] [] [1; 2]; Mapping 0 0 0 0 0 0 3 16 [] [] [] [7; 8; 9]]
    (ctr idle_world)) idle_world.

Lemma locate_mapping_first_match_witness :
  Forall (fits16 ADDR_GP_HOLDING_REGISTER) (mapping_queue (ctr two_blocks_world)) /\
  exists r, app_mslave_locate_mapping CTR 17 ADDR_GP_HOLDING_REGISTER two_blocks_world =
    Some (r, two_blocks_world) /\ r = Some 1%nat.
Proof.
  assert (Forall (fits16 ADDR_GP_HOLDING_REGISTER) (mapping_queue (ctr two_blocks_world))) as H
    by (repeat constructor; vm_compute; congruence).
  split; [exact H|].
  destruct (locate_mapping_first_match ADDR_GP_HOLDING_REGISTER 17 two_blocks_world
    ltac:(auto) H) as (r & E & _).
  exists r. split; [exact E|]. vm_compute in E. congruence.
Defined.

(** for discrete inputs the search does not look at the address: with any
    non-empty queue it returns the first block, whatever that block covers.
    (The two bounds are joined by [||] where the other groups have [&&].) *)
Theorem locate_discrete_input_ignores_address addr w :
  mapping_queue (ctr w) <> [] ->
  Forall (fits16 ADDR_GP_DISCRETE_INPUT) (mapping_queue (ctr w)) ->
  app_mslave_locate_mapping CTR addr ADDR_GP_DISCRETE_INPUT w = Some (Some 0%nat, w).
Proof.
  intros Hne Hq. rewrite locate_mapping_eq. destruct (mapping_queue (ctr w)) as [|m q]; [done|].
  apply Forall_cons_1 in Hq as [(H1 & H2 & H3) _]. cbn [group_start group_size] in *.
  cbn [locate_from mapping_matches]. rewrite !u16_id by (unfold is_u16; lia).
  by replace ((start_input_bits m <=? addr) || (addr <? start_input_bits m + nb_input_bits m))
    with true by lia.
Qed.

Lemma locate_discrete_input_ignores_address_witness :
  app_mslave_locate_mapping CTR 40000 ADDR_GP_DISCRETE_INPUT two_blocks_world =
    Some (Some 0%nat, two_blocks_world).
Proof.
  apply (locate_discrete_input_ignores_address 40000 two_blocks_world); [discriminate|].
  repeat constructor; vm_compute; congruence.
Defined.

(** ** The queue that is created *)

Definition at_tick (n : nat) (w : world) : world :=
  World (ctr w) (errno w) (held w) (tx w) (rx_pending w) (rx_events w) (remap w) (os w) n.

(** [n] allocations later, with the blocks [bs] added to the queue. *)
Definition add_blocks (bs : list modbus_mapping_t) (n : nat) (w : world) : world :=
  at_tick n (set_ctr (with_mapping_queue (mapping_queue (ctr w) ++ bs) (ctr w)) w).

Lemma add_blocks_nil w : add_blocks [] (tick w) w = w.
Proof. destruct w as [[]]. unfold add_blocks, at_tick, set_ctr, with_mapping_queue. cbn. by rewrite app_nil_r. Qed.

Lemma add_blocks_add bs bs' n n' w :
  add_blocks bs' n' (add_blocks bs n w) = add_blocks (bs ++ bs') n' w.
Proof. unfold add_blocks. cbn. by rewrite app_assoc. Qed.

Definition mallocs_succeed (w : world) : Prop := forall k, o_malloc (os w) k = true.

(** A block of [num] holding registers from [addr], all zero. *)
Definition regs_block (addr num : Z) : modbus_mapping_t :=
  Mapping 0 0 0 0 0 0 num addr [] [] [] (zeros num).

Lemma new_reg_block_eq addr num w :
  exists ok n, new_reg_block addr num w =
    Some (if ok : bool then Some (regs_block addr num) else None, at_tick n w) /\
    (mallocs_succeed w -> ok = true).
Proof.
  unfold new_reg_block, modbus_mapping_new_start_address, new_table, malloc_ok, ask, bind, ret.
  cbn [Z.eqb]. destruct (o_malloc (os w) (tick w)) eqn:E1; cbn [negb].
  - destruct (num =? 0) eqn:E0.
    + apply Z.eqb_eq in E0 as ->. by exists true, (S (tick w)).
    + cbn [os tick next_tick]. destruct (o_malloc (os w) (S (tick w))) eqn:E2.
      * by exists true, (S (S (tick w))).
      * exists false, (S (S (tick w))). split; [done|]. intros H. by rewrite H in E2.
  - exists false, (S (tick w)). split; [done|]. intros H. by rewrite H in E1.
Qed.

(** The layouts as functions of the remapping table. *)
Definition finished (info : register_mapping_info) (lay : sdata_layout) (nameid : Z)
    (stype : sensor_type) : sdata_layout :=
  let off := if rm_flg info then rm_offset info else 0 in
  Layout true nameid (lay_ch lay)
    (if lay_addr lay + off <=? 0xFFFF then u16 (lay_addr lay + off) else lay_addr lay)
    (lay_regnum lay) stype.

Definition layout_of (info : register_mapping_info) (gw : bool) (d : list Z) (nameid : Z)
    : sdata_layout :=
  let lay := parse_layout_fields d in
  let is_type t := memeq (drop SENSOR_NAME_TYPE_OFFSET d) (type_code t) SENSOR_NAME_TYPE_LENGTH in
  if negb (lay_is_valid lay) then lay
  else if is_type STYPE_PREDICT then finished info lay nameid STYPE_PREDICT
  else if is_type STYPE_INSIGHT_T then finished info lay nameid STYPE_INSIGHT_T
  else if gw && is_type STYPE_GW then finished info lay nameid STYPE_GW
  else invalid_layout lay.

Definition sensor_layout_of (info : register_mapping_info) (dev : deviceTableData_t) : sdata_layout :=
  layout_of info false (dev_description dev) (dev_nameId dev).
Definition gateway_layout_of (info : register_mapping_info) (gw : gatewayTableData_t) : sdata_layout :=
  layout_of info true (gw_description gw) (gw_nameId gw).

Lemma sdata_layout_eq dev w :
  app_mslave_ipc_get_sdata_layout_info (Some dev) w = Some (sensor_layout_of (remap w) dev, w).
Proof.
  unfold app_mslave_ipc_get_sdata_layout_info, sensor_layout_of, layout_of. cbn [andb type_code].
  destruct (negb _); [done|]. destruct (memeq _ _ _); [done|]. by destruct (memeq _ _ _).
Qed.

Lemma gwconf_layout_eq gw w :
  app_mslave_ipc_get_gwconf_layout_info (Some gw) w = Some (gateway_layout_of (remap w) gw, w).
Proof.
  unfold app_mslave_ipc_get_gwconf_layout_info, gateway_layout_of, layout_of. cbn [andb type_code].
  destruct (negb _); [done|]. destruct (memeq _ _ _); [done|].
  destruct (memeq _ _ _); [done|]. by destruct (memeq _ _ _).
Qed.

Lemma sensor_layout_eq i dev w : dev_array (ctr w) !! i = Some dev ->
  sensor_layout CTR i w = Some (sensor_layout_of (remap w) dev, w).
Proof.
  intros H. unfold sensor_layout, dev_at, bind, deref, get_ctr. rewrite H.
  apply sdata_layout_eq.
Qed.

(** The block of a sensor, if it gets one. *)
Definition layout_fits (lay : sdata_layout) : bool :=
  lay_is_valid lay && (lay_addr lay + lay_regnum lay <=? 0xFFFF).
Definition sensor_block (info : register_mapping_info) (dev : deviceTableData_t)
    : list modbus_mapping_t :=
  let lay := sensor_layout_of info dev in
  if layout_fits lay then [regs_block (lay_addr lay) (lay_regnum lay)] else [].
Definition sensor_blocks_of (info : register_mapping_info) (devs : list deviceTableData_t)
    : list modbus_mapping_t := flat_map (sensor_block info) devs.

Lemma sensor_blocks_of_cons info d devs :
  sensor_blocks_of info (d :: devs) = sensor_block info d ++ sensor_blocks_of info devs.
Proof. done. Qed.

Lemma lookup_drop_cons (devs : list deviceTableData_t) i :
  (i < length devs)%nat -> exists d, devs !! i = Some d /\ drop i devs = d :: drop (S i) devs.
Proof.
  intros H. destruct (lookup_lt_is_Some_2 devs i H) as [d Hd]. exists d.
  split; [done|]. by apply drop_S.
Qed.

(** The loop adds the blocks of the sensors in order; it stops early only at
    a failed allocation. *)
Lemma sensor_blocks_eq n i w :
  (i + n <= length (dev_array (ctr w)))%nat ->
  exists b bs t, sensor_blocks n i CTR w = Some (b, add_blocks bs t w) /\
    bs `prefix_of` sensor_blocks_of (remap w) (take n (drop i (dev_array (ctr w)))) /\
    (b = true -> bs = sensor_blocks_of (remap w) (take n (drop i (dev_array (ctr w))))) /\
    (mallocs_succeed w -> b = true).
Proof.
  revert i w. induction n as [|n IH]; intros i w Hn; cbn [sensor_blocks].
  { exists true, [], (tick w). rewrite add_blocks_nil. split; [done|].
    split; [apply prefix_nil|done]. }
  destruct (lookup_drop_cons (dev_array (ctr w)) i ltac:(lia)) as (d & Hd & ->).
  erewrite bind_eq by by apply sensor_layout_eq.
  cbn [take]. rewrite !sensor_blocks_of_cons. unfold sensor_block, layout_fits.
  set (lay := sensor_layout_of (remap w) d).
  destruct (lay_is_valid lay); cbn [negb andb app]; [|apply IH; lia].
  rewrite Z.leb_antisym. destruct (Z.ltb_spec 0xFFFF (lay_addr lay + lay_regnum lay)); cbn [negb app];
    [apply IH; lia|].
  destruct (new_reg_block_eq (lay_addr lay) (lay_regnum lay) w) as (ok & t & E & Hok).
  erewrite bind_eq by apply E. destruct ok.
  - unfold push_mapping, modify_ctr, bind.
    destruct (IH (S i) (add_blocks [regs_block (lay_addr lay) (lay_regnum lay)] t w))
      as (b & bs & t' & E' & Hp & Hb & Hm); [cbn; lia|].
    exists b, (regs_block (lay_addr lay) (lay_regnum lay) :: bs), t'.
    rewrite add_blocks_add in E'. split; [apply E'|]. cbn [remap add_blocks at_tick set_ctr] in *.
    split; [by apply prefix_cons|]. split; [intros Hbt; by rewrite (Hb Hbt)|]. apply Hm.
  - exists false, [], t. split; [|split; [apply prefix_nil|split; [done|]]].
    + unfold ret. destruct w as [[]]. unfold add_blocks, at_tick, set_ctr, with_mapping_queue. cbn.
      by rewrite app_nil_r.
    + intros H'. by apply Hok in H'.
Qed.

(** Does the remapping range meet the block of a sensor? *)
Definition remap_hits (info : register_mapping_info) (dev : deviceTableData_t) : bool :=
  let lay := sensor_layout_of info dev in lay_is_valid lay && negb (remap_misses info lay).

Lemma remap_overlaps_eq n i w :
  (i + n <= length (dev_array (ctr w)))%nat ->
  remap_overlaps n i CTR w =
  Some (existsb (remap_hits (remap w)) (take n (drop i (dev_array (ctr w)))), w).
Proof.
  revert i. induction n as [|n IH]; intros i Hn; cbn [remap_overlaps]; [done|].
  destruct (lookup_drop_cons (dev_array (ctr w)) i ltac:(lia)) as (d & Hd & ->).
  erewrite bind_eq by by apply sensor_layout_eq. cbn [take existsb].
  unfold remap_hits at 1. destruct (lay_is_valid _); cbn [negb andb orb]; [|apply IH; lia].
  unfold app_mslave_get_reg_mapping_info, bind, get_remap.
  destruct (remap_misses _ _); cbn [negb orb]; [apply IH; lia|done].
Qed.

(** The world after the queue was replaced. *)
Definition rebuilt (q : list modbus_mapping_t) (n : nat) (w : world) : world :=
  at_tick n (set_ctr (with_mapping_queue q (ctr w)) w).

(** The result code and the queue of the extensible register mode, when no
    allocation fails: the gateway's block, the blocks of the sensors with a
    valid layout, in order, and the remapping block if there is a remapping
    table and it meets no sensor. *)
Definition created_queue (info : register_mapping_info) (gw : gatewayTableData_t)
    (devs : list deviceTableData_t) : Z * list modbus_mapping_t :=
  let lay := gateway_layout_of info gw in
  if negb (layout_fits lay) then (ERR_API_FAIL, [])
  else
    let bs := regs_block (lay_addr lay) (lay_regnum lay) :: sensor_blocks_of info devs in
    if negb (rm_flg info) then (ERR_NONE, bs)
    else if existsb (remap_hits info) devs then (ERR_API_FAIL, bs)
    else (ERR_NONE, bs ++ [regs_block (rm_min_reg_addr info)
                             (u16 (rm_max_reg_addr info - rm_min_reg_addr info + 1))]).

(** The addresses of the remapping table lie in the 16-bit address range. *)
Definition remap_ok (info : register_mapping_info) : Prop :=
  rm_flg info = true ->
  0 <= rm_min_reg_addr info <= rm_max_reg_addr info /\ rm_max_reg_addr info < 0xFFFF.

(** A block as the code creates them, inside the address range when the
    remapping table is. *)
Definition is_regs_block (info : register_mapping_info) (m : modbus_mapping_t) : Prop :=
  exists addr num, m = regs_block addr num /\
    (remap_ok info -> 0 <= addr /\ 0 <= num /\ addr + num <= 0xFFFF).

Lemma layout_of_range info gw d nameid :
  0 <= lay_addr (layout_of info gw d nameid) /\ 0 <= lay_regnum (layout_of info gw d nameid).
Proof.
  assert (P : is_u16 (lay_addr (parse_layout_fields d)) /\ is_u16 (lay_regnum (parse_layout_fields d))).
  { unfold parse_layout_fields. cbv zeta. repeat case_match; cbn [lay_addr lay_regnum];
      split; auto with words; by vm_compute. }
  unfold is_u16 in P. unfold layout_of, finished, invalid_layout. cbv zeta.
  pose proof (u16_range (lay_addr (parse_layout_fields d) + rm_offset info)) as H1.
  pose proof (u16_range (lay_addr (parse_layout_fields d) + 0)) as H2. unfold is_u16 in H1, H2.
  repeat case_match; cbn [lay_addr lay_regnum]; lia.
Qed.

Lemma layout_block info info' gw d nameid :
  layout_fits (layout_of info gw d nameid) = true ->
  is_regs_block info' (regs_block (lay_addr (layout_of info gw d nameid))
                         (lay_regnum (layout_of info gw d nameid))).
Proof.
  unfold layout_fits. intros H. pose proof (layout_of_range info gw d nameid).
  eexists _, _. split; [done|]. lia.
Qed.

Lemma sensor_blocks_of_regs info devs : Forall (is_regs_block info) (sensor_blocks_of info devs).
Proof.
  induction devs as [|d devs IH]; [constructor|]. rewrite sensor_blocks_of_cons.
  apply Forall_app; split; [|done]. unfold sensor_block.
  destruct (layout_fits (sensor_layout_of info d)) eqn:E; [|constructor].
  constructor; [|constructor]. by apply layout_block.
Qed.

Lemma remap_block info : rm_flg info = true ->
  is_regs_block info (regs_block (rm_min_reg_addr info)
                        (u16 (rm_max_reg_addr info - rm_min_reg_addr info + 1))).
Proof.
  intros Hf. eexists _, _. split; [done|]. intros Hr. destruct (Hr Hf) as [H1 H2].
  rewrite u16_id by (unfold is_u16; lia). lia.
Qed.

Lemma filter_rm_all q : List.filter (fun m => negb (cbk_q_rm_mapping m)) q = [].
Proof. induction q; [done|]. simpl. done. Qed.

(** The end of the creation functions. *)
Lemma unlock_ret_eq {A} m (rc : A) w h : holds m h = false ->
  (pthread_mutex_unlock CTR m ;; ret rc) (set_held (m :: h) w) = Some (rc, set_held h w).
Proof.
  intros H. unfold bind, pthread_mutex_unlock, ret. cbn [is_null held set_held].
  rewrite holds_cons, drop_mutex_held by done. done.
Qed.

Section creation.
Context (w : world) (q : list modbus_mapping_t) (n : nat).

(** The world inside the critical section, with the queue [q] so far. *)
Definition building : world := set_held (mtx_for_mapping_queue :: held w) (rebuilt q n w).

Lemma leave_building rc : free mtx_for_mapping_queue w ->
  (pthread_mutex_unlock CTR mtx_for_mapping_queue ;; ret rc) building =
  Some (rc : Z, rebuilt q n w).
Proof. intros H. unfold building. rewrite unlock_ret_eq by done. done. Qed.

Lemma building_block addr num :
  exists ok t, new_reg_block addr num building =
    Some (if ok : bool then Some (regs_block addr num) else None,
          set_held (mtx_for_mapping_queue :: held w) (rebuilt q t w)) /\
    (mallocs_succeed w -> ok = true).
Proof. destruct (new_reg_block_eq addr num building) as (ok & t & E & H). by exists ok, t. Qed.

Lemma building_sensors :
  length (dev_array (ctr w)) = SENSORS ->
  exists b bs t, sensor_blocks SENSORS 0 CTR building =
    Some (b, set_held (mtx_for_mapping_queue :: held w) (rebuilt (q ++ bs) t w)) /\
    Forall (is_regs_block (remap w)) bs /\
    (b = true -> bs = sensor_blocks_of (remap w) (dev_array (ctr w))) /\
    (mallocs_succeed w -> b = true).
Proof.
  intros Hl. destruct (sensor_blocks_eq SENSORS 0 building) as (b & bs & t & E & Hp & Hb & Hm);
    [cbn [building set_held rebuilt at_tick set_ctr ctr with_mapping_queue dev_array]; lia|].
  cbn [building set_held rebuilt at_tick set_ctr ctr with_mapping_queue dev_array remap] in Hp, Hb.
  rewrite drop_0, take_ge in Hp, Hb by lia.
  exists b, bs, t. split; [apply E|]. split; [|done].
  destruct Hp as [k Hk]. pose proof (sensor_blocks_of_regs (remap w) (dev_array (ctr w))) as F.
  rewrite Hk in F. by apply Forall_app in F as [F _].
Qed.

Lemma building_overlaps :
  length (dev_array (ctr w)) = SENSORS ->
  remap_overlaps SENSORS 0 CTR building =
  Some (existsb (remap_hits (remap w)) (dev_array (ctr w)), building).
Proof.
  intros Hl. rewrite remap_overlaps_eq
    by (cbn [building set_held rebuilt at_tick set_ctr ctr with_mapping_queue dev_array]; lia).
  cbn [building set_held rebuilt at_tick set_ctr ctr with_mapping_queue dev_array remap].
  by rewrite drop_0, take_ge by lia.
Qed.
End creation.

(** Entering the critical section after the announced wait. *)
Lemma enter_building {A} (k : M A) w : free mtx_for_mapping_queue w ->
  (pthread_mutex_lock CTR mtx_for_mapping_queue ;;
   pthread_mutex_unlock CTR mtx_for_mapping_queue ;;
   pthread_mutex_lock CTR mtx_for_mapping_queue ;;
   app_mslave_release_mapping_none_thread_safe CTR ;; k) w = k (building w [] (tick w)).
Proof.
  intros H. unfold free in H. unfold bind, pthread_mutex_lock, pthread_mutex_unlock. cbn [is_null].
  rewrite H. cbn [held set_held]. rewrite holds_cons, drop_mutex_held by done.
  cbn [held set_held]. rewrite H.
  unfold app_mslave_release_mapping_none_thread_safe, bind, deref, get_ctr, put_ctr, ret.
  cbn [ctr set_held mapping_queue]. rewrite filter_rm_all. done.
Qed.

Lemma create_extensible_v2_eq w :
  free mtx_for_mapping_queue w -> length (dev_array (ctr w)) = SENSORS ->
  exists rc q t, to_create_extensible_reg_mapping_v2 CTR w = Some (rc, rebuilt q t w) /\
    Forall (is_regs_block (remap w)) q /\ (rc = ERR_NONE \/ rc = ERR_API_FAIL) /\
    (rc = ERR_NONE \/ mallocs_succeed w ->
     (rc, q) = created_queue (remap w) (gwconf (ctr w)) (dev_array (ctr w))).
Proof.
  intros Hf Hl. unfold to_create_extensible_reg_mapping_v2. rewrite enter_building by done.
  cbv zeta. erewrite bind_eq by done. erewrite bind_eq by apply gwconf_layout_eq.
  change (remap (building w [] (tick w))) with (remap w).
  change (gwconf (ctr (building w [] (tick w)))) with (gwconf (ctr w)).
  unfold created_queue, layout_fits. set (lay := gateway_layout_of _ _).
  rewrite negb_andb, <- Z.ltb_antisym.
  destruct (negb (lay_is_valid lay) || _) eqn:Hfit.
  { exists ERR_API_FAIL, [], (tick w). rewrite leave_building by done. auto. }
  destruct (building_block w [] (tick w) (lay_addr lay) (lay_regnum lay)) as (ok & t & E & Hok).
  erewrite bind_eq by apply E. destruct ok.
  2: { exists ERR_API_FAIL, [], t. fold (building w [] t). rewrite leave_building by done.
       do 3 (split; [auto|]). intros [Hr|Hm]; [discriminate|by apply Hok in Hm]. }
  set (gb := regs_block (lay_addr lay) (lay_regnum lay)).
  assert (is_regs_block (remap w) gb) as Hgb.
  { apply layout_block. fold (gateway_layout_of (remap w) (gwconf (ctr w))). fold lay.
    apply orb_false_iff in Hfit as [H1 H2]. apply negb_false_iff in H1. apply Z.ltb_ge in H2.
    unfold layout_fits. rewrite H1. by apply Z.leb_le. }
  erewrite bind_eq by done.
  change (set_ctr _ _) with (building w [gb] t).
  destruct (building_sensors w [gb] t Hl) as (b & bs & t2 & E2 & Hbs & Hb & Hm2).
  erewrite bind_eq by apply E2. fold (building w ([gb] ++ bs) t2). cbn [app].
  destruct b; cbn [negb].
  2: { exists ERR_API_FAIL, (gb :: bs), t2. rewrite leave_building by done.
       split; [done|]. split; [by constructor|]. split; [auto|].
       intros [Hr|Hm]; [discriminate|by apply Hm2 in Hm]. }
  rewrite (Hb eq_refl) in Hbs |- *. set (ss := sensor_blocks_of _ _) in *.
  unfold app_mslave_get_reg_mapping_info. erewrite bind_eq by done.
  change (remap (building w (gb :: ss) t2)) with (remap w).
  destruct (rm_flg (remap w)) eqn:Hflg; cbn [negb].
  2: { exists ERR_NONE, (gb :: ss), t2. rewrite leave_building by done.
       split; [done|]. split; [by constructor|]. auto. }
  erewrite bind_eq by by apply building_overlaps.
  destruct (existsb _ _).
  { exists ERR_API_FAIL, (gb :: ss), t2. rewrite leave_building by done.
    split; [done|]. split; [by constructor|]. auto. }
  destruct (building_block w (gb :: ss) t2 (rm_min_reg_addr (remap w))
    (u16 (rm_max_reg_addr (remap w) - rm_min_reg_addr (remap w) + 1))) as (ok & t3 & E3 & Hok3).
  erewrite bind_eq by apply E3. fold (building w (gb :: ss) t3). destruct ok.
  - erewrite bind_eq by done. change (set_ctr _ _) with
      (building w ((gb :: ss) ++ [regs_block (rm_min_reg_addr (remap w))
        (u16 (rm_max_reg_addr (remap w) - rm_min_reg_addr (remap w) + 1))]) t3).
    eexists ERR_NONE, _, t3. rewrite leave_building by done. split; [done|].
    split; [|auto]. apply Forall_app; split; [by constructor|]. constructor; [|constructor].
    by apply remap_block.
  - exists ERR_API_FAIL, (gb :: ss), t3. rewrite leave_building by done.
    split; [done|]. split; [by constructor|]. split; [auto|].
    intros [Hr|Hm]; [discriminate|by apply Hok3 in Hm].
Qed.

(** C26: the queue of the extensible register mode, whatever the allocator
    does: the function returns, it releases the mutex and touches nothing but
    the queue; when it reports success the queue is the gateway's block, then
    the block of every sensor with a valid layout inside the address space, in
    the order of the device table, then the block of the remapping table if
    there is one and it meets no sensor; and it does report this result
    whenever the allocations succeed. *)
Theorem create_extensible_mapping w :
  free mtx_for_mapping_queue w -> length (dev_array (ctr w)) = SENSORS ->
  exists rc q t, to_create_extensible_reg_mapping_v2 CTR w = Some (rc, rebuilt q t w) /\
    (rc = ERR_NONE \/ mallocs_succeed w ->
     (rc, q) = created_queue (remap w) (gwconf (ctr w)) (dev_array (ctr w))).
Proof.
  intros Hf Hl. destruct (create_extensible_v2_eq w Hf Hl) as (rc & q & t & E & _ & _ & H). eauto.
Qed.

(** A gateway at 0x0000, one sensor at 0x0080, no remapping. *)
Definition mapping_world : world :=
  set_ctr (with_dev_array (DevData 3 (layout_name 1 128 47 [80; 82; 83]) [] :: replicate 39 (DevData 0 [] []))
    (with_gwconf (GwConf 1 7 (ModbusConfig 9600 17 0 0 0) (layout_name 0 0 64 [71; 87; 89]))
       (ctr idle_world))) idle_world.

Lemma create_extensible_mapping_witness :
  exists rc q t, to_create_extensible_reg_mapping_v2 CTR mapping_world =
    Some (rc, rebuilt q t mapping_world) /\
    rc = ERR_NONE /\ q = [regs_block 0 64; regs_block 128 47].
Proof.
  destruct (create_extensible_mapping mapping_world eq_refl eq_refl) as (rc & q & t & E & H).
  exists rc, q, t. split; [exact E|].
  assert (created_queue (remap mapping_world) (gwconf (ctr mapping_world))
    (dev_array (ctr mapping_world)) = (ERR_NONE, [regs_block 0 64; regs_block 128 47])) as C
    by (vm_compute; reflexivity).
  rewrite C in H. specialize (H (or_intror (fun _ => eq_refl))).
  split; [exact (f_equal fst H)|exact (f_equal snd H)].
Defined.

Lemma remap_hits_spec info dev addr lay :
  lay = sensor_layout_of info dev -> remap_hits info dev = false -> lay_is_valid lay = true ->
  rm_min_reg_addr info <= addr <= rm_max_reg_addr info ->
  ~ (lay_addr lay <= addr < lay_addr lay + lay_regnum lay).
Proof.
  intros -> H V Ha. unfold remap_hits in H. rewrite V in H. cbn [andb] in H.
  unfold remap_misses in H. lia.
Qed.

(** the registers of the remapping block and of the sensors never
    coincide: when the extensible mode was created with a remapping table, no
    address of the remapping range lies in the block of any sensor. (Nothing
    compares the range with the gateway's block.) *)
Theorem remap_disjoint_from_sensors w rc w' addr i dev :
  free mtx_for_mapping_queue w -> length (dev_array (ctr w)) = SENSORS ->
  to_create_extensible_reg_mapping_v2 CTR w = Some (rc, w') -> rc = ERR_NONE ->
  rm_flg (remap w) = true -> dev_array (ctr w) !! i = Some dev ->
  rm_min_reg_addr (remap w) <= addr <= rm_max_reg_addr (remap w) ->
  forall m, m ∈ sensor_block (remap w) dev -> ~ covers ADDR_GP_HOLDING_REGISTER m addr.
Proof.
  intros Hf Hl E Hr Hflg Hd Ha m Hm.
  destruct (create_extensible_v2_eq w Hf Hl) as (rc' & q & t & E' & _ & _ & H).
  rewrite E in E'. injection E' as <- _. specialize (H (or_introl Hr)).
  unfold created_queue in H. rewrite Hflg in H. cbn [negb] in H.
  destruct (negb _); [by simplify_eq|].
  destruct (existsb _ _) eqn:Ex; [by simplify_eq|].
  assert (remap_hits (remap w) dev = false) as Hh.
  { apply not_true_iff_false. intros Ht. apply not_true_iff_false in Ex. apply Ex.
    apply existsb_exists. exists dev. split; [|done].
    apply list_elem_of_In. by eapply list_elem_of_lookup_2. }
  unfold sensor_block, layout_fits in Hm. destruct (lay_is_valid _) eqn:V; [|by apply not_elem_of_nil in Hm].
  cbn [andb] in Hm. case_match; [|by apply not_elem_of_nil in Hm].
  apply list_elem_of_singleton in Hm as ->. unfold covers. cbn [group_start group_size regs_block
    start_registers nb_registers]. by eapply remap_hits_spec.
Qed.

Definition remap_world : world :=
  set_remap (RegMapInfo true 0 1 [128] 1 [1000] 1 1000 1000) mapping_world.

Lemma remap_disjoint_from_sensors_witness :
  (exists rc w', to_create_extensible_reg_mapping_v2 CTR remap_world = Some (rc, w') /\ rc = ERR_NONE) /\
  ~ covers ADDR_GP_HOLDING_REGISTER (regs_block 128 47) 1000.
Proof.
  destruct (create_extensible_v2_eq remap_world eq_refl eq_refl) as (rc & q & t & E & _ & _ & H).
  assert (fst (created_queue (remap remap_world) (gwconf (ctr remap_world))
    (dev_array (ctr remap_world))) = ERR_NONE) as C by (vm_compute; reflexivity).
  rewrite <- (H (or_intror (fun _ => eq_refl))) in C. cbn [fst] in C.
  split; [exists rc, (rebuilt q t remap_world); split; [exact E|exact C]|].
  apply (remap_disjoint_from_sensors remap_world rc (rebuilt q t remap_world) 1000 0
    (DevData 3 (layout_name 1 128 47 [80; 82; 83]) []) eq_refl eq_refl E C eq_refl eq_refl).
  - vm_compute; split; congruence.
  - replace (sensor_block (remap remap_world) (DevData 3 (layout_name 1 128 47 [80; 82; 83]) []))
      with [regs_block 128 47] by (vm_compute; reflexivity). apply list_elem_of_here.
Defined.

Lemma create_efficient_eq w :
  free mtx_for_mapping_queue w -> length (dev_array (ctr w)) = SENSORS ->
  exists q t r, to_create_efficient_reg_mapping CTR w =
    Some (ERR_API_FAIL, set_remap r (rebuilt q t w)) /\
    Forall (is_regs_block (remap w)) q /\
    (r = remap w \/ exists a b c d e f g h, r = RegMapInfo false a b c d e f g h) /\
    (mallocs_succeed w -> q = [regs_block 0 0xFFFF]).
Proof.
  intros Hf Hl. unfold to_create_efficient_reg_mapping. cbv zeta. rewrite enter_building by done.
  destruct (building_block w [] (tick w) 0 MAX_REG_NUMBER) as (ok & t & E & Hok).
  erewrite bind_eq by apply E. fold (building w [] t). destruct ok.
  2: { exists [], t, (remap w). rewrite leave_building by done. split; [done|].
       split; [constructor|]. split; [auto|]. intros Hm. by apply Hok in Hm. }
  erewrite bind_eq by done. change (set_ctr _ _) with (building w [regs_block 0 0xFFFF] t).
  unfold app_mslave_get_reg_mapping_info. erewrite bind_eq by done.
  change (remap (building w [regs_block 0 0xFFFF] t)) with (remap w).
  assert (Forall (is_regs_block (remap w)) [regs_block 0 0xFFFF]) as F
    by (constructor; [eexists _, _; split; [done|lia]|constructor]).
  destruct (negb _).
  { eexists _, t, (remap w). rewrite leave_building by done. split; [done|]. auto. }
  erewrite bind_eq by by apply building_overlaps.
  destruct (existsb _ _); [|eexists _, t, (remap w); rewrite leave_building by done; by auto].
  eexists _, t, _. split; [|split; [exact F|split; [right; by eexists _, _, _, _, _, _, _, _|done]]].
  pose proof (leave_building w [regs_block 0 0xFFFF] t 0 Hf) as L. unfold bind, ret in L |- *.
  destruct (pthread_mutex_unlock _ _ _) as [[? w2]|]; [|done]. injection L as ->. done.
Qed.

(** the efficient register mode never reports success: the block of all
    registers is created, but the function returns [ERR_API_FAIL] on every
    path, so the update that called it stops there, asks for the mapping to be
    created again, and never writes a sensor value into the block. *)
Theorem efficient_mode_always_fails w :
  free mtx_for_mapping_queue w -> length (dev_array (ctr w)) = SENSORS -> mallocs_succeed w ->
  exists w', to_create_efficient_reg_mapping CTR w = Some (ERR_API_FAIL, w') /\
    mapping_queue (ctr w') = [regs_block 0 0xFFFF] /\ held w' = held w.
Proof.
  intros Hf Hl Hm. destruct (create_efficient_eq w Hf Hl) as (q & t & r & E & _ & _ & Hq).
  eexists; split; [exact E|]. by rewrite (Hq Hm).
Qed.

Lemma efficient_mode_always_fails_witness :
  exists w', to_create_efficient_reg_mapping CTR mapping_world = Some (ERR_API_FAIL, w') /\
    mapping_queue (ctr w') = [regs_block 0 0xFFFF] /\ held w' = [].
Proof. apply (efficient_mode_always_fails mapping_world); try reflexivity. by intros k. Defined.

(** ** Validation of a request *)

(** The function codes the slave answers. *)
Lemma is_fun_code_for_reading_spec f :
  is_fun_code_for_reading f = true <->
  f ∈ [0x01; 0x02; 0x03; 0x04; 0x07; 0x08; 0x0B; 0x0C; 0x11; 0x14; 0x18; 0x2B].
Proof.
  rewrite !elem_of_cons, elem_of_nil. unfold is_fun_code_for_reading, MODBUS_FC_READ_COILS,
    MODBUS_FC_READ_DISCRETE_INPUTS, MODBUS_FC_READ_HOLDING_REGISTERS,
    MODBUS_FC_READ_INPUT_REGISTERS, MODBUS_FC_READ_EXCEPTION_STATUS, MODBUS_FC_DIAGNOSTIC,
    MODBUS_FC_GET_COM_EVENT_COUNTER, MODBUS_FC_GET_COM_EVENT_LOG, MODBUS_FC_REPORT_SLAVE_ID,
    MODBUS_FC_READ_FILE_RECORD, MODBUS_FC_READ_FIFO_QUEUE, MODBUS_FC_READ_DEV_ID.
  repeat case_match; lia.
Qed.

(** The verdict on a packet of [len] bytes. *)
Definition verdict (ctx : option modbus_t) (msg : list Z) (len : Z) : Z :=
  match ctx with
  | Some c =>
      if negb (nth 0 msg 0 =? mb_slave c) then EMBXSFAIL
      else if negb (bool_decide (crc_valid msg len)) then EMBBADCRC
      else if negb (is_fun_code_for_reading (nth 1 msg 0)) then EMBXILFUN else ERR_NONE
  | None => EMBXSFAIL
  end.

Definition after_validation (ctx : option modbus_t) (msg : list Z) (len : Z) (w : world) : world :=
  match ctx with
  | Some _ => if verdict ctx msg len =? EMBBADCRC then upd_state (count CntBusCommError) w else w
  | None => set_errno EINVAL w
  end.

Lemma validate_pkt_eq msg len w :
  free mtx_for_port_conf w -> free mtx_for_state_set w -> Forall is_u8 msg ->
  MIN_RTU_PKT <= len <= 255 -> len <= Z.of_nat (length msg) ->
  app_mslave_validate_pkt CTR (Some msg) len w =
  Some (verdict (mctx (ctr w)) msg len, after_validation (mctx (ctr w)) msg len w).
Proof.
  intros Hp Hs Hm Hl Hlen. unfold MIN_RTU_PKT in Hl. unfold app_mslave_validate_pkt, MIN_RTU_PKT.
  rewrite u8_id by (unfold is_u8; lia). cbn [is_null orb]. rewrite (proj2 (Z.ltb_ge _ _)) by lia.
  unfold bind at 1, pthread_mutex_lock. cbn [is_null]. pose proof Hp as Hp'. unfold free in Hp'.
  rewrite Hp'. erewrite bind_eq by (apply rd_eq; lia). change (Z.to_nat 0) with 0%nat.
  unfold app_mslave_get_mctx. cbn [is_null]. unfold bind at 1 2 3, deref, get_ctr, ret at 1.
  cbn [ctr set_held].
  assert (forall (k : M Z) w1, ctr w1 = ctr w -> set_held (held w) w1 = w1 \/ True ->
    (pthread_mutex_unlock CTR mtx_for_port_conf ;; k) (set_held (mtx_for_port_conf :: held w) w1) =
    k (set_held (held w) w1)) as Hu.
  { intros k w1 _ _. unfold bind, pthread_mutex_unlock. cbn [is_null held set_held].
    by rewrite holds_cons, drop_mutex_held by done. }
  destruct (mctx (ctr w)) as [c|]; cbn [modbus_get_slave verdict after_validation].
  2: { unfold bind at 1, put_errno, ret at 1. pose proof (nth_byte_range msg 0 Hm).
       rewrite (proj2 (Z.eqb_neq _ (-1))) by lia. cbn [negb].
       change (set_errno EINVAL (set_held ?h w)) with (set_held h (set_errno EINVAL w)).
       rewrite Hu by auto. by destruct w. }
  unfold ret at 1. destruct (Z.eqb_spec (nth 0 msg 0) (mb_slave c)); cbn [negb];
    rewrite Hu by auto; [|by destruct w].
  replace (set_held (held w) w) with w by by destruct w.
  unfold util_tool_cal_crc16. rewrite (proj2 (Z.leb_le _ _)) by lia.
  do 2 (erewrite bind_eq by (apply rd_eq; lia)). cbv zeta. unfold crc_valid.
  case_bool_decide as Hc; [rewrite (proj2 (Z.eqb_eq _ _)) by done
                          |rewrite (proj2 (Z.eqb_neq _ _)) by done]; cbn [negb].
  - erewrite bind_eq by (apply rd_eq; lia). change (Z.to_nat 1) with 1%nat.
    by destruct (is_fun_code_for_reading _).
  - erewrite bind_eq by by apply (counter_inc_eq CntBusCommError). done.
Qed.

(** validation of a packet of 4 to 255 bytes: no context or another
    slave's address gives [EMBXSFAIL]; a bad CRC gives [EMBBADCRC] and is
    counted as a communication error; a function code outside the twelve the
    slave answers gives [EMBXILFUN]; everything else is accepted. The mutexes
    are released and nothing else changes. A packet of 256 bytes is rejected as
    invalid, because the length parameter is an 8-bit integer. *)
Theorem validate_pkt_verdict msg len w :
  free mtx_for_port_conf w -> free mtx_for_state_set w -> Forall is_u8 msg ->
  MIN_RTU_PKT <= len <= 256 -> len <= Z.of_nat (length msg) ->
  app_mslave_validate_pkt CTR (Some msg) len w =
  (if len =? 256 then Some (ERR_INVALID_PARAM, w)
   else Some (verdict (mctx (ctr w)) msg len, after_validation (mctx (ctr w)) msg len w)) /\
  (verdict (mctx (ctr w)) msg len = ERR_NONE <->
   exists c, mctx (ctr w) = Some c /\ nth 0 msg 0 = mb_slave c /\ crc_valid msg len /\
     nth 1 msg 0 ∈ [0x01; 0x02; 0x03; 0x04; 0x07; 0x08; 0x0B; 0x0C; 0x11; 0x14; 0x18; 0x2B]).
Proof.
  intros Hp Hs Hm Hl Hlen. split.
  - destruct (Z.eqb_spec len 256) as [->|]; [done|]. apply validate_pkt_eq; done || lia.
  - setoid_rewrite <- is_fun_code_for_reading_spec. unfold verdict. destruct (mctx (ctr w)) as [c|].
    2: { split; [discriminate|by intros (? & ? & _)]. }
    destruct (Z.eqb_spec (nth 0 msg 0) (mb_slave c)); cbn [negb].
    + case_bool_decide; cbn [negb]; [|split; [discriminate|intros (c' & ? & ? & ? & ?); done]].
      destruct (is_fun_code_for_reading _) eqn:F; cbn [negb].
      * split; [intros _; by exists c|done].
      * split; [discriminate|intros (c' & ? & ? & ? & ?); done].
    + split; [discriminate|]. intros (c' & E & ? & _). by injection E as <-.
Qed.

Lemma validate_pkt_verdict_witness :
  app_mslave_validate_pkt CTR (Some [17; 3; 0; 0x6B; 0; 3; 0x76; 0x87]) 8 idle_world =
    Some (ERR_NONE, idle_world) /\
  app_mslave_validate_pkt CTR (Some [17; 3; 0; 0x6B; 0; 4; 0x76; 0x87]) 8 idle_world =
    Some (EMBBADCRC, upd_state (count CntBusCommError) idle_world).
Proof.
  assert (Forall is_u8 [17; 3; 0; 0x6B; 0; 3; 0x76; 0x87]) as H1
    by (repeat constructor; unfold is_u8; lia).
  assert (Forall is_u8 [17; 3; 0; 0x6B; 0; 4; 0x76; 0x87]) as H2
    by (repeat constructor; unfold is_u8; lia).
  assert (MIN_RTU_PKT <= 8 <= 256) as H3 by (unfold MIN_RTU_PKT; lia).
  split.
  - exact (proj1 (validate_pkt_verdict _ 8 idle_world eq_refl eq_refl H1 H3 ltac:(simpl; lia))).
  - exact (proj1 (validate_pkt_verdict _ 8 idle_world eq_refl eq_refl H2 H3 ltac:(simpl; lia))).
Defined.
