(* ===== verification/SlaveHandlers.v ===== *)
(** * SlaveHandlers: the handlers of the request function codes

    [app_mslave.c], [handler_for_fcode_*], except the diagnostics and the file
    records: the four read functions, report slave id, exception status, FIFO
    queue, event counter, event log and device identification. *)

From S2P Require Import Prelude Crc16 Machine Libmodbus SlaveState Layout SlaveMapping.
From Stdlib Require Import ZArith Lia ZifyBool List Bool.
From stdpp Require Import base list numbers.
Open Scope Z_scope.
Open Scope m_scope.

(** ** Definitions *)

(** The section every handler replies in: the port mutex is taken, the context
    is fetched, and the mutex is released after the reply. *)
Definition with_port (p : ptr) (reply : option modbus_t -> M Z) : M Z :=
  pthread_mutex_lock p mtx_for_port_conf ;;
  let* pt_mctx := app_mslave_get_mctx p in
  let* rc := reply pt_mctx in
  pthread_mutex_unlock p mtx_for_port_conf ;;
  ret rc.

Definition reply_exception_locked (p : ptr) (pkt : list Z) (code : Z) : M Z :=
  with_port p (fun ctx => modbus_reply_exception ctx pkt code).
Definition send_locked (p : ptr) (msg : list Z) (n : Z) : M Z :=
  with_port p (fun ctx => app_modbus_com_send_msg ctx msg n).

(** The mapping a position of the queue stands for. *)
Definition mapping_at (p : ptr) (i : nat) : M modbus_mapping_t :=
  let* c := deref p in
  match mapping_queue c !! i with Some m => ret m | None => undefined end.

(** The body the four read handlers share: [max_quantity] is the limit of the
    function, [check_errno] tells whether [errno] is looked at after the reply
    (the input-register handler tests [0 != 0] instead). *)
Definition read_handler (g : addr_group) (max_quantity : Z) (check_errno : bool)
    (p : ptr) (pkt : list Z) (len : Z) : M Z :=
  let* kp_starting_addr := app_mslave_pick_starting_address (Some pkt) len in
  let* kp_quantity := app_mslave_pick_quantity (Some pkt) len in
  if (kp_quantity <=? 0) || (max_quantity <? kp_quantity)
  then
    let* _ := reply_exception_locked p pkt MODBUS_EXCEPTION_ILLEGAL_DATA_VALUE in
    let* _ := app_mslave_inc_slave_exception_error_cnt p in
    ret EMBXILVAL
  else if 0xFFFF <? kp_starting_addr + kp_quantity
  then
    let* _ := reply_exception_locked p pkt MODBUS_EXCEPTION_ILLEGAL_DATA_ADDRESS in
    let* _ := app_mslave_inc_slave_exception_error_cnt p in
    ret EMBXILADD
  else
    pthread_mutex_lock p mtx_for_mapping_queue ;;
    let* pt_modbus_mapping := app_mslave_locate_mapping p kp_starting_addr g in
    match pt_modbus_mapping with
    | None =>
        pthread_mutex_unlock p mtx_for_mapping_queue ;;
        let* _ := reply_exception_locked p pkt MODBUS_EXCEPTION_ILLEGAL_DATA_ADDRESS in
        ret EMBXILADD
    | Some i =>
        let* kp_saved_errno := get_errno in
        put_errno 0 ;;
        let* _ := with_port p (fun ctx =>
          let* mb := mapping_at p i in modbus_reply ctx pkt len mb) in
        let* e := get_errno in
        let flg_exception := check_errno && negb (e =? 0) in
        (if flg_exception then ret tt else put_errno kp_saved_errno) ;;
        pthread_mutex_unlock p mtx_for_mapping_queue ;;
        (if flg_exception
         then let* _ := app_mslave_inc_slave_exception_error_cnt p in ret tt else ret tt) ;;
        ret ERR_UNKNOWN
    end.

Definition handler_for_fcode_read_coils : ptr -> list Z -> Z -> M Z :=
  read_handler ADDR_GP_COIL 0x07D0 true.
Definition handler_for_fcode_read_discrete_inputs : ptr -> list Z -> Z -> M Z :=
  read_handler ADDR_GP_DISCRETE_INPUT 0x07D0 true.
Definition handler_for_fcode_read_inputs_registers : ptr -> list Z -> Z -> M Z :=
  read_handler ADDR_GP_INPUT_REGISTER 0x007D false.
Definition handler_for_fcode_read_holding_registers : ptr -> list Z -> Z -> M Z :=
  read_handler ADDR_GP_HOLDING_REGISTER 0x007D true.

Definition handler_for_fcode_report_slave_id (p : ptr) (pkt : list Z) (len : Z) : M Z :=
  let* _ := reply_exception_locked p pkt MODBUS_EXCEPTION_ILLEGAL_FUNCTION in
  let* _ := app_mslave_inc_slave_exception_error_cnt p in
  ret ERR_API_FAIL.

Definition handler_for_fcode_read_fifo_queue (p : ptr) (pkt : list Z) (len : Z) : M Z :=
  let* _ := reply_exception_locked p pkt MODBUS_EXCEPTION_ILLEGAL_FUNCTION in
  let* _ := app_mslave_inc_slave_exception_error_cnt p in
  ret ERR_API_FAIL.

Definition handler_for_fcode_read_dev_id (p : ptr) (pkt : list Z) (len : Z) : M Z :=
  let* _ := reply_exception_locked p pkt MODBUS_EXCEPTION_ILLEGAL_FUNCTION in
  ret ERR_API_FAIL.

(** [pt_respbuf[kp_dtlen % SZ_RTU_MSGBUF] = v; kp_dtlen ++] *)
Definition put_byte (r : list Z * Z) (v : Z) : M (list Z * Z) :=
  let* buf := wr (fst r) (snd r mod SZ_RTU_MSGBUF) v in ret (buf, snd r + 1).

(** [to_set_uint16( v, &pt_respbuf[kp_dtlen])] and two increments: the
    [uint16_t] is stored in the byte order of the machine, low byte first. *)
Definition put_uint16 (r : list Z * Z) (v : Z) : M (list Z * Z) :=
  let* x := to_set_uint16 v in
  let* buf := wr (fst r) (snd r mod SZ_RTU_MSGBUF) (lo8 x) in
  let* buf := wr buf (snd r mod SZ_RTU_MSGBUF + 1) (hi8 x) in
  ret (buf, snd r + 2).

(** The slave address and the function code of the request open the reply. *)
Definition put_header (pkt : list Z) : M (list Z * Z) :=
  let* b0 := rd pkt 0 in
  let* r := put_byte (zeros SZ_RTU_MSGBUF, 0) b0 in
  let* b1 := rd pkt 1 in
  put_byte r b1.

Definition handler_for_fcode_read_exception_status (p : ptr) (pkt : list Z) (len : Z) : M Z :=
  let* r := put_header pkt in
  let* tpu8 := app_mslave_get_exception_status p in
  let* r := put_byte r tpu8 in
  let* _ := send_locked p (fst r) (snd r) in
  ret ERR_NONE.

Definition handler_for_fcode_get_comm_event_cnt (p : ptr) (pt_pktbuf : option (list Z)) (len : Z)
    : M Z :=
  match pt_pktbuf with
  | None => ret ERR_INVALID_PARAM
  | Some pkt =>
      if is_null p then ret ERR_INVALID_PARAM
      else
        let* r := put_header pkt in
        let* r := put_byte r 0 in
        let* r := put_byte r 0 in
        let* tpu16 := app_mslave_get_comm_event_cnt p in
        let* r := put_uint16 r tpu16 in
        let* _ := send_locked p (fst r) (snd r) in
        ret ERR_NONE
  end.

(** The loop that appends the events from index [i], [n] to go. *)
Fixpoint put_events (n : nat) (pt_eventlog : list Z) (i : Z) (r : list Z * Z) : M (list Z * Z) :=
  match n with
  | O => ret r
  | S n =>
      let* b := rd pt_eventlog i in
      let* r := put_byte r b in
      put_events n pt_eventlog (i + 1) r
  end.

Definition handler_for_fcode_get_comm_event_log (p : ptr) (pt_pktbuf : option (list Z)) (len : Z)
    : M Z :=
  match pt_pktbuf with
  | None => ret ERR_INVALID_PARAM
  | Some pkt =>
      if is_null p then ret ERR_INVALID_PARAM
      else
        let* r := put_header pkt in
        let* ev := app_mslave_get_comm_event_log p (Some (zeros MAX_COMM_EVENT_LOG)) in
        let kp_eventlog_cnt := fst ev in
        let pt_eventlog := match snd ev with Some l => l | None => [] end in
        let* r := put_byte r (kp_eventlog_cnt + 3 * 2) in
        let* r := put_byte r 0 in
        let* r := put_byte r 0 in
        let* tpu16 := app_mslave_get_comm_event_cnt p in
        let* r := put_uint16 r tpu16 in
        let* r := put_events (Z.to_nat kp_eventlog_cnt) pt_eventlog 0 r in
        let* _ := send_locked p (fst r) (snd r) in
        ret ERR_NONE
  end.

(** ** Building and sending a reply *)

(** A reply buffer in which the bytes [done] have been put. *)
Definition resp (done : list Z) : list Z * Z :=
  (done ++ replicate (256 - length done) 0, Z.of_nat (length done)).

Lemma resp_nil : (zeros SZ_RTU_MSGBUF, 0) = resp [].
Proof. done. Qed.

Lemma put_byte_eq done v w : (length done < 256)%nat ->
  put_byte (resp done) v w = Some (resp (done ++ [u8 v]), w).
Proof.
  intros H. unfold put_byte, resp, SZ_RTU_MSGBUF. cbn [fst snd]. rewrite Z.mod_small by lia.
  replace (256 - length done)%nat with (S (256 - length (done ++ [u8 v]))) by (rewrite length_app; simpl; lia).
  cbn [replicate]. erewrite bind_eq by by apply wr_here.
  unfold ret. rewrite <- app_assoc, (length_app done). simpl length.
  by replace (Z.of_nat (length done) + 1) with (Z.of_nat (length done + 1)) by lia.
Qed.

(** The two bytes a counter contributes to a reply. *)
Definition counter_bytes (b : mbus_byte_oder) (v : Z) : list Z :=
  match b with
  | MBUS_BORDER_BADC | MBUS_BORDER_DCBA => [hi8 v; lo8 v]
  | _ => [lo8 v; hi8 v]
  end.

Lemma length_counter_bytes b v : length (counter_bytes b v) = 2%nat.
Proof. by destruct b. Qed.

Lemma to_set_uint16_eq v w :
  exists x, to_set_uint16 v w = Some (x, w) /\ [lo8 x; hi8 x] = counter_bytes (mbus_border (ctr w)) v.
Proof.
  unfold to_set_uint16, app_mslave_get_mbus_border, bind, deref, get_ctr, ret. cbn [is_null].
  change (Z.land (Z.shiftr v 8) 255) with (hi8 v). change (Z.land (Z.shiftr v 0) 255) with (lo8 v).
  destruct (mbus_border (ctr w)); eexists; (split; [done|]); cbn [counter_bytes];
    by rewrite hi8_be16, lo8_be16 by auto with words.
Qed.

Lemma put_uint16_eq done v w : (length done < 255)%nat ->
  put_uint16 (resp done) v w = Some (resp (done ++ counter_bytes (mbus_border (ctr w)) v), w).
Proof.
  intros H. unfold put_uint16. destruct (to_set_uint16_eq v w) as (x & E & <-).
  erewrite bind_eq by apply E. unfold resp, SZ_RTU_MSGBUF. cbn [fst snd].
  rewrite Z.mod_small by lia.
  replace (256 - length done)%nat with (S (S (256 - length (done ++ [lo8 x; hi8 x]))))
    by (rewrite length_app; simpl; lia).
  cbn [replicate]. erewrite bind_eq by by apply wr_here.
  replace (done ++ u8 (lo8 x) :: 0 :: replicate (256 - length (done ++ [lo8 x; hi8 x])) 0)
    with ((done ++ [lo8 x]) ++ 0 :: replicate (256 - length (done ++ [lo8 x; hi8 x])) 0)
    by (rewrite <- app_assoc; by autorewrite with words).
  erewrite bind_eq by (apply wr_here; rewrite length_app; simpl; lia).
  unfold ret. rewrite (u8_id (hi8 x)), <- !app_assoc, !length_app by auto with words. simpl length.
  by replace (Z.of_nat (length done) + 2) with (Z.of_nat (length done + 2)) by lia.
Qed.

Lemma put_header_eq pkt w : Forall is_u8 pkt -> (2 <= length pkt)%nat ->
  put_header pkt w = Some (resp [nth 0 pkt 0; nth 1 pkt 0], w).
Proof.
  intros Hp Hl. unfold put_header. erewrite bind_eq by (apply rd_eq; lia).
  rewrite resp_nil. erewrite bind_eq by (apply put_byte_eq; simpl; lia).
  erewrite bind_eq by (apply rd_eq; lia). rewrite put_byte_eq by (simpl; lia).
  by rewrite !u8_id by by apply nth_u8.
Qed.

Lemma put_events_eq n log i done w :
  Forall is_u8 log -> 0 <= i -> i + Z.of_nat n <= Z.of_nat (length log) ->
  (length done + n <= 256)%nat ->
  put_events n log i (resp done) w = Some (resp (done ++ slice log i (Z.of_nat n)), w).
Proof.
  intros Hu. revert i done. induction n as [|n IH]; intros i done Hi Hl Hd; cbn [put_events].
  - unfold slice. simpl. by rewrite app_nil_r.
  - erewrite bind_eq by (apply rd_eq; lia). erewrite bind_eq by (apply put_byte_eq; lia).
    rewrite IH by (rewrite ?length_app; simpl length; lia).
    rewrite (slice_cons log i (Z.of_nat (S n))) by lia.
    rewrite <- app_assoc, u8_id by by apply nth_u8.
    by replace (Z.of_nat (S n) - 1) with (Z.of_nat n) by lia.
Qed.

Lemma ctr_sent_by ctx f e w : ctr (sent_by ctx f e w) = ctr w.
Proof. by destruct ctx. Qed.
Lemma held_sent_by ctx f e w : held (sent_by ctx f e w) = held w.
Proof. by destruct ctx. Qed.
Lemma sent_by_held ctx f e h w : sent_by ctx f e (set_held h w) = set_held h (sent_by ctx f e w).
Proof. by destruct ctx. Qed.
Lemma set_held_held h h' w : set_held h (set_held h' w) = set_held h w.
Proof. done. Qed.
Lemma set_held_id w : set_held (held w) w = w.
Proof. by destruct w. Qed.
Lemma free_sent_by m ctx f e w : free m w -> free m (sent_by ctx f e w).
Proof. unfold free. by rewrite held_sent_by. Qed.
#[export] Hint Resolve free_sent_by : words.

(** A reply in its critical section. *)
Lemma with_port_eq (reply : option modbus_t -> M Z) f w : free mtx_for_port_conf w ->
  (exists rc e, reply (mctx (ctr w)) (set_held (mtx_for_port_conf :: held w) w) =
     Some (rc, sent_by (mctx (ctr w)) f e (set_held (mtx_for_port_conf :: held w) w))) ->
  exists rc e, with_port CTR reply w = Some (rc, sent_by (mctx (ctr w)) f e w).
Proof.
  intros Hf (rc & e & E). exists rc, e. unfold with_port, app_mslave_get_mctx.
  unfold bind at 1, pthread_mutex_lock at 1. cbn [is_null]. pose proof Hf as Hf'.
  unfold free in Hf'. rewrite Hf'. unfold bind at 1 2, deref, get_ctr, ret at 1.
  cbn [ctr set_held]. erewrite bind_eq by apply E.
  unfold bind, pthread_mutex_unlock. cbn [is_null]. rewrite held_sent_by. cbn [held set_held].
  rewrite holds_cons, drop_mutex_held by done.
  by rewrite sent_by_held, set_held_held, <- (held_sent_by (mctx (ctr w)) f e w), set_held_id.
Qed.

(** From the weakest preconditions of the senders to equations. *)
Lemma sent_by_ex {A} (m : M A) ctx f w :
  wp m (fun _ w' => exists e, w' = sent_by ctx f e w) w ->
  exists rc e, m w = Some (rc, sent_by ctx f e w).
Proof. intros H. apply wp_elim in H as (rc & w' & E & e & ->). eauto. Qed.

Lemma reply_exception_locked_eq pkt code w :
  free mtx_for_port_conf w -> ctx_ok (mctx (ctr w)) -> (2 <= length pkt)%nat ->
  code < MODBUS_EXCEPTION_MAX ->
  exists rc e, reply_exception_locked CTR pkt code w =
    Some (rc, sent_by (mctx (ctr w)) (rtu_frame (exception_pdu pkt code)) e w).
Proof.
  intros Hf Hc Hl Hcode. apply with_port_eq; [done|]. apply sent_by_ex.
  apply wp_reply_exception; eauto.
Qed.

Lemma send_locked_eq done w :
  free mtx_for_port_conf w -> ctx_ok (mctx (ctr w)) -> (0 < length done <= 254)%nat ->
  exists rc e, send_locked CTR (fst (resp done)) (snd (resp done)) w =
    Some (rc, sent_by (mctx (ctr w)) (rtu_frame done) e w).
Proof.
  intros Hf Hc Hl. apply with_port_eq; [done|]. apply sent_by_ex. unfold resp. cbn [fst snd].
  apply wp_app_send; [done|lia|rewrite length_app, length_replicate; lia|].
  rewrite Nat2Z.id, take_app_length. eauto.
Qed.

(** ** The read handlers *)

(** What [errno] is after [modbus_reply] sent the frame [f], when it was 0. *)
Definition reply_errno (ctx : option modbus_t) (f : list Z) (w : world) : Z :=
  match ctx with
  | None => EINVAL
  | Some _ =>
      match o_write (os w) (tick w) with
      | WAll => 0
      | WSome k => if (0 <? k) && negb (k =? Z.of_nat (length f)) then EMBBADDATA else 0
      | WErr e => e
      end
  end.

Definition group_of (f : Z) : addr_group :=
  if f =? 1 then ADDR_GP_COIL else if f =? 2 then ADDR_GP_DISCRETE_INPUT
  else if f =? 3 then ADDR_GP_HOLDING_REGISTER else ADDR_GP_INPUT_REGISTER.
Definition max_quantity_of (f : Z) : Z := if f <=? 2 then 0x07D0 else 0x007D.
Definition read_handler_for (f : Z) : ptr -> list Z -> Z -> M Z :=
  if f =? 1 then handler_for_fcode_read_coils
  else if f =? 2 then handler_for_fcode_read_discrete_inputs
  else if f =? 3 then handler_for_fcode_read_holding_registers
  else handler_for_fcode_read_inputs_registers.

(** The outcome of a read request: the result code, the message of the reply,
    and whether the reply counts as an exception given [errno] after it. *)
Definition read_outcome (q : list modbus_mapping_t) (pkt : list Z) : Z * list Z * (Z -> bool) :=
  let f := req_function pkt in
  if (req_quantity pkt <=? 0) || (max_quantity_of f <? req_quantity pkt)
  then (EMBXILVAL, exception_pdu pkt MODBUS_EXCEPTION_ILLEGAL_DATA_VALUE, fun _ => true)
  else if 0xFFFF <? req_address pkt + req_quantity pkt
  then (EMBXILADD, exception_pdu pkt MODBUS_EXCEPTION_ILLEGAL_DATA_ADDRESS, fun _ => true)
  else match locate_from q 0 (req_address pkt) (group_of f) with
       | None => (EMBXILADD, exception_pdu pkt MODBUS_EXCEPTION_ILLEGAL_DATA_ADDRESS, fun _ => false)
       | Some i =>
           match q !! i with
           | Some mb => (ERR_UNKNOWN, read_pdu mb pkt,
                         fun e => negb (f =? 4) && negb (e =? 0))
           | None => (ERR_UNKNOWN, [], fun _ => false)
           end
       end.

Definition count_if (b : bool) (w : world) : world :=
  if b then upd_state (count CntException) w else w.

Lemma read_handler_for_eq f : 1 <= f <= 4 ->
  read_handler_for f = read_handler (group_of f) (max_quantity_of f) (negb (f =? 4)).
Proof.
  intros H. assert (f = 1 \/ f = 2 \/ f = 3 \/ f = 4) as [E|[E|[E|E]]] by lia; by subst f.
Qed.

Lemma pick_starting_address_eq pkt len w : (6 <= length pkt)%nat -> MIN_RTU_PKT <= len ->
  app_mslave_pick_starting_address (Some pkt) len w = Some (req_address pkt, w).
Proof.
  intros Hl Hn. unfold app_mslave_pick_starting_address.
  rewrite (proj2 (Z.leb_le _ _) Hn). by do 2 (erewrite bind_eq by (apply rd_eq; lia)).
Qed.
Lemma pick_quantity_eq pkt len w : (6 <= length pkt)%nat ->
  app_mslave_pick_quantity (Some pkt) len w = Some (req_quantity pkt, w).
Proof.
  intros Hl. unfold app_mslave_pick_quantity. by do 2 (erewrite bind_eq by (apply rd_eq; lia)).
Qed.

Lemma reply_errno_eq c f w :
  snd (send_result f (set_errno 0 w)) = sent f (reply_errno (Some c) f w) w.
Proof.
  unfold send_result, sent, reply_errno. cbn [os tick set_errno tx].
  destruct (o_write (os w) (tick w)); [done| |done]. by destruct (_ && _).
Qed.

Lemma mapping_at_eq i mb w :
  mapping_queue (ctr w) !! i = Some mb -> mapping_at CTR i w = Some (mb, w).
Proof. intros H. unfold mapping_at, bind, deref, get_ctr. by rewrite H. Qed.

(** The reply of [modbus_reply] in the port section. *)
Lemma mapped_reply_eq pkt len i mb w :
  free mtx_for_port_conf w -> ctx_ok (mctx (ctr w)) -> Forall is_u8 pkt -> (6 <= length pkt)%nat ->
  req_slave pkt <> 0 -> 1 <= req_function pkt <= 4 -> read_quantity_ok pkt ->
  mapping_queue (ctr w) !! i = Some mb -> mapping_ok mb ->
  exists rc, with_port CTR (fun ctx => let* mb := mapping_at CTR i in modbus_reply ctx pkt len mb)
      (set_errno 0 w) =
    Some (rc, sent_by (mctx (ctr w)) (rtu_frame (read_pdu mb pkt))
                (reply_errno (mctx (ctr w)) (rtu_frame (read_pdu mb pkt)) w) w).
Proof.
  intros Hf Hc Hu Hl Hs Hfc Hq Hi Hm. unfold with_port, app_mslave_get_mctx.
  unfold bind at 1, pthread_mutex_lock at 1. cbn [is_null held set_errno]. pose proof Hf as Hf'.
  unfold free in Hf'. rewrite Hf'. unfold bind at 1 2, deref, get_ctr, ret at 1.
  cbn [ctr set_held set_errno]. set (w1 := set_held _ _).
  assert (exists rc, modbus_reply (mctx (ctr w)) pkt len mb w1 =
    Some (rc, set_held (mtx_for_port_conf :: held w) (sent_by (mctx (ctr w))
      (rtu_frame (read_pdu mb pkt)) (reply_errno (mctx (ctr w)) (rtu_frame (read_pdu mb pkt)) w) w)))
    as [rc E].
  { destruct (mctx (ctr w)) as [c|]; cbn [ctx_ok sent_by] in *; [|by eexists].
    rewrite modbus_reply_eq by done. eexists. apply f_equal.
    change w1 with (set_errno 0 (set_held (mtx_for_port_conf :: held w) w)).
    rewrite (surjective_pairing (send_result _ _)), (reply_errno_eq c). by f_equal. }
  exists rc. erewrite bind_eq by (erewrite bind_eq by (apply mapping_at_eq; exact Hi); exact E).
  unfold bind, pthread_mutex_unlock. cbn [is_null held set_held].
  rewrite holds_cons, drop_mutex_held by done. unfold ret.
  by rewrite set_held_held, <- (held_sent_by (mctx (ctr w)) (rtu_frame (read_pdu mb pkt))
    (reply_errno (mctx (ctr w)) (rtu_frame (read_pdu mb pkt)) w) w), set_held_id.
Qed.

(** Taking and releasing a mutex around an operation. *)
Lemma lock_eq {A} m (k : M A) w : free m w ->
  (pthread_mutex_lock CTR m ;; k) w = k (set_held (m :: held w) w).
Proof. intros H. unfold bind, pthread_mutex_lock. cbn [is_null]. unfold free in H. by rewrite H. Qed.

Lemma unlock_eq {A} m (k : M A) h w : holds m h = false ->
  (pthread_mutex_unlock CTR m ;; k) (set_held (m :: h) w) = k (set_held h w).
Proof.
  intros H. unfold bind, pthread_mutex_unlock. cbn [is_null held set_held].
  by rewrite holds_cons, drop_mutex_held.
Qed.

Lemma holds_other m m' h : m <> m' -> holds m h = false -> holds m (m' :: h) = false.
Proof. intros Hne H. simpl. rewrite H. by destruct m, m'. Qed.

Lemma read_handler_for_eq_all pkt len w :
  free mtx_for_port_conf w -> free mtx_for_mapping_queue w -> free mtx_for_state_set w ->
  ctx_ok (mctx (ctr w)) -> Forall mapping_ok (mapping_queue (ctr w)) ->
  Forall is_u8 pkt -> (6 <= length pkt)%nat -> MIN_RTU_PKT <= len ->
  req_slave pkt <> 0 -> 1 <= req_function pkt <= 4 ->
  let '(rc, pdu, counted) := read_outcome (mapping_queue (ctr w)) pkt in
  exists e, read_handler_for (req_function pkt) CTR pkt len w =
    Some (rc, count_if (counted (reply_errno (mctx (ctr w)) (rtu_frame pdu) w))
                (sent_by (mctx (ctr w)) (rtu_frame pdu) e w)).
Proof.
  intros Hp Hq Hs Hc Hm Hu Hl Hn Hsl Hf. rewrite read_handler_for_eq by done.
  unfold read_handler, read_outcome. cbv zeta.
  erewrite bind_eq by by apply pick_starting_address_eq.
  erewrite bind_eq by by apply pick_quantity_eq.
  destruct ((req_quantity pkt <=? 0) || _) eqn:Eq.
  { destruct (reply_exception_locked_eq pkt MODBUS_EXCEPTION_ILLEGAL_DATA_VALUE w)
      as (rc & e & E); [done..|lia|done|]. exists e.
    erewrite bind_eq by apply E. erewrite bind_eq; [done|].
    apply (counter_inc_eq CntException). auto with words. }
  destruct (Z.ltb_spec 0xFFFF (req_address pkt + req_quantity pkt)).
  { destruct (reply_exception_locked_eq pkt MODBUS_EXCEPTION_ILLEGAL_DATA_ADDRESS w)
      as (rc & e & E); [done..|lia|done|]. exists e.
    erewrite bind_eq by apply E. erewrite bind_eq; [done|].
    apply (counter_inc_eq CntException). auto with words. }
  rewrite lock_eq by done. erewrite bind_eq by apply locate_mapping_eq. cbn [ctr set_held].
  destruct (locate_from _ _ _ _) as [i|] eqn:Ei.
  2: { rewrite unlock_eq, set_held_id by done.
       destruct (reply_exception_locked_eq pkt MODBUS_EXCEPTION_ILLEGAL_DATA_ADDRESS w)
         as (rc & e & E); [done..|lia|done|]. exists e. by erewrite bind_eq by apply E. }
  destruct (locate_from_lt _ _ _ _ Ei) as [mb Hmb]. rewrite Hmb.
  unfold get_errno at 1. erewrite bind_eq by done. unfold put_errno at 1. erewrite bind_eq by done.
  set (w1 := set_held (mtx_for_mapping_queue :: held w) w).
  destruct (mapped_reply_eq pkt len i mb w1) as [rc E]; try done.
  { unfold read_quantity_ok, max_quantity_of in *. unfold MODBUS_MAX_READ_BITS, MODBUS_MAX_READ_REGISTERS.
    destruct (req_function pkt <=? 2); lia. }
  { by eapply Forall_lookup_1. }
  erewrite bind_eq by apply E. unfold get_errno. erewrite bind_eq by done.
  set (er := reply_errno (mctx (ctr w1)) (rtu_frame (read_pdu mb pkt)) w1).
  change (reply_errno (mctx (ctr w)) (rtu_frame (read_pdu mb pkt)) w) with er.
  assert (errno (sent_by (mctx (ctr w1)) (rtu_frame (read_pdu mb pkt)) er w1) = er) as ->
    by (destruct (mctx (ctr w1)); done).
  change (mctx (ctr w1)) with (mctx (ctr w)). cbv zeta. unfold w1. rewrite sent_by_held.
  destruct (negb (req_function pkt =? 4) && negb (er =? 0)).
  - exists er. erewrite bind_eq by done. rewrite unlock_eq by done.
    rewrite <- (held_sent_by (mctx (ctr w)) (rtu_frame (read_pdu mb pkt)) er w), set_held_id.
    erewrite bind_eq; [done|]. erewrite bind_eq; [done|]. apply (counter_inc_eq CntException). auto with words.
  - exists (errno w). erewrite bind_eq by done.
    change (set_errno ?e (set_held ?h ?w)) with (set_held h (set_errno e w)).
    rewrite unlock_eq by done. cbn [count_if]. erewrite bind_eq by done. unfold ret. do 2 f_equal.
    rewrite <- (held_sent_by (mctx (ctr w)) (rtu_frame (read_pdu mb pkt)) er w). 
    by destruct (mctx (ctr w)).
Qed.

(** the answer to each of the four read functions, on every path. The
    handler returns, with every mutex released; exactly one frame is written:
    exception 3 for a quantity outside the function's limits, exception 2 when
    the range passes 0xFFFF or the address is in no block, and otherwise the
    addressed coils or registers of the first block found (exception 2 if the
    range leaves that block). The mapping is not changed, and of the state set
    only the exception counter may be. *)
Theorem read_request_answered pkt len w c :
  free mtx_for_port_conf w -> free mtx_for_mapping_queue w -> free mtx_for_state_set w ->
  mctx (ctr w) = Some c -> mb_connected c = true ->
  Forall mapping_ok (mapping_queue (ctr w)) ->
  Forall is_u8 pkt -> (6 <= length pkt)%nat -> MIN_RTU_PKT <= len ->
  req_slave pkt <> 0 -> 1 <= req_function pkt <= 4 ->
  let '(rc, pdu, counted) := read_outcome (mapping_queue (ctr w)) pkt in
  exists w', read_handler_for (req_function pkt) CTR pkt len w = Some (rc, w') /\
    tx w' = tx w ++ [rtu_frame pdu] /\ held w' = held w /\
    ctr w' = with_state_set
      ((if counted (reply_errno (Some c) (rtu_frame pdu) w) then count CntException else id)
         (state_set (ctr w))) (ctr w).
Proof.
  intros Hp Hq Hs Ec Hc Hm Hu Hl Hn Hsl Hf.
  pose proof (read_handler_for_eq_all pkt len w Hp Hq Hs) as H. rewrite Ec in H.
  specialize (H Hc Hm Hu Hl Hn Hsl Hf). destruct (read_outcome _ _) as [[rc pdu] counted].
  destruct H as [e E]. eexists. split; [apply E|]. cbn [sent_by].
  destruct (counted _); cbn [count_if]; (split; [done|]); (split; [done|]); [done|].
  cbn. by destruct (ctr w).
Qed.

Lemma read_request_answered_witness :
  exists w', read_handler_for 3 CTR [17; 3; 0; 17; 0; 2; 0; 0] 8 two_blocks_world = Some (ERR_UNKNOWN, w') /\
    tx w' = [rtu_frame [17; 3; 4; 0; 8; 0; 9]] /\ held w' = [] /\ ctr w' = ctr two_blocks_world.
Proof.
  pose proof (read_request_answered [17; 3; 0; 17; 0; 2; 0; 0] 8 two_blocks_world
    (Ctx 17 true false 9600 78 8 1) eq_refl eq_refl eq_refl eq_refl eq_refl) as H.
  assert (read_outcome (mapping_queue (ctr two_blocks_world)) [17; 3; 0; 17; 0; 2; 0; 0] =
    (ERR_UNKNOWN, [17; 3; 4; 0; 8; 0; 9], fun e => negb (e =? 0))) as E by reflexivity.
  rewrite E in H. apply H; try (vm_compute; congruence); try (simpl; lia).
  - repeat constructor.
  - repeat constructor; unfold is_u8; lia.
  - vm_compute; split; congruence.
Defined.

(** an exception reply for an address that is not mapped is not counted:
    for a read request within the limits, whether no block is found or the
    range leaves the block found, the reply is exception 2 and, when the port
    takes the frame, no counter of the state set moves. (One path sets a flag
    that only the other path looks at; the other looks at [errno], which a
    successful reply leaves 0.) *)
Theorem unmapped_address_not_counted pkt len w c :
  free mtx_for_port_conf w -> free mtx_for_mapping_queue w -> free mtx_for_state_set w ->
  mctx (ctr w) = Some c -> mb_connected c = true ->
  Forall mapping_ok (mapping_queue (ctr w)) ->
  Forall is_u8 pkt -> (6 <= length pkt)%nat -> MIN_RTU_PKT <= len ->
  req_slave pkt <> 0 -> 1 <= req_function pkt <= 4 ->
  o_write (os w) (tick w) = WAll ->
  0 < req_quantity pkt <= max_quantity_of (req_function pkt) ->
  req_address pkt + req_quantity pkt <= 0xFFFF ->
  (forall i mb, locate_from (mapping_queue (ctr w)) 0 (req_address pkt)
                  (group_of (req_function pkt)) = Some i ->
     mapping_queue (ctr w) !! i = Some mb -> in_block mb pkt = false) ->
  exists rc w', read_handler_for (req_function pkt) CTR pkt len w = Some (rc, w') /\
    tx w' = tx w ++ [rtu_frame (exception_pdu pkt MODBUS_EXCEPTION_ILLEGAL_DATA_ADDRESS)] /\
    state_set (ctr w') = state_set (ctr w).
Proof.
  intros Hp Hq Hs Ec Hc Hm Hu Hl Hn Hsl Hf Hw Hqu Ha Hb.
  pose proof (read_handler_for_eq_all pkt len w Hp Hq Hs) as H. rewrite Ec in H.
  specialize (H Hc Hm Hu Hl Hn Hsl Hf). unfold read_outcome in H.
  rewrite (proj2 (Z.leb_gt _ _)), !(proj2 (Z.ltb_ge _ _)) in H by lia. cbn [orb] in H.
  destruct (locate_from _ _ _ _) as [i|] eqn:Ei.
  - destruct (locate_from_lt _ _ _ _ Ei) as [mb Hmb]. rewrite Hmb in H.
    unfold read_pdu in H. rewrite (Hb i mb eq_refl Hmb) in H. unfold reply_errno in H. rewrite Hw in H.
    rewrite andb_false_r in H. destruct H as [e E]. eexists _, _. by split; [apply E|].
  - destruct H as [e E]. eexists _, _. by split; [apply E|].
Qed.

Lemma unmapped_address_not_counted_witness :
  exists rc w', read_handler_for 3 CTR [17; 3; 0; 18; 0; 2; 0; 0] 8 two_blocks_world = Some (rc, w') /\
    tx w' = [rtu_frame [17; 0x83; 2]] /\ state_set (ctr w') = zero_state_set.
Proof.
  assert (Forall is_u8 [17; 3; 0; 18; 0; 2; 0; 0]) as Hu by (repeat constructor; unfold is_u8; lia).
  assert (Forall mapping_ok (mapping_queue (ctr two_blocks_world))) as Hm by repeat constructor.
  destruct (unmapped_address_not_counted [17; 3; 0; 18; 0; 2; 0; 0] 8 two_blocks_world
    (Ctx 17 true false 9600 78 8 1) eq_refl eq_refl eq_refl eq_refl eq_refl Hm Hu)
    as (rc & w' & E & H); try (vm_compute; congruence); try (simpl; lia).
  - vm_compute; split; congruence.
  - vm_compute; split; congruence.
  - intros i mb Hi Hmb. vm_compute in Hi. injection Hi as <-. vm_compute in Hmb.
    injection Hmb as <-. reflexivity.
  - exists rc, w'. split; [exact E|exact H].
Defined.

(** ** The handlers without a request body *)

(** The world after an exception reply, counted or not. *)
Lemma refused_eq (counted : bool) rc0 pkt code w :
  free mtx_for_port_conf w -> free mtx_for_state_set w -> ctx_ok (mctx (ctr w)) ->
  (2 <= length pkt)%nat -> code < MODBUS_EXCEPTION_MAX ->
  exists e, (let* _ := reply_exception_locked CTR pkt code in
             if counted then let* _ := app_mslave_inc_slave_exception_error_cnt CTR in ret rc0
             else ret rc0) w =
    Some (rc0 : Z, count_if counted (sent_by (mctx (ctr w)) (rtu_frame (exception_pdu pkt code)) e w)).
Proof.
  intros Hp Hs Hc Hl Hcode. destruct (reply_exception_locked_eq pkt code w) as (rc & e & E); [done..|].
  exists e. erewrite bind_eq by apply E. destruct counted; [|done].
  erewrite bind_eq; [done|]. apply (counter_inc_eq CntException). auto with words.
Qed.

Lemma exception_status_reply_eq pkt len w :
  free mtx_for_port_conf w -> free mtx_for_state_set w -> ctx_ok (mctx (ctr w)) ->
  Forall is_u8 pkt -> (2 <= length pkt)%nat ->
  exists e, handler_for_fcode_read_exception_status CTR pkt len w =
    Some (ERR_NONE, sent_by (mctx (ctr w))
      (rtu_frame [nth 0 pkt 0; nth 1 pkt 0; u8 (exception_status (state_set (ctr w)))]) e w).
Proof.
  intros Hp Hs Hc Hu Hl. unfold handler_for_fcode_read_exception_status.
  erewrite bind_eq by by apply put_header_eq.
  erewrite bind_eq by by apply get_exception_status_eq.
  erewrite bind_eq by (apply put_byte_eq; simpl; lia). cbn [app].
  destruct (send_locked_eq [nth 0 pkt 0; nth 1 pkt 0; u8 (exception_status (state_set (ctr w)))] w)
    as (rc & e & E); [done|done|simpl; lia|].
  exists e. by erewrite bind_eq by apply E.
Qed.

Lemma comm_event_cnt_reply_eq pkt len w :
  free mtx_for_port_conf w -> free mtx_for_state_set w -> ctx_ok (mctx (ctr w)) ->
  Forall is_u8 pkt -> (2 <= length pkt)%nat ->
  exists e, handler_for_fcode_get_comm_event_cnt CTR (Some pkt) len w =
    Some (ERR_NONE, sent_by (mctx (ctr w))
      (rtu_frame ([nth 0 pkt 0; nth 1 pkt 0; 0; 0] ++
        counter_bytes (mbus_border (ctr w)) (cnt_comm_event (state_set (ctr w))))) e w).
Proof.
  intros Hp Hs Hc Hu Hl. unfold handler_for_fcode_get_comm_event_cnt. cbn [is_null].
  erewrite bind_eq by by apply put_header_eq.
  erewrite bind_eq by (apply put_byte_eq; simpl; lia).
  erewrite bind_eq by (apply put_byte_eq; simpl; lia).
  erewrite bind_eq by by apply (counter_get_eq CntCommEvent).
  erewrite bind_eq by (apply put_uint16_eq; simpl; lia).
  cbn [app counter_field]. change (u8 0) with 0.
  destruct (send_locked_eq ([nth 0 pkt 0; nth 1 pkt 0; 0; 0] ++
    counter_bytes (mbus_border (ctr w)) (cnt_comm_event (state_set (ctr w)))) w)
    as (rc & e & E); [done|done|rewrite length_app, length_counter_bytes; simpl; lia|].
  exists e. by erewrite bind_eq by apply E.
Qed.

(** The message of the event-log reply after the events [L], newest first. *)
Definition event_log_pdu (pkt : list Z) (b : mbus_byte_oder) (cnt : Z) (L : list Z) : list Z :=
  [nth 0 pkt 0; nth 1 pkt 0; Z.of_nat (length L `min` 64) + 6; 0; 0] ++
  counter_bytes b cnt ++ delivered_log L.

Lemma length_delivered_log L : length (delivered_log L) = (length L `min` 64)%nat.
Proof. unfold delivered_log. by rewrite length_map, length_seq. Qed.

Lemma comm_event_log_reply_eq pkt len L w :
  free mtx_for_port_conf w -> free mtx_for_state_set w -> ctx_ok (mctx (ctr w)) ->
  Forall is_u8 pkt -> (2 <= length pkt)%nat ->
  event_ring (state_set (ctr w)) L -> Forall is_u8 L ->
  Forall is_u8 (log_comm_event (state_set (ctr w))) ->
  exists e, handler_for_fcode_get_comm_event_log CTR (Some pkt) len w =
    Some (ERR_NONE, sent_by (mctx (ctr w))
      (rtu_frame (event_log_pdu pkt (mbus_border (ctr w)) (cnt_comm_event (state_set (ctr w))) L)) e w).
Proof.
  intros Hp Hs Hc Hu Hl Hr HL Hlog. unfold handler_for_fcode_get_comm_event_log. cbn [is_null].
  erewrite bind_eq by by apply put_header_eq.
  erewrite bind_eq by by apply get_comm_event_log_eq. cbn [fst snd].
  pose proof (length_delivered_log L) as Hd.
  replace (Z.min 64 (Z.of_nat (length L))) with (Z.of_nat (length L `min` 64)) by lia.
  do 3 (erewrite bind_eq by (apply put_byte_eq; rewrite ?length_app; simpl; lia)).
  erewrite bind_eq by by apply (counter_get_eq CntCommEvent).
  erewrite bind_eq by (apply put_uint16_eq; rewrite ?length_app; simpl; lia).
  erewrite bind_eq.
  2: { rewrite Nat2Z.id. apply put_events_eq.
       - apply Forall_app; split; [|apply Forall_drop, Forall_u8_replicate].
         unfold delivered_log. apply Forall_map, Forall_forall. intros k _.
         case_match; by apply nth_u8.
       - lia.
       - rewrite length_app, Hd. lia.
       - rewrite !length_app, length_counter_bytes. simpl. lia. }
  replace (slice _ 0 _) with (delivered_log L).
  2: { unfold slice. rewrite drop_0, Nat2Z.id, <- Hd. by rewrite take_app_length. }
  set (done := _ ++ delivered_log L).
  assert (done = event_log_pdu pkt (mbus_border (ctr w)) (cnt_comm_event (state_set (ctr w))) L) as ->.
  { unfold done, event_log_pdu. rewrite <- !app_assoc. cbn [app counter_field].
    rewrite u8_id by (unfold is_u8; lia). done. }
  destruct (send_locked_eq (event_log_pdu pkt (mbus_border (ctr w))
    (cnt_comm_event (state_set (ctr w))) L) w) as (rc & e & E); [done|done| |].
  { unfold event_log_pdu. rewrite !length_app, length_counter_bytes, Hd. simpl. lia. }
  exists e. by erewrite bind_eq by apply E.
Qed.

(** the reply to "get communication event log" announces two bytes more
    than it carries: after any events [L] the byte count is the number of
    events plus 6, but the status, the event count and the events that follow
    are only the number of events plus 4 bytes; the message count of the
    protocol is missing. *)
Theorem event_log_reply_misses_two_bytes pkt len L w :
  free mtx_for_port_conf w -> free mtx_for_state_set w -> ctx_ok (mctx (ctr w)) ->
  Forall is_u8 pkt -> (2 <= length pkt)%nat ->
  event_ring (state_set (ctr w)) L -> Forall is_u8 L ->
  Forall is_u8 (log_comm_event (state_set (ctr w))) ->
  exists e pdu, handler_for_fcode_get_comm_event_log CTR (Some pkt) len w =
      Some (ERR_NONE, sent_by (mctx (ctr w)) (rtu_frame pdu) e w) /\
    pdu = event_log_pdu pkt (mbus_border (ctr w)) (cnt_comm_event (state_set (ctr w))) L /\
    nth 2 pdu 0 = Z.of_nat (length (drop 3 pdu)) + 2.
Proof.
  intros. destruct (comm_event_log_reply_eq pkt len L w) as [e E]; [done..|].
  eexists e, _. split; [apply E|]. split; [done|].
  unfold event_log_pdu. cbn [app nth skipn]. simpl length.
  rewrite length_app, length_counter_bytes, length_delivered_log. lia.
Qed.

Lemma event_log_reply_misses_two_bytes_witness :
  exists e pdu, handler_for_fcode_get_comm_event_log CTR (Some [17; 12; 0; 0]) 4 idle_world =
      Some (ERR_NONE, sent_by (mctx (ctr idle_world)) (rtu_frame pdu) e idle_world) /\
    pdu = [17; 12; 6; 0; 0; 0; 0] /\ nth 2 pdu 0 = Z.of_nat (length (drop 3 pdu)) + 2.
Proof.
  apply (event_log_reply_misses_two_bytes [17; 12; 0; 0] 4 []); try reflexivity.
  - repeat constructor; unfold is_u8; lia.
  - simpl; lia.
  - apply event_ring_empty.
  - constructor.
  - apply Forall_u8_replicate.
Defined.
