(* ===== verification/SlaveDiag.v ===== *)
(** * SlaveDiag: the diagnostics function (0x08)

    [app_mslave.c]: [handler_for_fcode_diagnostics] with its sub-functions, and
    the restart request in listen-only mode. *)

From S2P Require Import Prelude Crc16 Machine Libmodbus SlaveState Layout SlaveMapping SlaveHandlers.
From Stdlib Require Import ZArith Lia ZifyBool List Bool.
From stdpp Require Import base list numbers.
Open Scope Z_scope.
Open Scope m_scope.

Definition MODBUS_SFC_DIAG_RETURN_QUERY_DATA : Z := 0x0000.
Definition MODBUS_SFC_DIAG_RESTART_COM_OPT : Z := 0x0001.
Definition MODBUS_SFC_DIAG_RET_DIAG_REG : Z := 0x0002.
Definition MODBUS_SFC_DIAG_CHANGE_ASCII_INPUT_DELIMITER : Z := 0x0003.
Definition MODBUS_SFC_FORCE_LISTEN_MODE : Z := 0x0004.
Definition MODBUS_SFC_CLEAR_COUNTER_REGISTER : Z := 0x000A.
Definition MODBUS_SFC_RET_BUS_MSG_CNT : Z := 0x000B.
Definition MODBUS_SFC_RET_BUS_COM_ERR_CNT : Z := 0x000C.
Definition MODBUS_SFC_RET_BUS_EXCEPT_ERR_CNT : Z := 0x000D.
Definition MODBUS_SFC_RET_BUS_SERVER_MSG_CNT : Z := 0x000E.
Definition MODBUS_SFC_RET_SERVER_NO_RESP_CNT : Z := 0x000F.
Definition MODBUS_SFC_RET_SERVER_NAK_CNT : Z := 0x0010.
Definition MODBUS_SFC_RET_SERVER_BUSY_CNT : Z := 0x0011.
Definition MODBUS_SFC_RET_RET_BUS_CHAR_OVERRUN_CNT : Z := 0x0012.
Definition MODBUS_SFC_CLEAR_OVERRUN_CNT_FLG : Z := 0x0014.
Definition MODBUS_SFC_UNDEFINED : Z := 0xFFFF.

Definition to_pick_sub_fcode_for_disagnostic (pt_pkt : option (list Z)) (len : Z) : M Z :=
  match pt_pkt with
  | Some pkt =>
      if MIN_RTU_PKT <=? len
      then let* h := rd pkt 2 in let* l := rd pkt 3 in ret (be16 h l)
      else ret MODBUS_SFC_UNDEFINED
  | None => ret MODBUS_SFC_UNDEFINED
  end.

(** The reply that repeats the request without its checksum. *)
Definition echo_request (p : ptr) (pkt : list Z) (len : Z) : M Z :=
  let kp_dtlen := u32 (len - MODBUS_RTU_CHECKSUM_LENGTH) in
  let* pt_respbuf := memcpy (zeros SZ_RTU_MSGBUF) 0 pkt 0 kp_dtlen in
  send_locked p pt_respbuf kp_dtlen.

(** The reply that carries a 16-bit value behind the sub-function code. *)
Definition reply_counter (p : ptr) (pkt : list Z) (get : M Z) : M Z :=
  let* r := put_header pkt in
  let* b2 := rd pkt 2 in
  let* r := put_byte r b2 in
  let* b3 := rd pkt 3 in
  let* r := put_byte r b3 in
  let* tpu16 := get in
  let* r := put_uint16 r tpu16 in
  send_locked p (fst r) (snd r).

Definition handler_for_fcode_diagnostics (p : ptr) (pkt : list Z) (len : Z) : M Z :=
  let* kp_sfcode := to_pick_sub_fcode_for_disagnostic (Some pkt) len in
  if kp_sfcode =? MODBUS_SFC_DIAG_RETURN_QUERY_DATA
  then let* _ := echo_request p pkt len in ret ERR_NONE
  else if kp_sfcode =? MODBUS_SFC_DIAG_RESTART_COM_OPT
  then
    let* _ := app_mslave_clear_state_set p in
    let* _ := app_mslave_set_mode p SMODE_ACTIVE in
    let* _ := echo_request p pkt len in ret ERR_NONE
  else if kp_sfcode =? MODBUS_SFC_DIAG_RET_DIAG_REG
  then
    let* tpu16 := app_mslave_get_diagnostic_register p in
    let* _ := reply_counter p pkt (ret tpu16) in ret ERR_NONE
  else if kp_sfcode =? MODBUS_SFC_DIAG_CHANGE_ASCII_INPUT_DELIMITER
  then
    let* b4 := rd pkt 4 in
    let* c := deref p in
    put_ctr (with_ch_input_delimiter b4 c) ;;
    let* _ := echo_request p pkt len in ret ERR_NONE
  else if kp_sfcode =? MODBUS_SFC_FORCE_LISTEN_MODE
  then let* _ := app_mslave_set_mode p SMODE_LISTEN_ONLY in ret ERR_NONE
  else if kp_sfcode =? MODBUS_SFC_CLEAR_COUNTER_REGISTER
  then
    let* _ := app_mslave_clear_state_set p in
    let* _ := echo_request p pkt len in ret ERR_NONE
  else if kp_sfcode =? MODBUS_SFC_RET_BUS_MSG_CNT
  then let* _ := reply_counter p pkt (app_mslave_get_bus_msg_cnt p) in ret ERR_NONE
  else if kp_sfcode =? MODBUS_SFC_RET_BUS_COM_ERR_CNT
  then let* _ := reply_counter p pkt (app_mslave_get_bus_comm_error_cnt p) in ret ERR_NONE
  else if kp_sfcode =? MODBUS_SFC_RET_BUS_EXCEPT_ERR_CNT
  then let* _ := reply_counter p pkt (app_mslave_get_slave_exception_error_cnt p) in ret ERR_NONE
  else if kp_sfcode =? MODBUS_SFC_RET_BUS_SERVER_MSG_CNT
  then let* _ := reply_counter p pkt (app_mslave_get_slave_msg_cnt p) in ret ERR_NONE
  else if kp_sfcode =? MODBUS_SFC_RET_SERVER_NO_RESP_CNT
  then let* _ := reply_counter p pkt (app_mslave_get_slave_no_resp_cnt p) in ret ERR_NONE
  else if kp_sfcode =? MODBUS_SFC_RET_SERVER_NAK_CNT
  then let* _ := reply_counter p pkt (app_mslave_get_slave_nak_cnt p) in ret ERR_NONE
  else if kp_sfcode =? MODBUS_SFC_RET_SERVER_BUSY_CNT
  then let* _ := reply_counter p pkt (app_mslave_get_slave_busy_cnt p) in ret ERR_NONE
  else if kp_sfcode =? MODBUS_SFC_RET_RET_BUS_CHAR_OVERRUN_CNT
  then let* _ := reply_counter p pkt (app_mslave_get_slave_bus_charac_overrun_cnt p) in ret ERR_NONE
  else if kp_sfcode =? MODBUS_SFC_CLEAR_OVERRUN_CNT_FLG
  then let* _ := echo_request p pkt len in ret ERR_NONE
  else
    let* _ := reply_exception_locked p pkt MODBUS_EXCEPTION_ILLEGAL_FUNCTION in
    let* _ := app_mslave_inc_slave_exception_error_cnt p in
    ret EMBXILFUN.

Definition handle_for_restart_com_option_in_listen_mode (p : ptr) (pkt : list Z) (len : Z) : M Z :=
  let* kp_fcode := app_mslave_pick_fun_code (Some pkt) len in
  if negb (kp_fcode =? MODBUS_FC_DIAGNOSTIC) then ret ERR_NONE
  else
    let* kp_sfcode := to_pick_sub_fcode_for_disagnostic (Some pkt) len in
    if negb (kp_sfcode =? MODBUS_SFC_DIAG_RESTART_COM_OPT) then ret ERR_NONE
    else
      let* _ := app_mslave_clear_state_set p in
      let* _ := app_mslave_set_mode p SMODE_ACTIVE in
      ret ERR_NONE.

(** ** What the diagnostics do *)

(** The sub-function code of a request. *)
Definition sub_function (pkt : list Z) : Z := be16 (nth 2 pkt 0) (nth 3 pkt 0).

(** The value that a counter sub-function reports. *)
Definition diag_value (s : counter_log_register_set) (sf : Z) : option Z :=
  if sf =? 2 then Some (diag_regisger s)
  else if sf =? 0x0B then Some (diag_cnt_bus_message s)
  else if sf =? 0x0C then Some (diag_cnt_bus_comm_error s)
  else if sf =? 0x0D then Some (diag_cnt_slave_exception_error s)
  else if sf =? 0x0E then Some (diag_cnt_slave_message s)
  else if sf =? 0x0F then Some (diag_cnt_slave_no_response s)
  else if sf =? 0x10 then Some (diag_cnt_slave_nak s)
  else if sf =? 0x11 then Some (diag_cnt_slave_busy s)
  else if sf =? 0x12 then Some (diag_cnt_bus_charac_overrun s)
  else None.

(** The sub-functions that are answered by repeating the request. *)
Definition diag_echo (sf : Z) : bool :=
  (sf =? 0) || (sf =? 1) || (sf =? 3) || (sf =? 0x0A) || (sf =? 0x14).

(** What a sub-function does to the controller, before the reply. *)
Definition diag_effect (pkt : list Z) (c : controller) : controller :=
  let sf := sub_function pkt in
  if sf =? 1 then with_smode SMODE_ACTIVE (with_state_set zero_state_set c)
  else if sf =? 3 then with_ch_input_delimiter (nth 4 pkt 0) c
  else if sf =? 4 then with_smode SMODE_LISTEN_ONLY c
  else if sf =? 0x0A then with_state_set zero_state_set c
  else c.

(** The message of the reply, if there is one. *)
Definition diag_reply (c : controller) (pkt : list Z) (len : Z) : option (list Z) :=
  let sf := sub_function pkt in
  if diag_echo sf then Some (take (Z.to_nat (len - 2)) pkt)
  else if sf =? 4 then None
  else match diag_value (state_set c) sf with
       | Some v => Some (take 4 pkt ++ counter_bytes (mbus_border c) v)
       | None => Some (exception_pdu pkt MODBUS_EXCEPTION_ILLEGAL_FUNCTION)
       end.

(** Is the sub-function one the slave knows? *)
Definition diag_known (sf : Z) : bool :=
  diag_echo sf || (sf =? 4)
  || match diag_value zero_state_set sf with Some _ => true | None => false end.

Lemma echo_request_eq pkt len w :
  free mtx_for_port_conf w -> ctx_ok (mctx (ctr w)) ->
  MIN_RTU_PKT <= len <= 256 -> len <= Z.of_nat (length pkt) ->
  exists rc e, echo_request CTR pkt len w =
    Some (rc, sent_by (mctx (ctr w)) (rtu_frame (take (Z.to_nat (len - 2)) pkt)) e w).
Proof.
  intros Hf Hc Hl Hp. unfold MIN_RTU_PKT in Hl. unfold echo_request, MODBUS_RTU_CHECKSUM_LENGTH.
  rewrite u32_id by (unfold is_u32; lia). cbv zeta.
  erewrite bind_eq by (apply memcpy_eq; rewrite ?length_zeros; unfold zeros;
    rewrite ?length_replicate; unfold SZ_RTU_MSGBUF; lia).
  set (done := take (Z.to_nat (len - 2)) pkt).
  assert (Z.of_nat (length done) = len - 2) as Hd by (unfold done; rewrite length_take; lia).
  destruct (send_locked_eq done w Hf Hc) as (rc & e & E); [lia|].
  exists rc, e. rewrite <- E. unfold resp. cbn [fst snd]. rewrite Hd. f_equal.
  change (take (Z.to_nat 0) (zeros SZ_RTU_MSGBUF)) with (@nil Z). cbn [app].
  unfold slice. rewrite drop_0. fold done. f_equal. rewrite Z.add_0_l. unfold zeros, SZ_RTU_MSGBUF.
  rewrite drop_replicate. f_equal. lia.
Qed.

Lemma reply_counter_eq pkt (get : M Z) v w :
  free mtx_for_port_conf w -> ctx_ok (mctx (ctr w)) -> Forall is_u8 pkt -> (4 <= length pkt)%nat ->
  get w = Some (v, w) ->
  exists rc e, reply_counter CTR pkt get w =
    Some (rc, sent_by (mctx (ctr w)) (rtu_frame (take 4 pkt ++ counter_bytes (mbus_border (ctr w)) v)) e w).
Proof.
  intros Hf Hc Hu Hl Hg. unfold reply_counter.
  erewrite bind_eq by (apply put_header_eq; done || lia).
  erewrite bind_eq by (apply rd_eq; lia). erewrite bind_eq by (apply put_byte_eq; simpl; lia).
  erewrite bind_eq by (apply rd_eq; lia). erewrite bind_eq by (apply put_byte_eq; simpl; lia).
  erewrite bind_eq by apply Hg. erewrite bind_eq by (apply put_uint16_eq; simpl; lia).
  rewrite !u8_id by by apply nth_u8.
  replace (([nth 0 pkt 0; nth 1 pkt 0] ++ [nth (Z.to_nat 2) pkt 0]) ++ [nth (Z.to_nat 3) pkt 0])
    with (take 4 pkt).
  - apply send_locked_eq; [done..|]. rewrite length_app, length_counter_bytes, length_take. lia.
  - destruct pkt as [|a [|b [|c [|d pkt]]]]; simpl in Hl; [lia..|]. done.
Qed.

Definition sent_reply (reply : option (list Z)) (e : Z) (w : world) : world :=
  match reply with Some f => sent_by (mctx (ctr w)) (rtu_frame f) e w | None => w end.

Lemma set_ctr_set_ctr a b w : set_ctr a (set_ctr b w) = set_ctr a w.
Proof. done. Qed.

(** Both ways a diagnostic request can be answered. *)
Lemma then_ret_eq (m : M Z) rc0 ctx f w :
  (exists rc e, m w = Some (rc, sent_by ctx f e w)) ->
  exists e, (let* _ := m in ret rc0) w = Some (rc0 : Z, sent_by ctx f e w).
Proof. intros (rc & e & E). exists e. by erewrite bind_eq by apply E. Qed.

Lemma pick_sub_fcode_eq pkt len w : (4 <= length pkt)%nat -> MIN_RTU_PKT <= len ->
  to_pick_sub_fcode_for_disagnostic (Some pkt) len w = Some (sub_function pkt, w).
Proof.
  intros Hl Hn. unfold to_pick_sub_fcode_for_disagnostic. rewrite (proj2 (Z.leb_le _ _) Hn).
  by do 2 (erewrite bind_eq by (apply rd_eq; lia)).
Qed.

Lemma set_mode_eq m w : m = SMODE_ACTIVE \/ m = SMODE_LISTEN_ONLY ->
  app_mslave_set_mode CTR m w = Some (ERR_NONE, set_ctr (with_smode m (ctr w)) w).
Proof. by intros [Hm|Hm]; subst m. Qed.

(** The sub-functions that only report something. *)
Lemma diag_value_eq sf v pkt len w :
  free mtx_for_port_conf w -> free mtx_for_state_set w -> ctx_ok (mctx (ctr w)) ->
  Forall is_u8 pkt -> MIN_RTU_PKT <= len <= 256 -> len <= Z.of_nat (length pkt) ->
  sub_function pkt = sf -> diag_value (state_set (ctr w)) sf = Some v ->
  exists e, handler_for_fcode_diagnostics CTR pkt len w =
    Some (ERR_NONE, sent_by (mctx (ctr w))
      (rtu_frame (take 4 pkt ++ counter_bytes (mbus_border (ctr w)) v)) e w).
Proof.
  intros Hf Hs Hc Hu Hl Hp Hsf Hv. unfold MIN_RTU_PKT in Hl. unfold handler_for_fcode_diagnostics.
  erewrite bind_eq by (apply pick_sub_fcode_eq; unfold MIN_RTU_PKT; lia). rewrite Hsf.
  unfold diag_value in Hv.
  assert (4 <= length pkt)%nat as Hl4 by lia.
  repeat match type of Hv with
  | (if sf =? ?k then _ else _) = _ =>
      destruct (Z.eqb_spec sf k) as [->|?]; [injection Hv as <-|]
  end; [..|discriminate]; cbn [Z.eqb Pos.eqb MODBUS_SFC_DIAG_RETURN_QUERY_DATA
    MODBUS_SFC_DIAG_RESTART_COM_OPT MODBUS_SFC_DIAG_RET_DIAG_REG
    MODBUS_SFC_DIAG_CHANGE_ASCII_INPUT_DELIMITER MODBUS_SFC_FORCE_LISTEN_MODE
    MODBUS_SFC_CLEAR_COUNTER_REGISTER MODBUS_SFC_RET_BUS_MSG_CNT MODBUS_SFC_RET_BUS_COM_ERR_CNT
    MODBUS_SFC_RET_BUS_EXCEPT_ERR_CNT MODBUS_SFC_RET_BUS_SERVER_MSG_CNT
    MODBUS_SFC_RET_SERVER_NO_RESP_CNT MODBUS_SFC_RET_SERVER_NAK_CNT MODBUS_SFC_RET_SERVER_BUSY_CNT
    MODBUS_SFC_RET_RET_BUS_CHAR_OVERRUN_CNT].
  { erewrite bind_eq by by apply get_diagnostic_register_eq.
    apply then_ret_eq. by apply reply_counter_eq. }
  all: apply then_ret_eq, reply_counter_eq; try done.
  - by apply (counter_get_eq CntBusMsg).
  - by apply (counter_get_eq CntBusCommError).
  - by apply (counter_get_eq CntException).
  - by apply (counter_get_eq CntSlaveMsg).
  - by apply (counter_get_eq CntNoResp).
  - by apply (counter_get_eq CntNak).
  - by apply (counter_get_eq CntBusy).
  - by apply (counter_get_eq CntOverrun).
Qed.

Lemma diag_echo_eq sf pkt len w :
  free mtx_for_port_conf w -> free mtx_for_state_set w -> ctx_ok (mctx (ctr w)) ->
  Forall is_u8 pkt -> MIN_RTU_PKT <= len <= 256 -> len <= Z.of_nat (length pkt) -> (5 <= length pkt)%nat ->
  sub_function pkt = sf -> diag_echo sf = true ->
  exists e, handler_for_fcode_diagnostics CTR pkt len w =
    Some (ERR_NONE, sent_by (mctx (ctr w)) (rtu_frame (take (Z.to_nat (len - 2)) pkt)) e
            (set_ctr (diag_effect pkt (ctr w)) w)).
Proof.
  intros Hf Hs Hc Hu Hl Hp Hp5 Hsf He. unfold handler_for_fcode_diagnostics, MIN_RTU_PKT in *.
  erewrite bind_eq by (apply pick_sub_fcode_eq; unfold MIN_RTU_PKT; lia). rewrite Hsf.
  unfold diag_effect. rewrite Hsf.
  assert (sf = 0 \/ sf = 1 \/ sf = 3 \/ sf = 0x0A \/ sf = 0x14) as [H|[H|[H|[H|H]]]]
    by (unfold diag_echo in He; lia); subst sf; rewrite H; cbv zeta;
    cbn [Z.eqb Pos.eqb MODBUS_SFC_DIAG_RETURN_QUERY_DATA
    MODBUS_SFC_DIAG_RESTART_COM_OPT MODBUS_SFC_DIAG_RET_DIAG_REG
    MODBUS_SFC_DIAG_CHANGE_ASCII_INPUT_DELIMITER MODBUS_SFC_FORCE_LISTEN_MODE
    MODBUS_SFC_CLEAR_COUNTER_REGISTER MODBUS_SFC_RET_BUS_MSG_CNT MODBUS_SFC_RET_BUS_COM_ERR_CNT
    MODBUS_SFC_RET_BUS_EXCEPT_ERR_CNT MODBUS_SFC_RET_BUS_SERVER_MSG_CNT
    MODBUS_SFC_RET_SERVER_NO_RESP_CNT MODBUS_SFC_RET_SERVER_NAK_CNT MODBUS_SFC_RET_SERVER_BUSY_CNT
    MODBUS_SFC_RET_RET_BUS_CHAR_OVERRUN_CNT MODBUS_SFC_CLEAR_OVERRUN_CNT_FLG].
  - replace (set_ctr (ctr w) w) with w by by destruct w.
    by apply then_ret_eq, echo_request_eq.
  - erewrite bind_eq by by apply clear_state_set_eq.
    erewrite bind_eq by (apply set_mode_eq; auto). unfold upd_state. rewrite set_ctr_set_ctr.
    cbn [ctr set_ctr]. apply then_ret_eq.
    set (w1 := set_ctr _ w). change (mctx (ctr w)) with (mctx (ctr w1)). by apply echo_request_eq.
  - erewrite bind_eq by (apply rd_eq; lia). unfold deref, get_ctr. erewrite bind_eq by done.
    unfold put_ctr. erewrite bind_eq by done.
    apply then_ret_eq.
    set (w1 := set_ctr _ w). change (mctx (ctr w)) with (mctx (ctr w1)). by apply echo_request_eq.
  - erewrite bind_eq by by apply clear_state_set_eq. unfold upd_state.
    apply then_ret_eq.
    set (w1 := set_ctr _ w). change (mctx (ctr w)) with (mctx (ctr w1)). by apply echo_request_eq.
  - replace (set_ctr (ctr w) w) with w by by destruct w.
    by apply then_ret_eq, echo_request_eq.
Qed.

Lemma diag_other_eq pkt len w :
  free mtx_for_port_conf w -> free mtx_for_state_set w -> ctx_ok (mctx (ctr w)) ->
  MIN_RTU_PKT <= len <= 256 -> len <= Z.of_nat (length pkt) ->
  diag_echo (sub_function pkt) = false -> diag_value (state_set (ctr w)) (sub_function pkt) = None ->
  sub_function pkt <> 4 ->
  exists e, handler_for_fcode_diagnostics CTR pkt len w =
    Some (EMBXILFUN, count_if true (sent_by (mctx (ctr w))
      (rtu_frame (exception_pdu pkt MODBUS_EXCEPTION_ILLEGAL_FUNCTION)) e w)).
Proof.
  intros Hf Hs Hc Hl Hp He Hv H4. unfold handler_for_fcode_diagnostics, MIN_RTU_PKT in *.
  erewrite bind_eq by (apply pick_sub_fcode_eq; unfold MIN_RTU_PKT; lia).
  set (sf := sub_function pkt) in *. unfold diag_echo in He. unfold diag_value in Hv.
  repeat (case_match; [discriminate|]).
  unfold MODBUS_SFC_DIAG_RETURN_QUERY_DATA, MODBUS_SFC_DIAG_RESTART_COM_OPT,
    MODBUS_SFC_DIAG_RET_DIAG_REG, MODBUS_SFC_DIAG_CHANGE_ASCII_INPUT_DELIMITER,
    MODBUS_SFC_FORCE_LISTEN_MODE, MODBUS_SFC_CLEAR_COUNTER_REGISTER, MODBUS_SFC_RET_BUS_MSG_CNT,
    MODBUS_SFC_RET_BUS_COM_ERR_CNT, MODBUS_SFC_RET_BUS_EXCEPT_ERR_CNT,
    MODBUS_SFC_RET_BUS_SERVER_MSG_CNT, MODBUS_SFC_RET_SERVER_NO_RESP_CNT,
    MODBUS_SFC_RET_SERVER_NAK_CNT, MODBUS_SFC_RET_SERVER_BUSY_CNT,
    MODBUS_SFC_RET_RET_BUS_CHAR_OVERRUN_CNT, MODBUS_SFC_CLEAR_OVERRUN_CNT_FLG.
  rewrite !(proj2 (Z.eqb_neq sf _)) by lia.
  by apply (refused_eq true); [..|lia|].
Qed.

Lemma diagnostics_eq pkt len w :
  free mtx_for_port_conf w -> free mtx_for_state_set w -> ctx_ok (mctx (ctr w)) ->
  Forall is_u8 pkt -> MIN_RTU_PKT <= len <= 256 -> len <= Z.of_nat (length pkt) -> (5 <= length pkt)%nat ->
  exists e, handler_for_fcode_diagnostics CTR pkt len w =
    Some (if diag_known (sub_function pkt) then ERR_NONE else EMBXILFUN,
          count_if (negb (diag_known (sub_function pkt)))
            (sent_reply (diag_reply (ctr w) pkt len) e (set_ctr (diag_effect pkt (ctr w)) w))).
Proof.
  intros Hf Hs Hc Hu Hl Hp Hp5. set (sf := sub_function pkt).
  assert (mctx (diag_effect pkt (ctr w)) = mctx (ctr w)) as Em
    by (unfold diag_effect; repeat case_match; done).
  unfold diag_reply, sent_reply, diag_known. fold sf. cbn [ctr set_ctr]. rewrite Em.
  destruct (diag_echo sf) eqn:He; cbn [orb negb count_if].
  { destruct (diag_echo_eq sf pkt len w) as [e E]; [done..|]. by exists e. }
  destruct (Z.eqb_spec sf 4) as [H4|H4]; cbn [orb negb count_if].
  { exists 0. unfold handler_for_fcode_diagnostics, diag_effect, MIN_RTU_PKT in *.
    erewrite bind_eq by (apply pick_sub_fcode_eq; unfold MIN_RTU_PKT; lia). fold sf. rewrite H4.
    cbn [Z.eqb Pos.eqb MODBUS_SFC_DIAG_RETURN_QUERY_DATA MODBUS_SFC_DIAG_RESTART_COM_OPT
      MODBUS_SFC_DIAG_RET_DIAG_REG MODBUS_SFC_DIAG_CHANGE_ASCII_INPUT_DELIMITER
      MODBUS_SFC_FORCE_LISTEN_MODE].
    by erewrite bind_eq by (apply set_mode_eq; auto). }
  assert (diag_effect pkt (ctr w) = ctr w) as ->.
  { unfold diag_effect, diag_echo in *. fold sf. by repeat (case_match; [lia|]). }
  replace (set_ctr (ctr w) w) with w by by destruct w.
  assert (forall s s', diag_value s sf = None -> diag_value s' sf = None) as Hn.
  { intros s s'. unfold diag_value. by repeat (case_match; [discriminate|]). }
  destruct (diag_value (state_set (ctr w)) sf) as [v|] eqn:Hv.
  - destruct (diag_value zero_state_set sf) eqn:Hz.
    2: { apply (Hn _ (state_set (ctr w))) in Hz. congruence. }
    cbn [negb count_if]. by apply (diag_value_eq sf).
  - rewrite (Hn _ zero_state_set Hv). cbn [negb]. by apply diag_other_eq.
Qed.

(** What the comments of the handler ask for: a restart leaves the event log as it is
    unless the data field is FF00, and sub-function 0x14 clears the counter of overruns. *)
Definition keep_log (s : counter_log_register_set) : counter_log_register_set :=
  StateSet 0 0 0 0 0 0 0 0 0 0 (log_comm_event s) (log_event_cnt s) (log_event_idx s) 0.
Definition commented_effect (pkt : list Z) (c : controller) : controller :=
  let sf := sub_function pkt in
  if sf =? 1 then
    with_smode SMODE_ACTIVE
      (with_state_set (if be16 (nth 4 pkt 0) (nth 5 pkt 0) =? 0xFF00 then zero_state_set else keep_log (state_set c)) c)
  else if sf =? 0x14 then with_state_set (with_diag_cnt_bus_charac_overrun 0 (state_set c)) c
  else diag_effect pkt c.

(** The requests for which the code does that: no clearing of the counter of
    overruns, which it has still to do, and no restart that keeps the log, which it clears all the same. *)
Definition as_commented (pkt : list Z) : Prop :=
  sub_function pkt <> 0x14 /\ (sub_function pkt = 1 -> be16 (nth 4 pkt 0) (nth 5 pkt 0) = 0xFF00).

Lemma commented_effect_eq pkt c : as_commented pkt -> commented_effect pkt c = diag_effect pkt c.
Proof.
  intros [H14 H1]. unfold commented_effect, diag_effect. destruct (Z.eqb_spec (sub_function pkt) 1) as [E|_].
  - by rewrite (H1 E).
  - by destruct (Z.eqb_spec (sub_function pkt) 0x14).
Qed.


Definition busy_world : world :=
  upd_state (fun s => with_diag_cnt_bus_message 0x1234 s) idle_world.


(** a restart clears the communication event log whatever the request's
    data field says: after sub-function 1 with data 0x0000 the log is empty,
    where the comment in the handler (and the protocol) keep it. *)
Theorem restart_always_clears_the_log pkt len w :
  free mtx_for_port_conf w -> free mtx_for_state_set w -> ctx_ok (mctx (ctr w)) ->
  Forall is_u8 pkt -> MIN_RTU_PKT <= len <= 256 -> len <= Z.of_nat (length pkt) -> (6 <= length pkt)%nat ->
  sub_function pkt = 1 -> be16 (nth 4 pkt 0) (nth 5 pkt 0) = 0x0000 ->
  exists w', handler_for_fcode_diagnostics CTR pkt len w = Some (ERR_NONE, w') /\
    state_set (ctr w') = zero_state_set /\ smode (ctr w') = SMODE_ACTIVE.
Proof.
  intros Hf Hs Hc Hu Hl Hp Hp5 Hsf _.
  destruct (diagnostics_eq pkt len w) as [e E]; [done..|lia|].
  rewrite Hsf in E. change (diag_known 1) with true in E. eexists. split; [apply E|].
  assert (diag_effect pkt (ctr w) = with_smode SMODE_ACTIVE (with_state_set zero_state_set (ctr w))) as ->
    by (unfold diag_effect; by rewrite Hsf).
  unfold sent_reply. cbn [negb count_if]. by destruct (diag_reply _ _ _); rewrite ?ctr_sent_by.
Qed.

Lemma restart_always_clears_the_log_witness :
  exists w', handler_for_fcode_diagnostics CTR [17; 8; 0; 1; 0; 0; 0; 0] 8 busy_world =
      Some (ERR_NONE, w') /\
    state_set (ctr w') = zero_state_set /\ smode (ctr w') = SMODE_ACTIVE.
Proof.
  apply (restart_always_clears_the_log [17; 8; 0; 1; 0; 0; 0; 0] 8 busy_world); try reflexivity.
  - repeat constructor; unfold is_u8; lia.
  - vm_compute; split; congruence.
  - simpl; lia.
Defined.

Lemma restart_in_listen_mode_eq pkt len w :
  free mtx_for_state_set w -> (4 <= length pkt)%nat -> MIN_RTU_PKT <= len ->
  handle_for_restart_com_option_in_listen_mode CTR pkt len w =
  Some (ERR_NONE,
    if (nth 1 pkt 0 =? MODBUS_FC_DIAGNOSTIC) && (sub_function pkt =? 1)
    then set_ctr (with_smode SMODE_ACTIVE (with_state_set zero_state_set (ctr w))) w else w).
Proof.
  intros Hs Hl Hn. unfold handle_for_restart_com_option_in_listen_mode, app_mslave_pick_fun_code.
  rewrite (proj2 (Z.leb_le _ _) Hn). erewrite bind_eq by (apply rd_eq; lia).
  change (Z.to_nat 1) with 1%nat. destruct (nth 1 pkt 0 =? MODBUS_FC_DIAGNOSTIC); cbn [negb andb]; [|done].
  erewrite bind_eq by by apply pick_sub_fcode_eq. unfold MODBUS_SFC_DIAG_RESTART_COM_OPT.
  destruct (sub_function pkt =? 1); cbn [negb]; [|done].
  erewrite bind_eq by by apply clear_state_set_eq. erewrite bind_eq by (apply set_mode_eq; auto). done.
Qed.
