(* ===== verification/SlaveFile.v ===== *)
(** * SlaveFile: reading file records (0x14)

    [app_mslave.c]: the queue of file-reading buffers, their creation and
    ageing, the selection of the data of a request, and the handler. *)

From S2P Require Import Prelude Crc16 Machine Libmodbus SlaveState Layout SlaveMapping SlaveHandlers.
From Stdlib Require Import ZArith Lia ZifyBool List Bool.
From stdpp Require Import base list numbers.
Open Scope Z_scope.
Open Scope m_scope.

Definition FILE_READ_REF_TYPE : Z := 0x06.
Definition MAX_RECORD_NUMBER : Z := 0x270F.

(** [struct file_reading_info_pkt] *)
Record file_reading_info_pkt := FInfo {
  fi_ref_type : Z; fi_file_no : Z; fi_record_no : Z; fi_record_len : Z;
  fi_file_len : Z; fi_dtlen : Z; fi_dtbuf : list Z
}.

Definition zero_file_info : file_reading_info_pkt := FInfo 0 0 0 0 0 0 (zeros SZ_RTU_MSGBUF).

(** A node of the queue is named by its position. *)
Definition put_buf_queue (q : list freading_buffer) : M unit :=
  modify_ctr (with_freading_buf_queue q).

Definition to_release_buf_node (p : ptr) (node : nat) : M Z :=
  let* c := deref p in
  match freading_buf_queue c !! node with
  | Some _ => put_buf_queue (delete node (freading_buf_queue c)) ;; ret ERR_NONE
  | None => ret ERR_API_FAIL
  end.

(** The loop that fills a new buffer; [tpcnt] and [tpidx] are [uint16_t]. *)
Fixpoint fill_loop (fuel : nat) (dtbuf : list Z) (tpidx tpu8 tpcnt file_len : Z) : M (list Z * Z) :=
  match fuel with
  | O => undefined
  | S fuel =>
      let* dtbuf := wr dtbuf (tpidx mod SZ_FREADING_BUFFER) tpu8 in
      let tpu8 := u8 (tpu8 + 1) in
      let tpcnt := u16 (tpcnt + 1) in
      let tpidx := u16 (tpidx + 1) in
      if SZ_FREADING_BUFFER <=? tpidx then ret (dtbuf, tpidx)
      else if file_len <=? tpcnt then ret (dtbuf, tpidx)
      else fill_loop fuel dtbuf tpidx tpu8 tpcnt file_len
  end.

(** The buffer holds [SZ_FREADING_BUFFER] bytes, one per iteration. *)
Definition FILL_FUEL : nat := Z.to_nat SZ_FREADING_BUFFER.

(** The result is the position of the new node, or nothing. *)
Definition to_create_buf_node (p : ptr) (info : file_reading_info_pkt) : M (option nat) :=
  let* ok := malloc_ok in
  if negb ok then ret None
  else
    let file_len := 0xFF00 in
    let* tstamp := time_now in
    let tpu8 := u8 ((fi_record_no info * 2) mod 0xFF) in
    let tpcnt := u16 (fi_record_no info * 2) in
    if file_len <=? tpcnt then ret None
    else
      let* r := fill_loop FILL_FUEL (zeros SZ_FREADING_BUFFER) 0 tpu8 tpcnt file_len in
      let record_len := u16 (snd r / 2 + snd r mod 2) in
      let* c := deref p in
      put_buf_queue (freading_buf_queue c ++
        [FBuf file_len tstamp (fi_file_no info) (fi_record_no info) record_len (fst r)]) ;;
      ret (Some (length (freading_buf_queue c))).

Definition q_match_freading_buffer (file_no : Z) (b : freading_buffer) : bool :=
  u16 file_no =? fb_file_no b.

(** [l_queue_find] from position [i]. *)
Fixpoint find_from (q : list freading_buffer) (i : nat) (file_no : Z) : option nat :=
  match q with
  | [] => None
  | b :: q => if q_match_freading_buffer file_no b then Some i else find_from q (S i) file_no
  end.

Definition to_find_buf_node (p : ptr) (file_no : Z) : M (option nat) :=
  let* c := deref p in ret (find_from (freading_buf_queue c) 0 file_no).

Definition is_records_in_buffer_node (info : file_reading_info_pkt) (b : freading_buffer) : bool :=
  let tpu16a := fb_record_no b in
  let tpu16b := u16 (fb_record_no b + fb_record_len b) in
  if fb_record_len b <? SZ_FREADING_BUFFER / 2
  then (tpu16a <=? fi_record_no info) && (fi_record_no info <? tpu16b)
  else if fb_record_len b =? SZ_FREADING_BUFFER / 2
  then (tpu16a <=? fi_record_no info) && (fi_record_no info + fi_record_len info <? tpu16b)
  else false.

(** Is the node too old? *)
Definition q_foreach_remove_buf_node (now : Z) (b : freading_buffer) : bool :=
  VAL_BUF_NODE_LIFE <? now - fb_tstamp b.

Definition to_release_aging_buf_node (p : ptr) : M Z :=
  let* kp_tval := time_now in
  let* c := deref p in
  put_buf_queue (List.filter (fun b => negb (q_foreach_remove_buf_node kp_tval b))
                   (freading_buf_queue c)) ;;
  ret ERR_NONE.

Definition buf_at (p : ptr) (node : nat) : M freading_buffer :=
  let* c := deref p in
  match freading_buf_queue c !! node with Some b => ret b | None => undefined end.

Definition with_tstamp (t : Z) (b : freading_buffer) : freading_buffer :=
  FBuf (fb_file_len b) t (fb_file_no b) (fb_record_no b) (fb_record_len b) (fb_dtbuf b).

(** The number of bytes to deliver; nothing for a node with too many records. *)
Definition reading_length (info : file_reading_info_pkt) (b : freading_buffer) : option Z :=
  if fb_record_len b <? SZ_FREADING_BUFFER / 2
  then
    if fb_record_no b + fb_record_len b <? fi_record_no info + fi_record_len info
    then Some (u16 ((fb_record_no b + fb_record_len b - fi_record_no info) * 2))
    else Some (u16 (fi_record_len info * 2))
  else if fb_record_len b =? SZ_FREADING_BUFFER / 2 then Some (u16 (fi_record_len info * 2))
  else None.

(** The node to read from, or the error code. *)
Definition select_buf_node (p : ptr) (info : file_reading_info_pkt) : M (nat + Z) :=
  let* found := to_find_buf_node p (fi_file_no info) in
  let fresh :=
    let* created := to_create_buf_node p info in
    match created with
    | None => ret (inr ERR_API_FAIL)
    | Some node =>
        let* b := buf_at p node in
        if is_records_in_buffer_node info b then ret (inl node) else ret (inr ERR_API_FAIL)
    end in
  match found with
  | None => fresh
  | Some node =>
      let* b := buf_at p node in
      if is_records_in_buffer_node info b then ret (inl node)
      else
        let* tpret := to_release_buf_node p node in
        if negb (tpret =? ERR_NONE) then ret (inr tpret) else fresh
  end.

(** The critical section of [to_read_file_content]. *)
Definition read_file_section (p : ptr) (info : file_reading_info_pkt) : M (Z * file_reading_info_pkt) :=
  let* sel := select_buf_node p info in
  match sel with
  | inr err => ret (err, info)
  | inl node =>
      let* b := buf_at p node in
      let tpidx := u16 ((fi_record_no info - fb_record_no b) * 2) in
      match reading_length info b with
      | None => ret (ERR_API_FAIL, info)
      | Some tplen =>
          if (0 <? tplen) && (tplen <=? SZ_RTU_MSGBUF)
          then
            let* dtbuf := memcpy (fi_dtbuf info) 0 (fb_dtbuf b) tpidx tplen in
            let info := FInfo (fi_ref_type info) (fi_file_no info) (fi_record_no info)
                          (fi_record_len info) (fi_file_len info) (u8 tplen) dtbuf in
            let* now := time_now in
            let* c := deref p in
            put_buf_queue (<[node := with_tstamp now b]> (freading_buf_queue c)) ;;
            ret (ERR_NONE, info)
          else ret (ERR_API_FAIL, info)
      end
  end.

Definition to_read_file_content (p : ptr) (info : file_reading_info_pkt)
    : M (Z * file_reading_info_pkt) :=
  pthread_mutex_lock p mtx_for_freading_buf_queue ;;
  let* r := read_file_section p info in
  pthread_mutex_unlock p mtx_for_freading_buf_queue ;;
  pthread_mutex_lock p mtx_for_freading_buf_queue ;;
  let* _ := to_release_aging_buf_node p in
  pthread_mutex_unlock p mtx_for_freading_buf_queue ;;
  ret r.

(** The end of the handler after an error. *)
Definition file_record_error (p : ptr) (pkt : list Z) (exception_code tpret : Z) : M Z :=
  let* _ := reply_exception_locked p pkt exception_code in
  let* _ := app_mslave_inc_slave_exception_error_cnt p in
  ret tpret.

(** One request pattern at offset [kp_cnt] of the data. *)
Definition pick_pattern (pkt : list Z) (kp_cnt : Z) : M file_reading_info_pkt :=
  let at_ k := rd pkt (3 + kp_cnt + k) in
  let* ref := at_ 0 in
  let* a := at_ 1 in let* b := at_ 2 in
  let* c := at_ 3 in let* d := at_ 4 in
  let* e := at_ 5 in let* f := at_ 6 in
  ret (FInfo ref (u16 (Z.shiftl a 8 + b)) (u16 (Z.shiftl c 8 + d)) (u16 (Z.shiftl e 8 + f))
         0 0 (zeros SZ_RTU_MSGBUF)).

(** The loop over the request patterns; the result is the reply, or the
    exception code. *)
Fixpoint patterns_loop (fuel : nat) (p : ptr) (pkt : list Z) (kp_req_bcount kp_cnt : Z)
    (r : list Z * Z) : M (list Z * Z + Z) :=
  if kp_req_bcount <=? kp_cnt then ret (inl r)
  else
  match fuel with
  | O => undefined
  | S fuel =>
      let* info := pick_pattern pkt kp_cnt in
      let kp_cnt := kp_cnt + 7 in
      if negb (fi_ref_type info =? FILE_READ_REF_TYPE)
      then ret (inr MODBUS_EXCEPTION_ILLEGAL_DATA_ADDRESS)
      else if MAX_RECORD_NUMBER <? fi_record_no info
      then ret (inr MODBUS_EXCEPTION_ILLEGAL_DATA_ADDRESS)
      else
        let* res := to_read_file_content p info in
        if negb (fst res =? ERR_NONE) then ret (inr MODBUS_EXCEPTION_SLAVE_OR_SERVER_FAILURE)
        else
          let info := snd res in
          let* r := put_byte r (fi_dtlen info) in
          let* r := put_byte r FILE_READ_REF_TYPE in
          if snd r + fi_dtlen info <=? MAX_MODBUS_SERIAL_ADU - 2
          then
            let* buf := memcpy (fst r) (snd r) (fi_dtbuf info) 0 (fi_dtlen info) in
            patterns_loop fuel p pkt kp_req_bcount kp_cnt (buf, snd r + fi_dtlen info)
          else ret (inr MODBUS_EXCEPTION_ILLEGAL_DATA_ADDRESS)
  end.

(** The byte count is at most 0xF5, 35 patterns of 7 bytes. *)
Definition PATTERN_FUEL : nat := 35.

Definition handler_for_fcode_read_file_record (p : ptr) (pkt : list Z) (len : Z) : M Z :=
  let* b0 := rd pkt 0 in
  let* r := put_byte (zeros SZ_RTU_MSGBUF, 0) b0 in
  let* b1 := rd pkt 1 in
  let* r := put_byte r b1 in
  let r := (fst r, snd r + 1) in
  let* kp_req_bcount := rd pkt 2 in
  if (kp_req_bcount <? 0x07) || (0xF5 <? kp_req_bcount)
  then file_record_error p pkt MODBUS_EXCEPTION_ILLEGAL_DATA_VALUE ERR_INVALID_PARAM
  else if negb (kp_req_bcount mod 0x07 =? 0)
  then file_record_error p pkt MODBUS_EXCEPTION_ILLEGAL_DATA_VALUE ERR_INVALID_PARAM
  else
    let* res := patterns_loop PATTERN_FUEL p pkt kp_req_bcount 0 r in
    match res with
    | inr code => file_record_error p pkt code ERR_INVALID_PARAM
    | inl r =>
        let* buf := wr (fst r) 2 (snd r - 1 - 1 - 1) in
        let* rc := send_locked p buf (snd r) in
        if rc <? 0
        then file_record_error p pkt MODBUS_EXCEPTION_SLAVE_OR_SERVER_FAILURE ERR_API_FAIL
        else ret ERR_NONE
    end.

(** ** The content of a buffer *)

(** [n] bytes that count up from [v]. *)
Fixpoint bytes_from (v : Z) (n : nat) : list Z :=
  match n with O => [] | S n => v :: bytes_from (u8 (v + 1)) n end.

Lemma length_bytes_from v n : length (bytes_from v n) = n.
Proof. revert v. induction n; intros v; simpl; auto. Qed.

Lemma nth_bytes_from v n k : is_u8 v -> (k < n)%nat ->
  nth k (bytes_from v n) 0 = u8 (v + Z.of_nat k).
Proof.
  revert v k. induction n as [|n IH]; intros v [|k] Hv Hk; [lia|lia| |]; cbn [bytes_from nth].
  - rewrite Z.add_0_r. by rewrite u8_id.
  - rewrite IH by (auto with words || lia). unfold u8.
    rewrite Zplus_mod_idemp_l. f_equal. lia.
Qed.

Lemma bytes_from_u8 v n : is_u8 v -> Forall is_u8 (bytes_from v n).
Proof. revert v. induction n; intros v Hv; constructor; auto with words. Qed.

(** The debug content of a buffer that starts at record [n]. *)
Definition buffer_content (n : Z) : list Z :=
  bytes_from (u8 ((n * 2) mod 0xFF)) (Z.to_nat SZ_FREADING_BUFFER).

Lemma length_buffer_content n : Z.of_nat (length (buffer_content n)) = 4056.
Proof. unfold buffer_content. by rewrite length_bytes_from. Qed.

Lemma nth_buffer_content n k : 0 <= k < 4056 ->
  nth (Z.to_nat k) (buffer_content n) 0 = u8 ((n * 2) mod 0xFF + k).
Proof.
  intros Hk. unfold buffer_content. rewrite nth_bytes_from.
  - rewrite Z2Nat.id by lia. unfold u8. by rewrite Zplus_mod_idemp_l.
  - auto with words.
  - unfold SZ_FREADING_BUFFER. lia.
Qed.

Lemma fill_loop_eq fuel done rest v cnt w :
  Z.of_nat (length done + length rest) = SZ_FREADING_BUFFER -> (1 <= length rest <= fuel)%nat ->
  is_u8 v -> 0 <= cnt -> cnt + Z.of_nat (length rest) <= 0xFF00 ->
  fill_loop fuel (done ++ rest) (Z.of_nat (length done)) v cnt 0xFF00 w =
  Some ((done ++ bytes_from v (length rest), SZ_FREADING_BUFFER), w).
Proof.
  unfold SZ_FREADING_BUFFER. change (2028 * 2) with 4056.
  revert done rest v cnt. induction fuel as [|fuel IH]; intros done rest v cnt Hl Hf Hv Hc Hn; [lia|].
  destruct rest as [|x rest]; [simpl in Hf; lia|]. cbn [length] in *.
  cbn [fill_loop]. unfold SZ_FREADING_BUFFER. change (2028 * 2) with 4056.
  rewrite Z.mod_small by lia. erewrite bind_eq by by apply wr_here.
  rewrite !(u16_id (_ + 1)) by (unfold is_u16; lia). cbv zeta. rewrite (u8_id v) by done.
  destruct (Z.leb_spec 4056 (Z.of_nat (length done) + 1)).
  - assert (rest = []) as -> by (destruct rest; [done|simpl in Hl; lia]). unfold ret. simpl.
    repeat f_equal. simpl in Hl. lia.
  - rewrite (proj2 (Z.leb_gt 0xFF00 _)) by lia.
    replace (done ++ v :: rest) with ((done ++ [v]) ++ rest) by by rewrite <- app_assoc.
    replace (Z.of_nat (length done) + 1) with (Z.of_nat (length (done ++ [v])))
      by (rewrite length_app; simpl; lia).
    rewrite IH; [by rewrite <- app_assoc|rewrite length_app; simpl; lia| |auto with words|lia|lia].
    destruct rest; [|simpl; simpl in Hf; lia]. simpl in Hl. lia.
Qed.

(** From here on only the two lemmas above look into a content. *)
#[local] Opaque buffer_content.

(** ** The queue of buffers *)

(** A node as the code creates them: full, with the content of its start. *)
Definition buf_ok (b : freading_buffer) : Prop :=
  fb_record_len b = 2028 /\ 0 <= fb_record_no b <= MAX_RECORD_NUMBER /\
  fb_dtbuf b = buffer_content (fb_record_no b) /\ is_u16 (fb_file_no b).

Definition file_queue_ok (q : list freading_buffer) : Prop :=
  Forall buf_ok q /\ NoDup (map fb_file_no q).

(** A request pattern that passed the handler's checks. *)
Definition info_ok (info : file_reading_info_pkt) : Prop :=
  is_u16 (fi_file_no info) /\ 0 <= fi_record_no info <= MAX_RECORD_NUMBER /\
  is_u16 (fi_record_len info) /\ fi_dtbuf info = zeros SZ_RTU_MSGBUF.

(** The world after the queue was changed. *)
Definition requeued (q : list freading_buffer) (t : nat) (w : world) : world :=
  at_tick t (set_ctr (with_freading_buf_queue q (ctr w)) w).

Lemma requeued_requeued q q' t t' w : requeued q' t' (requeued q t w) = requeued q' t' w.
Proof. done. Qed.

Lemma find_from_spec q i n :
  match find_from q i n with
  | Some k => exists l1 b l2, q = l1 ++ b :: l2 /\ k = (i + length l1)%nat /\ fb_file_no b = u16 n
  | None => u16 n ∉ map fb_file_no q
  end.
Proof.
  revert i. induction q as [|b q IH]; intros i; cbn [find_from].
  - by apply not_elem_of_nil.
  - unfold q_match_freading_buffer. destruct (Z.eqb_spec (u16 n) (fb_file_no b)) as [E|E].
    + exists [], b, q. simpl. split; [done|]. split; [lia|done].
    + specialize (IH (S i)). destruct (find_from q (S i) n) as [k|].
      * destruct IH as (l1 & b' & l2 & -> & -> & E'). exists (b :: l1), b', l2.
        simpl. split; [done|]. split; [lia|done].
      * simpl. by apply not_elem_of_cons.
Qed.

(** The buffer that is created for a request. *)
Definition new_buf (info : file_reading_info_pkt) (now : Z) : freading_buffer :=
  FBuf 0xFF00 now (fi_file_no info) (fi_record_no info) 2028 (buffer_content (fi_record_no info)).

Lemma create_buf_node_eq info w : info_ok info ->
  exists t, to_create_buf_node CTR info w =
    if o_malloc (os w) (tick w)
    then Some (Some (length (freading_buf_queue (ctr w))),
               requeued (freading_buf_queue (ctr w) ++ [new_buf info (o_time (os w) (S (tick w)))]) t w)
    else Some (None, requeued (freading_buf_queue (ctr w)) t w).
Proof.
  intros (Hf & Hr & Hl & _). unfold MAX_RECORD_NUMBER in Hr. unfold to_create_buf_node, malloc_ok, ask.
  unfold bind at 1. destruct (o_malloc (os w) (tick w)); cbn [negb].
  2: { exists (S (tick w)). unfold ret, requeued. by destruct w as [[]]. }
  exists (S (S (tick w))). unfold time_now, ask. erewrite bind_eq by done. cbv zeta.
  cbn [os tick next_tick]. rewrite (u16_id (fi_record_no info * 2)) by (unfold is_u16; lia).
  rewrite (proj2 (Z.leb_gt _ _)) by lia.
  assert (Z.of_nat (length (zeros SZ_FREADING_BUFFER)) = 4056) as HL
    by (unfold zeros; by rewrite length_replicate).
  erewrite bind_eq.
  2: { change 0 with (Z.of_nat (length (@nil Z))) at 1. rewrite <- (app_nil_l (zeros SZ_FREADING_BUFFER)).
       apply fill_loop_eq; [simpl length; rewrite Nat.add_0_l; exact HL| |auto with words|lia|rewrite HL; lia].
       unfold FILL_FUEL. change (Z.to_nat SZ_FREADING_BUFFER) with (length (zeros SZ_FREADING_BUFFER)).
       lia. }
  cbn [fst snd app]. unfold deref, get_ctr. erewrite bind_eq by done.
  unfold put_buf_queue, modify_ctr. erewrite bind_eq by done. unfold ret.
  unfold new_buf. replace (length (zeros SZ_FREADING_BUFFER)) with
    (Z.to_nat SZ_FREADING_BUFFER) by (apply Nat2Z.inj; rewrite HL; done).
  done.
Qed.

Lemma new_buf_ok info now : info_ok info -> buf_ok (new_buf info now).
Proof. intros (Hf & Hr & Hl & _). unfold buf_ok. auto. Qed.

Lemma in_buffer_eq info b : info_ok info -> buf_ok b ->
  is_records_in_buffer_node info b =
  (fb_record_no b <=? fi_record_no info) &&
  (fi_record_no info + fi_record_len info <? fb_record_no b + 2028).
Proof.
  intros (_ & Hr & _) (Hb & Hn & _). unfold is_records_in_buffer_node, MAX_RECORD_NUMBER in *.
  rewrite Hb. change (SZ_FREADING_BUFFER / 2) with 2028. cbn [Z.ltb Z.eqb Z.compare].
  by rewrite u16_id by (unfold is_u16; lia).
Qed.

(** Replacing a node's time stamp, removing a node, adding one. *)
Lemma queue_ok_tstamp q i b t : file_queue_ok q -> q !! i = Some b ->
  file_queue_ok (<[i := with_tstamp t b]> q).
Proof.
  intros [Hq Hn] Hi. split.
  - apply Forall_insert; [done|]. by apply (Forall_lookup_1 _ _ _ _ Hq Hi).
  - assert (map fb_file_no (<[i:=with_tstamp t b]> q) = map fb_file_no q) as ->; [|done].
    change (map fb_file_no) with (fmap (M := list) fb_file_no). rewrite list_fmap_insert.
    apply list_insert_id. by rewrite list_lookup_fmap, Hi.
Qed.

Lemma elem_of_kept (f : freading_buffer -> bool) b q : b ∈ List.filter f q <-> b ∈ q /\ f b = true.
Proof. rewrite !list_elem_of_In. apply List.filter_In. Qed.

Lemma queue_ok_filter f q : file_queue_ok q -> file_queue_ok (List.filter f q).
Proof.
  intros [Hq Hn]. split.
  - apply Forall_forall. intros b Hb. apply List.filter_In in Hb as [Hb _].
    by eapply Forall_forall.
  - clear Hq. induction q as [|b q IH]; [done|]. simpl in Hn. apply list.NoDup_cons in Hn as [Hb Hn].
    simpl. destruct (f b); [|by apply IH]. simpl. apply list.NoDup_cons. split; [|by apply IH].
    intros Hin. apply Hb. apply list_elem_of_fmap in Hin as (b' & -> & Hin).
    apply list_elem_of_fmap. exists b'. split; [done|].
    by apply elem_of_kept in Hin as [Hin _].
Qed.

Lemma queue_ok_middle l1 b l2 : file_queue_ok (l1 ++ b :: l2) ->
  file_queue_ok (l1 ++ l2) /\ fb_file_no b ∉ map fb_file_no (l1 ++ l2).
Proof.
  intros [Hq Hn]. apply Forall_app in Hq as [H1 H2]. apply Forall_cons_1 in H2 as [_ H2].
  rewrite map_app in *. cbn [map] in Hn. apply list.NoDup_app in Hn as (N1 & N2 & N3).
  apply list.NoDup_cons in N3 as [N3 N4]. split.
  - split; [by apply Forall_app|]. rewrite map_app. apply list.NoDup_app. split; [done|]. split; [|done].
    intros x Hx Hx2. apply (N2 x Hx). by apply elem_of_cons; right.
  - rewrite elem_of_app. intros [Hx|Hx]; [|done]. apply (N2 _ Hx). by apply elem_of_cons; left.
Qed.

Lemma queue_ok_snoc q b : file_queue_ok q -> buf_ok b -> fb_file_no b ∉ map fb_file_no q ->
  file_queue_ok (q ++ [b]).
Proof.
  intros [Hq Hn] Hb Hf. split; [by apply Forall_app; auto|]. rewrite map_app.
  apply list.NoDup_app. split; [done|]. split; [|apply NoDup_singleton].
  intros x Hx Hx'. apply list_elem_of_singleton in Hx' as ->. done.
Qed.

(** ** What a read delivers *)

(** Can the node serve the request? *)
Definition serves (info : file_reading_info_pkt) (b : freading_buffer) : Prop :=
  fb_record_no b <= fi_record_no info /\
  fi_record_no info + fi_record_len info < fb_record_no b + 2028.

Lemma in_buffer_serves info b : info_ok info -> buf_ok b ->
  is_records_in_buffer_node info b = true <-> serves info b.
Proof. intros Hi Hb. rewrite in_buffer_eq by done. unfold serves. lia. Qed.

Lemma buf_at_eq i b w : freading_buf_queue (ctr w) !! i = Some b -> buf_at CTR i w = Some (b, w).
Proof. intros H. unfold buf_at, bind, deref, get_ctr. by rewrite H. Qed.

(** The outcome of the choice of a node: a node that serves the request, or an
    error, which has one of two causes. *)
Definition selected (info : file_reading_info_pkt) (q : list freading_buffer) (sel : nat + Z)
    (w : world) : Prop :=
  match sel with
  | inl i => exists b, q !! i = Some b /\ serves info b /\ fb_file_no b = fi_file_no info
  | inr e => e = ERR_API_FAIL /\ (2028 <= fi_record_len info \/ ~ mallocs_succeed w)
  end.

Lemma create_and_check_eq info q w : info_ok info ->
  freading_buf_queue (ctr w) = q -> file_queue_ok q -> fi_file_no info ∉ map fb_file_no q ->
  exists sel q' t,
    (let* created := to_create_buf_node CTR info in
     match created with
     | None => ret (inr ERR_API_FAIL)
     | Some node =>
         let* b := buf_at CTR node in
         if is_records_in_buffer_node info b then ret (inl node) else ret (inr ERR_API_FAIL)
     end) w = Some (sel, requeued q' t w) /\
    file_queue_ok q' /\ selected info q' sel w.
Proof.
  intros Hi <- Hq Hf. destruct (create_buf_node_eq info w Hi) as [t E].
  destruct (o_malloc (os w) (tick w)) eqn:Em.
  2: { eexists (inr _), _, t. erewrite bind_eq by apply E. split; [done|]. split; [done|].
       split; [done|]. right. intros Hm. by rewrite Hm in Em. }
  set (b := new_buf info _) in E. assert (buf_ok b) as Hb by by apply new_buf_ok.
  erewrite bind_eq by apply E. cbv iota beta.
  erewrite bind_eq by (apply buf_at_eq; cbn; by apply list_lookup_middle).
  assert (file_queue_ok (freading_buf_queue (ctr w) ++ [b])) as Hq' by by apply queue_ok_snoc.
  destruct (is_records_in_buffer_node info b) eqn:Er.
  - eexists (inl _), _, t. split; [done|]. split; [done|]. exists b.
    split; [by apply list_lookup_middle|]. split; [by apply in_buffer_serves|done].
  - eexists (inr _), _, t. split; [done|]. split; [done|]. split; [done|]. left.
    rewrite in_buffer_eq in Er by done. cbn [b new_buf fb_record_no] in Er. lia.
Qed.

Lemma select_buf_node_eq info w : info_ok info -> file_queue_ok (freading_buf_queue (ctr w)) ->
  exists sel q' t, select_buf_node CTR info w = Some (sel, requeued q' t w) /\
    file_queue_ok q' /\ selected info q' sel w.
Proof.
  intros Hi Hq. unfold select_buf_node, to_find_buf_node, deref, get_ctr.
  erewrite bind_eq by done.
  pose proof (find_from_spec (freading_buf_queue (ctr w)) 0 (fi_file_no info)) as Hs.
  rewrite (u16_id (fi_file_no info)) in Hs by apply Hi.
  destruct (find_from _ _ _) as [k|]; cbv zeta.
  2: { by eapply create_and_check_eq. }
  destruct Hs as (l1 & b & l2 & Eq & -> & Eb). rewrite Nat.add_0_l.
  assert (freading_buf_queue (ctr w) !! length l1 = Some b) as Hl
    by (rewrite Eq; by apply list_lookup_middle).
  erewrite bind_eq by by apply buf_at_eq.
  destruct (is_records_in_buffer_node info b) eqn:Er.
  - exists (inl (length l1)), (freading_buf_queue (ctr w)), (tick w). split; [by destruct w as [[]]|].
    split; [done|]. exists b. split; [done|]. split; [|done].
    apply in_buffer_serves; [done| |done]. destruct Hq as [Hq _]. by eapply Forall_lookup_1.
  - unfold to_release_buf_node, deref, get_ctr. erewrite bind_eq.
    2: { erewrite bind_eq by done. rewrite Hl. unfold put_buf_queue, modify_ctr, bind, ret. done. }
    cbn [Z.eqb negb ERR_NONE]. rewrite Eq. 
    rewrite delete_middle. rewrite Eq in Hq. apply queue_ok_middle in Hq as [Hq Hn].
    rewrite Eb in Hn.
    destruct (create_and_check_eq info (l1 ++ l2) (requeued (l1 ++ l2) (tick w) w)
      Hi eq_refl Hq Hn) as (sel & q' & t & E & H1 & H2).
    exists sel, q', t. split; [apply E|]. split; [done|]. destruct sel; exact H2.
Qed.

(** The result of a read: an error, or the [2 * record_len] bytes of the
    content from some buffer start. *)
Definition read_result (info : file_reading_info_pkt) (res : Z * file_reading_info_pkt) (w : world)
    : Prop :=
  (fst res = ERR_NONE /\ 1 <= fi_record_len info <= 128 /\
   exists start, 0 <= start <= fi_record_no info /\
     fi_record_no info + fi_record_len info < start + 2028 /\
     snd res = FInfo (fi_ref_type info) (fi_file_no info) (fi_record_no info) (fi_record_len info)
       (fi_file_len info) (u8 (2 * fi_record_len info))
       (slice (buffer_content start) ((fi_record_no info - start) * 2) (2 * fi_record_len info) ++
        zeros (256 - 2 * fi_record_len info))) \/
  (fst res = ERR_API_FAIL /\ snd res = info /\
   (mallocs_succeed w -> ~ 1 <= fi_record_len info <= 128)).

Lemma read_file_section_eq info w : info_ok info -> file_queue_ok (freading_buf_queue (ctr w)) ->
  exists res q' t, read_file_section CTR info w = Some (res, requeued q' t w) /\
    file_queue_ok q' /\ read_result info res w.
Proof.
  intros Hi Hq. unfold read_file_section.
  destruct (select_buf_node_eq info w Hi Hq) as (sel & q' & t & E & Hq' & Hsel).
  erewrite bind_eq by apply E. destruct sel as [i|e].
  2: { destruct Hsel as [-> Hc]. exists (ERR_API_FAIL, info), q', t. split; [done|]. split; [done|].
       right. split; [done|]. split; [done|]. intros Hm. destruct Hc; [lia|done]. }
  destruct Hsel as (b & Hb & [S1 S2] & _). cbv iota beta. erewrite bind_eq by (apply buf_at_eq; exact Hb).
  assert (buf_ok b) as (B1 & B2 & B3 & B4) by (destruct Hq' as [Hq' _]; by eapply Forall_lookup_1).
  destruct Hi as (I1 & I2 & I3 & I4). unfold MAX_RECORD_NUMBER in *.
  unfold is_u16 in I3.
  assert (reading_length info b = Some (fi_record_len info * 2)) as ->.
  { unfold reading_length. rewrite B1. change (SZ_FREADING_BUFFER / 2) with 2028.
    rewrite Z.ltb_irrefl, Z.eqb_refl. by rewrite u16_id by (unfold is_u16; lia). }
  rewrite (u16_id (_ * 2)) by (unfold is_u16; lia). unfold SZ_RTU_MSGBUF. cbv zeta.
  destruct ((0 <? fi_record_len info * 2) && (fi_record_len info * 2 <=? 256)) eqn:Ec.
  2: { exists (ERR_API_FAIL, info), q', t. split; [done|]. split; [done|]. right.
       split; [done|]. split; [done|]. intros _. lia. }
  pose proof (length_buffer_content (fb_record_no b)) as Lc.
  assert (Z.of_nat (length (fi_dtbuf info)) = 256) as Ld by by rewrite I4.
  erewrite bind_eq by (apply memcpy_eq; rewrite ?B3; lia).
  unfold time_now, ask. erewrite bind_eq by done. unfold deref, get_ctr. erewrite bind_eq by done.
  unfold put_buf_queue, modify_ctr. erewrite bind_eq by done.
  eexists (ERR_NONE, _), _, (S t). split; [unfold ret; reflexivity|].
  split; [apply (queue_ok_tstamp q'); [exact Hq'|exact Hb]|]. left. split; [done|]. split; [lia|].
  exists (fb_record_no b). split; [lia|]. split; [lia|]. cbn [snd]. rewrite B3, I4.
  change (take (Z.to_nat 0) (zeros SZ_RTU_MSGBUF)) with (@nil Z). cbn [app].
  replace (fi_record_len info * 2) with (2 * fi_record_len info) by lia. f_equal. f_equal.
  unfold zeros, SZ_RTU_MSGBUF. rewrite drop_replicate. f_equal. lia.
Qed.

Lemma set_held_requeued h q t w : set_held h (requeued q t w) = requeued q t (set_held h w).
Proof. done. Qed.

Lemma read_file_content_eq info w : info_ok info -> free mtx_for_freading_buf_queue w ->
  file_queue_ok (freading_buf_queue (ctr w)) ->
  exists res q' t, to_read_file_content CTR info w = Some (res, requeued q' t w) /\
    file_queue_ok q' /\ read_result info res w.
Proof.
  intros Hi Hf Hq. unfold to_read_file_content. rewrite lock_eq by done.
  destruct (read_file_section_eq info (set_held (mtx_for_freading_buf_queue :: held w) w) Hi Hq)
    as (res & q' & t & E & Hq' & Hr).
  erewrite bind_eq by apply E. rewrite <- set_held_requeued, unlock_eq by done.
  change (set_held (held w) (requeued q' t w)) with (requeued q' t (set_held (held w) w)).
  rewrite set_held_id.
  rewrite lock_eq by done. unfold to_release_aging_buf_node.
  erewrite bind_eq.
  2: { unfold time_now, ask. erewrite bind_eq by done. unfold deref, get_ctr. erewrite bind_eq by done.
       unfold put_buf_queue, modify_ctr. erewrite bind_eq by done. done. }
  eexists res, (List.filter _ q'), (S t). split; [|split; [by apply queue_ok_filter|exact Hr]].
  unfold bind, pthread_mutex_unlock, ret. cbn [is_null held set_held set_ctr next_tick].
  rewrite holds_cons, drop_mutex_held by done. reflexivity.
Qed.

(** ** The reply to a request *)

(** The request pattern at offset [cnt] of the data. *)
Definition pattern_at (pkt : list Z) (cnt : nat) : file_reading_info_pkt :=
  FInfo (nth (3 + cnt) pkt 0) (be16 (nth (4 + cnt) pkt 0) (nth (5 + cnt) pkt 0))
    (be16 (nth (6 + cnt) pkt 0) (nth (7 + cnt) pkt 0))
    (be16 (nth (8 + cnt) pkt 0) (nth (9 + cnt) pkt 0)) 0 0 (zeros SZ_RTU_MSGBUF).

Fixpoint patterns (n cnt : nat) (pkt : list Z) : list file_reading_info_pkt :=
  match n with O => [] | S n => pattern_at pkt cnt :: patterns n (7 + cnt) pkt end.

(** The part of the reply that answers one pattern: its length byte, the
    reference type, and the data, which a request of 128 records does not get
    because the length byte wraps to 0. *)
Definition chunk_ok (info : file_reading_info_pkt) (chunk : list Z) : Prop :=
  fi_ref_type info = FILE_READ_REF_TYPE /\ fi_record_no info <= MAX_RECORD_NUMBER /\
  1 <= fi_record_len info <= 128 /\
  exists start, 0 <= start <= fi_record_no info /\
    chunk = [u8 (2 * fi_record_len info); FILE_READ_REF_TYPE] ++
      slice (buffer_content start) ((fi_record_no info - start) * 2) (u8 (2 * fi_record_len info)).

(** A pattern the slave can serve, and the room its answer takes. *)
Definition pattern_valid (info : file_reading_info_pkt) : Prop :=
  fi_ref_type info = FILE_READ_REF_TYPE /\ fi_record_no info <= MAX_RECORD_NUMBER /\
  1 <= fi_record_len info <= 128.
Definition chunk_size (info : file_reading_info_pkt) : Z := 2 + u8 (2 * fi_record_len info).
Definition chunks_size (infos : list file_reading_info_pkt) : Z :=
  foldr (fun info n => chunk_size info + n) 0 infos.

(** The patterns can all be served and their answers fit into a frame. *)
Definition servable (infos : list file_reading_info_pkt) (size : Z) (w : world) : Prop :=
  mallocs_succeed w /\ Forall pattern_valid infos /\ size + chunks_size infos <= 254.

Lemma chunks_size_nonneg infos : 0 <= chunks_size infos.
Proof.
  induction infos as [|i infos IH]; [done|]. cbn [chunks_size foldr].
  fold (chunks_size infos). unfold chunk_size. pose proof (u8_range (2 * fi_record_len i)) as H.
  unfold is_u8 in H. lia.
Qed.

Lemma pick_pattern_eq pkt cnt w : Forall is_u8 pkt -> (10 + cnt <= length pkt)%nat ->
  pick_pattern pkt (Z.of_nat cnt) w = Some (pattern_at pkt cnt, w).
Proof.
  intros Hu Hl. unfold pick_pattern. cbv zeta.
  do 7 (erewrite bind_eq by (apply rd_eq; lia)). unfold ret, pattern_at.
  replace (Z.to_nat (3 + Z.of_nat cnt + 0)) with (3 + cnt)%nat by lia.
  replace (Z.to_nat (3 + Z.of_nat cnt + 1)) with (4 + cnt)%nat by lia.
  replace (Z.to_nat (3 + Z.of_nat cnt + 2)) with (5 + cnt)%nat by lia.
  replace (Z.to_nat (3 + Z.of_nat cnt + 3)) with (6 + cnt)%nat by lia.
  replace (Z.to_nat (3 + Z.of_nat cnt + 4)) with (7 + cnt)%nat by lia.
  replace (Z.to_nat (3 + Z.of_nat cnt + 5)) with (8 + cnt)%nat by lia.
  replace (Z.to_nat (3 + Z.of_nat cnt + 6)) with (9 + cnt)%nat by lia.
  rewrite !shiftl8_add, !u16_id by (repeat apply be16_range; by apply nth_u8). done.
Qed.

Lemma pattern_info_ok pkt cnt : Forall is_u8 pkt ->
  fi_record_no (pattern_at pkt cnt) <= MAX_RECORD_NUMBER -> info_ok (pattern_at pkt cnt).
Proof.
  intros Hu Hn. unfold info_ok, pattern_at in *. cbn [fi_file_no fi_record_no fi_record_len fi_dtbuf] in *.
  assert (forall i, is_u8 (nth i pkt 0)) as Hb by (intros; by apply nth_u8).
  split; [by apply be16_range|]. split; [|split; [by apply be16_range|done]].
  pose proof (be16_range _ _ (Hb (6 + cnt)%nat) (Hb (7 + cnt)%nat)) as H. unfold is_u16 in H. lia.
Qed.

(** [memcpy] behind the bytes put so far. *)
Lemma append_eq done data n w : (length done + n <= 256)%nat -> (n <= length data)%nat ->
  memcpy (fst (resp done)) (snd (resp done)) data 0 (Z.of_nat n) w =
  Some (fst (resp (done ++ take n data)), w).
Proof.
  intros Hd Hn. unfold resp. cbn [fst snd].
  rewrite memcpy_eq by (rewrite ?length_app, ?length_replicate; lia).
  rewrite Nat2Z.id, take_app_length. unfold slice. rewrite drop_0, Nat2Z.id.
  replace (Z.to_nat (Z.of_nat (length done) + Z.of_nat n)) with (length done + n)%nat by lia.
  rewrite drop_app, drop_ge by lia. cbn [app]. rewrite drop_replicate, <- app_assoc, length_app, length_take.
  do 5 f_equal. lia.
Qed.

Lemma snd_resp done data : snd (resp done) + Z.of_nat (length data) = snd (resp (done ++ data)).
Proof. unfold resp. cbn [snd]. rewrite length_app. lia. Qed.

Lemma patterns_loop_eq n fuel pkt bcount cnt done w :
  Forall is_u8 pkt -> (3 + bcount <= length pkt)%nat -> bcount = (cnt + 7 * n)%nat -> (n <= fuel)%nat ->
  (length done <= 254)%nat -> free mtx_for_freading_buf_queue w ->
  file_queue_ok (freading_buf_queue (ctr w)) ->
  exists res q' t, patterns_loop fuel CTR pkt (Z.of_nat bcount) (Z.of_nat cnt) (resp done) w =
      Some (res, requeued q' t w) /\ file_queue_ok q' /\
    match res with
    | inl r => exists chunks, Forall2 chunk_ok (patterns n cnt pkt) chunks /\
        r = resp (done ++ concat chunks) /\ (length (done ++ concat chunks) <= 254)%nat
    | inr code => code = MODBUS_EXCEPTION_ILLEGAL_DATA_ADDRESS \/
        code = MODBUS_EXCEPTION_SLAVE_OR_SERVER_FAILURE
    end /\
    (servable (patterns n cnt pkt) (Z.of_nat (length done)) w -> exists r, res = inl r).
Proof.
  intros Hu Hl. revert fuel cnt done w. induction n as [|n IH]; intros fuel cnt done w Hb Hf Hd Hfr Hq.
  { exists (inl (resp done)), (freading_buf_queue (ctr w)), (tick w).
    split; [|split; [done|]].
    - destruct fuel; cbn [patterns_loop]; rewrite (proj2 (Z.leb_le _ _)) by lia; by destruct w as [[]].
    - split; [|eauto]. exists []. simpl. rewrite app_nil_r. split; [constructor|done]. }
  destruct fuel as [|fuel]; [lia|]. cbn [patterns_loop patterns].
  rewrite (proj2 (Z.leb_gt _ _)) by lia.
  erewrite bind_eq by (apply pick_pattern_eq; done || lia). cbv zeta. set (info := pattern_at pkt cnt).
  set (need := servable (info :: patterns n (7 + cnt) pkt) (Z.of_nat (length done)) w).
  assert (forall code (w1 : world), w1 = w -> (code = MODBUS_EXCEPTION_ILLEGAL_DATA_ADDRESS \/
        code = MODBUS_EXCEPTION_SLAVE_OR_SERVER_FAILURE) -> ~ need ->
    exists (res : list Z * Z + Z) q' t, Some (inr code, w1) = Some (res, requeued q' t w) /\ file_queue_ok q' /\
      match res with
      | inl r => exists chunks, Forall2 chunk_ok (info :: patterns n (7 + cnt) pkt) chunks /\
          r = resp (done ++ concat chunks) /\ (length (done ++ concat chunks) <= 254)%nat
      | inr code => code = MODBUS_EXCEPTION_ILLEGAL_DATA_ADDRESS \/
          code = MODBUS_EXCEPTION_SLAVE_OR_SERVER_FAILURE
      end /\ (need -> exists r, res = inl r)) as Hfail.
  { intros code w1 -> Hcode Hno. exists (inr code), (freading_buf_queue (ctr w)), (tick w).
    split; [by destruct w as [[]]|done]. }
  destruct (Z.eqb_spec (fi_ref_type info) FILE_READ_REF_TYPE) as [Hr|Hr]; cbn [negb].
  2: { apply Hfail; [done|auto|]. intros (_ & Hv & _). by apply Forall_cons_1 in Hv as [(? & _) _]. }
  destruct (Z.ltb_spec MAX_RECORD_NUMBER (fi_record_no info)).
  { apply Hfail; [done|auto|]. intros (_ & Hv & _). apply Forall_cons_1 in Hv as [(_ & ? & _) _]. lia. }
  assert (info_ok info) as Hi by (apply pattern_info_ok; done || lia).
  destruct (read_file_content_eq info w Hi Hfr Hq) as (res & q' & t & E & Hq' & Hres).
  erewrite bind_eq by apply E. destruct Hres as [(Hok & Hlen & start & Hs & Hs2 & Hdata)|(Hko & _ & Hno)].
  2: { rewrite Hko. cbn [negb Z.eqb]. eexists (inr _), q', t. split; [done|]. split; [done|].
       split; [auto|]. intros (Hm & Hv & _). apply Forall_cons_1 in Hv as [(_ & _ & ?) _].
       by apply Hno in Hm. }
  rewrite Hok, Hdata. cbn [negb Z.eqb ERR_NONE fi_dtlen fi_dtbuf].
  set (dt := u8 (2 * fi_record_len info)). assert (0 <= dt <= 254) as Hdt by (unfold dt, u8; word_lia).
  assert (dt <= 2 * fi_record_len info) as Hdt2 by (unfold dt, u8; word_lia).
  erewrite bind_eq by (apply put_byte_eq; lia).
  erewrite bind_eq by (apply put_byte_eq; rewrite length_app; simpl; lia).
  rewrite (u8_id dt) by (unfold is_u8; lia). rewrite <- app_assoc. cbn [app].
  change (u8 FILE_READ_REF_TYPE) with FILE_READ_REF_TYPE.
  set (done2 := done ++ [dt; FILE_READ_REF_TYPE]).
  assert (length done2 = length done + 2)%nat as L2 by (unfold done2; rewrite length_app; done).
  change (MAX_MODBUS_SERIAL_ADU - 2) with 254.
  destruct (Z.leb_spec (snd (resp done2) + dt) 254) as [Hfit|Hfit].
  2: { eexists (inr _), q', t. split; [done|]. split; [done|]. split; [auto|].
       intros (_ & _ & Hsz). cbn [chunks_size foldr] in Hsz. fold (chunks_size (patterns n (7 + cnt) pkt)) in Hsz.
       pose proof (chunks_size_nonneg (patterns n (7 + cnt) pkt)).
       unfold chunk_size in Hsz. fold dt in Hsz. unfold resp in Hfit. cbn [snd] in Hfit. lia. }
  unfold resp in Hfit. cbn [snd] in Hfit.
  pose proof (length_buffer_content start) as Lc.
  assert (info_ok info) as (_ & Hn & _) by (apply pattern_info_ok; done || lia).
  set (data := slice (buffer_content start) ((fi_record_no info - start) * 2) dt).
  assert (length data = Z.to_nat dt) as Ld.
  { apply Nat2Z.inj. unfold data. rewrite length_slice by lia. lia. }
  assert (take (Z.to_nat dt) (slice (buffer_content start) ((fi_record_no info - start) * 2)
    (2 * fi_record_len info) ++ zeros (256 - 2 * fi_record_len info)) = data) as Htk.
  { unfold data, slice. rewrite take_app_le by (rewrite length_take, length_drop; lia).
    rewrite take_take. f_equal. lia. }
  erewrite bind_eq.
  2: { replace dt with (Z.of_nat (Z.to_nat dt)) at 1 by lia. apply append_eq; [lia|].
       rewrite length_app. unfold slice, zeros. rewrite length_take, length_drop, length_replicate. lia. }
  rewrite Htk. replace (snd (resp done2) + dt) with (snd (resp (done2 ++ data)))
    by (rewrite <- snd_resp; lia).
  rewrite <- surjective_pairing.
  replace (Z.of_nat cnt + 7) with (Z.of_nat (7 + cnt)) by lia.
  destruct (IH fuel (7 + cnt)%nat (done2 ++ data) (requeued q' t w)) as (res2 & q2 & t2 & E2 & Hq2 & H2 & H3);
    [lia|lia|rewrite length_app; lia|done|done|].
  exists res2, q2, t2. split; [exact E2|]. split; [done|]. split.
  2: { intros (Hm & Hv & Hsz). apply H3. split; [exact Hm|]. split; [by apply Forall_cons_1 in Hv as [_ Hv]|].
       cbn [chunks_size foldr] in Hsz. fold (chunks_size (patterns n (7 + cnt) pkt)) in Hsz.
       unfold chunk_size in Hsz. fold dt in Hsz. rewrite length_app. lia. }
  destruct res2 as [r|code]; [|done].
  destruct H2 as (chunks & Hc & -> & Hle). exists (([dt; FILE_READ_REF_TYPE] ++ data) :: chunks).
  unfold done2 in *. cbn [concat]. rewrite <- !app_assoc in *.
  split; [|split; [reflexivity|exact Hle]].
  constructor; [|exact Hc]. split; [exact Hr|]. split; [apply Hn|]. split; [exact Hlen|].
  exists start. split; [exact Hs|reflexivity].
Qed.

Definition file_byte_count (pkt : list Z) : Z := nth 2 pkt 0.
Definition byte_count_ok (n : Z) : bool :=
  negb ((n <? 0x07) || (0xF5 <? n)) && (n mod 0x07 =? 0).

(** The patterns of a request, and the message that answers it. *)
Definition file_patterns (pkt : list Z) : list file_reading_info_pkt :=
  patterns (Z.to_nat (file_byte_count pkt / 7)) 0 pkt.
Definition file_reply (pkt : list Z) (chunks : list (list Z)) : list Z :=
  [nth 0 pkt 0; nth 1 pkt 0; Z.of_nat (length (concat chunks))] ++ concat chunks.

(** The ways the handler can end. [ctx] is the context, [w] the world with the
    queue it leaves. *)
Inductive file_answer (pkt : list Z) (ctx : option modbus_t) (w : world) : Z -> world -> Prop :=
  | FileData chunks e :
      byte_count_ok (file_byte_count pkt) = true -> Forall2 chunk_ok (file_patterns pkt) chunks ->
      (length (file_reply pkt chunks) <= 254)%nat ->
      file_answer pkt ctx w ERR_NONE (sent_by ctx (rtu_frame (file_reply pkt chunks)) e w)
  | FileRefused code e :
      code = (if byte_count_ok (file_byte_count pkt) then 2 else 3) \/
        (byte_count_ok (file_byte_count pkt) = true /\ code = 4) ->
      file_answer pkt ctx w ERR_INVALID_PARAM
        (count_if true (sent_by ctx (rtu_frame (exception_pdu pkt code)) e w))
  | FileUnsent chunks e e' :
      byte_count_ok (file_byte_count pkt) = true -> Forall2 chunk_ok (file_patterns pkt) chunks ->
      (length (file_reply pkt chunks) <= 254)%nat ->
      (ctx = None \/ o_write (os w) (tick w) <> WAll) ->
      file_answer pkt ctx w ERR_API_FAIL
        (count_if true (sent_by ctx (rtu_frame (exception_pdu pkt 4)) e'
           (sent_by ctx (rtu_frame (file_reply pkt chunks)) e w))).

Lemma file_record_error_eq pkt code rc w :
  free mtx_for_port_conf w -> free mtx_for_state_set w -> ctx_ok (mctx (ctr w)) ->
  (2 <= length pkt)%nat -> code < MODBUS_EXCEPTION_MAX ->
  exists e, file_record_error CTR pkt code rc w =
    Some (rc, count_if true (sent_by (mctx (ctr w)) (rtu_frame (exception_pdu pkt code)) e w)).
Proof. apply (refused_eq true). Qed.

(** A negative result of the send means the port did not take the frame. *)
Lemma send_locked_rc done w rc w' :
  free mtx_for_port_conf w -> ctx_ok (mctx (ctr w)) -> (0 < length done <= 254)%nat ->
  send_locked CTR (fst (resp done)) (snd (resp done)) w = Some (rc, w') ->
  rc < 0 -> mctx (ctr w) = None \/ o_write (os w) (tick w) <> WAll.
Proof.
  intros Hf Hc Hl E Hrc. destruct (mctx (ctr w)) as [c|] eqn:Ec; [right|auto]. intros Hw.
  unfold send_locked, with_port, app_mslave_get_mctx in E.
  rewrite lock_eq in E by done. cbn [is_null] in E. unfold bind at 1 2, deref, get_ctr, ret at 1 in E.
  cbn [ctr set_held] in E. rewrite Ec in E. unfold resp in E. cbn [fst snd] in E.
  unfold bind at 1 in E. rewrite app_send_msg_eq in E.
  - unfold send_result in E. cbn [os tick set_held] in E. rewrite Hw in E.
    unfold bind, pthread_mutex_unlock, ret in E. cbn [is_null held next_tick set_tx set_held] in E.
    rewrite holds_cons in E. injection E as <- _. lia.
  - done.
  - unfold SZ_RTU_MSGBUF. lia.
  - rewrite length_app, length_replicate. lia.
Qed.

Lemma file_record_eq pkt len w :
  free mtx_for_port_conf w -> free mtx_for_state_set w -> free mtx_for_freading_buf_queue w ->
  ctx_ok (mctx (ctr w)) -> Forall is_u8 pkt -> Z.of_nat (length pkt) = 256 ->
  file_queue_ok (freading_buf_queue (ctr w)) ->
  exists rc w' q' t, handler_for_fcode_read_file_record CTR pkt len w = Some (rc, w') /\
    file_queue_ok q' /\ file_answer pkt (mctx (ctr w)) (requeued q' t w) rc w' /\
    (byte_count_ok (file_byte_count pkt) = true -> servable (file_patterns pkt) 3 w ->
     (exists c, mctx (ctr w) = Some c) -> (forall k, o_write (os w) k = WAll) -> rc = ERR_NONE).
Proof.
  intros Hp Hs Hf Hc Hu Hl Hq. unfold handler_for_fcode_read_file_record.
  erewrite bind_eq by (apply rd_eq; lia). rewrite resp_nil.
  erewrite bind_eq by (apply put_byte_eq; simpl; lia).
  erewrite bind_eq by (apply rd_eq; lia). erewrite bind_eq by (apply put_byte_eq; simpl; lia).
  rewrite !u8_id by by apply nth_u8. cbv zeta. cbn [app].
  erewrite bind_eq by (apply rd_eq; lia).
  change (nth (Z.to_nat 2) pkt 0) with (file_byte_count pkt). set (n := file_byte_count pkt).
  change (Z.to_nat 0) with 0%nat. change (Z.to_nat 1) with 1%nat.
  set (b0 := nth 0 pkt 0). set (b1 := nth 1 pkt 0).
  replace (fst (resp [b0; b1]), snd (resp [b0; b1]) + 1) with (resp [b0; b1; 0]) by done.
  assert (byte_count_ok n = false -> exists rc w' q' t,
    file_record_error CTR pkt MODBUS_EXCEPTION_ILLEGAL_DATA_VALUE ERR_INVALID_PARAM w = Some (rc, w') /\
    file_queue_ok q' /\ file_answer pkt (mctx (ctr w)) (requeued q' t w) rc w' /\
    (byte_count_ok n = true -> servable (file_patterns pkt) 3 w ->
     (exists c, mctx (ctr w) = Some c) -> (forall k, o_write (os w) k = WAll) -> rc = ERR_NONE)) as Hbad.
  { intros Hn. destruct (file_record_error_eq pkt MODBUS_EXCEPTION_ILLEGAL_DATA_VALUE ERR_INVALID_PARAM w)
      as [e E]; [done..|lia|done|].
    eexists _, _, (freading_buf_queue (ctr w)), (tick w). split; [exact E|]. split; [done|].
    replace (requeued (freading_buf_queue (ctr w)) (tick w) w) with w by by destruct w as [[]].
    split; [|by rewrite Hn]. apply FileRefused. left. fold n. by rewrite Hn. }
  destruct ((n <? 7) || (0xF5 <? n)) eqn:E1.
  { apply Hbad. unfold byte_count_ok. by rewrite E1. }
  destruct (Z.eqb_spec (n mod 7) 0) as [E2|E2]; cbn [negb].
  2: { apply Hbad. unfold byte_count_ok. rewrite E1. cbn [negb andb]. by apply Z.eqb_neq. }
  clear Hbad. assert (byte_count_ok n = true) as Hn
    by (unfold byte_count_ok; rewrite E1; cbn [negb andb]; by apply Z.eqb_eq).
  destruct (patterns_loop_eq (Z.to_nat (n / 7)) PATTERN_FUEL pkt (Z.to_nat n) 0 [b0; b1; 0] w)
    as (res & q' & t & E & Hq' & Hres & Hcomp); try done.
  { lia. } { Z.div_mod_to_equations; lia. } { unfold PATTERN_FUEL. Z.div_mod_to_equations; lia. }
  { simpl; lia. }
  rewrite Z2Nat.id in E by lia. change (Z.of_nat 0) with 0 in E.
  erewrite bind_eq by exact E. fold (file_patterns pkt) in *.
  destruct res as [r|code].
  2: { destruct (file_record_error_eq pkt code ERR_INVALID_PARAM (requeued q' t w)) as [e Ee];
         [done..|lia|destruct Hres as [Hr|Hr]; rewrite Hr; done|].
       eexists _, _, q', t. split; [exact Ee|]. split; [done|]. split.
       - apply FileRefused. fold n. rewrite Hn. destruct Hres as [Hr|Hr]; rewrite Hr; auto.
       - intros _ Hsv. destruct (Hcomp Hsv) as [r Hr]. discriminate. }
  destruct Hres as (chunks & Hch & -> & Hle).
  assert (Z.of_nat (length (concat chunks)) <= 251) as Hlc by (rewrite length_app in Hle; simpl in Hle; lia).
  erewrite bind_eq.
  2: { apply wr_eq. unfold resp. cbn [fst]. rewrite length_app. simpl length. lia. }
  replace (<[Z.to_nat 2 := u8 (snd (resp ([b0; b1; 0] ++ concat chunks)) - 1 - 1 - 1)]>
      (fst (resp ([b0; b1; 0] ++ concat chunks)))) with (fst (resp (file_reply pkt chunks))).
  2: { unfold resp, file_reply. cbn [fst snd]. rewrite length_app. simpl length.
       change (Z.to_nat 2) with 2%nat. cbn [app insert list_insert].
       rewrite u8_id by (unfold is_u8; lia). do 3 f_equal. lia. }
  replace (snd (resp ([b0; b1; 0] ++ concat chunks))) with (snd (resp (file_reply pkt chunks))) by done.
  assert (length (file_reply pkt chunks) = 3 + length (concat chunks))%nat as Lr by done.
  destruct (send_locked_eq (file_reply pkt chunks) (requeued q' t w)) as (rc & e & Es); [done|done|lia|].
  erewrite bind_eq by exact Es. destruct (Z.ltb_spec rc 0) as [Hrc|Hrc].
  - assert (mctx (ctr w) = None \/ o_write (os w) t <> WAll) as Hw
      by (eapply (send_locked_rc (file_reply pkt chunks) (requeued q' t w)); [done|done|lia|exact Es|done]).
    destruct (file_record_error_eq pkt MODBUS_EXCEPTION_SLAVE_OR_SERVER_FAILURE ERR_API_FAIL
      (sent_by (mctx (ctr w)) (rtu_frame (file_reply pkt chunks)) e (requeued q' t w))) as [e' Ee].
    { by apply free_sent_by. } { by apply free_sent_by. } { by rewrite ctr_sent_by. } { lia. } { done. }
    rewrite ctr_sent_by in Ee. eexists _, _, q', t. split; [exact Ee|]. split; [done|]. split.
    + apply FileUnsent; done || lia.
    + intros _ _ [c Hctx] Hwr. rewrite Hctx, Hwr in Hw. by destruct Hw.
  - eexists _, _, q', t. split; [reflexivity|]. split; [done|]. split; [|done].
    apply FileData; [done|done|lia].
Qed.

(** C17: reading file records, on every request of the right form: the handler
    returns, never touches memory outside its buffers, releases its mutexes
    and keeps at most one buffer per file; it answers with one chunk per
    pattern (of a frame of at most 256 bytes) or with exception 2, 3 or 4;
    3 exactly for a wrong byte count. If every pattern is valid, their answers
    fit, and the allocations and the port work, it answers with the data. *)
Theorem file_record_answered pkt len w :
  free mtx_for_port_conf w -> free mtx_for_state_set w -> free mtx_for_freading_buf_queue w ->
  ctx_ok (mctx (ctr w)) -> Forall is_u8 pkt -> Z.of_nat (length pkt) = 256 ->
  file_queue_ok (freading_buf_queue (ctr w)) ->
  exists rc w' q' t, handler_for_fcode_read_file_record CTR pkt len w = Some (rc, w') /\
    file_queue_ok q' /\ file_answer pkt (mctx (ctr w)) (requeued q' t w) rc w' /\
    held w' = held w /\
    (byte_count_ok (file_byte_count pkt) = true -> servable (file_patterns pkt) 3 w ->
     (exists c, mctx (ctr w) = Some c) -> (forall k, o_write (os w) k = WAll) -> rc = ERR_NONE).
Proof.
  intros Hp Hs Hf Hc Hu Hl Hq.
  destruct (file_record_eq pkt len w Hp Hs Hf Hc Hu Hl Hq) as (rc & w' & q' & t & E & Hq' & Ha & Hn).
  exists rc, w', q', t. do 3 (split; [done|]). split; [|done].
  destruct Ha; cbn [count_if]; rewrite ?held_sent_by; try done;
    unfold upd_state; cbn [held set_ctr]; by rewrite !held_sent_by.
Qed.

(** Records 0 to [n - 1] of file 1, in a packet of the receive buffer's size. *)
Definition file_request (n : Z) : list Z :=
  [17; 0x14; 7; 6; 0; 1; 0; 0; 0; n] ++ replicate 246 0.

Lemma file_request_u8 n : is_u8 n -> Forall is_u8 (file_request n).
Proof.
  intros H. apply Forall_app; split; [|apply Forall_u8_replicate].
  repeat (apply List.Forall_cons; [first [exact H|unfold is_u8; lia]|]). constructor.
Qed.

Lemma file_record_answered_witness :
  exists w' q' t, handler_for_fcode_read_file_record CTR (file_request 2) 12 idle_world = Some (ERR_NONE, w') /\
    file_queue_ok q' /\
    file_answer (file_request 2) (mctx (ctr idle_world)) (requeued q' t idle_world) ERR_NONE w'.
Proof.
  destruct (file_record_answered (file_request 2) 12 idle_world) as (rc & w' & q' & t & E & Hq & Ha & _ & Hn);
    try reflexivity; [by apply file_request_u8|by split; [constructor|apply NoDup_nil_2]|].
  assert (rc = ERR_NONE) as ->.
  { clear E Ha. apply Hn; [reflexivity| |by eexists|done]. split; [done|].
    split; [|vm_compute; congruence]. repeat constructor; vm_compute; congruence. }
  exists w', q', t. split; [exact E|]. split; [exact Hq|exact Ha].
Defined.

(** a request for 128 records of a file is answered as if it had
    succeeded, with no data: the length of the data, 256 bytes, is kept in an
    8-bit field and becomes 0, so the check that the answer fits into a frame
    passes. Requests for 125 to 127 records are refused by that check. *)
Theorem file_record_128_is_empty pkt len w c :
  free mtx_for_port_conf w -> free mtx_for_state_set w -> free mtx_for_freading_buf_queue w ->
  mctx (ctr w) = Some c -> mb_connected c = true -> Forall is_u8 pkt -> Z.of_nat (length pkt) = 256 ->
  file_queue_ok (freading_buf_queue (ctr w)) -> mallocs_succeed w ->
  (forall k, o_write (os w) k = WAll) ->
  file_byte_count pkt = 7 -> nth 3 pkt 0 = FILE_READ_REF_TYPE ->
  be16 (nth 6 pkt 0) (nth 7 pkt 0) <= MAX_RECORD_NUMBER -> be16 (nth 8 pkt 0) (nth 9 pkt 0) = 128 ->
  exists w', handler_for_fcode_read_file_record CTR pkt len w = Some (ERR_NONE, w') /\
    tx w' = tx w ++ [rtu_frame [nth 0 pkt 0; nth 1 pkt 0; 2; 0; FILE_READ_REF_TYPE]].
Proof.
  intros Hp Hs Hf Ec Hc Hu Hl Hq Hm Hw Hb Hr Hn Hrl.
  destruct (file_record_eq pkt len w Hp Hs Hf ltac:(by rewrite Ec) Hu Hl Hq)
    as (rc & w' & q' & t & E & Hq' & Ha & Hok).
  assert (file_patterns pkt = [pattern_at pkt 0]) as Hpat
    by (unfold file_patterns; by rewrite Hb).
  assert (rc = ERR_NONE) as ->.
  { apply Hok; [by rewrite Hb| |by eexists|done]. rewrite Hpat. split; [done|].
    unfold chunks_size, chunk_size. cbn [foldr pattern_at fi_record_len Nat.add]. rewrite Hrl. split; [|done].
    constructor; [|constructor]. unfold pattern_valid. cbn [pattern_at fi_ref_type fi_record_no fi_record_len Nat.add].
    rewrite Hrl. split; [done|]. split; [done|lia]. }
  exists w'. split; [done|].
  inversion Ha as [chunks e H1 H2 H3 H4 H5|?? H1 H2|??? H1 H2 H3 H4]; [|discriminate..].
  rewrite Hpat in H2. apply Forall2_cons_inv_l in H2 as (chunk & l & Hch & Hnil & ->).
  apply Forall2_nil_inv_l in Hnil as ->. destruct Hch as (_ & _ & _ & start & _ & ->).
  cbn [pattern_at fi_record_len Nat.add]. rewrite Hrl. change (u8 (2 * 128)) with 0.
  rewrite Ec. unfold file_reply, slice. cbn [concat app]. rewrite app_nil_r. done.
Qed.

Lemma file_record_128_is_empty_witness :
  exists w', handler_for_fcode_read_file_record CTR (file_request 128) 12 idle_world = Some (ERR_NONE, w') /\
    tx w' = [rtu_frame [17; 0x14; 2; 0; 6]].
Proof.
  apply (file_record_128_is_empty (file_request 128) 12 idle_world (Ctx 17 true false 9600 78 8 1));
    try reflexivity; try (intros k; reflexivity).
  - by apply file_request_u8.
  - split; [constructor|apply NoDup_nil_2].
  - vm_compute; congruence.
Defined.

(** the content delivered for a record depends on the buffer it is read
    from: byte [k] from record [no] is [2 * no + k] plus one for every 255
    bytes before the START of the buffer, so the same record reads differently
    after another record was read first. (The content of a new buffer starts
    from the byte position modulo 255, but counts modulo 256.) *)
Theorem file_data_depends_on_buffer start no n k :
  0 <= start <= no -> 0 <= k < n -> (no - start) * 2 + n <= 4056 ->
  nth (Z.to_nat k) (slice (buffer_content start) ((no - start) * 2) n) 0 =
  u8 (2 * no + k + 2 * start / 255).
Proof.
  intros Hs Hk Hn. unfold slice. rewrite nth_lookup, lookup_take_lt, lookup_drop by lia.
  rewrite <- nth_lookup.
  replace (Z.to_nat ((no - start) * 2) + Z.to_nat k)%nat with (Z.to_nat ((no - start) * 2 + k)) by lia.
  rewrite nth_buffer_content by lia. unfold u8. change 0xFF with 255.
  replace (start * 2) with (2 * start) by lia.
  assert ((2 * start) mod 255 = 2 * start - 255 * (2 * start / 255)) as -> by (Z.div_mod_to_equations; lia).
  replace (2 * start - 255 * (2 * start / 255) + ((no - start) * 2 + k))
    with (2 * no + k + 2 * start / 255 + (- (2 * start / 255)) * 256) by lia.
  by rewrite Z.mod_add.
Qed.

Lemma file_data_depends_on_buffer_witness :
  nth 0 (slice (buffer_content 200) 0 2) 0 = 145 /\ nth 0 (slice (buffer_content 100) 200 2) 0 = 144.
Proof.
  split.
  - exact (file_data_depends_on_buffer 200 200 2 0 ltac:(lia) ltac:(lia) ltac:(lia)).
  - exact (file_data_depends_on_buffer 100 200 2 0 ltac:(lia) ltac:(lia) ltac:(lia)).
Defined.
