(* ===== verification/SlaveConfig.v ===== *)
(** * SlaveConfig: configuration updates

    [app_mslave_ipc.c] and [app_mslave.c]: the flags that request an update,
    the port configuration, its validation, the loading of the gateway and
    device tables from shared memory, the initialisation of the port, and the
    update the IPC thread performs. *)

From S2P Require Import Prelude Crc16 Machine Libmodbus SlaveState Layout SlaveMapping SlaveHandlers.
From Stdlib Require Import ZArith Lia ZifyBool List Bool.
From stdpp Require Import base list numbers.
Open Scope Z_scope.
Open Scope m_scope.

(** ** The update flags *)

Definition app_mslave_ipc_set_force_gwconf_update (p : ptr) (newstate : bool) : M unit :=
  if is_null p then ret tt else modify_ctr (with_to_force_gwconf_update newstate).
Definition app_mslave_ipc_get_force_gwconf_update (p : ptr) : M bool :=
  if is_null p then ret false else let* c := deref p in ret (to_force_gwconf_update c).
Definition app_mslave_ipc_set_force_dev_update (p : ptr) (newstate : bool) : M unit :=
  if is_null p then ret tt else modify_ctr (with_to_force_dev_update newstate).
Definition app_mslave_ipc_get_force_dev_update (p : ptr) : M bool :=
  if is_null p then ret false else let* c := deref p in ret (to_force_dev_update c).
Definition app_mslave_ipc_set_force_sdata_update (p : ptr) (newstate : bool) : M unit :=
  if is_null p then ret tt else modify_ctr (with_to_force_sdata_update newstate).
Definition app_mslave_ipc_get_force_sdata_update (p : ptr) : M bool :=
  if is_null p then ret false else let* c := deref p in ret (to_force_sdata_update c).

(** The loop of [app_mslave_ipc_wait_for_update] with [n] rounds to go; its
    result is not used by the caller (and missing in the code). *)
Fixpoint wait_loop (n : nat) (p : ptr) : M unit :=
  match n with
  | O => ret tt
  | S n =>
      let* g := app_mslave_ipc_get_force_gwconf_update p in
      let* d := (if g then ret true else app_mslave_ipc_get_force_dev_update p) in
      if negb g && negb d then ret tt else wait_loop n p
  end.

Definition app_mslave_ipc_wait_for_update (p : ptr) : M unit :=
  if is_null p then ret tt else wait_loop 32 p.

(** ** The port configuration *)

Definition MODBUS_PARITY_MODE_NONE : Z := 0.
Definition MODBUS_PARITY_MODE_ODD : Z := 1.
Definition MODBUS_PARITY_MODE_EVEN : Z := 2.
Definition MODBUS_STOP_1_BIT : Z := 0.
Definition MODBUS_STOP_15_BIT : Z := 1.
Definition MODBUS_STOP_2_BIT : Z := 2.
Definition MIN_MBUS_BAUDRATE : Z := 1200.
Definition MAX_MBUS_BAUDRATE : Z := 1000000.
Definition MIN_MBUS_SADDR : Z := 1.
Definition MAX_MBUS_SADDR : Z := 247.

(** The result is the structure and the error code; NULL is [None]. *)
Definition app_mslave_ipc_set_port_conf (pt_port_conf : option port_conf_info)
    (pt_mbus_cfg : option modbusConfig_t) : option port_conf_info * Z :=
  match pt_port_conf, pt_mbus_cfg with
  | Some pc, Some cfg =>
      let slave := u8 (slaveAddrSlave cfg) in
      let baud := baudrateSlave cfg in
      let md := app_mslave_get_reg_mode (registerMode cfg) in
      let set_stop par :=
        if stopSlave cfg =? MODBUS_STOP_1_BIT then (Some (PortConf baud par SBIT_1 slave md), ERR_NONE)
        else if stopSlave cfg =? MODBUS_STOP_15_BIT
        then (Some (PortConf baud par SBIT_1_5 slave md), ERR_NONE)
        else if stopSlave cfg =? MODBUS_STOP_2_BIT
        then (Some (PortConf baud par SBIT_2 slave md), ERR_NONE)
        else (Some (PortConf baud par (pc_stopbit pc) slave md), ERR_API_FAIL) in
      if paritySlave cfg =? MODBUS_PARITY_MODE_NONE then set_stop PARITY_NONE
      else if paritySlave cfg =? MODBUS_PARITY_MODE_ODD then set_stop PARITY_ODD
      else if paritySlave cfg =? MODBUS_PARITY_MODE_EVEN then set_stop PARITY_EVEN
      else (Some (PortConf baud (pc_parity pc) (pc_stopbit pc) slave md), ERR_API_FAIL)
  | _, _ => (pt_port_conf, ERR_INVALID_PARAM)
  end.

Definition is_gateway_conf_valid (gw : gatewayTableData_t) : bool :=
  let cfg := modbusConfig gw in
  if (lastEditTimeS gw =? 0) || (gw_nameId gw =? 0) then false
  else if negb ((paritySlave cfg =? MODBUS_PARITY_MODE_NONE) || (paritySlave cfg =? MODBUS_PARITY_MODE_ODD)
                || (paritySlave cfg =? MODBUS_PARITY_MODE_EVEN)) then false
  else if negb ((stopSlave cfg =? MODBUS_STOP_1_BIT) || (stopSlave cfg =? MODBUS_STOP_15_BIT)
                || (stopSlave cfg =? MODBUS_STOP_2_BIT)) then false
  else if (baudrateSlave cfg <? MIN_MBUS_BAUDRATE) || (MAX_MBUS_BAUDRATE <? baudrateSlave cfg) then false
  else if (slaveAddrSlave cfg <? MIN_MBUS_SADDR) || (MAX_MBUS_SADDR <? slaveAddrSlave cfg) then false
  else if negb (bool_decide (app_mslave_get_reg_mode (registerMode cfg) = REG_MD_EXTENSIBLE))
          && negb (bool_decide (app_mslave_get_reg_mode (registerMode cfg) = REG_MD_EFFICIENT)) then false
  else true.

Definition is_dev_info_valid (dev : deviceTableData_t) : bool := negb (dev_nameId dev =? 0).

(** The local structure is zeroed; its enumerations are then overwritten. *)
Definition is_port_conf_modified (pt_port_conf : option port_conf_info)
    (pt_gwconf : option gatewayTableData_t) : bool :=
  match pt_port_conf, pt_gwconf with
  | Some pc, Some gw =>
      match app_mslave_ipc_set_port_conf (Some (PortConf 0 PARITY_NONE SBIT_1 0 REG_MD_EXTENSIBLE))
              (Some (modbusConfig gw)) with
      | (Some tp, err) =>
          if negb (err =? ERR_NONE) then false
          else if negb (pc_baudrate pc =? pc_baudrate tp) then true
          else if negb (bool_decide (pc_parity pc = pc_parity tp)) then true
          else if negb (bool_decide (pc_stopbit pc = pc_stopbit tp)) then true
          else if negb (pc_slaveID pc =? pc_slaveID tp) then true
          else false
      | (None, _) => false
      end
  | _, _ => false
  end.

(** ** The port *)

Definition app_mslave_init_port (p : ptr) : M Z :=
  if is_null p then ret ERR_INVALID_PARAM
  else
    pthread_mutex_lock p mtx_for_port_conf ;;
    let* c := deref p in
    let pc := port_conf c in
    let* port := modbus_new_rtu (pc_baudrate pc) (parity_code (pc_parity pc)) 8
                   (stop_bit_code (pc_stopbit pc)) in
    match port with
    | None => pthread_mutex_unlock p mtx_for_port_conf ;; ret ERR_API_FAIL
    | Some port =>
        let* port := modbus_set_slave port (pc_slaveID pc) in
        let* port := modbus_connect port in
        match port with
        | None => pthread_mutex_unlock p mtx_for_port_conf ;; ret ERR_API_FAIL
        | Some port =>
            let* _ := app_mslave_set_mctx p (Some port) in
            pthread_mutex_unlock p mtx_for_port_conf ;;
            ret ERR_NONE
        end
    end.

(** The [do { } while(0)] of the update that reopens the port: it closes the
    port, and passes the raw codes of the configuration to [modbus_new_rtu].
    The result tells whether the register mode changed. *)
Definition reinit_port (p : ptr) : M bool :=
  let* c := deref p in
  let cfg := modbusConfig (gwconf c) in
  if negb (is_gateway_conf_valid (gwconf c)) then ret false
  else
    let is_reg_mode_modified :=
      negb (bool_decide (pc_reg_md (port_conf c) = app_mslave_get_reg_mode (registerMode cfg))) in
    if negb (is_port_conf_modified (Some (port_conf c)) (Some (gwconf c))) then ret is_reg_mode_modified
    else
      let* _ := app_mslave_set_mctx p None in
      let* port := modbus_new_rtu (baudrateSlave cfg) (paritySlave cfg) 8 (stopSlave cfg) in
      match port with
      | None => ret is_reg_mode_modified
      | Some port =>
          let* port := modbus_set_slave port (pc_slaveID (port_conf c)) in
          let* port := modbus_connect port in
          match port with
          | None => ret is_reg_mode_modified
          | Some port =>
              let* _ := app_mslave_set_mctx p (Some port) in
              modify_ctr (fun c =>
                match app_mslave_ipc_set_port_conf (Some (port_conf c)) (Some cfg) with
                | (Some pc, _) => with_slave_id (pc_slaveID pc) (with_port_conf pc c)
                | (None, _) => c
                end) ;;
              ret is_reg_mode_modified
          end
      end.

(** ** Loading the tables from shared memory *)

Definition APP_SHM_GATEWAY_TABLE_ITEM_SIZE : Z := 0x800.
Definition APP_SHM_DEV_TABLE_ITEM_SIZE : Z := 0x400.
Definition APP_SHM_DEV_TABLE_ITEM_MAX : Z := 40.
Definition APP_SHM_DEV_TABLE_ADDR_OFFSET : Z := APP_SHM_GATEWAY_TABLE_ITEM_SIZE.
Definition GW_PRO_TABLE_IDX_GW_CONFIG_TABLE : Z := 1.
Definition GW_PRO_TABLE_IDX_MNGED_DEVICE_LIST_TABLE : Z := 2.
Definition GW_PRO_MAX_STRING_LEN_BYTE : Z := 70.
Definition zero_device : deviceTableData_t := DevData 0 (zeros GW_PRO_MAX_STRING_LEN_BYTE) (zeros GW_PRO_MAX_STRING_LEN_BYTE).

Section shared_memory.
(** How the compiler lays the structures out over the bytes of an item: the
    type field and the gateway or device data of an [appShmDataItem_t], and
    the size of that structure. *)
Context (sizeof_appShmDataItem_t : Z) (item_type : list Z -> Z) (item_gateway : list Z -> gatewayTableData_t)
        (item_device : list Z -> deviceTableData_t).

(** The byte order a register mode selects. *)
Definition mode_border (md : Z) (old : mbus_byte_oder) : mbus_byte_oder :=
  if (md =? 0) || (md =? 1) then MBUS_BORDER_ABCD
  else if (md =? 2) || (md =? 3) then MBUS_BORDER_BADC
  else if (md =? 4) || (md =? 5) then MBUS_BORDER_CDAB
  else if (md =? 6) || (md =? 7) then MBUS_BORDER_DCBA
  else old.

Definition with_mbus_border (x : mbus_byte_oder) (c : controller) : controller :=
  Controller (smode c) (slave_id c) (mctx c) (port_conf c) (to_update_mslave_req c) x (mapping_queue c)
    (state_set c) (ch_input_delimiter c) (freading_buf_queue c) (gwconf c) (gwconf_hash c)
    (to_force_gwconf_update c) (dev_array c) (dev_hash c) (to_force_dev_update c) (sdata_hash c)
    (to_force_sdata_update c).

(** [shm] is the shared memory; reading past it is undefined. *)
Definition to_load_gwcfg_from_shmem (p : ptr) (shm : list Z) : M Z :=
  let* buf := memcpy (zeros APP_SHM_GATEWAY_TABLE_ITEM_SIZE) 0 shm 0 APP_SHM_GATEWAY_TABLE_ITEM_SIZE in
  if APP_SHM_GATEWAY_TABLE_ITEM_SIZE <=? sizeof_appShmDataItem_t then ret EMBBADDATA
  else
  match util_tool_cal_elfhash (Some buf) APP_SHM_GATEWAY_TABLE_ITEM_SIZE with
  | None => undefined
  | Some tpu32 =>
      let* c := deref p in
      if tpu32 =? gwconf_hash c then ret ERR_NONE
      else if negb (item_type buf =? GW_PRO_TABLE_IDX_GW_CONFIG_TABLE) then ret EMBXILVAL
      else
        let gw := item_gateway buf in
        if negb (is_gateway_conf_valid gw) then ret EMBXILVAL
        else
          modify_ctr (with_gwconf gw) ;;
          modify_ctr (with_gwconf_hash tpu32) ;;
          modify_ctr (fun c => with_mbus_border
            (mode_border (registerMode (modbusConfig gw)) (mbus_border c)) c) ;;
          ret ERR_NONE
  end.

(** One device item: kept if it is a valid device, zeroed otherwise. *)
Definition load_device (shm : list Z) (i : nat) : M deviceTableData_t :=
  let* buf := memcpy (zeros APP_SHM_DEV_TABLE_ITEM_SIZE) 0 shm
    (APP_SHM_DEV_TABLE_ADDR_OFFSET + Z.of_nat i * APP_SHM_DEV_TABLE_ITEM_SIZE)
    APP_SHM_DEV_TABLE_ITEM_SIZE in
  ret (if negb (item_type buf =? GW_PRO_TABLE_IDX_MNGED_DEVICE_LIST_TABLE) then zero_device
       else if negb (is_dev_info_valid (item_device buf)) then zero_device
       else item_device buf).

(** The loop over the items from [i], [n] to go. *)
Fixpoint load_devices (n i : nat) (shm : list Z) : M unit :=
  match n with
  | O => ret tt
  | S n =>
      let* d := load_device shm i in
      modify_ctr (fun c => with_dev_array
        (<[(i mod Z.to_nat BULLET_GW_SENSOR_NUM_MAX)%nat := d]> (dev_array c)) c) ;;
      load_devices n (S i) shm
  end.

Definition to_load_devlist_from_shmem (p : ptr) (shm : list Z) : M Z :=
  if is_null p then ret ERR_INVALID_PARAM
  else if APP_SHM_DEV_TABLE_ITEM_SIZE <=? sizeof_appShmDataItem_t then ret EMBBADDATA
  else
    match util_tool_cal_elfhash (Some (drop (Z.to_nat APP_SHM_DEV_TABLE_ADDR_OFFSET) shm))
            (APP_SHM_DEV_TABLE_ITEM_SIZE * APP_SHM_DEV_TABLE_ITEM_MAX) with
    | None => undefined
    | Some tpu32 =>
        let* c := deref p in
        if tpu32 =? dev_hash c then ret ERR_NONE
        else
          load_devices (Z.to_nat APP_SHM_DEV_TABLE_ITEM_MAX) 0 shm ;;
          modify_ctr (with_dev_hash tpu32) ;;
          ret ERR_NONE
    end.
End shared_memory.

(** ** The update *)

Section update.
(** The steps of the update that work on the shared memory: loading the
    gateway table, the device list, the hash of the sensor data, and writing
    the sensor data into the registers. *)
Context (load_gwcfg load_devlist : M Z) (check_sdata_hash : M unit) (update_sdata_register : M Z).

(** The part of the update that reopens the port: nothing when the
    configuration is unchanged, an error when the port is busy. *)
Definition update_port (p : ptr) (kp_gwinfo_hash : Z) : M (option bool) :=
  let* c := deref p in
  let* force := app_mslave_ipc_get_force_gwconf_update p in
  if negb (kp_gwinfo_hash =? gwconf_hash c) || force
  then
    let* got := pthread_mutex_trylock p mtx_for_port_conf in
    if negb got
    then
      app_mslave_set_to_update_mslave p true ;;
      app_mslave_ipc_set_force_gwconf_update p true ;;
      ret None
    else
      app_mslave_set_to_update_mslave p false ;;
      app_mslave_ipc_set_force_gwconf_update p false ;;
      let* is_reg_mode_modified := reinit_port p in
      pthread_mutex_unlock p mtx_for_port_conf ;;
      ret (Some is_reg_mode_modified)
  else ret (Some false).

(** The part that creates the mapping again; false when that failed. *)
Definition update_mapping (p : ptr) (kp_dev_hash : Z) (is_reg_mode_modified : bool) : M bool :=
  let* c := deref p in
  let* force := app_mslave_ipc_get_force_dev_update p in
  if negb (kp_dev_hash =? dev_hash c) || is_reg_mode_modified || force
  then
    app_mslave_ipc_set_force_dev_update p false ;;
    let* rc := app_mslave_create_mapping p in
    if negb (rc =? ERR_NONE)
    then app_mslave_ipc_set_force_dev_update p true ;; ret false
    else app_mslave_ipc_set_force_sdata_update p true ;; ret true
  else ret true.

(** The sensor-data flag is set before it is tested, so the registers are
    always written. *)
Definition to_update_mslave_mapping (p : ptr) : M Z :=
  if is_null p then ret ERR_INVALID_PARAM
  else
    let* c := deref p in
    let kp_gwinfo_hash := gwconf_hash c in
    let kp_dev_hash := dev_hash c in
    let kp_sdata_hash := sdata_hash c in
    let* tpret := load_gwcfg in
    if negb (tpret =? ERR_NONE) then ret tpret
    else
      let* tpret := load_devlist in
      if negb (tpret =? ERR_NONE) then ret tpret
      else
        check_sdata_hash ;;
        let* md := update_port p kp_gwinfo_hash in
        match md with
        | None => ret ERR_RES_UNAVAILABLE
        | Some is_reg_mode_modified =>
            let* ok := update_mapping p kp_dev_hash is_reg_mode_modified in
            if negb ok then ret ERR_API_FAIL
            else
              app_mslave_ipc_set_force_sdata_update p true ;;
              let* c := deref p in
              let* force := app_mslave_ipc_get_force_sdata_update p in
              if negb (kp_sdata_hash =? sdata_hash c) || force
              then
                app_mslave_ipc_set_force_sdata_update p false ;;
                let* tpret := update_sdata_register in
                if negb (tpret =? ERR_NONE) then ret ERR_API_FAIL else ret ERR_NONE
              else ret ERR_NONE
        end.
End update.

(** ** What a valid configuration gives *)

(** The structure a valid configuration is translated to. *)
Definition conf_of (cfg : modbusConfig_t) : port_conf_info :=
  PortConf (baudrateSlave cfg)
    (if paritySlave cfg =? 0 then PARITY_NONE else if paritySlave cfg =? 1 then PARITY_ODD else PARITY_EVEN)
    (if stopSlave cfg =? 0 then SBIT_1 else if stopSlave cfg =? 1 then SBIT_1_5 else SBIT_2)
    (slaveAddrSlave cfg) (app_mslave_get_reg_mode (registerMode cfg)).

(** The fields of a valid configuration. *)
Lemma valid_conf gw : is_gateway_conf_valid gw = true ->
  (0 <= paritySlave (modbusConfig gw) <= 2) /\ (0 <= stopSlave (modbusConfig gw) <= 2) /\
  MIN_MBUS_BAUDRATE <= baudrateSlave (modbusConfig gw) <= MAX_MBUS_BAUDRATE /\
  MIN_MBUS_SADDR <= slaveAddrSlave (modbusConfig gw) <= MAX_MBUS_SADDR /\
  app_mslave_get_reg_mode (registerMode (modbusConfig gw)) <> REG_MD_UNKNOWN /\
  lastEditTimeS gw <> 0 /\ gw_nameId gw <> 0.
Proof.
  unfold is_gateway_conf_valid, MODBUS_PARITY_MODE_NONE, MODBUS_PARITY_MODE_ODD,
    MODBUS_PARITY_MODE_EVEN, MODBUS_STOP_1_BIT, MODBUS_STOP_15_BIT, MODBUS_STOP_2_BIT.
  intros H. repeat (case_match; [discriminate|]).
  do 4 (split; [lia|]). split; [|lia].
  intros E. rewrite E in *. done.
Qed.

Lemma set_port_conf_eq pc gw : is_gateway_conf_valid gw = true ->
  app_mslave_ipc_set_port_conf (Some pc) (Some (modbusConfig gw)) =
  (Some (conf_of (modbusConfig gw)), ERR_NONE).
Proof.
  intros Hv. destruct (valid_conf gw Hv) as (Hp & Hs & Hb & Ha & _).
  unfold app_mslave_ipc_set_port_conf, conf_of. unfold MIN_MBUS_SADDR, MAX_MBUS_SADDR in Ha.
  rewrite (u8_id (slaveAddrSlave _)) by (unfold is_u8; lia).
  unfold MODBUS_PARITY_MODE_NONE, MODBUS_PARITY_MODE_ODD, MODBUS_PARITY_MODE_EVEN,
    MODBUS_STOP_1_BIT, MODBUS_STOP_15_BIT, MODBUS_STOP_2_BIT.
  repeat (case_match; try done; try lia).
Qed.

(** The ways two port configurations can differ that reopen the port. *)
Definition same_port (a b : port_conf_info) : Prop :=
  pc_baudrate a = pc_baudrate b /\ pc_parity a = pc_parity b /\ pc_stopbit a = pc_stopbit b /\
  pc_slaveID a = pc_slaveID b.

Lemma port_conf_modified_eq pc gw : is_gateway_conf_valid gw = true ->
  is_port_conf_modified (Some pc) (Some gw) = true <-> ~ same_port pc (conf_of (modbusConfig gw)).
Proof.
  intros Hv. unfold is_port_conf_modified. rewrite set_port_conf_eq by done. cbn [negb Z.eqb ERR_NONE].
  unfold same_port. set (tp := conf_of _).
  destruct (Z.eqb_spec (pc_baudrate pc) (pc_baudrate tp)); cbn [negb]; [|split; [intros _ (? & _); done|done]].
  case_bool_decide; cbn [negb]; [|split; [intros _ (_ & ? & _); done|done]].
  case_bool_decide; cbn [negb]; [|split; [intros _ (_ & _ & ? & _); done|done]].
  destruct (Z.eqb_spec (pc_slaveID pc) (pc_slaveID tp)); cbn [negb]; [|split; [intros _ (_ & _ & _ & ?); done|done]].
  split; [discriminate|]. intros H'. by destruct H'.
Qed.

(** a gateway configuration that passes validation is always translated:
    the port structure takes its baud rate (1200 to 1000000), its address (1
    to 247), its parity, stop bits and register mode, with no error, whatever
    the structure held before, and the port counts as modified exactly when
    baud rate, parity, stop bits or address differ. Stop code 1 means one and
    a half stop bits. *)
Theorem valid_config_translated pc gw :
  is_gateway_conf_valid gw = true ->
  app_mslave_ipc_set_port_conf (Some pc) (Some (modbusConfig gw)) =
    (Some (conf_of (modbusConfig gw)), ERR_NONE) /\
  1 <= pc_slaveID (conf_of (modbusConfig gw)) <= 247 /\
  1200 <= pc_baudrate (conf_of (modbusConfig gw)) <= 1000000 /\
  pc_reg_md (conf_of (modbusConfig gw)) <> REG_MD_UNKNOWN /\
  (is_port_conf_modified (Some pc) (Some gw) = true <-> ~ same_port pc (conf_of (modbusConfig gw))).
Proof.
  intros Hv. destruct (valid_conf gw Hv) as (Hp & Hs & Hb & Ha & Hr & _).
  split; [by apply set_port_conf_eq|]. split; [done|]. split; [done|]. split; [done|].
  by apply port_conf_modified_eq.
Qed.

Definition example_gw : gatewayTableData_t :=
  GwConf 1 7 (ModbusConfig 19200 17 2 1 0) (layout_name 0 0 64 [71; 87; 89]).

Lemma valid_config_translated_witness :
  app_mslave_ipc_set_port_conf (Some (PortConf 9600 PARITY_NONE SBIT_1 17 REG_MD_EXTENSIBLE))
    (Some (modbusConfig example_gw)) =
    (Some (PortConf 19200 PARITY_EVEN SBIT_1_5 17 REG_MD_EXTENSIBLE), ERR_NONE).
Proof.
  exact (proj1 (valid_config_translated (PortConf 9600 PARITY_NONE SBIT_1 17 REG_MD_EXTENSIBLE)
    example_gw eq_refl)).
Defined.

Lemma reinit_port_eq w :
  is_gateway_conf_valid (gwconf (ctr w)) = true ->
  exists e t, reinit_port CTR w = Some
    (negb (bool_decide (pc_reg_md (port_conf (ctr w)) =
             app_mslave_get_reg_mode (registerMode (modbusConfig (gwconf (ctr w)))))),
     if is_port_conf_modified (Some (port_conf (ctr w))) (Some (gwconf (ctr w)))
     then at_tick t (set_errno e (set_ctr (with_mctx None (ctr w)) w)) else w).
Proof.
  intros Hv. destruct (valid_conf _ Hv) as (Hp & _ & Hb & _). unfold reinit_port.
  unfold deref, get_ctr. erewrite bind_eq by done. cbv zeta. rewrite Hv. cbn [negb].
  destruct (is_port_conf_modified _ _); cbn [negb]; [|by exists 0, 0%nat].
  unfold app_mslave_set_mctx. cbn [is_null]. erewrite bind_eq by done.
  unfold modbus_new_rtu. unfold MIN_MBUS_BAUDRATE in Hb.
  rewrite (proj2 (Z.eqb_neq (baudrateSlave _) 0)) by lia.
  unfold malloc_ok, ask. destruct (o_malloc (os w) (tick w)) eqn:Em.
  - exists EINVAL, (S (tick w)). unfold bind. cbn [os tick set_ctr]. rewrite Em. cbn [negb].
    replace ((paritySlave _ =? 78) || (paritySlave _ =? 69) || (paritySlave _ =? 79)) with false by lia.
    done.
  - exists (errno w), (S (tick w)). unfold bind. cbn [os tick set_ctr]. rewrite Em. cbn [negb].
    unfold ret. by destruct w.
Qed.

(** changing the port configuration at run time closes the port for good:
    whenever a valid configuration differs from the current one in baud rate,
    parity, stop bits or address, the update drops the open context and gets
    none in return, because it hands the configuration's parity code (0, 1 or
    2) to [modbus_new_rtu], which only knows the letters N, E and O. The port
    structure keeps its old values. *)
Theorem port_change_drops_the_port w :
  is_gateway_conf_valid (gwconf (ctr w)) = true ->
  ~ same_port (port_conf (ctr w)) (conf_of (modbusConfig (gwconf (ctr w)))) ->
  exists b w', reinit_port CTR w = Some (b, w') /\ mctx (ctr w') = None /\
    port_conf (ctr w') = port_conf (ctr w) /\ held w' = held w.
Proof.
  intros Hv Hd. destruct (reinit_port_eq w Hv) as (e & t & E).
  rewrite (proj2 (port_conf_modified_eq _ _ Hv) Hd) in E. eexists _, _. split; [apply E|]. done.
Qed.

Definition changed_world : world := set_ctr (with_gwconf example_gw (ctr idle_world)) idle_world.

Lemma port_change_drops_the_port_witness :
  exists b w', reinit_port CTR changed_world = Some (b, w') /\ mctx (ctr w') = None /\
    port_conf (ctr w') = port_conf (ctr changed_world) /\ held w' = [].
Proof.
  apply (port_change_drops_the_port changed_world eq_refl). intros (H & _). discriminate H.
Defined.

(** The letters that [app_mslave_init_port] passes are the ones it knows. *)
Lemma init_port_eq w : free mtx_for_port_conf w ->
  pc_baudrate (port_conf (ctr w)) <> 0 -> 0 <= pc_slaveID (port_conf (ctr w)) <= 247 ->
  mallocs_succeed w -> (forall k, o_connect (os w) k = true) ->
  let pc := port_conf (ctr w) in
  let c := Ctx (pc_slaveID pc) true false (pc_baudrate pc) (parity_code (pc_parity pc)) 8
             (stop_bit_code (pc_stopbit pc)) in
  exists t, app_mslave_init_port CTR w = Some (ERR_NONE, at_tick t (set_ctr (with_mctx (Some c) (ctr w)) w)).
Proof.
  intros Hf Hb Ha Hm Hc pc c. exists (S (S (tick w))). unfold app_mslave_init_port. cbn [is_null].
  rewrite lock_eq by done. unfold deref, get_ctr. erewrite bind_eq by done. cbv zeta.
  cbn [ctr set_held]. fold pc.
  erewrite bind_eq.
  2: { unfold modbus_new_rtu. fold pc in Hb. rewrite (proj2 (Z.eqb_neq _ _)) by done.
       unfold malloc_ok, ask, bind. cbn [os tick set_held]. rewrite Hm. cbn [negb].
       replace ((parity_code (pc_parity pc) =? 78) || (parity_code (pc_parity pc) =? 69)
                || (parity_code (pc_parity pc) =? 79)) with true by by destruct (pc_parity pc).
       done. }
  fold pc in Ha. cbv iota beta. erewrite bind_eq.
  2: { unfold modbus_set_slave. replace ((0 <=? pc_slaveID pc) && (pc_slaveID pc <=? 247)) with true by lia.
       done. }
  erewrite bind_eq.
  2: { unfold modbus_connect, ask, bind. cbn [os next_tick set_held]. rewrite Hc. done. }
  cbv iota beta. unfold app_mslave_set_mctx. cbn [is_null]. erewrite bind_eq by done.
  unfold bind, pthread_mutex_unlock, ret. cbn [is_null held set_held set_ctr next_tick].
  rewrite holds_cons, drop_mutex_held by done. by destruct w.
Qed.

(** the port that is opened at start has the configured address, baud
    rate, parity and stop bits: with an address of at most 247, and when the
    system grants memory and the device, the initialisation succeeds, installs
    a connected context with these values and releases the mutex. *)
Theorem init_port_opens_the_port w :
  free mtx_for_port_conf w ->
  pc_baudrate (port_conf (ctr w)) <> 0 -> 0 <= pc_slaveID (port_conf (ctr w)) <= 247 ->
  mallocs_succeed w -> (forall k, o_connect (os w) k = true) ->
  exists c w', app_mslave_init_port CTR w = Some (ERR_NONE, w') /\
    mctx (ctr w') = Some c /\ mb_connected c = true /\
    mb_slave c = pc_slaveID (port_conf (ctr w)) /\ rtu_baud c = pc_baudrate (port_conf (ctr w)) /\
    rtu_parity c = parity_code (pc_parity (port_conf (ctr w))) /\
    rtu_stop_bit c = stop_bit_code (pc_stopbit (port_conf (ctr w))) /\ held w' = held w.
Proof.
  intros Hf Hb Ha Hm Hc. destruct (init_port_eq w Hf Hb Ha Hm Hc) as [t E].
  eexists _, _. split; [apply E|]. done.
Qed.

Lemma init_port_opens_the_port_witness :
  exists c w', app_mslave_init_port CTR idle_world = Some (ERR_NONE, w') /\
    mctx (ctr w') = Some c /\ c = Ctx 17 true false 9600 78 8 1.
Proof.
  destruct (init_port_opens_the_port idle_world eq_refl) as (c & w' & E & Hc & _);
    try (vm_compute; congruence); try (intros k; reflexivity); [by vm_compute|].
  exists c, w'. split; [exact E|]. split; [exact Hc|]. vm_compute in E. injection E as <-.
  vm_compute in Hc. congruence.
Defined.
