(* ===== verification/RegTable.v ===== *)
(** * RegTable: measurements written into the register map

    [app_mslave_ipc.c]: one writer per product copies a measurement of the
    shared memory into the registers of the block its sensor owns, in the
    configured byte order; [to_update_sdata_register] does so for every
    measurement and copies the remapped registers. *)

From S2P Require Import Prelude Crc16 Machine Libmodbus SlaveState Layout SlaveMapping SlaveHandlers.
From S2P Require Import SlaveConfig.
From Stdlib Require Import ZArith Lia ZifyBool List Bool.
From stdpp Require Import base list numbers.
Open Scope Z_scope.
Open Scope m_scope.

(** ** Data *)

(** The fields of [sensorDataTableData_t] the slave reads; the union [value]
    is its bytes. *)
Record sensorDataTableData_t := SensorData {
  sd_nameId : Z; sd_product : Z; sd_dataType : Z; sd_sampleTime : Z; sd_value : list Z
}.

(** [appShmDataItem_t_original] with the sensor data of its union. *)
Record appShmDataItem_t := ShmItem { appShmDataType : Z; sensorDataTableData : sensorDataTableData_t }.

Definition zero_item : appShmDataItem_t := ShmItem 0 (SensorData 0 0 0 0 []).

(** The members of the union: [data_float] as its bit pattern, [data_int8]
    widened to [int16_t] and passed as [uint16_t], [data_uint8]. *)
Definition data_float (v : list Z) : Z :=
  Z.shiftl (be16 (nth 3 v 0) (nth 2 v 0)) 16 + be16 (nth 1 v 0) (nth 0 v 0).
Definition data_int8 (v : list Z) : Z :=
  let b := nth 0 v 0 in u16 (if b <? 128 then b else b - 256).
Definition data_uint8 (v : list Z) : Z := nth 0 v 0.

Definition GW_PRO_TABLE_IDX_SENSOR_DATA_TABLE : Z := 4.
Definition EMBMDATA : Z := EMBXGTAR + 5.
Definition ERR_NO_PERMISSION : Z := MSLAVE_APP_ENOBASE + 5.
Definition SZ_FROTO_ALARM_CODE : Z := 9.

(** Measurement types ([SKFChina_Common_MeasurementType]). *)
Definition BLE_RSSI_CURRENT : Z := 42.
Definition ENVIROMENTAL_TEMPERATURE_CURRENT : Z := 13.
Definition ADVANCED_ALGO_ALARM_CODE : Z := 45.
Definition BOARD_TEMPERATURE_CURRENT : Z := 21.
Definition VOLTAGE_CURRENT : Z := 29.

(** The measurements of a Predict sensor that are floats, with the register
    offset of each: VEL_OV, ENV_OV, ACC_OV, VEL_RSH, VEL_MTR, VEL_FAN,
    VEL_PUMP, ENV_BPFI, ENV_BPFO, ENV_BSF, ENV_FTF, ENV_RSH, ACC_GEAR,
    EST_RPM_START, EST_RPM_END, RMS_MAG_PRE, RMS_VIB_PRE. *)
Definition prs_float_regs : list (Z * Z) :=
  [(50, 0); (55, 2); (61, 4); (51, 6); (52, 8); (53, 10); (54, 12); (56, 14); (57, 16); (58, 18);
   (59, 20); (60, 22); (62, 24); (48, 26); (49, 28); (46, 30); (47, 32)].

(** Its signed bytes (temperature maximum and minimum, RSSI) and its unsigned
    bytes (remaining volume, run code, condition code). *)
Definition prs_int8_regs : list (Z * Z) := [(14, 35); (15, 36); (BLE_RSSI_CURRENT, 42)].
Definition prs_uint8_regs : list (Z * Z) := [(30, 43); (43, 44); (44, 45)].

(** The measurements that also set the vibration sensing time. *)
Definition prs_vib_types : list Z := [50; 51; 52; 53; 54; 55; 56; 57; 58; 59; 60; 61; 62].

Definition DT_ENVIRONMENTAL_TEMPERATURE_CURRENT_OFFSET : Z := 34.
Definition DT_ADVANCED_ALGO_ALARM_CODE_OFFSET : Z := 37.
Definition DT_ADVANCED_ALGO_ALARM_CODE_REGNUM : Z := 5.
Definition DT_LAST_VIB_SENSING_TIME_OFFSET : Z := 46.
Definition DT_LAST_TEMP_SENSING_TIME_OFFSET : Z := 48.
Definition DT_UPDATE_I_OFFSET : Z := 50.
Definition DT_UPDATE_II_OFFSET : Z := 51.
Definition DT_IST_BOARD_TEMPERATURE_CURRENT_OFFSET : Z := 0.
Definition DT_VOLTAGE_CUTTENT_OFFSET : Z := 2.
Definition DT_IST_BLE_RSSI_CURRENT_OFFSET : Z := 4.
Definition DT_IST_ENVIRONMENTAL_TEMPERATURE_CURRENT_OFFSET : Z := 5.
Definition DT_IST_TEMP_SENSING_TIME_OFFSET : Z := 6.
Definition DT_IST_UPDATE_I_OFFSET : Z := 8.
Definition DT_GW_BOARD_TEMPERATURE_CURRENT_OFFSET : Z := 0.
Definition DT_GW_LAST_TEMP_SENSING_TIME_OFFSET : Z := 1.

(** The [case] of a measurement type: its register offset. *)
Fixpoint offset_of (dt : Z) (regs : list (Z * Z)) : option Z :=
  match regs with
  | [] => None
  | (t, o) :: regs => if dt =? t then Some o else offset_of dt regs
  end.

(** ** Writing into a block *)

(** [words] registers from position [pos] of the table, unless they would run
    past its end ("mapping overflow"): true when they were written. *)
Definition put_regs (m : modbus_mapping_t) (pos n : Z) (words : M (list Z))
    : M (bool * modbus_mapping_t) :=
  if nb_registers m <? pos + n then ret (false, m)
  else
    let* ws := words in
    let* t := memcpy (tab_registers m) pos ws 0 n in
    ret (true, with_tab_registers t m).

Definition put_float (m : modbus_mapping_t) (pos : Z) (v : list Z) : M (bool * modbus_mapping_t) :=
  put_regs m pos 2 (to_set_float (data_float v)).
Definition put_uint32 (m : modbus_mapping_t) (pos v : Z) : M (bool * modbus_mapping_t) :=
  put_regs m pos 2 (to_set_uint32 v).
Definition put_uint16 (m : modbus_mapping_t) (pos v : Z) : M (bool * modbus_mapping_t) :=
  put_regs m pos 1 (let* x := to_set_uint16 v in ret [x]).

Section writers.
(** What [access], [open] and [read] say about the file of an alarm code that
    the string in a measurement names: not readable, failed, or its bytes. *)
Inductive alarm_read := AlarmNotReadable | AlarmReadFails | AlarmCode (code : list Z).
Context (alarm_file : list Z -> alarm_read).

(** The loop that copies the alarm code, from byte [tpidx]; two bytes a round. *)
Fixpoint alarm_loop (n : nat) (m : modbus_mapping_t) (pos : Z) (code : list Z) (tpidx : Z)
    : M modbus_mapping_t :=
  match n with
  | O => undefined
  | S n =>
      let* a := rd code (tpidx mod SZ_FROTO_ALARM_CODE) in
      let tpu16 := u16 (Z.shiftl a 8) in
      let tpidx := tpidx + 1 in
      let reg tpidx := pos + ((tpidx - 1) / 2) mod DT_ADVANCED_ALGO_ALARM_CODE_REGNUM in
      if SZ_FROTO_ALARM_CODE <=? tpidx
      then let* r := put_uint16 m (reg tpidx) tpu16 in ret (snd r)
      else
        let* b := rd code (tpidx mod SZ_FROTO_ALARM_CODE) in
        let tpu16 := u16 (tpu16 + b) in
        let tpidx := tpidx + 1 in
        let* r := put_uint16 m (reg tpidx) tpu16 in
        if SZ_FROTO_ALARM_CODE <=? tpidx then ret (snd r)
        else alarm_loop n (snd r) pos code tpidx
  end.

(** Nine bytes, two a round. *)
Definition ALARM_FUEL : nat := 5.

Definition write_alarm (m : modbus_mapping_t) (pos : Z) (v : list Z) : M (Z * modbus_mapping_t) :=
  match alarm_file v with
  | AlarmNotReadable => ret (ERR_NO_PERMISSION, m)
  | AlarmReadFails => ret (ERR_API_FAIL, m)
  | AlarmCode code =>
      if negb (Z.of_nat (length code) =? SZ_FROTO_ALARM_CODE) then ret (ERR_API_FAIL, m)
      else if nb_registers m <? pos + DT_ADVANCED_ALGO_ALARM_CODE_REGNUM then ret (ERR_NONE, m)
      else let* m := alarm_loop ALARM_FUEL m pos code 0 in ret (ERR_NONE, m)
  end.

(** The guards the three writers share: an error, or nothing. *)
Definition writer_guard (m : modbus_mapping_t) (item : appShmDataItem_t) (offset : Z) : option Z :=
  if negb (appShmDataType item =? GW_PRO_TABLE_IDX_SENSOR_DATA_TABLE) then Some ERR_INVALID_PARAM
  else if nb_registers m <=? offset then Some ERR_UNKNOWN
  else if nb_registers m * 2 <=? 0 then Some ERR_INVALID_PARAM
  else None.

(** The first [switch] of the writer for a Predict sensor. *)
Definition write_prs_value (m : modbus_mapping_t) (d : sensorDataTableData_t) (offset : Z)
    : M (Z * modbus_mapping_t) :=
  let v := sd_value d in
  let ok (r : M (bool * modbus_mapping_t)) : M (Z * modbus_mapping_t) :=
    let* r := r in ret (ERR_NONE, snd r) in
  match offset_of (sd_dataType d) prs_float_regs with
  | Some o => ok (put_float m (offset + o) v)
  | None =>
  match offset_of (sd_dataType d) prs_int8_regs with
  | Some o => ok (put_uint16 m (offset + o) (data_int8 v))
  | None =>
  match offset_of (sd_dataType d) prs_uint8_regs with
  | Some o => ok (put_uint16 m (offset + o) (data_uint8 v))
  | None =>
      if sd_dataType d =? ENVIROMENTAL_TEMPERATURE_CURRENT
      then
        let* r := put_uint16 m (offset + DT_ENVIRONMENTAL_TEMPERATURE_CURRENT_OFFSET) (data_int8 v) in
        if negb (fst r) then ret (ERR_NONE, snd r)
        else ok (put_uint32 (snd r) (offset + DT_LAST_TEMP_SENSING_TIME_OFFSET) (u32 (sd_sampleTime d)))
      else if sd_dataType d =? ADVANCED_ALGO_ALARM_CODE
      then write_alarm m (offset + DT_ADVANCED_ALGO_ALARM_CODE_OFFSET) v
      else ret (EMBBADDATA, m)
  end end end.

Definition to_write_sensor_data_to_register_table (m : modbus_mapping_t) (item : appShmDataItem_t)
    (offset : Z) : M (Z * modbus_mapping_t) :=
  match writer_guard m item offset with
  | Some err => ret (err, m)
  | None =>
      let d := sensorDataTableData item in
      let* r := write_prs_value m d offset in
      if bool_decide (sd_dataType d ∈ prs_vib_types)
      then
        let* r' := put_uint32 (snd r) (offset + DT_LAST_VIB_SENSING_TIME_OFFSET) (u32 (sd_sampleTime d)) in
        ret (fst r, snd r')
      else ret r
  end.
End writers.

Definition to_write_sensor_bitmap_to_register_table (m : modbus_mapping_t) (val offset : Z)
    : M (Z * modbus_mapping_t) :=
  if (nb_registers m <=? offset) || (nb_registers m * 2 <=? 0) then ret (ERR_INVALID_PARAM, m)
  else
    let* r := put_uint16 m (offset + DT_UPDATE_I_OFFSET) (Z.land val 0xFF) in
    if negb (fst r) then ret (ERR_NONE, snd r)
    else
      let* r := put_uint16 (snd r) (offset + DT_UPDATE_II_OFFSET) (Z.land (Z.shiftr val 16) 0xFF) in
      ret (ERR_NONE, snd r).

Definition to_write_ist_data_to_register_table (m : modbus_mapping_t) (item : appShmDataItem_t)
    (offset : Z) : M (Z * modbus_mapping_t) :=
  match writer_guard m item offset with
  | Some err => ret (err, m)
  | None =>
      let d := sensorDataTableData item in
      let v := sd_value d in
      let ok (r : M (bool * modbus_mapping_t)) : M (Z * modbus_mapping_t) :=
        let* r := r in ret (ERR_NONE, snd r) in
      if sd_dataType d =? BOARD_TEMPERATURE_CURRENT
      then ok (put_float m (offset + DT_IST_BOARD_TEMPERATURE_CURRENT_OFFSET) v)
      else if sd_dataType d =? VOLTAGE_CURRENT
      then ok (put_float m (offset + DT_VOLTAGE_CUTTENT_OFFSET) v)
      else if sd_dataType d =? BLE_RSSI_CURRENT
      then ok (put_uint16 m (offset + DT_IST_BLE_RSSI_CURRENT_OFFSET) (data_int8 v))
      else if sd_dataType d =? ENVIROMENTAL_TEMPERATURE_CURRENT
      then
        let* r := put_uint16 m (offset + DT_IST_ENVIRONMENTAL_TEMPERATURE_CURRENT_OFFSET) (data_int8 v) in
        if negb (fst r) then ret (ERR_NONE, snd r)
        else ok (put_uint32 (snd r) (offset + DT_IST_TEMP_SENSING_TIME_OFFSET) (u32 (sd_sampleTime d)))
      else ret (EMBBADDATA, m)
  end.

Definition to_write_ist_bitmap_to_register_table (m : modbus_mapping_t) (val offset : Z)
    : M (Z * modbus_mapping_t) :=
  if nb_registers m <=? offset then ret (ERR_UNKNOWN, m)
  else if nb_registers m * 2 <=? 0 then ret (ERR_INVALID_PARAM, m)
  else
    let* r := put_uint16 m (offset + DT_IST_UPDATE_I_OFFSET) (Z.land val 0xFF) in
    ret (ERR_NONE, snd r).

Definition to_write_gw_data_to_register_table (m : modbus_mapping_t) (item : appShmDataItem_t)
    (offset : Z) : M (Z * modbus_mapping_t) :=
  if negb (appShmDataType item =? GW_PRO_TABLE_IDX_SENSOR_DATA_TABLE) then ret (ERR_INVALID_PARAM, m)
  else if nb_registers m <=? offset then ret (ERR_UNKNOWN, m)
  else if nb_registers m - offset <? MODBUS_REG_SENSOR_LENGTH then ret (EMBMDATA, m)
  else if nb_registers m * 2 <=? 0 then ret (ERR_INVALID_PARAM, m)
  else
    let d := sensorDataTableData item in
    if sd_dataType d =? BOARD_TEMPERATURE_CURRENT
    then
      let* r := put_uint16 m (offset + DT_GW_BOARD_TEMPERATURE_CURRENT_OFFSET) (data_int8 (sd_value d)) in
      if negb (fst r) then ret (ERR_NONE, snd r)
      else
        let* r := put_uint32 (snd r) (offset + DT_GW_LAST_TEMP_SENSING_TIME_OFFSET)
                    (u32 (sd_sampleTime d)) in
        ret (ERR_NONE, snd r)
    else ret (EMBBADDATA, m).

(** ** Loading a measurement *)

Definition APP_SHM_SENSORDATA_TABLE_ITEM_MAX : nat := 40.
Definition APP_SHM_SENSORDATA_TABLE_PIECE_MAX : nat := 28.
Definition APP_SHM_SENSORDATA_TABLE_PIECE_SIZE : Z := 0x400.
Definition APP_SHM_SENSORDATA_TABLE_ITEM_SIZE : Z := 28 * APP_SHM_SENSORDATA_TABLE_PIECE_SIZE.
Definition APP_SHM_SENSORDATA_TABLE_ADDR_OFFSET : Z :=
  APP_SHM_DEV_TABLE_ADDR_OFFSET + APP_SHM_DEV_TABLE_ITEM_SIZE * APP_SHM_DEV_TABLE_ITEM_MAX.
Definition APP_SHM_TOTAL_SIZE : Z :=
  APP_SHM_SENSORDATA_TABLE_ADDR_OFFSET + APP_SHM_SENSORDATA_TABLE_ITEM_SIZE * 40 + 0x800.
Definition SZ_IPC_BUF : Z := 0x1000.

(** The little-endian [uint64_t] at the head of [l]. *)
Definition le64 (l : list Z) : Z :=
  fold_right (fun b acc => Z.lor b (Z.shiftl acc 8)) 0 (take 8 l).

Section sensor_data.
(** How the compiler lays the structures out: the sizes of
    [appShmDataItem_t], [appShmDataItem_t_original] and
    [sensorDataTableData_t], and the latter read from its bytes; and the alarm
    files. *)
Context (sizeof_appShmDataItem_t sizeof_original sizeof_sensorDataTableData_t : Z)
        (item_sensor_data : list Z -> sensorDataTableData_t) (alarm_file : list Z -> alarm_read).

Definition to_check_sdata_hash_value (p : ptr) (shm : list Z) : M Z :=
  if is_null p then ret ERR_INVALID_PARAM
  else if APP_SHM_SENSORDATA_TABLE_PIECE_SIZE <=? sizeof_appShmDataItem_t then ret EMBBADDATA
  else
    match util_tool_cal_elfhash
            (Some (drop (Z.to_nat (APP_SHM_SENSORDATA_TABLE_ADDR_OFFSET mod APP_SHM_TOTAL_SIZE)) shm))
            (APP_SHM_SENSORDATA_TABLE_ITEM_SIZE * 40) with
    | None => undefined
    | Some tpu32 =>
        let* c := deref p in
        (if negb (tpu32 =? sdata_hash c) then modify_ctr (with_sdata_hash tpu32) else ret tt) ;;
        ret ERR_NONE
    end.

(** The result is the item buffer, which was zeroed before; its type is set
    when the measurement names a sensor. *)
Definition to_load_sdata_from_shmem_v2 (p : ptr) (shm : list Z) (didx : Z) : M appShmDataItem_t :=
  if is_null p then ret zero_item
  else if SZ_IPC_BUF <=? sizeof_original then ret zero_item
  else if APP_SHM_SENSORDATA_TABLE_PIECE_SIZE <? sizeof_sensorDataTableData_t then ret zero_item
  else
    let kpidx := u32 (APP_SHM_SENSORDATA_TABLE_ADDR_OFFSET + didx * APP_SHM_SENSORDATA_TABLE_PIECE_SIZE) in
    let* bytes := memcpy (zeros sizeof_sensorDataTableData_t) 0 shm (kpidx mod APP_SHM_TOTAL_SIZE)
                    sizeof_sensorDataTableData_t in
    let d := item_sensor_data bytes in
    ret (ShmItem (if negb (sd_nameId d =? 0) then GW_PRO_TABLE_IDX_SENSOR_DATA_TABLE else 0) d).

(** The value of [bitmapval]: the last piece of the item that holds [idx]. *)
Definition to_load_sdata_bitmap_from_shmem (p : ptr) (shm : list Z) (idx : Z) : M Z :=
  if is_null p then ret 0
  else
    let piece_max := Z.of_nat APP_SHM_SENSORDATA_TABLE_PIECE_MAX in
    let kpidx := (idx / piece_max + 1) * piece_max - 1 in
    let kpidx := u32 (APP_SHM_SENSORDATA_TABLE_ADDR_OFFSET + kpidx * APP_SHM_SENSORDATA_TABLE_PIECE_SIZE) in
    let* bytes := memcpy (zeros 8) 0 shm (kpidx mod APP_SHM_TOTAL_SIZE) 8 in
    ret (le64 bytes).

(** ** Where a sensor's registers are *)

(** The first device with the name id. *)
Fixpoint find_device (n i : nat) (p : ptr) (nameid : Z) : M (option deviceTableData_t) :=
  match n with
  | O => ret None
  | S n =>
      let* d := dev_at p i in
      if nameid =? dev_nameId d then ret (Some d) else find_device n (S i) p nameid
  end.

(** The parsing of the static [to_get_sdata_layout_info]: it takes the low
    digit of the register count from [name] and not from [description]. *)
Definition parse_fields_by_name (d nm : list Z) : sdata_layout :=
  let lay := parse_layout_fields d in
  if negb (lay_is_valid lay) then lay
  else
    Layout true 0 (lay_ch lay) (lay_addr lay)
      (u16 (util_tool_hex_char_to_uint8 (nth SENSOR_NAME_REG_LEN_OFFSET d 0) * 16
            + util_tool_hex_char_to_uint8 (nth (SENSOR_NAME_REG_LEN_OFFSET + 1) nm 0))) STYPE_UNKNOWN.

Definition to_get_sdata_layout_info (p : ptr) (nameid : Z) : M sdata_layout :=
  let* found := find_device SENSORS 0 p nameid in
  match found with
  | None => ret (Layout false 0 0 0 0 STYPE_UNKNOWN)
  | Some dev =>
      let lay := parse_fields_by_name (dev_description dev) (dev_name dev) in
      if negb (lay_is_valid lay) then ret lay
      else
        let ty := drop SENSOR_NAME_TYPE_OFFSET (dev_description dev) in
        if memeq ty MODBUS_PRODUCT_TYPE_PREDICT_SENSOR SENSOR_NAME_TYPE_LENGTH
        then finish_layout lay 0 STYPE_PREDICT
        else if memeq ty MODBUS_PRODUCT_TYPE_INSIGHT_T_SENSOR SENSOR_NAME_TYPE_LENGTH
        then finish_layout lay 0 STYPE_INSIGHT_T
        else ret (invalid_layout lay)
  end.

(** ** The update of all registers *)

Definition SKFChina_Common_ProductType_BULLET_NODE : Z := 5.
Definition SKFChina_Common_ProductType_BULLET_GATEWAY : Z := 6.
Definition SKFChina_Common_ProductType_INSIGHT_T : Z := 7.

(** The [switch] on the product: the block after the writers ran. *)
Definition write_product (m : modbus_mapping_t) (item : appShmDataItem_t) (bitmapval kp_offset : Z)
    : M modbus_mapping_t :=
  let product := sd_product (sensorDataTableData item) in
  if product =? SKFChina_Common_ProductType_BULLET_NODE
  then
    let* r := to_write_sensor_data_to_register_table alarm_file m item kp_offset in
    let* r := to_write_sensor_bitmap_to_register_table (snd r) bitmapval kp_offset in
    ret (snd r)
  else if product =? SKFChina_Common_ProductType_INSIGHT_T
  then
    let* r := to_write_ist_data_to_register_table m item kp_offset in
    let* r := to_write_ist_bitmap_to_register_table (snd r) bitmapval kp_offset in
    ret (snd r)
  else if product =? SKFChina_Common_ProductType_BULLET_GATEWAY
  then let* r := to_write_gw_data_to_register_table m item kp_offset in ret (snd r)
  else ret m.

(** One measurement, [idx] counted over all items; true when the loop over the
    pieces of the item is left. *)
Definition update_piece (p : ptr) (shm : list Z) (remap_blk : option nat) (idx : Z) : M bool :=
  let* item := to_load_sdata_from_shmem_v2 p shm idx in
  let* bitmapval := to_load_sdata_bitmap_from_shmem p shm idx in
  if negb (appShmDataType item =? GW_PRO_TABLE_IDX_SENSOR_DATA_TABLE) then ret false
  else
    let* lay := to_get_sdata_layout_info p (sd_nameId (sensorDataTableData item)) in
    if negb (lay_is_valid lay) then ret true
    else
      pthread_mutex_lock p mtx_for_mapping_queue ;;
      let* found := app_mslave_locate_mapping p (lay_addr lay) ADDR_GP_HOLDING_REGISTER in
      match found with
      | None => pthread_mutex_unlock p mtx_for_mapping_queue ;; ret true
      | Some i =>
          let* m := mapping_at p i in
          if start_registers m + nb_registers m <? lay_addr lay + lay_regnum lay
          then pthread_mutex_unlock p mtx_for_mapping_queue ;; ret true
          else
            let kp_offset := u16 (lay_addr lay - start_registers m) in
            let* m := write_product m item bitmapval kp_offset in
            modify_ctr (fun c => with_mapping_queue (<[i := m]> (mapping_queue c)) c) ;;
            (match remap_blk with
             | Some _ =>
                 let* info := app_mslave_get_reg_mapping_info in
                 let* _ := to_update_remapping_block remap_blk (Some i) (Some info) in ret tt
             | None => ret tt
             end) ;;
            pthread_mutex_unlock p mtx_for_mapping_queue ;;
            ret false
      end.

(** The loop over the pieces of an item, [n] to go. *)
Fixpoint update_pieces (n : nat) (p : ptr) (shm : list Z) (remap_blk : option nat) (idx : Z) : M unit :=
  match n with
  | O => ret tt
  | S n =>
      let* left := update_piece p shm remap_blk idx in
      if left : bool then ret tt else update_pieces n p shm remap_blk (idx + 1)
  end.

(** The loop over the items, [n] to go. *)
Fixpoint update_items (n : nat) (p : ptr) (shm : list Z) (remap_blk : option nat) (i : Z) : M unit :=
  match n with
  | O => ret tt
  | S n =>
      update_pieces APP_SHM_SENSORDATA_TABLE_PIECE_MAX p shm remap_blk
        (i * Z.of_nat APP_SHM_SENSORDATA_TABLE_PIECE_MAX) ;;
      update_items n p shm remap_blk (i + 1)
  end.

Definition to_update_sdata_register (p : ptr) (shm : list Z) : M Z :=
  let* pt_remap_info := app_mslave_get_reg_mapping_info in
  if sizeof_appShmDataItem_t <? sizeof_original then ret ERR_API_FAIL
  else
    let* pt_remap_blk :=
      (if rm_flg pt_remap_info
       then
         pthread_mutex_lock p mtx_for_mapping_queue ;;
         let* blk := app_mslave_locate_mapping p (nth 0 (rm_des pt_remap_info) 0) ADDR_GP_HOLDING_REGISTER in
         pthread_mutex_unlock p mtx_for_mapping_queue ;;
         ret blk
       else ret None) in
    update_items APP_SHM_SENSORDATA_TABLE_ITEM_MAX p shm pt_remap_blk 0 ;;
    ret ERR_NONE.
End sensor_data.

(** ** What the writers write

    A write is a register offset and the words put there. A writer that passes
    its guards performs the list of writes of the measurement, leaving out
    those that do not fit into the block. *)

Definition words32 (b : mbus_byte_oder) (v : Z) : list Z :=
  order_words b (Z.land (Z.shiftr v 24) 0xFF) (Z.land (Z.shiftr v 16) 0xFF)
    (Z.land (Z.shiftr v 8) 0xFF) (Z.land (Z.shiftr v 0) 0xFF).
Definition word16 (b : mbus_byte_oder) (v : Z) : list Z :=
  let h := Z.land (Z.shiftr v 8) 0xFF in
  let l := Z.land (Z.shiftr v 0) 0xFF in
  match b with MBUS_BORDER_BADC | MBUS_BORDER_DCBA => [be16 l h] | _ => [be16 h l] end.

Definition blit (l : list Z) (pos : Z) (ws : list Z) : list Z :=
  take (Z.to_nat pos) l ++ ws ++ drop (Z.to_nat (pos + Z.of_nat (length ws))) l.

Definition apply_write (off : Z) (m : modbus_mapping_t) (x : Z * list Z) : modbus_mapping_t :=
  if nb_registers m <? off + fst x + Z.of_nat (length (snd x)) then m
  else with_tab_registers (blit (tab_registers m) (off + fst x) (snd x)) m.

Definition apply_writes (off : Z) (m : modbus_mapping_t) (xs : list (Z * list Z)) : modbus_mapping_t :=
  fold_left (apply_write off) xs m.

(** The part of the invariant the writers need: the table has its stated size. *)
Definition regs_sized (m : modbus_mapping_t) : Prop :=
  nb_registers m = Z.of_nat (length (tab_registers m)).

Lemma length_words32 b v : length (words32 b v) = 2%nat.
Proof. by destruct b. Qed.
Lemma length_word16 b v : length (word16 b v) = 1%nat.
Proof. by destruct b. Qed.

Lemma length_blit_eq l pos ws :
  0 <= pos -> pos + Z.of_nat (length ws) <= Z.of_nat (length l) -> length (blit l pos ws) = length l.
Proof. intros. unfold blit. apply length_blit; [done|done|lia]. Qed.

Lemma apply_write_shape off m x : 0 <= off + fst x -> regs_sized m ->
  regs_sized (apply_write off m x) /\ nb_registers (apply_write off m x) = nb_registers m /\
  apply_write off m x = with_tab_registers (tab_registers (apply_write off m x)) m.
Proof.
  intros H0 Hm. unfold apply_write. destruct (Z.ltb_spec (nb_registers m) (off + fst x + Z.of_nat (length (snd x)))).
  - split; [done|]. split; [done|]. by destruct m.
  - split; [|done]. unfold regs_sized in *. cbn [nb_registers tab_registers with_tab_registers].
    rewrite length_blit_eq; lia.
Qed.

(** The writes of a measurement of each product. *)
Section writes.
Context (alarm_file : list Z -> alarm_read) (b : mbus_byte_oder) (d : sensorDataTableData_t).

Definition alarm_words (code : list Z) : list Z :=
  flat_map (fun k => word16 b (u16 (Z.shiftl (nth (2 * k) code 0) 8 + nth (2 * k + 1) code 0)))
    (seq 0 5).

Definition prs_value_writes : Z * list (Z * list Z) :=
  let v := sd_value d in
  match offset_of (sd_dataType d) prs_float_regs with
  | Some o => (ERR_NONE, [(o, words32 b (data_float v))])
  | None =>
  match offset_of (sd_dataType d) prs_int8_regs with
  | Some o => (ERR_NONE, [(o, word16 b (data_int8 v))])
  | None =>
  match offset_of (sd_dataType d) prs_uint8_regs with
  | Some o => (ERR_NONE, [(o, word16 b (data_uint8 v))])
  | None =>
      if sd_dataType d =? ENVIROMENTAL_TEMPERATURE_CURRENT
      then (ERR_NONE, [(34, word16 b (data_int8 v)); (48, words32 b (u32 (sd_sampleTime d)))])
      else if sd_dataType d =? ADVANCED_ALGO_ALARM_CODE
      then match alarm_file v with
           | AlarmNotReadable => (ERR_NO_PERMISSION, [])
           | AlarmReadFails => (ERR_API_FAIL, [])
           | AlarmCode code =>
               if negb (Z.of_nat (length code) =? SZ_FROTO_ALARM_CODE) then (ERR_API_FAIL, [])
               else (ERR_NONE, [(37, alarm_words code)])
           end
      else (EMBBADDATA, [])
  end end end.

Definition prs_writes : Z * list (Z * list Z) :=
  (fst prs_value_writes,
   snd prs_value_writes ++
   (if bool_decide (sd_dataType d ∈ prs_vib_types) then [(46, words32 b (u32 (sd_sampleTime d)))] else [])).

Definition ist_writes : Z * list (Z * list Z) :=
  let v := sd_value d in
  if sd_dataType d =? BOARD_TEMPERATURE_CURRENT then (ERR_NONE, [(0, words32 b (data_float v))])
  else if sd_dataType d =? VOLTAGE_CURRENT then (ERR_NONE, [(2, words32 b (data_float v))])
  else if sd_dataType d =? BLE_RSSI_CURRENT then (ERR_NONE, [(4, word16 b (data_int8 v))])
  else if sd_dataType d =? ENVIROMENTAL_TEMPERATURE_CURRENT
  then (ERR_NONE, [(5, word16 b (data_int8 v)); (6, words32 b (u32 (sd_sampleTime d)))])
  else (EMBBADDATA, []).

Definition gw_writes : Z * list (Z * list Z) :=
  if sd_dataType d =? BOARD_TEMPERATURE_CURRENT
  then (ERR_NONE, [(0, word16 b (data_int8 (sd_value d))); (1, words32 b (u32 (sd_sampleTime d)))])
  else (EMBBADDATA, []).
End writes.

Definition prs_bitmap_writes (b : mbus_byte_oder) (val : Z) : list (Z * list Z) :=
  [(50, word16 b (Z.land val 0xFF)); (51, word16 b (Z.land (Z.shiftr val 16) 0xFF))].
Definition ist_bitmap_writes (b : mbus_byte_oder) (val : Z) : list (Z * list Z) :=
  [(8, word16 b (Z.land val 0xFF))].

(** [put_regs] performs one write. *)
Lemma put_regs_eq m off o n words ws w :
  words w = Some (ws, w) -> n = Z.of_nat (length ws) -> 0 <= off + o -> regs_sized m ->
  put_regs m (off + o) n words w =
  Some (negb (nb_registers m <? off + o + n), apply_write off m (o, ws), w).
Proof.
  intros Hw -> H0 Hm. unfold put_regs, apply_write. cbn [fst snd].
  destruct (Z.ltb_spec (nb_registers m) (off + o + Z.of_nat (length ws))); [done|].
  unfold regs_sized in Hm. erewrite bind_eq by done.
  erewrite bind_eq by (apply memcpy_eq; lia).
  unfold ret, blit, slice. rewrite Nat2Z.id. cbn [negb]. by rewrite drop_0, firstn_all.
Qed.

Lemma put_float_eq m off o v w : 0 <= off + o -> regs_sized m ->
  put_float m (off + o) v w =
  Some (negb (nb_registers m <? off + o + 2),
        apply_write off m (o, words32 (mbus_border (ctr w)) (data_float v)), w).
Proof.
  intros. unfold put_float. apply put_regs_eq; [done|by rewrite length_words32|done|done].
Qed.

Lemma put_uint32_eq m off o v w : 0 <= off + o -> regs_sized m ->
  put_uint32 m (off + o) v w =
  Some (negb (nb_registers m <? off + o + 2), apply_write off m (o, words32 (mbus_border (ctr w)) v), w).
Proof.
  intros. unfold put_uint32. apply put_regs_eq; [done|by rewrite length_words32|done|done].
Qed.

Lemma put_reg16_eq m off o v w : 0 <= off + o -> regs_sized m ->
  put_uint16 m (off + o) v w =
  Some (negb (nb_registers m <? off + o + 1), apply_write off m (o, word16 (mbus_border (ctr w)) v), w).
Proof.
  intros. unfold put_uint16. apply put_regs_eq; [|by rewrite length_word16|done|done].
  unfold to_set_uint16, bind, app_mslave_get_mbus_border, ret, word16. simpl.
  by destruct (mbus_border (ctr w)).
Qed.

Lemma blit_blit l pos ws ws' :
  0 <= pos -> pos + Z.of_nat (length ws) + Z.of_nat (length ws') <= Z.of_nat (length l) ->
  blit (blit l pos ws) (pos + Z.of_nat (length ws)) ws' = blit l pos (ws ++ ws').
Proof.
  intros H0 Hl. unfold blit.
  assert (Ht : length (take (Z.to_nat pos) l) = Z.to_nat pos) by (rewrite length_take; lia).
  assert (E1 : take (Z.to_nat (pos + Z.of_nat (length ws)))
                 (take (Z.to_nat pos) l ++ ws ++ drop (Z.to_nat (pos + Z.of_nat (length ws))) l)
               = take (Z.to_nat pos) l ++ ws).
  { rewrite app_assoc, take_app_length'; [done|]. rewrite length_app, Ht. lia. }
  assert (E2 : drop (Z.to_nat (pos + Z.of_nat (length ws) + Z.of_nat (length ws')))
                 (take (Z.to_nat pos) l ++ ws ++ drop (Z.to_nat (pos + Z.of_nat (length ws))) l)
               = drop (Z.to_nat (pos + Z.of_nat (length (ws ++ ws')))) l).
  { rewrite app_assoc, drop_app_ge by (rewrite length_app, Ht; lia).
    rewrite drop_drop, length_app, Ht, length_app. f_equal. lia. }
  rewrite E1, E2. by rewrite <- !app_assoc.
Qed.

Lemma apply_write_app off m o o' ws ws' :
  0 <= off + o -> o' = o + Z.of_nat (length ws) -> regs_sized m ->
  off + o + Z.of_nat (length (ws ++ ws')) <= nb_registers m ->
  apply_write off (apply_write off m (o, ws)) (o', ws') = apply_write off m (o, ws ++ ws').
Proof.
  intros H0 -> Hm Hl. rewrite length_app in Hl.
  unfold apply_write. cbn [fst snd]. rewrite length_app.
  rewrite (proj2 (Z.ltb_ge (nb_registers m) (off + o + Z.of_nat (length ws)))) by lia.
  cbn [nb_registers with_tab_registers tab_registers].
  rewrite !(proj2 (Z.ltb_ge _ _)) by lia. unfold regs_sized in Hm.
  rewrite Z.add_assoc, blit_blit by lia. done.
Qed.

Lemma u16_add_l x y : u16 (u16 x + y) = u16 (x + y).
Proof. unfold u16. apply Zplus_mod_idemp_l. Qed.

(** A round of the copy of an alarm code: one register. *)
Lemma alarm_loop_eq n m off pos code k w :
  Z.of_nat (length code) = 9 -> (k + n = 5)%nat -> (0 < n)%nat -> 0 <= off + pos -> regs_sized m ->
  off + pos + 5 <= nb_registers m ->
  alarm_loop n m (off + pos) code (2 * Z.of_nat k) w =
  Some (apply_write off m (pos + Z.of_nat k,
          flat_map (fun k => word16 (mbus_border (ctr w))
             (u16 (Z.shiftl (nth (2 * k) code 0) 8 + nth (2 * k + 1) code 0))) (seq k n)), w).
Proof.
  intros Hc. revert m k. induction n as [|n IH]; intros m k Hk Hn Hp Hm Hf; [lia|].
  cbn [alarm_loop]. unfold SZ_FROTO_ALARM_CODE, DT_ADVANCED_ALGO_ALARM_CODE_REGNUM.
  rewrite (Z.mod_small (2 * Z.of_nat k) 9) by lia. erewrite bind_eq by (apply rd_eq; lia).
  replace (Z.to_nat (2 * Z.of_nat k)) with (2 * k)%nat by lia. cbv zeta. cbn [seq flat_map].
  destruct (Z.leb_spec 9 (2 * Z.of_nat k + 1)).
  - assert (n = O /\ k = 4%nat) as [-> ->] by lia.
    change ((2 * Z.of_nat 4 + 1 - 1) / 2 mod 5) with 4. rewrite <- Z.add_assoc.
    erewrite bind_eq by (apply put_reg16_eq; [lia|done]). cbn [snd flat_map seq].
    rewrite (nth_overflow code 0 (n := (2 * 4 + 1)%nat)) by lia. by rewrite Z.add_0_r, app_nil_r.
  - rewrite (Z.mod_small (2 * Z.of_nat k + 1) 9) by lia. erewrite bind_eq by (apply rd_eq; lia).
    replace (Z.to_nat (2 * Z.of_nat k + 1)) with (2 * k + 1)%nat by lia.
    replace ((2 * Z.of_nat k + 1 + 1 - 1) / 2 mod 5) with (Z.of_nat k)
      by (Z.div_mod_to_equations; lia).
    rewrite <- Z.add_assoc. erewrite bind_eq by (apply put_reg16_eq; [lia|done]). cbn [snd].
    rewrite (proj2 (Z.leb_gt 9 _)) by lia.
    replace (2 * Z.of_nat k + 1 + 1) with (2 * Z.of_nat (S k)) by lia.
    destruct (apply_write_shape off m (pos + Z.of_nat k, word16 (mbus_border (ctr w))
      (u16 (u16 (Z.shiftl (nth (2 * k) code 0) 8) + nth (2 * k + 1) code 0)))) as (S1 & S2 & _);
      [cbn [fst]; lia|done|].
    rewrite IH by (done || lia). rewrite u16_add_l. do 2 f_equal.
    apply apply_write_app; [lia|rewrite length_word16; lia|done|].
    rewrite length_app, length_word16.
    assert (E : forall l, length (flat_map (fun k => word16 (mbus_border (ctr w))
              (u16 (Z.shiftl (nth (2 * k) code 0) 8 + nth (2 * k + 1) code 0))) l) = length l).
    { induction l; [done|]. cbn [flat_map length]. rewrite length_app, length_word16. lia. }
    rewrite E, length_seq. lia.
Qed.

Lemma length_alarm_words b code : length (alarm_words b code) = 5%nat.
Proof. by destruct b. Qed.

(** The offsets of the registers are below [n]. *)
Lemma offset_of_range dt regs o n : Forall (fun x => 0 <= snd x < n) regs ->
  offset_of dt regs = Some o -> 0 <= o < n.
Proof.
  induction 1 as [|[t p] regs Hp _ IH]; [done|]. cbn [offset_of].
  destruct (dt =? t); [|done]. intros [= <-]. apply Hp.
Qed.

Lemma writer_guard_none m item off : 0 <= off ->
  appShmDataType item = GW_PRO_TABLE_IDX_SENSOR_DATA_TABLE -> off < nb_registers m ->
  writer_guard m item off = None.
Proof.
  intros H0 Ht Hn. unfold writer_guard. rewrite Ht. change (negb (_ =? _)) with false. cbv iota.
  rewrite (proj2 (Z.leb_gt _ _)) by lia. by rewrite (proj2 (Z.leb_gt _ _)) by lia.
Qed.

(** Two writes of which the second does not fit when the first does not. *)
Lemma two_writes_eq off m o o' ws ws' :
  off + o + Z.of_nat (length ws) <= off + o' + Z.of_nat (length ws') ->
  nb_registers m < off + o + Z.of_nat (length ws) ->
  apply_writes off m [(o, ws); (o', ws')] = apply_write off m (o, ws).
Proof.
  intros H1 H2. unfold apply_writes. cbn [fold_left]. unfold apply_write at 2 3. cbn [fst snd].
  rewrite (proj2 (Z.ltb_lt _ _)) by lia. unfold apply_write. cbn [fst snd].
  by rewrite (proj2 (Z.ltb_lt _ _)) by lia.
Qed.

(** A 16-bit register that is followed by a 32-bit one if it fits. *)
Lemma put_pair_eq {A} m off o o' v v' (k : modbus_mapping_t -> A) w :
  0 <= off + o -> o <= o' -> regs_sized m ->
  (let* r := put_uint16 m (off + o) v in
   if negb (fst r) then ret (k (snd r))
   else let* r := put_uint32 (snd r) (off + o') v' in ret (k (snd r))) w =
  Some (k (apply_writes off m [(o, word16 (mbus_border (ctr w)) v);
                               (o', words32 (mbus_border (ctr w)) v')]), w).
Proof.
  intros H0 Ho Hm. erewrite bind_eq by by apply put_reg16_eq. cbn [fst snd]. rewrite negb_involutive.
  destruct (Z.ltb_spec (nb_registers m) (off + o + 1)).
  - by rewrite two_writes_eq by (rewrite ?length_word16, ?length_words32; lia).
  - destruct (apply_write_shape off m (o, word16 (mbus_border (ctr w)) v)) as (S1 & S2 & _); [done..|].
    erewrite bind_eq by (apply put_uint32_eq; [lia|done]). done.
Qed.

Lemma write_alarm_eq alarm_file m off v w : 0 <= off -> regs_sized m ->
  write_alarm alarm_file m (off + 37) v w =
  match alarm_file v with
  | AlarmNotReadable => Some (ERR_NO_PERMISSION, m, w)
  | AlarmReadFails => Some (ERR_API_FAIL, m, w)
  | AlarmCode code =>
      if negb (Z.of_nat (length code) =? SZ_FROTO_ALARM_CODE) then Some (ERR_API_FAIL, m, w)
      else Some (ERR_NONE, apply_write off m (37, alarm_words (mbus_border (ctr w)) code), w)
  end.
Proof.
  intros H0 Hm. unfold write_alarm. destruct (alarm_file v) as [| |code]; [done..|].
  destruct (Z.eqb_spec (Z.of_nat (length code)) SZ_FROTO_ALARM_CODE) as [Hc|]; [|done]. cbn [negb].
  unfold DT_ADVANCED_ALGO_ALARM_CODE_REGNUM, apply_write. cbn [fst snd]. rewrite length_alarm_words.
  change (Z.of_nat 5) with 5. destruct (Z.ltb_spec (nb_registers m) (off + 37 + 5)) as [|Hf]; [done|].
  pose proof (alarm_loop_eq ALARM_FUEL m off 37 code 0 w Hc eq_refl ltac:(unfold ALARM_FUEL; lia)
    ltac:(lia) Hm Hf) as E.
  change (2 * Z.of_nat 0) with 0 in E. change (37 + Z.of_nat 0) with 37 in E.
  erewrite bind_eq by apply E. unfold ret, apply_write. cbn [fst snd].
  change (flat_map _ (seq 0 ALARM_FUEL)) with (alarm_words (mbus_border (ctr w)) code).
  rewrite length_alarm_words. by rewrite (proj2 (Z.ltb_ge _ _)) by lia.
Qed.

Lemma write_prs_value_eq alarm_file m d off w : 0 <= off -> regs_sized m ->
  write_prs_value alarm_file m d off w =
  Some (fst (prs_value_writes alarm_file (mbus_border (ctr w)) d),
        apply_writes off m (snd (prs_value_writes alarm_file (mbus_border (ctr w)) d)), w).
Proof.
  intros H0 Hm. unfold write_prs_value, prs_value_writes.
  assert (R : forall regs o, Forall (fun x => 0 <= snd x < 52) regs ->
    offset_of (sd_dataType d) regs = Some o -> 0 <= off + o).
  { intros regs o Hr Ho. apply (offset_of_range _ _ _ 52) in Ho; [lia|done]. }
  destruct (offset_of (sd_dataType d) prs_float_regs) as [o|] eqn:E1.
  { erewrite bind_eq by (apply put_float_eq; [apply (R prs_float_regs); [repeat constructor; done|done]|done]). done. }
  destruct (offset_of (sd_dataType d) prs_int8_regs) as [o|] eqn:E2.
  { erewrite bind_eq by (apply put_reg16_eq; [apply (R prs_int8_regs); [repeat constructor; done|done]|done]). done. }
  destruct (offset_of (sd_dataType d) prs_uint8_regs) as [o|] eqn:E3.
  { erewrite bind_eq by (apply put_reg16_eq; [apply (R prs_uint8_regs); [repeat constructor; done|done]|done]). done. }
  destruct (sd_dataType d =? ENVIROMENTAL_TEMPERATURE_CURRENT).
  { apply (put_pair_eq m off 34 48 _ _ (fun m => (ERR_NONE, m))); [lia|done|done]. }
  destruct (sd_dataType d =? ADVANCED_ALGO_ALARM_CODE); [|done].
  change DT_ADVANCED_ALGO_ALARM_CODE_OFFSET with 37. rewrite write_alarm_eq by done.
  destruct (alarm_file (sd_value d)) as [| |code]; [done..|].
  by destruct (Z.of_nat (length code) =? SZ_FROTO_ALARM_CODE).
Qed.

(** Every write starts at a register offset of the block of a sensor and ends
    before register [n] of it. *)
Definition writes_within (n : Z) (xs : list (Z * list Z)) : Prop :=
  Forall (fun x => 0 <= fst x /\ fst x + Z.of_nat (length (snd x)) <= n) xs.

(** [m'] is [m] with other values in the registers from [lo] to [hi]. *)
Definition written (lo hi : Z) (m m' : modbus_mapping_t) : Prop :=
  m' = with_tab_registers (tab_registers m') m /\
  length (tab_registers m') = length (tab_registers m) /\
  forall i : nat, Z.of_nat i < lo \/ hi <= Z.of_nat i -> tab_registers m' !! i = tab_registers m !! i.

Lemma written_refl lo hi m : written lo hi m m.
Proof. split; [by destruct m|done]. Qed.

Lemma written_trans lo hi m1 m2 m3 : written lo hi m1 m2 -> written lo hi m2 m3 -> written lo hi m1 m3.
Proof.
  intros (E1 & L1 & H1) (E2 & L2 & H2). split; [rewrite E2, E1; by destruct m1|]. split; [congruence|].
  intros i Hi. by rewrite H2, H1.
Qed.

Lemma written_sized lo hi m m' : written lo hi m m' -> regs_sized m -> regs_sized m'.
Proof. intros (E & L & _) H. unfold regs_sized in *. rewrite E. cbn. by rewrite L. Qed.

Lemma written_nb lo hi m m' : written lo hi m m' ->
  nb_registers m' = nb_registers m /\ start_registers m' = start_registers m.
Proof. intros (E & _). by rewrite E. Qed.

Lemma lookup_blit_out l pos ws (i : nat) :
  0 <= pos -> pos + Z.of_nat (length ws) <= Z.of_nat (length l) ->
  Z.of_nat i < pos \/ pos + Z.of_nat (length ws) <= Z.of_nat i -> blit l pos ws !! i = l !! i.
Proof.
  intros H0 Hl Hi. unfold blit.
  assert (Ht : length (take (Z.to_nat pos) l) = Z.to_nat pos) by (rewrite length_take; lia).
  destruct Hi as [Hi|Hi].
  - rewrite lookup_app_l by lia. apply lookup_take_lt. lia.
  - rewrite lookup_app_r, lookup_app_r, lookup_drop, Ht by lia. f_equal. lia.
Qed.

Lemma apply_write_written off n m x :
  0 <= off -> 0 <= fst x -> fst x + Z.of_nat (length (snd x)) <= n -> regs_sized m ->
  written off (off + n) m (apply_write off m x).
Proof.
  intros H0 Hx Hn Hm. unfold apply_write.
  destruct (Z.ltb_spec (nb_registers m) (off + fst x + Z.of_nat (length (snd x)))) as [|Hf];
    [apply written_refl|].
  unfold regs_sized in Hm. split; [done|]. cbn [tab_registers with_tab_registers].
  split; [apply length_blit_eq; lia|]. intros i Hi. apply lookup_blit_out; lia.
Qed.

Lemma apply_writes_written off n m xs :
  0 <= off -> writes_within n xs -> regs_sized m ->
  written off (off + n) m (apply_writes off m xs).
Proof.
  intros H0 Hx. revert m. induction Hx as [|x xs [H1 H2] _ IH]; intros m Hm; [apply written_refl|].
  eapply written_trans; [by apply apply_write_written|]. apply IH.
  eapply written_sized, Hm. by apply (apply_write_written off n).
Qed.

Lemma apply_writes_app off m xs ys :
  apply_writes off m (xs ++ ys) = apply_writes off (apply_writes off m xs) ys.
Proof. apply fold_left_app. Qed.

Section within.
Context (alarm_file : list Z -> alarm_read) (b : mbus_byte_oder) (d : sensorDataTableData_t).

Lemma prs_writes_within : writes_within 52 (snd (prs_writes alarm_file b d)).
Proof.
  unfold writes_within, prs_writes. cbn [snd]. apply list.Forall_app. split.
  - unfold prs_value_writes.
    destruct (offset_of (sd_dataType d) prs_float_regs) as [o|] eqn:E1.
    { apply (offset_of_range _ _ _ 34) in E1; [|repeat constructor; done].
      repeat constructor; cbn [fst snd]; rewrite ?length_words32; lia. }
    destruct (offset_of (sd_dataType d) prs_int8_regs) as [o|] eqn:E2.
    { apply (offset_of_range _ _ _ 50) in E2; [|repeat constructor; done].
      repeat constructor; cbn [fst snd]; rewrite ?length_word16; lia. }
    destruct (offset_of (sd_dataType d) prs_uint8_regs) as [o|] eqn:E3.
    { apply (offset_of_range _ _ _ 50) in E3; [|repeat constructor; done].
      repeat constructor; cbn [fst snd]; rewrite ?length_word16; lia. }
    repeat case_match; repeat constructor; cbn [fst snd];
      rewrite ?length_word16, ?length_words32, ?length_alarm_words; lia.
  - case_match; repeat constructor; cbn [fst snd]; rewrite ?length_words32; lia.
Qed.

Lemma ist_writes_within : writes_within 9 (snd (ist_writes b d)).
Proof.
  unfold writes_within, ist_writes. repeat case_match; repeat constructor; cbn [fst snd];
    rewrite ?length_word16, ?length_words32; lia.
Qed.

Lemma gw_writes_within : writes_within 3 (snd (gw_writes b d)).
Proof.
  unfold writes_within, gw_writes. repeat case_match; repeat constructor; cbn [fst snd];
    rewrite ?length_word16, ?length_words32; lia.
Qed.

Lemma prs_bitmap_within v : writes_within 52 (prs_bitmap_writes b v).
Proof. repeat constructor; cbn [fst snd]; rewrite ?length_word16; lia. Qed.

Lemma ist_bitmap_within v : writes_within 9 (ist_bitmap_writes b v).
Proof. repeat constructor; cbn [fst snd]; rewrite ?length_word16; lia. Qed.
End within.

(** ** The writers perform their writes *)

Section writers_eq.
Context (alarm_file : list Z -> alarm_read) (m : modbus_mapping_t) (item : appShmDataItem_t)
        (off : Z) (w : world).
Context (Hoff : 0 <= off) (Hm : regs_sized m) (Hn : off < nb_registers m)
        (Ht : appShmDataType item = GW_PRO_TABLE_IDX_SENSOR_DATA_TABLE).
#[local] Abbreviation b := (mbus_border (ctr w)).
#[local] Abbreviation d := (sensorDataTableData item).

Lemma write_sensor_data_eq :
  to_write_sensor_data_to_register_table alarm_file m item off w =
  Some (fst (prs_writes alarm_file b d), apply_writes off m (snd (prs_writes alarm_file b d)), w).
Proof.
  unfold to_write_sensor_data_to_register_table. rewrite writer_guard_none by done.
  erewrite bind_eq by by apply write_prs_value_eq. unfold prs_writes. cbn [fst snd].
  case_bool_decide as Hv; [|by rewrite app_nil_r]. rewrite apply_writes_app.
  assert (Hm' : regs_sized (apply_writes off m (snd (prs_value_writes alarm_file b d)))).
  { eapply written_sized, Hm. apply (apply_writes_written _ 52); [done| |done].
    by destruct (proj1 (list.Forall_app _ _ _) (prs_writes_within alarm_file b d)). }
  erewrite bind_eq by (apply put_uint32_eq; [unfold DT_LAST_VIB_SENSING_TIME_OFFSET; lia|done]). done.
Qed.

Lemma write_ist_data_eq :
  to_write_ist_data_to_register_table m item off w =
  Some (fst (ist_writes b d), apply_writes off m (snd (ist_writes b d)), w).
Proof.
  unfold to_write_ist_data_to_register_table, ist_writes. rewrite writer_guard_none by done. cbv zeta.
  destruct (sd_dataType d =? BOARD_TEMPERATURE_CURRENT).
  { erewrite bind_eq by (apply put_float_eq; [unfold DT_IST_BOARD_TEMPERATURE_CURRENT_OFFSET; lia|done]). done. }
  destruct (sd_dataType d =? VOLTAGE_CURRENT).
  { erewrite bind_eq by (apply put_float_eq; [unfold DT_VOLTAGE_CUTTENT_OFFSET; lia|done]). done. }
  destruct (sd_dataType d =? BLE_RSSI_CURRENT).
  { erewrite bind_eq by (apply put_reg16_eq; [unfold DT_IST_BLE_RSSI_CURRENT_OFFSET; lia|done]). done. }
  destruct (sd_dataType d =? ENVIROMENTAL_TEMPERATURE_CURRENT); [|done].
  apply (put_pair_eq m off 5 6 _ _ (fun m => (ERR_NONE, m))); [lia|done|done].
Qed.

Lemma write_gw_data_eq :
  to_write_gw_data_to_register_table m item off w =
  if nb_registers m - off <? 0x80 then Some (EMBMDATA, m, w)
  else Some (fst (gw_writes b d), apply_writes off m (snd (gw_writes b d)), w).
Proof.
  unfold to_write_gw_data_to_register_table, gw_writes, MODBUS_REG_SENSOR_LENGTH. rewrite Ht.
  change (negb (_ =? GW_PRO_TABLE_IDX_SENSOR_DATA_TABLE)) with false. cbv iota.
  rewrite (proj2 (Z.leb_gt (nb_registers m) off)) by lia.
  destruct (nb_registers m - off <? 0x80); [done|].
  rewrite (proj2 (Z.leb_gt (nb_registers m * 2) 0)) by lia. cbv zeta.
  destruct (sd_dataType d =? BOARD_TEMPERATURE_CURRENT); [|done].
  apply (put_pair_eq m off 0 1 _ _ (fun m => (ERR_NONE, m))); [lia|done|done].
Qed.
End writers_eq.

Lemma write_sensor_bitmap_eq m val off w : 0 <= off -> regs_sized m -> off < nb_registers m ->
  to_write_sensor_bitmap_to_register_table m val off w =
  Some (ERR_NONE, apply_writes off m (prs_bitmap_writes (mbus_border (ctr w)) val), w).
Proof.
  intros H0 Hm Hn. unfold to_write_sensor_bitmap_to_register_table.
  rewrite (proj2 (Z.leb_gt (nb_registers m) off)), (proj2 (Z.leb_gt (nb_registers m * 2) 0)) by lia.
  cbn [orb]. erewrite bind_eq by (apply put_reg16_eq; [unfold DT_UPDATE_I_OFFSET; lia|done]).
  cbn [fst snd]. rewrite negb_involutive. unfold DT_UPDATE_I_OFFSET, prs_bitmap_writes.
  destruct (Z.ltb_spec (nb_registers m) (off + 50 + 1)).
  - rewrite two_writes_eq by (rewrite ?length_word16; lia). done.
  - destruct (apply_write_shape off m (50, word16 (mbus_border (ctr w)) (Z.land val 0xFF)))
      as (S1 & S2 & _); [cbn [fst]; lia|done|].
    erewrite bind_eq by (apply put_reg16_eq; [unfold DT_UPDATE_II_OFFSET; lia|done]). done.
Qed.

Lemma write_ist_bitmap_eq m val off w : 0 <= off -> regs_sized m -> off < nb_registers m ->
  to_write_ist_bitmap_to_register_table m val off w =
  Some (ERR_NONE, apply_writes off m (ist_bitmap_writes (mbus_border (ctr w)) val), w).
Proof.
  intros H0 Hm Hn. unfold to_write_ist_bitmap_to_register_table.
  rewrite (proj2 (Z.leb_gt (nb_registers m) off)), (proj2 (Z.leb_gt (nb_registers m * 2) 0)) by lia.
  erewrite bind_eq by (apply put_reg16_eq; [unfold DT_IST_UPDATE_I_OFFSET; lia|done]). done.
Qed.

(** ** Reading back what was written *)

(** The writes of a measurement concern different registers. *)
Definition apart (x y : Z * list Z) : Prop :=
  fst x + Z.of_nat (length (snd x)) <= fst y \/ fst y + Z.of_nat (length (snd y)) <= fst x.

Lemma slice_ext l l' i n :
  (forall k : nat, i <= Z.of_nat k < i + n -> l !! k = l' !! k) -> 0 <= i -> 0 <= n ->
  slice l i n = slice l' i n.
Proof.
  intros H Hi Hn. unfold slice. apply list_eq. intros k.
  destruct (decide (k < Z.to_nat n)%nat).
  - rewrite !lookup_take_lt, !lookup_drop by lia. apply H. lia.
  - by rewrite !lookup_take_ge by lia.
Qed.

Lemma slice_blit l pos ws : 0 <= pos -> pos + Z.of_nat (length ws) <= Z.of_nat (length l) ->
  slice (blit l pos ws) pos (Z.of_nat (length ws)) = ws.
Proof.
  intros H0 Hl. unfold slice, blit. rewrite Nat2Z.id.
  rewrite drop_app_length' by (rewrite length_take; lia). by rewrite take_app_length.
Qed.

(** A write changes only its own registers. *)
Lemma apply_write_range off m y : 0 <= off + fst y -> regs_sized m ->
  written (off + fst y) (off + fst y + Z.of_nat (length (snd y))) m (apply_write off m y).
Proof.
  intros H0 Hm. unfold apply_write.
  destruct (Z.ltb_spec (nb_registers m) (off + fst y + Z.of_nat (length (snd y)))) as [|Hf];
    [apply written_refl|].
  unfold regs_sized in Hm. split; [done|]. cbn [tab_registers with_tab_registers].
  split; [apply length_blit_eq; lia|]. intros i Hi. apply lookup_blit_out; lia.
Qed.

Lemma apply_writes_apart off n m x ys :
  0 <= off -> 0 <= fst x -> writes_within n ys -> Forall (apart x) ys -> regs_sized m ->
  slice (tab_registers (apply_writes off m ys)) (off + fst x) (Z.of_nat (length (snd x))) =
  slice (tab_registers m) (off + fst x) (Z.of_nat (length (snd x))).
Proof.
  intros H0 Hx Hw. revert m. induction Hw as [|y ys [Hy1 Hy2] _ IH]; intros m Ha Hm; [done|].
  apply Forall_cons_iff in Ha as [Hxy Ha]. unfold apply_writes. cbn [fold_left].
  pose proof (apply_write_range off m y ltac:(lia) Hm) as Hr.
  etransitivity; [apply IH; [done|eapply written_sized; done]|].
  destruct Hr as (_ & _ & Hr). apply slice_ext; [|lia..]. intros k Hk. apply Hr.
  destruct Hxy; lia.
Qed.

Lemma apply_writes_here off n m xs x :
  0 <= off -> writes_within n xs -> ForallOrdPairs apart xs -> regs_sized m -> In x xs ->
  off + fst x + Z.of_nat (length (snd x)) <= nb_registers m ->
  slice (tab_registers (apply_writes off m xs)) (off + fst x) (Z.of_nat (length (snd x))) = snd x.
Proof.
  intros H0 Hw Hd Hm Hx Hf. revert m Hm Hf.
  induction Hd as [|y ys Hy _ IH]; intros m Hm Hf; [by destruct Hx|].
  apply Forall_cons_iff in Hw as [[Hy1 Hy2] Hw]. unfold apply_writes. cbn [fold_left].
  pose proof (apply_write_written off n m y H0 Hy1 Hy2 Hm) as Hyw.
  pose proof (written_sized _ _ _ _ Hyw Hm) as Hym. destruct (written_nb _ _ _ _ Hyw) as [Hnb _].
  destruct Hx as [->|Hx].
  - etransitivity; [by apply (apply_writes_apart off n)|].
    unfold apply_write. rewrite (proj2 (Z.ltb_ge _ _)) by lia. cbn [tab_registers with_tab_registers].
    unfold regs_sized in Hm. apply slice_blit; lia.
  - apply IH; [done|done|done|lia].
Qed.

(** ** The effect of a measurement on its block *)

(** The writes of a measurement for its product, when [room] registers are
    left in the block. *)
Definition product_writes (alarm_file : list Z -> alarm_read) (b : mbus_byte_oder)
    (d : sensorDataTableData_t) (bitmapval room : Z) : list (Z * list Z) :=
  if sd_product d =? SKFChina_Common_ProductType_BULLET_NODE
  then snd (prs_writes alarm_file b d) ++ prs_bitmap_writes b bitmapval
  else if sd_product d =? SKFChina_Common_ProductType_INSIGHT_T
  then snd (ist_writes b d) ++ ist_bitmap_writes b bitmapval
  else if sd_product d =? SKFChina_Common_ProductType_BULLET_GATEWAY
  then if room <? 0x80 then [] else snd (gw_writes b d)
  else [].

Lemma writes_within_mono n n' xs : n <= n' -> writes_within n xs -> writes_within n' xs.
Proof. intros Hn H. apply (list.Forall_impl _ _ _ H). intros x [? ?]. lia. Qed.

Lemma product_writes_within alarm_file b d v room :
  writes_within 52 (product_writes alarm_file b d v room).
Proof.
  unfold product_writes. case_match; [|case_match; [|case_match; [case_match|]]].
  - apply list.Forall_app. split; [apply prs_writes_within|apply prs_bitmap_within].
  - apply (writes_within_mono 9); [done|].
    apply list.Forall_app. split; [apply ist_writes_within|apply ist_bitmap_within].
  - constructor.
  - apply (writes_within_mono 3); [done|apply gw_writes_within].
  - constructor.
Qed.

Ltac solve_apart :=
  cbn [fst snd app];
  repeat first [apply FOP_nil|apply FOP_cons|apply List.Forall_nil|apply List.Forall_cons];
  unfold apart; cbn [fst snd]; rewrite ?length_words32, ?length_word16, ?length_alarm_words; lia.

Lemma product_writes_apart alarm_file b d v room :
  ForallOrdPairs apart (product_writes alarm_file b d v room).
Proof.
  unfold product_writes, prs_writes, prs_value_writes, ist_writes, gw_writes. cbn [fst snd].
  destruct (sd_product d =? _).
  - destruct (offset_of (sd_dataType d) prs_float_regs) as [o|] eqn:E1.
    { apply (offset_of_range _ _ _ 34) in E1; [|repeat constructor; done].
      case_bool_decide; solve_apart. }
    destruct (offset_of (sd_dataType d) prs_int8_regs) as [o|] eqn:E2.
    { apply (offset_of_range _ _ _ 46) in E2; [|repeat constructor; done].
      case_bool_decide; solve_apart. }
    destruct (offset_of (sd_dataType d) prs_uint8_regs) as [o|] eqn:E3.
    { apply (offset_of_range _ _ _ 46) in E3; [|repeat constructor; done].
      case_bool_decide; solve_apart. }
    clear E1 E2 E3. destruct (sd_dataType d =? _); [case_bool_decide; solve_apart|].
    destruct (sd_dataType d =? _); [|case_bool_decide; solve_apart].
    destruct (alarm_file (sd_value d)) as [| |code]; [case_bool_decide; solve_apart..|].
    destruct (Z.of_nat (length code) =? _); case_bool_decide; solve_apart.
  - destruct (sd_product d =? _).
    { repeat (destruct (sd_dataType d =? _); [solve_apart|]). solve_apart. }
    destruct (sd_product d =? _); [|solve_apart].
    destruct (room <? 0x80); [solve_apart|]. destruct (sd_dataType d =? _); solve_apart.
Qed.

Lemma write_product_eq alarm_file m item v off w :
  0 <= off -> regs_sized m -> off < nb_registers m ->
  appShmDataType item = GW_PRO_TABLE_IDX_SENSOR_DATA_TABLE ->
  write_product alarm_file m item v off w =
  Some (apply_writes off m (product_writes alarm_file (mbus_border (ctr w)) (sensorDataTableData item) v
          (nb_registers m - off)), w).
Proof.
  intros H0 Hm Hn Ht. unfold write_product, product_writes. cbv zeta.
  destruct (sd_product _ =? SKFChina_Common_ProductType_BULLET_NODE).
  { pose proof (apply_writes_written off 52 m _ H0
      (prs_writes_within alarm_file (mbus_border (ctr w)) (sensorDataTableData item)) Hm) as Hw.
    destruct (written_nb _ _ _ _ Hw) as [Hnb _].
    erewrite bind_eq by by apply write_sensor_data_eq. cbn [snd]. rewrite apply_writes_app.
    erewrite bind_eq by (apply write_sensor_bitmap_eq; [done|by eapply written_sized|by rewrite Hnb]).
    done. }
  destruct (sd_product _ =? SKFChina_Common_ProductType_INSIGHT_T).
  { pose proof (apply_writes_written off 9 m _ H0
      (ist_writes_within (mbus_border (ctr w)) (sensorDataTableData item)) Hm) as Hw.
    destruct (written_nb _ _ _ _ Hw) as [Hnb _].
    erewrite bind_eq by by apply write_ist_data_eq. cbn [snd]. rewrite apply_writes_app.
    erewrite bind_eq by (apply write_ist_bitmap_eq; [done|by eapply written_sized|by rewrite Hnb]).
    done. }
  destruct (sd_product _ =? SKFChina_Common_ProductType_BULLET_GATEWAY); [|done].
  unfold bind. rewrite write_gw_data_eq by done. by destruct (nb_registers m - off <? 0x80).
Qed.

(** ** The update as a function of the queue *)

Section update_spec.
Context (sizeof_appShmDataItem_t sizeof_original sizeof_sensorDataTableData_t : Z)
        (item_sensor_data : list Z -> sensorDataTableData_t) (alarm_file : list Z -> alarm_read).
Context (Hsize : 0 <= sizeof_sensorDataTableData_t).

(** The measurement with index [idx] in the shared memory, and the bitmap of
    its item. *)
Definition loaded_item (shm : list Z) (idx : Z) : appShmDataItem_t :=
  if (SZ_IPC_BUF <=? sizeof_original)
     || (APP_SHM_SENSORDATA_TABLE_PIECE_SIZE <? sizeof_sensorDataTableData_t)
  then zero_item
  else
    let d := item_sensor_data (slice shm (APP_SHM_SENSORDATA_TABLE_ADDR_OFFSET
               + idx * APP_SHM_SENSORDATA_TABLE_PIECE_SIZE) sizeof_sensorDataTableData_t) in
    ShmItem (if negb (sd_nameId d =? 0) then GW_PRO_TABLE_IDX_SENSOR_DATA_TABLE else 0) d.

Definition loaded_bitmap (shm : list Z) (idx : Z) : Z :=
  le64 (slice shm (APP_SHM_SENSORDATA_TABLE_ADDR_OFFSET
          + ((idx / 28 + 1) * 28 - 1) * APP_SHM_SENSORDATA_TABLE_PIECE_SIZE) 8).

Lemma load_into_zeros shm i n w : 0 <= i -> 0 <= n -> i + n <= Z.of_nat (length shm) ->
  memcpy (zeros n) 0 shm i n w = Some (slice shm i n, w).
Proof.
  intros Hi Hn Hl. rewrite memcpy_eq; [|lia|lia|lia| |lia].
  - unfold zeros. cbn [Z.to_nat take]. rewrite Z.add_0_l, drop_ge, app_nil_r; [done|].
    rewrite length_replicate. lia.
  - unfold zeros. rewrite length_replicate. lia.
Qed.

Lemma load_sdata_eq shm idx w :
  APP_SHM_TOTAL_SIZE <= Z.of_nat (length shm) -> 0 <= idx < 1120 ->
  to_load_sdata_from_shmem_v2 sizeof_original sizeof_sensorDataTableData_t item_sensor_data
    CTR shm idx w = Some (loaded_item shm idx, w).
Proof.
  intros Hs Hi. unfold to_load_sdata_from_shmem_v2, loaded_item. cbn [is_null].
  destruct (SZ_IPC_BUF <=? sizeof_original); [done|]. cbn [orb].
  destruct (Z.ltb_spec APP_SHM_SENSORDATA_TABLE_PIECE_SIZE sizeof_sensorDataTableData_t) as [|Hp]; [done|].
  change APP_SHM_TOTAL_SIZE with 1191936 in *. change APP_SHM_SENSORDATA_TABLE_ADDR_OFFSET with 43008.
  change APP_SHM_SENSORDATA_TABLE_PIECE_SIZE with 1024 in *. cbv zeta.
  unfold u32. rewrite (Z.mod_small _ 4294967296), Z.mod_small by lia.
  by erewrite bind_eq by (apply load_into_zeros; lia).
Qed.

Lemma load_bitmap_eq shm idx w :
  APP_SHM_TOTAL_SIZE <= Z.of_nat (length shm) -> 0 <= idx < 1120 ->
  to_load_sdata_bitmap_from_shmem CTR shm idx w = Some (loaded_bitmap shm idx, w).
Proof.
  intros Hs Hi. unfold to_load_sdata_bitmap_from_shmem, loaded_bitmap. cbn [is_null].
  change APP_SHM_TOTAL_SIZE with 1191936 in *. change APP_SHM_SENSORDATA_TABLE_ADDR_OFFSET with 43008.
  change APP_SHM_SENSORDATA_TABLE_PIECE_SIZE with 1024.
  change (Z.of_nat APP_SHM_SENSORDATA_TABLE_PIECE_MAX) with 28. cbv zeta.
  assert (0 <= idx / 28 < 40) by (Z.div_mod_to_equations; lia).
  unfold u32. rewrite (Z.mod_small _ 4294967296), Z.mod_small by lia.
  by erewrite bind_eq by (apply load_into_zeros; lia).
Qed.

(** The layout the update uses for the measurements of [nameid]. *)
Definition update_layout_of (info : register_mapping_info) (devs : list deviceTableData_t)
    (nameid : Z) : sdata_layout :=
  match find (fun d => nameid =? dev_nameId d) devs with
  | None => Layout false 0 0 0 0 STYPE_UNKNOWN
  | Some dev =>
      let lay := parse_fields_by_name (dev_description dev) (dev_name dev) in
      let ty := drop SENSOR_NAME_TYPE_OFFSET (dev_description dev) in
      if negb (lay_is_valid lay) then lay
      else if memeq ty MODBUS_PRODUCT_TYPE_PREDICT_SENSOR SENSOR_NAME_TYPE_LENGTH
      then finished info lay 0 STYPE_PREDICT
      else if memeq ty MODBUS_PRODUCT_TYPE_INSIGHT_T_SENSOR SENSOR_NAME_TYPE_LENGTH
      then finished info lay 0 STYPE_INSIGHT_T
      else invalid_layout lay
  end.

Lemma find_device_eq n i nameid w :
  (i + n <= length (dev_array (ctr w)))%nat ->
  find_device n i CTR nameid w =
  Some (find (fun d => nameid =? dev_nameId d) (take n (drop i (dev_array (ctr w)))), w).
Proof.
  revert i. induction n as [|n IH]; intros i Hn; [by rewrite take_0|].
  destruct (lookup_drop_cons (dev_array (ctr w)) i) as (d & Hd & ->); [lia|].
  cbn [find_device take find]. erewrite bind_eq.
  2: { unfold dev_at, bind. cbn [deref get_ctr]. by rewrite Hd. }
  destruct (nameid =? dev_nameId d); [done|]. apply IH. lia.
Qed.

Lemma update_layout_eq nameid w : length (dev_array (ctr w)) = SENSORS ->
  to_get_sdata_layout_info CTR nameid w =
  Some (update_layout_of (remap w) (dev_array (ctr w)) nameid, w).
Proof.
  intros Hd. unfold to_get_sdata_layout_info, update_layout_of.
  erewrite bind_eq by (apply find_device_eq; lia). rewrite drop_0, firstn_all2 by lia.
  destruct (find _ _) as [dev|]; [|done]. cbv zeta.
  destruct (lay_is_valid _); [|done]. cbn [negb].
  destruct (memeq _ _ _); [done|]. by destruct (memeq _ _ _).
Qed.

(** What one measurement does to the queue, and whether the loop over the
    pieces of its item is left. *)
Definition piece_effect (c : controller) (info : register_mapping_info) (remap_blk : option nat)
    (item : appShmDataItem_t) (bitmapval : Z) : bool * list modbus_mapping_t :=
  let q := mapping_queue c in
  if negb (appShmDataType item =? GW_PRO_TABLE_IDX_SENSOR_DATA_TABLE) then (false, q)
  else
    let d := sensorDataTableData item in
    let lay := update_layout_of info (dev_array c) (sd_nameId d) in
    if negb (lay_is_valid lay) then (true, q)
    else
      match locate_from q 0 (lay_addr lay) ADDR_GP_HOLDING_REGISTER with
      | None => (true, q)
      | Some i =>
          match q !! i with
          | None => (true, q)
          | Some m =>
              if start_registers m + nb_registers m <? lay_addr lay + lay_regnum lay then (true, q)
              else
                let off := lay_addr lay - start_registers m in
                let m' := apply_writes off m (product_writes alarm_file (mbus_border c) d bitmapval
                                                (nb_registers m - off)) in
                let q := <[i := m']> q in
                (false, match remap_blk with
                        | Some r => remap_loop (Z.to_nat (rm_mapping_num info)) r i info 0 q
                        | None => q
                        end)
          end
      end.

Definition with_queue (q : list modbus_mapping_t) (w : world) : world :=
  set_ctr (with_mapping_queue q (ctr w)) w.

(** The blocks of the queue have the sizes they state and lie in the 16-bit
    address range. *)
Definition reg_queue_ok (q : list modbus_mapping_t) : Prop :=
  Forall (fun m => regs_sized m /\ fits16 ADDR_GP_HOLDING_REGISTER m) q.

Lemma located_block q addr i m : reg_queue_ok q ->
  locate_from q 0 addr ADDR_GP_HOLDING_REGISTER = Some i -> q !! i = Some m ->
  regs_sized m /\ 0 <= start_registers m /\ start_registers m + nb_registers m <= 0xFFFF /\
  start_registers m <= addr < start_registers m + nb_registers m.
Proof.
  intros Hq El Hm. destruct (list.Forall_lookup_1 _ _ _ _ Hq Hm) as [Hms Hmf].
  assert (Hc : covers ADDR_GP_HOLDING_REGISTER m addr).
  { apply matches_covers; [auto|done|].
    pose proof (locate_from_spec q 0 addr ADDR_GP_HOLDING_REGISTER) as Hl.
    rewrite El in Hl. destruct Hl as (j & m' & -> & Hj & Hmm & _).
    cbn [Nat.add] in Hm. assert (m = m') as -> by congruence. done. }
  unfold fits16, covers, group_start, group_size in *. split; [done|lia].
Qed.

Lemma update_piece_eq shm r idx w :
  free mtx_for_mapping_queue w -> length (dev_array (ctr w)) = SENSORS ->
  reg_queue_ok (mapping_queue (ctr w)) ->
  APP_SHM_TOTAL_SIZE <= Z.of_nat (length shm) -> 0 <= idx < 1120 ->
  update_piece sizeof_original sizeof_sensorDataTableData_t item_sensor_data alarm_file CTR shm r idx w =
  Some (fst (piece_effect (ctr w) (remap w) r (loaded_item shm idx) (loaded_bitmap shm idx)),
        with_queue (snd (piece_effect (ctr w) (remap w) r (loaded_item shm idx) (loaded_bitmap shm idx))) w).
Proof.
  intros Hf Hd Hq Hs Hi. unfold update_piece, piece_effect.
  erewrite bind_eq by by apply load_sdata_eq. erewrite bind_eq by by apply load_bitmap_eq.
  set (item := loaded_item shm idx). set (v := loaded_bitmap shm idx).
  assert (E : with_queue (mapping_queue (ctr w)) w = w) by (by destruct w as [[]]).
  destruct (Z.eqb_spec (appShmDataType item) GW_PRO_TABLE_IDX_SENSOR_DATA_TABLE) as [Ht|];
    cbn [negb fst snd]; [|by rewrite E].
  erewrite bind_eq by by apply update_layout_eq.
  set (lay := update_layout_of _ _ _). cbv zeta.
  destruct (lay_is_valid lay) eqn:Hv; cbn [negb fst snd]; [|by rewrite E].
  assert (L : pthread_mutex_lock CTR mtx_for_mapping_queue w =
              Some (tt, set_held (mtx_for_mapping_queue :: held w) w)).
  { unfold pthread_mutex_lock. cbn [is_null]. by rewrite Hf. }
  erewrite bind_eq by apply L. erewrite bind_eq by apply locate_mapping_eq.
  change (mapping_queue (ctr (set_held _ w))) with (mapping_queue (ctr w)).
  destruct (locate_from _ _ _ _) as [i|] eqn:El; cbn [fst snd].
  2: { rewrite unlock_ret_eq by done. rewrite E. by destruct w. }
  destruct (locate_from_lt _ _ _ _ El) as [m Hm].
  erewrite bind_eq.
  2: { unfold mapping_at, bind. cbn [deref get_ctr]. cbn [set_held ctr]. by rewrite Hm. }
  rewrite Hm. destruct (Z.ltb_spec (start_registers m + nb_registers m) (lay_addr lay + lay_regnum lay)).
  { rewrite unlock_ret_eq by done. cbn [fst snd]. rewrite E. by destruct w. }
  destruct (located_block _ _ _ _ Hq El Hm) as (Hms & Hms0 & Hmf & Hc).
  rewrite u16_id by (unfold is_u16; lia).
  erewrite bind_eq by (apply write_product_eq; [lia|done|lia|done]).
  erewrite bind_eq by done. cbv beta. cbn [fst snd].
  assert (U : forall c, (pthread_mutex_unlock CTR mtx_for_mapping_queue ;; ret false)
      (set_ctr c (set_held (mtx_for_mapping_queue :: held w) w)) = Some (false, set_ctr c w)).
  { intros c. change (set_ctr c (set_held ?h w)) with (set_held h (set_ctr c w)).
    rewrite unlock_ret_eq by done. by destruct w. }
  destruct r as [r|]; erewrite bind_eq by done; apply U.
Qed.

(** ** The update keeps the shape of the queue *)

(** The same blocks with other register values. *)
Definition reshaped : list modbus_mapping_t -> list modbus_mapping_t -> Prop :=
  Forall2 (fun m m' => m' = with_tab_registers (tab_registers m') m /\
                       length (tab_registers m') = length (tab_registers m)).

Lemma reshaped_refl q : reshaped q q.
Proof. induction q as [|[] q IH]; by constructor. Qed.

Lemma reshaped_trans q1 q2 q3 : reshaped q1 q2 -> reshaped q2 q3 -> reshaped q1 q3.
Proof.
  intros H. revert q3. induction H as [|m1 m2 q1 q2 [E1 L1] _ IH]; intros q3 H3;
    inversion_clear H3 as [|? m3 ? q3' [E2 L2] H3']; constructor.
  - split; [|congruence]. rewrite E2, E1. by destruct m1.
  - by apply IH.
Qed.

Lemma reshaped_insert q i m m' : q !! i = Some m ->
  m' = with_tab_registers (tab_registers m') m -> length (tab_registers m') = length (tab_registers m) ->
  reshaped q (<[i := m']> q).
Proof.
  intros Hi E L. revert i Hi. induction q as [|x q IH]; intros [|i] Hi; [done..| |].
  - injection Hi as ->. by constructor; [|apply reshaped_refl].
  - constructor; [by destruct x|]. by apply IH.
Qed.

Lemma reshaped_queue_ok q q' : reshaped q q' -> reg_queue_ok q -> reg_queue_ok q'.
Proof.
  induction 1 as [|m m' q q' [E L] _ IH]; intros Hq; [constructor|].
  apply Forall_cons_iff in Hq as [[Hm Hf] Hq]. constructor; [|by apply IH].
  rewrite E. unfold regs_sized, fits16 in *. cbn in *. by rewrite L.
Qed.

Lemma remap_step_reshaped des src info i q : reshaped q (remap_step des src info i q).
Proof.
  unfold remap_step. destruct (q !! des) as [m|] eqn:Hd; [|apply reshaped_refl].
  repeat (case_match; try apply reshaped_refl).
  apply (reshaped_insert _ _ _ _ Hd); [done|]. cbn [tab_registers with_tab_registers].
  apply length_insert.
Qed.

Lemma remap_loop_reshaped n des src info i q : reshaped q (remap_loop n des src info i q).
Proof.
  revert i q. induction n as [|n IH]; intros i q; [apply reshaped_refl|].
  eapply reshaped_trans; [apply remap_step_reshaped|apply IH].
Qed.

Lemma piece_effect_reshaped c info r item v : reg_queue_ok (mapping_queue c) ->
  reshaped (mapping_queue c) (snd (piece_effect c info r item v)).
Proof.
  intros Hq. unfold piece_effect. destruct (negb _); [apply reshaped_refl|]. cbv zeta.
  set (lay := update_layout_of _ _ _). destruct (negb _); [apply reshaped_refl|].
  destruct (locate_from _ _ _ _) as [i|] eqn:El; [|apply reshaped_refl].
  destruct (mapping_queue c !! i) as [m|] eqn:Hm; [|apply reshaped_refl].
  destruct (_ <? _); [apply reshaped_refl|]. cbn [snd].
  destruct (located_block _ _ _ _ Hq El Hm) as (Hms & Hms0 & Hmf & Hc).
  destruct (apply_writes_written (lay_addr lay - start_registers m) 52 m
    (product_writes alarm_file (mbus_border c) (sensorDataTableData item) v
       (nb_registers m - (lay_addr lay - start_registers m)))) as (E & L & _);
    [lia|apply product_writes_within|done|].
  eapply reshaped_trans; [apply (reshaped_insert _ _ _ _ Hm E L)|].
  destruct r; [apply remap_loop_reshaped|apply reshaped_refl].
Qed.

(** ** The whole update *)

Section whole.
Context (shm : list Z) (Hs : APP_SHM_TOTAL_SIZE <= Z.of_nat (length shm)).

Definition update_ready (w : world) : Prop :=
  free mtx_for_mapping_queue w /\ length (dev_array (ctr w)) = SENSORS /\
  reg_queue_ok (mapping_queue (ctr w)).

Lemma update_ready_queue w q :
  update_ready w -> reshaped (mapping_queue (ctr w)) q -> update_ready (with_queue q w).
Proof. intros (H1 & H2 & H3) Hq. split; [done|]. split; [done|]. by eapply reshaped_queue_ok. Qed.

Lemma update_pieces_eq n r idx w : update_ready w -> 0 <= idx -> idx + Z.of_nat n <= 1120 ->
  exists q, update_pieces sizeof_original sizeof_sensorDataTableData_t item_sensor_data alarm_file
      n CTR shm r idx w = Some (tt, with_queue q w) /\ reshaped (mapping_queue (ctr w)) q.
Proof.
  revert idx w. induction n as [|n IH]; intros idx w Hw Hi Hn; cbn [update_pieces].
  { exists (mapping_queue (ctr w)). split; [by destruct w as [[]]|apply reshaped_refl]. }
  destruct Hw as (H1 & H2 & H3). erewrite bind_eq by (apply update_piece_eq; done || lia).
  set (e := piece_effect _ _ _ _ _).
  assert (Hr : reshaped (mapping_queue (ctr w)) (snd e)) by by apply piece_effect_reshaped.
  destruct (fst e); [by exists (snd e)|].
  destruct (IH (idx + 1) (with_queue (snd e) w)) as (q & -> & Hq);
    [by apply update_ready_queue|lia|lia|].
  exists q. split; [done|]. by eapply reshaped_trans.
Qed.

Lemma update_items_eq n r i w : update_ready w -> 0 <= i -> i + Z.of_nat n <= 40 ->
  exists q, update_items sizeof_original sizeof_sensorDataTableData_t item_sensor_data alarm_file
      n CTR shm r i w = Some (tt, with_queue q w) /\ reshaped (mapping_queue (ctr w)) q.
Proof.
  revert i w. induction n as [|n IH]; intros i w Hw Hi Hn; cbn [update_items].
  { exists (mapping_queue (ctr w)). split; [by destruct w as [[]]|apply reshaped_refl]. }
  change (Z.of_nat APP_SHM_SENSORDATA_TABLE_PIECE_MAX) with 28.
  destruct (update_pieces_eq APP_SHM_SENSORDATA_TABLE_PIECE_MAX r (i * 28) w) as (q1 & E1 & H1);
    [done|lia|change (Z.of_nat APP_SHM_SENSORDATA_TABLE_PIECE_MAX) with 28; lia|].
  erewrite bind_eq by apply E1.
  destruct (IH (i + 1) (with_queue q1 w)) as (q & -> & Hq); [by apply update_ready_queue|lia|lia|].
  exists q. split; [done|]. by eapply reshaped_trans.
Qed.

Lemma update_sdata_register_eq w : update_ready w ->
  exists q rc, to_update_sdata_register sizeof_appShmDataItem_t sizeof_original
      sizeof_sensorDataTableData_t item_sensor_data alarm_file CTR shm w = Some (rc, with_queue q w) /\
    (rc = ERR_NONE \/ rc = ERR_API_FAIL) /\ reshaped (mapping_queue (ctr w)) q.
Proof.
  intros Hw. unfold to_update_sdata_register. erewrite bind_eq by done.
  destruct (sizeof_appShmDataItem_t <? sizeof_original).
  { exists (mapping_queue (ctr w)), ERR_API_FAIL. split; [by destruct w as [[]]|].
    split; [by right|apply reshaped_refl]. }
  assert (B : exists r, (if rm_flg (remap w)
       then
         pthread_mutex_lock CTR mtx_for_mapping_queue ;;
         let* blk := app_mslave_locate_mapping CTR (nth 0 (rm_des (remap w)) 0) ADDR_GP_HOLDING_REGISTER in
         pthread_mutex_unlock CTR mtx_for_mapping_queue ;;
         ret blk
       else ret None) w = Some (r, w)).
  { destruct (rm_flg (remap w)); [|by exists None]. destruct Hw as [Hf _].
    erewrite bind_eq.
    2: { unfold pthread_mutex_lock. cbn [is_null]. by rewrite Hf. }
    erewrite bind_eq by apply locate_mapping_eq. rewrite unlock_ret_eq by done.
    eexists. by destruct w. }
  destruct B as [r B]. erewrite bind_eq by apply B.
  destruct (update_items_eq APP_SHM_SENSORDATA_TABLE_ITEM_MAX r 0 w) as (q & E & Hq); [done|lia|done|].
  erewrite bind_eq by apply E. exists q, ERR_NONE. split; [done|]. split; [by left|done].
Qed.
End whole.
End update_spec.

(** ** Properties *)

(** C27: a measurement reaches its registers. When the shared memory holds a
    measurement of a device whose layout is valid, and the block at its address
    has room for its registers, one round of [to_update_sdata_register] writes
    the values of [product_writes] (the value as float or byte in the byte
    order in force, the sensing time, the update bitmap) at their offsets,
    every one that fits, and changes no register outside the 52 of the sensor
    and no other block. *)
Theorem measurement_written sizeof_original sizeof_sensorDataTableData_t item_sensor_data alarm_file
    shm idx w i m :
  0 <= sizeof_sensorDataTableData_t -> update_ready w ->
  APP_SHM_TOTAL_SIZE <= Z.of_nat (length shm) -> 0 <= idx < 1120 ->
  let item := loaded_item sizeof_original sizeof_sensorDataTableData_t item_sensor_data shm idx in
  let d := sensorDataTableData item in
  let lay := update_layout_of (remap w) (dev_array (ctr w)) (sd_nameId d) in
  appShmDataType item = GW_PRO_TABLE_IDX_SENSOR_DATA_TABLE -> lay_is_valid lay = true ->
  locate_from (mapping_queue (ctr w)) 0 (lay_addr lay) ADDR_GP_HOLDING_REGISTER = Some i ->
  mapping_queue (ctr w) !! i = Some m ->
  lay_addr lay + lay_regnum lay <= start_registers m + nb_registers m ->
  let off := lay_addr lay - start_registers m in
  exists m', update_piece sizeof_original sizeof_sensorDataTableData_t item_sensor_data alarm_file
      CTR shm None idx w = Some (false, with_queue (<[i := m']> (mapping_queue (ctr w))) w) /\
    written off (off + 52) m m' /\
    forall o ws, In (o, ws) (product_writes alarm_file (mbus_border (ctr w)) d (loaded_bitmap shm idx)
                               (nb_registers m - off)) ->
      off + o + Z.of_nat (length ws) <= nb_registers m ->
      slice (tab_registers m') (off + o) (Z.of_nat (length ws)) = ws.
Proof.
  intros Hsz (Hf & Hd & Hq) Hs Hi item d lay Ht Hv Hl Hm Hfit off.
  destruct (located_block _ _ _ _ Hq Hl Hm) as (Hms & Hms0 & Hmf & Hc).
  eexists. split; [|split].
  - rewrite update_piece_eq by done. unfold piece_effect. fold item. rewrite Ht.
    change (negb (_ =? _)) with false. cbv iota zeta. fold d. fold lay. rewrite Hv. cbn [negb].
    rewrite Hl, Hm, (proj2 (Z.ltb_ge _ _)) by lia. cbn [fst snd]. reflexivity.
  - apply apply_writes_written; [lia|apply product_writes_within|done].
  - intros o ws Ho Hr. apply (apply_writes_here off 52 m _ (o, ws)); [lia|apply product_writes_within|
      apply product_writes_apart|done|done|done].
Qed.

(** A shared memory whose first measurement is [bytes]. *)
Definition shm_of (bytes : list Z) : list Z :=
  zeros APP_SHM_SENSORDATA_TABLE_ADDR_OFFSET ++ bytes ++ zeros APP_SHM_TOTAL_SIZE.

Lemma shm_of_long bytes : APP_SHM_TOTAL_SIZE <= Z.of_nat (length (shm_of bytes)).
Proof.
  unfold shm_of. rewrite !length_app. unfold zeros at 2. rewrite length_replicate.
  unfold APP_SHM_TOTAL_SIZE. lia.
Qed.

Lemma shm_of_item orig size parse bytes : Z.of_nat (length bytes) = size ->
  orig < SZ_IPC_BUF -> size <= APP_SHM_SENSORDATA_TABLE_PIECE_SIZE ->
  loaded_item orig size parse (shm_of bytes) 0 =
  ShmItem (if negb (sd_nameId (parse bytes) =? 0) then GW_PRO_TABLE_IDX_SENSOR_DATA_TABLE else 0)
    (parse bytes).
Proof.
  intros Hb Ho Hsz. unfold loaded_item. rewrite (proj2 (Z.leb_gt _ _)), (proj2 (Z.ltb_ge _ _)) by lia.
  cbn [orb]. assert (E : slice (shm_of bytes) (APP_SHM_SENSORDATA_TABLE_ADDR_OFFSET
      + 0 * APP_SHM_SENSORDATA_TABLE_PIECE_SIZE) size = bytes); [|by rewrite E].
  unfold slice, shm_of. rewrite Z.mul_0_l, Z.add_0_r.
  rewrite drop_app_length' by (unfold zeros; by rewrite length_replicate).
  rewrite take_app_length' by lia. done.
Qed.

(** A layout of the structure for the examples: one byte per field, then the value. *)
Definition example_parse (l : list Z) : sensorDataTableData_t :=
  SensorData (nth 0 l 0) (nth 1 l 0) (nth 2 l 0) (nth 3 l 0) (drop 4 l).
Definition example_alarm (_ : list Z) : alarm_read := AlarmNotReadable.

(** A Predict sensor with name id 3 and 64 registers from 0x80. *)
Definition measured_world : world :=
  set_ctr (with_dev_array (DevData 3 (layout_name 1 128 64 [80; 82; 83]) (layout_name 1 128 64 [80; 82; 83])
                             :: replicate 39 (DevData 0 [] []))
    (with_mapping_queue [regs_block 0 64; regs_block 128 64] (ctr idle_world))) idle_world.

Lemma measured_ready : update_ready measured_world.
Proof.
  split; [done|]. split; [done|].
  repeat constructor; unfold regs_sized, fits16; vm_compute; intuition congruence.
Qed.

(** The RMS velocity 1.0 (0x3F800000) of that sensor, taken at 200. *)
Definition velocity : list Z := [3; 5; 50; 200; 0; 0; 128; 63].

Lemma measurement_written_witness :
  exists m', update_piece 8 8 example_parse example_alarm CTR (shm_of velocity) None 0 measured_world =
      Some (false, with_queue (<[1%nat := m']> (mapping_queue (ctr measured_world))) measured_world) /\
    slice (tab_registers m') 0 2 = words32 (mbus_border (ctr measured_world)) 0x3F800000 /\
    slice (tab_registers m') 46 2 = words32 (mbus_border (ctr measured_world)) 200.
Proof.
  assert (E : loaded_item 8 8 example_parse (shm_of velocity) 0 = ShmItem 4 (example_parse velocity))
    by (by rewrite shm_of_item).
  pose proof (measurement_written 8 8 example_parse example_alarm (shm_of velocity) 0 measured_world
    1 (regs_block 128 64)) as H.
  cbv zeta in H. rewrite E in H.
  destruct H as (m' & H1 & _ & H3);
    [done|apply measured_ready|apply shm_of_long|lia|reflexivity|reflexivity|reflexivity|reflexivity|
     vm_compute; congruence|].
  change (lay_addr (update_layout_of ?a ?b ?c)) with 128 in H3.
  exists m'. split; [exact H1|]. split.
  - refine (H3 0 (words32 (mbus_border (ctr measured_world)) 0x3F800000) _ _);
      [left; reflexivity|vm_compute; congruence].
  - refine (H3 46 (words32 (mbus_border (ctr measured_world)) 200) _ _);
      [right; left; reflexivity|vm_compute; congruence].
Defined.

(** The layout the update uses for a device: that of the block, but for the
    number of registers, whose low digit comes from the name. *)
Lemma update_layout_of_name info devs dev nameid ch addr regnum pad :
  find (fun d => nameid =? dev_nameId d) devs = Some dev ->
  dev_description dev = layout_name ch addr regnum (MODBUS_PRODUCT_TYPE_PREDICT_SENSOR ++ pad) ->
  is_u8 ch -> is_u16 addr -> is_u8 regnum -> rm_flg info = false ->
  update_layout_of info devs nameid =
  Layout true 0 ch addr (u16 (regnum / 16 * 16 + util_tool_hex_char_to_uint8 (nth 14 (dev_name dev) 0)))
    STYPE_PREDICT.
Proof.
  intros Hf Hd Hc Ha Hr Hi. unfold update_layout_of, parse_fields_by_name, finished. rewrite Hf, Hi, Hd.
  rewrite parse_layout_name by done. cbn [lay_is_valid negb lay_ch lay_addr lay_regnum].
  change (SENSOR_NAME_REG_LEN_OFFSET + 1)%nat with 14%nat.
  change (nth SENSOR_NAME_REG_LEN_OFFSET (layout_name ch addr regnum _) 0) with (hex_digit (regnum / 16)).
  destruct (hex_digit_ok (regnum / 16)) as [_ ->]; [unfold is_u8 in Hr; Z.div_mod_to_equations; lia|].
  rewrite (proj2 (Z.leb_le _ _)) by (unfold is_u16 in Ha; lia). rewrite Z.add_0_r.
  by rewrite u16_id.
Qed.

(** [to_get_sdata_layout_info] takes the low digit of the register count
    from the name of the device and not from its description. The block of a
    Predict sensor has the registers its description states; when the 15th
    character of the name is a larger digit, the update takes the block to be
    too small: it drops the measurement and leaves the loop over the pieces, so
    no register of the sensor is ever written. *)
Theorem name_digit_stops_update sizeof_original sizeof_sensorDataTableData_t item_sensor_data alarm_file
    shm r idx w i dev ch addr regnum pad :
  0 <= sizeof_sensorDataTableData_t -> update_ready w ->
  APP_SHM_TOTAL_SIZE <= Z.of_nat (length shm) -> 0 <= idx < 1120 ->
  let item := loaded_item sizeof_original sizeof_sensorDataTableData_t item_sensor_data shm idx in
  appShmDataType item = GW_PRO_TABLE_IDX_SENSOR_DATA_TABLE ->
  find (fun d => sd_nameId (sensorDataTableData item) =? dev_nameId d) (dev_array (ctr w)) = Some dev ->
  dev_description dev = layout_name ch addr regnum (MODBUS_PRODUCT_TYPE_PREDICT_SENSOR ++ pad) ->
  is_u8 ch -> is_u16 addr -> is_u8 regnum -> rm_flg (remap w) = false ->
  locate_from (mapping_queue (ctr w)) 0 addr ADDR_GP_HOLDING_REGISTER = Some i ->
  mapping_queue (ctr w) !! i = Some (regs_block addr regnum) ->
  regnum mod 16 < util_tool_hex_char_to_uint8 (nth 14 (dev_name dev) 0) ->
  update_piece sizeof_original sizeof_sensorDataTableData_t item_sensor_data alarm_file CTR shm r idx w =
    Some (true, w).
Proof.
  intros Hsz (Hf & Hd & Hq) Hs Hi item Ht Hfind Hdesc Hc Ha Hr Hrm Hl Hm Hx.
  rewrite update_piece_eq by done. unfold piece_effect. fold item. rewrite Ht.
  change (negb (_ =? _)) with false. cbv iota zeta.
  rewrite (update_layout_of_name _ _ dev _ ch addr regnum pad) by done.
  cbn [lay_is_valid negb lay_addr lay_regnum]. rewrite Hl, Hm.
  assert (Hh : util_tool_hex_char_to_uint8 (nth 14 (dev_name dev) 0) < 16).
  { unfold util_tool_hex_char_to_uint8. repeat case_match; lia. }
  cbn [start_registers nb_registers regs_block].
  rewrite u16_id by (unfold is_u8, is_u16 in *; Z.div_mod_to_equations; lia).
  rewrite (proj2 (Z.ltb_lt _ _)) by (Z.div_mod_to_equations; lia).
  cbn [fst snd]. by destruct w as [[]].
Qed.

(** The same sensor with the readable name "Main exhaust fan". *)
Definition renamed_world : world :=
  set_ctr (with_dev_array (DevData 3 (layout_name 1 128 64 [80; 82; 83])
      [77; 97; 105; 110; 32; 101; 120; 104; 97; 117; 115; 116; 32; 102; 97; 110]
      :: replicate 39 (DevData 0 [] [])) (ctr measured_world)) measured_world.

Lemma name_digit_stops_update_witness :
  update_piece 8 8 example_parse example_alarm CTR (shm_of velocity) None 0 renamed_world =
  Some (true, renamed_world).
Proof.
  assert (E : loaded_item 8 8 example_parse (shm_of velocity) 0 = ShmItem 4 (example_parse velocity))
    by (by rewrite shm_of_item).
  pose proof (name_digit_stops_update 8 8 example_parse example_alarm (shm_of velocity) None 0
    renamed_world 1 (DevData 3 (layout_name 1 128 64 [80; 82; 83])
      [77; 97; 105; 110; 32; 101; 120; 104; 97; 117; 115; 116; 32; 102; 97; 110]) 1 128 64 []) as H.
  cbv zeta in H. rewrite E in H.
  apply H; [done|apply measured_ready|apply shm_of_long|lia|reflexivity|reflexivity|reflexivity|
    vm_compute; split; congruence|vm_compute; split; congruence|vm_compute; split; congruence|
    reflexivity|reflexivity|reflexivity|vm_compute; congruence].
Defined.
