(* ===== verification/SlaveLoop.v ===== *)
(** * SlaveLoop: the main loop

    [app_mslave_mloop] of [app_mslave.c]: one round receives a frame, counts
    and validates it, and hands it to the handler of its function code. The
    theorems compose the receiver of [Libmodbus], the validation of
    [SlaveMapping] and the handlers of [SlaveHandlers], [SlaveDiag] and
    [SlaveFile]. *)

From S2P Require Import Prelude Crc16 Machine Libmodbus SlaveState Layout SlaveMapping.
From S2P Require Import SlaveHandlers SlaveDiag SlaveFile SlaveConfig.
From Stdlib Require Import ZArith Lia ZifyBool List Bool.
From stdpp Require Import base list numbers.
Open Scope Z_scope.
Open Scope m_scope.

(** ** One round of the loop *)

(** The [switch] on the function code. *)
Definition dispatch (p : ptr) (pkt : list Z) (len : Z) : M unit :=
  let* kp_fcode := app_mslave_pick_fun_code (Some pkt) len in
  let run (m : M Z) : M unit := let* _ := m in ret tt in
  if kp_fcode =? MODBUS_FC_READ_COILS then run (handler_for_fcode_read_coils p pkt len)
  else if kp_fcode =? MODBUS_FC_READ_DISCRETE_INPUTS
  then run (handler_for_fcode_read_discrete_inputs p pkt len)
  else if kp_fcode =? MODBUS_FC_READ_INPUT_REGISTERS
  then run (handler_for_fcode_read_inputs_registers p pkt len)
  else if kp_fcode =? MODBUS_FC_READ_HOLDING_REGISTERS
  then run (handler_for_fcode_read_holding_registers p pkt len)
  else if kp_fcode =? MODBUS_FC_REPORT_SLAVE_ID then run (handler_for_fcode_report_slave_id p pkt len)
  else if kp_fcode =? MODBUS_FC_READ_EXCEPTION_STATUS
  then run (handler_for_fcode_read_exception_status p pkt len)
  else if kp_fcode =? MODBUS_FC_READ_FIFO_QUEUE then run (handler_for_fcode_read_fifo_queue p pkt len)
  else if kp_fcode =? MODBUS_FC_READ_FILE_RECORD then run (handler_for_fcode_read_file_record p pkt len)
  else if kp_fcode =? MODBUS_FC_DIAGNOSTIC then run (handler_for_fcode_diagnostics p pkt len)
  else if kp_fcode =? MODBUS_FC_GET_COM_EVENT_COUNTER
  then run (handler_for_fcode_get_comm_event_cnt p (Some pkt) len)
  else if kp_fcode =? MODBUS_FC_GET_COM_EVENT_LOG
  then run (handler_for_fcode_get_comm_event_log p (Some pkt) len)
  else if kp_fcode =? MODBUS_FC_READ_DEV_ID then run (handler_for_fcode_read_dev_id p pkt len)
  else
    let* _ := reply_exception_locked p pkt MODBUS_EXCEPTION_ILLEGAL_FUNCTION in
    run (app_mslave_inc_slave_exception_error_cnt p).

(** What follows the reception of [tpint] bytes (or an error) in the buffer. *)
Definition handle_msg (p : ptr) (kp_msg_buf : list Z) (tpint : Z) : M unit :=
  let* _ := app_mslave_inc_bus_msg_cnt p in
  if tpint <=? 0 then let* _ := app_mslave_inc_slave_no_resp_cnt p in ret tt
  else
    let* kp_errcode := app_mslave_validate_pkt p (Some kp_msg_buf) tpint in
    if negb (kp_errcode =? ERR_NONE)
    then let* _ := app_mslave_inc_slave_no_resp_cnt p in ret tt
    else
      let* _ := app_mslave_inc_slave_msg_cnt p in
      let* m := app_mslave_get_mode p in
      if bool_decide (m = SMODE_LISTEN_ONLY)
      then let* _ := handle_for_restart_com_option_in_listen_mode p kp_msg_buf tpint in ret tt
      else dispatch p kp_msg_buf tpint.

(** [None] when the port is busy. [modbus_receive] changes the context that
    the controller points to. *)
Definition receive_msg (p : ptr) : M (option (list Z * Z)) :=
  let* got := pthread_mutex_trylock p mtx_for_port_conf in
  if negb got then ret None
  else
    let* pt_mctx := app_mslave_get_mctx p in
    let* r := modbus_receive pt_mctx (zeros SZ_RTU_MSGBUF) in
    modify_ctr (with_mctx (snd (fst r))) ;;
    pthread_mutex_unlock p mtx_for_port_conf ;;
    ret (Some (fst (fst r), snd r)).

Definition mloop_round (p : ptr) : M unit :=
  app_mslave_ipc_wait_for_update p ;;
  let* r := receive_msg p in
  match r with
  | None => ret tt
  | Some (kp_msg_buf, tpint) => handle_msg p kp_msg_buf tpint
  end.

(** The first [n] rounds of the endless loop. *)
Fixpoint app_mslave_mloop (n : nat) (p : ptr) : M unit :=
  match n with O => ret tt | S n => mloop_round p ;; app_mslave_mloop n p end.

(** ** The invariant *)

(** The counters are 16-bit words, and the log is the ring of the events since
    it was cleared. *)
Definition state_ok (s : counter_log_register_set) : Prop :=
  (forall k, 0 <= counter_field k s <= MAX_DIAG_CNT) /\ Forall is_u8 (log_comm_event s) /\
  exists L, event_ring s L /\ Forall is_u8 L.

(** What the loop keeps true of the controller: the open port is connected
    and does not have the broadcast address, the tables of every block have the
    sizes the block states, the file buffers are full. *)
Definition ctr_ok (c : controller) : Prop :=
  ctx_ok (mctx c) /\ (forall port, mctx c = Some port -> mb_slave port <> MODBUS_BROADCAST_ADDRESS) /\
  Forall mapping_ok (mapping_queue c) /\ state_ok (state_set c) /\
  file_queue_ok (freading_buf_queue c) /\ length (dev_array c) = SENSORS.

Definition slave_inv (w : world) : Prop := held w = [] /\ line_ok w /\ ctr_ok (ctr w).

Lemma state_ok_zero : state_ok zero_state_set.
Proof.
  split; [intros []; vm_compute; split; congruence|]. split; [apply Forall_u8_replicate|].
  exists []. split; [apply event_ring_empty|done].
Qed.

Lemma log_count k s :
  log_comm_event (count k s) = log_comm_event s /\ log_event_cnt (count k s) = log_event_cnt s /\
  log_event_idx (count k s) = log_event_idx s.
Proof. unfold count, bump. case_match; [by destruct k|done]. Qed.

Lemma state_ok_count k s : state_ok s -> state_ok (count k s).
Proof.
  intros (Hc & Hu & L & HL & HLu). destruct (log_count k s) as (E1 & E2 & E3).
  split; [|split; [by rewrite E1|]].
  - intros k'. rewrite counter_field_count by apply Hc. pose proof (Hc k). pose proof (Hc k').
    unfold MAX_DIAG_CNT in *. case_decide; [|done].
    destruct (Z.ltb_spec (counter_field k s) 0xFFFF); lia.
  - exists L. split; [|done]. unfold event_ring in *. by rewrite E1, E2, E3.
Qed.

(** ** Answers *)

(** A frame that answers [msg]: the address of [msg], at most 256 bytes in
    all, and the checksum. *)
Definition reply_frame (msg f : list Z) : Prop :=
  exists pdu, f = rtu_frame pdu /\ nth 0 pdu 0 = nth 0 msg 0 /\ (2 <= length pdu <= 254)%nat.

(** Nothing changed but the frames sent (all of them answers to [msg]), the
    state set, the file buffers, [errno], the mode and the delimiter. *)
Definition answered (msg : list Z) (w w' : world) : Prop :=
  (exists frames, tx w' = tx w ++ frames /\ Forall (reply_frame msg) frames) /\
  held w' = held w /\ rx_pending w' = rx_pending w /\ rx_events w' = rx_events w /\
  remap w' = remap w /\ os w' = os w /\
  mctx (ctr w') = mctx (ctr w) /\ mapping_queue (ctr w') = mapping_queue (ctr w) /\
  dev_array (ctr w') = dev_array (ctr w) /\ port_conf (ctr w') = port_conf (ctr w) /\
  gwconf (ctr w') = gwconf (ctr w) /\ to_force_dev_update (ctr w') = to_force_dev_update (ctr w).

Lemma answered_refl msg w : answered msg w w.
Proof. split; [exists []; by rewrite app_nil_r|done]. Qed.

Lemma answered_trans msg w1 w2 w3 : answered msg w1 w2 -> answered msg w2 w3 -> answered msg w1 w3.
Proof.
  intros ((f & Ef & Hf) & H2) ((g & Eg & Hg) & H3). split.
  - exists (f ++ g). rewrite Eg, Ef, app_assoc. split; [done|]. by apply list.Forall_app.
  - intuition congruence.
Qed.

Lemma answered_sent msg ctx pdu e w :
  nth 0 pdu 0 = nth 0 msg 0 -> (2 <= length pdu <= 254)%nat ->
  answered msg w (sent_by ctx (rtu_frame pdu) e w).
Proof.
  intros H0 Hl. split; [|by destruct ctx].
  destruct ctx; [exists [rtu_frame pdu]|exists []; by rewrite app_nil_r].
  split; [done|]. repeat constructor. by exists pdu.
Qed.

Lemma answered_upd msg f w : answered msg w (upd_state f w).
Proof. split; [exists []; by rewrite app_nil_r|done]. Qed.

Lemma answered_count_if msg b w : answered msg w (count_if b w).
Proof. destruct b; [apply answered_upd|apply answered_refl]. Qed.

Lemma answered_requeued msg q t w : answered msg w (requeued q t w).
Proof. split; [exists []; by rewrite app_nil_r|done]. Qed.

(** The invariant follows from what a handler may change. *)
Lemma inv_answered msg w w' :
  slave_inv w -> answered msg w w' -> state_ok (state_set (ctr w')) ->
  file_queue_ok (freading_buf_queue (ctr w')) -> slave_inv w'.
Proof.
  intros (Hh & (Hl1 & Hl2) & Hc & Hs & Hm & _ & _ & Hd)
    (_ & E1 & E2 & E3 & _ & _ & E4 & E5 & E6 & _) Hst Hf.
  split; [congruence|]. split; [split; congruence|].
  repeat split; try congruence; try apply Hst; try apply Hf.
  intros port Hp. apply Hs. congruence.
Qed.

(** ** The handlers under the invariant *)

(** What a handler may do to the state set: nothing, count an exception, clear it. *)
Definition st_outcome (s s' : counter_log_register_set) : Prop :=
  s' = s \/ s' = count CntException s \/ s' = zero_state_set.

Lemma st_outcome_ok s s' : state_ok s -> st_outcome s s' -> state_ok s'.
Proof. intros H [->|[->| ->]]; auto using state_ok_count, state_ok_zero. Qed.

Lemma st_outcome_comm_error s s' : st_outcome s s' ->
  diag_cnt_bus_comm_error s' = diag_cnt_bus_comm_error s \/ diag_cnt_bus_comm_error s' = 0.
Proof.
  intros [->|[->| ->]]; auto. left. unfold count, bump. by case_match.
Qed.

(** [m] is defined in [w] and answers [msg]. *)
Definition handled (msg : list Z) (w : world) (m : M Z) : Prop :=
  exists rc w', m w = Some (rc, w') /\ answered msg w w' /\
    st_outcome (state_set (ctr w)) (state_set (ctr w')) /\ file_queue_ok (freading_buf_queue (ctr w')).

Lemma ctr_count_if_sent b ctx f e w :
  ctr (count_if b (sent_by ctx f e w)) = ctr (count_if b w).
Proof. by destruct b, ctx. Qed.

Lemma st_outcome_count_if b w : st_outcome (state_set (ctr w)) (state_set (ctr (count_if b w))).
Proof. destruct b; [right; left|left]; done. Qed.

(** The common shape of a handler: one frame, and perhaps a count. *)
Lemma handled_sent msg w m pdu b :
  file_queue_ok (freading_buf_queue (ctr w)) ->
  nth 0 pdu 0 = nth 0 msg 0 -> (2 <= length pdu <= 254)%nat ->
  (exists rc e, m w = Some (rc, count_if (b e) (sent_by (mctx (ctr w)) (rtu_frame pdu) e w))) ->
  handled msg w m.
Proof.
  intros Hf H0 Hl (rc & e & E). eexists _, _. split; [exact E|].
  split; [|rewrite ctr_count_if_sent; split; [apply st_outcome_count_if|by destruct (b e)]].
  eapply answered_trans; [by apply answered_sent|apply answered_count_if].
Qed.

Section handlers.
Context (msg : list Z) (len : Z) (w : world).
Context (Hinv : slave_inv w) (Hmsg : msg_buf msg) (Hlen : MIN_RTU_PKT <= len <= 256).

Lemma inv_free m : free m w.
Proof. unfold free. by rewrite (proj1 Hinv). Qed.

Lemma msg_length : length msg = 256%nat.
Proof. destruct Hmsg as [H _]. unfold SZ_RTU_MSGBUF in H. lia. Qed.

Lemma msg_head : u8 (nth 0 msg 0) = nth 0 msg 0.
Proof. apply u8_id, nth_u8, Hmsg. Qed.

Lemma inv_ctx : ctx_ok (mctx (ctr w)).
Proof. apply Hinv. Qed.

Lemma inv_files : file_queue_ok (freading_buf_queue (ctr w)).
Proof. destruct Hinv as (_ & _ & _ & _ & _ & _ & H & _). exact H. Qed.

Lemma inv_state : state_ok (state_set (ctr w)).
Proof. destruct Hinv as (_ & _ & _ & _ & _ & H & _). exact H. Qed.

Lemma exception_pdu_head code : nth 0 (exception_pdu msg code) 0 = nth 0 msg 0.
Proof. apply msg_head. Qed.

Lemma handled_refused (counted : bool) code rc0 : code < MODBUS_EXCEPTION_MAX ->
  handled msg w (let* _ := reply_exception_locked CTR msg code in
                 if counted then let* _ := app_mslave_inc_slave_exception_error_cnt CTR in ret rc0
                 else ret rc0).
Proof.
  intros Hc. apply (handled_sent msg w _ (exception_pdu msg code) (fun _ => counted));
    [apply inv_files|apply exception_pdu_head|simpl; lia|].
  destruct (refused_eq counted rc0 msg code w) as [e E];
    [apply inv_free|apply inv_free|apply inv_ctx|rewrite msg_length; lia|done|].
  eexists _, _. exact E.
Qed.

Lemma read_pdu_shape mb :
  mapping_ok mb -> 1 <= req_function msg <= 4 -> read_quantity_ok msg ->
  nth 0 (read_pdu mb msg) 0 = nth 0 msg 0 /\ (2 <= length (read_pdu mb msg) <= 254)%nat.
Proof.
  intros Hm Hf Hq. pose proof (length_read_pdu mb msg Hm Hf Hq). split.
  - unfold read_pdu. destruct (in_block mb msg); [|apply exception_pdu_head]. by case_match.
  - split; [|lia]. unfold read_pdu. destruct (in_block mb msg); [|simpl; lia].
    case_match; rewrite length_app; simpl; lia.
Qed.

Lemma read_outcome_shape :
  1 <= req_function msg <= 4 ->
  let pdu := snd (fst (read_outcome (mapping_queue (ctr w)) msg)) in
  nth 0 pdu 0 = nth 0 msg 0 /\ (2 <= length pdu <= 254)%nat.
Proof.
  intros Hf. unfold read_outcome.
  destruct (_ || _) eqn:Hq; [cbn [fst snd]; split; [apply exception_pdu_head|simpl; lia]|].
  destruct (0xFFFF <? req_address msg + req_quantity msg);
    [cbn [fst snd]; split; [apply exception_pdu_head|simpl; lia]|].
  destruct (locate_from _ _ _ _) as [i|] eqn:Hl;
    [|cbn [fst snd]; split; [apply exception_pdu_head|simpl; lia]].
  destruct (locate_from_lt _ _ _ _ Hl) as [mb Hmb]. rewrite Hmb. cbn [fst snd].
  destruct Hinv as (_ & _ & _ & _ & Hq' & _).
  apply read_pdu_shape; [|done|].
  - by eapply Forall_lookup_1.
  - unfold read_quantity_ok, max_quantity_of, MODBUS_MAX_READ_BITS, MODBUS_MAX_READ_REGISTERS in *.
    destruct (req_function msg <=? 2); lia.
Qed.

Lemma handled_read : nth 0 msg 0 <> 0 -> 1 <= nth 1 msg 0 <= 4 ->
  handled msg w (read_handler_for (nth 1 msg 0) CTR msg len).
Proof.
  intros H0 Hf. destruct (read_outcome_shape Hf) as [Hh Hl].
  pose proof (read_handler_for_eq_all msg len w) as E.
  destruct (read_outcome _ msg) as [[rc pdu] counted] eqn:Er. cbn [fst snd] in Hh, Hl.
  destruct E as [e E]; try apply inv_free; try apply Hinv; try apply Hmsg; try done; try lia.
  { rewrite msg_length. lia. }
  apply (handled_sent msg w _ pdu (fun _ => counted (reply_errno (mctx (ctr w)) (rtu_frame pdu) w)));
    [apply inv_files|done|done|].
  eexists _, _. exact E.
Qed.

Lemma handled_exception_status : handled msg w (handler_for_fcode_read_exception_status CTR msg len).
Proof.
  destruct (exception_status_reply_eq msg len w) as [e E];
    [apply inv_free|apply inv_free|apply inv_ctx|apply Hmsg|rewrite msg_length; lia|].
  eapply (handled_sent msg w _ _ (fun _ => false)); [apply inv_files| | |eexists _, _; exact E];
    [done|simpl; lia].
Qed.

Lemma handled_comm_event_cnt : handled msg w (handler_for_fcode_get_comm_event_cnt CTR (Some msg) len).
Proof.
  destruct (comm_event_cnt_reply_eq msg len w) as [e E];
    [apply inv_free|apply inv_free|apply inv_ctx|apply Hmsg|rewrite msg_length; lia|].
  eapply (handled_sent msg w _ _ (fun _ => false)); [apply inv_files| | |eexists _, _; exact E];
    [done|rewrite length_app, length_counter_bytes; simpl; lia].
Qed.

Lemma handled_comm_event_log : handled msg w (handler_for_fcode_get_comm_event_log CTR (Some msg) len).
Proof.
  destruct inv_state as (_ & Hu & L & HL & HLu).
  destruct (comm_event_log_reply_eq msg len L w) as [e E];
    [apply inv_free|apply inv_free|apply inv_ctx|apply Hmsg|rewrite msg_length; lia|done..|].
  eapply (handled_sent msg w _ _ (fun _ => false)); [apply inv_files| | |eexists _, _; exact E];
    [done|].
  unfold event_log_pdu. rewrite !length_app, length_counter_bytes, length_delivered_log. simpl length. lia.
Qed.
Lemma diag_reply_shape c f : diag_reply c msg len = Some f ->
  nth 0 f 0 = nth 0 msg 0 /\ (2 <= length f <= 254)%nat.
Proof.
  unfold diag_reply, MIN_RTU_PKT in *. pose proof msg_length as Hm.
  destruct (diag_echo _); [|destruct (_ =? 4); [done|destruct (diag_value _ _)]]; intros [= <-].
  - rewrite length_take, Hm. split; [|lia].
    rewrite !nth_lookup, lookup_take_lt by lia. done.
  - rewrite length_app, length_counter_bytes, length_take, Hm. split; [|lia].
    destruct msg as [|x l]; [done|]. done.
  - split; [apply exception_pdu_head|simpl; lia].
Qed.

Lemma answered_effect : answered msg w (set_ctr (diag_effect msg (ctr w)) w).
Proof.
  split; [exists []; by rewrite app_nil_r|].
  unfold diag_effect. repeat case_match; done.
Qed.

Lemma handled_diagnostics : handled msg w (handler_for_fcode_diagnostics CTR msg len).
Proof.
  destruct (diagnostics_eq msg len w) as [e E];
    [apply inv_free|apply inv_free|apply inv_ctx|apply Hmsg|done|rewrite msg_length; lia|
     rewrite msg_length; lia|].
  eexists _, _. split; [exact E|]. clear E. set (w1 := set_ctr _ w).
  pose proof (diag_reply_shape (ctr w)) as Hs.
  assert (forall e, ctr (sent_reply (diag_reply (ctr w) msg len) e w1) = ctr w1) as Hc.
  { intros e'. unfold sent_reply. destruct (diag_reply _ _ _); [apply ctr_sent_by|done]. }
  split.
  - eapply answered_trans; [apply answered_effect|]. eapply answered_trans; [|apply answered_count_if].
    unfold sent_reply. destruct (diag_reply _ _ _) as [f|]; [|apply answered_refl].
    destruct (Hs f eq_refl). by apply answered_sent.
  - assert (st_outcome (state_set (ctr w)) (state_set (ctr w1)) /\
            (diag_known (sub_function msg) = false -> ctr w1 = ctr w) /\
            freading_buf_queue (ctr w1) = freading_buf_queue (ctr w)) as (H1 & H2 & H3).
    { subst w1. cbn [ctr set_ctr]. unfold diag_effect, diag_known, diag_echo.
      destruct (Z.eqb_spec (sub_function msg) 1) as [->|]; [split; [right; right; done|done]|].
      destruct (Z.eqb_spec (sub_function msg) 3) as [->|]; [split; [left; done|done]|].
      destruct (Z.eqb_spec (sub_function msg) 4) as [->|]; [split; [left; done|done]|].
      destruct (Z.eqb_spec (sub_function msg) 0x0A) as [->|]; [split; [right; right; done|done]|].
      split; [by left|done]. }
    destruct (diag_known (sub_function msg)); cbn [negb count_if].
    + rewrite Hc, H3. split; [done|apply inv_files]; done.
    + unfold upd_state. cbn [ctr set_ctr state_set freading_buf_queue with_state_set].
      rewrite Hc, H2 by done. split; [right; by left|by apply inv_files].
Qed.

Lemma chunk_length info chunk : chunk_ok info chunk -> (2 <= length chunk)%nat.
Proof. intros (_ & _ & _ & start & _ & ->). rewrite length_app. simpl. lia. Qed.

Lemma file_answer_handled m q t rc w' : file_queue_ok q ->
  file_answer msg (mctx (ctr w)) (requeued q t w) rc w' -> m w = Some (rc, w') -> handled msg w m.
Proof.
  intros Hq Ha E. pose proof (exception_pdu_head) as Hh.
  assert (forall chunks, (length (file_reply msg chunks) <= 254)%nat -> forall ctx e w,
    answered msg w (sent_by ctx (rtu_frame (file_reply msg chunks)) e w)) as Hr.
  { intros chunks Hl ctx e w0. apply answered_sent; [done|]. unfold file_reply in *.
    rewrite length_app in *. simpl length in *. lia. }
  assert (forall code ctx e w, answered msg w (sent_by ctx (rtu_frame (exception_pdu msg code)) e w)) as Hx.
  { intros code ctx e w0. apply answered_sent; [apply Hh|simpl; lia]. }
  exists rc, w'. split; [exact E|]. destruct Ha as [chunks e _ _ Hl|code e _|chunks e e' _ _ Hl _].
  - rewrite ctr_sent_by. split; [|split; [by left|done]].
    eapply answered_trans; [apply answered_requeued|by apply Hr].
  - rewrite ctr_count_if_sent. split; [|split; [right; by left|done]].
    eapply answered_trans; [apply answered_requeued|]. eapply answered_trans; [apply Hx|apply answered_count_if].
  - rewrite ctr_count_if_sent. split; [|split].
    2: { right; left. cbn [count_if]. rewrite state_set_upd, ctr_sent_by. done. }
    2: { cbn [count_if]. unfold upd_state. cbn [ctr set_ctr freading_buf_queue with_state_set].
         by rewrite ctr_sent_by. }
    eapply answered_trans; [|apply (answered_count_if msg true)].
    eapply answered_trans; [|apply Hx]. eapply answered_trans; [apply answered_requeued|by apply Hr].
Qed.

Lemma handled_file : handled msg w (handler_for_fcode_read_file_record CTR msg len).
Proof.
  destruct (file_record_eq msg len w) as (rc & w' & q' & t & E & Hq & Ha & _);
    [apply inv_free|apply inv_free|apply inv_free|apply inv_ctx|apply Hmsg|apply Hmsg|apply inv_files|].
  by eapply file_answer_handled.
Qed.

(** Every supported function code is served. *)
Lemma handled_run m : handled msg w m ->
  exists w', (let* _ := m in ret tt) w = Some (tt, w') /\ answered msg w w' /\ slave_inv w' /\
    st_outcome (state_set (ctr w)) (state_set (ctr w')).
Proof.
  intros (rc & w' & E & Ha & Hs & Hf). exists w'. unfold bind, ret. rewrite E.
  split; [done|]. split; [done|]. split; [|done].
  eapply inv_answered; [exact Hinv|done| |done]. by eapply st_outcome_ok; [apply inv_state|].
Qed.

Lemma dispatch_answered : nth 0 msg 0 <> 0 -> is_fun_code_for_reading (nth 1 msg 0) = true ->
  exists w', dispatch CTR msg len w = Some (tt, w') /\ answered msg w w' /\ slave_inv w' /\
    st_outcome (state_set (ctr w)) (state_set (ctr w')).
Proof.
  intros H0 Hf. apply is_fun_code_for_reading_spec in Hf. unfold dispatch.
  erewrite bind_eq.
  2: { unfold app_mslave_pick_fun_code. rewrite (proj2 (Z.leb_le _ _)) by lia.
       apply rd_eq. rewrite msg_length. lia. }
  change (Z.to_nat 1) with 1%nat. pose proof handled_read H0 as Hread.
  repeat (apply elem_of_cons in Hf as [Hf|Hf]; [rewrite Hf in *; apply handled_run|]);
    [apply Hread; lia..|apply handled_exception_status|apply handled_diagnostics|
     apply handled_comm_event_cnt|apply handled_comm_event_log|
     by apply (handled_refused true)|apply handled_file|by apply (handled_refused true)|
     by apply (handled_refused false)|by apply elem_of_nil in Hf].
Qed.
End handlers.

(** ** Reception under the invariant *)

(** What the reception may change: the receiver's flag of the open port, the
    input, [errno] and the clock. *)
Definition arrived (w w1 : world) : Prop :=
  (exists ctx, ctr w1 = with_mctx ctx (ctr w) /\ same_ctx (mctx (ctr w)) ctx) /\
  tx w1 = tx w /\ held w1 = held w /\ remap w1 = remap w /\ os w1 = os w.

Lemma same_ctx_ok ctx ctx' : same_ctx ctx ctx' -> ctx_ok ctx -> ctx_ok ctx'.
Proof. destruct ctx, ctx'; try done. by intros [b ->]. Qed.

Lemma wait_for_update_eq w : app_mslave_ipc_wait_for_update CTR w = Some (tt, w).
Proof.
  unfold app_mslave_ipc_wait_for_update. cbn [is_null]. generalize 32%nat.
  induction n as [|n IH]; [done|]. cbn [wait_loop].
  unfold app_mslave_ipc_get_force_gwconf_update, app_mslave_ipc_get_force_dev_update in *.
  cbn [is_null] in *. unfold bind, deref, get_ctr, ret in *. cbn [bind].
  destruct (to_force_gwconf_update (ctr w)); [done|]. cbn [negb andb].
  destruct (to_force_dev_update (ctr w)); done.
Qed.

Lemma with_mctx_ok ctx c : ctr_ok c -> same_ctx (mctx c) ctx -> ctr_ok (with_mctx ctx c).
Proof.
  intros (H1 & H2 & H) Hs. split; [by eapply same_ctx_ok|]. split; [|done].
  intros port Hp. destruct ctx; [|done]. destruct (mctx c) as [c0|] eqn:E; [|done].
  destruct Hs as [b Hb]. specialize (H2 c0 eq_refl). simpl in Hp. injection Hp as <-.
  by rewrite Hb.
Qed.

(** A frame was received: it is for this slave or for all, and intact. *)
Definition got_frame (w : world) (msg : list Z) (rc : Z) : Prop :=
  msg_buf msg /\ rc <= 256 /\
  (0 < rc -> exists c, mctx (ctr w) = Some c /\ 4 <= rc /\ crc_valid msg rc /\
     (nth 0 msg 0 = mb_slave c \/ nth 0 msg 0 = MODBUS_BROADCAST_ADDRESS)).

Lemma receive_msg_eq w : slave_inv w ->
  exists r w1, receive_msg CTR w = Some (r, w1) /\ slave_inv w1 /\ arrived w w1 /\
    match r with None => ctr w1 = ctr w /\ o_trylock (os w) (tick w) = false
            | Some (msg, rc) => got_frame w1 msg rc end.
Proof.
  intros (Hh & Hl & Hc). unfold receive_msg. enough (wp (receive_msg CTR) (fun r w1 =>
    slave_inv w1 /\ arrived w w1 /\ match r with None => ctr w1 = ctr w /\ o_trylock (os w) (tick w) = false
    | Some (msg, rc) => got_frame w1 msg rc end) w) as H by (destruct (wp_elim _ _ _ H) as (r & w1 & ? & ?); eauto).
  unfold receive_msg. apply wp_bind, wp_trylock; [by rewrite Hh|].
  destruct (o_trylock (os w) (tick w)) eqn:Ht; cbn [negb].
  2: { apply wp_ret. split; [done|]. split; [|done]. split; [|done].
       exists (mctx (ctr w)). split; [by destruct w as [[]]|].
       destruct (mctx (ctr w)) as [c|] eqn:E; [|done]. exists (confirmation_to_ignore c). by destruct c. }
  apply wp_bind. unfold app_mslave_get_mctx. cbn [is_null]. apply wp_bind, wp_deref, wp_ret.
  apply wp_bind. apply wp_modbus_receive; [apply Hc|done|split; [done|apply Forall_u8_replicate]|].
  intros msg ctx' rc w' (Hl' & p & es & e & ->) Hmsg Hs Hrc. cbn [fst snd].
  apply wp_bind, wp_modify_ctr, wp_bind, wp_unlock; [by rewrite Hh|]. apply wp_ret.
  cbn [held set_held set_ctr set_errno set_rx]. rewrite Hh.
  change (drop_mutex _ _) with (@nil mutex). split; [|split].
  - split; [done|]. split; [done|]. by apply with_mctx_ok.
  - split; [|split; [done|split; [by rewrite Hh|done]]]. by exists ctx'.
  - split; [done|]. destruct Hrc as [Hr1 Hr2]. split; [done|]. intros Hpos.
    destruct (Hr2 Hpos) as (c & Ec & H4 & Hcrc & Hto). cbn [ctr set_held next_tick] in Ec, Hs.
    rewrite Ec in Hs. destruct ctx' as [c'|]; [|done]. destruct Hs as [b ->].
    by exists (set_confirmation_to_ignore b c).
Qed.

(** ** The round after the reception *)

(** Is a received frame served? *)
Definition accepted (c : modbus_t) (msg : list Z) (rc : Z) : bool :=
  (rc <? 256) && (nth 0 msg 0 =? mb_slave c) && is_fun_code_for_reading (nth 1 msg 0).

Definition is_served (w : world) (msg : list Z) (rc : Z) : bool :=
  (0 <? rc) && match mctx (ctr w) with Some c => accepted c msg rc | None => false end.

Lemma validate_256_eq msg w : app_mslave_validate_pkt CTR (Some msg) 256 w = Some (ERR_INVALID_PARAM, w).
Proof. done. Qed.

Lemma validate_got w msg rc c :
  free mtx_for_port_conf w -> free mtx_for_state_set w -> got_frame w msg rc -> 0 < rc ->
  mctx (ctr w) = Some c ->
  exists e, app_mslave_validate_pkt CTR (Some msg) rc w = Some (e, w) /\
    (e = ERR_NONE <-> accepted c msg rc = true).
Proof.
  intros Hp Hs (Hm & Hr & Hgot) Hpos Ec. destruct (Hgot Hpos) as (c' & Ec' & H4 & Hcrc & _).
  rewrite Ec in Ec'. injection Ec' as <-.
  destruct (Z.eq_dec rc 256) as [->|Hne].
  { rewrite validate_256_eq. eexists. split; [done|]. split; [discriminate|].
    unfold accepted. by rewrite Z.ltb_irrefl. }
  rewrite validate_pkt_eq; [|done|done|apply Hm|unfold MIN_RTU_PKT; lia|].
  2: { destruct Hm as [Hm _]. unfold SZ_RTU_MSGBUF in Hm. lia. }
  rewrite Ec. unfold after_validation, verdict, accepted.
  rewrite (bool_decide_eq_true_2 _ Hcrc), (proj2 (Z.ltb_lt rc 256)) by lia. cbn [negb andb].
  destruct (nth 0 msg 0 =? mb_slave c); cbn [negb andb].
  - destruct (is_fun_code_for_reading _); cbn [negb]; eexists; (split; [reflexivity|]); split; done.
  - eexists. split; [reflexivity|]. done.
Qed.

Lemma inv_count k w : slave_inv w -> slave_inv (upd_state (count k) w).
Proof.
  intros (Hh & Hl & H1 & H2 & H3 & H4 & H5). split; [done|]. split; [done|].
  split; [done|]. split; [done|]. split; [done|]. split; [|done]. by apply state_ok_count.
Qed.

(** A frame that is not served, and every failed reception, is counted twice. *)
Lemma handle_msg_refused w msg rc :
  slave_inv w -> got_frame w msg rc -> is_served w msg rc = false ->
  handle_msg CTR msg rc w = Some (tt, upd_state (count CntNoResp) (upd_state (count CntBusMsg) w)).
Proof.
  intros Hinv Hgot Hs. unfold handle_msg. pose proof (inv_free w Hinv) as Hfree.
  erewrite bind_eq by apply (counter_inc_eq CntBusMsg), Hfree. set (w1 := upd_state _ w).
  assert (forall m, free m w1) as Hf1 by apply inv_free, inv_count, Hinv.
  unfold is_served in Hs. destruct (Z.leb_spec rc 0) as [Hr|Hr].
  { unfold bind. rewrite (counter_inc_eq CntNoResp) by apply Hf1. done. }
  rewrite (proj2 (Z.ltb_lt 0 rc)) in Hs by done. cbn [andb] in Hs.
  destruct Hgot as (Hm & Hr256 & Hg). destruct (Hg Hr) as (c & Ec & _). rewrite Ec in Hs.
  destruct (validate_got w1 msg rc c) as (e & E & He); [apply Hf1|apply Hf1|done|done|done|].
  erewrite bind_eq by exact E. rewrite Hs in He.
  destruct (Z.eqb_spec e ERR_NONE) as [He0|]; [by apply He in He0|]. cbn [negb].
  unfold bind. rewrite (counter_inc_eq CntNoResp) by apply Hf1. done.
Qed.

(** The effect of a restart request in listen-only mode. *)
Definition restarted (msg : list Z) (w : world) : world :=
  if (nth 1 msg 0 =? MODBUS_FC_DIAGNOSTIC) && (sub_function msg =? 1)
  then set_ctr (with_smode SMODE_ACTIVE (with_state_set zero_state_set (ctr w))) w else w.

Lemma handle_msg_served w msg rc :
  slave_inv w -> got_frame w msg rc -> is_served w msg rc = true ->
  let w1 := upd_state (count CntSlaveMsg) (upd_state (count CntBusMsg) w) in
  handle_msg CTR msg rc w =
  if bool_decide (smode (ctr w) = SMODE_LISTEN_ONLY) then Some (tt, restarted msg w1)
  else dispatch CTR msg rc w1.
Proof.
  intros Hinv Hgot Hs w2. unfold handle_msg. pose proof (inv_free w Hinv) as Hfree.
  erewrite bind_eq by apply (counter_inc_eq CntBusMsg), Hfree. set (w1 := upd_state _ w) in *.
  assert (forall m, free m w1) as Hf1 by apply inv_free, inv_count, Hinv.
  unfold is_served in Hs. destruct (Z.ltb_spec 0 rc) as [Hr|Hr]; [|done].
  destruct (Z.leb_spec rc 0) as [|_]; [lia|]. cbn [andb] in Hs.
  pose proof Hgot as (Hm & Hr256 & Hg). destruct (Hg Hr) as (c & Ec & H4 & _). rewrite Ec in Hs.
  destruct (validate_got w1 msg rc c) as (e & E & He); [apply Hf1|apply Hf1|done|done|done|].
  erewrite bind_eq by exact E. apply He in Hs as ->. cbn [negb Z.eqb ERR_NONE].
  erewrite bind_eq by apply (counter_inc_eq CntSlaveMsg), Hf1. fold w2.
  erewrite bind_eq by reflexivity. change (smode (ctr w2)) with (smode (ctr w)).
  destruct (bool_decide _); [|done].
  unfold bind. rewrite restart_in_listen_mode_eq; [done|apply Hf1| |done].
  rewrite (msg_length msg Hm). lia.
Qed.

Lemma inv_restarted msg w : slave_inv w -> slave_inv (restarted msg w).
Proof.
  intros Hi. unfold restarted. destruct (_ && _); [|done].
  destruct Hi as (Hh & Hl & H1 & H2 & H3 & H4 & H5). split; [done|]. split; [done|].
  split; [done|]. split; [done|]. split; [done|]. split; [apply state_ok_zero|done].
Qed.

(** What one round does, from the state after the reception. *)
Inductive round_from (w : world) (msg : list Z) (rc : Z) : world -> Prop :=
  | RoundRefused : is_served w msg rc = false ->
      round_from w msg rc (upd_state (count CntNoResp) (upd_state (count CntBusMsg) w))
  | RoundListening : is_served w msg rc = true -> smode (ctr w) = SMODE_LISTEN_ONLY ->
      round_from w msg rc (restarted msg (upd_state (count CntSlaveMsg) (upd_state (count CntBusMsg) w)))
  | RoundServed w' : is_served w msg rc = true -> smode (ctr w) <> SMODE_LISTEN_ONLY ->
      dispatch CTR msg rc (upd_state (count CntSlaveMsg) (upd_state (count CntBusMsg) w)) = Some (tt, w') ->
      answered msg w w' ->
      st_outcome (count CntSlaveMsg (count CntBusMsg (state_set (ctr w)))) (state_set (ctr w')) ->
      round_from w msg rc w'.

Lemma handle_msg_cases w msg rc :
  slave_inv w -> got_frame w msg rc ->
  exists w', handle_msg CTR msg rc w = Some (tt, w') /\ slave_inv w' /\ round_from w msg rc w'.
Proof.
  intros Hinv Hgot. destruct (is_served w msg rc) eqn:Hs.
  2: { eexists. split; [by apply handle_msg_refused|]. split; [|by apply RoundRefused].
       by apply inv_count, inv_count. }
  rewrite handle_msg_served by done. set (w1 := upd_state _ (upd_state _ w)).
  assert (slave_inv w1) as Hi1 by by apply inv_count, inv_count.
  destruct (bool_decide _) eqn:Hm.
  - apply bool_decide_eq_true in Hm. eexists. split; [done|].
    split; [by apply inv_restarted|by apply RoundListening].
  - apply bool_decide_eq_false in Hm.
    unfold is_served, accepted in Hs. destruct Hgot as (Hb & Hr & Hg).
    destruct (Z.ltb_spec 0 rc) as [Hpos|]; [|done]. cbn [andb] in Hs.
    destruct (Hg Hpos) as (c & Ec & H4 & _). rewrite Ec in Hs.
    apply andb_true_iff in Hs as [Hs Hf]. apply andb_true_iff in Hs as [Hs1 Hs2].
    destruct (dispatch_answered msg rc w1 Hi1 Hb) as (w' & E & Ha & Hi & Ho);
      [unfold MIN_RTU_PKT; lia| |done|].
    { destruct Hinv as (_ & _ & _ & Hn & _). specialize (Hn _ Ec).
      unfold MODBUS_BROADCAST_ADDRESS in Hn. lia. }
    exists w'. split; [exact E|]. split; [done|]. apply RoundServed; [|done|exact E| |exact Ho].
    + unfold is_served, accepted. rewrite Ec. lia.
    + destruct Ha as ((fr & Ht & Hfr) & Ha). split; [by exists fr|]. exact Ha.
Qed.

Lemma mloop_round_cases w : slave_inv w ->
  exists w', mloop_round CTR w = Some (tt, w') /\ slave_inv w' /\
    exists w1, slave_inv w1 /\ arrived w w1 /\
      ((o_trylock (os w) (tick w) = false /\ ctr w1 = ctr w /\ w' = w1) \/
       exists msg rc, receive_msg CTR w = Some (Some (msg, rc), w1) /\ got_frame w1 msg rc /\
         round_from w1 msg rc w').
Proof.
  intros Hinv. unfold mloop_round. erewrite bind_eq by apply wait_for_update_eq.
  destruct (receive_msg_eq w Hinv) as (r & w1 & E & Hi1 & Ha & Hr).
  erewrite bind_eq by exact E. destruct r as [[msg rc]|].
  - destruct (handle_msg_cases w1 msg rc Hi1 Hr) as (w' & E' & Hi' & Hround).
    exists w'. split; [exact E'|]. split; [done|]. exists w1. split; [done|]. split; [done|].
    right. exists msg, rc. done.
  - destruct Hr as [Hc Ht]. exists w1. split; [done|]. split; [done|]. exists w1.
    split; [done|]. split; [done|]. by left.
Qed.

(** ** What the loop guarantees *)

(** A slave that satisfies the invariant, with a request on the line. *)
Definition loop_world (m : slave_mode) (events : list rx_event) : world :=
  set_rx [] events (set_ctr (with_smode m (with_dev_array (replicate SENSORS zero_device)
    (ctr two_blocks_world))) two_blocks_world).

Lemma loop_world_inv m events : Forall (fun e => Forall is_u8 (event_bytes e)) events ->
  slave_inv (loop_world m events).
Proof.
  intros He. split; [done|]. split; [split; [constructor|exact He]|].
  split; [done|]. split; [intros port [= <-]; done|].
  split; [repeat constructor|]. split; [apply state_ok_zero|].
  split; [split; [constructor|constructor]|]. vm_compute. done.
Qed.

(** C2: the main loop never goes wrong: from any state that satisfies the
    invariant, any number of rounds is defined - whatever arrives on the line,
    no buffer is overrun, no mutex is locked twice or kept, every reception and
    every handler returns - and the invariant holds again. *)
Theorem main_loop_safe n w : slave_inv w ->
  exists w', app_mslave_mloop n CTR w = Some (tt, w') /\ slave_inv w'.
Proof.
  revert w. induction n as [|n IH]; intros w Hinv; [by exists w|].
  destruct (mloop_round_cases w Hinv) as (w1 & E & Hi & _). destruct (IH w1 Hi) as (w' & E' & Hi').
  exists w'. split; [|done]. cbn [app_mslave_mloop]. by erewrite bind_eq by exact E.
Qed.

Definition read_frame : list Z := [17; 3; 0; 17; 0; 2; 0x96; 0x9E].

Lemma main_loop_safe_witness :
  exists w', app_mslave_mloop 3 CTR (loop_world SMODE_ACTIVE [RxBytes read_frame; RxError 5]) =
    Some (tt, w') /\ slave_inv w'.
Proof.
  apply main_loop_safe, loop_world_inv. repeat constructor; unfold is_u8; lia.
Defined.

(** C3: the slave answers only what it accepts: a round that puts a frame on
    the line is in active mode and has received an intact frame of 4 to 255
    bytes with its own address and a function code it knows; every frame it
    sends carries the same address, has at most 256 bytes, and ends with the
    checksum of the others. *)
Theorem only_accepted_frames_answered w : slave_inv w ->
  exists w' frames, mloop_round CTR w = Some (tt, w') /\ tx w' = tx w ++ frames /\
    (frames <> [] -> exists c msg rc w1,
       mctx (ctr w) = Some c /\ smode (ctr w) <> SMODE_LISTEN_ONLY /\
       receive_msg CTR w = Some (Some (msg, rc), w1) /\
       4 <= rc < 256 /\ crc_valid msg rc /\ nth 0 msg 0 = mb_slave c /\
       is_fun_code_for_reading (nth 1 msg 0) = true /\
       Forall (fun f => exists pdu, f = rtu_frame pdu /\ nth 0 f 0 = mb_slave c /\
                 (4 <= length f <= 256)%nat) frames).
Proof.
  intros Hinv. destruct (mloop_round_cases w Hinv) as (w' & E & _ & w1 & _ & Ha & Hcase).
  destruct Ha as ((ctx & Ec & Hs) & Htx & _).
  destruct Hcase as [(_ & _ & ->)|(msg & rc & Er & Hg & Hr)].
  { exists w1, []. rewrite app_nil_r. done. }
  destruct Hr as [Hs1|Hs1 Hm|w' Hs1 Hm _ Ha _].
  - eexists _, []. rewrite app_nil_r. split; [exact E|]. done.
  - eexists _, []. rewrite app_nil_r. split; [exact E|]. split; [|done].
    unfold restarted. case_match; done.
  - destruct Ha as ((frames & Et & Hf) & _). exists w', frames. rewrite Et, Htx.
    split; [exact E|]. split; [done|]. intros _.
    destruct Hg as (Hb & Hr & Hg). unfold is_served in Hs1.
    destruct (Z.ltb_spec 0 rc) as [Hpos|]; [|done]. destruct (Hg Hpos) as (c' & Ec' & H4 & Hcrc & _).
    rewrite Ec' in Hs1. cbn [andb] in Hs1. unfold accepted in Hs1.
    apply andb_true_iff in Hs1 as [Hs1 Hfc]. apply andb_true_iff in Hs1 as [Hs1 Hs2].
    apply Z.ltb_lt in Hs1. apply Z.eqb_eq in Hs2.
    rewrite Ec in Ec', Hm. cbn [mctx with_mctx] in Ec'. subst ctx.
    destruct (mctx (ctr w)) as [c|] eqn:Ec2; [|done]. destruct Hs as [b ->].
    exists c, msg, rc, w1. split; [done|]. split; [done|]. split; [done|]. split; [lia|].
    split; [done|]. split; [done|]. split; [done|].
    eapply list.Forall_impl; [exact Hf|]. intros f (pdu & -> & H0 & Hl). exists pdu.
    split; [done|]. rewrite length_rtu_frame. split; [|lia].
    rewrite Hs2 in H0. cbn [mb_slave set_confirmation_to_ignore] in H0. rewrite <- H0.
    unfold rtu_frame. destruct pdu; [simpl in Hl; lia|done].
Qed.

Lemma only_accepted_frames_answered_witness :
  exists w' frames, mloop_round CTR (loop_world SMODE_ACTIVE [RxBytes read_frame]) = Some (tt, w') /\
    tx w' = frames /\ frames = [rtu_frame [17; 3; 4; 0; 8; 0; 9]].
Proof.
  destruct (only_accepted_frames_answered (loop_world SMODE_ACTIVE [RxBytes read_frame]))
    as (w' & frames & E & Ht & _).
  - apply loop_world_inv. repeat constructor; unfold is_u8; lia.
  - exists w', frames. split; [exact E|]. split; [exact Ht|].
    vm_compute in E. injection E as <-. vm_compute in Ht. vm_compute. congruence.
Defined.


Definition restart_frame : list Z := [17; 8; 0; 1; 0; 0; 0xB3; 0x5B].


(** A property that every round keeps, and any state reached by rounds. *)
Lemma mloop_keeps (P : world -> Prop) n w w' :
  (forall w w', slave_inv w -> P w -> mloop_round CTR w = Some (tt, w') -> P w') ->
  slave_inv w -> P w -> app_mslave_mloop n CTR w = Some (tt, w') -> P w'.
Proof.
  intros Hstep. revert w. induction n as [|n IH]; intros w Hinv HP; [by intros [= <-]|].
  cbn [app_mslave_mloop]. destruct (mloop_round_cases w Hinv) as (w1 & E & Hi & _).
  erewrite bind_eq by exact E. apply IH; [done|]. exact (Hstep _ _ Hinv HP E).
Qed.

(** the communication-error counter never counts: after any number of
    rounds it has its old value, or zero if a request cleared it in between.
    The receiver of libmodbus refuses a frame with a wrong checksum first, and
    the loop counts the refused reception as "no response" only. *)
Theorem comm_errors_never_counted n w w' :
  slave_inv w -> app_mslave_mloop n CTR w = Some (tt, w') ->
  diag_cnt_bus_comm_error (state_set (ctr w')) = diag_cnt_bus_comm_error (state_set (ctr w)) \/
  diag_cnt_bus_comm_error (state_set (ctr w')) = 0.
Proof.
  intros Hinv. set (v := diag_cnt_bus_comm_error (state_set (ctr w))).
  apply (mloop_keeps (fun w => diag_cnt_bus_comm_error (state_set (ctr w)) = v \/
    diag_cnt_bus_comm_error (state_set (ctr w)) = 0)); [|done|by left].
  clear w' Hinv. intros w0 w' Hinv Hv E.
  destruct (mloop_round_cases w0 Hinv) as (w2 & E' & _ & w1 & Hi1 & Ha & Hcase).
  rewrite E in E'. injection E' as <-. destruct Ha as ((ctx & Ec & _) & _).
  assert (forall k s, k <> CntBusCommError ->
    diag_cnt_bus_comm_error (count k s) = diag_cnt_bus_comm_error s) as Hk.
  { intros k s Hk. unfold count, bump. case_match; [|done]. by destruct k. }
  destruct Hcase as [(_ & Ec' & ->)|(msg & rc & _ & _ & Hr)]; [by rewrite Ec'|].
  destruct Hr as [_|_ _|w' _ _ _ _ Ho].
  - rewrite !state_set_upd, !Hk, Ec by done. done.
  - unfold restarted. case_match; [by right|]. rewrite !state_set_upd, !Hk, Ec by done. done.
  - apply st_outcome_comm_error in Ho. rewrite !Hk, Ec in Ho by done. cbn [state_set with_mctx] in Ho.
    destruct Ho as [->|Ho]; [done|by right].
Qed.

Definition corrupt_frame : list Z := [17; 3; 0; 17; 0; 3; 0x96; 0x9E].

Lemma comm_errors_never_counted_witness :
  exists w', app_mslave_mloop 1 CTR (loop_world SMODE_ACTIVE [RxBytes corrupt_frame]) = Some (tt, w') /\
    diag_cnt_bus_comm_error (state_set (ctr w')) = 0 /\
    diag_cnt_slave_no_response (state_set (ctr w')) = 1.
Proof.
  assert (exists w', app_mslave_mloop 1 CTR (loop_world SMODE_ACTIVE [RxBytes corrupt_frame]) = Some (tt, w')
    /\ diag_cnt_slave_no_response (state_set (ctr w')) = 1) as (w' & E & Hn)
    by (vm_compute; eexists; split; reflexivity).
  exists w'. split; [exact E|]. split; [|exact Hn].
  destruct (comm_errors_never_counted 1 (loop_world SMODE_ACTIVE [RxBytes corrupt_frame]) w')
    as [H|H]; [|exact E|exact H|exact H].
  apply loop_world_inv. repeat constructor; unfold is_u8; lia.
Defined.

(** a slave whose port is closed is dead: without an open context, any
    number of rounds sends nothing and leaves the port closed; together with
    the update that closes the port, a changed configuration silences the
    slave until it is started again. *)
Theorem closed_port_stays_silent n w w' :
  slave_inv w -> mctx (ctr w) = None -> app_mslave_mloop n CTR w = Some (tt, w') ->
  mctx (ctr w') = None /\ tx w' = tx w.
Proof.
  intros Hinv Hn. set (t := tx w).
  apply (mloop_keeps (fun w => mctx (ctr w) = None /\ tx w = t)); [|done|done].
  clear w' Hinv Hn. intros w0 w' Hinv [Hn <-] E.
  destruct (mloop_round_cases w0 Hinv) as (w2 & E' & _ & w1 & Hi1 & Ha & Hcase).
  rewrite E in E'. injection E' as <-. destruct Ha as ((ctx & Ec & Hs) & Ht & _).
  rewrite Hn in Hs. destruct ctx; [done|].
  assert (mctx (ctr w1) = None) as Hn1 by by rewrite Ec.
  destruct Hcase as [(_ & _ & ->)|(msg & rc & _ & _ & Hr)]; [done|].
  destruct Hr as [_|Hs1 _|w' Hs1 _ _ _ _]; [done| |];
    unfold is_served in Hs1; rewrite Hn1, andb_false_r in Hs1; done.
Qed.

Definition closed_world : world :=
  set_ctr (with_mctx None (ctr (loop_world SMODE_ACTIVE [RxBytes read_frame])))
    (loop_world SMODE_ACTIVE [RxBytes read_frame]).

Lemma closed_port_stays_silent_witness :
  exists w', app_mslave_mloop 5 CTR closed_world = Some (tt, w') /\ mctx (ctr w') = None /\ tx w' = [].
Proof.
  assert (exists w', app_mslave_mloop 5 CTR closed_world = Some (tt, w')) as [w' E]
    by (vm_compute; eexists; reflexivity).
  exists w'. split; [exact E|]. apply (closed_port_stays_silent 5 closed_world w'); [|reflexivity|exact E].
  split; [reflexivity|]. split; [split; [constructor|repeat constructor; unfold is_u8; lia]|].
  split; [exact I|]. split; [intros port H; discriminate H|]. split; [repeat constructor|].
  split; [apply state_ok_zero|]. split; [split; constructor|]. reflexivity.
Defined.

(** ** A complete frame on the line *)

Lemma receive_frame_eq w c s :
  slave_inv w -> o_trylock (os w) (tick w) = true ->
  mctx (ctr w) = Some c -> confirmation_to_ignore c = false ->
  line_bytes w -> Forall is_u8 s -> stream w = s ->
  request_length s <= Z.of_nat (length s) -> request_length s <= MODBUS_RTU_MAX_ADU_LENGTH ->
  exists msg w1, receive_msg CTR w = Some (Some (msg, integrity c s (request_length s)), w1) /\
    agrees (request_length s) msg s /\ stream w1 = drop (Z.to_nat (request_length s)) s /\
    ctr w1 = with_mctx (Some (if integrity c s (request_length s) =? 0
                              then set_confirmation_to_ignore true c else c)) (ctr w).
Proof.
  intros (Hh & _ & Hc & _) Ht Ec Hflag Hlb Hs Hst Hl1 Hl2. rewrite Ec in Hc. cbn [ctx_ok] in Hc.
  set (w0 := set_held [mtx_for_port_conf] (next_tick w)).
  destruct (receive_msg_frame c s w0) as (msg & w2 & E & _ & Hag & Hst2 & _ & p & es & e & ->);
    [done|exact Hlb|done|exact Hst|done|done|].
  exists msg, (set_held [] (set_ctr (with_mctx (Some (if integrity c s (request_length s) =? 0
    then set_confirmation_to_ignore true c else c)) (ctr w)) (set_errno e (set_rx p es w0)))).
  split; [|split; [exact Hag|split; [exact Hst2|reflexivity]]].
  unfold receive_msg. erewrite bind_eq.
    2: { unfold pthread_mutex_trylock. cbn [is_null]. rewrite Hh, Ht. cbn [holds existsb].
         fold w0. reflexivity. }
    cbn [negb]. erewrite bind_eq.
    2: { unfold app_mslave_get_mctx. cbn [is_null]. unfold bind, deref, get_ctr, ret.
         change (ctr w0) with (ctr w). rewrite Ec. reflexivity. }
    erewrite bind_eq.
    2: { unfold modbus_receive, modbus_rtu_receive. rewrite Hflag. unfold bind at 1. erewrite bind_eq by exact E.
         reflexivity. }
    cbn [fst snd]. erewrite bind_eq by reflexivity. erewrite bind_eq by reflexivity. reflexivity.
Qed.

(** A context that expects a confirmation of somebody else accepts nothing. *)
Lemma receive_confirmation w c msg rc w1 :
  mctx (ctr w) = Some c -> confirmation_to_ignore c = true ->
  receive_msg CTR w = Some (Some (msg, rc), w1) -> rc = 0.
Proof.
  intros Ec Hf. unfold receive_msg, app_mslave_get_mctx, pthread_mutex_trylock, deref, get_ctr, ret, bind.
  cbn [is_null]. destruct (holds _ (held w)); [done|]. destruct (o_trylock _ _); [|done].
  cbn [negb ctr set_held next_tick]. rewrite Ec. unfold modbus_receive, modbus_rtu_receive, bind, ret.
  rewrite Hf. destruct (modbus_receive_msg _ _ _ _) as [[r w2]|]; [|done]. cbn [fst snd].
  unfold modify_ctr, pthread_mutex_unlock. cbn [is_null].
  destruct (holds _ _); [|done]. by intros [= _ <- _].
Qed.

Lemma agrees_8 msg s i : agrees 8 msg s -> (i < 8)%nat -> nth i msg 0 = nth i s 0.
Proof. intros H Hi. apply (agrees_nth 8); [done|lia]. Qed.

Lemma read_outcome_agrees q msg msg' :
  (forall i, (i < 6)%nat -> nth i msg 0 = nth i msg' 0) ->
  fst (read_outcome q msg) = fst (read_outcome q msg').
Proof.
  intros H. assert (req_function msg = req_function msg') as Ef by (apply H; lia).
  assert (req_slave msg = req_slave msg') as Es by (apply H; lia).
  assert (req_quantity msg = req_quantity msg') as Eq
    by (unfold req_quantity; by rewrite !H by lia).
  assert (req_address msg = req_address msg') as Ea
    by (unfold req_address; by rewrite !H by lia).
  assert (forall code, exception_pdu msg code = exception_pdu msg' code) as Ex
    by (intros; unfold exception_pdu; by rewrite !H by lia).
  assert (forall mb, read_pdu mb msg = read_pdu mb msg') as Er.
  { intros mb. unfold read_pdu, in_block, block_data, block_start, block_size, block_table.
    by rewrite Ef, Es, Eq, Ea, Ex. }
  unfold read_outcome. rewrite Ef, Eq, Ea. repeat case_match; cbn [fst]; congruence.
Qed.

Lemma tx_count_if b w : tx (count_if b w) = tx w.
Proof. by destruct b. Qed.

(** The function codes 1 to 4 reach their handler. *)
Lemma dispatch_read msg len w : (2 <= length msg)%nat -> MIN_RTU_PKT <= len ->
  1 <= nth 1 msg 0 <= 4 ->
  dispatch CTR msg len w = (let* _ := read_handler_for (nth 1 msg 0) CTR msg len in ret tt) w.
Proof.
  intros Hl Hlen Hf. unfold dispatch. erewrite bind_eq.
  2: { unfold app_mslave_pick_fun_code. rewrite (proj2 (Z.leb_le _ _)) by lia. apply rd_eq. lia. }
  change (Z.to_nat 1) with 1%nat.
  assert (nth 1 msg 0 = 1 \/ nth 1 msg 0 = 2 \/ nth 1 msg 0 = 3 \/ nth 1 msg 0 = 4) as [->|[->|[->| ->]]]
    by lia; done.
Qed.

(** The frame of a read request. *)
Definition read_request (slave f addr qty : Z) : list Z :=
  [slave; f; hi8 addr; lo8 addr; hi8 qty; lo8 qty].

Lemma read_request_length slave f addr qty rest : 1 <= f <= 4 ->
  request_length (rtu_frame (read_request slave f addr qty) ++ rest) = 8.
Proof.
  intros Hf. unfold request_length, request_meta_length, request_data_length. cbn [nth rtu_frame read_request app].
  assert (f = 1 \/ f = 2 \/ f = 3 \/ f = 4) as [->|[->|[->| ->]]] by lia; done.
Qed.

Lemma read_request_integrity c f addr qty rest : is_u8 (mb_slave c) -> is_u8 f ->
  integrity c (rtu_frame (read_request (mb_slave c) f addr qty) ++ rest) 8 = 8.
Proof.
  intros Hs Hf. unfold integrity. rewrite bool_decide_eq_true_2.
  - by rewrite Z.eqb_refl.
  - apply (rtu_frame_valid (read_request (mb_slave c) f addr qty) rest).
    repeat (apply list.Forall_cons_2; [first [done|auto with words]|]). constructor.
Qed.

(** A read request that was received is answered with one frame. *)
Lemma handle_read_request w c f addr qty msg :
  slave_inv w -> smode (ctr w) = SMODE_ACTIVE -> mctx (ctr w) = Some c -> 1 <= f <= 4 ->
  got_frame w msg 8 ->
  (forall i, (i < 6)%nat -> nth i msg 0 = nth i (read_request (mb_slave c) f addr qty) 0) ->
  exists w', handle_msg CTR msg 8 w = Some (tt, w') /\ answered msg w w' /\ slave_inv w' /\
    tx w' = tx w ++ [rtu_frame (snd (fst (read_outcome (mapping_queue (ctr w))
                                            (read_request (mb_slave c) f addr qty))))].
Proof.
  intros Hinv Hm Ec Hf Hgot Hnth. set (pdu := read_request (mb_slave c) f addr qty) in *.
  assert (nth 1 msg 0 = f) as Hf1 by by rewrite Hnth by lia.
  assert (nth 0 msg 0 = mb_slave c) as Hs0 by by rewrite Hnth by lia.
  assert (is_fun_code_for_reading (nth 1 msg 0) = true) as Hfc.
  { rewrite Hf1. assert (f = 1 \/ f = 2 \/ f = 3 \/ f = 4) as [->|[->|[->| ->]]] by lia; reflexivity. }
  assert (nth 0 msg 0 <> 0) as Hne.
  { rewrite Hs0. destruct Hinv as (_ & _ & _ & Hn & _). by apply Hn. }
  rewrite handle_msg_served; [|done|done|].
  2: { unfold is_served, accepted. by rewrite Ec, Hs0, Z.eqb_refl, Hfc. }
  rewrite Hm, bool_decide_eq_false_2 by done. set (w2 := upd_state _ (upd_state _ w)).
  assert (slave_inv w2) as Hi2 by by apply inv_count, inv_count.
  destruct Hgot as (Hb & _). pose proof (msg_length msg Hb) as Hml.
  destruct (dispatch_answered msg 8 w2 Hi2 Hb) as (w' & Ed & Ha & Hi' & _); [done|done|done|].
  exists w'. split; [exact Ed|]. split; [destruct Ha as ((fr & Ht & Hfr) & Ha); split; [by exists fr|exact Ha]|].
  split; [done|]. clear Ha Hi'.
  rewrite dispatch_read in Ed by (rewrite ?Hml, ?Hf1; unfold MIN_RTU_PKT; lia).
  pose proof (read_handler_for_eq_all msg 8 w2) as Eh. change (req_function msg) with (nth 1 msg 0) in Eh.
  change (mapping_queue (ctr w2)) with (mapping_queue (ctr w)) in Eh.
  pose proof (read_outcome_agrees (mapping_queue (ctr w)) msg pdu Hnth) as Ho.
  destruct (read_outcome _ msg) as [[rc f'] counted] eqn:Er. rewrite <- Ho. cbn [fst snd].
  destruct Eh as [e Eh]; try (by apply inv_free); try apply Hi2; try apply Hb; try apply Hinv; try done; try lia.
  unfold bind at 1 in Ed. rewrite Eh in Ed. injection Ed as <-.
  change (mctx (ctr w2)) with (mctx (ctr w)). by rewrite tx_count_if, Ec.
Qed.

(** C1: a read request, from the line to the line: when the request of a master
    for [qty] coils, inputs or registers from [addr] on arrives - in any bursts,
    with more bytes behind it - an active slave whose port is free answers with
    exactly one frame, the one [read_outcome] defines from its register blocks
    (the data of the block that contains the range, or exception 2 or 3),
    leaves the following bytes on the line and keeps its invariant. *)
Theorem read_request_end_to_end w c f addr qty rest :
  slave_inv w -> smode (ctr w) = SMODE_ACTIVE -> o_trylock (os w) (tick w) = true ->
  mctx (ctr w) = Some c -> confirmation_to_ignore c = false -> is_u8 (mb_slave c) ->
  1 <= f <= 4 -> line_bytes w -> Forall is_u8 rest ->
  stream w = rtu_frame (read_request (mb_slave c) f addr qty) ++ rest ->
  exists w', mloop_round CTR w = Some (tt, w') /\
    tx w' = tx w ++ [rtu_frame (snd (fst (read_outcome (mapping_queue (ctr w))
                                            (read_request (mb_slave c) f addr qty))))] /\
    stream w' = rest /\ slave_inv w'.
Proof.
  intros Hinv Hm Ht Ec Hflag Hsl Hf Hlb Hrest Hst.
  set (pdu := read_request (mb_slave c) f addr qty) in *.
  assert (is_u8 f) as Hfu by (unfold is_u8; lia).
  pose proof (read_request_length (mb_slave c) f addr qty rest Hf) as Hlen. fold pdu in Hlen.
  pose proof (read_request_integrity c f addr qty rest Hsl Hfu) as Hint. fold pdu in Hint.
  destruct (receive_frame_eq w c (rtu_frame pdu ++ rest)) as (msg & w1 & E & Hag & Hst1 & Ec1); try done.
  { apply list.Forall_app. split; [|done]. apply list.Forall_app.
    split; repeat (apply list.Forall_cons_2; [first [done|auto with words]|]); constructor. }
  { rewrite Hlen, length_app. simpl. lia. }
  { by rewrite Hlen. }
  rewrite Hlen, Hint in *. cbn [Z.eqb Pos.eqb] in Ec1.
  destruct (receive_msg_eq w Hinv) as (r & w1' & E' & Hi1 & (_ & Htx & _) & Hgot).
  rewrite E in E'. injection E' as <- <-.
  destruct (handle_read_request w1 c f addr qty msg) as (w' & Eh & Ha & Hi' & Htx'); try done;
    [by rewrite Ec1|by rewrite Ec1| |].
  { intros i Hi. rewrite (agrees_8 _ _ i Hag) by lia. rewrite app_nth1 by (simpl; lia).
    unfold rtu_frame. by rewrite app_nth1 by (simpl; lia). }
  exists w'. split; [|split; [|split; [|done]]].
  - unfold mloop_round. erewrite bind_eq by apply wait_for_update_eq. by erewrite bind_eq by exact E.
  - rewrite Htx', Htx. by rewrite Ec1.
  - destruct Ha as (_ & _ & Hp & He & _). unfold stream. rewrite Hp, He. exact Hst1.
Qed.

Lemma read_request_end_to_end_witness :
  exists w', mloop_round CTR (loop_world SMODE_ACTIVE [RxBytes [17; 3; 0]; RxBytes [17; 0; 2; 0x96; 0x9E; 99]])
      = Some (tt, w') /\
    tx w' = [rtu_frame [17; 3; 4; 0; 8; 0; 9]] /\ stream w' = [99].
Proof.
  destruct (read_request_end_to_end
    (loop_world SMODE_ACTIVE [RxBytes [17; 3; 0]; RxBytes [17; 0; 2; 0x96; 0x9E; 99]])
    example_ctx 3 17 2 [99]) as (w' & E & Ht & Hs & _); try reflexivity; try (unfold is_u8; simpl; lia).
  - apply loop_world_inv. repeat constructor; unfold is_u8; lia.
  - repeat constructor.
  - repeat constructor; unfold is_u8; lia.
  - exists w'. split; [exact E|]. split; [|exact Hs]. rewrite Ht. reflexivity.
Defined.

(** a request to another slave silences this one for the next frame too:
    after an intact frame with another address (and not the broadcast address)
    the port expects the other slave's answer, and the following round sends
    nothing whatever frame it receives - even a request to this slave, when the
    other one is absent and does not answer. *)
Theorem frame_after_foreign_is_ignored w c s :
  slave_inv w -> o_trylock (os w) (tick w) = true ->
  mctx (ctr w) = Some c -> confirmation_to_ignore c = false ->
  line_bytes w -> Forall is_u8 s -> stream w = s ->
  request_length s <= Z.of_nat (length s) -> request_length s <= MODBUS_RTU_MAX_ADU_LENGTH ->
  crc_valid s (request_length s) ->
  nth 0 s 0 <> mb_slave c -> nth 0 s 0 <> MODBUS_BROADCAST_ADDRESS ->
  exists w1 w2, mloop_round CTR w = Some (tt, w1) /\ mloop_round CTR w1 = Some (tt, w2) /\
    stream w1 = drop (Z.to_nat (request_length s)) s /\ tx w2 = tx w.
Proof.
  intros Hinv Ht Ec Hflag Hlb Hs Hst Hl1 Hl2 Hcrc Hn1 Hn2.
  destruct (receive_frame_eq w c s) as (msg & w1 & E & Hag & Hst1 & Ec1); try done.
  assert (integrity c s (request_length s) = 0) as Hint.
  { unfold integrity. rewrite bool_decide_eq_true_2 by done.
    by rewrite (proj2 (Z.eqb_neq _ _) Hn1), (proj2 (Z.eqb_neq _ _) Hn2). }
  rewrite Hint in *. cbn [Z.eqb] in Ec1.
  destruct (receive_msg_eq w Hinv) as (r & w1' & E' & Hi1 & (_ & Htx & _) & Hgot).
  rewrite E in E'. injection E' as <- <-.
  assert (mloop_round CTR w = Some (tt, upd_state (count CntNoResp) (upd_state (count CntBusMsg) w1))) as E1.
  { unfold mloop_round. erewrite bind_eq by apply wait_for_update_eq. erewrite bind_eq by exact E.
    by apply handle_msg_refused. }
  set (w2 := upd_state _ (upd_state _ w1)) in E1.
  assert (slave_inv w2) as Hi2 by by apply inv_count, inv_count.
  assert (mctx (ctr w2) = Some (set_confirmation_to_ignore true c)) as Ec2
    by (change (mctx (ctr w1) = Some (set_confirmation_to_ignore true c)); by rewrite Ec1).
  destruct (mloop_round_cases w2 Hi2) as (w4 & E4 & _ & w3 & _ & (_ & Htx3 & _) & Hcase).
  exists w2, w4. split; [exact E1|]. split; [exact E4|]. split; [exact Hst1|].
  rewrite <- Htx. change (tx w1) with (tx w2). rewrite <- Htx3.
  destruct Hcase as [(_ & _ & ->)|(msg' & rc & Er & _ & Hr)]; [done|].
  apply (receive_confirmation _ _ _ _ _ Ec2 eq_refl) in Er as ->.
  by destruct Hr as [_|Hsv|w' Hsv].
Qed.

Lemma frame_after_foreign_is_ignored_witness :
  exists w1 w2, mloop_round CTR (loop_world SMODE_ACTIVE
      [RxBytes [18; 3; 0; 17; 0; 2; 0x96; 0xAD]; RxBytes read_frame]) = Some (tt, w1) /\
    mloop_round CTR w1 = Some (tt, w2) /\ stream w1 = read_frame /\ tx w2 = [].
Proof.
  apply (frame_after_foreign_is_ignored (loop_world SMODE_ACTIVE
      [RxBytes [18; 3; 0; 17; 0; 2; 0x96; 0xAD]; RxBytes read_frame]) example_ctx
      ([18; 3; 0; 17; 0; 2; 0x96; 0xAD] ++ read_frame)); try reflexivity; try discriminate.
  - apply loop_world_inv. repeat constructor; unfold is_u8; lia.
  - repeat constructor.
  - repeat constructor; unfold is_u8; lia.
Defined.
