(* ===== verification/System.v ===== *)
(** * System: start-up, and the two threads together

    [main.c], [app_mslave_init_ctr] and [app_mslave_ipc_load_conf]: how the
    process starts; [pthandler_mslave_ipc_service] and [app_mslave_mloop]: the
    two threads that share the controller, as a step relation whose steps are
    a round of the main loop, an update by the IPC thread, and the arrival of
    bytes. *)

From S2P Require Import Prelude Crc16 Machine Libmodbus SlaveState Layout SlaveMapping SlaveHandlers.
From S2P Require Import SlaveDiag SlaveFile SlaveConfig RegTable SlaveLoop.
From Stdlib Require Import ZArith Lia ZifyBool List Bool.
From stdpp Require Import base list numbers relations.
Open Scope Z_scope.
Open Scope m_scope.

(** ** Start-up *)

Definition zero_gateway : gatewayTableData_t := GwConf 0 0 (ModbusConfig 0 0 0 0 0) [].

(** How the compiler lays out the structures of the shared memory, and the
    files that hold alarm codes. *)
Record shm_layout := ShmLayout {
  sizeof_item : Z; sizeof_item_original : Z; sizeof_sensor_data : Z;
  item_type : list Z -> Z; item_gateway : list Z -> gatewayTableData_t;
  item_device : list Z -> deviceTableData_t; item_sensor_data : list Z -> sensorDataTableData_t;
  alarm_file : list Z -> alarm_read
}.

Section system.
Context (L : shm_layout) (Lsize : 0 <= sizeof_sensor_data L).

(** The results of [pthread_mutex_init], [app_mslave_ipc_create_shmem] and
    [app_mslave_ipc_create_sem], which only talk to the system. *)
Context (mutex_init : mutex -> Z) (create_shmem create_sem : Z).

(** After an error the queue is destroyed. *)
Definition app_mslave_init_ctr (p : ptr) : M Z :=
  if is_null p then ret ERR_INVALID_PARAM
  else
    let fail := modify_ctr (with_mapping_queue []) ;; ret ERR_API_FAIL in
    modify_ctr (with_smode SMODE_ACTIVE) ;;
    modify_ctr (fun c =>
      match to_set_port_conf_default (Some (port_conf c)) with
      | Some pc => with_port_conf pc c
      | None => c
      end) ;;
    if negb (mutex_init mtx_for_port_conf =? 0) then fail
    else
      modify_ctr (with_mctx None) ;;
      modify_ctr (with_mbus_border MBUS_BORDER_CDAB) ;;
      modify_ctr (with_mapping_queue []) ;;
      if negb (mutex_init mtx_for_mapping_queue =? 0) then fail
      else
        modify_ctr (with_state_set zero_state_set) ;;
        if negb (mutex_init mtx_for_state_set =? 0) then fail
        else
          modify_ctr (with_ch_input_delimiter 0) ;;
          modify_ctr (with_freading_buf_queue []) ;;
          if negb (mutex_init mtx_for_freading_buf_queue =? 0) then fail
          else
            modify_ctr (with_gwconf zero_gateway) ;;
            modify_ctr (with_dev_array (replicate SENSORS zero_device)) ;;
            if negb (create_shmem =? ERR_NONE) then fail
            else if negb (create_sem =? ERR_NONE) then fail
            else
              modify_ctr (with_to_force_dev_update false) ;;
              modify_ctr (with_to_force_sdata_update false) ;;
              ret create_sem.

Definition load_gwcfg (shm : list Z) : M Z :=
  to_load_gwcfg_from_shmem (sizeof_item L) (item_type L) (item_gateway L) CTR shm.
Definition load_devlist (shm : list Z) : M Z :=
  to_load_devlist_from_shmem (sizeof_item L) (item_type L) (item_device L) CTR shm.

(** The configuration is taken over: true when it could be translated. *)
Definition take_conf : M bool :=
  pthread_mutex_lock CTR mtx_for_port_conf ;;
  let* c := deref CTR in
  let r := app_mslave_ipc_set_port_conf (Some (port_conf c)) (Some (modbusConfig (gwconf c))) in
  (match fst r with
   | Some pc => put_ctr (with_slave_id (pc_slaveID pc) (with_port_conf pc c))
   | None => ret tt
   end) ;;
  pthread_mutex_unlock CTR mtx_for_port_conf ;;
  ret (snd r =? ERR_NONE).

(** One turn of the loop of [app_mslave_ipc_load_conf]: true when it breaks. *)
Definition load_conf_turn (shm : list Z) : M bool :=
  let* tpret := load_gwcfg shm in
  if negb (tpret =? ERR_NONE) then ret false
  else
    let* tpret := load_devlist shm in
    if negb (tpret =? ERR_NONE) then ret false
    else
      let* c := deref CTR in
      if is_gateway_conf_valid (gwconf c) then take_conf else ret false.

(** The loop, over what the shared memory holds at each turn; false when it
    still waits at the end. *)
Fixpoint app_mslave_ipc_load_conf (shms : list (list Z)) : M bool :=
  match shms with
  | [] => ret false
  | shm :: shms =>
      let* ready := load_conf_turn shm in
      if ready : bool then ret true else app_mslave_ipc_load_conf shms
  end.

Definition main_rest (shms : list (list Z)) : M bool :=
  let* ready := app_mslave_ipc_load_conf shms in
  if negb ready then ret false
  else
    let* _ := app_mslave_init_port CTR in
    let* _ := app_mslave_release_mapping CTR in
    let* _ := app_mslave_create_mapping CTR in
    ret true.

(** [main] up to the creation of the IPC thread. False: it still waits for a
    configuration, or the controller could not be initialised (the program
    then runs on without a mapping queue, which is not modelled). *)
Definition main_start (shms : list (list Z)) : M bool :=
  let* rc := app_mslave_init_ctr CTR in
  if negb (rc =? ERR_NONE) then ret false else main_rest shms.

(** What [pthandler_mslave_ipc_service] does before it sleeps, with [shm] in
    the shared memory. *)
Definition ipc_update (shm : list Z) : M Z :=
  to_update_mslave_mapping (load_gwcfg shm) (load_devlist shm)
    (let* _ := to_check_sdata_hash_value (sizeof_item L) CTR shm in ret tt)
    (to_update_sdata_register (sizeof_item L) (sizeof_item_original L) (sizeof_sensor_data L)
       (item_sensor_data L) (alarm_file L) CTR shm) CTR.

(** ** The system *)

(** The shared memory has its size. *)
Definition shm_ok (shm : list Z) : Prop := APP_SHM_TOTAL_SIZE <= Z.of_nat (length shm).

Inductive sys_step : world -> world -> Prop :=
  | StepLoop w w' : mloop_round CTR w = Some (tt, w') -> sys_step w w'
  | StepUpdate shm rc w w' : shm_ok shm -> ipc_update shm w = Some (rc, w') -> sys_step w w'
  | StepLine es w : Forall (fun e => Forall is_u8 (event_bytes e)) es ->
      sys_step w (set_rx (rx_pending w) (rx_events w ++ es) w).

(** ** The invariant of the system *)

Definition ctr_fine (c : controller) : Prop :=
  ctr_ok c /\ reg_queue_ok (mapping_queue c) /\ 1 <= pc_slaveID (port_conf c) <= 247.

Definition sys_ok (w : world) : Prop := line_ok w /\ ctr_fine (ctr w) /\ remap_ok (remap w).

(** Between the steps of a thread no mutex is held. *)
Definition sys_inv (w : world) : Prop := sys_ok w /\ held w = [].

Lemma sys_inv_slave w : sys_inv w -> slave_inv w.
Proof. intros ((Hl & (Hc & _) & _) & Hh). done. Qed.

Section keeping.
(** A further fact on the port configuration, the flag that asks for a new
    mapping, and the queue. *)
Context (K : port_conf_info -> bool -> list modbus_mapping_t -> Prop).

Definition ctr_kept (c : controller) : Prop :=
  ctr_fine c /\ K (port_conf c) (to_force_dev_update c) (mapping_queue c).
Definition sys_kept (w : world) : Prop := line_ok w /\ ctr_kept (ctr w) /\ remap_ok (remap w).

(** [m], started with the mutexes [h], is defined, keeps the invariant and the
    fact, and ends with the mutexes [h']. *)
Definition keeps {A} (h : list mutex) (m : M A) (h' : list mutex) : Prop :=
  forall w, sys_kept w -> held w = h -> exists x w', m w = Some (x, w') /\ sys_kept w' /\ held w' = h'.

Lemma keeps_ret {A} (x : A) h : keeps h (ret x) h.
Proof. intros w Hw Hh. by exists x, w. Qed.

Lemma keeps_bind {A B} (m : M A) (k : A -> M B) h h1 h2 :
  keeps h m h1 -> (forall x, keeps h1 (k x) h2) -> keeps h (bind m k) h2.
Proof.
  intros Hm Hk w Hw Hh. destruct (Hm w Hw Hh) as (x & w1 & E & Hw1 & Hh1).
  destruct (Hk x w1 Hw1 Hh1) as (y & w2 & E2 & H2). exists y, w2.
  by erewrite bind_eq by exact E.
Qed.

Lemma keeps_modify f h : (forall c, ctr_kept c -> ctr_kept (f c)) -> keeps h (modify_ctr f) h.
Proof.
  intros Hf w (Hl & Hc & Hr) Hh. exists tt, (set_ctr (f (ctr w)) w).
  split; [done|]. split; [|done]. split; [done|]. split; [by apply Hf|done].
Qed.

(** Reading the controller: what follows may use that it is fine. *)
Lemma keeps_deref {B} (k : controller -> M B) h h' :
  (forall c, ctr_kept c -> keeps h (k c) h') -> keeps h (bind (deref CTR) k) h'.
Proof.
  intros Hk w Hw Hh. change (bind (deref CTR) k w) with (k (ctr w) w).
  apply Hk; [apply Hw|done|done].
Qed.

(** A computation that only reads. *)
Lemma keeps_read {A} (m : M A) h :
  (forall w, sys_kept w -> held w = h -> exists x, m w = Some (x, w)) -> keeps h m h.
Proof. intros Hm w Hw Hh. destruct (Hm w Hw Hh) as [x E]. by exists x, w. Qed.

Lemma keeps_if {A} (b : bool) (m1 m2 : M A) h h' :
  (b = true -> keeps h m1 h') -> (b = false -> keeps h m2 h') -> keeps h (if b then m1 else m2) h'.
Proof. destruct b; auto. Qed.

Lemma keeps_lock m h : holds m h = false -> keeps h (pthread_mutex_lock CTR m) (m :: h).
Proof.
  intros Hm w Hw Hh. unfold pthread_mutex_lock. cbn [is_null]. rewrite Hh, Hm. by eexists _, _.
Qed.

Lemma keeps_unlock m h : holds m h = false -> keeps (m :: h) (pthread_mutex_unlock CTR m) h.
Proof.
  intros Hm w Hw Hh. unfold pthread_mutex_unlock. cbn [is_null]. rewrite Hh, holds_cons.
  eexists _, _. split; [done|]. split; [done|]. by apply drop_mutex_held.
Qed.

Lemma keeps_trylock {B} m (k : bool -> M B) h h' : holds m h = false ->
  keeps (m :: h) (k true) h' -> keeps h (k false) h' -> keeps h (bind (pthread_mutex_trylock CTR m) k) h'.
Proof.
  intros Hm Ht Hf w Hw Hh. unfold bind, pthread_mutex_trylock. cbn [is_null]. rewrite Hh, Hm.
  destruct (o_trylock _ _); [apply Ht|apply Hf]; done.
Qed.

(** A computation whose effect is known. *)
Lemma keeps_eq {A} (m : M A) h h' :
  (forall w, sys_kept w -> held w = h -> exists x w', m w = Some (x, w') /\ sys_kept w' /\ held w' = h') ->
  keeps h m h'.
Proof. done. Qed.

Create HintDb keeps.

(** One step through a computation; setters of the other fields keep [ctr_kept]
    by computation. *)
Ltac keeps_step :=
  lazymatch goal with
  | |- keeps _ (ret _) _ => apply keeps_ret
  | |- keeps _ (bind (deref CTR) _) _ => apply keeps_deref; intros ? ?
  | |- keeps _ (bind (pthread_mutex_trylock CTR _) _) _ => apply keeps_trylock; [done| |]
  | |- keeps _ (bind _ _) _ => eapply keeps_bind; [|intros ?]
  | |- keeps _ (pthread_mutex_lock CTR _) _ => apply keeps_lock; done
  | |- keeps _ (pthread_mutex_unlock CTR _) _ => apply keeps_unlock; done
  | |- keeps _ (if _ then _ else _) _ => apply keeps_if; intros ?; try discriminate
  | |- keeps _ (modify_ctr _) _ => apply keeps_modify; try (intros ? ?; assumption);
      try (intros ? [? ?]; split; [assumption|solve [auto]])
  | |- keeps _ (match ?x with Some _ => _ | None => _ end) _ => destruct x
  | |- keeps _ _ _ => solve [eauto with keeps]
  end.
Ltac keeps_steps := repeat (keeps_step; cbv beta iota zeta; cbn [is_null]).

(** ** Loading the configuration keeps the invariant *)

Lemma elfhash_defined bytes n : n <= Z.of_nat (length bytes) ->
  exists h, util_tool_cal_elfhash (Some bytes) n = Some h.
Proof. intros H. unfold util_tool_cal_elfhash. rewrite (proj2 (Z.leb_le _ _) H). by eexists. Qed.

(** A copy out of the shared memory, followed by [k]. *)
Lemma keeps_copy {B} shm i n (k : list Z -> M B) h h' :
  0 <= i -> 0 <= n -> i + n <= Z.of_nat (length shm) -> keeps h (k (slice shm i n)) h' ->
  keeps h (bind (memcpy (zeros n) 0 shm i n) k) h'.
Proof.
  intros Hi Hn Hl Hk w Hw Hh. erewrite bind_eq by (apply load_into_zeros; done). by apply Hk.
Qed.

Lemma keeps_load_gwcfg shm h : shm_ok shm -> keeps h (load_gwcfg shm) h.
Proof.
  intros Hs. unfold load_gwcfg, to_load_gwcfg_from_shmem, shm_ok in *.
  change APP_SHM_TOTAL_SIZE with 1191936 in Hs.
  apply keeps_copy; [lia|done|unfold APP_SHM_GATEWAY_TABLE_ITEM_SIZE; lia|].
  apply keeps_if; intros _; [apply keeps_ret|].
  destruct (elfhash_defined (slice shm 0 APP_SHM_GATEWAY_TABLE_ITEM_SIZE) APP_SHM_GATEWAY_TABLE_ITEM_SIZE)
    as [hash ->].
  { rewrite length_slice; unfold APP_SHM_GATEWAY_TABLE_ITEM_SIZE; lia. }
  keeps_steps.
Qed.
#[local] Hint Resolve keeps_load_gwcfg : keeps.

Lemma keeps_load_devices shm n i h : shm_ok shm -> (i + n <= 40)%nat ->
  keeps h (load_devices (item_type L) (item_device L) n i shm) h.
Proof.
  intros Hs. unfold shm_ok in Hs. change APP_SHM_TOTAL_SIZE with 1191936 in Hs.
  revert i. induction n as [|n IH]; intros i Hi; cbn [load_devices]; [apply keeps_ret|].
  eapply keeps_bind.
  { unfold load_device. apply keeps_copy.
    4: apply keeps_ret.
    all: unfold APP_SHM_DEV_TABLE_ADDR_OFFSET, APP_SHM_DEV_TABLE_ITEM_SIZE, APP_SHM_GATEWAY_TABLE_ITEM_SIZE; lia. }
  intros d. eapply keeps_bind; [|intros _; apply IH; lia].
  apply keeps_modify. intros c (((H1 & H2 & H3 & H4 & H5 & H6) & Hc) & HK).
  split; [|done]. split; [|done]. do 5 (split; [done|]). cbn [dev_array with_dev_array]. by rewrite length_insert.
Qed.

Lemma keeps_load_devlist shm h : shm_ok shm -> keeps h (load_devlist shm) h.
Proof.
  intros Hs. unfold load_devlist, to_load_devlist_from_shmem. cbn [is_null].
  apply keeps_if; intros _; [apply keeps_ret|].
  destruct (elfhash_defined (drop (Z.to_nat APP_SHM_DEV_TABLE_ADDR_OFFSET) shm)
    (APP_SHM_DEV_TABLE_ITEM_SIZE * APP_SHM_DEV_TABLE_ITEM_MAX)) as [hash ->].
  { rewrite length_drop. unfold shm_ok in Hs. change APP_SHM_TOTAL_SIZE with 1191936 in Hs.
    unfold APP_SHM_DEV_TABLE_ADDR_OFFSET, APP_SHM_DEV_TABLE_ITEM_SIZE, APP_SHM_DEV_TABLE_ITEM_MAX,
      APP_SHM_GATEWAY_TABLE_ITEM_SIZE. lia. }
  keeps_steps; by apply keeps_load_devices.
Qed.
#[local] Hint Resolve keeps_load_devlist : keeps.

Lemma keeps_check_hash shm h : shm_ok shm ->
  keeps h (to_check_sdata_hash_value (sizeof_item L) CTR shm) h.
Proof.
  intros Hs. unfold to_check_sdata_hash_value. cbn [is_null].
  apply keeps_if; intros _; [apply keeps_ret|].
  edestruct (elfhash_defined (drop (Z.to_nat (APP_SHM_SENSORDATA_TABLE_ADDR_OFFSET mod APP_SHM_TOTAL_SIZE)) shm))
    as [hash ->].
  { rewrite length_drop. unfold shm_ok in Hs. change APP_SHM_TOTAL_SIZE with 1191936 in *.
    change (Z.to_nat (APP_SHM_SENSORDATA_TABLE_ADDR_OFFSET mod 1191936)) with (Z.to_nat 43008).
    change (APP_SHM_SENSORDATA_TABLE_ITEM_SIZE * 40) with 1146880. lia. }
  keeps_steps.
Qed.
#[local] Hint Resolve keeps_check_hash : keeps.

(** ** The update keeps the invariant *)

Lemma keeps_reinit_port h : keeps h (reinit_port CTR) h.
Proof.
  intros w (Hl & ((Hc & Hq & Hp) & HK) & Hr) Hh.
  destruct (is_gateway_conf_valid (gwconf (ctr w))) eqn:Hv.
  - destruct (reinit_port_eq w Hv) as (e & t & E). eexists _, _. split; [exact E|].
    destruct (is_port_conf_modified _ _); [|done].
    split; [|done]. split; [done|]. split; [|done]. split; [|done]. split; [|done].
    destruct Hc as (_ & _ & Hc). split; [done|]. split; [|done]. intros port [=].
  - exists false, w. split; [|done]. unfold reinit_port, bind, deref, get_ctr. by rewrite Hv.
Qed.
#[local] Hint Resolve keeps_reinit_port : keeps.

Lemma keeps_update_port hash : keeps [] (update_port CTR hash) [].
Proof.
  unfold update_port, app_mslave_ipc_get_force_gwconf_update, app_mslave_set_to_update_mslave,
    app_mslave_ipc_set_force_gwconf_update. cbn [is_null].
  keeps_steps.
Qed.
#[local] Hint Resolve keeps_update_port : keeps.

(** From here on no further fact is kept. *)
Section fine.
Context (Kfree : forall pc b q, K pc b q).

Lemma sys_kept_ok w : sys_ok w -> sys_kept w.
Proof. intros (Hl & Hc & Hr). split; [done|]. split; [|done]. split; [done|apply Kfree]. Qed.
Lemma sys_ok_kept w : sys_kept w -> sys_ok w.
Proof. intros (Hl & (Hc & _) & Hr). done. Qed.

Lemma keeps_ok {A} (m : M A) h h' :
  (forall w, sys_ok w -> held w = h -> exists x w', m w = Some (x, w') /\ sys_ok w' /\ held w' = h') ->
  keeps h m h'.
Proof.
  intros Hm w Hw Hh. destruct (Hm w (sys_ok_kept w Hw) Hh) as (x & w' & E & Hw' & Hh').
  exists x, w'. split; [done|]. split; [by apply sys_kept_ok|done].
Qed.

Lemma regs_blocks_fine info q : remap_ok info -> Forall (is_regs_block info) q ->
  Forall mapping_ok q /\ reg_queue_ok q.
Proof.
  intros Hr. induction 1 as [|m q (addr & num & -> & Hm) _ [IH1 IH2]]; [split; constructor|].
  specialize (Hm Hr).
  assert (E : num = Z.of_nat (length (zeros num))) by (unfold zeros; rewrite length_replicate; lia).
  split; (constructor; [|done]); [done|]. split; [exact E|].
  unfold fits16. cbn [group_start group_size start_registers nb_registers regs_block]. lia.
Qed.

(** A new queue of blocks as the code creates them. *)
Lemma sys_ok_rebuilt w q t : sys_ok w -> Forall (is_regs_block (remap w)) q -> sys_ok (rebuilt q t w).
Proof.
  intros (Hl & (Hc & Hq & Hp) & Hr) H. destruct (regs_blocks_fine _ _ Hr H) as [H1 H2].
  split; [done|]. split; [|done]. split; [|done]. destruct Hc as (C1 & C2 & C3 & C4). done.
Qed.

Lemma sys_ok_dev w : sys_ok w -> length (dev_array (ctr w)) = SENSORS.
Proof. intros (_ & ((_ & _ & _ & _ & _ & H) & _) & _). exact H. Qed.

Lemma free_no_mutex m w : held w = [] -> free m w.
Proof. intros H. unfold free. by rewrite H. Qed.

Lemma keeps_create_extensible : keeps [] (to_create_extensible_reg_mapping_v2 CTR) [].
Proof.
  apply keeps_ok. intros w Hw Hh.
  destruct (create_extensible_v2_eq w) as (rc & q & t & E & Hq & _);
    [by apply free_no_mutex|by apply sys_ok_dev|].
  eexists _, _. split; [exact E|]. split; [by apply sys_ok_rebuilt|done].
Qed.
#[local] Hint Resolve keeps_create_extensible : keeps.

Lemma keeps_create_efficient : keeps [] (to_create_efficient_reg_mapping CTR) [].
Proof.
  apply keeps_ok. intros w Hw Hh.
  destruct (create_efficient_eq w) as (q & t & r & E & Hq & Hr & _);
    [by apply free_no_mutex|by apply sys_ok_dev|].
  eexists _, _. split; [exact E|]. split; [|done].
  destruct (sys_ok_rebuilt w q t Hw Hq) as (H1 & H2 & H3). split; [done|]. split; [done|].
  destruct Hr as [->|(a & b & c & d & e & f & g & i & ->)]; [done|]. by intros [=].
Qed.
#[local] Hint Resolve keeps_create_efficient : keeps.

Lemma keeps_create_mapping : keeps [] (app_mslave_create_mapping CTR) [].
Proof.
  unfold app_mslave_create_mapping, app_mslave_set_to_update_mslave. cbn [is_null].
  apply keeps_trylock; [done| |keeps_steps]. cbn [negb]. keeps_steps.
  destruct (pc_reg_md _); [apply keeps_create_extensible|apply keeps_create_efficient|apply keeps_ret].
Qed.
#[local] Hint Resolve keeps_create_mapping : keeps.

Lemma keeps_update_mapping hash b : keeps [] (update_mapping CTR hash b) [].
Proof.
  unfold update_mapping, app_mslave_ipc_get_force_dev_update, app_mslave_ipc_set_force_dev_update,
    app_mslave_ipc_set_force_sdata_update. cbn [is_null].
  keeps_steps.
Qed.
#[local] Hint Resolve keeps_update_mapping : keeps.

Lemma reshaped_mapping_ok q q' : reshaped q q' -> Forall mapping_ok q -> Forall mapping_ok q'.
Proof.
  induction 1 as [|m m' q q' [E Hl] _ IH]; intros Hq; [constructor|].
  apply Forall_cons_iff in Hq as [(M1 & M2 & M3 & M4) Hq]. constructor; [|by apply IH].
  rewrite E. split; [done|]. split; [done|]. split; [|done]. cbn. by rewrite Hl.
Qed.

Lemma keeps_update_sdata shm : shm_ok shm ->
  keeps [] (to_update_sdata_register (sizeof_item L) (sizeof_item_original L) (sizeof_sensor_data L)
       (item_sensor_data L) (alarm_file L) CTR shm) [].
Proof.
  intros Hs. apply keeps_ok. intros w (Hl & ((C1 & C2 & C3 & C4 & C5 & C6) & Hq & Hp) & Hr) Hh.
  destruct (update_sdata_register_eq (sizeof_item L) (sizeof_item_original L) (sizeof_sensor_data L)
    (item_sensor_data L) (alarm_file L) Lsize shm Hs w) as (q & rc & E & _ & Hq');
    [split; [by apply free_no_mutex|done]|].
  eexists _, _. split; [exact E|]. split; [|done]. split; [done|]. split; [|done].
  split; [|split; [by eapply reshaped_queue_ok|done]].
  split; [done|]. split; [done|]. split; [by eapply reshaped_mapping_ok|done].
Qed.
#[local] Hint Resolve keeps_update_sdata : keeps.

Lemma keeps_ipc_update shm : shm_ok shm -> keeps [] (ipc_update shm) [].
Proof.
  intros Hs. unfold ipc_update, to_update_mslave_mapping, app_mslave_ipc_set_force_sdata_update,
    app_mslave_ipc_get_force_sdata_update. cbn [is_null].
  keeps_steps.
Qed.

(** ** Start-up establishes and keeps the invariant *)

Definition with_conf (pc : port_conf_info) (w : world) : world :=
  set_ctr (with_slave_id (pc_slaveID pc) (with_port_conf pc (ctr w))) w.

Lemma take_conf_eq w : free mtx_for_port_conf w -> is_gateway_conf_valid (gwconf (ctr w)) = true ->
  take_conf w = Some (true, with_conf (conf_of (modbusConfig (gwconf (ctr w)))) w).
Proof.
  intros Hf Hv. unfold take_conf. rewrite lock_eq by done.
  change (bind (deref CTR) ?k ?w) with (k (ctr w) w). cbv beta zeta. cbn [ctr set_held].
  rewrite set_port_conf_eq by done. cbn [fst snd]. erewrite bind_eq by done.
  change (set_ctr ?c (set_held ?h w)) with (set_held h (set_ctr c w)).
  rewrite unlock_ret_eq by done. unfold with_conf. by destruct w.
Qed.

Lemma keeps_load_conf_turn shm : shm_ok shm -> keeps [] (load_conf_turn shm) [].
Proof.
  intros Hs. unfold load_conf_turn.
  eapply keeps_bind; [by apply keeps_load_gwcfg|intros rc]. apply keeps_if; intros _; [apply keeps_ret|].
  eapply keeps_bind; [by apply keeps_load_devlist|intros rc']. apply keeps_if; intros _; [apply keeps_ret|].
  apply keeps_ok. intros w Hw Hh. change (bind (deref CTR) ?k w) with (k (ctr w) w). cbv beta.
  destruct (is_gateway_conf_valid (gwconf (ctr w))) eqn:Hv; [|by exists false, w].
  eexists _, _. split; [apply take_conf_eq; [by apply free_no_mutex|done]|]. split; [|done].
  destruct (valid_conf _ Hv) as (_ & _ & _ & Ha & _). destruct Hw as (Hl & (Hc & Hq & _) & Hr). done.
Qed.
#[local] Hint Resolve keeps_load_conf_turn : keeps.

Lemma keeps_load_conf shms : Forall shm_ok shms -> keeps [] (app_mslave_ipc_load_conf shms) [].
Proof.
  induction 1 as [|shm shms Hs _ IH]; cbn [app_mslave_ipc_load_conf]; [apply keeps_ret|].
  eapply keeps_bind; [by apply keeps_load_conf_turn|]. intros []; [apply keeps_ret|apply IH].
Qed.

Lemma keeps_new_rtu b p d s h : keeps h (modbus_new_rtu b p d s) h.
Proof.
  intros w Hw Hh. unfold modbus_new_rtu, malloc_ok, ask, bind, put_errno, ret.
  repeat case_match; simplify_eq; eexists _, _; (split; [done|]); (split; [apply Hw|done]).
Qed.

Lemma keeps_connect {B} ctx (k : option modbus_t -> M B) h h' :
  (forall r, (r = None \/ exists c, r = Some c /\ mb_connected c = true /\ mb_slave c = mb_slave ctx) ->
     keeps h (k r) h') ->
  keeps h (bind (modbus_connect ctx) k) h'.
Proof.
  intros Hk w Hw Hh. unfold modbus_connect, ask, bind. destruct (o_connect _ _).
  - apply (Hk (Some _)); [|apply Hw|done]. right. by eexists.
  - apply (Hk None); [by left|apply Hw|done].
Qed.

(** The port: a context with the configured address, which is not 0. *)
Lemma keeps_init_port : keeps [] (app_mslave_init_port CTR) [].
Proof.
  unfold app_mslave_init_port. cbn [is_null]. eapply keeps_bind; [by apply keeps_lock|intros _].
  apply keeps_deref. intros c ((_ & _ & Hp) & _). cbv zeta.
  eapply keeps_bind; [apply keeps_new_rtu|]. intros [port|]; [|keeps_steps].
  unfold modbus_set_slave. rewrite (proj2 (Z.leb_le 0 _)), (proj2 (Z.leb_le _ 247)) by lia.
  cbn [andb]. match goal with |- keeps _ (bind (ret ?x) ?k) _ => change (bind (ret x) k) with (k x) end.
  cbv beta. apply keeps_connect. cbn [mb_slave].
  intros r [->|(port' & -> & Hc & Hs)]; [keeps_steps|]. unfold app_mslave_set_mctx. cbn [is_null].
  apply (keeps_bind _ _ _ [mtx_for_port_conf]); [|intros _; keeps_steps].
  apply (keeps_bind _ _ _ [mtx_for_port_conf]); [|intros _; apply keeps_ret].
  apply keeps_modify. intros c' (((_ & _ & H) & H') & _). split; [|apply Kfree]. split; [|done]. split; [exact Hc|]. split; [|done].
  intros ? [= <-]. rewrite Hs. unfold MODBUS_BROADCAST_ADDRESS. lia.
Qed.
#[local] Hint Resolve keeps_init_port : keeps.

Lemma keeps_release_mapping : keeps [] (app_mslave_release_mapping CTR) [].
Proof.
  unfold app_mslave_release_mapping. eapply keeps_bind; [by apply keeps_lock|intros _].
  intros w Hw Hh. change (bind (deref CTR) ?k ?w) with (k (ctr w) w). cbv beta.
  rewrite filter_rm_all. erewrite bind_eq by done.
  assert (Hu : keeps [mtx_for_mapping_queue]
    (pthread_mutex_unlock CTR mtx_for_mapping_queue ;; ret ERR_NONE) []) by keeps_steps.
  apply Hu; [apply sys_kept_ok|cbn; by rewrite Hh].
  destruct (sys_ok_kept w Hw) as (Hl & ((C1 & C2 & C3 & C4) & Hq & Hp) & Hr).
  split; [done|]. split; [|done]. split; [|split; [constructor|done]]. done.
Qed.
#[local] Hint Resolve keeps_release_mapping : keeps.

(** The part of [main] that follows the initialisation of the controller. *)
Lemma keeps_start shms : Forall shm_ok shms -> keeps [] (main_rest shms) [].
Proof.
  intros Hs. unfold main_rest.
  eapply keeps_bind; [by apply keeps_load_conf|]. intros []; cbn [negb]; keeps_steps.
Qed.
End fine.
End keeping.

(** The state in which the process starts: nothing was initialised, so only
    what no function sets is known. *)
Definition boot_ok (w : world) : Prop := line_ok w /\ remap_ok (remap w) /\ held w = [].

(** The controller after a successful initialisation. *)
Definition initialised (c : controller) : controller :=
  Controller SMODE_ACTIVE (slave_id c) None (PortConf 115200 PARITY_NONE SBIT_1 1 REG_MD_EXTENSIBLE)
    (to_update_mslave_req c) MBUS_BORDER_CDAB [] zero_state_set 0 [] zero_gateway (gwconf_hash c)
    (to_force_gwconf_update c) (replicate SENSORS zero_device) (dev_hash c) false (sdata_hash c) false.

Lemma modify_then {B} f (k : M B) w : (modify_ctr f ;; k) w = k (set_ctr (f (ctr w)) w).
Proof. done. Qed.

(** One assignment, with the controller kept in the form of a record. *)
Ltac modify_step :=
  rewrite modify_then; cbn [ctr set_ctr with_smode with_port_conf with_mctx with_mbus_border
    with_mapping_queue with_state_set with_ch_input_delimiter with_freading_buf_queue with_gwconf
    with_dev_array with_to_force_dev_update with_to_force_sdata_update
    smode slave_id mctx port_conf to_update_mslave_req mbus_border mapping_queue state_set
    ch_input_delimiter freading_buf_queue gwconf gwconf_hash to_force_gwconf_update dev_array dev_hash
    to_force_dev_update sdata_hash to_force_sdata_update to_set_port_conf_default
    errno held tx rx_pending rx_events remap os tick].

Lemma init_ctr_eq w :
  exists rc w', app_mslave_init_ctr CTR w = Some (rc, w') /\
    (rc = ERR_NONE /\ w' = set_ctr (initialised (ctr w)) w \/ rc = ERR_API_FAIL).
Proof.
  unfold app_mslave_init_ctr. cbn [is_null]. cbv zeta. destruct w as [[] e h t rp re rm o tk].
  repeat modify_step.
  destruct (mutex_init mtx_for_port_conf =? 0); cbn [negb]; [|eexists _, _; split; [reflexivity|by right]].
  repeat modify_step.
  destruct (mutex_init mtx_for_mapping_queue =? 0); cbn [negb]; [|eexists _, _; split; [reflexivity|by right]].
  repeat modify_step.
  destruct (mutex_init mtx_for_state_set =? 0); cbn [negb]; [|eexists _, _; split; [reflexivity|by right]].
  repeat modify_step.
  destruct (mutex_init mtx_for_freading_buf_queue =? 0); cbn [negb];
    [|eexists _, _; split; [reflexivity|by right]].
  repeat modify_step.
  destruct (create_shmem =? ERR_NONE); cbn [negb]; [|eexists _, _; split; [reflexivity|by right]].
  destruct (Z.eqb_spec create_sem ERR_NONE) as [->|]; cbn [negb];
    [|eexists _, _; split; [reflexivity|by right]].
  repeat modify_step. eexists _, _. split; [reflexivity|]. left. done.
Qed.

Lemma initialised_fine c : ctr_fine (initialised c).
Proof.
  split; [|split; [constructor|by vm_compute]]. split; [done|]. split; [done|]. split; [constructor|].
  split; [apply state_ok_zero|]. split; [split; constructor|]. by vm_compute.
Qed.

Lemma main_start_ok shms w : boot_ok w -> Forall shm_ok shms ->
  exists b w', main_start shms w = Some (b, w') /\ (b = true -> sys_inv w').
Proof.
  intros (Hl & Hr & Hh) Hs. unfold main_start.
  destruct (init_ctr_eq w) as (rc & w1 & E & [[-> ->]| ->]).
  2: { erewrite bind_eq by exact E. by exists false, w1. }
  erewrite bind_eq by exact E. cbn [negb Z.eqb ERR_NONE].
  pose proof (keeps_start (fun _ _ _ => True) (fun _ _ _ => I) shms Hs) as Hk.
  destruct (Hk (set_ctr (initialised (ctr w)) w)) as (b & w' & E' & Hw' & Hh').
  - split; [exact Hl|]. split; [split; [apply initialised_fine|done]|exact Hr].
  - exact Hh.
  - exists b, w'. split; [done|]. intros _. split; [by apply sys_ok_kept in Hw'|done].
Qed.

(** ** The steps of the system *)

(** A round of the main loop leaves the configuration and the blocks alone. *)
Lemma mloop_round_frame w w' : slave_inv w -> mloop_round CTR w = Some (tt, w') ->
  slave_inv w' /\ mapping_queue (ctr w') = mapping_queue (ctr w) /\
  port_conf (ctr w') = port_conf (ctr w) /\
  to_force_dev_update (ctr w') = to_force_dev_update (ctr w) /\ remap w' = remap w.
Proof.
  intros Hi E. destruct (mloop_round_cases w Hi) as (w2 & E2 & Hi2 & w1 & _ & Ha & Hc).
  rewrite E in E2. injection E2 as <-. split; [done|].
  destruct Ha as ((ctx & Ec & _) & _ & _ & Er & _).
  enough (mapping_queue (ctr w') = mapping_queue (ctr w1) /\ port_conf (ctr w') = port_conf (ctr w1) /\
    to_force_dev_update (ctr w') = to_force_dev_update (ctr w1) /\ remap w' = remap w1) as H.
  { rewrite Ec, Er in H. exact H. }
  destruct Hc as [(_ & _ & ->)|(msg & rc & _ & _ & Hr)]; [done|].
  destruct Hr as [_|_ _|w' _ _ _ Ha _]; [done| |].
  - unfold restarted. by case_match.
  - destruct Ha as (_ & _ & _ & _ & E1 & _ & _ & E2 & _ & E3 & _ & E4). done.
Qed.

Section steps.
Context (K : port_conf_info -> bool -> list modbus_mapping_t -> Prop).

Definition sys_at (w : world) : Prop := sys_kept K w /\ held w = [].

(** The steps keep a fact that the update keeps. *)
Lemma sys_step_keeps w w' : (forall shm, shm_ok shm -> keeps K [] (ipc_update shm) []) ->
  sys_at w -> sys_step w w' -> sys_at w'.
Proof.
  intros Hu ((Hl & ((Hc & Hq & Hp) & HK) & Hr) & Hh). destruct 1 as [w w' E|shm rc w w' Hs E|es w He].
  - destruct (mloop_round_frame w w') as ((Hh' & Hl' & Hc') & E1 & E2 & E3 & E4); [done|done|].
    split; [|done]. split; [done|]. rewrite E4. split; [|done]. unfold ctr_kept, ctr_fine.
    by rewrite E1, E2, E3.
  - destruct (Hu shm Hs w) as (x & w2 & E2 & H2 & Hh2); [done|done|].
    rewrite E in E2. injection E2 as <- <-. done.
  - split; [|done]. split; [|done]. destruct Hl as [Hl1 Hl2]. split; [done|].
    cbn [rx_events set_rx]. by apply list.Forall_app.
Qed.

Lemma sys_steps_keep w w' : (forall shm, shm_ok shm -> keeps K [] (ipc_update shm) []) ->
  sys_at w -> rtc sys_step w w' -> sys_at w'.
Proof. intros Hu H. induction 1 as [|w1 w2 w3 Hs _ IH]; [done|]. apply IH. by eapply sys_step_keeps. Qed.
End steps.

(** C4: the system is safe. The start-up is defined whatever the shared
    memory holds while it waits; and from the state it reaches, in whatever
    order rounds of the main loop, updates by the IPC thread and arrivals on the
    line follow each other, the invariant holds, and the next round and the next
    update - with any content of the shared memory - are defined: no access
    outside a buffer, no NULL pointer, no mutex locked twice or kept, no loop
    that does not end. *)
Theorem system_safe shms w0 : boot_ok w0 -> Forall shm_ok shms ->
  exists started w1, main_start shms w0 = Some (started, w1) /\
    (started = true -> forall w, rtc sys_step w1 w ->
       sys_inv w /\ (exists w', mloop_round CTR w = Some (tt, w')) /\
       (forall shm, shm_ok shm -> exists rc w', ipc_update shm w = Some (rc, w'))).
Proof.
  intros Hb Hs. destruct (main_start_ok shms w0 Hb Hs) as (b & w1 & E & H1).
  exists b, w1. split; [done|]. intros Hst w Hw. destruct (H1 Hst) as [Hok1 Hh1].
  pose proof (sys_steps_keep (fun _ _ _ => True) w1 w
    (fun shm Hs => keeps_ipc_update (fun _ _ _ => True) (fun _ _ _ => I) shm Hs)) as Hk.
  destruct Hk as [Hw' Hh']; [split; [by apply sys_kept_ok|done]|done|].
  assert (Hinv : sys_inv w) by (split; [by apply sys_ok_kept in Hw'|done]).
  split; [done|]. split.
  - destruct (mloop_round_cases w (sys_inv_slave w Hinv)) as (w' & E' & _). by exists w'.
  - intros shm Hshm. destruct (keeps_ipc_update (fun _ _ _ => True) (fun _ _ _ => I) shm Hshm w Hw' Hh')
      as (rc & w' & E' & _). by exists rc, w'.
Qed.

(** ** What start-up achieves *)

(** The gateway table and the device items in the shared memory. *)
Definition gateway_item (shm : list Z) : list Z := slice shm 0 APP_SHM_GATEWAY_TABLE_ITEM_SIZE.
Definition device_item (shm : list Z) (i : nat) : list Z :=
  slice shm (APP_SHM_DEV_TABLE_ADDR_OFFSET + Z.of_nat i * APP_SHM_DEV_TABLE_ITEM_SIZE) APP_SHM_DEV_TABLE_ITEM_SIZE.
Definition loaded_device (buf : list Z) : deviceTableData_t :=
  if (item_type L buf =? GW_PRO_TABLE_IDX_MNGED_DEVICE_LIST_TABLE) && is_dev_info_valid (item_device L buf)
  then item_device L buf else zero_device.
Definition loaded_devices (shm : list Z) : list deviceTableData_t :=
  map (fun i => loaded_device (device_item shm i)) (seq 0 SENSORS).
Definition gateway_hash (shm : list Z) : Z := fold_left elf_step (gateway_item shm) 0.
Definition devices_hash (shm : list Z) : Z :=
  fold_left elf_step (take (Z.to_nat (APP_SHM_DEV_TABLE_ITEM_SIZE * APP_SHM_DEV_TABLE_ITEM_MAX))
    (drop (Z.to_nat APP_SHM_DEV_TABLE_ADDR_OFFSET) shm)) 0.

Lemma load_device_eq shm i w : shm_ok shm -> (i < 40)%nat ->
  load_device (item_type L) (item_device L) shm i w = Some (loaded_device (device_item shm i), w).
Proof.
  intros Hs Hi. unfold shm_ok in Hs. change APP_SHM_TOTAL_SIZE with 1191936 in Hs.
  unfold load_device. erewrite bind_eq.
  2: { apply load_into_zeros; unfold APP_SHM_DEV_TABLE_ADDR_OFFSET, APP_SHM_DEV_TABLE_ITEM_SIZE,
         APP_SHM_GATEWAY_TABLE_ITEM_SIZE; lia. }
  unfold loaded_device, device_item. by repeat case_match; try lia.
Qed.

Lemma load_devices_eq shm n i w : shm_ok shm -> (i + n = 40)%nat -> length (dev_array (ctr w)) = SENSORS ->
  load_devices (item_type L) (item_device L) n i shm w =
  Some (tt, set_ctr (with_dev_array (take i (dev_array (ctr w)) ++
    map (fun i => loaded_device (device_item shm i)) (seq i n)) (ctr w)) w).
Proof.
  intros Hs. revert i w. induction n as [|n IH]; intros i w Hi Hl; cbn [load_devices seq map].
  - rewrite app_nil_r, take_ge by (change SENSORS with 40%nat in Hl; lia). destruct w as [[] ? ? ? ? ? ? ? ?]. done.
  - erewrite bind_eq by (apply load_device_eq; [done|lia]). rewrite modify_then.
    replace (i mod Z.to_nat BULLET_GW_SENSOR_NUM_MAX)%nat with i
      by (symmetry; apply Nat.mod_small; change (Z.to_nat BULLET_GW_SENSOR_NUM_MAX) with 40%nat; lia).
    rewrite IH; [|lia|cbn [ctr set_ctr dev_array with_dev_array]; by rewrite length_insert].
    cbn [ctr set_ctr dev_array with_dev_array]. change SENSORS with 40%nat in Hl.
    erewrite take_S_r by (apply list_lookup_insert_eq; lia). rewrite take_insert_ge by lia.
    by rewrite <- app_assoc.
Qed.

(** A world that differs from [w] in the controller and the clock. *)
Definition moved (c : controller) (t : nat) (w : world) : world := at_tick t (set_ctr c w).

Lemma load_gwcfg_new shm w (gw := item_gateway L (gateway_item shm)) :
  shm_ok shm -> sizeof_item L < APP_SHM_DEV_TABLE_ITEM_SIZE ->
  item_type L (gateway_item shm) = GW_PRO_TABLE_IDX_GW_CONFIG_TABLE ->
  is_gateway_conf_valid gw = true -> gateway_hash shm <> gwconf_hash (ctr w) ->
  exists b, load_gwcfg shm w = Some (ERR_NONE,
    set_ctr (with_mbus_border b (with_gwconf_hash (gateway_hash shm) (with_gwconf gw (ctr w)))) w).
Proof.
  intros Hs Hz Ht Hv Hh. unfold shm_ok in Hs. change APP_SHM_TOTAL_SIZE with 1191936 in Hs.
  change APP_SHM_DEV_TABLE_ITEM_SIZE with 1024 in Hz.
  unfold load_gwcfg, to_load_gwcfg_from_shmem.
  erewrite bind_eq by (apply load_into_zeros; unfold APP_SHM_GATEWAY_TABLE_ITEM_SIZE; lia).
  fold (gateway_item shm). change APP_SHM_GATEWAY_TABLE_ITEM_SIZE with 2048.
  rewrite (proj2 (Z.leb_gt _ _)) by lia.
  assert (Hl : length (gateway_item shm) = 2048%nat).
  { apply Nat2Z.inj. unfold gateway_item. rewrite length_slice; unfold APP_SHM_GATEWAY_TABLE_ITEM_SIZE; lia. }
  assert (He : util_tool_cal_elfhash (Some (gateway_item shm)) 2048 = Some (gateway_hash shm)).
  { unfold util_tool_cal_elfhash. rewrite Hl. cbn [Z.leb Z.compare].
    unfold gateway_hash. rewrite take_ge by lia. done. }
  rewrite He. change (bind (deref CTR) ?k w) with (k (ctr w) w). cbv beta.
  rewrite (proj2 (Z.eqb_neq _ _) Hh), Ht. cbn [negb Z.eqb GW_PRO_TABLE_IDX_GW_CONFIG_TABLE Pos.eqb].
  fold gw. rewrite Hv. cbn [negb]. rewrite !modify_then. eexists. reflexivity.
Qed.

Lemma load_devlist_new shm w : shm_ok shm -> sizeof_item L < APP_SHM_DEV_TABLE_ITEM_SIZE ->
  length (dev_array (ctr w)) = SENSORS ->
  load_devlist shm w = Some (ERR_NONE,
    if devices_hash shm =? dev_hash (ctr w) then w
    else set_ctr (with_dev_hash (devices_hash shm) (with_dev_array (loaded_devices shm) (ctr w))) w).
Proof.
  intros Hs Hz Hl. pose proof Hs as Hs'. unfold shm_ok in Hs. change APP_SHM_TOTAL_SIZE with 1191936 in Hs.
  unfold load_devlist, to_load_devlist_from_shmem. cbn [is_null].
  rewrite (proj2 (Z.leb_gt _ _)) by lia. unfold util_tool_cal_elfhash.
  rewrite (proj2 (Z.leb_le _ _)).
  2: { rewrite length_drop. unfold APP_SHM_DEV_TABLE_ADDR_OFFSET, APP_SHM_DEV_TABLE_ITEM_SIZE,
         APP_SHM_DEV_TABLE_ITEM_MAX, APP_SHM_GATEWAY_TABLE_ITEM_SIZE. lia. }
  fold (devices_hash shm). change (bind (deref CTR) ?k w) with (k (ctr w) w). cbv beta.
  destruct (devices_hash shm =? dev_hash (ctr w)); [done|].
  erewrite bind_eq by (apply load_devices_eq; [done|done|done]). by rewrite modify_then.
Qed.

(** The device list after a turn: unchanged when its hash is the one the
    controller holds, whatever that came from. *)
Definition boot_devices (shm : list Z) (c : controller) : list deviceTableData_t :=
  if devices_hash shm =? dev_hash c then dev_array c else loaded_devices shm.

(** The table in the shared memory is a new and valid gateway configuration. *)
Definition new_conf (shm : list Z) (c : controller) : Prop :=
  shm_ok shm /\ sizeof_item L < APP_SHM_DEV_TABLE_ITEM_SIZE /\
  item_type L (gateway_item shm) = GW_PRO_TABLE_IDX_GW_CONFIG_TABLE /\
  is_gateway_conf_valid (item_gateway L (gateway_item shm)) = true /\
  gateway_hash shm <> gwconf_hash c.

Lemma load_conf_turn_ready shm w (gw := item_gateway L (gateway_item shm)) :
  new_conf shm (ctr w) -> length (dev_array (ctr w)) = SENSORS -> held w = [] ->
  exists c, load_conf_turn shm w = Some (true, set_ctr c w) /\ gwconf c = gw /\
    dev_array c = boot_devices shm (ctr w) /\ port_conf c = conf_of (modbusConfig gw) /\
    slave_id c = slaveAddrSlave (modbusConfig gw) /\ smode c = smode (ctr w).
Proof.
  intros (Hs & Hz & Ht & Hv & Hn) Hl Hh. unfold load_conf_turn.
  destruct (load_gwcfg_new shm w Hs Hz Ht Hv Hn) as [b E]. erewrite bind_eq by exact E. clear E.
  cbn [negb Z.eqb ERR_NONE]. set (c1 := with_mbus_border _ _).
  erewrite bind_eq by (apply load_devlist_new; done). cbn [negb Z.eqb ERR_NONE].
  assert (exists c2, (if devices_hash shm =? dev_hash (ctr (set_ctr c1 w)) then set_ctr c1 w
      else set_ctr (with_dev_hash (devices_hash shm)
             (with_dev_array (loaded_devices shm) (ctr (set_ctr c1 w)))) (set_ctr c1 w)) = set_ctr c2 w /\
      gwconf c2 = gw /\ dev_array c2 = boot_devices shm (ctr w) /\ smode c2 = smode (ctr w))
    as (c2 & E & Hg & Hd & Hm).
  { unfold boot_devices. change (dev_hash (ctr (set_ctr c1 w))) with (dev_hash (ctr w)).
    destruct (devices_hash shm =? dev_hash (ctr w)); eexists; (split; [reflexivity|]); done. }
  rewrite E. change (bind (deref CTR) ?k (set_ctr c2 w)) with (k c2 (set_ctr c2 w)). cbv beta.
  rewrite Hg. fold gw in Hv. rewrite Hv.
  rewrite take_conf_eq; [|by apply free_no_mutex|cbn [ctr set_ctr]; by rewrite Hg].
  unfold with_conf. cbn [ctr set_ctr]. rewrite Hg. eexists. split; [by destruct w|]. done.
Qed.

Lemma release_mapping_eq w : held w = [] ->
  app_mslave_release_mapping CTR w = Some (ERR_NONE, set_ctr (with_mapping_queue [] (ctr w)) w).
Proof.
  intros Hh. unfold app_mslave_release_mapping. rewrite lock_eq by by apply free_no_mutex.
  change (bind (deref CTR) ?k ?w) with (k (ctr w) w). cbv beta. rewrite filter_rm_all.
  erewrite bind_eq by done. rewrite Hh. cbn [ctr set_held].
  change (set_ctr ?c (set_held ?h w)) with (set_held h (set_ctr c w)).
  rewrite unlock_ret_eq by done. destruct w; cbn in Hh |- *. by subst.
Qed.

Lemma create_mapping_extensible w :
  held w = [] -> (forall k, o_trylock (os w) k = true) -> mallocs_succeed w ->
  length (dev_array (ctr w)) = SENSORS -> pc_reg_md (port_conf (ctr w)) = REG_MD_EXTENSIBLE ->
  let r := created_queue (remap w) (gwconf (ctr w)) (dev_array (ctr w)) in
  exists c t, app_mslave_create_mapping CTR w = Some (fst r, moved c t w) /\
    mapping_queue c = snd r /\ smode c = smode (ctr w) /\ mctx c = mctx (ctr w) /\
    slave_id c = slave_id (ctr w) /\ port_conf c = port_conf (ctr w).
Proof.
  intros Hh Ht Hm Hl Hr r. unfold app_mslave_create_mapping, app_mslave_set_to_update_mslave. cbn [is_null].
  erewrite bind_eq.
  2: { unfold pthread_mutex_trylock. cbn [is_null]. rewrite Hh. cbn [holds existsb orb]. by rewrite Ht. }
  cbn [negb]. rewrite modify_then. change (bind (deref CTR) ?k ?w) with (k (ctr w) w). cbv beta zeta.
  change (set_ctr ?c (set_held ?h (next_tick w))) with (set_held h (set_ctr c (next_tick w))).
  rewrite unlock_eq by done. cbn [ctr set_ctr set_held next_tick].
  change (pc_reg_md (port_conf (with_to_update_mslave_req false (ctr w))))
    with (pc_reg_md (port_conf (ctr w))). rewrite Hr.
  set (w1 := set_held [] (set_ctr _ _)).
  destruct (create_extensible_v2_eq w1) as (rc & q & t & E & _ & _ & Hq); [done|done|].
  specialize (Hq (or_intror Hm)). change (remap w1) with (remap w) in Hq.
  change (gwconf (ctr w1)) with (gwconf (ctr w)) in Hq.
  change (dev_array (ctr w1)) with (dev_array (ctr w)) in Hq. fold r in Hq.
  rewrite E, <- Hq. exists (with_mapping_queue q (ctr w1)), t. split; [|done].
  subst w1. unfold rebuilt, moved, at_tick, set_ctr, set_held, next_tick. cbn. by rewrite Hh.
Qed.

Definition init_succeeds : Prop :=
  (forall m, mutex_init m = 0) /\ create_shmem = ERR_NONE /\ create_sem = ERR_NONE.

Lemma init_ctr_succeeds w : init_succeeds ->
  app_mslave_init_ctr CTR w = Some (ERR_NONE, set_ctr (initialised (ctr w)) w).
Proof.
  intros (Hm & Hc & Hs). unfold app_mslave_init_ctr. cbn [is_null]. cbv zeta. rewrite !Hm, Hc, Hs.
  destruct w as [[] e h t rp re rm o tk]. cbn [negb Z.eqb ERR_NONE]. repeat modify_step. done.
Qed.

(** The port that a valid configuration asks for. *)
Definition configured_port (cfg : modbusConfig_t) : modbus_t :=
  let pc := conf_of cfg in
  Ctx (pc_slaveID pc) true false (pc_baudrate pc) (parity_code (pc_parity pc)) 8
    (stop_bit_code (pc_stopbit pc)).

(** The outcome of [main_start] when everything it asks for is granted. *)
Lemma main_start_eq shm shms w (gw := item_gateway L (gateway_item shm)) :
  boot_ok w -> init_succeeds -> new_conf shm (ctr w) ->
  mallocs_succeed w -> (forall k, o_connect (os w) k = true) -> (forall k, o_trylock (os w) k = true) ->
  app_mslave_get_reg_mode (registerMode (modbusConfig gw)) = REG_MD_EXTENSIBLE ->
  exists w1, main_start (shm :: shms) w = Some (true, w1) /\ smode (ctr w1) = SMODE_ACTIVE /\
    mctx (ctr w1) = Some (configured_port (modbusConfig gw)) /\
    slave_id (ctr w1) = slaveAddrSlave (modbusConfig gw) /\
    mapping_queue (ctr w1) =
      snd (created_queue (remap w) gw (boot_devices shm (initialised (ctr w)))) /\
    held w1 = [].
Proof.
  intros (Hl & Hr & Hh) Hi Hn Hm Hc Ht He. unfold main_start.
  erewrite bind_eq by by apply init_ctr_succeeds. cbn [negb Z.eqb ERR_NONE].
  set (w0 := set_ctr (initialised (ctr w)) w). unfold main_rest. cbn [app_mslave_ipc_load_conf].
  destruct (load_conf_turn_ready shm w0) as (c & E & Hg & Hd & Hp & Hs & Hmd);
    [exact Hn|done|exact Hh|]. fold gw in Hg, Hp, Hs.
  destruct Hn as (Hshm & _ & _ & Hv & _). fold gw in Hv.
  destruct (valid_conf _ Hv) as (_ & _ & Hb & Ha & _).
  erewrite bind_eq.
  2: { erewrite bind_eq by exact E. reflexivity. }
  cbv iota beta. cbn [negb].
  destruct (init_port_eq (set_ctr c w0)) as [t E1].
  { by apply free_no_mutex. } { cbn [ctr set_ctr]. rewrite Hp. unfold MIN_MBUS_BAUDRATE in Hb. cbn. lia. }
  { cbn [ctr set_ctr]. rewrite Hp. cbn. unfold MIN_MBUS_SADDR, MAX_MBUS_SADDR in Ha. lia. } { done. } { done. }
  erewrite bind_eq by exact E1. cbn [ctr set_ctr]. rewrite Hp. fold (configured_port (modbusConfig gw)).
  set (c1 := with_mctx _ c). erewrite bind_eq by by apply release_mapping_eq.
  set (w2 := set_ctr (with_mapping_queue [] _) _).
  destruct (create_mapping_extensible w2) as (c2 & t2 & E2 & Hq & Hs2 & Hm2 & Hi2 & _).
  - exact Hh.
  - exact Ht.
  - exact Hm.
  - change (dev_array (ctr w2)) with (dev_array c). rewrite Hd. unfold boot_devices.
    case_match; [done|]. unfold loaded_devices. by rewrite length_map, length_seq.
  - change (port_conf (ctr w2)) with (port_conf c). by rewrite Hp.
  - erewrite bind_eq by exact E2. eexists. split; [reflexivity|]. unfold moved. cbn [ctr at_tick set_ctr held].
    rewrite Hs2, Hm2, Hi2, Hq. change (smode (ctr w2)) with (smode c). rewrite Hmd.
    change (slave_id (ctr w2)) with (slave_id c). rewrite Hs.
    change (gwconf (ctr w2)) with (gwconf c). change (dev_array (ctr w2)) with (dev_array c).
    rewrite Hg, Hd. done.
Qed.

(** The port is that of the configuration: address, baud rate, parity - 0, 1, 2 for none, odd,
    even - and eight data bits. Of the stop bits this says something for the code 2 only, two
    stop bits: for 0 and 1 the enumeration and the comment beside the translation disagree. *)
Definition port_as_configured (cfg : modbusConfig_t) (port : modbus_t) : Prop :=
  mb_slave port = slaveAddrSlave cfg /\ mb_connected port = true /\ rtu_baud port = baudrateSlave cfg /\
  In (paritySlave cfg, rtu_parity port) [(0, 78); (1, 79); (2, 69)] /\ rtu_data_bit port = 8 /\
  (stopSlave cfg = 2 -> rtu_stop_bit port = 2).

Lemma configured_as_configured gw : is_gateway_conf_valid gw = true ->
  port_as_configured (modbusConfig gw) (configured_port (modbusConfig gw)).
Proof.
  intros (Hp & _)%valid_conf. unfold port_as_configured, configured_port, conf_of. cbn.
  repeat split; [|by intros ->]. assert (paritySlave (modbusConfig gw) = 0 \/ paritySlave (modbusConfig gw) = 1 \/
    paritySlave (modbusConfig gw) = 2) as [->|[-> | ->]] by lia; cbn; tauto.
Qed.

(** C5: start-up reaches service. When the system grants every request and
    the shared memory holds a new valid gateway table that selects the extensible
    register mode, the program starts in the active mode, with the port open
    under the configured address, baud rate and parity - and with two stop bits where these are configured -, and with exactly the
    register blocks that the specification of the extensible mode gives for the
    gateway, the loaded devices and the remapping; no mutex is left locked. *)
Theorem startup_serves shm shms w (gw := item_gateway L (gateway_item shm)) :
  boot_ok w -> init_succeeds -> new_conf shm (ctr w) ->
  mallocs_succeed w -> (forall k, o_connect (os w) k = true) -> (forall k, o_trylock (os w) k = true) ->
  app_mslave_get_reg_mode (registerMode (modbusConfig gw)) = REG_MD_EXTENSIBLE ->
  exists w1 port, main_start (shm :: shms) w = Some (true, w1) /\ smode (ctr w1) = SMODE_ACTIVE /\
    mctx (ctr w1) = Some port /\ port_as_configured (modbusConfig gw) port /\
    slave_id (ctr w1) = slaveAddrSlave (modbusConfig gw) /\
    mapping_queue (ctr w1) =
      snd (created_queue (remap w) gw (boot_devices shm (initialised (ctr w)))) /\
    held w1 = [].
Proof.
  intros Hb Hi Hn Hm Hc Ht He. destruct (main_start_eq shm shms w Hb Hi Hn Hm Hc Ht He) as (w1 & E & Hs & Hp & Hr).
  exists w1, (configured_port (modbusConfig gw)). split; [exact E|]. split; [exact Hs|]. split; [exact Hp|].
  split; [|exact Hr]. apply configured_as_configured, Hn.
Qed.

End system.

(** ** A start *)

(** A shared memory with a gateway table whose last byte is 1, and no device;
    a layout in which that byte is the type of an item. *)
Definition start_shm : list Z := replicate 2047 0 ++ 1 :: replicate (Z.to_nat 1189888) 0.
Definition start_gateway : gatewayTableData_t :=
  GwConf 1 7 (ModbusConfig 19200 17 2 2 0) (layout_name 0 0 64 [71; 87; 89]).
Definition start_layout : shm_layout :=
  ShmLayout 1000 1000 500 (fun buf => nth 2047 buf 0) (fun _ => start_gateway) (fun _ => zero_device)
    (fun _ => SensorData 0 0 0 0 []) (fun _ => AlarmNotReadable).

Lemma elf_step_zeros n : fold_left elf_step (replicate n 0) 0 = 0.
Proof. induction n as [|n IH]; [done|exact IH]. Qed.

Lemma start_gateway_item : gateway_item start_shm = replicate 2047 0 ++ [1].
Proof.
  unfold gateway_item, slice, start_shm. change (Z.to_nat 0) with 0%nat. rewrite drop_0.
  rewrite (take_app_ge (replicate 2047 0)) by (rewrite length_replicate; unfold APP_SHM_GATEWAY_TABLE_ITEM_SIZE; lia).
  rewrite length_replicate.
  replace (Z.to_nat APP_SHM_GATEWAY_TABLE_ITEM_SIZE - 2047)%nat with 1%nat by by vm_compute.
  rewrite firstn_cons. by rewrite take_0.
Qed.

Lemma start_devices_hash : devices_hash start_shm = 0.
Proof.
  unfold devices_hash, start_shm.
  rewrite (drop_app_ge (replicate 2047 0)) by (rewrite length_replicate; unfold APP_SHM_DEV_TABLE_ADDR_OFFSET, APP_SHM_GATEWAY_TABLE_ITEM_SIZE; lia).
  rewrite length_replicate.
  replace (Z.to_nat APP_SHM_DEV_TABLE_ADDR_OFFSET - 2047)%nat with 1%nat by by vm_compute.
  rewrite skipn_cons, drop_0, take_replicate. apply elf_step_zeros.
Qed.

Lemma start_shm_ok : shm_ok start_shm.
Proof.
  unfold shm_ok, start_shm. rewrite length_app, length_cons, !length_replicate.
  change APP_SHM_TOTAL_SIZE with 1191936. lia.
Qed.

Lemma start_new_conf : new_conf start_layout start_shm (ctr idle_world).
Proof.
  unfold new_conf, gateway_hash. rewrite start_gateway_item. split; [apply start_shm_ok|].
  split; [done|]. split.
  { cbn [item_type start_layout]. rewrite app_nth2 by (rewrite length_replicate; lia).
    by rewrite length_replicate, Nat.sub_diag. }
  split; [by vm_compute|]. rewrite fold_left_app, elf_step_zeros. by vm_compute.
Qed.

Lemma idle_world_boot : boot_ok idle_world.
Proof. split; [split; constructor|]. by split. Qed.

Definition granted (m : mutex) : Z := 0.

Lemma start_runs :
  exists w1, main_start start_layout granted 0 0 [start_shm] idle_world = Some (true, w1).
Proof.
  destruct (main_start_eq start_layout granted 0 0 start_shm [] idle_world) as (w1 & E & _);
    [apply idle_world_boot|by split|apply start_new_conf|by intros k|by intros k|by intros k|by vm_compute|].
  by exists w1.
Qed.

Lemma startup_serves_witness :
  exists w1 port, main_start start_layout granted 0 0 [start_shm] idle_world = Some (true, w1) /\
    mctx (ctr w1) = Some port /\ port_as_configured (modbusConfig start_gateway) port /\ rtu_stop_bit port = 2 /\
    mapping_queue (ctr w1) = [regs_block 0 64].
Proof.
  destruct (startup_serves start_layout granted 0 0 start_shm [] idle_world)
    as (w1 & port & E & _ & Hc & Hp & _ & Hq & _);
    [apply idle_world_boot|by split|apply start_new_conf|by intros k|by intros k|by intros k|by vm_compute|].
  change (item_gateway start_layout (gateway_item start_shm)) with start_gateway in Hp, Hq.
  exists w1, port. split; [exact E|]. split; [exact Hc|]. split; [exact Hp|]. split; [by apply Hp|]. rewrite Hq.
  unfold boot_devices. rewrite start_devices_hash.
  change (0 =? dev_hash (initialised (ctr idle_world))) with true. cbv iota. reflexivity.
Defined.

Lemma system_safe_witness :
  exists w1, main_start start_layout granted 0 0 [start_shm] idle_world = Some (true, w1) /\
    exists rc w2, ipc_update start_layout start_shm w1 = Some (rc, w2) /\
      exists w3, mloop_round CTR w2 = Some (tt, w3).
Proof.
  assert (Hs : Forall shm_ok [start_shm]) by (constructor; [apply start_shm_ok|constructor]).
  destruct (system_safe start_layout ltac:(done) granted 0 0 [start_shm] idle_world idle_world_boot Hs)
    as (b & w1 & E & H).
  destruct start_runs as [w1' E']. rewrite E in E'. injection E' as -> _.
  exists w1. split; [exact E|]. destruct (H eq_refl w1 (rtc_refl _ _)) as (_ & _ & Hu).
  destruct (Hu _ start_shm_ok) as (rc & w2 & E2). exists rc, w2. split; [exact E2|].
  destruct (H eq_refl w2) as (_ & Hr & _); [|exact Hr].
  eapply rtc_l; [by apply (StepUpdate start_layout start_shm rc w1 w2 start_shm_ok)|apply rtc_refl].
Defined.
