(* ===== verification/Channels.v ===== *)
(** * Channels: the register channels the database process assigns

    [skf_gw_mqtt/sqlite/main.c], the device table: every sensor has a channel
    (1 to 40; 0 is the gateway) that fixes its register addresses. The
    database process assigns it when a device is inserted or updated, writes
    it into the description of the device, and puts the device into the shared
    memory that the Modbus slave reads. In the efficient mode the blocks of the sensors
    have the size of their type, and a free range is searched. *)

From S2P Require Import Prelude Crc16 Machine SlaveState Layout SlaveConfig RegTable.
From Stdlib Require Import ZArith Lia ZifyBool List Bool.
From stdpp Require Import base list numbers option relations.
Open Scope Z_scope.

(** ** Data *)

Definition APP_SHM_GATEWAY_TABLE_ADDR_OFFSET : Z := 0x0.
Definition MODBUS_REG_GATEWAY_START_ADDR_OFFSET : Z := 0x0.
Definition MODBUS_REG_SENSOR_START_ADDR_OFFSET : Z := 0x80.
Definition MODBUS_REG_SENSOR_LENGTH : Z := 0x80.
Definition DEV_REG_ADDR_LENGTH_EXT_MODE : Z := 0x80.
Definition DEV_REG_ADDR_LENGTH_GW : Z := 0x3.
Definition DEV_REG_ADDR_LENGTH_INSIGHT_T : Z := 0x8.
Definition DEV_REG_ADDR_LENGTH_INSIGHT_P : Z := 0x30.
Definition DEV_REG_ADDR_LENGTH_INSIGHT_PRO : Z := 0x30.

(** "PredictSensor", "PredictSensorPro", and "PRO" *)
Definition TYPE_STR_INSIGHT_P : list Z := [80; 114; 101; 100; 105; 99; 116; 83; 101; 110; 115; 111; 114].
Definition TYPE_STR_INSIGHT_P_PRO : list Z := TYPE_STR_INSIGHT_P ++ [80; 114; 111].
Definition MODBUS_PRODUCT_TYPE_PRO_SENSOR : list Z := [80; 82; 79].

(** [chn_nameid_mapping_t] and [efficient_chn_nameid_mapping_t] *)
Record chn_nameid_mapping_t := Chn { validflag : Z; ch : Z; nameid : Z }.
Record efficient_chn_nameid_mapping_t :=
  EffChn { e_validflag : Z; e_ch : Z; e_offset : Z; e_nameid : Z; e_len : Z }.

Definition zero_chn : chn_nameid_mapping_t := Chn 0 0 0.
Definition zero_eff : efficient_chn_nameid_mapping_t := EffChn 0 0 0 0 0.

Inductive regAddressModeSql_t :=
  | MODBUS_REG_ADDR_EXTENSIBLE_MODE
  | MODBUS_REG_ADDR_EFFICIENT_MODE.

(** An element of a request: the bytes of the union [data]. *)
Record gw_pro_data_t := Datum { field : Z; data : list Z }.

(** The device item of [shm_data] ([deviceTableData_t] of [sh_mem.h]); the
    arrays of characters have their 70 bytes. *)
Record dev_item := DevItem {
  it_nameId : Z; it_name : list Z; it_BLESensorName : list Z; it_macAddr : list Z;
  it_manufacturer : list Z; it_type : list Z; it_description : list Z
}.

Definition zero_text : list Z := zeros GW_PRO_MAX_STRING_LEN_BYTE.
Definition zero_item_row : dev_item :=
  DevItem 0 zero_text zero_text zero_text zero_text zero_text zero_text.

(** The state of the process: the two channel tables of 41 entries, the number of
    assigned channels (a [uint8_t]), the register mode, whether the gateway
    serves Modbus, and the shared memory. *)
Record sql_state := Sql {
  chn_nameid_map : list chn_nameid_mapping_t;
  efficient_chn_nameid_map : list efficient_chn_nameid_mapping_t;
  assigned_chn_cnt : Z; g_modbus_reg_addr_mode : regAddressModeSql_t;
  modbus_feature_enable : bool; shm : list Z
}.

Definition with_map (m : list chn_nameid_mapping_t) (st : sql_state) : sql_state :=
  Sql m (efficient_chn_nameid_map st) (assigned_chn_cnt st) (g_modbus_reg_addr_mode st)
    (modbus_feature_enable st) (shm st).
Definition with_eff_map (m : list efficient_chn_nameid_mapping_t) (st : sql_state) : sql_state :=
  Sql (chn_nameid_map st) m (assigned_chn_cnt st) (g_modbus_reg_addr_mode st)
    (modbus_feature_enable st) (shm st).
Definition with_cnt (n : Z) (st : sql_state) : sql_state :=
  Sql (chn_nameid_map st) (efficient_chn_nameid_map st) n (g_modbus_reg_addr_mode st)
    (modbus_feature_enable st) (shm st).
Definition with_mode (m : regAddressModeSql_t) (st : sql_state) : sql_state :=
  Sql (chn_nameid_map st) (efficient_chn_nameid_map st) (assigned_chn_cnt st) m
    (modbus_feature_enable st) (shm st).
Definition with_feature (b : bool) (st : sql_state) : sql_state :=
  Sql (chn_nameid_map st) (efficient_chn_nameid_map st) (assigned_chn_cnt st)
    (g_modbus_reg_addr_mode st) b (shm st).
Definition with_shm (s : list Z) (st : sql_state) : sql_state :=
  Sql (chn_nameid_map st) (efficient_chn_nameid_map st) (assigned_chn_cnt st)
    (g_modbus_reg_addr_mode st) (modbus_feature_enable st) s.

(** ** Strings *)

(** The string in an array of characters. *)
Fixpoint cstr (a : list Z) : list Z :=
  match a with
  | [] => []
  | c :: a => if c =? 0 then [] else c :: cstr a
  end.

(** [strcmp(a, lit) == 0] *)
Definition strcmp_eq (a lit : list Z) : bool := bool_decide (cstr a = lit).

(** [snprintf(dst, n, "%s", src)]: at most [n - 1] characters and a NUL. *)
Definition snprintf_s (dst : list Z) (n : Z) (src : list Z) : list Z :=
  let s := take (Z.to_nat (n - 1)) (cstr src) ++ [0] in s ++ drop (length s) dst.

Definition shm_get_register_len (sType : list Z) : Z :=
  if strcmp_eq sType TYPE_STR_INSIGHT_P then DEV_REG_ADDR_LENGTH_INSIGHT_P
  else if strcmp_eq sType TYPE_STR_INSIGHT_P_PRO then DEV_REG_ADDR_LENGTH_INSIGHT_PRO
  else DEV_REG_ADDR_LENGTH_INSIGHT_T.

Definition shm_get_sensor_type_str (sType : list Z) : list Z :=
  if strcmp_eq sType TYPE_STR_INSIGHT_P then MODBUS_PRODUCT_TYPE_PREDICT_SENSOR
  else if strcmp_eq sType TYPE_STR_INSIGHT_P_PRO then MODBUS_PRODUCT_TYPE_PRO_SENSOR
  else MODBUS_PRODUCT_TYPE_INSIGHT_T_SENSOR.

(** [strtol(s, NULL, 16)] *)
Definition is_space (c : Z) : bool := (c =? 32) || ((9 <=? c) && (c <=? 13)).
Fixpoint skip_space (s : list Z) : list Z :=
  match s with
  | c :: s' => if is_space c then skip_space s' else s
  | [] => []
  end.
Fixpoint hex_value (s : list Z) (acc : Z) : Z :=
  match s with
  | c :: s => if util_tool_is_hex_char c then hex_value s (acc * 16 + util_tool_hex_char_to_uint8 c) else acc
  | [] => acc
  end.
Definition skip_0x (s : list Z) : list Z :=
  match s with
  | z :: x :: d :: s' =>
      if (z =? 48) && ((x =? 120) || (x =? 88)) && util_tool_is_hex_char d then d :: s' else s
  | _ => s
  end.
Definition strtol16 (s : list Z) : Z :=
  match skip_space s with
  | c :: s' =>
      if c =? 45 then - hex_value (skip_0x s') 0
      else if c =? 43 then hex_value (skip_0x s') 0
      else hex_value (skip_0x (c :: s')) 0
  | [] => 0
  end.

(** ** The request *)

(** [data_uint32] *)
Definition le32 (l : list Z) : Z :=
  fold_right (fun b acc => Z.lor b (Z.shiftl acc 8)) 0 (take 4 l).

(** One element in [table_update_data_convert], the device table. *)
Definition convert_datum (row : dev_item) (d : gw_pro_data_t) : dev_item :=
  let '(DevItem i n b m f t s) := row in
  let text old := snprintf_s old (GW_PRO_MAX_STRING_LEN_BYTE - 1) (data d) in
  match field d with
  | 1 => DevItem (le32 (data d)) n b m f t s
  | 2 => DevItem i (text n) b m f t s
  | 3 => DevItem i n (text b) m f t s
  | 4 => DevItem i n b (text m) f t s
  | 5 => DevItem i n b m (text f) t s
  | 6 => DevItem i n b m f (text t) s
  | 7 => DevItem i n b m f t (text s)
  | _ => row
  end.

(** [shm_data], zeroed and filled in. *)
Definition table_update_data_convert (updateData : list gw_pro_data_t) : dev_item :=
  fold_left convert_datum updateData zero_item_row.

Definition set_description (s : list Z) (r : dev_item) : dev_item :=
  let '(DevItem i n b m f t _) := r in DevItem i n b m f t s.

(** The first position from [i], in [n] elements, whose element satisfies [p]. *)
Fixpoint first_at {A} (p : A -> bool) (n i : nat) (l : list A) : option nat :=
  match n with
  | O => None
  | S n => match l !! i with
           | Some x => if p x then Some i else first_at p n (S i) l
           | None => None
           end
  end.

(** The loop over the request that puts the description into its first element
    for field 7, and into [shm_data]. *)
Definition describe (ch_idx addr len : Z) (row : dev_item) (req : list gw_pro_data_t)
    : list gw_pro_data_t * dev_item :=
  match first_at (fun d => field d =? 7) (length req) 0 req with
  | Some i =>
      let text := snprintf_s zero_text GW_PRO_MAX_STRING_LEN_BYTE
                    (layout_name ch_idx addr len (shm_get_sensor_type_str (it_type row))) in
      (<[i := Datum 7 text]> req, set_description text row)
  | None => (req, row)
  end.

(** ** Extensible mode *)

(** The channel of the name id, or the one it is given. *)
Definition ext_channel (nid : Z) (st : sql_state) : Z * sql_state :=
  let m := chn_nameid_map st in
  match first_at (fun e => (nid =? nameid e) && (1 =? validflag e)) 40 1 m with
  | Some i => (ch (nth i m zero_chn), st)
  | None =>
      let '(ch_idx, st) :=
        if BULLET_GW_SENSOR_NUM_MAX <? assigned_chn_cnt st then (BULLET_GW_SENSOR_NUM_MAX, st)
        else match first_at (fun e => (0 =? nameid e) && (0 =? ch e)) 40 1 m with
             | Some i => (Z.of_nat i, with_cnt (u8 (assigned_chn_cnt st + 1)) st)
             | None => (BULLET_GW_SENSOR_NUM_MAX + 1, st)
             end in
      (ch_idx,
       if ch_idx <=? BULLET_GW_SENSOR_NUM_MAX
       then with_map (<[Z.to_nat ch_idx := Chn 1 ch_idx nid]> (chn_nameid_map st)) st else st)
  end.

Definition ext_addr (ch_idx : Z) : Z :=
  MODBUS_REG_SENSOR_START_ADDR_OFFSET + (ch_idx - 1) * MODBUS_REG_SENSOR_LENGTH.

(** ** Efficient mode *)

(** The search for a channel and a free range of [addr_len] registers: [None]
    when it reads past the table, [Some None] when there is no channel. *)
Fixpoint eff_search (fuel i : nat) (fnd_flag : bool) (former_offset former_len addr_len : Z)
    (m : list efficient_chn_nameid_mapping_t) : option (option (nat * Z)) :=
  match fuel with
  | O => Some None
  | S fuel =>
      if negb (Z.of_nat i <? BULLET_GW_SENSOR_NUM_MAX + 1) then Some None
      else match m !! i with
           | None => None
           | Some e =>
               if (0 =? e_validflag e) && (0 =? e_ch e) && (0 =? e_nameid e) then
                 let next := first_at (fun e => negb (e_validflag e =? 0)) (41 - i) i m in
                 let j := default 41%nat next in
                 let fnd_flag := fnd_flag || match next with Some _ => true | None => false end in
                 if fnd_flag then
                   match m !! j with
                   | None => None
                   | Some f =>
                       if e_offset f - former_offset - former_len <? addr_len
                       then eff_search fuel (S j) fnd_flag former_offset former_len addr_len m
                       else Some (Some (i, u16 (former_offset + former_len)))
                   end
                 else Some (Some (i, u16 (former_offset + former_len)))
               else eff_search fuel (S i) fnd_flag (e_offset e) (e_len e) addr_len m
           end
  end.

Definition known_len (addr_len : Z) : bool :=
  (DEV_REG_ADDR_LENGTH_INSIGHT_T =? addr_len) || (DEV_REG_ADDR_LENGTH_INSIGHT_P =? addr_len)
  || (DEV_REG_ADDR_LENGTH_INSIGHT_PRO =? addr_len) || (DEV_REG_ADDR_LENGTH_EXT_MODE =? addr_len).

Inductive eff_result :=
  | EffFull                             (** [goto UPDATE_DEV_DB_EXIT] *)
  | EffFound (ch_idx addr len : Z)
  | EffNew (ch_idx : Z).                (** the address is read from the table *)

Definition eff_channel (nid : Z) (sType : list Z) (st : sql_state) : option (eff_result * sql_state) :=
  let m := efficient_chn_nameid_map st in
  match first_at (fun e => (nid =? e_nameid e) && (1 =? e_validflag e)) 40 1 m with
  | Some i =>
      let e := nth i m zero_eff in
      if known_len (e_len e) then Some (EffFound (e_ch e) (e_offset e) (e_len e), st)
      else
        let addr_len := shm_get_register_len sType in
        Some (EffFound (e_ch e) (e_offset e) addr_len,
              with_eff_map (<[i := EffChn (e_validflag e) (e_ch e) (e_offset e) (e_nameid e) addr_len]> m) st)
  | None =>
      if BULLET_GW_SENSOR_NUM_MAX <? assigned_chn_cnt st then Some (EffFull, st)
      else
        let addr_len := shm_get_register_len sType in
        match eff_search 41 1 false MODBUS_REG_GATEWAY_START_ADDR_OFFSET DEV_REG_ADDR_LENGTH_GW addr_len m with
        | None => None
        | Some None => Some (EffNew (BULLET_GW_SENSOR_NUM_MAX + 1), st)
        | Some (Some (i, off)) =>
            Some (EffNew (Z.of_nat i),
                  with_cnt (u8 (assigned_chn_cnt st + 1))
                    (with_eff_map (<[i := EffChn 1 (Z.of_nat i) off nid addr_len]> m) st))
        end
  end.

(** ** The shared memory *)

(** [memcpy(shm_addr + i, bytes, sizeof)] *)
Definition put (i : Z) (bytes l : list Z) : list Z :=
  take (Z.to_nat i) l ++ bytes ++ drop (Z.to_nat i + length bytes) l.

Definition dev_item_at (ch_idx : Z) : Z :=
  APP_SHM_DEV_TABLE_ADDR_OFFSET + (ch_idx - 1) * APP_SHM_DEV_TABLE_ITEM_SIZE.

(** The three results of [app_shmem_sem_trywait]: one before the database is
    written and, when that one fails, two after it. *)
Definition waits : Type := bool * bool * bool.

(** The write [f], and [w_flag]: without the semaphore when it is never free. *)
Definition sem_write (ws : waits) (f : list Z -> list Z) (st : sql_state) : bool * sql_state :=
  let '(w0, w1, w2) := ws in
  let '(w_flag, st) := if w0 then (true, with_shm (f (shm st)) st) else (false, st) in
  if w_flag then (true, st)
  else if w1 then (true, with_shm (f (shm st)) st)
  else if w2 then (true, with_shm (f (shm st)) st)
  else (false, with_shm (f (shm st)) st).

(** ** The requests *)

(** What the database is asked: an update or an insertion, with these elements. *)
Inductive db_call :=
  | sqlite_update (req : list gw_pro_data_t)
  | sqlite_insert (req : list gw_pro_data_t).

Section process.
(** The bytes of [shm_data] with a device item, as the compiler lays them out. *)
Context (item_bytes : dev_item -> list Z).

Definition put_dev (ws : waits) (ch_idx : Z) (row : dev_item) (st : sql_state) : sql_state :=
  snd (sem_write ws (put (dev_item_at ch_idx) (item_bytes row)) st).

(** [gw_pro_command_sqlite_update_item] on the device table; [itemfalg] is
    whether the database has the item. The two branches assign the channel in
    the same way; a full table in the efficient mode jumps to the update. *)
Definition dev_upsert (itemfalg : bool) (ws : waits) (req : list gw_pro_data_t) (st : sql_state)
    : option (db_call * sql_state) :=
  let call req := if itemfalg then sqlite_update req else sqlite_insert req in
  if negb (modbus_feature_enable st) then Some (call req, st)
  else
    let row := table_update_data_convert req in
    match g_modbus_reg_addr_mode st with
    | MODBUS_REG_ADDR_EXTENSIBLE_MODE =>
        let '(ch_idx, st) := ext_channel (it_nameId row) st in
        let '(req, row) := describe ch_idx (ext_addr ch_idx) MODBUS_REG_SENSOR_LENGTH row req in
        Some (call req, put_dev ws ch_idx row st)
    | MODBUS_REG_ADDR_EFFICIENT_MODE =>
        match eff_channel (it_nameId row) (it_type row) st with
        | None => None
        | Some (EffFull, st) => Some (sqlite_update req, st)
        | Some (EffFound ch_idx addr len, st) =>
            let '(req, row) := describe ch_idx addr len row req in
            Some (call req, put_dev ws ch_idx row st)
        | Some (EffNew ch_idx, st) =>
            match efficient_chn_nameid_map st !! Z.to_nat ch_idx,
                  first_at (fun d => field d =? 7) (length req) 0 req with
            | None, Some _ => None
            | e, _ =>
                let e := default zero_eff e in
                let '(req, row) := describe ch_idx (e_offset e) (e_len e) row req in
                Some (call req, put_dev ws ch_idx row st)
            end
        end
    end.

(** The channel the name id had, cleared in the table. *)
Definition ext_release (itemIdx : Z) (st : sql_state) : option Z * sql_state :=
  let m := chn_nameid_map st in
  match first_at (fun e => nameid e =? itemIdx) 41 0 m with
  | Some i => (Some (ch (nth i m zero_chn)), with_map (<[i := zero_chn]> m) st)
  | None => (None, st)
  end.

Definition eff_release (itemIdx : Z) (st : sql_state) : option Z * sql_state :=
  let m := efficient_chn_nameid_map st in
  match first_at (fun e => e_nameid e =? itemIdx) 41 0 m with
  | Some i =>
      let e := nth i m zero_eff in
      (Some (e_ch e), with_eff_map (<[i := EffChn 0 0 (e_offset e) 0 (e_len e)]> m) st)
  | None => (None, st)
  end.

(** [gw_pro_command_sqlite_delete_item] on the device table. *)
Definition dev_delete (ws : waits) (itemIdx : Z) (st : sql_state) : sql_state :=
  if negb (modbus_feature_enable st) then st
  else
    let '(found, st) :=
      match g_modbus_reg_addr_mode st with
      | MODBUS_REG_ADDR_EXTENSIBLE_MODE => ext_release itemIdx st
      | MODBUS_REG_ADDR_EFFICIENT_MODE => eff_release itemIdx st
      end in
    match found with
    | None => st
    | Some ch_idx =>
        if (ch_idx =? 0) || (BULLET_GW_SENSOR_NUM_MAX <? ch_idx) then st
        else snd (sem_write ws (put (dev_item_at ch_idx) (zeros APP_SHM_DEV_TABLE_ITEM_SIZE))
                    (with_cnt (u8 (assigned_chn_cnt st - 1)) st))
    end.

(** A row of the gateway: what the process reads of it, and its bytes in
    [shm_data], with the corrected description. *)
Record gw_row := GwRow {
  gr_nameId : Z; gr_baudrateSlave : Z; gr_registerMode : Z; gr_bytes : list Z
}.

(** The insertion or update of the gateway's row: its entry in the table, and
    its item in the shared memory. *)
Definition gw_upsert (ws : waits) (gw : gw_row) (st : sql_state) : sql_state :=
  if negb (modbus_feature_enable st) then st
  else
    let st :=
      match g_modbus_reg_addr_mode st with
      | MODBUS_REG_ADDR_EXTENSIBLE_MODE =>
          let e := nth 0 (chn_nameid_map st) zero_chn in
          with_map (<[0%nat := Chn (validflag e) 0 (gr_nameId gw)]> (chn_nameid_map st)) st
      | MODBUS_REG_ADDR_EFFICIENT_MODE =>
          with_eff_map (<[0%nat := EffChn 1 0 MODBUS_REG_GATEWAY_START_ADDR_OFFSET (gr_nameId gw)
                                     DEV_REG_ADDR_LENGTH_GW]> (efficient_chn_nameid_map st)) st
      end in
    snd (sem_write ws (put APP_SHM_GATEWAY_TABLE_ADDR_OFFSET (gr_bytes gw)) st).

(** ** Start *)

(** "SKF_MAGIC" and its NUL *)
Definition APP_SHM_MAGIC_DATA : list Z := [83; 75; 70; 95; 77; 65; 71; 73; 67; 0].
Definition APP_SHM_MAGIC_DATA_OFFSET : Z := 0x122800.

Definition clean_shm (s : list Z) : list Z :=
  if strcmp_eq (drop (Z.to_nat APP_SHM_MAGIC_DATA_OFFSET) s) (cstr APP_SHM_MAGIC_DATA) then s
  else put APP_SHM_MAGIC_DATA_OFFSET APP_SHM_MAGIC_DATA (replicate (length s) 0).

Definition is_ext_mode (registerMode : Z) : bool := existsb (Z.eqb registerMode) [0; 2; 4; 6].
Definition is_eff_mode (registerMode : Z) : bool := existsb (Z.eqb registerMode) [1; 3; 5; 7].

Definition fetch_gateway (gw : gw_row) (st : sql_state) : sql_state :=
  let st :=
    if is_ext_mode (gr_registerMode gw) then
      with_mode MODBUS_REG_ADDR_EXTENSIBLE_MODE (with_cnt 1
        (with_map (<[0%nat := Chn 1 0 (gr_nameId gw)]> (chn_nameid_map st)) st))
    else if is_eff_mode (gr_registerMode gw) then
      with_mode MODBUS_REG_ADDR_EFFICIENT_MODE (with_cnt 1
        (with_eff_map (<[0%nat := EffChn 1 0 MODBUS_REG_GATEWAY_START_ADDR_OFFSET (gr_nameId gw)
                                    DEV_REG_ADDR_LENGTH_GW]> (efficient_chn_nameid_map st)) st))
    else st in
  with_shm (put APP_SHM_GATEWAY_TABLE_ADDR_OFFSET (gr_bytes gw) (shm st)) st.

(** [strtol] of the [n] characters from [off]. *)
Definition name_field (d : list Z) (off n : nat) : Z := strtol16 (take n (drop off d)).

(** One row of the device table. *)
Definition fetch_device (row : dev_item) (st : sql_state) : sql_state :=
  let d := it_description row in
  if negb ((nth 0 d 0 =? 67) && (nth 1 d 0 =? 72)) then st
  else
    let c := u8 (name_field d SENSOR_NAME_CHN_OFFSET 2) in
    let offset := u16 (name_field d SENSOR_NAME_START_ADDR_OFFSET 4) in
    let len := u8 (name_field d SENSOR_NAME_REG_LEN_OFFSET SENSOR_NAME_REG_LEN_LENGTH) in
    if negb (known_len len) then st
    else if negb ((0 <? c) && (c <? BULLET_GW_SENSOR_NUM_MAX + 1)) then st
    else
      let i := Z.to_nat c in
      let taken :=
        match g_modbus_reg_addr_mode st with
        | MODBUS_REG_ADDR_EXTENSIBLE_MODE =>
            let e := nth i (chn_nameid_map st) zero_chn in (1 =? validflag e) && (c =? ch e)
        | MODBUS_REG_ADDR_EFFICIENT_MODE =>
            let e := nth i (efficient_chn_nameid_map st) zero_eff in (1 =? e_validflag e) && (c =? e_ch e)
        end in
      if taken then st
      else
        let st :=
          match g_modbus_reg_addr_mode st with
          | MODBUS_REG_ADDR_EXTENSIBLE_MODE =>
              with_map (<[i := Chn 1 c (it_nameId row)]> (chn_nameid_map st)) st
          | MODBUS_REG_ADDR_EFFICIENT_MODE =>
              with_eff_map (<[i := EffChn 1 c offset (it_nameId row) len]> (efficient_chn_nameid_map st)) st
          end in
        let st := with_cnt (u8 (assigned_chn_cnt st + 1)) st in
        with_shm (put (dev_item_at c) (item_bytes row) (shm st)) st.

(** The rows in the order of the name ids; a query that fails ends the loop. *)
Fixpoint fetch_devices (n : nat) (rows : list (option (list gw_pro_data_t))) (st : sql_state) : sql_state :=
  match n, rows with
  | S n, Some req :: rows => fetch_devices n rows (fetch_device (table_update_data_convert req) st)
  | _, _ => st
  end.

Definition empty_state (s : list Z) : sql_state :=
  Sql (replicate 41 zero_chn) (replicate 41 zero_eff) 0 MODBUS_REG_ADDR_EXTENSIBLE_MODE true s.

(** Start-up: no gateway row ([None], also a row with name id 0) leaves the
    tables empty; the slave baud rate 0 turns the feature off. *)
Definition sql_start (gw : option gw_row) (rows : list (option (list gw_pro_data_t))) (s : list Z)
    : sql_state :=
  let st := empty_state (clean_shm s) in
  match gw with
  | Some gw =>
      if gr_nameId gw =? 0 then st
      else if gr_baudrateSlave gw =? 0 then with_feature false st
      else fetch_devices 40 rows (fetch_gateway gw st)
  | None => st
  end.

End process.

(** ** Searches *)

Lemma first_at_some {A} (p : A -> bool) n i l k : first_at p n i l = Some k ->
  (i <= k < i + n)%nat /\ (exists x, l !! k = Some x /\ p x = true) /\
  (forall j x, (i <= j < k)%nat -> l !! j = Some x -> p x = false).
Proof.
  revert i. induction n as [|n IH]; intros i H; [done|]. cbn [first_at] in H.
  destruct (l !! i) as [x|] eqn:Ei; [|done]. destruct (p x) eqn:Ep.
  - injection H as <-. split; [lia|]. split; [by exists x|]. intros j y Hj. lia.
  - apply IH in H as (Hk & Hx & Hj). split; [lia|]. split; [done|]. intros j y Hy Ej.
    destruct (decide (j = i)) as [->|]; [by simplify_eq|]. apply (Hj j); [lia|done].
Qed.

Lemma first_at_none {A} (p : A -> bool) n i l : (i + n <= length l)%nat -> first_at p n i l = None ->
  forall j x, (i <= j < i + n)%nat -> l !! j = Some x -> p x = false.
Proof.
  revert i. induction n as [|n IH]; intros i Hl H j x Hj Ej; [lia|]. cbn [first_at] in H.
  destruct (l !! i) as [y|] eqn:Ei; [|apply lookup_ge_None in Ei; lia]. destruct (p y) eqn:Ep; [done|].
  destruct (decide (j = i)) as [->|]; [by simplify_eq|]. apply (IH (S i)) with j; [lia|done|lia|done].
Qed.

(** A search that finds the only element that satisfies [p]. *)
Lemma first_at_only {A} (p : A -> bool) n i l k x : (i + n <= length l)%nat -> (i <= k < i + n)%nat ->
  l !! k = Some x -> p x = true ->
  (forall j y, (i <= j < i + n)%nat -> l !! j = Some y -> p y = true -> j = k) -> first_at p n i l = Some k.
Proof.
  intros Hl Hk Ek Hp Ho. destruct (first_at p n i l) as [k'|] eqn:E.
  - apply first_at_some in E as (Hk' & (y & Ey & Hy) & _). by rewrite (Ho k' y).
  - by rewrite (first_at_none p n i l Hl E k x Hk Ek) in Hp.
Qed.

(** ** Descriptions *)

Lemma cstr_id s : Forall (fun c => c <> 0) s -> cstr s = s.
Proof. induction 1 as [|c s Hc _ IH]; [done|]. cbn [cstr]. rewrite (proj2 (Z.eqb_neq _ _) Hc), IH. done. Qed.

Lemma hex_digit_nonzero n : 0 <= n -> hex_digit n <> 0.
Proof. unfold hex_digit. destruct (Z.ltb_spec n 10); lia. Qed.

Lemma sensor_type_str_cases t : shm_get_sensor_type_str t = MODBUS_PRODUCT_TYPE_PREDICT_SENSOR \/
  shm_get_sensor_type_str t = MODBUS_PRODUCT_TYPE_PRO_SENSOR \/
  shm_get_sensor_type_str t = MODBUS_PRODUCT_TYPE_INSIGHT_T_SENSOR.
Proof. unfold shm_get_sensor_type_str. destruct (strcmp_eq t _); [by left|]. destruct (strcmp_eq t _); auto. Qed.

(** The description printed into a cleared array. *)
Definition described (ch_idx addr len : Z) (t : list Z) : list Z :=
  layout_name ch_idx addr len (shm_get_sensor_type_str t ++ replicate 51 0).

Lemma print_description ch_idx addr len t : is_u8 ch_idx -> is_u16 addr -> is_u8 len ->
  snprintf_s zero_text GW_PRO_MAX_STRING_LEN_BYTE (layout_name ch_idx addr len (shm_get_sensor_type_str t)) =
  described ch_idx addr len t.
Proof.
  unfold is_u8, is_u16. intros Hc Ha Hl. unfold snprintf_s. rewrite cstr_id.
  - unfold described. by destruct (sensor_type_str_cases t) as [->|[->| ->]].
  - unfold layout_name. apply Forall_app; split.
    + repeat constructor; try lia; apply hex_digit_nonzero; Z.div_mod_to_equations; lia.
    + destruct (sensor_type_str_cases t) as [->|[->| ->]]; repeat constructor; lia.
Qed.

Definition has_description (req : list gw_pro_data_t) : Prop := Exists (fun d => field d = 7) req.

Lemma first_at_exists {A} (p : A -> bool) (l : list A) : Exists (fun x => p x = true) l ->
  exists i, first_at p (length l) 0 l = Some i.
Proof.
  intros H. destruct (first_at p (length l) 0 l) as [i|] eqn:E; [by exists i|].
  apply list.Exists_exists in H as (x & Hx & Hp). apply list_elem_of_lookup in Hx as [j Ej].
  pose proof (lookup_lt_Some _ _ _ Ej).
  rewrite (first_at_none p (length l) 0 l) with (j := j) (x := x) in Hp; [done|lia|done|lia|done].
Qed.

Lemma describe_eq ch_idx addr len row req : has_description req ->
  is_u8 ch_idx -> is_u16 addr -> is_u8 len -> exists i d,
  req !! i = Some d /\ field d = 7 /\ (forall j e, (j < i)%nat -> req !! j = Some e -> field e <> 7) /\
  describe ch_idx addr len row req =
    (<[i := Datum 7 (described ch_idx addr len (it_type row))]> req,
     set_description (described ch_idx addr len (it_type row)) row).
Proof.
  intros H Hc Ha Hl. destruct (first_at_exists (fun d => field d =? 7) req) as [i E].
  { eapply Exists_impl; [exact H|]. intros d Hd. cbv beta in Hd. lia. }
  pose proof (first_at_some _ _ _ _ _ E) as (_ & (d & Ed & Hd) & Hj). exists i, d.
  split; [done|]. split; [lia|]. split.
  - intros j e Hlt Ee. pose proof (Hj j e ltac:(lia) Ee). lia.
  - unfold describe. rewrite E, print_description by done. done.
Qed.

(** ** The channel table in the extensible mode *)

Definition valid (e : chn_nameid_mapping_t) : bool := validflag e =? 1.
Definition used (m : list chn_nameid_mapping_t) : Z := Z.of_nat (length (filter (fun e => valid e = true) (drop 1 m))).

(** Channel [c] is assigned to the name id. *)
Definition assigned (m : list chn_nameid_mapping_t) (c : nat) (nid : Z) : Prop :=
  (1 <= c <= 40)%nat /\ m !! c = Some (Chn 1 (Z.of_nat c) nid).

(** A table: every entry of a sensor is free or names its own channel, and no
    two channels have one name id. *)
Definition ext_table (m : list chn_nameid_mapping_t) : Prop :=
  length m = 41%nat /\
  (forall c e, (1 <= c)%nat -> m !! c = Some e -> e = zero_chn \/ exists nid, e = Chn 1 (Z.of_nat c) nid) /\
  (forall c c' nid, assigned m c nid -> assigned m c' nid -> c = c') /\
  (exists e, m !! 0%nat = Some e /\ ch e = 0).

(** The state: [assigned_chn_cnt] counts the assigned channels, and the gateway's. *)
Definition ext_inv (st : sql_state) : Prop :=
  modbus_feature_enable st = true /\ g_modbus_reg_addr_mode st = MODBUS_REG_ADDR_EXTENSIBLE_MODE /\
  ext_table (chn_nameid_map st) /\ assigned_chn_cnt st = 1 + used (chn_nameid_map st).

Lemma length_filter_insert {A} (P : A -> bool) i x y (l : list A) : l !! i = Some x ->
  Z.of_nat (length (filter (fun e => P e = true) (<[i := y]> l))) =
  Z.of_nat (length (filter (fun e => P e = true) l)) - Z.b2z (P x) + Z.b2z (P y).
Proof.
  revert i. induction l as [|z l IH]; intros [|i] E; try done.
  - injection E as ->. change (<[0%nat:=y]> (x :: l)) with (y :: l). rewrite !filter_cons. repeat case_decide; destruct (P x), (P y); cbn [length Z.b2z]; done || lia.
  - change (<[S i:=y]> (z :: l)) with (z :: <[i:=y]> l). rewrite !filter_cons. specialize (IH i E).
    case_decide; cbn [length]; rewrite ?Nat2Z.inj_succ, IH; lia.
Qed.

Lemma used_insert m c x y : (1 <= c)%nat -> m !! c = Some x ->
  used (<[c := y]> m) = used m - Z.b2z (valid x) + Z.b2z (valid y).
Proof.
  intros Hc E. unfold used. rewrite drop_insert_ge by lia.
  apply length_filter_insert. rewrite lookup_drop, <- E. f_equal. lia.
Qed.

Lemma used_insert_gw m y : used (<[0%nat := y]> m) = used m.
Proof. unfold used. by rewrite drop_insert_lt by lia. Qed.

Lemma used_bound m : length m = 41%nat -> 0 <= used m <= 40.
Proof.
  intros H. unfold used. pose proof (length_filter (fun e => valid e = true) (drop 1 m)).
  rewrite length_drop in *. lia.
Qed.

Lemma ext_free m c e : ext_table m -> (1 <= c)%nat -> m !! c = Some e ->
  (0 =? nameid e) && (0 =? ch e) = negb (valid e).
Proof. intros (_ & He & _) Hc E. destruct (He c e Hc E) as [->|[nid ->]]; [done|]. unfold valid; cbn [nameid ch validflag]. lia. Qed.

(** A free channel exists as long as fewer than 40 are assigned. *)
Lemma free_channel m : ext_table m ->
  first_at (fun e => (0 =? nameid e) && (0 =? ch e)) 40 1 m = None -> used m = 40.
Proof.
  intros H E. pose proof H as (Hl & _). unfold used.
  assert (Forall (fun e => valid e = true) (drop 1 m)) as Hall.
  { apply Forall_lookup_2. intros j e Ej. rewrite lookup_drop in Ej.
    pose proof (lookup_lt_Some _ _ _ Ej).
    pose proof (first_at_none _ 40 1 m ltac:(lia) E (1 + j)%nat e ltac:(lia) Ej) as Hf.
    cbv beta in Hf. rewrite (ext_free m (1 + j) e H ltac:(lia) Ej) in Hf. by apply negb_false_iff in Hf. }
  replace (filter _ _) with (drop 1 m); [rewrite length_drop; lia|].
  clear -Hall. induction Hall as [|e l He _ IH]; [done|]. rewrite filter_cons, He. cbn. by f_equal.
Qed.

Lemma full_table m c e : length m = 41%nat -> used m = 40 -> (1 <= c)%nat -> m !! c = Some e -> valid e = true.
Proof.
  intros Hl Hu Hc E. destruct (valid e) eqn:Ev; [done|]. exfalso.
  assert (length (filter (fun e => valid e = true) (drop 1 m)) < length (drop 1 m))%nat as Hlt.
  { apply length_filter_lt with e; [|by rewrite Ev].
    apply list_elem_of_lookup. exists (c - 1)%nat. rewrite lookup_drop. rewrite <- E. f_equal. lia. }
  unfold used in Hu. rewrite length_drop in Hlt. lia.
Qed.

Lemma lookup_assigned m nid : ext_table m ->
  match first_at (fun e => (nid =? nameid e) && (1 =? validflag e)) 40 1 m with
  | Some c => assigned m c nid
  | None => forall c, ~ assigned m c nid
  end.
Proof.
  intros (Hl & He & _). destruct (first_at _ 40 1 m) as [c|] eqn:E.
  - apply first_at_some in E as (Hc & (e & Ee & Hp) & _). split; [lia|].
    destruct (He c e ltac:(lia) Ee) as [->|[n ->]]; cbn in Hp; [lia|].
    rewrite Ee. do 2 f_equal. lia.
  - intros c [Hc Ec]. pose proof (first_at_none _ 40 1 m ltac:(lia) E c _ ltac:(lia) Ec) as Hp. cbn in Hp. lia.
Qed.

(** Giving channel [c] to a name id that has none. *)
Lemma assign_table m c nid : ext_table m -> (1 <= c <= 40)%nat -> (forall c', ~ assigned m c' nid) ->
  ext_table (<[c := Chn 1 (Z.of_nat c) nid]> m).
Proof.
  intros (Hl & He & Hu & Hg) Hc Hn. split; [by rewrite length_insert|].
  split; [|split; [|by rewrite list_lookup_insert_ne by lia]].
  - intros c' e Hc' E. apply list_lookup_insert_Some in E as [(-> & <- & _)|(_ & E)]; [right; by exists nid|by apply (He c')].
  - assert (forall c' n, assigned (<[c := Chn 1 (Z.of_nat c) nid]> m) c' n ->
      (c' = c /\ n = nid) \/ (c' <> c /\ assigned m c' n)) as Ha.
    { intros c' n [Hr E]. apply list_lookup_insert_Some in E as [(-> & E & _)|(Hne & E)].
      - left. by injection E as ->.
      - right. split; [done|by split]. }
    intros c1 c2 n [[-> ->]|[H1 A1]]%Ha [[-> E2]|[H2 A2]]%Ha; try done; try (subst; by apply Hn in A1).
    + by apply Hn in A2.
    + by apply (Hu c1 c2 n).
Qed.

Lemma clear_table m c : ext_table m -> ext_table (<[c := zero_chn]> m).
Proof.
  intros (Hl & He & Hu & e0 & E0 & Hg). split; [by rewrite length_insert|]. split; [|split].
  - intros c' e Hc' E. apply list_lookup_insert_Some in E as [(-> & <- & _)|(_ & E)]; [by left|by apply (He c')].
  - assert (forall c' n, assigned (<[c := zero_chn]> m) c' n -> assigned m c' n) as Ha.
    { intros c' n [Hr E]. split; [done|]. by apply list_lookup_insert_Some in E as [(_ & E & _)|(_ & E)]. }
    intros c1 c2 n A1%Ha A2%Ha. by apply (Hu c1 c2 n).
  - destruct (decide (c = 0%nat)) as [->|]; [|exists e0; by rewrite list_lookup_insert_ne by lia].
    exists zero_chn. split; [|done]. apply list_lookup_insert_eq. by apply lookup_lt_Some in E0.
Qed.

Lemma gw_table m e : ext_table m -> ch e = 0 -> ext_table (<[0%nat := e]> m).
Proof.
  intros (Hl & He & Hu & _) Hg.
  assert (forall c, (1 <= c)%nat -> <[0%nat := e]> m !! c = m !! c) as Hs by (intros; by rewrite list_lookup_insert_ne by lia).
  split; [by rewrite length_insert|]. split; [|split].
  - intros c x Hc E. rewrite Hs in E by done. by apply (He c).
  - intros c c' n [H1 E1] [H2 E2]. rewrite Hs in E1, E2 by lia. by apply (Hu c c' n).
  - exists e. split; [|done]. apply list_lookup_insert_eq. lia.
Qed.

Lemma ext_channel_eq nid st (m := chn_nameid_map st) : ext_inv st -> exists c st',
  ext_channel nid st = (Z.of_nat c, st') /\ ext_inv st' /\ shm st' = shm st /\
  assigned (chn_nameid_map st') c nid /\
  (forall c', c' <> c -> chn_nameid_map st' !! c' = m !! c') /\
  (assigned m c nid \/
   (forall c', ~ assigned m c' nid) /\ (m !! c = Some zero_chn \/ used m = 40 /\ c = 40%nat)).
Proof.
  intros Hinv. pose proof Hinv as (Hf & Hm & Ht & Hc). fold m in Ht, Hc. pose proof Ht as (Hl & He & _).
  pose proof (used_bound m Hl) as Hub. unfold ext_channel. fold m. pose proof (lookup_assigned m nid Ht) as Ha.
  destruct (first_at (fun e => (nid =? nameid e) && (1 =? validflag e)) 40 1 m) as [c|].
  { exists c, st. destruct Ha as [Hr E]. rewrite (nth_lookup_Some m c zero_chn _ E). cbn [ch].
    split; [done|]. split; [done|]. split; [done|]. split; [by split|]. split; [done|]. by left. }
  change BULLET_GW_SENSOR_NUM_MAX with 40. rewrite Hc.
  assert (forall c st', (1 <= c <= 40)%nat -> (m !! c = Some zero_chn \/ used m = 40 /\ c = 40%nat) ->
    modbus_feature_enable st' = true -> g_modbus_reg_addr_mode st' = MODBUS_REG_ADDR_EXTENSIBLE_MODE ->
    chn_nameid_map st' = <[c := Chn 1 (Z.of_nat c) nid]> m -> shm st' = shm st ->
    assigned_chn_cnt st' = (if bool_decide (used m = 40) then 1 + used m else 2 + used m) ->
    ext_inv st' /\ shm st' = shm st /\ assigned (chn_nameid_map st') c nid /\
    (forall c', c' <> c -> chn_nameid_map st' !! c' = m !! c') /\
    (assigned m c nid \/ (forall c', ~ assigned m c' nid) /\ (m !! c = Some zero_chn \/ used m = 40 /\ c = 40%nat)))
    as Hnew.
  { intros c st' Hr Hz Hf' Hm' Em Es Ec.
    destruct (lookup_lt_is_Some_2 m c) as [x Ex]; [lia|].
    split; [split; [done|]; split; [done|]; split|].
    - rewrite Em. by apply assign_table.
    - rewrite Ec, Em, (used_insert m c x) by (done || lia). case_bool_decide as Hu.
      + rewrite (full_table m c x) by (done || lia). cbn. lia.
      + destruct Hz as [Ez|[Hu' _]]; [|done]. rewrite Ez in Ex. injection Ex as <-. cbn. lia.
    - split; [done|]. split; [split; [lia|]; rewrite Em; apply list_lookup_insert_eq; lia|].
      split; [intros c' Hne; rewrite Em; by rewrite list_lookup_insert_ne by done|]. by right. }
  destruct (Z.ltb_spec 40 (1 + used m)) as [Hu|Hu].
  - exists 40%nat. eexists. split; [reflexivity|]. change (40 <=? 40) with true. cbn [Z.to_nat].
    apply Hnew; try done; [lia|right; split; [lia|done]|].
    cbn [with_map assigned_chn_cnt]. rewrite bool_decide_true by lia. done.
  - destruct (first_at (fun e => (0 =? nameid e) && (0 =? ch e)) 40 1 m) as [c|] eqn:E.
    2: { apply free_channel in E; [lia|done]. }
    apply first_at_some in E as (Hr & (e & Ee & Hp) & _). cbv beta in Hp.
    exists c. eexists. split; [reflexivity|]. rewrite (proj2 (Z.leb_le _ _)) by lia. rewrite Nat2Z.id.
    rewrite (ext_free m c e) in Hp by (done || lia).
    apply Hnew; try done; [lia| |].
    + left. rewrite Ee. destruct (He c e ltac:(lia) Ee) as [->|[n ->]]; done.
    + cbn [with_map with_cnt assigned_chn_cnt]. rewrite u8_id by (unfold is_u8; lia).
      rewrite bool_decide_false by lia. lia.
Qed.

(** The write is done, whatever the semaphore says. *)
Lemma sem_write_eq ws f st : snd (sem_write ws f st) = with_shm (f (shm st)) st.
Proof. by destruct ws as [[[] []] []], st. Qed.

Lemma ext_inv_shm s st : ext_inv st -> ext_inv (with_shm s st).
Proof. by destruct st. Qed.

Section channels.
Context (item_bytes : dev_item -> list Z).

(** An insertion or update in the extensible mode. *)
Lemma ext_upsert_eq itemfalg ws req st (row := table_update_data_convert req) (nid := it_nameId row) :
  ext_inv st -> exists c st' req' row',
  ext_channel nid st = (Z.of_nat c, st') /\ (1 <= c <= 40)%nat /\
  describe (Z.of_nat c) (ext_addr (Z.of_nat c)) MODBUS_REG_SENSOR_LENGTH row req = (req', row') /\
  dev_upsert item_bytes itemfalg ws req st =
  Some (if itemfalg then sqlite_update req' else sqlite_insert req',
        with_shm (put (dev_item_at (Z.of_nat c)) (item_bytes row') (shm st)) st').
Proof.
  intros H. destruct (ext_channel_eq nid st H) as (c & st' & E & _ & Es & (Hr & _) & _).
  destruct (describe (Z.of_nat c) (ext_addr (Z.of_nat c)) MODBUS_REG_SENSOR_LENGTH row req) as [req' row'] eqn:Ed.
  exists c, st', req', row'. split; [done|]. split; [done|]. split; [done|].
  destruct H as (Hf & Hm & _). unfold dev_upsert. rewrite Hf, Hm. cbn [negb]. fold row nid.
  rewrite E, Ed. unfold put_dev. by rewrite sem_write_eq, Es.
Qed.

Lemma ext_delete_inv ws nid st : ext_inv st -> ext_inv (dev_delete ws nid st).
Proof.
  intros H. pose proof H as (Hf & Hm & Ht & Hc). unfold dev_delete. rewrite Hf, Hm. cbn [negb].
  pose proof Ht as (Hl & He & _ & e0 & E0 & Hg). unfold ext_release.
  set (m := chn_nameid_map st) in *. destruct (first_at _ 41 0 m) as [i|] eqn:E; [|done].
  apply first_at_some in E as (Hi & (e & Ee & _) & _). rewrite (nth_lookup_Some _ _ _ _ Ee).
  pose proof (clear_table m i Ht) as Ht'. pose proof (used_bound m Hl) as Hu.
  destruct (decide (i = 0%nat)) as [->|Hne].
  { rewrite E0 in Ee. injection Ee as <-. rewrite Hg. change ((0 =? 0) || _) with true. cbv iota.
    split; [done|]. split; [done|]. split; [done|]. cbn [with_map chn_nameid_map assigned_chn_cnt]. by rewrite used_insert_gw. }
  pose proof (used_insert m i e zero_chn ltac:(lia) Ee) as Hui. change (Z.b2z (valid zero_chn)) with 0 in Hui.
  change BULLET_GW_SENSOR_NUM_MAX with 40.
  destruct (He i e ltac:(lia) Ee) as [->|[n ->]].
  { change ((ch zero_chn =? 0) || _) with true. cbv iota. split; [done|]. split; [done|]. split; [done|].
    cbn [with_map chn_nameid_map assigned_chn_cnt]. rewrite Hui. change (Z.b2z (valid zero_chn)) with 0. lia. }
  cbn [ch]. rewrite (proj2 (Z.eqb_neq _ _)), (proj2 (Z.ltb_ge _ _)) by lia. cbn [orb]. rewrite sem_write_eq.
  apply ext_inv_shm. split; [done|]. split; [done|]. split; [done|].
  cbn [with_map with_cnt chn_nameid_map assigned_chn_cnt]. rewrite Hui. change (Z.b2z (valid _)) with 1.
  rewrite u8_id by (unfold is_u8; lia). lia.
Qed.

Lemma ext_gw_inv ws gw st : ext_inv st -> ext_inv (gw_upsert ws gw st).
Proof.
  intros H. pose proof H as (Hf & Hm & Ht & Hc). unfold gw_upsert. rewrite Hf, Hm. cbn [negb].
  rewrite sem_write_eq. apply ext_inv_shm. split; [done|]. split; [done|]. cbn [with_map chn_nameid_map assigned_chn_cnt].
  split; [by apply gw_table|]. by rewrite used_insert_gw.
Qed.

(** ** Start-up in the extensible mode *)

Definition row_ids (rows : list (option (list gw_pro_data_t))) : list Z :=
  omap (fun r => (fun req => it_nameId (table_update_data_convert req)) <$> r) rows.

Lemma fetch_device_inv row st : ext_inv st -> (forall c, ~ assigned (chn_nameid_map st) c (it_nameId row)) ->
  ext_inv (fetch_device item_bytes row st) /\
  (forall c nid, assigned (chn_nameid_map (fetch_device item_bytes row st)) c nid ->
     nid = it_nameId row \/ assigned (chn_nameid_map st) c nid).
Proof.
  intros H Hn. pose proof H as (Hf & Hm & Ht & Hc). pose proof Ht as (Hl & He & _). unfold fetch_device.
  set (m := chn_nameid_map st) in *. pose proof (used_bound m Hl) as Hu.
  destruct (negb (_ && _)); [split; auto|]. destruct (negb (known_len _)); [split; auto|].
  set (c := u8 (name_field _ SENSOR_NAME_CHN_OFFSET 2)). change BULLET_GW_SENSOR_NUM_MAX with 40.
  destruct (negb _) eqn:Er; [split; auto|]. rewrite Hm.
  destruct (lookup_lt_is_Some_2 m (Z.to_nat c)) as [x Ex]; [lia|]. rewrite (nth_lookup_Some _ _ _ _ Ex).
  destruct ((1 =? validflag x) && (c =? ch x)) eqn:Et; [split; auto|].
  destruct (He (Z.to_nat c) x ltac:(lia) Ex) as [->|[n ->]]; [|cbn in Et; lia].
  pose proof (used_insert m (Z.to_nat c) zero_chn (Chn 1 c (it_nameId row)) ltac:(lia) Ex) as Hui.
  change (Z.b2z (valid _)) with 0 in Hui at 1. change (Z.b2z (valid (Chn 1 c (it_nameId row)))) with 1 in Hui.
  split.
  - apply ext_inv_shm. split; [done|]. split; [done|]. split.
    + cbn [with_map with_cnt chn_nameid_map]. pose proof (assign_table m (Z.to_nat c) (it_nameId row)) as Ha.
      rewrite Z2Nat.id in Ha by lia. apply Ha; [done|lia|done].
    + cbn [with_map with_cnt chn_nameid_map assigned_chn_cnt]. fold m. rewrite Hui, Hc.
      assert (used m < 40) as Hlt.
      { destruct (decide (used m = 40)) as [Hq|]; [|lia].
        by pose proof (full_table m (Z.to_nat c) _ Hl Hq ltac:(lia) Ex). }
      rewrite u8_id by (unfold is_u8; lia). lia.
  - cbn [with_map with_cnt with_shm chn_nameid_map]. intros c' nid [Hr E].
    apply list_lookup_insert_Some in E as [(_ & E & _)|(_ & E)]; [left; by injection E as ->|right; by split].
Qed.

Lemma fetch_devices_inv n rows st : ext_inv st -> NoDup (row_ids rows) ->
  (forall c nid, assigned (chn_nameid_map st) c nid -> nid ∉ row_ids rows) ->
  ext_inv (fetch_devices item_bytes n rows st).
Proof.
  revert rows st. induction n as [|n IH]; intros rows st H Hnd Hd; [done|].
  destruct rows as [|[req|] rows]; [done| |done]. cbn [fetch_devices].
  change (row_ids (Some req :: rows)) with (it_nameId (table_update_data_convert req) :: row_ids rows) in *.
  apply NoDup_cons in Hnd as [Hnin Hnd].
  destruct (fetch_device_inv (table_update_data_convert req) st H) as [H' Ha].
  { intros c A. apply Hd in A. apply A. by left. }
  apply IH; [done|done|]. intros c nid [->|A]%Ha; [done|]. apply Hd in A. intros Hin. apply A. by right.
Qed.

Lemma empty_table : ext_table (replicate 41 zero_chn).
Proof.
  split; [done|]. split; [|split].
  - intros c e _ E. apply lookup_replicate in E as [-> _]. by left.
  - intros c c' nid [_ E]. by apply lookup_replicate in E as [? _].
  - by exists zero_chn.
Qed.

Lemma start_inv gw rows s : gr_nameId gw <> 0 -> gr_baudrateSlave gw <> 0 ->
  is_ext_mode (gr_registerMode gw) = true -> NoDup (row_ids rows) ->
  ext_inv (sql_start item_bytes (Some gw) rows s).
Proof.
  intros Hn Hb Hm Hd. unfold sql_start. rewrite (proj2 (Z.eqb_neq _ _) Hn), (proj2 (Z.eqb_neq _ _) Hb).
  apply fetch_devices_inv; [|done|].
  - unfold fetch_gateway. rewrite Hm. apply ext_inv_shm. split; [done|]. split; [done|].
    split; [apply gw_table; [apply empty_table|done]|]. reflexivity.
  - unfold fetch_gateway. rewrite Hm. cbn [with_shm with_mode with_cnt with_map chn_nameid_map].
    intros c nid [Hr E]. rewrite list_lookup_insert_ne in E by lia.
    by apply lookup_replicate in E as [? _].
Qed.

(** ** Properties of the extensible mode *)

(** The requests of the other processes, one after the other. *)
Inductive sql_step : sql_state -> sql_state -> Prop :=
  | step_upsert itemfalg ws req call st st' :
      dev_upsert item_bytes itemfalg ws req st = Some (call, st') -> sql_step st st'
  | step_delete ws itemIdx st : sql_step st (dev_delete ws itemIdx st)
  | step_gateway ws gw st : sql_step st (gw_upsert ws gw st).

Lemma sql_step_inv st st' : ext_inv st -> sql_step st st' -> ext_inv st'.
Proof.
  intros H Hs. destruct Hs as [b ws req call st st' E|ws nid st|ws gw st]; [|by apply ext_delete_inv|by apply ext_gw_inv].
  destruct (ext_upsert_eq b ws req st H) as (c & st1 & req' & row' & Ec & _ & _ & E').
  rewrite E' in E. injection E as _ <-. apply ext_inv_shm.
  destruct (ext_channel_eq (it_nameId (table_update_data_convert req)) st H) as (c' & st2 & Ec' & H2 & _).
  rewrite Ec in Ec'. by injection Ec' as _ ->.
Qed.

(** C34: The channel table is consistent at all times. After a start with a
    gateway in an extensible mode, whatever rows the database holds (name ids
    are its key), and any sequence of insertions, updates and deletions of
    devices and gateway rows: a sensor's entry is free or names its own channel, no two
    channels have the same name id, [assigned_chn_cnt] is the number of
    assigned channels and the gateway's, and the next insertion or update is defined. *)
Theorem channels_stay_consistent gw rows s st :
  gr_nameId gw <> 0 -> gr_baudrateSlave gw <> 0 -> is_ext_mode (gr_registerMode gw) = true ->
  NoDup (row_ids rows) -> rtc sql_step (sql_start item_bytes (Some gw) rows s) st ->
  ext_inv st /\ forall itemfalg ws req, exists r, dev_upsert item_bytes itemfalg ws req st = Some r.
Proof.
  intros Hn Hb Hm Hd Hr. assert (ext_inv st) as H.
  { apply (rtc_ind_r (fun st => ext_inv st) _) with (3 := Hr); [by apply start_inv|].
    intros x y _ Hs H. by apply sql_step_inv with x. }
  split; [done|]. intros b ws req. destruct (ext_upsert_eq b ws req st H) as (? & ? & ? & ? & _ & _ & _ & E).
  by eexists.
Qed.

(** C35: In the extensible mode a device that is inserted or updated with a description gets a channel
    from 1 to 40. A device that has one keeps it; every other device keeps its
    own as long as not all 40 are assigned. The database is asked to store, and
    the shared memory gets in the item of the channel, the device with the
    description of the channel's block: the channel, the start 128 times the
    channel, the length 128, and the sensor type - whether or not the semaphore was free. *)
Theorem device_gets_channel itemfalg ws req st
    (row := table_update_data_convert req) (nid := it_nameId row) :
  ext_inv st -> has_description req -> exists c req' st',
  dev_upsert item_bytes itemfalg ws req st =
    Some (if itemfalg then sqlite_update req' else sqlite_insert req', st') /\
  let text := described (Z.of_nat c) (128 * Z.of_nat c) 128 (it_type row) in
  assigned (chn_nameid_map st') c nid /\
  (forall c', assigned (chn_nameid_map st) c' nid -> c' = c) /\
  (used (chn_nameid_map st) < 40 -> forall c' n, n <> nid ->
     assigned (chn_nameid_map st') c' n <-> assigned (chn_nameid_map st) c' n) /\
  (exists i, req' = <[i := Datum 7 text]> req /\ req' !! i = Some (Datum 7 text)) /\
  shm st' = put (dev_item_at (Z.of_nat c)) (item_bytes (set_description text row)) (shm st).
Proof.
  intros H Hd. destruct (ext_upsert_eq itemfalg ws req st H) as (c & st' & req' & row' & Ec & Hr & Ed & E).
  assert (ext_addr (Z.of_nat c) = 128 * Z.of_nat c) as Ha
    by (unfold ext_addr, MODBUS_REG_SENSOR_START_ADDR_OFFSET, MODBUS_REG_SENSOR_LENGTH; lia).
  destruct (describe_eq (Z.of_nat c) (ext_addr (Z.of_nat c)) MODBUS_REG_SENSOR_LENGTH row req Hd)
    as (i & d & Ei & _ & _ & Ed'); [unfold is_u8; lia|rewrite Ha; unfold is_u16; lia|done|].
  unfold row in Ed'. rewrite Ed, Ha in Ed'. injection Ed' as -> ->. exists c. eexists. eexists. split; [exact E|].
  fold row nid in Ec |- *. change MODBUS_REG_SENSOR_LENGTH with 128.
  destruct (ext_channel_eq nid st H) as (c2 & st2 & Ec2 & _ & _ & Has & Hoth & Hcase).
  rewrite Ec in Ec2. injection Ec2 as Hc2 <-. apply Nat2Z.inj in Hc2 as <-.
  pose proof H as (_ & _ & (_ & _ & Hu & _) & _).
  split; [done|]. split; [|split; [|split; [|done]]].
  - intros c' A. destruct Hcase as [A'|[Hno _]]; [by apply (Hu c' c nid)|by apply Hno in A].
  - intros Hlt c' n Hn. cbn [with_shm chn_nameid_map]. unfold assigned. destruct (decide (c' = c)) as [->|Hne]; [|by rewrite Hoth].
    destruct Has as [_ ->]. split; intros [Hr' Ex]; [by injection Ex as ->|].
    destruct Hcase as [[_ Ey]|[_ [Ey|[Hf _]]]]; [| |lia]; rewrite Ey in Ex; unfold zero_chn in Ex; congruence.
  - exists i. split; [done|]. apply list_lookup_insert_eq. by apply lookup_lt_Some in Ei.
Qed.

(** With all 40 channels assigned, a further device takes channel 40 from the
    device that has it: that one keeps its row in the database, and its
    description, but has no channel any more. *)
Theorem full_table_takes_channel_40 itemfalg ws req st
    (row := table_update_data_convert req) (nid := it_nameId row) :
  ext_inv st -> used (chn_nameid_map st) = 40 -> (forall c, ~ assigned (chn_nameid_map st) c nid) ->
  exists n call st', assigned (chn_nameid_map st) 40 n /\
    dev_upsert item_bytes itemfalg ws req st = Some (call, st') /\
    assigned (chn_nameid_map st') 40 nid /\ forall c, ~ assigned (chn_nameid_map st') c n.
Proof.
  intros H Hu Hno. pose proof H as (_ & _ & Ht & _). pose proof Ht as (Hl & He & Huniq & _).
  destruct (lookup_lt_is_Some_2 (chn_nameid_map st) 40) as [e Ee]; [lia|].
  destruct (He 40%nat e ltac:(lia) Ee) as [->|[n ->]].
  { by pose proof (full_table _ 40 _ Hl Hu ltac:(lia) Ee). }
  assert (assigned (chn_nameid_map st) 40 n) as A by (split; [lia|done]).
  destruct (ext_upsert_eq itemfalg ws req st H) as (c & st' & req' & row' & Ec & Hr & _ & E).
  destruct (ext_channel_eq nid st H) as (c2 & st2 & Ec2 & _ & _ & Has & Hoth & Hcase).
  unfold nid, row in Ec2. rewrite Ec in Ec2. injection Ec2 as Hc2 <-. apply Nat2Z.inj in Hc2 as <-.
  assert (c = 40%nat) as ->.
  { destruct Hcase as [A'|[_ [Ez|[_ ->]]]]; [by apply Hno in A'| |done].
    by pose proof (full_table _ c _ Hl Hu ltac:(lia) Ez). }
  exists n. eexists. eexists. split; [done|]. split; [exact E|]. split; [done|].
  intros c A'. cbn [with_shm chn_nameid_map] in A'. destruct (decide (c = 40%nat)) as [->|Hne].
  - destruct Has as [_ E1], A' as [_ E2]. rewrite E1 in E2. injection E2 as E2.
    apply (Hno 40%nat). by rewrite E2.
  - unfold assigned in A'. rewrite Hoth in A' by done. by pose proof (Huniq c 40%nat n A' A).
Qed.
End channels.

(** ** Restart *)

Lemma hex_value_digits ds acc : Forall (fun d => 0 <= d < 16) ds ->
  hex_value (map hex_digit ds) acc = fold_left (fun a d => a * 16 + d) ds acc.
Proof.
  intros H. revert acc. induction H as [|d ds Hd _ IH]; intros acc; [done|]. cbn [map hex_value fold_left].
  destruct (hex_digit_ok d Hd) as [-> ->]. apply IH.
Qed.

Lemma hex_digit_plain d : 0 <= d < 16 ->
  is_space (hex_digit d) = false /\ (hex_digit d =? 45) = false /\ (hex_digit d =? 43) = false /\
  ((hex_digit d =? 120) || (hex_digit d =? 88)) = false.
Proof. unfold is_space, hex_digit. destruct (Z.ltb_spec d 10); lia. Qed.

Lemma strtol16_digits d ds : Forall (fun d => 0 <= d < 16) (d :: ds) ->
  strtol16 (map hex_digit (d :: ds)) = fold_left (fun a d => a * 16 + d) ds d.
Proof.
  intros H. pose proof H as [Hd Hds]%Forall_cons. destruct (hex_digit_plain d Hd) as (H1 & H2 & H3 & _).
  unfold strtol16. cbn [map skip_space]. rewrite H1, H2, H3.
  replace (skip_0x _) with (map hex_digit (d :: ds)).
  - rewrite hex_value_digits by done. done.
  - destruct ds as [|d1 ds]; [done|]. apply Forall_cons in Hds as [Hd1 _].
    destruct (hex_digit_plain d1 Hd1) as (_ & _ & _ & H4). cbn [map skip_0x].
    destruct (map hex_digit ds); [done|]. by rewrite H4, andb_false_r.
Qed.

Lemma described_fields c addr len t : is_u8 c -> is_u16 addr -> is_u8 len ->
  nth 0 (described c addr len t) 0 = 67 /\ nth 1 (described c addr len t) 0 = 72 /\
  name_field (described c addr len t) SENSOR_NAME_CHN_OFFSET 2 = c /\
  name_field (described c addr len t) SENSOR_NAME_START_ADDR_OFFSET 4 = addr /\
  name_field (described c addr len t) SENSOR_NAME_REG_LEN_OFFSET SENSOR_NAME_REG_LEN_LENGTH = len.
Proof.
  unfold is_u8, is_u16. intros Hc Ha Hl. split; [done|]. split; [done|]. unfold name_field.
  assert (forall x, 0 <= x < 256 -> strtol16 (map hex_digit [x / 16; x mod 16]) = x) as H2.
  { intros x Hx. rewrite strtol16_digits by (repeat constructor; Z.div_mod_to_equations; lia).
    cbn [fold_left]. Z.div_mod_to_equations; lia. }
  split; [by apply (H2 c)|]. split; [|by apply (H2 len)].
  change (take 4 _) with (map hex_digit [addr / 4096; addr / 256 mod 16; addr / 16 mod 16; addr mod 16]).
  rewrite strtol16_digits by (repeat constructor; Z.div_mod_to_equations; lia).
  cbn [fold_left]. Z.div_mod_to_equations; lia.
Qed.

(** The row carries the description of the extensible block of channel [c]. *)
Definition row_of_channel (req : list gw_pro_data_t) (c : nat) : Prop :=
  (1 <= c <= 40)%nat /\ exists t,
  it_description (table_update_data_convert req) = described (Z.of_nat c) (ext_addr (Z.of_nat c)) 128 t.

Lemma start_described item_bytes req c st : ext_inv st -> row_of_channel req c ->
  chn_nameid_map st !! c = Some zero_chn ->
  chn_nameid_map (fetch_device item_bytes (table_update_data_convert req) st) =
  <[c := Chn 1 (Z.of_nat c) (it_nameId (table_update_data_convert req))]> (chn_nameid_map st).
Proof.
  intros (_ & Hm & _) (Hc & t & Ed) E.
  destruct (described_fields (Z.of_nat c) (ext_addr (Z.of_nat c)) 128 t) as (H0 & H1 & Hch & _ & Hlen).
  1-3: unfold is_u8, is_u16, ext_addr, MODBUS_REG_SENSOR_START_ADDR_OFFSET, MODBUS_REG_SENSOR_LENGTH; lia.
  unfold fetch_device. rewrite Ed, H0, H1, Hch, Hlen, Hm. change (u8 128) with 128.
  rewrite u8_id by (unfold is_u8; lia). change (negb ((67 =? 67) && (72 =? 72))) with false. cbv iota.
  change (negb (known_len 128)) with false. cbv iota. change BULLET_GW_SENSOR_NUM_MAX with 40.
  rewrite (proj2 (Z.ltb_lt 0 _)), (proj2 (Z.ltb_lt _ (40 + 1))) by lia. cbn [andb negb]. rewrite Nat2Z.id.
  rewrite (nth_lookup_Some _ _ _ _ E). reflexivity.
Qed.

Lemma restart_devices item_bytes reqs cs n st : (length reqs <= n)%nat -> Forall2 row_of_channel reqs cs ->
  ext_inv st -> NoDup cs -> NoDup (row_ids (map Some reqs)) ->
  (forall c nid, assigned (chn_nameid_map st) c nid -> (c ∉ cs) /\ (nid ∉ row_ids (map Some reqs))) ->
  forall c nid, assigned (chn_nameid_map (fetch_devices item_bytes n (map Some reqs) st)) c nid <->
    assigned (chn_nameid_map st) c nid \/
    (c, nid) ∈ zip cs (row_ids (map Some reqs)).
Proof.
  intros Hn HF. revert n st Hn. induction HF as [|req c0 reqs cs Hr HF IH]; intros n st Hn H Hcs Hid Hd c nid.
  { destruct n; cbn; split; [by left|intros [?|[]%not_elem_of_nil]; done|by left|intros [?|[]%not_elem_of_nil]; done]. }
  destruct n as [|n]; [cbn in Hn; lia|]. cbn [map fetch_devices length] in *.
  change (row_ids (Some req :: map Some reqs)) with
    (it_nameId (table_update_data_convert req) :: row_ids (map Some reqs)) in *.
  apply NoDup_cons in Hcs as [Hc0 Hcs], Hid as [Hi0 Hid].
  set (nid0 := it_nameId (table_update_data_convert req)) in *.
  pose proof H as (_ & _ & (Hl & He & _) & _).
  destruct (lookup_lt_is_Some_2 (chn_nameid_map st) c0) as [e Ee]; [destruct Hr; lia|].
  assert (e = zero_chn) as ->.
  { destruct (He c0 e ltac:(destruct Hr; lia) Ee) as [->|[n0 ->]]; [done|].
    destruct (Hd c0 n0) as [Hx _]; [split; [by destruct Hr|done]|]. by destruct Hx; left. }
  pose proof (start_described item_bytes req c0 st H Hr Ee) as Em.
  destruct (fetch_device_inv item_bytes (table_update_data_convert req) st H) as [H' _].
  { intros c1 A. apply Hd in A as [_ A]. apply A. by left. }
  assert (forall c1 n1, assigned (chn_nameid_map (fetch_device item_bytes (table_update_data_convert req) st)) c1 n1 <->
    (c1 = c0 /\ n1 = nid0) \/ assigned (chn_nameid_map st) c1 n1) as Ha.
  { intros c1 n1. rewrite Em. unfold assigned. destruct (decide (c1 = c0)) as [->|Hne].
    - rewrite list_lookup_insert_eq by (destruct Hr; lia). rewrite Ee. unfold zero_chn, nid0. destruct Hr as [Hr _].
      split; [intros [_ E]; left; split; congruence|intros [[_ ->]|[_ E]]; [done|congruence]].
    - rewrite list_lookup_insert_ne by done. tauto. }
  rewrite (IH n _ ltac:(lia) H' Hcs Hid).
  - rewrite Ha. cbn [zip]. rewrite elem_of_cons, pair_equal_spec. tauto.
  - intros c1 n1 [[-> ->]|A]%Ha; [done|]. apply Hd in A as [A1 A2]. split; [intros Hx; apply A1|intros Hx; apply A2]; by right.
Qed.

(** C36: A restart restores the channels. When the database holds at most 40 devices, each
    with the description of a channel of its own, start-up assigns exactly
    those channels to those name ids. *)
Theorem restart_restores_channels item_bytes gw reqs cs s :
  gr_nameId gw <> 0 -> gr_baudrateSlave gw <> 0 -> is_ext_mode (gr_registerMode gw) = true ->
  (length reqs <= 40)%nat -> Forall2 row_of_channel reqs cs -> NoDup cs -> NoDup (row_ids (map Some reqs)) ->
  forall c nid, assigned (chn_nameid_map (sql_start item_bytes (Some gw) (map Some reqs) s)) c nid <->
    (c, nid) ∈ zip cs (row_ids (map Some reqs)).
Proof.
  intros Hn Hb Hm Hl HF Hcs Hid c nid. pose proof (start_inv item_bytes gw [] s Hn Hb Hm (NoDup_nil_2)) as H.
  unfold sql_start in *. rewrite (proj2 (Z.eqb_neq _ _) Hn), (proj2 (Z.eqb_neq _ _) Hb) in *. cbn [fetch_devices] in H.
  assert (forall c nid, ~ assigned (chn_nameid_map (fetch_gateway gw (empty_state (clean_shm s)))) c nid) as He.
  { intros c1 n1 [Hr E]. unfold fetch_gateway in E. rewrite Hm in E.
    cbn [with_shm with_mode with_cnt with_map chn_nameid_map] in E. rewrite list_lookup_insert_ne in E by lia.
    by apply lookup_replicate in E as [? _]. }
  rewrite restart_devices with (cs := cs) (n := 40%nat); [|done|done|done|done|done|by intros ? ? ?%He].
  split; [intros [A|A]; [by apply He in A|done]|by right].
Qed.

(** ** Examples *)

(** The elements of an insertion: the name id, the type, an empty description. *)
Definition insertion (nid : Z) (sType : list Z) : list gw_pro_data_t :=
  [Datum 1 [nid; 0; 0; 0]; Datum 6 sType; Datum 7 zero_text].

Lemma insertion_description nid ty : has_description (insertion nid ty).
Proof. right. right. by left. Qed.

Lemma bytes_check l : forallb (fun c => (0 <=? c) && (c <? 256)) l = true -> Forall is_u8 l.
Proof.
  intros H. rewrite forallb_forall in H. apply list.Forall_forall. intros c Hc%list_elem_of_In.
  specialize (H c Hc). unfold is_u8. lia.
Qed.

Lemma insertion_bytes nid ty : is_u8 nid -> forallb (fun c => (0 <=? c) && (c <? 256)) ty = true ->
  Forall (fun d => Forall is_u8 (data d)) (insertion nid ty).
Proof.
  intros Hn H. unfold is_u8 in Hn. constructor; [apply bytes_check; cbn; lia|].
  constructor; [by apply bytes_check|]. constructor; [by apply bytes_check|done].
Qed.

Definition ext_state (t : list chn_nameid_mapping_t * Z) (s : list Z) : sql_state :=
  Sql (fst t) (replicate 41 zero_eff) (snd t) MODBUS_REG_ADDR_EXTENSIBLE_MODE true s.

(** Only the gateway, and the gateway with 40 sensors. *)
Definition fresh_state : list Z -> sql_state := ext_state (Chn 1 0 1 :: replicate 40 zero_chn, 1).
Definition full_state : list Z -> sql_state :=
  ext_state (Chn 1 0 1 :: map (fun c => Chn 1 (Z.of_nat c) (100 + Z.of_nat c)) (seq 1 40), 41).

Lemma fresh_inv s : ext_inv (fresh_state s).
Proof. split; [done|]. split; [done|]. split; [apply (gw_table _ (Chn 1 0 1) empty_table); done|reflexivity]. Qed.

Lemma full_lookup c e s : (1 <= c)%nat -> chn_nameid_map (full_state s) !! c = Some e ->
  e = Chn 1 (Z.of_nat c) (100 + Z.of_nat c).
Proof.
  intros Hc E. destruct c as [|c]; [lia|]. 
  change (map (fun c => Chn 1 (Z.of_nat c) (100 + Z.of_nat c)) (seq 1 40) !! c = Some e) in E.
  rewrite list_lookup_fmap in E. destruct (seq 1 40 !! c) as [n|] eqn:En; [|done].
  apply lookup_seq in En as [-> _]. by injection E as <-.
Qed.

Lemma full_inv s : ext_inv (full_state s).
Proof.
  split; [done|]. split; [done|]. split; [|reflexivity]. split; [done|]. split; [|split].
  - intros c e Hc E. right. eexists. by apply full_lookup in E.
  - intros c c' nid [Hc E] [Hc' E']. apply full_lookup in E, E'; [|lia|lia]. injection E as E. injection E' as E'. lia.
  - by eexists.
Qed.

Section first_start.
Context (item_bytes : dev_item -> list Z).

Lemma ext_channel_shm nid t s :
  ext_channel nid (ext_state t s) =
  (fst (ext_channel nid (ext_state t [])),
   ext_state (chn_nameid_map (snd (ext_channel nid (ext_state t []))),
              assigned_chn_cnt (snd (ext_channel nid (ext_state t [])))) s).
Proof.
  destruct t as [m cnt]. unfold ext_channel. cbn [ext_state chn_nameid_map assigned_chn_cnt fst snd].
  destruct (first_at (fun e => (nid =? nameid e) && (1 =? validflag e)) 40 1 m); [reflexivity|].
  destruct (BULLET_GW_SENSOR_NUM_MAX <? cnt); [reflexivity|].
  destruct (first_at (fun e => (0 =? nameid e) && (0 =? ch e)) 40 1 m) as [i|]; [|reflexivity].
  by destruct (Z.of_nat i <=? BULLET_GW_SENSOR_NUM_MAX).
Qed.

Lemma ext_insert_eq ws nid t s : is_u8 nid -> exists call row,
  let r := ext_channel nid (ext_state t []) in
  dev_upsert item_bytes false ws (insertion nid []) (ext_state t s) =
  Some (call, ext_state (chn_nameid_map (snd r), assigned_chn_cnt (snd r))
                (put (dev_item_at (fst r)) (item_bytes row) s)).
Proof.
  intros Hn. unfold dev_upsert. cbn [ext_state modbus_feature_enable g_modbus_reg_addr_mode negb].
  replace (it_nameId (table_update_data_convert (insertion nid []))) with nid.
  2: { cbn. by rewrite Z.lor_0_r. }
  rewrite ext_channel_shm. set (r := ext_channel nid (ext_state t [])).
  destruct (describe _ _ _ _ _) as [req' row']. eexists _, row'. cbn zeta. unfold put_dev. rewrite sem_write_eq.
  reflexivity.
Qed.

(** Insertions of the name ids, on the table and the counter. *)
Fixpoint insert_all (nids : list Z) (t : list chn_nameid_mapping_t * Z) : list chn_nameid_mapping_t * Z :=
  match nids with
  | [] => t
  | nid :: nids =>
      let st := snd (ext_channel nid (ext_state t [])) in insert_all nids (chn_nameid_map st, assigned_chn_cnt st)
  end.

Lemma insert_all_steps nids t s : Forall is_u8 nids ->
  exists s', rtc (sql_step item_bytes) (ext_state t s) (ext_state (insert_all nids t) s').
Proof.
  intros H. revert t s. induction H as [|nid nids Hn _ IH]; intros t s; [exists s; apply rtc_refl|].
  destruct (ext_insert_eq (true, true, true) nid t s Hn) as (call & row & E). cbv zeta in E.
  cbn [insert_all]. cbv zeta. edestruct IH as [s' Hs]. exists s'. eapply rtc_l; [|exact Hs].
  by eapply step_upsert.
Qed.

(** After a start without a gateway row [assigned_chn_cnt] does not count the
    gateway. When the gateway's row and then 41 devices are inserted, the last
    one finds neither a free channel nor the limit: it gets no channel, and
    its item is written behind the device table, over the sensor data of
    channel 1. *)
Theorem device_41_overwrites_sensor_data s : exists st,
  rtc (sql_step item_bytes) (sql_start item_bytes None [] s) st /\
  forall ws, exists call st' row, dev_upsert item_bytes false ws (insertion 42 []) st = Some (call, st') /\
    shm st' = put APP_SHM_SENSORDATA_TABLE_ADDR_OFFSET (item_bytes row) (shm st) /\
    forall c, ~ assigned (chn_nameid_map st') c 42.
Proof.
  set (t0 := (Chn 0 0 1 :: replicate 40 zero_chn, 0)). set (nids := map Z.of_nat (seq 2 40)).
  destruct (insert_all_steps nids t0 (put 0 [] (clean_shm s))) as [s' Hs].
  { unfold nids. apply list.Forall_forall. intros n Hn%list_elem_of_In. apply in_map_iff in Hn as (k & <- & Hk).
    apply in_seq in Hk. unfold is_u8. lia. }
  set (t := insert_all nids t0) in *. exists (ext_state t s'). split.
  - eapply rtc_l; [apply (step_gateway _ (true, true, true) (GwRow 1 9600 0 []))|]. exact Hs.
  - intros ws. destruct (ext_insert_eq ws 42 t s') as (call & row & E); [unfold is_u8; lia|]. cbv zeta in E.
    assert (ext_channel 42 (ext_state t []) = (41, ext_state t [])) as Ec by by vm_compute.
    rewrite Ec in E. cbn [fst snd] in E. eexists call, _, row. split; [exact E|]. split; [reflexivity|].
    intros c A. cbn [ext_state chn_nameid_map fst] in A. pose proof A as [Hc Ea].
    assert (forallb (fun e => negb (nameid e =? 42)) (fst t) = true) as Hall by by vm_compute.
    rewrite forallb_forall in Hall. apply list_elem_of_lookup_2, list_elem_of_In, Hall in Ea. by cbn in Ea.
Qed.
End first_start.

(** A row of the database for channel [c]. *)
Definition stored_row (nid c : Z) : list gw_pro_data_t :=
  [Datum 1 [nid; 0; 0; 0]; Datum 6 TYPE_STR_INSIGHT_P;
   Datum 7 (described c (ext_addr c) 128 TYPE_STR_INSIGHT_P)].

Definition ext_gateway : gw_row := GwRow 1 9600 0 [].
Definition no_bytes (row : dev_item) : list Z := [].

Lemma channels_stay_consistent_witness :
  ext_inv (dev_delete (true, true, true) 5 (sql_start no_bytes (Some ext_gateway) [Some (stored_row 5 3)] [])).
Proof.
  refine (proj1 (channels_stay_consistent no_bytes ext_gateway [Some (stored_row 5 3)] [] _ _ _ _ _ _));
    [done|done|done|apply NoDup_singleton|].
  eapply rtc_l; [apply step_delete|apply rtc_refl].
Defined.

Lemma device_gets_channel_witness : exists c req' st',
  dev_upsert no_bytes true (false, true, true) (insertion 9 TYPE_STR_INSIGHT_P) (fresh_state []) =
    Some (sqlite_update req', st') /\
  assigned (chn_nameid_map st') c 9 /\ shm st' = put (dev_item_at (Z.of_nat c)) [] [].
Proof.
  destruct (device_gets_channel no_bytes true (false, true, true) (insertion 9 TYPE_STR_INSIGHT_P) (fresh_state [])
    (fresh_inv []) (insertion_description 9 TYPE_STR_INSIGHT_P)) as (c & req' & st' & E & Has & _ & _ & _ & Hs).
  exists c, req', st'. split; [exact E|]. split; [exact Has|exact Hs].
Defined.

Lemma full_table_takes_channel_40_witness : exists n call st',
  assigned (chn_nameid_map (full_state [])) 40 n /\
  dev_upsert no_bytes false (true, true, true) (insertion 9 TYPE_STR_INSIGHT_P) (full_state []) = Some (call, st') /\
  assigned (chn_nameid_map st') 40 9 /\ forall c, ~ assigned (chn_nameid_map st') c n.
Proof.
  apply (full_table_takes_channel_40 no_bytes false (true, true, true) (insertion 9 TYPE_STR_INSIGHT_P) (full_state [])
    (full_inv [])); [by vm_compute|].
  intros c A. destruct A as [Hc E]. apply full_lookup in E; [|lia].
  change (it_nameId _) with 9 in E. injection E as E. lia.
Defined.

Lemma restart_restores_channels_witness :
  assigned (chn_nameid_map (sql_start no_bytes (Some ext_gateway) (map Some [stored_row 5 3; stored_row 6 1]) [])) 1 6.
Proof.
  apply (restart_restores_channels no_bytes ext_gateway [stored_row 5 3; stored_row 6 1] [3; 1]%nat []);
    [done|done|done|cbn; lia| | | |].
  - constructor; [|constructor; [|constructor]]; (split; [lia|]); exists TYPE_STR_INSIGHT_P; by vm_compute.
  - by apply (bool_decide_eq_true_1 (NoDup [3; 1]%nat)); vm_compute.
  - by apply (bool_decide_eq_true_1 (NoDup [5; 6])); vm_compute.
  - vm_compute. right. left.
Defined.
