(* ===== verification/EffChannels.v ===== *)
(** * EffChannels: the channels of the efficient mode

    [skf_gw_mqtt/sqlite/main.c] with the register blocks of the size of the
    sensor type ([Channels]: [eff_search], [eff_channel], [eff_release]). As
    long as no device is deleted the blocks follow each other; after deletions
    the search for a hole can give a block that overlaps another, and can read past
    the table. *)

From S2P Require Import Prelude Crc16 Machine SlaveState Layout SlaveConfig Channels.
From Stdlib Require Import ZArith Lia ZifyBool List Bool.
From stdpp Require Import base list numbers option relations.
Open Scope Z_scope.

(** ** Tables without holes *)

(** The entries from channel [i] at offset [off] of sensors with these name ids
    and lengths, one after the other. *)
Fixpoint entries (i : nat) (off : Z) (l : list (Z * Z)) : list efficient_chn_nameid_mapping_t :=
  match l with
  | [] => []
  | (nid, len) :: l => EffChn 1 (Z.of_nat i) off nid len :: entries (S i) (off + len) l
  end.

Definition total (l : list (Z * Z)) : Z := fold_right (fun p n => snd p + n) 0 l.

Definition packed (l : list (Z * Z)) : list efficient_chn_nameid_mapping_t :=
  entries 1 DEV_REG_ADDR_LENGTH_GW l ++ replicate (40 - length l) zero_eff.

Definition sensor_len (len : Z) : Prop := len = 8 \/ len = 48.

(** The state: the table is packed, [assigned_chn_cnt] counts the sensors and the gateway. *)
Definition eff_inv (l : list (Z * Z)) (st : sql_state) : Prop :=
  modbus_feature_enable st = true /\ g_modbus_reg_addr_mode st = MODBUS_REG_ADDR_EFFICIENT_MODE /\
  (exists e0, efficient_chn_nameid_map st = e0 :: packed l) /\
  (length l <= 40)%nat /\ Forall (fun p => sensor_len (snd p)) l /\
  assigned_chn_cnt st = 1 + Z.of_nat (length l).

Lemma length_entries i off l : length (entries i off l) = length l.
Proof. revert i off. induction l as [|[nid len] l IH]; intros i off; cbn; by rewrite ?IH. Qed.

Lemma length_packed l : (length l <= 40)%nat -> length (packed l) = 40%nat.
Proof. intros H. unfold packed. rewrite length_app, length_entries, length_replicate. lia. Qed.

Lemma total_app l l' : total (l ++ l') = total l + total l'.
Proof. unfold total. induction l as [|p l IH]; cbn; [done|]. rewrite IH. lia. Qed.

Lemma entries_app i off l l' :
  entries i off (l ++ l') = entries i off l ++ entries (i + length l) (off + total l) l'.
Proof.
  revert i off. induction l as [|[nid len] l IH]; intros i off; cbn [entries app length].
  - by rewrite Nat.add_0_r, Z.add_0_r.
  - rewrite IH. unfold total; cbn [fold_right snd]. fold (total l).
    by rewrite Nat.add_succ_r, <- Z.add_assoc.
Qed.

Lemma lookup_entries i off l k e : entries i off l !! k = Some e -> exists nid len,
  l !! k = Some (nid, len) /\ e = EffChn 1 (Z.of_nat (i + k)) (off + total (take k l)) nid len.
Proof.
  revert i off k. induction l as [|[nid len] l IH]; intros i off [|k] E; try done.
  - injection E as <-. exists nid, len. split; [done|]. cbn. by rewrite Nat.add_0_r, Z.add_0_r.
  - apply IH in E as (n & ln & El & ->). exists n, ln. split; [done|]. cbn [take].
    unfold total; cbn [fold_right snd]. fold (total (take k l)). f_equal; lia.
Qed.

Lemma lookup_packed l k e : packed l !! k = Some e -> e = zero_eff \/ exists nid len,
  l !! k = Some (nid, len) /\ e = EffChn 1 (Z.of_nat (1 + k)) (3 + total (take k l)) nid len.
Proof.
  unfold packed. intros E. destruct (lt_dec k (length l)) as [Hk|Hk].
  - rewrite lookup_app_l in E by (rewrite length_entries; lia). right. by apply lookup_entries in E.
  - rewrite lookup_app_r in E by (rewrite length_entries; lia). left. by apply lookup_replicate in E as [-> _].
Qed.

Lemma first_at_no {A} (p : A -> bool) n i l : (forall j x, (i <= j)%nat -> l !! j = Some x -> p x = false) ->
  first_at p n i l = None.
Proof.
  intros H. destruct (first_at p n i l) as [k|] eqn:E; [|done].
  apply first_at_some in E as (Hk & (x & Ex & Hp) & _). rewrite (H k x) in Hp; [done|lia|done].
Qed.

(** The search walks over the packed entries and takes the first free channel. *)
Lemma search_packed l pre n fuel fo fl len : (length l < fuel)%nat ->
  (length pre + length l + n = 41)%nat ->
  eff_search fuel (length pre) false fo fl len (pre ++ entries (length pre) (fo + fl) l ++ replicate n zero_eff) =
  Some (if decide (n = 0%nat) then None else Some ((length pre + length l)%nat, u16 (fo + fl + total l))).
Proof.
  revert pre fuel fo fl. induction l as [|[nid ln] l IH]; intros pre fuel fo fl Hf Hn;
    (destruct fuel as [|fuel]; [cbn in Hf; lia|]); cbn [length] in *; cbn [entries app eff_search].
  - change (BULLET_GW_SENSOR_NUM_MAX + 1) with 41. case_decide as Hz.
    { by rewrite (proj2 (Z.ltb_ge _ _)) by lia. }
    rewrite (proj2 (Z.ltb_lt _ _)) by lia. cbn [negb]. destruct n as [|n]; [done|].
    change (replicate (S n) zero_eff) with (zero_eff :: replicate n zero_eff).
    rewrite list_lookup_middle by done. cbn [zero_eff e_validflag e_ch e_nameid Z.eqb andb].
    rewrite first_at_no; [by rewrite Nat.add_0_r, Z.add_0_r|].
    intros j x Hj E. rewrite lookup_app_r in E by lia. by apply (lookup_replicate (S n)) in E as [-> _].
  - change (BULLET_GW_SENSOR_NUM_MAX + 1) with 41. rewrite (proj2 (Z.ltb_lt _ _)) by lia. cbn [negb].
    rewrite list_lookup_middle by done. cbn [e_validflag e_ch e_nameid e_offset e_len Z.eqb andb].
    specialize (IH (pre ++ [EffChn 1 (Z.of_nat (length pre)) (fo + fl) nid ln]) fuel (fo + fl) ln).
    rewrite length_app in IH. cbn [length] in IH. rewrite <- app_assoc in IH. cbn [app] in IH.
    replace (length pre + 1)%nat with (S (length pre)) in IH by lia. rewrite IH by lia.
    unfold total; cbn [fold_right snd]. fold (total l). case_decide; [done|]. do 2 f_equal. f_equal; [lia|f_equal; lia].
Qed.

(** The search takes at most 41 turns: more fuel does not change it. *)
Lemma eff_search_fuel fuel k i fnd fo fl len m : (41 <= i + fuel)%nat ->
  eff_search (fuel + k) i fnd fo fl len m = eff_search fuel i fnd fo fl len m.
Proof.
  revert i fnd fo fl. induction fuel as [|fuel IH]; intros i fnd fo fl H.
  - destruct k as [|k]; [done|]. cbn [Nat.add eff_search]. change (BULLET_GW_SENSOR_NUM_MAX + 1) with 41.
    by rewrite (proj2 (Z.ltb_ge _ _)) by lia.
  - cbn [Nat.add eff_search]. destruct (negb _); [done|]. destruct (m !! i) as [e|]; [|done].
    destruct (_ && _); [|apply IH; lia]. cbv zeta.
    destruct (first_at _ (41 - i) i m) as [j|] eqn:Ej; cbn [default from_option id].
    + apply first_at_some in Ej as [Hj _]. destruct (fnd || true); [|done].
      destruct (m !! j) as [f|]; [|done]. destruct (_ <? len); [|done]. apply IH. lia.
    + destruct (fnd || false); [|done]. destruct (m !! 41%nat) as [f|]; [|done].
      destruct (_ <? len); [|done]. apply IH. lia.
Qed.

Lemma register_len_cases t : sensor_len (shm_get_register_len t).
Proof. unfold shm_get_register_len. destruct (strcmp_eq t _); [by right|]. destruct (strcmp_eq t _); [by right|by left]. Qed.

Lemma total_take l k : Forall (fun p => sensor_len (snd p)) l ->
  0 <= total (take k l) <= total l /\ total l <= 48 * Z.of_nat (length l).
Proof.
  intros H. revert k. induction H as [|[nid len] l Hl _ IH]; intros k; [by rewrite take_nil|].
  unfold sensor_len in Hl; cbn [snd] in Hl. unfold total; cbn [fold_right snd length]. fold (total l).
  destruct (IH (pred k)) as [H1 H2]. destruct k as [|k]; cbn [take fold_right snd]; [cbn in H1; lia|].
  fold (total (take k l)). cbn [pred] in H1. lia.
Qed.

Lemma packed_snoc l nid len : (length l < 40)%nat ->
  <[length l := EffChn 1 (Z.of_nat (S (length l))) (3 + total l) nid len]> (packed l) = packed (l ++ [(nid, len)]).
Proof.
  intros H. unfold packed. rewrite entries_app, length_app. cbn [entries length].
  replace (40 - length l)%nat with (S (40 - (length l + 1))) by lia. cbn [replicate].
  rewrite insert_app_r_alt by (rewrite length_entries; lia). rewrite length_entries, Nat.sub_diag.
  cbn [insert list_insert]. by rewrite <- app_assoc.
Qed.

Lemma lookup_zero_packed l k : (length l <= k < 40)%nat -> packed l !! k = Some zero_eff.
Proof.
  intros H. unfold packed. rewrite lookup_app_r by (rewrite length_entries; lia).
  apply lookup_replicate. rewrite length_entries. split; [done|lia].
Qed.

(** The channel of a request when nothing has been deleted: the one the name id
    has; the next one, behind the last block; or none when all are taken. *)
Lemma eff_channel_eq nid t l st : eff_inv l st -> exists r l' st',
  eff_channel nid t st = Some (r, st') /\ eff_inv l' st' /\ shm st' = shm st /\
  match r with
  | EffFull => length l = 40%nat
  | EffFound ch_idx addr len => exists k, l !! k = Some (nid, len) /\ ch_idx = Z.of_nat (S k) /\
      addr = 3 + total (take k l) /\ l' = l
  | EffNew ch_idx => ch_idx = Z.of_nat (S (length l)) /\ (length l < 40)%nat /\
      l' = l ++ [(nid, shm_get_register_len t)]
  end.
Proof.
  intros H. pose proof H as (Hf & Hm & (e0 & Em) & Hl & Hlen & Hc). unfold eff_channel. rewrite Em.
  destruct (first_at _ 40 1 (e0 :: packed l)) as [[|k]|] eqn:E.
  - apply first_at_some in E as [? _]. lia.
  - apply first_at_some in E as (_ & (e & Ee & Hp) & _). rewrite (nth_lookup_Some _ _ _ _ Ee).
    cbn [lookup list_lookup] in Ee. apply lookup_packed in Ee as [->|(n & len & El & ->)]; [cbn in Hp; lia|].
    cbn [e_nameid e_validflag e_ch e_offset e_len] in *. apply andb_true_iff in Hp as [Hn%Z.eqb_eq _]. subst n.
    assert (sensor_len len) as Hs by (by eapply Forall_lookup_1 in Hlen; [|exact El]).
    replace (known_len len) with true by (by destruct Hs as [->| ->]).
    exists (EffFound (Z.of_nat (1 + k)) (3 + total (take k l)) len), l, st.
    split; [done|]. split; [done|]. split; [done|]. by exists k.
  - change BULLET_GW_SENSOR_NUM_MAX with 40. rewrite Hc. destruct (Z.ltb_spec 40 (1 + Z.of_nat (length l))) as [Hz|Hz].
    { exists EffFull, l, st. split; [done|]. split; [done|]. split; [done|]. lia. }
    pose proof (search_packed l [e0] (40 - length l) 41 0 3 (shm_get_register_len t)) as Hs.
    cbn [length app] in Hs. change (0 + 3) with DEV_REG_ADDR_LENGTH_GW in Hs. fold (packed l) in Hs.
    change MODBUS_REG_GATEWAY_START_ADDR_OFFSET with 0. change (e0 :: packed l) with ([e0] ++ packed l) in *.
    unfold DEV_REG_ADDR_LENGTH_GW at 1. cbn [app] in Hs |- *. rewrite Hs by lia. rewrite decide_False by lia.
    change DEV_REG_ADDR_LENGTH_GW with 3. pose proof (total_take l (length l) Hlen) as [Ht Ht'].
    rewrite firstn_all in Ht. rewrite u16_id by (unfold is_u16; lia).
    eexists (EffNew _), (l ++ [(nid, shm_get_register_len t)]), _. split; [reflexivity|].
    split; [|split; [done|]; split; [done|]; split; [lia|done]].
    split; [done|]. split; [done|]. split; [exists e0; cbn [efficient_chn_nameid_map with_cnt with_eff_map]|].
    + change (1 + length l)%nat with (S (length l)). cbn [insert list_insert]. f_equal.
      rewrite <- packed_snoc by lia. done.
    + rewrite length_app. cbn [length with_cnt assigned_chn_cnt]. split; [lia|].
      split; [apply Forall_app; split; [done|]; constructor; [apply register_len_cases|done]|].
      rewrite u8_id by (unfold is_u8; lia). lia.
Qed.

Section channels.
Context (item_bytes : dev_item -> list Z).

(** Insertions and updates of devices, and of the gateway's row. *)
Inductive append_step : sql_state -> sql_state -> Prop :=
  | append_upsert itemfalg ws req call st st' :
      dev_upsert item_bytes itemfalg ws req st = Some (call, st') -> append_step st st'
  | append_gateway ws gw st : append_step st (gw_upsert ws gw st).

Lemma eff_inv_shm l s st : eff_inv l st -> eff_inv l (with_shm s st).
Proof. by destruct st. Qed.

Lemma eff_upsert_inv itemfalg ws req l st : eff_inv l st -> exists call l' st',
  dev_upsert item_bytes itemfalg ws req st = Some (call, st') /\ eff_inv l' st'.
Proof.
  intros H. pose proof H as (Hf & Hm & _). unfold dev_upsert. rewrite Hf, Hm. cbn [negb].
  set (row := table_update_data_convert req).
  destruct (eff_channel_eq (it_nameId row) (it_type row) l st H) as (r & l' & st' & -> & H' & _ & Hr).
  destruct r as [|ch_idx addr len|ch_idx]; cbv iota.
  - by eexists _, l', st'.
  - destruct (describe ch_idx addr len row req) as [req' row']. eexists _, l', _. split; [reflexivity|].
    unfold put_dev. rewrite sem_write_eq. by apply eff_inv_shm.
  - destruct Hr as (-> & Hl & ->). rewrite Nat2Z.id. pose proof H' as (_ & _ & (e0 & ->) & Hl' & _).
    destruct (lookup_lt_is_Some_2 (e0 :: packed (l ++ [(it_nameId row, shm_get_register_len (it_type row))]))
      (S (length l))) as [e ->]; [cbn [length]; rewrite length_packed by done; lia|].
    destruct (describe _ _ _ row req) as [req' row']. eexists _, _, _. split; [reflexivity|].
    unfold put_dev. rewrite sem_write_eq. by apply eff_inv_shm.
Qed.

Lemma append_inv l st st' : eff_inv l st -> append_step st st' -> exists l', eff_inv l' st'.
Proof.
  intros H Hs. destruct Hs as [b ws req call s s' E|ws gw s].
  - destruct (eff_upsert_inv b ws req l s H) as (call' & l' & s2 & E' & H'). rewrite E' in E.
    injection E as _ <-. by exists l'.
  - exists l. pose proof H as (Hf & Hm & (e0 & Em) & Hr). unfold gw_upsert. rewrite Hf, Hm, Em. cbn [negb].
    rewrite sem_write_eq. apply eff_inv_shm. split; [done|]. split; [done|]. split; [by eexists|]. done.
Qed.

(** Without deletions the blocks of the efficient mode do not overlap. After a start
    with a gateway in an efficient mode and no devices, and any sequence of
    insertions and updates: the channel of a sensor is its position, its block lies behind the
    gateway's three registers and before register 1923, the blocks follow each
    other in the order of the channels, and the next insertion or update is defined. *)
Theorem efficient_blocks_follow_each_other gw s st :
  gr_nameId gw <> 0 -> gr_baudrateSlave gw <> 0 -> is_ext_mode (gr_registerMode gw) = false ->
  is_eff_mode (gr_registerMode gw) = true -> rtc append_step (sql_start item_bytes (Some gw) [] s) st ->
  (forall c e, (1 <= c)%nat -> efficient_chn_nameid_map st !! c = Some e -> e_validflag e = 1 ->
     e_ch e = Z.of_nat c /\ sensor_len (e_len e) /\ 3 <= e_offset e /\ e_offset e + e_len e <= 1923) /\
  (forall c c' e e', (1 <= c < c')%nat -> efficient_chn_nameid_map st !! c = Some e -> e_validflag e = 1 ->
     efficient_chn_nameid_map st !! c' = Some e' -> e_validflag e' = 1 -> e_offset e + e_len e <= e_offset e') /\
  forall itemfalg ws req, exists r, dev_upsert item_bytes itemfalg ws req st = Some r.
Proof.
  intros Hn Hb Hx Hm Hr. assert (exists l, eff_inv l st) as (l & H).
  { apply (rtc_ind_r (fun st => exists l, eff_inv l st) _) with (3 := Hr).
    - exists []. unfold sql_start. rewrite (proj2 (Z.eqb_neq _ _) Hn), (proj2 (Z.eqb_neq _ _) Hb).
      cbn [fetch_devices]. unfold fetch_gateway. rewrite Hx, Hm. apply eff_inv_shm.
      split; [done|]. split; [done|]. split; [by eexists|]. split; [cbn; lia|]. by split.
    - intros x y _ Hs [l' H']. by apply (append_inv l' x). }
  pose proof H as (_ & _ & (e0 & Em) & Hl & Hlen & _). rewrite Em.
  assert (forall c e, (e0 :: packed l) !! S c = Some e -> e_validflag e = 1 -> exists nid len,
    l !! c = Some (nid, len) /\ e = EffChn 1 (Z.of_nat (S c)) (3 + total (take c l)) nid len) as He.
  { intros c e E Hv. cbn in E. apply lookup_packed in E as [->|E]; [done|exact E]. }
  assert (forall c c' nid len, l !! c = Some (nid, len) -> (c < c')%nat ->
    total (take c l) + len <= total (take c' l)) as Hacc.
  { intros c c' nid len El Hc. replace c' with (S c + (c' - S c))%nat by lia.
    rewrite <- take_take_drop, total_app, (take_S_r _ _ _ El), total_app.
    pose proof (total_take (drop (S c) l) (c' - S c) ltac:(by apply Forall_drop)) as [? _].
    change (total [(nid, len)]) with (len + 0). lia. }
  split; [|split].
  - intros [|c] e Hc E Hv; [lia|]. destruct (He c e E Hv) as (nid & len & El & ->). cbn [e_ch e_len e_offset].
    split; [done|]. split; [by eapply Forall_lookup_1 in Hlen; [|exact El]|].
    pose proof (total_take l c Hlen) as [Ht Ht']. pose proof (Hacc c (length l) nid len El) as Ha.
    pose proof (lookup_lt_Some _ _ _ El). rewrite firstn_all in Ha. lia.
  - intros [|c] [|c'] e e' Hc E Hv E' Hv'; [lia|lia|lia|].
    destruct (He c e E Hv) as (nid & len & El & ->), (He c' e' E' Hv') as (nid' & len' & El' & ->).
    cbn [e_len e_offset]. pose proof (Hacc c c' nid len El). lia.
  - intros b ws req. destruct (eff_upsert_inv b ws req l st H) as (call & l' & st' & -> & _). by eexists.
Qed.

(** ** Holes *)

Definition eff_state (t : list efficient_chn_nameid_mapping_t * Z) (s : list Z) : sql_state :=
  Sql (replicate 41 zero_chn) (fst t) (snd t) MODBUS_REG_ADDR_EFFICIENT_MODE true s.

Inductive request := Insert (nid : Z) (sType : list Z) | Delete (nid : Z).

(** Insertions of new devices and deletions, on the table and the counter. *)
Definition run_request (r : request) (t : list efficient_chn_nameid_mapping_t * Z)
    : option (list efficient_chn_nameid_mapping_t * Z) :=
  match r with
  | Insert nid sType =>
      let row := table_update_data_convert (insertion nid sType) in
      match eff_channel (it_nameId row) (it_type row) (eff_state t []) with
      | Some (EffNew ch_idx, st) =>
          match efficient_chn_nameid_map st !! Z.to_nat ch_idx with
          | Some _ => Some (efficient_chn_nameid_map st, assigned_chn_cnt st)
          | None => None
          end
      | _ => None
      end
  | Delete nid =>
      match eff_release nid (eff_state t []) with
      | (Some ch_idx, st) =>
          if (ch_idx =? 0) || (BULLET_GW_SENSOR_NUM_MAX <? ch_idx) then None
          else Some (efficient_chn_nameid_map st, u8 (assigned_chn_cnt st - 1))
      | _ => None
      end
  end.

Fixpoint run_requests (rs : list request) (t : list efficient_chn_nameid_mapping_t * Z)
    : option (list efficient_chn_nameid_mapping_t * Z) :=
  match rs with
  | [] => Some t
  | r :: rs => match run_request r t with Some t => run_requests rs t | None => None end
  end.

(** The channels do not depend on the shared memory. *)
Lemma eff_channel_shm nid ty t s : eff_channel nid ty (eff_state t s) =
  match eff_channel nid ty (eff_state t []) with
  | Some (r, st) => Some (r, eff_state (efficient_chn_nameid_map st, assigned_chn_cnt st) s)
  | None => None
  end.
Proof.
  unfold eff_channel. cbn [eff_state efficient_chn_nameid_map assigned_chn_cnt]. destruct t as [m cnt].
  cbn [fst snd]. by repeat case_match; simplify_eq.
Qed.

Lemma run_request_step r t t' s : run_request r t = Some t' ->
  exists s', sql_step item_bytes (eff_state t s) (eff_state t' s').
Proof.
  destruct r as [nid ty|nid]; cbn [run_request]; intros E.
  - destruct (eff_channel _ _ (eff_state t [])) as [[[| |c] st]|] eqn:Ec; try done.
    destruct (efficient_chn_nameid_map st !! Z.to_nat c) as [e|] eqn:Ee; [|done]. injection E as <-.
    destruct (describe c (e_offset e) (e_len e) (table_update_data_convert (insertion nid ty)) (insertion nid ty))
      as [req' row'] eqn:Ed.
    exists (put (dev_item_at c) (item_bytes row') s).
    apply step_upsert with (itemfalg := false) (ws := (true, true, true)) (req := insertion nid ty)
      (call := sqlite_insert req').
    unfold dev_upsert. cbn [eff_state modbus_feature_enable g_modbus_reg_addr_mode negb].
    rewrite eff_channel_shm, Ec. cbn [eff_state efficient_chn_nameid_map fst]. rewrite Ee. change (default zero_eff (Some e)) with e.
    rewrite Ed. unfold put_dev. by rewrite sem_write_eq.
  - destruct (eff_release nid (eff_state t [])) as [[c|] st] eqn:Er; [|done].
    destruct ((c =? 0) || _) eqn:Eb; [done|]. injection E as <-.
    exists (put (dev_item_at c) (zeros APP_SHM_DEV_TABLE_ITEM_SIZE) s).
    pose proof (step_delete item_bytes (true, true, true) nid (eff_state t s)) as Hs. revert Hs.
    unfold dev_delete. cbn [eff_state modbus_feature_enable g_modbus_reg_addr_mode negb].
    unfold eff_release in *. cbn [eff_state efficient_chn_nameid_map] in *.
    destruct (first_at _ 41 0 (fst t)) as [i|]; [|done]. injection Er as Er Est. rewrite Er, Eb, sem_write_eq.
    rewrite <- Est. by intros Hs.
Qed.

Lemma run_requests_steps rs t t' s : run_requests rs t = Some t' ->
  exists s', rtc (sql_step item_bytes) (eff_state t s) (eff_state t' s').
Proof.
  revert t s. induction rs as [|r rs IH]; intros t s E; cbn [run_requests] in E.
  - injection E as ->. exists s. apply rtc_refl.
  - destruct (run_request r t) as [t1|] eqn:Er; [|done].
    destruct (run_request_step r t t1 s Er) as [s1 H1]. destruct (IH t1 s1 E) as [s' Hs].
    exists s'. by apply rtc_l with (eff_state t1 s1).
Qed.

(** A gateway in the efficient mode, and the types of the sensors. *)
Definition eff_gateway : gw_row := GwRow 100 9600 1 [].
Definition TYPE_STR_INSIGHT_T : list Z := [73; 110; 115; 105; 103; 104; 116; 45; 84].

Lemma start_eff s : exists s',
  sql_start item_bytes (Some eff_gateway) [] s =
  eff_state (EffChn 1 0 0 100 3 :: replicate 40 zero_eff, 1) s'.
Proof. by eexists. Qed.

(** Deletions make the blocks of the efficient mode overlap. Four Insight-T and
    Predict sensors are inserted, the first and the third deleted, and a Predict
    sensor inserted: the search passes over channel 2 without noting where its block
    ends, and gives the new sensor, on channel 3, registers 3 to 50, which
    contain the registers 11 to 18 of channel 2. *)
Theorem deletions_make_blocks_overlap s : exists st e e',
  rtc (sql_step item_bytes) (sql_start item_bytes (Some eff_gateway) [] s) st /\
  efficient_chn_nameid_map st !! 2%nat = Some e /\ e_validflag e = 1 /\
  efficient_chn_nameid_map st !! 3%nat = Some e' /\ e_validflag e' = 1 /\
  e_offset e' < e_offset e /\ e_offset e + e_len e < e_offset e' + e_len e'.
Proof.
  destruct (start_eff s) as [s1 ->].
  pose (rs := [Insert 1 TYPE_STR_INSIGHT_T; Insert 2 TYPE_STR_INSIGHT_T; Insert 3 TYPE_STR_INSIGHT_P;
               Insert 4 TYPE_STR_INSIGHT_T; Delete 1; Delete 3; Insert 5 TYPE_STR_INSIGHT_P]).
  destruct (run_requests rs (EffChn 1 0 0 100 3 :: replicate 40 zero_eff, 1)) as [t'|] eqn:E; [|by vm_compute in E].
  destruct (run_requests_steps rs _ t' s1 E) as [s' Hs]. vm_compute in E. injection E as <-.
  eexists _, _, _. split; [exact Hs|]. split; [reflexivity|]. split; [reflexivity|]. split; [reflexivity|].
  split; [reflexivity|]. cbn. lia.
Qed.

(** After a deletion an insertion can read past the channel table. Two
    Insight-T sensors are inserted, the first is deleted, and a Predict sensor
    inserted: the hole is too small; behind channel 2 no channel is assigned,
    but the search remembers that there was one once, and looks at entry 41 of
    the table, which has 41 entries from 0. *)
Theorem deletions_make_search_leave_table s : exists st req,
  rtc (sql_step item_bytes) (sql_start item_bytes (Some eff_gateway) [] s) st /\
  forall itemfalg ws, dev_upsert item_bytes itemfalg ws req st = None.
Proof.
  destruct (start_eff s) as [s1 ->].
  pose (rs := [Insert 1 TYPE_STR_INSIGHT_T; Insert 2 TYPE_STR_INSIGHT_T; Delete 1]).
  destruct (run_requests rs (EffChn 1 0 0 100 3 :: replicate 40 zero_eff, 1)) as [t'|] eqn:E; [|by vm_compute in E].
  destruct (run_requests_steps rs _ t' s1 E) as [s' Hs]. vm_compute in E. injection E as <-.
  eexists _, (insertion 3 TYPE_STR_INSIGHT_P). split; [exact Hs|]. intros [] ws; reflexivity.
Qed.
End channels.

Lemma efficient_blocks_follow_each_other_witness : exists r,
  dev_upsert no_bytes false (true, true, true) (insertion 9 TYPE_STR_INSIGHT_P)
    (sql_start no_bytes (Some eff_gateway) [] []) = Some r.
Proof.
  apply (efficient_blocks_follow_each_other no_bytes eff_gateway [] (sql_start no_bytes (Some eff_gateway) [] []));
    [done|done|done|done|apply rtc_refl].
Defined.
