(* ===== verification/SharedTable.v ===== *)
(** * SharedTable: from the database process to the Modbus slave

    The device table of the shared memory, written by the database process
    ([Channels]) and read by the slave ([System]): a device that the database
    process inserts is served by the slave that starts on that memory. *)

From S2P Require Import Prelude Crc16 Machine Libmodbus SlaveState Layout SlaveMapping SlaveConfig RegTable System Channels.
From Stdlib Require Import ZArith Lia ZifyBool List Bool.
From stdpp Require Import base list numbers option relations.
Open Scope Z_scope.

(** ** Rows *)

(** An array of characters: 70 bytes, the last of them NUL. *)
Definition text_ok (s : list Z) : Prop := length s = 70%nat /\ Forall is_u8 s /\ s !! 69%nat = Some 0.

Definition row_ok (row : dev_item) : Prop :=
  is_u32 (it_nameId row) /\ text_ok (it_name row) /\ text_ok (it_BLESensorName row) /\
  text_ok (it_macAddr row) /\ text_ok (it_manufacturer row) /\ text_ok (it_type row) /\
  text_ok (it_description row).

Lemma length_snprintf_s dst n src : 0 < n -> n <= Z.of_nat (length dst) ->
  length (snprintf_s dst n src) = length dst.
Proof.
  intros H0 Hn. unfold snprintf_s. cbv zeta. rewrite !length_app, length_drop, length_take.
  change (length [0]) with 1%nat. lia.
Qed.

Lemma cstr_bytes s : Forall is_u8 s -> Forall is_u8 (cstr s).
Proof. induction 1 as [|c s Hc _ IH]; [done|]. cbn [cstr]. by destruct (c =? 0); [|constructor]. Qed.

Lemma text_ok_snprintf old src : text_ok old -> Forall is_u8 src ->
  text_ok (snprintf_s old (GW_PRO_MAX_STRING_LEN_BYTE - 1) src).
Proof.
  intros (Hl & Hu & H0) Hs. change (GW_PRO_MAX_STRING_LEN_BYTE - 1) with 69.
  split; [by rewrite length_snprintf_s by lia|]. unfold snprintf_s. cbv zeta.
  set (s := take _ (cstr src) ++ [0]). split.
  - apply Forall_app. split; [|by apply Forall_drop]. apply Forall_app. split; [by apply Forall_take, cstr_bytes|].
    by constructor.
  - assert (length s <= 69)%nat as Hn.
    { unfold s. rewrite length_app, length_take. change (Z.to_nat (69 - 1)) with 68%nat. cbn [length]. lia. }
    rewrite lookup_app_r, lookup_drop by lia. rewrite <- H0. f_equal. lia.
Qed.

Lemma hex_digit_byte n : 0 <= n < 16 -> is_u8 (hex_digit n).
Proof. unfold hex_digit, is_u8. destruct (Z.ltb_spec n 10); lia. Qed.

Lemma text_ok_described c addr len t : is_u8 c -> is_u16 addr -> is_u8 len -> text_ok (described c addr len t).
Proof.
  unfold is_u8, is_u16. intros Hc Ha Hl. unfold described, layout_name.
  assert (forall ty : list Z, Forall is_u8 ty -> Forall is_u8 ([67; 72; hex_digit (c / 16); hex_digit (c mod 16); 45; 65; 68;
    hex_digit (addr / 4096); hex_digit (addr / 256 mod 16); hex_digit (addr / 16 mod 16);
    hex_digit (addr mod 16); 45; 76; hex_digit (len / 16); hex_digit (len mod 16); 45] ++ ty)) as Hf.
  { intros ty Ht. apply Forall_app. split; [|done].
    repeat (apply Forall_cons; split; [first [unfold is_u8; lia|apply hex_digit_byte; Z.div_mod_to_equations; lia]|]). done. }
  destruct (sensor_type_str_cases t) as [->|[->| ->]]; (split; [done|]; split; [apply Hf; by apply bytes_check|done]).
Qed.

Lemma le32_range l : Forall is_u8 l -> is_u32 (le32 l).
Proof.
  intros H. unfold le32. assert (forall k m, (k <= 4)%nat -> Forall is_u8 m -> length m = k ->
    0 <= fold_right (fun b acc => Z.lor b (Z.shiftl acc 8)) 0 m < 256 ^ Z.of_nat k) as Hf.
  { intros k m. revert k. induction m as [|b m IH]; intros k Hk Hm El; cbn in El; subst k; [done|].
    apply Forall_cons in Hm as [Hb Hm]. cbn [fold_right]. rewrite Z.lor_comm.
    pose proof (IH (length m) ltac:(cbn in Hk; lia) Hm eq_refl) as Hi.
    change (Z.lor (Z.shiftl ?a 8) b) with (be16 a b). rewrite be16_add by done. unfold is_u8 in Hb.
    cbn [length]. rewrite Nat2Z.inj_succ, Z.pow_succ_r by lia. lia. }
  pose proof (Hf (length (take 4 l)) (take 4 l)) as Ht. rewrite length_take in Ht.
  specialize (Ht ltac:(lia) (Forall_take _ 4 _ H) eq_refl). unfold is_u32.
  assert (256 ^ Z.of_nat (4 `min` length l) <= 256 ^ 4) by (apply Z.pow_le_mono_r; lia).
  change 4294967296 with (256 ^ 4). lia.
Qed.

Lemma convert_ok req : Forall (fun d => Forall is_u8 (data d)) req -> row_ok (table_update_data_convert req).
Proof.
  assert (forall row d, Forall is_u8 (data d) -> row_ok row -> row_ok (convert_datum row d)) as Hstep.
  { intros [i n b m f t s] [fd dat] Hd (Hi & Hn & Hb & Hm & Hf & Ht & Hs). unfold convert_datum. cbn [field data] in *.
    assert (forall old, text_ok old -> text_ok (snprintf_s old (GW_PRO_MAX_STRING_LEN_BYTE - 1) dat)) as Hx
      by (intros; by apply text_ok_snprintf).
    pose proof (le32_range dat Hd). unfold row_ok in *. cbn in Hi, Hn, Hb, Hm, Hf, Ht, Hs.
    repeat case_match; cbn; (split; [done|]); do 5 (split; [by try apply Hx|]); by try apply Hx. }
  intros H. unfold table_update_data_convert. assert (text_ok zero_text) as Hz by (split; [done|]; split; [by apply bytes_check|done]).
  assert (row_ok zero_item_row) as H0 by by do 6 (split; [done|]).
  revert H0. generalize zero_item_row. induction H as [|d req Hd _ IH]; intros row Hr; [done|].
  cbn [fold_left]. apply IH. by apply Hstep.
Qed.

Lemma row_ok_described row c addr len t : row_ok row -> is_u8 c -> is_u16 addr -> is_u8 len ->
  row_ok (set_description (described c addr len t) row).
Proof.
  intros Hr Hc Ha Hl. pose proof (text_ok_described c addr len t Hc Ha Hl) as Hd. destruct row.
  destruct Hr as (? & ? & ? & ? & ? & ? & _). do 6 (split; [done|]). exact Hd.
Qed.

(** C37: Every item that the process writes into the device table of the shared
    memory is well-typed, whatever the elements of the request: the name id
    has 32 bits, and every array of characters 70 bytes that end with a NUL. *)
Theorem written_item_well_typed item_bytes itemfalg ws req st :
  ext_inv st -> Forall (fun d => Forall is_u8 (data d)) req -> exists call c row st',
  dev_upsert item_bytes itemfalg ws req st = Some (call, st') /\ (1 <= c <= 40)%nat /\
  shm st' = put (dev_item_at (Z.of_nat c)) (item_bytes row) (shm st) /\ row_ok row.
Proof.
  intros H Hu. destruct (ext_upsert_eq item_bytes itemfalg ws req st H) as (c & st' & req' & row & _ & Hr & Ed & E).
  eexists _, c, row, _. split; [exact E|]. split; [done|]. split; [done|]. revert Ed. unfold describe.
  pose proof (convert_ok req Hu) as Hc. destruct (first_at _ _ 0 req) as [i|]; intros [= _ <-]; [|done].
  unfold ext_addr, MODBUS_REG_SENSOR_START_ADDR_OFFSET, MODBUS_REG_SENSOR_LENGTH.
  rewrite print_description by (unfold is_u8, is_u16; lia).
  apply row_ok_described; [done|unfold is_u8; lia|unfold is_u16; lia|done].
Qed.

Lemma written_item_well_typed_witness : exists call c row st',
  dev_upsert no_bytes false (true, true, true) (insertion 9 TYPE_STR_INSIGHT_P) (fresh_state []) = Some (call, st') /\
  (1 <= c <= 40)%nat /\ shm st' = put (dev_item_at (Z.of_nat c)) (no_bytes row) [] /\ row_ok row.
Proof.
  apply (written_item_well_typed no_bytes false (true, true, true) (insertion 9 TYPE_STR_INSIGHT_P) (fresh_state [])
    (fresh_inv [])). by apply insertion_bytes.
Defined.

(** ** Items *)

Lemma length_put i bytes l : 0 <= i -> i + Z.of_nat (length bytes) <= Z.of_nat (length l) ->
  length (put i bytes l) = length l.
Proof. intros H0 H. unfold put. rewrite !length_app, length_take, length_drop. lia. Qed.

Lemma slice_put_before i bytes l j n : 0 <= j -> 0 <= n -> j + n <= i ->
  i + Z.of_nat (length bytes) <= Z.of_nat (length l) -> slice (put i bytes l) j n = slice l j n.
Proof.
  intros Hj Hn Hi Hl. unfold slice, put. rewrite drop_app_le by (rewrite length_take; lia).
  rewrite take_app_le by (rewrite length_drop, length_take; lia).
  rewrite skipn_firstn_comm, firstn_firstn. f_equal. lia.
Qed.

Lemma slice_put_behind i bytes l j n : 0 <= i -> i + Z.of_nat (length bytes) <= j ->
  i + Z.of_nat (length bytes) <= Z.of_nat (length l) -> slice (put i bytes l) j n = slice l j n.
Proof.
  intros Hi Hj Hl. unfold slice, put. f_equal. rewrite drop_app_ge by (rewrite length_take; lia).
  rewrite drop_app_ge by (rewrite length_take; lia). rewrite drop_drop. f_equal. rewrite length_take. lia.
Qed.

Lemma slice_put_here i bytes l n : 0 <= i -> Z.of_nat (length bytes) <= n ->
  i + n <= Z.of_nat (length l) -> exists rest, slice (put i bytes l) i n = bytes ++ rest.
Proof.
  intros Hi Hb Hl. unfold slice, put. rewrite drop_app_ge by (rewrite length_take; lia).
  rewrite length_take. replace (Z.to_nat i - Z.to_nat i `min` length l)%nat with 0%nat by lia. rewrite drop_0.
  exists (take (Z.to_nat n - length bytes) (drop (Z.to_nat i + length bytes) l)).
  rewrite take_app_ge by lia. done.
Qed.

Section shared.
Context (L : shm_layout) (item_bytes : dev_item -> list Z).

(** The slave and the database process agree on the layout of an item: its
    size leaves room in the slot, and what the slave reads in a slot are
    the type, name id, description and name that were written. *)
Definition same_layout : Prop :=
  (forall row, row_ok row -> Z.of_nat (length (item_bytes row)) = sizeof_item L) /\
  sizeof_item L < APP_SHM_DEV_TABLE_ITEM_SIZE /\
  forall row rest, row_ok row ->
    item_type L (item_bytes row ++ rest) = GW_PRO_TABLE_IDX_MNGED_DEVICE_LIST_TABLE /\
    item_device L (item_bytes row ++ rest) = DevData (it_nameId row) (it_description row) (it_name row).

Lemma put_dev_items row c s (s' := put (dev_item_at (Z.of_nat c)) (item_bytes row) s) :
  same_layout -> row_ok row -> shm_ok s -> (1 <= c <= 40)%nat ->
  shm_ok s' /\ gateway_item s' = gateway_item s /\
  (forall i, (i < 40)%nat -> S i <> c -> device_item s' i = device_item s i) /\
  exists rest, device_item s' (c - 1) = item_bytes row ++ rest.
Proof.
  intros (Hb & Hz & _) Hrow Hs Hc. pose proof (Hb row Hrow) as Hl. unfold shm_ok in *.
  change APP_SHM_TOTAL_SIZE with 1191936 in *. change APP_SHM_DEV_TABLE_ITEM_SIZE with 1024 in *.
  unfold s', gateway_item, device_item, dev_item_at.
  change APP_SHM_GATEWAY_TABLE_ITEM_SIZE with 2048. change APP_SHM_DEV_TABLE_ADDR_OFFSET with 2048.
  change APP_SHM_DEV_TABLE_ITEM_SIZE with 1024.
  split; [rewrite length_put; lia|]. split; [apply slice_put_before; lia|]. split.
  - intros i Hi Hne. destruct (decide (S i < c)%nat); [apply slice_put_before; lia|apply slice_put_behind; lia].
  - replace (2048 + Z.of_nat (c - 1) * 1024) with (2048 + (Z.of_nat c - 1) * 1024) by lia.
    apply slice_put_here; lia.
Qed.

(** The type under which the slave serves a sensor of the database: none for a
    "PredictSensorPro". *)
Definition served_type (t : list Z) : option sensor_type :=
  if strcmp_eq t TYPE_STR_INSIGHT_P then Some STYPE_PREDICT
  else if strcmp_eq t TYPE_STR_INSIGHT_P_PRO then None
  else Some STYPE_INSIGHT_T.

Lemma described_layout info c t nid nm : is_u8 c -> is_u16 (128 * c) -> 0 <= rm_offset info ->
  sensor_layout_of info (DevData nid (described c (128 * c) 128 t) nm) =
  match served_type t with
  | Some st => Layout true nid c (shifted info (128 * c)) 128 st
  | None => Layout false 0 c (128 * c) 128 STYPE_UNKNOWN
  end.
Proof.
  intros Hc Ha Ho. unfold sensor_layout_of, layout_of, served_type, described, shm_get_sensor_type_str.
  cbn [dev_description dev_nameId]. rewrite parse_layout_name by done. cbn [lay_is_valid negb]. cbv zeta.
  assert (forall st, finished info (Layout true 0 c (128 * c) 128 STYPE_UNKNOWN) nid st =
    Layout true nid c (shifted info (128 * c)) 128 st) as Hf.
  { intros st. unfold finished, shifted. cbn [lay_addr lay_ch lay_regnum]. unfold is_u16 in Ha.
    set (off := if rm_flg info then _ else _). assert (0 <= off) by (unfold off; case_match; lia).
    destruct (Z.leb_spec (128 * c + off) 0xFFFF); [|done]. by rewrite u16_id by (unfold is_u16; lia). }
  destruct (strcmp_eq t TYPE_STR_INSIGHT_P); [apply Hf|].
  destruct (strcmp_eq t TYPE_STR_INSIGHT_P_PRO); [done|apply Hf].
Qed.

(** What an insertion or update in the extensible mode leaves in the shared memory. *)
Lemma upsert_shared itemfalg ws req st (row := table_update_data_convert req) :
  same_layout -> ext_inv st -> has_description req -> Forall (fun d => Forall is_u8 (data d)) req ->
  shm_ok (shm st) -> it_nameId row <> 0 ->
  exists c call st', dev_upsert item_bytes itemfalg ws req st = Some (call, st') /\
  assigned (chn_nameid_map st') c (it_nameId row) /\ shm_ok (shm st') /\
  gateway_item (shm st') = gateway_item (shm st) /\
  (forall i, (i < 40)%nat -> S i <> c -> device_item (shm st') i = device_item (shm st) i) /\
  loaded_devices L (shm st') !! (c - 1)%nat =
    Some (DevData (it_nameId row) (described (Z.of_nat c) (128 * Z.of_nat c) 128 (it_type row)) (it_name row)).
Proof.
  intros Hl H Hd Hu Hs Hn. destruct (ext_upsert_eq item_bytes itemfalg ws req st H) as (c & st1 & req' & row' & Ec & Hr & Ed & E).
  assert (ext_addr (Z.of_nat c) = 128 * Z.of_nat c) as Ha
    by (unfold ext_addr, MODBUS_REG_SENSOR_START_ADDR_OFFSET, MODBUS_REG_SENSOR_LENGTH; lia).
  destruct (describe_eq (Z.of_nat c) (ext_addr (Z.of_nat c)) MODBUS_REG_SENSOR_LENGTH row req Hd)
    as (i & d & _ & _ & _ & Ed'); [unfold is_u8; lia|rewrite Ha; unfold is_u16; lia|done|].
  unfold row in Ed'. rewrite Ed, Ha in Ed'. fold row in Ed'. injection Ed' as _ ->.
  destruct (ext_channel_eq (it_nameId row) st H) as (c2 & st2 & Ec2 & _ & _ & Has & _).
  unfold row in Ec2. rewrite Ec in Ec2. injection Ec2 as Hc2 <-. apply Nat2Z.inj in Hc2 as <-.
  set (row' := set_description _ row) in E.
  assert (row_ok row') as Hrow
    by (apply row_ok_described; [by apply convert_ok|unfold is_u8; lia|unfold is_u16; lia|done]).
  destruct (put_dev_items row' c (shm st) Hl Hrow Hs Hr) as (Hs' & Hg & Hoth & rest & Hi).
  exists c, (if itemfalg then sqlite_update req' else sqlite_insert req'). eexists. split; [exact E|].
  split; [done|]. split; [exact Hs'|]. split; [exact Hg|]. split; [exact Hoth|].
  unfold loaded_devices. rewrite list_lookup_fmap, lookup_seq_lt by (change SENSORS with 40%nat; lia).
  cbn [fmap option_fmap option_map Nat.add with_shm shm]. f_equal. unfold loaded_device. rewrite Hi.
  destruct Hl as (_ & _ & Hl). destruct (Hl row' rest Hrow) as [-> ->].
  assert (it_nameId row' = it_nameId row /\ it_name row' = it_name row /\
    it_description row' = described (Z.of_nat c) (128 * Z.of_nat c) 128 (it_type row)) as (-> & -> & ->)
    by (unfold row'; destruct row; done).
  unfold is_dev_info_valid. cbn [dev_nameId]. rewrite (proj2 (Z.eqb_neq _ _) Hn). done.
Qed.

Lemma served_block info c t nid nm st : served_type t = Some st -> (1 <= c <= 40)%nat ->
  0 <= rm_offset info <= 60000 ->
  sensor_block info (DevData nid (described (Z.of_nat c) (128 * Z.of_nat c) 128 t) nm) =
  [regs_block (128 * Z.of_nat c + (if rm_flg info then rm_offset info else 0)) 128].
Proof.
  intros Ht Hc Ho. unfold sensor_block.
  rewrite described_layout, Ht by (unfold is_u8, is_u16; lia). unfold layout_fits, shifted.
  cbn [lay_is_valid lay_addr lay_regnum andb]. set (off := if rm_flg info then _ else _).
  assert (0 <= off <= 60000) by (unfold off; case_match; lia).
  rewrite (proj2 (Z.leb_le (128 * Z.of_nat c + off) 0xFFFF)), (proj2 (Z.leb_le _ 0xFFFF)) by lia. done.
Qed.

Lemma sensor_block_in info d devs i : devs !! i = Some d -> forall b, In b (sensor_block info d) ->
  In b (sensor_blocks_of info devs).
Proof. intros E b Hb. apply in_flat_map. exists d. split; [|done]. apply list_elem_of_In. by apply list_elem_of_lookup_2 in E. Qed.

(** The requests that start-up makes to the system are granted. *)
Context (mutex_init : mutex -> Z) (create_shmem create_sem : Z).
Definition all_granted (w : world) : Prop :=
  init_succeeds mutex_init create_shmem create_sem /\ mallocs_succeed w /\
  (forall k, o_connect (os w) k = true) /\ (forall k, o_trylock (os w) k = true).


(** A "PredictSensorPro" is not served: the database process assigns it a
    channel and writes a description of the type "PRO", which the slave does
    not know; the slave reads the device but gives it no registers. *)
Theorem pro_sensor_has_no_registers itemfalg ws req st info
    (row := table_update_data_convert req) :
  same_layout -> ext_inv st -> has_description req -> Forall (fun d => Forall is_u8 (data d)) req ->
  shm_ok (shm st) -> it_nameId row <> 0 -> cstr (it_type row) = TYPE_STR_INSIGHT_P_PRO -> 0 <= rm_offset info ->
  exists c call st' dev, dev_upsert item_bytes itemfalg ws req st = Some (call, st') /\
    assigned (chn_nameid_map st') c (it_nameId row) /\
    loaded_devices L (shm st') !! (c - 1)%nat = Some dev /\ dev_nameId dev = it_nameId row /\
    sensor_block info dev = [].
Proof.
  intros Hl H Hd Hu Hs Hn Ht Ho.
  destruct (upsert_shared itemfalg ws req st Hl H Hd Hu Hs Hn) as (c & call & st' & E & Has & _ & _ & _ & Hdev).
  fold row in Has, Hdev. exists c, call, st'. eexists. split; [exact E|]. split; [done|]. split; [exact Hdev|].
  split; [done|]. destruct Has as [Hr _]. unfold sensor_block. rewrite described_layout by (unfold is_u8, is_u16; lia).
  unfold served_type, strcmp_eq. rewrite Ht. done.
Qed.
End shared.

(** ** A device that is served *)

Lemma elf_step_nonneg h b : 0 <= elf_step h b.
Proof.
  unfold elf_step. cbv zeta. pose proof (u32_range (Z.shiftl h 4 + Z.land b 0xFF)) as [Hr _].
  set (x := u32 _) in *. apply Z.land_nonneg. left. destruct (negb _); [|done].
  apply Z.lxor_nonneg. split; intros _; [|done]. apply Z.shiftr_nonneg, Z.land_nonneg. by left.
Qed.

Lemma elf_fold_nonneg l h : 0 <= h -> 0 <= fold_left elf_step l h.
Proof. revert h. induction l as [|b l IH]; intros h Hh; [done|]. apply IH, elf_step_nonneg. Qed.

Definition bytes32 (n : Z) : list Z := [n mod 256; n / 256 mod 256; n / 65536 mod 256; n / 16777216 mod 256].

(** The structure without padding, in a slot of 1000 bytes. *)
Definition c_item_bytes (row : dev_item) : list Z :=
  [2; 0; 0; 0] ++ bytes32 (it_nameId row) ++ it_name row ++
  (it_BLESensorName row ++ it_macAddr row ++ it_manufacturer row ++ it_type row) ++ it_description row ++
  replicate 572 0.

Definition c_layout : shm_layout :=
  ShmLayout 1000 1000 500 le32 (fun _ => start_gateway)
    (fun buf => DevData (le32 (drop 4 buf)) (slice buf 358 70) (slice buf 8 70))
    (fun _ => SensorData 0 0 0 0 []) (fun _ => AlarmNotReadable).

Lemma slice_mid (a x rest : list Z) i n : Z.of_nat (length a) = i -> Z.of_nat (length x) = n ->
  slice (a ++ x ++ rest) i n = x.
Proof.
  intros <- <-. unfold slice. rewrite !Nat2Z.id. by rewrite drop_app_length, take_app_length.
Qed.

Lemma le32_bytes32 n rest : is_u32 n -> le32 (bytes32 n ++ rest) = n.
Proof.
  intros H. unfold is_u32 in H. unfold le32, bytes32. cbn [app take fold_right].
  change (Z.lor (n / 16777216 mod 256) (Z.shiftl 0 8)) with (Z.lor (n / 16777216 mod 256) 0). rewrite Z.lor_0_r.
  assert (forall b acc, is_u8 b -> Z.lor b (Z.shiftl acc 8) = acc * 256 + b) as Hl.
  { intros b acc Hb. rewrite Z.lor_comm. by apply be16_add. }
  rewrite !Hl by (unfold is_u8; Z.div_mod_to_equations; lia). Z.div_mod_to_equations; lia.
Qed.

Lemma c_same_layout : same_layout c_layout c_item_bytes.
Proof.
  split; [|split; [done|]].
  - intros row (_ & [H1 _] & [H2 _] & [H3 _] & [H4 _] & [H5 _] & [H6 _]). unfold c_item_bytes.
    rewrite !length_app, length_replicate, H1, H2, H3, H4, H5, H6. done.
  - intros row rest (Hi & [H1 _] & [H2 _] & [H3 _] & [H4 _] & [H5 _] & [H6 _]). split; [done|].
    cbn [item_device c_layout]. unfold c_item_bytes. f_equal.
    + change (drop 4 (([2; 0; 0; 0] ++ ?x) ++ rest)) with (x ++ rest). rewrite <- app_assoc. by apply le32_bytes32.
    + set (a := [2; 0; 0; 0]). set (m := it_BLESensorName row ++ _).
      replace ((a ++ _) ++ rest) with ((a ++ bytes32 (it_nameId row) ++ it_name row ++ m) ++
        it_description row ++ replicate 572 0 ++ rest) by by rewrite <- !app_assoc.
      apply slice_mid; [|lia]. unfold m. rewrite !length_app, H1, H2, H3, H4, H5. done.
    + set (a := [2; 0; 0; 0]). set (m := it_BLESensorName row ++ _).
      replace ((a ++ _) ++ rest) with ((a ++ bytes32 (it_nameId row)) ++
        it_name row ++ m ++ it_description row ++ replicate 572 0 ++ rest) by by rewrite <- !app_assoc.
      apply slice_mid; [done|lia].
Qed.

(** A shared memory with a gateway and no device. *)
Definition c_shm : list Z := [1; 0; 0; 0] ++ replicate (Z.to_nat 1191932) 0.
(** A world whose controller holds no hash of a configuration or device table. *)
Definition unhashed_world : world :=
  set_ctr (with_gwconf_hash (-1) (with_dev_hash (-1) (ctr idle_world))) idle_world.

Lemma c_shm_ok : shm_ok c_shm.
Proof.
  unfold shm_ok, c_shm. rewrite length_app, length_replicate. change APP_SHM_TOTAL_SIZE with 1191936.
  change (length [1; 0; 0; 0]) with 4%nat. lia.
Qed.

Lemma c_new_conf : new_conf c_layout c_shm (ctr unhashed_world).
Proof.
  split; [apply c_shm_ok|]. split; [done|]. split; [|split; [by vm_compute|]].
  - cbn [item_type c_layout]. unfold le32, gateway_item, slice. rewrite firstn_firstn.
    replace (4 `min` Z.to_nat APP_SHM_GATEWAY_TABLE_ITEM_SIZE)%nat with 4%nat by by vm_compute. reflexivity.
  - pose proof (elf_fold_nonneg (gateway_item c_shm) 0 ltac:(done)). unfold gateway_hash.
    change (gwconf_hash (ctr unhashed_world)) with (-1). lia.
Qed.


Lemma pro_sensor_has_no_registers_witness :
  exists c call st' dev,
    dev_upsert c_item_bytes false (true, true, true) (insertion 7 TYPE_STR_INSIGHT_P_PRO) (fresh_state c_shm) =
      Some (call, st') /\
    assigned (chn_nameid_map st') c 7 /\ loaded_devices c_layout (shm st') !! (c - 1)%nat = Some dev /\
    dev_nameId dev = 7 /\ sensor_block (remap idle_world) dev = [].
Proof.
  apply (pro_sensor_has_no_registers c_layout c_item_bytes false (true, true, true)
    (insertion 7 TYPE_STR_INSIGHT_P_PRO) (fresh_state c_shm) (remap idle_world)).
  - apply c_same_layout.
  - apply fresh_inv.
  - apply insertion_description.
  - by apply insertion_bytes.
  - apply c_shm_ok.
  - by vm_compute.
  - by vm_compute.
  - by vm_compute.
Defined.
