(* ===== verification/SensorCache.v ===== *)
(** * SensorCache: the measurements on their way into the shared memory

    [skf_gw_mqtt/sqlite/main.c], the sensor data: a sensor sends its
    measurements one by one; the process collects them and writes a
    set at a time into the shared memory, with a bitmap of the
    measurements it has, when the set is complete or a timer expires. Predict
    sensors have an instance each (8 at most); there is one buffer for all
    Insight-T sensors. *)

From S2P Require Import Prelude Crc16 Machine Libmodbus SlaveState Layout SlaveMapping SlaveConfig RegTable System Channels SharedTable.
From Stdlib Require Import ZArith Lia ZifyBool List Bool.
From stdpp Require Import base list numbers option relations.
Open Scope Z_scope.

(** ** Data *)

Inductive sensorType_t := MODBUS_SENSOR_TYPE_T | MODBUS_SENSOR_TYPE_P | MODBUS_SENSOR_TYPE_PRO.

#[global] Instance sensorType_t_eq_dec : EqDecision sensorType_t.
Proof. solve_decision. Defined.

(** [shm_sensor_data]: the fields that the process or the slave look at, the
    sensor's type, and the elements of the request that set the others. *)
Record sd_row := SdRow {
  sd : sensorDataTableData_t; sd_type : list Z; sd_others : list gw_pro_data_t
}.

Definition zero_sd : sd_row := SdRow (SensorData 0 0 0 0 zero_text) zero_text [].

Definition PIECE_MAX : Z := Z.of_nat APP_SHM_SENSORDATA_TABLE_PIECE_MAX.
Definition APP_SHM_SENSORDATA_TABLE_PIECE_MAX_PRS : Z := 25.
Definition APP_SHM_SENSORDATA_TABLE_PIECE_MAX_PRO : Z := 25.
Definition APP_SHM_SENSORDATA_TABLE_PIECE_MAX_ITS : Z := 4.
Definition SHM_SD_IDX_LAST_VIB_SENSING_TIME : Z := 25.
Definition SHM_SD_IDX_LAST_TEMP_SENSING_TIME : Z := 26.
Definition SHM_SD_IDX_LAST_TEMP_SENSING_TIME_T : Z := 4.
Definition CONFIG_SHM_SENSOR_DATA_MAX_NUM : nat := 8.
Definition CONFIG_FLOAT_NA : Z := 0x7fc00000.

(** [appShmSensorDataInstance_t]. The buffer has 28 rows; of the last one only
    the first eight bytes are used, for the bitmap, which is [sd_bit_map]; the
    timer is its being armed. *)
Record appShmSensorDataInstance_t := Instance_ {
  sd_nameid : Z; sd_valid_flag : bool; sd_chn_idx : Z; sd_piece_cnt : Z; sd_piece_max : Z;
  sd_sensor_type : sensorType_t; sd_timer : bool; sd_data_buf : list sd_row; sd_bit_map : Z
}.

(** [memset(&g_sd_instance[i], 0, ...)] *)
Definition zero_instance : appShmSensorDataInstance_t :=
  Instance_ 0 false 0 0 0 MODBUS_SENSOR_TYPE_T false (replicate 27 zero_sd) 0.

(** The variables of the process for the sensor data, and those of [Channels].
    [g_bit_map] is the last row of [g_shm_data_buf]. *)
Record sd_cache := SdCache {
  g_former_ch_idx : Z; g_current_ch_idx : Z; g_former_nameid : Z; g_sensor_data_piece_cnt : Z;
  g_sensor_data_piece_max : Z; g_shm_data_buf : list sd_row; g_bit_map : Z; g_timer : bool;
  g_sensor_type_u8 : sensorType_t; g_sd_idx : nat; g_sd_instance : list appShmSensorDataInstance_t;
  w_flag : bool; backup_flag : bool; sql : sql_state
}.

Definition set_g_former_ch_idx (x : Z) (s : sd_cache) : sd_cache :=
  SdCache x (g_current_ch_idx s) (g_former_nameid s) (g_sensor_data_piece_cnt s) (g_sensor_data_piece_max s) (g_shm_data_buf s) (g_bit_map s) (g_timer s) (g_sensor_type_u8 s) (g_sd_idx s) (g_sd_instance s) (w_flag s) (backup_flag s) (sql s).
Definition set_g_current_ch_idx (x : Z) (s : sd_cache) : sd_cache :=
  SdCache (g_former_ch_idx s) x (g_former_nameid s) (g_sensor_data_piece_cnt s) (g_sensor_data_piece_max s) (g_shm_data_buf s) (g_bit_map s) (g_timer s) (g_sensor_type_u8 s) (g_sd_idx s) (g_sd_instance s) (w_flag s) (backup_flag s) (sql s).
Definition set_g_former_nameid (x : Z) (s : sd_cache) : sd_cache :=
  SdCache (g_former_ch_idx s) (g_current_ch_idx s) x (g_sensor_data_piece_cnt s) (g_sensor_data_piece_max s) (g_shm_data_buf s) (g_bit_map s) (g_timer s) (g_sensor_type_u8 s) (g_sd_idx s) (g_sd_instance s) (w_flag s) (backup_flag s) (sql s).
Definition set_g_sensor_data_piece_cnt (x : Z) (s : sd_cache) : sd_cache :=
  SdCache (g_former_ch_idx s) (g_current_ch_idx s) (g_former_nameid s) x (g_sensor_data_piece_max s) (g_shm_data_buf s) (g_bit_map s) (g_timer s) (g_sensor_type_u8 s) (g_sd_idx s) (g_sd_instance s) (w_flag s) (backup_flag s) (sql s).
Definition set_g_sensor_data_piece_max (x : Z) (s : sd_cache) : sd_cache :=
  SdCache (g_former_ch_idx s) (g_current_ch_idx s) (g_former_nameid s) (g_sensor_data_piece_cnt s) x (g_shm_data_buf s) (g_bit_map s) (g_timer s) (g_sensor_type_u8 s) (g_sd_idx s) (g_sd_instance s) (w_flag s) (backup_flag s) (sql s).
Definition set_g_shm_data_buf (x : list sd_row) (s : sd_cache) : sd_cache :=
  SdCache (g_former_ch_idx s) (g_current_ch_idx s) (g_former_nameid s) (g_sensor_data_piece_cnt s) (g_sensor_data_piece_max s) x (g_bit_map s) (g_timer s) (g_sensor_type_u8 s) (g_sd_idx s) (g_sd_instance s) (w_flag s) (backup_flag s) (sql s).
Definition set_g_bit_map (x : Z) (s : sd_cache) : sd_cache :=
  SdCache (g_former_ch_idx s) (g_current_ch_idx s) (g_former_nameid s) (g_sensor_data_piece_cnt s) (g_sensor_data_piece_max s) (g_shm_data_buf s) x (g_timer s) (g_sensor_type_u8 s) (g_sd_idx s) (g_sd_instance s) (w_flag s) (backup_flag s) (sql s).
Definition set_g_timer (x : bool) (s : sd_cache) : sd_cache :=
  SdCache (g_former_ch_idx s) (g_current_ch_idx s) (g_former_nameid s) (g_sensor_data_piece_cnt s) (g_sensor_data_piece_max s) (g_shm_data_buf s) (g_bit_map s) x (g_sensor_type_u8 s) (g_sd_idx s) (g_sd_instance s) (w_flag s) (backup_flag s) (sql s).
Definition set_g_sensor_type_u8 (x : sensorType_t) (s : sd_cache) : sd_cache :=
  SdCache (g_former_ch_idx s) (g_current_ch_idx s) (g_former_nameid s) (g_sensor_data_piece_cnt s) (g_sensor_data_piece_max s) (g_shm_data_buf s) (g_bit_map s) (g_timer s) x (g_sd_idx s) (g_sd_instance s) (w_flag s) (backup_flag s) (sql s).
Definition set_g_sd_idx (x : nat) (s : sd_cache) : sd_cache :=
  SdCache (g_former_ch_idx s) (g_current_ch_idx s) (g_former_nameid s) (g_sensor_data_piece_cnt s) (g_sensor_data_piece_max s) (g_shm_data_buf s) (g_bit_map s) (g_timer s) (g_sensor_type_u8 s) x (g_sd_instance s) (w_flag s) (backup_flag s) (sql s).
Definition set_g_sd_instance (x : list appShmSensorDataInstance_t) (s : sd_cache) : sd_cache :=
  SdCache (g_former_ch_idx s) (g_current_ch_idx s) (g_former_nameid s) (g_sensor_data_piece_cnt s) (g_sensor_data_piece_max s) (g_shm_data_buf s) (g_bit_map s) (g_timer s) (g_sensor_type_u8 s) (g_sd_idx s) x (w_flag s) (backup_flag s) (sql s).
Definition set_w_flag (x : bool) (s : sd_cache) : sd_cache :=
  SdCache (g_former_ch_idx s) (g_current_ch_idx s) (g_former_nameid s) (g_sensor_data_piece_cnt s) (g_sensor_data_piece_max s) (g_shm_data_buf s) (g_bit_map s) (g_timer s) (g_sensor_type_u8 s) (g_sd_idx s) (g_sd_instance s) x (backup_flag s) (sql s).
Definition set_backup_flag (x : bool) (s : sd_cache) : sd_cache :=
  SdCache (g_former_ch_idx s) (g_current_ch_idx s) (g_former_nameid s) (g_sensor_data_piece_cnt s) (g_sensor_data_piece_max s) (g_shm_data_buf s) (g_bit_map s) (g_timer s) (g_sensor_type_u8 s) (g_sd_idx s) (g_sd_instance s) (w_flag s) x (sql s).
Definition set_sql (x : sql_state) (s : sd_cache) : sd_cache :=
  SdCache (g_former_ch_idx s) (g_current_ch_idx s) (g_former_nameid s) (g_sensor_data_piece_cnt s) (g_sensor_data_piece_max s) (g_shm_data_buf s) (g_bit_map s) (g_timer s) (g_sensor_type_u8 s) (g_sd_idx s) (g_sd_instance s) (w_flag s) (backup_flag s) x.

(** ** The request *)

(** One element in [table_update_data_convert], the sensor data; the flag is [testflag]. *)
Definition sd_convert_datum (acc : bool * sd_row) (d : gw_pro_data_t) : bool * sd_row :=
  let '(testflag, SdRow (SensorData nid product dt time value) ty others) := acc in
  match field d with
  | 2 => (testflag, SdRow (SensorData (le32 (data d)) product dt time value) ty others)
  | 5 => (testflag, SdRow (SensorData nid product dt time value)
            (snprintf_s ty (GW_PRO_MAX_STRING_LEN_BYTE - 1) (data d)) others)
  | 8 => (testflag, SdRow (SensorData nid product dt (le64 (data d)) value) ty others)
  | 11 => (testflag, SdRow (SensorData nid product (nth 0 (data d) 0) time value) ty others)
  | 12 => (testflag || bool_decide (cstr (data d) = [68; 105; 103; 105; 116]),
           SdRow (SensorData nid product dt time value) ty (others ++ [d]))
  | 21 => (testflag, SdRow (SensorData nid product dt time
             (if testflag then take 4 (data d) ++ drop 4 value
              else snprintf_s value (GW_PRO_MAX_STRING_LEN_BYTE - 1) (data d))) ty others)
  | 23 => (testflag, SdRow (SensorData nid (nth 0 (data d) 0) dt time value) ty others)
  | _ => (testflag, SdRow (SensorData nid product dt time value) ty (others ++ [d]))
  end.

Definition sd_convert (req : list gw_pro_data_t) : sd_row :=
  snd (fold_left sd_convert_datum req (false, zero_sd)).

(** ** Indices and bitmap *)

(** The index of "items we don't care". *)
Definition SKIPPED : Z := PIECE_MAX - 2.

(** [shm_sd_measType_to_idx], for the measurement types 0 to 63. *)
Definition shm_sd_measType_to_idx : list Z :=
  replicate 13 SKIPPED ++ [6; 7; 8] ++ replicate 14 SKIPPED ++ [0] ++ replicate 11 SKIPPED ++
  [24; 1; 2; 3; 4; 5; 9; 10; 11; 12; 13; 14; 15; 16; 17; 18; 19; 20; 21; 22; 23; SKIPPED].

Definition shm_get_measure_type_idx_t (mType : Z) : Z :=
  if mType =? VOLTAGE_CURRENT then 0
  else if mType =? BOARD_TEMPERATURE_CURRENT then 1
  else if mType =? ENVIROMENTAL_TEMPERATURE_CURRENT then 2
  else if mType =? BLE_RSSI_CURRENT then 3
  else PIECE_MAX - 2.

Definition shm_set_sd_bit_map (sType : sensorType_t) (sd_bit_map idx : Z) : Z :=
  let idx_max :=
    match sType with
    | MODBUS_SENSOR_TYPE_T => APP_SHM_SENSORDATA_TABLE_PIECE_MAX_ITS + 1
    | MODBUS_SENSOR_TYPE_P => APP_SHM_SENSORDATA_TABLE_PIECE_MAX_PRS + 2
    | MODBUS_SENSOR_TYPE_PRO => APP_SHM_SENSORDATA_TABLE_PIECE_MAX_PRO + 2
    end in
  if idx_max <=? idx then sd_bit_map else Z.lor sd_bit_map (Z.shiftl 1 idx).

(** [shm_update_sd_bit_map]: the bits of the two sensing times. *)
Definition shm_update_sd_bit_map (sType : sensorType_t) (g : appShmSensorDataInstance_t) : Z :=
  let row i := sd (nth i (sd_data_buf g) zero_sd) in
  if sd_valid_flag g && negb (bool_decide (sd_sensor_type g = MODBUS_SENSOR_TYPE_T)) then
    let bm := sd_bit_map g in
    let bm := if negb (sd_sampleTime (row 6%nat) =? 0)
              then shm_set_sd_bit_map sType bm SHM_SD_IDX_LAST_TEMP_SENSING_TIME else bm in
    if existsb (fun i => negb (sd_sampleTime (row i) =? 0) && negb (le32 (sd_value (row i)) =? CONFIG_FLOAT_NA))
         (seq 11 13)
    then shm_set_sd_bit_map sType bm SHM_SD_IDX_LAST_VIB_SENSING_TIME else bm
  else sd_bit_map g.

(** ** Writing a set *)

Definition bytes64 (n : Z) : list Z := map (fun k => n / 256 ^ Z.of_nat k mod 256) (seq 0 8).

Definition piece_at (ch_idx j : Z) : Z :=
  APP_SHM_SENSORDATA_TABLE_ADDR_OFFSET + (ch_idx - 1) * APP_SHM_SENSORDATA_TABLE_ITEM_SIZE
  + j * APP_SHM_SENSORDATA_TABLE_PIECE_SIZE.

Definition write_shm (f : list Z -> list Z) (s : sd_cache) : sd_cache :=
  set_sql (with_shm (f (shm (sql s))) (sql s)) s.

Section cache.
(** The bytes of a row of sensor data and of a device item, as the compiler lays them out. *)
Context (sd_bytes : sd_row -> list Z) (item_bytes : dev_item -> list Z).

(** The first [n] rows of the buffer into the slots of the channel, and the
    bitmap into its last slot. *)
Definition flush (n : Z) (ch_idx : Z) (buf : list sd_row) (bm : Z) (s : list Z) : list Z :=
  put (piece_at ch_idx (PIECE_MAX - 1)) (bytes64 bm)
    (fold_left (fun s j => put (piece_at ch_idx (Z.of_nat j)) (sd_bytes (nth j buf zero_sd)) s)
       (seq 0 (Z.to_nat n)) s).

Definition flush_instance (g : appShmSensorDataInstance_t) : list Z -> list Z :=
  flush (sd_piece_max g) (sd_chn_idx g) (sd_data_buf g) (sd_bit_map g).

(** ** Insertions *)

(** The process goes on, leaves [main] because a timer cannot be had, or reads
    outside an array. *)
Inductive sd_outcome := SdRun (s : sd_cache) | SdExit | SdUndefined.

(** [memcpy] of the piece, its bit, and the count. *)
Definition store_piece (row : sd_row) (g : appShmSensorDataInstance_t) : option appShmSensorDataInstance_t :=
  match shm_sd_measType_to_idx !! Z.to_nat (sd_dataType (sd row)) with
  | None => None
  | Some idx =>
      let '(Instance_ nid valid c cnt max t timer buf bm) := g in
      Some (Instance_ nid valid c (u8 (cnt + 1)) max t timer (<[Z.to_nat idx := row]> buf)
              (shm_set_sd_bit_map t bm idx))
  end.

Definition set_instance (i : nat) (g : appShmSensorDataInstance_t) (s : sd_cache) : sd_cache :=
  set_g_sd_instance (<[i := g]> (g_sd_instance s)) s.

(** [timer_delete] and [shm_update_sd_bit_map]. *)
Definition close_instance (g : appShmSensorDataInstance_t) : appShmSensorDataInstance_t :=
  let '(Instance_ nid valid c cnt max t _ buf bm) := g in
  Instance_ nid valid c cnt max t false buf (shm_update_sd_bit_map t g).

(** A piece of a Predict sensor; [timers] is whether a timer can be had. *)
Definition insert_p (w0 timers : bool) (row : sd_row) (s : sd_cache) : sd_outcome :=
  let nid := sd_nameId (sd row) in
  match first_at (fun g => sd_valid_flag g && (nid =? sd_nameid g) && (g_current_ch_idx s =? sd_chn_idx g))
          CONFIG_SHM_SENSOR_DATA_MAX_NUM 0 (g_sd_instance s) with
  | Some i =>
      match store_piece row (nth i (g_sd_instance s) zero_instance) with
      | None => SdUndefined
      | Some g =>
          let s := set_g_sd_idx i s in
          if sd_piece_max g <=? sd_piece_cnt g then
            let g := close_instance g in
            if w0 then SdRun (set_instance i zero_instance (set_w_flag true (write_shm (flush_instance g) s)))
            else SdRun (set_instance i g s)
          else SdRun (set_w_flag true (set_instance i g s))
      end
  | None =>
      match first_at (fun g => negb (sd_valid_flag g) && (0 =? sd_nameid g) && (0 =? sd_chn_idx g))
              CONFIG_SHM_SENSOR_DATA_MAX_NUM 0 (g_sd_instance s) with
      | None => SdRun (set_w_flag true (set_g_sd_idx CONFIG_SHM_SENSOR_DATA_MAX_NUM s))
      | Some i =>
          if negb timers then SdExit
          else
            let old := nth i (g_sd_instance s) zero_instance in
            match store_piece row (Instance_ nid true (g_current_ch_idx s) 0 APP_SHM_SENSORDATA_TABLE_PIECE_MAX_PRS
                                     MODBUS_SENSOR_TYPE_P true (sd_data_buf old) (sd_bit_map old)) with
            | None => SdUndefined
            | Some g => SdRun (set_w_flag true (set_instance i g (set_g_sd_idx i s)))
            end
      end
  end.

(** The piece into the common buffer of the Insight-T sensors, and its bit. *)
Definition store_t (row : sd_row) (idx : Z) (s : sd_cache) : sd_cache :=
  set_g_shm_data_buf (<[Z.to_nat idx := row]> (g_shm_data_buf s))
    (set_g_bit_map (shm_set_sd_bit_map MODBUS_SENSOR_TYPE_T (g_bit_map s) idx) s).

Definition time_bit_t (s : sd_cache) : sd_cache :=
  set_g_bit_map (shm_set_sd_bit_map MODBUS_SENSOR_TYPE_T (g_bit_map s) SHM_SD_IDX_LAST_TEMP_SENSING_TIME_T) s.

(** [memset(&g_shm_data_buf[0], 0, ...)], all 28 rows. *)
Definition clear_t (s : sd_cache) : sd_cache := set_g_shm_data_buf (replicate 27 zero_sd) (set_g_bit_map 0 s).

Definition flush_t (n ch_idx : Z) (s : sd_cache) : sd_cache :=
  write_shm (flush n ch_idx (g_shm_data_buf s) (g_bit_map s)) s.

Definition count_t (s : sd_cache) : sd_cache := set_g_sensor_data_piece_cnt (u8 (g_sensor_data_piece_cnt s + 1)) s.

(** A piece of an Insight-T sensor. *)
Definition insert_t (w0 timers : bool) (row : sd_row) (s : sd_cache) : sd_outcome :=
  let nid := sd_nameId (sd row) in
  let idx := shm_get_measure_type_idx_t (sd_dataType (sd row)) in
  let known := idx <? APP_SHM_SENSORDATA_TABLE_PIECE_MAX_ITS in
  if g_former_nameid s =? nid then
    if g_sensor_data_piece_cnt s <? g_sensor_data_piece_max s - 1 then
      if known then
        let s := count_t (store_t row idx s) in
        if g_sensor_data_piece_cnt s =? 1 then
          if timers then SdRun (set_w_flag true (set_g_timer true s)) else SdExit
        else SdRun (set_w_flag true s)
      else SdRun (set_w_flag true s)
    else
      let s := set_g_timer false (set_g_sensor_data_piece_cnt (g_sensor_data_piece_max s - 1) s) in
      if known then
        let s := time_bit_t (count_t (store_t row idx s)) in
        if w0 then
          SdRun (set_g_sensor_data_piece_cnt 0 (clear_t (set_w_flag true
                   (flush_t (g_sensor_data_piece_cnt s) (g_current_ch_idx s) s))))
        else SdRun s
      else SdRun (set_w_flag true s)
  else
    let s := set_g_former_nameid nid (set_g_timer false s) in
    let s :=
      if g_sensor_data_piece_cnt s =? 0 then
        set_w_flag true (if known then count_t (store_t row idx s) else s)
      else if w0 then
        let n := g_sensor_data_piece_cnt s in
        let s := clear_t (set_w_flag true (flush_t n (g_former_ch_idx s) (time_bit_t (set_backup_flag false s)))) in
        if known then set_g_sensor_data_piece_cnt 1 (store_t row idx s) else s
      else set_w_flag false (set_backup_flag true s) in
    if timers then SdRun (set_g_timer true s) else SdExit.

(** After the insertion into the database, when [w_flag] is not set; [w] is
    whether the semaphore was free in one of two attempts. *)
Definition retry (w : bool) (row : sd_row) (s : sd_cache) : sd_outcome :=
  if w_flag s then SdRun s
  else
    let s := set_w_flag w s in
    match g_sensor_type_u8 s with
    | MODBUS_SENSOR_TYPE_P =>
        match g_sd_instance s !! g_sd_idx s with
        | None => SdUndefined
        | Some g => SdRun (set_instance (g_sd_idx s) zero_instance (write_shm (flush_instance g) s))
        end
    | _ =>
        let idx := shm_get_measure_type_idx_t (sd_dataType (sd row)) in
        if backup_flag s then
          let s := clear_t (flush_t APP_SHM_SENSORDATA_TABLE_PIECE_MAX_ITS (g_former_ch_idx s) s) in
          let s := if idx <? APP_SHM_SENSORDATA_TABLE_PIECE_MAX_ITS
                   then set_g_sensor_data_piece_cnt 1 (store_t row idx s) else s in
          SdRun (set_backup_flag false s)
        else
          SdRun (set_g_sensor_data_piece_cnt 0
                   (clear_t (flush_t APP_SHM_SENSORDATA_TABLE_PIECE_MAX_ITS (g_current_ch_idx s) s)))
    end.

(** The channel of the sensor in the table of the register mode. *)
Definition find_channel (nid : Z) (st : sql_state) : option Z :=
  match g_modbus_reg_addr_mode st with
  | MODBUS_REG_ADDR_EXTENSIBLE_MODE =>
      (fun i => ch (nth i (chn_nameid_map st) zero_chn)) <$>
        first_at (fun e => (nid =? nameid e) && (1 =? validflag e)) 40 1 (chn_nameid_map st)
  | MODBUS_REG_ADDR_EFFICIENT_MODE =>
      (fun i => e_ch (nth i (efficient_chn_nameid_map st) zero_eff)) <$>
        first_at (fun e => (nid =? e_nameid e) && (1 =? e_validflag e)) 40 1 (efficient_chn_nameid_map st)
  end.

(** The branch of the sensor's type. *)
Definition insert_piece (w0 timers : bool) (row : sd_row) (s : sd_cache) : sd_outcome :=
  if strcmp_eq (sd_type row) TYPE_STR_INSIGHT_P then
    insert_p w0 timers row
      (set_g_sensor_type_u8 MODBUS_SENSOR_TYPE_P
        (set_g_sensor_data_piece_max APP_SHM_SENSORDATA_TABLE_PIECE_MAX_PRS s))
  else if strcmp_eq (sd_type row) TYPE_STR_INSIGHT_P_PRO then
    SdRun (set_g_sensor_type_u8 MODBUS_SENSOR_TYPE_PRO s)
  else
    insert_t w0 timers row
      (set_g_sensor_type_u8 MODBUS_SENSOR_TYPE_T
        (set_g_sensor_data_piece_max APP_SHM_SENSORDATA_TABLE_PIECE_MAX_ITS s)).

(** [gw_pro_command_sqlite_update_item] on the sensor data, the insertion. *)
Definition sd_insert (ws : waits) (timers : bool) (req : list gw_pro_data_t) (s : sd_cache) : sd_outcome :=
  if negb (modbus_feature_enable (sql s)) then SdRun s
  else
    let row := sd_convert req in
    let dt := sd_dataType (sd row) in
    let '(w0, w1, w2) := ws in
    if (dt =? 1) || (dt =? 3) || (dt =? 4) then SdRun (set_w_flag true s)
    else match find_channel (sd_nameId (sd row)) (sql s) with
         | None => SdRun (set_w_flag true s)
         | Some c =>
             match insert_piece w0 timers row (set_g_current_ch_idx c (set_g_former_ch_idx (g_current_ch_idx s) s)) with
             | SdRun s => retry (w1 || w2) row s
             | r => r
             end
         end.

(** ** Timers *)

(** [shm_timer_handler_p] for the timer of instance [i]. *)
Definition timer_p (i : nat) (s : sd_cache) : sd_cache :=
  let g := nth i (g_sd_instance s) zero_instance in
  if negb (sd_valid_flag g) then s
  else
    let g := close_instance g in
    if (0 <? sd_piece_cnt g) && (sd_piece_cnt g <=? APP_SHM_SENSORDATA_TABLE_PIECE_MAX_PRS)
    then set_instance i zero_instance (write_shm (flush_instance g) s)
    else set_instance i g s.

(** [shm_timer_handler], for the Insight-T sensors. *)
Definition timer_t (s : sd_cache) : sd_cache :=
  let s := time_bit_t (set_g_timer false s) in
  if (0 <? g_sensor_data_piece_cnt s) && (g_sensor_data_piece_cnt s <=? g_sensor_data_piece_max s)
  then set_g_sensor_data_piece_cnt 0
         (clear_t (flush_t APP_SHM_SENSORDATA_TABLE_PIECE_MAX_ITS (g_current_ch_idx s) s))
  else s.

(** The sensor data of the process, one step after the other: insertions, the
    timers that are armed, and requests on the other tables, which change the
    channels and [w_flag]. *)
Inductive sd_step : sd_cache -> sd_cache -> Prop :=
  | sd_step_insert ws timers req s s' : sd_insert ws timers req s = SdRun s' -> sd_step s s'
  | sd_step_timer_p i s : sd_timer (nth i (g_sd_instance s) zero_instance) = true -> sd_step s (timer_p i s)
  | sd_step_timer_t s : g_timer s = true -> sd_step s (timer_t s)
  | sd_step_other st w s : sql_step item_bytes (sql s) st -> sd_step s (set_w_flag w (set_sql st s)).

Definition empty_cache (st : sql_state) : sd_cache :=
  SdCache 0 0 0 0 0 (replicate 27 zero_sd) 0 false MODBUS_SENSOR_TYPE_T 0 (replicate 8 zero_instance) false false st.
End cache.

(** ** The instances stay well-formed *)

Definition inst_ok (g : appShmSensorDataInstance_t) : Prop :=
  g = zero_instance \/
  sd_valid_flag g = true /\ sd_piece_max g = 25 /\ sd_sensor_type g = MODBUS_SENSOR_TYPE_P /\
  length (sd_data_buf g) = 27%nat /\ 1 <= sd_chn_idx g <= 40.

(** Two instances of one sensor are the same. *)
Definition same_sensor (g g' : appShmSensorDataInstance_t) : Prop :=
  sd_valid_flag g = true /\ sd_valid_flag g' = true /\
  sd_nameid g = sd_nameid g' /\ sd_chn_idx g = sd_chn_idx g'.

Definition cache_inv (s : sd_cache) : Prop :=
  length (g_sd_instance s) = 8%nat /\ Forall inst_ok (g_sd_instance s) /\ length (g_shm_data_buf s) = 27%nat /\
  forall i j g g', g_sd_instance s !! i = Some g -> g_sd_instance s !! j = Some g' -> same_sensor g g' -> i = j.

Lemma inst_inv_insert s i g x : cache_inv s -> g_sd_instance s !! i = Some x -> inst_ok g ->
  (forall j y, j <> i -> g_sd_instance s !! j = Some y -> ~ same_sensor g y) ->
  cache_inv (set_instance i g s).
Proof.
  intros (Hl & Hf & Hb & Hu) Ei Hg Hn. unfold cache_inv. cbn [set_instance set_g_sd_instance g_sd_instance g_shm_data_buf].
  split; [by rewrite length_insert|]. split; [by apply Forall_insert|]. split; [done|].
  intros a b y z Ea Eb Hs. apply list_lookup_insert_Some in Ea as [(-> & <- & _)|(Ha & Ea)];
    apply list_lookup_insert_Some in Eb as [(-> & <- & _)|(Hb' & Eb)]; [done| | |by apply (Hu a b y z)].
  - exfalso. by apply (Hn b z).
  - exfalso. destruct Hs as (H1 & H2 & H3 & H4). apply (Hn a y); [done|done|]. by repeat split.
Qed.

(** The same sensor, kept or freed. *)
Lemma inst_inv_keep s i g x : cache_inv s -> g_sd_instance s !! i = Some x -> inst_ok g ->
  (g = zero_instance \/ sd_valid_flag x = true /\ sd_nameid g = sd_nameid x /\ sd_chn_idx g = sd_chn_idx x) ->
  cache_inv (set_instance i g s).
Proof.
  intros H Ei Hg Hk. pose proof H as (_ & _ & _ & Hu). apply inst_inv_insert with x; [done|done|done|].
  intros j y Hne Ej (H1 & H2 & H3 & H4). destruct Hk as [->|(Hv & Hn & Hc)]; [done|]. apply Hne.
  apply (Hu j i y x Ej Ei). split; [done|]. split; [done|]. split; congruence.
Qed.

Lemma store_piece_ok row g g' : store_piece row g = Some g' ->
  sd_valid_flag g = true -> sd_piece_max g = 25 -> sd_sensor_type g = MODBUS_SENSOR_TYPE_P ->
  length (sd_data_buf g) = 27%nat -> 1 <= sd_chn_idx g <= 40 ->
  inst_ok g' /\ sd_valid_flag g' = true /\ sd_nameid g' = sd_nameid g /\ sd_chn_idx g' = sd_chn_idx g.
Proof.
  unfold store_piece. destruct (_ !! _) as [idx|]; [|done]. destruct g as [nid v c cnt mx t tm buf bm].
  cbn. intros [= <-] -> -> -> Hb Hc. split; [|done]. right. cbn. by rewrite length_insert.
Qed.

Lemma close_instance_ok g : inst_ok g -> sd_valid_flag g = true ->
  inst_ok (close_instance g) /\ sd_nameid (close_instance g) = sd_nameid g /\ sd_chn_idx (close_instance g) = sd_chn_idx g.
Proof.
  destruct g as [nid v c cnt mx t tm buf bm]. intros [Hz|(Hv & Hm & Ht & Hb & Hc)] Hv'; [by inversion Hz; subst|].
  split; [right; done|done].
Qed.

(** Changes of anything else. *)
Definition same_instances (s s' : sd_cache) : Prop :=
  g_sd_instance s' = g_sd_instance s /\ length (g_shm_data_buf s') = length (g_shm_data_buf s).

Lemma cache_inv_same s s' : same_instances s s' -> cache_inv s -> cache_inv s'.
Proof. unfold cache_inv. intros [-> ->]. done. Qed.

Lemma valid_inst s i g : cache_inv s -> g_sd_instance s !! i = Some g -> sd_valid_flag g = true ->
  inst_ok g /\ sd_piece_max g = 25 /\ sd_sensor_type g = MODBUS_SENSOR_TYPE_P /\ length (sd_data_buf g) = 27%nat /\
  1 <= sd_chn_idx g <= 40.
Proof.
  intros (_ & Hf & _) E Hv. pose proof (Forall_lookup_1 _ _ _ _ Hf E) as Hg. split; [done|].
  by destruct Hg as [->|(_ & Hg)].
Qed.

Lemma types_in_table dt : 0 <= dt < 64 -> exists idx, shm_sd_measType_to_idx !! Z.to_nat dt = Some idx /\ 0 <= idx <= 26.
Proof.
  intros H. destruct (lookup_lt_is_Some_2 shm_sd_measType_to_idx (Z.to_nat dt)) as [idx E]; [cbn; lia|].
  exists idx. split; [done|]. assert (forallb (fun i => (0 <=? i) && (i <=? 26)) shm_sd_measType_to_idx = true) as Hf by done.
  rewrite forallb_forall in Hf. apply list_elem_of_lookup_2, list_elem_of_In, Hf in E. lia.
Qed.

(** ** The writes stay in the sensor data *)

(** Two contents of the shared memory that differ in the sensor data only. *)
Definition outside_equal (a b : list Z) : Prop :=
  length b = length a /\
  forall k, Z.of_nat k < APP_SHM_SENSORDATA_TABLE_ADDR_OFFSET \/
    APP_SHM_SENSORDATA_TABLE_ADDR_OFFSET + 40 * APP_SHM_SENSORDATA_TABLE_ITEM_SIZE <= Z.of_nat k ->
    b !! k = a !! k.

#[global] Instance outside_equal_preorder : PreOrder outside_equal.
Proof.
  split; [by split|]. intros a b c [L1 H1] [L2 H2]. split; [congruence|].
  intros k Hk. by rewrite H2, H1.
Qed.

Lemma lookup_put_other i bytes l k : 0 <= i -> i + Z.of_nat (length bytes) <= Z.of_nat (length l) ->
  (Z.of_nat k < i \/ i + Z.of_nat (length bytes) <= Z.of_nat k) -> put i bytes l !! k = l !! k.
Proof.
  intros Hi Hl Hk. unfold put. destruct (decide (k < Z.to_nat i)%nat) as [Hlt|Hge].
  - rewrite lookup_app_l by (rewrite length_take; lia). by rewrite lookup_take_lt.
  - rewrite lookup_app_r by (rewrite length_take; lia). rewrite length_take.
    rewrite lookup_app_r by lia. rewrite lookup_drop. f_equal. lia.
Qed.

Lemma put_piece_outside c j bytes l : (length bytes <= 1024)%nat -> 1 <= c <= 40 -> 0 <= j < 28 ->
  shm_ok l -> outside_equal l (put (piece_at c j) bytes l).
Proof.
  intros Hb Hc Hj Hl. unfold shm_ok in Hl. change APP_SHM_TOTAL_SIZE with 1191936 in Hl.
  unfold piece_at, outside_equal. change APP_SHM_SENSORDATA_TABLE_ADDR_OFFSET with 43008.
  change APP_SHM_SENSORDATA_TABLE_ITEM_SIZE with 28672. change APP_SHM_SENSORDATA_TABLE_PIECE_SIZE with 1024.
  split; [apply length_put; lia|]. intros k Hk. apply lookup_put_other; lia.
Qed.

Lemma outside_shm_ok a b : outside_equal a b -> shm_ok a -> shm_ok b.
Proof. intros [L _]. unfold shm_ok. by rewrite L. Qed.

Lemma length_bytes64 n : length (bytes64 n) = 8%nat.
Proof. done. Qed.

Section safety.
Context (sd_bytes : sd_row -> list Z) (item_bytes : dev_item -> list Z).
Context (Hbytes : forall row, (length (sd_bytes row) <= 1024)%nat).

Lemma rows_outside buf c js l : 1 <= c <= 40 -> Forall (fun j => (j < 28)%nat) js -> shm_ok l ->
  outside_equal l (fold_left (fun s j => put (piece_at c (Z.of_nat j)) (sd_bytes (nth j buf zero_sd)) s) js l).
Proof.
  intros Hc Hjs. revert l. induction Hjs as [|j js Hj Hjs IH]; intros l Hl; [done|]. cbn [fold_left].
  assert (outside_equal l (put (piece_at c (Z.of_nat j)) (sd_bytes (nth j buf zero_sd)) l)) as Ho
    by (apply put_piece_outside; [done|done|lia|done]).
  rewrite Ho at 1. apply IH. by apply (outside_shm_ok l).
Qed.

Lemma flush_outside n c buf bm l : n <= 28 -> 1 <= c <= 40 -> shm_ok l ->
  outside_equal l (flush sd_bytes n c buf bm l).
Proof.
  intros Hn Hc Hl. unfold flush.
  set (l' := fold_left _ _ l). assert (outside_equal l l') as Ho.
  { apply rows_outside; [done| |done]. apply list.Forall_forall. intros j Hj%list_elem_of_In.
    apply in_seq in Hj. lia. }
  rewrite Ho. apply put_piece_outside; [rewrite length_bytes64; lia|done|done|by apply (outside_shm_ok l)].
Qed.

(** The state between two steps. *)
Definition cache_ok (s : sd_cache) : Prop :=
  cache_inv s /\ ext_inv (sql s) /\ 0 <= g_sensor_data_piece_cnt s <= 4 /\
  (g_sensor_data_piece_cnt s <> 0 -> 1 <= g_current_ch_idx s <= 40) /\ backup_flag s = false.

(** From one state to another, with writes into the sensor data only. *)
Definition keeps (s s' : sd_cache) : Prop :=
  cache_ok s' /\ (shm_ok (shm (sql s)) -> outside_equal (shm (sql s)) (shm (sql s'))).

(** A Predict piece leaves the state ready for [retry]: nothing left to do, or
    an instance in use. *)
Definition ready_p (s : sd_cache) : Prop :=
  cache_ok s /\ g_sensor_type_u8 s = MODBUS_SENSOR_TYPE_P /\
  (w_flag s = true \/ exists g, g_sd_instance s !! g_sd_idx s = Some g /\ sd_valid_flag g = true).

Lemma flush_instance_outside g l : inst_ok g -> sd_valid_flag g = true -> shm_ok l ->
  outside_equal l (flush_instance sd_bytes g l).
Proof.
  intros [->|(_ & Hm & _ & _ & Hc)] Hv Hl; [done|]. apply flush_outside; [lia|done|done].
Qed.

Lemma free_instance_keeps i g w s : cache_ok s -> g_sd_instance s !! i = Some g -> sd_valid_flag g = true ->
  forall g', inst_ok g' -> sd_valid_flag g' = true -> 
  keeps s (set_instance i zero_instance (set_w_flag w (write_shm (flush_instance sd_bytes g') s))).
Proof.
  intros (Hi & He & Hc & Hcur & Hb) E Hv g' Hg' Hv'. split; [split; [|split; [by apply ext_inv_shm|done]]|].
  - apply inst_inv_keep with g; [by apply (cache_inv_same s)|done|by left|by left].
  - intros Hl. by apply flush_instance_outside.
Qed.

Lemma instance_at s i g : g_sd_instance s !! i = Some g -> nth i (g_sd_instance s) zero_instance = g.
Proof. intros E. by apply nth_lookup_Some. Qed.

Lemma set_instance_at i g s : cache_inv s -> (i < 8)%nat -> g_sd_instance (set_instance i g s) !! i = Some g.
Proof. intros (Hl & _) Hi. apply list_lookup_insert_eq. lia. Qed.

(** The process leaves [main], or reads behind the table of the measurement types. *)
Definition stops (row : sd_row) (r : sd_outcome) : Prop :=
  r = SdExit \/ r = SdUndefined /\ shm_sd_measType_to_idx !! Z.to_nat (sd_dataType (sd row)) = None.

Lemma store_piece_none row g : store_piece row g = None ->
  shm_sd_measType_to_idx !! Z.to_nat (sd_dataType (sd row)) = None.
Proof. unfold store_piece. destruct (_ !! _); [by destruct g|done]. Qed.

Lemma insert_p_known w0 timers row s i g : cache_ok s -> g_sensor_type_u8 s = MODBUS_SENSOR_TYPE_P ->
  g_sd_instance s !! i = Some g ->
  sd_valid_flag g = true -> sd_nameId (sd row) = sd_nameid g -> g_current_ch_idx s = sd_chn_idx g ->
  stops row (insert_p sd_bytes w0 timers row s) \/
  exists s', insert_p sd_bytes w0 timers row s = SdRun s' /\ ready_p s' /\ keeps s s'.
Proof.
  intros Hok Ht E Hv Hn Hc. pose proof Hok as (Hi & He & Hrest).
  destruct (valid_inst s i g Hi E Hv) as (Hg & Hm & Hst & Hlen & Hch). pose proof Hi as (Hl & _ & _ & Hu).
  pose proof (lookup_lt_Some _ _ _ E) as Hlt. unfold insert_p.
  rewrite (first_at_only _ 8 0 _ i g); [|lia|lia|done| |].
  2: { rewrite Hv, Hn, Hc, !Z.eqb_refl. done. }
  2: { intros j x Hj Ej. destruct (_ && _) eqn:Hp; [|done]. 
       assert (i = j); [|lia]. apply (Hu i j g x E Ej). unfold same_sensor. lia. }
  rewrite (instance_at s i g E).
  destruct (store_piece row g) as [g'|] eqn:Es; [|left; right; split; [done|by apply store_piece_none with g]].
  right.
  destruct (store_piece_ok _ _ _ Es Hv Hm Hst Hlen Hch) as (Hg' & Hv' & Hn' & Hc').
  assert (cache_ok (set_instance i g' (set_g_sd_idx i s))) as Hok'.
  { split; [|done]. apply inst_inv_keep with g; [exact Hi|done|done|]. right. split; [done|]. split; congruence. }
  cbv zeta. destruct (sd_piece_max g' <=? sd_piece_cnt g').
  2: { eexists. split; [reflexivity|]. split; [|split; [exact Hok'|done]]. 
       split; [exact Hok'|]. split; [done|by left]. }
  destruct (close_instance_ok g' Hg' Hv') as (Hg2 & Hn2 & Hc2).
  assert (sd_valid_flag (close_instance g') = true) as Hv2 by (destruct g'; done).
  destruct w0; (eexists; split; [reflexivity|]).
  - pose proof (free_instance_keeps i g true (set_g_sd_idx i s) Hok E Hv _ Hg2 Hv2) as [Hk Ho].
    split; [|split; [exact Hk|exact Ho]]. split; [exact Hk|]. split; [done|by left].
  - assert (cache_ok (set_instance i (close_instance g') (set_g_sd_idx i s))) as Hok2.
    { split; [|done]. apply inst_inv_keep with g; [exact Hi|done|done|]. right. split; [done|]. split; congruence. }
    split; [|split; [exact Hok2|done]]. split; [exact Hok2|]. split; [done|]. right.
    exists (close_instance g'). split; [|done]. apply (set_instance_at i _ (set_g_sd_idx i s)); [exact Hi|lia].
Qed.

Lemma insert_p_ok w0 timers row s : cache_ok s -> g_sensor_type_u8 s = MODBUS_SENSOR_TYPE_P ->
  1 <= g_current_ch_idx s <= 40 ->
  stops row (insert_p sd_bytes w0 timers row s) \/
  exists s', insert_p sd_bytes w0 timers row s = SdRun s' /\ ready_p s' /\ keeps s s'.
Proof.
  intros Hok Ht Hcur. pose proof Hok as (Hi & He & Hrest). pose proof Hi as (Hl & Hf & Hb & Hu).
  destruct (first_at (fun g => sd_valid_flag g && (sd_nameId (sd row) =? sd_nameid g) && (g_current_ch_idx s =? sd_chn_idx g))
          CONFIG_SHM_SENSOR_DATA_MAX_NUM 0 (g_sd_instance s)) as [i|] eqn:E1.
  { apply first_at_some in E1 as (_ & (g & Eg & Hp) & _).
    apply insert_p_known with i g; [done|done|done| | |]; destruct (sd_valid_flag g); cbn in Hp; (done || lia). }
  unfold insert_p. rewrite E1.
  destruct (first_at (fun g => negb (sd_valid_flag g) && _ && _) _ _ _) as [i|] eqn:E2.
  2: { right. eexists. split; [reflexivity|]. split; [|split; [exact Hok|done]]. split; [exact Hok|]. split; [done|by left]. }
  destruct timers; [|by left; left]. apply first_at_some in E2 as (_ & (g & Eg & Hp) & _).
  rewrite (instance_at s i g Eg). assert (g = zero_instance) as ->.
  { destruct (Forall_lookup_1 _ _ _ _ Hf Eg) as [?|(Hv & _)]; [done|]. by rewrite Hv in Hp. }
  cbn [negb sd_data_buf sd_bit_map zero_instance]. set (fresh := Instance_ _ _ _ _ _ _ _ _ _).
  destruct (store_piece row fresh) as [g'|] eqn:Es; [|left; right; split; [done|by apply store_piece_none with fresh]].
  right.
  destruct (store_piece_ok _ _ _ Es) as (Hg' & Hv' & Hn' & Hc'); [done|done|done|done|done|].
  assert (cache_ok (set_instance i g' (set_g_sd_idx i s))) as Hok'.
  { split; [|done]. apply inst_inv_insert with zero_instance; [exact Hi|done|done|].
    intros j y Hne Ej (_ & Hvy & Hny & Hcy).
    change (g_sd_instance s !! j = Some y) in Ej.
    assert (j < 8)%nat as Hj by (apply lookup_lt_Some in Ej; lia). assert (0 + 8 <= length (g_sd_instance s))%nat as Hl8 by lia.
    pose proof (first_at_none _ 8 0 _ Hl8 E1 j y ltac:(lia) Ej) as Hp'. cbv beta in Hp'.
    rewrite Hvy, <- Hny, <- Hcy, Hn', Hc' in Hp'. cbn in Hp'. lia. }
  eexists. split; [reflexivity|]. split; [|split; [exact Hok'|done]]. split; [exact Hok'|]. split; [done|by left].
Qed.

(** An Insight-T piece leaves the state ready for [retry]. *)
Definition ready_t (s : sd_cache) : Prop :=
  cache_inv s /\ ext_inv (sql s) /\ 0 <= g_sensor_data_piece_cnt s <= 4 /\ 1 <= g_current_ch_idx s <= 40 /\
  g_sensor_type_u8 s <> MODBUS_SENSOR_TYPE_P /\
  (backup_flag s = true -> w_flag s = false /\ 1 <= g_former_ch_idx s <= 40).

Definition keeps_t (s s' : sd_cache) : Prop :=
  ready_t s' /\ (shm_ok (shm (sql s)) -> outside_equal (shm (sql s)) (shm (sql s'))).

Lemma store_t_length row idx s : length (g_shm_data_buf (store_t row idx s)) = length (g_shm_data_buf s).
Proof. apply length_insert. Qed.

Ltac sd_cbn :=
  cbn [g_former_ch_idx g_current_ch_idx g_former_nameid g_sensor_data_piece_cnt g_sensor_data_piece_max
    g_shm_data_buf g_bit_map g_timer g_sensor_type_u8 g_sd_idx g_sd_instance w_flag backup_flag sql
    set_g_former_ch_idx set_g_current_ch_idx set_g_former_nameid set_g_sensor_data_piece_cnt
    set_g_sensor_data_piece_max set_g_shm_data_buf set_g_bit_map set_g_timer set_g_sensor_type_u8 set_g_sd_idx
    set_g_sd_instance set_w_flag set_backup_flag set_sql store_t time_bit_t clear_t flush_t count_t write_shm].

(** The outcomes of an Insight-T piece, once the cases are known. *)
Ltac t_done Hi He :=
  right; eexists; split; [reflexivity|]; unfold keeps_t, ready_t, cache_inv; sd_cbn; split;
    [ split; [split; [apply Hi|split; [apply Hi|split; [rewrite ?length_insert; first [done|apply Hi]|apply Hi]]]|];
      split; [first [exact He|by apply ext_inv_shm]|]; repeat (split; [first [done|lia]|]); first [done|lia]
    | first [done|intros; cbn [with_shm shm]; apply flush_outside; first [done|lia]] ].

Lemma insert_t_ok w0 timers row s :
  cache_inv s -> ext_inv (sql s) -> 0 <= g_sensor_data_piece_cnt s <= 4 -> 1 <= g_current_ch_idx s <= 40 ->
  (g_sensor_data_piece_cnt s <> 0 -> 1 <= g_former_ch_idx s <= 40) ->
  g_sensor_data_piece_max s = 4 -> g_sensor_type_u8 s = MODBUS_SENSOR_TYPE_T -> backup_flag s = false ->
  insert_t sd_bytes w0 timers row s = SdExit \/
  exists s', insert_t sd_bytes w0 timers row s = SdRun s' /\ keeps_t s s'.
Proof.
  destruct s as [fc cc fn cnt mx buf bm tm ty i inst w bk q]. unfold cache_inv. sd_cbn.
  intros Hi He Hc Hcur Hfor -> -> ->. unfold insert_t.
  unfold count_t, store_t, time_bit_t, clear_t, flush_t, write_shm. sd_cbn.
  change (u8 (4 - 1 + 1)) with 4. change (4 - 1) with 3.
  assert (cnt < 4 -> u8 (cnt + 1) = cnt + 1) as Hu by (intros; apply u8_id; unfold is_u8; lia).
  destruct (_ <? APP_SHM_SENSORDATA_TABLE_PIECE_MAX_ITS), (fn =? _).
  - destruct (Z.ltb_spec cnt 3) as [Hlt|]; [|destruct w0; t_done Hi He].
    rewrite Hu by lia. destruct (_ =? 1); [|t_done Hi He]. destruct timers; [|by left]. t_done Hi He.
  - destruct timers.
    2: { by left. }
    destruct (Z.eqb_spec cnt 0); [rewrite Hu by lia|destruct w0]; t_done Hi He.
  - destruct (cnt <? 3); t_done Hi He.
  - destruct timers.
    2: { by left. }
    destruct (Z.eqb_spec cnt 0); [|destruct w0]; t_done Hi He.
Qed.

Lemma retry_t w row s : ready_t s -> exists s', retry sd_bytes w row s = SdRun s' /\ keeps s s'.
Proof.
  intros (Hi & He & Hc & Hcur & Ht & Hb). unfold retry.
  assert (backup_flag s = false -> keeps s s) as Hsame by (intros Eb; split; [by repeat (split; [done|])|done]).
  destruct (w_flag s) eqn:Ew.
  { exists s. split; [done|]. apply Hsame. destruct (backup_flag s); [|done]. by destruct (Hb eq_refl). }
  assert (forall n c s1, n <= 28 -> 1 <= c <= 40 -> g_sd_instance s1 = g_sd_instance s -> 1 <= g_current_ch_idx s1 <= 40 ->
    sql s1 = with_shm (flush sd_bytes n c (g_shm_data_buf s) (g_bit_map s) (shm (sql s))) (sql s) ->
    length (g_shm_data_buf s1) = 27%nat -> 0 <= g_sensor_data_piece_cnt s1 <= 4 -> backup_flag s1 = false ->
    keeps s s1) as Hk.
  { intros n c s1 Hn Hcc Ein Ecur Eq El Ecnt Eb. unfold keeps, cache_ok. rewrite Eq.
    split; [split; [|split; [by apply ext_inv_shm|done]]|intros Hl; by apply flush_outside].
    unfold cache_inv. rewrite Ein, El. by destruct Hi as (? & ? & _ & ?). }
  assert (APP_SHM_SENSORDATA_TABLE_PIECE_MAX_ITS <= 28) as Hn by done.
  destruct (g_sensor_type_u8 s) eqn:Et; [|done|].
  all: cbn [set_w_flag g_sensor_type_u8]; rewrite Et.
  all: change (backup_flag (set_w_flag w s)) with (backup_flag s); destruct (backup_flag s) eqn:Eb.
  all: eexists; split; [reflexivity|].
  2,4: by apply (Hk _ _ _ Hn Hcur).
  all: destruct (Hb eq_refl) as [_ Hfor].
  all: destruct (_ <? _); (apply (Hk _ _ _ Hn Hfor); try done).
  all: exact (length_insert (replicate 27 zero_sd) _ _).
Qed.

Lemma retry_p w row s : ready_p s -> exists s', retry sd_bytes w row s = SdRun s' /\ keeps s s'.
Proof.
  intros (Hok & Ht & Hf). unfold retry. destruct (w_flag s) eqn:Ew; [by exists s|].
  destruct Hf as [|(g & Eg & Hv)]; [done|].
  change (g_sensor_type_u8 (set_w_flag w s)) with (g_sensor_type_u8 s). rewrite Ht.
  change (g_sd_instance (set_w_flag w s) !! g_sd_idx (set_w_flag w s)) with (g_sd_instance s !! g_sd_idx s).
  rewrite Eg. eexists. split; [reflexivity|].
  destruct (valid_inst s _ g (proj1 Hok) Eg Hv) as [Hg _].
  exact (free_instance_keeps _ _ w s Hok Eg Hv g Hg Hv).
Qed.

(** The channel of a sensor is one of the 40. *)
Lemma find_channel_range nid st c : ext_inv st -> find_channel nid st = Some c -> 1 <= c <= 40.
Proof.
  intros (_ & Hm & Ht & _) E. unfold find_channel in E. rewrite Hm in E. pose proof (lookup_assigned _ nid Ht) as Ha.
  destruct (first_at _ 40 1 (chn_nameid_map st)) as [i|]; [|done]. injection E as <-.
  destruct Ha as [Hr Ea]. rewrite (nth_lookup_Some _ _ _ _ Ea). cbn. lia.
Qed.

(** The process stops, or it reaches its next state by writes into the sensor data. *)
Definition safe (row : sd_row) (s : sd_cache) (r : sd_outcome) : Prop :=
  stops row r \/ exists s', r = SdRun s' /\ keeps s s'.

Lemma insert_retry (r : sd_outcome) (ready : sd_cache -> Prop) w row s :
  (forall s1, ready s1 -> exists s2, retry sd_bytes w row s1 = SdRun s2 /\ keeps s1 s2) ->
  stops row r \/ (exists s1, r = SdRun s1 /\ ready s1 /\
    (shm_ok (shm (sql s)) -> outside_equal (shm (sql s)) (shm (sql s1)))) ->
  safe row s (match r with SdRun s1 => retry sd_bytes w row s1 | SdExit => SdExit | SdUndefined => SdUndefined end).
Proof.
  intros Hr [[->|[-> Hn]]|(s1 & -> & H1 & Ho)]; [by left; left|by left; right|]. right. destruct (Hr s1 H1) as (s2 & -> & Hok & Ho2).
  exists s2. split; [done|]. split; [done|]. intros Hl. rewrite (Ho Hl) at 1. apply Ho2.
  by apply (outside_shm_ok (shm (sql s))), Hl; apply Ho.
Qed.

Lemma sd_insert_safe ws timers req s : cache_ok s ->
  safe (sd_convert req) s (sd_insert sd_bytes ws timers req s).
Proof.
  intros Hok. pose proof Hok as (Hi & He & Hc & Hcur & Hb). unfold sd_insert.
  assert (keeps s (set_w_flag true s)) as Hskip by (split; [exact Hok|done]).
  rewrite (proj1 He). cbn [negb]. set (row := sd_convert req) in *. destruct ws as [[w0 w1] w2].
  destruct (_ || _ || _); [right; by eexists|]. destruct (find_channel _ _) as [c|] eqn:Ec; [|right; by eexists].
  apply find_channel_range in Ec; [|done]. unfold insert_piece.
  destruct (strcmp_eq (sd_type row) TYPE_STR_INSIGHT_P).
  - match goal with |- safe _ _ (match ?r with _ => _ end) => apply (insert_retry r ready_p (w1 || w2) row s (retry_p (w1 || w2) row)) end.
    match goal with |- stops _ (insert_p _ _ _ _ ?x) \/ _ => destruct (insert_p_ok w0 timers row x) as [|(s1 & E & Hr & _ & Ho)] end;
      [|done|exact Ec|by left|right; by exists s1].
    split; [exact Hi|]. split; [exact He|]. split; [exact Hc|]. by split.
  - match goal with |- safe _ _ (match ?r with _ => _ end) => apply (insert_retry r ready_t (w1 || w2) row s (retry_t (w1 || w2) row)) end.
    destruct (strcmp_eq _ _).
    + right. eexists. split; [reflexivity|]. split; [|done]. split; [exact Hi|]. split; [exact He|].
      split; [exact Hc|]. split; [exact Ec|]. split; [done|]. intros Hb'. 
      change (backup_flag s = true) in Hb'. congruence.
    + match goal with |- stops _ (insert_t _ _ _ _ ?x) \/ _ => destruct (insert_t_ok w0 timers row x) as [|(s1 & E & Hr & Ho)] end;
        [exact Hi|exact He|exact Hc|exact Ec|exact Hcur|done|done|exact Hb|by left; left|right; by exists s1].
Qed.

Lemma timer_p_keeps i s : cache_ok s -> keeps s (timer_p sd_bytes i s).
Proof.
  intros Hok. unfold timer_p. destruct (sd_valid_flag _) eqn:Hv; [|by split]. cbn [negb].
  destruct (g_sd_instance s !! i) as [g|] eqn:Eg.
  2: { rewrite nth_overflow in Hv; [done|by apply lookup_ge_None]. }
  rewrite (instance_at s i g Eg) in *. destruct (valid_inst s i g (proj1 Hok) Eg Hv) as [Hg _].
  destruct (close_instance_ok g Hg Hv) as (Hg2 & Hn2 & Hc2).
  assert (sd_valid_flag (close_instance g) = true) as Hv2 by (destruct g; done). destruct (_ && _).
  - exact (free_instance_keeps i g (w_flag s) s Hok Eg Hv _ Hg2 Hv2).
  - split; [|done]. pose proof Hok as (Hi & _). split; [|exact (proj2 Hok)].
    apply inst_inv_keep with g; [done|done|done|by right].
Qed.

Lemma timer_t_keeps s : cache_ok s -> keeps s (timer_t sd_bytes s).
Proof.
  intros (Hi & He & Hc & Hcur & Hb). unfold timer_t. cbv zeta.
  change (g_sensor_data_piece_cnt (time_bit_t _)) with (g_sensor_data_piece_cnt s).
  destruct (_ && _) eqn:Ec.
  - assert (1 <= g_current_ch_idx s <= 40) as Hr by lia. split.
    + split; [split; [apply Hi|split; [apply Hi|split; [done|apply Hi]]]|]. split; [by apply ext_inv_shm|].
      split; [done|]. by split.
    + intros Hl. by apply flush_outside.
  - split; [|done]. split; [exact Hi|]. by split.
Qed.

Lemma empty_cache_ok st : ext_inv st -> cache_ok (empty_cache st).
Proof.
  intros He. split; [|by repeat (split; [done|])].
  change (g_sd_instance (empty_cache st)) with (replicate 8 zero_instance).
  split; [done|]. split; [by apply Forall_replicate; left|]. split; [done|].
  intros i j g g' Ei _ (Hv & _). by apply lookup_replicate in Ei as [-> _].
Qed.

Lemma sd_step_ok s s' : cache_ok s -> sd_step sd_bytes item_bytes s s' -> cache_ok s'.
Proof.
  intros Hok Hstep. destruct Hstep as [ws timers req s1 s2 E|i s1 _|s1 _|st w s1 Hs].
  - destruct (sd_insert_safe ws timers req s1 Hok) as [[E'|[E' _]]|(s3 & E' & Hk & _)]; rewrite E in E'; [done|done|].
    by injection E' as ->.
  - by apply timer_p_keeps.
  - by apply timer_t_keeps.
  - destruct Hok as (Hi & He & Hrest). split; [exact Hi|]. split; [by apply (sql_step_inv item_bytes (sql s1))|exact Hrest].
Qed.

Lemma reachable_ok gw rows sh s :
  gr_nameId gw <> 0 -> gr_baudrateSlave gw <> 0 -> is_ext_mode (gr_registerMode gw) = true -> NoDup (row_ids rows) ->
  rtc (sd_step sd_bytes item_bytes) (empty_cache (sql_start item_bytes (Some gw) rows sh)) s -> cache_ok s.
Proof.
  intros Hn Hb Hm Hd Hr. apply (rtc_ind_r cache_ok _) with (3 := Hr).
  - by apply empty_cache_ok, start_inv.
  - intros x y _ Hs Hok. by apply sd_step_ok with x.
Qed.

(** C13: The measurements are written into the sensor data and nowhere else.
    After a start with a gateway in an extensible mode, and any sequence of
    measurements, timers and other requests: a measurement of a type below 64 ends
    the process (no timer can be had) or has a defined result - no index leaves
    an array -; and neither a measurement nor a timer changes a byte of the
    shared memory outside of the sensor data of the 40 channels. *)
Theorem measurements_stay_in_place gw rows sh s :
  gr_nameId gw <> 0 -> gr_baudrateSlave gw <> 0 -> is_ext_mode (gr_registerMode gw) = true -> NoDup (row_ids rows) ->
  rtc (sd_step sd_bytes item_bytes) (empty_cache (sql_start item_bytes (Some gw) rows sh)) s ->
  shm_ok (shm (sql s)) ->
  (forall ws timers req, 0 <= sd_dataType (sd (sd_convert req)) < 64 ->
     sd_insert sd_bytes ws timers req s = SdExit \/
     exists s', sd_insert sd_bytes ws timers req s = SdRun s' /\ outside_equal (shm (sql s)) (shm (sql s'))) /\
  (forall i, outside_equal (shm (sql s)) (shm (sql (timer_p sd_bytes i s)))) /\
  outside_equal (shm (sql s)) (shm (sql (timer_t sd_bytes s))).
Proof.
  intros Hn Hb Hm Hd Hr Hl. apply reachable_ok in Hr; [|done..]. split; [|split].
  - intros ws timers req Hdt. destruct (sd_insert_safe ws timers req s Hr) as [[E|[E Hnone]]|(s' & E & _ & Ho)].
    + by left.
    + destruct (types_in_table _ Hdt) as (idx & Eidx & _). by rewrite Eidx in Hnone.
    + right. exists s'. split; [done|]. by apply Ho.
  - intros i. by apply timer_p_keeps.
  - by apply timer_t_keeps.
Qed.
End safety.

(** ** The instance of a sensor, and the steps of the others *)

Section frame.
Context (sd_bytes : sd_row -> list Z) (item_bytes : dev_item -> list Z).

Lemma insert_t_instances w0 timers row s s' : insert_t sd_bytes w0 timers row s = SdRun s' ->
  g_sd_instance s' = g_sd_instance s /\ g_sensor_type_u8 s' = g_sensor_type_u8 s.
Proof.
  unfold insert_t. cbv zeta.
  repeat first [ destruct (_ =? _) | destruct (_ <? _) | destruct timers | destruct w0 ];
    intros [= <-]; done.
Qed.

Lemma retry_t_instances w row s s' : g_sensor_type_u8 s <> MODBUS_SENSOR_TYPE_P ->
  retry sd_bytes w row s = SdRun s' -> g_sd_instance s' = g_sd_instance s.
Proof.
  intros Ht. unfold retry. destruct (w_flag s); [by intros [= <-]|]. cbv zeta.
  change (g_sensor_type_u8 (set_w_flag w s)) with (g_sensor_type_u8 s).
  destruct (g_sensor_type_u8 s); [|done|]; destruct (backup_flag _); try destruct (_ <? _); intros [= <-]; done.
Qed.

Lemma set_instance_other i j g s : j <> i -> g_sd_instance (set_instance j g s) !! i = g_sd_instance s !! i.
Proof. intros Hne. by apply list_lookup_insert_ne. Qed.

Lemma instance_written i j x g s s' : j <> i -> g_sd_instance s !! i = Some g ->
  g_sd_instance s' = <[j := x]> (g_sd_instance s) -> g_sd_instance s' !! i = Some g.
Proof. intros Hne Ei ->. by rewrite list_lookup_insert_ne. Qed.

(** A Predict piece of another sensor leaves the instance, and so does its [retry]. *)
Lemma insert_p_frame w0 timers row s s' i g : insert_p sd_bytes w0 timers row s = SdRun s' ->
  g_sd_instance s !! i = Some g -> sd_valid_flag g = true -> sd_nameid g <> sd_nameId (sd row) ->
  g_sd_instance s' !! i = Some g /\ (w_flag s' = true \/ g_sd_idx s' <> i) /\
  g_sensor_type_u8 s' = g_sensor_type_u8 s.
Proof.
  intros E Ei Hv Hn. unfold insert_p in E. cbv zeta in E.
  destruct (first_at (fun g => sd_valid_flag g && (sd_nameId _ =? _) && _) _ _ _) as [j|] eqn:Ej.
  - apply first_at_some in Ej as (_ & (x & Ex & Hp) & _).
    assert (j <> i) as Hne by (intros ->; rewrite Ei in Ex; injection Ex as <-; lia).
    destruct (store_piece _ _) as [g1|]; [|done]. destruct (sd_piece_max g1 <=? sd_piece_cnt g1); [destruct w0|];
      injection E as <-; (split; [by eapply (instance_written i j)|]); (split; [|done]); [by left|by right|by left].
  - clear Ej. destruct (first_at (fun g => negb _ && _ && _) _ _ _) as [j|] eqn:Ef; [|injection E as <-; split; [done|by split; [left|]]].
    apply first_at_some in Ef as (_ & (x & Ex & Hp) & _).
    assert (j <> i) as Hne by (intros ->; rewrite Ei in Ex; injection Ex as <-; by rewrite Hv in Hp).
    destruct timers; [|done]. cbn [negb] in E. destruct (store_piece _ _) as [g1|]; [|done].
    injection E as <-. split; [|by split; [left|]]. by eapply (instance_written i j).
Qed.

Lemma retry_p_frame w row s s' i g : retry sd_bytes w row s = SdRun s' -> g_sensor_type_u8 s = MODBUS_SENSOR_TYPE_P ->
  g_sd_instance s !! i = Some g -> w_flag s = true \/ g_sd_idx s <> i -> g_sd_instance s' !! i = Some g.
Proof.
  intros E Ht Ei Hf. unfold retry in E. destruct (w_flag s) eqn:Ew; [by injection E as <-|].
  destruct Hf as [|Hne]; [done|]. change (g_sensor_type_u8 (set_w_flag w s)) with (g_sensor_type_u8 s) in E.
  rewrite Ht in E. cbv zeta in E. destruct (_ !! g_sd_idx _) as [x|]; [|done]. injection E as <-.
  by eapply (instance_written i (g_sd_idx s)).
Qed.

(** A measurement that goes to the instance of sensor [nid]. *)
Definition measures (nid : Z) (row : sd_row) : Prop :=
  sd_nameId (sd row) = nid /\ strcmp_eq (sd_type row) TYPE_STR_INSIGHT_P = true /\
  ~ In (sd_dataType (sd row)) [1; 3; 4].

(** The steps of everything but the sensor and the timer of instance [i]. *)
Inductive foreign (nid : Z) (i : nat) : sd_cache -> sd_cache -> Prop :=
  | foreign_insert ws timers req s s' : sd_insert sd_bytes ws timers req s = SdRun s' ->
      ~ measures nid (sd_convert req) -> foreign nid i s s'
  | foreign_timer_p j s : j <> i -> foreign nid i s (timer_p sd_bytes j s)
  | foreign_timer_t s : foreign nid i s (timer_t sd_bytes s)
  | foreign_other st w s : sql_step item_bytes (sql s) st -> foreign nid i s (set_w_flag w (set_sql st s)).

Lemma sd_insert_frame ws timers req s s' i g : sd_insert sd_bytes ws timers req s = SdRun s' ->
  g_sd_instance s !! i = Some g -> sd_valid_flag g = true -> ~ measures (sd_nameid g) (sd_convert req) ->
  g_sd_instance s' !! i = Some g.
Proof.
  intros E Ei Hv Hm. unfold sd_insert in E. destruct (negb _); [by injection E as <-|]. cbv zeta in E.
  set (row := sd_convert req) in *. destruct ws as [[w0 w1] w2].
  destruct (_ || _) eqn:Ed; [by injection E as <-|]. destruct (find_channel _ _) as [c|]; [|by injection E as <-].
  unfold insert_piece in E. destruct (strcmp_eq (sd_type row) TYPE_STR_INSIGHT_P) eqn:Et.
  - destruct (insert_p _ _ _ _ _) as [s1| |] eqn:E1; [|done|done].
    assert (sd_nameid g <> sd_nameId (sd row)) as Hne.
    { intros Hn. apply Hm. split; [done|]. split; [done|]. cbn [In]. lia. }
    apply (insert_p_frame _ _ _ _ _ i g) in E1 as (Ei1 & Hf & Ht); [|done|done|done].
    by apply (retry_p_frame _ _ _ _ _ _ E).
  - clear Et Hm. destruct (strcmp_eq _ _).
    + apply retry_t_instances in E; [|done]. by rewrite E.
    + destruct (insert_t _ _ _ _ _) as [s1| |] eqn:E1; [|done|done].
      apply insert_t_instances in E1 as [Ei1 Ht]. apply retry_t_instances in E; [|by rewrite Ht]. by rewrite E, Ei1.
Qed.

Lemma timer_p_other j i s : j <> i -> g_sd_instance (timer_p sd_bytes j s) !! i = g_sd_instance s !! i.
Proof.
  intros Hne. unfold timer_p. cbv zeta. destruct (negb _); [done|].
  destruct (_ && _); by rewrite set_instance_other.
Qed.

Lemma foreign_frame nid i s s' g : foreign nid i s s' -> g_sd_instance s !! i = Some g ->
  sd_valid_flag g = true -> sd_nameid g = nid -> g_sd_instance s' !! i = Some g.
Proof.
  intros Hs Ei Hv Hn. destruct Hs as [ws timers req s s' E Hm|j s Hne|s|st w s _].
  - apply (sd_insert_frame _ _ _ _ _ _ _ E); [done|done|by rewrite Hn].
  - by rewrite timer_p_other.
  - unfold timer_t. cbv zeta. by destruct (_ && _).
  - done.
Qed.
End frame.

(** ** An example *)

(** A layout of a row: the fields one after the other, 84 bytes. *)
Definition c_sd_bytes (row : sd_row) : list Z :=
  take 1024 (bytes32 (sd_nameId (sd row)) ++ [sd_product (sd row); sd_dataType (sd row)] ++
    bytes64 (sd_sampleTime (sd row)) ++ sd_value (sd row)).

Lemma c_sd_length row : (length (c_sd_bytes row) <= 1024)%nat.
Proof. unfold c_sd_bytes. rewrite length_take. lia. Qed.

(** A measurement as the request has it, the number 1.0. *)
Definition measurement (nid : Z) (ty : list Z) (dt time : Z) : list gw_pro_data_t :=
  [Datum 2 (bytes32 nid); Datum 5 ty; Datum 8 (bytes64 time); Datum 11 [dt];
   Datum 12 [68; 105; 103; 105; 116]; Datum 21 [0; 0; 128; 63]].

(** The process after a start with sensor 5 in channel 3 and sensor 6 in channel 1. *)
Definition two_sensors (sh : list Z) : sql_state :=
  sql_start no_bytes (Some ext_gateway) [Some (stored_row 5 3); Some (stored_row 6 1)] sh.

Lemma two_sensors_eq sh :
  two_sensors sh = sql_start no_bytes (Some ext_gateway) [Some (stored_row 5 3); Some (stored_row 6 1)] sh.
Proof. reflexivity. Qed.

Lemma two_sensors_inv sh : ext_inv (two_sensors sh).
Proof. apply start_inv; [done|done|done|]. by apply (bool_decide_eq_true_1 (NoDup [5; 6])); vm_compute. Qed.

Lemma put_nil i l : put i [] l = l.
Proof. unfold put. cbn [length app]. by rewrite Nat.add_0_r, take_drop. Qed.

Lemma clean_shm_ok l : shm_ok l -> shm_ok (clean_shm l).
Proof.
  intros Hl. unfold clean_shm. destruct (strcmp_eq _ _); [done|]. unfold shm_ok in *.
  change APP_SHM_TOTAL_SIZE with 1191936 in *. rewrite length_put, length_replicate; [done|done|].
  rewrite length_replicate. change (APP_SHM_MAGIC_DATA_OFFSET + Z.of_nat (length APP_SHM_MAGIC_DATA)) with 1189898. lia.
Qed.

Lemma two_sensors_shm : shm_ok (shm (two_sensors c_shm)).
Proof.
  change (shm (two_sensors c_shm)) with (put (dev_item_at 1) [] (put (dev_item_at 3) [] (put 0 [] (clean_shm c_shm)))).
  rewrite !put_nil. apply clean_shm_ok, c_shm_ok.
Qed.

(** The deletion of a device that is not there. *)
Lemma delete_unknown sh : dev_delete (true, true, true) 9 (two_sensors sh) = two_sensors sh.
Proof. reflexivity. Qed.

Definition after_delete : sd_cache :=
  set_w_flag true (set_sql (dev_delete (true, true, true) 9 (two_sensors c_shm)) (empty_cache (two_sensors c_shm))).

Lemma after_delete_reached :
  rtc (sd_step c_sd_bytes no_bytes)
    (empty_cache (sql_start no_bytes (Some ext_gateway) [Some (stored_row 5 3); Some (stored_row 6 1)] c_shm)) after_delete /\
  shm_ok (shm (sql after_delete)).
Proof.
  rewrite <- two_sensors_eq.
  split.
  - eapply rtc_l; [apply sd_step_other, (step_delete no_bytes (true, true, true) 9)|apply rtc_refl].
  - change (shm_ok (shm (dev_delete (true, true, true) 9 (two_sensors c_shm)))). rewrite delete_unknown. apply two_sensors_shm.
Qed.

Lemma two_ids : NoDup (row_ids [Some (stored_row 5 3); Some (stored_row 6 1)]).
Proof. by apply (bool_decide_eq_true_1 (NoDup [5; 6])); vm_compute. Qed.

Lemma ext_gateway_ok : gr_nameId ext_gateway <> 0 /\ gr_baudrateSlave ext_gateway <> 0.
Proof. done. Qed.

Lemma measurements_stay_in_place_witness :
  outside_equal (shm (sql after_delete)) (shm (sql (timer_t c_sd_bytes after_delete))).
Proof.
  destruct after_delete_reached as [Hr Hl]. destruct ext_gateway_ok as [Hn Hb].
  destruct (measurements_stay_in_place c_sd_bytes no_bytes c_sd_length ext_gateway
    [Some (stored_row 5 3); Some (stored_row 6 1)] c_shm after_delete Hn Hb eq_refl two_ids Hr Hl) as (_ & _ & H).
  exact H.
Defined.
