(* ===== verification/SensorSets.v ===== *)
(** * SensorSets: what becomes of a set of measurements

    The measurements of one Predict sensor between the first and the timer or
    the 25th, with those of other sensors, the other timers and the other requests
    in between ([SensorCache]): what the set is in the shared memory, and what
    the slave loads there ([RegTable]). And the sets that are lost or written
    into the wrong channel. *)

From S2P Require Import Prelude Crc16 Machine Libmodbus SlaveState Layout SlaveMapping SlaveConfig RegTable System Channels SharedTable SensorCache.
From Stdlib Require Import ZArith Lia ZifyBool List Bool.
From stdpp Require Import base list numbers option relations.
Open Scope Z_scope.

(** ** Collecting a set *)

(** The index of a measurement's type. *)
Definition idx_of (row : sd_row) : Z := nth (Z.to_nat (sd_dataType (sd row))) shm_sd_measType_to_idx 0.

(** The buffer and the bitmap of the measurements [ps], in their order, when [f]
    is the index of each; and the last measurement of index [j], the zeros of the
    buffer when there is none. *)
Definition rows_by (f : sd_row -> Z) (ps : list sd_row) : list sd_row :=
  fold_left (fun buf p => <[Z.to_nat (f p) := p]> buf) ps (replicate 27 zero_sd).
Definition bits_by (t : sensorType_t) (f : sd_row -> Z) (ps : list sd_row) : Z :=
  fold_left (fun bm p => shm_set_sd_bit_map t bm (f p)) ps 0.
Definition last_by (f : sd_row -> Z) (j : Z) (ps : list sd_row) : sd_row :=
  default zero_sd (find (fun p => f p =? j) (rev ps)).

Lemma rows_by_snoc f ps p : rows_by f (ps ++ [p]) = <[Z.to_nat (f p) := p]> (rows_by f ps).
Proof. unfold rows_by. by rewrite fold_left_app. Qed.

Lemma bits_by_snoc t f ps p : bits_by t f (ps ++ [p]) = shm_set_sd_bit_map t (bits_by t f ps) (f p).
Proof. unfold bits_by. by rewrite fold_left_app. Qed.

Lemma length_rows_by f ps : length (rows_by f ps) = 27%nat.
Proof. induction ps as [|p ps IH] using rev_ind; [done|]. by rewrite rows_by_snoc, length_insert. Qed.

Lemma last_by_snoc f j ps p : last_by f j (ps ++ [p]) = if f p =? j then p else last_by f j ps.
Proof. unfold last_by. rewrite rev_unit. cbn [find]. by destruct (f p =? j). Qed.

Lemma nth_rows_by f ps j : Forall (fun p => 0 <= f p) ps -> (j < 27)%nat ->
  nth j (rows_by f ps) zero_sd = last_by f (Z.of_nat j) ps.
Proof.
  intros Hps Hj. induction ps as [|p ps IH] using rev_ind.
  { unfold rows_by. cbn [fold_left]. apply (nth_lookup_Some _ _ _ zero_sd). by apply lookup_replicate_2. }
  apply Forall_app in Hps as [Hps Hp]. rewrite Forall_singleton in Hp. rename Hp into Hr.
  rewrite rows_by_snoc, last_by_snoc. specialize (IH Hps).
  destruct (lookup_lt_is_Some_2 (rows_by f ps) j) as [x Ex]; [rewrite length_rows_by; lia|].
  destruct (Z.eqb_spec (f p) (Z.of_nat j)) as [E|Hne].
  - apply nth_lookup_Some. rewrite E, Nat2Z.id. apply list_lookup_insert_eq. rewrite length_rows_by. lia.
  - rewrite <- IH, (nth_lookup_Some _ _ _ _ Ex). apply nth_lookup_Some. by rewrite list_lookup_insert_ne by lia.
Qed.

(** The number of bits of a sensor's bitmap. *)
Definition bit_count (t : sensorType_t) : Z := match t with MODBUS_SENSOR_TYPE_T => 5 | _ => 27 end.

Lemma testbit_set_bit t bm idx k : 0 <= idx < bit_count t -> 0 <= k ->
  Z.testbit (shm_set_sd_bit_map t bm idx) k = Z.testbit bm k || (idx =? k).
Proof.
  intros Hi Hk. unfold shm_set_sd_bit_map, APP_SHM_SENSORDATA_TABLE_PIECE_MAX_ITS,
    APP_SHM_SENSORDATA_TABLE_PIECE_MAX_PRS, APP_SHM_SENSORDATA_TABLE_PIECE_MAX_PRO.
  rewrite (proj2 (Z.leb_gt _ idx)) by (destruct t; cbn [bit_count] in Hi; lia).
  rewrite Z.lor_spec, Z.shiftl_1_l, Z.pow2_bits_eqb by lia. done.
Qed.

Lemma testbit_bits_by t f ps k : Forall (fun p => 0 <= f p < bit_count t) ps -> 0 <= k ->
  Z.testbit (bits_by t f ps) k = existsb (fun p => f p =? k) ps.
Proof.
  intros Hps Hk. induction ps as [|p ps IH] using rev_ind; [apply Z.testbit_0_l|].
  apply Forall_app in Hps as [Hps Hp]. rewrite Forall_singleton in Hp. rename Hp into Hr.
  rewrite bits_by_snoc, testbit_set_bit by done. rewrite IH by done. rewrite existsb_app. cbn [existsb].
  by rewrite orb_false_r.
Qed.

(** Those of a Predict sensor. *)
Definition set_rows : list sd_row -> list sd_row := rows_by idx_of.
Definition set_bits : list sd_row -> Z := bits_by MODBUS_SENSOR_TYPE_P idx_of.
Definition last_piece : Z -> list sd_row -> sd_row := last_by idx_of.

Definition in_types (row : sd_row) : Prop := 0 <= sd_dataType (sd row) < 64.

Lemma idx_of_lookup row : in_types row ->
  shm_sd_measType_to_idx !! Z.to_nat (sd_dataType (sd row)) = Some (idx_of row) /\ 0 <= idx_of row <= 26.
Proof.
  intros H. destruct (types_in_table _ H) as (idx & E & Hr). unfold idx_of. by rewrite (nth_lookup_Some _ _ _ _ E).
Qed.

Lemma indices_ok ps : Forall in_types ps -> Forall (fun p => 0 <= idx_of p < bit_count MODBUS_SENSOR_TYPE_P) ps.
Proof. intros H. apply (Forall_impl _ _ _ H). intros p Hp. apply idx_of_lookup in Hp as [_ Hr]. cbn [bit_count]. lia. Qed.

Lemma nth_set_rows ps j : Forall in_types ps -> (j < 27)%nat ->
  nth j (set_rows ps) zero_sd = last_piece (Z.of_nat j) ps.
Proof. intros H%indices_ok Hj. apply nth_rows_by; [|done]. apply (Forall_impl _ _ _ H). intros p. lia. Qed.

Lemma testbit_set_bits ps k : Forall in_types ps -> 0 <= k ->
  Z.testbit (set_bits ps) k = existsb (fun p => idx_of p =? k) ps.
Proof. intros H%indices_ok Hk. by apply testbit_bits_by. Qed.

(** The bits that are written: one per measurement of the set; 25, the last
    vibration sensing time, when there is a vibration measurement with a time and a value;
    26, the last temperature sensing time, when there is a temperature with a time, or
    a measurement that is not cared for. *)
Definition written_bit (ps : list sd_row) (k : Z) : bool :=
  existsb (fun p => idx_of p =? k) ps ||
  (k =? 26) && negb (sd_sampleTime (sd (last_piece 6 ps)) =? 0) ||
  (k =? 25) && existsb (fun j => negb (sd_sampleTime (sd (last_piece (Z.of_nat j) ps)) =? 0) &&
                           negb (le32 (sd_value (sd (last_piece (Z.of_nat j) ps))) =? CONFIG_FLOAT_NA)) (seq 11 13).

Definition set_of (nid c : Z) (timer : bool) (ps : list sd_row) : appShmSensorDataInstance_t :=
  Instance_ nid true c (Z.of_nat (length ps)) 25 MODBUS_SENSOR_TYPE_P timer (set_rows ps) (set_bits ps).

Lemma existsb_eq {A} (p q : A -> bool) l : (forall x, In x l -> p x = q x) -> existsb p l = existsb q l.
Proof.
  induction l as [|x l IH]; intros H; [done|]. cbn [existsb]. rewrite IH, (H x); [done|by left|].
  intros y Hy. apply H. by right.
Qed.

Lemma closed_bits nid c t ps k : Forall in_types ps -> 0 <= k ->
  Z.testbit (sd_bit_map (close_instance (set_of nid c t ps))) k = written_bit ps k.
Proof.
  intros Hps Hk. unfold written_bit. rewrite <- (testbit_set_bits ps k) by done.
  change (sd_bit_map (close_instance _)) with (shm_update_sd_bit_map MODBUS_SENSOR_TYPE_P (set_of nid c t ps)).
  unfold shm_update_sd_bit_map. cbv zeta. cbn [set_of sd_valid_flag sd_sensor_type sd_data_buf sd_bit_map].
  rewrite bool_decide_false by done. cbn [negb andb]. rewrite (nth_set_rows ps 6) by (done || lia).
  change (Z.of_nat 6) with 6.
  rewrite (existsb_eq _ (fun j => negb (sd_sampleTime (sd (last_piece (Z.of_nat j) ps)) =? 0) &&
    negb (le32 (sd_value (sd (last_piece (Z.of_nat j) ps))) =? CONFIG_FLOAT_NA)) (seq 11 13)).
  2: { intros j Hj%in_seq. by rewrite nth_set_rows by (done || lia). }
  destruct (existsb _ (seq 11 13)), (negb (sd_sampleTime _ =? 0));
    rewrite ?testbit_set_bit by done;
    unfold SHM_SD_IDX_LAST_VIB_SENSING_TIME, SHM_SD_IDX_LAST_TEMP_SENSING_TIME; destruct (Z.testbit _ _); cbn [orb andb];
    try done; lia.
Qed.

(** ** The slots of a channel *)

Section slots.
Context (sd_bytes : sd_row -> list Z).
Context (Hbytes : forall row, (length (sd_bytes row) <= 1024)%nat).

Lemma piece_range c j : 1 <= c <= 40 -> 0 <= j < 28 ->
  0 <= piece_at c j /\ piece_at c j + 1024 <= APP_SHM_TOTAL_SIZE.
Proof.
  intros Hc Hj. unfold piece_at. change APP_SHM_SENSORDATA_TABLE_ADDR_OFFSET with 43008.
  change APP_SHM_SENSORDATA_TABLE_ITEM_SIZE with 28672. change APP_SHM_SENSORDATA_TABLE_PIECE_SIZE with 1024.
  change APP_SHM_TOTAL_SIZE with 1191936. lia.
Qed.

Lemma piece_next c j k : j < k -> piece_at c j + 1024 <= piece_at c k.
Proof. intros H. unfold piece_at. change APP_SHM_SENSORDATA_TABLE_PIECE_SIZE with 1024. lia. Qed.

(** A piece in slot [k] and the slot [j]. *)
Lemma slot_put c j k n bytes l : 1 <= c <= 40 -> 0 <= j < 28 -> 0 <= k < 28 -> (length bytes <= 1024)%nat ->
  0 <= n <= 1024 -> shm_ok l -> j <> k -> slice (put (piece_at c k) bytes l) (piece_at c j) n = slice l (piece_at c j) n.
Proof.
  intros Hc Hj Hk Hb Hn Hl Hne. unfold shm_ok in Hl.
  pose proof (piece_range c j Hc Hj). pose proof (piece_range c k Hc Hk).
  destruct (decide (j < k)) as [Hlt|Hge].
  - pose proof (piece_next c j k Hlt). apply slice_put_before; lia.
  - pose proof (piece_next c k j ltac:(lia)). apply slice_put_behind; lia.
Qed.

Lemma rows_slot buf c n l j : 1 <= c <= 40 -> (n <= 27)%nat -> shm_ok l -> (j < n)%nat ->
  exists rest, slice (fold_left (fun s j => put (piece_at c (Z.of_nat j)) (sd_bytes (nth j buf zero_sd)) s) (seq 0 n) l)
    (piece_at c (Z.of_nat j)) 1024 = sd_bytes (nth j buf zero_sd) ++ rest.
Proof.
  intros Hc Hn Hl Hj. induction n as [|n IH]; [lia|]. rewrite seq_S, fold_left_app. cbn [fold_left Nat.add].
  set (l' := fold_left _ _ _) in *.
  assert (shm_ok l') as Hl'.
  { apply (outside_shm_ok l); [|done]. apply rows_outside; [done|done| |done].
    apply list.Forall_forall. intros x Hx%list_elem_of_In. apply in_seq in Hx. lia. }
  pose proof (Hbytes (nth n buf zero_sd)) as Hb. destruct (decide (j = n)) as [->|Hne].
  - pose proof (piece_range c (Z.of_nat n) Hc ltac:(lia)). unfold shm_ok in Hl'.
    apply slice_put_here; lia.
  - rewrite slot_put by (done || lia). apply IH; lia.
Qed.

Lemma flush_slots n buf bm c l : 1 <= c <= 40 -> 0 <= n <= 27 -> shm_ok l ->
  (forall j, 0 <= j < n -> exists rest,
     slice (flush sd_bytes n c buf bm l) (piece_at c j) 1024 = sd_bytes (nth (Z.to_nat j) buf zero_sd) ++ rest) /\
  slice (flush sd_bytes n c buf bm l) (piece_at c 27) 8 = bytes64 bm.
Proof.
  intros Hc Hn Hl. unfold flush. set (l' := fold_left _ _ _).
  assert (shm_ok l') as Hl'.
  { apply (outside_shm_ok l); [|done]. apply rows_outside; [done|done| |done].
    apply list.Forall_forall. intros x Hx%list_elem_of_In. apply in_seq in Hx. lia. }
  change (PIECE_MAX - 1) with 27. pose proof (length_bytes64 bm) as Hb. split.
  - intros j Hj. rewrite slot_put by (done || lia).
    destruct (rows_slot buf c (Z.to_nat n) l (Z.to_nat j)) as [rest E]; [done|lia|done|lia|].
    exists rest. rewrite Z2Nat.id in E by lia. exact E.
  - pose proof (piece_range c 27 Hc ltac:(lia)). unfold shm_ok in Hl'.
    destruct (slice_put_here (piece_at c 27) (bytes64 bm) l' 8) as [rest E]; [lia|lia|lia|].
    rewrite E. assert (length (slice (put (piece_at c 27) (bytes64 bm) l') (piece_at c 27) 8) <= 8)%nat as Hlen
      by (unfold slice; rewrite length_take; lia).
    rewrite E, length_app, Hb in Hlen. destruct rest; [by rewrite app_nil_r|cbn in Hlen; lia].
Qed.

(** The set [ps] in the slots of channel [c]. *)
Definition set_written (c : Z) (ps : list sd_row) (shm : list Z) : Prop :=
  (forall j, 0 <= j < 25 -> exists rest, slice shm (piece_at c j) 1024 = sd_bytes (last_piece j ps) ++ rest) /\
  exists bm, slice shm (piece_at c 27) 8 = bytes64 bm /\ forall k, 0 <= k -> Z.testbit bm k = written_bit ps k.

Lemma set_flushed nid c t ps l : 1 <= c <= 40 -> Forall in_types ps -> shm_ok l ->
  set_written c ps (flush_instance sd_bytes (close_instance (set_of nid c t ps)) l).
Proof.
  intros Hc Hps Hl. unfold flush_instance.
  change (sd_piece_max (close_instance (set_of nid c t ps))) with 25.
  change (sd_chn_idx (close_instance (set_of nid c t ps))) with c.
  change (sd_data_buf (close_instance (set_of nid c t ps))) with (set_rows ps).
  destruct (flush_slots 25 (set_rows ps) (sd_bit_map (close_instance (set_of nid c t ps))) c l) as [Hrows Hbits];
    [done|lia|done|]. split.
  - intros j Hj. destruct (Hrows j Hj) as [rest E]. exists rest. rewrite E, nth_set_rows by (done || lia).
    by rewrite Z2Nat.id by lia.
  - eexists. split; [exact Hbits|]. intros k Hk. by apply closed_bits.
Qed.
End slots.

(** ** One more measurement of a set *)

Section collecting.
Context (sd_bytes : sd_row -> list Z) (item_bytes : dev_item -> list Z).
Context (Hbytes : forall row, (length (sd_bytes row) <= 1024)%nat).
(** The sensor, its channel and its instance. *)
Context (nid c : Z) (i : nat).

(** A measurement of the sensor, which has its channel. *)
Definition of_sensor (req : list gw_pro_data_t) (s : sd_cache) : Prop :=
  measures nid (sd_convert req) /\ in_types (sd_convert req) /\ find_channel nid (sql s) = Some c.

(** No instance of the sensor in the channel; [i] is the first free one. *)
Definition unseen (s : sd_cache) : Prop :=
  (forall j g, g_sd_instance s !! j = Some g -> sd_valid_flag g = true -> sd_nameid g = nid -> sd_chn_idx g <> c) /\
  g_sd_instance s !! i = Some zero_instance /\
  forall j, (j < i)%nat -> g_sd_instance s !! j <> Some zero_instance.

(** The measurements of the set so far, with any steps of the others in between. *)
Inductive collecting : list sd_row -> sd_cache -> Prop :=
  | collect_first ws req s s' : cache_ok s -> of_sensor req s -> unseen s ->
      sd_insert sd_bytes ws true req s = SdRun s' -> collecting [sd_convert req] s'
  | collect_next ws timers req ps s s' : collecting ps s -> (length ps < 24)%nat -> of_sensor req s ->
      sd_insert sd_bytes ws timers req s = SdRun s' -> collecting (ps ++ [sd_convert req]) s'
  | collect_other ps s s' : collecting ps s -> foreign sd_bytes item_bytes nid i s s' -> collecting ps s'.

(** What [sd_insert] comes to for a measurement of the sensor. *)
Definition piece_state (s : sd_cache) : sd_cache :=
  set_g_sensor_type_u8 MODBUS_SENSOR_TYPE_P
    (set_g_sensor_data_piece_max APP_SHM_SENSORDATA_TABLE_PIECE_MAX_PRS
      (set_g_current_ch_idx c (set_g_former_ch_idx (g_current_ch_idx s) s))).

Lemma sd_insert_eq w0 w1 w2 timers req s : cache_ok s -> of_sensor req s ->
  sd_insert sd_bytes (w0, w1, w2) timers req s =
  match insert_p sd_bytes w0 timers (sd_convert req) (piece_state s) with
  | SdRun s => retry sd_bytes (w1 || w2) (sd_convert req) s
  | SdExit => SdExit
  | SdUndefined => SdUndefined
  end.
Proof.
  intros (_ & He & _) ((Hn & Ht & Hd) & _ & Hc). unfold sd_insert. rewrite (proj1 He). cbn [negb]. cbv zeta.
  cbn [In] in Hd. destruct (_ || _) eqn:E; [exfalso; apply Hd; lia|]. rewrite Hn, Hc. unfold insert_piece.
  by rewrite Ht.
Qed.

Lemma store_next t ps row : in_types row -> (length ps < 255)%nat ->
  store_piece row (set_of nid c t ps) = Some (set_of nid c t (ps ++ [row])).
Proof.
  intros Hr Hl. destruct (idx_of_lookup row Hr) as [E _]. unfold store_piece, set_of. rewrite E.
  unfold set_rows, set_bits. rewrite rows_by_snoc, bits_by_snoc, length_app. cbn [length]. rewrite u8_id by (unfold is_u8; lia).
  do 3 f_equal. lia.
Qed.

Lemma piece_state_ok req s : cache_ok s -> of_sensor req s -> cache_ok (piece_state s).
Proof.
  intros (Hi & He & Hc & Hcur & Hb) (_ & _ & Hch). pose proof (find_channel_range _ _ _ He Hch).
  split; [exact Hi|]. split; [exact He|]. split; [exact Hc|]. by split.
Qed.

(** A measurement of a set with [ps] before it. *)
Lemma insert_known_eq w0 timers req t ps s : cache_ok s -> of_sensor req s -> (length ps < 255)%nat ->
  g_sd_instance s !! i = Some (set_of nid c t ps) ->
  insert_p sd_bytes w0 timers (sd_convert req) (piece_state s) =
  let g := set_of nid c t (ps ++ [sd_convert req]) in
  let s1 := set_g_sd_idx i (piece_state s) in
  if 25 <=? sd_piece_cnt g then
    if w0 then SdRun (set_instance i zero_instance (set_w_flag true (write_shm (flush_instance sd_bytes (close_instance g)) s1)))
    else SdRun (set_instance i (close_instance g) s1)
  else SdRun (set_w_flag true (set_instance i g s1)).
Proof.
  intros Hok ((Hn & _ & _) & Hty & _) Hl Ei. pose proof Hok as ((Hlen & _ & _ & Hu) & _).
  pose proof (lookup_lt_Some _ _ _ Ei) as Hlt. unfold insert_p. cbv zeta.
  rewrite (first_at_only _ 8 0 _ i (set_of nid c t ps)); [|change (0 + 8 <= length (g_sd_instance s))%nat; lia|lia|exact Ei| |].
  - change (g_sd_instance (piece_state s)) with (g_sd_instance s). rewrite (instance_at s i _ Ei).
    rewrite store_next by done. reflexivity.
  - rewrite Hn. cbn. by rewrite !Z.eqb_refl.
  - intros j x Hj Ej Hp. symmetry. apply (Hu i j (set_of nid c t ps) x Ei Ej).
    rewrite Hn in Hp. change (g_current_ch_idx (piece_state s)) with c in Hp. unfold same_sensor. cbn [set_of sd_valid_flag sd_nameid sd_chn_idx].
    lia.
Qed.

(** The first measurement. *)
Lemma insert_first_eq w0 req s : cache_ok s -> of_sensor req s -> unseen s ->
  insert_p sd_bytes w0 true (sd_convert req) (piece_state s) =
  SdRun (set_w_flag true (set_instance i (set_of nid c true [sd_convert req]) (set_g_sd_idx i (piece_state s)))).
Proof.
  intros Hok ((Hn & _ & _) & Hty & _) (Hun & Ez & Hfirst). pose proof Hok as ((Hlen & Hf & _) & _).
  pose proof (lookup_lt_Some _ _ _ Ez) as Hlt. unfold insert_p. cbv zeta. rewrite Hn.
  change (g_sd_instance (piece_state s)) with (g_sd_instance s). change (g_current_ch_idx (piece_state s)) with c.
  destruct (first_at _ CONFIG_SHM_SENSOR_DATA_MAX_NUM 0 (g_sd_instance s)) as [j|] eqn:E1.
  { apply first_at_some in E1 as (_ & (x & Ex & Hp) & _). exfalso.
    apply (Hun j x Ex); destruct (sd_valid_flag x); cbn [andb] in Hp; (done || lia). }
  destruct (first_at (fun g => negb (sd_valid_flag g) && _ && _) _ _ _) as [j|] eqn:E2.
  - apply first_at_some in E2 as (Hj & (x & Ex & Hp) & Hbefore). assert (j = i) as ->.
    { assert (x = zero_instance) as ->.
      { destruct (Forall_lookup_1 _ _ _ _ Hf Ex) as [?|(Hv & _)]; [done|]. by rewrite Hv in Hp. }
      destruct (decide (j < i)%nat) as [Hji|Hge]; [by apply Hfirst in Hji|].
      destruct (decide (j = i)) as [|Hne]; [done|]. 
      pose proof (Hbefore i zero_instance ltac:(lia) Ez) as Hb. by cbn in Hb. }
    rewrite (instance_at s i _ Ez). cbn [negb sd_data_buf sd_bit_map zero_instance].
    change (Instance_ nid true c 0 _ _ true _ 0) with (set_of nid c true []).
    by rewrite store_next by (done || (cbn; lia)).
  - exfalso. assert (0 + 8 <= length (g_sd_instance s))%nat as Hl8 by lia.
    pose proof (first_at_none _ 8 0 _ Hl8 E2 i zero_instance ltac:(lia) Ez) as Hp. by cbn in Hp.
Qed.

(** The instance holds the set. *)
Lemma collecting_set ps s : collecting ps s ->
  cache_ok s /\ 1 <= c <= 40 /\ (1 <= length ps <= 24)%nat /\ Forall in_types ps /\
  g_sd_instance s !! i = Some (set_of nid c true ps).
Proof.
  induction 1 as [ws req s s' Hok Hof Hun E|ws timers req ps s s' H IH Hlt Hof E|ps s s' H IH Hf].
  - pose proof (sd_insert_safe sd_bytes Hbytes ws true req s Hok) as Hs. destruct ws as [[w0 w1] w2].
    pose proof (insert_first_eq w0 req s Hok Hof Hun) as E1. rewrite sd_insert_eq, E1 in E by done.
    pose proof Hof as (_ & Hty & Hc). rewrite sd_insert_eq, E1 in Hs by done.
    unfold retry in E, Hs. cbn [set_w_flag w_flag] in E, Hs. injection E as <-.
    destruct Hs as [[|[? _]]|(s'' & [= <-] & Hok' & _)]; [done|done|].
    split; [done|]. split; [by apply (find_channel_range nid (sql s)); [apply Hok|]|]. split; [cbn; lia|].
    split; [by apply Forall_singleton|]. apply list_lookup_insert_eq.
    pose proof Hun as (_ & Ez & _). by apply lookup_lt_Some in Ez.
  - destruct IH as (Hok & Hc & Hl & Hps & Ei).
    pose proof (sd_insert_safe sd_bytes Hbytes ws timers req s Hok) as Hs. destruct ws as [[w0 w1] w2].
    pose proof (insert_known_eq w0 timers req true ps s Hok Hof ltac:(lia) Ei) as E1. cbv zeta in E1.
    assert ((25 <=? sd_piece_cnt (set_of nid c true (ps ++ [sd_convert req]))) = false) as Hcnt
      by (cbn [set_of sd_piece_cnt]; rewrite length_app; cbn [length]; lia).
    rewrite Hcnt in E1. rewrite sd_insert_eq, E1 in E, Hs by done.
    unfold retry in E, Hs. cbn [set_w_flag w_flag] in E, Hs. injection E as <-.
    destruct Hs as [[|[? _]]|(s'' & [= <-] & Hok' & _)]; [done|done|].
    split; [done|]. split; [done|]. split; [rewrite length_app; cbn; lia|].
    split; [apply Forall_app; split; [done|apply Forall_singleton, Hof]|]. apply list_lookup_insert_eq.
    by apply lookup_lt_Some in Ei.
  - destruct IH as (Hok & Hc & Hl & Hps & Ei). split.
    + destruct Hf as [ws timers req s s' E _|j s _|s|st w s Hs].
      * destruct (sd_insert_safe sd_bytes Hbytes ws timers req s Hok) as [[E'|[E' _]]|(s3 & E' & Hk & _)];
          rewrite E in E'; [done|done|]. by injection E' as ->.
      * by apply (timer_p_keeps sd_bytes Hbytes).
      * by apply (timer_t_keeps sd_bytes Hbytes).
      * destruct Hok as (Hi & He & Hrest). split; [exact Hi|].
        split; [by apply (sql_step_inv item_bytes (sql s))|exact Hrest].
    + split; [done|]. split; [done|]. split; [done|]. by apply (foreign_frame sd_bytes item_bytes nid i s).
Qed.

(** The timer of the instance. *)
Lemma timer_collected ps s : collecting ps s ->
  timer_p sd_bytes i s =
  set_instance i zero_instance (write_shm (flush_instance sd_bytes (close_instance (set_of nid c true ps))) s).
Proof.
  intros (Hok & Hc & Hl & Hps & Ei)%collecting_set. unfold timer_p. rewrite (instance_at s i _ Ei). cbv zeta.
  change (negb _) with false at 1. cbv iota.
  change (sd_piece_cnt (close_instance _)) with (Z.of_nat (length ps)).
  unfold APP_SHM_SENSORDATA_TABLE_PIECE_MAX_PRS.
  rewrite (proj2 (Z.ltb_lt _ _)), (proj2 (Z.leb_le _ _)) by lia. done.
Qed.

(** The 25th measurement. *)
Lemma full_set_eq w0 w1 w2 timers req ps s : collecting ps s -> length ps = 24%nat -> of_sensor req s ->
  let g := close_instance (set_of nid c true (ps ++ [sd_convert req])) in
  let s1 := set_g_sd_idx i (piece_state s) in
  sd_insert sd_bytes (w0, w1, w2) timers req s =
  if w0 then SdRun (set_instance i zero_instance (set_w_flag true (write_shm (flush_instance sd_bytes g) s1)))
  else retry sd_bytes (w1 || w2) (sd_convert req) (set_instance i g s1).
Proof.
  intros (Hok & Hc & Hl & Hps & Ei)%collecting_set Hn Hof. cbv zeta. rewrite sd_insert_eq by done.
  rewrite (insert_known_eq w0 timers req true ps s Hok Hof) by (done || lia). cbv zeta.
  cbn [set_of sd_piece_cnt]. rewrite length_app, Hn. change (25 <=? Z.of_nat (24 + length [sd_convert req])) with true. cbv iota.
  destruct w0; done.
Qed.

(** C14: The set of a Predict sensor is written into the channel of the sensor.
    Up to 24 measurements are collected, with any steps of other sensors, timers
    and requests in between; when the timer of the instance
    expires, or when the 25th comes and the semaphore is free at the first attempt - it is not written
    when it is taken ([busy_semaphore_strands_set]) -: the slot of each of the
    25 measurement types has the last measurement of that type, or zeros; the
    last slot has the bitmap, with the bits of exactly the types that came and of the
    two sensing times; and the instance is free again. *)
Theorem predict_set_written ps s : collecting ps s -> shm_ok (shm (sql s)) ->
  set_written sd_bytes c ps (shm (sql (timer_p sd_bytes i s))) /\
  g_sd_instance (timer_p sd_bytes i s) !! i = Some zero_instance /\
  forall w1 w2 timers req, length ps = 24%nat -> of_sensor req s -> exists s',
    sd_insert sd_bytes (true, w1, w2) timers req s = SdRun s' /\
    set_written sd_bytes c (ps ++ [sd_convert req]) (shm (sql s')) /\
    g_sd_instance s' !! i = Some zero_instance.
Proof.
  intros H Hl. pose proof (collecting_set ps s H) as (Hok & Hc & Hlen & Hps & Ei).
  pose proof (lookup_lt_Some _ _ _ Ei) as Hlt. rewrite (timer_collected ps s H). split; [|split].
  - exact (set_flushed sd_bytes Hbytes nid c true ps _ Hc Hps Hl).
  - by apply list_lookup_insert_eq.
  - intros w1 w2 timers req Hn Hof. rewrite (full_set_eq true) with (ps := ps) by done. eexists. split; [reflexivity|].
    split; [|by apply list_lookup_insert_eq].
    apply (set_flushed sd_bytes Hbytes nid c true); [done| |done].
    apply Forall_app. split; [done|]. apply Forall_singleton, Hof.
Qed.

(** A busy semaphore strands a complete set. When the 25th measurement of a set
    finds the semaphore taken, and the flag of the last written data is still
    set - it was set by the measurement before and is not cleared for a new
    one - the repeated attempts after the database are skipped: nothing is written,
    and the instance keeps the set without a timer, so no timer writes it either. *)
Theorem busy_semaphore_strands_set ps s w1 w2 timers req :
  collecting ps s -> length ps = 24%nat -> of_sensor req s -> w_flag s = true -> exists s',
    sd_insert sd_bytes (false, w1, w2) timers req s = SdRun s' /\
    shm (sql s') = shm (sql s) /\
    g_sd_instance s' !! i = Some (close_instance (set_of nid c true (ps ++ [sd_convert req]))) /\
    sd_timer (nth i (g_sd_instance s') zero_instance) = false.
Proof.
  intros H Hn Hof Hw. rewrite (full_set_eq false) with (ps := ps) by done.
  pose proof (collecting_set ps s H) as (_ & _ & _ & _ & Ei). pose proof (lookup_lt_Some _ _ _ Ei) as Hlt.
  set (s1 := set_instance _ _ _). assert (w_flag s1 = true) as Hw1 by exact Hw. unfold retry. rewrite Hw1.
  exists s1. split; [done|]. split; [done|].
  assert (g_sd_instance s1 !! i = Some (close_instance (set_of nid c true (ps ++ [sd_convert req])))) as E1
    by by apply list_lookup_insert_eq.
  split; [done|]. by rewrite (nth_lookup_Some _ _ _ _ E1).
Qed.

(** A measurement that is not cared for claims a temperature. The index of
    all of them is 26, which is also the bit of the last temperature sensing
    time: when one comes in a set, the bit is set in the shared memory although no
    temperature came. *)
Theorem ignored_type_sets_time_bit ps s row : collecting ps s -> shm_ok (shm (sql s)) ->
  In row ps -> idx_of row = SKIPPED -> (forall p, In p ps -> idx_of p <> 6) ->
  exists bm, slice (shm (sql (timer_p sd_bytes i s))) (piece_at c 27) 8 = bytes64 bm /\
    Z.testbit bm 6 = false /\ Z.testbit bm SHM_SD_IDX_LAST_TEMP_SENSING_TIME = true.
Proof.
  intros H Hl Hin Hrow Hno. pose proof (collecting_set ps s H) as (Hok & Hc & Hlen & Hps & Ei).
  rewrite (timer_collected ps s H).
  destruct (set_flushed sd_bytes Hbytes nid c true ps _ Hc Hps Hl) as [_ (bm & Hbm & Hbits)].
  exists bm. split; [exact Hbm|]. rewrite !Hbits by done. unfold written_bit. split.
  - cbn [Z.eqb Pos.eqb andb]. rewrite !orb_false_r. apply not_true_is_false. intros (p & Hp & E)%existsb_exists.
    apply (Hno p Hp). lia.
  - rewrite (proj2 (existsb_exists _ ps)); [done|]. exists row. split; [done|]. rewrite Hrow. done.
Qed.
End collecting.

(** ** What the slave loads *)

Section loaded.
Context (sd_bytes : sd_row -> list Z) (item_bytes : dev_item -> list Z).
Context (Hbytes : forall row, (length (sd_bytes row) <= 1024)%nat).
(** The slave's view of the structures ([RegTable]). *)
Context (sizeof_original sizeof_sensorDataTableData_t : Z) (item_sensor_data : list Z -> sensorDataTableData_t).

(** A row whose fields have their widths. *)
Definition sd_row_ok (row : sd_row) : Prop :=
  is_u32 (sd_nameId (sd row)) /\ is_u8 (sd_product (sd row)) /\ is_u8 (sd_dataType (sd row)) /\
  0 <= sd_sampleTime (sd row) < 2 ^ 64 /\ length (sd_value (sd row)) = 70%nat.

(** The slave and the database process agree on the layout of a row: it fits
    into its slot, and what the slave reads in its bytes are the fields that were written. *)
Definition same_sd_layout : Prop :=
  sizeof_original < SZ_IPC_BUF /\ 0 <= sizeof_sensorDataTableData_t <= APP_SHM_SENSORDATA_TABLE_PIECE_SIZE /\
  forall row, sd_row_ok row ->
    Z.of_nat (length (sd_bytes row)) = sizeof_sensorDataTableData_t /\ item_sensor_data (sd_bytes row) = sd row.

Lemma le_step b acc : is_u8 b -> Z.lor b (Z.shiftl acc 8) = acc * 256 + b.
Proof. intros Hb. rewrite Z.lor_comm. by apply be16_add. Qed.

Lemma le64_bytes64 n : 0 <= n < 2 ^ 64 -> le64 (bytes64 n) = n.
Proof.
  intros H. unfold le64, bytes64. cbn [map seq take fold_right].
  rewrite !le_step by (unfold is_u8; apply Z.mod_pos_bound; lia).
  cbn [Z.of_nat Pos.of_succ_nat Pos.succ]. change (2 ^ 64) with 18446744073709551616 in H.
  change (256 ^ 0) with 1. change (256 ^ 1) with 256. change (256 ^ 2) with 65536. change (256 ^ 3) with 16777216.
  change (256 ^ 4) with 4294967296. change (256 ^ 5) with 1099511627776. change (256 ^ 6) with 281474976710656.
  change (256 ^ 7) with 72057594037927936.
  Z.div_mod_to_equations; lia.
Qed.

(** The index by which the slave knows slot [j] of channel [c]. *)
Definition slave_index (c j : Z) : Z := (c - 1) * 28 + j.

Lemma slave_index_range c j : 1 <= c <= 40 -> 0 <= j < 25 -> 0 <= slave_index c j < 1120.
Proof. intros Hc Hj. unfold slave_index. lia. Qed.

Lemma slice_prefix l i n m x rest : slice l i n = x ++ rest -> Z.of_nat (length x) = m -> m <= n -> slice l i m = x.
Proof.
  intros E Hx Hm. unfold slice in *. subst m. rewrite Nat2Z.id.
  transitivity (take (length x) (x ++ rest)); [|apply take_app_length]. rewrite <- E, take_take. f_equal. lia.
Qed.

Lemma loaded_piece shm c j ps : same_sd_layout -> 1 <= c <= 40 -> 0 <= j < 25 -> Forall sd_row_ok ps ->
  set_written sd_bytes c ps shm ->
  loaded_item sizeof_original sizeof_sensorDataTableData_t item_sensor_data shm (slave_index c j) =
  ShmItem (if negb (sd_nameId (sd (last_piece j ps)) =? 0) then GW_PRO_TABLE_IDX_SENSOR_DATA_TABLE else 0)
    (sd (last_piece j ps)).
Proof.
  intros (Ho & Hz & Hlay) Hc Hj Hps [Hrows _]. destruct (Hrows j Hj) as [rest E].
  assert (sd_row_ok (last_piece j ps)) as Hrow.
  { unfold last_piece, last_by. destruct (find _ (rev ps)) as [p|] eqn:Ef; [|by vm_compute].
    apply find_some in Ef as [Hin%in_rev _]. rewrite list.Forall_forall in Hps. apply Hps. by apply list_elem_of_In. }
  destruct (Hlay _ Hrow) as [Hlen Hread]. unfold loaded_item.
  rewrite (proj2 (Z.leb_gt _ _)), (proj2 (Z.ltb_ge _ _)) by lia. cbn [orb]. cbv zeta.
  replace (APP_SHM_SENSORDATA_TABLE_ADDR_OFFSET + slave_index c j * APP_SHM_SENSORDATA_TABLE_PIECE_SIZE)
    with (piece_at c j)
    by (unfold piece_at, slave_index; change APP_SHM_SENSORDATA_TABLE_ITEM_SIZE with (28 * APP_SHM_SENSORDATA_TABLE_PIECE_SIZE); lia).
  rewrite (slice_prefix _ _ 1024 _ (sd_bytes (last_piece j ps)) rest E Hlen) by apply Hz. by rewrite Hread.
Qed.

Lemma written_bit_high ps k : Forall in_types ps -> 64 <= k -> written_bit ps k = false.
Proof.
  intros Hps Hk. unfold written_bit. rewrite (proj2 (Z.eqb_neq k 26)), (proj2 (Z.eqb_neq k 25)) by lia.
  cbn [andb]. rewrite !orb_false_r. apply not_true_is_false. intros (p & Hp & E)%existsb_exists.
  rewrite list.Forall_forall in Hps. destruct (idx_of_lookup p) as [_ Hr]; [by apply Hps, list_elem_of_In|]. lia.
Qed.

Lemma bits_range n : (forall k, 64 <= k -> Z.testbit n k = false) -> 0 <= n < 2 ^ 64.
Proof.
  intros H. assert (n = n mod 2 ^ 64) as ->; [|apply Z.mod_pos_bound; lia].
  apply Z.bits_inj'. intros k Hk. destruct (Z.lt_ge_cases k 64).
  - by rewrite Z.mod_pow2_bits_low.
  - rewrite Z.mod_pow2_bits_high by lia. by apply H.
Qed.

Lemma loaded_bits shm c j ps : 0 <= j < 25 -> Forall in_types ps -> set_written sd_bytes c ps shm ->
  forall k, 0 <= k -> Z.testbit (loaded_bitmap shm (slave_index c j)) k = written_bit ps k.
Proof.
  intros Hj Hps [_ (bm & E & Hbits)] k Hk. unfold loaded_bitmap.
  assert (slave_index c j / 28 = c - 1) as -> by (unfold slave_index; Z.div_mod_to_equations; lia).
  replace (APP_SHM_SENSORDATA_TABLE_ADDR_OFFSET + ((c - 1 + 1) * 28 - 1) * APP_SHM_SENSORDATA_TABLE_PIECE_SIZE)
    with (piece_at c 27)
    by (unfold piece_at; change APP_SHM_SENSORDATA_TABLE_ITEM_SIZE with (28 * APP_SHM_SENSORDATA_TABLE_PIECE_SIZE); lia).
  rewrite E, le64_bytes64; [by apply Hbits|]. apply bits_range. intros m Hm. rewrite Hbits by lia.
  by apply written_bit_high.
Qed.

(** C12: From the sensor to the slave. When the set of a Predict sensor in
    channel [c] has been collected and its timer expires, the slave, which reads the same
    shared memory at the indices of the channel, loads for each of the 25 types
    the last measurement that came - an empty item when none came -, and as bitmap
    the bits of the types that came and of the sensing times. *)
Theorem collected_set_loaded_by_slave nid c i ps s w j (shm' := shm (sql (timer_p sd_bytes i s))) :
  same_sd_layout -> collecting sd_bytes item_bytes nid c i ps s -> shm_ok (shm (sql s)) ->
  Forall sd_row_ok ps -> 0 <= j < 25 ->
  to_load_sdata_from_shmem_v2 sizeof_original sizeof_sensorDataTableData_t item_sensor_data CTR shm' (slave_index c j) w =
    Some (ShmItem (if negb (sd_nameId (sd (last_piece j ps)) =? 0) then GW_PRO_TABLE_IDX_SENSOR_DATA_TABLE else 0)
            (sd (last_piece j ps)), w) /\
  exists bm, to_load_sdata_bitmap_from_shmem CTR shm' (slave_index c j) w = Some (bm, w) /\
    forall k, 0 <= k -> Z.testbit bm k = written_bit ps k.
Proof.
  intros Hlay H Hl Hok Hj.
  destruct (collecting_set sd_bytes item_bytes Hbytes nid c i ps s H) as (Hcache & Hc & Hlen & Hps & Ei).
  assert (set_written sd_bytes c ps shm') as Hset
    by (unfold shm'; rewrite (timer_collected sd_bytes item_bytes Hbytes nid c i ps s H);
        exact (set_flushed sd_bytes Hbytes nid c true ps _ Hc Hps Hl)).
  assert (shm_ok shm') as Hl'.
  { apply (outside_shm_ok (shm (sql s))); [|done]. by apply (timer_p_keeps sd_bytes Hbytes). }
  pose proof (slave_index_range c j Hc Hj) as Hi. pose proof (proj1 (proj2 Hlay)) as Hz. split.
  - rewrite load_sdata_eq by (done || lia). by rewrite (loaded_piece _ c j ps).
  - exists (loaded_bitmap shm' (slave_index c j)). split; [by apply (load_bitmap_eq item_sensor_data (fun _ => AlarmNotReadable))|]. by apply loaded_bits.
Qed.
End loaded.

(** ** The Insight-T sensors *)

Section insight_t.
Context (sd_bytes : sd_row -> list Z).
Context (Hbytes : forall row, (length (sd_bytes row) <= 1024)%nat).

(** What the Insight-T sensors have in common: the buffer and its state. *)
Definition t_state (s : sd_cache) : list sd_row * Z * Z * Z * Z :=
  (g_shm_data_buf s, g_bit_map s, g_sensor_data_piece_cnt s, g_sensor_data_piece_max s, g_current_ch_idx s).

Lemma insert_p_t_state w0 timers row s s' : insert_p sd_bytes w0 timers row s = SdRun s' ->
  t_state s' = t_state s /\ g_sensor_type_u8 s' = g_sensor_type_u8 s.
Proof.
  unfold insert_p. cbv zeta. destruct (first_at _ _ _ _) as [j|].
  - destruct (store_piece _ _) as [g|]; [|done]. destruct (_ <=? _); [destruct w0|]; intros [= <-]; done.
  - destruct (first_at _ _ _ _) as [j|]; [|intros [= <-]; done]. destruct timers; [|done].
    cbn [negb]. destruct (store_piece _ _) as [g|]; [|done]. intros [= <-]. done.
Qed.

Lemma retry_p_t_state w row s s' : g_sensor_type_u8 s = MODBUS_SENSOR_TYPE_P ->
  retry sd_bytes w row s = SdRun s' -> t_state s' = t_state s.
Proof.
  intros Ht. unfold retry. destruct (w_flag s); [by intros [= <-]|]. cbv zeta.
  change (g_sensor_type_u8 (set_w_flag w s)) with (g_sensor_type_u8 s). rewrite Ht.
  destruct (_ !! g_sd_idx _) as [g|]; [|done]. by intros [= <-].
Qed.

Lemma other_channel a b j k n bytes l : a <> b -> 1 <= a <= 40 -> 1 <= b <= 40 -> 0 <= j < 28 -> 0 <= k < 28 ->
  (length bytes <= 1024)%nat -> 0 <= n <= 1024 -> shm_ok l ->
  slice (put (piece_at b k) bytes l) (piece_at a j) n = slice l (piece_at a j) n.
Proof.
  intros Hne Ha Hb Hj Hk Hby Hn Hl. unfold shm_ok in Hl.
  pose proof (piece_range a j Ha Hj). pose proof (piece_range b k Hb Hk).
  assert (forall c m, piece_at c m = 43008 + ((c - 1) * 28 + m) * 1024) as E.
  { intros c m. unfold piece_at. change APP_SHM_SENSORDATA_TABLE_ADDR_OFFSET with 43008.
    change APP_SHM_SENSORDATA_TABLE_ITEM_SIZE with 28672. change APP_SHM_SENSORDATA_TABLE_PIECE_SIZE with 1024. lia. }
  rewrite !E in *. destruct (decide (a < b)); [apply slice_put_before|apply slice_put_behind]; lia.
Qed.

Lemma rows_other_channel buf a b j n js l : a <> b -> 1 <= a <= 40 -> 1 <= b <= 40 -> 0 <= j < 28 -> 0 <= n <= 1024 ->
  Forall (fun j => (j < 28)%nat) js -> shm_ok l ->
  slice (fold_left (fun s j => put (piece_at b (Z.of_nat j)) (sd_bytes (nth j buf zero_sd)) s) js l) (piece_at a j) n =
  slice l (piece_at a j) n.
Proof.
  intros Hne Ha Hb Hj Hn Hjs. revert l. induction Hjs as [|k js Hk Hjs IH]; intros l Hl; [done|]. cbn [fold_left].
  rewrite IH by (apply (outside_shm_ok l); [apply put_piece_outside; (done || lia)|done]).
  apply other_channel; (done || lia).
Qed.

Lemma seq_small n : (n <= 28)%nat -> Forall (fun j => (j < 28)%nat) (seq 0 n).
Proof. intros Hn. apply list.Forall_forall. intros x Hx%list_elem_of_In. apply in_seq in Hx. lia. Qed.

Lemma flush_other_channel m a b buf bm l j n : a <> b -> 1 <= a <= 40 -> 1 <= b <= 40 -> 0 <= m <= 28 ->
  0 <= j < 28 -> 0 <= n <= 1024 -> shm_ok l ->
  slice (flush sd_bytes m b buf bm l) (piece_at a j) n = slice l (piece_at a j) n.
Proof.
  intros Hne Ha Hb Hm Hj Hn Hl. pose proof (seq_small (Z.to_nat m) ltac:(lia)) as Hs. unfold flush.
  change (PIECE_MAX - 1) with 27. rewrite other_channel; [|done|done|done|done|lia| |done|].
  - by apply rows_other_channel.
  - by rewrite length_bytes64; lia.
  - apply (outside_shm_ok l); [|done]. by apply rows_outside.
Qed.

(** The slots from [m] on are not written. *)
Lemma flush_skips m c buf bm l j n : 1 <= c <= 40 -> 0 <= m -> m <= j < 27 -> 0 <= n <= 1024 -> shm_ok l ->
  slice (flush sd_bytes m c buf bm l) (piece_at c j) n = slice l (piece_at c j) n.
Proof.
  intros Hc Hm Hj Hn Hl. pose proof (seq_small (Z.to_nat m) ltac:(lia)) as Hs. unfold flush.
  change (PIECE_MAX - 1) with 27. rewrite slot_put; [|done|lia|lia|rewrite length_bytes64; lia|done| |lia].
  2: { apply (outside_shm_ok l); [|done]. by apply rows_outside. }
  assert (forall js l, Forall (fun k => (k < Z.to_nat m)%nat) js -> shm_ok l ->
    slice (fold_left (fun s j => put (piece_at c (Z.of_nat j)) (sd_bytes (nth j buf zero_sd)) s) js l) (piece_at c j) n =
    slice l (piece_at c j) n) as Hrows.
  { clear l Hl Hs. intros js l Hjs. revert l. induction Hjs as [|k js Hk Hjs IH]; intros l Hl; [done|]. cbn [fold_left].
    rewrite IH by (apply (outside_shm_ok l); [apply put_piece_outside; (done || lia)|done]).
    apply slot_put; (done || lia). }
  apply Hrows; [|done]. apply list.Forall_forall. intros x Hx%list_elem_of_In. apply in_seq in Hx. lia.
Qed.

(** The timer of the Insight-T sensors writes into another sensor's
    channel. The buffer is written into the channel of the last measurement
    of all: when measurements of an Insight-T sensor in channel [a] are
    in the buffer and one of a Predict sensor in channel [b] comes in
    between, the timer puts the four rows of the Insight-T sensor, with their bitmap, into
    channel [b] - over the Predict sensor's - and nothing into [a]. *)
Theorem timer_writes_other_channel ws timers req s s' nid b (a := g_current_ch_idx s) :
  cache_ok s -> g_sensor_data_piece_cnt s <> 0 -> of_sensor nid b req s -> a <> b ->
  sd_insert sd_bytes ws timers req s = SdRun s' -> shm_ok (shm (sql s)) ->
  (forall j, 0 <= j < 4 -> exists rest,
     slice (shm (sql (timer_t sd_bytes s'))) (piece_at b j) 1024 =
     sd_bytes (nth (Z.to_nat j) (g_shm_data_buf s) zero_sd) ++ rest) /\
  slice (shm (sql (timer_t sd_bytes s'))) (piece_at b 27) 8 = bytes64 (Z.lor (g_bit_map s) 16) /\
  forall j, 0 <= j < 28 ->
    slice (shm (sql (timer_t sd_bytes s'))) (piece_at a j) 1024 = slice (shm (sql s')) (piece_at a j) 1024.
Proof.
  intros Hok Hc0 Hof Hne E Hl. pose proof Hok as (Hi & He & Hcnt & Hcur & Hb). specialize (Hcur Hc0).
  destruct ws as [[w0 w1] w2].
  destruct (sd_insert_safe sd_bytes Hbytes (w0, w1, w2) timers req s Hok) as [[E'|[E' _]]|(s2 & E' & _ & Ho)];
    [by rewrite E in E'|by rewrite E in E'|]. rewrite E in E'. injection E' as <-. specialize (Ho Hl).
  pose proof (outside_shm_ok _ _ Ho Hl) as Hl'.
  pose proof Hof as (_ & _ & Hch). pose proof (find_channel_range _ _ _ He Hch) as Hrb.
  assert (t_state s' = t_state (piece_state b s)) as Ht.
  { rewrite (sd_insert_eq sd_bytes nid b) in E by done. destruct (insert_p _ _ _ _ _) as [s1| |] eqn:E1; [|done|done].
    apply insert_p_t_state in E1 as [E1 Ht1]. apply retry_p_t_state in E; [|by rewrite Ht1]. by rewrite E. }
  injection Ht as Ebuf Ebm Ecnt Emax Ecur. change APP_SHM_SENSORDATA_TABLE_PIECE_MAX_PRS with 25 in Emax.
  change (g_current_ch_idx (piece_state b s)) with b in Ecur.
  change (g_sensor_data_piece_cnt (piece_state b s)) with (g_sensor_data_piece_cnt s) in Ecnt.
  change (g_shm_data_buf (piece_state b s)) with (g_shm_data_buf s) in Ebuf.
  change (g_bit_map (piece_state b s)) with (g_bit_map s) in Ebm.
  assert (shm (sql (timer_t sd_bytes s')) =
    flush sd_bytes 4 b (g_shm_data_buf s) (Z.lor (g_bit_map s) 16) (shm (sql s'))) as ->.
  { unfold timer_t. cbv zeta. change (g_sensor_data_piece_cnt (time_bit_t ?x)) with (g_sensor_data_piece_cnt x).
    change (g_sensor_data_piece_max (time_bit_t ?x)) with (g_sensor_data_piece_max x).
    cbn [set_g_timer g_sensor_data_piece_cnt g_sensor_data_piece_max].
    rewrite Ecnt, Emax, (proj2 (Z.ltb_lt _ _)), (proj2 (Z.leb_le _ _)) by lia. cbn [andb].
    rewrite <- Ebuf, <- Ebm, <- Ecur. reflexivity. }
  destruct (flush_slots sd_bytes Hbytes 4 (g_shm_data_buf s) (Z.lor (g_bit_map s) 16) b (shm (sql s')))
    as [Hrows Hbits]; [done|lia|done|].
  split; [exact Hrows|]. split; [exact Hbits|]. intros j Hj. by apply flush_other_channel.
Qed.
(** A measurement of an Insight-T sensor, of one of the four types, that has channel [c]. *)
Definition of_sensor_t (nid c : Z) (req : list gw_pro_data_t) (s : sd_cache) : Prop :=
  let row := sd_convert req in
  sd_nameId (sd row) = nid /\ strcmp_eq (sd_type row) TYPE_STR_INSIGHT_P = false /\
  strcmp_eq (sd_type row) TYPE_STR_INSIGHT_P_PRO = false /\ find_channel nid (sql s) = Some c /\
  In (sd_dataType (sd row)) [VOLTAGE_CURRENT; BOARD_TEMPERATURE_CURRENT; ENVIROMENTAL_TEMPERATURE_CURRENT; BLE_RSSI_CURRENT].

Definition piece_state_t (c : Z) (s : sd_cache) : sd_cache :=
  set_g_sensor_type_u8 MODBUS_SENSOR_TYPE_T
    (set_g_sensor_data_piece_max APP_SHM_SENSORDATA_TABLE_PIECE_MAX_ITS
      (set_g_current_ch_idx c (set_g_former_ch_idx (g_current_ch_idx s) s))).

Lemma sd_insert_t_eq w0 w1 w2 timers nid c req s : cache_ok s -> of_sensor_t nid c req s ->
  sd_insert sd_bytes (w0, w1, w2) timers req s =
  match insert_t sd_bytes w0 timers (sd_convert req) (piece_state_t c s) with
  | SdRun s => retry sd_bytes (w1 || w2) (sd_convert req) s
  | SdExit => SdExit
  | SdUndefined => SdUndefined
  end.
Proof.
  intros (_ & He & _) (Hn & Ht & Ht' & Hc & Hd). unfold sd_insert. rewrite (proj1 He). cbn [negb]. cbv zeta.
  destruct ((_ =? 1) || _ || _) eqn:E.
  { exfalso. assert (forallb (fun d => negb ((d =? 1) || (d =? 3) || (d =? 4)))
      [VOLTAGE_CURRENT; BOARD_TEMPERATURE_CURRENT; ENVIROMENTAL_TEMPERATURE_CURRENT; BLE_RSSI_CURRENT] = true) as Hf by done.
    rewrite forallb_forall in Hf. apply Hf in Hd. by rewrite E in Hd. }
  rewrite Hn, Hc. unfold insert_piece. by rewrite Ht, Ht'.
Qed.

Lemma idx_t_range dt :
  In dt [VOLTAGE_CURRENT; BOARD_TEMPERATURE_CURRENT; ENVIROMENTAL_TEMPERATURE_CURRENT; BLE_RSSI_CURRENT] ->
  0 <= shm_get_measure_type_idx_t dt < 4.
Proof.
  assert (forallb (fun d => (0 <=? shm_get_measure_type_idx_t d) && (shm_get_measure_type_idx_t d <? 4))
    [VOLTAGE_CURRENT; BOARD_TEMPERATURE_CURRENT; ENVIROMENTAL_TEMPERATURE_CURRENT; BLE_RSSI_CURRENT] = true) as Hf by done.
  rewrite forallb_forall in Hf. intros H%Hf. lia.
Qed.

(** A change of the sensor loses measurements. The rows of the buffer are at
    the indices of their types, but when a measurement of another Insight-T
    sensor comes, only the first rows, as many as there are
    measurements, are written: a measurement at an index from [g_sensor_data_piece_cnt] on never
    reaches the shared memory - its slot keeps what it had -, the buffer is cleared, and
    the bitmap claims that it came. *)
Theorem sensor_change_loses_pieces w1 w2 nid c req s j (a := g_current_ch_idx s) (cnt := g_sensor_data_piece_cnt s) :
  cache_ok s -> cnt <> 0 -> g_former_nameid s <> nid -> of_sensor_t nid c req s -> shm_ok (shm (sql s)) ->
  cnt <= j < 4 -> Z.testbit (g_bit_map s) j = true -> exists s',
  sd_insert sd_bytes (true, w1, w2) true req s = SdRun s' /\
  slice (shm (sql s')) (piece_at a j) 1024 = slice (shm (sql s)) (piece_at a j) 1024 /\
  (exists bm, slice (shm (sql s')) (piece_at a 27) 8 = bytes64 bm /\ Z.testbit bm j = true) /\
  forall k, (k < 4)%nat -> g_shm_data_buf s' !! k = Some zero_sd \/ g_shm_data_buf s' !! k = Some (sd_convert req).
Proof.
  intros Hok Hc0 Hn Hof Hl Hj Hbit. pose proof Hok as (Hi & He & Hcnt & Hcur & Hb). specialize (Hcur Hc0).
  fold a cnt in Hcur, Hcnt. rewrite (sd_insert_t_eq true) with (nid := nid) (c := c) by done.
  pose proof Hof as (Hnid & _ & _ & _ & Hd). pose proof (idx_t_range _ Hd) as Hidx.
  set (row := sd_convert req) in *. set (bm := Z.lor (g_bit_map s) 16).
  assert (exists s1, insert_t sd_bytes true true row (piece_state_t c s) = SdRun s1 /\ w_flag s1 = true /\
    shm (sql s1) = flush sd_bytes cnt a (g_shm_data_buf s) bm (shm (sql s)) /\
    g_shm_data_buf s1 = <[Z.to_nat (shm_get_measure_type_idx_t (sd_dataType (sd row))) := row]> (replicate 27 zero_sd))
    as (s1 & E1 & Ew & Es & Eb).
  { unfold insert_t. cbv zeta. rewrite Hnid. change (g_former_nameid (piece_state_t c s)) with (g_former_nameid s).
    rewrite (proj2 (Z.eqb_neq _ _) Hn).
    change (g_sensor_data_piece_cnt (set_g_former_nameid nid (set_g_timer false (piece_state_t c s)))) with cnt.
    rewrite (proj2 (Z.eqb_neq cnt 0) Hc0). unfold APP_SHM_SENSORDATA_TABLE_PIECE_MAX_ITS.
    rewrite (proj2 (Z.ltb_lt _ 4)) by lia. eexists. split; [reflexivity|]. by repeat split. }
  rewrite E1. unfold retry. rewrite Ew. exists s1. split; [done|]. rewrite Es, Eb. split; [|split].
  - apply flush_skips; (done || lia).
  - exists bm. split; [|unfold bm; by rewrite Z.lor_spec, Hbit].
    apply (flush_slots sd_bytes Hbytes); [done|lia|done].
  - intros k Hk. destruct (decide (k = Z.to_nat (shm_get_measure_type_idx_t (sd_dataType (sd row))))) as [->|Hne].
    + right. apply list_lookup_insert_eq. rewrite length_replicate. lia.
    + left. rewrite list_lookup_insert_ne by done. apply lookup_replicate_2. lia.
Qed.

(** ** A set of an Insight-T sensor *)

(** The index of a measurement of an Insight-T sensor. *)
Definition idx_t (row : sd_row) : Z := shm_get_measure_type_idx_t (sd_dataType (sd row)).

(** The set of an Insight-T sensor with nothing else in between. *)
Inductive collecting_t (nid c : Z) : list sd_row -> sd_cache -> Prop :=
  | collect_t_first ws req s s' : cache_ok s -> of_sensor_t nid c req s ->
      g_sensor_data_piece_cnt s = 0 -> g_shm_data_buf s = replicate 27 zero_sd -> g_bit_map s = 0 ->
      sd_insert sd_bytes ws true req s = SdRun s' -> collecting_t nid c [sd_convert req] s'
  | collect_t_next ws timers req ps s s' : collecting_t nid c ps s -> (length ps < 3)%nat ->
      of_sensor_t nid c req s -> sd_insert sd_bytes ws timers req s = SdRun s' ->
      collecting_t nid c (ps ++ [sd_convert req]) s'.

Definition holds_t (nid c : Z) (ps : list sd_row) (s : sd_cache) : Prop :=
  g_shm_data_buf s = rows_by idx_t ps /\ g_bit_map s = bits_by MODBUS_SENSOR_TYPE_T idx_t ps /\
  g_sensor_data_piece_cnt s = Z.of_nat (length ps) /\ g_current_ch_idx s = c /\ g_former_nameid s = nid /\
  g_sensor_data_piece_max s = 4 /\ w_flag s = true.

(** One more measurement, as long as the buffer has less than three. *)
Lemma insert_t_next w0 timers nid c req ps s : cache_ok s -> of_sensor_t nid c req s -> (length ps < 3)%nat ->
  g_shm_data_buf s = rows_by idx_t ps -> g_bit_map s = bits_by MODBUS_SENSOR_TYPE_T idx_t ps ->
  g_sensor_data_piece_cnt s = Z.of_nat (length ps) -> (ps = [] -> timers = true) ->
  g_former_nameid s = nid \/ ps = [] ->
  exists s', insert_t sd_bytes w0 timers (sd_convert req) (piece_state_t c s) = SdRun s' /\
    holds_t nid c (ps ++ [sd_convert req]) s'.
Proof.
  intros Hok (Hnid & _ & _ & _ & Hd) Hl Hbuf Hbm Hcnt Htim Hfor. pose proof (idx_t_range _ Hd) as Hidx.
  unfold holds_t. rewrite rows_by_snoc, bits_by_snoc, <- Hbuf, <- Hbm, length_app. cbn [length].
  unfold insert_t. cbv zeta. rewrite Hnid. unfold APP_SHM_SENSORDATA_TABLE_PIECE_MAX_ITS at 1 2 3.
  rewrite (proj2 (Z.ltb_lt _ 4)) by lia. 
  change (g_former_nameid (piece_state_t c s)) with (g_former_nameid s).
  change (g_sensor_data_piece_max (piece_state_t c s)) with 4.
  change (g_sensor_data_piece_cnt (piece_state_t c s)) with (g_sensor_data_piece_cnt s).
  assert (forall x idx s0, g_sensor_data_piece_cnt (count_t (store_t x idx s0)) = u8 (g_sensor_data_piece_cnt s0 + 1))
    as Ec by done.
  assert (u8 (g_sensor_data_piece_cnt s + 1) = Z.of_nat (length ps + 1)) as Hu
    by (rewrite Hcnt, u8_id by (unfold is_u8; lia); lia).
  destruct (Z.eqb_spec (g_former_nameid s) nid) as [Ef|Ef].
  - rewrite (proj2 (Z.ltb_lt _ (4 - 1))) by lia. rewrite Ec.
    change (g_sensor_data_piece_cnt (piece_state_t c s)) with (g_sensor_data_piece_cnt s). rewrite Hu.
    destruct (Z.eqb_spec (Z.of_nat (length ps + 1)) 1) as [E1|E1].
    + rewrite Htim by (destruct ps; [done|cbn in E1; lia]). eexists. split; [reflexivity|]. by repeat split.
    + eexists. split; [reflexivity|]. by repeat split.
  - destruct Hfor as [|Hps]; [done|]. rewrite Htim by done.
    change (g_sensor_data_piece_cnt (set_g_former_nameid nid (set_g_timer false (piece_state_t c s))))
      with (g_sensor_data_piece_cnt s).
    rewrite (proj2 (Z.eqb_eq (g_sensor_data_piece_cnt s) 0)) by (by rewrite Hcnt, Hps). eexists. split; [reflexivity|].
    by repeat split.
Qed.

Lemma collecting_t_holds nid c ps s : collecting_t nid c ps s ->
  cache_ok s /\ 1 <= c <= 40 /\ (1 <= length ps <= 3)%nat /\ Forall (fun p => 0 <= idx_t p < 4) ps /\ holds_t nid c ps s.
Proof.
  assert (forall ws timers req s s' ps, cache_ok s -> of_sensor_t nid c req s ->
    sd_insert sd_bytes ws timers req s = SdRun s' -> Forall (fun p => 0 <= idx_t p < 4) ps -> (length ps < 3)%nat ->
    (forall w0 w1 w2, ws = (w0, w1, w2) -> exists s1,
      insert_t sd_bytes w0 timers (sd_convert req) (piece_state_t c s) = SdRun s1 /\
      holds_t nid c (ps ++ [sd_convert req]) s1) ->
    cache_ok s' /\ 1 <= c <= 40 /\ (1 <= length (ps ++ [sd_convert req]) <= 3)%nat /\
    Forall (fun p => 0 <= idx_t p < 4) (ps ++ [sd_convert req]) /\ holds_t nid c (ps ++ [sd_convert req]) s') as Hstep.
  { intros ws timers req s0 s' ps0 Hok Hof E Hps Hl Hins.
    destruct (sd_insert_safe sd_bytes Hbytes ws timers req s0 Hok) as [[E'|[E' _]]|(s2 & E' & [Hok' _])];
      [by rewrite E in E'|by rewrite E in E'|]. rewrite E in E'. injection E' as <-.
    destruct ws as [[w0 w1] w2]. destruct (Hins w0 w1 w2 eq_refl) as (s1 & E1 & Hh).
    rewrite (sd_insert_t_eq w0 w1 w2 timers nid c), E1 in E by done.
    unfold retry in E. pose proof Hh as (_ & _ & _ & _ & _ & _ & Hw). rewrite Hw in E. injection E as <-.
    pose proof Hof as (_ & _ & _ & Hch & Hd). split; [done|].
    split; [apply (find_channel_range nid (sql s0)); [apply Hok|done]|]. split; [rewrite length_app; cbn; lia|].
    split; [|done]. apply Forall_app. split; [done|]. apply Forall_singleton. by apply idx_t_range. }
  induction 1 as [ws req s s' Hok Hof Hc Hbuf Hbm E|ws timers req ps s s' H IH Hl Hof E].
  - apply (Hstep ws true req s s' []); [done|done|done|by constructor|cbn; lia|]. intros w0 w1 w2 _.
    by apply insert_t_next; [done|done|cbn; lia|..|right].
  - destruct IH as (Hok & Hc & Hlen & Hps & Hh). apply (Hstep ws timers req s s' ps); [done..|]. intros w0 w1 w2 _.
    destruct Hh as (Hbuf & Hbm & Hcnt & _ & Hn & _). apply insert_t_next; [done..| |by left].
    intros ->. cbn in Hlen. lia.
Qed.

(** The set [ps] of an Insight-T sensor in the slots of channel [c]. *)
Definition set_written_t (c : Z) (ps : list sd_row) (shm : list Z) : Prop :=
  (forall j, 0 <= j < 4 -> exists rest, slice shm (piece_at c j) 1024 = sd_bytes (last_by idx_t j ps) ++ rest) /\
  exists bm, slice shm (piece_at c 27) 8 = bytes64 bm /\
    forall k, 0 <= k -> Z.testbit bm k = existsb (fun p => idx_t p =? k) ps || (k =? 4).

Lemma set_flushed_t c ps l : 1 <= c <= 40 -> Forall (fun p => 0 <= idx_t p < 4) ps -> shm_ok l ->
  set_written_t c ps (flush sd_bytes 4 c (rows_by idx_t ps)
    (shm_set_sd_bit_map MODBUS_SENSOR_TYPE_T (bits_by MODBUS_SENSOR_TYPE_T idx_t ps) SHM_SD_IDX_LAST_TEMP_SENSING_TIME_T) l).
Proof.
  intros Hc Hps Hl. set (bm := shm_set_sd_bit_map _ _ _).
  destruct (flush_slots sd_bytes Hbytes 4 (rows_by idx_t ps) bm c l) as [Hrows Hbits]; [done|lia|done|]. split.
  - intros j Hj. destruct (Hrows j Hj) as [rest E]. exists rest. rewrite E, nth_rows_by.
    + by rewrite Z2Nat.id by lia.
    + apply (Forall_impl _ _ _ Hps). intros p. lia.
    + lia.
  - exists bm. split; [exact Hbits|]. intros k Hk. unfold bm. rewrite testbit_set_bit by done.
    rewrite testbit_bits_by; [|apply (Forall_impl _ _ _ Hps); intros p; cbn [bit_count]; lia|done].
    f_equal. change SHM_SD_IDX_LAST_TEMP_SENSING_TIME_T with 4. apply Z.eqb_sym.
Qed.

(** The set of an Insight-T sensor is written into the channel of the sensor,
    when nothing else comes in between. Up to three measurements of the four types
    are collected; when the timer expires, or a fourth comes and the semaphore is
    free, the four slots have the last measurement of each type, or zeros, and the last slot the bits of exactly
    the types that came and of the sensing time; the buffer is empty again. *)
Theorem insight_t_set_written nid c ps s : collecting_t nid c ps s -> shm_ok (shm (sql s)) ->
  set_written_t c ps (shm (sql (timer_t sd_bytes s))) /\
  g_sensor_data_piece_cnt (timer_t sd_bytes s) = 0 /\
  forall w1 w2 timers req, length ps = 3%nat -> of_sensor_t nid c req s -> exists s',
    sd_insert sd_bytes (true, w1, w2) timers req s = SdRun s' /\
    set_written_t c (ps ++ [sd_convert req]) (shm (sql s')) /\ g_sensor_data_piece_cnt s' = 0.
Proof.
  intros H Hl. destruct (collecting_t_holds nid c ps s H) as (Hok & Hc & Hlen & Hps & Hbuf & Hbm & Hcnt & Hcur & Hn & Hmax & Hw).
  assert (timer_t sd_bytes s = set_g_sensor_data_piece_cnt 0
    (clear_t (flush_t sd_bytes 4 c (time_bit_t (set_g_timer false s))))) as Et.
  { unfold timer_t. cbv zeta. change (g_sensor_data_piece_cnt (time_bit_t _)) with (g_sensor_data_piece_cnt s).
    change (g_sensor_data_piece_max (time_bit_t _)) with (g_sensor_data_piece_max s).
    rewrite Hcnt, Hmax, (proj2 (Z.ltb_lt _ _)), (proj2 (Z.leb_le _ _)) by lia. cbn [andb].
    change (g_current_ch_idx (time_bit_t _)) with (g_current_ch_idx s). by rewrite Hcur. }
  rewrite Et. split; [|split; [done|]].
  - change (set_written_t c ps (flush sd_bytes 4 c (g_shm_data_buf s)
      (shm_set_sd_bit_map MODBUS_SENSOR_TYPE_T (g_bit_map s) SHM_SD_IDX_LAST_TEMP_SENSING_TIME_T) (shm (sql s)))).
    rewrite Hbuf, Hbm. by apply set_flushed_t.
  - intros w1 w2 timers req Hl3 Hof. pose proof Hof as (Hnid & _ & _ & _ & Hd). pose proof (idx_t_range _ Hd) as Hidx.
    rewrite (sd_insert_t_eq true w1 w2 timers nid c) by done. unfold insert_t. cbv zeta. rewrite Hnid.
    unfold APP_SHM_SENSORDATA_TABLE_PIECE_MAX_ITS at 1 2 3. rewrite (proj2 (Z.ltb_lt _ 4)) by lia.
    change (g_former_nameid (piece_state_t c s)) with (g_former_nameid s).
    change (g_sensor_data_piece_max (piece_state_t c s)) with 4.
    change (g_sensor_data_piece_cnt (piece_state_t c s)) with (g_sensor_data_piece_cnt s).
    rewrite Hn, Z.eqb_refl, Hcnt, Hl3. change (Z.of_nat 3 <? 4 - 1) with false. cbv iota.
    unfold retry. change (w_flag (set_g_sensor_data_piece_cnt _ _)) with true at 1. cbv iota.
    eexists. split; [reflexivity|]. split; [|done].
    assert (Forall (fun p => 0 <= idx_t p < 4) (ps ++ [sd_convert req])) as Hps'
      by (apply Forall_app; split; [done|by apply Forall_singleton]).
    pose proof (set_flushed_t c (ps ++ [sd_convert req]) (shm (sql s)) Hc Hps' Hl) as Hf.
    rewrite rows_by_snoc, bits_by_snoc, <- Hbuf, <- Hbm in Hf. exact Hf.
Qed.
End insight_t.

(** ** Examples *)

(** The layout of a row, as the slave reads it. *)
Definition c_sensor_data (l : list Z) : sensorDataTableData_t :=
  SensorData (le32 l) (nth 4 l 0) (nth 5 l 0) (le64 (drop 6 l)) (drop 14 l).

Lemma c_sd_layout : same_sd_layout c_sd_bytes 1000 84 c_sensor_data.
Proof.
  split; [done|]. split; [done|]. intros [[nid pr dt t v] ty others] (Hn & Hp & Hd & Ht & Hv).
  cbn [sd sd_nameId sd_product sd_dataType sd_sampleTime sd_value] in *.
  assert (c_sd_bytes (SdRow (SensorData nid pr dt t v) ty others) = bytes32 nid ++ pr :: dt :: bytes64 t ++ v) as ->.
  { unfold c_sd_bytes. cbn [sd sd_nameId sd_product sd_dataType sd_sampleTime sd_value]. apply take_ge.
    rewrite length_app. cbn [length app]. rewrite length_app, length_bytes64, Hv. cbn. lia. }
  split; [rewrite length_app; cbn [length bytes32]; rewrite length_app, length_bytes64, Hv; lia|].
  unfold c_sensor_data. rewrite le32_bytes32 by done. f_equal. exact (le64_bytes64 t Ht).
Qed.

Lemma two_sensors_channels sh : find_channel 5 (two_sensors sh) = Some 3 /\ find_channel 6 (two_sensors sh) = Some 1.
Proof. split; reflexivity. Qed.

Lemma empty_unseen nid c st : unseen nid c 0 (empty_cache st).
Proof.
  split; [|split; [done|lia]]. intros j g E Hv. change (g_sd_instance _) with (replicate 8 zero_instance) in E.
  by apply lookup_replicate in E as [-> _].
Qed.

(** A first measurement, and [n] of them, in the empty process. *)
Lemma first_collected req st : ext_inv st -> of_sensor 5 3 req (empty_cache st) -> exists s,
  collecting c_sd_bytes no_bytes 5 3 0 [sd_convert req] s /\ sql s = st /\ w_flag s = true.
Proof.
  intros He Hof. pose proof (empty_cache_ok st He) as Hok. pose proof (empty_unseen 5 3 st) as Hun.
  eexists. split; [|split].
  - eapply (collect_first c_sd_bytes no_bytes 5 3 0 (true, true, true)); [done|done|done|].
    rewrite (sd_insert_eq c_sd_bytes 5 3), (insert_first_eq c_sd_bytes 5 3 0) by done. reflexivity.
  - done.
  - done.
Qed.

Definition velocity_p : list gw_pro_data_t := measurement 5 TYPE_STR_INSIGHT_P 50 200.

Lemma velocity_of_sensor st : find_channel 5 st = Some 3 -> of_sensor 5 3 velocity_p (empty_cache st).
Proof. intros Hc. split; [split; [done|split; [done|cbn; lia]]|]. split; [by vm_compute|done]. Qed.

Lemma collected_n st n : ext_inv st -> find_channel 5 st = Some 3 -> (1 <= n <= 24)%nat -> exists ps s,
  collecting c_sd_bytes no_bytes 5 3 0 ps s /\ length ps = n /\ sql s = st /\ w_flag s = true.
Proof.
  intros He Hc Hn. destruct n as [|n]; [lia|]. induction n as [|n IH].
  - destruct (first_collected velocity_p st He (velocity_of_sensor st Hc)) as (s & H & Hs & Hw). by exists [sd_convert velocity_p], s.
  - destruct IH as (ps & s & H & Hl & Hs & Hw); [lia|].
    assert (of_sensor 5 3 velocity_p s) as Hof.
    { destruct (velocity_of_sensor st Hc) as (Hm & Ht & _). split; [done|]. split; [done|]. by rewrite Hs. }
    destruct (collecting_set c_sd_bytes no_bytes c_sd_length 5 3 0 ps s H) as (Hok & _ & _ & _ & Ei).
    exists (ps ++ [sd_convert velocity_p]). eexists. split; [|split; [|split]].
    + eapply (collect_next c_sd_bytes no_bytes 5 3 0 (true, true, true) true); [exact H|lia|exact Hof|].
      rewrite (sd_insert_eq c_sd_bytes 5 3) by done.
      rewrite (insert_known_eq c_sd_bytes 5 3 0 true true velocity_p true ps s Hok Hof ltac:(lia) Ei). cbv zeta.
      cbn [set_of sd_piece_cnt]. rewrite length_app. cbn [length]. rewrite (proj2 (Z.leb_gt 25 _)) by lia. reflexivity.
    + rewrite length_app. cbn [length]. lia.
    + exact Hs.
    + done.
Qed.

Lemma predict_set_written_witness : exists s, shm_ok (shm (sql s)) /\
  set_written c_sd_bytes 3 [sd_convert velocity_p] (shm (sql (timer_p c_sd_bytes 0 s))).
Proof.
  destruct (two_sensors_channels c_shm) as [Hc _].
  destruct (first_collected velocity_p (two_sensors c_shm) (two_sensors_inv c_shm) (velocity_of_sensor _ Hc))
    as (s & H & Hs & _).
  assert (shm_ok (shm (sql s))) as Hl by (rewrite Hs; apply two_sensors_shm).
  exists s. split; [exact Hl|]. exact (proj1 (predict_set_written c_sd_bytes no_bytes c_sd_length 5 3 0 _ s H Hl)).
Defined.

Lemma busy_semaphore_strands_set_witness : exists s s',
  sd_insert c_sd_bytes (false, true, true) true velocity_p s = SdRun s' /\ shm (sql s') = shm (sql s).
Proof.
  destruct (two_sensors_channels []) as [Hc _].
  destruct (collected_n (two_sensors []) 24 (two_sensors_inv []) Hc) as (ps & s & H & Hl & Hs & Hw); [lia|].
  assert (of_sensor 5 3 velocity_p s) as Hof
    by (destruct (velocity_of_sensor _ Hc) as (Hm & Ht & _); split; [exact Hm|split; [exact Ht|by rewrite Hs]]).
  destruct (busy_semaphore_strands_set c_sd_bytes no_bytes c_sd_length 5 3 0 ps s true true true velocity_p H Hl Hof Hw)
    as (s' & E & Esh & _).
  exists s, s'. split; [exact E|exact Esh].
Defined.

(** A battery voltage, which is not cared for. *)
Definition voltage_p : list gw_pro_data_t := measurement 5 TYPE_STR_INSIGHT_P 29 200.

Lemma voltage_of_sensor st : find_channel 5 st = Some 3 -> of_sensor 5 3 voltage_p (empty_cache st).
Proof. intros Hc. split; [split; [done|split; [done|cbn; lia]]|]. split; [by vm_compute|exact Hc]. Qed.

Lemma ignored_type_sets_time_bit_witness : exists s bm,
  slice (shm (sql (timer_p c_sd_bytes 0 s))) (piece_at 3 27) 8 = bytes64 bm /\
  Z.testbit bm 6 = false /\ Z.testbit bm SHM_SD_IDX_LAST_TEMP_SENSING_TIME = true.
Proof.
  destruct (two_sensors_channels c_shm) as [Hc _].
  destruct (first_collected voltage_p (two_sensors c_shm) (two_sensors_inv c_shm)) as (s & H & Hs & _).
  { exact (voltage_of_sensor _ Hc). }
  assert (shm_ok (shm (sql s))) as Hl by (rewrite Hs; apply two_sensors_shm).
  exists s. apply (ignored_type_sets_time_bit c_sd_bytes no_bytes c_sd_length 5 3 0 [sd_convert voltage_p] s (sd_convert voltage_p) H Hl).
  - by left.
  - reflexivity.
  - intros p [<-|[]]. by vm_compute.
Defined.

Lemma velocity_row_ok : sd_row_ok (sd_convert velocity_p).
Proof. by vm_compute. Qed.

Lemma collected_set_loaded_by_slave_witness : exists s,
  to_load_sdata_from_shmem_v2 1000 84 c_sensor_data CTR (shm (sql (timer_p c_sd_bytes 0 s))) (slave_index 3 11) unhashed_world =
    Some (ShmItem GW_PRO_TABLE_IDX_SENSOR_DATA_TABLE (sd (sd_convert velocity_p)), unhashed_world).
Proof.
  destruct (two_sensors_channels c_shm) as [Hc _].
  destruct (first_collected velocity_p (two_sensors c_shm) (two_sensors_inv c_shm) (velocity_of_sensor _ Hc))
    as (s & H & Hs & _).
  assert (shm_ok (shm (sql s))) as Hl by (rewrite Hs; apply two_sensors_shm).
  exists s. refine (proj1 (collected_set_loaded_by_slave c_sd_bytes no_bytes c_sd_length 1000 84 c_sensor_data 5 3 0
    [sd_convert velocity_p] s unhashed_world 11 c_sd_layout H Hl _ _)); [|lia].
  apply Forall_singleton. exact velocity_row_ok.
Defined.

(** Sensor 6 as an Insight-T sensor that sends its signal strength, and sensor 5 as one. *)
Definition rssi_t (nid : Z) : list gw_pro_data_t := measurement nid [] BLE_RSSI_CURRENT 200.

Lemma rssi_of_sensor nid c s : is_u8 nid -> find_channel nid (sql s) = Some c -> of_sensor_t nid c (rssi_t nid) s.
Proof.
  intros Hn Hc. assert (sd_nameId (sd (sd_convert (rssi_t nid))) = nid) as En.
  { change (le32 (bytes32 nid ++ []) = nid). apply le32_bytes32. unfold is_u8, is_u32 in *. lia. }
  split; [done|]. split; [done|]. split; [done|]. split; [done|]. cbn [In]. right; right; right; by left.
Qed.

Lemma insert_first_t row st : sd_nameId (sd row) = 6 -> idx_t row = 3 -> exists s,
  insert_t c_sd_bytes true true row (piece_state_t 1 (empty_cache st)) = SdRun s /\
  sql s = st /\ g_sd_instance s = replicate 8 zero_instance /\ w_flag s = true.
Proof.
  intros Hn Hi. unfold insert_t. cbv zeta. unfold idx_t in Hi. rewrite Hn, Hi.
  eexists. split; [reflexivity|]. by repeat split.
Qed.

(** The process with one measurement of sensor 6 in the buffer. *)
Lemma first_t st : ext_inv st -> find_channel 6 st = Some 1 -> exists s,
  collecting_t c_sd_bytes 6 1 [sd_convert (rssi_t 6)] s /\ sql s = st /\
  g_sd_instance s = replicate 8 zero_instance.
Proof.
  intros He Hc. pose proof (empty_cache_ok st He) as Hok.
  assert (of_sensor_t 6 1 (rssi_t 6) (empty_cache st)) as Hof by (apply rssi_of_sensor; [by unfold is_u8|done]).
  destruct (insert_first_t (sd_convert (rssi_t 6)) st) as (s & E & Hs & Hi & Hw); [by vm_compute|by vm_compute|].
  exists s. split; [|by split].
  apply (collect_t_first c_sd_bytes 6 1 (true, true, true) (rssi_t 6) (empty_cache st)); [exact Hok|exact Hof|done|done|done|].
  rewrite (sd_insert_t_eq c_sd_bytes true true true true 6 1), E by done. unfold retry. by rewrite Hw.
Qed.

Lemma insight_t_set_written_witness : exists s,
  set_written_t c_sd_bytes 1 [sd_convert (rssi_t 6)] (shm (sql (timer_t c_sd_bytes s))).
Proof.
  destruct (two_sensors_channels c_shm) as [_ Hc].
  destruct (first_t (two_sensors c_shm) (two_sensors_inv c_shm) Hc) as (s & H & Hs & _).
  assert (shm_ok (shm (sql s))) as Hl by (rewrite Hs; apply two_sensors_shm).
  exists s. exact (proj1 (insight_t_set_written c_sd_bytes c_sd_length 6 1 _ s H Hl)).
Defined.

Lemma timer_writes_other_channel_witness : exists s s',
  sd_insert c_sd_bytes (true, true, true) true velocity_p s = SdRun s' /\ g_current_ch_idx s = 1 /\
  exists rest, slice (shm (sql (timer_t c_sd_bytes s'))) (piece_at 3 3) 1024 =
    c_sd_bytes (nth 3 (g_shm_data_buf s) zero_sd) ++ rest.
Proof.
  destruct (two_sensors_channels c_shm) as [Hc5 Hc6].
  destruct (first_t (two_sensors c_shm) (two_sensors_inv c_shm) Hc6) as (s & H & Hs & Hinst).
  assert (shm_ok (shm (sql s))) as Hl by (rewrite Hs; apply two_sensors_shm).
  destruct (collecting_t_holds c_sd_bytes c_sd_length 6 1 _ s H) as (Hok & _ & _ & _ & _ & _ & Hcnt & Hcur & _).
  assert (of_sensor 5 3 velocity_p s) as Hof.
  { destruct (velocity_of_sensor _ Hc5) as (Hm & Ht & _). split; [exact Hm|]. split; [exact Ht|]. by rewrite Hs. }
  assert (unseen 5 3 0 s) as Hun.
  { unfold unseen. rewrite Hinst. split; [|split; [done|lia]]. intros j g E Hv. by apply lookup_replicate in E as [-> _]. }
  pose proof (insert_first_eq c_sd_bytes 5 3 0 true velocity_p s Hok Hof Hun) as E1.
  pose proof (sd_insert_eq c_sd_bytes 5 3 true true true true velocity_p s Hok Hof) as E. rewrite E1 in E.
  exists s. eexists. split; [exact E|]. split; [exact Hcur|].
  refine (proj1 (timer_writes_other_channel c_sd_bytes c_sd_length (true, true, true) true velocity_p s _ 5 3
    Hok _ Hof _ E Hl) 3 _); [rewrite Hcnt; done|rewrite Hcur; lia|lia].
Defined.

Lemma sensor_change_loses_pieces_witness : exists s s',
  sd_insert c_sd_bytes (true, true, true) true (rssi_t 5) s = SdRun s' /\
  slice (shm (sql s')) (piece_at 1 3) 1024 = slice (shm (sql s)) (piece_at 1 3) 1024 /\
  exists bm, slice (shm (sql s')) (piece_at 1 27) 8 = bytes64 bm /\ Z.testbit bm 3 = true.
Proof.
  destruct (two_sensors_channels c_shm) as [Hc5 Hc6].
  destruct (first_t (two_sensors c_shm) (two_sensors_inv c_shm) Hc6) as (s & H & Hs & _).
  assert (shm_ok (shm (sql s))) as Hl by (rewrite Hs; apply two_sensors_shm).
  destruct (collecting_t_holds c_sd_bytes c_sd_length 6 1 _ s H) as (Hok & _ & _ & _ & _ & Hbm & Hcnt & Hcur & Hn & _).
  assert (of_sensor_t 5 3 (rssi_t 5) s) as Hof by (apply rssi_of_sensor; [by unfold is_u8|rewrite Hs; exact Hc5]).
  destruct (sensor_change_loses_pieces c_sd_bytes c_sd_length true true 5 3 (rssi_t 5) s 3 Hok) as (s' & E & E1 & E2 & _);
    [rewrite Hcnt; cbn; lia|rewrite Hn; lia|exact Hof|exact Hl|rewrite Hcnt; cbn; lia|by rewrite Hbm|].
  exists s, s'. rewrite Hcur in E1, E2. split; [exact E|]. split; [exact E1|exact E2].
Defined.
