(* ===== verification/FrotoCrc.v ===== *)
(** * FrotoCrc: the checksum of the blocks of measurements

    [froto_crc32] of [general/froto/app_froto_common.c], which decides whether the samples in a
    message are valid ([protobuf_dec_data_pair_callback]). It is proved equal to
    CRC-32 bit by bit, and to notice every damage within four neighbouring bytes. *)

From S2P Require Import Prelude.
From Stdlib Require Import ZArith Lia List.
From stdpp Require Import base list numbers.
Open Scope Z_scope.

Definition g_crc32tab : list Z :=
  [0x00000000; 0x77073096; 0xee0e612c; 0x990951ba; 0x076dc419; 0x706af48f; 0xe963a535; 0x9e6495a3;
   0x0edb8832; 0x79dcb8a4; 0xe0d5e91e; 0x97d2d988; 0x09b64c2b; 0x7eb17cbd; 0xe7b82d07; 0x90bf1d91;
   0x1db71064; 0x6ab020f2; 0xf3b97148; 0x84be41de; 0x1adad47d; 0x6ddde4eb; 0xf4d4b551; 0x83d385c7;
   0x136c9856; 0x646ba8c0; 0xfd62f97a; 0x8a65c9ec; 0x14015c4f; 0x63066cd9; 0xfa0f3d63; 0x8d080df5;
   0x3b6e20c8; 0x4c69105e; 0xd56041e4; 0xa2677172; 0x3c03e4d1; 0x4b04d447; 0xd20d85fd; 0xa50ab56b;
   0x35b5a8fa; 0x42b2986c; 0xdbbbc9d6; 0xacbcf940; 0x32d86ce3; 0x45df5c75; 0xdcd60dcf; 0xabd13d59;
   0x26d930ac; 0x51de003a; 0xc8d75180; 0xbfd06116; 0x21b4f4b5; 0x56b3c423; 0xcfba9599; 0xb8bda50f;
   0x2802b89e; 0x5f058808; 0xc60cd9b2; 0xb10be924; 0x2f6f7c87; 0x58684c11; 0xc1611dab; 0xb6662d3d;
   0x76dc4190; 0x01db7106; 0x98d220bc; 0xefd5102a; 0x71b18589; 0x06b6b51f; 0x9fbfe4a5; 0xe8b8d433;
   0x7807c9a2; 0x0f00f934; 0x9609a88e; 0xe10e9818; 0x7f6a0dbb; 0x086d3d2d; 0x91646c97; 0xe6635c01;
   0x6b6b51f4; 0x1c6c6162; 0x856530d8; 0xf262004e; 0x6c0695ed; 0x1b01a57b; 0x8208f4c1; 0xf50fc457;
   0x65b0d9c6; 0x12b7e950; 0x8bbeb8ea; 0xfcb9887c; 0x62dd1ddf; 0x15da2d49; 0x8cd37cf3; 0xfbd44c65;
   0x4db26158; 0x3ab551ce; 0xa3bc0074; 0xd4bb30e2; 0x4adfa541; 0x3dd895d7; 0xa4d1c46d; 0xd3d6f4fb;
   0x4369e96a; 0x346ed9fc; 0xad678846; 0xda60b8d0; 0x44042d73; 0x33031de5; 0xaa0a4c5f; 0xdd0d7cc9;
   0x5005713c; 0x270241aa; 0xbe0b1010; 0xc90c2086; 0x5768b525; 0x206f85b3; 0xb966d409; 0xce61e49f;
   0x5edef90e; 0x29d9c998; 0xb0d09822; 0xc7d7a8b4; 0x59b33d17; 0x2eb40d81; 0xb7bd5c3b; 0xc0ba6cad;
   0xedb88320; 0x9abfb3b6; 0x03b6e20c; 0x74b1d29a; 0xead54739; 0x9dd277af; 0x04db2615; 0x73dc1683;
   0xe3630b12; 0x94643b84; 0x0d6d6a3e; 0x7a6a5aa8; 0xe40ecf0b; 0x9309ff9d; 0x0a00ae27; 0x7d079eb1;
   0xf00f9344; 0x8708a3d2; 0x1e01f268; 0x6906c2fe; 0xf762575d; 0x806567cb; 0x196c3671; 0x6e6b06e7;
   0xfed41b76; 0x89d32be0; 0x10da7a5a; 0x67dd4acc; 0xf9b9df6f; 0x8ebeeff9; 0x17b7be43; 0x60b08ed5;
   0xd6d6a3e8; 0xa1d1937e; 0x38d8c2c4; 0x4fdff252; 0xd1bb67f1; 0xa6bc5767; 0x3fb506dd; 0x48b2364b;
   0xd80d2bda; 0xaf0a1b4c; 0x36034af6; 0x41047a60; 0xdf60efc3; 0xa867df55; 0x316e8eef; 0x4669be79;
   0xcb61b38c; 0xbc66831a; 0x256fd2a0; 0x5268e236; 0xcc0c7795; 0xbb0b4703; 0x220216b9; 0x5505262f;
   0xc5ba3bbe; 0xb2bd0b28; 0x2bb45a92; 0x5cb36a04; 0xc2d7ffa7; 0xb5d0cf31; 0x2cd99e8b; 0x5bdeae1d;
   0x9b64c2b0; 0xec63f226; 0x756aa39c; 0x026d930a; 0x9c0906a9; 0xeb0e363f; 0x72076785; 0x05005713;
   0x95bf4a82; 0xe2b87a14; 0x7bb12bae; 0x0cb61b38; 0x92d28e9b; 0xe5d5be0d; 0x7cdcefb7; 0x0bdbdf21;
   0x86d3d2d4; 0xf1d4e242; 0x68ddb3f8; 0x1fda836e; 0x81be16cd; 0xf6b9265b; 0x6fb077e1; 0x18b74777;
   0x88085ae6; 0xff0f6a70; 0x66063bca; 0x11010b5c; 0x8f659eff; 0xf862ae69; 0x616bffd3; 0x166ccf45;
   0xa00ae278; 0xd70dd2ee; 0x4e048354; 0x3903b3c2; 0xa7672661; 0xd06016f7; 0x4969474d; 0x3e6e77db;
   0xaed16a4a; 0xd9d65adc; 0x40df0b66; 0x37d83bf0; 0xa9bcae53; 0xdebb9ec5; 0x47b2cf7f; 0x30b5ffe9;
   0xbdbdf21c; 0xcabac28a; 0x53b39330; 0x24b4a3a6; 0xbad03605; 0xcdd70693; 0x54de5729; 0x23d967bf;
   0xb3667a2e; 0xc4614ab8; 0x5d681b02; 0x2a6f2b94; 0xb40bbe37; 0xc30c8ea1; 0x5a05df1b; 0x2d02ef8d].

(** One turn of the loop. *)
Definition crc32_step (crc b : Z) : Z :=
  Z.lxor (nth (Z.to_nat (Z.land (Z.lxor crc b) 0xff)) g_crc32tab 0) (Z.shiftr crc 8).

(** [None]: the loop would read past the end of the buffer. *)
Definition froto_crc32 (buf : list Z) (size : Z) : option Z :=
  if size <=? Z.of_nat (length buf)
  then Some (Z.lxor (fold_left crc32_step (take (Z.to_nat size) buf) 0xFFFFFFFF) 0xFFFFFFFF)
  else None.

(** The check value of CRC-32: of the digits 1 to 9. *)
Example crc32_check : froto_crc32 [49; 50; 51; 52; 53; 54; 55; 56; 57] 9 = Some 0xCBF43926.
Proof. vm_compute. reflexivity. Qed.

(** ** Reference: CRC-32 bit by bit

    Reflected polynomial 0xEDB88320, initial value and final xor 0xFFFFFFFF. *)

Definition crc32_bit (c : Z) : Z := if Z.odd c then Z.lxor (Z.shiftr c 1) 0xEDB88320 else Z.shiftr c 1.

Definition crc32_bit8 (c : Z) : Z := Nat.iter 8 crc32_bit c.

Definition crc32_ref (bytes : list Z) : Z :=
  Z.lxor (fold_left (fun c b => crc32_bit8 (Z.lxor c b)) bytes 0xFFFFFFFF) 0xFFFFFFFF.

(** ** The bitwise step *)

Lemma xor_swap a b c d : Z.lxor (Z.lxor a b) (Z.lxor c d) = Z.lxor (Z.lxor a c) (Z.lxor b d).
Proof. rewrite !Z.lxor_assoc. f_equal. rewrite <- !Z.lxor_assoc. f_equal. apply Z.lxor_comm. Qed.

Lemma crc32_bit_lxor a b : crc32_bit (Z.lxor a b) = Z.lxor (crc32_bit a) (crc32_bit b).
Proof.
  unfold crc32_bit. rewrite <- !Z.bit0_odd, Z.lxor_spec, Z.shiftr_lxor.
  destruct (Z.testbit a 0), (Z.testbit b 0); cbn [xorb].
  - by rewrite xor_swap, Z.lxor_nilpotent, Z.lxor_0_r.
  - by rewrite !Z.lxor_assoc, (Z.lxor_comm (Z.shiftr b 1)).
  - by rewrite Z.lxor_assoc.
  - done.
Qed.

Lemma crc32_bit8_lxor a b : crc32_bit8 (Z.lxor a b) = Z.lxor (crc32_bit8 a) (crc32_bit8 b).
Proof. unfold crc32_bit8. cbn [Nat.iter nat_rect]. by rewrite !crc32_bit_lxor. Qed.

Lemma crc32_bit_even a : crc32_bit (2 * a) = a.
Proof. unfold crc32_bit. rewrite Z.odd_mul. cbn [Z.odd andb]. by rewrite Z.shiftr_div_pow2, Z.mul_comm, Z.div_mul. Qed.

(** Eight steps on a value whose low byte is zero just shift it down. *)
Lemma crc32_bit8_high a : crc32_bit8 (Z.shiftl a 8) = a.
Proof.
  rewrite Z.shiftl_mul_pow2 by lia.
  replace (a * 2 ^ 8) with (2 * (2 * (2 * (2 * (2 * (2 * (2 * (2 * a)))))))) by lia.
  unfold crc32_bit8. cbn [Nat.iter nat_rect]. by rewrite !crc32_bit_even.
Qed.

Lemma table_is_crc32_bit8 b : is_u8 b -> crc32_bit8 b = nth (Z.to_nat b) g_crc32tab 0.
Proof.
  intros Hb. apply Z.eqb_eq. generalize b Hb. apply (all_bytes (fun b => crc32_bit8 b =? nth (Z.to_nat b) g_crc32tab 0)).
  by vm_compute.
Qed.

(** A number is its low byte and the rest. *)
Lemma split_byte x : x = Z.lxor (Z.shiftl (Z.shiftr x 8) 8) (Z.land x 0xff).
Proof.
  apply Z.bits_inj'. intros n Hn. rewrite Z.lxor_spec, Z.shiftl_spec, Z.land_spec by done.
  change 0xff with (Z.ones 8). rewrite Z.testbit_ones_nonneg by lia. destruct (Z.ltb_spec n 8).
  - rewrite (Z.testbit_neg_r _ (n - 8)) by lia. by rewrite andb_true_r.
  - rewrite Z.shiftr_spec by lia. rewrite andb_false_r, xorb_false_r. f_equal. lia.
Qed.

Lemma land_byte x : is_u8 (Z.land x 0xff).
Proof. change 0xff with (Z.ones 8). rewrite Z.land_ones by lia. apply Z.mod_pos_bound. lia. Qed.

Lemma shiftr_byte b : is_u8 b -> Z.shiftr b 8 = 0.
Proof. intros Hb. rewrite Z.shiftr_div_pow2 by lia. by apply Z.div_small. Qed.

(** One turn of the loop is eight bitwise steps. *)
Lemma crc32_step_bit8 crc b : is_u8 b -> crc32_step crc b = crc32_bit8 (Z.lxor crc b).
Proof.
  intros Hb. rewrite (split_byte (Z.lxor crc b)), crc32_bit8_lxor, crc32_bit8_high, (table_is_crc32_bit8 _ (land_byte _)).
  unfold crc32_step. rewrite Z.shiftr_lxor, (shiftr_byte b Hb), Z.lxor_0_r. apply Z.lxor_comm.
Qed.

Lemma crc32_run bytes crc : Forall is_u8 bytes ->
  fold_left crc32_step bytes crc = fold_left (fun c b => crc32_bit8 (Z.lxor c b)) bytes crc.
Proof.
  intros Hb. revert crc. induction Hb as [|b bytes Hb _ IH]; intros crc; [done|]. cbn [fold_left]. by rewrite crc32_step_bit8, IH.
Qed.

(** The table-driven checksum is CRC-32, with the polynomial 0xEDB88320 applied bit by bit. *)
Theorem froto_crc32_correct buf size : Forall is_u8 buf -> size <= Z.of_nat (length buf) ->
  froto_crc32 buf size = Some (crc32_ref (take (Z.to_nat size) buf)).
Proof.
  intros Hb Hs. unfold froto_crc32. rewrite (proj2 (Z.leb_le _ _) Hs). f_equal. unfold crc32_ref. f_equal.
  apply crc32_run. by apply Forall_take.
Qed.

Lemma froto_crc32_correct_witness : froto_crc32 [49; 50; 51] 3 = Some (crc32_ref [49; 50; 51]).
Proof. apply (froto_crc32_correct [49; 50; 51] 3); [repeat constructor; unfold is_u8; lia|cbn; lia]. Defined.

(** ** Damage that is noticed *)

Lemma lxor_bound n a b : 0 <= n -> 0 <= a < 2 ^ n -> 0 <= b < 2 ^ n -> 0 <= Z.lxor a b < 2 ^ n.
Proof.
  intros Hn Ha Hb. assert (forall x m, 0 <= x < 2 ^ n -> n <= m -> Z.testbit x m = false) as Hhigh.
  { intros x m Hx Hm. destruct (Z.eq_dec x 0) as [->|]; [apply Z.bits_0|]. apply Z.bits_above_log2; [lia|].
    apply Z.lt_le_trans with n; [apply Z.log2_lt_pow2; lia|done]. }
  assert (Z.lxor a b = Z.land (Z.lxor a b) (Z.ones n)) as ->.
  { apply Z.bits_inj'. intros m Hm. rewrite Z.land_spec, Z.testbit_ones_nonneg by lia. destruct (Z.ltb_spec m n); [by rewrite andb_true_r|].
    by rewrite andb_false_r, Z.lxor_spec, !Hhigh. }
  rewrite Z.land_ones by done. apply Z.mod_pos_bound. lia.
Qed.

Lemma crc32_bit_u32 c : is_u32 c -> is_u32 (crc32_bit c).
Proof.
  unfold is_u32, crc32_bit. intros Hc. assert (0 <= Z.shiftr c 1 < 2 ^ 32).
  { rewrite Z.shiftr_div_pow2 by lia. change (2 ^ 1) with 2. Z.div_mod_to_equations. lia. }
  destruct (Z.odd c); [|done]. apply (lxor_bound 32); lia.
Qed.

(** The highest bit after a step is the lowest one before it. *)
Lemma crc32_bit_inj a b : is_u32 a -> is_u32 b -> crc32_bit a = crc32_bit b -> a = b.
Proof.
  intros Ha Hb E. assert (forall c, is_u32 c -> Z.testbit (crc32_bit c) 31 = Z.odd c) as Htop.
  { intros c Hc. assert (Z.testbit (Z.shiftr c 1) 31 = false) as H.
    { rewrite Z.shiftr_spec by lia. change (31 + 1) with 32. rewrite Z.testbit_false by lia. by rewrite Z.div_small. }
    unfold crc32_bit. destruct (Z.odd c); [|done]. by rewrite Z.lxor_spec, H. }
  assert (Z.odd a = Z.odd b) as Eo by by rewrite <- !Htop, E.
  assert (Z.shiftr a 1 = Z.shiftr b 1) as Es.
  { unfold crc32_bit in E. rewrite Eo in E. destruct (Z.odd b); [|done].
    apply (f_equal (fun x => Z.lxor x 0xEDB88320)) in E. by rewrite !Z.lxor_assoc, !Z.lxor_nilpotent, !Z.lxor_0_r in E. }
  rewrite !Z.shiftr_div_pow2 in Es by lia. rewrite (Z.div_mod a 2), (Z.div_mod b 2) by lia.
  rewrite !Zmod_odd, Eo. change (2 ^ 1) with 2 in Es. by rewrite Es.
Qed.

Lemma iter_inj (f : Z -> Z) (P : Z -> Prop) n a b : (forall x, P x -> P (f x)) -> (forall x y, P x -> P y -> f x = f y -> x = y) ->
  P a -> P b -> Nat.iter n f a = Nat.iter n f b -> a = b.
Proof.
  intros Hf Hinj Ha Hb. assert (forall x, P x -> P (Nat.iter n f x)) as Hp by (intros x Hx; induction n; cbn; auto).
  induction n as [|n IH]; cbn [Nat.iter nat_rect]; [done|].
  assert (forall x, P x -> P (Nat.iter n f x)) as Hp' by (intros x Hx; clear -Hf Hx; induction n; cbn; auto).
  intros E. apply IH; [done|]. by apply Hinj; [apply Hp'|apply Hp'|].
Qed.

Lemma crc32_bit8_u32 c : is_u32 c -> is_u32 (crc32_bit8 c).
Proof. intros Hc. unfold crc32_bit8. cbn [Nat.iter nat_rect]. by do 8 apply crc32_bit_u32. Qed.

Lemma crc32_bit8_inj a b : is_u32 a -> is_u32 b -> crc32_bit8 a = crc32_bit8 b -> a = b.
Proof. intros Ha Hb. apply (iter_inj crc32_bit is_u32); [apply crc32_bit_u32|apply crc32_bit_inj|done..]. Qed.

Definition crc32_bytes (bytes : list Z) (crc : Z) : Z := fold_left (fun c b => crc32_bit8 (Z.lxor c b)) bytes crc.

Lemma is_u8_u32 b : is_u8 b -> is_u32 b.
Proof. unfold is_u8, is_u32. lia. Qed.

Lemma crc32_bytes_u32 bytes crc : Forall is_u8 bytes -> is_u32 crc -> is_u32 (crc32_bytes bytes crc).
Proof.
  intros Hb. revert crc. induction Hb as [|b bytes Hb _ IH]; intros crc Hc; [done|]. apply IH, crc32_bit8_u32.
  apply (lxor_bound 32); [lia|done|by apply is_u8_u32].
Qed.

(** The bytes that follow cannot undo a difference. *)
Lemma crc32_bytes_inj bytes c c' : Forall is_u8 bytes -> is_u32 c -> is_u32 c' -> crc32_bytes bytes c = crc32_bytes bytes c' -> c = c'.
Proof.
  intros Hb. revert c c'. induction Hb as [|b bytes Hb _ IH]; intros c c' Hc Hc'; [done|]. cbn. intros E.
  assert (forall x, is_u32 x -> is_u32 (Z.lxor x b)) as Hx by (intros x Hx; apply (lxor_bound 32); [lia|done|by apply is_u8_u32]).
  apply IH in E; [|apply crc32_bit8_u32; auto..]. apply crc32_bit8_inj in E; [|auto..].
  apply (f_equal (fun x => Z.lxor x b)) in E. by rewrite !Z.lxor_assoc, !Z.lxor_nilpotent, !Z.lxor_0_r in E.
Qed.

(** Bytes as a number, the first one lowest. *)
Fixpoint le_word (bytes : list Z) : Z := match bytes with [] => 0 | b :: bytes => Z.lxor b (Z.shiftl (le_word bytes) 8) end.

Lemma crc32_bytes_word bytes c : crc32_bytes bytes c = Nat.iter (length bytes) crc32_bit8 (Z.lxor c (le_word bytes)).
Proof.
  revert c. induction bytes as [|b bytes IH]; intros c; cbn [crc32_bytes fold_left length le_word]; [by rewrite Z.lxor_0_r|].
  change (crc32_bytes bytes (crc32_bit8 (Z.lxor c b)) = Nat.iter (S (length bytes)) crc32_bit8 (Z.lxor c (Z.lxor b (Z.shiftl (le_word bytes) 8)))).
  rewrite IH, Nat.iter_succ_r. f_equal. by rewrite <- Z.lxor_assoc, (crc32_bit8_lxor (Z.lxor c b)), crc32_bit8_high.
Qed.

Lemma le_word_cons b bytes : is_u8 b -> le_word (b :: bytes) = b + 256 * le_word bytes.
Proof.
  intros Hb. cbn [le_word]. rewrite Z.lxor_comm, Z.lxor_lor by (apply land_shiftl_low; [lia|exact Hb]).
  rewrite lor_shiftl_add by (lia || exact Hb). lia.
Qed.

Lemma le_word_bound bytes : Forall is_u8 bytes -> 0 <= le_word bytes < 2 ^ (8 * Z.of_nat (length bytes)).
Proof.
  induction 1 as [|b bytes Hb _ IH]; [done|]. rewrite le_word_cons by done. cbn [length]. unfold is_u8 in Hb.
  replace (8 * Z.of_nat (S (length bytes))) with (8 + 8 * Z.of_nat (length bytes)) by lia. rewrite Z.pow_add_r by lia. lia.
Qed.

Lemma le_word_inj bs bs' : Forall is_u8 bs -> Forall is_u8 bs' -> length bs = length bs' -> le_word bs = le_word bs' -> bs = bs'.
Proof.
  intros Hb. revert bs'. induction Hb as [|b bs Hb _ IH]; intros bs' Hb' Hl E; [by destruct bs'|].
  destruct bs' as [|b' bs']; [done|]. apply Forall_cons_1 in Hb' as [Hb1 Hb2]. rewrite !le_word_cons in E by done.
  unfold is_u8 in Hb, Hb1. injection Hl as Hl. f_equal; [lia|]. apply IH; [done..|lia].
Qed.

(** C39: The checksum notices every damage that is confined to four neighbouring bytes, wherever
    in the data they are. *)
Theorem froto_crc32_notices_damage pre bs bs' post : Forall is_u8 (pre ++ bs ++ post) -> Forall is_u8 bs' ->
  length bs' = length bs -> (length bs <= 4)%nat -> bs' <> bs ->
  froto_crc32 (pre ++ bs' ++ post) (Z.of_nat (length (pre ++ bs' ++ post))) <>
  froto_crc32 (pre ++ bs ++ post) (Z.of_nat (length (pre ++ bs ++ post))).
Proof.
  intros [Hpre [Hbs Hpost]%Forall_app]%Forall_app Hbs' Hl H4 Hne. unfold froto_crc32. rewrite !Z.leb_refl, !Nat2Z.id, !firstn_all.
  intros [= E]. apply (f_equal (fun x => Z.lxor x 0xFFFFFFFF)) in E. rewrite !Z.lxor_assoc, !Z.lxor_nilpotent, !Z.lxor_0_r in E.
  rewrite !crc32_run in E by (repeat (apply Forall_app; split); done). rewrite !fold_left_app in E.
  change (crc32_bytes post (crc32_bytes bs' (crc32_bytes pre 0xFFFFFFFF)) = crc32_bytes post (crc32_bytes bs (crc32_bytes pre 0xFFFFFFFF))) in E.
  assert (is_u32 (crc32_bytes pre 0xFFFFFFFF)) as Hc by (apply crc32_bytes_u32; [done|unfold is_u32; lia]).
  revert Hc E. generalize (crc32_bytes pre 0xFFFFFFFF). intros c Hc E.
  apply crc32_bytes_inj in E; [|done|by apply crc32_bytes_u32..]. rewrite !crc32_bytes_word, Hl in E. apply Hne.
  assert (forall l, Forall is_u8 l -> length l = length bs -> is_u32 (Z.lxor c (le_word l))) as Hw.
  { intros l Hlb Hll. apply (lxor_bound 32); [lia|exact Hc|]. pose proof (le_word_bound l Hlb) as Hb. split; [lia|].
    eapply Z.lt_le_trans; [apply Hb|]. apply Z.pow_le_mono_r; lia. }
  apply (iter_inj crc32_bit8 is_u32) in E; [|apply crc32_bit8_u32|apply crc32_bit8_inj|by apply Hw..].
  apply le_word_inj; [done..|]. apply (f_equal (Z.lxor c)) in E. by rewrite <- !Z.lxor_assoc, !Z.lxor_nilpotent, !Z.lxor_0_l in E.
Qed.

Lemma froto_crc32_notices_damage_witness : froto_crc32 [1; 9; 9; 4] 4 <> froto_crc32 [1; 2; 3; 4] 4.
Proof.
  apply (froto_crc32_notices_damage [1] [2; 3] [9; 9] [4]); [repeat constructor; unfold is_u8; lia..|done|cbn; lia|done].
Defined.
