(* ===== verification/Protobuf.v ===== *)
(** * Protobuf: the wire format

    nanopb, [skf_gw_mqtt/middleware/protobuf/pb_decode.c] and [pb_encode.c], as the
    gateway process uses it: streams over a buffer in memory, variable-length
    integers, tags, strings and their substreams, fields that are skipped, and the loop that
    decodes a message field by field. A read outside of the buffer is [Undef Wild];
    a call that returns false is [Failed], with the stream as it leaves it. *)

From S2P Require Import Prelude.
From Stdlib Require Import ZArith Lia ZifyBool List Bool.
From stdpp Require Import base list numbers option.
Open Scope Z_scope.

(** ** Streams *)

(** [pb_istream_t] with the callback [buf_read]: the buffer, the position
    that [state] points to, and the bytes left. *)
Record pb_istream_t := Istream { buf : list Z; state : Z; bytes_left : Z }.

Definition pb_istream_from_buffer (b : list Z) (msglen : Z) : pb_istream_t := Istream b 0 msglen.

Definition advance (n : Z) (s : pb_istream_t) : pb_istream_t :=
  Istream (buf s) (state s + n) (bytes_left s - n).

(** Why there is no result: the language defines none, or the fuel of a loop is used up. *)
Inductive stuck := Wild | NoFuel.

Inductive outcome (A : Type) := Ok (a : A) (s : pb_istream_t) | Failed (s : pb_istream_t) | Undef (w : stuck).
Arguments Ok {A}. Arguments Failed {A}. Arguments Undef {A}.

Definition reader (A : Type) := pb_istream_t -> outcome A.

Definition ret {A} (a : A) : reader A := Ok a.
Definition bind {A B} (r : reader A) (f : A -> reader B) : reader B := fun s =>
  match r s with Ok a s' => f a s' | Failed s' => Failed s' | Undef w => Undef w end.
(** [PB_RETURN_ERROR] *)
Definition fail {A} : reader A := Failed.

Declare Scope reader_scope.
Delimit Scope reader_scope with reader.
Notation "'let!' x := r 'in' f" := (bind r (fun x => f))
  (at level 10, x name, r at level 100, f at level 200) : reader_scope.
Notation "r1 ;;! r2" := (bind r1 (fun _ => r2)) (at level 100, right associativity) : reader_scope.
Open Scope reader_scope.

(** [pb_read] into a buffer; [None] is [NULL], and [buf_read] then only moves the pointer. *)
Definition pb_read (into : bool) (count : Z) : reader (list Z) := fun s =>
  if count =? 0 then Ok [] s
  else if bytes_left s <? count then Failed s
  else if into && negb (state s + count <=? Z.of_nat (length (buf s))) then Undef Wild
  else Ok (if into then take (Z.to_nat count) (drop (Z.to_nat (state s)) (buf s)) else []) (advance count s).

Definition pb_readbyte : reader Z := fun s =>
  if bytes_left s =? 0 then Failed s
  else match buf s !! Z.to_nat (state s) with None => Undef Wild | Some b => Ok b (advance 1 s) end.

(** ** Variable-length integers *)

(** The [do]-loop of [pb_decode_varint32_eof]: at [bitpos] 70 it has failed. *)
Fixpoint varint32_more (fuel : nat) (bitpos result : Z) : reader Z :=
  match fuel with
  | O => fun _ => Undef NoFuel
  | S fuel =>
      let! byte := pb_readbyte in
      let more result := if negb (Z.land byte 0x80 =? 0) then varint32_more fuel (u8 (bitpos + 7)) result else ret result in
      if 32 <=? bitpos then
        let sign_extension := if bitpos <? 63 then 0xFF else 0x01 in
        let valid_extension := (Z.land byte 0x7F =? 0) ||
          (negb (Z.shiftr result 31 =? 0) && (byte =? sign_extension)) in
        if (64 <=? bitpos) || negb valid_extension then fail else more result
      else if bitpos =? 28 then
        if negb (Z.land byte 0x70 =? 0) && negb (Z.land byte 0x78 =? 0x78) then fail
        else more (Z.lor result (u32 (Z.shiftl (Z.land byte 0x0F) bitpos)))
      else more (Z.lor result (u32 (Z.shiftl (Z.land byte 0x7F) bitpos)))
  end.

Definition VARINT_FUEL : nat := 10.

(** [eof] is set when no byte is left at the start: [bytes_left s =? 0]. *)
Definition pb_decode_varint32 : reader Z :=
  let! byte := pb_readbyte in
  if Z.land byte 0x80 =? 0 then ret byte
  else varint32_more VARINT_FUEL 7 (Z.land byte 0x7F).

Definition u64 (x : Z) : Z := x mod 2 ^ 64.

Fixpoint varint_more (fuel : nat) (bitpos result : Z) : reader Z :=
  match fuel with
  | O => fun _ => Undef NoFuel
  | S fuel =>
      let! byte := pb_readbyte in
      if (63 <=? bitpos) && negb (Z.land byte 0xFE =? 0) then fail
      else
        let result := Z.lor result (u64 (Z.shiftl (Z.land byte 0x7F) bitpos)) in
        if negb (Z.land byte 0x80 =? 0) then varint_more fuel (u8 (bitpos + 7)) result else ret result
  end.

Definition pb_decode_varint : reader Z := varint_more VARINT_FUEL 0 0.

(** ** Tags, strings, substreams *)

(** The fuel of the loops that stop at the end of the stream. *)
Definition stream_fuel (s : pb_istream_t) : nat := S (Z.to_nat (bytes_left s)).

Fixpoint skip_varint (fuel : nat) : reader unit :=
  match fuel with
  | O => fun _ => Undef NoFuel
  | S fuel =>
      let! byte := pb_read true 1 in
      if negb (Z.land (nth 0 byte 0) 0x80 =? 0) then skip_varint fuel else ret tt
  end.

Definition pb_skip_varint : reader unit := fun s => skip_varint (stream_fuel s) s.

Definition pb_skip_string : reader unit :=
  let! length := pb_decode_varint32 in pb_read false length ;;! ret tt.

Definition PB_WT_VARINT : Z := 0.
Definition PB_WT_64BIT : Z := 1.
Definition PB_WT_STRING : Z := 2.
Definition PB_WT_32BIT : Z := 5.

(** The wire type and the tag. *)
Definition pb_decode_tag : reader (Z * Z) :=
  let! temp := pb_decode_varint32 in ret (Z.land temp 7, Z.shiftr temp 3).

Definition pb_skip_field (wire_type : Z) : reader unit :=
  if wire_type =? PB_WT_VARINT then pb_skip_varint
  else if wire_type =? PB_WT_64BIT then pb_read false 8 ;;! ret tt
  else if wire_type =? PB_WT_STRING then pb_skip_string
  else if wire_type =? PB_WT_32BIT then pb_read false 4 ;;! ret tt
  else fail.

(** [read_raw_value] into a buffer of [max_size] bytes; what was read is the result. *)
Fixpoint raw_varint (fuel : nat) (max_size : Z) (raw : list Z) : reader (list Z) :=
  match fuel with
  | O => fun _ => Undef NoFuel
  | S fuel =>
      if max_size <? Z.of_nat (length raw) + 1 then fail
      else
        let! byte := pb_read true 1 in
        if negb (Z.land (nth 0 byte 0) 0x80 =? 0) then raw_varint fuel max_size (raw ++ byte) else ret (raw ++ byte)
  end.

Definition read_raw_value (wire_type max_size : Z) : reader (list Z) :=
  if wire_type =? PB_WT_VARINT then raw_varint (S (Z.to_nat max_size)) max_size []
  else if wire_type =? PB_WT_64BIT then pb_read true 8
  else if wire_type =? PB_WT_32BIT then pb_read true 4
  else fail.

(** The stream [s] after the length was read, and the result of the call: on
    success the substream is the next [size] bytes; when the parent is too short
    the call fails, but the substream is assigned, with all of the parent's bytes;
    when there is no length it is not assigned. *)
Inductive substream_outcome :=
  | SubOk (substream s : pb_istream_t)
  | SubTooShort (substream s : pb_istream_t)
  | SubFailed (s : pb_istream_t)
  | SubUndef (w : stuck).

Definition pb_make_string_substream (s : pb_istream_t) : substream_outcome :=
  match pb_decode_varint32 s with
  | Undef w => SubUndef w
  | Failed s => SubFailed s
  | Ok size s =>
      if bytes_left s <? size then SubTooShort s s
      else SubOk (Istream (buf s) (state s) size) (Istream (buf s) (state s) (bytes_left s - size))
  end.

(** The stream goes on where the substream ends. *)
Definition pb_close_string_substream (s substream : pb_istream_t) : outcome unit :=
  match (if negb (bytes_left substream =? 0) then pb_read false (bytes_left substream) substream else Ok [] substream) with
  | Ok _ substream => Ok tt (Istream (buf substream) (state substream) (bytes_left s))
  | Failed _ => Failed s
  | Undef w => Undef w
  end.

(** ** The fields of a message *)

Section message.
(** The structure that is filled. *)
Context {M : Type}.

Definition callback := M -> pb_istream_t -> outcome M.

(** [do ... while(substream.bytes_left > 0 && substream.bytes_left < prev_bytes_left)] *)
Fixpoint call_callback (fuel : nat) (cb : callback) (m : M) : reader M :=
  match fuel with
  | O => fun _ => Undef NoFuel
  | S fuel => fun s =>
      match cb m s with
      | Ok m s' =>
          if (0 <? bytes_left s') && (bytes_left s' <? bytes_left s) then call_callback fuel cb m s' else Ok m s'
      | r => r
      end
  end.

Definition decode_callback_field (wire_type : Z) (cb : callback) (m : M) : reader M := fun s =>
  if wire_type =? PB_WT_STRING then
    match pb_make_string_substream s with
    | SubUndef w => Undef w
    | SubFailed s | SubTooShort _ s => Failed s
    | SubOk substream s =>
        match call_callback (stream_fuel substream) cb m substream with
        | Undef w => Undef w
        | Failed _ => Failed s
        | Ok m substream =>
            match pb_close_string_substream s substream with
            | Ok _ s => Ok m s | Failed s => Failed s | Undef w => Undef w
            end
        end
    end
  else
    match read_raw_value wire_type 10 s with
    | Undef w => Undef w
    | Failed s => Failed s
    | Ok buffer s =>
        match cb m (pb_istream_from_buffer buffer (Z.of_nat (length buffer))) with
        | Undef w => Undef w
        | Failed _ => Failed s
        | Ok m _ => Ok m s
        end
    end.

(** What a field of the descriptor does, by its tag: [pb_field_iter_find] and [decode_field]. *)
Context (decode_field : Z -> option (Z -> M -> reader M)).

(** The loop of [pb_decode_inner]; a message has no extensions, required fields or fixed counts here. *)
Fixpoint decode_fields (fuel : nat) (m : M) : reader M :=
  match fuel with
  | O => fun _ => Undef NoFuel
  | S fuel => fun s =>
      if bytes_left s =? 0 then Ok m s
      else match pb_decode_tag s with
           | Undef w => Undef w
           | Failed s' => if bytes_left s =? 0 then Ok m s' else Failed s'
           | Ok (wire_type, tag) s =>
               if tag =? 0 then Failed s
               else
                 match decode_field tag with
                 | None => (pb_skip_field wire_type ;;! decode_fields fuel m) s
                 | Some d => bind (d wire_type m) (decode_fields fuel) s
                 end
           end
  end.

Definition pb_decode (defaults : M) : reader M := fun s => decode_fields (stream_fuel s) defaults s.
End message.
Arguments callback : clear implicits.

(** [pb_dec_varint] for an unsigned field of 32 bits. *)
Definition pb_dec_uvarint32 : reader Z :=
  let! value := pb_decode_varint in
  if u32 value =? value then ret value else fail.

Definition pb_decode_bool : reader Z :=
  let! value := pb_decode_varint32 in ret (if value =? 0 then 0 else 1).

(** ** Encoding *)

(** [pb_ostream_t]: what was written; [max_size] is that of the buffer. *)
Definition writer := list Z -> option (list Z).

Section encode.
Context (max_size : Z).

Definition pb_write (bytes : list Z) : writer := fun out =>
  if (0 <? length bytes)%nat && (max_size <? Z.of_nat (length out + length bytes)) then None else Some (out ++ bytes).

(** The first loop of [pb_encode_varint_32], [n] = 4 - [i]: the buffer, and [byte]. *)
Fixpoint encode_low (n : nat) (low high byte : Z) (buffer : list Z) : list Z * Z :=
  match n with
  | O => (buffer, byte)
  | S n =>
      if negb (low =? 0) || negb (high =? 0)
      then encode_low n (Z.shiftr low 7) high (Z.land low 0x7F) (buffer ++ [Z.lor byte 0x80])
      else (buffer, byte)
  end.

(** Its [while(high)]: 29 bits in groups of 7. *)
Fixpoint encode_high (fuel : nat) (high byte : Z) (buffer : list Z) : option (list Z * Z) :=
  if high =? 0 then Some (buffer, byte)
  else match fuel with
       | O => None
       | S fuel => encode_high fuel (Z.shiftr high 7) (Z.land high 0x7F) (buffer ++ [Z.lor byte 0x80])
       end.

Definition pb_encode_varint_32 (low high : Z) : writer := fun out =>
  let '(buffer, byte) := encode_low 4 (Z.shiftr low 7) high (Z.land low 0x7F) [] in
  match (if negb (high =? 0)
         then encode_high 5 (Z.shiftr high 3) (Z.lor byte (Z.shiftl (Z.land high 0x07) 4)) buffer
         else Some (buffer, byte)) with
  | None => None
  | Some (buffer, byte) => pb_write (buffer ++ [byte]) out
  end.

Definition pb_encode_varint (value : Z) : writer :=
  if value <=? 0x7F then pb_write [value]
  else pb_encode_varint_32 (u32 value) (Z.shiftr value 32).

Definition pb_encode_tag (wiretype field_number : Z) : writer :=
  pb_encode_varint (Z.lor (Z.shiftl field_number 3) wiretype).

Definition pb_encode_string (bytes : list Z) : writer := fun out =>
  match pb_encode_varint (Z.of_nat (length bytes)) out with
  | None => None
  | Some out => pb_write bytes out
  end.
End encode.

(** Checks. *)
Definition decoded {A} (r : reader A) (bytes : list Z) : option (A * Z) :=
  match r (pb_istream_from_buffer bytes (Z.of_nat (length bytes))) with
  | Ok a s => Some (a, bytes_left s) | _ => None end.

Example varint_300 : decoded pb_decode_varint32 [172; 2; 9] = Some (300, 1). Proof. reflexivity. Qed.
Example varint_enc_300 : pb_encode_varint 100 300 [] = Some [172; 2]. Proof. reflexivity. Qed.
Example varint_enc_max : pb_encode_varint 100 (2 ^ 64 - 1) [] = Some (repeat 255 9 ++ [1]). Proof. reflexivity. Qed.
Example varint_max : decoded pb_decode_varint (repeat 255 9 ++ [1]) = Some (2 ^ 64 - 1, 0). Proof. reflexivity. Qed.
(** A negative number is sign-extended to ten bytes; 32 bits are taken of it. *)
Example varint_minus_1 : decoded pb_decode_varint32 (repeat 255 9 ++ [1]) = Some (2 ^ 32 - 1, 0). Proof. reflexivity. Qed.
Example varint_too_large : decoded pb_decode_varint32 [255; 255; 255; 255; 31] = None. Proof. reflexivity. Qed.

(** ** No read outside of the buffer *)

Definition wf (s : pb_istream_t) : Prop :=
  Forall is_u8 (buf s) /\ 0 <= state s /\ 0 <= bytes_left s /\ state s + bytes_left s <= Z.of_nat (length (buf s)).

(** A successful call moves the stream on; after one that fails the stream may
    also have lost bytes that it never passes. *)
Definition moved (s s' : pb_istream_t) : Prop :=
  buf s' = buf s /\ state s <= state s' /\ (0 <= bytes_left s -> 0 <= bytes_left s') /\
  state s' + bytes_left s' = state s + bytes_left s.
Definition cut (s s' : pb_istream_t) : Prop :=
  buf s' = buf s /\ state s <= state s' /\ (0 <= bytes_left s -> 0 <= bytes_left s') /\
  state s' + bytes_left s' <= state s + bytes_left s.

Definition safe_at {A} (Q : A -> Prop) (r : reader A) (s : pb_istream_t) : Prop :=
  match r s with
  | Ok a s' => moved s s' /\ Q a
  | Failed s' => cut s s'
  | Undef _ => False
  end.

(** A reader that is defined on every stream within its buffer and stays within it. *)
Class safe {A} (Q : A -> Prop) (r : reader A) : Prop := safe_here s : wf s -> safe_at Q r s.

#[export] Instance moved_preorder : PreOrder moved.
Proof.
  split; [intros s; unfold moved; repeat split; lia|].
  intros a b c (? & ? & ? & ?) (? & ? & ? & ?). unfold moved. repeat split; [congruence|lia..].
Qed.
#[export] Instance cut_preorder : PreOrder cut.
Proof.
  split; [intros s; unfold cut; repeat split; lia|].
  intros a b c (? & ? & ? & ?) (? & ? & ? & ?). unfold cut. repeat split; [congruence|lia..].
Qed.
#[export] Instance moved_cut : subrelation moved cut.
Proof. intros s s' (? & ? & ? & ?). unfold cut. repeat split; (done || lia). Qed.

Lemma wf_cut s s' : wf s -> cut s s' -> wf s'.
Proof. intros (? & ? & ? & ?) (E & ? & ? & ?). unfold wf. rewrite E. repeat split; (done || lia). Qed.
Lemma wf_moved s s' : wf s -> moved s s' -> wf s'.
Proof. intros Hs H%moved_cut. by eapply wf_cut. Qed.

Lemma moved_advance n s : 0 <= n <= bytes_left s -> moved s (advance n s).
Proof. intros Hn. unfold moved, advance. cbn. repeat split; lia. Qed.

Lemma safe_bind_at {A B} (Q : A -> Prop) (R : B -> Prop) r f s :
  safe_at Q r s -> (forall a s', moved s s' -> Q a -> safe_at R (f a) s') -> safe_at R (bind r f) s.
Proof.
  unfold safe_at, bind. intros Hr Hf. destruct (r s) as [a s'|s'|]; [|done|done]. destruct Hr as [Hm Ha].
  specialize (Hf a s' Hm Ha). destruct (f a s') as [b s''|s''|]; [|by transitivity s'; [apply moved_cut|]|done].
  destruct Hf as [Hm' Hb]. split; [by transitivity s'|done].
Qed.

#[export] Instance safe_bind {A B} (Q : A -> Prop) (R : B -> Prop) r f :
  safe Q r -> (forall a, Q a -> safe R (f a)) -> safe R (bind r f).
Proof.
  intros Hr Hf s Hs. apply (safe_bind_at Q); [by apply Hr|]. intros a s' Hm Ha. apply Hf; [done|]. by eapply wf_moved.
Qed.

Lemma safe_ret_at {A} (Q : A -> Prop) a s : Q a -> safe_at Q (ret a) s.
Proof. done. Qed.
#[export] Instance safe_ret {A} (Q : A -> Prop) a : Q a -> safe Q (ret a).
Proof. intros H s _. by apply safe_ret_at. Qed.
#[export] Instance safe_fail {A} (Q : A -> Prop) : safe Q fail.
Proof. intros s _. unfold safe_at, fail. reflexivity. Qed.

Lemma safe_weaken {A} (Q R : A -> Prop) r : safe Q r -> (forall a, Q a -> R a) -> safe R r.
Proof.
  intros Hr HQR s Hs. specialize (Hr s Hs). unfold safe_at in *. destruct (r s); [|done|done].
  destruct Hr. split; [done|by apply HQR].
Qed.

(** A byte is read, and it is one of the buffer. *)
Lemma readbyte_at s : wf s -> safe_at is_u8 pb_readbyte s.
Proof.
  intros (Hb & Hp & Hl & Hle). unfold safe_at, pb_readbyte. destruct (Z.eqb_spec (bytes_left s) 0) as [E|E]; [reflexivity|].
  destruct (lookup_lt_is_Some_2 (buf s) (Z.to_nat (state s))) as [b Eb]; [lia|]. rewrite Eb. split.
  - apply moved_advance. lia.
  - by apply (Forall_lookup_1 _ _ _ _ Hb Eb).
Qed.
#[export] Instance safe_readbyte : safe is_u8 pb_readbyte.
Proof. intros s. apply readbyte_at. Qed.

Lemma Forall_slice (l : list Z) i n : Forall is_u8 l -> Forall is_u8 (take n (drop i l)).
Proof. intros H. by apply Forall_take, Forall_drop. Qed.

#[export] Instance safe_read into count : 0 <= count ->
  safe (fun bs => Forall is_u8 bs /\ (into = true -> Z.of_nat (length bs) = count)) (pb_read into count).
Proof.
  intros Hc s Hs. pose proof Hs as (Hb & Hp & Hl & Hle). unfold safe_at, pb_read.
  destruct (Z.eqb_spec count 0) as [->|Hc0]; [split; [reflexivity|]; split; [constructor|done]|].
  destruct (Z.ltb_spec (bytes_left s) count); [reflexivity|].
  rewrite (proj2 (Z.leb_le (state s + count) _)) by lia. rewrite andb_false_r. split; [apply moved_advance; lia|].
  destruct into; (split; [|done || (intros _; rewrite length_take, length_drop; lia)]); [by apply Forall_slice|constructor].
Qed.

(** ** Bytes of variable-length integers *)

Lemma more_bit b : is_u8 b -> (Z.land b 0x80 =? 0) = (b <? 128).
Proof.
  intros Hb. apply eqb_prop. apply (all_bytes (fun b => eqb (Z.land b 0x80 =? 0) (b <? 128))); done.
Qed.

Lemma low_bits b : Z.land b 0x7F = b mod 128.
Proof. change 0x7F with (Z.ones 7). by rewrite Z.land_ones. Qed.

Lemma lor_bits a b k : 0 <= k -> 0 <= a < 2 ^ k -> Z.lor a (Z.shiftl b k) = a + b * 2 ^ k.
Proof. intros Hk Ha. rewrite Z.lor_comm, lor_shiftl_add by done. lia. Qed.

Lemma lor_group a b k n : 0 <= k -> 0 <= a < 2 ^ k -> 0 <= b < 2 ^ n -> 0 <= n ->
  0 <= Z.lor a (Z.shiftl b k) < 2 ^ (k + n).
Proof. intros Hk Ha Hb Hn. rewrite lor_bits by done. rewrite Z.pow_add_r by done. nia. Qed.

Lemma pow2_le_u32 k : 0 <= k <= 32 -> 2 ^ k <= 2 ^ 32.
Proof. intros Hk. apply Z.pow_le_mono_r; lia. Qed.

(** The bound of [result] after [bitpos] bits. *)
Definition result_bound (bitpos : Z) : Z := 2 ^ (if bitpos <? 32 then bitpos else 32).

Lemma safe_varint32_more fuel bitpos result : (0 < fuel)%nat -> bitpos + 7 * Z.of_nat fuel = 77 ->
  0 <= bitpos -> 0 <= result < result_bound bitpos -> safe is_u32 (varint32_more fuel bitpos result).
Proof.
  revert bitpos result. induction fuel as [|fuel IH]; intros bitpos result Hf Hsum Hp Hr; [lia|].
  apply safe_bind with (Q := is_u8); [apply safe_readbyte|]. intros byte Hbyte. cbv zeta. unfold result_bound in *.
  assert (u8 (bitpos + 7) = bitpos + 7) as Eu by (apply u8_id; unfold is_u8; lia). rewrite Eu.
  assert (forall r', bitpos < 64 -> 0 <= r' < result_bound (bitpos + 7) ->
    safe is_u32 (if negb (Z.land byte 128 =? 0) then varint32_more fuel (bitpos + 7) r' else ret r')) as Hmore.
  { intros r' Hlt Hr'. destruct (negb _).
    - apply IH; [lia..|done].
    - apply safe_ret. unfold result_bound in Hr'. unfold is_u32. change 4294967296 with (2 ^ 32).
      pose proof (pow2_le_u32 (if bitpos + 7 <? 32 then bitpos + 7 else 32)). destruct (bitpos + 7 <? 32) eqn:E; lia. }
  unfold result_bound in Hmore.
  destruct (Z.leb_spec 32 bitpos) as [H32|H32].
  - destruct (_ || _) eqn:E; [apply safe_fail|]. apply Hmore; [lia|].
    rewrite (proj2 (Z.ltb_ge _ _)) in Hr by lia. by rewrite (proj2 (Z.ltb_ge _ _)) by lia.
  - rewrite (proj2 (Z.ltb_lt _ _)) in Hr by lia. destruct (Z.eqb_spec bitpos 28) as [->|H28].
    + destruct (_ && _); [apply safe_fail|]. apply Hmore; [lia|].
      change 15 with (Z.ones 4). rewrite Z.land_ones by lia. rewrite u32_id.
      * replace (2 ^ (if 28 + 7 <? 32 then 28 + 7 else 32)) with (2 ^ (28 + 4)) by done. apply lor_group; [lia|done| |lia]. apply Z.mod_pos_bound. lia.
      * unfold is_u32. rewrite Z.shiftl_mul_pow2 by lia. pose proof (Z.mod_pos_bound byte (2 ^ 4)). lia.
    + assert (bitpos = 7 \/ bitpos = 14 \/ bitpos = 21 \/ bitpos = 0) as Hcases by lia.
      apply Hmore; [lia|]. rewrite (proj2 (Z.ltb_lt _ _)) by lia. rewrite low_bits, u32_id.
      * apply lor_group; [lia|done| |lia]. apply Z.mod_pos_bound. lia.
      * unfold is_u32. rewrite Z.shiftl_mul_pow2 by lia. pose proof (Z.mod_pos_bound byte 128).
        assert (2 ^ bitpos <= 2 ^ 21) by (apply Z.pow_le_mono_r; lia). nia.
Qed.

Lemma safe_varint32_rest byte : safe is_u32 (varint32_more VARINT_FUEL 7 (Z.land byte 0x7F)).
Proof.
  apply safe_varint32_more; [unfold VARINT_FUEL; lia..|]. rewrite low_bits. change (result_bound 7) with 128.
  apply Z.mod_pos_bound. lia.
Qed.

#[export] Instance safe_varint32 : safe is_u32 pb_decode_varint32.
Proof.
  apply safe_bind with (Q := is_u8); [apply safe_readbyte|]. intros byte Hbyte. destruct (_ =? 0).
  - apply safe_ret. unfold is_u8, is_u32 in *. lia.
  - apply safe_varint32_rest.
Qed.

Lemma safe_varint_more fuel bitpos result : (0 < fuel)%nat -> bitpos + 7 * Z.of_nat fuel = 70 ->
  0 <= bitpos -> 0 <= result < 2 ^ 64 -> safe (fun v => 0 <= v < 2 ^ 64) (varint_more fuel bitpos result).
Proof.
  revert bitpos result. induction fuel as [|fuel IH]; intros bitpos result Hf Hsum Hp Hr; [lia|].
  apply safe_bind with (Q := is_u8); [apply safe_readbyte|]. intros byte Hbyte. cbv zeta.
  destruct (_ && _) eqn:E; [apply safe_fail|].
  assert (0 <= Z.lor result (u64 (Z.shiftl (Z.land byte 0x7F) bitpos)) < 2 ^ 64) as Hr'.
  { assert (0 <= u64 (Z.shiftl (Z.land byte 0x7F) bitpos) < 2 ^ 64) as Hu by (apply Z.mod_pos_bound; lia).
    split; [apply Z.lor_nonneg; lia|]. apply Z.log2_lt_cancel.
    assert (Z.log2 result < 64) by (destruct (Z.eq_dec result 0) as [->|]; [done|apply Z.log2_lt_pow2; lia]).
    assert (Z.log2 (u64 (Z.shiftl (Z.land byte 0x7F) bitpos)) < 64)
      by (destruct (Z.eq_dec (u64 (Z.shiftl (Z.land byte 0x7F) bitpos)) 0) as [->|]; [done|apply Z.log2_lt_pow2; lia]).
    rewrite Z.log2_lor, Z.log2_pow2 by lia. lia. }
  rewrite u8_id by (unfold is_u8; lia). rewrite more_bit by done. destruct (Z.ltb_spec byte 128); cbn [negb].
  - by apply safe_ret.
  - destruct (Nat.eq_dec fuel 0%nat) as [->|]; [|apply IH; [lia..|done]]. exfalso. assert (bitpos = 63) as -> by lia.
    rewrite Z.leb_refl in E. cbn [andb] in E. apply negb_false_iff, Z.eqb_eq in E.
    assert (eqb (Z.land byte 0xFE =? 0) (byte <? 2) = true) as Hb
      by by apply (all_bytes (fun b => eqb (Z.land b 0xFE =? 0) (b <? 2))).
    rewrite E in Hb. apply eqb_prop in Hb. cbn in Hb. symmetry in Hb. apply Z.ltb_lt in Hb. lia.
Qed.

#[export] Instance safe_varint : safe (fun v => 0 <= v < 2 ^ 64) pb_decode_varint.
Proof. apply safe_varint_more; unfold VARINT_FUEL; lia. Qed.

(** ** Fields *)

Lemma bind_Ok {A B} (r : reader A) (f : A -> reader B) s b s'' :
  bind r f s = Ok b s'' -> exists a s', r s = Ok a s' /\ f a s' = Ok b s''.
Proof. unfold bind. destruct (r s) as [a s'| |]; [|done..]. by exists a, s'. Qed.

Lemma safe_Ok {A} (Q : A -> Prop) (r : reader A) `{!safe Q r} s a s' : wf s -> r s = Ok a s' -> moved s s' /\ Q a.
Proof. intros Hs E. pose proof (safe_here s Hs) as H. unfold safe_at in H. by rewrite E in H. Qed.

(** A variable-length integer has at least a byte. *)
Lemma varint32_progress s v s' : wf s -> pb_decode_varint32 s = Ok v s' -> bytes_left s' < bytes_left s.
Proof.
  intros Hs (byte & s1 & E1 & E)%bind_Ok. pose proof (readbyte_at s Hs) as H1. unfold safe_at in H1. rewrite E1 in H1.
  destruct H1 as [Hm Hbyte].
  assert (bytes_left s1 < bytes_left s) as Hlt.
  { unfold pb_readbyte in E1. destruct (_ =? 0); [done|]. destruct (_ !! _); [|done]. injection E1 as _ <-. cbn. lia. }
  cut (bytes_left s' <= bytes_left s1); [lia|]. destruct (_ =? 0); [by injection E as _ <-|].
  assert (safe is_u32 (varint32_more VARINT_FUEL 7 (Z.land byte 0x7F))) as Hsafe by apply safe_varint32_rest.
  apply (safe_Ok is_u32) in E; [|done|by eapply wf_moved]. destruct E as [(_ & ? & _ & ?) _]. lia.
Qed.

#[export] Instance safe_tag : safe (fun _ => True) pb_decode_tag.
Proof. apply safe_bind with (Q := is_u32); [apply safe_varint32|]. intros v _. by apply safe_ret. Qed.

Lemma tag_progress s t s' : wf s -> pb_decode_tag s = Ok t s' -> moved s s' /\ bytes_left s' < bytes_left s.
Proof.
  intros Hs E. split; [by apply (safe_Ok (fun _ => True) pb_decode_tag) in E as [? _]|].
  apply bind_Ok in E as (v & s1 & E1 & E). injection E as _ <-. by eapply varint32_progress.
Qed.

Lemma read1_at s : wf s -> safe_at (fun bs => Forall is_u8 bs /\ Z.of_nat (length bs) = 1) (pb_read true 1) s /\
  forall bs s', pb_read true 1 s = Ok bs s' -> bytes_left s' < bytes_left s.
Proof.
  intros Hs. split.
  - pose proof (safe_read true 1 ltac:(lia) s Hs) as H. unfold safe_at in *. destruct (pb_read true 1 s); [|done..].
    destruct H as (? & ? & H). by rewrite H.
  - intros bs s'. unfold pb_read. cbn [Z.eqb]. destruct (_ <? _); [done|]. destruct (_ && _); [done|].
    intros [= _ <-]. cbn. lia.
Qed.

Lemma skip_varint_at fuel s : wf s -> bytes_left s < Z.of_nat fuel -> safe_at (fun _ => True) (skip_varint fuel) s.
Proof.
  revert s. induction fuel as [|fuel IH]; intros s Hs Hf; [unfold wf in Hs; lia|]. cbn [skip_varint].
  destruct (read1_at s Hs) as [H1 Hp]. unfold safe_at, bind in *. destruct (pb_read true 1 s) as [bs s1|s1|]; [|done..].
  specialize (Hp bs s1 eq_refl). destruct H1 as [Hm _]. destruct (negb _); [|done].
  specialize (IH s1 (wf_moved _ _ Hs Hm) ltac:(lia)). destruct (skip_varint fuel s1).
  - destruct IH. split; [by transitivity s1|done].
  - transitivity s1; [by apply moved_cut|done].
  - done.
Qed.

#[export] Instance safe_skip_field wire_type : safe (fun _ => True) (pb_skip_field wire_type).
Proof.
  assert (forall n, 0 <= n -> safe (fun _ : unit => True) (pb_read false n ;;! ret tt)) as Hread.
  { intros n Hn. apply safe_bind with (Q := fun _ => True); [|intros; by apply safe_ret].
    eapply safe_weaken; [by apply safe_read|done]. }
  unfold pb_skip_field. destruct (_ =? _).
  - intros s Hs. unfold pb_skip_varint, stream_fuel. apply skip_varint_at; [done|]. unfold wf in Hs. lia.
  - destruct (_ =? _); [by apply Hread|]. destruct (_ =? _); [|destruct (_ =? _); [by apply Hread|apply safe_fail]].
    apply safe_bind with (Q := is_u32); [apply safe_varint32|]. intros n Hn. apply Hread. unfold is_u32 in Hn. lia.
Qed.

Lemma raw_varint_at fuel max raw s : wf s -> Forall is_u8 raw -> max < Z.of_nat (length raw + fuel) -> (0 < fuel)%nat ->
  safe_at (Forall is_u8) (raw_varint fuel max raw) s.
Proof.
  revert raw s. induction fuel as [|fuel IH]; intros raw s Hs Hraw Hmax Hf; [lia|]. cbn [raw_varint].
  destruct (Z.ltb_spec max (Z.of_nat (length raw) + 1)); [by apply safe_fail|].
  destruct (read1_at s Hs) as [H1 _]. apply safe_bind_at with (1 := H1). intros bs s1 Hm [Hbs Hl].
  pose proof (wf_moved _ _ Hs Hm) as Hs1. assert (Forall is_u8 (raw ++ bs)) by by apply Forall_app.
  destruct (negb _); [|by apply safe_ret_at]. apply IH; [done|done| |]; rewrite ?length_app; lia.
Qed.

#[export] Instance safe_raw_value wire_type max : 0 <= max -> safe (Forall is_u8) (read_raw_value wire_type max).
Proof.
  intros Hmax. unfold read_raw_value. destruct (_ =? _).
  - intros s Hs. apply raw_varint_at; [done|constructor|cbn [length]; lia|lia].
  - assert (forall n, 0 <= n -> safe (Forall is_u8) (pb_read true n)) as Hread
      by (intros n Hn; eapply safe_weaken; [by apply safe_read|by intros bs [? _]]).
    destruct (_ =? _); [by apply Hread|]. destruct (_ =? _); [by apply Hread|apply safe_fail].
Qed.

(** The substream is what comes next in the parent. *)
Lemma make_substream_at s : wf s ->
  match pb_make_string_substream s with
  | SubOk sub s' => wf sub /\ cut s s' /\ buf sub = buf s /\ state sub = state s' /\ 0 <= bytes_left s' /\
      bytes_left sub + bytes_left s' + state s' = state s + bytes_left s /\ bytes_left s' < bytes_left s
  | SubTooShort sub s' => sub = s' /\ moved s s'
  | SubFailed s' => cut s s'
  | SubUndef _ => False
  end.
Proof.
  intros Hs. pose proof (safe_varint32 s Hs) as Hv. unfold safe_at in Hv. unfold pb_make_string_substream.
  destruct (pb_decode_varint32 s) as [size s1|s1|] eqn:E; [|done..]. destruct Hv as [Hm Hsize].
  pose proof (varint32_progress s size s1 Hs E). pose proof (wf_moved _ _ Hs Hm) as (Hb & Hp & Hl & Hle).
  destruct Hm as (Eb & ? & ? & ?). unfold is_u32 in Hsize.
  destruct (Z.ltb_spec (bytes_left s1) size); [by split|]. cbn. unfold wf, cut. cbn. rewrite Eb in *.
  repeat split; (done || lia).
Qed.

Lemma close_substream_at s0 s sub sub' : cut s0 s -> buf sub = buf s0 -> state sub = state s -> 0 <= bytes_left s ->
  bytes_left sub + bytes_left s + state s = state s0 + bytes_left s0 -> 0 <= bytes_left sub ->
  moved sub sub' -> exists s', pb_close_string_substream s sub' = Ok tt s' /\ moved s0 s' /\ bytes_left s' = bytes_left s.
Proof.
  intros (Eb & ? & ? & ?) Ebs Es ? Hsum ? (Eb' & ? & ? & ?). unfold pb_close_string_substream.
  assert (exists sub'', (if negb (bytes_left sub' =? 0) then pb_read false (bytes_left sub') sub' else Ok [] sub') = Ok [] sub'' /\
    buf sub'' = buf sub' /\ state sub'' = state sub' + bytes_left sub') as (sub'' & -> & Eb'' & Est).
  { destruct (Z.eqb_spec (bytes_left sub') 0) as [E|E]; cbn [negb].
    - exists sub'. repeat split. lia.
    - unfold pb_read. rewrite (proj2 (Z.eqb_neq _ _)) by done. rewrite Z.ltb_irrefl. cbn [andb].
      by exists (advance (bytes_left sub') sub'). }
  eexists. split; [done|]. unfold moved. cbn. repeat split; [congruence|lia..].
Qed.

Section fields.
Context {M : Type} (P : M -> Prop).

Lemma call_callback_at fuel (cb : callback M) m s : (forall m, P m -> safe P (cb m)) -> P m -> wf s ->
  bytes_left s < Z.of_nat fuel -> safe_at P (call_callback fuel cb m) s.
Proof.
  intros Hcb. revert m s. induction fuel as [|fuel IH]; intros m s Hm Hs Hf; [unfold wf in Hs; lia|].
  pose proof (Hcb m Hm s Hs) as H1. unfold safe_at in *. cbn [call_callback].
  destruct (cb m s) as [m1 s1|s1|]; [|done..]. destruct H1 as [Hmv Hm1]. destruct (_ && _) eqn:E; [|done].
  specialize (IH m1 s1 Hm1 (wf_moved _ _ Hs Hmv) ltac:(lia)). destruct (call_callback fuel cb m1 s1).
  - destruct IH. split; [by transitivity s1|done].
  - transitivity s1; [by apply moved_cut|done].
  - done.
Qed.

Lemma safe_callback_field wire_type (cb : callback M) m : (forall m, P m -> safe P (cb m)) -> P m ->
  safe P (decode_callback_field wire_type cb m).
Proof.
  intros Hcb Hm s Hs. unfold safe_at, decode_callback_field. destruct (_ =? _).
  - pose proof (make_substream_at s Hs) as Hmake.
    destruct (pb_make_string_substream s) as [sub s1|sub s1|s1|]; [|by destruct Hmake; apply moved_cut|done|done].
    destruct Hmake as (Hsub & Hcut & Eb & Est & Hl & Hsum & _). pose proof Hsub as (_ & _ & Hls & _).
    pose proof (call_callback_at (stream_fuel sub) cb m sub Hcb Hm Hsub ltac:(unfold stream_fuel; lia)) as Hc.
    unfold safe_at in Hc. destruct (call_callback _ _ _ _) as [m1 sub1|sub1|]; [|done..]. destruct Hc as [Hmv Hm1].
    destruct (close_substream_at s s1 sub sub1) as (s2 & -> & Hs2 & _); [done..|]. done.
  - pose proof (safe_raw_value wire_type 10 ltac:(lia) s Hs) as Hr. unfold safe_at in Hr.
    destruct (read_raw_value wire_type 10 s) as [raw s1|s1|]; [|done..]. destruct Hr as [Hmv Hraw].
    assert (wf (pb_istream_from_buffer raw (Z.of_nat (length raw)))) as Hw by (unfold wf; cbn; repeat split; (done || lia)).
    pose proof (Hcb m Hm _ Hw) as Hc. unfold safe_at in Hc. destruct (cb m _) as [m1 s2|s2|]; [|by apply moved_cut|done].
    by destruct Hc.
Qed.

Lemma decode_fields_at (decode_field : Z -> option (Z -> M -> reader M)) fuel m s :
  (forall tag d, decode_field tag = Some d -> forall wire_type m, P m -> safe P (d wire_type m)) ->
  P m -> wf s -> bytes_left s < Z.of_nat fuel ->
  safe_at P (decode_fields decode_field fuel m) s /\
  forall m' s', decode_fields decode_field fuel m s = Ok m' s' -> bytes_left s' = 0.
Proof.
  intros Hd. revert m s. induction fuel as [|fuel IH]; intros m s Hm Hs Hf; [unfold wf in Hs; lia|].
  unfold safe_at. cbn [decode_fields]. destruct (Z.eqb_spec (bytes_left s) 0) as [E0|E0].
  { split; [by split|]. by intros m' s' [= _ <-]. }
  pose proof (safe_tag s Hs) as Ht. unfold safe_at in Ht. pose proof (fun t s' => tag_progress s t s' Hs) as Hp.
  destruct (pb_decode_tag s) as [[wt tag] s1|s1|]; [|by split|done]. destruct Ht as [Hmv _].
  destruct (Hp _ _ eq_refl) as [_ Hlt]. clear Hp. pose proof (wf_moved _ _ Hs Hmv) as Hs1.
  destruct (_ =? _); [split; [by apply moved_cut|done]|].
  assert (forall (r : reader M), safe P r -> forall s0, wf s0 -> moved s s0 -> bytes_left s0 < bytes_left s ->
    match bind r (decode_fields decode_field fuel) s0 with Ok a s' => moved s s' /\ P a | Failed s' => cut s s' | Undef _ => False end /\
    forall m' s', bind r (decode_fields decode_field fuel) s0 = Ok m' s' -> bytes_left s' = 0) as Hgo.
  { intros r Hr s0 Hs0 Hm0 Hl0. specialize (Hr s0 Hs0). unfold safe_at in Hr. unfold bind.
    destruct (r s0) as [m2 s2|s2|]; [|by split; [transitivity s0; [apply moved_cut|]|]|done]. destruct Hr as [Hmv2 Hm2].
    destruct (IH m2 s2 Hm2 (wf_moved _ _ Hs0 Hmv2)) as [H3 H0]; [destruct Hmv2 as (? & ? & ? & ?); lia|].
    split; [|done]. unfold safe_at in H3. destruct (decode_fields decode_field fuel m2 s2).
    - destruct H3. split; [by transitivity s0; [|transitivity s2]|done].
    - transitivity s0; [by apply moved_cut|]. transitivity s2; [by apply moved_cut|done].
    - done. }
  destruct (decode_field tag) as [d|] eqn:Ed.
  - apply Hgo; [by eapply Hd|done..].
  - assert (safe P (pb_skip_field wt ;;! ret m)) as Hskip
      by (apply safe_bind with (Q := fun _ => True); [apply safe_skip_field|intros; by apply safe_ret]).
    specialize (Hgo _ Hskip s1 Hs1 Hmv Hlt). unfold bind, ret in Hgo |- *.
    destruct (pb_skip_field wt s1); done.
Qed.

Lemma safe_decode (decode_field : Z -> option (Z -> M -> reader M)) m :
  (forall tag d, decode_field tag = Some d -> forall wire_type m, P m -> safe P (d wire_type m)) ->
  P m -> safe P (pb_decode decode_field m).
Proof. intros Hd Hm s Hs. apply decode_fields_at; [done..|]. unfold wf in Hs. unfold stream_fuel. lia. Qed.
End fields.

(** ** Reading what is ahead *)

(** The bytes [bs] come next in the stream. *)
Definition ahead (s : pb_istream_t) (bs : list Z) : Prop :=
  0 <= state s /\ Z.of_nat (length bs) <= bytes_left s /\ bs `prefix_of` drop (Z.to_nat (state s)) (buf s).

Definition skip_bytes (bs : list Z) (s : pb_istream_t) : pb_istream_t := advance (Z.of_nat (length bs)) s.

Lemma advance_advance m n s : advance m (advance n s) = advance (n + m) s.
Proof. unfold advance. cbn. f_equal; lia. Qed.

Lemma skip_nil s : skip_bytes [] s = s.
Proof. destruct s. unfold skip_bytes, advance. cbn. f_equal; lia. Qed.

Lemma skip_app bs bs' s : skip_bytes (bs ++ bs') s = skip_bytes bs' (skip_bytes bs s).
Proof. unfold skip_bytes. rewrite advance_advance, length_app. f_equal. lia. Qed.

Lemma ahead_app s bs bs' : ahead s (bs ++ bs') <-> ahead s bs /\ ahead (skip_bytes bs s) bs'.
Proof.
  unfold ahead, skip_bytes, advance. cbn. split.
  - intros (Hp & Hl & rest & E). rewrite length_app in Hl. split; (split; [lia|split; [lia|]]).
    + exists (bs' ++ rest). by rewrite E, app_assoc.
    + exists rest. rewrite Z2Nat.inj_add, Nat2Z.id by lia. rewrite <- drop_drop, E, <- app_assoc. by rewrite drop_app_length.
  - intros [(Hp & Hl & rest & E) (Hp' & Hl' & rest' & E')]. rewrite length_app. split; [lia|]. split; [lia|].
    rewrite Z2Nat.inj_add, Nat2Z.id in E' by lia. rewrite <- drop_drop, E, drop_app_length in E'.
    exists rest'. by rewrite E, E', app_assoc.
Qed.

Lemma readbyte_ahead s b bs : ahead s (b :: bs) ->
  pb_readbyte s = Ok b (advance 1 s) /\ ahead (advance 1 s) bs.
Proof.
  intros H. split.
  - destruct H as (Hp & Hl & rest & E). unfold pb_readbyte. cbn [length] in Hl. rewrite (proj2 (Z.eqb_neq _ _)) by lia.
    rewrite <- (Nat.add_0_r (Z.to_nat (state s))), <- lookup_drop, E. done.
  - change (b :: bs) with ([b] ++ bs) in H. by apply ahead_app in H as [_ H].
Qed.

Lemma read_ahead s bs : ahead s bs -> pb_read true (Z.of_nat (length bs)) s = Ok bs (skip_bytes bs s).
Proof.
  intros (Hp & Hl & rest & E). unfold pb_read. destruct (Z.eqb_spec (Z.of_nat (length bs)) 0) as [E0|E0].
  { destruct bs; [|done]. by rewrite skip_nil. }
  rewrite (proj2 (Z.ltb_ge _ _)) by lia. assert (length bs + length rest = length (buf s) - Z.to_nat (state s))%nat as Hlen
    by (rewrite <- length_app, <- E, length_drop; lia).
  rewrite (proj2 (Z.leb_le _ _)) by lia. cbn [andb negb]. by rewrite Nat2Z.id, E, take_app_length.
Qed.

(** ** Variable-length integers: the bytes of a value *)

Fixpoint varint_bytes (n : nat) (v : Z) : list Z :=
  match n with
  | O => []
  | S n => if v <? 128 then [v] else (128 + v mod 128) :: varint_bytes n (v / 128)
  end.

(** Groups of seven bits, the low ones first. *)
Definition varint_of (v : Z) : list Z := varint_bytes 10 v.
Arguments varint_of : simpl never.

Lemma group_byte v : is_u8 (128 + v mod 128) /\ Z.land (128 + v mod 128) 0x7F = v mod 128.
Proof.
  pose proof (Z.mod_pos_bound v 128 ltac:(lia)). split; [unfold is_u8; lia|]. rewrite low_bits.
  rewrite <- Zplus_mod_idemp_l. change (128 mod 128) with 0. rewrite Z.add_0_l. by apply Z.mod_small.
Qed.

Lemma group_value result v bitpos : 0 <= bitpos ->
  result + (v mod 128) * 2 ^ bitpos + (v / 128) * 2 ^ (bitpos + 7) = result + v * 2 ^ bitpos.
Proof.
  intros Hp. rewrite Z.pow_add_r by lia. change (2 ^ 7) with 128. pose proof (Z.div_mod v 128 ltac:(lia)). nia.
Qed.

Lemma or_group result v bitpos w : 0 <= bitpos -> bitpos + 7 <= w \/ v mod 128 < 2 ^ (w - bitpos) ->
  bitpos <= w -> 0 <= result < 2 ^ bitpos ->
  Z.lor result ((Z.shiftl (v mod 128) bitpos) mod 2 ^ w) = result + (v mod 128) * 2 ^ bitpos.
Proof.
  intros Hp Hw Hle Hr. pose proof (Z.mod_pos_bound v 128 ltac:(lia)).
  assert (2 ^ w = 2 ^ (w - bitpos) * 2 ^ bitpos) as Ew by (rewrite <- Z.pow_add_r by lia; f_equal; lia).
  assert (0 < 2 ^ bitpos) by lia.
  assert (v mod 128 < 2 ^ (w - bitpos)) as Hlt.
  { destruct Hw as [Hw|Hw]; [|done]. assert (2 ^ 7 <= 2 ^ (w - bitpos)) by (apply Z.pow_le_mono_r; lia). lia. }
  rewrite Z.mod_small by (rewrite Z.shiftl_mul_pow2 by lia; nia). by apply lor_bits.
Qed.

Lemma varint_more_bytes fuel bitpos result v s : bitpos + 7 * Z.of_nat fuel = 70 -> 0 <= bitpos -> (0 < fuel)%nat ->
  0 <= result < 2 ^ bitpos -> 0 <= v < 2 ^ (64 - bitpos) -> ahead s (varint_bytes fuel v) ->
  varint_more fuel bitpos result s = Ok (result + v * 2 ^ bitpos) (skip_bytes (varint_bytes fuel v) s).
Proof.
  revert bitpos result v s. induction fuel as [|fuel IH]; intros bitpos result v s Hsum Hp Hf Hr Hv Ha; [lia|].
  cbn [varint_bytes varint_more] in *. rewrite u8_id by (unfold is_u8; lia).
  destruct (Z.ltb_spec v 128) as [Hlt|Hge].
  - destruct (readbyte_ahead _ _ _ Ha) as [E _]. unfold bind at 1. rewrite E. clear E.
    rewrite more_bit by (unfold is_u8; lia). rewrite (proj2 (Z.ltb_lt v 128)) by lia.
    assert ((63 <=? bitpos) && negb (Z.land v 0xFE =? 0) = false) as ->.
    { destruct (Z.leb_spec 63 bitpos) as [H63|H63]; [|done]. assert (bitpos = 63) as -> by lia.
      assert (v = 0 \/ v = 1) as [->| ->] by lia; done. }
    rewrite low_bits. unfold u64. rewrite or_group; [|lia| |lia|done].
    + rewrite Z.mod_small by lia. done.
    + rewrite Z.mod_small by lia. right; lia.
  - destruct (readbyte_ahead _ _ _ Ha) as [E Ha']. unfold bind at 1. rewrite E. clear E.
    destruct (group_byte v) as [Hb Eb]. rewrite more_bit by done. rewrite (proj2 (Z.ltb_ge _ 128)) by (pose proof (Z.mod_pos_bound v 128); lia).
    assert (bitpos <= 56) as H56.
    { destruct (Z.le_gt_cases bitpos 56) as [|Hgt]; [done|]. assert (2 ^ (64 - bitpos) <= 2 ^ 7) by (apply Z.pow_le_mono_r; lia). lia. }
    rewrite (proj2 (Z.leb_gt 63 bitpos)) by lia. cbn [andb negb]. rewrite Eb. unfold u64. rewrite or_group; [|lia..|done].
    change ((128 + v mod 128) :: varint_bytes fuel (v / 128)) with ([128 + v mod 128] ++ varint_bytes fuel (v / 128)).
    rewrite skip_app. rewrite (IH (bitpos + 7) _ (v / 128)); [by rewrite group_value|lia..| | |done].
    + pose proof (Z.mod_pos_bound v 128 ltac:(lia)). rewrite Z.pow_add_r by lia. change (2 ^ 7) with 128. nia.
    + split; [apply Z.div_pos; lia|]. apply Z.div_lt_upper_bound; [lia|]. change 128 with (2 ^ 7).
      rewrite <- Z.pow_add_r by lia. replace (7 + (64 - (bitpos + 7))) with (64 - bitpos) by lia. lia.
Qed.

Lemma or_group32 result v bitpos : 0 <= bitpos <= 28 -> 0 <= result < 2 ^ bitpos -> 0 <= v < 2 ^ (32 - bitpos) ->
  Z.lor result (u32 (Z.shiftl (v mod 128) bitpos)) = result + (v mod 128) * 2 ^ bitpos.
Proof.
  intros Hp Hr Hv. change u32 with (fun x => x mod 2 ^ 32). cbv beta. apply or_group; [lia| |lia|done].
  destruct (Z.le_gt_cases (bitpos + 7) 32); [by left|right].
  pose proof (Z.mod_le v 128). lia.
Qed.

(** The turns but the last of the loop. *)
Lemma varint32_more_bytes fuel n bitpos result v s : bitpos + 7 * Z.of_nat fuel = 77 -> bitpos mod 7 = 0 -> 7 <= bitpos <= 28 ->
  0 <= result < 2 ^ bitpos -> 0 <= v < 2 ^ (32 - bitpos) -> (0 < n)%nat -> v < 2 ^ (7 * Z.of_nat n) -> ahead s (varint_bytes n v) ->
  varint32_more fuel bitpos result s = Ok (result + v * 2 ^ bitpos) (skip_bytes (varint_bytes n v) s).
Proof.
  revert n bitpos result v s. induction fuel as [|fuel IH]; intros n bitpos result v s Hsum Hmod Hp Hr Hv Hn Hvn Ha; [lia|].
  destruct n as [|n]; [lia|]. cbn [varint_bytes varint32_more] in *. rewrite u8_id by (unfold is_u8; lia).
  rewrite (proj2 (Z.leb_gt 32 bitpos)) by lia. destruct (Z.ltb_spec v 128) as [Hlt|Hge].
  - destruct (readbyte_ahead _ _ _ Ha) as [E _]. unfold bind at 1. rewrite E. clear E. cbv zeta.
    rewrite more_bit, (proj2 (Z.ltb_lt v 128)) by (unfold is_u8; lia). cbn [negb].
    pose proof (or_group32 result v bitpos ltac:(lia) Hr Hv) as Eor. rewrite (Z.mod_small v 128) in Eor by lia.
    destruct (Z.eqb_spec bitpos 28) as [->|H28].
    + change (2 ^ (32 - 28)) with 16 in Hv.
      assert ((Z.land v 0x70 =? 0) = true /\ Z.land v 0x0F = v) as [-> ->].
      { assert ((16 <=? v) || (Z.land v 0x70 =? 0) && (Z.land v 0x0F =? v) = true) as Hb
          by (apply (all_bytes (fun v => (16 <=? v) || (Z.land v 0x70 =? 0) && (Z.land v 0x0F =? v))); [done|unfold is_u8; lia]).
        lia. }
      cbn [negb andb]. by rewrite Eor.
    + by rewrite low_bits, Z.mod_small, Eor by lia.
  - destruct (readbyte_ahead _ _ _ Ha) as [E Ha']. unfold bind at 1. rewrite E. clear E. cbv zeta.
    destruct (group_byte v) as [Hb Eb]. rewrite more_bit by done.
    rewrite (proj2 (Z.ltb_ge _ 128)) by (pose proof (Z.mod_pos_bound v 128); lia). cbn [negb].
    assert (bitpos <= 21) as H21.
    { destruct (Z.eq_dec bitpos 28) as [->|]; [change (2 ^ (32 - 28)) with 16 in Hv; lia|]. Z.div_mod_to_equations. lia. }
    rewrite (proj2 (Z.eqb_neq bitpos 28)) by lia. rewrite Eb, or_group32 by lia.
    change ((128 + v mod 128) :: varint_bytes n (v / 128)) with ([128 + v mod 128] ++ varint_bytes n (v / 128)).
    assert (forall k, 7 <= k -> v < 2 ^ k -> 0 <= v / 128 < 2 ^ (k - 7)) as Hdiv.
    { intros k Hk Hvk. split; [apply Z.div_pos; lia|]. apply Z.div_lt_upper_bound; [lia|]. change 128 with (2 ^ 7).
      rewrite <- Z.pow_add_r by lia. by replace (7 + (k - 7)) with k by lia. }
    rewrite skip_app. rewrite (IH n (bitpos + 7) _ (v / 128)); [by rewrite group_value by lia|lia| |lia| | | | |done].
    + rewrite <- Zplus_mod_idemp_r. change (7 mod 7) with 0. by rewrite Z.add_0_r.
    + pose proof (Z.mod_pos_bound v 128 ltac:(lia)). rewrite Z.pow_add_r by lia. change (2 ^ 7) with 128. nia.
    + replace (32 - (bitpos + 7)) with (32 - bitpos - 7) by lia. apply Hdiv; lia.
    + destruct n; [|lia]. change (2 ^ (7 * Z.of_nat 1)) with 128 in Hvn. lia.
    + replace (7 * Z.of_nat n) with (7 * Z.of_nat (S n) - 7) by lia. apply Hdiv; lia.
Qed.

Lemma varint_ahead v s : 0 <= v < 2 ^ 64 -> ahead s (varint_of v) ->
  pb_decode_varint s = Ok v (skip_bytes (varint_of v) s).
Proof.
  intros Hv Ha. unfold pb_decode_varint, VARINT_FUEL. rewrite (varint_more_bytes 10 0 0 v); [|lia..|done].
  f_equal. lia.
Qed.

Lemma varint32_ahead v s : is_u32 v -> ahead s (varint_of v) ->
  pb_decode_varint32 s = Ok v (skip_bytes (varint_of v) s).
Proof.
  intros Hv Ha. unfold is_u32 in Hv. unfold pb_decode_varint32, varint_of in *. cbn [varint_bytes] in *.
  destruct (Z.ltb_spec v 128) as [Hlt|Hge].
  - destruct (readbyte_ahead _ _ _ Ha) as [E _]. unfold bind. rewrite E.
    rewrite more_bit, (proj2 (Z.ltb_lt v 128)) by (unfold is_u8; lia). done.
  - destruct (readbyte_ahead _ _ _ Ha) as [E Ha']. unfold bind at 1. rewrite E.
    destruct (group_byte v) as [Hb Eb]. rewrite more_bit by done.
    rewrite (proj2 (Z.ltb_ge _ 128)) by (pose proof (Z.mod_pos_bound v 128); lia). rewrite Eb.
    change ((128 + v mod 128) :: ?l) with ([128 + v mod 128] ++ l). rewrite skip_app.
    rewrite (varint32_more_bytes VARINT_FUEL 9 7 (v mod 128) (v / 128)); [|done|done|lia| | |lia| |exact Ha'].
    + f_equal. change (2 ^ 7) with 128. pose proof (Z.div_mod v 128). lia.
    + change (2 ^ 7) with 128. apply Z.mod_pos_bound. lia.
    + change (2 ^ (32 - 7)) with 33554432. Z.div_mod_to_equations. lia.
    + change (2 ^ (7 * Z.of_nat 9)) with 9223372036854775808. Z.div_mod_to_equations. lia.
Qed.

(** ** What is written *)

Lemma write_bytes max bytes out : Z.of_nat (length out + length bytes) <= max -> pb_write max bytes out = Some (out ++ bytes).
Proof. intros H. unfold pb_write. rewrite (proj2 (Z.ltb_ge _ _)) by lia. by rewrite andb_false_r. Qed.

Lemma or_more_bit b : 0 <= b < 128 -> Z.lor b 0x80 = 128 + b.
Proof. intros Hb. pose proof (lor_bits b 1 7) as E. change (Z.shiftl 1 7) with 128 in E. change (2 ^ 7) with 128 in E. lia. Qed.

Lemma varint_bytes_small n v : 0 <= v < 128 -> varint_bytes (S n) v = [v].
Proof. intros Hv. cbn [varint_bytes]. by rewrite (proj2 (Z.ltb_lt _ _)) by lia. Qed.

Lemma varint_bytes_more n v : 128 <= v -> varint_bytes (S n) v = (128 + v mod 128) :: varint_bytes n (v / 128).
Proof. intros Hv. cbn [varint_bytes]. by rewrite (proj2 (Z.ltb_ge _ _)) by lia. Qed.

(** The groups after [byte], which is not yet written. *)
Lemma encode_high_bytes fuel high byte buffer : 0 <= high < 2 ^ (7 * Z.of_nat fuel) -> 0 <= byte < 128 ->
  exists buffer' byte', encode_high fuel high byte buffer = Some (buffer', byte') /\
    buffer' ++ [byte'] = buffer ++ varint_bytes (S fuel) (byte + high * 128).
Proof.
  revert high byte buffer. induction fuel as [|fuel IH]; intros high byte buffer Hh Hb; cbn [encode_high].
  - change (2 ^ (7 * Z.of_nat 0)) with 1 in Hh. assert (high = 0) as -> by lia. exists buffer, byte.
    split; [done|]. rewrite varint_bytes_small by lia. f_equal. f_equal. lia.
  - destruct (Z.eqb_spec high 0) as [->|Hne].
    + exists buffer, byte. split; [done|]. rewrite varint_bytes_small by lia. f_equal. f_equal. lia.
    + assert (0 <= high / 128 < 2 ^ (7 * Z.of_nat fuel)) as Hdiv.
      { split; [apply Z.div_pos; lia|]. apply Z.div_lt_upper_bound; [lia|]. change 128 with (2 ^ 7).
        rewrite <- Z.pow_add_r by lia. replace (7 + 7 * Z.of_nat fuel) with (7 * Z.of_nat (S fuel)) by lia. lia. }
      pose proof (Z.mod_pos_bound high 128 ltac:(lia)).
      rewrite Z.shiftr_div_pow2, low_bits, or_more_bit by lia. change (2 ^ 7) with 128.
      destruct (IH (high / 128) (high mod 128) (buffer ++ [128 + byte]) Hdiv) as (b' & y' & E & Eb); [lia|].
      exists b', y'. split; [done|]. rewrite Eb, <- app_assoc, (varint_bytes_more (S fuel)) by lia. cbn [app].
      replace ((byte + high * 128) mod 128) with byte by (Z.div_mod_to_equations; lia).
      replace ((byte + high * 128) / 128) with high by (Z.div_mod_to_equations; lia).
      do 3 f_equal. pose proof (Z.div_mod high 128). lia.
Qed.

(** The loops for what is left of [w]: [low] and [byte] are its bits below 32. *)
Definition encode_rest (n : nat) (low high byte : Z) (buffer : list Z) : option (list Z * Z) :=
  let '(buffer, byte) := encode_low n low high byte buffer in
  if negb (high =? 0) then encode_high 5 (Z.shiftr high 3) (Z.lor byte (Z.shiftl (Z.land high 0x07) 4)) buffer
  else Some (buffer, byte).

Lemma encode_rest_bytes n low high byte buffer : (n <= 4)%nat -> 0 <= low < 2 ^ (7 * Z.of_nat n - 3) \/ n = O /\ low = 0 ->
  0 <= high < 2 ^ 32 -> 0 <= byte < (if (n =? 0)%nat then 16 else 128) ->
  exists buffer' byte', encode_rest n low high byte buffer = Some (buffer', byte') /\
    buffer' ++ [byte'] = buffer ++ varint_bytes (n + 6) (byte + low * 128 + high * 2 ^ (7 * Z.of_nat n + 4)).
Proof.
  revert low byte buffer. induction n as [|n IH]; intros low byte buffer Hn Hlow Hh Hb; unfold encode_rest; cbn [encode_low].
  - assert (low = 0) as -> by (destruct Hlow as [Hlow|[_ ?]]; [change (2 ^ (7 * Z.of_nat 0 - 3)) with 0 in Hlow; lia|done]).
    cbn [Nat.eqb Nat.add] in *. change (2 ^ (7 * Z.of_nat 0 + 4)) with 16. destruct (Z.eqb_spec high 0) as [->|Hne]; cbn [negb].
    + exists buffer, byte. split; [done|]. rewrite varint_bytes_small by lia. do 2 f_equal. lia.
    + change 7 with (Z.ones 3) at 1. rewrite Z.land_ones by lia. rewrite lor_bits by (change (2 ^ 4) with 16; lia).
      rewrite Z.shiftr_div_pow2 by lia. change (2 ^ 4) with 16. change (2 ^ 3) with 8.
      destruct (encode_high_bytes 5 (high / 8) (byte + high mod 8 * 16) buffer) as (b' & y' & E & Eb).
      * change (2 ^ (7 * Z.of_nat 5)) with 34359738368. change (2 ^ 32) with 4294967296 in Hh. Z.div_mod_to_equations. lia.
      * Z.div_mod_to_equations. lia.
      * exists b', y'. split; [done|]. rewrite Eb. do 2 f_equal. Z.div_mod_to_equations. lia.
  - cbn [Nat.eqb] in Hb. destruct Hlow as [Hlow|[? _]]; [|done].
    destruct (negb (low =? 0) || negb (high =? 0)) eqn:E.
    + pose proof (Z.mod_pos_bound low 128 ltac:(lia)).
      rewrite Z.shiftr_div_pow2, low_bits, or_more_bit by lia. change (2 ^ 7) with 128.
      destruct (IH (low / 128) (low mod 128) (buffer ++ [128 + byte])) as (b' & y' & Er & Eb); [lia| |done| |].
      * destruct n as [|n]; [right|left].
        { change (2 ^ (7 * Z.of_nat 1 - 3)) with 16 in Hlow. split; [done|]. apply Z.div_small. lia. }
        split; [apply Z.div_pos; lia|]. apply Z.div_lt_upper_bound; [lia|]. change 128 with (2 ^ 7).
        rewrite <- Z.pow_add_r by lia. replace (7 + (7 * Z.of_nat (S n) - 3)) with (7 * Z.of_nat (S (S n)) - 3) by lia. lia.
      * destruct n as [|n]; cbn [Nat.eqb]; [|lia]. change (2 ^ (7 * Z.of_nat 1 - 3)) with 16 in Hlow. Z.div_mod_to_equations. lia.
      * exists b', y'. split; [done|]. rewrite Eb, <- app_assoc. cbn [app Nat.add].
        assert (2 ^ (7 * Z.of_nat (S n) + 4) = 128 * 2 ^ (7 * Z.of_nat n + 4)) as Ep
          by (change 128 with (2 ^ 7); rewrite <- Z.pow_add_r by lia; f_equal; lia).
        assert (0 < 2 ^ (7 * Z.of_nat n + 4)) by lia. rewrite Ep.
        set (p := 2 ^ (7 * Z.of_nat n + 4)) in *.
        replace (byte + low * 128 + high * (128 * p)) with (byte + (low + high * p) * 128) by lia.
        rewrite varint_bytes_more by nia. f_equal. f_equal.
        { Z.div_mod_to_equations. lia. }
        replace ((byte + (low + high * p) * 128) / 128) with (low + high * p) by (Z.div_mod_to_equations; lia).
        f_equal. pose proof (Z.div_mod low 128). lia.
    + apply orb_false_iff in E as [E1 E2]. apply negb_false_iff, Z.eqb_eq in E1, E2. subst low high. cbn [Z.eqb negb].
      exists buffer, byte. split; [done|]. cbn [Nat.add]. rewrite varint_bytes_small by lia. do 2 f_equal. lia.
Qed.

(** [pb_encode_varint] writes the groups of seven bits. *)
Lemma encode_varint_bytes max v out : 0 <= v < 2 ^ 64 -> pb_encode_varint max v out = pb_write max (varint_of v) out.
Proof.
  intros Hv. unfold pb_encode_varint. destruct (Z.leb_spec v 0x7F) as [Hs|Hl].
  - unfold varint_of. by rewrite varint_bytes_small by lia.
  - unfold pb_encode_varint_32.
    assert (u32 v = v mod 2 ^ 32) as Eu by done.
    destruct (encode_rest_bytes 4 (Z.shiftr (u32 v) 7) (Z.shiftr v 32) (Z.land (u32 v) 0x7F) []) as (b' & y' & Er & Eb).
    + lia.
    + left. rewrite Z.shiftr_div_pow2, Eu by lia. change (2 ^ (7 * Z.of_nat 4 - 3)) with 33554432.
      change (2 ^ 32) with 4294967296. change (2 ^ 7) with 128. Z.div_mod_to_equations. lia.
    + rewrite Z.shiftr_div_pow2 by lia. change (2 ^ 64) with (4294967296 * 4294967296) in Hv.
      change (2 ^ 32) with 4294967296. Z.div_mod_to_equations. lia.
    + rewrite low_bits. cbn [Nat.eqb]. apply Z.mod_pos_bound. lia.
    + unfold encode_rest in Er. destruct (encode_low 4 _ _ _ []) as [b y]. rewrite Er, Eb. cbn [app Nat.add].
      rewrite Z.shiftr_div_pow2, low_bits, Z.shiftr_div_pow2, Eu by lia. change (7 * Z.of_nat 4 + 4) with 32.
      replace ((v mod 2 ^ 32) mod 128 + v mod 2 ^ 32 / 2 ^ 7 * 128 + v / 2 ^ 32 * 2 ^ 32) with v
        by (change (2 ^ 7) with 128; change (2 ^ 32) with 4294967296; Z.div_mod_to_equations; lia).
      done.
Qed.

Lemma varint_bytes_u8 n v : 0 <= v -> Forall is_u8 (varint_bytes n v).
Proof.
  revert v. induction n as [|n IH]; intros v Hv; cbn [varint_bytes]; [constructor|].
  destruct (Z.ltb_spec v 128).
  - apply Forall_singleton. unfold is_u8. lia.
  - apply Forall_cons; [apply group_byte|]. apply IH, Z.div_pos; lia.
Qed.

Lemma varint_bytes_length n v : (length (varint_bytes n v) <= n)%nat.
Proof. revert v. induction n as [|n IH]; intros v; cbn; [done|]. destruct (_ <? _); cbn; [lia|]. specialize (IH (v / 128)). lia. Qed.

Lemma varint_of_length v : (0 < length (varint_of v) <= 10)%nat.
Proof. split; [|apply varint_bytes_length]. unfold varint_of. cbn [varint_bytes]. destruct (_ <? _); cbn [length]; lia. Qed.

(** Variable-length integers. What [pb_encode_varint] writes for a 64-bit value - at
    most ten bytes - is read back by [pb_decode_varint], and by [pb_decode_varint32] when
    the value has 32 bits, from wherever the bytes are in a stream and whatever
    follows; the stream is then right behind them. *)
Theorem varint_roundtrip v max out out' : 0 <= v < 2 ^ 64 -> pb_encode_varint max v out = Some out' ->
  exists bs, out' = out ++ bs /\ (length bs <= 10)%nat /\ Forall is_u8 bs /\
    forall s, ahead s bs ->
      pb_decode_varint s = Ok v (skip_bytes bs s) /\
      (v < 2 ^ 32 -> pb_decode_varint32 s = Ok v (skip_bytes bs s)).
Proof.
  intros Hv E. rewrite encode_varint_bytes in E by done. unfold pb_write in E. destruct (_ && _); [done|]. injection E as <-.
  exists (varint_of v). split; [done|]. split; [apply varint_bytes_length|]. split; [apply varint_bytes_u8; lia|].
  intros s Ha. split; [by apply varint_ahead|]. intros Hlt. apply varint32_ahead; [unfold is_u32; lia|done].
Qed.

Lemma varint_roundtrip_witness : exists bs, [7; 172; 2] = [7] ++ bs /\ (length bs <= 10)%nat /\ Forall is_u8 bs /\
  forall s, ahead s bs -> pb_decode_varint s = Ok 300 (skip_bytes bs s) /\
    (300 < 2 ^ 32 -> pb_decode_varint32 s = Ok 300 (skip_bytes bs s)).
Proof. apply (varint_roundtrip 300 3 [7] [7; 172; 2]); [lia|reflexivity]. Defined.

(** ** Tags, strings, fields on the wire *)

Definition tag_of (wire_type tag : Z) : list Z := varint_of (Z.lor (Z.shiftl tag 3) wire_type).
Definition string_of (bytes : list Z) : list Z := varint_of (Z.of_nat (length bytes)) ++ bytes.

Definition is_tag (wire_type tag : Z) : Prop := 0 <= tag < 2 ^ 29 /\ 0 <= wire_type < 8.

Lemma tag_value wire_type tag : is_tag wire_type tag -> Z.lor (Z.shiftl tag 3) wire_type = tag * 8 + wire_type.
Proof. intros [Ht Hw]. by rewrite lor_shiftl_add. Qed.

Lemma tag_ahead wire_type tag s : is_tag wire_type tag -> ahead s (tag_of wire_type tag) ->
  pb_decode_tag s = Ok (wire_type, tag) (skip_bytes (tag_of wire_type tag) s).
Proof.
  intros Ht Ha. pose proof (tag_value _ _ Ht) as E. destruct Ht as [Ht Hw]. unfold pb_decode_tag, bind.
  unfold tag_of in *. rewrite E in *. rewrite (varint32_ahead (tag * 8 + wire_type)); [|unfold is_u32; lia|done].
  unfold ret. f_equal. f_equal.
  - change 7 with (Z.ones 3). rewrite Z.land_ones by lia. rewrite Z.add_comm, Z.mod_add by lia. by apply Z.mod_small.
  - rewrite Z.shiftr_div_pow2 by lia. change (2 ^ 3) with 8. rewrite Z.add_comm, Z.div_add by lia. by rewrite Z.div_small.
Qed.

Lemma decode_fields_step {M} (fields : Z -> option (Z -> M -> reader M)) fuel m wire_type tag d s :
  is_tag wire_type tag -> tag <> 0 -> ahead s (tag_of wire_type tag) -> fields tag = Some d ->
  decode_fields fields (S fuel) m s = bind (d wire_type m) (decode_fields fields fuel) (skip_bytes (tag_of wire_type tag) s).
Proof.
  intros Ht H0 Ha Ed. cbn [decode_fields]. pose proof Ha as (_ & Hl & _).
  pose proof (varint_of_length (Z.lor (Z.shiftl tag 3) wire_type)) as Hv. fold (tag_of wire_type tag) in Hv.
  rewrite (proj2 (Z.eqb_neq (bytes_left s) 0)) by lia. rewrite (tag_ahead _ _ _ Ht Ha).
  by rewrite (proj2 (Z.eqb_neq tag 0)), Ed by done.
Qed.

Lemma encode_tag_bytes max wire_type tag out : is_tag wire_type tag ->
  pb_encode_tag max wire_type tag out = pb_write max (tag_of wire_type tag) out.
Proof. intros Ht. apply encode_varint_bytes. rewrite tag_value by done. destruct Ht. lia. Qed.

(** The substream of a string is its bytes, and the parent goes on behind them. *)
Lemma substream_ahead bytes s : Z.of_nat (length bytes) < 2 ^ 32 -> ahead s (string_of bytes) ->
  exists sub s1, pb_make_string_substream s = SubOk sub s1 /\
    sub = Istream (buf s) (state s + Z.of_nat (length (varint_of (Z.of_nat (length bytes))))) (Z.of_nat (length bytes)) /\
    ahead sub bytes /\
    forall sub', moved sub sub' -> pb_close_string_substream s1 sub' = Ok tt (skip_bytes (string_of bytes) s).
Proof.
  intros Hlen [Hv Hb]%ahead_app. unfold pb_make_string_substream.
  rewrite (varint32_ahead (Z.of_nat (length bytes))); [|unfold is_u32; lia|done]. set (n := Z.of_nat (length bytes)) in *.
  destruct Hb as (Hp & Hl & Hpre). unfold skip_bytes in *. rewrite (proj2 (Z.ltb_ge _ _)) by (cbn in *; lia).
  do 2 eexists. split; [reflexivity|]. split; [by cbn|]. split; [by split; [|split; [cbn; lia|]]|].
  intros sub' (Eb & Es & E0 & Esum). cbn in *. unfold pb_close_string_substream.
  assert (0 <= bytes_left sub') by lia.
  assert (forall sub'', buf sub'' = buf sub' -> state sub'' = state sub' + bytes_left sub' ->
    Ok tt (Istream (buf sub'') (state sub'') (bytes_left s - Z.of_nat (length (varint_of n)) - n)) = Ok tt (advance (Z.of_nat (length (string_of bytes))) s)) as Hend.
  { intros sub'' Eb'' Es''. unfold advance, string_of. rewrite length_app, Eb'', Es'', Eb. fold n. do 2 f_equal; fold n; lia. }
  destruct (Z.eqb_spec (bytes_left sub') 0) as [E|E]; cbn [negb]; [apply Hend; [done|lia]|].
  unfold pb_read. rewrite (proj2 (Z.eqb_neq _ _)) by done. rewrite Z.ltb_irrefl. cbn [andb]. by apply Hend.
Qed.
