(* ===== verification/FrotoHeader.v ===== *)
(** * FrotoHeader: the header of a Froto message

    The header of the protocol between gateway and sensors
    ([nanopb_protocol/Froto.pb.h]) and its decoding: [pb_decode] with the
    descriptor of [SKFChina_Froto_FrotoHeader] and the callbacks of
    [general/froto/app_froto_common.c] that [app_froto_n_get_message_type] installs. *)

From S2P Require Import Prelude Protobuf.
From Stdlib Require Import ZArith Lia ZifyBool List Bool.
From stdpp Require Import base list numbers option gmap.
Open Scope Z_scope.

(** ** Data *)

Definition MAX_ID_STR_LENGTH : Z := 32.
Definition FROTO_ACKED_SEQ_NUMBER_MAX_NUMBER : nat := 10.

(** [SKFChina_Froto_FrotoHeader]. The static members are in a map by their tags, an
    optional one is there when its flag is set; [peer_addr] is the first byte of the union;
    the identifier of the sensor and the acknowledged numbers are what the
    callbacks have put into their buffers. *)
Record froto_header := Header {
  members : gmap Z Z; which_peer_addr : Z; peer_addr : Z; sensor_id : list Z; acked_message_seq_number : list Z
}.

Definition zero_header : froto_header := Header empty 0 0 [] [].

Definition version_tag : Z := 1.
Definition sensor_id_tag : Z := 2.
Definition cloud_url_tag : Z := 3.
Definition gateway_id_tag : Z := 4.
Definition mobile_id_tag : Z := 5.
Definition is_up_tag : Z := 6.
Definition message_seq_no_tag : Z := 7.
Definition time_to_live_tag : Z := 8.
Definition primitive_type_tag : Z := 9.
Definition message_type_tag : Z := 10.
Definition total_block_tag : Z := 11.
Definition acked_message_seq_no_tag : Z := 12.
Definition ack_window_size_message_tag : Z := 13.
Definition long_packet_id_tag : Z := 14.
Definition cloud_tag : Z := 15.
Definition current_block_tag : Z := 16.
Definition is_big_endian_tag : Z := 17.
Definition acked_message_seq_number_tag : Z := 18.

Definition member (tag : Z) (h : froto_header) : Z := default 0 (members h !! tag).
Definition primitive_type : froto_header -> Z := member primitive_type_tag.
Definition message_type : froto_header -> Z := member message_type_tag.
Definition message_seq_no : froto_header -> Z := member message_seq_no_tag.
Definition long_packet_id : froto_header -> Z := member long_packet_id_tag.
Definition total_block : froto_header -> Z := member total_block_tag.
(** 0 when the optional member is absent. *)
Definition current_block : froto_header -> Z := member current_block_tag.

Definition set_member (tag v : Z) (h : froto_header) : froto_header :=
  Header (<[tag := v]> (members h)) (which_peer_addr h) (peer_addr h) (sensor_id h) (acked_message_seq_number h).
Definition set_sensor_id (bs : list Z) (h : froto_header) : froto_header :=
  Header (members h) (which_peer_addr h) (peer_addr h) bs (acked_message_seq_number h).
Definition set_acked (l : list Z) (h : froto_header) : froto_header :=
  Header (members h) (which_peer_addr h) (peer_addr h) (sensor_id h) l.
(** The flag [cloud] lies over the callback of the other members of the union. *)
Definition set_cloud (v : Z) (h : froto_header) : froto_header :=
  Header (members h) cloud_tag v (sensor_id h) (acked_message_seq_number h).

(** ** Decoding *)

(** [decode_basic_field] of a varint; the wire type of a packed array does not occur. *)
Definition varint_field {A} (r : reader A) (wire_type : Z) : reader A :=
  if wire_type =? PB_WT_VARINT then r else fail.

Definition uint32_field (tag wire_type : Z) (h : froto_header) : reader froto_header :=
  let! v := varint_field pb_dec_uvarint32 wire_type in ret (set_member tag v h).
Definition bool_field (tag wire_type : Z) (h : froto_header) : reader froto_header :=
  let! v := varint_field pb_decode_bool wire_type in ret (set_member tag v h).
Definition cloud_field (wire_type : Z) (h : froto_header) : reader froto_header :=
  let! v := varint_field pb_decode_bool wire_type in ret (set_cloud v h).

(** [SKFChina_Froto_SeqNoElement] *)
Definition SeqNoElement_fields (tag : Z) : option (Z -> Z -> reader Z) :=
  if tag =? 1 then Some (fun wire_type _ => varint_field pb_dec_uvarint32 wire_type) else None.

Definition protobuf_dec_bytes_callback : callback froto_header := fun h s =>
  if MAX_ID_STR_LENGTH <? bytes_left s then Failed s
  else match pb_read true (bytes_left s) s with
       | Ok bs s => Ok (set_sensor_id bs h) s
       | Failed s => Failed s
       | Undef w => Undef w
       end.

(** It decodes a copy of the stream; numbers beyond the tenth are dropped. *)
Definition protobuf_dec_acked_seq_number_callback : callback froto_header := fun h s =>
  match pb_decode SeqNoElement_fields 0 s with
  | Ok n _ =>
      let l := acked_message_seq_number h in
      Ok (if (length l <? FROTO_ACKED_SEQ_NUMBER_MAX_NUMBER)%nat then set_acked (l ++ [n]) h else h) s
  | Failed _ => Failed s
  | Undef w => Undef w
  end.

(** [pb_default_field_callback] of a member without a callback. *)
Definition no_callback : callback froto_header := Ok.

Section header.
(** A call of the address that [cloud] leaves in the union when it is true. *)
Context (call_address_1 : callback froto_header).

Definition peer_addr_callback : callback froto_header := fun h s =>
  if peer_addr h =? 0 then no_callback h s else call_address_1 h s.

Definition FrotoHeader_fields (tag : Z) : option (Z -> froto_header -> reader froto_header) :=
  if tag =? sensor_id_tag then
    Some (fun wire_type h => decode_callback_field wire_type protobuf_dec_bytes_callback h)
  else if (tag =? cloud_url_tag) || (tag =? gateway_id_tag) || (tag =? mobile_id_tag) then
    Some (fun wire_type h => decode_callback_field wire_type peer_addr_callback h)
  else if (tag =? is_up_tag) || (tag =? is_big_endian_tag) then Some (bool_field tag)
  else if tag =? acked_message_seq_no_tag then
    Some (fun wire_type h => decode_callback_field wire_type no_callback h)
  else if tag =? cloud_tag then Some cloud_field
  else if tag =? acked_message_seq_number_tag then
    Some (fun wire_type h => decode_callback_field wire_type protobuf_dec_acked_seq_number_callback h)
  else if (1 <=? tag) && (tag <=? 16) then Some (uint32_field tag)
  else None.

Definition decode_header_with : reader froto_header := pb_decode FrotoHeader_fields zero_header.
End header.

(** Nothing is known of what such a call does. *)
Definition decode_header : reader froto_header := decode_header_with (fun _ _ => Undef Wild).

Definition header_1 : list Z :=
  [8; 1; 18; 3; 65; 66; 67; 56; 7; 72; 1; 80; 1; 88; 1; 146; 1; 2; 8; 5; 146; 1; 0].

Example header_1_decoded : (fun r => (sensor_id (fst r), message_seq_no (fst r), acked_message_seq_number (fst r), snd r)) <$>
  decoded decode_header header_1 = Some ([65; 66; 67], 7, [5; 0], 0).
Proof. reflexivity. Qed.

(** ** Within the buffer *)

Definition header_ok (h : froto_header) : Prop :=
  Forall is_u8 (sensor_id h) /\ Z.of_nat (length (sensor_id h)) <= MAX_ID_STR_LENGTH /\
  Forall is_u32 (acked_message_seq_number h) /\
  (length (acked_message_seq_number h) <= FROTO_ACKED_SEQ_NUMBER_MAX_NUMBER)%nat /\
  map_Forall (fun _ => is_u32) (members h).

#[export] Instance safe_uvarint32 : safe is_u32 pb_dec_uvarint32.
Proof.
  apply safe_bind with (Q := fun v => 0 <= v < 2 ^ 64); [apply safe_varint|]. intros v _.
  destruct (Z.eqb_spec (u32 v) v) as [E|]; [|apply safe_fail]. apply safe_ret. rewrite <- E. apply u32_range.
Qed.

#[export] Instance safe_bool : safe is_u32 pb_decode_bool.
Proof.
  apply safe_bind with (Q := is_u32); [apply safe_varint32|]. intros v _. apply safe_ret.
  destruct (v =? 0); unfold is_u32; lia.
Qed.

#[export] Instance safe_varint_field {A} (Q : A -> Prop) r wire_type : safe Q r -> safe Q (varint_field r wire_type).
Proof. intros Hr. unfold varint_field. destruct (_ =? _); [done|apply safe_fail]. Qed.

Lemma set_member_ok tag v h : is_u32 v -> header_ok h -> header_ok (set_member tag v h).
Proof.
  intros Hv (? & ? & ? & ? & Hm). do 4 (split; [done|]). by apply map_Forall_insert_2.
Qed.

Lemma safe_bytes_callback h : header_ok h -> safe header_ok (protobuf_dec_bytes_callback h).
Proof.
  intros (_ & _ & ? & ? & ?) s Hs. unfold safe_at, protobuf_dec_bytes_callback.
  destruct (Z.ltb_spec MAX_ID_STR_LENGTH (bytes_left s)); [reflexivity|].
  pose proof Hs as (_ & _ & Hl & _).
  pose proof (safe_read true (bytes_left s) Hl s Hs) as Hr. unfold safe_at in Hr. destruct (pb_read _ _ s); [|done..].
  destruct Hr as [Hm [Hb Hlen]]. split; [done|]. specialize (Hlen eq_refl).
  unfold header_ok. cbn. rewrite Hlen. do 4 (split; [done || lia|]). done.
Qed.

Lemma safe_acked_callback h : header_ok h -> safe header_ok (protobuf_dec_acked_seq_number_callback h).
Proof.
  intros Hok s Hs. unfold safe_at, protobuf_dec_acked_seq_number_callback.
  assert (safe is_u32 (pb_decode SeqNoElement_fields 0)) as Hd.
  { apply safe_decode; [|unfold is_u32; lia]. intros tag d E wt m _. unfold SeqNoElement_fields in E.
    destruct (_ =? _); [|done]. injection E as <-. apply safe_varint_field, safe_uvarint32. }
  specialize (Hd s Hs). unfold safe_at in Hd. destruct (pb_decode _ _ s) as [n s'|s'|]; [|reflexivity|done].
  destruct Hd as [_ Hn]. split; [reflexivity|]. pose proof Hok as (? & ? & Ha & Hl & ?).
  destruct (Nat.ltb_spec (length (acked_message_seq_number h)) FROTO_ACKED_SEQ_NUMBER_MAX_NUMBER); [|done].
  unfold header_ok. cbn. do 2 (split; [done|]). rewrite length_app. cbn. split; [|by split; [lia|]].
  apply Forall_app. split; [done|]. by apply Forall_singleton.
Qed.

(** Whatever the bytes of the header are, decoding it reads only them and ends, with an
    identifier of at most 32 bytes and at most ten acknowledged numbers - or it calls
    the address that the flag [cloud] has left in the union, where the callback of an
    address of the peer is expected: nothing else is undefined. *)
Theorem header_within_buffer call s : (forall h, header_ok h -> safe header_ok (call h)) -> wf s ->
  match decode_header_with call s with
  | Ok h s' => moved s s' /\ bytes_left s' = 0 /\ header_ok h
  | Failed s' => cut s s'
  | Undef _ => False
  end.
Proof.
  intros Hcall Hs.
  assert (forall tag d, FrotoHeader_fields call tag = Some d -> forall wt h, header_ok h -> safe header_ok (d wt h)) as Hf.
  { intros tag d E wt h Hh. unfold FrotoHeader_fields in E.
    assert (forall r : reader Z, safe is_u32 r -> forall f, (forall v, is_u32 v -> header_ok (f v)) -> safe header_ok (let! v := varint_field r wt in ret (f v)))
      as Hfield by (intros r Hr f Hok; apply safe_bind with (Q := is_u32); [by apply safe_varint_field|]; intros v Hv; by apply safe_ret, Hok).
    repeat (match type of E with (if ?c then _ else _) = _ => destruct c end; [injection E as <-|]); [..|done].
    - apply safe_callback_field; [by apply safe_bytes_callback|done].
    - apply safe_callback_field; [|done]. intros h' Hh' s' Hs'. unfold safe_at, peer_addr_callback.
      destruct (_ =? _); [by split|by apply Hcall].
    - apply Hfield; [apply safe_bool|]. intros v Hv. by apply set_member_ok.
    - apply safe_callback_field; [|done]. intros h' Hh' s' Hs'. by split.
    - apply Hfield; [apply safe_bool|]. intros v Hv. exact Hh.
    - apply safe_callback_field; [by apply safe_acked_callback|done].
    - apply Hfield; [apply safe_uvarint32|]. intros v Hv. by apply set_member_ok. }
  assert (header_ok zero_header) as H0
    by (do 3 (split; [by apply Forall_nil || done|]); split; [cbn; lia|apply map_Forall_empty]).
  destruct (decode_fields_at header_ok (FrotoHeader_fields call) (stream_fuel s) zero_header s) as [H1 H2];
    [done..|unfold wf in Hs; unfold stream_fuel; lia|].
  unfold safe_at in H1. unfold decode_header_with, pb_decode. destruct (decode_fields _ _ _ s) as [h s'|s'|]; [|done..].
  destruct H1 as [Hm Hh]. split; [done|]. split; [by eapply H2|done].
Qed.

Lemma header_within_buffer_witness :
  match decode_header_with no_callback (pb_istream_from_buffer header_1 23) with
  | Ok h s' => moved (pb_istream_from_buffer header_1 23) s' /\ bytes_left s' = 0 /\ header_ok h
  | Failed s' => cut (pb_istream_from_buffer header_1 23) s'
  | Undef _ => False
  end.
Proof.
  apply header_within_buffer.
  - intros h Hh s Hs. split; [reflexivity|done].
  - split; [apply (bool_decide_unpack _); vm_compute; exact I|cbn; lia].
Defined.

(** ** Headers that are written field by field *)

Inductive wire_field :=
  | Scalar (tag v : Z) | Flag (tag v : Z) | Sensor (id : list Z) | Peer (tag : Z) (addr : list Z) | Acked (n : Z).

(** An acknowledged number is a message of its own; its only field is left out when it is 0. *)
Definition seq_no_element (n : Z) : list Z := if n =? 0 then [] else tag_of PB_WT_VARINT 1 ++ varint_of n.

Definition field_bytes (f : wire_field) : list Z :=
  match f with
  | Scalar tag v | Flag tag v => tag_of PB_WT_VARINT tag ++ varint_of v
  | Sensor id => tag_of PB_WT_STRING sensor_id_tag ++ string_of id
  | Peer tag addr => tag_of PB_WT_STRING tag ++ string_of addr
  | Acked n => tag_of PB_WT_STRING acked_message_seq_number_tag ++ string_of (seq_no_element n)
  end.

Definition header_bytes (fs : list wire_field) : list Z := concat (map field_bytes fs).

Definition field_ok (f : wire_field) : Prop :=
  match f with
  | Scalar tag v => In tag [1; 7; 8; 9; 10; 11; 13; 14; 16] /\ is_u32 v
  | Flag tag v => In tag [6; 17] /\ 0 <= v <= 1
  | Sensor id => Z.of_nat (length id) <= MAX_ID_STR_LENGTH
  | Peer tag addr => In tag [3; 4; 5] /\ Z.of_nat (length addr) < 2 ^ 32
  | Acked n => is_u32 n
  end.

Definition put_field (h : froto_header) (f : wire_field) : froto_header :=
  match f with
  | Scalar tag v | Flag tag v => set_member tag v h
  | Sensor id => set_sensor_id id h
  | Peer _ _ => h
  | Acked n => if (length (acked_message_seq_number h) <? FROTO_ACKED_SEQ_NUMBER_MAX_NUMBER)%nat
               then set_acked (acked_message_seq_number h ++ [n]) h else h
  end.

Lemma uvarint32_ahead v s : is_u32 v -> ahead s (varint_of v) ->
  pb_dec_uvarint32 s = Ok v (skip_bytes (varint_of v) s).
Proof.
  intros Hv Ha. unfold pb_dec_uvarint32, bind. rewrite (varint_ahead v) by (unfold is_u32 in *; (lia || done)).
  by rewrite u32_id, Z.eqb_refl.
Qed.

Lemma bool_ahead v s : 0 <= v <= 1 -> ahead s (varint_of v) -> pb_decode_bool s = Ok v (skip_bytes (varint_of v) s).
Proof.
  intros Hv Ha. unfold pb_decode_bool, bind. rewrite (varint32_ahead v) by (unfold is_u32; (lia || done)).
  by assert (v = 0 \/ v = 1) as [->| ->] by lia.
Qed.

(** A callback that leaves the stream or reads all of it is called once. *)
Lemma callback_field_ahead (cb : callback froto_header) bytes h h' s : Z.of_nat (length bytes) < 2 ^ 32 ->
  ahead s (string_of bytes) ->
  (forall sub, ahead sub bytes -> bytes_left sub = Z.of_nat (length bytes) ->
     exists sub', cb h sub = Ok h' sub' /\ moved sub sub' /\ (bytes_left sub' = 0 \/ bytes_left sub' = bytes_left sub)) ->
  decode_callback_field PB_WT_STRING cb h s = Ok h' (skip_bytes (string_of bytes) s).
Proof.
  intros Hlen Ha Hcb. unfold decode_callback_field. cbn [Z.eqb PB_WT_STRING Pos.eqb].
  destruct (substream_ahead bytes s Hlen Ha) as (sub & s1 & -> & Esub & Hsub & Hclose).
  destruct (Hcb sub Hsub) as (sub' & E & Hm & Hl); [by rewrite Esub|].
  unfold stream_fuel. cbn [call_callback]. rewrite E.
  assert ((0 <? bytes_left sub') && (bytes_left sub' <? bytes_left sub) = false) as -> by (destruct Hl as [->| ->]; [done|lia]).
  by rewrite Hclose.
Qed.

Lemma seq_no_ahead n s : is_u32 n -> ahead s (seq_no_element n) -> bytes_left s = Z.of_nat (length (seq_no_element n)) ->
  exists s', pb_decode SeqNoElement_fields 0 s = Ok n s'.
Proof.
  intros Hn Ha Hl. unfold pb_decode, stream_fuel, seq_no_element in *. destruct (Z.eqb_spec n 0) as [->|Hne].
  - cbn [length Z.of_nat] in Hl. cbn [decode_fields]. rewrite Hl. by exists s.
  - apply ahead_app in Ha as [Ht Hv]. rewrite length_app in Hl. pose proof (varint_of_length n).
    change (length (tag_of PB_WT_VARINT 1)) with 1%nat in Hl.
    rewrite (decode_fields_step _ _ _ PB_WT_VARINT 1 (fun wire_type _ => varint_field pb_dec_uvarint32 wire_type));
      [|unfold is_tag, PB_WT_VARINT; lia|done..].
    unfold bind. change (varint_field pb_dec_uvarint32 PB_WT_VARINT) with pb_dec_uvarint32. rewrite (uvarint32_ahead n) by done.
    exists (skip_bytes (varint_of n) (skip_bytes (tag_of PB_WT_VARINT 1) s)).
    assert (bytes_left (skip_bytes (varint_of n) (skip_bytes (tag_of PB_WT_VARINT 1) s)) = 0) as E0
      by (unfold skip_bytes, advance; cbn [bytes_left]; change (length (tag_of PB_WT_VARINT 1)) with 1%nat; lia).
    destruct (Z.to_nat (bytes_left s)) as [|k] eqn:Ek; [lia|]. cbn [decode_fields]. by rewrite E0.
Qed.

(** The tag of a field, its wire type, and the bytes behind the tag. *)
Definition field_tag (f : wire_field) : Z * Z :=
  match f with
  | Scalar tag _ | Flag tag _ => (PB_WT_VARINT, tag)
  | Sensor _ => (PB_WT_STRING, sensor_id_tag)
  | Peer tag _ => (PB_WT_STRING, tag)
  | Acked _ => (PB_WT_STRING, acked_message_seq_number_tag)
  end.

Definition field_value (f : wire_field) : list Z :=
  match f with
  | Scalar _ v | Flag _ v => varint_of v
  | Sensor id => string_of id
  | Peer _ addr => string_of addr
  | Acked n => string_of (seq_no_element n)
  end.

Lemma field_split f : field_bytes f = tag_of (fst (field_tag f)) (snd (field_tag f)) ++ field_value f.
Proof. by destruct f. Qed.

Lemma field_tag_ok f : field_ok f -> is_tag (fst (field_tag f)) (snd (field_tag f)) /\ snd (field_tag f) <> 0.
Proof.
  unfold is_tag. destruct f as [tag v|tag v|id|tag addr|n]; cbn; intros H; unfold sensor_id_tag, acked_message_seq_number_tag, PB_WT_VARINT, PB_WT_STRING; lia.
Qed.

Lemma sensor_ahead id h s : Z.of_nat (length id) <= MAX_ID_STR_LENGTH -> ahead s (string_of id) ->
  decode_callback_field PB_WT_STRING protobuf_dec_bytes_callback h s = Ok (set_sensor_id id h) (skip_bytes (string_of id) s).
Proof.
  intros Hid Ha. unfold MAX_ID_STR_LENGTH in Hid. apply callback_field_ahead; [lia|done|]. intros sub Hsub Hl.
  exists (skip_bytes id sub). unfold protobuf_dec_bytes_callback. rewrite Hl.
  rewrite (proj2 (Z.ltb_ge _ _)) by (unfold MAX_ID_STR_LENGTH; lia). rewrite (read_ahead _ _ Hsub). split; [done|].
  unfold skip_bytes. split; [apply moved_advance; lia|]. left. cbn. lia.
Qed.

Lemma acked_ahead n h s : is_u32 n -> ahead s (string_of (seq_no_element n)) ->
  decode_callback_field PB_WT_STRING protobuf_dec_acked_seq_number_callback h s =
    Ok (put_field h (Acked n)) (skip_bytes (string_of (seq_no_element n)) s).
Proof.
  intros Hn Ha. apply callback_field_ahead; [|done|].
  - unfold seq_no_element. destruct (n =? 0); [cbn; lia|]. rewrite length_app.
    pose proof (varint_bytes_length 10 n) as Hl. fold (varint_of n) in Hl. change (length (tag_of PB_WT_VARINT 1)) with 1%nat. lia.
  - intros sub Hsub Hl. exists sub. unfold protobuf_dec_acked_seq_number_callback.
    destruct (seq_no_ahead n sub Hn Hsub Hl) as [s' ->]. split; [done|]. split; [reflexivity|by right].
Qed.

(** One field. *)
Lemma field_ahead call f h s : field_ok f -> peer_addr h = 0 -> ahead s (field_value f) ->
  exists d, FrotoHeader_fields call (snd (field_tag f)) = Some d /\
    d (fst (field_tag f)) h s = Ok (put_field h f) (skip_bytes (field_value f) s).
Proof.
  intros Hf Hp Ha. destruct f as [tag v|tag v|id|tag addr|n]; cbn [field_ok field_tag fst snd field_value put_field] in *.
  - destruct Hf as [Htag Hv]. exists (uint32_field tag). split.
    + repeat (destruct Htag as [<-|Htag]; [done|]). by destruct Htag.
    + unfold uint32_field, varint_field, bind. cbn [Z.eqb PB_WT_VARINT]. by rewrite (uvarint32_ahead v).
  - destruct Hf as [Htag Hv]. exists (bool_field tag). split.
    + repeat (destruct Htag as [<-|Htag]; [done|]). by destruct Htag.
    + unfold bool_field, varint_field, bind. cbn [Z.eqb PB_WT_VARINT]. by rewrite (bool_ahead v).
  - eexists. split; [reflexivity|]. by apply sensor_ahead.
  - destruct Hf as [Htag Hl]. exists (fun wire_type h => decode_callback_field wire_type (peer_addr_callback call) h). split.
    + repeat (destruct Htag as [<-|Htag]; [done|]). by destruct Htag.
    + cbv beta. apply callback_field_ahead; [done|done|]. intros sub _ _. exists sub. unfold peer_addr_callback. rewrite Hp.
      split; [done|]. split; [reflexivity|by right].
  - eexists. split; [reflexivity|]. by apply acked_ahead.
Qed.

Lemma peer_addr_put h f : peer_addr (put_field h f) = peer_addr h.
Proof. destruct f; [done..|]. unfold put_field. by case_match. Qed.

Lemma field_bytes_length f : (0 < length (field_bytes f))%nat.
Proof.
  rewrite field_split, length_app. pose proof (varint_of_length (Z.lor (Z.shiftl (snd (field_tag f)) 3) (fst (field_tag f)))).
  unfold tag_of. lia.
Qed.

Lemma decode_fields_ahead call fs fuel h s : Forall field_ok fs -> peer_addr h = 0 -> ahead s (header_bytes fs) ->
  bytes_left s = Z.of_nat (length (header_bytes fs)) -> bytes_left s < Z.of_nat fuel ->
  decode_fields (FrotoHeader_fields call) fuel h s = Ok (fold_left put_field fs h) (skip_bytes (header_bytes fs) s).
Proof.
  intros Hfs. revert fuel h s. induction Hfs as [|f fs Hf Hfs IH]; intros fuel h s Hp Ha Hl Hfuel.
  - destruct fuel; [cbn in Hl; lia|]. cbn [decode_fields]. rewrite Hl. cbn [header_bytes map concat length Z.of_nat Z.eqb].
    by rewrite skip_nil.
  - change (header_bytes (f :: fs)) with (field_bytes f ++ header_bytes fs) in *.
    pose proof (field_bytes_length f). rewrite length_app in Hl. destruct fuel as [|fuel]; [lia|].
    apply ahead_app in Ha as [Ha Hrest]. rewrite field_split in Ha. apply ahead_app in Ha as [Ht Hv].
    destruct (field_tag_ok f Hf) as [Htag H0]. destruct (field_ahead call f h _ Hf Hp Hv) as (d & Efd & Ed).
    rewrite (decode_fields_step _ _ _ _ _ _ _ Htag H0 Ht Efd). unfold bind. rewrite Ed, <- skip_app, <- field_split.
    rewrite IH; [|by rewrite peer_addr_put|done| |].
    + cbn [fold_left]. by rewrite skip_app.
    + unfold skip_bytes, advance. cbn [bytes_left]. lia.
    + unfold skip_bytes, advance. cbn [bytes_left]. lia.
Qed.

Lemma header_roundtrip_decode fs s : Forall field_ok fs -> ahead s (header_bytes fs) ->
  bytes_left s = Z.of_nat (length (header_bytes fs)) ->
  decode_header s = Ok (fold_left put_field fs zero_header) (skip_bytes (header_bytes fs) s).
Proof.
  intros Hfs Ha Hl. unfold decode_header, decode_header_with, pb_decode. apply decode_fields_ahead; [done..|].
  unfold stream_fuel. lia.
Qed.

(** C31: A header that is written field by field - numbers, flags, the identifier of the sensor,
    addresses of the peer, acknowledged numbers, in any order and repeated - is
    read back: each number the last one written under its tag, the last
    identifier, and the first ten acknowledged numbers. *)
Theorem header_roundtrip fs s : Forall field_ok fs -> ahead s (header_bytes fs) ->
  bytes_left s = Z.of_nat (length (header_bytes fs)) ->
  decode_header s = Ok (fold_left put_field fs zero_header) (skip_bytes (header_bytes fs) s).
Proof. apply header_roundtrip_decode. Qed.

Definition header_1_fields : list wire_field :=
  [Scalar 1 1; Sensor [65; 66; 67]; Scalar 7 300; Scalar 9 1; Scalar 10 1; Scalar 11 1; Acked 5; Acked 0].

Lemma header_roundtrip_witness :
  decode_header (pb_istream_from_buffer (header_bytes header_1_fields) 24) =
    Ok (fold_left put_field header_1_fields zero_header)
       (skip_bytes (header_bytes header_1_fields) (pb_istream_from_buffer (header_bytes header_1_fields) 24)).
Proof.
  apply (header_roundtrip header_1_fields); [|split; [cbn; lia|split; [done|by exists []]]|reflexivity].
  unfold header_1_fields. repeat (apply Forall_cons; split; [cbn; unfold MAX_ID_STR_LENGTH, is_u32; lia|]). by apply Forall_nil.
Defined.

(** The flag [cloud] and an address of the peer in one header make the decoder call
    a function at address 1: the flag is stored over the pointer to the
    callback that decodes the address. *)
Theorem cloud_flag_is_called tag addr bs s : In tag [3; 4; 5] -> Z.of_nat (length addr) < 2 ^ 32 ->
  ahead s (tag_of PB_WT_VARINT cloud_tag ++ varint_of 1 ++ tag_of PB_WT_STRING tag ++ string_of addr ++ bs) ->
  decode_header s = Undef Wild.
Proof.
  intros Htag Hlen Ha. apply ahead_app in Ha as [H1 Ha]. apply ahead_app in Ha as [H2 Ha].
  apply ahead_app in Ha as [H3 Ha]. apply ahead_app in Ha as [H4 _].
  pose proof H1 as (_ & Hl1 & _). pose proof H2 as (_ & Hl2 & _). unfold skip_bytes, advance in Hl2. cbn [bytes_left] in Hl2.
  change (length (tag_of PB_WT_VARINT cloud_tag)) with 1%nat in *. change (length (varint_of 1)) with 1%nat in *.
  unfold decode_header, decode_header_with, pb_decode, stream_fuel.
  rewrite (decode_fields_step _ _ _ PB_WT_VARINT cloud_tag cloud_field); [|unfold is_tag, PB_WT_VARINT, cloud_tag; lia|done..].
  unfold bind at 1. change (cloud_field PB_WT_VARINT zero_header) with (let! v := pb_decode_bool in ret (set_cloud v zero_header)).
  unfold bind at 1. rewrite (bool_ahead 1) by (done || lia). unfold ret at 1.
  destruct (Z.to_nat (bytes_left s)) as [|k] eqn:Ek; [lia|].
  assert (is_tag PB_WT_STRING tag /\ tag <> 0) as [Ht H0]
    by (repeat (destruct Htag as [<-|Htag]; [unfold is_tag, PB_WT_STRING; lia|]); by destruct Htag).
  assert (FrotoHeader_fields (fun _ _ => Undef Wild) tag =
    Some (fun wire_type h => decode_callback_field wire_type (peer_addr_callback (fun _ _ => Undef Wild)) h)) as Ed
    by (repeat (destruct Htag as [<-|Htag]; [done|]); by destruct Htag).
  rewrite (decode_fields_step _ _ _ _ _ _ _ Ht H0 H3 Ed). unfold bind, decode_callback_field. cbn [Z.eqb PB_WT_STRING Pos.eqb].
  destruct (substream_ahead addr _ Hlen H4) as (sub & s1 & -> & _). unfold stream_fuel. cbn [call_callback].
  unfold peer_addr_callback. by cbn [peer_addr set_cloud Z.eqb].
Qed.

Lemma cloud_flag_is_called_witness : decode_header (pb_istream_from_buffer [120; 1; 34; 1; 65] 5) = Undef Wild.
Proof.
  apply (cloud_flag_is_called gateway_id_tag [65] []); [cbn; tauto|cbn; lia|].
  split; [cbn; lia|]. split; [vm_compute; discriminate|]. by exists [].
Defined.
