(* ===== verification/FrotoReply.v ===== *)
(** * FrotoReply: who waits for which reply

    [general/froto/app_froto_new.c]: a thread of the gateway that sends a request to a
    sensor registers what it expects, and waits on a condition variable; the thread that
    receives messages looks for who waits for a message, puts it into the queue of
    that registration, and wakes the waiter. *)

From S2P Require Import Prelude Protobuf FrotoHeader.
From Stdlib Require Import ZArith Lia ZifyBool List Bool.
From stdpp Require Import base list numbers option gmap relations.
Open Scope Z_scope.

Definition FROTO_MAX_CONCURRENT_NUM_REPLY_ACK : nat := 40.
Definition FROTO_MAX_SINGLE_CHANNEL_CONCURRENT_NUM_REPLY_ACK : nat := 10.

(** ** Data *)

(** What is registered: the condition variable - its address -, the sensor, and the reply
    that is expected. *)
Record expectation := Expect {
  pt_cond_var : nat; pt_peer_str : list Z; ExpPrimitive : Z; ExpMsgType : Z;
  checkSeqNo : bool; ExpSeqNo : Z; SeqNo : Z
}.

#[global] Instance expectation_eq_dec : EqDecision expectation.
Proof. solve_decision. Defined.

(** [struct reply_ack_t] in the queue, with its address. A queue of messages that
    was not created yet is empty. *)
Record reply_ack_t := ReplyAck {
  ra_addr : nat; ra_exp : expectation; ExpLongPktId : Z; totalBlock : Z; currentBlock : Z;
  replyMsgQueue : list (list Z)
}.

(** The [struct reply_ack_t] that the receiver fills from a header; [replyAck]
    has [replyAckLen] elements. *)
Record received := Received {
  r_peer : list Z; r_primitive : Z; r_type : Z; r_seq : Z; r_long : Z; r_total : Z; r_current : Z; replyAck : list Z
}.

Definition received_of (h : froto_header) : received :=
  Received (sensor_id h) (primitive_type h) (message_type h) (message_seq_no h) (long_packet_id h) (total_block h)
    (current_block h) (acked_message_seq_number h).

Definition set_replyAck (l : list Z) (r : received) : received :=
  Received (r_peer r) (r_primitive r) (r_type r) (r_seq r) (r_long r) (r_total r) (r_current r) l.

(** The queue, and [is_op_done] of the condition variables. *)
Record froto := Froto { reply_ack_queue : list reply_ack_t; is_op_done : gmap nat bool }.

Definition froto_init : froto := Froto [] empty.

Definition op_done (c : nat) (st : froto) : bool := default false (is_op_done st !! c).
Definition set_op_done (c : nat) (b : bool) (st : froto) : froto := Froto (reply_ack_queue st) (<[c := b]> (is_op_done st)).
Definition set_queue (q : list reply_ack_t) (st : froto) : froto := Froto q (is_op_done st).

(** ** Registration *)

(** [q_match_addr] over the queue. *)
Definition singleChannelConcurrentCnt (peer : list Z) (q : list reply_ack_t) : nat :=
  length (filter (fun ra => pt_peer_str (ra_exp ra) = peer) q).

(** [registerReplyAck]; [addr] is what [l_malloc] returns. [None]: not registered. *)
Definition registerReplyAck (addr : nat) (e : expectation) (st : froto) : option froto :=
  if (length (pt_peer_str e) =? 0)%nat then None
  else if (FROTO_MAX_SINGLE_CHANNEL_CONCURRENT_NUM_REPLY_ACK <=? singleChannelConcurrentCnt (pt_peer_str e) (reply_ack_queue st))%nat
  then None
  else if (FROTO_MAX_CONCURRENT_NUM_REPLY_ACK <=? length (reply_ack_queue st))%nat then None
  else Some (set_queue (reply_ack_queue st ++ [ReplyAck addr e 0 0 0 []]) st).

(** [unregisterReplyAck]: all registrations that are alike are removed with their messages. *)
Definition unregisterReplyAck (e : expectation) (st : froto) : froto :=
  if (length (pt_peer_str e) =? 0)%nat then st
  else set_queue (filter (fun ra => ra_exp ra <> e) (reply_ack_queue st)) st.

Definition app_froto_gabage_clean (peer : list Z) (st : froto) : froto :=
  if (length peer =? 0)%nat then st
  else set_queue (filter (fun ra => pt_peer_str (ra_exp ra) <> peer) (reply_ack_queue st)) st.

(** ** Matching *)

(** The bytes of an array of 32-bit numbers, and back. *)
Definition u32_bytes (v : Z) : list Z := [v mod 256; v / 256 mod 256; v / 65536 mod 256; v / 16777216 mod 256].

Fixpoint u32s_of (n : nat) (bs : list Z) : list Z :=
  match n, bs with
  | S n, b0 :: b1 :: b2 :: b3 :: bs => (b0 + b1 * 256 + b2 * 65536 + b3 * 16777216) :: u32s_of n bs
  | _, _ => []
  end.

Definition memmove (bs : list Z) (dst src n : nat) : list Z :=
  take dst bs ++ take n (drop src bs) ++ drop (dst + n) bs.

(** [replyAck] without element [i]. The last argument of [memmove] is a number of
    elements where it should be one of bytes. *)
Definition remove_ack (i : nat) (l : list Z) : list Z :=
  if (i =? length l - 1)%nat then take (length l - 1) l
  else take (length l - 1)
         (u32s_of (length l) (memmove (concat (map u32_bytes l)) (4 * i) (4 * (i + 1)) (length l - i - 1))).

(** Element [i] on is [n]: the [for] loop over [replyAck]. *)
Fixpoint find_ack (n : Z) (i : nat) (l : list Z) : option nat :=
  match l with
  | [] => None
  | a :: l => if a =? n then Some i else find_ack n (S i) l
  end.

Definition set_blocks (r : received) (ra : reply_ack_t) : reply_ack_t :=
  ReplyAck (ra_addr ra) (ra_exp ra) (r_long r) (r_total r) (r_current r) (replyMsgQueue ra).
Definition set_block_counts (r : received) (ra : reply_ack_t) : reply_ack_t :=
  ReplyAck (ra_addr ra) (ra_exp ra) (ExpLongPktId ra) (r_total r) (r_current r) (replyMsgQueue ra).

Definition of_kind (ra : reply_ack_t) (r : received) : bool :=
  (ExpMsgType (ra_exp ra) =? r_type r) && (ExpPrimitive (ra_exp ra) =? r_primitive r) &&
  bool_decide (pt_peer_str (ra_exp ra) = r_peer r).

(** [q_match_reply_ack_except_cond_var]: it changes both of its arguments. *)
Definition q_match_reply_ack_except_cond_var (ra : reply_ack_t) (r : received) : bool * reply_ack_t * received :=
  if of_kind ra r then
    let split ra r := (true, if 1 <? r_total r then set_blocks r ra else ra, r) in
    let other := (false, if ExpLongPktId ra =? r_long r then set_block_counts r ra else ra, r) in
    if checkSeqNo (ra_exp ra) then
      if ExpSeqNo (ra_exp ra) =? r_seq r then split ra r else other
    else
      match find_ack (SeqNo (ra_exp ra)) 0 (replyAck r) with
      | Some i => split ra (set_replyAck (remove_ack i (replyAck r)) r)
      | None => other
      end
  else (false, ra, r).

(** [l_queue_find]: the queue and the receiver's structure as the matching leaves them. *)
Fixpoint find_reply (q : list reply_ack_t) (r : received) : list reply_ack_t * received * option nat :=
  match q with
  | [] => ([], r, None)
  | ra :: q =>
      let '(found, ra, r) := q_match_reply_ack_except_cond_var ra r in
      if found then (ra :: q, r, Some 0%nat)
      else let '(q, r, i) := find_reply q r in (ra :: q, r, S <$> i)
  end.

(** ** The receiver *)

Definition push_msg (msg : list Z) (ra : reply_ack_t) : reply_ack_t :=
  ReplyAck (ra_addr ra) (ra_exp ra) (ExpLongPktId ra) (totalBlock ra) (currentBlock ra) (replyMsgQueue ra ++ [msg]).

(** [pthread_mutex_trylock], [is_op_done] and the signal. *)
Definition wake (trylock : bool) (c : nat) (st : froto) : froto := if trylock then set_op_done c true st else st.

Definition nth_cond (i : nat) (q : list reply_ack_t) : nat :=
  match q !! i with Some ra => pt_cond_var (ra_exp ra) | None => 0%nat end.

(** "Find in the queue" in [app_froto_n_get_message_type], up to [pthread_mutex_unlock];
    the second component is the structure for the searches that follow, if any. *)
Definition deliver_first (trylock : bool) (msg : list Z) (r : received) (st : froto) : froto * option received :=
  let '(q, r, i) := find_reply (reply_ack_queue st) r in
  match i with
  | None => (set_queue q st, None)
  | Some i => (wake trylock (nth_cond i q) (set_queue (alter (push_msg msg) i q) st), Some r)
  end.

(** One turn of the [do]-loop: who else waits is woken without a message. *)
Definition deliver_again (trylock : bool) (r : received) (st : froto) : froto * option received :=
  let '(q, r, i) := find_reply (reply_ack_queue st) r in
  match i with
  | None => (set_queue q st, None)
  | Some i => (wake trylock (nth_cond i q) (set_queue q st), Some r)
  end.

(** The loop, with what [pthread_mutex_trylock] returns each time; [None]: it goes on. *)
Fixpoint deliver_rest (trylocks : list bool) (r : received) (st : froto) : option froto :=
  match trylocks with
  | [] => None
  | t :: ts => match deliver_again t r st with (st, None) => Some st | (st, Some r) => deliver_rest ts r st end
  end.

(** A received message, while no other thread is in between. *)
Definition deliver (trylocks : list bool) (msg : list Z) (r : received) (st : froto) : option froto :=
  match trylocks with
  | [] => None
  | t :: ts => match deliver_first t msg r st with (st, None) => Some st | (st, Some r) => deliver_rest ts r st end
  end.

(** ** The waiter *)

(** What a call returns: [readBuf], when a message was copied into it. *)
Record reply := Reply { success : bool; read : option (list Z) }.

Definition find_addr (addr : nat) (q : list reply_ack_t) : option (nat * reply_ack_t) :=
  list_find (fun ra => ra_addr ra = addr) q.

Definition pop_msg (ra : reply_ack_t) : reply_ack_t :=
  ReplyAck (ra_addr ra) (ra_exp ra) (ExpLongPktId ra) (totalBlock ra) (currentBlock ra) (tail (replyMsgQueue ra)).

(** The message is copied when it fits; otherwise it is lost. *)
Definition copied (maxReadBufLen : Z) (msg : list Z) : option (list Z) :=
  if Z.of_nat (length msg) <=? maxReadBufLen then Some msg else None.

(** After the loop around [pthread_cond_timedwait], which ends when [is_op_done] is set or
    with [timed_out]; it can be set in spite of the time-out. With [one], the message
    is taken when it is the only one ([send_with_reply]), otherwise when there is any.
    [None]: the registration was removed, and its memory is read. *)
Definition take_reply (one timed_out : bool) (maxReadBufLen : Z) (addr c : nat) (st : froto) : option (reply * froto) :=
  if op_done c st then
    match find_addr addr (reply_ack_queue st) with
    | None => None
    | Some (i, ra) =>
        match replyMsgQueue ra with
        | [] => Some (Reply (negb timed_out) None, st)
        | msg :: rest =>
            if one && negb (length rest =? 0)%nat then Some (Reply (negb timed_out) None, st)
            else Some (Reply (negb timed_out) (copied maxReadBufLen msg), set_queue (alter pop_msg i (reply_ack_queue st)) st)
        end
    end
  else Some (Reply (negb timed_out) None, st).

(** [app_froto_n_send_with_reply] in two steps: up to the wait - [sent] is the result of
    [send] -, and from its end on. *)
Definition send_with_reply_start (addr : nat) (e : expectation) (sent : bool) (st : froto) : option froto :=
  match registerReplyAck addr e (set_op_done (pt_cond_var e) false st) with
  | None => None
  | Some st => if sent then Some st else Some (unregisterReplyAck e st)
  end.

Definition send_with_reply_end (timed_out : bool) (maxReadBufLen : Z) (addr : nat) (e : expectation) (st : froto) :
  option (reply * froto) :=
  match take_reply true timed_out maxReadBufLen addr (pt_cond_var e) st with
  | None => None
  | Some (rep, st) => Some (rep, unregisterReplyAck e st)
  end.

(** [..._with_multiple_replies_first_half] begins as [send_with_reply]; after the wait it
    stays registered when it was woken. *)
Definition first_half_end (timed_out : bool) (maxReadBufLen : Z) (addr : nat) (e : expectation) (st : froto) :
  option (reply * froto) :=
  match take_reply false timed_out maxReadBufLen addr (pt_cond_var e) st with
  | None => None
  | Some (rep, st) => Some (rep, if op_done (pt_cond_var e) st then st else unregisterReplyAck e st)
  end.

(** [..._second_half] in three steps: "Check the queue first"; [is_op_done = false]; and
    from the end of the wait on. The first returns at once when a message is there and fits. *)
Definition second_half_check (maxReadBufLen : Z) (addr : nat) (st : froto) : option (option reply * froto) :=
  match find_addr addr (reply_ack_queue st) with
  | None => None
  | Some (i, ra) =>
      match replyMsgQueue ra with
      | [] => Some (None, st)
      | msg :: _ =>
          Some ((fun m => Reply true (Some m)) <$> copied maxReadBufLen msg,
                set_queue (alter pop_msg i (reply_ack_queue st)) st)
      end
  end.

Definition second_half_reset (e : expectation) (st : froto) : froto := set_op_done (pt_cond_var e) false st.

Definition second_half_end (timed_out : bool) (maxReadBufLen : Z) (addr : nat) (e : expectation) (lastOne : bool) (st : froto) :
  option (reply * froto) :=
  match take_reply false timed_out maxReadBufLen addr (pt_cond_var e) st with
  | None => None
  | Some (rep, st) =>
      Some (rep, if lastOne || negb (op_done (pt_cond_var e) st) then unregisterReplyAck e st else st)
  end.

(** The whole call; [others] is what the other threads do during the wait. *)
Definition second_half (timed_out : bool) (others : froto -> froto) (maxReadBufLen : Z) (addr : nat) (e : expectation)
    (lastOne : bool) (st : froto) : option (reply * froto) :=
  match second_half_check maxReadBufLen addr st with
  | None => None
  | Some (Some rep, st) => Some (rep, st)
  | Some (None, st) => second_half_end timed_out maxReadBufLen addr e lastOne (others (second_half_reset e st))
  end.

(** Two waiters, a reply to the first one, and its return. *)
Definition waiter (c : nat) (seq : Z) : expectation := Expect c [65; 66] 1 1 false 0 seq.
Definition two_waiting : option froto :=
  st ← send_with_reply_start 100 (waiter 1 7) true froto_init; send_with_reply_start 101 (waiter 2 8) true st.
Definition reply_to (acks : list Z) : received := Received [65; 66] 1 1 20 0 1 0 acks.

Example reply_taken :
  (st ← two_waiting; st ← deliver [true; true] [1; 2; 3] (reply_to [8]) st;
   '(rep, st) ← send_with_reply_end false 100 101 (waiter 2 8) st; Some (rep, length (reply_ack_queue st), op_done 1 st))
  = Some (Reply true (Some [1; 2; 3]), 1%nat, false).
Proof. reflexivity. Qed.

(** ** Matching *)

(** The condition of [q_match_reply_ack_except_cond_var]. *)
Definition matches (ra : reply_ack_t) (r : received) : bool :=
  of_kind ra r &&
  (if checkSeqNo (ra_exp ra) then ExpSeqNo (ra_exp ra) =? r_seq r
   else existsb (fun a => a =? SeqNo (ra_exp ra)) (replyAck r)).

(** What the matching never changes of a registration. *)
Definition reg (ra : reply_ack_t) : nat * expectation * list (list Z) := (ra_addr ra, ra_exp ra, replyMsgQueue ra).

Lemma find_ack_existsb n i l : match find_ack n i l with Some _ => true | None => false end = existsb (fun a => a =? n) l.
Proof. revert i. induction l as [|a l IH]; intros i; cbn; [done|]. by destruct (a =? n). Qed.

Lemma find_ack_spec n i l k : find_ack n i l = Some k -> (i <= k < i + length l)%nat /\ l !! (k - i)%nat = Some n.
Proof.
  revert i. induction l as [|a l IH]; intros i; cbn [find_ack length]; [done|]. destruct (Z.eqb_spec a n) as [->|].
  - intros [= <-]. rewrite Nat.sub_diag. split; [lia|done].
  - intros [H1 H2]%IH. split; [lia|]. by replace (k - i)%nat with (S (k - S i)) by lia.
Qed.

Lemma u32s_of_length n bs : length (u32s_of n bs) = Nat.min n (length bs / 4).
Proof.
  revert bs. induction n as [|n IH]; intros bs; [done|]. destruct bs as [|b0 [|b1 [|b2 [|b3 bs]]]]; [done..|].
  cbn [u32s_of length]. rewrite IH. change (S (S (S (S (length bs))))) with (4 + length bs)%nat.
  replace ((4 + length bs) / 4)%nat with (S (length bs / 4)); [lia|].
  replace (4 + length bs)%nat with (length bs + 1 * 4)%nat by lia. rewrite Nat.div_add by lia. lia.
Qed.

Lemma length_u32_bytes l : length (concat (map u32_bytes l)) = (4 * length l)%nat.
Proof. induction l as [|a l IH]; [done|]. cbn [map concat]. rewrite length_app, IH. cbn [u32_bytes length]. lia. Qed.

Lemma length_memmove bs dst src n : (dst + n <= length bs)%nat -> (src + n <= length bs)%nat ->
  length (memmove bs dst src n) = length bs.
Proof. intros H1 H2. unfold memmove. rewrite !length_app, !length_take, !length_drop. lia. Qed.

Lemma length_remove_ack i l : (i < length l)%nat -> S (length (remove_ack i l)) = length l.
Proof.
  intros Hi. unfold remove_ack. destruct (Nat.eqb_spec i (length l - 1)) as [E|E]; rewrite length_take; [lia|].
  rewrite u32s_of_length, length_memmove, length_u32_bytes by (rewrite length_u32_bytes; lia).
  rewrite Nat.mul_comm, Nat.div_mul by lia. lia.
Qed.

Lemma set_blocks_reg r ra (b : bool) : reg (if b then set_blocks r ra else ra) = reg ra.
Proof. by destruct b. Qed.
Lemma set_block_counts_reg r ra (b : bool) : reg (if b then set_block_counts r ra else ra) = reg ra.
Proof. by destruct b. Qed.

(** The acknowledged numbers that are left by a match. *)
Definition left_acks (ra : reply_ack_t) (r : received) : list Z :=
  if checkSeqNo (ra_exp ra) then replyAck r
  else match find_ack (SeqNo (ra_exp ra)) 0 (replyAck r) with
       | Some i => remove_ack i (replyAck r)
       | None => replyAck r
       end.

Lemma length_left_acks ra r : matches ra r = true -> checkSeqNo (ra_exp ra) = false ->
  S (length (left_acks ra r)) = length (replyAck r).
Proof.
  unfold matches, left_acks. intros [_ Hm]%andb_true_iff Hc. rewrite Hc in *. rewrite <- (find_ack_existsb _ 0) in Hm.
  destruct (find_ack _ _ _) as [i|] eqn:E; [|done]. apply length_remove_ack. apply find_ack_spec in E. lia.
Qed.

Lemma match_spec ra r found ra' r' : q_match_reply_ack_except_cond_var ra r = (found, ra', r') ->
  found = matches ra r /\ reg ra' = reg ra /\ r' = if matches ra r then set_replyAck (left_acks ra r) r else r.
Proof.
  unfold q_match_reply_ack_except_cond_var, matches, left_acks.
  assert (r = set_replyAck (replyAck r) r) as Er by by destruct r.
  destruct (of_kind ra r); cbn [andb].
  2:{ by intros [= <- <- <-]. }
  destruct (checkSeqNo (ra_exp ra)).
  - destruct (_ =? _); intros [= <- <- <-]; (split; [done|]); (split; [by rewrite ?set_blocks_reg, ?set_block_counts_reg|done]).
  - rewrite <- (find_ack_existsb _ 0). destruct (find_ack _ _ _) as [i|]; intros [= <- <- <-]; (split; [done|]);
      (split; [by rewrite ?set_blocks_reg, ?set_block_counts_reg|done]).
Qed.

Lemma matches_reg ra ra' r : reg ra' = reg ra -> matches ra' r = matches ra r.
Proof. intros [= _ E _]. unfold matches, of_kind. by rewrite E. Qed.

(** The first registration that matches. *)
Definition first_match (q : list reply_ack_t) (r : received) : option (nat * reply_ack_t) :=
  list_find (fun ra => matches ra r) q.

Lemma find_reply_spec q r q' r' i : find_reply q r = (q', r', i) ->
  map reg q' = map reg q /\ i = fst <$> first_match q r /\
  match first_match q r with
  | None => r' = r
  | Some (_, ra) => r' = set_replyAck (left_acks ra r) r
  end.
Proof.
  revert q' r' i. induction q as [|ra q IH]; intros q' r' i; cbn [find_reply].
  { by intros [= <- <- <-]. }
  destruct (q_match_reply_ack_except_cond_var ra r) as [[found ra1] r1] eqn:E.
  destruct (match_spec _ _ _ _ _ E) as (-> & Ereg & ->). unfold first_match in *. cbn [list_find].
  destruct (matches ra r) eqn:Em.
  - intros [= <- <- <-]. rewrite decide_True by done. cbn. split; [by rewrite Ereg|done].
  - rewrite decide_False by (by intros ?). destruct (find_reply q r) as [[q2 r2] i2] eqn:Eq.
    intros [= <- <- <-]. destruct (IH _ _ _ eq_refl) as (H1 & -> & H3). split; [cbn; by rewrite Ereg, H1|].
    destruct (list_find _ q) as [[k ra2]|]; cbn in *; by split.
Qed.

Lemma first_match_Some q r k ra : first_match q r = Some (k, ra) ->
  q !! k = Some ra /\ matches ra r = true /\ forall j ra', q !! j = Some ra' -> (j < k)%nat -> matches ra' r = false.
Proof.
  intros (Hk & Hm & Hj)%list_find_Some. split; [done|]. split; [by apply Is_true_true|].
  intros j ra' Ej Hlt. apply Is_true_false. by eapply Hj.
Qed.

Lemma first_match_None q r : first_match q r = None <-> Forall (fun ra => matches ra r = false) q.
Proof.
  unfold first_match. rewrite list_find_None. apply Forall_iff. intros ra. apply Is_true_false.
Qed.

Lemma nth_cond_reg q q' k ra : map reg q' = map reg q -> q !! k = Some ra -> nth_cond k q' = pt_cond_var (ra_exp ra).
Proof.
  intros E Ek. unfold nth_cond. assert (map reg q' !! k = Some (reg ra)) as H by by rewrite E, list_lookup_fmap, Ek.
  rewrite list_lookup_fmap in H. destruct (q' !! k) as [ra'|]; [|done]. injection H as _ H _. by rewrite H.
Qed.

Lemma op_done_wake t c c' st : op_done c (wake t c' st) = (t && bool_decide (c = c')) || op_done c st.
Proof.
  unfold wake, set_op_done, op_done. destruct t; [|done]. cbn. case_bool_decide as E.
  - subst. by rewrite lookup_insert_eq.
  - by rewrite lookup_insert_ne.
Qed.

Lemma queue_wake t c st : reply_ack_queue (wake t c st) = reply_ack_queue st.
Proof. by destruct t. Qed.

Definition push_reg (msg : list Z) (x : nat * expectation * list (list Z)) : nat * expectation * list (list Z) :=
  let '(a, e, ms) := x in (a, e, ms ++ [msg]).

Lemma map_reg_push msg k q : map reg (alter (push_msg msg) k q) = alter (push_reg msg) k (map reg q).
Proof. apply (list_fmap_alter reg). by apply Forall_true. Qed.

Lemma deliver_first_spec t msg r st :
  match first_match (reply_ack_queue st) r with
  | None => snd (deliver_first t msg r st) = None /\
      map reg (reply_ack_queue (fst (deliver_first t msg r st))) = map reg (reply_ack_queue st) /\
      is_op_done (fst (deliver_first t msg r st)) = is_op_done st
  | Some (k, ra) => exists st', deliver_first t msg r st = (st', Some (set_replyAck (left_acks ra r) r)) /\
      map reg (reply_ack_queue st') = alter (push_reg msg) k (map reg (reply_ack_queue st)) /\
      (forall c, op_done c st' = (t && bool_decide (c = pt_cond_var (ra_exp ra))) || op_done c st)
  end.
Proof.
  unfold deliver_first. destruct (find_reply (reply_ack_queue st) r) as [[q' r'] i] eqn:E.
  destruct (find_reply_spec _ _ _ _ _ E) as (Hq & -> & H). destruct (first_match _ r) as [[k ra]|] eqn:Ef.
  - cbn [fst fmap option_fmap option_map]. subst r'. destruct (first_match_Some _ _ _ _ Ef) as (Ek & _ & _).
    eexists. split; [reflexivity|]. rewrite queue_wake. split.
    + cbn [reply_ack_queue set_queue]. rewrite <- Hq. by apply map_reg_push.
    + intros c. rewrite op_done_wake. by rewrite (nth_cond_reg _ _ _ _ Hq Ek).
  - by split.
Qed.

(** A received message goes to the first registration that waits for it - the same
    primitive, message type and sensor, and the expected sequence number, or an
    acknowledgement of the request's number, which is removed for the searches after
    it -: it is appended to its messages, its condition
    variable is set unless it is locked, and nothing else changes of the registrations
    and the condition variables. When nobody waits none of this changes. *)
Theorem reply_goes_to_first_match t msg r st :
  match first_match (reply_ack_queue st) r with
  | None => snd (deliver_first t msg r st) = None /\
      map reg (reply_ack_queue (fst (deliver_first t msg r st))) = map reg (reply_ack_queue st) /\
      is_op_done (fst (deliver_first t msg r st)) = is_op_done st
  | Some (k, ra) => exists st', deliver_first t msg r st = (st', Some (set_replyAck (left_acks ra r) r)) /\
      map reg (reply_ack_queue st') = alter (push_reg msg) k (map reg (reply_ack_queue st)) /\
      (forall c, op_done c st' = (t && bool_decide (c = pt_cond_var (ra_exp ra))) || op_done c st)
  end.
Proof. apply deliver_first_spec. Qed.

(** ** The searches after the first *)

Lemma again_spec t r st : exists st', map reg (reply_ack_queue st') = map reg (reply_ack_queue st) /\
  match first_match (reply_ack_queue st) r with
  | None => deliver_again t r st = (st', None) /\ forall c, op_done c st' = op_done c st
  | Some (k, ra) => deliver_again t r st = (st', Some (set_replyAck (left_acks ra r) r)) /\
      (forall c, op_done c st' = (t && bool_decide (c = pt_cond_var (ra_exp ra))) || op_done c st)
  end.
Proof.
  unfold deliver_again. destruct (find_reply (reply_ack_queue st) r) as [[q' r'] i] eqn:E.
  destruct (find_reply_spec _ _ _ _ _ E) as (Hq & -> & H). destruct (first_match _ r) as [[k ra]|] eqn:Ef.
  - subst r'. destruct (first_match_Some _ _ _ _ Ef) as (Ek & _ & _). cbn [fst fmap option_fmap option_map].
    eexists. split; [|split; [reflexivity|]]; [by rewrite queue_wake|].
    intros c. by rewrite op_done_wake, (nth_cond_reg _ _ _ _ Hq Ek).
  - eexists. split; [|split; [reflexivity|done]]. done.
Qed.

Definition unchecked (q : list reply_ack_t) : Prop :=
  Forall (fun x : nat * expectation * list (list Z) => checkSeqNo (snd (fst x)) = false) (map reg q).

Lemma unchecked_at q k ra : unchecked q -> q !! k = Some ra -> checkSeqNo (ra_exp ra) = false.
Proof. intros H%Forall_fmap Ek. exact (Forall_lookup_1 _ _ _ _ H Ek). Qed.

Lemma deliver_rest_ends ts r st : unchecked (reply_ack_queue st) -> (length (replyAck r) < length ts)%nat ->
  exists st', deliver_rest ts r st = Some st' /\ map reg (reply_ack_queue st') = map reg (reply_ack_queue st).
Proof.
  revert r st. induction ts as [|t ts IH]; intros r st Hu Hl; [cbn in Hl; lia|]. cbn [deliver_rest length] in *.
  destruct (again_spec t r st) as (st' & Hq & H). destruct (first_match _ r) as [[k ra]|] eqn:Ef.
  - destruct H as (-> & _). destruct (first_match_Some _ _ _ _ Ef) as (Ek & Hm & _).
    pose proof (length_left_acks ra r Hm (unchecked_at _ _ _ Hu Ek)) as Hlen.
    destruct (IH (set_replyAck (left_acks ra r) r) st') as (st'' & E & Hq'); [unfold unchecked; by rewrite Hq|cbn; lia|].
    exists st''. split; [done|]. by rewrite Hq'.
  - destruct H as [-> _]. by exists st'.
Qed.

Lemma deliver_ends ts msg r st : unchecked (reply_ack_queue st) -> (length (replyAck r) < length ts)%nat ->
  exists st', deliver ts msg r st = Some st' /\
    map reg (reply_ack_queue st') = map reg (reply_ack_queue (fst (deliver_first (hd true ts) msg r st))).
Proof.
  intros Hu Hl. destruct ts as [|t ts]; [cbn in Hl; lia|]. cbn [deliver hd length] in *.
  pose proof (deliver_first_spec t msg r st) as H. destruct (first_match _ r) as [[k ra]|] eqn:Ef.
  - destruct H as (st' & -> & Hq & _). cbn [fst]. destruct (first_match_Some _ _ _ _ Ef) as (Ek & Hm & _).
    pose proof (length_left_acks ra r Hm (unchecked_at _ _ _ Hu Ek)) as Hlen.
    apply deliver_rest_ends; [|cbn; lia]. unfold unchecked. rewrite Hq. apply Forall_alter; [done|by intros [[? ?] ?]].
  - destruct (deliver_first t msg r st) as [st' [r'|]]; [by destruct H|]. by exists st'.
Qed.

(** When no registration asks for a sequence number - the callers never do - a
    received message is done with after one search more than it acknowledges
    numbers, with the registrations as the first search left them. *)
Theorem delivery_ends ts msg r st : unchecked (reply_ack_queue st) -> (length (replyAck r) < length ts)%nat ->
  exists st', deliver ts msg r st = Some st' /\
    map reg (reply_ack_queue st') = map reg (reply_ack_queue (fst (deliver_first (hd true ts) msg r st))).
Proof. apply deliver_ends. Qed.

Lemma delivery_ends_witness : exists st',
  deliver [true; true] [1; 2; 3] (reply_to [8]) froto_init = Some st' /\
  map reg (reply_ack_queue st') = map reg (reply_ack_queue (fst (deliver_first true [1; 2; 3] (reply_to [8]) froto_init))).
Proof. apply (delivery_ends [true; true]); [by apply Forall_nil|cbn; lia]. Defined.

(** Some registration with a sequence number matches. *)
Definition checked_match (r : received) (st : froto) : Prop :=
  exists ra, ra ∈ reply_ack_queue st /\ checkSeqNo (ra_exp ra) = true /\ matches ra r = true.

Lemma matches_checked ra l r : checkSeqNo (ra_exp ra) = true -> matches ra (set_replyAck l r) = matches ra r.
Proof. intros H. unfold matches. by rewrite H. Qed.

Lemma checked_reg l r st q : map reg q = map reg (reply_ack_queue st) -> checked_match r st ->
  exists ra, ra ∈ q /\ checkSeqNo (ra_exp ra) = true /\ matches ra (set_replyAck l r) = true.
Proof.
  intros Hq (ra & Hra & Hc & Hm). apply list_elem_of_lookup in Hra as [k Ek].
  assert (map reg q !! k = Some (reg ra)) as H by by rewrite Hq, list_lookup_fmap, Ek.
  rewrite list_lookup_fmap in H. destruct (q !! k) as [ra'|] eqn:Ek'; [|done]. injection H as H1 H2 H3. exists ra'.
  split; [by eapply list_elem_of_lookup_2|]. rewrite H2. split; [done|]. rewrite matches_checked by by rewrite H2.
  rewrite (matches_reg ra); [done|]. unfold reg. by rewrite H1, H2, H3.
Qed.

Lemma checked_first r st : checked_match r st -> exists k ra, first_match (reply_ack_queue st) r = Some (k, ra).
Proof.
  intros (ra & Hra & _ & Hm). destruct (first_match _ r) as [[k ra']|] eqn:E; [by exists k, ra'|].
  apply first_match_None in E. rewrite list.Forall_forall in E. by rewrite (E ra Hra) in Hm.
Qed.

Lemma deliver_rest_checked ts r st : checked_match r st -> deliver_rest ts r st = None.
Proof.
  revert r st. induction ts as [|t ts IH]; intros r st H; [done|]. cbn [deliver_rest].
  destruct (checked_first _ _ H) as (k & ra & E). destruct (again_spec t r st) as (st' & Hq & H'). rewrite E in H'.
  destruct H' as (-> & _). apply IH. by apply (checked_reg _ r st).
Qed.

(** A registration with a sequence number - the interface offers it - makes the receiver
    search without end: nothing marks the registration as served, so every
    search finds it again until its owner removes it. *)
Theorem checked_reply_searched_forever ts msg r st ra : ra ∈ reply_ack_queue st -> checkSeqNo (ra_exp ra) = true ->
  matches ra r = true -> deliver ts msg r st = None.
Proof.
  intros Hra Hc Hm. assert (checked_match r st) as H by by exists ra. destruct ts as [|t ts]; [done|]. cbn [deliver].
  pose proof (deliver_first_spec t msg r st) as Hd. destruct (checked_first _ _ H) as (k & ra1 & E). rewrite E in Hd.
  destruct Hd as (st' & -> & Hq & _). apply deliver_rest_checked. destruct (first_match_Some _ _ _ _ E) as (Ek & _ & _).
  destruct (checked_reg (left_acks ra1 r) r st (reply_ack_queue st) eq_refl H) as (ra2 & Hra2 & Hc2 & Hm2).
  apply list_elem_of_lookup in Hra2 as [j Ej].
  assert (exists x, map reg (reply_ack_queue st') !! j = Some x /\ fst x = fst (reg ra2)) as (x & Ex & Ef).
  { rewrite Hq. destruct (decide (j = k)) as [->|Hne].
    - rewrite list_lookup_alter_eq, list_lookup_fmap, Ej. by eexists.
    - rewrite list_lookup_alter_ne, list_lookup_fmap, Ej by done. by eexists. }
  rewrite list_lookup_fmap in Ex. destruct (reply_ack_queue st' !! j) as [ra3|] eqn:Ej3; [|done]. injection Ex as <-.
  injection Ef as _ Ee. exists ra3. split; [by eapply list_elem_of_lookup_2|]. rewrite Ee. split; [done|].
  unfold matches, of_kind in Hm2 |- *. by rewrite Ee.
Qed.

Definition checked_waiter : expectation := Expect 1 [65; 66] 1 1 true 20 0.
Definition checked_waiting : froto := Froto [ReplyAck 100 checked_waiter 0 0 0 []] empty.

Lemma checked_reply_searched_forever_witness : deliver (repeat true 1000) [1] (reply_to []) checked_waiting = None.
Proof.
  apply (checked_reply_searched_forever _ _ _ _ (ReplyAck 100 checked_waiter 0 0 0 [])); [|done..].
  apply list_elem_of_here.
Defined.

(** ** Two acknowledged numbers *)

Lemma remove_first_of_two a b : is_u32 a -> is_u32 b -> remove_ack 0 [a; b] = [a / 256 * 256 + b mod 256].
Proof.
  intros Ha Hb. unfold is_u32 in *. unfold remove_ack. cbn -[Z.div Z.modulo Z.mul Z.add]. f_equal.
  Z.div_mod_to_equations. lia.
Qed.

Lemma two_match q xa wa la xb wb lb r l : map reg q = [(xa, wa, la); (xb, wb, lb)] -> checkSeqNo wa = false -> checkSeqNo wb = false ->
  (forall ra, ra_exp ra = wa \/ ra_exp ra = wb -> of_kind ra r = true) ->
  match first_match q (set_replyAck l r) with
  | Some (_, ra) => ra_exp ra = (if existsb (fun a => a =? SeqNo wa) l then wa else wb) /\
      existsb (fun a => a =? SeqNo wa) l || existsb (fun a => a =? SeqNo wb) l = true
  | None => existsb (fun a => a =? SeqNo wa) l || existsb (fun a => a =? SeqNo wb) l = false
  end.
Proof.
  intros Hq Hca Hcb Hk. destruct q as [|qa [|qb [|? ?]]]; try done. injection Hq as <- <- <- <- <- <-.
  assert (forall x, ra_exp x = ra_exp qa \/ ra_exp x = ra_exp qb ->
    matches x (set_replyAck l r) = existsb (fun a => a =? SeqNo (ra_exp x)) l) as Hm.
  { intros x Hx. unfold matches. replace (checkSeqNo (ra_exp x)) with false by (by destruct Hx as [-> | ->]).
    change (of_kind x (set_replyAck l r)) with (of_kind x r). by rewrite (Hk x Hx). }
  unfold first_match. cbn [list_find]. rewrite !Hm by auto.
  destruct (existsb (fun a => a =? SeqNo (ra_exp qa)) l); cbn; [done|].
  by destruct (existsb (fun a => a =? SeqNo (ra_exp qb)) l).
Qed.

Lemma left_one ra m r : matches ra (set_replyAck [m] r) = true -> checkSeqNo (ra_exp ra) = false ->
  left_acks ra (set_replyAck [m] r) = [].
Proof.
  intros Hm Hc. pose proof (length_left_acks _ _ Hm Hc) as H. cbn in H. by destruct (left_acks _ _).
Qed.

(** Two waiters and one acknowledged number. *)
Lemma deliver_rest_one t t' m r xa wa la xb wb lb st : map reg (reply_ack_queue st) = [(xa, wa, la); (xb, wb, lb)] ->
  checkSeqNo wa = false -> checkSeqNo wb = false ->
  (forall ra, ra_exp ra = wa \/ ra_exp ra = wb -> of_kind ra r = true) ->
  SeqNo wa <> SeqNo wb -> pt_cond_var wa <> pt_cond_var wb ->
  exists st', deliver_rest [t; t'] (set_replyAck [m] r) st = Some st' /\
    op_done (pt_cond_var wb) st' = (t && (m =? SeqNo wb)) || op_done (pt_cond_var wb) st.
Proof.
  intros Hq Hca Hcb Hk Hne Hcond. cbn [deliver_rest].
  destruct (again_spec t (set_replyAck [m] r) st) as (st1 & Hq1 & H1). rewrite <- Hq1 in Hq.
  pose proof (two_match _ _ _ _ _ _ _ r [m] (eq_trans (eq_sym Hq1) Hq) Hca Hcb Hk) as M. cbn [existsb] in M.
  rewrite !orb_false_r in M. destruct (first_match _ (set_replyAck [m] r)) as [[k ra]|] eqn:Ef.
  - destruct M as [Era Hor], H1 as [-> Hop]. destruct (first_match_Some _ _ _ _ Ef) as (_ & Hm & _).
    rewrite left_one by (try done; rewrite Era; by destruct (m =? _)).
    destruct (again_spec t' (set_replyAck [] (set_replyAck [m] r)) st1) as (st2 & _ & H2).
    pose proof (two_match _ _ _ _ _ _ _ (set_replyAck [m] r) [] Hq Hca Hcb Hk) as M2.
    destruct (first_match _ (set_replyAck [] _)) as [[k2 ra2]|]; [by destruct M2|]. destruct H2 as [-> Hop2].
    exists st2. split; [done|]. rewrite Hop2, Hop, Era. f_equal. f_equal.
    destruct (Z.eqb_spec m (SeqNo wa)) as [->|]; cbn [orb] in Hor.
    + rewrite bool_decide_eq_false_2 by congruence. lia.
    + rewrite bool_decide_eq_true_2 by done. lia.
  - destruct H1 as [-> Hop]. exists st1. split; [done|]. apply orb_false_iff in M as [_ ->]. by rewrite andb_false_r, Hop.
Qed.

Lemma map_reg_push_two xa wa la xb wb lb msg k :
  exists la' lb', alter (push_reg msg) k [(xa, wa, la); (xb, wb, lb)] = [(xa, wa, la'); (xb, wb, lb')].
Proof. destruct k as [|[|k]]; by eexists _, _. Qed.

(** When a message acknowledges two requests, the second waiter is lost. The first
    number is removed by moving one byte instead of four: what is
    left is a mixture of both, which is the second number only when they
    agree in all but the last byte. Then the second waiter is woken, otherwise it is not. *)
Theorem second_ack_is_mixed t1 t2 t3 msg r wa wb la lb st : is_u32 (SeqNo wa) -> is_u32 (SeqNo wb) -> SeqNo wa <> SeqNo wb ->
  map reg (reply_ack_queue st) = [(100%nat, wa, la); (101%nat, wb, lb)] -> checkSeqNo wa = false -> checkSeqNo wb = false ->
  (forall ra, ra_exp ra = wa \/ ra_exp ra = wb -> of_kind ra r = true) -> pt_cond_var wa <> pt_cond_var wb ->
  op_done (pt_cond_var wb) st = false -> replyAck r = [SeqNo wa; SeqNo wb] ->
  exists st', deliver [t1; t2; t3] msg r st = Some st' /\
    op_done (pt_cond_var wb) st' = t2 && (SeqNo wa / 256 =? SeqNo wb / 256).
Proof.
  intros Ha Hb Hne Hq Hca Hcb Hk Hcond Hop Hr. cbn [deliver].
  assert (r = set_replyAck [SeqNo wa; SeqNo wb] r) as Er by by (rewrite <- Hr; destruct r).
  pose proof (deliver_first_spec t1 msg r st) as H1. pose proof (two_match _ _ _ _ _ _ _ r [SeqNo wa; SeqNo wb] Hq Hca Hcb Hk) as M1.
  rewrite <- Er in M1. cbn [existsb] in M1. rewrite Z.eqb_refl in M1.
  destruct (first_match _ r) as [[k ra]|] eqn:Ef1; [|done]. destruct M1 as [Era _]. destruct H1 as (st1 & -> & Hq1 & Hop1).
  cbn in Era. rewrite Hq in Hq1. destruct (map_reg_push_two 100 wa la 101 wb lb msg k) as (la' & lb' & E). rewrite E in Hq1.
  replace (left_acks ra r) with [SeqNo wa / 256 * 256 + SeqNo wb mod 256].
  2:{ unfold left_acks. rewrite Era, Hca, Hr. cbn [find_ack]. by rewrite Z.eqb_refl, remove_first_of_two. }
  destruct (deliver_rest_one t2 t3 (SeqNo wa / 256 * 256 + SeqNo wb mod 256) r _ _ _ _ _ _ _ Hq1 Hca Hcb Hk Hne Hcond) as (st' & -> & Hop').
  exists st'. split; [done|]. rewrite Hop', Hop1, Hop, Era, bool_decide_eq_false_2 by done. rewrite andb_false_r, !orb_false_r.
  f_equal. Z.div_mod_to_equations. lia.
Qed.

Definition both_waiting : froto := Froto [ReplyAck 100 (waiter 1 7) 0 0 0 []; ReplyAck 101 (waiter 2 264) 0 0 0 []] empty.

Lemma second_ack_is_mixed_witness : exists st',
  deliver [true; true; true] [1; 2] (reply_to [7; 264]) both_waiting = Some st' /\ op_done 2 st' = false.
Proof.
  apply (second_ack_is_mixed true true true [1; 2] (reply_to [7; 264]) (waiter 1 7) (waiter 2 264) [] [] both_waiting);
    try done.
  intros ra [H|H]; unfold of_kind; by rewrite H.
Defined.

(** ** What the threads do *)

(** The steps that change the registrations, each under the lock of the queue. The
    address in [Register] is one that is free. *)
Inductive act :=
| Register (addr : nat) (e : expectation)
| Unregister (e : expectation)
| Clean (peer : list Z)
| First (trylock : bool) (msg : list Z) (r : received)
| Again (trylock : bool) (r : received)
| Take (one timed_out : bool) (maxReadBufLen : Z) (addr c : nat)
| TakeQueued (maxReadBufLen : Z) (addr : nat)
| ClearDone (c : nat).

Definition step (a : act) (st : froto) : option froto :=
  match a with
  | Register addr e => if bool_decide (addr ∈ map ra_addr (reply_ack_queue st)) then None else registerReplyAck addr e st
  | Unregister e => Some (unregisterReplyAck e st)
  | Clean peer => Some (app_froto_gabage_clean peer st)
  | First t msg r => Some (fst (deliver_first t msg r st))
  | Again t r => Some (fst (deliver_again t r st))
  | Take one timed_out len addr c => snd <$> take_reply one timed_out len addr c st
  | TakeQueued len addr => snd <$> second_half_check len addr st
  | ClearDone c => Some (set_op_done c false st)
  end.

Fixpoint steps (acts : list act) (st : froto) : option froto :=
  match acts with
  | [] => Some st
  | a :: acts => st ← step a st; steps acts st
  end.

Lemma steps_app acts acts' st st' : steps acts st = Some st' -> steps (acts ++ acts') st = steps acts' st'.
Proof.
  revert st. induction acts as [|a acts IH]; intros st; cbn [steps app]; [by intros [= ->]|].
  destruct (step a st) as [st1|]; [|done]. cbn [mbind option_bind]. apply IH.
Qed.

Definition pop_reg (x : nat * expectation * list (list Z)) : nat * expectation * list (list Z) := (fst x, tail (snd x)).

Lemma map_reg_pop k q : map reg (alter pop_msg k q) = alter pop_reg k (map reg q).
Proof. apply (list_fmap_alter reg). by apply Forall_true. Qed.

Lemma find_addr_Some addr q i ra : find_addr addr q = Some (i, ra) ->
  map reg q !! i = Some (addr, ra_exp ra, replyMsgQueue ra).
Proof. intros (Hi & <- & _)%list_find_Some. by rewrite list_lookup_fmap, Hi. Qed.

Lemma take_reply_reg one timed_out len addr c st rep st' : take_reply one timed_out len addr c st = Some (rep, st') ->
  is_op_done st' = is_op_done st /\
  (map reg (reply_ack_queue st') = map reg (reply_ack_queue st) \/
   exists i x, map reg (reply_ack_queue st) !! i = Some x /\ fst (fst x) = addr /\
     map reg (reply_ack_queue st') = alter pop_reg i (map reg (reply_ack_queue st))).
Proof.
  unfold take_reply. destruct (op_done c st); [|intros [= <- <-]; auto].
  destruct (find_addr addr _) as [[i ra]|] eqn:E; [|done]. apply find_addr_Some in E.
  destruct (replyMsgQueue ra) as [|msg rest]; [intros [= <- <-]; auto|].
  destruct (_ && _); intros [= <- <-]; [auto|]. split; [done|]. right. eexists i, _.
  split; [exact E|]. split; [done|]. apply map_reg_pop.
Qed.

Lemma second_half_check_reg len addr st rep st' : second_half_check len addr st = Some (rep, st') ->
  is_op_done st' = is_op_done st /\
  (map reg (reply_ack_queue st') = map reg (reply_ack_queue st) \/
   exists i x, map reg (reply_ack_queue st) !! i = Some x /\ fst (fst x) = addr /\
     map reg (reply_ack_queue st') = alter pop_reg i (map reg (reply_ack_queue st))).
Proof.
  unfold second_half_check. destruct (find_addr addr _) as [[i ra]|] eqn:E; [|done]. apply find_addr_Some in E.
  destruct (replyMsgQueue ra) as [|msg rest]; intros [= <- <-]; [auto|]. split; [done|]. right. eexists i, _.
  split; [exact E|]. split; [done|]. apply map_reg_pop.
Qed.

(** What a step does to the registrations: nothing, one more at the end, some removed, a message of one
    of them added or taken. *)
Definition key (x : nat * expectation * list (list Z)) : nat * expectation := fst x.

Lemma map_key_alter f k l : (forall x, key (f x) = key x) -> map key (alter f k l) = map key l.
Proof.
  intros H. revert k. induction l as [|x l IH]; intros [|k]; cbn; [done..| |]; [by rewrite H|]. f_equal. apply IH.
Qed.

Lemma key_push msg x : key (push_reg msg x) = key x.
Proof. by destruct x as [[? ?] ?]. Qed.

Definition keys (st : froto) : list (nat * expectation) := map key (map reg (reply_ack_queue st)).

Lemma keys_alt st : keys st = map (fun ra => (ra_addr ra, ra_exp ra)) (reply_ack_queue st).
Proof. unfold keys. by rewrite map_map. Qed.

Lemma keys_of_reg st st' : map reg (reply_ack_queue st') = map reg (reply_ack_queue st) -> keys st' = keys st.
Proof. intros H. unfold keys. by rewrite H. Qed.

Lemma keys_of_alter f k st st' : (forall x, key (f x) = key x) ->
  map reg (reply_ack_queue st') = alter f k (map reg (reply_ack_queue st)) -> keys st' = keys st.
Proof. intros Hf H. unfold keys. by rewrite H, map_key_alter. Qed.

Lemma filter_map_key (P : expectation -> Prop) `{forall ra, Decision (P (ra_exp ra))}
    `{forall x : nat * expectation, Decision (P (snd x))} (q : list reply_ack_t) :
  map (fun ra => (ra_addr ra, ra_exp ra)) (filter (fun ra => P (ra_exp ra)) q) =
  filter (fun x : nat * expectation => P (snd x)) (map (fun ra => (ra_addr ra, ra_exp ra)) q).
Proof.
  induction q as [|ra q IH]; [done|]. rewrite filter_cons. cbn [map]. rewrite filter_cons.
  destruct (decide (P (ra_exp ra))), (decide (P (snd (ra_addr ra, ra_exp ra)))); try done; cbn [map]; by rewrite IH.
Qed.

Lemma step_keys a st st' : step a st = Some st' -> sublist (keys st') (keys st) \/
  exists addr e, a = Register addr e /\ (addr ∉ map fst (keys st)) /\ keys st' = keys st ++ [(addr, e)] /\
    (length (keys st) < 40)%nat /\ (length (filter (fun x => pt_peer_str (snd x) = pt_peer_str e) (keys st)) < 10)%nat.
Proof.
  destruct a as [addr e|e|peer|t msg r|t r|one tmo len addr c|len addr|c]; cbn [step].
  - case_bool_decide as Ha; [done|]. unfold registerReplyAck. destruct (_ =? _)%nat; [done|].
    destruct (Nat.leb_spec FROTO_MAX_SINGLE_CHANNEL_CONCURRENT_NUM_REPLY_ACK (singleChannelConcurrentCnt (pt_peer_str e) (reply_ack_queue st))) as [|Hp]; [done|].
    destruct (Nat.leb_spec FROTO_MAX_CONCURRENT_NUM_REPLY_ACK (length (reply_ack_queue st))) as [|Hl]; [done|]. intros [= <-].
    right. exists addr, e. rewrite !keys_alt. split; [done|]. split; [by rewrite map_map|]. split; [cbn; by rewrite map_app|].
    split; [by rewrite length_map|]. unfold singleChannelConcurrentCnt in Hp.
    pose proof (f_equal length (filter_map_key (fun x => pt_peer_str x = pt_peer_str e) (reply_ack_queue st))) as E.
    rewrite length_map in E. eapply Nat.le_lt_trans; [|exact Hp]. by apply Nat.eq_le_incl, eq_sym.
  - intros [= <-]. left. rewrite !keys_alt. unfold unregisterReplyAck. destruct (_ =? _)%nat; [done|]. cbn [reply_ack_queue set_queue].
    rewrite (filter_map_key (fun x => x <> e)). apply sublist_filter.
  - intros [= <-]. left. rewrite !keys_alt. unfold app_froto_gabage_clean. destruct (_ =? _)%nat; [done|]. cbn [reply_ack_queue set_queue].
    rewrite (filter_map_key (fun x => pt_peer_str x <> peer)). apply sublist_filter.
  - intros [= <-]. left. pose proof (deliver_first_spec t msg r st) as H. destruct (first_match _ r) as [[k ra]|].
    + destruct H as (st' & -> & H & _). cbn [fst]. by rewrite (keys_of_alter _ _ _ _ (key_push msg) H).
    + destruct H as (_ & H & _). by rewrite (keys_of_reg _ _ H).
  - intros [= <-]. left. destruct (again_spec t r st) as (st' & Hq & H). rewrite <- (keys_of_reg _ _ Hq).
    destruct (first_match _ r) as [[k ra]|]; destruct H as [-> _]; done.
  - destruct (take_reply _ _ _ _ _ _) as [[rep st1]|] eqn:E; intros [= <-]. left. apply take_reply_reg in E as (_ & [E|(i & x & _ & _ & E)]).
    + by rewrite (keys_of_reg _ _ E).
    + rewrite (keys_of_alter pop_reg i st st1); [done..|exact E].
  - destruct (second_half_check _ _ _) as [[rep st1]|] eqn:E; intros [= <-]. left. apply second_half_check_reg in E as (_ & [E|(i & x & _ & _ & E)]).
    + by rewrite (keys_of_reg _ _ E).
    + rewrite (keys_of_alter pop_reg i st st1); [done..|exact E].
  - intros [= <-]. by left.
Qed.

(** At most 40 registrations, 10 for a sensor, each with its own memory. *)
Definition bounded (st : froto) : Prop :=
  (length (reply_ack_queue st) <= FROTO_MAX_CONCURRENT_NUM_REPLY_ACK)%nat /\
  (forall peer, (singleChannelConcurrentCnt peer (reply_ack_queue st) <= FROTO_MAX_SINGLE_CHANNEL_CONCURRENT_NUM_REPLY_ACK)%nat) /\
  NoDup (map ra_addr (reply_ack_queue st)).

Lemma bounded_keys st : bounded st <-> (length (keys st) <= 40)%nat /\
  (forall peer, (length (filter (fun x => pt_peer_str (snd x) = peer) (keys st)) <= 10)%nat) /\ NoDup (map fst (keys st)).
Proof.
  unfold bounded, singleChannelConcurrentCnt. rewrite keys_alt, length_map, map_map. cbn [fst].
  setoid_rewrite <- (filter_map_key (fun e => pt_peer_str e = _)). by setoid_rewrite length_map.
Qed.

Lemma filter_sublist {A} (P : A -> Prop) `{forall x, Decision (P x)} (l k : list A) : sublist l k -> sublist (filter P l) (filter P k).
Proof.
  induction 1 as [|x l k _ IH|x l k _ IH]; [done|..]; rewrite !filter_cons; destruct (decide (P x)); try done; by constructor.
Qed.

Lemma step_bounded a st st' : bounded st -> step a st = Some st' -> bounded st'.
Proof.
  rewrite !bounded_keys. intros (Hl & Hp & Hn) [Hs|(addr & e & _ & Hnew & -> & Hlt & Hpe)]%step_keys.
  - split; [apply sublist_length in Hs; lia|]. split.
    + intros peer. etrans; [|apply (Hp peer)]. apply sublist_length. by apply filter_sublist.
    + eapply sublist_NoDup; [exact Hn|]. by apply (fmap_sublist fst).
  - rewrite length_app. cbn [length]. split; [lia|]. split.
    + intros peer. rewrite filter_app, length_app, filter_cons, filter_nil. cbn [snd].
      destruct (decide (pt_peer_str e = peer)) as [<-|]; cbn [length]; [lia|]. specialize (Hp peer). lia.
    + rewrite map_app. apply NoDup_app. split; [done|]. split; [|apply NoDup_singleton].
      intros x Hx ->%list_elem_of_singleton. done.
Qed.

(** C9: However the threads interleave, there are never more than 40 registrations and never
    more than 10 for one sensor, and no two registrations share their memory. *)
Theorem registrations_bounded acts st : steps acts froto_init = Some st -> bounded st.
Proof.
  assert (bounded froto_init) as H.
  { rewrite bounded_keys. cbn. split; [lia|]. split; [intros; lia|constructor]. }
  revert H. generalize froto_init. induction acts as [|a acts IH]; intros st0 H; cbn [steps]; [by intros [= <-]|].
  destruct (step a st0) as [st1|] eqn:E; [|done]. cbn. apply IH. by eapply step_bounded.
Qed.

Definition two_registered : list act :=
  [Register 100 (waiter 1 7); Register 101 (waiter 2 8); First true [1; 2] (reply_to [8]); Unregister (waiter 1 7)].

Lemma registrations_bounded_witness :
  bounded (Froto [ReplyAck 101 (waiter 2 8) 0 0 0 [[1; 2]]] {[2%nat := true]}).
Proof. apply (registrations_bounded two_registered). reflexivity. Defined.

(** ** A reply reaches who asked for it *)

Definition regs (st : froto) : list (nat * expectation * list (list Z)) := map reg (reply_ack_queue st).

(** A registration that is the waiter's by its memory or by its condition variable. *)
Definition mine (addr : nat) (e : expectation) (x : nat * expectation * list (list Z)) : Prop :=
  fst (fst x) = addr \/ pt_cond_var (snd (fst x)) = pt_cond_var e.

#[global] Instance mine_dec addr e x : Decision (mine addr e x).
Proof. unfold mine. apply _. Defined.

(** The waiter has one registration, with these messages. *)
Definition holds (addr : nat) (e : expectation) (ms : list (list Z)) (st : froto) : Prop :=
  filter (mine addr e) (regs st) = [(addr, e, ms)].

(** The steps of the other threads: they wait on condition variables of their own and touch
    their own registrations; the receiver delivers what is not for this waiter. *)
Definition foreign (addr : nat) (e : expectation) (a : act) : Prop :=
  match a with
  | Register _ e' => pt_cond_var e' <> pt_cond_var e
  | Unregister e' => e' <> e
  | Clean peer => peer <> pt_peer_str e
  | First _ _ r => matches (ReplyAck addr e 0 0 0 []) r = false
  | Again _ _ => True
  | Take _ _ _ addr' _ | TakeQueued _ addr' => addr' <> addr
  | ClearDone c => c <> pt_cond_var e
  end.

Lemma filter_alter_other {A} (P : A -> Prop) `{forall x, Decision (P x)} (f : A -> A) (l : list A) (k : nat) x :
  l !! k = Some x -> ~ P x -> ~ P (f x) -> filter P (alter f k l) = filter P l.
Proof.
  revert k. induction l as [|y l IH]; intros [|k] Hk Hx Hfx; cbn in Hk; [done..| |].
  - injection Hk as ->. cbn [alter list_alter]. change (alter f 0%nat (x :: l)) with (f x :: l). by rewrite !filter_cons_False.
  - change (alter f (S k) (y :: l)) with (y :: alter f k l). rewrite !filter_cons. by rewrite IH.
Qed.

Lemma filter_alter_only {A} (P : A -> Prop) `{forall x, Decision (P x)} (f : A -> A) (l : list A) (k : nat) x m :
  l !! k = Some x -> P x -> P (f x) -> filter P l = [m] -> x = m /\ filter P (alter f k l) = [f m].
Proof.
  revert k. induction l as [|y l IH]; intros [|k] Hk Hx Hfx Hm; cbn in Hk; [done..| |].
  - injection Hk as ->. change (alter f 0%nat (x :: l)) with (f x :: l). rewrite !filter_cons_True in * by done.
    injection Hm as <- ->. done.
  - change (alter f (S k) (y :: l)) with (y :: alter f k l). destruct (decide (P y)) as [Hy|Hy].
    + rewrite filter_cons_True in Hm by done. injection Hm as _ Hm.
      assert (x ∈ filter P l) as Hin by (apply list_elem_of_filter; split; [done|by eapply list_elem_of_lookup_2]).
      by rewrite Hm in Hin; apply not_elem_of_nil in Hin.
    + rewrite !filter_cons_False in * by done. by apply IH.
Qed.

Lemma holds_elem addr e ms st x : holds addr e ms st -> x ∈ regs st -> mine addr e x -> x = (addr, e, ms).
Proof. intros H Hx Hm. apply list_elem_of_singleton. rewrite <- H. by apply list_elem_of_filter. Qed.

Lemma holds_in addr e ms st : holds addr e ms st -> (addr, e, ms) ∈ regs st.
Proof.
  intros H. assert ((addr, e, ms) ∈ filter (mine addr e) (regs st)) as Hin by (rewrite H; apply list_elem_of_here).
  by apply list_elem_of_filter in Hin as [_ Hin].
Qed.

Lemma filter_reg (P : expectation -> Prop) `{forall ra, Decision (P (ra_exp ra))}
    `{forall x : nat * expectation * list (list Z), Decision (P (snd (fst x)))} (q : list reply_ack_t) :
  map reg (filter (fun ra => P (ra_exp ra)) q) = filter (fun x => P (snd (fst x))) (map reg q).
Proof.
  induction q as [|ra q IH]; [done|]. rewrite filter_cons. cbn [map]. rewrite filter_cons.
  destruct (decide (P (ra_exp ra))), (decide (P (snd (fst (reg ra))))); try done; cbn [map]; by rewrite IH.
Qed.

Lemma filter_comm {A} (P Q : A -> Prop) `{forall x, Decision (P x)} `{forall x, Decision (Q x)} (l : list A) :
  filter P (filter Q l) = filter Q (filter P l).
Proof. rewrite !list_filter_filter. apply list_filter_iff. tauto. Qed.

Lemma holds_filter addr e ms (P : expectation -> Prop) `{forall ra, Decision (P (ra_exp ra))} st : P e -> holds addr e ms st ->
  holds addr e ms (set_queue (filter (fun ra => P (ra_exp ra)) (reply_ack_queue st)) st).
Proof.
  intros He H0. unfold holds, regs in *. cbn [reply_ack_queue set_queue].
  assert (forall x : nat * expectation * list (list Z), Decision (P (snd (fst x)))) as HD.
  { intros [[a x] ms']. apply (H (ReplyAck a x 0 0 0 ms')). }
  rewrite (filter_reg P), (filter_comm (mine addr e) (fun x => P (snd (fst x)))), H0. by rewrite filter_cons_True.
Qed.

Lemma holds_alter addr e ms st st' f i x : holds addr e ms st -> (forall y, key (f y) = key y) ->
  regs st !! i = Some x -> ~ mine addr e x -> regs st' = alter f i (regs st) -> holds addr e ms st'.
Proof.
  intros H Hf Hi Hx Hr. unfold holds in *. rewrite Hr. rewrite (filter_alter_other _ _ _ _ _ Hi); [done..|].
  unfold mine in *. unfold key in Hf. by rewrite Hf.
Qed.

Lemma holds_regs addr e ms st st' : regs st' = regs st -> holds addr e ms st -> holds addr e ms st'.
Proof. unfold holds. by intros ->. Qed.

Lemma is_op_done_op_done c st st' : is_op_done st' = is_op_done st -> op_done c st' = op_done c st.
Proof. unfold op_done. by intros ->. Qed.

Lemma registered addr e st st' : registerReplyAck addr e st = Some st' ->
  st' = set_queue (reply_ack_queue st ++ [ReplyAck addr e 0 0 0 []]) st.
Proof.
  unfold registerReplyAck. destruct (_ =? _)%nat; [done|]. destruct (_ <=? _)%nat; [done|].
  destruct (_ <=? _)%nat; [done|]. by intros [= <-].
Qed.

(** A message taken from another registration. *)
Lemma holds_pop addr addr' e ms st st' : holds addr e ms st -> addr' <> addr ->
  regs st' = regs st \/ (exists i x, regs st !! i = Some x /\ fst (fst x) = addr' /\ regs st' = alter pop_reg i (regs st)) ->
  holds addr e ms st'.
Proof.
  intros H Hne [E|(i & x & Hi & Hx & E)]; [by eapply holds_regs|].
  eapply (holds_alter _ _ _ _ _ pop_reg i x); [done..| |done]. intros Hm.
  rewrite (holds_elem _ _ _ _ _ H (list_elem_of_lookup_2 _ _ _ Hi) Hm) in Hx. by apply Hne.
Qed.

Lemma holds_first addr e ms st r k ra : holds addr e ms st -> first_match (reply_ack_queue st) r = Some (k, ra) ->
  regs st !! k = Some (reg ra) /\ matches (ReplyAck (ra_addr ra) (ra_exp ra) 0 0 0 []) r = true.
Proof.
  intros H Ef. destruct (first_match_Some _ _ _ _ Ef) as (Hk & Hm & _). split; [|exact Hm].
  unfold regs. by rewrite list_lookup_fmap, Hk.
Qed.

Lemma foreign_step addr e ms a st st' : holds addr e ms st -> foreign addr e a -> step a st = Some st' ->
  holds addr e ms st' /\ (op_done (pt_cond_var e) st = true -> op_done (pt_cond_var e) st' = true).
Proof.
  intros H Ha. pose proof (holds_in _ _ _ _ H) as Hin. destruct a as [addr' e'|e'|peer|t msg r|t r|one tmo len addr' c|len addr'|c];
    cbn [step foreign] in *.
  - case_bool_decide as Hf; [done|]. intros ->%registered. split; [|done]. unfold holds, regs in *. cbn.
    rewrite map_app, filter_app, H. cbn [map reg ra_addr ra_exp replyMsgQueue]. rewrite filter_cons_False; [done|]. unfold mine. cbn. intros [->|E]; [|done].
    apply Hf. apply list_elem_of_fmap in Hin as (ra & [= -> _ _] & Hin). by apply list_elem_of_fmap_2.
  - intros [= <-]. unfold unregisterReplyAck. destruct (_ =? _)%nat; [done|]. split; [|done].
    apply (holds_filter _ _ _ (fun x => x <> e')); [congruence|done].
  - intros [= <-]. unfold app_froto_gabage_clean. destruct (_ =? _)%nat; [done|]. split; [|done].
    apply (holds_filter _ _ _ (fun x => pt_peer_str x <> peer)); [congruence|done].
  - intros [= <-]. pose proof (deliver_first_spec t msg r st) as Hd. destruct (first_match _ r) as [[k ra]|] eqn:Ef.
    + destruct Hd as (st1 & -> & Hq & Hop). cbn [fst]. split; [|intros Ho; by rewrite Hop, Ho, orb_true_r].
      destruct (holds_first _ _ _ _ _ _ _ H Ef) as [Hk Hm].
      eapply (holds_alter _ _ _ _ _ (push_reg msg) k (reg ra)); [done|apply key_push|done| |done]. intros Hmi.
      pose proof (holds_elem _ _ _ _ _ H (list_elem_of_lookup_2 _ _ _ Hk) Hmi) as [= E1 E2 _].
      rewrite E1, E2, Ha in Hm. done.
    + destruct Hd as (_ & Hq & Hd). split; [by eapply holds_regs|by rewrite (is_op_done_op_done _ _ _ Hd)].
  - intros [= <-]. destruct (again_spec t r st) as (st1 & Hq & Hd). destruct (first_match _ r) as [[k ra]|]; destruct Hd as [-> Hop].
    + split; [by eapply holds_regs|]. cbn [fst]. intros Ho. by rewrite Hop, Ho, orb_true_r.
    + split; [by eapply holds_regs|]. cbn [fst]. by rewrite Hop.
  - destruct (take_reply _ _ _ _ _ _) as [[rep st1]|] eqn:E; intros [= <-]. apply take_reply_reg in E as (Ho & E).
    split; [by eapply holds_pop|]. by rewrite (is_op_done_op_done _ _ _ Ho).
  - destruct (second_half_check _ _ _) as [[rep st1]|] eqn:E; intros [= <-]. apply second_half_check_reg in E as (Ho & E).
    split; [by eapply holds_pop|]. by rewrite (is_op_done_op_done _ _ _ Ho).
  - intros [= <-]. split; [by eapply holds_regs|]. unfold op_done, set_op_done. cbn. by rewrite lookup_insert_ne.
Qed.

Lemma foreign_steps addr e ms acts st st' : holds addr e ms st -> Forall (foreign addr e) acts -> steps acts st = Some st' ->
  holds addr e ms st' /\ (op_done (pt_cond_var e) st = true -> op_done (pt_cond_var e) st' = true).
Proof.
  intros H Ha. revert st H. induction Ha as [|a acts Ha _ IH]; intros st H; cbn [steps]; [by intros [= <-]|].
  destruct (step a st) as [st1|] eqn:E; [|done]. cbn. intros E2. destruct (foreign_step _ _ _ _ _ _ H Ha E) as [H1 Ho].
  destruct (IH st1 H1 E2) as [H2 Ho2]. split; [done|]. intros Hd. by apply Ho2, Ho.
Qed.

Lemma register_holds addr e st st' : (addr ∉ map ra_addr (reply_ack_queue st)) ->
  Forall (fun ra => pt_cond_var (ra_exp ra) <> pt_cond_var e) (reply_ack_queue st) ->
  registerReplyAck addr e st = Some st' -> holds addr e [] st'.
Proof.
  intros Hf Hc ->%registered. unfold holds, regs. cbn. rewrite map_app, filter_app.
  replace (filter (mine addr e) (map reg (reply_ack_queue st))) with (@nil (nat * expectation * list (list Z))).
  - cbn [map reg ra_addr ra_exp replyMsgQueue app]. rewrite filter_cons_True; [done|]. by left.
  - symmetry. induction Hc as [|ra q Hra _ IH]; [done|]. cbn [map] in *. rewrite filter_cons_False.
    + apply IH. intros Hin. apply Hf. by apply list_elem_of_further.
    + intros [E|E]; [|done]. apply Hf. rewrite <- E. apply list_elem_of_here.
Qed.

Lemma holds_find addr e ms st : holds addr e ms st -> exists i ra, find_addr addr (reply_ack_queue st) = Some (i, ra) /\
  reg ra = (addr, e, ms).
Proof.
  intros H. pose proof (holds_in _ _ _ _ H) as Hin. unfold regs in Hin. apply list_elem_of_fmap in Hin as (ra & Era & Hin).
  destruct (find_addr addr (reply_ack_queue st)) as [[i ra']|] eqn:E.
  - exists i, ra'. split; [done|]. apply list_find_Some in E as (Hi & Ha & _). apply (holds_elem _ _ _ _ _ H); [|by left].
    apply list_elem_of_fmap. exists ra'. split; [done|]. by eapply list_elem_of_lookup_2.
  - apply list_find_None in E. rewrite list.Forall_forall in E. destruct (E ra Hin). by injection Era as <-.
Qed.

Lemma registered_peer addr e st st' : registerReplyAck addr e st = Some st' -> (length (pt_peer_str e) =? 0)%nat = false.
Proof. unfold registerReplyAck. by destruct (_ =? _)%nat. Qed.

Lemma first_holds addr e ms t msg r st k ra : holds addr e ms st -> first_match (reply_ack_queue st) r = Some (k, ra) ->
  ra_addr ra = addr -> holds addr e (ms ++ [msg]) (fst (deliver_first t msg r st)) /\
  (t = true -> op_done (pt_cond_var e) (fst (deliver_first t msg r st)) = true).
Proof.
  intros H Ef Ha. pose proof (deliver_first_spec t msg r st) as Hd. rewrite Ef in Hd. destruct Hd as (st1 & -> & Hq & Hop).
  destruct (holds_first _ _ _ _ _ _ _ H Ef) as [Hk _]. cbn [fst]. unfold holds. change (regs st1) with (map reg (reply_ack_queue st1)).
  rewrite Hq. destruct (filter_alter_only (mine addr e) (push_reg msg) (regs st) k (reg ra) (addr, e, ms)) as [E Hf]; [done|by left..|done|].
  split; [exact Hf|]. intros ->. rewrite Hop. injection E as _ -> _. by rewrite bool_decide_eq_true_2.
Qed.

Lemma unregister_regs e st : (length (pt_peer_str e) =? 0)%nat = false ->
  regs (unregisterReplyAck e st) = filter (fun x => snd (fst x) <> e) (regs st).
Proof. intros H. unfold unregisterReplyAck. rewrite H. apply (filter_reg (fun x => x <> e)). Qed.

Lemma unregister_gone addr e ms st : (length (pt_peer_str e) =? 0)%nat = false -> holds addr e ms st ->
  filter (mine addr e) (regs (unregisterReplyAck e st)) = [].
Proof.
  intros He H. rewrite unregister_regs, filter_comm, H, filter_cons_False by first [done|cbn; tauto]. done.
Qed.

Lemma holds_pop_own addr e msg ms st i ra : holds addr e (msg :: ms) st -> find_addr addr (reply_ack_queue st) = Some (i, ra) ->
  holds addr e ms (set_queue (alter pop_msg i (reply_ack_queue st)) st).
Proof.
  intros H E. apply find_addr_Some in E. unfold holds, regs. cbn [reply_ack_queue set_queue]. rewrite map_reg_pop.
  destruct (filter_alter_only (mine addr e) pop_reg (regs st) i (addr, ra_exp ra, replyMsgQueue ra) (addr, e, msg :: ms)) as [_ Hf];
    [exact E|by left..|exact H|exact Hf].
Qed.

(** The waiter takes the only message it has got. *)
Lemma woken_takes addr e msg maxReadBufLen timed_out st : (length (pt_peer_str e) =? 0)%nat = false ->
  holds addr e [msg] st -> op_done (pt_cond_var e) st = true -> Z.of_nat (length msg) <= maxReadBufLen ->
  exists st', send_with_reply_end timed_out maxReadBufLen addr e st = Some (Reply (negb timed_out) (Some msg), st') /\
    filter (mine addr e) (regs st') = [].
Proof.
  intros Hp H Hop Hlen. unfold send_with_reply_end, take_reply. rewrite Hop.
  destruct (holds_find _ _ _ _ H) as (i & ra' & E & [= _ _ Eq]).
  rewrite E, Eq. cbn [length Nat.eqb negb andb]. unfold copied. rewrite (proj2 (Z.leb_le _ _) Hlen). eexists. split; [reflexivity|].
  apply (unregister_gone _ _ []); [done|]. by eapply holds_pop_own.
Qed.

(** The registration at the start of a call. *)
Lemma start_holds addr e st0 st1 : (addr ∉ map ra_addr (reply_ack_queue st0)) ->
  Forall (fun ra => pt_cond_var (ra_exp ra) <> pt_cond_var e) (reply_ack_queue st0) ->
  send_with_reply_start addr e true st0 = Some st1 -> (length (pt_peer_str e) =? 0)%nat = false /\ holds addr e [] st1.
Proof.
  intros Hf Hc Hs. unfold send_with_reply_start in Hs. destruct (registerReplyAck addr e _) as [st|] eqn:Er; [|done]. injection Hs as ->.
  split; [exact (registered_peer _ _ _ _ Er)|]. exact (register_holds addr e (set_op_done (pt_cond_var e) false st0) _ Hf Hc Er).
Qed.

(** A request gets its reply. A thread registers and sends; other threads register, wait,
    take their replies, time out and leave, and messages that are not for it arrive, in any
    order; then a message arrives that it is the first one to wait for, and it is woken;
    whatever the other threads do until it runs, it returns exactly the bytes
    of that message, with success unless its time was up at that moment, and
    its registration is gone. *)
Theorem own_reply_returned addr e st0 st1 before st2 msg r k ra after st3 maxReadBufLen timed_out :
  (addr ∉ map ra_addr (reply_ack_queue st0)) ->
  Forall (fun ra => pt_cond_var (ra_exp ra) <> pt_cond_var e) (reply_ack_queue st0) ->
  send_with_reply_start addr e true st0 = Some st1 ->
  Forall (foreign addr e) before -> steps before st1 = Some st2 ->
  first_match (reply_ack_queue st2) r = Some (k, ra) -> ra_addr ra = addr ->
  Forall (foreign addr e) after -> steps after (fst (deliver_first true msg r st2)) = Some st3 ->
  Z.of_nat (length msg) <= maxReadBufLen ->
  exists st4, send_with_reply_end timed_out maxReadBufLen addr e st3 = Some (Reply (negb timed_out) (Some msg), st4) /\
    filter (mine addr e) (regs st4) = [].
Proof.
  intros Hf Hc Hs Hb Hb2 Hm Ha Haf Ha2 Hlen. destruct (start_holds _ _ _ _ Hf Hc Hs) as [Hp H1].
  destruct (foreign_steps _ _ _ _ _ _ H1 Hb Hb2) as [H2 _].
  destruct (first_holds _ _ _ true msg _ _ _ _ H2 Hm Ha) as [H3 Hop].
  destruct (foreign_steps _ _ _ _ _ _ H3 Haf Ha2) as [H4 Hop2]. specialize (Hop2 (Hop eq_refl)). by apply woken_takes.
Qed.

Definition before_reply : list act := [Register 101 (waiter 2 8); First true [9; 9] (reply_to [8]); Again true (reply_to [])].
Definition after_reply : list act := [Again true (reply_to []); Take true false 100 101 2; Unregister (waiter 2 8)].

Definition own_1 : froto := default froto_init (send_with_reply_start 100 (waiter 1 7) true froto_init).
Definition own_2 : froto := default froto_init (steps before_reply own_1).
Definition own_3 : froto := default froto_init (steps after_reply (fst (deliver_first true [1; 2; 3] (reply_to [7]) own_2))).

Lemma own_reply_returned_witness : exists st4,
  send_with_reply_end false 100 100 (waiter 1 7) own_3 = Some (Reply true (Some [1; 2; 3]), st4) /\
  filter (mine 100 (waiter 1 7)) (regs st4) = [].
Proof.
  apply (own_reply_returned 100 (waiter 1 7) froto_init own_1 before_reply own_2 [1; 2; 3] (reply_to [7]) 0
    (ReplyAck 100 (waiter 1 7) 0 1 0 []) after_reply own_3 100 false);
    try (by repeat (apply Forall_cons; split)); try reflexivity; try done; apply not_elem_of_nil.
Defined.

(** ** Replies that are lost *)

(** A split reply whose last block is there when it is asked for leaves its
    registration behind: the call returns as soon as it has the message, and the
    registrations are what they were, with the message taken, even though the caller has said that it was
    the last one. *)
Theorem last_block_stays_registered timed_out others maxReadBufLen addr e lastOne st i ra msg rest :
  find_addr addr (reply_ack_queue st) = Some (i, ra) -> replyMsgQueue ra = msg :: rest ->
  Z.of_nat (length msg) <= maxReadBufLen ->
  exists st', second_half timed_out others maxReadBufLen addr e lastOne st = Some (Reply true (Some msg), st') /\
    regs st' = alter pop_reg i (regs st) /\
    length (reply_ack_queue st') = length (reply_ack_queue st) /\
    forall peer, singleChannelConcurrentCnt peer (reply_ack_queue st') = singleChannelConcurrentCnt peer (reply_ack_queue st).
Proof.
  intros Hf Hq Hlen. unfold second_half, second_half_check. rewrite Hf, Hq. unfold copied. rewrite (proj2 (Z.leb_le _ _) Hlen).
  cbn [fmap option_fmap option_map]. eexists. split; [reflexivity|]. cbn [reply_ack_queue set_queue].
  assert (keys (set_queue (alter pop_msg i (reply_ack_queue st)) st) = keys st) as Hk.
  { apply (keys_of_alter pop_reg i); [done|]. apply map_reg_pop. }
  split; [apply map_reg_pop|]. split.
  - apply (f_equal length) in Hk. by rewrite !keys_alt, !length_map in Hk.
  - intros peer. rewrite !keys_alt in Hk. cbn [reply_ack_queue set_queue] in Hk. unfold singleChannelConcurrentCnt.
    rewrite <- !(length_map (fun ra => (ra_addr ra, ra_exp ra))), !(filter_map_key (fun e => pt_peer_str e = peer)). by rewrite Hk.
Qed.

Definition last_block_waiting : froto := Froto [ReplyAck 100 (waiter 1 7) 3 2 2 [[1; 2]]] {[1%nat := true]}.

Lemma last_block_stays_registered_witness : exists st',
  second_half false id 100 100 (waiter 1 7) true last_block_waiting = Some (Reply true (Some [1; 2]), st') /\
  regs st' = [(100%nat, waiter 1 7, [])] /\ length (reply_ack_queue st') = 1%nat /\
  forall peer, singleChannelConcurrentCnt peer (reply_ack_queue st') = singleChannelConcurrentCnt peer (reply_ack_queue last_block_waiting).
Proof.
  apply (last_block_stays_registered false id 100 100 (waiter 1 7) true last_block_waiting 0
    (ReplyAck 100 (waiter 1 7) 3 2 2 [[1; 2]]) [1; 2] []); [reflexivity..|done].
Defined.

(** A block that arrives between the look into the queue and the reset of [is_op_done]
    is lost: the call waits for a signal that has been given, until its time is up,
    reports a failure, and removes the registration with the message. *)
Theorem lost_wakeup maxReadBufLen addr e lastOne t msg r st k ra : (length (pt_peer_str e) =? 0)%nat = false ->
  holds addr e [] st -> first_match (reply_ack_queue st) r = Some (k, ra) -> ra_addr ra = addr ->
  second_half_check maxReadBufLen addr st = Some (None, st) /\
  holds addr e [msg] (fst (deliver_first t msg r st)) /\
  exists st', second_half_end true maxReadBufLen addr e lastOne (second_half_reset e (fst (deliver_first t msg r st))) =
    Some (Reply false None, st') /\ filter (mine addr e) (regs st') = [].
Proof.
  intros Hp H Hm Ha. destruct (holds_find _ _ _ _ H) as (i & ra' & E & [= _ _ Eq]). unfold second_half_check. rewrite E, Eq.
  split; [done|]. destruct (first_holds _ _ _ t msg _ _ _ _ H Hm Ha) as [H1 _]. split; [exact H1|].
  assert (op_done (pt_cond_var e) (second_half_reset e (fst (deliver_first t msg r st))) = false) as Hop.
  { unfold second_half_reset, op_done, set_op_done. cbn. by rewrite lookup_insert_eq. }
  unfold second_half_end, take_reply. rewrite Hop. cbn [negb]. rewrite Hop, orb_true_r. eexists. split; [reflexivity|].
  by apply (unregister_gone _ _ [msg]).
Qed.

Lemma lost_wakeup_witness :
  second_half_check 100 100 own_1 = Some (None, own_1) /\
  holds 100 (waiter 1 7) [[1; 2]] (fst (deliver_first true [1; 2] (reply_to [7]) own_1)) /\
  exists st', second_half_end true 100 100 (waiter 1 7) false
      (second_half_reset (waiter 1 7) (fst (deliver_first true [1; 2] (reply_to [7]) own_1))) =
    Some (Reply false None, st') /\ filter (mine 100 (waiter 1 7)) (regs st') = [].
Proof. by apply (lost_wakeup 100 100 (waiter 1 7) false true [1; 2] (reply_to [7]) own_1 0 (ReplyAck 100 (waiter 1 7) 0 0 0 [])). Defined.

(** A request whose reply comes as two messages before its thread runs gets none of them: it
    takes a message only when there is exactly one, reports success without
    data, and its registration and both messages are removed. *)
Theorem two_replies_lost maxReadBufLen addr e m1 m2 ms st : (length (pt_peer_str e) =? 0)%nat = false ->
  holds addr e (m1 :: m2 :: ms) st -> op_done (pt_cond_var e) st = true ->
  exists st', send_with_reply_end false maxReadBufLen addr e st = Some (Reply true None, st') /\
    filter (mine addr e) (regs st') = [].
Proof.
  intros Hp H Hop. destruct (holds_find _ _ _ _ H) as (i & ra & E & [= _ _ Eq]). unfold send_with_reply_end, take_reply.
  rewrite Hop, E, Eq. cbn [length Nat.eqb negb andb]. eexists. split; [reflexivity|]. by eapply unregister_gone.
Qed.

Lemma two_replies_lost_witness : exists st',
  send_with_reply_end false 100 100 (waiter 1 7) (Froto [ReplyAck 100 (waiter 1 7) 0 0 0 [[1]; [2]]] {[1%nat := true]}) =
    Some (Reply true None, st') /\ filter (mine 100 (waiter 1 7)) (regs st') = [].
Proof. by apply (two_replies_lost 100 100 (waiter 1 7) [1] [2] []). Defined.
