(* ===== verification/FrotoMessage.v ===== *)
(** * FrotoMessage: messages found in what was received

    [app_froto_n_get_message_type] of [general/froto/app_froto_new.c]: the messages of
    a buffer, with their headers, and their delivery to the threads that wait. *)

From S2P Require Import Prelude Protobuf FrotoHeader FrotoReply.
From Stdlib Require Import ZArith Lia ZifyBool List Bool.
From stdpp Require Import base list numbers option gmap.
Open Scope Z_scope.

Definition appVer_tag : Z := 1.

(** The members of the oneof of [SKFChina_App_AppMessage]; the header is field 1 of each. *)
Definition is_message_tag (tag : Z) : bool := (2 <=? tag) && (tag <=? 21).
Definition header_tag : Z := 1.

(** ** The header of a message *)

(** [_substream] or [_headerstream] after [pb_close_string_substream]: read to its end,
    which is where the stream goes on. *)
Definition closed (s : pb_istream_t) : pb_istream_t := Istream (buf s) (state s) 0.

(** The end of the inner loop: no header and the stream, a header with the stream and
    [_headerstream], a header that is not decoded, undefined, or not reached with the fuel. *)
Inductive search :=
  | NoHeader (s : pb_istream_t) | Found (h : froto_header) (s headerstream : pb_istream_t) | BadHeader | SearchUndef (w : stuck)
  | SearchRunning.

(** The header behind its tag. The result of [pb_make_string_substream] is not looked at:
    without a length [_headerstream] is what it was, [None] while it is not initialised. *)
Definition read_header (headerstream : option pb_istream_t) (s : pb_istream_t) : search :=
  let decode headerstream s :=
    match decode_header headerstream with
    | Undef w => SearchUndef w
    | Failed _ => BadHeader
    | Ok h headerstream =>
        match pb_close_string_substream s headerstream with
        | Ok _ s => Found h s (closed s)
        | Failed s => Found h s headerstream
        | Undef w => SearchUndef w
        end
    end in
  match pb_make_string_substream s with
  | SubUndef w => SearchUndef w
  | SubOk headerstream s | SubTooShort headerstream s => decode headerstream s
  | SubFailed s => match headerstream with Some headerstream => decode headerstream s | None => SearchUndef Wild end
  end.

(** The loop over the fields of a message: a field that is not the header is not skipped,
    what it contains is taken for tags. *)
Fixpoint find_header (fuel : nat) (headerstream : option pb_istream_t) (s : pb_istream_t) : search :=
  match fuel with
  | O => SearchRunning
  | S fuel =>
      match pb_decode_tag s with
      | Undef w => SearchUndef w
      | Failed s => NoHeader s
      | Ok (wire_type, tag) s =>
          if (wire_type =? PB_WT_STRING) && (tag =? header_tag) then read_header headerstream s
          else find_header fuel headerstream s
      end
  end.

(** ** The messages of a buffer *)

(** How it ends: after the loop, with [return false], undefined, or not with the fuel. *)
Inductive ending := Finished | Returned_false | Undefined | Running.

Definition stopped (w : stuck) : ending := match w with Wild => Undefined | NoFuel => Running end.

Definition found := (list Z * received)%type.

Section messages.
Context (readBuf : list Z).
Let readBufLen : Z := Z.of_nat (length readBuf).

(** One message: a substream that is not initialised, a message without a header - the
    pointers to its buffers are [NULL] - and an address that is called are undefined. [next] is the
    loop from the end of the message on. *)
Definition one_message (start : Z) (substream headerstream : option pb_istream_t) (istream : pb_istream_t)
    (next : pb_istream_t -> pb_istream_t -> list found * ending) : list found * ending :=
  match substream with
  | None => ([], Undefined)
  | Some substream =>
      match find_header (stream_fuel substream) headerstream substream with
      | NoHeader _ => ([], Undefined)
      | SearchUndef w => ([], stopped w)
      | SearchRunning => ([], Running)
      | BadHeader => ([], Returned_false)
      | Found h substream headerstream =>
          match pb_close_string_substream istream substream with
          | Ok _ istream | Failed istream =>
              let msg := take (Z.to_nat (readBufLen - bytes_left istream - start)) (drop (Z.to_nat start) readBuf) in
              let '(ms, e) := next istream headerstream in ((msg, received_of h) :: ms, e)
          | Undef w => ([], stopped w)
          end
      end
  end.

(** The outer loop. A string under a tag that is no message is skipped, and the header
    is then looked for with variables that were not set. *)
Fixpoint message_loop (fuel : nat) (start : Z) (substream headerstream : option pb_istream_t) (istream : pb_istream_t) :
  list found * ending :=
  match fuel with
  | O => ([], Running)
  | S fuel =>
      match pb_decode_tag istream with
      | Undef w => ([], stopped w)
      | Failed _ => ([], Finished)
      | Ok (wire_type, tag) istream =>
          if tag =? appVer_tag then
            match pb_decode_varint32 istream with
            | Ok _ istream | Failed istream => message_loop fuel start substream headerstream istream
            | Undef w => ([], stopped w)
            end
          else if wire_type =? PB_WT_STRING then
            if is_message_tag tag then
              let next istream headerstream :=
                message_loop fuel (readBufLen - bytes_left istream) (Some (closed istream)) (Some headerstream) istream in
              match pb_make_string_substream istream with
              | SubUndef w => ([], stopped w)
              | SubOk substream istream | SubTooShort substream istream =>
                  one_message start (Some substream) headerstream istream next
              | SubFailed istream => one_message start substream headerstream istream next
              end
            else match pb_skip_field wire_type istream with
                 | Failed _ => ([], Returned_false) | Ok _ _ => ([], Undefined) | Undef w => ([], stopped w) end
          else match pb_skip_field wire_type istream with
               | Ok _ istream => message_loop fuel start substream headerstream istream
               | Failed _ => ([], Finished)
               | Undef w => ([], stopped w)
               end
      end
  end.

(** The messages in the order in which they are delivered, each with the structure that is filled from
    its header. *)
Definition app_froto_n_get_message_type : list found * ending :=
  message_loop (S (length readBuf)) 0 None None (pb_istream_from_buffer readBuf readBufLen).
End messages.

(** The messages are delivered one after the other; for each the results of
    [pthread_mutex_trylock]. *)
Fixpoint deliver_all (trylocks : list (list bool)) (ms : list found) (st : froto) : option froto :=
  match ms, trylocks with
  | [], _ => Some st
  | (msg, r) :: ms, ts :: tss => st ← deliver ts msg r st; deliver_all tss ms st
  | _ :: _, [] => None
  end.

(** An acknowledgement with a payload behind the header, twice, and a version in between. *)
Definition ack_1 : list Z := [18; 26; 10; 23] ++ header_1 ++ [16].
Example two_messages : (fun '(ms, e) => (map (fun m => (fst m, r_seq (snd m))) ms, e)) (app_froto_n_get_message_type (ack_1 ++ [8; 3] ++ ack_1))
  = ([(ack_1, 7); ([8; 3] ++ ack_1, 7)], Finished).
Proof. vm_compute. reflexivity. Qed.

(** ** Well-formed messages *)

(** A message as a sensor sends it: the version, when it is not left out, and under the tag
    of its kind the header, followed by anything. *)
Record message := Message { version : option Z; kind : Z; header_fields : list wire_field; payload : list Z }.

Definition body (m : message) : list Z :=
  tag_of PB_WT_STRING header_tag ++ string_of (header_bytes (header_fields m)) ++ payload m.

Definition version_bytes (v : option Z) : list Z :=
  match v with Some v => tag_of PB_WT_VARINT appVer_tag ++ varint_of v | None => [] end.

Definition message_bytes (m : message) : list Z :=
  version_bytes (version m) ++ tag_of PB_WT_STRING (kind m) ++ string_of (body m).

Definition messages_bytes (ms : list message) : list Z := concat (map message_bytes ms).

Definition header_of (m : message) : froto_header := fold_left put_field (header_fields m) zero_header.

Definition message_ok (m : message) : Prop :=
  match version m with Some v => is_u32 v | None => True end /\ 2 <= kind m <= 21 /\
  Forall field_ok (header_fields m) /\ Z.of_nat (length (body m)) < 2 ^ 32.

Lemma header_length m : message_ok m -> Z.of_nat (length (header_bytes (header_fields m))) < 2 ^ 32.
Proof.
  intros (_ & _ & _ & H). unfold body, string_of in H. rewrite !length_app in H. lia.
Qed.

Lemma read_header_ahead headerstream m s : message_ok m -> ahead s (string_of (header_bytes (header_fields m))) ->
  exists hs, read_header headerstream s = Found (header_of m) (skip_bytes (string_of (header_bytes (header_fields m))) s) hs.
Proof.
  intros Hm Ha. pose proof (header_length m Hm) as Hl. unfold read_header.
  destruct (substream_ahead _ _ Hl Ha) as (sub & s1 & -> & Esub & Hsub & Hclose).
  assert (bytes_left sub = Z.of_nat (length (header_bytes (header_fields m)))) as Hb by by rewrite Esub.
  destruct Hm as (_ & _ & Hf & _). rewrite (header_roundtrip_decode (header_fields m) sub Hf Hsub Hb).
  rewrite Hclose; [by eexists|]. unfold skip_bytes. apply moved_advance. lia.
Qed.

Lemma find_header_ahead fuel headerstream m s : message_ok m -> ahead s (body m) ->
  exists hs, find_header (S fuel) headerstream s =
    Found (header_of m) (skip_bytes (string_of (header_bytes (header_fields m))) (skip_bytes (tag_of PB_WT_STRING header_tag) s)) hs.
Proof.
  intros Hm Ha. unfold body in Ha. apply ahead_app in Ha as [Ht Ha]. apply ahead_app in Ha as [Hh _]. cbn [find_header].
  rewrite (tag_ahead PB_WT_STRING header_tag) by (try done; unfold is_tag, PB_WT_STRING, header_tag; lia).
  cbn [Z.eqb PB_WT_STRING header_tag Pos.eqb andb]. by apply read_header_ahead.
Qed.

(** A message under its tag, with what follows. *)
Lemma one_message_ahead readBuf start headerstream m s next : message_ok m -> ahead s (string_of (body m)) ->
  exists sub s1 hs, pb_make_string_substream s = SubOk sub s1 /\
    one_message readBuf start (Some sub) headerstream s1 next =
      let '(ms, e) := next (skip_bytes (string_of (body m)) s) hs in
      ((take (Z.to_nat (Z.of_nat (length readBuf) - bytes_left (skip_bytes (string_of (body m)) s) - start)) (drop (Z.to_nat start) readBuf),
        received_of (header_of m)) :: ms, e).
Proof.
  intros Hm Ha. pose proof Hm as (_ & _ & _ & Hl). destruct (substream_ahead _ _ Hl Ha) as (sub & s1 & E & Esub & Hsub & Hclose).
  destruct (find_header_ahead (Z.to_nat (bytes_left sub)) headerstream m sub Hm Hsub) as [hs Eh].
  exists sub, s1, hs. split; [done|]. unfold one_message, stream_fuel. rewrite Eh, Hclose; [done|].
  assert (bytes_left sub = Z.of_nat (length (body m))) as Hb by by rewrite Esub. unfold body in Hb. rewrite !length_app in Hb.
  unfold skip_bytes. rewrite advance_advance. apply moved_advance. lia.
Qed.

Lemma message_loop_one readBuf fuel start substream headerstream m s : message_ok m ->
  ahead s (tag_of PB_WT_STRING (kind m) ++ string_of (body m)) ->
  let s' := skip_bytes (tag_of PB_WT_STRING (kind m) ++ string_of (body m)) s in
  exists hs, message_loop readBuf (S fuel) start substream headerstream s =
    let '(ms, e) := message_loop readBuf fuel (Z.of_nat (length readBuf) - bytes_left s') (Some (closed s')) (Some hs) s' in
    ((take (Z.to_nat (Z.of_nat (length readBuf) - bytes_left s' - start)) (drop (Z.to_nat start) readBuf), received_of (header_of m)) :: ms, e).
Proof.
  intros Hm [Ht Ha]%ahead_app s'. pose proof Hm as (_ & Hk & _). cbn [message_loop].
  rewrite (tag_ahead PB_WT_STRING (kind m)) by (try done; unfold is_tag, PB_WT_STRING; lia).
  rewrite (proj2 (Z.eqb_neq (kind m) appVer_tag)) by (unfold appVer_tag; lia). cbn [Z.eqb PB_WT_STRING Pos.eqb].
  replace (is_message_tag (kind m)) with true by (unfold is_message_tag; lia).
  match goal with |- context [match _ with SubOk sub s => one_message _ _ (Some sub) _ s ?f | _ => _ end] => set (next := f) end.
  destruct (one_message_ahead readBuf start headerstream m _ next Hm Ha) as (sub & s1 & hs & -> & ->). exists hs.
  unfold next. subst s'. by rewrite <- skip_app.
Qed.

Lemma message_loop_version readBuf fuel start substream headerstream v s : match v with Some v => is_u32 v | None => True end ->
  ahead s (version_bytes v) -> exists fuel', (fuel' <= fuel)%nat /\ (fuel - length (version_bytes v) <= fuel')%nat /\
  message_loop readBuf fuel start substream headerstream s =
  message_loop readBuf fuel' start substream headerstream (skip_bytes (version_bytes v) s) \/ fuel = 0%nat.
Proof.
  intros Hv Ha. destruct v as [v|]; cbn [version_bytes] in *.
  2:{ exists fuel. left. rewrite skip_nil. split; [lia|]. split; [lia|done]. }
  destruct fuel as [|fuel]; [exists 0%nat; by right|]. exists fuel. left. apply ahead_app in Ha as [Ht Ha].
  split; [lia|]. split; [rewrite length_app; change (length (tag_of PB_WT_VARINT appVer_tag)) with 1%nat; lia|]. cbn [message_loop].
  rewrite (tag_ahead PB_WT_VARINT appVer_tag) by (try done; unfold is_tag, PB_WT_VARINT, appVer_tag; lia).
  cbn [Z.eqb appVer_tag Pos.eqb]. rewrite (varint32_ahead v) by done. by rewrite skip_app.
Qed.

Lemma taken_ahead s bs bs' : ahead s (bs ++ bs') -> take (length bs) (drop (Z.to_nat (state s)) (buf s)) = bs.
Proof. intros (_ & _ & rest & ->). rewrite <- app_assoc. apply take_app_length. Qed.

Definition parsed (m : message) : found := (message_bytes m, received_of (header_of m)).

Lemma message_bytes_length m : (length (version_bytes (version m)) + 1 <= length (message_bytes m))%nat.
Proof.
  unfold message_bytes. rewrite !length_app. pose proof (varint_of_length (Z.lor (Z.shiftl (kind m) 3) PB_WT_STRING)).
  unfold tag_of. lia.
Qed.

(** The loop over well-formed messages, whatever follows them. *)
Lemma messages_ahead ms fuel substream headerstream s : Forall message_ok ms -> ahead s (messages_bytes ms) ->
  state s = Z.of_nat (length (buf s)) - bytes_left s -> bytes_left s < Z.of_nat fuel ->
  let s' := skip_bytes (messages_bytes ms) s in
  exists fuel' substream' headerstream', bytes_left s' < Z.of_nat fuel' /\
  message_loop (buf s) fuel (state s) substream headerstream s =
    let '(l, e) := message_loop (buf s) fuel' (state s') substream' headerstream' s' in (map parsed ms ++ l, e).
Proof.
  intros Hms. revert fuel substream headerstream s. induction Hms as [|m ms Hm _ IH]; intros fuel substream headerstream s Ha Hst Hf s'.
  { exists fuel, substream, headerstream. subst s'. rewrite skip_nil. split; [done|]. by destruct (message_loop _ _ _ _ _ _). }
  subst s'. change (messages_bytes (m :: ms)) with (message_bytes m ++ messages_bytes ms) in *. rewrite skip_app.
  pose proof (taken_ahead _ _ _ Ha) as Htake. pose proof (message_bytes_length m) as Hml. apply ahead_app in Ha as [Ha Hrest].
  pose proof Ha as (_ & Hlm & _). pose proof Ha as Ha'. unfold message_bytes in Ha'. apply ahead_app in Ha' as [Hv Ht].
  destruct (message_loop_version (buf s) fuel (state s) substream headerstream (version m) s (proj1 Hm) Hv)
    as (fuel1 & [(H1 & H2 & ->)|H0]); [|lia]. destruct fuel1 as [|fuel1]; [lia|].
  destruct (message_loop_one (buf s) fuel1 (state s) substream headerstream m _ Hm Ht) as [hs ->]. rewrite <- (skip_app (version_bytes (version m))).
  change (version_bytes (version m) ++ tag_of PB_WT_STRING (kind m) ++ string_of (body m)) with (message_bytes m) in *.
  assert (bytes_left (skip_bytes (message_bytes m) s) = bytes_left s - Z.of_nat (length (message_bytes m))) as El by done.
  assert (state (skip_bytes (message_bytes m) s) = state s + Z.of_nat (length (message_bytes m))) as Es by done.
  rewrite El. replace (Z.of_nat (length (buf s)) - (bytes_left s - Z.of_nat (length (message_bytes m))))
    with (state (skip_bytes (message_bytes m) s)) by lia.
  change (message_loop (buf s)) with (message_loop (buf (skip_bytes (message_bytes m) s))).
  destruct (IH fuel1 (Some (closed (skip_bytes (message_bytes m) s))) (Some hs) (skip_bytes (message_bytes m) s)) as (f & su & hd & Hfu & ->);
    [done|rewrite Es, El; change (buf (skip_bytes (message_bytes m) s)) with (buf s); lia|rewrite El; lia|].
  exists f, su, hd. split; [done|]. destruct (message_loop _ _ _ _ _ _) as [l e]. cbn [map app]. unfold parsed at 2.
  rewrite Es, Z.add_simpl_l, Nat2Z.id. change (buf (skip_bytes (message_bytes m) s)) with (buf s). by rewrite Htake.
Qed.

(** The buffer with what follows the messages. *)
Lemma messages_then ms rest : Forall message_ok ms ->
  let s := Istream (messages_bytes ms ++ rest) (Z.of_nat (length (messages_bytes ms))) (Z.of_nat (length rest)) in
  ahead s rest /\ exists fuel substream headerstream, Z.of_nat (length rest) < Z.of_nat fuel /\
  app_froto_n_get_message_type (messages_bytes ms ++ rest) =
    let '(l, e) := message_loop (buf s) fuel (state s) substream headerstream s in (map parsed ms ++ l, e).
Proof.
  intros Hms s. set (b := messages_bytes ms ++ rest).
  assert (ahead (pb_istream_from_buffer b (Z.of_nat (length b))) b) as Ha.
  { split; [done|]. split; [done|]. exists []. cbn [pb_istream_from_buffer buf state Z.to_nat drop]. by rewrite app_nil_r. }
  apply ahead_app in Ha as [Ha Hr].
  assert (skip_bytes (messages_bytes ms) (pb_istream_from_buffer b (Z.of_nat (length b))) = s) as Es.
  { unfold skip_bytes, advance, s. cbn [pb_istream_from_buffer buf state bytes_left]. unfold b. rewrite length_app. f_equal; lia. }
  rewrite Es in Hr. split; [done|].
  destruct (messages_ahead ms (S (length b)) None None _ Hms Ha) as (f & su & hd & Hf & E); [cbn; lia|cbn; lia|].
  rewrite Es in *. exists f, su, hd. by split.
Qed.

Lemma loop_at_end readBuf fuel start substream headerstream s : (0 < fuel)%nat -> bytes_left s = 0 ->
  message_loop readBuf fuel start substream headerstream s = ([], Finished).
Proof.
  intros Hf Hl. destruct fuel; [lia|]. cbn [message_loop]. unfold pb_decode_tag, pb_decode_varint32, bind, pb_readbyte. by rewrite Hl.
Qed.

Lemma messages_found ms : Forall message_ok ms -> app_froto_n_get_message_type (messages_bytes ms) = (map parsed ms, Finished).
Proof.
  intros Hms. rewrite <- (app_nil_r (messages_bytes ms)). destruct (messages_then ms [] Hms) as (_ & f & su & hd & Hf & ->).
  rewrite loop_at_end by (done || lia). by rewrite app_nil_r.
Qed.

(** C8: What is received is cut into its messages: from any number of messages one behind the other, each with
    or without a version, with a header written field by field and any payload,
    exactly these are found, in order, each with all of its bytes and
    with what its header says. *)
Theorem messages_are_split ms : Forall message_ok ms ->
  app_froto_n_get_message_type (messages_bytes ms) = (map parsed ms, Finished).
Proof. apply messages_found. Qed.

Definition message_1 : message := Message (Some 3) 16 header_1_fields [16; 0].

Lemma message_1_ok : message_ok message_1.
Proof.
  split; [unfold is_u32; cbn; lia|]. split; [cbn; lia|]. split; [|vm_compute; reflexivity].
  unfold message_1, header_1_fields. repeat (apply Forall_cons; split; [cbn; unfold MAX_ID_STR_LENGTH, is_u32; lia|]). by apply Forall_nil.
Qed.

Lemma messages_are_split_witness :
  app_froto_n_get_message_type (messages_bytes [message_1; message_1]) = (map parsed [message_1; message_1], Finished).
Proof. apply messages_are_split. repeat (apply Forall_cons; split; [apply message_1_ok|]). by apply Forall_nil. Defined.

(** ** From the request to its reply *)

(** Who waits for a message, by address and expectation. *)
Definition waits (x : nat * expectation) (r : received) : bool := matches (ReplyAck (fst x) (snd x) 0 0 0 []) r.

Lemma acked_count m : (length (replyAck (received_of (header_of m))) <= FROTO_ACKED_SEQ_NUMBER_MAX_NUMBER)%nat.
Proof.
  unfold header_of. cbn [received_of replyAck].
  assert (length (acked_message_seq_number zero_header) <= FROTO_ACKED_SEQ_NUMBER_MAX_NUMBER)%nat as H by (cbn; lia).
  revert H. generalize zero_header. induction (header_fields m) as [|f fs IH]; intros h H; cbn [fold_left]; [done|]. apply IH.
  destruct f; cbn [put_field]; try done. destruct (Nat.ltb_spec (length (acked_message_seq_number h)) FROTO_ACKED_SEQ_NUMBER_MAX_NUMBER); [|done].
  cbn [set_acked acked_message_seq_number]. rewrite length_app. cbn [length]. lia.
Qed.

Definition is_again (a : act) : Prop := match a with Again _ _ => True | _ => False end.

Lemma deliver_rest_steps ts r st st' : deliver_rest ts r st = Some st' -> exists acts, Forall is_again acts /\ steps acts st = Some st'.
Proof.
  revert r st. induction ts as [|t ts IH]; intros r st; cbn [deliver_rest]; [done|].
  destruct (deliver_again t r st) as [st1 [r1|]] eqn:E.
  - intros (acts & Ha & Hs)%IH. exists (Again t r :: acts). split; [by constructor|]. cbn [steps step]. by rewrite E.
  - intros [= <-]. exists [Again t r]. split; [by repeat constructor|]. cbn [steps step]. by rewrite E.
Qed.

Lemma deliver_steps t ts msg r st st' : deliver (t :: ts) msg r st = Some st' ->
  exists acts, Forall is_again acts /\ steps acts (fst (deliver_first t msg r st)) = Some st'.
Proof.
  cbn [deliver]. destruct (deliver_first t msg r st) as [st1 [r1|]]; [apply deliver_rest_steps|].
  intros [= <-]. exists []. by split; [constructor|].
Qed.

Lemma again_foreign addr e acts : Forall is_again acts -> Forall (foreign addr e) acts.
Proof. intros H. apply (list.Forall_impl _ _ _ H). by intros []. Qed.

Lemma keys_deliver_first t msg r st : keys (fst (deliver_first t msg r st)) = keys st.
Proof.
  pose proof (deliver_first_spec t msg r st) as H. destruct (first_match _ r) as [[k ra]|].
  - destruct H as (st' & -> & Hq & _). exact (keys_of_alter _ k st st' (key_push msg) Hq).
  - destruct H as (_ & Hq & _). by apply keys_of_reg.
Qed.

Lemma unchecked_keys st : unchecked (reply_ack_queue st) <-> Forall (fun x => checkSeqNo (snd x) = false) (keys st).
Proof. unfold unchecked, keys. by rewrite (Forall_fmap key). Qed.

(** Enough searches, and the condition variable is free at the first. *)
Definition searched (ts : list bool) : Prop := hd false ts = true /\ (11 <= length ts)%nat.

Lemma deliver_message ts m st : searched ts -> Forall (fun x => checkSeqNo (snd x) = false) (keys st) ->
  exists st' acts, deliver ts (message_bytes m) (received_of (header_of m)) st = Some st' /\ keys st' = keys st /\
    Forall is_again acts /\ steps acts (fst (deliver_first true (message_bytes m) (received_of (header_of m)) st)) = Some st'.
Proof.
  intros [Ht Hl] Hu. pose proof (acked_count m) as Hc. unfold FROTO_ACKED_SEQ_NUMBER_MAX_NUMBER in Hc.
  destruct (deliver_ends ts (message_bytes m) (received_of (header_of m)) st) as (st' & E & Hq); [by apply unchecked_keys|lia|].
  destruct ts as [|t ts]; [done|]. cbn in Ht. subst t. cbn [hd] in Hq. destruct (deliver_steps _ _ _ _ _ _ E) as (acts & Ha & Hs).
  exists st', acts. split; [done|]. split; [|done]. rewrite (keys_of_reg _ _ Hq). apply keys_deliver_first.
Qed.

Lemma deliver_foreign addr e tss ms st : length tss = length ms -> Forall searched tss ->
  Forall (fun x => checkSeqNo (snd x) = false) (keys st) ->
  Forall (fun m => waits (addr, e) (received_of (header_of m)) = false) ms ->
  exists st' acts, deliver_all tss (map parsed ms) st = Some st' /\ keys st' = keys st /\
    Forall (foreign addr e) acts /\ steps acts st = Some st'.
Proof.
  intros Hlen Hts Hu Hms. revert tss st Hlen Hts Hu. induction Hms as [|m ms Hm _ IH]; intros tss st Hlen Hts Hu.
  { exists st, []. split; [by destruct tss|]. split; [done|]. split; [by apply Forall_nil|done]. }
  destruct tss as [|ts tss]; [done|]. apply Forall_cons in Hts as [Ht Hts]. cbn [map deliver_all parsed].
  destruct (deliver_message ts m st Ht Hu) as (st1 & acts1 & -> & Hk & Ha & Hs). cbn [mbind option_bind].
  destruct (IH tss st1) as (st2 & acts2 & -> & Hk2 & Ha2 & Hs2); [by injection Hlen|done|by rewrite Hk|].
  exists st2, (First true (message_bytes m) (received_of (header_of m)) :: acts1 ++ acts2). split; [done|].
  split; [by rewrite Hk2|]. split.
  - apply Forall_cons. split; [exact Hm|]. apply Forall_app. split; [by apply again_foreign|done].
  - cbn [steps step mbind option_bind]. by rewrite (steps_app _ _ _ _ Hs).
Qed.

Lemma deliver_all_app tss1 tss2 ms1 ms2 st st1 : length tss1 = length ms1 -> deliver_all tss1 ms1 st = Some st1 ->
  deliver_all (tss1 ++ tss2) (ms1 ++ ms2) st = deliver_all tss2 ms2 st1.
Proof.
  revert tss1 st. induction ms1 as [|[msg r] ms1 IH]; intros [|ts tss1] st Hl; cbn [app deliver_all] in *; try done.
  { by intros [= ->]. }
  destruct (deliver ts msg r st) as [st2|]; [|done]. cbn [mbind option_bind]. intros E. by apply IH; [injection Hl|].
Qed.

(** The waiter is the first one when nobody else waits for the message. *)
Lemma only_match addr e ms st r : holds addr e ms st -> waits (addr, e) r = true ->
  Forall (fun x => waits x r = true -> fst x = addr) (keys st) ->
  exists k ra, first_match (reply_ack_queue st) r = Some (k, ra) /\ ra_addr ra = addr.
Proof.
  intros H Hw Hall. destruct (holds_find _ _ _ _ H) as (i & ra & E & [= Ea Ee _]). rewrite keys_alt in Hall.
  apply list_find_Some in E as (Hi & _ & _). destruct (first_match _ r) as [[k ra1]|] eqn:Ef.
  - exists k, ra1. split; [done|]. destruct (first_match_Some _ _ _ _ Ef) as (Hk & Hm & _).
    eapply Forall_lookup_1 in Hall; [|by rewrite list_lookup_fmap, Hk]. by apply Hall.
  - apply first_match_None in Ef. eapply Forall_lookup_1 in Ef; [|exact Hi]. unfold waits, matches, of_kind in Hw, Ef.
    cbn [ra_exp fst snd] in Hw. rewrite Ee in Ef. by rewrite Hw in Ef.
Qed.

(** C7: The request and its reply, from one end to the other: a thread registers and sends; the other
    threads do what they do; then a buffer is received with any well-formed messages, one
    of them the only one that the thread waits for, and nobody else waits for that
    one. All messages are found and delivered, and
    whatever the other threads do until the thread runs, it returns exactly the bytes of its
    message, and its registration is gone. What the other threads may do is [foreign]: with condition variables and
    registrations of their own, and without cleaning those of this sensor. No registration asks for its
    sequence number to be checked, or the search for a waiter does not end ([FrotoReply.checked_reply_searched_forever]);
    the lock of the condition variable is free at the first attempt ([searched]); the delivery is not interrupted; and of
    two messages for the thread none would be returned ([FrotoReply.two_replies_lost]). *)
Theorem request_gets_reply addr e st0 st1 before st2 ms1 m ms2 tss1 ts tss2 maxReadBufLen timed_out :
  (addr ∉ map ra_addr (reply_ack_queue st0)) ->
  Forall (fun ra => pt_cond_var (ra_exp ra) <> pt_cond_var e) (reply_ack_queue st0) ->
  send_with_reply_start addr e true st0 = Some st1 -> Forall (foreign addr e) before -> steps before st1 = Some st2 ->
  Forall (fun x => checkSeqNo (snd x) = false) (keys st2) -> Forall message_ok (ms1 ++ m :: ms2) ->
  Forall (fun m' => waits (addr, e) (received_of (header_of m')) = false) (ms1 ++ ms2) ->
  waits (addr, e) (received_of (header_of m)) = true ->
  Forall (fun x => waits x (received_of (header_of m)) = true -> fst x = addr) (keys st2) ->
  length tss1 = length ms1 -> length tss2 = length ms2 -> Forall searched (tss1 ++ ts :: tss2) ->
  Z.of_nat (length (message_bytes m)) <= maxReadBufLen ->
  exists st3, deliver_all (tss1 ++ ts :: tss2) (fst (app_froto_n_get_message_type (messages_bytes (ms1 ++ m :: ms2)))) st2 = Some st3 /\
  forall after st4, Forall (foreign addr e) after -> steps after st3 = Some st4 ->
    exists st5, send_with_reply_end timed_out maxReadBufLen addr e st4 = Some (Reply (negb timed_out) (Some (message_bytes m)), st5) /\
      filter (mine addr e) (regs st5) = [].
Proof.
  intros Hf Hc Hs Hb Hb2 Hu Hok [Hw1 Hw2]%Forall_app Hw Hall Hl1 Hl2 Hts Hlen.
  destruct (start_holds _ _ _ _ Hf Hc Hs) as [Hp H1]. destruct (foreign_steps _ _ _ _ _ _ H1 Hb Hb2) as [H2 _].
  rewrite messages_found by done. cbn [fst]. rewrite map_app. cbn [map].
  apply Forall_app in Hts as [Hts1 Hts2]. apply Forall_cons in Hts2 as [Ht Hts2].
  destruct (deliver_foreign addr e tss1 ms1 st2 Hl1 Hts1 Hu Hw1) as (sa & a1 & E1 & K1 & F1 & S1).
  rewrite (deliver_all_app _ _ _ _ _ sa) by (by rewrite ?length_map). cbn [deliver_all parsed].
  destruct (deliver_message ts m sa Ht) as (sb & a2 & -> & K2 & F2 & S2); [by rewrite K1|]. cbn [mbind option_bind].
  destruct (deliver_foreign addr e tss2 ms2 sb Hl2 Hts2) as (sc & a3 & -> & K3 & F3 & S3); [by rewrite K2, K1|done|].
  exists sc. split; [done|]. intros after st4 Fa Sa. destruct (foreign_steps _ _ _ _ _ _ H2 F1 S1) as [Ha _].
  destruct (only_match addr e [] sa _ Ha Hw) as (k & ra & Em & Ea); [by rewrite K1|].
  destruct (first_holds _ _ _ true (message_bytes m) _ _ _ _ Ha Em Ea) as [Hb' Hop]. specialize (Hop eq_refl).
  destruct (foreign_steps _ _ _ _ _ _ Hb' (again_foreign _ _ _ F2) S2) as [Hb'' Hop2].
  destruct (foreign_steps _ _ _ _ _ _ Hb'' F3 S3) as [Hc' Hop3].
  destruct (foreign_steps _ _ _ _ _ _ Hc' Fa Sa) as [Hd Hop4]. apply woken_takes; [done|exact Hd|by apply Hop4, Hop3, Hop2|done].
Qed.

Definition message_to (seq : Z) : message :=
  Message None 16 [Scalar 1 1; Sensor [65; 66]; Scalar 7 300; Scalar 9 1; Scalar 10 1; Acked seq] [16; 0].

Lemma message_to_ok seq : In seq [7; 8] -> message_ok (message_to seq).
Proof.
  intros Hs. split; [done|]. split; [cbn; lia|]. split.
  - unfold message_to. destruct Hs as [<-|[<-|[]]];
      (repeat (apply Forall_cons; split; [cbn; unfold MAX_ID_STR_LENGTH, is_u32 in *; lia|])); by apply Forall_nil.
  - by destruct Hs as [<-|[<-|[]]]; vm_compute.
Qed.

(** Two threads; one buffer with both replies and a message for nobody between them. *)
Definition register_other : list act := [Register 101 (waiter 2 8)].
Definition asked : froto := default froto_init (steps register_other own_1).
Definition many : list bool := repeat true 11.

Lemma request_gets_reply_witness : exists st3,
  deliver_all [many; many; many] (fst (app_froto_n_get_message_type (messages_bytes [message_to 8; message_to 7; message_1]))) asked =
    Some st3 /\
  forall after st4, Forall (foreign 100 (waiter 1 7)) after -> steps after st3 = Some st4 ->
    exists st5, send_with_reply_end false 100 100 (waiter 1 7) st4 = Some (Reply true (Some (message_bytes (message_to 7))), st5) /\
      filter (mine 100 (waiter 1 7)) (regs st5) = [].
Proof.
  apply (request_gets_reply 100 (waiter 1 7) froto_init own_1 register_other asked [message_to 8] (message_to 7) [message_1]
    [many] many [many] 100 false); try reflexivity; try (by apply not_elem_of_nil); try done.
  - by repeat (apply Forall_cons; split).
  - by repeat (apply Forall_cons; split).
  - repeat (apply Forall_cons; split; [first [apply message_to_ok; cbn; tauto|apply message_1_ok]|]). by apply Forall_nil.
  - by repeat (apply Forall_cons; split).
  - repeat (apply Forall_cons; split; [by vm_compute|]). by apply Forall_nil.
  - repeat (apply Forall_cons; split; [split; [done|cbn; lia]|]). by apply Forall_nil.
Defined.

(** ** Messages that are not well formed *)

(** After any well-formed messages, a message without a header - the empty one - is undefined:
    the buffers of the identifier and of the acknowledged numbers are
    taken from the header, where their pointers are [NULL]. *)
Theorem message_without_header ms v kind rest : Forall message_ok ms ->
  match v with Some v => is_u32 v | None => True end -> 2 <= kind <= 21 ->
  app_froto_n_get_message_type (messages_bytes ms ++ version_bytes v ++ tag_of PB_WT_STRING kind ++ string_of [] ++ rest) =
    (map parsed ms, Undefined).
Proof.
  intros Hms Hv Hk. destruct (messages_then ms (version_bytes v ++ tag_of PB_WT_STRING kind ++ string_of [] ++ rest) Hms)
    as (Ha & f & su & hd & Hf & ->). set (s := Istream _ _ _) in *. apply ahead_app in Ha as [Hav Ha].
  apply ahead_app in Ha as [Hat Ha]. apply ahead_app in Ha as [Has _]. rewrite !length_app in Hf.
  change (length (string_of [])) with 1%nat in Hf.
  destruct (message_loop_version (buf s) f (state s) su hd v s Hv Hav) as (f1 & [(H1 & H2 & ->)|H0]); [|lia].
  destruct f1 as [|f1]; [lia|]. cbn [message_loop].
  rewrite (tag_ahead PB_WT_STRING kind) by (try done; unfold is_tag, PB_WT_STRING; lia).
  rewrite (proj2 (Z.eqb_neq kind appVer_tag)) by (unfold appVer_tag; lia). cbn [Z.eqb PB_WT_STRING Pos.eqb].
  replace (is_message_tag kind) with true by (unfold is_message_tag; lia).
  destruct (substream_ahead [] _ ltac:(cbn; lia) Has) as (sub & s1 & -> & Esub & _).
  assert (find_header (stream_fuel sub) hd sub = NoHeader sub) as E.
  { rewrite Esub. cbn [length Z.of_nat]. unfold stream_fuel. cbn [bytes_left Z.to_nat find_header].
    unfold pb_decode_tag, pb_decode_varint32, bind, pb_readbyte. done. }
  unfold one_message. rewrite E. by rewrite app_nil_r.
Qed.

Lemma message_without_header_witness :
  app_froto_n_get_message_type (messages_bytes [message_1] ++ [130; 1; 0]) = (map parsed [message_1], Undefined).
Proof.
  apply (message_without_header [message_1] None 16 []); [|done|lia]. apply Forall_cons. split; [apply message_1_ok|by apply Forall_nil].
Defined.

Lemma loop_past_end readBuf fuel start substream headerstream s : Z.of_nat (length (buf s)) <= state s -> bytes_left s <> 0 ->
  message_loop readBuf (S fuel) start substream headerstream s = ([], Undefined).
Proof.
  intros Hs Hl. cbn [message_loop]. unfold pb_decode_tag, pb_decode_varint32, bind, pb_readbyte.
  rewrite (proj2 (Z.eqb_neq _ _) Hl), lookup_ge_None_2 by lia. done.
Qed.

(** A parent that is too short, as the substream. *)
Lemma close_copy s s' : buf s' = buf s -> 0 <= bytes_left s' ->
  pb_close_string_substream s s' = Ok tt (Istream (buf s) (state s' + bytes_left s') (bytes_left s)).
Proof.
  intros Eb Hl. unfold pb_close_string_substream. destruct (Z.eqb_spec (bytes_left s') 0) as [E|E]; cbn [negb].
  - by rewrite Eb, E, Z.add_0_r.
  - unfold pb_read. rewrite (proj2 (Z.eqb_neq _ _) E), Z.ltb_irrefl. cbn [andb]. unfold advance. by rewrite <- Eb.
Qed.

(** The message under its tag when the length [n] is more than what is left. *)
Lemma one_message_truncated readBuf start headerstream m n s next : message_ok m -> Z.of_nat (length (body m)) < n < 2 ^ 32 ->
  ahead s (varint_of n ++ body m) -> bytes_left s = Z.of_nat (length (varint_of n ++ body m)) ->
  (forall s' hs, state s' = state s + bytes_left s -> buf s' = buf s -> bytes_left s' <> 0 -> next s' hs = ([], Undefined)) ->
  exists s1, pb_make_string_substream s = SubTooShort s1 s1 /\
    one_message readBuf start (Some s1) headerstream s1 next =
      ([(take (Z.to_nat (Z.of_nat (length readBuf) - Z.of_nat (length (body m)) - start)) (drop (Z.to_nat start) readBuf),
         received_of (header_of m))], Undefined).
Proof.
  intros Hm Hn [Hv Hb]%ahead_app Hl Hnext. rewrite length_app in Hl. exists (skip_bytes (varint_of n) s).
  assert (bytes_left (skip_bytes (varint_of n) s) = Z.of_nat (length (body m))) as El by (unfold skip_bytes, advance; cbn [bytes_left]; lia).
  unfold pb_make_string_substream. rewrite (varint32_ahead n) by (unfold is_u32; (lia || done)).
  rewrite (proj2 (Z.ltb_lt _ _)) by lia. split; [done|]. unfold one_message, stream_fuel.
  destruct (find_header_ahead (Z.to_nat (bytes_left (skip_bytes (varint_of n) s))) headerstream m _ Hm Hb) as [hs ->].
  assert (length (tag_of PB_WT_STRING header_tag) + length (string_of (header_bytes (header_fields m))) <= length (body m))%nat
    as Hlb by (unfold body; rewrite !length_app; lia).
  assert (length (tag_of PB_WT_STRING header_tag) = 1%nat) as Ht by done.
  rewrite close_copy; [|done|unfold skip_bytes, advance in *; cbn [bytes_left] in *; lia]. cbn [bytes_left]. rewrite El.
  rewrite Hnext; [done| |done|cbn [bytes_left]; lia].
  unfold skip_bytes, advance in *. cbn [state bytes_left] in *. lia.
Qed.

(** C38: A message that is cut off behind its header is delivered nevertheless, as its tag and its length
    alone, to who waits for it; the stream then goes on behind the end of what was
    received with as many bytes as are there of the message, and the
    next byte is read outside of the buffer. *)
Theorem truncated_message ms m n : Forall message_ok ms -> message_ok m -> Z.of_nat (length (body m)) < n < 2 ^ 32 ->
  app_froto_n_get_message_type
    (messages_bytes ms ++ version_bytes (version m) ++ tag_of PB_WT_STRING (kind m) ++ varint_of n ++ body m) =
  (map parsed ms ++ [(version_bytes (version m) ++ tag_of PB_WT_STRING (kind m) ++ varint_of n, received_of (header_of m))], Undefined).
Proof.
  intros Hms Hm Hn. set (pre := version_bytes (version m) ++ tag_of PB_WT_STRING (kind m) ++ varint_of n).
  destruct (messages_then ms (version_bytes (version m) ++ tag_of PB_WT_STRING (kind m) ++ varint_of n ++ body m) Hms)
    as (Ha & f & su & hd & Hf & ->). set (s := Istream _ _ _) in *.
  assert (take (length pre) (drop (Z.to_nat (state s)) (buf s)) = pre) as Htake.
  { apply (taken_ahead s pre (body m)). unfold pre. by rewrite <- !app_assoc. }
  apply ahead_app in Ha as [Hav Ha]. apply ahead_app in Ha as [Hat Ha]. rewrite !length_app in Hf.
  destruct (message_loop_version (buf s) f (state s) su hd (version m) s (proj1 Hm) Hav) as (f1 & [(H1 & H2 & ->)|H0]); [|lia].
  pose proof (varint_of_length n). assert (length (tag_of PB_WT_STRING header_tag) = 1%nat) as Hh by done.
  assert (1 <= length (body m))%nat as Hlb by (unfold body; rewrite length_app; lia).
  destruct f1 as [|[|f1]]; [lia..|]. cbn [message_loop]. pose proof Hm as (_ & Hk & _).
  rewrite (tag_ahead PB_WT_STRING (kind m)) by (try done; unfold is_tag, PB_WT_STRING; lia).
  rewrite (proj2 (Z.eqb_neq (kind m) appVer_tag)) by (unfold appVer_tag; lia). cbn [Z.eqb PB_WT_STRING Pos.eqb].
  replace (is_message_tag (kind m)) with true by (unfold is_message_tag; lia).
  match goal with |- context [match _ with SubOk sub s => one_message _ _ (Some sub) _ s ?f | _ => _ end] => set (next := f) end.
  set (s2 := skip_bytes (tag_of PB_WT_STRING (kind m)) _) in *.
  assert (bytes_left s2 = Z.of_nat (length (varint_of n ++ body m)) /\ state s2 + bytes_left s2 = Z.of_nat (length (buf s)) /\ buf s2 = buf s)
    as (El & Es & Eb).
  { unfold s2, skip_bytes, advance, s. cbn [state bytes_left buf]. rewrite !length_app. split; [lia|]. split; [lia|done]. }
  destruct (one_message_truncated (buf s) (state s) hd m n s2 next Hm Hn Ha El) as (s1 & -> & ->).
  { intros s' hs E1 E2 E3. apply loop_past_end; [rewrite E2, Eb; lia|done]. }
  do 3 f_equal. rewrite <- Htake. do 2 f_equal. unfold s, pre. cbn [state buf]. rewrite !length_app. lia.
Qed.

Lemma truncated_message_witness :
  app_froto_n_get_message_type ([130; 1; 40] ++ body (message_to 7)) = ([([130; 1; 40], received_of (header_of (message_to 7)))], Undefined).
Proof.
  apply (truncated_message [] (message_to 7) 40); [by apply Forall_nil|apply message_to_ok; cbn; tauto|vm_compute; split; reflexivity].
Defined.
