(* ===== verification/FrotoEnds.v ===== *)
(** * FrotoEnds: the parser of the messages ends

    Whatever was received, the loops of [app_froto_n_get_message_type], and those of the library
    in them, end: every turn takes a byte of the stream or brings a bound nearer, also when a
    truncated message has moved the stream past its buffer and the library's guarantee for
    streams within their buffer ([Protobuf.wf]) is void. *)

From S2P Require Import Prelude Protobuf FrotoHeader FrotoReply FrotoMessage.
From Stdlib Require Import ZArith Lia ZifyBool List Bool.
From stdpp Require Import base list numbers option gmap.
Open Scope Z_scope.

(** ** Readers that never give back *)

(** The bytes of the buffer are bytes, and the position and the count of those that are left are not
    negative; the stream may be behind the buffer. *)
Definition counted (s : pb_istream_t) : Prop := Forall is_u8 (buf s) /\ 0 <= bytes_left s /\ 0 <= state s.

(** [s'] is a stream on the same buffer with at least [n] fewer bytes left. *)
Definition less (n : Z) (s s' : pb_istream_t) : Prop :=
  buf s' = buf s /\ 0 <= bytes_left s' /\ bytes_left s' + n <= bytes_left s /\ 0 <= state s'.

(** A reader that takes at least [n] bytes when it succeeds, and never uses up its fuel. *)
Definition takes_at {A} (n : Z) (Q : A -> Prop) (r : reader A) (s : pb_istream_t) : Prop :=
  match r s with
  | Ok a s' => less n s s' /\ Q a
  | Failed s' => less 0 s s'
  | Undef w => w = Wild
  end.
Class takes {A} (n : Z) (Q : A -> Prop) (r : reader A) : Prop := takes_here s : counted s -> takes_at n Q r s.

Lemma less_counted n s s' : counted s -> less n s s' -> counted s'.
Proof. intros [Hb _] (E & Hl & _ & Hp). split; [by rewrite E|done]. Qed.

Lemma less_refl s : counted s -> less 0 s s.
Proof. intros (_ & Hl & Hp). repeat split; lia. Qed.

Lemma less_trans n m s s1 s2 : 0 <= n -> less n s s1 -> less m s1 s2 -> less m s s2.
Proof. intros Hn (E1 & ? & ? & ?) (E2 & ? & ? & ?). repeat split; [congruence|lia..]. Qed.

Lemma less_trans_l n m s s1 s2 : 0 <= m -> less n s s1 -> less m s1 s2 -> less n s s2.
Proof. intros Hn (E1 & ? & ? & ?) (E2 & ? & ? & ?). repeat split; [congruence|lia..]. Qed.

Lemma less_0 n s s' : 0 <= n -> less n s s' -> less 0 s s'.
Proof. intros Hn (E1 & ? & ? & ?). repeat split; [done|lia..]. Qed.

Lemma takes_bind_at {A B} n (Q : A -> Prop) (R : B -> Prop) r f s : 0 <= n -> counted s -> takes_at n Q r s ->
  (forall a s', Q a -> counted s' -> less n s s' -> takes_at 0 R (f a) s') -> takes_at n R (bind r f) s.
Proof.
  intros Hn Hs Hr Hf. unfold takes_at, bind in *. destruct (r s) as [a s1|s1|]; [|done..]. destruct Hr as [H1 Ha].
  specialize (Hf a s1 Ha (less_counted _ _ _ Hs H1) H1). destruct (f a s1) as [b s2|s2|]; [|by eapply less_trans|done].
  destruct Hf. split; [by apply (less_trans_l n 0 s s1)|done].
Qed.

#[export] Instance takes_bind {A B} n (Q : A -> Prop) (R : B -> Prop) r f : 0 <= n -> takes n Q r ->
  (forall a, Q a -> takes 0 R (f a)) -> takes n R (bind r f).
Proof. intros Hn Hr Hf s Hs. apply (takes_bind_at n Q); [done|done|by apply Hr|]. intros a s' Ha Hs' _. by apply Hf. Qed.

#[export] Instance takes_ret {A} (Q : A -> Prop) a : Q a -> takes 0 Q (ret a).
Proof. intros Ha s Hs. split; [by apply less_refl|done]. Qed.
#[export] Instance takes_fail {A} (Q : A -> Prop) : takes 0 Q fail.
Proof. intros s Hs. by apply less_refl. Qed.

Lemma takes_weaken {A} n (Q R : A -> Prop) r : takes n Q r -> 0 <= n -> (forall a, Q a -> R a) -> takes 0 R r.
Proof.
  intros Hr Hn HQR s Hs. specialize (Hr s Hs). unfold takes_at in *. destruct (r s); [|done..]. destruct Hr. split; [by eapply less_0|auto].
Qed.

#[export] Instance takes_byte : takes 1 is_u8 pb_readbyte.
Proof.
  intros s (Hb & Hl & Hp). unfold takes_at, pb_readbyte. destruct (Z.eqb_spec (bytes_left s) 0); [by apply less_refl|].
  destruct (buf s !! _) as [b|] eqn:E; [|done]. split; [|by apply (Forall_lookup_1 _ _ _ _ Hb E)].
  repeat split; cbn; lia.
Qed.

Lemma takes_read_n into count s : 0 <= count -> counted s -> takes_at count (fun bs => Forall is_u8 bs /\ (into = true -> Z.of_nat (length bs) = count))
  (pb_read into count) s.
Proof.
  intros Hc Hs. pose proof Hs as (Hb & Hl & Hp). unfold takes_at, pb_read.
  destruct (Z.eqb_spec count 0) as [->|Hn]; [split; [by apply less_refl|split; [constructor|done]]|].
  destruct (Z.ltb_spec (bytes_left s) count); [by apply less_refl|]. destruct (_ && _) eqn:Ew; [done|].
  split; [repeat split; cbn; lia|]. destruct into; [|split; [constructor|done]]. split; [by apply Forall_slice|].
  intros _. rewrite length_take, length_drop. lia.
Qed.

#[export] Instance takes_read into count : 0 <= count -> takes 0 (Forall is_u8) (pb_read into count).
Proof.
  intros Hc s Hs. pose proof (takes_read_n into count s Hc Hs) as H. unfold takes_at in *. destruct (pb_read _ _ s); [|done..].
  destruct H as (H & ? & _). split; [by eapply less_0|done].
Qed.

Definition natural (v : Z) : Prop := 0 <= v.

Lemma natural_or a b : natural a -> natural b -> natural (Z.lor a b).
Proof. unfold natural. intros. apply Z.lor_nonneg. lia. Qed.

Lemma natural_group b k m : natural (u32 (Z.shiftl (Z.land b m) k)) /\ natural (u64 (Z.shiftl (Z.land b m) k)).
Proof. unfold natural, u32, u64. split; apply Z.mod_pos_bound; lia. Qed.

(** A position below 77 has a turn left: at 64 the loop fails. *)
Lemma takes_varint32_more fuel bitpos result : 0 <= bitpos < 77 -> 77 <= bitpos + 7 * Z.of_nat fuel -> natural result ->
  takes 0 natural (varint32_more fuel bitpos result).
Proof.
  revert bitpos result. induction fuel as [|fuel IH]; intros bitpos result Hp Hf Hr; [lia|]. cbn [varint32_more].
  apply (takes_weaken 1 natural); [|lia|done]. apply takes_bind with (Q := is_u8); [lia|apply takes_byte|]. intros byte _.
  assert (forall result, bitpos < 64 -> natural result -> takes 0 natural
    (if negb (Z.land byte 0x80 =? 0) then varint32_more fuel (u8 (bitpos + 7)) result else ret result)) as Hmore.
  { intros v Hb Hv. destruct (negb _); [|by apply takes_ret]. rewrite u8_id by (unfold is_u8; lia). apply IH; [lia..|done]. }
  destruct (Z.leb_spec 32 bitpos); [destruct (Z.leb_spec 64 bitpos); cbn [orb]; [apply takes_fail|]|].
  { match goal with |- takes _ _ (if ?c then _ else _) => destruct c end; [apply takes_fail|by apply Hmore]. }
  destruct (bitpos =? 28); [destruct (_ && _); [apply takes_fail|]|]; apply Hmore, natural_or; (lia || done || apply natural_group).
Qed.

#[export] Instance takes_varint32 : takes 1 natural pb_decode_varint32.
Proof.
  apply takes_bind with (Q := is_u8); [lia|apply takes_byte|]. intros byte Hb. destruct (_ =? _).
  - apply takes_ret. unfold is_u8, natural in *. lia.
  - apply takes_varint32_more; [lia|unfold VARINT_FUEL; lia|]. unfold natural. apply Z.land_nonneg. lia.
Qed.

(** A byte that is not the last of a number ends the loop at 63. *)
Lemma takes_varint_more fuel bitpos result : 0 <= bitpos < 70 -> 70 <= bitpos + 7 * Z.of_nat fuel -> natural result ->
  takes 0 natural (varint_more fuel bitpos result).
Proof.
  revert bitpos result. induction fuel as [|fuel IH]; intros bitpos result Hp Hf Hr; [lia|]. cbn [varint_more].
  apply (takes_weaken 1 natural); [|lia|done]. apply takes_bind with (Q := is_u8); [lia|apply takes_byte|]. intros byte _.
  destruct (Z.leb_spec 63 bitpos); cbn [andb].
  - destruct (Z.eqb_spec (Z.land byte 0xFE) 0) as [E|]; [|apply takes_fail]. cbn [negb]. cbv zeta.
    assert (Z.land byte 0x80 = 0) as -> by (change 0x80 with (Z.land 0xFE 0x80); by rewrite Z.land_assoc, E).
    apply takes_ret, natural_or; [done|apply natural_group].
  - cbv zeta. destruct (negb _); [rewrite u8_id by (unfold is_u8; lia); apply IH; [lia..|]|apply takes_ret]; (apply natural_or; [done|apply natural_group]).
Qed.

#[export] Instance takes_tag : takes 1 (fun _ => True) pb_decode_tag.
Proof. apply takes_bind with (Q := natural); [lia|apply takes_varint32|]. intros v _. by apply takes_ret. Qed.

Lemma takes_skip_varint fuel s : counted s -> bytes_left s < Z.of_nat fuel -> takes_at 0 (fun _ => True) (skip_varint fuel) s.
Proof.
  revert s. induction fuel as [|fuel IH]; intros s Hs Hf; [destruct Hs; lia|]. cbn [skip_varint].
  pose proof (takes_read_n true 1 s ltac:(lia) Hs) as H. unfold takes_at, bind in *. destruct (pb_read true 1 s) as [bs s1|s1|]; [|by destruct H|done].
  destruct H as [H1 _]. pose proof H1 as (_ & _ & Hlt & _). apply (less_0 1) in H1; [|lia].
  destruct (negb _); [|split; [done|exact I]]. specialize (IH s1 (less_counted _ _ _ Hs H1) ltac:(lia)).
  destruct (skip_varint fuel s1) as [u s2|s2|]; [|by apply (less_trans 0 0 s s1)|done]. destruct IH as [H2 _].
  split; [by apply (less_trans 0 0 s s1)|done].
Qed.

#[export] Instance takes_skip_field wire_type : takes 0 (fun _ => True) (pb_skip_field wire_type).
Proof.
  unfold pb_skip_field. destruct (_ =? _); [intros s Hs; apply takes_skip_varint; [done|unfold counted, stream_fuel in *; lia]|].
  destruct (_ =? _); [apply takes_bind with (Q := Forall is_u8); [lia|by apply takes_read|intros; by apply takes_ret]|].
  destruct (_ =? _); [|destruct (_ =? _); [|apply takes_fail]].
  - apply (takes_weaken 1 (fun _ => True)); [|lia|done]. apply takes_bind with (Q := natural); [lia|apply takes_varint32|].
    intros n Hn. apply takes_bind with (Q := Forall is_u8); [lia|by apply takes_read|intros; by apply takes_ret].
  - apply takes_bind with (Q := Forall is_u8); [lia|by apply takes_read|intros; by apply takes_ret].
Qed.

Lemma takes_raw_varint fuel max raw : Forall is_u8 raw -> Z.of_nat (length raw) <= max < Z.of_nat (length raw) + Z.of_nat fuel ->
  takes 0 (Forall is_u8) (raw_varint fuel max raw).
Proof.
  revert raw. induction fuel as [|fuel IH]; intros raw Hraw Hf s Hs; [lia|]. cbn [raw_varint].
  destruct (Z.ltb_spec max (Z.of_nat (length raw) + 1)); [by apply less_refl|].
  apply (takes_bind_at 0 (fun bs => Forall is_u8 bs /\ length bs = 1%nat)); [lia|done| |].
  - pose proof (takes_read_n true 1 s ltac:(lia) Hs) as H1. unfold takes_at in *. destruct (pb_read true 1 s); [|done..].
    destruct H1 as (H1 & Hb & Hl). split; [by apply (less_0 1); [lia|]|]. split; [done|]. specialize (Hl eq_refl). lia.
  - intros bs s' [Hbs Hl] Hs' _. destruct (negb _); [|by apply takes_ret; [apply Forall_app|]].
    apply IH; [by apply Forall_app|rewrite length_app; lia|done].
Qed.

#[export] Instance takes_raw_value wire_type max : 0 <= max -> takes 0 (Forall is_u8) (read_raw_value wire_type max).
Proof.
  intros Hm. unfold read_raw_value. destruct (_ =? _); [apply takes_raw_varint; [constructor|cbn [length]; lia]|].
  destruct (_ =? _); [by apply takes_read|]. destruct (_ =? _); [by apply takes_read|apply takes_fail].
Qed.

(** ** Substreams and fields *)

Lemma takes_substream s : counted s ->
  match pb_make_string_substream s with
  | SubOk sub s' => less 0 s sub /\ less 1 s s'
  | SubTooShort sub s' => sub = s' /\ less 1 s s'
  | SubFailed s' => less 0 s s'
  | SubUndef w => w = Wild
  end.
Proof.
  intros Hs. pose proof (takes_here (r := pb_decode_varint32) s Hs) as H. unfold pb_make_string_substream, takes_at in *.
  destruct (pb_decode_varint32 s) as [size s1|s1|]; [|done..]. destruct H as [(Eb & Hl & Hlt & Hp) Hn]. unfold natural in Hn.
  destruct (Z.ltb_spec (bytes_left s1) size); [done|]. unfold less. cbn. repeat split; (done || lia).
Qed.

(** The parent keeps its count. *)
Lemma takes_close s sub : buf sub = buf s -> counted sub -> counted s ->
  match pb_close_string_substream s sub with
  | Ok _ s' => less 0 s s' /\ bytes_left s' = bytes_left s
  | Failed s' => s' = s
  | Undef w => w = Wild
  end.
Proof.
  intros Eb Hsub Hs. unfold pb_close_string_substream.
  assert (takes_at 0 (fun _ => True) (if negb (bytes_left sub =? 0) then pb_read false (bytes_left sub) else Ok []) sub) as H.
  { destruct (negb _); [|by apply (takes_ret (fun _ => True))]. apply (takes_weaken 0 (Forall is_u8)); [|done..].
    apply takes_read. apply Hsub. }
  unfold takes_at in H. destruct (negb _);
    [destruct (pb_read _ _ sub) as [a sub'|sub'|]; [|done..]; destruct H as [(E & _ & _ & Hp) _]|destruct H as [(E & _ & _ & Hp) _]].
  all: split; [|done]; destruct Hs as (_ & Hl & _); repeat split; cbn; [congruence|lia..].
Qed.

Section fields.
Context {M : Type}.

Lemma takes_call_callback fuel (cb : callback M) m s : (forall m, takes 0 (fun _ : M => True) (cb m)) ->
  counted s -> bytes_left s < Z.of_nat fuel -> takes_at 0 (fun _ : M => True) (call_callback fuel cb m) s.
Proof.
  intros Hcb. revert m s. induction fuel as [|fuel IH]; intros m s Hs Hf; [destruct Hs; lia|]. unfold takes_at in *. cbn [call_callback].
  pose proof (Hcb m s Hs) as H. unfold takes_at in H. destruct (cb m s) as [m1 s1|s1|]; [|done..]. destruct H as [H1 _].
  destruct ((0 <? bytes_left s1) && (bytes_left s1 <? bytes_left s)) eqn:Ec; [|by split].
  specialize (IH m1 s1 (less_counted _ _ _ Hs H1) ltac:(lia)). destruct (call_callback fuel cb m1 s1) as [m2 s2|s2|]; [|by apply (less_trans 0 0 s s1)|done].
  destruct IH as [H2 _]. split; [by apply (less_trans 0 0 s s1)|done].
Qed.

Lemma takes_callback_field wire_type (cb : callback M) m : (forall m, takes 0 (fun _ : M => True) (cb m)) -> takes 0 (fun _ : M => True) (decode_callback_field wire_type cb m).
Proof.
  intros Hcb s Hs. unfold takes_at, decode_callback_field. destruct (_ =? _).
  - pose proof (takes_substream s Hs) as H. destruct (pb_make_string_substream s) as [sub s1|sub s1|s1|]; [|by destruct H as [_ H]; apply (less_0 1) in H; [|lia]|done..].
    destruct H as [Hsub H1]. apply (less_0 1) in H1; [|lia]. pose proof (less_counted _ _ _ Hs Hsub) as Hcs.
    pose proof (takes_call_callback (stream_fuel sub) cb m sub Hcb Hcs ltac:(unfold counted, stream_fuel in *; lia)) as H2. unfold takes_at in H2.
    destruct (call_callback _ _ _ _) as [m1 sub1|sub1|]; [|done..]. destruct H2 as [H2 _].
    assert (buf sub1 = buf s1) as Eb by (destruct H1 as (E1 & _), Hsub as (E & _), H2 as (E2 & _); congruence).
    pose proof (takes_close s1 sub1 Eb (less_counted _ _ _ Hcs H2) (less_counted _ _ _ Hs H1)) as Hc.
    destruct (pb_close_string_substream s1 sub1) as [u s2|s2|]; [|by subst|done].
    destruct Hc as [H3 _]. split; [by apply (less_trans 0 0 s s1)|done].
  - pose proof (takes_raw_value wire_type 10 ltac:(lia) s Hs) as Hr. unfold takes_at in Hr. destruct (read_raw_value wire_type 10 s) as [raw s1|s1|]; [|done..].
    destruct Hr as [H1 Hraw]. assert (counted (pb_istream_from_buffer raw (Z.of_nat (length raw)))) as Hb by (repeat split; [done|cbn; lia..]).
    specialize (Hcb m _ Hb). unfold takes_at in Hcb. destruct (cb m _); [by split|done..].
Qed.

Lemma takes_fields (decode_field : Z -> option (Z -> M -> reader M)) fuel m s :
  (forall tag d, decode_field tag = Some d -> forall wire_type m, takes 0 (fun _ : M => True) (d wire_type m)) ->
  counted s -> bytes_left s < Z.of_nat fuel -> takes_at 0 (fun _ : M => True) (decode_fields decode_field fuel m) s.
Proof.
  intros Hd. revert m s. induction fuel as [|fuel IH]; intros m s Hs Hf; [destruct Hs; lia|]. unfold takes_at in *. cbn [decode_fields].
  destruct (_ =? 0); [split; [by apply less_refl|done]|]. pose proof (takes_here (r := pb_decode_tag) s Hs) as H. unfold takes_at in H.
  destruct (pb_decode_tag s) as [[wt tag] s1|s1|]; [|done..]. destruct H as [H1 _]. pose proof H1 as (_ & _ & Hlt & _).
  apply (less_0 1) in H1; [|lia]. pose proof (less_counted _ _ _ Hs H1) as Hs1. destruct (tag =? 0); [done|].
  assert (forall r : reader M, takes_at 0 (fun _ : M => True) r s1 -> match r s1 with Ok a s' => less 0 s s' /\ True | Failed s' => less 0 s s' | Undef w => w = Wild end) as Hgo.
  { intros r Hr. unfold takes_at in Hr. destruct (r s1) as [a s2|s2|]; [|by apply (less_trans 0 0 s s1)|done].
    destruct Hr. split; [by apply (less_trans 0 0 s s1)|done]. }
  destruct (decode_field tag) as [d|] eqn:Ed.
  - apply (Hgo (bind (d wt m) (decode_fields decode_field fuel))). apply (takes_bind_at 0 (fun _ : M => True)); [lia|done|by eapply Hd|].
    intros a s' _ Hs' (_ & _ & Hl & _). apply IH; [done|lia].
  - apply (Hgo (pb_skip_field wt ;;! decode_fields decode_field fuel m)). apply (takes_bind_at 0 (fun _ => True)); [lia|done|by apply takes_skip_field|].
    intros a s' _ Hs' (_ & _ & Hl & _). apply IH; [done|lia].
Qed.
End fields.

(** ** The header *)

#[export] Instance takes_varint_field {A} (Q : A -> Prop) r wire_type : takes 0 Q r -> takes 0 Q (varint_field r wire_type).
Proof. intros Hr. unfold varint_field. destruct (_ =? _); [done|apply takes_fail]. Qed.

#[export] Instance takes_uvarint32 : takes 0 (fun _ : Z => True) pb_dec_uvarint32.
Proof.
  apply takes_bind with (Q := natural); [lia|apply takes_varint_more; [lia|unfold VARINT_FUEL; lia|done]|]. intros v _. destruct (_ =? _); [by apply takes_ret|apply takes_fail].
Qed.

#[export] Instance takes_bool : takes 0 (fun _ : Z => True) pb_decode_bool.
Proof.
  apply takes_bind with (Q := natural); [lia| |intros; by apply takes_ret]. by apply (takes_weaken 1 natural); [apply takes_varint32|lia|].
Qed.

Lemma takes_header : takes 0 (fun _ => True) decode_header.
Proof.
  intros s Hs. apply (takes_fields (FrotoHeader_fields (fun _ _ => Undef Wild))); [|done|unfold counted, stream_fuel in *; lia].
  intros tag d E wt h. unfold FrotoHeader_fields in E.
  assert (forall (r : reader Z) (f : Z -> froto_header), takes 0 (fun _ => True) r -> takes 0 (fun _ => True) (let! v := varint_field r wt in ret (f v))) as Hfield.
  { intros r f Hr. apply takes_bind with (Q := fun _ => True); [lia|by apply takes_varint_field|intros; by apply takes_ret]. }
  repeat (match type of E with (if ?c then _ else _) = _ => destruct c end; [injection E as <-|]); [..|done].
  - apply takes_callback_field. intros h' s' Hs'. unfold takes_at, protobuf_dec_bytes_callback. destruct (_ <? _); [by apply less_refl|].
    pose proof (takes_read true (bytes_left s') (proj1 (proj2 Hs')) s' Hs') as H. unfold takes_at in H. destruct (pb_read _ _ s'); [|done..]. by destruct H.
  - apply takes_callback_field. intros h' s' Hs'. unfold takes_at, peer_addr_callback. destruct (_ =? _); [split; [by apply less_refl|done]|done].
  - apply (Hfield pb_decode_bool), takes_bool.
  - apply takes_callback_field. intros h' s' Hs'. split; [by apply less_refl|done].
  - apply (Hfield pb_decode_bool), takes_bool.
  - apply takes_callback_field. intros h' s' Hs'. unfold takes_at, protobuf_dec_acked_seq_number_callback.
    assert (takes_at 0 (fun _ => True) (pb_decode SeqNoElement_fields 0) s') as H.
    { apply takes_fields; [|done|unfold counted, stream_fuel in *; lia]. intros t d' Ed wt' m. unfold SeqNoElement_fields in Ed.
      destruct (t =? 1); [|done]. injection Ed as <-. apply takes_varint_field, takes_uvarint32. }
    unfold takes_at in H. destruct (pb_decode _ _ s'); [split; [by apply less_refl|done]|by apply less_refl|done].
  - apply (Hfield pb_dec_uvarint32), takes_uvarint32.
Qed.

(** ** The inner loop *)

(** A stream kept from before is on the same buffer. *)
Definition same_buf (s : pb_istream_t) (o : option pb_istream_t) : Prop :=
  match o with Some s' => buf s' = buf s /\ counted s' | None => True end.

Lemma same_buf_less n s s' o : less n s s' -> same_buf s o -> same_buf s' o.
Proof. intros (E & _). destruct o as [x|]; [|done]. intros [Ex Hx]. split; [congruence|done]. Qed.

Lemma closed_counted s : counted s -> counted (closed s).
Proof. intros (Hb & _ & Hp). by repeat split. Qed.

Definition found_on (s : pb_istream_t) (f : search) : Prop :=
  match f with
  | Found _ s' hs => less 0 s s' /\ buf hs = buf s /\ counted hs
  | SearchUndef w => w = Wild
  | SearchRunning => False
  | NoHeader _ | BadHeader => True
  end.

Lemma found_on_less n s s' f : 0 <= n -> less n s s' -> found_on s' f -> found_on s f.
Proof.
  intros Hn H1. destruct f as [|h s2 hs| | |]; [done| |done..]. intros (H2 & E & Hc). pose proof H1 as (E1 & _).
  split; [apply (less_trans 0 0 s s'); [lia|by eapply less_0|done]|]. split; [congruence|done].
Qed.

Lemma read_header_on hdr s : counted s -> same_buf s hdr -> found_on s (read_header hdr s).
Proof.
  intros Hs Hh. unfold read_header. pose proof (takes_substream s Hs) as H.
  assert (forall hs s1, less 0 s s1 -> buf hs = buf s -> counted hs ->
    found_on s (match decode_header hs with Undef w => SearchUndef w | Failed _ => BadHeader
      | Ok h hs => match pb_close_string_substream s1 hs with Ok _ s1 => Found h s1 (closed s1) | Failed s1 => Found h s1 hs | Undef w => SearchUndef w end end)) as Hgo.
  { intros hs s1 H1 Eb Hhs. pose proof (takes_header hs Hhs) as H2. unfold takes_at in H2.
    destruct (decode_header hs) as [h hs2|hs2|]; [|done..]. destruct H2 as [H2 _]. pose proof (less_counted _ _ _ Hhs H2) as Hc2.
    assert (buf hs2 = buf s1) as Eb2 by (destruct H1 as (E1 & _), H2 as (E2 & _); congruence).
    pose proof (less_counted _ _ _ Hs H1) as Hs1. pose proof (takes_close s1 hs2 Eb2 Hc2 Hs1) as Hc.
    destruct (pb_close_string_substream s1 hs2) as [u s2|s2|]; [|subst s2|done].
    - destruct Hc as [H3 _]. assert (less 0 s s2) as H4 by by apply (less_trans 0 0 s s1).
      split; [done|]. split; [by destruct H4|]. apply closed_counted. by eapply less_counted.
    - split; [done|]. split; [destruct H1 as (E1 & _); congruence|done]. }
  destruct (pb_make_string_substream s) as [sub s1|sub s1|s1|]; [| | |done].
  - destruct H as [Hsub H1]. apply Hgo; [apply (less_0 1); [lia|done]|by destruct Hsub|by eapply less_counted].
  - destruct H as [-> H1]. pose proof H1 as (Eb & _). apply Hgo; [apply (less_0 1); [lia|done]|done|by eapply less_counted].
  - destruct hdr as [hs|]; [|done]. destruct Hh. by apply Hgo.
Qed.

Lemma find_header_on fuel hdr s : counted s -> same_buf s hdr -> bytes_left s < Z.of_nat fuel -> found_on s (find_header fuel hdr s).
Proof.
  revert s. induction fuel as [|fuel IH]; intros s Hs Hh Hf; [destruct Hs; lia|]. cbn [find_header].
  pose proof (takes_here (r := pb_decode_tag) s Hs) as H. unfold takes_at in H. destruct (pb_decode_tag s) as [[wt tag] s1|s1|]; [|done..].
  destruct H as [H1 _]. pose proof H1 as (_ & _ & Hlt & _). pose proof (less_counted _ _ _ Hs H1) as Hs1.
  pose proof (same_buf_less _ _ _ _ H1 Hh) as Hh1. apply (found_on_less 1 s s1); [lia|done|].
  destruct (_ && _); [by apply read_header_on|apply IH; [done|done|lia]].
Qed.

(** ** The outer loop *)

Lemma one_message_ends readBuf start sub hdr s next : counted s -> same_buf s sub -> same_buf s hdr ->
  (forall s' hs, counted s' -> buf s' = buf s -> bytes_left s' = bytes_left s -> same_buf s' (Some hs) -> snd (next s' hs) <> Running) ->
  snd (one_message readBuf start sub hdr s next) <> Running.
Proof.
  intros Hs Hsub Hh Hnext. unfold one_message. destruct sub as [sub|]; [|done]. destruct Hsub as [Eb Hcs].
  assert (same_buf sub hdr) as Hh' by (destruct hdr as [hs|]; [|done]; destruct Hh; split; [congruence|done]).
  pose proof (find_header_on (stream_fuel sub) hdr sub Hcs Hh' ltac:(unfold counted, stream_fuel in *; lia)) as Hf.
  destruct (find_header _ _ _) as [s2|h s2 hs| |w|]; cbn [found_on] in Hf; [done| |done|by subst w|done]. destruct Hf as (H2 & Eh & Hch).
  assert (buf s2 = buf s) as E2 by (destruct H2 as (E & _); congruence).
  pose proof (takes_close s s2 E2 (less_counted _ _ _ Hcs H2) Hs) as Hc.
  assert (forall s', counted s' -> buf s' = buf s -> bytes_left s' = bytes_left s ->
    snd (let '(ms, e) := next s' hs in ((take (Z.to_nat (Z.of_nat (length readBuf) - bytes_left s' - start)) (drop (Z.to_nat start) readBuf), received_of h) :: ms, e)) <> Running) as Hgo.
  { intros s' Hs' E' El'. assert (same_buf s' (Some hs)) as Hsb by (split; [congruence|done]). pose proof (Hnext s' hs Hs' E' El' Hsb) as Hn.
    by destruct (next s' hs). }
  destruct (pb_close_string_substream s s2) as [u s3|s3|w]; [|rewrite Hc; exact (Hgo s Hs eq_refl eq_refl)|by subst w].
  destruct Hc as [H3 El3]. refine (Hgo s3 (less_counted _ _ _ Hs H3) _ El3). by destruct H3.
Qed.

Lemma message_loop_ends readBuf fuel start sub hdr s : counted s -> same_buf s sub -> same_buf s hdr -> bytes_left s < Z.of_nat fuel ->
  snd (message_loop readBuf fuel start sub hdr s) <> Running.
Proof.
  revert start sub hdr s. induction fuel as [|fuel IH]; intros start sub hdr s Hs Hsub Hh Hf; [destruct Hs; lia|]. cbn [message_loop].
  pose proof (takes_here (r := pb_decode_tag) s Hs) as H. unfold takes_at in H. destruct (pb_decode_tag s) as [[wt tag] s1|s1|w]; [|done|by subst w].
  destruct H as [H1 _]. pose proof H1 as (_ & _ & Hlt & _). pose proof (less_counted _ _ _ Hs H1) as Hs1.
  pose proof (same_buf_less _ _ _ _ H1 Hsub) as Hsub1. pose proof (same_buf_less _ _ _ _ H1 Hh) as Hh1.
  assert (forall s2 start, less 0 s1 s2 -> snd (message_loop readBuf fuel start sub hdr s2) <> Running) as Hgo.
  { intros s2 start2 H2. pose proof H2 as (_ & _ & Hlt2 & _). apply IH; [by eapply less_counted|by eapply same_buf_less..|lia]. }
  destruct (tag =? appVer_tag).
  { pose proof (takes_here (r := pb_decode_varint32) s1 Hs1) as H2. unfold takes_at in H2. destruct (pb_decode_varint32 s1) as [v s2|s2|w]; [|by apply Hgo|by subst w].
    destruct H2 as [H2 _]. apply Hgo. by apply (less_0 1); [lia|]. }
  pose proof (takes_skip_field wt s1 Hs1) as Hskip. unfold takes_at in Hskip. destruct (wt =? PB_WT_STRING).
  2:{ destruct (pb_skip_field wt s1) as [u s2|s2|w]; [|done|by subst w]. destruct Hskip. by apply Hgo. }
  destruct (is_message_tag tag); [|by destruct (pb_skip_field wt s1) as [u s2|s2|w]; [| |subst w]].
  assert (forall s2 sub2, less 0 s1 s2 -> same_buf s2 sub2 -> snd (one_message readBuf start sub2 hdr s2 (fun istream headerstream =>
    message_loop readBuf fuel (Z.of_nat (length readBuf) - bytes_left istream) (Some (closed istream)) (Some headerstream) istream)) <> Running) as Hone.
  { intros s2 sub2 H2 Hsub2. pose proof H2 as (_ & _ & Hlt2 & _). apply one_message_ends; [by eapply less_counted|done|by eapply same_buf_less|].
    intros s3 hs Hs3 E3 El3 Hsb. apply IH; [done|split; [done|by apply closed_counted]|done|lia]. }
  pose proof (takes_substream s1 Hs1) as H2. destruct (pb_make_string_substream s1) as [sub2 s2|sub2 s2|s2|w]; [| | |by subst w].
  - destruct H2 as [Hl H2]. apply Hone; [by apply (less_0 1); [lia|]|]. split; [|by eapply less_counted]. destruct H2 as (E2 & _), Hl as (El & _). congruence.
  - destruct H2 as [-> H2]. apply Hone; [by apply (less_0 1); [lia|]|]. split; [done|by eapply less_counted].
  - apply Hone; [done|]. by eapply same_buf_less.
Qed.

(** C30: Whatever bytes were received, the parser ends, and with it every loop that it runs: over the messages, in
    search of a header, over the fields of the header, over the calls of a callback, over the bytes of a number and over those that
    are skipped. The fuel of none of them is used up: the result is that of the code, or the code
    reads outside of the buffer or uses a variable that is not set, where nothing is defined. *)
Theorem parser_ends readBuf : Forall is_u8 readBuf -> snd (app_froto_n_get_message_type readBuf) <> Running.
Proof.
  intros Hb. unfold app_froto_n_get_message_type. apply message_loop_ends; [repeat split; [done|cbn; lia..]|done|done|cbn; lia].
Qed.

Lemma parser_ends_witness : snd (app_froto_n_get_message_type [18; 5; 10; 9; 8; 1; 16; 255]) <> Running.
Proof. apply parser_ends. repeat constructor; unfold is_u8; lia. Defined.
