(* ===== verification/BtState.v ===== *)
(** * BtState: the state of the Bluetooth process, its queues and addresses

    [skf_gw/source/src/ble/bt_connection_new.c] and what it uses: the queues
    of [bluez-5.66/ell/queue.c], the condition variables of [app_common.c],
    the white list and the held proxies of [sys_def.c]. The four slots of
    connections, which the program keeps in parallel arrays, are a list of
    records here; a NULL pointer is [None]. *)

From S2P Require Import Prelude.
From Stdlib Require Import ZArith Lia ZifyBool List Bool Ascii String.
From stdpp Require Import base list numbers option strings.
Open Scope Z_scope.

(** ** Queues

    The list of the data pointers, head first. *)

Section l_queue.
Context {A : Type}.

Definition l_queue_push_tail (q : list A) (x : A) : list A := (q ++ [x])%list.

Definition l_queue_pop_head (q : list A) : option A * list A :=
  match q with [] => (None, []) | x :: q' => (Some x, q') end.

Fixpoint l_queue_find (f : A -> bool) (q : list A) : option A :=
  match q with
  | [] => None
  | x :: q' => if f x then Some x else l_queue_find f q'
  end.

Fixpoint l_queue_remove_if (f : A -> bool) (q : list A) : option A * list A :=
  match q with
  | [] => (None, [])
  | x :: q' =>
      if f x then (Some x, q')
      else let '(r, q2) := l_queue_remove_if f q' in (r, x :: q2)
  end.

Fixpoint l_queue_foreach_remove (f : A -> bool) (q : list A) : nat * list A :=
  match q with
  | [] => (0%nat, [])
  | x :: q' =>
      let '(n, q2) := l_queue_foreach_remove f q' in
      if f x then (S n, q2) else (n, x :: q2)
  end.

(** A write through the pointer that [l_queue_find] returns. *)
Fixpoint l_queue_update (f : A -> bool) (g : A -> A) (q : list A) : list A :=
  match q with
  | [] => []
  | x :: q' => if f x then g x :: q' else x :: l_queue_update f g q'
  end.

End l_queue.

(** ** Data *)

(** A pointer to a proxy object, not NULL. *)
Definition proxy : Type := nat.

Definition MAX_BT_WHITE_LIST : nat := 40.
Definition CONFIG_BLE_CONNECTION_MAX_NUM : nat := 4.

Record bt_addr := BtAddr { nap : Z; uap : Z; lap : Z }.

Definition zero_addr : bt_addr := BtAddr 0 0 0.

#[global] Instance bt_addr_eq_dec : EqDecision bt_addr.
Proof. solve_decision. Defined.

Inductive ble_role := BT_ROLE_CLIENT | BT_ROLE_SERVER.

Inductive bluetooth_event :=
| BT_EVENT_UNDEFINED | BT_EVENT_DO_NOTHING | BT_EVENT_DISCONNECTION | BT_EVENT_CONNECTION
| BT_EVENT_RSSI_CHANGED | BT_EVENT_SERVICES_RESOLVED | BT_EVENT_ADD_ADAPTER
| BT_DBUS_IS_READY | BT_DBUS_IS_NOT_READY | BT_EVENT_ADD_DEVPROXY | BT_EVENT_ADD_LEADV_MGR
| BT_EVENT_SW_TO_CLIENT | BT_EVENT_SW_TO_SERVER.

#[global] Instance ble_role_eq_dec : EqDecision ble_role.
Proof. solve_decision. Defined.
#[global] Instance bluetooth_event_eq_dec : EqDecision bluetooth_event.
Proof. solve_decision. Defined.

Definition CONFIG_COND_VAR_MAGIC_INIT : Z := 0x123456.
Definition CONFIG_COND_VAR_MAGIC_DEINIT : Z := 0x876543.

(** [cv_proxy] is the member [proxy]; the mutex, the condition and the deadline
    belong to the waiting. *)
Record pthread_cond_var := CondVar { is_op_done : bool; cv_proxy : option proxy; magic : Z }.

Definition set_op_done (x : bool) (c : pthread_cond_var) : pthread_cond_var := CondVar x (cv_proxy c) (magic c).
Definition set_cv_proxy (x : option proxy) (c : pthread_cond_var) : pthread_cond_var :=
  CondVar (is_op_done c) x (magic c).

Definition app_com_init_pthread_cond_var_ctr (pthread_ok : bool) (c : pthread_cond_var) :
  bool * pthread_cond_var :=
  if magic c =? CONFIG_COND_VAR_MAGIC_INIT then (true, c)
  else if negb pthread_ok then (false, c)
  else (true, CondVar false None CONFIG_COND_VAR_MAGIC_INIT).

(** A process that cannot lock the mutex within twenty seconds ends. *)
Definition app_com_deinit_pthread_cond_var_ctr (c : pthread_cond_var) : pthread_cond_var :=
  if magic c =? CONFIG_COND_VAR_MAGIC_DEINIT then c
  else CondVar false (cv_proxy c) CONFIG_COND_VAR_MAGIC_DEINIT.

Record dev_queue_ele := DevEle { timestamp : Z; in_use : bool; ele_proxy : proxy }.

(** [_pt_cond_var] points to the condition variable of slot [idx]. *)
Record con_method_parameter := ConMethodParam { cm_idx : nat; cm_mac_addr : string }.

(** What belongs to one index of the arrays of [con_controller]. *)
Record slot := Slot {
  connected_proxy : option proxy;
  pt_cond_var : pthread_cond_var;
  con_mac_addr : string;
  fg_is_services_resolved : bool;
  chr_queue : list proxy;
  proxy_uart_chr_rx : option proxy;
  proxy_uart_chr_tx : option proxy
}.

(** [con_controller], the members of [app_management] that it shares with the
    connections, and the global variables of the file. The white list is the
    one of [app_management], to which the controller points. *)
Record ble := Ble {
  dev_queue : list dev_queue_ele;
  is_con_in_process : bool;
  slots : list slot;
  con_proxy_idx : nat;
  con_status_bit : Z;
  fg_service_idx : nat;
  svr_chr_queue : list proxy;
  svr_proxy_uart_chr_rx : option proxy;
  svr_proxy_uart_chr_tx : option proxy;
  hld_connected_proxy : list (option proxy);
  hld_con_proxy_idx : nat;
  hld_con_status_bit : Z;
  hld_server_connected_proxy : option proxy;
  bt_role : ble_role;
  white_list : list bt_addr;
  event_queue : list bluetooth_event;
  g_fail_con_count : Z;
  g_con_idx_coutnt : Z;
  g_con_method_param : con_method_parameter;
  g_recent_whitelist_rssi_count : Z;
  g_recent_whitelist_rssi_timestamp : Z;
  g_proxy_recovery_required : bool
}.

Definition set_connected_proxy (x : option proxy) (s : slot) : slot :=
  Slot x (pt_cond_var s) (con_mac_addr s) (fg_is_services_resolved s) (chr_queue s) (proxy_uart_chr_rx s) (proxy_uart_chr_tx s).
Definition set_pt_cond_var (x : pthread_cond_var) (s : slot) : slot :=
  Slot (connected_proxy s) x (con_mac_addr s) (fg_is_services_resolved s) (chr_queue s) (proxy_uart_chr_rx s) (proxy_uart_chr_tx s).
Definition set_con_mac_addr (x : string) (s : slot) : slot :=
  Slot (connected_proxy s) (pt_cond_var s) x (fg_is_services_resolved s) (chr_queue s) (proxy_uart_chr_rx s) (proxy_uart_chr_tx s).
Definition set_fg_is_services_resolved (x : bool) (s : slot) : slot :=
  Slot (connected_proxy s) (pt_cond_var s) (con_mac_addr s) x (chr_queue s) (proxy_uart_chr_rx s) (proxy_uart_chr_tx s).
Definition set_chr_queue (x : list proxy) (s : slot) : slot :=
  Slot (connected_proxy s) (pt_cond_var s) (con_mac_addr s) (fg_is_services_resolved s) x (proxy_uart_chr_rx s) (proxy_uart_chr_tx s).
Definition set_proxy_uart_chr_rx (x : option proxy) (s : slot) : slot :=
  Slot (connected_proxy s) (pt_cond_var s) (con_mac_addr s) (fg_is_services_resolved s) (chr_queue s) x (proxy_uart_chr_tx s).
Definition set_proxy_uart_chr_tx (x : option proxy) (s : slot) : slot :=
  Slot (connected_proxy s) (pt_cond_var s) (con_mac_addr s) (fg_is_services_resolved s) (chr_queue s) (proxy_uart_chr_rx s) x.

Definition set_dev_queue (x : list dev_queue_ele) (b : ble) : ble :=
  Ble x (is_con_in_process b) (slots b) (con_proxy_idx b) (con_status_bit b) (fg_service_idx b) (svr_chr_queue b) (svr_proxy_uart_chr_rx b) (svr_proxy_uart_chr_tx b) (hld_connected_proxy b) (hld_con_proxy_idx b) (hld_con_status_bit b) (hld_server_connected_proxy b) (bt_role b) (white_list b) (event_queue b) (g_fail_con_count b) (g_con_idx_coutnt b) (g_con_method_param b) (g_recent_whitelist_rssi_count b) (g_recent_whitelist_rssi_timestamp b) (g_proxy_recovery_required b).
Definition set_is_con_in_process (x : bool) (b : ble) : ble :=
  Ble (dev_queue b) x (slots b) (con_proxy_idx b) (con_status_bit b) (fg_service_idx b) (svr_chr_queue b) (svr_proxy_uart_chr_rx b) (svr_proxy_uart_chr_tx b) (hld_connected_proxy b) (hld_con_proxy_idx b) (hld_con_status_bit b) (hld_server_connected_proxy b) (bt_role b) (white_list b) (event_queue b) (g_fail_con_count b) (g_con_idx_coutnt b) (g_con_method_param b) (g_recent_whitelist_rssi_count b) (g_recent_whitelist_rssi_timestamp b) (g_proxy_recovery_required b).
Definition set_slots (x : list slot) (b : ble) : ble :=
  Ble (dev_queue b) (is_con_in_process b) x (con_proxy_idx b) (con_status_bit b) (fg_service_idx b) (svr_chr_queue b) (svr_proxy_uart_chr_rx b) (svr_proxy_uart_chr_tx b) (hld_connected_proxy b) (hld_con_proxy_idx b) (hld_con_status_bit b) (hld_server_connected_proxy b) (bt_role b) (white_list b) (event_queue b) (g_fail_con_count b) (g_con_idx_coutnt b) (g_con_method_param b) (g_recent_whitelist_rssi_count b) (g_recent_whitelist_rssi_timestamp b) (g_proxy_recovery_required b).
Definition set_con_proxy_idx (x : nat) (b : ble) : ble :=
  Ble (dev_queue b) (is_con_in_process b) (slots b) x (con_status_bit b) (fg_service_idx b) (svr_chr_queue b) (svr_proxy_uart_chr_rx b) (svr_proxy_uart_chr_tx b) (hld_connected_proxy b) (hld_con_proxy_idx b) (hld_con_status_bit b) (hld_server_connected_proxy b) (bt_role b) (white_list b) (event_queue b) (g_fail_con_count b) (g_con_idx_coutnt b) (g_con_method_param b) (g_recent_whitelist_rssi_count b) (g_recent_whitelist_rssi_timestamp b) (g_proxy_recovery_required b).
Definition set_con_status_bit (x : Z) (b : ble) : ble :=
  Ble (dev_queue b) (is_con_in_process b) (slots b) (con_proxy_idx b) x (fg_service_idx b) (svr_chr_queue b) (svr_proxy_uart_chr_rx b) (svr_proxy_uart_chr_tx b) (hld_connected_proxy b) (hld_con_proxy_idx b) (hld_con_status_bit b) (hld_server_connected_proxy b) (bt_role b) (white_list b) (event_queue b) (g_fail_con_count b) (g_con_idx_coutnt b) (g_con_method_param b) (g_recent_whitelist_rssi_count b) (g_recent_whitelist_rssi_timestamp b) (g_proxy_recovery_required b).
Definition set_fg_service_idx (x : nat) (b : ble) : ble :=
  Ble (dev_queue b) (is_con_in_process b) (slots b) (con_proxy_idx b) (con_status_bit b) x (svr_chr_queue b) (svr_proxy_uart_chr_rx b) (svr_proxy_uart_chr_tx b) (hld_connected_proxy b) (hld_con_proxy_idx b) (hld_con_status_bit b) (hld_server_connected_proxy b) (bt_role b) (white_list b) (event_queue b) (g_fail_con_count b) (g_con_idx_coutnt b) (g_con_method_param b) (g_recent_whitelist_rssi_count b) (g_recent_whitelist_rssi_timestamp b) (g_proxy_recovery_required b).
Definition set_svr_chr_queue (x : list proxy) (b : ble) : ble :=
  Ble (dev_queue b) (is_con_in_process b) (slots b) (con_proxy_idx b) (con_status_bit b) (fg_service_idx b) x (svr_proxy_uart_chr_rx b) (svr_proxy_uart_chr_tx b) (hld_connected_proxy b) (hld_con_proxy_idx b) (hld_con_status_bit b) (hld_server_connected_proxy b) (bt_role b) (white_list b) (event_queue b) (g_fail_con_count b) (g_con_idx_coutnt b) (g_con_method_param b) (g_recent_whitelist_rssi_count b) (g_recent_whitelist_rssi_timestamp b) (g_proxy_recovery_required b).
Definition set_svr_proxy_uart_chr_rx (x : option proxy) (b : ble) : ble :=
  Ble (dev_queue b) (is_con_in_process b) (slots b) (con_proxy_idx b) (con_status_bit b) (fg_service_idx b) (svr_chr_queue b) x (svr_proxy_uart_chr_tx b) (hld_connected_proxy b) (hld_con_proxy_idx b) (hld_con_status_bit b) (hld_server_connected_proxy b) (bt_role b) (white_list b) (event_queue b) (g_fail_con_count b) (g_con_idx_coutnt b) (g_con_method_param b) (g_recent_whitelist_rssi_count b) (g_recent_whitelist_rssi_timestamp b) (g_proxy_recovery_required b).
Definition set_svr_proxy_uart_chr_tx (x : option proxy) (b : ble) : ble :=
  Ble (dev_queue b) (is_con_in_process b) (slots b) (con_proxy_idx b) (con_status_bit b) (fg_service_idx b) (svr_chr_queue b) (svr_proxy_uart_chr_rx b) x (hld_connected_proxy b) (hld_con_proxy_idx b) (hld_con_status_bit b) (hld_server_connected_proxy b) (bt_role b) (white_list b) (event_queue b) (g_fail_con_count b) (g_con_idx_coutnt b) (g_con_method_param b) (g_recent_whitelist_rssi_count b) (g_recent_whitelist_rssi_timestamp b) (g_proxy_recovery_required b).
Definition set_hld_connected_proxy (x : list (option proxy)) (b : ble) : ble :=
  Ble (dev_queue b) (is_con_in_process b) (slots b) (con_proxy_idx b) (con_status_bit b) (fg_service_idx b) (svr_chr_queue b) (svr_proxy_uart_chr_rx b) (svr_proxy_uart_chr_tx b) x (hld_con_proxy_idx b) (hld_con_status_bit b) (hld_server_connected_proxy b) (bt_role b) (white_list b) (event_queue b) (g_fail_con_count b) (g_con_idx_coutnt b) (g_con_method_param b) (g_recent_whitelist_rssi_count b) (g_recent_whitelist_rssi_timestamp b) (g_proxy_recovery_required b).
Definition set_hld_con_proxy_idx (x : nat) (b : ble) : ble :=
  Ble (dev_queue b) (is_con_in_process b) (slots b) (con_proxy_idx b) (con_status_bit b) (fg_service_idx b) (svr_chr_queue b) (svr_proxy_uart_chr_rx b) (svr_proxy_uart_chr_tx b) (hld_connected_proxy b) x (hld_con_status_bit b) (hld_server_connected_proxy b) (bt_role b) (white_list b) (event_queue b) (g_fail_con_count b) (g_con_idx_coutnt b) (g_con_method_param b) (g_recent_whitelist_rssi_count b) (g_recent_whitelist_rssi_timestamp b) (g_proxy_recovery_required b).
Definition set_hld_con_status_bit (x : Z) (b : ble) : ble :=
  Ble (dev_queue b) (is_con_in_process b) (slots b) (con_proxy_idx b) (con_status_bit b) (fg_service_idx b) (svr_chr_queue b) (svr_proxy_uart_chr_rx b) (svr_proxy_uart_chr_tx b) (hld_connected_proxy b) (hld_con_proxy_idx b) x (hld_server_connected_proxy b) (bt_role b) (white_list b) (event_queue b) (g_fail_con_count b) (g_con_idx_coutnt b) (g_con_method_param b) (g_recent_whitelist_rssi_count b) (g_recent_whitelist_rssi_timestamp b) (g_proxy_recovery_required b).
Definition set_hld_server_connected_proxy (x : option proxy) (b : ble) : ble :=
  Ble (dev_queue b) (is_con_in_process b) (slots b) (con_proxy_idx b) (con_status_bit b) (fg_service_idx b) (svr_chr_queue b) (svr_proxy_uart_chr_rx b) (svr_proxy_uart_chr_tx b) (hld_connected_proxy b) (hld_con_proxy_idx b) (hld_con_status_bit b) x (bt_role b) (white_list b) (event_queue b) (g_fail_con_count b) (g_con_idx_coutnt b) (g_con_method_param b) (g_recent_whitelist_rssi_count b) (g_recent_whitelist_rssi_timestamp b) (g_proxy_recovery_required b).
Definition set_bt_role (x : ble_role) (b : ble) : ble :=
  Ble (dev_queue b) (is_con_in_process b) (slots b) (con_proxy_idx b) (con_status_bit b) (fg_service_idx b) (svr_chr_queue b) (svr_proxy_uart_chr_rx b) (svr_proxy_uart_chr_tx b) (hld_connected_proxy b) (hld_con_proxy_idx b) (hld_con_status_bit b) (hld_server_connected_proxy b) x (white_list b) (event_queue b) (g_fail_con_count b) (g_con_idx_coutnt b) (g_con_method_param b) (g_recent_whitelist_rssi_count b) (g_recent_whitelist_rssi_timestamp b) (g_proxy_recovery_required b).
Definition set_white_list (x : list bt_addr) (b : ble) : ble :=
  Ble (dev_queue b) (is_con_in_process b) (slots b) (con_proxy_idx b) (con_status_bit b) (fg_service_idx b) (svr_chr_queue b) (svr_proxy_uart_chr_rx b) (svr_proxy_uart_chr_tx b) (hld_connected_proxy b) (hld_con_proxy_idx b) (hld_con_status_bit b) (hld_server_connected_proxy b) (bt_role b) x (event_queue b) (g_fail_con_count b) (g_con_idx_coutnt b) (g_con_method_param b) (g_recent_whitelist_rssi_count b) (g_recent_whitelist_rssi_timestamp b) (g_proxy_recovery_required b).
Definition set_event_queue (x : list bluetooth_event) (b : ble) : ble :=
  Ble (dev_queue b) (is_con_in_process b) (slots b) (con_proxy_idx b) (con_status_bit b) (fg_service_idx b) (svr_chr_queue b) (svr_proxy_uart_chr_rx b) (svr_proxy_uart_chr_tx b) (hld_connected_proxy b) (hld_con_proxy_idx b) (hld_con_status_bit b) (hld_server_connected_proxy b) (bt_role b) (white_list b) x (g_fail_con_count b) (g_con_idx_coutnt b) (g_con_method_param b) (g_recent_whitelist_rssi_count b) (g_recent_whitelist_rssi_timestamp b) (g_proxy_recovery_required b).
Definition set_g_fail_con_count (x : Z) (b : ble) : ble :=
  Ble (dev_queue b) (is_con_in_process b) (slots b) (con_proxy_idx b) (con_status_bit b) (fg_service_idx b) (svr_chr_queue b) (svr_proxy_uart_chr_rx b) (svr_proxy_uart_chr_tx b) (hld_connected_proxy b) (hld_con_proxy_idx b) (hld_con_status_bit b) (hld_server_connected_proxy b) (bt_role b) (white_list b) (event_queue b) x (g_con_idx_coutnt b) (g_con_method_param b) (g_recent_whitelist_rssi_count b) (g_recent_whitelist_rssi_timestamp b) (g_proxy_recovery_required b).
Definition set_g_con_idx_coutnt (x : Z) (b : ble) : ble :=
  Ble (dev_queue b) (is_con_in_process b) (slots b) (con_proxy_idx b) (con_status_bit b) (fg_service_idx b) (svr_chr_queue b) (svr_proxy_uart_chr_rx b) (svr_proxy_uart_chr_tx b) (hld_connected_proxy b) (hld_con_proxy_idx b) (hld_con_status_bit b) (hld_server_connected_proxy b) (bt_role b) (white_list b) (event_queue b) (g_fail_con_count b) x (g_con_method_param b) (g_recent_whitelist_rssi_count b) (g_recent_whitelist_rssi_timestamp b) (g_proxy_recovery_required b).
Definition set_g_con_method_param (x : con_method_parameter) (b : ble) : ble :=
  Ble (dev_queue b) (is_con_in_process b) (slots b) (con_proxy_idx b) (con_status_bit b) (fg_service_idx b) (svr_chr_queue b) (svr_proxy_uart_chr_rx b) (svr_proxy_uart_chr_tx b) (hld_connected_proxy b) (hld_con_proxy_idx b) (hld_con_status_bit b) (hld_server_connected_proxy b) (bt_role b) (white_list b) (event_queue b) (g_fail_con_count b) (g_con_idx_coutnt b) x (g_recent_whitelist_rssi_count b) (g_recent_whitelist_rssi_timestamp b) (g_proxy_recovery_required b).
Definition set_g_recent_whitelist_rssi_count (x : Z) (b : ble) : ble :=
  Ble (dev_queue b) (is_con_in_process b) (slots b) (con_proxy_idx b) (con_status_bit b) (fg_service_idx b) (svr_chr_queue b) (svr_proxy_uart_chr_rx b) (svr_proxy_uart_chr_tx b) (hld_connected_proxy b) (hld_con_proxy_idx b) (hld_con_status_bit b) (hld_server_connected_proxy b) (bt_role b) (white_list b) (event_queue b) (g_fail_con_count b) (g_con_idx_coutnt b) (g_con_method_param b) x (g_recent_whitelist_rssi_timestamp b) (g_proxy_recovery_required b).
Definition set_g_recent_whitelist_rssi_timestamp (x : Z) (b : ble) : ble :=
  Ble (dev_queue b) (is_con_in_process b) (slots b) (con_proxy_idx b) (con_status_bit b) (fg_service_idx b) (svr_chr_queue b) (svr_proxy_uart_chr_rx b) (svr_proxy_uart_chr_tx b) (hld_connected_proxy b) (hld_con_proxy_idx b) (hld_con_status_bit b) (hld_server_connected_proxy b) (bt_role b) (white_list b) (event_queue b) (g_fail_con_count b) (g_con_idx_coutnt b) (g_con_method_param b) (g_recent_whitelist_rssi_count b) x (g_proxy_recovery_required b).
Definition set_g_proxy_recovery_required (x : bool) (b : ble) : ble :=
  Ble (dev_queue b) (is_con_in_process b) (slots b) (con_proxy_idx b) (con_status_bit b) (fg_service_idx b) (svr_chr_queue b) (svr_proxy_uart_chr_rx b) (svr_proxy_uart_chr_tx b) (hld_connected_proxy b) (hld_con_proxy_idx b) (hld_con_status_bit b) (hld_server_connected_proxy b) (bt_role b) (white_list b) (event_queue b) (g_fail_con_count b) (g_con_idx_coutnt b) (g_con_method_param b) (g_recent_whitelist_rssi_count b) (g_recent_whitelist_rssi_timestamp b) x.

(** Writes to the element [i] of the arrays. *)
Definition upd_slot (i : nat) (f : slot -> slot) (b : ble) : ble := set_slots (alter f i (slots b)) b.
Definition upd_cond (f : pthread_cond_var -> pthread_cond_var) (s : slot) : slot :=
  set_pt_cond_var (f (pt_cond_var s)) s.

Definition zero_slot : slot := Slot None (CondVar false None 0) EmptyString false [] None None.

(** The bits of the connections: [b % (CON_BIT_MASK)]. *)
Definition CON_BIT_MASK : nat := CONFIG_BLE_CONNECTION_MAX_NUM - 1.
Definition con_bit (i : nat) : Z := Z.shiftl 1 (Z.of_nat (i mod CON_BIT_MASK)).
Definition CON_BIT_SET (a : Z) (i : nat) : Z := u16 (Z.lor a (con_bit i)).
Definition CON_BIT_CLEAR (a : Z) (i : nat) : Z := u16 (Z.land a (Z.lnot (con_bit i))).

(** ** The white list *)

Definition sys_set_bt_white_list (array : list bt_addr) (size : nat) (b : ble) : ble :=
  if (size =? 0)%nat then set_white_list (replicate MAX_BT_WHITE_LIST zero_addr) b
  else
    let n := if (MAX_BT_WHITE_LIST <? size)%nat then MAX_BT_WHITE_LIST else size in
    set_white_list (take n array ++ replicate (MAX_BT_WHITE_LIST - n) zero_addr)%list b.

(** The first [size] elements of the caller's array are overwritten. *)
Definition sys_get_bt_white_list (array : list bt_addr) (size : nat) (b : ble) : list bt_addr :=
  let n := if (size <? MAX_BT_WHITE_LIST)%nat then size else MAX_BT_WHITE_LIST in
  if (size =? 0)%nat then array else (take n (white_list b) ++ drop n array)%list.

(** The [idx]-th element goes to the end and the others move up. *)
Definition bt_connection_refresh_white_list (l : list bt_addr) (list_sz currentIdx : nat) : list bt_addr :=
  if (list_sz - 1 =? currentIdx)%nat then l
  else
    let tmp := nth currentIdx l zero_addr in
    (take currentIdx l ++ take (list_sz - 1 - currentIdx) (drop (S currentIdx) l) ++ [tmp]
     ++ drop list_sz l)%list.

(** ** Addresses as text *)

Definition hex_digit (n : Z) : ascii :=
  match String.get (Z.to_nat n) "0123456789ABCDEF" with Some c => c | None => "?"%char end.

(** [%02X] *)
Definition hex2 (x : Z) : string := String (hex_digit (x / 16)) (String (hex_digit (x mod 16)) EmptyString).

(** The bytes of a 16-bit and of a 32-bit integer in memory. *)
Definition bytes16 (big : bool) (x : Z) : list Z :=
  if big then [hi8 x; lo8 x] else [lo8 x; hi8 x].
Definition bytes32 (big : bool) (x : Z) : list Z :=
  let l := [lo8 x; lo8 (Z.shiftr x 8); lo8 (Z.shiftr x 16); lo8 (Z.shiftr x 24)] in
  if big then rev l else l.

Definition sys_is_platform_big_endian (big : bool) : bool :=
  if nth 0 (bytes16 big 1) 0 =? 0 then true else false.

Definition mac_text (a b c d e f : Z) : string :=
  (hex2 a ++ ":" ++ hex2 b ++ ":" ++ hex2 c ++ ":" ++ hex2 d ++ ":" ++ hex2 e ++ ":" ++ hex2 f)%string.

(** The text of an address of the white list, on a platform of either byte order. *)
Definition addr_text (big : bool) (a : bt_addr) : string :=
  let pt_nap := bytes16 big (nap a) in
  let pt_lap := bytes32 big (lap a) in
  if sys_is_platform_big_endian big
  then mac_text (nth 0 pt_nap 0) (nth 1 pt_nap 0) (uap a) (nth 0 pt_lap 0) (nth 1 pt_lap 0) (nth 2 pt_lap 0)
  else mac_text (nth 1 pt_nap 0) (nth 0 pt_nap 0) (uap a) (nth 2 pt_lap 0) (nth 1 pt_lap 0) (nth 0 pt_lap 0).

(** [NUL] for the terminator; [None] is a read after it. *)
Definition char_at (s : string) (i : nat) : option ascii :=
  if (i =? String.length s)%nat then Some zero else String.get i s.

(** The characters up to the first terminator. *)
Fixpoint c_string (l : list ascii) : string :=
  match l with
  | [] => EmptyString
  | c :: l' => if Ascii.eqb c zero then EmptyString else String c (c_string l')
  end.

(** The text that [mac_addr], filled with zeros before, holds afterwards. *)
Definition get_mac_addr_from_path (path : string) : option string :=
  match String.index 0 "dev_C4_BD_6A_" path with
  | None => Some EmptyString
  | Some pt_str =>
      c13 ← char_at path (pt_str + 13); c14 ← char_at path (pt_str + 14);
      c16 ← char_at path (pt_str + 16); c17 ← char_at path (pt_str + 17);
      c19 ← char_at path (pt_str + 19); c20 ← char_at path (pt_str + 20);
      Some ("C4:BD:6A:" ++ c_string [c13; c14; ":"%char; c16; c17; ":"%char; c19; c20])%string
  end.
