(* ===== verification/BtDevices.v ===== *)
(** * BtDevices: the devices that were heard, and the recovery detector

    [skf_gw/source/src/ble/bt_connection_new.c]: a change of the property RSSI
    of a device puts it on the queue or refreshes its time; a pass over the
    white list first removes the devices that have not been heard for more than
    five seconds. Beside them a detector counts how often a device of the white
    list was heard and asks for a restart when a pass finds none of them. *)

From S2P Require Import Prelude BtState.
From Stdlib Require Import ZArith Lia ZifyBool List Bool Ascii String.
From stdpp Require Import base list numbers option strings.
Open Scope Z_scope.

Definition BT_CONNECTION_NEW_SCANNED_ELE_TTL_S : Z := 5.
Definition BT_CONNECTION_NEW_PROXY_RECOVERY_RSSI_MIN : Z := 3.
Definition BT_CONNECTION_NEW_PROXY_RECOVERY_WINDOW_S : Z := 30.

(** What BlueZ answers about a proxy; [None] where the call fails. *)
Record dbus := Dbus {
  get_interface : proxy -> option string; get_path : proxy -> string;
  get_address : proxy -> option string; get_uuid : proxy -> option string
}.

(** The prefix of SKF's addresses. *)
Definition skf_prefix : string := "C4:BD:6A:".

Section devices.
Context (big : bool) (D : dbus).

(** ** The recovery detector *)

Definition bt_con_n_addr_is_in_white_list (addr : string) (b : ble) : bool :=
  existsb (fun a => String.eqb (addr_text big a) addr) (take MAX_BT_WHITE_LIST (white_list b)).

Definition bt_con_n_note_whitelist_proxy_activity (now : Z) (b : ble) : ble :=
  let b := if g_recent_whitelist_rssi_count b <? 255
           then set_g_recent_whitelist_rssi_count (g_recent_whitelist_rssi_count b + 1) b else b in
  set_g_recent_whitelist_rssi_timestamp now b.

Definition bt_con_n_reset_proxy_recovery_state (b : ble) : ble :=
  set_g_proxy_recovery_required false
    (set_g_recent_whitelist_rssi_timestamp 0 (set_g_recent_whitelist_rssi_count 0 b)).

Definition bt_con_n_note_proxy_lookup_failure (now : Z) (b : ble) : ble :=
  let t := g_recent_whitelist_rssi_timestamp b in
  let b := if (BT_CONNECTION_NEW_PROXY_RECOVERY_RSSI_MIN <=? g_recent_whitelist_rssi_count b)
              && (0 <? t) && (t <=? now) && (now - t <=? BT_CONNECTION_NEW_PROXY_RECOVERY_WINDOW_S)
           then set_g_proxy_recovery_required true b else b in
  set_g_recent_whitelist_rssi_timestamp 0 (set_g_recent_whitelist_rssi_count 0 b).

Definition bt_con_n_take_proxy_recovery_required (b : ble) : bool * ble :=
  (g_proxy_recovery_required b, set_g_proxy_recovery_required false b).

(** ** The queue of devices *)

Definition q_match_dev_proxy_addrstr (addr : string) (e : dev_queue_ele) : bool :=
  match get_address D (ele_proxy e) with
  | None => false
  | Some a => String.eqb a addr
  end.

Definition q_match_dev_proxy_compare (p : proxy) (e : dev_queue_ele) : bool := (ele_proxy e =? p)%nat.

Definition q_match_dev_proxy_timeout (currentTime : Z) (e : dev_queue_ele) : bool :=
  if currentTime <? timestamp e then true
  else if BT_CONNECTION_NEW_SCANNED_ELE_TTL_S <? currentTime - timestamp e then negb (in_use e)
  else false.

(** The returned status is always [ST_ERR]. *)
Definition bt_con_n_dev_queue_periodic_refresh (now : Z) (b : ble) : bool * ble :=
  (false, set_dev_queue (snd (l_queue_foreach_remove (q_match_dev_proxy_timeout now) (dev_queue b))) b).

Definition bt_con_n_set_inuse (p : proxy) (inuse : bool) (b : ble) : ble :=
  set_dev_queue (l_queue_update (q_match_dev_proxy_compare p)
                   (fun e => DevEle (timestamp e) inuse (ele_proxy e)) (dev_queue b)) b.

Definition push_event (e : bluetooth_event) (b : ble) : ble :=
  set_event_queue (l_queue_push_tail (event_queue b) e) b.

(** [bt_con_n_append_dev_proxy], under the lock of the queue. *)
Definition put_device (addr : string) (now : Z) (p : proxy) (q : list dev_queue_ele) : list dev_queue_ele :=
  let e := DevEle now false p in
  match l_queue_find (q_match_dev_proxy_addrstr addr) q with
  | Some _ => l_queue_update (q_match_dev_proxy_addrstr addr) (fun _ => e) q
  | None => l_queue_push_tail q e
  end.

Definition bt_con_n_append_dev_proxy (now : Z) (p : proxy) (name : string) (b : ble) : bool * ble :=
  if negb (String.eqb name "RSSI") then (true, b)
  else
    let b := push_event BT_EVENT_RSSI_CHANGED b in
    match get_interface D p with
    | None => (false, b)
    | Some i =>
        if negb (String.eqb i "org.bluez.Device1") then (false, b)
        else
          match get_address D p with
          | None => (false, b)
          | Some addr =>
              if negb (String.prefix skf_prefix addr) then (false, b)
              else
                let b := set_dev_queue (put_device addr now p (dev_queue b)) b in
                (true, if bt_con_n_addr_is_in_white_list addr b
                       then bt_con_n_note_whitelist_proxy_activity now b else b)
          end
    end.

(** A proxy that disappears; the element is freed whatever its address. *)
Definition bt_con_n_remove_dev_proxy (p : proxy) (b : ble) : bool * ble :=
  match get_interface D p with
  | None => (false, b)
  | Some i =>
      if negb (String.eqb i "org.bluez.Device1") then (false, b)
      else
        let '(e, q) := l_queue_remove_if (q_match_dev_proxy_compare p) (dev_queue b) in
        let b := set_dev_queue q b in
        match e with
        | None => (true, b)
        | Some e => (match get_address D (ele_proxy e) with None => false | Some _ => true end, b)
        end
  end.

End devices.
