(* ===== verification/BtConn.v ===== *)
(** * BtConn: four connections at a time

    [skf_gw/source/src/ble/bt_connection_new.c]: a pass over the white list
    picks a free slot and a device and calls the method Connect of BlueZ; the
    changes of the property Connected and the replies of BlueZ, which the
    thread of the bus delivers, settle the slot; another thread disconnects on
    command. What a function asks of BlueZ is a list of actions. *)

From S2P Require Import Prelude BtState BtDevices.
From Stdlib Require Import ZArith Lia ZifyBool List Bool Ascii String.
From stdpp Require Import base list numbers option strings.
Open Scope Z_scope.

Inductive action :=
| Connect (p : proxy)
| Disconnect (p : proxy)
| RmDevices (p : option proxy).

Definition outcome : Type := ble * list action.

Section connection.
Context (big : bool) (D : dbus).

(** ** Slots *)

Definition holds (p : proxy) (s : slot) : Prop := connected_proxy s = Some p.
Definition awaits (p : proxy) (s : slot) : Prop := cv_proxy (pt_cond_var s) = Some p.

#[global] Instance holds_dec p s : Decision (holds p s).
Proof. unfold holds. apply _. Defined.
#[global] Instance awaits_dec p s : Decision (awaits p s).
Proof. unfold awaits. apply _. Defined.

(** The first index of the array for which a test holds. *)
Definition first_slot (P : slot -> Prop) `{forall s, Decision (P s)} (b : ble) : option nat :=
  fst <$> list_find P (slots b).

Definition slot_at (i : nat) (b : ble) : slot := nth i (slots b) zero_slot.

(** What every path that gives a slot up does. *)
Definition clear_slot (i : nat) (b : ble) : ble :=
  set_con_status_bit (CON_BIT_CLEAR (con_status_bit b) i)
    (upd_slot i (fun s => set_con_mac_addr EmptyString (set_connected_proxy None s)) b).

Definition init_slot (s : slot) : slot :=
  Slot None (snd (app_com_init_pthread_cond_var_ctr true (pt_cond_var s))) EmptyString
    (fg_is_services_resolved s) [] None None.

(** The queues and the mutexes are created: their failure ends the initialisation. *)
Definition bt_con_n_init_con_controller (b : ble) : ble :=
  set_svr_proxy_uart_chr_tx None (set_svr_proxy_uart_chr_rx None (set_svr_chr_queue []
    (set_is_con_in_process false (set_con_status_bit 0 (set_con_proxy_idx 0%nat
      (set_slots (map init_slot (slots b)) (set_dev_queue [] b))))))).

Definition deinit_slot (s : slot) : slot :=
  let s1 := if bool_decide (connected_proxy s <> None) || negb (String.eqb (con_mac_addr s) EmptyString)
            then Slot None (app_com_deinit_pthread_cond_var_ctr (pt_cond_var s)) EmptyString
                   (fg_is_services_resolved s) (chr_queue s) (proxy_uart_chr_rx s) (proxy_uart_chr_tx s)
            else s in
  Slot (connected_proxy s1) (pt_cond_var s1) (con_mac_addr s1) false [] None None.

(** Every mutex is free within twenty seconds. The white list is detached, which
    the initialisation undoes. *)
Definition bt_con_n_deinit_con_controller (b : ble) : ble :=
  set_fg_service_idx 0%nat (set_svr_proxy_uart_chr_tx None (set_svr_proxy_uart_chr_rx None
    (set_svr_chr_queue [] (set_is_con_in_process false (set_con_status_bit 0
      (set_con_proxy_idx 0%nat (set_slots (map deinit_slot (slots b)) (set_dev_queue [] b)))))))).

(** The number is written only when the lock is free; the status that the
    caller sees is then whatever the register of the result holds, for the
    function ends without a [return]: [garbage]. *)
Definition bt_con_n_connect_num_fetch (lock_free garbage : bool) (b : ble) : bool * option Z :=
  if lock_free
  then (garbage, Some (Z.of_nat (length (List.filter (fun s => bool_decide (connected_proxy s <> None)) (slots b)))))
  else (false, None).

(** ** A pass over the white list *)

(** What a pass meets: the time, whether the lock of the slots is free at the
    count, the register after the count, the initialisation of the condition
    variable, and the call of the method. *)
Record pass_env := PassEnv {
  now : Z; num_lock_free : bool; num_garbage : bool; pthread_ok : bool; call_ok : bool
}.

(** The search for a free slot goes on from where the last one ended. *)
Fixpoint free_slot_loop (n : nat) (b : ble) : option nat * ble :=
  match n with
  | O => (None, b)
  | S n =>
      let cnt := g_con_idx_coutnt b in
      let i := Z.to_nat (cnt mod Z.of_nat CONFIG_BLE_CONNECTION_MAX_NUM) in
      let cnt1 := u32 (cnt + 1) in
      if bool_decide (connected_proxy (slot_at i b) = None)
      then (Some i, set_g_con_idx_coutnt (if 4294967290 <? cnt1 then 0 else cnt1) b)
      else free_slot_loop n (set_g_con_idx_coutnt cnt1 b)
  end.

(** A device that a slot has already, by its address or by its proxy. *)
Definition is_duplicate (mac : string) (p : proxy) (b : ble) : bool :=
  existsb (fun s => (bool_decide (connected_proxy s <> None) && String.eqb mac (con_mac_addr s))
                    || bool_decide (holds p s)) (slots b).

(** The first address of the list, from the [i]-th on, with a device on the
    queue that no slot has. *)
Fixpoint pick_from (l : list bt_addr) (i : nat) (b : ble) : option (nat * proxy) :=
  match l with
  | [] => None
  | a :: l =>
      match l_queue_find (q_match_dev_proxy_addrstr D (addr_text big a)) (dev_queue b) with
      | None => pick_from l (S i) b
      | Some e => if is_duplicate (addr_text big a) (ele_proxy e) b then pick_from l (S i) b
                  else Some (i, ele_proxy e)
      end
  end.

Definition pick_device (b : ble) : option (nat * proxy) :=
  pick_from (take MAX_BT_WHITE_LIST (white_list b)) 0 b.

(** The chosen address goes to the end of the list. *)
Definition take_turn (i : nat) (b : ble) : ble :=
  let array := sys_get_bt_white_list (replicate MAX_BT_WHITE_LIST zero_addr) MAX_BT_WHITE_LIST b in
  sys_set_bt_white_list (bt_connection_refresh_white_list array MAX_BT_WHITE_LIST i) MAX_BT_WHITE_LIST b.

Inductive pass_result :=
| PassError                       (* [ST_ERR] *)
| PassWaits (i : nat) (p : proxy) (* waiting for the reply, at most sixty seconds *).

(** No device: the detector, unless something is connected. *)
Definition lookup_failed (E : pass_env) (b : ble) : ble :=
  let '(ok, num) := bt_con_n_connect_num_fetch (num_lock_free E) (num_garbage E) b in
  let con_num := default 0 num in
  let b := if ok && (con_num =? 0) then bt_con_n_note_proxy_lookup_failure (now E) b
           else bt_con_n_reset_proxy_recovery_state b in
  set_is_con_in_process false b.

(** [EXIT] *)
Definition pass_exit (i : nat) (b : ble) : ble :=
  upd_slot i (upd_cond app_com_deinit_pthread_cond_var_ctr) (set_is_con_in_process false b).

(** From the initialisation of the condition variable to the call of the method. *)
Definition call_connect (E : pass_env) (i : nat) (p : proxy) (b : ble) : pass_result * outcome :=
  let '(ok, c) := app_com_init_pthread_cond_var_ctr (pthread_ok E) (pt_cond_var (slot_at i b)) in
  let b := upd_slot i (set_pt_cond_var c) b in
  if negb ok then (PassError, (set_is_con_in_process false b, []))
  else
    let b := set_g_con_method_param (ConMethodParam i EmptyString) b in
    match get_address D p with
    | None => (PassError, (pass_exit i b, []))
    | Some addr =>
        if negb (String.prefix skf_prefix addr) then (PassError, (pass_exit i b, []))
        else
          let b := set_g_con_method_param (ConMethodParam i addr) b in
          let b := upd_slot i (upd_cond (fun c => set_cv_proxy (Some p) (set_op_done false c))) b in
          if negb (call_ok E) then (PassError, (pass_exit i b, []))
          else (PassWaits i p, (b, [Connect p]))
    end.

(** [bt_con_n_connect_to_dev], up to the wait for the reply. *)
Definition bt_con_n_connect_to_dev (E : pass_env) (b : ble) : pass_result * outcome :=
  let '(free, b) := free_slot_loop CONFIG_BLE_CONNECTION_MAX_NUM b in
  match free with
  | Some tmp_idx =>
      if is_con_in_process b then (PassError, (b, []))
      else
        let b := set_is_con_in_process true b in
        let b := snd (bt_con_n_dev_queue_periodic_refresh (now E) b) in
        match pick_device b with
        | None => (PassError, (lookup_failed E b, []))
        | Some (i, p) =>
            call_connect E tmp_idx p (bt_con_n_reset_proxy_recovery_state (take_turn i b))
        end
  | None => (PassError, (b, []))
  end.

(** The wait ends without a reply. *)
Definition connect_timeout (i : nat) (b : ble) : ble :=
  pass_exit i (set_g_fail_con_count (u8 (g_fail_con_count b + 1)) b).

(** The wait ends because [is_op_done] was set; the pass returns [ST_OK]. *)
Definition connect_done (i : nat) (p : proxy) (b : ble) : ble :=
  let b := set_is_con_in_process false (upd_slot i (upd_cond (set_op_done false)) b) in
  if bool_decide (awaits p (slot_at i b)) then set_g_fail_con_count 0 b
  else upd_slot i (upd_cond app_com_deinit_pthread_cond_var_ctr) b.

(** ** Replies and changes *)

(** The other slots with the address of the new connection. *)
Definition clear_stale_mac (idx : nat) (mac : string) (b : ble) : ble :=
  set_slots (imap (fun i s =>
      if (i =? idx)%nat then s
      else if String.eqb (con_mac_addr s) mac && bool_decide (connected_proxy s = None)
              && bool_decide (cv_proxy (pt_cond_var s) = None)
      then set_con_mac_addr EmptyString s else s) (slots b)) b.

Definition reply_error (idx : nat) (p : proxy) (b : ble) : outcome :=
  let b := if bool_decide (holds p (slot_at idx b))
           then clear_slot idx (upd_slot idx (upd_cond (set_cv_proxy None)) b) else b in
  (bt_con_n_set_inuse p false (set_is_con_in_process false b), [RmDevices (Some p)]).

Definition reply_success (idx : nat) (mac : string) (p : proxy) (b : ble) : outcome :=
  let s := slot_at idx b in
  let '(match_fg, b) :=
    if bool_decide (connected_proxy s = None) then
      (true, set_con_status_bit (CON_BIT_SET (con_status_bit b) idx)
               (upd_slot idx (fun s => set_con_mac_addr mac (upd_cond (set_cv_proxy (Some p))
                                         (set_connected_proxy (Some p) s))) b))
    else if bool_decide (holds p s) then (true, upd_slot idx (set_con_mac_addr mac) b)
    else (false, b) in
  let b := if match_fg then clear_stale_mac idx mac b else b in
  (bt_con_n_set_inuse p match_fg (set_is_con_in_process false b), []).

(** [try_lock] is the result of [pthread_mutex_trylock]. The parameter is the
    global one, whatever call is answered. *)
Definition msg_reply_for_bt_connect (try_lock is_error : bool) (p : proxy) (b : ble) : outcome :=
  let idx := cm_idx (g_con_method_param b) in
  let mac := cm_mac_addr (g_con_method_param b) in
  if (CONFIG_BLE_CONNECTION_MAX_NUM <=? idx)%nat then (b, [])
  else
    let c := pt_cond_var (slot_at idx b) in
    if negb (magic c =? CONFIG_COND_VAR_MAGIC_INIT) then
      (b, match cv_proxy c with None => [] | Some q => [Disconnect q] end)
    else if negb try_lock then (b, [])
    else if bool_decide (cv_proxy c <> None) && bool_decide (cv_proxy c <> Some p) then (b, [])
    else
      let b := upd_slot idx (upd_cond (set_op_done true)) b in
      if is_error then reply_error idx p b else reply_success idx mac p b.

(** [user_data] points to the condition variable of slot [idx]. *)
Definition msg_reply_for_bt_disconnect (idx : nat) (try_lock is_error : bool) (p : proxy) (b : ble) : ble :=
  let c := pt_cond_var (slot_at idx b) in
  if negb (magic c =? CONFIG_COND_VAR_MAGIC_INIT) then b
  else if negb try_lock then b
  else if bool_decide (cv_proxy c <> None) && bool_decide (cv_proxy c <> Some p) then b
  else
    let b := upd_slot idx (upd_cond (set_op_done true)) b in
    if is_error then b
    else
      match (match first_slot (holds p) b with Some i => Some i | None => first_slot (awaits p) b end) with
      | None => b
      | Some i => bt_con_n_set_inuse p false (clear_slot i (upd_slot i (upd_cond (set_cv_proxy None)) b))
      end.

(** The property Connected becomes true, in the role of a client. *)
Definition on_connected (p : proxy) (b : ble) : bool * ble :=
  match first_slot (awaits p) b with
  | None => (false, b)
  | Some i =>
      let b := set_con_status_bit (CON_BIT_SET (con_status_bit b) i)
                 (set_con_proxy_idx i (upd_slot i (set_connected_proxy (Some p)) b)) in
      let b := set_hld_con_status_bit (CON_BIT_SET (hld_con_status_bit b) i)
                 (set_hld_connected_proxy (<[i := Some p]> (hld_connected_proxy b))
                   (set_hld_con_proxy_idx i b)) in
      (true, push_event BT_EVENT_CONNECTION (bt_con_n_set_inuse p true b))
  end.

(** It becomes false. *)
Definition on_disconnected (p : proxy) (b : ble) : bool * outcome :=
  let '(m1, b, acts) :=
    match first_slot (holds p) b with
    | None => (false, b, [])
    | Some i => (true, upd_slot i (set_fg_is_services_resolved false)
                         (clear_slot i (set_con_proxy_idx i b)), [RmDevices (Some p)])
    end in
  let '(m2, b) :=
    match list_find (fun h => h = Some p) (hld_connected_proxy b) with
    | None => (false, b)
    | Some (i, _) =>
        (true, upd_slot i (upd_cond (set_cv_proxy None))
                 (set_hld_con_status_bit (CON_BIT_CLEAR (hld_con_status_bit b) i)
                   (set_hld_connected_proxy (<[i := None]> (hld_connected_proxy b)) b)))
    end in
  if m1 && m2 then (true, (push_event BT_EVENT_DISCONNECTION (bt_con_n_set_inuse p false b), acts))
  else (false, (b, acts)).

(** [value] is the new value of the property, [None] when it cannot be read. As a
    server the proxy is also handed to [sys_add_proxy], see [BtLoop.server_connected]. *)
Definition bt_con_n_proxy_property_changed (p : proxy) (name : string) (value : option bool) (b : ble) :
  bool * outcome :=
  if negb (String.eqb name "Connected") then (true, (b, []))
  else
    match value, bt_role b with
    | None, _ => (false, (b, []))
    | Some true, BT_ROLE_CLIENT => let '(r, b) := on_connected p b in (r, (b, []))
    | Some true, BT_ROLE_SERVER => (true, (push_event BT_EVENT_CONNECTION b, []))
    | Some false, BT_ROLE_CLIENT => on_disconnected p b
    | Some false, BT_ROLE_SERVER =>
        (true, (push_event BT_EVENT_DISCONNECTION (set_hld_server_connected_proxy None b), []))
    end.

Definition bt_con_n_service_property_changed (p : proxy) (name : string) (value : option bool) (b : ble) :
  bool * ble :=
  if negb (String.eqb name "ServicesResolved") then (true, b)
  else
    match value with
    | None => (false, b)
    | Some false => (true, b)
    | Some true =>
        let b := match bt_role b with
                 | BT_ROLE_SERVER => b
                 | BT_ROLE_CLIENT =>
                     match first_slot (holds p) b with
                     | None => b
                     | Some i => set_fg_service_idx i (upd_slot i (set_fg_is_services_resolved true) b)
                     end
                 end in
        (true, push_event BT_EVENT_SERVICES_RESOLVED b)
    end.

(** ** Disconnection on command *)

Inductive disc_result :=
| DiscRefused                     (* the index is out of range *)
| DiscError                       (* [ST_ERR], through [EXIT] *)
| DiscWaits (i : nat) (p : proxy) (* waiting for the reply, at most thirty seconds *).

Definition con_id_text (con_id : list Z) : string :=
  mac_text (nth 0 con_id 0) (nth 1 con_id 0) (nth 2 con_id 0) (nth 3 con_id 0) (nth 4 con_id 0) (nth 5 con_id 0).

(** [EXIT] *)
Definition disconnect_exit (i : nat) (p : option proxy) (b : ble) : outcome :=
  (upd_slot i (upd_cond app_com_deinit_pthread_cond_var_ctr) b, [RmDevices p]).

(** The guards before the call, in their order: the interface, the address
    against [pt_con_id], the property Connected. A path that ends too early is
    a read after its end, as [None] of [get_mac_addr_from_path]. *)
Definition may_disconnect (con_id : option (list Z)) (connected : option bool) (p : proxy) : bool :=
  match get_interface D p with
  | None => false
  | Some i =>
      String.eqb i "org.bluez.Device1"
      && match con_id with
         | None => true
         | Some id =>
             let mac := default EmptyString (get_mac_addr_from_path (get_path D p)) in
             String.prefix "C4:" mac && String.eqb (con_id_text id) mac
         end
      && match connected with Some true => true | _ => false end
  end.

(** [bt_con_n_disconnect_from_dev], up to the wait; [None] while it spins because
    another operation is going on. *)
Definition bt_con_n_disconnect_from_dev (idx : nat) (con_id : option (list Z)) (connected : option bool)
    (call_ok : bool) (b : ble) : option (disc_result * outcome) :=
  if (CONFIG_BLE_CONNECTION_MAX_NUM <=? idx)%nat then Some (DiscRefused, (b, []))
  else if is_con_in_process b then None
  else
    let b := set_is_con_in_process true b in
    let refused p b := (DiscError, disconnect_exit idx p (set_is_con_in_process false b)) in
    Some (match connected_proxy (slot_at idx b) with
    | None => refused None b
    | Some p =>
        if negb (may_disconnect con_id connected p) then refused (Some p) b
        else
          let b := upd_slot idx (upd_cond (fun c => set_cv_proxy (Some p) (set_op_done false c))) b in
          if negb call_ok then refused (Some p) b else (DiscWaits idx p, (b, [Disconnect p]))
    end).

(** What follows the wait, after a reply or after thirty seconds. *)
Definition disconnect_tail (idx : nat) (p : proxy) (b : ble) : outcome :=
  disconnect_exit idx (Some p)
    (set_is_con_in_process false (upd_slot idx (upd_cond (set_op_done false)) b)).

Definition disconnect_timeout (idx : nat) (p : proxy) (b : ble) : outcome :=
  let b := bt_con_n_set_inuse p false b in
  let b := if bool_decide (holds p (slot_at idx b)) then clear_slot idx b else b in
  disconnect_tail idx p (upd_slot idx (set_fg_is_services_resolved false) b).

(** ** Characteristics *)

Definition NORDIC_UART_CHARAC_TX_UUID : string := "6e400003-b5a3-f393-e0a9-e50e24dcca9e".
Definition NORDIC_UART_CHARAC_RX_UUID : string := "6e400002-b5a3-f393-e0a9-e50e24dcca9e".

(** The slot of a proxy: as its connection, as what it waits for, or by the
    address in its path. *)
Definition bt_con_n_connect_idx_fetch (p : proxy) (b : ble) : option nat :=
  match first_slot (holds p) b with
  | Some i => Some i
  | None =>
      match first_slot (awaits p) b with
      | Some i => Some i
      | None =>
          mac ← get_mac_addr_from_path (get_path D p);
          if negb (String.prefix "C4:" mac) then None
          else first_slot (fun s =>
            (connected_proxy s <> None \/ cv_proxy (pt_cond_var s) <> None) /\ String.prefix mac (con_mac_addr s) = true) b
      end
  end.

Definition bt_con_n_append_chr_proxy_to_queue (p : proxy) (b : ble) : bool * ble :=
  if negb (bool_decide (get_interface D p = Some "org.bluez.GattCharacteristic1"%string)) then (false, b)
  else
    match get_uuid D p with
    | None => (false, b)
    | Some uuid =>
        let is_rx := String.eqb uuid NORDIC_UART_CHARAC_RX_UUID in
        let is_tx := String.eqb uuid NORDIC_UART_CHARAC_TX_UUID in
        match bt_role b with
        | BT_ROLE_CLIENT =>
            match bt_con_n_connect_idx_fetch p b with
            | None => (false, b)
            | Some i =>
                (true, upd_slot i (fun s =>
                   let s := if is_rx then set_proxy_uart_chr_rx (Some p) s
                            else if is_tx then set_proxy_uart_chr_tx (Some p) s else s in
                   set_chr_queue (l_queue_push_tail (chr_queue s) p) s) b)
            end
        | BT_ROLE_SERVER =>
            let b := if is_rx then set_svr_proxy_uart_chr_rx (Some p) b
                     else if is_tx then set_svr_proxy_uart_chr_tx (Some p) b else b in
            (true, set_svr_chr_queue (l_queue_push_tail (svr_chr_queue b) p) b)
        end
    end.

Definition q_match_proxy_addr_compare (p q : proxy) : bool := (q =? p)%nat.

(** The first slot whose queue has the characteristic gives it up. *)
Fixpoint remove_chr (p : proxy) (l : list slot) : list slot :=
  match l with
  | [] => []
  | s :: l =>
      let '(r, q) := l_queue_remove_if (q_match_proxy_addr_compare p) (chr_queue s) in
      match r with
      | None => s :: remove_chr p l
      | Some _ =>
          let s := set_chr_queue q s in
          (if bool_decide (proxy_uart_chr_rx s = Some p) then set_proxy_uart_chr_rx None s
           else if bool_decide (proxy_uart_chr_tx s = Some p) then set_proxy_uart_chr_tx None s else s) :: l
      end
  end.

Definition bt_con_n_remove_chr_proxy_from_queue (p : proxy) (b : ble) : bool * ble :=
  if negb (bool_decide (get_interface D p = Some "org.bluez.GattCharacteristic1"%string)) then (false, b)
  else
    match bt_role b with
    | BT_ROLE_CLIENT => (true, set_slots (remove_chr p (slots b)) b)
    | BT_ROLE_SERVER =>
        let '(r, q) := l_queue_remove_if (q_match_proxy_addr_compare p) (svr_chr_queue b) in
        let b := set_svr_chr_queue q b in
        (true, match r with
               | None => b
               | Some _ =>
                   if bool_decide (svr_proxy_uart_chr_rx b = Some p) then set_svr_proxy_uart_chr_rx None b
                   else if bool_decide (svr_proxy_uart_chr_tx b = Some p) then set_svr_proxy_uart_chr_tx None b
                   else b
               end)
    end.

End connection.
