(* ===== verification/BtLoop.v ===== *)
(** * BtLoop: the threads of the Bluetooth process

    [skf_gw/source/src/ble/app_pro_ble_new.c]: the thread that makes a pass
    every eight seconds, the callbacks of the bus, the thread that turns the
    queued events into messages to the general process, the thread of the
    commands, and the main thread, which restarts the bus. A label is one thing
    that happens; a run is a list of labels in any order the threads allow. *)

From S2P Require Import Prelude BtState BtDevices BtConn.
From Stdlib Require Import ZArith Lia ZifyBool List Bool Ascii String.
From stdpp Require Import base list numbers option strings.
Open Scope Z_scope.

(** ** Messages *)

(** A message to the general process; its index of the connection is the low
    byte of [n_msgid]. *)
Record notice := Notice { n_event : bluetooth_event; n_msgid : Z; n_dev : option bt_addr; n_adapter : option bt_addr }.

Definition n_con_idx (n : notice) : Z := u8 (n_msgid n).

Definition hex_val (c : ascii) : option Z :=
  let n := Z.of_nat (nat_of_ascii c) in
  if (48 <=? n) && (n <=? 57) then Some (n - 48)
  else if (65 <=? n) && (n <=? 70) then Some (n - 55)
  else if (97 <=? n) && (n <=? 102) then Some (n - 87)
  else None.

(** [sscanf(s, "%02x%02x...", ...)] with [n] conversions, on a text of
    hexadecimal digits; of another text the result is not determined. *)
Fixpoint sscanf_02x (n : nat) (s : string) : option (list Z) :=
  match n with
  | O => Some []
  | S n =>
      match s with
      | String a (String b s) =>
          x ← hex_val a; y ← hex_val b; l ← sscanf_02x n s; Some (x * 16 + y :: l)
      | _ => None
      end
  end.

Definition MAX_ID_STR_LENGTH : nat := 32.

(** The copy without colons; [cnt] is an [uint8_t]. *)
Fixpoint strip_loop (s : string) (cnt : Z) (buf : list ascii) : list ascii :=
  match s with
  | EmptyString => buf
  | String c s =>
      if Ascii.eqb c ":"%char then strip_loop s cnt buf
      else strip_loop s (u8 (cnt + 1)) (<[Z.to_nat cnt mod MAX_ID_STR_LENGTH := c]> buf)
  end%nat.

Definition strip_colons (s : string) : list ascii := strip_loop s 0 (replicate MAX_ID_STR_LENGTH zero).

Definition addr_of_bytes (l : list Z) : bt_addr :=
  BtAddr (u16 (nth 0 l 0 * 256 + nth 1 l 0)) (nth 2 l 0)
    (u32 (nth 3 l 0 * 256 * 256 + nth 4 l 0 * 256 + nth 5 l 0)).

Definition addr_of_text (s : string) : option bt_addr := addr_of_bytes <$> sscanf_02x 6 s.

(** How the process ends. *)
Inductive ending := ExitFailure | Reboot.

(** The proxies that the application manager and the advertising keep. *)
Record proxies := Proxies {
  pt_q_ctrl : list proxy; pt_q_services : list proxy; pt_q_descriptors : list proxy;
  pt_q_managers : list proxy; pt_q_devices : list proxy;
  hld_proxy_le_adv_manager1 : option proxy; proxy_le_adv_manager : option proxy
}.

Definition set_pt_q_ctrl (x : list proxy) (q : proxies) : proxies :=
  Proxies x (pt_q_services q) (pt_q_descriptors q) (pt_q_managers q) (pt_q_devices q) (hld_proxy_le_adv_manager1 q) (proxy_le_adv_manager q).
Definition set_pt_q_services (x : list proxy) (q : proxies) : proxies :=
  Proxies (pt_q_ctrl q) x (pt_q_descriptors q) (pt_q_managers q) (pt_q_devices q) (hld_proxy_le_adv_manager1 q) (proxy_le_adv_manager q).
Definition set_pt_q_descriptors (x : list proxy) (q : proxies) : proxies :=
  Proxies (pt_q_ctrl q) (pt_q_services q) x (pt_q_managers q) (pt_q_devices q) (hld_proxy_le_adv_manager1 q) (proxy_le_adv_manager q).
Definition set_pt_q_managers (x : list proxy) (q : proxies) : proxies :=
  Proxies (pt_q_ctrl q) (pt_q_services q) (pt_q_descriptors q) x (pt_q_devices q) (hld_proxy_le_adv_manager1 q) (proxy_le_adv_manager q).
Definition set_pt_q_devices (x : list proxy) (q : proxies) : proxies :=
  Proxies (pt_q_ctrl q) (pt_q_services q) (pt_q_descriptors q) (pt_q_managers q) x (hld_proxy_le_adv_manager1 q) (proxy_le_adv_manager q).
Definition set_hld_proxy_le_adv_manager1 (x : option proxy) (q : proxies) : proxies :=
  Proxies (pt_q_ctrl q) (pt_q_services q) (pt_q_descriptors q) (pt_q_managers q) (pt_q_devices q) x (proxy_le_adv_manager q).
Definition set_proxy_le_adv_manager (x : option proxy) (q : proxies) : proxies :=
  Proxies (pt_q_ctrl q) (pt_q_services q) (pt_q_descriptors q) (pt_q_managers q) (pt_q_devices q) (hld_proxy_le_adv_manager1 q) x.

Record world := World {
  w_ble : ble;
  w_gw_id : string;
  restart_dbus_required : bool;
  bt_sw_in_progress : bool;
  hld_proxy_adapter1 : option proxy;
  w_proxies : proxies;
  w_cnt_s : Z;
  w_cnt : Z;
  timeoutCnt : Z;
  startup_ble_ready : bool;
  w_pass : option (nat * proxy);
  w_cmd : option (nat * proxy);
  w_switch : option nat;
  w_sent : list notice;
  w_asked : list action;
  w_ended : option ending
}.

Definition set_w_ble (x : ble) (w : world) : world :=
  World x (w_gw_id w) (restart_dbus_required w) (bt_sw_in_progress w) (hld_proxy_adapter1 w) (w_proxies w) (w_cnt_s w) (w_cnt w) (timeoutCnt w) (startup_ble_ready w) (w_pass w) (w_cmd w) (w_switch w) (w_sent w) (w_asked w) (w_ended w).
Definition set_w_gw_id (x : string) (w : world) : world :=
  World (w_ble w) x (restart_dbus_required w) (bt_sw_in_progress w) (hld_proxy_adapter1 w) (w_proxies w) (w_cnt_s w) (w_cnt w) (timeoutCnt w) (startup_ble_ready w) (w_pass w) (w_cmd w) (w_switch w) (w_sent w) (w_asked w) (w_ended w).
Definition set_restart_dbus_required (x : bool) (w : world) : world :=
  World (w_ble w) (w_gw_id w) x (bt_sw_in_progress w) (hld_proxy_adapter1 w) (w_proxies w) (w_cnt_s w) (w_cnt w) (timeoutCnt w) (startup_ble_ready w) (w_pass w) (w_cmd w) (w_switch w) (w_sent w) (w_asked w) (w_ended w).
Definition set_bt_sw_in_progress (x : bool) (w : world) : world :=
  World (w_ble w) (w_gw_id w) (restart_dbus_required w) x (hld_proxy_adapter1 w) (w_proxies w) (w_cnt_s w) (w_cnt w) (timeoutCnt w) (startup_ble_ready w) (w_pass w) (w_cmd w) (w_switch w) (w_sent w) (w_asked w) (w_ended w).
Definition set_hld_proxy_adapter1 (x : option proxy) (w : world) : world :=
  World (w_ble w) (w_gw_id w) (restart_dbus_required w) (bt_sw_in_progress w) x (w_proxies w) (w_cnt_s w) (w_cnt w) (timeoutCnt w) (startup_ble_ready w) (w_pass w) (w_cmd w) (w_switch w) (w_sent w) (w_asked w) (w_ended w).
Definition set_w_proxies (x : proxies) (w : world) : world :=
  World (w_ble w) (w_gw_id w) (restart_dbus_required w) (bt_sw_in_progress w) (hld_proxy_adapter1 w) x (w_cnt_s w) (w_cnt w) (timeoutCnt w) (startup_ble_ready w) (w_pass w) (w_cmd w) (w_switch w) (w_sent w) (w_asked w) (w_ended w).
Definition set_w_cnt_s (x : Z) (w : world) : world :=
  World (w_ble w) (w_gw_id w) (restart_dbus_required w) (bt_sw_in_progress w) (hld_proxy_adapter1 w) (w_proxies w) x (w_cnt w) (timeoutCnt w) (startup_ble_ready w) (w_pass w) (w_cmd w) (w_switch w) (w_sent w) (w_asked w) (w_ended w).
Definition set_w_cnt (x : Z) (w : world) : world :=
  World (w_ble w) (w_gw_id w) (restart_dbus_required w) (bt_sw_in_progress w) (hld_proxy_adapter1 w) (w_proxies w) (w_cnt_s w) x (timeoutCnt w) (startup_ble_ready w) (w_pass w) (w_cmd w) (w_switch w) (w_sent w) (w_asked w) (w_ended w).
Definition set_timeoutCnt (x : Z) (w : world) : world :=
  World (w_ble w) (w_gw_id w) (restart_dbus_required w) (bt_sw_in_progress w) (hld_proxy_adapter1 w) (w_proxies w) (w_cnt_s w) (w_cnt w) x (startup_ble_ready w) (w_pass w) (w_cmd w) (w_switch w) (w_sent w) (w_asked w) (w_ended w).
Definition set_startup_ble_ready (x : bool) (w : world) : world :=
  World (w_ble w) (w_gw_id w) (restart_dbus_required w) (bt_sw_in_progress w) (hld_proxy_adapter1 w) (w_proxies w) (w_cnt_s w) (w_cnt w) (timeoutCnt w) x (w_pass w) (w_cmd w) (w_switch w) (w_sent w) (w_asked w) (w_ended w).
Definition set_w_pass (x : option (nat * proxy)) (w : world) : world :=
  World (w_ble w) (w_gw_id w) (restart_dbus_required w) (bt_sw_in_progress w) (hld_proxy_adapter1 w) (w_proxies w) (w_cnt_s w) (w_cnt w) (timeoutCnt w) (startup_ble_ready w) x (w_cmd w) (w_switch w) (w_sent w) (w_asked w) (w_ended w).
Definition set_w_cmd (x : option (nat * proxy)) (w : world) : world :=
  World (w_ble w) (w_gw_id w) (restart_dbus_required w) (bt_sw_in_progress w) (hld_proxy_adapter1 w) (w_proxies w) (w_cnt_s w) (w_cnt w) (timeoutCnt w) (startup_ble_ready w) (w_pass w) x (w_switch w) (w_sent w) (w_asked w) (w_ended w).
Definition set_w_switch (x : option nat) (w : world) : world :=
  World (w_ble w) (w_gw_id w) (restart_dbus_required w) (bt_sw_in_progress w) (hld_proxy_adapter1 w) (w_proxies w) (w_cnt_s w) (w_cnt w) (timeoutCnt w) (startup_ble_ready w) (w_pass w) (w_cmd w) x (w_sent w) (w_asked w) (w_ended w).
Definition set_w_sent (x : list notice) (w : world) : world :=
  World (w_ble w) (w_gw_id w) (restart_dbus_required w) (bt_sw_in_progress w) (hld_proxy_adapter1 w) (w_proxies w) (w_cnt_s w) (w_cnt w) (timeoutCnt w) (startup_ble_ready w) (w_pass w) (w_cmd w) (w_switch w) x (w_asked w) (w_ended w).
Definition set_w_asked (x : list action) (w : world) : world :=
  World (w_ble w) (w_gw_id w) (restart_dbus_required w) (bt_sw_in_progress w) (hld_proxy_adapter1 w) (w_proxies w) (w_cnt_s w) (w_cnt w) (timeoutCnt w) (startup_ble_ready w) (w_pass w) (w_cmd w) (w_switch w) (w_sent w) x (w_ended w).
Definition set_w_ended (x : option ending) (w : world) : world :=
  World (w_ble w) (w_gw_id w) (restart_dbus_required w) (bt_sw_in_progress w) (hld_proxy_adapter1 w) (w_proxies w) (w_cnt_s w) (w_cnt w) (timeoutCnt w) (startup_ble_ready w) (w_pass w) (w_cmd w) (w_switch w) (w_sent w) (w_asked w) x.

Definition on_ble (f : ble -> ble) (w : world) : world := set_w_ble (f (w_ble w)) w.
Definition on_proxies (f : proxies -> proxies) (w : world) : world := set_w_proxies (f (w_proxies w)) w.

(** What the environment decides in the event loop: the lock of the slots within
    three attempts, the comparison of the number of characteristics, the
    acquisition of the notification, and [msgsnd]. *)
Record loop_env := LoopEnv { con_lock : bool; chr_enough : bool; not_acquired : bool; acquire_ok : bool; send_ok : bool }.

Section loop.
Context (big : bool) (D : dbus).

Definition is_device (p : proxy) : bool :=
  bool_decide (get_interface D p = Some "org.bluez.Device1"%string).

Definition send (E : loop_env) (e : bluetooth_event) (msgid : Z) (dev adapter : option bt_addr) (w : world) : bool * world :=
  if send_ok E then (true, set_w_sent (w_sent w ++ [Notice e msgid dev adapter])%list w) else (false, w).

(** In the role of a client the index must be that of a slot. *)
Definition notifyProcessGeneralBlock (E : loop_env) (e : bluetooth_event) (msgid : Z) (w : world) : bool * world :=
  let client := bool_decide (bt_role (w_ble w) = BT_ROLE_CLIENT) in
  let out_of_range := Z.of_nat CONFIG_BLE_CONNECTION_MAX_NUM <=? msgid in
  match e with
  | BT_EVENT_CONNECTION =>
      if negb client then send E e msgid None None w
      else if out_of_range then (false, w)
      else
        match connected_proxy (slot_at (Z.to_nat msgid) (w_ble w)) with
        | None => (false, w)
        | Some p =>
            if negb (is_device p) then (false, w)
            else
              match get_address D p with
              | None => (false, w)
              | Some addr => send E e msgid (addr_of_text (c_string (strip_colons addr))) (addr_of_text (w_gw_id w)) w
              end
        end
  | BT_EVENT_DISCONNECTION => if client && out_of_range then (false, w) else send E e msgid None None w
  | BT_EVENT_SERVICES_RESOLVED => if out_of_range then (false, w) else send E e msgid None None w
  | _ => send E e msgid None None w
  end.

Definition get_gateway_id (w : world) : bool * world :=
  match hld_proxy_adapter1 w with
  | None => (false, w)
  | Some a =>
      if negb (bool_decide (get_interface D a = Some "org.bluez.Adapter1"%string)) then (false, w)
      else
        match get_address D a with
        | None => (false, w)
        | Some addr => (true, set_w_gw_id (c_string (take (MAX_ID_STR_LENGTH - 1) (strip_colons addr))) w)
        end
  end.

(** ** The thread of the events *)

Definition bt_gatt_n_aquire_peer_tx_notification (E : loop_env) (idx : nat) (b : ble) : bool :=
  bool_decide (proxy_uart_chr_tx (slot_at idx b) <> None) && not_acquired E && acquire_ok E.

(** An event after it was taken from the queue. The case of a new adapter goes on
    into that of a new device, which searches the proxies of a server. *)
Definition handle_event (E : loop_env) (e : bluetooth_event) (w : world) : world :=
  let b := w_ble w in
  match e with
  | BT_EVENT_ADD_ADAPTER => snd (get_gateway_id w)
  | BT_EVENT_CONNECTION =>
      if restart_dbus_required w then w
      else
        match bt_role b with
        | BT_ROLE_SERVER => snd (notifyProcessGeneralBlock E BT_EVENT_CONNECTION 0 w)
        | BT_ROLE_CLIENT =>
            if bool_decide (hld_proxy_adapter1 w = None) then w
            else if negb (con_lock E) then w
            else snd (notifyProcessGeneralBlock E BT_EVENT_CONNECTION (Z.of_nat (con_proxy_idx b)) w)
        end
  | BT_EVENT_DISCONNECTION =>
      match bt_role b with
      | BT_ROLE_SERVER => snd (notifyProcessGeneralBlock E BT_EVENT_DISCONNECTION 4294967295 w)
      | BT_ROLE_CLIENT =>
          if (con_proxy_idx b <? CONFIG_BLE_CONNECTION_MAX_NUM)%nat
          then snd (notifyProcessGeneralBlock E BT_EVENT_DISCONNECTION (Z.of_nat (con_proxy_idx b)) w)
          else w
      end
  | BT_EVENT_SERVICES_RESOLVED =>
      if restart_dbus_required w then w
      else
        match bt_role b with
        | BT_ROLE_SERVER => w
        | BT_ROLE_CLIENT =>
            let serv_idx := fg_service_idx b in
            if (CONFIG_BLE_CONNECTION_MAX_NUM <=? serv_idx)%nat then w
            else if negb (chr_enough E) then w
            else if bt_gatt_n_aquire_peer_tx_notification E serv_idx b
            then snd (notifyProcessGeneralBlock E BT_EVENT_SERVICES_RESOLVED (Z.of_nat serv_idx) w)
            else w
        end
  | _ => w
  end.

Definition take_event (E : loop_env) (w : world) : option world :=
  if restart_dbus_required w then None
  else
    match l_queue_pop_head (event_queue (w_ble w)) with
    | (None, _) => None
    | (Some e, q) => Some (handle_event E e (set_w_ble (set_event_queue q (w_ble w)) w))
    end.

(** Thirty seconds without an event. *)
Definition event_timeout (w : world) : option world :=
  if restart_dbus_required w || negb (bool_decide (event_queue (w_ble w) = [])) then None
  else
    Some (match bt_role (w_ble w) with
          | BT_ROLE_SERVER =>
              let cnt := u8 (w_cnt w + 1) in
              if 20 <=? cnt then set_restart_dbus_required true (set_w_cnt 0 w) else set_w_cnt cnt w
          | BT_ROLE_CLIENT => set_w_cnt 0 w
          end).

(** ** The periodic thread *)

(** After a pass that has ended. *)
Definition after_pass (ok : bool) (w : world) : world :=
  if ok then w
  else
    let '(required, b) := bt_con_n_take_proxy_recovery_required (w_ble w) in
    let w := set_w_ble b w in
    if required then set_w_ended (Some ExitFailure) w else w.

(** A pass, until it ends or waits. *)
Definition start_pass (E : pass_env) (w : world) : world :=
  let '(r, (b, acts)) := bt_con_n_connect_to_dev big D E (w_ble w) in
  let w := set_w_asked (w_asked w ++ acts)%list (set_w_ble b w) in
  match r with
  | PassWaits i p => set_w_pass (Some (i, p)) w
  | PassError => after_pass false w
  end.

(** One second; every eighth makes a pass, unless the bus restarts, the gateway
    is a server or becomes one, or there is no adapter. *)
Definition periodic_second (E : pass_env) (w : world) : world :=
  let cnt_s := w_cnt_s w + 1 in
  let w := set_w_cnt_s cnt_s w in
  if restart_dbus_required w then w
  else if negb (bool_decide (bt_role (w_ble w) = BT_ROLE_CLIENT)) || bt_sw_in_progress w then w
  else if bool_decide (hld_proxy_adapter1 w = None) then w
  else if cnt_s mod 8 =? 0 then start_pass E w else w.

(** ** The main thread *)

(** [sys_init_app_management]: the members that the connections use, and the others. *)
Definition init_management (b : ble) : ble :=
  set_bt_role BT_ROLE_CLIENT (set_white_list (replicate MAX_BT_WHITE_LIST zero_addr) (set_event_queue []
    (set_hld_server_connected_proxy None (set_hld_con_status_bit 0 (set_hld_con_proxy_idx 0%nat
      (set_hld_connected_proxy (replicate CONFIG_BLE_CONNECTION_MAX_NUM None) b)))))).
Definition sys_init_app_management (w : world) : world :=
  set_w_ble (init_management (w_ble w))
    (set_w_gw_id EmptyString (set_bt_sw_in_progress false (set_hld_proxy_adapter1 None
      (on_proxies (fun q => Proxies [] [] [] [] [] None (proxy_le_adv_manager q)) w)))).

(** A proxy is put on a queue once. *)
Definition sys_proxy_compare (p q : proxy) : bool := (q =? p)%nat.

Definition sys_add_ble_proxy (p : proxy) (q : list proxy) : list proxy :=
  match l_queue_find (sys_proxy_compare p) q with
  | Some _ => q
  | None => l_queue_push_tail q p
  end.

Definition sys_remove_ble_proxy (p : proxy) (q : list proxy) : list proxy :=
  match l_queue_find (sys_proxy_compare p) q with
  | None => q
  | Some _ => snd (l_queue_remove_if (sys_proxy_compare p) q)
  end.

(** A proxy appears; a device is kept in the role of a server only. *)
Definition sys_add_proxy (p : proxy) (w : world) : bool * world :=
  match get_interface D p with
  | None => (false, w)
  | Some i =>
      if String.eqb i "org.bluez.Device1" then
        (true, match bt_role (w_ble w) with
               | BT_ROLE_CLIENT => w
               | BT_ROLE_SERVER =>
                   on_ble (push_event BT_EVENT_ADD_DEVPROXY)
                     (on_proxies (fun q => set_pt_q_devices (sys_add_ble_proxy p (pt_q_devices q)) q) w)
               end)
      else if String.eqb i "org.bluez.Adapter1" then
        (true, on_ble (push_event BT_EVENT_ADD_ADAPTER) (set_hld_proxy_adapter1 (Some p)
                 (on_proxies (fun q => set_pt_q_ctrl (sys_add_ble_proxy p (pt_q_ctrl q)) q) w)))
      else if String.eqb i "org.bluez.AgentManager1" then (true, w)
      else if String.eqb i "org.bluez.GattService1" then
        (true, on_proxies (fun q => set_pt_q_services (sys_add_ble_proxy p (pt_q_services q)) q) w)
      else if String.eqb i "org.bluez.GattDescriptor1" then
        (true, on_proxies (fun q => set_pt_q_descriptors (sys_add_ble_proxy p (pt_q_descriptors q)) q) w)
      else if String.eqb i "org.bluez.GattManager1" then
        (true, on_proxies (fun q => set_pt_q_managers (sys_add_ble_proxy p (pt_q_managers q)) q) w)
      else if String.eqb i "org.bluez.LEAdvertisingManager1" then
        (true, on_ble (push_event BT_EVENT_ADD_LEADV_MGR)
                 (on_proxies (fun q => set_hld_proxy_le_adv_manager1 (Some p)
                                         (set_pt_q_ctrl (sys_add_ble_proxy p (pt_q_ctrl q)) q)) w))
      else (false, w)
  end.

(** It disappears; any adapter that does is the adapter. *)
Definition sys_remove_proxy (p : proxy) (w : world) : bool * world :=
  match get_interface D p with
  | None => (false, w)
  | Some i =>
      if String.eqb i "org.bluez.Device1" then
        (true, on_proxies (fun q => set_pt_q_devices (sys_remove_ble_proxy p (pt_q_devices q)) q)
                 (if bool_decide (hld_server_connected_proxy (w_ble w) = Some p)
                  then on_ble (set_hld_server_connected_proxy None) w else w))
      else if String.eqb i "org.bluez.Adapter1" then
        (true, on_proxies (fun q => set_pt_q_ctrl (sys_remove_ble_proxy p (pt_q_ctrl q)) q)
                 (set_hld_proxy_adapter1 None w))
      else if String.eqb i "org.bluez.AgentManager1" then (true, w)
      else if String.eqb i "org.bluez.GattService1" then
        (true, on_proxies (fun q => set_pt_q_services (sys_remove_ble_proxy p (pt_q_services q)) q) w)
      else if String.eqb i "org.bluez.GattDescriptor1" then
        (true, on_proxies (fun q => set_pt_q_descriptors (sys_remove_ble_proxy p (pt_q_descriptors q)) q) w)
      else if String.eqb i "org.bluez.GattManager1" then
        (true, on_proxies (fun q => set_pt_q_managers (sys_remove_ble_proxy p (pt_q_managers q)) q) w)
      else if String.eqb i "org.bluez.LEAdvertisingManager1" then
        (true, on_proxies (fun q => set_hld_proxy_le_adv_manager1 None
                                      (set_pt_q_ctrl (sys_remove_ble_proxy p (pt_q_ctrl q)) q)) w)
      else (false, w)
  end.

(** The white list is saved, everything is initialised, the controller twice, and
    the white list is restored. *)
Definition restore_white_list (backup : list bt_addr) (b : ble) : ble :=
  let b := sys_set_bt_white_list backup MAX_BT_WHITE_LIST b in
  bt_con_n_init_con_controller (bt_con_n_init_con_controller (bt_con_n_deinit_con_controller b)).

(** The restart of the bus: [recovered] is whether the privileged helper
    answers with success; the adapter comes back within the ten seconds. *)
Definition restart_dbus (E : loop_env) (recovered : bool) (adapter : proxy) (w : world) : world :=
  let w := on_ble (set_g_fail_con_count 0) w in
  let w := snd (notifyProcessGeneralBlock E BT_DBUS_IS_NOT_READY 4294967295 w) in
  if negb recovered then set_w_ended (Some ExitFailure) w
  else
    let w := set_startup_ble_ready false w in
    let backup := sys_get_bt_white_list (replicate MAX_BT_WHITE_LIST zero_addr) MAX_BT_WHITE_LIST (w_ble w) in
    let w := sys_init_app_management w in
    let w := snd (sys_add_proxy adapter (on_ble (restore_white_list backup) w)) in
    let w := snd (notifyProcessGeneralBlock E BT_EVENT_DISCONNECTION 4294967295 w) in
    let w := on_ble (set_g_con_idx_coutnt 0) w in
    let w := set_restart_dbus_required false w in
    snd (notifyProcessGeneralBlock E BT_EVENT_SW_TO_CLIENT 4294967295 w).

(** The check of the adapter, every five seconds. [powered] and [discovering]
    are its properties; the requests of the start-up are not part of the state. *)
Definition check_adapter (E : loop_env) (powered discovering : option bool) (w : world) : world :=
  if 3 <? timeoutCnt w then set_w_ended (Some Reboot) w
  else
    match hld_proxy_adapter1 w with
    | None => snd (notifyProcessGeneralBlock E BT_DBUS_IS_NOT_READY 4294967295 (set_timeoutCnt (u32 (timeoutCnt w + 1)) w))
    | Some _ =>
        let w := snd (notifyProcessGeneralBlock E BT_DBUS_IS_READY 4294967295 (set_timeoutCnt 0 w)) in
        if startup_ble_ready w then w
        else
          match powered, discovering with
          | Some true, Some true => set_startup_ble_ready true w
          | _, _ => w
          end
    end.

(** ** The callbacks of the bus *)

(** As a server, [bt_con_n_proxy_property_changed] hands the proxy of a connection
    to [sys_add_proxy] before it queues the event. *)
Definition server_connected (p : proxy) (name : string) (value : option bool) (w : world) : world :=
  if String.eqb name "Connected" && bool_decide (value = Some true) && bool_decide (bt_role (w_ble w) = BT_ROLE_SERVER)
  then snd (sys_add_proxy p w) else w.

(** [property_changed]; [value] is the new value of a boolean property. *)
Definition property_changed (now : Z) (p : proxy) (name : string) (value : option bool) (w : world) : world :=
  let w := server_connected p name value w in
  let '(_, (b, acts)) := bt_con_n_proxy_property_changed p name value (w_ble w) in
  let b := snd (bt_con_n_service_property_changed p name value b) in
  let b := snd (bt_con_n_append_dev_proxy big D now p name b) in
  set_w_asked (w_asked w ++ acts)%list (set_w_ble b w).

Definition bt_adv_n_set_adv_manager_proxy (p : proxy) (w : world) : bool * world :=
  if negb (bool_decide (get_interface D p = Some "org.bluez.LEAdvertisingManager1"%string)) then (false, w)
  else (true, on_ble (push_event BT_EVENT_ADD_LEADV_MGR) (on_proxies (set_proxy_le_adv_manager (Some p)) w)).

(** The registration of the local service and the name of the advertisement are
    not part of the state. *)
Definition proxy_added (p : proxy) (w : world) : world :=
  let w := snd (sys_add_proxy p w) in
  let w := on_ble (fun b => snd (bt_con_n_append_chr_proxy_to_queue D p b)) w in
  snd (bt_adv_n_set_adv_manager_proxy p w).

Definition proxy_removed (p : proxy) (w : world) : world :=
  let w := snd (sys_remove_proxy p w) in
  on_ble (fun b => snd (bt_con_n_remove_dev_proxy D p (snd (bt_con_n_remove_chr_proxy_from_queue D p b)))) w.

(** The connection to the bus breaks: the thread of the bus ends and leaves the
    restart to the main thread. *)
Definition disconnect_callback (w : world) : world := set_restart_dbus_required true w.

(** ** The role *)

(** [CMD_SW_TO_CLIENT]: the result of [bt_ad_unregister_advertisement] makes no
    difference. *)
Definition sw_to_client (E : loop_env) (w : world) : world :=
  if bool_decide (bt_role (w_ble w) = BT_ROLE_CLIENT) then w
  else if bt_sw_in_progress w then w
  else if bool_decide (hld_proxy_adapter1 w = None)
  then set_w_ended (Some ExitFailure) (set_bt_sw_in_progress false w)
  else
    let w := snd (notifyProcessGeneralBlock E BT_EVENT_SW_TO_CLIENT 4294967295 w) in
    set_bt_sw_in_progress false (on_ble (set_bt_role BT_ROLE_CLIENT) w).

(** [CMD_SW_TO_SERVER] disconnects every slot in turn, waiting for each, before
    the role changes; [w_switch] is the next one. *)
Definition sw_to_server (w : world) : world :=
  if bool_decide (hld_proxy_adapter1 w = None) then w
  else if bool_decide (bt_role (w_ble w) = BT_ROLE_SERVER) then w
  else if bt_sw_in_progress w then w
  else set_w_switch (Some 0%nat) (set_bt_sw_in_progress true w).

(** [registered] is the result of [bt_ad_register_advertisement]. *)
Definition sw_to_server_done (E : loop_env) (registered : bool) (w : world) : world :=
  let w := set_bt_sw_in_progress false (set_w_switch None w) in
  if negb registered then w
  else
    let w := on_ble (fun b => set_bt_role BT_ROLE_SERVER (set_hld_server_connected_proxy None b)) w in
    snd (notifyProcessGeneralBlock E BT_EVENT_SW_TO_SERVER 4294967295 w).

(** ** Runs *)

Inductive label :=
| LSecond (E : pass_env)
| LPassTimeout
| LPassDone
| LProperty (now : Z) (p : proxy) (name : string) (value : option bool)
| LAdded (p : proxy)
| LRemoved (p : proxy)
| LConnectReply (try_lock is_error : bool) (p : proxy)
| LDisconnectReply (idx : nat) (try_lock is_error : bool) (p : proxy)
| LWhiteList (array : list bt_addr)
| LDisconnect (idx : nat) (con_id : option (list Z)) (connected : option bool) (call_ok : bool)
| LDisconnectTimeout
| LDisconnectDone
| LEvent (E : loop_env)
| LEventTimeout
| LRestart (E : loop_env) (recovered : bool) (adapter : proxy)
| LCheck (E : loop_env) (powered discovering : option bool)
| LBusLost
| LSwToClient (E : loop_env)
| LSwToServer
| LSwDisconnect (connected : option bool) (call_ok : bool)
| LSwDone (E : loop_env) (registered : bool).

Definition put (o : outcome) (w : world) : world :=
  set_w_asked (w_asked w ++ snd o)%list (set_w_ble (fst o) w).

(** A disconnection by the thread of the commands. *)
Definition command_disconnect (i : nat) (con_id : option (list Z)) (connected : option bool) (call_ok : bool)
    (w : world) : option world :=
  '(r, o) ← bt_con_n_disconnect_from_dev D i con_id connected call_ok (w_ble w);
  Some (let w := put o w in
        match r with DiscWaits i p => set_w_cmd (Some (i, p)) w | _ => w end).

(** The thread of the commands is between two commands. *)
Definition next_command (w : world) : bool :=
  bool_decide (w_cmd w = None) && bool_decide (w_switch w = None).

(** One label; [None] where the thread it belongs to cannot take it. *)
Definition do_label (l : label) (w : world) : option world :=
  if bool_decide (w_ended w <> None) then None
  else
    match l, w_pass w, w_cmd w with
    | LSecond E, None, _ => Some (periodic_second E w)
    | LSecond _, Some _, _ => None
    | LPassTimeout, Some (i, _), _ =>
        if is_op_done (pt_cond_var (slot_at i (w_ble w))) then None
        else Some (after_pass false (set_w_pass None (on_ble (connect_timeout i) w)))
    | LPassDone, Some (i, p), _ =>
        if is_op_done (pt_cond_var (slot_at i (w_ble w)))
        then Some (after_pass true (set_w_pass None (on_ble (connect_done i p) w))) else None
    | LProperty t p n v, _, _ => Some (property_changed t p n v w)
    | LAdded p, _, _ => Some (proxy_added p w)
    | LRemoved p, _, _ => Some (proxy_removed p w)
    | LConnectReply k e p, _, _ => Some (put (msg_reply_for_bt_connect k e p (w_ble w)) w)
    | LDisconnectReply i k e p, _, _ => Some (on_ble (msg_reply_for_bt_disconnect i k e p) w)
    | LWhiteList a, _, _ =>
        if next_command w then Some (on_ble (sys_set_bt_white_list a MAX_BT_WHITE_LIST) w) else None
    | LDisconnect i id c k, _, _ => if next_command w then command_disconnect i id c k w else None
    | LDisconnectTimeout, _, Some (i, p) =>
        if is_op_done (pt_cond_var (slot_at i (w_ble w))) then None
        else Some (set_w_cmd None (put (disconnect_timeout i p (w_ble w)) w))
    | LDisconnectDone, _, Some (i, p) =>
        if is_op_done (pt_cond_var (slot_at i (w_ble w)))
        then Some (set_w_cmd None (put (disconnect_tail i p (w_ble w)) w)) else None
    | LEvent E, _, _ => take_event E w
    | LEventTimeout, _, _ => event_timeout w
    | LRestart E r a, None, None =>
        if restart_dbus_required w && bool_decide (get_interface D a = Some "org.bluez.Adapter1"%string)
        then Some (restart_dbus E r a w) else None
    | LCheck E pw di, _, _ => if restart_dbus_required w then None else Some (check_adapter E pw di w)
    | LBusLost, _, _ => Some (disconnect_callback w)
    | LSwToClient E, _, _ => if next_command w then Some (sw_to_client E w) else None
    | LSwToServer, _, _ => if next_command w then Some (sw_to_server w) else None
    | LSwDisconnect c k, _, None =>
        i ← w_switch w;
        if (i <? CONFIG_BLE_CONNECTION_MAX_NUM)%nat
        then command_disconnect i None c k (set_w_switch (Some (S i)) w) else None
    | LSwDone E r, _, None =>
        if bool_decide (w_switch w = Some CONFIG_BLE_CONNECTION_MAX_NUM)
        then Some (sw_to_server_done E r w) else None
    | _, _, _ => None
    end.

Fixpoint run (ls : list label) (w : world) : option world :=
  match ls with
  | [] => Some w
  | l :: ls => w ← do_label l w; run ls w
  end.

(** The state after the start of the process: the first deinitialisation finds
    the zeros of a global variable. *)
Definition zero_ble : ble :=
  Ble [] false (replicate CONFIG_BLE_CONNECTION_MAX_NUM zero_slot) 0 0 0 [] None None
    (replicate CONFIG_BLE_CONNECTION_MAX_NUM None) 0 0 None BT_ROLE_CLIENT (replicate MAX_BT_WHITE_LIST zero_addr) []
    0 0 (ConMethodParam 0 EmptyString) 0 0 false.

Definition started : world :=
  let w := World (bt_con_n_deinit_con_controller zero_ble) EmptyString false false None
             (Proxies [] [] [] [] [] None None) 0 0 0 false None None None [] [] None in
  on_ble bt_con_n_init_con_controller (sys_init_app_management w).

End loop.
