(* ===== verification/BtDemo.v ===== *)
(** * BtDemo: a small bus on which runs are evaluated

    Eight devices with SKF's addresses and the adapter, and a white list of the
    first two. *)

From S2P Require Import Prelude BtState BtDevices BtConn BtLoop.
From Stdlib Require Import ZArith List Bool Ascii String.
From stdpp Require Import base list numbers option strings.
Open Scope Z_scope.

Definition demo_digit (p : proxy) : string := String (hex_digit (Z.of_nat p)) EmptyString.

Definition demo_bus : dbus := Dbus
  (fun p => if (p <? 9)%nat then Some "org.bluez.Device1"%string
            else if (p =? 9)%nat then Some "org.bluez.Adapter1"%string
            else Some "org.bluez.GattCharacteristic1"%string)
  (fun p => ("/org/bluez/hci0/dev_C4_BD_6A_00_00_0" ++ demo_digit p)%string)
  (fun p => Some ("C4:BD:6A:00:00:0" ++ demo_digit p)%string)
  (fun _ => Some NORDIC_UART_CHARAC_TX_UUID).

Definition demo_addr (n : Z) : bt_addr := BtAddr 0xC4BD 0x6A n.
Definition demo_list : list bt_addr := demo_addr 1 :: demo_addr 2 :: replicate 38 zero_addr.

Definition demo_env (t : Z) : pass_env := PassEnv t true true true true.
Definition demo_loop : loop_env := LoopEnv true true true true true.

(** Eight seconds, the last of which makes a pass. *)
Definition demo_pass (t : Z) : list label := replicate 8 (LSecond (demo_env t)).
Definition demo_heard (t : Z) (p : proxy) : label := LProperty t p "RSSI" None.
Definition demo_connected (t : Z) (p : proxy) (c : bool) : label := LProperty t p "Connected" (Some c).

Definition demo_start : list label := [LAdded 9%nat; LWhiteList demo_list].

(** A sensor is heard and connected. *)
Definition demo_connect (t : Z) (p : proxy) : list label :=
  ([demo_heard t p] ++ demo_pass (t + 1)
   ++ [demo_connected (t + 2) p true; LConnectReply true false p; LPassDone; LEvent demo_loop; LEvent demo_loop])%list.

(** The state after a run. *)
Definition demo_after (l : list label) : world := default started (run false demo_bus l started).

(** Both sensors of the list are heard and the first does not answer. *)
Definition demo_two_passes : list label :=
  ([demo_heard 10 1%nat; demo_heard 10 2%nat] ++ demo_pass 11
   ++ [LConnectReply true true 1%nat; LPassDone; demo_heard 18 1%nat; demo_heard 18 2%nat] ++ demo_pass 19)%list.

(** One sensor is connected. *)
Definition demo_one : list label := (demo_start ++ [LEvent demo_loop] ++ demo_connect 10 1%nat)%list.

(** A sensor is heard; the next second makes a pass. *)
Definition demo_waiting : list label :=
  (demo_start ++ [demo_heard 10 1%nat; LEvent demo_loop; LEvent demo_loop] ++ replicate 7 (LSecond (demo_env 11)))%list.

(** A sensor is heard three times and its proxy disappears. *)
Definition demo_lost : list label :=
  (demo_start ++ replicate 3 (demo_heard 10 1%nat) ++ [LRemoved 1%nat] ++ replicate 7 (LSecond (demo_env 11)))%list.
