(* ===== verification/BtTurns.v ===== *)
(** * BtTurns: the order in which sensors and slots are tried

    A pass takes the first address of the white list with a device that can be
    connected and moves it to the end of the list, so the sensors take turns; a
    free slot is found whenever there is one. *)

From S2P Require Import Prelude BtState BtDevices BtConn BtLoop BtDemo.
From Stdlib Require Import ZArith Lia ZifyBool List Bool Ascii String.
From stdpp Require Import base list numbers option strings.
Open Scope Z_scope.

(** Case analysis of the guards of an operation. *)
Ltac ble_cases :=
  repeat first [progress cbn in * | progress simplify_eq | case_match]; try done.

Section turns.
Context (big : bool) (D : dbus).

(** ** The choice of a device *)

(** The device of an address that a pass would take. *)
Definition available (a : bt_addr) (b : ble) : option proxy :=
  match l_queue_find (q_match_dev_proxy_addrstr D (addr_text big a)) (dev_queue b) with
  | None => None
  | Some e => if is_duplicate (addr_text big a) (ele_proxy e) b then None else Some (ele_proxy e)
  end.

Lemma pick_from_cons a l i b :
  pick_from big D (a :: l) i b =
  match available a b with Some p => Some (i, p) | None => pick_from big D l (S i) b end.
Proof. unfold available. cbn. by repeat case_match. Qed.

Lemma pick_from_first l i b j p :
  pick_from big D l i b = Some (j, p) ->
  exists n a, j = (i + n)%nat /\ l !! n = Some a /\ available a b = Some p
    /\ forall m a', (m < n)%nat -> l !! m = Some a' -> available a' b = None.
Proof.
  revert i. induction l as [|a l IH]; intros i; [done|]. rewrite pick_from_cons.
  destruct (available a b) as [q|] eqn:Ea.
  - intros [= <- <-]. exists 0%nat, a. rewrite Nat.add_0_r. repeat split; [done|].
    intros m a' Hm. lia.
  - intros (n & a' & -> & Hl & Ha & Hm)%IH. exists (S n), a'. split; [lia|]. repeat split; [done..|].
    intros [|m] a2 Hlt; cbn; [by intros [= ->]|]. intros H. apply (Hm m); [lia|done].
Qed.

Lemma pick_from_none l i b a n :
  pick_from big D l i b = None -> l !! n = Some a -> available a b = None.
Proof.
  revert i n. induction l as [|a' l IH]; intros i n; [done|]. rewrite pick_from_cons.
  destruct (available a' b) eqn:Ea; [done|]. intros Hp. destruct n as [|n]; cbn; [by intros [= ->]|].
  by apply IH with (i := S i).
Qed.

(** ** The list after a turn *)

Definition to_the_end (i : nat) (l : list bt_addr) : list bt_addr :=
  (take i l ++ drop (S i) l ++ [nth i l zero_addr])%list.

Lemma to_the_end_lookup_lt i j l : (j < i)%nat -> (i < length l)%nat -> to_the_end i l !! j = l !! j.
Proof.
  intros Hj Hi. unfold to_the_end. rewrite lookup_app_l by (rewrite length_take; lia).
  by rewrite lookup_take_lt by lia.
Qed.

Lemma to_the_end_lookup_gt i j l :
  (i < j)%nat -> (j < length l)%nat -> to_the_end i l !! (j - 1)%nat = l !! j.
Proof.
  intros Hj Hi. unfold to_the_end. rewrite lookup_app_r by (rewrite length_take; lia).
  rewrite length_take, Nat.min_l by lia.
  rewrite lookup_app_l by (rewrite length_drop; lia). rewrite lookup_drop. f_equal. lia.
Qed.

Lemma to_the_end_length i l : (i < length l)%nat -> length (to_the_end i l) = length l.
Proof. intros. unfold to_the_end. rewrite !length_app, length_take, length_drop. cbn. lia. Qed.

Lemma nth_last_split (l : list bt_addr) (d : bt_addr) :
  l <> [] -> (take (length l - 1) l ++ [nth (length l - 1) l d])%list = l.
Proof.
  intros Hl. destruct l as [|x l'] using rev_ind; [done|]. rewrite length_app. cbn.
  rewrite Nat.add_sub, take_app_length, app_nth2, Nat.sub_diag by lia. done.
Qed.

Lemma refresh_to_the_end i l :
  (i < length l)%nat -> bt_connection_refresh_white_list l (length l) i = to_the_end i l.
Proof.
  intros Hi. unfold bt_connection_refresh_white_list, to_the_end. case_match eqn:E.
  - apply Nat.eqb_eq in E. subst. rewrite (drop_ge l) by lia. cbn.
    rewrite nth_last_split; [done|]. intros ->. cbn in Hi. lia.
  - rewrite (drop_ge l (length l)) by lia. rewrite app_nil_r.
    rewrite (take_ge (drop (S i) l)) by (rewrite length_drop; lia). done.
Qed.

Definition full (b : ble) : Prop := length (white_list b) = MAX_BT_WHITE_LIST.

Lemma get_full b :
  full b -> sys_get_bt_white_list (replicate MAX_BT_WHITE_LIST zero_addr) MAX_BT_WHITE_LIST b = white_list b.
Proof.
  unfold full. intros H. unfold sys_get_bt_white_list.
  change ((MAX_BT_WHITE_LIST <? MAX_BT_WHITE_LIST)%nat) with false.
  change ((MAX_BT_WHITE_LIST =? 0)%nat) with false. cbv iota.
  rewrite take_ge by (rewrite H; done). by rewrite drop_ge, app_nil_r.
Qed.

Lemma set_full l b :
  length l = MAX_BT_WHITE_LIST -> sys_set_bt_white_list l MAX_BT_WHITE_LIST b = set_white_list l b.
Proof.
  intros H. unfold sys_set_bt_white_list.
  change ((MAX_BT_WHITE_LIST <? MAX_BT_WHITE_LIST)%nat) with false.
  change ((MAX_BT_WHITE_LIST =? 0)%nat) with false. cbv iota.
  rewrite Nat.sub_diag, app_nil_r, take_ge by lia. done.
Qed.

Lemma take_turn_full i b :
  full b -> (i < MAX_BT_WHITE_LIST)%nat -> take_turn i b = set_white_list (to_the_end i (white_list b)) b.
Proof.
  intros Hb Hi. unfold take_turn. rewrite get_full by done.
  unfold full in Hb. rewrite <- Hb at 1. rewrite refresh_to_the_end by (rewrite Hb; done).
  apply set_full. rewrite to_the_end_length by (rewrite Hb; done). done.
Qed.

Lemma pick_device_bound b i p : full b -> pick_device big D b = Some (i, p) -> (i < MAX_BT_WHITE_LIST)%nat.
Proof.
  intros Hb (n & a & -> & Hl & _)%pick_from_first. cbn. apply lookup_lt_Some in Hl.
  unfold full in Hb. rewrite length_take, Hb in Hl. lia.
Qed.

End turns.

Lemma free_slot_loop_frame n b :
  snd (free_slot_loop n b) = set_g_con_idx_coutnt (g_con_idx_coutnt (snd (free_slot_loop n b))) b.
Proof.
  revert b. induction n as [|n IH]; intros b; cbn [free_slot_loop]; [by destruct b|].
  case_match; [done|]. rewrite IH at 1. done.
Qed.

(** ** What a label does *)

Section labels.
Context (big : bool) (D : dbus).

Lemma do_label_cases l w w' :
  do_label big D l w = Some w' ->
  w_ended w = None /\
  match l with
  | LSecond E => w_pass w = None /\ w' = periodic_second big D E w
  | LPassTimeout => exists i p, w_pass w = Some (i, p)
      /\ w' = after_pass false (set_w_pass None (on_ble (connect_timeout i) w))
  | LPassDone => exists i p, w_pass w = Some (i, p)
      /\ w' = after_pass true (set_w_pass None (on_ble (connect_done i p) w))
  | LProperty t p n v => w' = property_changed big D t p n v w
  | LAdded p => w' = proxy_added D p w
  | LRemoved p => w' = proxy_removed D p w
  | LConnectReply k e p => w' = put (msg_reply_for_bt_connect k e p (w_ble w)) w
  | LDisconnectReply i k e p => w' = on_ble (msg_reply_for_bt_disconnect i k e p) w
  | LWhiteList a => w' = on_ble (sys_set_bt_white_list a MAX_BT_WHITE_LIST) w
  | LDisconnect i id c k => w_cmd w = None /\ command_disconnect D i id c k w = Some w'
  | LDisconnectTimeout => exists i p, w_cmd w = Some (i, p)
      /\ w' = set_w_cmd None (put (disconnect_timeout i p (w_ble w)) w)
  | LDisconnectDone => exists i p, w_cmd w = Some (i, p)
      /\ w' = set_w_cmd None (put (disconnect_tail i p (w_ble w)) w)
  | LEvent E => take_event D E w = Some w'
  | LEventTimeout => event_timeout w = Some w'
  | LRestart E r a => w_pass w = None /\ w_cmd w = None /\ w' = restart_dbus D E r a w
  | LCheck E pw di => w' = check_adapter D E pw di w
  | LBusLost => w' = disconnect_callback w
  | LSwToClient E => w' = sw_to_client D E w
  | LSwToServer => w' = sw_to_server w
  | LSwDisconnect c k => w_cmd w = None
      /\ exists i, command_disconnect D i None c k (set_w_switch (Some (S i)) w) = Some w'
  | LSwDone E r => w' = sw_to_server_done D E r w
  end.
Proof.
  unfold do_label. destruct (bool_decide (w_ended w <> None)) eqn:He; [done|].
  apply bool_decide_eq_false, dec_stable in He. intros H. split; [done|]. revert H. unfold next_command.
  destruct (w_pass w) as [[? ?]|], (w_cmd w) as [[? ?]|]; destruct l; try done; cbn [bool_decide andb].
  all: try (case_match; [|done]); try (case_match; [done|]); try (by intros <-%(inj Some); eauto); eauto.
  all: destruct (w_switch w) as [k|]; [|done]; cbn [mbind option_bind]; case_match; [|done]; eauto.
Qed.

Lemma command_disconnect_cases i id c k w w' :
  command_disconnect D i id c k w = Some w' ->
  exists r o, bt_con_n_disconnect_from_dev D i id c k (w_ble w) = Some (r, o) /\ w_ble w' = fst o
    /\ w_pass w' = w_pass w /\ w_cmd w' = match r with DiscWaits j p => Some (j, p) | _ => w_cmd w end.
Proof.
  unfold command_disconnect. destruct (bt_con_n_disconnect_from_dev _ _ _ _ _ _) as [[r o]|]; [|done].
  cbn [mbind option_bind]. intros <-%(inj Some). exists r, o. by destruct r.
Qed.

End labels.

(** ** What a run does to the white list *)

Section run_turns.
Context (big : bool) (D : dbus).

(** The state in which a label looks for a device, if it does. *)
Definition pass_view (l : label) (w : world) : option ble :=
  match l with
  | LSecond E =>
      if restart_dbus_required w || negb (bool_decide (bt_role (w_ble w) = BT_ROLE_CLIENT)) || bt_sw_in_progress w
         || bool_decide (hld_proxy_adapter1 w = None) || negb ((w_cnt_s w + 1) mod 8 =? 0)
      then None
      else
        match free_slot_loop CONFIG_BLE_CONNECTION_MAX_NUM (w_ble w) with
        | (Some _, b) =>
            if is_con_in_process b then None
            else Some (snd (bt_con_n_dev_queue_periodic_refresh (now E) (set_is_con_in_process true b)))
        | (None, _) => None
        end
  | _ => None
  end.

(** The state and the choice, when a device is found. *)
Definition turn (l : label) (w : world) : option (ble * (nat * proxy)) :=
  b ← pass_view l w; c ← pick_device big D b; Some (b, c).

Lemma white_list_free n b : white_list (snd (free_slot_loop n b)) = white_list b.
Proof. by rewrite free_slot_loop_frame. Qed.

Lemma call_connect_white_list E i p b :
  white_list (fst (snd (call_connect D E i p b))) = white_list b.
Proof. unfold call_connect, pass_exit, upd_slot. ble_cases. Qed.

Lemma lookup_failed_white_list E b : white_list (lookup_failed E b) = white_list b.
Proof.
  unfold lookup_failed, bt_con_n_connect_num_fetch, bt_con_n_note_proxy_lookup_failure,
    bt_con_n_reset_proxy_recovery_state. ble_cases.
Qed.

Lemma after_pass_white_list ok w : white_list (w_ble (after_pass ok w)) = white_list (w_ble w).
Proof. unfold after_pass, bt_con_n_take_proxy_recovery_required. ble_cases. Qed.

Lemma start_pass_white_list E w :
  white_list (w_ble (start_pass big D E w)) =
  match free_slot_loop CONFIG_BLE_CONNECTION_MAX_NUM (w_ble w) with
  | (Some _, b) =>
      if is_con_in_process b then white_list (w_ble w)
      else
        let b := snd (bt_con_n_dev_queue_periodic_refresh (now E) (set_is_con_in_process true b)) in
        match pick_device big D b with
        | None => white_list (w_ble w)
        | Some (i, _) => white_list (take_turn i b)
        end
  | (None, _) => white_list (w_ble w)
  end.
Proof.
  unfold start_pass, bt_con_n_connect_to_dev.
  pose proof (white_list_free CONFIG_BLE_CONNECTION_MAX_NUM (w_ble w)) as Hwl.
  destruct (free_slot_loop CONFIG_BLE_CONNECTION_MAX_NUM (w_ble w)) as [[tmp|] b]; cbn in Hwl;
    [|by rewrite after_pass_white_list].
  destruct (is_con_in_process b); [by rewrite after_pass_white_list|].
  cbn [snd]. cbv zeta. destruct (pick_device big D _) as [[i p]|].
  - match goal with |- context [call_connect D E tmp p ?x] =>
      pose proof (call_connect_white_list E tmp p x) as Hc;
      destruct (call_connect D E tmp p x) as [r [b' acts]]
    end. cbn in Hc. unfold bt_con_n_reset_proxy_recovery_state in Hc. cbn in Hc.
    destruct r; [rewrite after_pass_white_list|]; done.
  - rewrite after_pass_white_list. cbn. rewrite lookup_failed_white_list. done.
Qed.

Lemma add_proxy_ble p w : exists q, w_ble (snd (sys_add_proxy D p w)) = set_event_queue q (w_ble w).
Proof.
  assert (exists q, w_ble w = set_event_queue q (w_ble w)) as Hw by (exists (event_queue (w_ble w)); by destruct (w_ble w)).
  unfold sys_add_proxy. case_match; [|done]. case_match; [case_match; [done|by eexists]|].
  repeat (case_match; [try done; by eexists|]). done.
Qed.

Lemma server_connected_ble p n v w : exists q, w_ble (server_connected D p n v w) = set_event_queue q (w_ble w).
Proof.
  unfold server_connected. case_match; [apply add_proxy_ble|].
  exists (event_queue (w_ble w)). by destruct (w_ble w).
Qed.

Lemma property_changed_white_list t p n v w :
  white_list (w_ble (property_changed big D t p n v w)) = white_list (w_ble w).
Proof.
  unfold property_changed. destruct (server_connected_ble p n v w) as [q Hq].
  set (w1 := server_connected D p n v w) in *. clearbody w1.
  trans (white_list (w_ble w1)); [|by rewrite Hq]. clear Hq.
  unfold bt_con_n_proxy_property_changed, bt_con_n_service_property_changed,
    bt_con_n_append_dev_proxy, on_connected, on_disconnected, bt_con_n_note_whitelist_proxy_activity.
  ble_cases.
Qed.

Lemma connect_reply_white_list k e p b :
  white_list (fst (msg_reply_for_bt_connect k e p b)) = white_list b.
Proof.
  unfold msg_reply_for_bt_connect, reply_error, reply_success, clear_stale_mac, clear_slot, upd_slot. ble_cases.
Qed.

Lemma disconnect_reply_white_list i k e p b :
  white_list (msg_reply_for_bt_disconnect i k e p b) = white_list b.
Proof. unfold msg_reply_for_bt_disconnect, clear_slot, upd_slot. ble_cases. Qed.

Lemma notify_ble E e m w : w_ble (snd (notifyProcessGeneralBlock D E e m w)) = w_ble w.
Proof. unfold notifyProcessGeneralBlock, send. ble_cases. Qed.

#[local] Arguments notifyProcessGeneralBlock : simpl never.

Lemma handle_event_ble E e w : w_ble (handle_event D E e w) = w_ble w.
Proof.
  unfold handle_event, get_gateway_id. ble_cases; by rewrite ?notify_ble.
Qed.

Lemma take_event_ble E w w' :
  take_event D E w = Some w' -> w_ble w' = set_event_queue (event_queue (w_ble w')) (w_ble w).
Proof.
  unfold take_event. destruct (restart_dbus_required w); [done|]. case_match. case_match; [|done].
  intros [= <-]. rewrite handle_event_ble. done.
Qed.

Lemma remove_proxy_ble p w :
  exists h, w_ble (snd (sys_remove_proxy D p w)) = set_hld_server_connected_proxy h (w_ble w).
Proof.
  assert (exists h, w_ble w = set_hld_server_connected_proxy h (w_ble w)) as Hw
    by (exists (hld_server_connected_proxy (w_ble w)); by destruct (w_ble w)).
  unfold sys_remove_proxy. case_match; [|done]. case_match; [case_match; [by eexists|done]|].
  repeat (case_match; [done|]). done.
Qed.

(** The queue of the events and the proxy of the server belong to the others. *)
Lemma added_ble p w :
  exists q1 q2, w_ble (proxy_added D p w) =
    set_event_queue q2 (snd (bt_con_n_append_chr_proxy_to_queue D p (set_event_queue q1 (w_ble w)))).
Proof.
  destruct (add_proxy_ble p w) as [q1 Ha]. unfold proxy_added. cbv zeta.
  set (w1 := snd (sys_add_proxy D p w)) in *. clearbody w1. exists q1. rewrite <- Ha.
  unfold bt_adv_n_set_adv_manager_proxy. case_match; cbn [snd w_ble on_ble set_w_ble on_proxies set_w_proxies].
  - exists (event_queue (snd (bt_con_n_append_chr_proxy_to_queue D p (w_ble w1)))).
    by destruct (snd (bt_con_n_append_chr_proxy_to_queue D p (w_ble w1))).
  - by eexists.
Qed.

Lemma removed_ble p w :
  exists h, w_ble (proxy_removed D p w) =
    snd (bt_con_n_remove_dev_proxy D p (snd (bt_con_n_remove_chr_proxy_from_queue D p
      (set_hld_server_connected_proxy h (w_ble w))))).
Proof.
  destruct (remove_proxy_ble p w) as [h Ha]. unfold proxy_removed. cbv zeta.
  set (w1 := snd (sys_remove_proxy D p w)) in *. clearbody w1. cbn [w_ble on_ble set_w_ble]. rewrite Ha. eauto.
Qed.

Lemma restart_ble E r a w :
  exists q, w_ble (restart_dbus D E r a w) =
  if r then
    set_g_con_idx_coutnt 0 (set_event_queue q
      (restore_white_list
        (sys_get_bt_white_list (replicate MAX_BT_WHITE_LIST zero_addr) MAX_BT_WHITE_LIST (set_g_fail_con_count 0 (w_ble w)))
        (init_management (set_g_fail_con_count 0 (w_ble w)))))
  else set_g_fail_con_count 0 (w_ble w).
Proof.
  unfold restart_dbus.
  generalize restore_white_list as f, (sys_get_bt_white_list (replicate MAX_BT_WHITE_LIST zero_addr) MAX_BT_WHITE_LIST) as g.
  intros f g. pose proof (notify_ble E) as HN. set (N := notifyProcessGeneralBlock D E) in *. clearbody N.
  pose proof (add_proxy_ble a) as HA. set (A := sys_add_proxy D a) in *. clearbody A.
  destruct r; cbn [negb].
  - match goal with |- context [A ?x] => destruct (HA x) as [q Hq] end. exists q. rewrite HN.
    cbn [w_ble set_restart_dbus_required on_ble set_w_ble]. rewrite HN, Hq.
    cbn [w_ble on_ble set_w_ble sys_init_app_management set_startup_ble_ready]. by rewrite HN.
  - exists []. cbn [w_ble set_w_ended]. by rewrite HN.
Qed.

Lemma restored_white_list l b :
  length l = MAX_BT_WHITE_LIST -> white_list (restore_white_list l b) = l.
Proof.
  intros Hl. unfold restore_white_list. rewrite set_full by done.
  assert (forall b1, white_list (bt_con_n_init_con_controller b1) = white_list b1) as Hi by done.
  assert (forall b1, white_list (bt_con_n_deinit_con_controller b1) = white_list b1) as Hd by done.
  by rewrite !Hi, Hd.
Qed.

Lemma restart_white_list E r a w :
  full (w_ble w) -> white_list (w_ble (restart_dbus D E r a w)) = white_list (w_ble w).
Proof.
  intros Hw. destruct (restart_ble E r a w) as [q ->]. destruct r; [|done].
  assert (forall x q b, white_list (set_g_con_idx_coutnt x (set_event_queue q b)) = white_list b) as -> by done.
  assert (forall b, white_list (set_g_fail_con_count 0 b) = white_list b) as Hb by done.
  rewrite restored_white_list; rewrite get_full; unfold full; rewrite ?Hb; done.
Qed.

Lemma sw_client_ble E w : exists r, w_ble (sw_to_client D E w) = set_bt_role r (w_ble w).
Proof.
  assert (w_ble w = set_bt_role (bt_role (w_ble w)) (w_ble w)) as Hw by (by destruct (w_ble w)).
  unfold sw_to_client. repeat (case_match; [by eexists|]).
  cbn [w_ble set_bt_sw_in_progress on_ble set_w_ble]. rewrite notify_ble. by eexists.
Qed.

Lemma sw_server_ble w : w_ble (sw_to_server w) = w_ble w.
Proof. unfold sw_to_server. by repeat case_match. Qed.

Lemma sw_done_ble E r w :
  w_ble (sw_to_server_done D E r w) = w_ble w
  \/ w_ble (sw_to_server_done D E r w) = set_bt_role BT_ROLE_SERVER (set_hld_server_connected_proxy None (w_ble w)).
Proof. unfold sw_to_server_done. destruct r; [right|by left]. cbn [negb]. by rewrite notify_ble. Qed.

Lemma event_timeout_ble w w' : event_timeout w = Some w' -> w_ble w' = w_ble w.
Proof. unfold event_timeout. intros Ht. repeat case_match; by simplify_eq. Qed.

Lemma check_ble E pw di w : w_ble (check_adapter D E pw di w) = w_ble w.
Proof. unfold check_adapter. ble_cases; by rewrite ?notify_ble. Qed.

Lemma disconnect_white_list i id c k b r o :
  bt_con_n_disconnect_from_dev D i id c k b = Some (r, o) -> white_list (fst o) = white_list b.
Proof.
  unfold bt_con_n_disconnect_from_dev, disconnect_exit, upd_slot. intros H. repeat case_match; by simplify_eq.
Qed.

Definition no_new_list (l : label) : Prop := match l with LWhiteList _ => False | _ => True end.

Lemma second_white_list E w :
  full (w_ble w) ->
  white_list (w_ble (periodic_second big D E w)) =
  match turn (LSecond E) w with
  | Some (b, (i, _)) => to_the_end i (white_list (w_ble w))
  | None => white_list (w_ble w)
  end.
Proof.
  intros Hw. unfold turn, pass_view, periodic_second. cbn [restart_dbus_required set_w_cnt_s w_ble bt_sw_in_progress hld_proxy_adapter1].
  destruct (restart_dbus_required w); [done|]. cbn [orb].
  destruct (negb _); [done|]. cbn [orb]. destruct (bt_sw_in_progress w); [done|]. cbn [orb].
  destruct (bool_decide (hld_proxy_adapter1 w = None)); [done|]. cbn [orb].
  destruct ((w_cnt_s w + 1) mod 8 =? 0); [|done]. cbn [negb].
  rewrite start_pass_white_list. change (w_ble (set_w_cnt_s _ w)) with (w_ble w).
  pose proof (white_list_free CONFIG_BLE_CONNECTION_MAX_NUM (w_ble w)) as Hwl.
  destruct (free_slot_loop CONFIG_BLE_CONNECTION_MAX_NUM (w_ble w)) as [[tmp|] b]; [|done]. cbn in Hwl.
  destruct (is_con_in_process b); [done|]. cbv zeta.
  set (b' := snd (bt_con_n_dev_queue_periodic_refresh _ _)).
  assert (white_list b' = white_list (w_ble w)) as Hb by exact Hwl. clearbody b'. cbn [mbind option_bind].
  destruct (pick_device big D b') as [[i p]|] eqn:Hp; [|done].
  rewrite take_turn_full.
  - cbn. by rewrite Hb.
  - unfold full. by rewrite Hb.
  - eapply pick_device_bound; [|done]. unfold full. by rewrite Hb.
Qed.

Lemma label_white_list l w w' :
  full (w_ble w) -> no_new_list l -> do_label big D l w = Some w' ->
  white_list (w_ble w') =
  match turn l w with
  | Some (b, (i, _)) => to_the_end i (white_list (w_ble w))
  | None => white_list (w_ble w)
  end.
Proof.
  intros Hw Hl [_ H]%do_label_cases. destruct l; try done.
  - destruct H as [_ ->]. by apply second_white_list.
  - destruct H as (i & p & _ & ->). by rewrite after_pass_white_list.
  - destruct H as (i & p & _ & ->). rewrite after_pass_white_list. cbn. unfold connect_done. by case_match.
  - subst. apply property_changed_white_list.
  - subst. destruct (added_ble p w) as (q1 & q2 & ->). cbn [white_list set_event_queue].
    unfold bt_con_n_append_chr_proxy_to_queue, upd_slot. by repeat case_match.
  - subst. destruct (removed_ble p w) as [h ->].
    unfold bt_con_n_remove_dev_proxy, bt_con_n_remove_chr_proxy_from_queue. ble_cases.
  - subst. apply connect_reply_white_list.
  - subst. apply disconnect_reply_white_list.
  - destruct H as [_ (r & o & Hd & -> & _)%command_disconnect_cases]. by apply disconnect_white_list in Hd.
  - destruct H as (i & p & _ & ->). cbn. unfold disconnect_tail, disconnect_exit, clear_slot, upd_slot. cbn. by case_match.
  - by destruct H as (i & p & _ & ->).
  - apply take_event_ble in H. by rewrite H.
  - apply event_timeout_ble in H. by rewrite H.
  - destruct H as (_ & _ & ->). by apply restart_white_list.
  - subst. by rewrite check_ble.
  - by subst.
  - subst. by destruct (sw_client_ble E w) as [r ->].
  - subst. by rewrite sw_server_ble.
  - destruct H as [_ [i (r & o & Hd & -> & _)%command_disconnect_cases]]. by apply disconnect_white_list in Hd.
  - subst. by destruct (sw_done_ble E registered w) as [->| ->].
Qed.

Lemma turn_white_list l w b c : turn l w = Some (b, c) -> white_list b = white_list (w_ble w).
Proof.
  unfold turn. destruct (pass_view l w) as [v|] eqn:Hv; [|done]. cbn [mbind option_bind].
  destruct (pick_device big D v); [|done]. intros [= -> ->]. revert Hv. unfold pass_view.
  destruct l; try done. case_match; [done|].
  pose proof (white_list_free CONFIG_BLE_CONNECTION_MAX_NUM (w_ble w)) as Hwl.
  destruct (free_slot_loop _ _) as [[tmp|] b2]; [|done]. case_match; [done|]. intros [= <-]. done.
Qed.

(** The passes of a run that find a device. *)
Fixpoint turns (ls : list label) (w : world) : list (ble * (nat * proxy)) :=
  match ls with
  | [] => []
  | l :: ls =>
      match do_label big D l w with
      | None => []
      | Some w' => (match turn l w with Some t => [t] | None => [] end ++ turns ls w')%list
      end
  end.

Lemma turn_full l w w' :
  full (w_ble w) -> no_new_list l -> do_label big D l w = Some w' -> full (w_ble w').
Proof.
  intros Hw Hl Hd. unfold full in *. rewrite (label_white_list l w w') by done.
  destruct (turn l w) as [[b [i p]]|] eqn:Ht; [|done]. rewrite to_the_end_length; [done|].
  pose proof (turn_white_list _ _ _ _ Ht) as Hwl. revert Ht. unfold turn.
  destruct (pass_view l w); [|done]. cbn [mbind option_bind]. destruct (pick_device big D b0) eqn:Hp; [|done]. intros [= -> ->].
  rewrite Hw. eapply pick_device_bound; [|done]. unfold full. by rewrite Hwl.
Qed.

Lemma turn_pick l w b c : turn l w = Some (b, c) -> pick_device big D b = Some c.
Proof.
  unfold turn. destruct (pass_view l w) as [v|]; [|done]. cbn [mbind option_bind].
  destruct (pick_device big D v) eqn:Hp; [|done]. by intros [= -> ->].
Qed.

(** An available address is not passed over by a later one. *)
Lemma turn_before l w b i p k a :
  full (w_ble w) -> turn l w = Some (b, (i, p)) -> white_list (w_ble w) !! k = Some a ->
  available big D a b <> None -> (i <= k)%nat /\ (i = k -> available big D a b = Some p).
Proof.
  intros Hw Ht Hk Ha. pose proof (turn_white_list _ _ _ _ Ht) as Hwl. apply turn_pick in Ht.
  unfold full in Hw. unfold pick_device in Ht. rewrite Hwl, take_ge in Ht by lia.
  apply pick_from_first in Ht as (n & a' & -> & Hl & Hav & Hm). cbn. split.
  - destruct (decide (n <= k)%nat); [done|]. exfalso. apply Ha. apply (Hm k); [lia|done].
  - intros <-. congruence.
Qed.

End run_turns.

(** C19: sensors take turns: in any run in which no new white list arrives, with
    the threads interleaved in any way, a sensor at place [k] of the list whose
    device can be connected at every pass that finds something is the one that
    is taken by one of the first [k + 1] of these passes. *)
Theorem every_sensor_gets_its_turn big D ls w w' k a :
  full (w_ble w) -> Forall no_new_list ls -> run big D ls w = Some w' ->
  white_list (w_ble w) !! k = Some a ->
  Forall (fun t => available big D a (fst t) <> None) (turns big D ls w) ->
  (k < length (turns big D ls w))%nat ->
  exists n b i p, (n <= k)%nat /\ turns big D ls w !! n = Some (b, (i, p))
    /\ white_list b !! i = Some a /\ available big D a b = Some p.
Proof.
  revert w k. induction ls as [|l ls IH]; intros w k Hw Hls Hrun Hk Hav Hlen; [cbn in Hlen; lia|].
  apply Forall_cons in Hls as [Hl Hls]. cbn [run turns] in *.
  destruct (do_label big D l w) as [w1|] eqn:Hd; [|done]. cbn [mbind option_bind] in Hrun.
  pose proof (turn_full _ _ _ _ _ Hw Hl Hd) as Hw1. pose proof (label_white_list _ _ _ _ _ Hw Hl Hd) as Hwl.
  destruct (turn big D l w) as [[b [i p]]|] eqn:Ht; cbn [app] in *.
  - apply Forall_cons in Hav as [Ha Hav]. cbn [fst] in Ha.
    destruct (turn_before _ _ _ _ _ _ _ _ _ Hw Ht Hk Ha) as [Hi Hp].
    destruct (decide (i = k)) as [->|Hne].
    + exists 0%nat, b, k, p. repeat split; [lia| |by apply Hp].
      by rewrite (turn_white_list _ _ _ _ _ _ Ht).
    + assert (white_list (w_ble w1) !! (k - 1)%nat = Some a) as Hk1.
      { rewrite Hwl, to_the_end_lookup_gt; [done|lia|]. by apply lookup_lt_Some in Hk. }
      destruct (IH w1 (k - 1)%nat Hw1 Hls Hrun Hk1 Hav ltac:(cbn in Hlen; lia)) as (n & b' & i' & p' & Hn & Hx).
      exists (S n), b', i', p'. split; [lia|done].
  - rewrite <- Hwl in Hk. apply (IH w1 k); done.
Qed.

Lemma every_sensor_gets_its_turn_witness :
  exists n b i p, (n <= 1)%nat /\ turns false demo_bus demo_two_passes (demo_after demo_start) !! n = Some (b, (i, p))
    /\ white_list b !! i = Some (demo_addr 2) /\ available false demo_bus (demo_addr 2) b = Some p.
Proof.
  apply (every_sensor_gets_its_turn false demo_bus demo_two_passes (demo_after demo_start)
           (demo_after (demo_start ++ demo_two_passes)) 1 (demo_addr 2)).
  - vm_compute. reflexivity.
  - repeat constructor.
  - vm_compute. reflexivity.
  - vm_compute. reflexivity.
  - vm_compute. repeat constructor; discriminate.
  - vm_compute. repeat constructor.
Defined.

(** ** Free slots *)

Lemma u32_mod4 x : u32 x mod 4 = x mod 4.
Proof. unfold u32. Z.div_mod_to_equations. lia. Qed.

Lemma free_slot_loop_spec n b :
  match fst (free_slot_loop n b) with
  | Some i => (i < CONFIG_BLE_CONNECTION_MAX_NUM)%nat /\ connected_proxy (slot_at i b) = None
  | None => forall j, (j < n)%nat ->
      connected_proxy (slot_at (Z.to_nat (u32 (g_con_idx_coutnt b + Z.of_nat j) mod 4)) b) <> None
  end.
Proof.
  revert b. induction n as [|n IH]; intros b; [intros j; cbn; lia|]. cbn [free_slot_loop].
  change (Z.of_nat CONFIG_BLE_CONNECTION_MAX_NUM) with 4.
  destruct (bool_decide _) eqn:E.
  - apply bool_decide_eq_true in E. split; [|done]. unfold CONFIG_BLE_CONNECTION_MAX_NUM.
    pose proof (Z.mod_pos_bound (g_con_idx_coutnt b) 4). lia.
  - apply bool_decide_eq_false in E. specialize (IH (set_g_con_idx_coutnt (u32 (g_con_idx_coutnt b + 1)) b)).
    destruct (fst _) as [i|]; [done|]. intros [|j] Hj.
    + by rewrite Z.add_0_r, u32_mod4.
    + specialize (IH j ltac:(lia)). cbn in IH. replace (g_con_idx_coutnt b + Z.of_nat (S j))
        with (g_con_idx_coutnt b + 1 + Z.of_nat j) by lia.
      rewrite u32_mod4 in IH |- *. rewrite Z.add_mod in IH by lia. rewrite u32_mod4 in IH.
      by rewrite <- Z.add_mod in IH by lia.
Qed.

(** the search for a slot, which goes on from where the last one ended and
    counts modulo 2^32, finds a free slot exactly when there is one, from any
    value of the counter; the slot it finds is free. *)
Theorem free_slot_is_found b :
  length (slots b) = CONFIG_BLE_CONNECTION_MAX_NUM ->
  match fst (free_slot_loop CONFIG_BLE_CONNECTION_MAX_NUM b) with
  | Some i => exists s, slots b !! i = Some s /\ connected_proxy s = None
  | None => Forall (fun s => connected_proxy s <> None) (slots b)
  end.
Proof.
  intros Hb. pose proof (free_slot_loop_spec CONFIG_BLE_CONNECTION_MAX_NUM b) as H.
  destruct (fst _) as [i|].
  - destruct H as [Hi H]. rewrite <- Hb in Hi. apply lookup_lt_is_Some in Hi as [s Hs]. exists s.
    split; [done|]. unfold slot_at in H. by rewrite (nth_lookup_Some _ _ _ _ Hs) in H.
  - apply list.Forall_forall. intros s [j Hs]%list_elem_of_lookup.
    pose proof (lookup_lt_Some _ _ _ Hs) as Hj. rewrite Hb in Hj. unfold CONFIG_BLE_CONNECTION_MAX_NUM in *.
    specialize (H (Z.to_nat ((Z.of_nat j - g_con_idx_coutnt b) mod 4))).
    pose proof (Z.mod_pos_bound (Z.of_nat j - g_con_idx_coutnt b) 4 ltac:(lia)).
    rewrite Z2Nat.id, u32_mod4 in H by lia. rewrite Z.add_mod_idemp_r in H by lia.
    replace (g_con_idx_coutnt b + (Z.of_nat j - g_con_idx_coutnt b)) with (Z.of_nat j) in H by lia.
    rewrite (Z.mod_small (Z.of_nat j)), Nat2Z.id in H by lia. unfold slot_at in H. rewrite (nth_lookup_Some _ _ _ _ Hs) in H.
    apply H. lia.
Qed.

Lemma free_slot_is_found_witness :
  length (slots (w_ble (demo_after demo_one))) = CONFIG_BLE_CONNECTION_MAX_NUM
  /\ match fst (free_slot_loop CONFIG_BLE_CONNECTION_MAX_NUM (w_ble (demo_after demo_one))) with
     | Some i => exists s, slots (w_ble (demo_after demo_one)) !! i = Some s /\ connected_proxy s = None
     | None => Forall (fun s => connected_proxy s <> None) (slots (w_ble (demo_after demo_one)))
     end.
Proof. split; [vm_compute; reflexivity|]. apply free_slot_is_found. vm_compute. reflexivity. Defined.
