(* ===== verification/BtSafety.v ===== *)
(** * BtSafety: what every run keeps

    The flag that only one operation is going on, the bits of the connections,
    and which proxy is where. *)

From S2P Require Import Prelude BtState BtDevices BtConn BtLoop BtDemo BtTurns.
From Stdlib Require Import ZArith Lia ZifyBool List Bool Ascii String.
From stdpp Require Import base list numbers option strings.
Open Scope Z_scope.

#[local] Arguments notifyProcessGeneralBlock : simpl never.
#[local] Arguments Z.testbit : simpl never.
#[local] Arguments CON_BIT_SET : simpl never.
#[local] Arguments CON_BIT_CLEAR : simpl never.

(** ** One operation at a time *)

Section busy.
Context (big : bool) (D : dbus).

Lemma busy_free n b : is_con_in_process (snd (free_slot_loop n b)) = is_con_in_process b.
Proof. by rewrite free_slot_loop_frame. Qed.

Lemma busy_call E i p b r o :
  call_connect D E i p b = (r, o) -> is_con_in_process (fst o) = true -> r <> PassError.
Proof. unfold call_connect, pass_exit, upd_slot. intros H. repeat case_match; simplify_eq; done. Qed.

Lemma busy_reply k e p b :
  is_con_in_process (fst (msg_reply_for_bt_connect k e p b)) = true -> is_con_in_process b = true.
Proof.
  unfold msg_reply_for_bt_connect, reply_error, reply_success, clear_stale_mac, clear_slot, upd_slot. ble_cases.
Qed.

Lemma busy_property t p n v w :
  is_con_in_process (w_ble (property_changed big D t p n v w)) = is_con_in_process (w_ble w).
Proof.
  unfold property_changed. destruct (server_connected_ble D p n v w) as [q Hq].
  set (w1 := server_connected D p n v w) in *. clearbody w1.
  trans (is_con_in_process (w_ble w1)); [|by rewrite Hq]. clear Hq.
  unfold bt_con_n_proxy_property_changed, bt_con_n_service_property_changed,
    bt_con_n_append_dev_proxy, on_connected, on_disconnected, bt_con_n_note_whitelist_proxy_activity.
  ble_cases.
Qed.

Lemma add_threads p w :
  w_pass (snd (sys_add_proxy D p w)) = w_pass w /\ w_cmd (snd (sys_add_proxy D p w)) = w_cmd w.
Proof. unfold sys_add_proxy. by repeat case_match. Qed.

Lemma property_threads t p n v w :
  w_pass (property_changed big D t p n v w) = w_pass w /\ w_cmd (property_changed big D t p n v w) = w_cmd w.
Proof.
  unfold property_changed.
  assert (w_pass (server_connected D p n v w) = w_pass w /\ w_cmd (server_connected D p n v w) = w_cmd w) as [<- <-].
  { unfold server_connected. case_match; [apply add_threads|done]. }
  by destruct (bt_con_n_proxy_property_changed _ _ _ _) as [? [? ?]].
Qed.

Lemma busy_after ok w : is_con_in_process (w_ble (after_pass ok w)) = is_con_in_process (w_ble w).
Proof. unfold after_pass, bt_con_n_take_proxy_recovery_required. ble_cases. Qed.

Lemma after_pass_threads ok w : w_pass (after_pass ok w) = w_pass w /\ w_cmd (after_pass ok w) = w_cmd w.
Proof. unfold after_pass, bt_con_n_take_proxy_recovery_required. ble_cases. Qed.

Definition busy_ok (w : world) : Prop :=
  is_con_in_process (w_ble w) = true -> w_pass w <> None \/ w_cmd w <> None.

Lemma busy_ok_start E w : busy_ok w -> busy_ok (start_pass big D E w).
Proof.
  unfold start_pass. destruct (bt_con_n_connect_to_dev big D E (w_ble w)) as [r [b acts]] eqn:Hc.
  destruct r as [|i p]; [|intros _ _; by left].
  unfold busy_ok. rewrite busy_after. destruct (after_pass_threads false (set_w_asked (w_asked w ++ acts) (set_w_ble b w))) as [-> ->].
  cbn [w_ble w_pass w_cmd set_w_asked set_w_ble].
  intros Hw Hb. apply Hw. revert Hc. unfold bt_con_n_connect_to_dev.
  pose proof (busy_free CONFIG_BLE_CONNECTION_MAX_NUM (w_ble w)) as Hf.
  destruct (free_slot_loop _ _) as [[tmp|] b1]; cbn in Hf; [|intros [= <- <-]; congruence].
  destruct (is_con_in_process b1) eqn:Hb1; [congruence|].
  destruct (pick_device big D _) as [[i p]|].
  - intros Hc%busy_call; [done|done].
  - intros [= <- <-]. unfold lookup_failed in Hb. revert Hb. by repeat case_match.
Qed.

Lemma notify_only_sends E e m w :
  snd (notifyProcessGeneralBlock D E e m w) =
  set_w_sent (w_sent (snd (notifyProcessGeneralBlock D E e m w))) w.
Proof. unfold notifyProcessGeneralBlock, send. destruct w. ble_cases. Qed.

Lemma notify_threads E e m w :
  w_pass (snd (notifyProcessGeneralBlock D E e m w)) = w_pass w
  /\ w_cmd (snd (notifyProcessGeneralBlock D E e m w)) = w_cmd w.
Proof. by rewrite notify_only_sends. Qed.

Lemma handle_event_threads E e w :
  w_pass (handle_event D E e w) = w_pass w /\ w_cmd (handle_event D E e w) = w_cmd w.
Proof. unfold handle_event, get_gateway_id. ble_cases; by rewrite notify_only_sends. Qed.

Lemma take_event_threads E w w' :
  take_event D E w = Some w' -> w_pass w' = w_pass w /\ w_cmd w' = w_cmd w.
Proof.
  unfold take_event. case_match; [done|]. case_match. case_match; [|done]. intros <-%(inj Some).
  by destruct (handle_event_threads E b (set_w_ble (set_event_queue l (w_ble w)) w)).
Qed.

Lemma check_threads E pw di w :
  w_pass (check_adapter D E pw di w) = w_pass w /\ w_cmd (check_adapter D E pw di w) = w_cmd w.
Proof. unfold check_adapter. ble_cases; by rewrite notify_only_sends. Qed.

Lemma restart_busy E r a w :
  is_con_in_process (w_ble (restart_dbus D E r a w)) = true -> is_con_in_process (w_ble w) = true.
Proof. destruct (restart_ble D E r a w) as [q ->]. by destruct r. Qed.

Lemma added_threads p w : w_pass (proxy_added D p w) = w_pass w /\ w_cmd (proxy_added D p w) = w_cmd w.
Proof.
  destruct (add_threads p w) as [H1 H2]. unfold proxy_added, bt_adv_n_set_adv_manager_proxy. by case_match.
Qed.

Lemma removed_threads p w : w_pass (proxy_removed D p w) = w_pass w /\ w_cmd (proxy_removed D p w) = w_cmd w.
Proof.
  unfold proxy_removed. cbn [w_pass w_cmd on_ble set_w_ble]. unfold sys_remove_proxy. by repeat case_match.
Qed.

Lemma restart_threads E r a w :
  w_pass (restart_dbus D E r a w) = w_pass w /\ w_cmd (restart_dbus D E r a w) = w_cmd w.
Proof.
  unfold restart_dbus.
  generalize restore_white_list as f, (sys_get_bt_white_list (replicate MAX_BT_WHITE_LIST zero_addr) MAX_BT_WHITE_LIST) as g.
  intros f g. pose proof (notify_threads E) as HN. set (N := notifyProcessGeneralBlock D E) in *. clearbody N.
  pose proof (add_threads a) as HA. set (A := sys_add_proxy D a) in *. clearbody A.
  set (w1 := snd (N BT_DBUS_IS_NOT_READY 4294967295 _)).
  assert (w_pass w1 = w_pass w /\ w_cmd w1 = w_cmd w) as [<- <-]
    by exact (HN BT_DBUS_IS_NOT_READY 4294967295 (on_ble (set_g_fail_con_count 0) w)). clearbody w1.
  destruct r; cbn [negb]; [|done].
  match goal with |- context [A ?x] => pose proof (HA x) as Hx; set (w2 := snd (A x)) in *; clearbody w2 end.
  cbn [w_pass w_cmd on_ble set_w_ble sys_init_app_management set_startup_ble_ready set_w_gw_id set_bt_sw_in_progress
    set_hld_proxy_adapter1 on_proxies set_w_proxies] in Hx. destruct Hx as [<- <-].
  set (w3 := snd (N BT_EVENT_DISCONNECTION 4294967295 w2)).
  assert (w_pass w3 = w_pass w2 /\ w_cmd w3 = w_cmd w2) as [<- <-] by exact (HN BT_EVENT_DISCONNECTION 4294967295 w2).
  clearbody w3. exact (HN BT_EVENT_SW_TO_CLIENT 4294967295 (set_restart_dbus_required false (on_ble (set_g_con_idx_coutnt 0) w3))).
Qed.

Lemma sw_client_threads E w : w_pass (sw_to_client D E w) = w_pass w /\ w_cmd (sw_to_client D E w) = w_cmd w.
Proof. unfold sw_to_client. repeat (case_match; [done|]). exact (notify_threads E BT_EVENT_SW_TO_CLIENT 4294967295 w). Qed.

Lemma sw_server_threads w : w_pass (sw_to_server w) = w_pass w /\ w_cmd (sw_to_server w) = w_cmd w.
Proof. unfold sw_to_server. by repeat case_match. Qed.

Lemma sw_done_threads E r w :
  w_pass (sw_to_server_done D E r w) = w_pass w /\ w_cmd (sw_to_server_done D E r w) = w_cmd w.
Proof.
  unfold sw_to_server_done. destruct r; [|done]. cbn [negb]. match goal with |- context [notifyProcessGeneralBlock D E ?e ?m ?x] =>
    exact (notify_threads E e m x) end.
Qed.

(** What leaves the flag and the threads alone. *)
Lemma busy_same w w' :
  (is_con_in_process (w_ble w') = true -> is_con_in_process (w_ble w) = true) ->
  w_pass w' = w_pass w /\ w_cmd w' = w_cmd w -> busy_ok w -> busy_ok w'.
Proof. intros Hb [H1 H2] Hw H. rewrite H1, H2. apply Hw. by apply Hb. Qed.

Lemma busy_command i id c k w w' :
  w_cmd w = None -> command_disconnect D i id c k w = Some w' -> busy_ok w -> busy_ok w'.
Proof.
  intros Hc (r & o & Hd & Hb & Hp & Hm)%command_disconnect_cases Hw Hx.
  destruct r as [| |j p]; [| |by right; rewrite Hm]; rewrite Hp, Hm; apply Hw; rewrite Hb in Hx; revert Hx Hd;
    unfold bt_con_n_disconnect_from_dev, disconnect_exit, upd_slot; intros; repeat case_match; simplify_eq;
    cbn in *; congruence.
Qed.

Lemma busy_ok_label l w w' : busy_ok w -> do_label big D l w = Some w' -> busy_ok w'.
Proof.
  intros Hw [_ H]%do_label_cases. destruct l.
  - destruct H as [Hp ->]. unfold periodic_second.
    repeat (case_match; [exact Hw|]). case_match; [|exact Hw]. by apply busy_ok_start.
  - destruct H as (i & p & _ & ->). unfold busy_ok. by rewrite busy_after.
  - destruct H as (i & p & _ & ->). unfold busy_ok. rewrite busy_after. cbn. unfold connect_done. by case_match.
  - subst. apply busy_same with w; [by rewrite busy_property|apply property_threads|done].
  - subst. apply busy_same with w; [|apply added_threads|done]. destruct (added_ble D p w) as (q1 & q2 & ->).
    unfold bt_con_n_append_chr_proxy_to_queue, upd_slot. ble_cases.
  - subst. apply busy_same with w; [|apply removed_threads|done]. destruct (removed_ble D p w) as [h ->].
    unfold bt_con_n_remove_dev_proxy, bt_con_n_remove_chr_proxy_from_queue. ble_cases.
  - subst. apply busy_same with w; [apply busy_reply|done|done].
  - subst. apply busy_same with w; [|done|done]. cbn. unfold msg_reply_for_bt_disconnect, clear_slot, upd_slot. ble_cases.
  - subst. apply busy_same with w; [|done|done]. cbn [w_ble on_ble set_w_ble]. unfold sys_set_bt_white_list. by case_match.
  - destruct H as [Hc H]. by eapply busy_command.
  - by destruct H as (i & p & _ & ->).
  - by destruct H as (i & p & _ & ->).
  - apply busy_same with w; [|by eapply take_event_threads|done]. apply take_event_ble in H. by rewrite H.
  - apply busy_same with w; [|split|done]; revert H; unfold event_timeout; intros; repeat case_match; by simplify_eq.
  - destruct H as (_ & _ & ->). apply busy_same with w; [apply restart_busy|apply restart_threads|done].
  - subst. apply busy_same with w; [by rewrite check_ble|apply check_threads|done].
  - by subst.
  - subst. apply busy_same with w; [|apply sw_client_threads|done]. by destruct (sw_client_ble D E w) as [r ->].
  - subst. apply busy_same with w; [by rewrite sw_server_ble|apply sw_server_threads|done].
  - destruct H as (Hc & i & H). by eapply busy_command; [|exact H|].
  - subst. apply busy_same with w; [|apply sw_done_threads|done]. by destruct (sw_done_ble D E registered w) as [->| ->].
Qed.

End busy.

(** What a run keeps if every label keeps it. *)
Lemma run_keeps big D (P : world -> Prop) :
  (forall l w w', P w -> do_label big D l w = Some w' -> P w') ->
  forall ls w w', P w -> run big D ls w = Some w' -> P w'.
Proof.
  intros HP ls. induction ls as [|l ls IH]; intros w w' Hw; cbn [run]; [by intros [= <-]|].
  destruct (do_label big D l w) as [w1|] eqn:Hd; [|done]. cbn [mbind option_bind]. apply IH. by eapply HP.
Qed.

(** C21: the flag that keeps passes and disconnections apart is never left behind: in
    every state that a run of the process reaches, with time-outs, late
    replies, failing calls and restarts of the bus, it is set only while one of
    the two threads waits for BlueZ. So the thread of the commands, which
    waits for the flag without a limit, waits at most as long as a connection does. *)
Theorem flag_means_waiting big D ls w :
  run big D ls started = Some w -> is_con_in_process (w_ble w) = true ->
  w_pass w <> None \/ w_cmd w <> None.
Proof.
  intros Hr. change (busy_ok w). revert Hr. apply run_keeps; [|done].
  intros l w1 w2. apply busy_ok_label.
Qed.

Lemma flag_means_waiting_witness :
  is_con_in_process (w_ble (demo_after (demo_waiting ++ [LSecond (demo_env 11)]))) = true
  /\ (w_pass (demo_after (demo_waiting ++ [LSecond (demo_env 11)])) <> None
      \/ w_cmd (demo_after (demo_waiting ++ [LSecond (demo_env 11)])) <> None).
Proof.
  split; [vm_compute; reflexivity|].
  apply (flag_means_waiting false demo_bus (demo_waiting ++ [LSecond (demo_env 11)])); vm_compute; reflexivity.
Defined.

(** ** Which proxy is where *)

(** Slot [i] has [p], as its connection or as what it waits for. *)
Definition at_slot (b : ble) (i : nat) (p : proxy) : Prop :=
  exists s, slots b !! i = Some s /\ (holds p s \/ awaits p s).

(** An operation that puts no proxy into a slot and leaves the global parameter. *)
Definition tame (b b' : ble) : Prop :=
  g_con_method_param b' = g_con_method_param b /\ forall i p, at_slot b' i p -> at_slot b i p.

(** One that puts [p] into slot [i]. *)
Definition puts (i : nat) (p : proxy) (b b' : ble) : Prop :=
  forall j q, at_slot b' j q -> at_slot b j q \/ (j = i /\ q = p).

Lemma tame_refl b : tame b b.
Proof. by split. Qed.

Lemma tame_trans b1 b2 b3 : tame b1 b2 -> tame b2 b3 -> tame b1 b3.
Proof. intros [H1 H2] [H3 H4]. split; [congruence|auto]. Qed.

Lemma tame_eq b b1 b2 :
  slots b2 = slots b1 -> g_con_method_param b2 = g_con_method_param b1 -> tame b b1 -> tame b b2.
Proof. intros Hs Hp [H1 H2]. split; [congruence|]. intros i p. unfold at_slot. rewrite Hs. apply H2. Qed.

Lemma tame_set (f : ble -> ble) b b1 :
  (forall b, slots (f b) = slots b) -> (forall b, g_con_method_param (f b) = g_con_method_param b) ->
  tame b b1 -> tame b (f b1).
Proof. intros Hs Hp. by apply tame_eq. Qed.

Lemma at_upd_slot i f b j p :
  at_slot (upd_slot i f b) j p ->
  (j <> i /\ at_slot b j p) \/ (j = i /\ exists s, slots b !! i = Some s /\ (holds p (f s) \/ awaits p (f s))).
Proof.
  intros (s & Hs & Hp). cbn in Hs. destruct (decide (i = j)) as [<-|Hne].
  - right. split; [done|]. rewrite list_lookup_alter_eq in Hs.
    destruct (slots b !! i) as [s0|]; [|done]. cbn in Hs. injection Hs as <-. by exists s0.
  - left. rewrite list_lookup_alter_ne in Hs by done. split; [done|]. by exists s.
Qed.

Definition slot_tame (f : slot -> slot) : Prop := forall s p, holds p (f s) \/ awaits p (f s) -> holds p s \/ awaits p s.

Lemma tame_upd_slot b b1 i f : slot_tame f -> tame b b1 -> tame b (upd_slot i f b1).
Proof.
  intros Hf [H1 H2]. split; [done|]. intros j p [[_ H]|[-> (s & Hs & Hp)]]%at_upd_slot; [by apply H2|].
  apply H2. exists s. split; [done|]. by apply Hf.
Qed.

Lemma deinit_awaits p c : cv_proxy (app_com_deinit_pthread_cond_var_ctr c) = Some p -> cv_proxy c = Some p.
Proof. unfold app_com_deinit_pthread_cond_var_ctr. by case_match. Qed.

(** Slot updates by what they do to the proxies. *)
Ltac slot_tame :=
  intros ? ?; unfold holds, awaits, upd_cond; cbn; repeat case_match; cbn; intros [?|?]; try done; try (by left); try (by right);
  right; by apply deinit_awaits.

Ltac tame_step :=
  first
  [ match goal with |- tame ?b ?b => apply tame_refl end
  | match goal with |- tame _ (upd_slot _ _ _) => apply tame_upd_slot; [slot_tame|] end
  | match goal with |- tame _ (clear_slot _ _) => unfold clear_slot end
  | match goal with |- tame ?b (?f ?x ?b1) => apply (tame_set (f x) b b1); [done|done|] end ].
Ltac tame := cbn [fst snd]; repeat tame_step.

Section tame_ops.
Context (big : bool) (D : dbus).

Lemma tame_timeout i b : tame b (connect_timeout i b).
Proof. unfold connect_timeout, pass_exit. tame. Qed.

Lemma tame_done i p b : tame b (connect_done i p b).
Proof. unfold connect_done. case_match; tame. Qed.

Lemma tame_reply_error idx p b : tame b (fst (reply_error idx p b)).
Proof.
  unfold reply_error. cbn [fst]. case_match; tame.
Qed.

Lemma tame_disconnect_reply i k e p b : tame b (msg_reply_for_bt_disconnect i k e p b).
Proof.
  unfold msg_reply_for_bt_disconnect. do 3 (case_match; [apply tame_refl|]). case_match; [by tame|].
  case_match; tame.
Qed.

Lemma first_slot_at (P : slot -> Prop) `{forall s, Decision (P s)} b i :
  first_slot P b = Some i -> exists s, slots b !! i = Some s /\ P s.
Proof.
  unfold first_slot. destruct (list_find P (slots b)) as [[j s]|] eqn:Hf; [|done]. cbn.
  intros [= ->]. apply list_find_Some in Hf as (Hs & Hp & _). by exists s.
Qed.

(** A proxy that is put where it is already. *)
Lemma puts_there i p b b' : puts i p b b' -> at_slot b i p -> forall j q, at_slot b' j q -> at_slot b j q.
Proof. intros Hp Hi j q Hj. destruct (Hp j q Hj) as [H|[-> ->]]; done. Qed.

Lemma tame_connected p b : tame b (snd (on_connected p b)).
Proof.
  unfold on_connected. destruct (first_slot (awaits p) b) as [i|] eqn:Hf; [|apply tame_refl].
  apply first_slot_at in Hf as (s & Hs & Hp). cbn [snd].
  apply (tame_eq _ (upd_slot i (set_connected_proxy (Some p)) b)); [done|done|]. split; [done|].
  apply puts_there with i p; [|exists s; auto].
  intros j q [[_ H]|[-> (s' & Hs' & [Hq|Hq])]]%at_upd_slot; [by left| |].
  - right. unfold holds in Hq. cbn in Hq. naive_solver.
  - left. exists s'. split; [done|]. by right.
Qed.

Lemma tame_disconnected p b : tame b (fst (snd (on_disconnected p b))).
Proof.
  unfold on_disconnected.
  assert (tame b (match first_slot (holds p) b with
    | None => b
    | Some i => upd_slot i (set_fg_is_services_resolved false) (clear_slot i (set_con_proxy_idx i b)) end)) as H1.
  { case_match; tame. }
  destruct (first_slot (holds p) b) as [i|]; cbn [fst snd]; destruct (list_find _ _) as [[j h]|]; cbn [andb fst snd]; try done.
  all: repeat (tame_step; []); try done.
Qed.

Lemma tame_service p n v b : tame b (snd (bt_con_n_service_property_changed p n v b)).
Proof.
  unfold bt_con_n_service_property_changed. case_match; [tame|]. destruct v as [[]|]; [|tame..]. cbn [snd].
  repeat case_match; tame.
Qed.

Lemma tame_rssi t p n b : tame b (snd (bt_con_n_append_dev_proxy big D t p n b)).
Proof.
  unfold bt_con_n_append_dev_proxy, bt_con_n_note_whitelist_proxy_activity. repeat case_match; cbn [snd]; tame.
Qed.

Lemma tame_property t p n v w : tame (w_ble w) (w_ble (property_changed big D t p n v w)).
Proof.
  unfold property_changed. destruct (server_connected_ble D p n v w) as [q Hq].
  set (w1 := server_connected D p n v w) in *. clearbody w1.
  apply tame_trans with (w_ble w1); [rewrite Hq; tame|]. clear Hq w. rename w1 into w.
  destruct (bt_con_n_proxy_property_changed p n v (w_ble w)) as [r [b acts]] eqn:Hc. cbn [w_ble set_w_asked set_w_ble].
  eapply tame_trans; [|apply tame_rssi]. eapply tame_trans; [|apply tame_service].
  revert Hc. unfold bt_con_n_proxy_property_changed. case_match; [intros [= _ <- _]; tame|].
  destruct v as [[]|]; [| |intros [= _ <- _]; tame]; case_match.
  - pose proof (tame_connected p (w_ble w)) as Ht. destruct (on_connected p (w_ble w)). by intros [= _ <- _].
  - intros [= _ <- _]; tame.
  - pose proof (tame_disconnected p (w_ble w)) as Ht. intros Hc. by rewrite Hc in Ht.
  - intros [= _ <- _]; tame.
Qed.

Lemma tame_added p w : tame (w_ble w) (w_ble (proxy_added D p w)).
Proof.
  destruct (added_ble D p w) as (q1 & q2 & ->). unfold bt_con_n_append_chr_proxy_to_queue.
  repeat case_match; cbn [snd]; tame.
Qed.

Lemma remove_chr_slots p l j s :
  remove_chr p l !! j = Some s ->
  exists s0, l !! j = Some s0 /\ connected_proxy s = connected_proxy s0 /\ pt_cond_var s = pt_cond_var s0.
Proof.
  revert j. induction l as [|s1 l IH]; intros j; [done|]. cbn.
  destruct (l_queue_remove_if _ _) as [[r|] q].
  - destruct j as [|j]; cbn; [|intros; by exists s]. intros [= <-]. exists s1. by repeat case_match.
  - destruct j as [|j]; cbn; [intros [= <-]; by exists s1|]. apply IH.
Qed.

Lemma tame_removed p w : tame (w_ble w) (w_ble (proxy_removed D p w)).
Proof.
  destruct (removed_ble D p w) as [h ->]. set (b0 := set_hld_server_connected_proxy h (w_ble w)).
  assert (tame (w_ble w) b0) as H0 by (subst b0; tame). clearbody b0. eapply tame_trans; [exact H0|].
  apply tame_trans with (snd (bt_con_n_remove_chr_proxy_from_queue D p b0)).
  - unfold bt_con_n_remove_chr_proxy_from_queue. case_match; [tame|]. case_match.
    + split; [done|]. intros i q (s & (s0 & Hs0 & Hk1 & Hk2)%remove_chr_slots & Hq). exists s0. split; [done|].
      unfold holds, awaits in *. by rewrite <- Hk1, <- Hk2.
    + destruct (l_queue_remove_if _ _). repeat case_match; cbn [snd]; tame.
  - unfold bt_con_n_remove_dev_proxy. repeat case_match; cbn [snd]; tame.
Qed.

Lemma tame_disconnect i id c k b r o : bt_con_n_disconnect_from_dev D i id c k b = Some (r, o) -> tame b (fst o).
Proof.
  unfold bt_con_n_disconnect_from_dev, disconnect_exit. case_match; [intros [= _ <-]; apply tame_refl|].
  case_match; [done|]. cbv zeta. change (slot_at i (set_is_con_in_process true b)) with (slot_at i b).
  destruct (connected_proxy (slot_at i b)) as [p|] eqn:Hp; [|intros [= _ <-]; cbn [fst]; tame].
  case_match; [intros [= _ <-]; cbn [fst]; tame|].
  assert (tame b (upd_slot i (upd_cond (fun c => set_cv_proxy (Some p) (set_op_done false c)))
    (set_is_con_in_process true b))) as Ht.
  { apply tame_trans with (set_is_con_in_process true b); [tame|]. split; [done|].
    assert (at_slot b i p) as Hi.
    { unfold slot_at in Hp. destruct (slots b !! i) as [s|] eqn:Hs.
      - rewrite (nth_lookup_Some _ _ _ _ Hs) in Hp. exists s. split; [done|]. by left.
      - rewrite nth_overflow in Hp by (by apply lookup_ge_None). done. }
    apply puts_there with i p; [|done].
    intros j q [[_ H']|[-> (s' & Hs' & [Hq|Hq])]]%at_upd_slot; [by left| |].
    - left. exists s'. split; [done|]. by left.
    - right. unfold awaits in Hq. cbn in Hq. naive_solver. }
  case_match; intros [= _ <-]; cbn [fst]; [|done].
  eapply tame_trans; [exact Ht|]. tame.
Qed.

Lemma tame_tail i p b : tame b (fst (disconnect_tail i p b)).
Proof. unfold disconnect_tail, disconnect_exit. cbn [fst]. tame. Qed.

Lemma tame_disconnect_timeout i p b : tame b (fst (disconnect_timeout i p b)).
Proof.
  unfold disconnect_timeout. eapply tame_trans; [|apply tame_tail]. case_match; tame.
Qed.

Lemma init_tame s p : holds p (init_slot s) \/ awaits p (init_slot s) -> awaits p s.
Proof.
  unfold holds, awaits, init_slot, app_com_init_pthread_cond_var_ctr. cbn.
  intros [?|H]; [done|]. revert H. by repeat case_match.
Qed.

Lemma deinit_tame s p : holds p (deinit_slot s) \/ awaits p (deinit_slot s) -> holds p s \/ awaits p s.
Proof.
  unfold deinit_slot. case_match; cbn; [|intros [?|?]; [by left|by right]].
  intros [?|Hq]; [done|]. right. by apply deinit_awaits.
Qed.

Lemma tame_map f b b' :
  (forall s p, holds p (f s) \/ awaits p (f s) -> holds p s \/ awaits p s) ->
  slots b' = map f (slots b) -> g_con_method_param b' = g_con_method_param b -> tame b b'.
Proof.
  intros Hf Hs Hp. split; [done|]. intros i p (s & H & Hq). rewrite Hs in H.
  rewrite list_lookup_fmap in H. destruct (slots b !! i) as [s0|] eqn:H0; [|done]. injection H as <-.
  exists s0. split; [done|]. by apply Hf.
Qed.

Lemma tame_restore l b : tame b (restore_white_list l b).
Proof.
  assert (forall b, tame b (bt_con_n_init_con_controller b)) as Hi.
  { intros b'. apply tame_map with init_slot; [|done..]. intros s p H. right. by apply init_tame. }
  unfold restore_white_list. eapply tame_trans; [|apply Hi]. eapply tame_trans; [|apply Hi].
  apply tame_trans with (sys_set_bt_white_list l MAX_BT_WHITE_LIST b).
  - unfold sys_set_bt_white_list. case_match; tame.
  - apply tame_map with deinit_slot; [|done..]. apply deinit_tame.
Qed.

Lemma tame_restart E r a w : tame (w_ble w) (w_ble (restart_dbus D E r a w)).
Proof.
  destruct (restart_ble D E r a w) as [q ->]. destruct r; [|tame]. do 2 tame_step.
  eapply tame_trans; [|apply tame_restore]. unfold init_management. tame.
Qed.

End tame_ops.

(** ** A sensor is in one slot *)

Definition one_place (b : ble) : Prop := forall p i j, at_slot b i p -> at_slot b j p -> i = j.

(** Nothing is late: a reply is that of the call that is waited for, and no
    device is called that a slot still waits for, as it does after a call that was
    refused or not answered in time. *)
Definition calm big D (l : label) (w : world) : Prop :=
  match l with
  | LConnectReply _ _ p => exists i, w_pass w = Some (i, p)
  | LSecond _ =>
      match turn big D l w with
      | Some (b, (_, p)) => Forall (fun s => ~ awaits p s) (slots b)
      | None => True
      end
  | _ => True
  end.

Fixpoint calm_run big D (ls : list label) (w : world) : Prop :=
  match ls with
  | [] => True
  | l :: ls => calm big D l w /\ match do_label big D l w with Some w' => calm_run big D ls w' | None => True end
  end.

Section one_place.
Context (big : bool) (D : dbus).

Lemma one_place_tame b b' : tame b b' -> one_place b -> one_place b'.
Proof. intros [_ Ht] Hb p i j Hi Hj. apply (Hb p); by apply Ht. Qed.

Lemma one_place_puts i p b b' :
  puts i p b b' -> (forall j, at_slot b j p -> j = i) -> one_place b -> one_place b'.
Proof.
  intros Hp Hi Hb q j k Hj Hk.
  destruct (Hp _ _ Hj) as [Hj'|[-> ->]], (Hp _ _ Hk) as [Hk'|[-> Hq]]; subst; auto.
  - by apply (Hb q).
  - symmetry. auto.
Qed.

Lemma puts_only i p b b' j :
  puts i p b b' -> (forall j, at_slot b j p -> j = i) -> at_slot b' j p -> j = i.
Proof. intros Hp Hi Hj. destruct (Hp _ _ Hj) as [H|[-> _]]; auto. Qed.

Lemma puts_tame i p b b1 b2 : puts i p b b1 -> tame b1 b2 -> puts i p b b2.
Proof. intros Hp [_ Ht] j q Hj. auto. Qed.

Lemma tame_puts i p b b1 b2 : tame b b1 -> puts i p b1 b2 -> puts i p b b2.
Proof. intros [_ Ht] Hp j q Hj. destruct (Hp _ _ Hj); auto. Qed.

Lemma puts_slot i p f b :
  (forall s q, holds q (f s) \/ awaits q (f s) -> holds q s \/ awaits q s \/ q = p) -> puts i p b (upd_slot i f b).
Proof.
  intros Hf j q [[_ H]|[-> (s & Hs & Hq)]]%at_upd_slot; [by left|].
  destruct (Hf _ _ Hq) as [H|[H| ->]]; [left; exists s; auto..|by right].
Qed.

Lemma init_puts_nothing i ok b c r :
  app_com_init_pthread_cond_var_ctr ok (pt_cond_var (slot_at i b)) = (r, c) ->
  tame b (upd_slot i (set_pt_cond_var c) b).
Proof.
  intros Hc. split; [done|]. intros j q [[_ H]|[-> (s & Hs & Hq)]]%at_upd_slot; [done|].
  exists s. split; [done|]. destruct Hq as [Hq|Hq]; [by left|]. right. unfold awaits in *. cbn in Hq.
  unfold slot_at in Hc. rewrite (nth_lookup_Some _ _ _ _ Hs) in Hc.
  revert Hc. unfold app_com_init_pthread_cond_var_ctr. repeat case_match; intros [= _ <-]; done.
Qed.

Lemma call_connect_puts E i p b r o :
  call_connect D E i p b = (r, o) -> puts i p b (fst o)
  /\ forall j q, r = PassWaits j q -> j = i /\ q = p /\ cm_idx (g_con_method_param (fst o)) = i.
Proof.
  unfold call_connect. destruct (app_com_init_pthread_cond_var_ctr _ _) as [ok c] eqn:Hc.
  apply init_puts_nothing in Hc. set (b1 := upd_slot i (set_pt_cond_var c) b) in *. clearbody b1.
  assert (forall b', tame b1 b' -> puts i p b b') as Hq.
  { intros b' H j q Hj. left. apply Hc, H, Hj. }
  assert (forall b', slots b' = slots b1 -> puts i p b b') as Hm.
  { intros b' Hs j q H. left. apply Hc. unfold at_slot in *. by rewrite <- Hs. }
  set (m0 := set_g_con_method_param (ConMethodParam i EmptyString)).
  set (ma := fun addr b1 => set_g_con_method_param (ConMethodParam i addr) (m0 b1)).
  case_match; [intros [= <- <-]; split; [apply Hq; tame|done]|].
  cbv zeta. destruct (get_address D p) as [addr|]; cycle 1.
  { intros [= <- <-]. split; [|done]. apply puts_tame with (m0 b1); [by apply Hm|]. unfold pass_exit. tame. }
  case_match.
  { intros [= <- <-]. split; [|done]. apply puts_tame with (m0 b1); [by apply Hm|]. unfold pass_exit. tame. }
  fold (ma addr b1). set (b2 := upd_slot i _ _). assert (puts i p b b2) as Hb2.
  { eapply tame_puts; [exact Hc|]. intros j q Hj.
    apply (puts_slot i p _ (ma addr b1)) in Hj; [done|].
    intros s q' [Hq'|Hq']; [by left|]. unfold awaits in Hq'. cbn in Hq'. right. right. congruence. }
  case_match; intros [= <- <-]; cbn [fst].
  - split; [|done]. eapply puts_tame; [exact Hb2|]. unfold pass_exit. tame.
  - split; [done|]. intros j q [= <- <-]. done.
Qed.

Lemma reply_success_puts idx mac p b :
  puts idx p b (fst (reply_success idx mac p b))
  /\ g_con_method_param (fst (reply_success idx mac p b)) = g_con_method_param b.
Proof.
  unfold reply_success.
  set (x := if bool_decide (connected_proxy (slot_at idx b) = None) then _ else _).
  assert (puts idx p b (snd x) /\ g_con_method_param (snd x) = g_con_method_param b) as [Hx Hm].
  { subst x. repeat case_match; cbn [snd]; (split; [|done]).
    - intros j q Hj. apply (puts_slot idx p (fun s => set_con_mac_addr mac (upd_cond (set_cv_proxy (Some p))
        (set_connected_proxy (Some p) s))) b); [|exact Hj].
      intros s q' [Hq|Hq]; unfold holds, awaits in *; cbn in Hq; right; right; congruence.
    - intros j q Hj. left. revert Hj. apply (tame_upd_slot b b); [slot_tame|apply tame_refl].
    - intros j q Hj. by left. }
  destruct x as [m b1]. cbn [fst snd] in *. split; [|by destruct m].
  eapply puts_tame; [exact Hx|]. destruct m; [|tame]. do 2 tame_step. split; [done|].
  intros j q (s & Hs & Hq). unfold clear_stale_mac in Hs. cbn in Hs. rewrite list_lookup_imap in Hs.
  destruct (slots b1 !! j) as [s0|] eqn:H0; [|done]. cbn in Hs. injection Hs as <-.
  exists s0. split; [done|]. revert Hq. by repeat case_match.
Qed.

(** While the pass waits, its device is nowhere but in its slot. *)
Definition placed (w : world) : Prop :=
  one_place (w_ble w) /\ forall i p, w_pass w = Some (i, p) ->
    cm_idx (g_con_method_param (w_ble w)) = i /\ forall j, at_slot (w_ble w) j p -> j = i.

Lemma placed_tame w w' :
  tame (w_ble w) (w_ble w') -> (w_pass w' = w_pass w \/ w_pass w' = None) -> placed w -> placed w'.
Proof.
  intros Ht Hp [H1 H2]. split; [by eapply one_place_tame|]. intros i p Hi.
  destruct Hp as [Hp|Hp]; [|congruence]. rewrite Hp in Hi. destruct (H2 i p Hi) as [H3 H4].
  destruct Ht as [Hm Ht]. split; [congruence|]. auto.
Qed.

Lemma reply_placed k e p w i :
  w_pass w = Some (i, p) -> placed w -> placed (put (msg_reply_for_bt_connect k e p (w_ble w)) w).
Proof.
  intros Hi Hw. pose proof Hw as [H1 H2]. destruct (H2 _ _ Hi) as [Hm Ho].
  unfold msg_reply_for_bt_connect. rewrite Hm. cbv zeta.
  do 4 (case_match; [apply placed_tame with w; [apply tame_refl|by left|done]|]).
  set (b1 := upd_slot i (upd_cond (set_op_done true)) (w_ble w)).
  assert (tame (w_ble w) b1) as Hb1 by (subst b1; tame).
  destruct e.
  - apply placed_tame with w; [|by left|done]. cbn [w_ble put set_w_asked set_w_ble].
    eapply tame_trans; [exact Hb1|]. apply tame_reply_error.
  - destruct (reply_success_puts i (cm_mac_addr (g_con_method_param (w_ble w))) p b1) as [Hp Hg].
    pose proof (tame_puts _ _ _ _ _ Hb1 Hp) as Hq. split; cbn [w_ble w_pass put set_w_asked set_w_ble].
    + by eapply one_place_puts.
    + intros i' p' Hi'. assert (i' = i /\ p' = p) as [-> ->] by (split; congruence).
      rewrite Hg. split; [done|]. intros j. by apply (puts_only i p (w_ble w)).
Qed.

End one_place.

Section calm.
Context (big : bool) (D : dbus).

Lemma pick_not_held b i p :
  pick_device big D b = Some (i, p) -> forall j s, slots b !! j = Some s -> ~ holds p s.
Proof.
  intros (n & a & _ & _ & Ha & _)%pick_from_first j s Hs Hh. revert Ha. unfold available.
  destruct (l_queue_find _ _) as [e|]; [|done]. destruct (is_duplicate _ _ _) eqn:Hd; [done|].
  intros <-%(inj Some). apply not_true_iff_false in Hd. apply Hd. unfold is_duplicate.
  apply existsb_exists. exists s. split.
  - apply list_elem_of_In, list_elem_of_lookup. by exists j.
  - apply orb_true_iff. right. by apply bool_decide_eq_true.
Qed.

Lemma tame_take_turn i b : tame b (bt_con_n_reset_proxy_recovery_state (take_turn i b)).
Proof.
  unfold bt_con_n_reset_proxy_recovery_state, take_turn.
  generalize (bt_connection_refresh_white_list (sys_get_bt_white_list (replicate MAX_BT_WHITE_LIST zero_addr)
    MAX_BT_WHITE_LIST b) MAX_BT_WHITE_LIST i) as l. intros l. unfold sys_set_bt_white_list. case_match; tame.
Qed.

Lemma tame_lookup_failed E b : tame b (lookup_failed E b).
Proof.
  unfold lookup_failed, bt_con_n_note_proxy_lookup_failure, bt_con_n_reset_proxy_recovery_state.
  destruct (bt_con_n_connect_num_fetch _ _ _). case_match; [case_match|]; tame.
Qed.

Lemma tame_after ok w : tame (w_ble w) (w_ble (after_pass ok w)).
Proof. unfold after_pass, bt_con_n_take_proxy_recovery_required. destruct ok; [apply tame_refl|]. case_match; cbn [w_ble set_w_ended set_w_ble]; tame. Qed.

Lemma after_placed ok w : placed w -> placed (after_pass ok w).
Proof. apply placed_tame; [apply tame_after|]. left. apply after_pass_threads. Qed.

Lemma tame_free n b : tame b (snd (free_slot_loop n b)).
Proof. rewrite free_slot_loop_frame. tame. Qed.

(** The state in which the call is made, and its result. *)
Lemma start_pass_placed E w :
  w_pass w = None -> placed w ->
  (forall tmp b i p, free_slot_loop CONFIG_BLE_CONNECTION_MAX_NUM (w_ble w) = (Some tmp, b) ->
    is_con_in_process b = false ->
    let v := snd (bt_con_n_dev_queue_periodic_refresh (now E) (set_is_con_in_process true b)) in
    pick_device big D v = Some (i, p) -> Forall (fun s => ~ awaits p s) (slots v)) ->
  placed (start_pass big D E w).
Proof.
  intros Hn Hw Hc. unfold start_pass, bt_con_n_connect_to_dev.
  pose proof (tame_free CONFIG_BLE_CONNECTION_MAX_NUM (w_ble w)) as Hf.
  destruct (free_slot_loop CONFIG_BLE_CONNECTION_MAX_NUM (w_ble w)) as [[tmp|] b] eqn:Hfs; cbn [snd] in Hf; cycle 1.
  { apply after_placed. apply placed_tame with w; [done|by left|done]. }
  destruct (is_con_in_process b) eqn:Hb.
  { apply after_placed. apply placed_tame with w; [done|by left|done]. }
  specialize (Hc tmp b). set (v := snd (bt_con_n_dev_queue_periodic_refresh _ _)) in *.
  assert (tame (w_ble w) v) as Hv. { eapply tame_trans; [exact Hf|]. subst v. unfold bt_con_n_dev_queue_periodic_refresh. tame. }
  clearbody v. cbv zeta. destruct (pick_device big D v) as [[i p]|] eqn:Hp; cycle 1.
  { apply after_placed. apply placed_tame with w; [|by left|done]. eapply tame_trans; [exact Hv|]. apply tame_lookup_failed. }
  specialize (Hc i p eq_refl Hb Hp). pose proof (pick_not_held _ _ _ Hp) as Hh.
  assert (forall j, ~ at_slot v j p) as Hno.
  { intros j (s & Hs & [Hq|Hq]); [by apply (Hh j s)|]. by apply (Forall_lookup_1 _ _ _ _ Hc Hs). }
  set (b1 := bt_con_n_reset_proxy_recovery_state (take_turn i v)).
  assert (tame v b1) as Hb1 by apply tame_take_turn. clearbody b1.
  destruct (call_connect D E tmp p b1) as [r [b2 acts]] eqn:Hcc.
  apply call_connect_puts in Hcc as [Hput Hr]. cbn [fst] in *.
  assert (forall j, at_slot b1 j p -> j = tmp) as Ho by (intros j Hj; destruct (Hno j); by apply Hb1).
  assert (one_place b1) as Hone. { apply one_place_tame with (w_ble w); [|by apply Hw]. eapply tame_trans; [exact Hv|done]. }
  assert (one_place b2) as H2 by (by eapply one_place_puts).
  destruct r as [|j q].
  - apply after_placed. split; [done|]. cbn. intros; congruence.
  - split; [done|]. cbn. intros i' p' [= <- <-]. destruct (Hr _ _ eq_refl) as (-> & -> & Hm). split; [done|].
    intros j. by apply (puts_only tmp p b1).
Qed.

Lemma second_placed E w : w_pass w = None -> placed w -> calm big D (LSecond E) w -> placed (periodic_second big D E w).
Proof.
  intros Hn Hw. unfold calm, turn, pass_view, periodic_second.
  cbn [restart_dbus_required set_w_cnt_s w_ble bt_sw_in_progress hld_proxy_adapter1].
  destruct (restart_dbus_required w); [done|]. cbn [orb].
  destruct (negb _); [done|]. cbn [orb]. destruct (bt_sw_in_progress w); [done|]. cbn [orb].
  destruct (bool_decide (hld_proxy_adapter1 w = None)); [done|]. cbn [orb].
  destruct ((w_cnt_s w + 1) mod 8 =? 0); [|done]. cbn [negb]. intros Hc.
  apply start_pass_placed; [done|done|]. change (w_ble (set_w_cnt_s _ w)) with (w_ble w).
  intros tmp b i p Hf Hb v Hp. rewrite Hf, Hb in Hc. fold v in Hc. cbn [mbind option_bind] in Hc.
  by rewrite Hp in Hc.
Qed.

Lemma command_placed i id c k w w' :
  command_disconnect D i id c k w = Some w' -> placed w -> placed w'.
Proof.
  intros (r & o & Hd & Hb & Hp & _)%command_disconnect_cases. apply tame_disconnect in Hd.
  apply placed_tame; [by rewrite Hb|by left].
Qed.

Lemma label_placed l w w' : placed w -> calm big D l w -> do_label big D l w = Some w' -> placed w'.
Proof.
  intros Hw Hc [_ H]%do_label_cases. destruct l; try done.
  - destruct H as [Hp ->]. by apply second_placed.
  - destruct H as (i & p & _ & ->). apply after_placed. apply placed_tame with w; [apply tame_timeout|by right|done].
  - destruct H as (i & p & _ & ->). apply after_placed. apply placed_tame with w; [apply tame_done|by right|done].
  - subst. apply placed_tame with w; [apply tame_property| |done]. left. apply property_threads.
  - subst. apply placed_tame with w; [apply tame_added| |done]. left. apply added_threads.
  - subst. apply placed_tame with w; [apply tame_removed| |done]. left. apply removed_threads.
  - subst. destruct Hc as [i Hi]. by eapply reply_placed.
  - subst. apply placed_tame with w; [apply tame_disconnect_reply|by left|done].
  - subst. apply placed_tame with w; [|by left|done]. cbn [w_ble on_ble set_w_ble]. unfold sys_set_bt_white_list.
    case_match; tame.
  - destruct H as [_ H]. by eapply command_placed.
  - destruct H as (i & p & _ & ->). apply placed_tame with w; [apply tame_disconnect_timeout|by left|done].
  - destruct H as (i & p & _ & ->). apply placed_tame with w; [apply tame_tail|by left|done].
  - pose proof (take_event_ble _ _ _ _ H) as Hb. apply take_event_threads in H as [H1 H2].
    apply placed_tame with w; [rewrite Hb; tame|by left|done].
  - assert (w_ble w' = w_ble w /\ w_pass w' = w_pass w) as [Hb Hp]
      by (revert H; unfold event_timeout; intros; repeat case_match; by simplify_eq).
    apply placed_tame with w; [rewrite Hb; apply tame_refl|by left|done].
  - destruct H as (_ & _ & ->). apply placed_tame with w; [apply tame_restart| |done]. left. apply restart_threads.
  - subst. apply placed_tame with w; [rewrite check_ble; apply tame_refl| |done]. left. apply check_threads.
  - subst. apply placed_tame with w; [apply tame_refl|by left|done].
  - subst. apply placed_tame with w; [|left; apply sw_client_threads|done]. destruct (sw_client_ble D E w) as [r ->]. tame.
  - subst. apply placed_tame with w; [rewrite sw_server_ble; apply tame_refl|left; apply sw_server_threads|done].
  - destruct H as (_ & i & H). eapply command_placed; [exact H|]. by apply placed_tame with w; [apply tame_refl|left|].
  - subst. apply placed_tame with w; [|left; apply sw_done_threads|done].
    destruct (sw_done_ble D E registered w) as [->| ->]; tame.
Qed.

Lemma started_empty i s : slots (w_ble started) !! i = Some s -> connected_proxy s = None /\ cv_proxy (pt_cond_var s) = None.
Proof.
  change (slots (w_ble started)) with (replicate 4 (Slot None (CondVar false None CONFIG_COND_VAR_MAGIC_INIT) EmptyString false [] None None)).
  intros [-> _]%lookup_replicate. done.
Qed.

Lemma started_placed : placed started.
Proof.
  assert (forall i p, ~ at_slot (w_ble started) i p) as H.
  { intros i p (s & [H1 H2]%started_empty & [Hq|Hq]); unfold holds, awaits in Hq; congruence. }
  split; [|done]. intros p i j Hi. by destruct (H _ _ Hi).
Qed.

Lemma calm_placed ls w w' : placed w -> calm_run big D ls w -> run big D ls w = Some w' -> placed w'.
Proof.
  revert w. induction ls as [|l ls IH]; intros w Hw; cbn; [by intros _ [= <-]|].
  intros [Hc Hls]. destruct (do_label big D l w) as [w1|] eqn:Hd; [|done]. cbn [mbind option_bind].
  apply IH; [|by apply Hls]. by eapply label_placed.
Qed.

End calm.

(** C11: a sensor has one slot: in every state of a run in which replies come
    while their call is waited for and no pass calls a device that some slot still
    waits for, no proxy is the connection of two slots - whatever else happens, with the callbacks of the
    bus, the passes, time-outs, refused calls, disconnections, restarts of the bus and changes of the role in any
    order. The second condition is needed: after a call that is refused or not answered in time the code
    itself calls the device again ([BtReports.refused_sensor_takes_two_slots], [BtReports.sensor_takes_two_slots]). *)
Theorem one_slot_per_sensor big D ls w i j s t p :
  calm_run big D ls started -> run big D ls started = Some w ->
  slots (w_ble w) !! i = Some s -> slots (w_ble w) !! j = Some t ->
  connected_proxy s = Some p -> connected_proxy t = Some p -> i = j.
Proof.
  intros Hc Hr Hs Ht Hp Hq. destruct (calm_placed big D ls started w (started_placed) Hc Hr) as [H _].
  apply (H p); [exists s|exists t]; auto.
Qed.

(** The call of one sensor is not answered in time, and another is connected. *)
Definition late_run : list label :=
  (demo_start ++ [LEvent demo_loop; demo_heard 10 2%nat] ++ demo_pass 11 ++ [LPassTimeout] ++ demo_connect 80 1%nat)%list.

Lemma one_slot_per_sensor_witness :
  connected_proxy (slot_at 1 (w_ble (demo_after late_run))) = Some 1%nat /\ 1%nat = 1%nat.
Proof.
  split; [vm_compute; reflexivity|].
  apply (one_slot_per_sensor false demo_bus late_run (demo_after late_run) 1 1
           (slot_at 1 (w_ble (demo_after late_run))) (slot_at 1 (w_ble (demo_after late_run))) 1%nat).
  1: vm_compute; repeat (split || exact I || (eexists; reflexivity) || (constructor; [discriminate|]) || constructor).
  all: vm_compute; reflexivity.
Defined.
