(* ===== verification/BtRecovery.v ===== *)
(** * BtRecovery: when the process gives up, and the devices on the queue

    The detector of lost proxies against the history of the run: which updates
    were heard since the last pass; and the invariant of the queue of devices. *)

From S2P Require Import Prelude BtState BtDevices BtConn BtLoop BtDemo BtTurns.
From Stdlib Require Import ZArith Lia ZifyBool List Bool Ascii String.
From stdpp Require Import base list numbers option strings.
Open Scope Z_scope.

#[local] Arguments notifyProcessGeneralBlock : simpl never.

(** The state of the detector. *)
Definition detector (b : ble) : Z * Z * bool :=
  (g_recent_whitelist_rssi_count b, g_recent_whitelist_rssi_timestamp b, g_proxy_recovery_required b).

Section recovery.
Context (big : bool) (D : dbus).

(** ** The history *)

(** A change of RSSI of a device of the white list. *)
Definition counted (p : proxy) (name : string) (b : ble) : bool :=
  String.eqb name "RSSI" && bool_decide (get_interface D p = Some "org.bluez.Device1"%string)
  && match get_address D p with
     | Some addr => String.prefix skf_prefix addr && bt_con_n_addr_is_in_white_list big addr b
     | None => false
     end.

(** The times of these changes since the last pass that looked for a device. *)
Definition heard (l : label) (w : world) (log : list Z) : list Z :=
  match l with
  | LProperty t p n _ => if counted p n (w_ble w) then (log ++ [t])%list else log
  | LSecond _ => match pass_view l w with Some _ => [] | None => log end
  | _ => log
  end.

Fixpoint history (ls : list label) (w : world) (log : list Z) : list Z :=
  match ls with
  | [] => log
  | l :: ls =>
      match do_label big D l w with
      | None => log
      | Some w' => history ls w' (heard l w log)
      end
  end.

Definition last_time (log : list Z) : Z := List.last log 0.

(** The detector knows the number of the changes, at most 255, and the time of
    the last. *)
Definition knows (b : ble) (log : list Z) : Prop :=
  detector b = (Z.min 255 (Z.of_nat (length log)), last_time log, false).

(** ** What leaves the detector alone *)

Lemma detector_free n b : detector (snd (free_slot_loop n b)) = detector b.
Proof. by rewrite free_slot_loop_frame. Qed.

Lemma detector_call E i p b : detector (fst (snd (call_connect D E i p b))) = detector b.
Proof. unfold call_connect, pass_exit. repeat case_match; done. Qed.

Lemma detector_reply k e p b : detector (fst (msg_reply_for_bt_connect k e p b)) = detector b.
Proof.
  unfold msg_reply_for_bt_connect, reply_error, reply_success. do 4 (case_match; [done|]).
  destruct e; cbn [fst]; repeat case_match; simplify_eq; done.
Qed.

Lemma detector_connected p b : detector (snd (on_connected p b)) = detector b.
Proof. unfold on_connected. by case_match. Qed.

Lemma detector_disconnected p b : detector (fst (snd (on_disconnected p b))) = detector b.
Proof.
  unfold on_disconnected. destruct (first_slot (holds p) b) as [i|]; cbn [fst snd].
  all: destruct (list_find _ _) as [[j h]|]; done.
Qed.

Lemma detector_connection p n v b : detector (fst (snd (bt_con_n_proxy_property_changed p n v b))) = detector b.
Proof.
  unfold bt_con_n_proxy_property_changed. case_match; [done|]. destruct v as [[]|]; [| |done]; case_match; try done.
  - pose proof (detector_connected p b). by destruct (on_connected p b).
  - apply detector_disconnected.
Qed.

Lemma detector_service p n v b : detector (snd (bt_con_n_service_property_changed p n v b)) = detector b.
Proof. unfold bt_con_n_service_property_changed. repeat case_match; done. Qed.

(** ** One label *)

Lemma white_list_connection p n v b :
  white_list (fst (snd (bt_con_n_proxy_property_changed p n v b))) = white_list b.
Proof.
  unfold bt_con_n_proxy_property_changed, on_connected, on_disconnected. repeat case_match; simplify_eq; done.
Qed.

Lemma white_list_service p n v b :
  white_list (snd (bt_con_n_service_property_changed p n v b)) = white_list b.
Proof. unfold bt_con_n_service_property_changed. repeat case_match; done. Qed.

Lemma counted_white_list p n b b' : white_list b' = white_list b -> counted p n b' = counted p n b.
Proof. intros H. unfold counted, bt_con_n_addr_is_in_white_list. by rewrite H. Qed.

Lemma append_detector t p n b :
  detector (snd (bt_con_n_append_dev_proxy big D t p n b)) =
  if counted p n b then
    (if g_recent_whitelist_rssi_count b <? 255 then g_recent_whitelist_rssi_count b + 1
     else g_recent_whitelist_rssi_count b, t, g_proxy_recovery_required b)
  else detector b.
Proof.
  unfold bt_con_n_append_dev_proxy, counted. destruct (String.eqb n "RSSI"); [|done]. cbn [negb andb].
  destruct (get_interface D p) as [i|]; [|by rewrite bool_decide_eq_false_2].
  destruct (String.eqb_spec i "org.bluez.Device1") as [->|Hi]; cbn [negb].
  2: { rewrite bool_decide_eq_false_2; [done|]. congruence. }
  rewrite bool_decide_eq_true_2 by done. cbn [andb].
  destruct (get_address D p) as [addr|]; [|done]. destruct (String.prefix skf_prefix addr); [|done]. cbn [negb andb snd].
  change (bt_con_n_addr_is_in_white_list big addr _) with (bt_con_n_addr_is_in_white_list big addr b).
  case_match; [|done]. unfold bt_con_n_note_whitelist_proxy_activity. cbn [g_recent_whitelist_rssi_count set_dev_queue push_event set_event_queue].
  by case_match.
Qed.

Lemma last_time_snoc log t : last_time (log ++ [t]) = t.
Proof. unfold last_time. by rewrite last_last. Qed.

Lemma property_knows t p n v w log :
  knows (w_ble w) log -> knows (w_ble (property_changed big D t p n v w)) (heard (LProperty t p n v) w log).
Proof.
  intros Hk. unfold property_changed, heard.
  destruct (server_connected_ble D p n v w) as [q Hq]. set (w1 := server_connected D p n v w) in *. clearbody w1.
  assert (counted p n (w_ble w) = counted p n (w_ble w1)) as -> by (apply counted_white_list; by rewrite Hq).
  assert (knows (w_ble w1) log) as Hk1 by (by rewrite Hq). clear Hq Hk w. rename w1 into w, Hk1 into Hk.
  pose proof (detector_connection p n v (w_ble w)) as Hd. pose proof (white_list_connection p n v (w_ble w)) as Hwl.
  destruct (bt_con_n_proxy_property_changed p n v (w_ble w)) as [r [b acts]]. cbn [fst snd] in Hd, Hwl.
  cbn [w_ble set_w_asked set_w_ble].
  pose proof (detector_service p n v b) as Hs. pose proof (white_list_service p n v b) as Hws.
  set (b1 := snd (bt_con_n_service_property_changed p n v b)) in *. clearbody b1.
  unfold knows in *. rewrite append_detector. rewrite (counted_white_list p n (w_ble w) b1) by congruence.
  rewrite <- Hd, <- Hs in Hk. case_match; [|done]. revert Hk. unfold detector.
  intros [= -> Ht ->]. rewrite last_time_snoc, length_app. cbn [length]. f_equal. f_equal.
  case_match; lia.
Qed.

Lemma nobody_connected l :
  (Z.of_nat (length (List.filter (fun s => bool_decide (connected_proxy s <> None)) l)) =? 0)
  = bool_decide (Forall (fun s => connected_proxy s = None) l).
Proof.
  induction l as [|s l IH]; [done|]. cbn [List.filter]. destruct (connected_proxy s) as [p|] eqn:Hs.
  - rewrite bool_decide_eq_true_2 by done. rewrite bool_decide_eq_false_2; [done|].
    intros [H _]%Forall_cons. congruence.
  - rewrite bool_decide_eq_false_2 by (by intros []). rewrite IH. apply bool_decide_ext.
    rewrite Forall_cons. tauto.
Qed.

Lemma lookup_failed_detector E b c t :
  detector b = (c, t, false) ->
  detector (lookup_failed E b) =
  (0, 0, num_lock_free E && num_garbage E && bool_decide (Forall (fun s => connected_proxy s = None) (slots b))
         && ((3 <=? c) && (0 <? t) && (t <=? now E) && (now E - t <=? 30))).
Proof.
  unfold detector. intros H. injection H as <- <- Hr. unfold lookup_failed, bt_con_n_connect_num_fetch.
  destruct (num_lock_free E); [|done]. cbn [default andb from_option id]. rewrite nobody_connected.
  destruct (num_garbage E); [|done]. cbn [andb]. case_match; [|done].
  unfold bt_con_n_note_proxy_lookup_failure.
  change BT_CONNECTION_NEW_PROXY_RECOVERY_RSSI_MIN with 3. change BT_CONNECTION_NEW_PROXY_RECOVERY_WINDOW_S with 30.
  case_match; cbn; [done|]. by rewrite Hr.
Qed.

(** ** A pass *)

(** The pass looks for a device and finds none while nothing is connected. *)
Definition finds_nobody (E : pass_env) (w : world) : Prop :=
  exists b, pass_view (LSecond E) w = Some b /\ pick_device big D b = None
    /\ Forall (fun s => connected_proxy s = None) (slots b) /\ num_lock_free E = true /\ num_garbage E = true.

(** Three changes since the last pass, the last of them not more than thirty
    seconds ago. *)
Definition heard_lately (log : list Z) (t : Z) : Prop :=
  (3 <= length log)%nat /\ 0 < last_time log <= t /\ t - last_time log <= 30.

Lemma after_pass_detector w c t r :
  detector (w_ble w) = (c, t, r) ->
  detector (w_ble (after_pass false w)) = (c, t, false)
  /\ w_ended (after_pass false w) = if r then Some ExitFailure else w_ended w.
Proof.
  unfold detector. intros H. injection H as <- <- <-. unfold after_pass, bt_con_n_take_proxy_recovery_required.
  by destruct (g_proxy_recovery_required (w_ble w)).
Qed.

Lemma detector_refresh t b : detector (snd (bt_con_n_dev_queue_periodic_refresh t b)) = detector b.
Proof. done. Qed.

Lemma detector_take_turn i b : detector (take_turn i b) = detector b.
Proof. unfold take_turn, sys_set_bt_white_list. by case_match. Qed.

(** The end of a pass that found nobody. *)
Lemma nobody_found E b w log :
  knows b log -> w_ended w = None -> w_ble w = lookup_failed E b ->
  knows (w_ble (after_pass false w)) []
  /\ (w_ended (after_pass false w) = Some ExitFailure <->
      Forall (fun s => connected_proxy s = None) (slots b) /\ num_lock_free E = true /\ num_garbage E = true
      /\ heard_lately log (now E)).
Proof.
  intros Hk He Hw. pose proof (lookup_failed_detector E b _ _ Hk) as Hd. rewrite <- Hw in Hd.
  destruct (after_pass_detector _ _ _ _ Hd) as [H1 H2]. split; [exact H1|]. rewrite H2, He. unfold heard_lately.
  set (f := bool_decide (Forall _ _)). assert (f = true <-> Forall (fun s => connected_proxy s = None) (slots b)) as <-
    by apply bool_decide_eq_true.
  clear. generalize (last_time log) as t, (length log) as n, f, (num_lock_free E), (num_garbage E), (now E).
  intros t n f0 k g tn. destruct (_ && _) eqn:Hc; (split; [intros; lia|done]) || (split; [done|intros; exfalso; lia]).
Qed.

(** A failed pass that did not look at the list, or whose call failed. *)
Lemma quiet_failure w log :
  knows (w_ble w) log -> w_ended w = None ->
  knows (w_ble (after_pass false w)) log /\ w_ended (after_pass false w) = None.
Proof. intros Hk He. by destruct (after_pass_detector _ _ _ _ Hk) as [H1 ->]. Qed.

Lemma free_knows n b log : knows b log -> knows (snd (free_slot_loop n b)) log.
Proof. unfold knows. by rewrite detector_free. Qed.

Lemma view_slots n b : slots (snd (free_slot_loop n b)) = slots b.
Proof. by rewrite free_slot_loop_frame. Qed.

Lemma second_detector E w log :
  knows (w_ble w) log -> w_ended w = None ->
  knows (w_ble (periodic_second big D E w)) (heard (LSecond E) w log)
  /\ (w_ended (periodic_second big D E w) = Some ExitFailure <-> finds_nobody E w /\ heard_lately log (now E)).
Proof.
  intros Hk He. assert (pass_view (LSecond E) w = None -> w_ended (periodic_second big D E w) = None ->
      w_ended (periodic_second big D E w) = Some ExitFailure <-> finds_nobody E w /\ heard_lately log (now E)) as Hno.
  { intros Hv ->. split; [done|]. intros [(b & Hb & _) _]. congruence. }
  revert Hno. unfold finds_nobody, heard, pass_view, periodic_second.
  cbn [restart_dbus_required set_w_cnt_s w_ble bt_sw_in_progress hld_proxy_adapter1].
  destruct (restart_dbus_required w); [by auto|]. cbn [orb].
  destruct (negb _); [by auto|]. cbn [orb]. destruct (bt_sw_in_progress w); [by auto|]. cbn [orb].
  destruct (bool_decide (hld_proxy_adapter1 w = None)); [by auto|]. cbn [orb].
  destruct ((w_cnt_s w + 1) mod 8 =? 0); [|by auto]. cbn [negb].
  unfold start_pass, bt_con_n_connect_to_dev. change (w_ble (set_w_cnt_s _ w)) with (w_ble w).
  pose proof (free_knows CONFIG_BLE_CONNECTION_MAX_NUM (w_ble w) log Hk) as Hf.
  destruct (free_slot_loop CONFIG_BLE_CONNECTION_MAX_NUM (w_ble w)) as [[tmp|] b]; cbn [snd] in Hf; cycle 1.
  { match goal with |- context [after_pass false ?x] => destruct (quiet_failure x log Hf He) end. by auto. }
  destruct (is_con_in_process b).
  { match goal with |- context [after_pass false ?x] => destruct (quiet_failure x log Hf He) end. by auto. }
  intros _. assert (knows (snd (bt_con_n_dev_queue_periodic_refresh (now E) (set_is_con_in_process true b))) log) as Hv by exact Hf.
  set (v := snd (bt_con_n_dev_queue_periodic_refresh _ _)) in *. clearbody v. cbv zeta.
  destruct (pick_device big D v) as [[i p]|] eqn:Hp.
  - pose proof (detector_call E tmp p (bt_con_n_reset_proxy_recovery_state (take_turn i v))) as Hc.
    assert (w_ended w = Some ExitFailure <-> (exists b0, Some v = Some b0 /\ pick_device big D b0 = None
      /\ Forall (fun s => connected_proxy s = None) (slots b0) /\ num_lock_free E = true /\ num_garbage E = true)
      /\ heard_lately log (now E)) as Hno.
    { rewrite He. split; [done|]. intros [(b0 & <-%(inj Some) & Hb & _) _]. congruence. }
    destruct (call_connect D E tmp p _) as [r [b2 acts]]. cbn [fst snd] in Hc.
    assert (knows b2 []) as Hk2 by exact Hc. destruct r; [|by split].
    match goal with |- context [after_pass false ?x] => destruct (quiet_failure x [] Hk2 He) as [H1 H2] end.
    rewrite H2. by rewrite He in Hno.
  - match goal with |- context [after_pass false ?x] => destruct (nobody_found E v x log Hv He eq_refl) as [H1 H2] end.
    split; [exact H1|]. rewrite H2. split; [|by intros [(b0 & <-%(inj Some) & _ & Hs & Hl & Hg) Hh]].
    intros (Hs & Hl & Hg & Hh). split; [|done]. by exists v.
Qed.

(** ** A run *)

Lemma detector_eq b b' log : detector b' = detector b -> knows b log -> knows b' log.
Proof. unfold knows. congruence. Qed.

Lemma detector_added p b : detector (snd (bt_con_n_append_chr_proxy_to_queue D p b)) = detector b.
Proof. unfold bt_con_n_append_chr_proxy_to_queue. repeat case_match; done. Qed.

Lemma detector_removed p b :
  detector (snd (bt_con_n_remove_dev_proxy D p (snd (bt_con_n_remove_chr_proxy_from_queue D p b)))) = detector b.
Proof.
  unfold bt_con_n_remove_dev_proxy, bt_con_n_remove_chr_proxy_from_queue.
  destruct (l_queue_remove_if _ (svr_chr_queue b)). repeat case_match; simplify_eq; done.
Qed.

Lemma detector_disconnect_reply i k e p b : detector (msg_reply_for_bt_disconnect i k e p b) = detector b.
Proof. unfold msg_reply_for_bt_disconnect. repeat case_match; done. Qed.

Lemma detector_disconnect i id c k b r o :
  bt_con_n_disconnect_from_dev D i id c k b = Some (r, o) -> detector (fst o) = detector b.
Proof. unfold bt_con_n_disconnect_from_dev, disconnect_exit. intros H. repeat case_match; by simplify_eq. Qed.

Lemma detector_disconnect_timeout i p b : detector (fst (disconnect_timeout i p b)) = detector b.
Proof. unfold disconnect_timeout. by case_match. Qed.

Lemma detector_restart E r a w : detector (w_ble (restart_dbus D E r a w)) = detector (w_ble w).
Proof.
  destruct (restart_ble D E r a w) as [q ->]. destruct r; [|done].
  generalize (sys_get_bt_white_list (replicate MAX_BT_WHITE_LIST zero_addr) MAX_BT_WHITE_LIST (set_g_fail_con_count 0 (w_ble w))) as l.
  intros l. unfold restore_white_list, sys_set_bt_white_list. by case_match.
Qed.

Lemma command_knows i id c k w w' log :
  command_disconnect D i id c k w = Some w' -> knows (w_ble w) log -> knows (w_ble w') log.
Proof.
  intros (r & o & Hd & Hb & _)%command_disconnect_cases. apply detector_disconnect in Hd.
  apply detector_eq. congruence.
Qed.

Lemma label_knows l w w' log :
  knows (w_ble w) log -> do_label big D l w = Some w' -> knows (w_ble w') (heard l w log).
Proof.
  intros Hk [He H]%do_label_cases. destruct l; cbn [heard].
  - destruct H as [_ ->]. by apply second_detector.
  - destruct H as (i & p & _ & ->). by apply quiet_failure.
  - destruct H as (i & p & _ & ->). eapply detector_eq; [|exact Hk]. cbn. unfold connect_done. by case_match.
  - subst. by apply property_knows.
  - subst. destruct (added_ble D p w) as (q1 & q2 & ->). eapply detector_eq; [|exact Hk].
    exact (detector_added p (set_event_queue q1 (w_ble w))).
  - subst. destruct (removed_ble D p w) as [h ->]. eapply detector_eq; [|exact Hk].
    exact (detector_removed p (set_hld_server_connected_proxy h (w_ble w))).
  - subst. eapply detector_eq; [apply detector_reply|done].
  - subst. eapply detector_eq; [apply detector_disconnect_reply|done].
  - subst. eapply detector_eq; [|exact Hk]. cbn [w_ble on_ble set_w_ble]. unfold sys_set_bt_white_list. by case_match.
  - destruct H as [_ H]. by eapply command_knows.
  - destruct H as (i & p & _ & ->). eapply detector_eq; [apply detector_disconnect_timeout|done].
  - by destruct H as (i & p & _ & ->).
  - apply take_event_ble in H. rewrite H. exact Hk.
  - apply event_timeout_ble in H. by rewrite H.
  - destruct H as (_ & _ & ->). eapply detector_eq; [apply detector_restart|done].
  - subst. by rewrite check_ble.
  - by subst.
  - subst. by destruct (sw_client_ble D E w) as [r ->].
  - subst. by rewrite sw_server_ble.
  - destruct H as (_ & i & H). by eapply command_knows; [exact H|].
  - subst. by destruct (sw_done_ble D E registered w) as [->| ->].
Qed.

Lemma run_knows ls w w' log :
  knows (w_ble w) log -> run big D ls w = Some w' -> knows (w_ble w') (history ls w log).
Proof.
  revert w log. induction ls as [|l ls IH]; intros w log Hk; cbn [run history]; [by intros [= <-]|].
  destruct (do_label big D l w) as [w1|] eqn:Hd; [|done]. cbn [mbind option_bind]. apply IH.
  by eapply label_knows.
Qed.

End recovery.

(** C20: the process gives up exactly when the proxies are lost: after any run of
    the process, the next second ends it exactly if that second makes a pass that
    finds no device of the white list while nothing is connected, if the lock is free for the count of the
    connections, if the status of that count, which is not returned, happens to be success, and if since the last
    pass that looked the devices of the white list were heard at least three
    times, the last time at most thirty seconds ago and not in the future. *)
Theorem gives_up_when_proxies_are_lost big D ls w E :
  run big D ls started = Some w -> w_ended w = None ->
  w_ended (periodic_second big D E w) = Some ExitFailure <->
  finds_nobody big D E w /\ heard_lately (history big D ls started []) (now E).
Proof.
  intros Hr He. apply second_detector; [|done]. by eapply run_knows.
Qed.

Lemma gives_up_when_proxies_are_lost_witness :
  w_ended (periodic_second false demo_bus (demo_env 11) (demo_after demo_lost)) = Some ExitFailure.
Proof.
  apply (gives_up_when_proxies_are_lost false demo_bus demo_lost); [vm_compute; reflexivity..|].
  split; [eexists; split; [vm_compute; reflexivity|]|vm_compute; repeat split; (discriminate || (repeat constructor))].
  vm_compute. repeat split; repeat constructor.
Defined.
