(* ===== verification/BtReports.v ===== *)
(** * BtReports: what the general process is told

    A connection from the pass to the message, a disconnection, the restart of
    the bus, and the text of an address. *)

From S2P Require Import Prelude BtState BtDevices BtConn BtLoop BtDemo BtTurns BtSafety.
From Stdlib Require Import ZArith Lia ZifyBool List Bool Ascii String.
From stdpp Require Import base list numbers option strings.
Open Scope Z_scope.

#[local] Arguments CON_BIT_SET : simpl never.
#[local] Arguments CON_BIT_CLEAR : simpl never.

(** ** A connection *)

Lemma slot_at_lookup i b s : slots b !! i = Some s -> slot_at i b = s.
Proof. intros H. unfold slot_at. by rewrite (nth_lookup_Some _ _ _ _ H). Qed.

Lemma upd_slot_lookup i f b s : slots b !! i = Some s -> slots (upd_slot i f b) !! i = Some (f s).
Proof. intros H. cbn. by rewrite list_lookup_alter_eq, H. Qed.

Lemma upd_slot_other i j f b : i <> j -> slots (upd_slot i f b) !! j = slots b !! j.
Proof. intros H. cbn. by rewrite list_lookup_alter_ne. Qed.

Lemma run_app big D l1 l2 w : run big D (l1 ++ l2) w = run big D l1 w ≫= run big D l2.
Proof.
  revert w. induction l1 as [|l l1 IH]; intros w; cbn [app run]; [done|].
  destruct (do_label big D l w); [apply IH|done].
Qed.

(** The first slot that waits for a proxy is the only one that does. *)
Lemma first_slot_only (P : slot -> Prop) `{forall s, Decision (P s)} i b s :
  slots b !! i = Some s -> P s -> (forall j t, j <> i -> slots b !! j = Some t -> ~ P t) ->
  first_slot P b = Some i.
Proof.
  intros Hs Hp Ho. unfold first_slot. destruct (list_find P (slots b)) as [[j t]|] eqn:Hf; cbn.
  - apply list_find_Some in Hf as (Ht & Hpt & _). destruct (decide (j = i)) as [->|Hne]; [done|].
    by destruct (Ho j t Hne Ht).
  - apply list_find_None in Hf. by destruct (Forall_lookup_1 _ _ _ _ Hf Hs).
Qed.

(** Slot [i] waits for [p] after the call, and no other slot does. *)
Record calling (i : nat) (p : proxy) (addr : string) (b : ble) (s : slot) : Prop := {
  calling_slot : slots b !! i = Some s;
  calling_cond : pt_cond_var s = CondVar false (Some p) CONFIG_COND_VAR_MAGIC_INIT;
  calling_other : forall j t, j <> i -> slots b !! j = Some t -> ~ awaits p t;
  calling_param : g_con_method_param b = ConMethodParam i addr
}.

Section connection.
Context (big : bool) (D : dbus).

Lemma call_connect_calling E i p b addr s :
  slots b !! i = Some s -> pthread_ok E = true -> call_ok E = true -> get_address D p = Some addr ->
  String.prefix skf_prefix addr = true -> Forall (fun t => ~ awaits p t) (slots b) ->
  exists b', call_connect D E i p b = (PassWaits i p, (b', [Connect p]))
    /\ (exists s', calling i p addr b' s' /\ connected_proxy s' = connected_proxy s)
    /\ event_queue b' = event_queue b /\ bt_role b' = bt_role b.
Proof.
  intros Hs Hk Hc Ha Hx Hf. unfold call_connect. rewrite Hk, Hc, Ha, Hx, (slot_at_lookup _ _ _ Hs).
  unfold app_com_init_pthread_cond_var_ctr. cbn [negb].
  destruct (magic (pt_cond_var s) =? CONFIG_COND_VAR_MAGIC_INIT) eqn:Hm; cbn [negb].
  all: eexists; split; [reflexivity|]; split; [|done].
  all: eexists; split; [constructor|].
  all: try (eapply upd_slot_lookup, upd_slot_lookup; exact Hs); try done.
  all: try (intros j t Hj; cbn; rewrite !list_lookup_alter_ne by done; intros Ht; by apply (Forall_lookup_1 _ _ _ _ Hf Ht)).
  cbn. apply Z.eqb_eq in Hm. unfold set_cv_proxy, set_op_done. cbn. congruence.
Qed.

(** The device reports its connection. *)
Lemma on_connected_calling i p addr b s :
  calling i p addr b s ->
  exists b', on_connected p b = (true, b') /\ calling i p addr b' (set_connected_proxy (Some p) s)
    /\ con_proxy_idx b' = i /\ event_queue b' = (event_queue b ++ [BT_EVENT_CONNECTION])%list /\ bt_role b' = bt_role b.
Proof.
  intros [Hs Hc Ho Hp]. unfold on_connected.
  rewrite (first_slot_only (awaits p) i b s Hs) by (done || by unfold awaits; rewrite Hc).
  eexists. split; [reflexivity|]. split; [|done]. constructor; [|done| |done].
  - by apply upd_slot_lookup.
  - intros j t Hj. cbn. rewrite list_lookup_alter_ne by done. by apply Ho.
Qed.

(** BlueZ answers the call. *)
Lemma reply_calling i p addr b s :
  calling i p addr b s -> holds p s -> (i < CONFIG_BLE_CONNECTION_MAX_NUM)%nat ->
  exists b' s', msg_reply_for_bt_connect true false p b = (b', [])
    /\ slots b' !! i = Some s' /\ connected_proxy s' = Some p /\ con_mac_addr s' = addr
    /\ pt_cond_var s' = CondVar true (Some p) CONFIG_COND_VAR_MAGIC_INIT /\ is_con_in_process b' = false
    /\ con_proxy_idx b' = con_proxy_idx b /\ event_queue b' = event_queue b /\ bt_role b' = bt_role b.
Proof.
  intros [Hs Hc Ho Hp] Hh Hi. unfold msg_reply_for_bt_connect. rewrite Hp. cbn [cm_idx cm_mac_addr].
  destruct (Nat.leb_spec CONFIG_BLE_CONNECTION_MAX_NUM i); [lia|].
  rewrite (slot_at_lookup _ _ _ Hs). assert (magic (pt_cond_var s) = CONFIG_COND_VAR_MAGIC_INIT) as -> by (by rewrite Hc).
  assert (cv_proxy (pt_cond_var s) = Some p) as Hcv by (by rewrite Hc). rewrite Z.eqb_refl. cbn [negb].
  rewrite (bool_decide_eq_false_2 (cv_proxy (pt_cond_var s) <> Some p)), andb_false_r by tauto.
  unfold reply_success. rewrite (slot_at_lookup i _ _ (upd_slot_lookup i _ _ _ Hs)).
  cbn [connected_proxy upd_cond set_pt_cond_var]. unfold holds in *. rewrite Hh. cbn [connected_proxy upd_cond set_pt_cond_var].
  rewrite (bool_decide_eq_false_2 (Some p = None)) by done. rewrite (bool_decide_eq_true_2 _ Hh).
  eexists _, _. split; [reflexivity|]. split.
  { cbn. rewrite list_lookup_imap, !list_lookup_alter_eq, Hs. cbn. by rewrite Nat.eqb_refl. }
  cbn. by rewrite Hc.
Qed.

(** The pass wakes up. *)
Lemma connect_done_calling i p b s :
  slots b !! i = Some s -> awaits p s ->
  exists b', connect_done i p b = b' /\ slots b' !! i = Some (upd_cond (set_op_done false) s)
    /\ is_con_in_process b' = false /\ con_proxy_idx b' = con_proxy_idx b /\ event_queue b' = event_queue b
    /\ bt_role b' = bt_role b.
Proof.
  intros Hs Ha. unfold connect_done.
  assert (slots (set_is_con_in_process false (upd_slot i (upd_cond (set_op_done false)) b)) !! i
    = Some (upd_cond (set_op_done false) s)) as Hs' by (by apply upd_slot_lookup).
  rewrite (slot_at_lookup _ _ _ Hs'). rewrite bool_decide_eq_true_2 by done.
  eexists. split; [reflexivity|]. by split.
Qed.
(** What the pass of a connection needs: it picks [p], slot [i] is the next free
    one, BlueZ accepts the call, and no slot still waits for [p]. *)
Record ready (E : pass_env) (w : world) (i : nat) (p : proxy) (addr : string) : Prop := {
  ready_pass : w_pass w = None;
  ready_ended : w_ended w = None;
  ready_turn : exists b k, turn big D (LSecond E) w = Some (b, (k, p));
  ready_slot : fst (free_slot_loop CONFIG_BLE_CONNECTION_MAX_NUM (w_ble w)) = Some i;
  ready_slots : length (slots (w_ble w)) = CONFIG_BLE_CONNECTION_MAX_NUM;
  ready_thread : pthread_ok E = true;
  ready_call : call_ok E = true;
  ready_address : get_address D p = Some addr;
  ready_skf : String.prefix skf_prefix addr = true;
  ready_device : get_interface D p = Some "org.bluez.Device1"%string;
  ready_free : Forall (fun s => ~ awaits p s) (slots (w_ble w));
  ready_events : event_queue (w_ble w) = []
}.

Lemma slots_take_turn k b : slots (take_turn k b) = slots b /\ event_queue (take_turn k b) = event_queue b
  /\ bt_role (take_turn k b) = bt_role b.
Proof. unfold take_turn, sys_set_bt_white_list. by case_match. Qed.

(** The guards that a pass with a device has met. *)
Lemma turn_guards E w b k p :
  turn big D (LSecond E) w = Some (b, (k, p)) ->
  restart_dbus_required w = false /\ bt_role (w_ble w) = BT_ROLE_CLIENT /\ hld_proxy_adapter1 w <> None
  /\ exists i b0, free_slot_loop CONFIG_BLE_CONNECTION_MAX_NUM (w_ble w) = (Some i, b0)
    /\ b = snd (bt_con_n_dev_queue_periodic_refresh (now E) (set_is_con_in_process true b0))
    /\ periodic_second big D E w =
        let '(r, (b', acts)) := call_connect D E i p (bt_con_n_reset_proxy_recovery_state (take_turn k b)) in
        let w' := set_w_asked (w_asked w ++ acts)%list (set_w_ble b' (set_w_cnt_s (w_cnt_s w + 1) w)) in
        match r with PassWaits j q => set_w_pass (Some (j, q)) w' | PassError => after_pass false w' end.
Proof.
  unfold turn, pass_view, periodic_second.
  cbn [restart_dbus_required set_w_cnt_s w_ble bt_sw_in_progress hld_proxy_adapter1].
  destruct (restart_dbus_required w); [done|]. cbn [orb].
  destruct (bool_decide (bt_role (w_ble w) = BT_ROLE_CLIENT)) eqn:Hro; [|done]. cbn [orb negb].
  destruct (bt_sw_in_progress w); [done|]. cbn [orb].
  destruct (bool_decide (hld_proxy_adapter1 w = None)) eqn:Had; [done|]. cbn [orb].
  destruct ((w_cnt_s w + 1) mod 8 =? 0); [|done]. cbn [negb].
  apply bool_decide_eq_true in Hro. apply bool_decide_eq_false in Had.
  unfold start_pass, bt_con_n_connect_to_dev. change (w_ble (set_w_cnt_s _ w)) with (w_ble w).
  destruct (free_slot_loop CONFIG_BLE_CONNECTION_MAX_NUM (w_ble w)) as [[j|] b0]; [|done].
  destruct (is_con_in_process b0); [done|]. cbv zeta. cbn [mbind option_bind].
  destruct (pick_device big D _) as [[k' p']|]; [|done]. intros [= <- <- <-].
  split_and!; [done..|]. exists j, b0. by split.
Qed.

(** The pass calls the device. *)
Lemma ready_second E w i p addr :
  ready E w i p addr ->
  exists w' s, do_label big D (LSecond E) w = Some w' /\ w_pass w' = Some (i, p) /\ w_ended w' = None
    /\ calling i p addr (w_ble w') s /\ connected_proxy s = None /\ event_queue (w_ble w') = []
    /\ bt_role (w_ble w') = BT_ROLE_CLIENT /\ w_sent w' = w_sent w /\ w_gw_id w' = w_gw_id w
    /\ restart_dbus_required w' = false /\ hld_proxy_adapter1 w' <> None.
Proof.
  intros [Hp He (b & k & Ht) Hi Hl Hk Hc Ha Hx _ Hf Hq]. unfold do_label. rewrite Hp, He.
  rewrite bool_decide_eq_false_2 by tauto.
  apply turn_guards in Ht as (Hr & Hro & Had & j & b0 & Hfs & -> & ->). 
  pose proof (free_slot_loop_spec CONFIG_BLE_CONNECTION_MAX_NUM (w_ble w)) as Hspec.
  pose proof (free_slot_loop_frame CONFIG_BLE_CONNECTION_MAX_NUM (w_ble w)) as Hfr.
  rewrite Hfs in Hi, Hspec, Hfr. cbn [fst snd] in *. injection Hi as ->. destruct Hspec as [Hi4 Hn].
  set (v := snd (bt_con_n_dev_queue_periodic_refresh (now E) (set_is_con_in_process true b0))).
  assert (slots v = slots (w_ble w) /\ event_queue v = event_queue (w_ble w) /\ bt_role v = bt_role (w_ble w)) as (Hv1 & Hv2 & Hv3)
    by (subst v; by rewrite Hfr). clearbody v.
  destruct (slots_take_turn k v) as (Ht1 & Ht2 & Ht3).
  rewrite <- Hl in Hi4. apply lookup_lt_is_Some in Hi4 as [s Hs]. rewrite (slot_at_lookup _ _ _ Hs) in Hn.
  set (b1 := bt_con_n_reset_proxy_recovery_state (take_turn k v)).
  assert (slots b1 = slots (w_ble w) /\ event_queue b1 = [] /\ bt_role b1 = BT_ROLE_CLIENT) as (Hb1 & Hb2 & Hb3)
    by (subst b1; cbn; split_and!; congruence). clearbody b1.
  destruct (call_connect_calling E i p b1 addr s) as (b2 & Hcc & (s' & Hs' & Hcs) & Hce & Hcr); rewrite ?Hb1; [done..|].
  rewrite Hcc. cbv zeta iota. eexists _, s'. split; [reflexivity|].
  cbn [w_pass set_w_pass set_w_asked w_ended w_ble set_w_ble w_sent w_gw_id restart_dbus_required hld_proxy_adapter1 set_w_cnt_s].
  split_and!; try done; congruence.
Qed.

(** The property Connected becomes true. *)
Lemma connected_label t i p addr w s :
  w_ended w = None -> calling i p addr (w_ble w) s -> bt_role (w_ble w) = BT_ROLE_CLIENT ->
  exists b', do_label big D (LProperty t p "Connected" (Some true)) w
      = Some (set_w_asked (w_asked w ++ [])%list (set_w_ble b' w))
    /\ calling i p addr b' (set_connected_proxy (Some p) s) /\ con_proxy_idx b' = i
    /\ event_queue b' = (event_queue (w_ble w) ++ [BT_EVENT_CONNECTION])%list /\ bt_role b' = BT_ROLE_CLIENT.
Proof.
  intros He Hc Hr. destruct (on_connected_calling _ _ _ _ _ Hc) as (b' & Hb & H1 & H2 & H3 & H4). exists b'.
  split; [|split_and!; congruence || done]. unfold do_label. rewrite He, bool_decide_eq_false_2 by tauto.
  assert (bt_con_n_proxy_property_changed p "Connected" (Some true) (w_ble w) = (true, (b', []))) as Hpc.
  { unfold bt_con_n_proxy_property_changed. rewrite Hr, Hb. done. }
  assert (server_connected D p "Connected" (Some true) w = w) as Hsc by (unfold server_connected; by rewrite Hr).
  unfold property_changed. rewrite Hsc, Hpc. by destruct (w_pass w) as [[? ?]|].
Qed.
(** The reply of BlueZ, and the end of the pass. *)
Lemma answered_labels i p addr w s :
  w_ended w = None -> w_pass w = Some (i, p) -> (i < CONFIG_BLE_CONNECTION_MAX_NUM)%nat ->
  calling i p addr (w_ble w) s -> holds p s ->
  exists b' s', run big D [LConnectReply true false p; LPassDone] w
      = Some (set_w_pass None (set_w_asked (w_asked w ++ [])%list (set_w_ble b' w)))
    /\ slots b' !! i = Some s' /\ connected_proxy s' = Some p /\ con_mac_addr s' = addr
    /\ is_con_in_process b' = false /\ con_proxy_idx b' = con_proxy_idx (w_ble w)
    /\ event_queue b' = event_queue (w_ble w) /\ bt_role b' = bt_role (w_ble w).
Proof.
  intros He Hp Hi Hc Hh.
  destruct (reply_calling _ _ _ _ _ Hc Hh Hi) as (b1 & s1 & Hr & Hs1 & Hc1 & Hm1 & Hpc & Hb1 & Hx1 & Hq1 & Hro1).
  destruct (connect_done_calling i p b1 s1 Hs1) as (b2 & Hd & Hs2 & Hb2 & Hx2 & Hq2 & Hro2).
  { unfold awaits. by rewrite Hpc. }
  exists b2, (upd_cond (set_op_done false) s1). split; [|split_and!; congruence || done].
  cbn [run]. assert (do_label big D (LConnectReply true false p) w = Some (put (b1, []) w)) as ->.
  { unfold do_label. rewrite He, bool_decide_eq_false_2 by tauto. by rewrite Hr. }
  assert (do_label big D LPassDone (put (b1, []) w) = Some (set_w_pass None (set_w_asked (w_asked w ++ [])%list (set_w_ble b2 w)))) as Hx.
  { unfold do_label. cbn [w_ended put set_w_asked set_w_ble fst snd w_pass w_ble]. rewrite He.
    rewrite bool_decide_eq_false_2 by tauto. rewrite Hp, (slot_at_lookup _ _ _ Hs1), Hpc. cbn [is_op_done].
    by rewrite <- Hd. }
  cbn [mbind option_bind]. by rewrite Hx.
Qed.

(** The event reaches the general process. *)
Lemma connection_event E w s i p addr q :
  w_ended w = None -> restart_dbus_required w = false -> event_queue (w_ble w) = BT_EVENT_CONNECTION :: q ->
  bt_role (w_ble w) = BT_ROLE_CLIENT -> hld_proxy_adapter1 w <> None -> con_lock E = true -> send_ok E = true ->
  con_proxy_idx (w_ble w) = i -> (i < CONFIG_BLE_CONNECTION_MAX_NUM)%nat ->
  slots (w_ble w) !! i = Some s -> connected_proxy s = Some p ->
  get_interface D p = Some "org.bluez.Device1"%string -> get_address D p = Some addr ->
  do_label big D (LEvent E) w = Some (set_w_sent (w_sent w ++ [Notice BT_EVENT_CONNECTION (Z.of_nat i)
    (addr_of_text (c_string (strip_colons addr))) (addr_of_text (w_gw_id w))])%list
    (set_w_ble (set_event_queue q (w_ble w)) w)).
Proof.
  intros He Hr Hq Hro Had Hl Hs Hx Hi Hsl Hc Hd Ha.
  assert (do_label big D (LEvent E) w = take_event D E w) as ->.
  { unfold do_label. rewrite He, bool_decide_eq_false_2 by tauto. by destruct (w_pass w) as [[? ?]|]. }
  unfold take_event. rewrite Hr, Hq. cbn [l_queue_pop_head]. unfold handle_event. cbn [w_ble set_w_ble restart_dbus_required].
  rewrite Hr. cbn [bt_role set_event_queue hld_proxy_adapter1 con_proxy_idx]. rewrite Hro.
  rewrite bool_decide_eq_false_2 by done. rewrite Hl, Hx. cbn [negb]. unfold notifyProcessGeneralBlock, send, is_device.
  cbn [w_ble set_w_ble bt_role set_event_queue]. rewrite Hro, Hs. cbn [bool_decide negb].
  destruct (Z.leb_spec (Z.of_nat CONFIG_BLE_CONNECTION_MAX_NUM) (Z.of_nat i)); [lia|]. rewrite Nat2Z.id.
  assert (slots (set_event_queue q (w_ble w)) !! i = Some s) as Hsl' by done.
  rewrite (slot_at_lookup _ _ _ Hsl'), Hc. rewrite !bool_decide_eq_true_2 by done. by rewrite Ha.
Qed.

End connection.

(** C10: a sensor is connected and reported: when a pass picks a device that no
    slot still waits for, BlueZ accepts the call, reports the connection and
    answers, then the slot holds the device and its address, nothing is in
    progress any more, and the general process is told the slot, the address of
    the sensor and that of the gateway. *)
Theorem sensor_is_connected big D E E' w i p addr t :
  ready big D E w i p addr -> con_lock E' = true -> send_ok E' = true ->
  exists w' s, run big D [LSecond E; LProperty t p "Connected" (Some true); LConnectReply true false p; LPassDone;
                          LEvent E'] w = Some w'
    /\ slots (w_ble w') !! i = Some s /\ connected_proxy s = Some p /\ con_mac_addr s = addr
    /\ is_con_in_process (w_ble w') = false /\ w_pass w' = None
    /\ w_sent w' = (w_sent w ++ [Notice BT_EVENT_CONNECTION (Z.of_nat i)
                      (addr_of_text (c_string (strip_colons addr))) (addr_of_text (w_gw_id w))])%list.
Proof.
  intros Hrd Hl Hs. pose proof Hrd as [_ _ _ Hi Hlen _ _ Ha _ Hd _ _].
  assert (i < CONFIG_BLE_CONNECTION_MAX_NUM)%nat as Hi4.
  { pose proof (free_slot_loop_spec CONFIG_BLE_CONNECTION_MAX_NUM (w_ble w)) as H. rewrite Hi in H. apply H. }
  destruct (ready_second _ _ _ _ _ _ _ Hrd) as (w1 & s1 & Hw1 & Hp1 & He1 & Hc1 & Hn1 & Hq1 & Hr1 & Hs1 & Hg1 & Hd1 & Had1).
  destruct (connected_label big D t i p addr w1 s1 He1 Hc1 Hr1) as (b2 & Hw2 & Hc2 & Hx2 & Hq2 & Hr2).
  set (w2 := set_w_asked _ _) in Hw2.
  destruct (answered_labels big D i p addr w2 _ He1 Hp1 Hi4 Hc2 eq_refl)
    as (b3 & s3 & Hw3 & Hs3 & Hcp3 & Hm3 & Hb3 & Hx3 & Hq3 & Hr3).
  set (w3 := set_w_pass _ _) in Hw3. cbn [w_ble w2 set_w_asked set_w_ble] in *.
  assert (do_label big D (LEvent E') w3 = Some (set_w_sent (w_sent w ++ [Notice BT_EVENT_CONNECTION (Z.of_nat i)
    (addr_of_text (c_string (strip_colons addr))) (addr_of_text (w_gw_id w))])%list
    (set_w_ble (set_event_queue [] b3) w3))) as Hw4.
  { rewrite <- Hs1, <- Hg1. apply (connection_event big D E' w3 s3 i p addr []); try done; try congruence.
    - change (event_queue b3 = [BT_EVENT_CONNECTION]). by rewrite Hq3, Hq2, Hq1.
    - change (bt_role b3 = BT_ROLE_CLIENT). congruence.
    - change (con_proxy_idx b3 = i). congruence. }
  match type of Hw4 with _ = Some ?x => exists x, s3 end. split; [|by split_and!].
  change [LSecond E; LProperty t p "Connected" (Some true); LConnectReply true false p; LPassDone; LEvent E']
    with ([LSecond E; LProperty t p "Connected" (Some true)] ++ [LConnectReply true false p; LPassDone] ++ [LEvent E'])%list.
  rewrite run_app. assert (run big D [LSecond E; LProperty t p "Connected" (Some true)] w = Some w2) as ->.
  { cbn [run]. rewrite Hw1. cbn [mbind option_bind]. by rewrite Hw2. }
  cbn [mbind option_bind]. rewrite run_app, Hw3. cbn [mbind option_bind run]. by rewrite Hw4.
Qed.

Lemma sensor_is_connected_witness :
  ready false demo_bus (demo_env 11) (demo_after demo_waiting) 0%nat 1%nat "C4:BD:6A:00:00:01"
  /\ exists w' s, run false demo_bus [LSecond (demo_env 11); LProperty 12 1%nat "Connected" (Some true);
      LConnectReply true false 1%nat; LPassDone; LEvent demo_loop] (demo_after demo_waiting) = Some w'
    /\ slots (w_ble w') !! 0%nat = Some s /\ connected_proxy s = Some 1%nat /\ con_mac_addr s = "C4:BD:6A:00:00:01"%string
    /\ is_con_in_process (w_ble w') = false /\ w_pass w' = None
    /\ w_sent w' = (w_sent (demo_after demo_waiting) ++ [Notice BT_EVENT_CONNECTION (Z.of_nat 0)
                      (addr_of_text (c_string (strip_colons "C4:BD:6A:00:00:01")))
                      (addr_of_text (w_gw_id (demo_after demo_waiting)))])%list.
Proof.
  assert (ready false demo_bus (demo_env 11) (demo_after demo_waiting) 0%nat 1%nat "C4:BD:6A:00:00:01") as Hr.
  { constructor; try (vm_compute; reflexivity).
    - do 2 eexists. vm_compute. reflexivity.
    - vm_compute. repeat constructor; discriminate. }
  split; [exact Hr|]. exact (sensor_is_connected false demo_bus _ demo_loop _ _ _ _ 12 Hr eq_refl eq_refl).
Defined.

(** ** A disconnection *)

Section disconnection.
Context (big : bool) (D : dbus).

Lemma on_disconnected_slot i p b s :
  slots b !! i = Some s -> holds p s -> (forall j t, j <> i -> slots b !! j = Some t -> ~ holds p t) ->
  Some p ∈ hld_connected_proxy b ->
  exists b' s', on_disconnected p b = (true, (b', [RmDevices (Some p)]))
    /\ slots b' !! i = Some s' /\ connected_proxy s' = None /\ con_mac_addr s' = EmptyString
    /\ con_proxy_idx b' = i /\ event_queue b' = (event_queue b ++ [BT_EVENT_DISCONNECTION])%list /\ bt_role b' = bt_role b.
Proof.
  intros Hs Hh Ho Hp. unfold on_disconnected. rewrite (first_slot_only (holds p) i b s Hs Hh Ho).
  cbn [hld_connected_proxy upd_slot clear_slot set_slots set_con_status_bit set_con_proxy_idx].
  destruct (list_find (fun h => h = Some p) (hld_connected_proxy b)) as [[j h]|] eqn:Hf.
  2: { apply list_find_None in Hf. rewrite list.Forall_forall in Hf. by destruct (Hf _ Hp). }
  destruct (decide (j = i)) as [->|Hne]; eexists _, _; cbn [andb]; (split; [reflexivity|]).
  - split; [cbn; by rewrite !list_lookup_alter_eq, Hs|done].
  - split; [cbn; by rewrite list_lookup_alter_ne, !list_lookup_alter_eq, Hs by done|done].
Qed.

End disconnection.

(** a disconnection is reported with its slot: when the device of a slot is
    disconnected and the event is handled before anything else happens, the slot
    is free, the device is removed from BlueZ, and the general process is told
    the slot. *)
Theorem disconnection_names_its_slot big D E t w i p s :
  w_ended w = None -> restart_dbus_required w = false -> bt_role (w_ble w) = BT_ROLE_CLIENT ->
  event_queue (w_ble w) = [] -> send_ok E = true -> (i < CONFIG_BLE_CONNECTION_MAX_NUM)%nat ->
  slots (w_ble w) !! i = Some s -> holds p s ->
  (forall j u, j <> i -> slots (w_ble w) !! j = Some u -> ~ holds p u) -> Some p ∈ hld_connected_proxy (w_ble w) ->
  exists w' s', run big D [LProperty t p "Connected" (Some false); LEvent E] w = Some w'
    /\ slots (w_ble w') !! i = Some s' /\ connected_proxy s' = None /\ con_mac_addr s' = EmptyString
    /\ w_asked w' = (w_asked w ++ [RmDevices (Some p)])%list
    /\ w_sent w' = (w_sent w ++ [Notice BT_EVENT_DISCONNECTION (Z.of_nat i) None None])%list.
Proof.
  intros He Hr Hro Hq Hk Hi Hs Hh Ho Hp.
  destruct (on_disconnected_slot i p (w_ble w) s Hs Hh Ho Hp) as (b1 & s1 & Hd & Hs1 & Hc1 & Hm1 & Hx1 & Hq1 & Hr1).
  assert (bt_con_n_proxy_property_changed p "Connected" (Some false) (w_ble w) = (true, (b1, [RmDevices (Some p)]))) as Hpc.
  { unfold bt_con_n_proxy_property_changed. by rewrite Hro. }
  set (w1 := set_w_asked (w_asked w ++ [RmDevices (Some p)])%list (set_w_ble b1 w)).
  assert (do_label big D (LProperty t p "Connected" (Some false)) w = Some w1) as Hw1.
  { unfold do_label. rewrite He, bool_decide_eq_false_2 by tauto. unfold property_changed.
    assert (server_connected D p "Connected" (Some false) w = w) as -> by done. by rewrite Hpc. }
  assert (do_label big D (LEvent E) w1 = Some (set_w_sent (w_sent w ++ [Notice BT_EVENT_DISCONNECTION (Z.of_nat i) None None])%list
    (set_w_ble (set_event_queue [] b1) w1))) as Hw2.
  { assert (do_label big D (LEvent E) w1 = take_event D E w1) as ->.
    { unfold do_label. cbn [w_ended w1 set_w_asked set_w_ble]. by rewrite He, bool_decide_eq_false_2 by tauto. }
    unfold take_event. cbn [w1 restart_dbus_required set_w_asked set_w_ble w_ble]. rewrite Hr, Hq1, Hq. cbn [app l_queue_pop_head].
    unfold handle_event, notifyProcessGeneralBlock, send. cbn [w_ble set_w_ble bt_role set_event_queue con_proxy_idx w_sent set_w_asked].
    rewrite Hr1, Hro, Hx1, Hk. destruct (Nat.ltb_spec i CONFIG_BLE_CONNECTION_MAX_NUM); [|lia].
    destruct (Z.leb_spec (Z.of_nat CONFIG_BLE_CONNECTION_MAX_NUM) (Z.of_nat i)); [lia|done]. }
  match type of Hw2 with _ = Some ?x => exists x, s1 end. split; [|by split_and!].
  cbn [run]. rewrite Hw1. cbn [mbind option_bind]. by rewrite Hw2.
Qed.

Lemma disconnection_names_its_slot_witness :
  exists w' s', run false demo_bus [LProperty 40 1%nat "Connected" (Some false); LEvent demo_loop] (demo_after demo_one) = Some w'
    /\ slots (w_ble w') !! 0%nat = Some s' /\ connected_proxy s' = None /\ con_mac_addr s' = EmptyString
    /\ w_asked w' = (w_asked (demo_after demo_one) ++ [RmDevices (Some 1%nat)])%list
    /\ w_sent w' = (w_sent (demo_after demo_one) ++ [Notice BT_EVENT_DISCONNECTION (Z.of_nat 0) None None])%list.
Proof.
  apply (disconnection_names_its_slot false demo_bus demo_loop 40 (demo_after demo_one) 0%nat 1%nat
           (slot_at 0 (w_ble (demo_after demo_one)))); try (vm_compute; reflexivity).
  - vm_compute. repeat constructor.
  - intros [|[|[|[|j]]]] u Hj Hu; vm_compute in Hu; [done|injection Hu as <-; discriminate..|discriminate].
  - vm_compute. constructor.
Defined.

(** ** The restart of the bus *)

Lemma notify_sends D E e m w :
  send_ok E = true ->
  match e with BT_EVENT_CONNECTION | BT_EVENT_DISCONNECTION | BT_EVENT_SERVICES_RESOLVED => False | _ => True end ->
  snd (notifyProcessGeneralBlock D E e m w) = set_w_sent (w_sent w ++ [Notice e m None None])%list w.
Proof. intros Hs He. unfold notifyProcessGeneralBlock, send. rewrite Hs. by destruct e. Qed.

(** A client is not told of a disconnection without an index. *)
Lemma notify_refused D E w :
  bt_role (w_ble w) = BT_ROLE_CLIENT -> snd (notifyProcessGeneralBlock D E BT_EVENT_DISCONNECTION 4294967295 w) = w.
Proof. intros Hr. unfold notifyProcessGeneralBlock. by rewrite Hr. Qed.

Lemma restore_frees l b :
  Forall (fun s => connected_proxy s = None) (slots (restore_white_list l b))
  /\ is_con_in_process (restore_white_list l b) = false /\ con_status_bit (restore_white_list l b) = 0
  /\ dev_queue (restore_white_list l b) = [] /\ bt_role (restore_white_list l b) = bt_role b.
Proof.
  unfold restore_white_list. split_and!; try done. cbn.
  apply Forall_map, Forall_true. done.
Qed.

(** The messages of a restart, and what is not in the state of the connections. *)
Lemma restart_world D E a w :
  send_ok E = true -> get_interface D a = Some "org.bluez.Adapter1"%string ->
  hld_proxy_adapter1 (restart_dbus D E true a w) = Some a
  /\ restart_dbus_required (restart_dbus D E true a w) = false
  /\ w_sent (restart_dbus D E true a w) = (w_sent w ++ [Notice BT_DBUS_IS_NOT_READY 4294967295 None None;
                                          Notice BT_EVENT_SW_TO_CLIENT 4294967295 None None])%list.
Proof.
  intros Hs Ha. unfold restart_dbus. cbn [negb]. rewrite notify_sends by done.
  pose proof (fun l b => proj2 (proj2 (proj2 (proj2 (restore_frees l b))))) as Hf.
  generalize (sys_get_bt_white_list (replicate MAX_BT_WHITE_LIST zero_addr) MAX_BT_WHITE_LIST) as g.
  generalize dependent restore_white_list. intros f Hf g.
  unfold sys_add_proxy. rewrite Ha. cbn [String.eqb Ascii.eqb Bool.eqb snd].
  rewrite notify_refused by (cbn; by rewrite Hf). rewrite notify_sends by done. cbn. by rewrite <- app_assoc.
Qed.

(** C22: after the restart of the bus the white list is the one before, every slot
    is free, nothing is in progress, the gateway is a client with the new adapter;
    and the general process has been told two things, that the bus was not ready
    and that the gateway is a client: of the connections that were lost it is not
    told, for a disconnection without an index is refused. *)
Theorem restart_is_reported D E a w :
  full (w_ble w) -> send_ok E = true -> get_interface D a = Some "org.bluez.Adapter1"%string ->
  let w' := restart_dbus D E true a w in
  white_list (w_ble w') = white_list (w_ble w)
  /\ Forall (fun s => connected_proxy s = None) (slots (w_ble w'))
  /\ is_con_in_process (w_ble w') = false /\ con_status_bit (w_ble w') = 0 /\ bt_role (w_ble w') = BT_ROLE_CLIENT
  /\ hld_proxy_adapter1 w' = Some a /\ restart_dbus_required w' = false
  /\ w_sent w' = (w_sent w ++ [Notice BT_DBUS_IS_NOT_READY 4294967295 None None;
                               Notice BT_EVENT_SW_TO_CLIENT 4294967295 None None])%list.
Proof.
  intros Hf Hs Ha w'. destruct (restart_world D E a w Hs Ha) as (Hx1 & Hx2 & Hx3).
  pose proof (restart_white_list D E true a w Hf) as Hwl. destruct (restart_ble D E true a w) as [q Hb].
  fold w' in Hx1, Hx2, Hx3, Hwl, Hb. clearbody w'.
  revert Hb. match goal with |- context [restore_white_list ?l ?b] =>
    destruct (restore_frees l b) as (H1 & H2 & H3 & _ & H5); generalize dependent (restore_white_list l b) end.
  intros r H1 H2 H3 H5 Hb. rewrite Hb in *. split_and!; done.
Qed.

Lemma restart_is_reported_witness :
  hld_proxy_adapter1 (restart_dbus demo_bus demo_loop true 9%nat (demo_after demo_one)) = Some 9%nat
  /\ connected_proxy (slot_at 0 (w_ble (demo_after demo_one))) = Some 1%nat.
Proof.
  split; [|vm_compute; reflexivity].
  apply (restart_is_reported demo_bus demo_loop 9%nat (demo_after demo_one)); vm_compute; reflexivity.
Defined.

(** ** The text of an address *)

Definition nibble (n : Z) : Prop := 0 <= n < 16.

Lemma nibble_cases (P : Z -> Prop) n : nibble n -> Forall P (map Z.of_nat (seq 0 16)) -> P n.
Proof.
  intros Hn HP. rewrite Forall_forall in HP. apply HP, list_elem_of_In, in_map_iff.
  exists (Z.to_nat n). unfold nibble in Hn. split; [lia|apply in_seq; lia].
Qed.

Lemma hex_digit_val n : nibble n -> hex_val (hex_digit n) = Some n.
Proof. intros Hn. apply (nibble_cases (fun n => hex_val (hex_digit n) = Some n)); [done|]. repeat constructor. Qed.

Lemma hex_digit_colon n : nibble n -> Ascii.eqb (hex_digit n) ":"%char = false.
Proof. intros Hn. apply (nibble_cases (fun n => Ascii.eqb (hex_digit n) ":"%char = false)); [done|]. repeat constructor. Qed.

Lemma hex_digit_nul n : nibble n -> Ascii.eqb (hex_digit n) zero = false.
Proof. intros Hn. apply (nibble_cases (fun n => Ascii.eqb (hex_digit n) zero = false)); [done|]. repeat constructor. Qed.

Lemma byte_nibbles x : 0 <= x < 256 -> nibble (x / 16) /\ nibble (x mod 16).
Proof. unfold nibble. intros. split; Z.div_mod_to_equations; lia. Qed.

Lemma strip_digit n s cnt buf :
  nibble n -> strip_loop (String (hex_digit n) s) cnt buf =
  strip_loop s (u8 (cnt + 1)) (<[(Z.to_nat cnt mod MAX_ID_STR_LENGTH)%nat := hex_digit n]> buf).
Proof. intros Hn. cbn [strip_loop]. by rewrite hex_digit_colon. Qed.

Lemma c_string_digit n l : nibble n -> c_string (hex_digit n :: l) = String (hex_digit n) (c_string l).
Proof. intros Hn. cbn [c_string]. by rewrite hex_digit_nul. Qed.

Lemma sscanf_byte k x s l :
  0 <= x < 256 -> sscanf_02x k s = Some l ->
  sscanf_02x (S k) (String (hex_digit (x / 16)) (String (hex_digit (x mod 16)) s)) = Some (x :: l).
Proof.
  intros Hx Hs. destruct (byte_nibbles x Hx) as [H1 H2]. cbn [sscanf_02x]. rewrite !hex_digit_val by done.
  cbn [mbind option_bind]. rewrite Hs. cbn [mbind option_bind]. do 2 f_equal. pose proof (Z.div_mod x 16). lia.
Qed.

Lemma strip_mac_text a b c d e f :
  Forall (fun x => 0 <= x < 256) [a; b; c; d; e; f] ->
  strip_colons (mac_text a b c d e f) =
  (concat (map (fun x => [hex_digit (x / 16); hex_digit (x mod 16)]) [a; b; c; d; e; f]) ++ replicate 20 zero)%list.
Proof.
  rewrite !Forall_cons. intros (Ha & Hb & Hc & Hd & He & Hf & _).
  apply byte_nibbles in Ha as [Ha1 Ha2], Hb as [Hb1 Hb2], Hc as [Hc1 Hc2], Hd as [Hd1 Hd2], He as [He1 He2], Hf as [Hf1 Hf2].
  unfold mac_text, hex2, strip_colons, String.append.
  repeat first [rewrite strip_digit by done
               |match goal with |- context [strip_loop (String ":"%char ?s) ?c ?b] =>
                  change (strip_loop (String ":"%char s) c b) with (strip_loop s c b) end].
  reflexivity.
Qed.

(** The six bytes of a text. *)
Lemma text_bytes a b c d e f :
  Forall (fun x => 0 <= x < 256) [a; b; c; d; e; f] ->
  sscanf_02x 6 (c_string (strip_colons (mac_text a b c d e f))) = Some [a; b; c; d; e; f].
Proof.
  intros H. rewrite strip_mac_text by done. revert H. rewrite !Forall_cons. intros (Ha & Hb & Hc & Hd & He & Hf & _).
  cbn [map concat app]. rewrite !c_string_digit by (by apply byte_nibbles). by repeat apply sscanf_byte.
Qed.

(** An address of a white list that a device can have. *)
Definition addr_ok (a : bt_addr) : Prop := 0 <= nap a < 65536 /\ 0 <= uap a < 256 /\ 0 <= lap a < 16777216.

Lemma addr_text_little a :
  addr_text false a = mac_text (hi8 (nap a)) (lo8 (nap a)) (uap a) (lo8 (Z.shiftr (lap a) 16)) (lo8 (Z.shiftr (lap a) 8)) (lo8 (lap a)).
Proof. reflexivity. Qed.

(** BlueZ's path of a device: the address with underscores. *)
Fixpoint underscores (s : string) : string :=
  match s with
  | EmptyString => EmptyString
  | String c s => String (if Ascii.eqb c ":"%char then "_"%char else c) (underscores s)
  end.
Definition bluez_path (a : bt_addr) : string := ("/org/bluez/hci0/dev_" ++ underscores (addr_text false a))%string.

Lemma path_text a b c :
  Forall (fun x => 0 <= x < 256) [a; b; c] ->
  get_mac_addr_from_path ("/org/bluez/hci0/dev_" ++ underscores (mac_text 0xC4 0xBD 0x6A a b c))
  = Some (mac_text 0xC4 0xBD 0x6A a b c).
Proof.
  rewrite !Forall_cons. intros (Ha & Hb & Hc & _).
  apply byte_nibbles in Ha as [Ha1 Ha2], Hb as [Hb1 Hb2], Hc as [Hc1 Hc2].
  assert (underscores (mac_text 0xC4 0xBD 0x6A a b c) = "C4_BD_6A_" ++ hex2 a ++ "_" ++ hex2 b ++ "_" ++ hex2 c)%string as ->.
  { unfold mac_text. change (hex2 0xC4) with "C4"%string. change (hex2 0xBD) with "BD"%string. change (hex2 0x6A) with "6A"%string.
    unfold hex2, String.append. cbn [underscores]. by rewrite !hex_digit_colon. }
  unfold mac_text, hex2, get_mac_addr_from_path, String.append. 
  generalize (hex_digit_nul _ Ha1), (hex_digit_nul _ Ha2), (hex_digit_nul _ Hb1), (hex_digit_nul _ Hb2),
    (hex_digit_nul _ Hc1), (hex_digit_nul _ Hc2).
  generalize (hex_digit (a / 16)), (hex_digit (a mod 16)), (hex_digit (b / 16)), (hex_digit (b mod 16)),
    (hex_digit (c / 16)), (hex_digit (c mod 16)). intros c1 c2 c3 c4 c5 c6 H1 H2 H3 H4 H5 H6. cbn. rewrite H1, H2, H3, H4, H5, H6. done.
Qed.

(** the address of a sensor survives its texts: the text that the white list
    is compared with is the one that BlueZ's path gives back, and the message of
    a connection, which reads the text again, carries the address of the white
    list. *)
Theorem addr_round_trip a :
  addr_ok a -> nap a = 0xC4BD -> uap a = 0x6A ->
  get_mac_addr_from_path (bluez_path a) = Some (addr_text false a)
  /\ addr_of_text (c_string (strip_colons (addr_text false a))) = Some a.
Proof.
  intros (_ & _ & Hl) Hn Hu. unfold bluez_path. rewrite addr_text_little.
  pose proof (lo8_range (Z.shiftr (lap a) 16)) as H1. pose proof (lo8_range (Z.shiftr (lap a) 8)) as H2.
  pose proof (lo8_range (lap a)) as H3. split.
  - rewrite Hn, Hu. change (hi8 0xC4BD) with 0xC4. change (lo8 0xC4BD) with 0xBD.
    apply path_text. rewrite !Forall_cons. unfold is_u8 in *. auto using Forall_nil.
  - unfold addr_of_text. rewrite text_bytes.
    2: { rewrite Hn, Hu, !Forall_cons. unfold is_u8 in *. split_and!; try done; lia. }
    rewrite Hn, Hu. cbn [fmap option_fmap option_map]. f_equal. destruct a as [n u l]. cbn [nap uap lap] in *. subst.
    unfold addr_of_bytes. cbn [nth]. f_equal. rewrite !lo8_mod, !Z.shiftr_div_pow2 by lia.
    change (2 ^ 16) with 65536. change (2 ^ 8) with 256. unfold u32. Z.div_mod_to_equations. lia.
Qed.

Lemma addr_round_trip_witness :
  get_mac_addr_from_path (bluez_path (demo_addr 0x12AB9F)) = Some (addr_text false (demo_addr 0x12AB9F))
  /\ addr_of_text (c_string (strip_colons (addr_text false (demo_addr 0x12AB9F)))) = Some (demo_addr 0x12AB9F).
Proof. apply (addr_round_trip (demo_addr 0x12AB9F)); [unfold addr_ok; cbn; lia|reflexivity..]. Defined.

(** ** Runs that go wrong *)

(** The time-out leaves the proxy in the condition variable of its slot: the
    next attempt uses another slot, the change of the property Connected goes to
    the old one and the reply to the new one. *)
Definition two_slots_run : list label :=
  (demo_start ++ [demo_heard 10 1%nat] ++ demo_pass 11 ++ [LPassTimeout; demo_heard 80 1%nat] ++ demo_pass 81
   ++ [demo_connected 82 1%nat true; LConnectReply true false 1%nat; LPassDone])%list.

Example sensor_takes_two_slots :
  (fun w => map connected_proxy (slots (w_ble w))) <$> run false demo_bus two_slots_run started
  = Some [Some 1%nat; Some 1%nat; None; None].
Proof. vm_compute. reflexivity. Qed.

(** The same after a call that BlueZ refuses. *)
Definition refused_run : list label :=
  (demo_start ++ [demo_heard 10 1%nat] ++ demo_pass 11 ++ [LConnectReply true true 1%nat; LPassDone; demo_heard 18 1%nat]
   ++ demo_pass 19 ++ [demo_connected 20 1%nat true; LConnectReply true false 1%nat; LPassDone])%list.

Example refused_sensor_takes_two_slots :
  (fun w => map connected_proxy (slots (w_ble w))) <$> run false demo_bus refused_run started
  = Some [Some 1%nat; Some 1%nat; None; None].
Proof. vm_compute. reflexivity. Qed.

(** One of them stays when the sensor leaves, and the sensor is not picked again. *)
Example slot_is_lost :
  (fun w => (map connected_proxy (slots (w_ble w)), pick_device false demo_bus (w_ble w)))
  <$> run false demo_bus (two_slots_run ++ [demo_connected 99 1%nat false; LRemoved 1%nat; demo_heard 100 1%nat])%list started
  = Some ([None; Some 1%nat; None; None], None).
Proof. vm_compute. reflexivity. Qed.

(** Two disconnections before the first is handled: both are reported as the
    second slot's. *)
Example disconnections_name_one_slot :
  (fun w => (map connected_proxy (slots (w_ble w)),
             map n_msgid (List.filter (fun n => bool_decide (n_event n = BT_EVENT_DISCONNECTION)) (w_sent w))))
  <$> run false demo_bus (demo_start ++ [LEvent demo_loop] ++ demo_connect 10 1%nat ++ demo_connect 20 2%nat
        ++ [demo_connected 40 1%nat false; demo_connected 40 2%nat false; LEvent demo_loop; LEvent demo_loop])%list started
  = Some ([None; None; None; None], [1; 1]).
Proof. vm_compute. reflexivity. Qed.

(** The fourth slot shares its bit with the first. *)
Example slot_3_has_bit_0 : con_bit 3 = con_bit 0.
Proof. reflexivity. Qed.
