(* ===== verification/Collect.v ===== *)
(** * Collect: the measurements of a Predict sensor

    [collectData] of [sensorInterface/sensor_interface_insight_predict.c]: the
    gateway asks a connected sensor for its short data, three types at a time,
    and, when a waveform is due, for six waveforms, which come in blocks and
    are written to files; what was received goes to the queue of the database
    thread. A message is what [pb_decode] yields for its field [data_upload];
    the callback that turns its data pairs into elements is
    [protobuf_dec_data_pair_callback] of [app_froto_common.c]. *)

From S2P Require Import Prelude FrotoCrc BtState.
From Stdlib Require Import ZArith Lia ZifyBool List Bool Ascii String.
From stdpp Require Import base list numbers option strings gmap pretty.
Open Scope Z_scope.

(** ** Types of measurements and formats *)

Definition UNKNOWN_MEASUREMENT_TYPE : Z := 0.
Definition VIBRATION_ACC_WAVE : Z := 1.
Definition VIBRATION_ENV3_WAVE : Z := 3.
Definition VIBRATION_VELOCITY_WAVE : Z := 4.
Definition VIBRATION_ACC_STATUS_WAVE : Z := 63.
Definition ADVANCED_ALGO_ALARM_CODE : Z := 45.
Definition ADVANCED_ALGO_VEL_OV : Z := 50.

Definition INSIGHT_PREDICT_WAVEFORM_DATA_START : nat := 0.
Definition INSIGHT_PREDICT_WAVEFORM_DATA_END : nat := 5.
Definition INSIGHT_PREDICT_DATA_COLLECT_MAX_NUMBER : nat := 3.
Definition FROTO_DATAPAIR_MAX_NUMBER : nat := 5.
Definition DB_FROTO_ALARM_CODE_SIZE : nat := 9.
Definition DB_STORAGE_FORM_DIGIT : string := "Digit".
Definition DB_STORAGE_FORM_FILENAME : string := "Filename".
Definition DB_WAVEDATA_FILENAME_PREFIX : string := "/var/lib/skf-gateway/data/wave_".
Definition DB_ALARMDATA_FILENAME_PREFIX : string := "/var/lib/skf-gateway/data/alarm_code_".

(** The waveforms, and the short data from index 6 on. *)
Definition collectDataGroup : list Z :=
  [VIBRATION_ACC_WAVE; VIBRATION_ENV3_WAVE; VIBRATION_VELOCITY_WAVE;
   VIBRATION_ACC_STATUS_WAVE; VIBRATION_ACC_STATUS_WAVE; VIBRATION_ACC_STATUS_WAVE;
   30; 43; 44; ADVANCED_ALGO_ALARM_CODE; 46; 47; 13; 14; 15; 48; 49; ADVANCED_ALGO_VEL_OV; 51; 52; 53; 54;
   55; 56; 57; 58; 59; 60; 61; 62; 42].
Definition sensorType : list Z :=
  [9; 9; 9; 9; 9; 9; 0; 0; 0; 0; 10; 9; 11; 11; 11; 0; 0; 9; 9; 9; 9; 9; 9; 9; 9; 9; 9; 9; 9; 9; 8].

Definition dbFormatIsFile (measType : Z) : bool :=
  (measType =? ADVANCED_ALGO_ALARM_CODE) || (measType =? VIBRATION_ACC_WAVE) || (measType =? VIBRATION_ENV3_WAVE)
  || (measType =? VIBRATION_VELOCITY_WAVE) || (measType =? VIBRATION_ACC_STATUS_WAVE).

(** ** Messages *)

(** A measurement, without the members that only the log prints. *)
Record measurement := Meas {
  measureType : Z; m_sensorType : option Z; productType : Z; m_range : option Z; m_unit : option Z;
  m_sample_rate_hz : option Z; m_sample_period_s : option Z; sample_dimension : option Z;
  m_measure_length_sample : option Z; m_total_data_length_sample : option Z; measure_seq_no : Z;
  m_data_format : Z; m_encryp : option Z; sensorID : list Z; sample_time : Z; m_alarm : Z
}.

Record measurement_data := MeasData { md_start_point : Z; md_crc32_value : Z; md_data : list Z }.

Record DataPair := Pair { dp_measurement : option measurement; dp_measurement_data : option measurement_data }.

Record upload := Upload { total_block : Z; current_block : Z; data_pair : list DataPair }.

(** An element of [protobuf_codec_data_pair_t]; no data is the pointer NULL. *)
Record ele_data := EleData { start_point : Z; e_crc32 : Z; crc32_valid : bool; data : list Z }.
Record ele := Ele { e_measurement : option measurement; e_data : ele_data }.

Definition dec_data (d : measurement_data) : ele_data :=
  EleData (md_start_point d) (md_crc32_value d)
    (match md_data d with
     | [] => false
     | l => bool_decide (Some (md_crc32_value d) = froto_crc32 l (Z.of_nat (List.length l)))
     end) (md_data d).

(** The dimension is kept in eight bits. *)
Definition dec_measurement (m : measurement) : measurement :=
  Meas (measureType m) (m_sensorType m) (productType m) (m_range m) (m_unit m) (m_sample_rate_hz m) (m_sample_period_s m)
    ((fun d => d mod 256) <$> sample_dimension m) (m_measure_length_sample m) (m_total_data_length_sample m)
    (measure_seq_no m) (m_data_format m) (m_encryp m) (sensorID m) (sample_time m) (m_alarm m).

(** The array has five elements, which were zeroed. *)
Definition protobuf_dec_data_pair_callback (buffer : list ele) (p : DataPair) : list ele :=
  if (List.length buffer <? FROTO_DATAPAIR_MAX_NUMBER)%nat
  then (buffer ++ [Ele (dec_measurement <$> dp_measurement p) (match dp_measurement_data p with
                                                          | None => EleData 0 0 false []
                                                          | Some d => dec_data d
                                                          end)])%list
  else buffer.

Definition app_froto_data_upload_parser (u : upload) : list ele :=
  fold_left protobuf_dec_data_pair_callback (data_pair u) [].

(** ** Items, files and the queue of the database *)

Inductive item_value :=
| Valu8 (x : Z) | Valu16 (x : Z) | Valu32 (x : Z) | ValuFloat (bits : Z) | ValuDouble (bits : Z)
| Fpath (fd : nat) (fpath : string).

Record data_item := Item {
  name_id : Z; sensor_name : string; sensor_mac : string; sensor_type : string; manufacturer : string;
  meas_id : Z; meas_ts : Z; received_ts : Z; alarm : Z; data_type : Z; format : string; range : Z; unit_of : Z;
  measure_length_sample : Z; total_data_length_sample : Z; dimension : Z; data_format : Z; sample_period_s : Z;
  encryp : Z; value : item_value; crc32 : Z; sample_rate_hz : Z; froto_sensor_type : Z; product_type : Z
}.

Record userdata := UserData {
  lastRegularSensingTime_s : Z; waveformPeriod_s : Z; regularSensingPeriod_s : Z; waveformRef_s : Z;
  regularSensingRef_s : Z; regularSensingMeas_id : Z
}.

Record sensor_interface := SensorInterface {
  sensorNameId : Z; sensorManufacturer : string; sensorPrductType : string; sensorBLEName : string;
  userData : option userdata
}.

(** A request for data: the types and sensors, the dimension, the filter. *)
Record request := Request {
  rq_types : list Z; rq_sensors : list Z; rq_dimension : option Z; rq_filter : option (Z * Z)
}.

(** [files] has the contents of the files, [fds] the open ones with their
    positions, [heap] the items that were allocated for a waveform: [None] is
    one that was freed or handed to the thread of the database. *)
Record store := Store {
  files : gmap string (list Z); fds : list (option (string * nat)); heap : list (option data_item);
  pt_dtitem_queue : list data_item; requests : list request
}.

Definition set_files (x : gmap string (list Z)) (st : store) : store :=
  Store x (fds st) (heap st) (pt_dtitem_queue st) (requests st).
Definition set_fds (x : list (option (string * nat))) (st : store) : store :=
  Store (files st) x (heap st) (pt_dtitem_queue st) (requests st).
Definition set_heap (x : list (option data_item)) (st : store) : store :=
  Store (files st) (fds st) x (pt_dtitem_queue st) (requests st).
Definition set_dtitem_queue (x : list data_item) (st : store) : store :=
  Store (files st) (fds st) (heap st) x (requests st).
Definition set_requests (x : list request) (st : store) : store :=
  Store (files st) (fds st) (heap st) (pt_dtitem_queue st) x.

(** The lowest descriptor that is free. *)
Fixpoint take_fd {A} (x : A) (l : list (option A)) : nat * list (option A) :=
  match l with
  | [] => (0%nat, [Some x])
  | None :: l => (0%nat, Some x :: l)
  | Some y :: l => let '(i, l) := take_fd x l in (S i, Some y :: l)
  end.

(** [open] with O_CREAT and O_RDWR: the content of a file that exists stays. *)
Definition open_file (path : string) (st : store) : nat * store :=
  let '(fd, l) := take_fd (path, 0%nat) (fds st) in
  (fd, set_fds l (set_files (<[path := default [] (files st !! path)]> (files st)) st)).

(** A write goes over what is there. [None]: the descriptor is not open. *)
Definition write_file (fd : nat) (bytes : list Z) (st : store) : option store :=
  '(path, pos) ← mjoin (fds st !! fd);
  content ← files st !! path;
  Some (set_fds (<[fd := Some (path, pos + List.length bytes)%nat]> (fds st))
         (set_files (<[path := take pos content ++ bytes ++ drop (pos + List.length bytes) content]> (files st)) st))%list.

Definition close_file (fd : nat) (st : store) : option store :=
  _ ← mjoin (fds st !! fd); Some (set_fds (<[fd := None]> (fds st)) st).

(** [None]: the item is not the thread's any more. *)
Definition item_at (p : nat) (st : store) : option data_item := mjoin (heap st !! p).

Definition free_item (p : nat) (st : store) : option store :=
  _ ← item_at p st; Some (set_heap (<[p := None]> (heap st)) st).

Definition push_item (i : data_item) (st : store) : store :=
  set_dtitem_queue (pt_dtitem_queue st ++ [i])%list st.

(** The item goes to the thread of the database, which frees it. *)
Definition queue_item (p : nat) (st : store) : option store :=
  i ← item_at p st; Some (push_item i (set_heap (<[p := None]> (heap st)) st)).

Definition item_fd (i : data_item) : option nat :=
  match value i with Fpath fd _ => Some fd | _ => None end.

Definition s32 (x : Z) : Z := if u32 x <? 2 ^ 31 then u32 x else u32 x - 2 ^ 32.

(** ["%s%d_%d_%s"] *)
Definition file_path (prefix : string) (i : data_item) : string :=
  (prefix ++ pretty (s32 (received_ts i)) ++ "_" ++ pretty (s32 (data_type i)) ++ "_" ++ sensor_mac i)%string.

Definition set_value (x : item_value) (i : data_item) : data_item :=
  Item (name_id i) (sensor_name i) (sensor_mac i) (sensor_type i) (manufacturer i) (meas_id i) (meas_ts i)
    (received_ts i) (alarm i) (data_type i) (format i) (range i) (unit_of i) (measure_length_sample i)
    (total_data_length_sample i) (dimension i) (data_format i) (sample_period_s i) (encryp i) x (crc32 i)
    (sample_rate_hz i) (froto_sensor_type i) (product_type i).

(** The item of a measurement. [None]: the identifier of the sensor has fewer than six bytes. *)
Definition item_of (si : sensor_interface) (now : Z) (m : measurement) (d : ele_data) : option data_item :=
  match sensorID m with
  | a :: b :: c :: d0 :: e :: f :: _ =>
      Some (Item (sensorNameId si) (sensorBLEName si) (hex2 a ++ hex2 b ++ hex2 c ++ hex2 d0 ++ hex2 e ++ hex2 f)
        (sensorPrductType si) (sensorManufacturer si) (measure_seq_no m) (sample_time m) now (m_alarm m) (measureType m)
        (if dbFormatIsFile (measureType m) then DB_STORAGE_FORM_FILENAME else DB_STORAGE_FORM_DIGIT)
        (default 0 (m_range m)) (default 0 (m_unit m)) (default 0 (m_measure_length_sample m))
        (default 0 (m_total_data_length_sample m)) (default 0 (sample_dimension m)) (m_data_format m)
        (default 0 (m_sample_period_s m)) (default 0 (m_encryp m)) (Valu8 0) (e_crc32 d)
        (default 0 (m_sample_rate_hz m)) (default 0 (m_sensorType m)) (productType m))
  | _ => None
  end.

(** ** Short data *)

(** A number of [n] bytes, lowest first. [None]: a read past the data. *)
Fixpoint read_le (n : nat) (l : list Z) : option Z :=
  match n, l with
  | O, _ => Some 0
  | S n, b :: l => x ← read_le n l; Some (b + 256 * x)
  | S _, [] => None
  end.

Definition digit_value (fmt : Z) (d : list Z) : option item_value :=
  if (fmt =? 1) || (fmt =? 2) then Valu16 <$> read_le 2 d
  else if (fmt =? 3) || (fmt =? 4) then Valu32 <$> read_le 4 d
  else if fmt =? 7 then ValuFloat <$> read_le 4 d
  else if fmt =? 8 then ValuDouble <$> read_le 8 d
  else Valu8 <$> read_le 1 d.

(** What is met while a message is processed: the time and the result of [open]
    for each element. *)
Record msg_env := MsgEnv { time_at : nat -> Z; open_at : nat -> bool }.

(** The queue of a message, and [lastVibSensingTime_s], [lastVibSensingMeas_id]. *)
Record collected := Collected { c_queue : list data_item; c_time : Z; c_id : Z }.

Definition valid_ele (e : ele) : option measurement :=
  match e_measurement e with
  | Some m => if bool_decide (data (e_data e) <> []) && crc32_valid (e_data e) then Some m else None
  | None => None
  end.

Definition simple_ele (si : sensor_interface) (E : msg_env) (n : nat) (e : ele) (c : collected) (st : store) :
  option (collected * store) :=
  match valid_ele e with
  | None => Some (c, st)
  | Some m =>
      i ← item_of si (time_at E n) m (e_data e);
      if dbFormatIsFile (data_type i) then
        if negb (data_type i =? ADVANCED_ALGO_ALARM_CODE) then Some (c, st)
        else if negb (open_at E n) then Some (c, st)
        else
          let path := file_path DB_ALARMDATA_FILENAME_PREFIX i in
          let '(fd, st) := open_file path st in
          st ← write_file fd (take DB_FROTO_ALARM_CODE_SIZE (data (e_data e))) st;
          st ← close_file fd st;
          Some (Collected (c_queue c ++ [set_value (Fpath fd path) i])%list (c_time c) (c_id c), st)
      else
        v ← digit_value (m_data_format m) (data (e_data e));
        let q := (c_queue c ++ [set_value v i])%list in
        Some (if data_type i =? ADVANCED_ALGO_VEL_OV then Collected q (meas_ts i) (meas_id i)
              else Collected q (c_time c) (c_id c), st)
  end.

Fixpoint simple_eles (si : sensor_interface) (E : msg_env) (n : nat) (l : list ele) (c : collected) (st : store) :
  option (collected * store) :=
  match l with
  | [] => Some (c, st)
  | e :: l => '(c, st) ← simple_ele si E n e c st; simple_eles si E (S n) l c st
  end.

Definition simple_data_upload_processor (si : sensor_interface) (E : msg_env) (l : list ele) (st : store) :
  option (collected * store) :=
  '(c, st) ← simple_eles si E 0 l (Collected [] 0 0) st;
  Some (c, set_dtitem_queue (pt_dtitem_queue st ++ c_queue c)%list st).

Definition set_userData (x : option userdata) (si : sensor_interface) : sensor_interface :=
  SensorInterface (sensorNameId si) (sensorManufacturer si) (sensorPrductType si) (sensorBLEName si) x.
Definition set_lastTime (x : Z) (u : userdata) : userdata :=
  UserData x (waveformPeriod_s u) (regularSensingPeriod_s u) (waveformRef_s u) (regularSensingRef_s u) (regularSensingMeas_id u).
Definition set_lastId (x : Z) (u : userdata) : userdata :=
  UserData (lastRegularSensingTime_s u) (waveformPeriod_s u) (regularSensingPeriod_s u) (waveformRef_s u) (regularSensingRef_s u) x.

Definition note_last (c : collected) (si : sensor_interface) : sensor_interface :=
  match userData si with
  | None => si
  | Some u =>
      let u := if c_time c =? 0 then u else set_lastTime (c_time c) u in
      set_userData (Some (if c_id c =? 0 then u else set_lastId (c_id c) u)) si
  end.

Definition send_request (r : request) (st : store) : store := set_requests (requests st ++ [r])%list st.

(** One attempt at a group: the reply, [None] when it does not come in time. *)
Record simple_env := SimpleEnv { se_reply : option upload; se_msg : msg_env }.

Definition short_data_retry : nat := 3.

Definition short_request (i delta : nat) : request :=
  Request (take delta (drop i collectDataGroup)) (take delta (drop i sensorType)) None None.

(** [_SHORT_DATA_RETRY], from attempt [a] on with [retries] left. *)
Fixpoint short_group (E : nat -> simple_env) (retries a i delta : nat) (si : sensor_interface) (st : store) :
  option (bool * sensor_interface * store) :=
  let st := send_request (short_request i delta) st in
  match se_reply (E a) with
  | Some u =>
      '(c, st) ← simple_data_upload_processor si (se_msg (E a)) (app_froto_data_upload_parser u) st;
      Some (true, note_last c si, st)
  | None =>
      match retries with
      | O => Some (false, si, st)
      | S retries => short_group E retries (S a) i delta si st
      end
  end.

(** The loop over the groups; [g] is the number of the group. *)
Fixpoint short_loop (fuel : nat) (E : nat -> nat -> simple_env) (g i delta : nat) (si : sensor_interface) (st : store) :
  option (bool * sensor_interface * store) :=
  let size := List.length collectDataGroup in
  if (i <? size)%nat then
    match fuel with
    | O => None
    | S fuel =>
        let delta := if (size <? i + INSIGHT_PREDICT_DATA_COLLECT_MAX_NUMBER)%nat then (size - i)%nat else delta in
        '(ok, si, st) ← short_group (E g) short_data_retry 0 i delta si st;
        if ok : bool then short_loop fuel E (S g) (i + delta)%nat delta si st else Some (false, si, st)
    end
  else Some (true, si, st).

Definition COLLECT_FUEL : nat := 25.

(** ** Is a waveform due? *)

Definition u64 (x : Z) : Z := x mod 2 ^ 64.

(** [None]: a division by zero. [garbage] is the variable that is not
    initialised when the clock is behind a reference time. *)
Definition wave_required (kp_tstamp garbage : Z) (u : userdata) : option (bool * userdata) :=
  let rr := regularSensingRef_s u in
  let rw := waveformRef_s u in
  let pr := regularSensingPeriod_s u in
  let pw := waveformPeriod_s u in
  let behind := (rr <? kp_tstamp) && (rw <? kp_tstamp) in
  if behind && (pr =? 0) then None
  else
    let expLast := if behind then rr + (kp_tstamp - rr) / pr * pr else garbage in
    let u := if lastRegularSensingTime_s u <? expLast then set_lastTime expLast u else u in
    let last := lastRegularSensingTime_s u in
    let manual := 32768 <=? regularSensingMeas_id u in
    if (negb (last =? 0) && negb (pr =? 0) && negb (pw =? 0) && behind) || manual then
      if pw =? 0 then None
      else
        let slot := u64 (u64 (last - rw) / pw * pw + rw) in
        Some (((slot <=? last) && (u64 (last - pr) <? slot)) || manual, u)
    else Some (false, u).

(** ** Waveforms *)

(** What is met in one attempt at a waveform: whether the database has it, by
    time, type and dimension, the time, the first packet, and the replies with the other blocks. *)
Record wave_env := WaveEnv {
  we_in_db : Z -> Z -> Z -> bool; we_now : Z; we_first : option upload; we_msg : msg_env; we_block : nat -> option upload
}.

Definition is_wave (t : Z) : bool :=
  (t =? VIBRATION_ACC_WAVE) || (t =? VIBRATION_ENV3_WAVE) || (t =? VIBRATION_VELOCITY_WAVE) || (t =? VIBRATION_ACC_STATUS_WAVE).

(** An element of the first packet; [data_item_info] is the last item. *)
Definition first_ele (si : sensor_interface) (E : msg_env) (n : nat) (e : ele) (data_item_info : option nat) (st : store) :
  option (option nat * store) :=
  match valid_ele e with
  | None => Some (data_item_info, st)
  | Some m =>
      if negb (start_point (e_data e) =? 0) then Some (data_item_info, st)
      else
        i ← item_of si (time_at E n) m (e_data e);
        if negb (is_wave (data_type i)) then Some (data_item_info, st)
        else if negb (open_at E n) then Some (data_item_info, st)
        else
          let path := file_path DB_WAVEDATA_FILENAME_PREFIX i in
          let '(fd, st) := open_file path st in
          st ← write_file fd (data (e_data e)) st;
          Some (Some (List.length (heap st)), set_heap (heap st ++ [Some (set_value (Fpath fd path) i)])%list st)
  end.

Fixpoint bulk_data_upload_first_pkt_processor (si : sensor_interface) (E : msg_env) (n : nat) (l : list ele)
    (data_item_info : option nat) (st : store) : option (option nat * store) :=
  match l with
  | [] => Some (data_item_info, st)
  | e :: l => '(p, st) ← first_ele si E n e data_item_info st; bulk_data_upload_first_pkt_processor si E (S n) l p st
  end.

(** The data of another packet, [bulkData]. *)
Definition bulk_data_upload_remained_pkt_processor (l : list ele) : option (list Z) :=
  match l with
  | [e] =>
      match e_measurement e with
      | None => if bool_decide (data (e_data e) <> []) && crc32_valid (e_data e) then Some (data (e_data e)) else None
      | Some _ => None
      end
  | _ => None
  end.

(** [close] of the file of an item. *)
Definition close_item (p : nat) (st : store) : option store :=
  i ← item_at p st; fd ← item_fd i; close_file fd st.

(** A block that has come, as number [blkCnt] of [totalBlock]. *)
Definition take_block (u : upload) (blkCnt totalBlock : Z) (p : nat) (skip : bool) (st : store) : option (bool * store) :=
  match bulk_data_upload_remained_pkt_processor (app_froto_data_upload_parser u) with
  | None => Some (skip, st)
  | Some bytes =>
      if skip then Some (skip, st)
      else if current_block u =? blkCnt then
        i ← item_at p st; fd ← item_fd i; st ← write_file fd bytes st;
        if totalBlock <=? blkCnt + 1 then st ← close_file fd st; st ← queue_item p st; Some (false, st)
        else Some (false, st)
      else st ← close_item p st; st ← free_item p st; Some (true, st)
  end.

Inductive blocks_end := BlocksDone (skip : bool) | BlocksTimeout.

(** The loop over the blocks, [n] of which are left. *)
Fixpoint block_loop (E : nat -> option upload) (n : nat) (totalBlock : Z) (p : nat) (skip : bool) (st : store) :
  option (blocks_end * store) :=
  match n with
  | O => Some (BlocksDone skip, st)
  | S n =>
      let blkCnt := totalBlock - Z.of_nat (S n) in
      match E (Z.to_nat blkCnt) with
      | Some u => '(skip, st) ← take_block u blkCnt totalBlock p skip st; block_loop E n totalBlock p skip st
      | None =>
          if skip then Some (BlocksTimeout, st)
          else st ← close_item p st; st ← free_item p st; Some (BlocksTimeout, st)
      end
  end.

(** The only packet. *)
Definition one_packet (p : nat) (st : store) : option store :=
  st ← close_item p st;
  i ← item_at p st;
  if negb (data_type i =? UNKNOWN_MEASUREMENT_TYPE) then queue_item p st else free_item p st.

(** An attempt ends with the next waveform or with a retry. *)
Inductive attempt_end := NextWave | Retry.

Definition wave_attempt (E : wave_env) (i : nat) (pt_dimension : option Z) (si : sensor_interface) (st : store) :
  option (attempt_end * store) :=
  let type := nth i collectDataGroup 0 in
  u ← userData si;
  let last := lastRegularSensingTime_s u in
  if we_in_db E last type (default 0 pt_dimension) then Some (NextWave, st)
  else
    let st := send_request (Request [type] [nth i sensorType 0] pt_dimension (Some (last, we_now E))) st in
    match we_first E with
    | None => Some (Retry, st)
    | Some first =>
        '(data_item, st) ← bulk_data_upload_first_pkt_processor si (we_msg E) 0 (app_froto_data_upload_parser first) None st;
        let totalBlock := total_block first in
        match data_item with
        | None => Some (NextWave, st)
        | Some p =>
            if totalBlock =? 1 then st ← one_packet p st; Some (NextWave, st)
            else
              '(r, st) ← block_loop (we_block E) (Z.to_nat (totalBlock - 1)) totalBlock p false st;
              Some (match r with BlocksDone false => NextWave | _ => Retry end, st)
        end
    end.

Definition long_data_retry : nat := 3.

(** [_LONG_DATA_RETRY], from attempt [a] on with [retries] left. *)
Fixpoint wave_attempts (E : nat -> wave_env) (retries a i : nat) (pt_dimension : option Z) (si : sensor_interface) (st : store) :
  option (bool * store) :=
  '(r, st) ← wave_attempt (E a) i pt_dimension si st;
  match r with
  | NextWave => Some (true, st)
  | Retry =>
      match retries with
      | O => Some (false, st)
      | S retries => wave_attempts E retries (S a) i pt_dimension si st
      end
  end.

(** [_dimension] goes from X to Y to Z over the waveforms of the status. *)
Definition next_dimension (type dim : Z) : option Z * Z :=
  if type =? VIBRATION_ACC_STATUS_WAVE then
    let d := if dim =? 1 then 2 else if dim =? 2 then 4 else 1 in (Some d, d)
  else (None, 0).

(** The loop over the [n] waveforms that are left; [acc_wave] is the build's
    SENSOR_DATA_COL_RULE_REQUIRING_ACC_WAVE. *)
Fixpoint wave_loop (acc_wave : bool) (E : nat -> nat -> wave_env) (n : nat) (dim : Z) (si : sensor_interface) (st : store) : option (bool * store) :=
  match n with
  | O => Some (true, st)
  | S n =>
      let i := (INSIGHT_PREDICT_WAVEFORM_DATA_END - n)%nat in
      let type := nth i collectDataGroup 0 in
      let '(pt_dimension, dim) := next_dimension type dim in
      if negb acc_wave && (type =? VIBRATION_ACC_WAVE) then wave_loop acc_wave E n dim si st
      else
        '(ok, st) ← wave_attempts (E i) long_data_retry 0 i pt_dimension si st;
        if ok : bool then wave_loop acc_wave E n dim si st else Some (false, st)
  end.

(** ** The collection *)

(** Without user data the question whether a waveform is due is not asked. *)
Definition collect_waves (acc_wave : bool) (WE : nat -> nat -> wave_env) (kp_tstamp garbage : Z) (si : sensor_interface) (st : store) :
  option (bool * sensor_interface * store) :=
  '(required, si) ← match userData si with
                    | None => Some (true, si)
                    | Some u => '(r, u) ← wave_required kp_tstamp garbage u; Some (r, set_userData (Some u) si)
                    end;
  if required : bool then
    '(ok, st) ← wave_loop acc_wave WE (S INSIGHT_PREDICT_WAVEFORM_DATA_END) 0 si st; Some (ok, si, st)
  else Some (true, si, st).

Definition collectData (mtx_initialized acc_wave : bool) (SE : nat -> nat -> simple_env) (WE : nat -> nat -> wave_env)
    (kp_tstamp garbage : Z) (si : sensor_interface) (st : store) : option (bool * sensor_interface * store) :=
  if negb mtx_initialized then Some (false, si, st)
  else
    '(ok, si, st) ← short_loop COLLECT_FUEL SE 0 (S INSIGHT_PREDICT_WAVEFORM_DATA_END)
                      INSIGHT_PREDICT_DATA_COLLECT_MAX_NUMBER si st;
    if ok : bool then collect_waves acc_wave WE kp_tstamp garbage si st else Some (false, si, st).
