(* ===== verification/CollectWave.v ===== *)
(** * CollectWave: what becomes of a waveform

    The blocks of a waveform go into a file that is opened with the first of
    them. However the blocks come - all in order, damaged, in a wrong order, or
    not at all - the descriptor and the item are used only while they are the
    thread's; in the good case the file has exactly the data of the blocks. *)

From S2P Require Import Prelude FrotoCrc BtState Collect.
From Stdlib Require Import ZArith Lia ZifyBool List Bool Ascii String.
From stdpp Require Import base list numbers option strings gmap pretty.
Open Scope Z_scope.

(** ** Descriptors and files *)

(** The file behind an open descriptor, and the position in it. *)
Definition fd_at (st : store) (fd : nat) : option (string * nat) := mjoin (fds st !! fd).

Lemma take_fd_spec {A} (x : A) l fd l' : take_fd x l = (fd, l') ->
  mjoin (l !! fd) = None /\ mjoin (l' !! fd) = Some x /\ forall j, j <> fd -> mjoin (l' !! j) = mjoin (l !! j).
Proof.
  revert fd l'. induction l as [|[y|] l IH]; intros fd l'; cbn [take_fd].
  - intros [= <- <-]. split_and!; try done. intros [|j] Hj; [done|]. by rewrite !lookup_nil.
  - destruct (take_fd x l) as [i r] eqn:E. intros [= <- <-].
    destruct (IH i r eq_refl) as (H1 & H2 & H3). split_and!; [done..|].
    intros [|j] Hj; [done|]. cbn. apply H3. congruence.
  - intros [= <- <-]. split_and!; try done. intros [|j] Hj; [done|]. done.
Qed.

(** What a write at position [pos] makes of a content, and the new position. *)
Definition put_bytes (f : list Z * nat) (bytes : list Z) : list Z * nat :=
  let '(c, pos) := f in
  (take pos c ++ bytes ++ drop (pos + List.length bytes) c, pos + List.length bytes)%nat%list.

Lemma put_bytes_at_end c bytes : put_bytes (c, List.length c) bytes = (c ++ bytes, List.length (c ++ bytes))%list.
Proof.
  unfold put_bytes. rewrite take_ge, drop_ge by lia. by rewrite app_nil_r, length_app.
Qed.

Lemma put_all_at_end l c :
  fold_left put_bytes l (c, List.length c) = (c ++ concat l, List.length (c ++ concat l))%list.
Proof.
  revert c. induction l as [|x l IH]; intros c; cbn [fold_left concat]; [by rewrite app_nil_r|].
  rewrite put_bytes_at_end, IH. by rewrite <- app_assoc.
Qed.

(** ** A transfer

    [transferring b p fd path i f st]: since [b], where item [p] was [i] with
    descriptor [fd], only the file has changed, which is [f] now. *)
Record transferring (b : store) (p fd : nat) (path : string) (i : data_item) (f : list Z * nat) (st : store) : Prop :=
  Transferring {
    tr_item : heap b !! p = Some (Some i);
    tr_value : value i = Fpath fd path;
    tr_heap : heap st = heap b;
    tr_fd : fd_at st fd = Some (path, snd f);
    tr_others : forall j, j <> fd -> fd_at st j = fd_at b j;
    tr_files : files st = <[path := fst f]> (files b);
    tr_queue : pt_dtitem_queue st = pt_dtitem_queue b;
    tr_requests : requests st = requests b
  }.

(** It has ended: the file is closed, the item is gone, and [q] is the queue. *)
Record ended (b : store) (p fd : nat) (path : string) (f : list Z * nat) (q : list data_item) (st : store) : Prop :=
  Ended {
    en_heap : heap st = <[p := None]> (heap b);
    en_fd : fd_at st fd = None;
    en_others : forall j, j <> fd -> fd_at st j = fd_at b j;
    en_files : files st = <[path := fst f]> (files b);
    en_queue : pt_dtitem_queue st = q;
    en_requests : requests st = requests b
  }.

Lemma fd_at_set st fd x : fd_at st fd <> None -> mjoin (<[fd := x]> (fds st) !! fd) = x.
Proof.
  unfold fd_at. intros H. rewrite list_lookup_insert_eq; [done|].
  apply lookup_lt_is_Some. destruct (fds st !! fd); [done|]. by cbn in H.
Qed.

Lemma fd_at_other st fd j x : j <> fd -> mjoin (<[fd := x]> (fds st) !! j) = fd_at st j.
Proof. intros H. unfold fd_at. by rewrite list_lookup_insert_ne by done. Qed.

Section transfer.
Context (b : store) (p fd : nat) (path : string) (i : data_item).

Lemma transferring_write f st bytes : transferring b p fd path i f st ->
  exists st', write_file fd bytes st = Some st' /\ transferring b p fd path i (put_bytes f bytes) st'.
Proof.
  intros [Hi Hv Hh Hf Ho Hc Hq Hr]. destruct f as [c pos]. cbn [fst snd] in *.
  unfold write_file. fold (fd_at st fd). rewrite Hf. cbn [mbind option_bind].
  rewrite Hc, lookup_insert_eq. cbn [mbind option_bind]. eexists. split; [reflexivity|].
  split; cbn [put_bytes fst snd]; try done.
  - unfold fd_at at 1. cbn [fds set_fds set_files]. apply fd_at_set. by rewrite Hf.
  - intros j Hj. unfold fd_at at 1. cbn [fds set_fds set_files]. rewrite fd_at_other by done. by apply Ho.
  - cbn [files set_fds set_files]. by rewrite insert_insert_eq.
Qed.

Lemma transferring_close f st : transferring b p fd path i f st ->
  exists st', close_file fd st = Some st' /\ heap st' = heap b /\ fd_at st' fd = None
    /\ (forall j, j <> fd -> fd_at st' j = fd_at b j) /\ files st' = <[path := fst f]> (files b)
    /\ pt_dtitem_queue st' = pt_dtitem_queue b /\ requests st' = requests b.
Proof.
  intros [Hi Hv Hh Hf Ho Hc Hq Hr]. unfold close_file. fold (fd_at st fd). rewrite Hf. cbn [mbind option_bind].
  eexists. split; [reflexivity|]. split_and!; try done.
  - unfold fd_at. cbn [fds set_fds]. apply fd_at_set. by rewrite Hf.
  - intros j Hj. unfold fd_at at 1. cbn [fds set_fds]. rewrite fd_at_other by done. by apply Ho.
Qed.

Lemma item_of_heap st : heap b !! p = Some (Some i) -> heap st = heap b -> item_at p st = Some i.
Proof. intros Hi Hh. unfold item_at. by rewrite Hh, Hi. Qed.

(** The file is closed and the item goes to the database. *)
Lemma transferring_queued f st : transferring b p fd path i f st ->
  exists st', (st ← close_file fd st; queue_item p st) = Some st' /\ ended b p fd path f (pt_dtitem_queue b ++ [i])%list st'.
Proof.
  intros Ht. pose proof (tr_item _ _ _ _ _ _ _ Ht) as Hi.
  destruct (transferring_close f st Ht) as (st1 & -> & Hh & Hf & Ho & Hc & Hq & Hr). cbn [mbind option_bind].
  unfold queue_item. rewrite (item_of_heap st1) by done. cbn [mbind option_bind].
  eexists. split; [reflexivity|]. split; try done; cbn; congruence.
Qed.

(** The file is closed and the item freed. *)
Lemma transferring_dropped f st : transferring b p fd path i f st ->
  exists st', (st ← close_item p st; free_item p st) = Some st' /\ ended b p fd path f (pt_dtitem_queue b) st'.
Proof.
  intros Ht. pose proof (tr_item _ _ _ _ _ _ _ Ht) as Hi. pose proof (tr_value _ _ _ _ _ _ _ Ht) as Hv.
  unfold close_item. rewrite (item_of_heap st) by (try done; by apply Ht). cbn [mbind option_bind].
  unfold item_fd. rewrite Hv. cbn [mbind option_bind].
  destruct (transferring_close f st Ht) as (st1 & -> & Hh & Hf & Ho & Hc & Hq & Hr). cbn [mbind option_bind].
  unfold free_item. rewrite (item_of_heap st1) by done. cbn [mbind option_bind].
  eexists. split; [reflexivity|]. split; try done. cbn. by rewrite Hh.
Qed.

(** ** The blocks *)

(** The data of block [k], when it comes undamaged. *)
Definition received (E : nat -> option upload) (k : nat) : option (list Z) :=
  u ← E k; bulk_data_upload_remained_pkt_processor (app_froto_data_upload_parser u).

(** Block [k] comes, under its number if it is undamaged. *)
Definition in_order (E : nat -> option upload) (k : nat) : Prop :=
  exists u, E k = Some u /\ (received E k <> None -> current_block u = Z.of_nat k).

#[global] Instance in_order_dec E k : Decision (in_order E k).
Proof.
  unfold in_order. destruct (E k) as [u|].
  - destruct (decide (received E k <> None -> current_block u = Z.of_nat k)).
    + left. by exists u.
    + right. by intros (u' & [= <-] & ?).
  - right. by intros (u' & ? & _).
Defined.

Lemma block_loop_skips E n T st : exists r, block_loop E n T p true st = Some (r, st) /\ r <> BlocksDone false.
Proof.
  induction n as [|n IH]; cbn [block_loop]; [by eexists|].
  destruct (E _) as [u|]; [|by eexists]. unfold take_block.
  destruct (bulk_data_upload_remained_pkt_processor _); cbn [mbind option_bind]; apply IH.
Qed.

(** Block [k] of [T], when it comes as it should. *)
Lemma take_block_in_order u (k T : nat) f st E :
  transferring b p fd path i f st -> E k = Some u -> in_order E k -> (k < T)%nat ->
  exists st', take_block u (Z.of_nat k) (Z.of_nat T) p false st = Some (false, st')
    /\ match received E k with
       | None => transferring b p fd path i f st'
       | Some bytes => if (S k =? T)%nat then ended b p fd path (put_bytes f bytes) (pt_dtitem_queue b ++ [i])%list st'
                       else transferring b p fd path i (put_bytes f bytes) st'
       end.
Proof.
  intros Ht Hu (u' & Hu' & Hn) Hk. rewrite Hu in Hu'. injection Hu' as <-.
  unfold take_block, received in *. rewrite Hu in *. cbn [mbind option_bind] in *.
  destruct (bulk_data_upload_remained_pkt_processor _) as [bytes|]; [|by eexists].
  rewrite Hn by done. rewrite Z.eqb_refl. rewrite (item_of_heap st) by apply Ht. cbn [mbind option_bind].
  unfold item_fd. rewrite (tr_value _ _ _ _ _ _ _ Ht). cbn [mbind option_bind].
  destruct (transferring_write f st bytes Ht) as (st1 & -> & Ht1). cbn [mbind option_bind].
  destruct (Nat.eqb_spec (S k) T) as [He|He].
  - destruct (Z.leb_spec (Z.of_nat T) (Z.of_nat k + 1)); [|lia].
    destruct (transferring_queued _ _ Ht1) as (st2 & Hq & He2).
    destruct (close_file fd st1) as [st3|]; [|done]. cbn [mbind option_bind] in *. rewrite Hq. by eexists.
  - destruct (Z.leb_spec (Z.of_nat T) (Z.of_nat k + 1)); [lia|]. by eexists.
Qed.

(** A block that ends the transfer. *)
Lemma take_block_out_of_order u (k T : nat) f st E :
  transferring b p fd path i f st -> E k = Some u -> ~ in_order E k ->
  exists st', take_block u (Z.of_nat k) (Z.of_nat T) p false st = Some (true, st')
    /\ ended b p fd path f (pt_dtitem_queue b) st'.
Proof.
  intros Ht Hu Hn. unfold take_block. destruct (bulk_data_upload_remained_pkt_processor _) as [bytes|] eqn:Eb.
  - destruct (Z.eqb_spec (current_block u) (Z.of_nat k)) as [Hk|Hk].
    { exfalso. apply Hn. exists u. split; [done|]. by intros _. }
    destruct (transferring_dropped f st Ht) as (st' & Hd & He).
    destruct (close_item p st) as [st1|]; [|done]. cbn [mbind option_bind] in *. rewrite Hd. by eexists.
  - exfalso. apply Hn. exists u. split; [done|]. unfold received. rewrite Hu. cbn. by rewrite Eb.
Qed.

(** ** The fate of a transfer *)

(** The data of the undamaged ones of the blocks [k], [k + 1], ... *)
Definition arrived (E : nat -> option upload) (k n : nat) : list (list Z) := omap (received E) (seq k n).

(** After the last block: with it the item has been queued, without it the file is still open. *)
Definition completed (E : nat -> option upload) (n T : nat) (f : list Z * nat) (st : store) : Prop :=
  let f' := fold_left put_bytes (arrived E (T - n) n) f in
  if decide (n = 0%nat \/ received E (T - 1) = None) then transferring b p fd path i f' st
  else ended b p fd path f' (pt_dtitem_queue b ++ [i])%list st.

Lemma arrived_cons E k n f :
  fold_left put_bytes (arrived E k (S n)) f
  = fold_left put_bytes (arrived E (S k) n) (match received E k with None => f | Some x => put_bytes f x end).
Proof. unfold arrived. cbn [seq omap list_omap]. by destruct (received E k). Qed.

Lemma block_loop_fate E n T f st :
  transferring b p fd path i f st -> (n <= T)%nat ->
  exists r st', block_loop E n (Z.of_nat T) p false st = Some (r, st')
    /\ if decide (Forall (in_order E) (seq (T - n) n))
       then r = BlocksDone false /\ completed E n T f st'
       else r <> BlocksDone false /\ exists f', ended b p fd path f' (pt_dtitem_queue b) st'.
Proof.
  revert f st. induction n as [|n IH]; intros f st Ht Hn.
  { cbn [block_loop]. eexists _, _. split; [reflexivity|]. rewrite decide_True by (cbn; constructor).
    split; [done|]. unfold completed. by rewrite decide_True by (by left). }
  cbn [block_loop seq]. replace (Z.of_nat T - Z.of_nat (S n)) with (Z.of_nat (T - S n)) by lia. rewrite Nat2Z.id.
  replace (S (T - S n)) with (T - n)%nat by lia. set (k := (T - S n)%nat) in *.
  destruct (E k) as [u|] eqn:Hu.
  - destruct (decide (in_order E k)) as [Hk|Hk].
    + destruct (take_block_in_order u k T f st E Ht Hu Hk ltac:(lia)) as (st1 & -> & H1). cbn [mbind option_bind].
      assert (S k = T - n)%nat as Hsk by lia.
      destruct (Nat.eqb_spec (S k) T) as [He|He].
      { assert (n = 0)%nat as -> by lia. cbn [block_loop]. eexists _, _. split; [reflexivity|].
        rewrite decide_True by (repeat constructor; done). split; [done|]. unfold completed.
        fold k. rewrite arrived_cons. replace (T - 1)%nat with k by lia. cbn [arrived seq omap list_omap fold_left].
        destruct (received E k) eqn:Er; [rewrite decide_False by (intros [?|?]; lia || congruence)|rewrite decide_True by tauto]; done. }
      assert (transferring b p fd path i (match received E k with None => f | Some x => put_bytes f x end) st1) as Ht1
        by by destruct (received E k).
      destruct (IH _ _ Ht1 ltac:(lia)) as (r & st2 & Hb & Hr). eexists _, _. split; [exact Hb|].
      destruct (decide (Forall (in_order E) (seq (T - n) n))) as [Hf|Hf].
      * rewrite decide_True by (by constructor). destruct Hr as [-> Hc]. split; [done|]. revert Hc. unfold completed.
        fold k. rewrite arrived_cons, Hsk.
        rewrite (decide_ext (S n = 0%nat \/ received E (T - 1) = None) (n = 0%nat \/ received E (T - 1) = None))
          by (split; intros [?|?]; auto; lia). done.
      * rewrite decide_False by (by intros [_ ?]%Forall_cons). done.
    + destruct (take_block_out_of_order u k T f st E Ht Hu Hk) as (st1 & -> & H1). cbn [mbind option_bind].
      destruct (block_loop_skips E n (Z.of_nat T) st1) as (r & -> & Hr). eexists _, _. split; [reflexivity|].
      rewrite decide_False by (by intros [? _]%Forall_cons). by split; [|eexists].
  - destruct (transferring_dropped f st Ht) as (st1 & Hd & He).
    destruct (close_item p st) as [st2|]; [|done]. cbn [mbind option_bind] in *. rewrite Hd. cbn [mbind option_bind].
    eexists _, _. split; [reflexivity|]. rewrite decide_False by (intros [(u' & ? & _) _]%Forall_cons; congruence).
    by split; [|eexists].
Qed.

End transfer.

(** ** The first packet *)

Lemma open_file_spec path st fd st' : open_file path st = (fd, st') ->
  fd_at st fd = None /\ fd_at st' fd = Some (path, 0%nat) /\ (forall j, j <> fd -> fd_at st' j = fd_at st j)
  /\ files st' = <[path := default [] (files st !! path)]> (files st) /\ heap st' = heap st
  /\ pt_dtitem_queue st' = pt_dtitem_queue st /\ requests st' = requests st.
Proof.
  unfold open_file. destruct (take_fd _ _) as [n l] eqn:E. intros [= <- <-].
  destruct (take_fd_spec _ _ _ _ E) as (H1 & H2 & H3). by split_and!.
Qed.

Lemma write_file_spec fd bytes st path pos c :
  fd_at st fd = Some (path, pos) -> files st !! path = Some c ->
  exists st', write_file fd bytes st = Some st' /\ fd_at st' fd = Some (path, snd (put_bytes (c, pos) bytes))
    /\ (forall j, j <> fd -> fd_at st' j = fd_at st j) /\ files st' = <[path := fst (put_bytes (c, pos) bytes)]> (files st)
    /\ heap st' = heap st /\ pt_dtitem_queue st' = pt_dtitem_queue st /\ requests st' = requests st.
Proof.
  intros Hf Hc. unfold write_file. fold (fd_at st fd). rewrite Hf. cbn [mbind option_bind]. rewrite Hc. cbn [mbind option_bind].
  eexists. split; [reflexivity|]. split_and!; try done.
  - unfold fd_at at 1. cbn [fds set_fds set_files]. apply fd_at_set. by rewrite Hf.
  - intros j Hj. unfold fd_at at 1. cbn [fds set_fds set_files]. by rewrite fd_at_other.
Qed.

(** Open, and write the first bytes. *)
Lemma open_write_spec path bytes st : exists fd st1 st',
  open_file path st = (fd, st1) /\ write_file fd bytes st1 = Some st' /\ fd_at st fd = None
  /\ fd_at st' fd = Some (path, List.length bytes) /\ (forall j, j <> fd -> fd_at st' j = fd_at st j)
  /\ files st' = <[path := fst (put_bytes (default [] (files st !! path), 0%nat) bytes)]> (files st)
  /\ heap st' = heap st /\ pt_dtitem_queue st' = pt_dtitem_queue st /\ requests st' = requests st.
Proof.
  destruct (open_file path st) as [fd st1] eqn:Eo.
  destruct (open_file_spec _ _ _ _ Eo) as (H1 & H2 & H3 & H4 & H5 & H6 & H7).
  destruct (write_file_spec fd bytes st1 path 0 (default [] (files st !! path)) H2) as (st' & Hw & G2 & G3 & G4 & G5 & G6 & G7).
  { by rewrite H4, lookup_insert_eq. }
  exists fd, st1, st'. split_and!; try done; try congruence.
  - intros j Hj. by rewrite G3, H3.
  - by rewrite G4, H4, insert_insert_eq.
Qed.

(** The item of the transfer is the thread's, and its file is open. *)
Definition owned (p : nat) (st : store) : Prop :=
  exists i fd path pos c, heap st !! p = Some (Some i) /\ value i = Fpath fd path
    /\ fd_at st fd = Some (path, pos) /\ files st !! path = Some c.

Lemma owned_transferring p st : owned p st -> exists fd path i f, transferring st p fd path i f st.
Proof.
  intros (i & fd & path & pos & c & Hi & Hv & Hf & Hc). exists fd, path, i, (c, pos). split; try done.
  cbn. by rewrite insert_id.
Qed.

(** The identifier of the sensor is complete in what is used of a message. *)
Definition has_id (e : ele) : Prop := forall m, valid_ele e = Some m -> (6 <= List.length (sensorID m))%nat.

Lemma item_of_id si now m d : (6 <= List.length (sensorID m))%nat -> exists i, item_of si now m d = Some i.
Proof.
  unfold item_of. destruct (sensorID m) as [|? [|? [|? [|? [|? [|? ?]]]]]]; cbn; try lia. intros _. by eexists.
Qed.

Lemma first_ele_total si E n e p st : has_id e -> (forall q, p = Some q -> owned q st) ->
  exists p' st', first_ele si E n e p st = Some (p', st') /\ (forall q, p' = Some q -> owned q st') /\ requests st' = requests st.
Proof.
  intros He Hp. unfold first_ele. destruct (valid_ele e) as [m|] eqn:Ev; [|by eauto 6].
  destruct (negb (start_point _ =? 0)); [by eauto 6|].
  destruct (item_of_id si (time_at E n) m (e_data e) (He m Ev)) as [i ->]. cbn [mbind option_bind].
  destruct (negb (is_wave _)); [by eauto 6|]. destruct (negb (open_at E n)); [by eauto 6|].
  destruct (open_write_spec (file_path DB_WAVEDATA_FILENAME_PREFIX i) (data (e_data e)) st)
    as (fd & st1 & st2 & -> & -> & H1 & H2 & H3 & H4 & H5 & H6 & H7). cbn [mbind option_bind].
  eexists _, _. split; [reflexivity|]. split; [|done]. intros q [= <-].
  eexists _, fd, _, _, _. split_and!.
  - cbn [heap set_heap]. rewrite H5, lookup_app_r, Nat.sub_diag by lia. reflexivity.
  - reflexivity.
  - exact H2.
  - cbn [files set_heap]. rewrite H4. apply lookup_insert_eq.
Qed.

Lemma first_pkt_total si E n l p st : Forall has_id l -> (forall q, p = Some q -> owned q st) ->
  exists p' st', bulk_data_upload_first_pkt_processor si E n l p st = Some (p', st')
    /\ (forall q, p' = Some q -> owned q st') /\ requests st' = requests st.
Proof.
  revert n p st. induction l as [|e l IH]; intros n p st Hl Hp; cbn [bulk_data_upload_first_pkt_processor]; [by eauto 6|].
  apply Forall_cons in Hl as [He Hl]. destruct (first_ele_total si E n e p st He Hp) as (p1 & st1 & -> & Hp1 & Hr1).
  cbn [mbind option_bind]. destruct (IH (S n) p1 st1 Hl Hp1) as (p2 & st2 & H2 & Hp2 & Hr2).
  eexists _, _. split; [exact H2|]. split; [done|congruence].
Qed.

(** ** An attempt *)

Lemma one_packet_total b p fd path i f st : transferring b p fd path i f st ->
  exists st', one_packet p st = Some st' /\ requests st' = requests b
    /\ (data_type i <> UNKNOWN_MEASUREMENT_TYPE -> ended b p fd path f (pt_dtitem_queue b ++ [i])%list st').
Proof.
  intros Ht. pose proof (tr_item _ _ _ _ _ _ _ Ht) as Hi. unfold one_packet, close_item.
  rewrite (item_of_heap b p i st) by (try done; by apply Ht). cbn [mbind option_bind].
  unfold item_fd. rewrite (tr_value _ _ _ _ _ _ _ Ht). cbn [mbind option_bind].
  destruct (transferring_queued _ _ _ _ _ f st Ht) as (st' & Hq & He).
  destruct (transferring_close _ _ _ _ _ f st Ht) as (st1 & Ec & Hh & _ & _ & _ & _ & Hr). rewrite Ec in *.
  cbn [mbind option_bind] in *. rewrite (item_of_heap b p i st1) by done. cbn [mbind option_bind].
  destruct (Z.eqb_spec (data_type i) UNKNOWN_MEASUREMENT_TYPE) as [Hd|Hd]; cbn [negb].
  - unfold free_item. rewrite (item_of_heap b p i st1) by done. cbn [mbind option_bind]. eexists. split; [reflexivity|done].
  - exists st'. split; [done|]. split; [by apply He|done].
Qed.

(** What the sensor may send as a first packet. *)
Definition first_ok (u : upload) : Prop := Forall has_id (app_froto_data_upload_parser u) /\ 0 <= total_block u.

Lemma attempt_total E i dim si st : userData si <> None -> (forall u, we_first E = Some u -> first_ok u) ->
  exists r st', wave_attempt E i dim si st = Some (r, st')
    /\ exists l, requests st' = (requests st ++ l)%list /\ (List.length l <= 1)%nat.
Proof.
  intros Hu Hf. unfold wave_attempt. destruct (userData si) as [u|]; [|done]. cbn [mbind option_bind].
  destruct (we_in_db E _ _ _); [eexists _, _; split; [reflexivity|]; exists []; by rewrite app_nil_r; split; [|cbn; lia]|].
  set (q := Request _ _ _ _).
  assert (forall s : store, requests s = requests (send_request q st) ->
            exists l, requests s = (requests st ++ l)%list /\ (List.length l <= 1)%nat) as Hreq.
  { intros s ->. exists [q]. by split; [|cbn; lia]. }
  destruct (we_first E) as [u0|]; [|eexists _, _; split; [reflexivity|by apply Hreq]].
  destruct (Hf u0 eq_refl) as [Hl HT].
  destruct (first_pkt_total si (we_msg E) 0 _ None (send_request q st) Hl ltac:(done)) as (p & st1 & -> & Hp & Hr).
  cbn [mbind option_bind]. destruct p as [p|]; [|eexists _, _; split; [reflexivity|by apply Hreq]].
  destruct (owned_transferring p st1 (Hp p eq_refl)) as (fd & path & it & f & Ht).
  destruct (total_block u0 =? 1).
  - destruct (one_packet_total _ _ _ _ _ _ _ Ht) as (st2 & -> & Hr2 & _). cbn [mbind option_bind].
    eexists _, _. split; [reflexivity|]. apply Hreq. congruence.
  - destruct (block_loop_fate st1 p fd path it (we_block E) (Z.to_nat (total_block u0 - 1)) (Z.to_nat (total_block u0))
      f st1 Ht ltac:(lia)) as (r & st2 & Hb & Hr2). rewrite Z2Nat.id in Hb by done. rewrite Hb. cbn [mbind option_bind].
    eexists _, _. split; [reflexivity|]. apply Hreq. rewrite <- Hr.
    destruct (decide _); [destruct Hr2 as [_ Hc]; unfold completed in Hc; destruct (decide _)|destruct Hr2 as (_ & f' & Hc)];
      apply Hc.
Qed.

(** ** A waveform that arrives *)

(** The first packet has one element, the beginning of a waveform: [m] with
    the bytes [first], which becomes the item [it] before its file is known. *)
Record begins (si : sensor_interface) (E : wave_env) (u : upload) (e : ele) (m : measurement) (it : data_item) : Prop := Begins {
  bg_first : we_first E = Some u;
  bg_parsed : app_froto_data_upload_parser u = [e];
  bg_valid : valid_ele e = Some m;
  bg_start : start_point (e_data e) = 0;
  bg_item : item_of si (time_at (we_msg E) 0) m (e_data e) = Some it;
  bg_wave : is_wave (data_type it) = true;
  bg_open : open_at (we_msg E) 0 = true
}.

Lemma item_of_value si now m d it : item_of si now m d = Some it -> value it = Valu8 0.
Proof.
  unfold item_of. destruct (sensorID m) as [|? [|? [|? [|? [|? [|? ?]]]]]]; try done. by intros [= <-].
Qed.

(** The state between the first packet and the others. *)
Lemma begins_transferring si E u e m it path st :
  begins si E u e m it -> path = file_path DB_WAVEDATA_FILENAME_PREFIX it -> files st !! path = None ->
  exists fd st1, bulk_data_upload_first_pkt_processor si (we_msg E) 0 [e] None st = Some (Some (List.length (heap st)), st1)
    /\ transferring st1 (List.length (heap st)) fd path (set_value (Fpath fd path) it)
         (data (e_data e), List.length (data (e_data e))) st1
    /\ fd_at st fd = None /\ (forall j, j <> fd -> fd_at st1 j = fd_at st j)
    /\ files st1 = <[path := data (e_data e)]> (files st)
    /\ heap st1 = (heap st ++ [Some (set_value (Fpath fd path) it)])%list
    /\ pt_dtitem_queue st1 = pt_dtitem_queue st /\ requests st1 = requests st.
Proof.
  intros [Hf Hp Hv Hs Hi Hw Ho] -> Hn. cbn [bulk_data_upload_first_pkt_processor]. unfold first_ele.
  rewrite Hv, Hs, Hi. cbn [Z.eqb negb mbind option_bind]. rewrite Hw, Ho. cbn [negb].
  destruct (open_write_spec (file_path DB_WAVEDATA_FILENAME_PREFIX it) (data (e_data e)) st)
    as (fd & st1 & st2 & -> & -> & H1 & H2 & H3 & H4 & H5 & H6 & H7). cbn [mbind option_bind].
  rewrite Hn in H4. unfold put_bytes in H4. cbn [default fst take Nat.add] in H4.
  rewrite drop_nil, app_nil_r in H4. rewrite H5. exists fd. eexists. split; [reflexivity|].
  split; [|by split_and!]. split; try done.
  - cbn [heap set_heap]. by rewrite lookup_app_r, Nat.sub_diag by lia.
  - cbn [files set_heap fst]. rewrite H4. by rewrite insert_insert_eq.
Qed.

(** The state in which a waveform has been stored. *)
Definition stored (path : string) (content : list Z) (it : data_item) (st st' : store) : Prop :=
  exists fd, files st' = <[path := content]> (files st)
    /\ pt_dtitem_queue st' = (pt_dtitem_queue st ++ [set_value (Fpath fd path) it])%list
    /\ forall j, fd_at st' j = fd_at st j.

Lemma ended_stored st st1 st2 p fd path it bytes content :
  ended st1 p fd path (content, List.length content) (pt_dtitem_queue st1 ++ [set_value (Fpath fd path) it])%list st2 ->
  fd_at st fd = None -> (forall j, j <> fd -> fd_at st1 j = fd_at st j) -> files st1 = <[path := bytes]> (files st) ->
  pt_dtitem_queue st1 = pt_dtitem_queue st -> stored path content it st st2.
Proof.
  intros [_ Hf Ho Hc Hq _] Hn Hj Hf1 Hq1. exists fd. split_and!.
  - rewrite Hc, Hf1. apply insert_insert_eq.
  - by rewrite Hq, Hq1.
  - intros j. destruct (decide (j = fd)) as [->|Hne]; [congruence|]. by rewrite Ho, Hj.
Qed.

Lemma arrived_chunks E chunks k n :
  (forall j, (k <= j < k + n)%nat -> received E j = Some (chunks j)) -> arrived E k n = map chunks (seq k n).
Proof.
  revert k. induction n as [|n IH]; intros k H; [done|]. unfold arrived in *. cbn [seq omap list_omap map].
  rewrite (H k) by lia. f_equal. apply IH. intros j Hj. apply H. lia.
Qed.

(** The other blocks come in order and undamaged, with the data [chunks]. *)
Definition follow (E : wave_env) (T : nat) (chunks : nat -> list Z) : Prop :=
  forall k, (1 <= k < T)%nat -> in_order (we_block E) k /\ received (we_block E) k = Some (chunks k).

Definition wave_content (e : ele) (T : nat) (chunks : nat -> list Z) : list Z :=
  (data (e_data e) ++ concat (map chunks (seq 1 (T - 1))))%list.

(** Nobody has the waveform yet. *)
Definition not_in_db (E : wave_env) (si : sensor_interface) (i : nat) (dim : option Z) : Prop :=
  exists u, userData si = Some u
    /\ we_in_db E (lastRegularSensingTime_s u) (nth i collectDataGroup 0) (default 0 dim) = false.

Lemma good_attempt E i dim si st u e m it (T : nat) chunks :
  not_in_db E si i dim -> begins si E u e m it -> total_block u = Z.of_nat T -> (1 <= T)%nat -> follow E T chunks ->
  files st !! file_path DB_WAVEDATA_FILENAME_PREFIX it = None ->
  exists st', wave_attempt E i dim si st = Some (NextWave, st')
    /\ stored (file_path DB_WAVEDATA_FILENAME_PREFIX it) (wave_content e T chunks) it st st'.
Proof.
  intros (ud & Hu & Hdb) Hb HT H1 Hc Hn. unfold wave_attempt. rewrite Hu. cbn [mbind option_bind]. rewrite Hdb.
  rewrite (bg_first _ _ _ _ _ _ Hb), (bg_parsed _ _ _ _ _ _ Hb). set (st0 := send_request _ st).
  destruct (begins_transferring si E u e m it _ st0 Hb eq_refl Hn) as (fd & st1 & -> & Ht & Hf & Ho & Hfi & Hh & Hq & Hr).
  cbn [mbind option_bind]. rewrite HT. set (path := file_path _ it) in *.
  assert (data_type (set_value (Fpath fd path) it) <> UNKNOWN_MEASUREMENT_TYPE) as Hdt.
  { cbn. intros Hz. pose proof (bg_wave _ _ _ _ _ _ Hb) as Hw. by rewrite Hz in Hw. }
  destruct (Z.eqb_spec (Z.of_nat T) 1) as [He|He].
  - destruct (one_packet_total _ _ _ _ _ _ _ Ht) as (st2 & -> & _ & Hen). cbn [mbind option_bind].
    eexists. split; [reflexivity|]. replace (wave_content e T chunks) with (data (e_data e)).
    2:{ unfold wave_content. replace (T - 1)%nat with 0%nat by lia. cbn. by rewrite app_nil_r. }
    eapply (ended_stored st0); eauto.
  - destruct (block_loop_fate _ _ _ _ _ (we_block E) (T - 1) T _ _ Ht ltac:(lia)) as (r & st2 & Hbl & Hfate).
    replace (Z.to_nat (Z.of_nat T - 1)) with (T - 1)%nat by lia. rewrite Hbl. cbn [mbind option_bind].
    replace (T - (T - 1))%nat with 1%nat in Hfate by lia.
    rewrite decide_True in Hfate.
    2:{ apply Forall_forall. intros k Hk%elem_of_seq. apply Hc. lia. }
    destruct Hfate as [-> Hcp]. eexists. split; [reflexivity|]. unfold completed in Hcp.
    rewrite decide_False in Hcp.
    2:{ intros [?|Hx]; [lia|]. rewrite (proj2 (Hc (T - 1)%nat ltac:(lia))) in Hx. done. }
    replace (T - (T - 1))%nat with 1%nat in Hcp by lia.
    rewrite (arrived_chunks _ chunks), put_all_at_end in Hcp by (intros j Hj; apply Hc; lia).
    eapply (ended_stored st0); eauto.
Qed.

(** An attempt that nobody answers. *)
Definition unanswered (E : wave_env) (si : sensor_interface) (i : nat) (dim : option Z) : Prop :=
  not_in_db E si i dim /\ we_first E = None.

Lemma unanswered_attempt E i dim si st : unanswered E si i dim ->
  exists q, wave_attempt E i dim si st = Some (Retry, send_request q st).
Proof.
  intros [(u & Hu & Hdb) Hf]. unfold wave_attempt. rewrite Hu. cbn [mbind option_bind]. rewrite Hdb, Hf. by eexists.
Qed.

Lemma attempts_stored E a r k i dim si st path content it :
  (a <= r)%nat -> (forall j, (j < a)%nat -> unanswered (E (k + j)%nat) si i dim) ->
  (forall st0, files st0 = files st -> exists st', wave_attempt (E (k + a)%nat) i dim si st0 = Some (NextWave, st')
                                              /\ stored path content it st0 st') ->
  exists st', wave_attempts E r k i dim si st = Some (true, st') /\ stored path content it st st'.
Proof.
  revert r k st. induction a as [|a IH]; intros r k st Ha Hun Hgood.
  - destruct (Hgood st eq_refl) as (st' & Hw & Hs). rewrite Nat.add_0_r in Hw. exists st'. split; [|done].
    destruct r; cbn [wave_attempts]; by rewrite Hw.
  - destruct r as [|r]; [lia|]. cbn [wave_attempts].
    destruct (unanswered_attempt (E k) i dim si st) as [q Hq].
    { rewrite <- (Nat.add_0_r k). apply Hun. lia. }
    rewrite Hq. cbn [mbind option_bind].
    destruct (IH r (S k) (send_request q st)) as (st' & Hw & Hs); [lia|..|by exists st'].
    + intros j Hj. replace (S k + j)%nat with (k + S j)%nat by lia. apply Hun. lia.
    + intros st0 Hst0. replace (S k + a)%nat with (k + S a)%nat by lia. by apply Hgood.
Qed.

(** C24: a waveform arrives complete: when up to three attempts go unanswered and
    in the next one the sensor sends the beginning of a waveform and then the
    other blocks, in order and with valid checksums, the file of the waveform
    has exactly the data of all blocks one after the other, the database gets
    one item, which names that file and says what the sensor said, and no
    descriptor is left open. *)
Theorem waveform_is_stored E a i dim si st u e m it (T : nat) chunks :
  (a <= long_data_retry)%nat -> (forall j, (j < a)%nat -> unanswered (E j) si i dim) ->
  not_in_db (E a) si i dim -> begins si (E a) u e m it -> total_block u = Z.of_nat T -> (1 <= T)%nat ->
  follow (E a) T chunks -> files st !! file_path DB_WAVEDATA_FILENAME_PREFIX it = None ->
  exists st', wave_attempts E long_data_retry 0 i dim si st = Some (true, st')
    /\ stored (file_path DB_WAVEDATA_FILENAME_PREFIX it) (wave_content e T chunks) it st st'.
Proof.
  intros Ha Hun Hdb Hb HT H1 Hc Hn. apply (attempts_stored E a); [done|done|].
  intros st0 Hst0. apply (good_attempt _ _ _ _ _ u e m); try done. by rewrite Hst0.
Qed.

(** ** Concrete messages *)

Definition wave_meas (type : Z) : measurement :=
  Meas type (Some 9) 5 None None None None None None None 7 2 None [0xC4; 0xBD; 0x6A; 1; 2; 3] 1700000000 0.

(** A message with one data pair, whose checksum is valid or not. *)
Definition message (m : option measurement) (good : bool) (total current : Z) (bytes : list Z) : upload :=
  Upload total current
    [Pair m (Some (MeasData 0 (default 0 (froto_crc32 bytes (Z.of_nat (List.length bytes))) + (if good then 0 else 1)) bytes))].

Definition wave_si : sensor_interface :=
  SensorInterface 3 "SKF" "Predict" "S1" (Some (UserData 1700000000 3600 600 0 0 1)).

Definition wave_st : store := Store ∅ [] [] [] [].

(** Three blocks; [damaged] is the number of one with a wrong checksum. *)
Definition wave_env_demo (damaged : nat) : wave_env :=
  WaveEnv (fun _ _ _ => false) 1700000100 (Some (message (Some (wave_meas 1)) true 3 0 [1; 2; 3]))
    (MsgEnv (fun _ => 1700000101) (fun _ => true))
    (fun k => Some (message None (negb (k =? damaged)%nat) 3 (Z.of_nat k) [Z.of_nat (10 * k); Z.of_nat (10 * k + 1)])).

Definition silent_env : wave_env :=
  WaveEnv (fun _ _ _ => false) 1700000100 None (MsgEnv (fun _ => 0) (fun _ => true)) (fun _ => None).

(** Nobody answers the first time. *)
Definition wave_demo (damaged : nat) (a : nat) : wave_env := if (a =? 0)%nat then silent_env else wave_env_demo damaged.

Definition demo_path : string := "/var/lib/skf-gateway/data/wave_1700000101_1_C4BD6A010203".

(** Its content, the paths in the queue of the database, and the descriptors. *)
Definition seen (r : option (bool * store)) : option (bool * option (list Z) * list item_value * list (option (string * nat))) :=
  '(ok, st) ← r; Some (ok, files st !! demo_path, map value (pt_dtitem_queue st), fds st).

Lemma waveform_is_stored_witness :
  (1 <= long_data_retry)%nat
  /\ exists st', wave_attempts (wave_demo 9) long_data_retry 0 0 None wave_si wave_st = Some (true, st')
    /\ stored demo_path [1; 2; 3; 10; 11; 20; 21]
         (default (Item 0 "" "" "" "" 0 0 0 0 0 "" 0 0 0 0 0 0 0 0 (Valu8 0) 0 0 0 0)
            (item_of wave_si 1700000101 (wave_meas 1) (EleData 0 1438416925 true [1; 2; 3]))) wave_st st'.
Proof.
  split; [vm_compute; lia|].
  apply (waveform_is_stored (wave_demo 9) 1 0 None wave_si wave_st (message (Some (wave_meas 1)) true 3 0 [1; 2; 3])
           (Ele (Some (wave_meas 1)) (EleData 0 1438416925 true [1; 2; 3])) (wave_meas 1)
           (default (Item 0 "" "" "" "" 0 0 0 0 0 "" 0 0 0 0 0 0 0 0 (Valu8 0) 0 0 0 0)
              (item_of wave_si 1700000101 (wave_meas 1) (EleData 0 1438416925 true [1; 2; 3]))) 3
           (fun k => [Z.of_nat (10 * k); Z.of_nat (10 * k + 1)])).
  - vm_compute. lia.
  - intros j Hj. assert (j = 0%nat) as -> by lia. split; [eexists; split; vm_compute; reflexivity|reflexivity].
  - eexists. split; vm_compute; reflexivity.
  - split; vm_compute; reflexivity.
  - reflexivity.
  - lia.
  - intros k Hk. assert (k = 1 \/ k = 2)%nat as [-> | ->] by lia.
    all: split; [eexists; split; [reflexivity|vm_compute; congruence]|vm_compute; reflexivity].
  - vm_compute. reflexivity.
Defined.

(** A damaged block in the middle is left out, and the shorter file is reported as the waveform. *)
Example damaged_block_is_left_out :
  seen (wave_attempts (wave_demo 1) long_data_retry 0 0 None wave_si wave_st)
  = Some (true, Some [1; 2; 3; 20; 21], [Fpath 0 demo_path], [None]).
Proof. vm_compute. reflexivity. Qed.

(** When the last one is damaged nothing is reported, the file stays open, and the
    collection goes on as if all was well. *)
Example damaged_last_block_is_lost :
  seen (wave_attempts (wave_demo 2) long_data_retry 0 0 None wave_si wave_st)
  = Some (true, Some [1; 2; 3; 10; 11], [], [Some (demo_path, 5%nat)]).
Proof. vm_compute. reflexivity. Qed.
