(* ===== verification/CollectRun.v ===== *)
(** * CollectRun: the whole collection

    When a waveform is due, what is asked for, and that a collection is defined
    whatever the sensor answers, as long as its messages are complete. *)

From S2P Require Import Prelude FrotoCrc BtState Collect CollectWave.
From Stdlib Require Import ZArith Lia ZifyBool List Bool Ascii String.
From stdpp Require Import base list numbers option strings gmap pretty.
Open Scope Z_scope.

(** ** When a waveform is due *)

(** The time of the last regular measurement, which is not before the one that
    the clock and the configuration lead one to expect. *)
Definition last_sensing (now : Z) (u : userdata) : Z :=
  Z.max (lastRegularSensingTime_s u)
    (regularSensingRef_s u + (now - regularSensingRef_s u) / regularSensingPeriod_s u * regularSensingPeriod_s u).

(** The configuration is there, the clock is set, and the time fits. *)
Record clock_ok (now : Z) (u : userdata) : Prop := ClockOk {
  ck_regular : 0 < regularSensingPeriod_s u; ck_wave : 0 < waveformPeriod_s u;
  ck_rr : 0 <= regularSensingRef_s u < now; ck_rw : 0 <= waveformRef_s u < now; ck_now : now < 2 ^ 63;
  ck_last : 0 <= lastRegularSensingTime_s u < 2 ^ 63;
  ck_after : waveformRef_s u <= last_sensing now u; ck_period : regularSensingPeriod_s u <= last_sensing now u
}.

Lemma set_lastTime_max now u : 
  (if lastRegularSensingTime_s u <? now then set_lastTime now u else u) = set_lastTime (Z.max (lastRegularSensingTime_s u) now) u.
Proof.
  destruct (Z.ltb_spec (lastRegularSensingTime_s u) now).
  - by rewrite Z.max_r by lia.
  - rewrite Z.max_l by lia. by destruct u.
Qed.

(** The last multiple of the period in the window is the only one to look at. *)
Lemma period_in_window last pr pw rw : 0 < pw -> rw <= last -> 0 < pr ->
  last - pr < (last - rw) / pw * pw + rw <-> exists k, 0 <= k /\ last - pr < rw + k * pw <= last.
Proof.
  intros Hw Hr Hp. pose proof (Z.mul_div_le (last - rw) pw Hw). pose proof (Z.div_pos (last - rw) pw ltac:(lia) Hw).
  split; [intros H'; exists ((last - rw) / pw); lia|]. intros (k & Hk & H1 & H2).
  enough (k <= (last - rw) / pw) by nia. apply Z.div_le_lower_bound; [done|]. lia.
Qed.

(** C25: a waveform is collected when one is due: with a configuration and a clock,
    exactly when one of the times at which the sensor takes a waveform falls into
    the period that ended with its last regular measurement, or when that
    measurement was triggered by hand. *)
Theorem wave_due now garbage u : clock_ok now u ->
  exists b, wave_required now garbage u = Some (b, set_lastTime (last_sensing now u) u)
    /\ (b = true <-> 32768 <= regularSensingMeas_id u
                   \/ exists k, 0 <= k /\ last_sensing now u - regularSensingPeriod_s u
                                         < waveformRef_s u + k * waveformPeriod_s u <= last_sensing now u).
Proof.
  intros [Hr Hw Hrr Hrw Hn Hl Ha Hp]. unfold wave_required.
  destruct (Z.ltb_spec (regularSensingRef_s u) now); [|lia]. destruct (Z.ltb_spec (waveformRef_s u) now); [|lia].
  destruct (Z.eqb_spec (regularSensingPeriod_s u) 0); [lia|]. cbn [andb negb].
  rewrite set_lastTime_max. fold (last_sensing now u). set (last := last_sensing now u) in *.
  cbn [lastRegularSensingTime_s regularSensingMeas_id set_lastTime].
  assert (last < 2 ^ 63) as Hlast.
  { unfold last, last_sensing. pose proof (Z.mul_div_le (now - regularSensingRef_s u) _ Hr). lia. }
  destruct (Z.eqb_spec last 0); [lia|]. destruct (Z.eqb_spec (waveformPeriod_s u) 0); [lia|]. cbn [andb negb orb].
  set (slot := u64 _). eexists. split; [reflexivity|].
  pose proof (Z.mul_div_le (last - waveformRef_s u) _ Hw).
  pose proof (Z.div_pos (last - waveformRef_s u) _ ltac:(lia) Hw).
  assert (slot = (last - waveformRef_s u) / waveformPeriod_s u * waveformPeriod_s u + waveformRef_s u) as Hslot.
  { unfold slot, u64. rewrite (Z.mod_small (last - waveformRef_s u)) by lia. apply Z.mod_small. nia. }
  assert (u64 (last - regularSensingPeriod_s u) = last - regularSensingPeriod_s u) as ->
    by (unfold u64; clear - Hr Hp Hlast; clearbody last; apply Z.mod_small; lia).
  rewrite <- (period_in_window last) by lia. rewrite <- Hslot.
  assert (slot <= last) as Hle by (rewrite Hslot, Z.mul_comm; lia). clear - Hle. clearbody slot last. lia.
Qed.

Lemma wave_due_witness :
  exists b, wave_required 1700000100 0 (UserData 1700000000 3600 600 1699999200 1699999800 1)
            = Some (b, UserData 1700000000 3600 600 1699999200 1699999800 1) /\ b = false.
Proof.
  destruct (wave_due 1700000100 0 (UserData 1700000000 3600 600 1699999200 1699999800 1)) as (b & Hb & Hiff).
  { split; vm_compute; intuition discriminate. }
  exists b. split; [exact Hb|]. destruct b; [|reflexivity]. exfalso.
  assert (last_sensing 1700000100 (UserData 1700000000 3600 600 1699999200 1699999800 1) = 1700000000) as Hl by reflexivity.
  rewrite Hl in Hiff. cbn [regularSensingMeas_id regularSensingPeriod_s waveformRef_s waveformPeriod_s] in Hiff.
  destruct (proj1 Hiff eq_refl) as [H|(k & H1 & H2)]; lia.
Defined.

(** A period of zero is divided by before it is looked at. *)
Example no_period_divides_by_zero : wave_required 1700000100 0 (UserData 0 0 0 0 0 0) = None.
Proof. reflexivity. Qed.

Example manual_trigger_divides_by_zero : wave_required 1700000100 0 (UserData 0 0 600 0 0 40000) = None.
Proof. reflexivity. Qed.

(** ** Short data *)

(** An element with a measurement is complete: the identifier of the sensor, and
    as many bytes as its format says. *)
Definition simple_ok (e : ele) : Prop := forall m, valid_ele e = Some m ->
  (6 <= List.length (sensorID m))%nat
  /\ (dbFormatIsFile (measureType m) = false -> is_Some (digit_value (m_data_format m) (data (e_data e)))).

Definition short_ok (u : upload) : Prop := Forall simple_ok (app_froto_data_upload_parser u).

Lemma item_of_type si now m d i : item_of si now m d = Some i -> data_type i = measureType m.
Proof.
  unfold item_of. destruct (sensorID m) as [|? [|? [|? [|? [|? [|? ?]]]]]]; try done. by intros [= <-].
Qed.

Lemma close_open_file fd st path pos : fd_at st fd = Some (path, pos) ->
  exists st', close_file fd st = Some st' /\ requests st' = requests st.
Proof. intros Hf. unfold close_file. fold (fd_at st fd). rewrite Hf. by eexists. Qed.

Lemma simple_ele_total si E n e c st : simple_ok e ->
  exists c' st', simple_ele si E n e c st = Some (c', st') /\ requests st' = requests st.
Proof.
  intros He. unfold simple_ele. destruct (valid_ele e) as [m|] eqn:Ev; [|by eauto].
  destruct (He m Ev) as [Hid Hd]. destruct (item_of_id si (time_at E n) m (e_data e) Hid) as [i Hi]. rewrite Hi.
  cbn [mbind option_bind]. rewrite (item_of_type _ _ _ _ _ Hi).
  destruct (dbFormatIsFile (measureType m)) eqn:Ef.
  - destruct (negb (measureType m =? ADVANCED_ALGO_ALARM_CODE)); [by eauto|]. destruct (negb (open_at E n)); [by eauto|].
    destruct (open_write_spec (file_path DB_ALARMDATA_FILENAME_PREFIX i) (take DB_FROTO_ALARM_CODE_SIZE (data (e_data e))) st)
      as (fd & st1 & st2 & -> & -> & _ & H2 & _ & _ & _ & _ & H7). cbn [mbind option_bind].
    destruct (close_open_file fd st2 _ _ H2) as (st3 & -> & Hr). cbn [mbind option_bind].
    eexists _, _. split; [reflexivity|congruence].
  - destruct (Hd eq_refl) as [v ->]. cbn [mbind option_bind]. by eauto.
Qed.

Lemma simple_eles_total si E n l c st : Forall simple_ok l ->
  exists c' st', simple_eles si E n l c st = Some (c', st') /\ requests st' = requests st.
Proof.
  intros Hl. revert n c st. induction Hl as [|e l He Hl IH]; intros n c st; cbn [simple_eles]; [by eauto|].
  destruct (simple_ele_total si E n e c st He) as (c1 & st1 & -> & H1). cbn [mbind option_bind].
  destruct (IH (S n) c1 st1) as (c2 & st2 & -> & H2). eexists _, _. split; [reflexivity|congruence].
Qed.

(** The periods are known, and stay so. *)
Definition configured (si : sensor_interface) : Prop :=
  exists u, userData si = Some u /\ regularSensingPeriod_s u <> 0 /\ waveformPeriod_s u <> 0.

Lemma configured_note_last c si : configured si -> configured (note_last c si).
Proof.
  intros (u & Hu & H1 & H2). unfold note_last. rewrite Hu. eexists. split; [reflexivity|].
  by destruct (c_time c =? 0), (c_id c =? 0).
Qed.

Lemma short_group_total E r a i delta si st :
  configured si -> (forall k u, se_reply (E k) = Some u -> short_ok u) ->
  exists ok si' st' n, short_group E r a i delta si st = Some (ok, si', st') /\ configured si'
    /\ requests st' = (requests st ++ replicate n (short_request i delta))%list /\ (1 <= n <= S r)%nat.
Proof.
  intros Hsi HE. revert a st. induction r as [|r IH]; intros a st; cbn [short_group].
  all: destruct (se_reply (E a)) as [u|] eqn:Eu.
  1,3: unfold simple_data_upload_processor;
    destruct (simple_eles_total si (se_msg (E a)) 0 _ (Collected [] 0 0) (send_request (short_request i delta) st) (HE a u Eu))
      as (c & st1 & -> & Hr); cbn [mbind option_bind]; eexists true, _, _, 1%nat;
    split_and!; [reflexivity|by apply configured_note_last|exact Hr|lia..].
  - eexists false, _, _, 1%nat. split_and!; [reflexivity|done|reflexivity|lia..].
  - destruct (IH (S a) (send_request (short_request i delta) st)) as (ok & si' & st' & n & -> & Hc & Hr & Hn).
    exists ok, si', st', (S n). split_and!; [done..| |lia|lia]. rewrite Hr. cbn [send_request requests set_requests replicate].
    by rewrite <- app_assoc.
Qed.

(** The groups from index [i] on, as start and size. *)
Fixpoint groups_from (fuel i : nat) : list (nat * nat) :=
  match fuel with
  | O => []
  | S fuel =>
      if (i <? 31)%nat then
        let delta := if (31 <? i + 3)%nat then (31 - i)%nat else 3%nat in (i, delta) :: groups_from fuel (i + delta)
      else []
  end.

(** The requests for some groups, each made one to four times. *)
Inductive asked : list (nat * nat) -> list request -> Prop :=
| asked_none : asked [] []
| asked_group n i delta gs l : (1 <= n <= 4)%nat -> asked gs l ->
    asked ((i, delta) :: gs) (replicate n (short_request i delta) ++ l).

Lemma short_loop_total E fuel g i delta si st :
  configured si -> (forall g k u, se_reply (E g k) = Some u -> short_ok u) ->
  (31 - i <= fuel)%nat -> (delta = 3 \/ 31 <= i)%nat ->
  exists ok si' st' l gs, short_loop fuel E g i delta si st = Some (ok, si', st') /\ configured si'
    /\ requests st' = (requests st ++ l)%list /\ asked gs l
    /\ (if ok : bool then gs = groups_from fuel i else gs `prefix_of` groups_from fuel i).
Proof.
  intros Hsi HE. revert g i delta si st Hsi. induction fuel as [|fuel IH]; intros g i delta si st Hsi Hf Hd.
  - cbn [short_loop groups_from]. change (List.length collectDataGroup) with 31%nat. destruct (Nat.ltb_spec i 31); [lia|].
    eexists true, _, _, [], []. split_and!; [done..|by rewrite app_nil_r|constructor|done].
  - cbn [short_loop groups_from]. change (List.length collectDataGroup) with 31%nat.
    destruct (Nat.ltb_spec i 31) as [Hi|Hi].
    2:{ eexists true, _, _, [], []. split_and!; [done..|by rewrite app_nil_r|constructor|done]. }
    destruct Hd as [-> | ?]; [|lia]. change INSIGHT_PREDICT_DATA_COLLECT_MAX_NUMBER with 3%nat.
    set (d := if (31 <? i + 3)%nat then (31 - i)%nat else 3%nat).
    assert (1 <= d /\ (d = 3 \/ 31 <= i + d))%nat as [Hd1 Hd2].
    { unfold d. destruct (Nat.ltb_spec 31 (i + 3)); lia. }
    destruct (short_group_total (E g) short_data_retry 0 i d si st Hsi (HE g)) as (ok & si1 & st1 & n & -> & Hc & Hr & Hn).
    cbn [mbind option_bind]. unfold short_data_retry in Hn. destruct ok.
    + destruct (IH (S g) (i + d)%nat d si1 st1 Hc ltac:(lia) Hd2) as (ok2 & si2 & st2 & l & gs & -> & Hc2 & Hr2 & Ha & Hg).
      eexists ok2, _, _, _, ((i, d) :: gs). split_and!; [reflexivity|done|rewrite Hr2, Hr, <- app_assoc; reflexivity|by constructor|].
      destruct ok2; [by rewrite Hg|by apply prefix_cons].
    + eexists false, _, _, _, [(i, d)]. split_and!; [reflexivity|done|exact Hr| |].
      * rewrite <- (app_nil_r (replicate _ _)). constructor; [done|constructor].
      * apply prefix_cons, prefix_nil.
Qed.

Definition short_groups : list (nat * nat) := groups_from COLLECT_FUEL 6.

(** every type is asked for: whatever the sensor answers, as long as its
    messages are complete, the collection of short data ends; if it succeeds, the
    nine groups have been asked for in turn, each one to four times, and they
    contain every short type exactly once, in order. *)
Theorem every_type_is_asked_for SE si st :
  configured si -> (forall g k u, se_reply (SE g k) = Some u -> short_ok u) ->
  concat (map (fun g => rq_types (short_request (fst g) (snd g))) short_groups) = drop 6 collectDataGroup
  /\ exists ok si' st' l gs, short_loop COLLECT_FUEL SE 0 6 3 si st = Some (ok, si', st')
    /\ requests st' = (requests st ++ l)%list /\ asked gs l
    /\ (if ok : bool then gs = short_groups else gs `prefix_of` short_groups).
Proof.
  intros Hsi HE. split; [vm_compute; reflexivity|].
  destruct (short_loop_total SE COLLECT_FUEL 0 6 3 si st Hsi HE) as (ok & si' & st' & l & gs & H & _ & Hr & Ha & Hg);
    [unfold COLLECT_FUEL; lia|by left|]. by exists ok, si', st', l, gs.
Qed.

Lemma every_type_is_asked_for_witness :
  configured wave_si
  /\ exists ok si' st' l gs,
       short_loop COLLECT_FUEL (fun _ k => SimpleEnv (if (k =? 1)%nat then Some (message (Some (wave_meas 50)) true 1 0 [7; 1]) else None)
                                             (MsgEnv (fun _ => 5) (fun _ => true))) 0 6 3 wave_si wave_st = Some (ok, si', st')
       /\ ok = true /\ gs = short_groups /\ asked gs l.
Proof.
  assert (configured wave_si) as Hc by (eexists; split; [reflexivity|split; discriminate]). split; [exact Hc|].
  destruct (every_type_is_asked_for
    (fun _ k => SimpleEnv (if (k =? 1)%nat then Some (message (Some (wave_meas 50)) true 1 0 [7; 1]) else None)
                  (MsgEnv (fun _ => 5) (fun _ => true))) wave_si wave_st Hc) as [_ (ok & si' & st' & l & gs & H & _ & Ha & Hg)].
  { intros g [|[|k]] u; try discriminate. intros [= <-]. repeat constructor.
    - vm_compute in *. congruence || (destruct m; vm_compute in *; injection H; intros; subst; cbn; lia).
    - vm_compute in H. injection H as <-. intros _. vm_compute. by eexists. }
  exists ok, si', st', l, gs. split; [exact H|].
  assert (ok = true) as ->; [|by split_and!].
  revert H. clear. vm_compute. intros [= <- _ _]. reflexivity.
Defined.

(** ** Safety of the whole *)

Lemma attempts_total E r a i dim si st : userData si <> None ->
  (forall k u, we_first (E k) = Some u -> first_ok u) ->
  exists ok st' l, wave_attempts E r a i dim si st = Some (ok, st')
    /\ requests st' = (requests st ++ l)%list /\ (List.length l <= S r)%nat.
Proof.
  intros Hu HE. revert a st. induction r as [|r IH]; intros a st; cbn [wave_attempts].
  all: destruct (attempt_total (E a) i dim si st Hu (HE a)) as (res & st1 & -> & l & Hr & Hl); cbn [mbind option_bind].
  all: destruct res; try (eexists _, _, l; split_and!; [reflexivity|done|lia]).
  destruct (IH (S a) st1) as (ok & st2 & l2 & -> & Hr2 & Hl2). eexists _, _, (l ++ l2)%list.
  split_and!; [reflexivity|by rewrite Hr2, Hr, app_assoc|rewrite length_app; lia].
Qed.

Lemma wave_loop_total acc E n dim si st : userData si <> None ->
  (forall i k u, we_first (E i k) = Some u -> first_ok u) ->
  exists ok st' l, wave_loop acc E n dim si st = Some (ok, st')
    /\ requests st' = (requests st ++ l)%list /\ (List.length l <= 4 * n)%nat.
Proof.
  intros Hu HE. revert dim st. induction n as [|n IH]; intros dim st; cbn [wave_loop].
  { eexists _, _, []. split_and!; [reflexivity|by rewrite app_nil_r|cbn; lia]. }
  destruct (next_dimension _ dim) as [pd dim1]. destruct (negb acc && _).
  { destruct (IH dim1 st) as (ok & st1 & l & -> & Hr & Hl). eexists _, _, l. split_and!; [reflexivity|done|lia]. }
  destruct (attempts_total (E (INSIGHT_PREDICT_WAVEFORM_DATA_END - n)%nat) long_data_retry 0
    (INSIGHT_PREDICT_WAVEFORM_DATA_END - n)%nat pd si st Hu (HE _)) as (ok & st1 & l & -> & Hr & Hl).
  cbn [mbind option_bind]. unfold long_data_retry in Hl. destruct ok; [|eexists _, _, l; split_and!; [reflexivity|done|lia]].
  destruct (IH dim1 st1) as (ok2 & st2 & l2 & -> & Hr2 & Hl2). eexists _, _, (l ++ l2)%list.
  split_and!; [reflexivity|by rewrite Hr2, Hr, app_assoc|rewrite length_app; lia].
Qed.

Lemma wave_required_defined now garbage u : regularSensingPeriod_s u <> 0 -> waveformPeriod_s u <> 0 ->
  exists b u', wave_required now garbage u = Some (b, u').
Proof.
  intros H1 H2. unfold wave_required. destruct (Z.eqb_spec (regularSensingPeriod_s u) 0); [done|]. rewrite andb_false_r.
  match goal with |- context [if lastRegularSensingTime_s u <? ?x then _ else _] => set (e := x) end.
  set (u' := if lastRegularSensingTime_s u <? e then _ else _).
  destruct (_ || _); [|by eauto]. destruct (Z.eqb_spec (waveformPeriod_s u) 0); [done|]. by eauto.
Qed.

Lemma collect_waves_total acc E now garbage si st : configured si ->
  (forall i k u, we_first (E i k) = Some u -> first_ok u) ->
  exists ok si' st' l, collect_waves acc E now garbage si st = Some (ok, si', st')
    /\ requests st' = (requests st ++ l)%list /\ (List.length l <= 24)%nat.
Proof.
  intros (u & Hu & H1 & H2) HE. unfold collect_waves. rewrite Hu.
  destruct (wave_required_defined now garbage u H1 H2) as (b & u' & ->). cbn [mbind option_bind].
  change (S INSIGHT_PREDICT_WAVEFORM_DATA_END) with 6%nat. destruct b.
  - destruct (wave_loop_total acc E 6 0 (set_userData (Some u') si) st ltac:(done) HE) as (ok & st' & l & Hw & Hr & Hl).
    rewrite Hw. cbn [mbind option_bind]. eexists _, _, _, l. split_and!; [reflexivity|done|lia].
  - eexists _, _, _, []. split_and!; [reflexivity|by rewrite app_nil_r|cbn; lia].
Qed.

Lemma asked_length gs l : asked gs l -> (List.length l <= 4 * List.length gs)%nat.
Proof. induction 1 as [|n i delta gs l Hn _ IH]; cbn; [lia|]. rewrite length_app, length_replicate. lia. Qed.

(** C23: a collection ends and never goes wrong: whatever a configured sensor
    answers and does not answer, with damaged, missing and exchanged blocks, files that
    cannot be opened, and any clock, as long as its messages are complete, the
    collection is defined - no item is used after it was freed or handed over, no
    descriptor after it was closed - and at most sixty requests have been made. *)
Theorem collection_is_safe mtx acc SE WE now garbage si st :
  configured si -> (forall g k u, se_reply (SE g k) = Some u -> short_ok u) ->
  (forall i k u, we_first (WE i k) = Some u -> first_ok u) ->
  exists ok si' st' l, collectData mtx acc SE WE now garbage si st = Some (ok, si', st')
    /\ requests st' = (requests st ++ l)%list /\ (List.length l <= 60)%nat.
Proof.
  intros Hsi HS HW. unfold collectData. destruct mtx; cbn [negb].
  2:{ eexists _, _, _, []. split_and!; [reflexivity|by rewrite app_nil_r|cbn; lia]. }
  destruct (short_loop_total SE COLLECT_FUEL 0 6 3 si st Hsi HS) as (ok & si1 & st1 & l & gs & H & Hc & Hr & Ha & Hg);
    [unfold COLLECT_FUEL; lia|by left|].
  change (S INSIGHT_PREDICT_WAVEFORM_DATA_END) with 6%nat. change INSIGHT_PREDICT_DATA_COLLECT_MAX_NUMBER with 3%nat.
  rewrite H. cbn [mbind option_bind].
  assert (List.length l <= 36)%nat as Hl.
  { pose proof (asked_length _ _ Ha). enough (List.length gs <= 9)%nat by lia.
    assert (List.length (groups_from COLLECT_FUEL 6) = 9%nat) as <- by (vm_compute; reflexivity).
    destruct ok; [rewrite Hg; apply Nat.le_refl|exact (prefix_length _ _ Hg)]. }
  destruct ok; [|eexists _, _, _, l; split_and!; [reflexivity|done|lia]].
  destruct (collect_waves_total acc WE now garbage si1 st1 Hc HW) as (ok2 & si2 & st2 & l2 & -> & Hr2 & Hl2).
  eexists _, _, _, (l ++ l2)%list. split_and!; [reflexivity|by rewrite Hr2, Hr, app_assoc|rewrite length_app; lia].
Qed.

(** All short data comes at the second request, one waveform arrives damaged, the others never. *)
Definition demo_short (g k : nat) : simple_env :=
  SimpleEnv (if (k =? 1)%nat then Some (message (Some (wave_meas 50)) true 1 0 [7; 1]) else None)
    (MsgEnv (fun _ => 5) (fun _ => true)).

Definition demo_waves (i k : nat) : wave_env := if (i =? 0)%nat then wave_demo 1 k else silent_env.

Lemma collection_is_safe_witness :
  exists ok si' st' l, collectData true true demo_short demo_waves 1700000400 0 wave_si wave_st = Some (ok, si', st')
    /\ requests st' = (requests wave_st ++ l)%list /\ (List.length l <= 60)%nat.
Proof.
  apply (collection_is_safe true true demo_short demo_waves 1700000400 0 wave_si wave_st).
  - eexists. split; [reflexivity|]. split; discriminate.
  - intros g [|[|k]] u; try discriminate. intros [= <-]. repeat constructor.
    all: vm_compute in H; injection H as <-; first [vm_compute; lia|intros _; eexists; vm_compute; reflexivity].
  - intros i k u. unfold demo_waves. destruct i; [|discriminate]. unfold wave_demo. destruct k; [discriminate|].
    intros [= <-]. split; [|vm_compute; discriminate]. repeat constructor. intros m H. vm_compute in H. injection H as <-.
    vm_compute. lia.
Defined.
