(* ===== verification/Huffman.v ===== *)
(** * Huffman: the static Huffman codec of the waveform compression

    [huffman.c] and [huffman_table.h]: writing code words into a bit stream,
    the encoder with its check mode, the decoding tree and the decoder. A
    [float] array holds whole numbers here (the coefficients after
    quantisation), so its values are [Z]. *)

From S2P Require Import Prelude.
From Stdlib Require Import ZArith Lia ZifyBool List Bool.
From stdpp Require Import base list numbers option.
Open Scope Z_scope.

(** ** Data *)

Record huffmanBitstreamBuf_t := Bitstream {
  buffer : list Z; buf_size : Z; byte_index : Z; bit_offset : Z
}.

(** NULL is [Null]. *)
Inductive huffmanNode_t :=
  | Null
  | Node (symbol : Z) (left right : huffmanNode_t).

Record huffmanCode_t := Code { symbol : Z; code_val : Z; len : Z }.

Definition INTERNAL_SYMBOL : Z := -32768.
Definition ESCAPE_SYMBOL : Z := 32767.
Definition RAW_SYMBOL_BITS : Z := 16.

Definition PdM_Static_Table : list huffmanCode_t :=
  [ Code 0 0 1; Code 5 0x0004 3; Code (-5) 0x0005 3; Code 6 0x000c 4; Code (-6) 0x000d 4;
    Code 7 0x001c 5; Code (-7) 0x001d 5; Code 8 0x003c 6; Code (-8) 0x003d 6;
    Code 9 0x007c 7; Code (-9) 0x007d 7; Code 10 0x00fc 8; Code (-10) 0x00fd 8;
    Code ESCAPE_SYMBOL 0x007f 7 ].

Definition find_code (s : Z) : option huffmanCode_t :=
  List.find (fun e => symbol e =? s) PdM_Static_Table.

(** The two's complement value of 16 bits. *)
Definition s16 (x : Z) : Z := if u16 x <? 32768 then u16 x else u16 x - 65536.

(** [(int16_t)f]: undefined when the value does not fit. *)
Definition to_int16 (f : Z) : option Z := if (-32768 <=? f) && (f <=? 32767) then Some f else None.

(** ** Writing

    [None] is an access outside the buffer or a shift by a negative amount. *)

(** [bs->buffer[bs->byte_index] |= (1 << (7 - bs->bit_offset))] *)
Definition set_bit (bs : huffmanBitstreamBuf_t) : option (list Z) :=
  if (byte_index bs <? Z.of_nat (length (buffer bs))) && (bit_offset bs <=? 7)
  then
    let i := Z.to_nat (byte_index bs) in
    Some (<[i := u8 (Z.lor (nth i (buffer bs) 0) (Z.shiftl 1 (7 - bit_offset bs)))]> (buffer bs))
  else None.

(** The end of both loops: one bit further. *)
Definition advance (bs : huffmanBitstreamBuf_t) : huffmanBitstreamBuf_t :=
  let off := u32 (bit_offset bs + 1) in
  if off =? 8 then Bitstream (buffer bs) (buf_size bs) (u32 (byte_index bs + 1)) 0
  else Bitstream (buffer bs) (buf_size bs) (byte_index bs) off.

Definition with_buffer (b : list Z) (bs : huffmanBitstreamBuf_t) : huffmanBitstreamBuf_t :=
  Bitstream b (buf_size bs) (byte_index bs) (bit_offset bs).

(** The loop from bit [i], [n] bits to go. *)
Fixpoint write_bits (n : nat) (i : Z) (bs : huffmanBitstreamBuf_t) (code_val len : Z)
    : option (Z * huffmanBitstreamBuf_t) :=
  match n with
  | O => Some (0, bs)
  | S n =>
      let bit := Z.land (Z.shiftr code_val (len - 1 - i)) 0x01 in
      if buf_size bs <=? byte_index bs then Some (-1, bs)
      else
        b ← (if bit =? 1 then set_bit bs else Some (buffer bs));
        write_bits n (i + 1) (advance (with_buffer b bs)) code_val len
  end.

Definition write_code_value (bs : huffmanBitstreamBuf_t) (code_val len : Z)
    : option (Z * huffmanBitstreamBuf_t) :=
  write_bits (Z.to_nat len) 0 bs code_val len.

(** ** Encoding *)

Fixpoint count_loop (symbols : list Z) (escape : huffmanCode_t) (total : Z) : option Z :=
  match symbols with
  | [] => Some total
  | f :: symbols =>
      s ← to_int16 f;
      count_loop symbols escape
        (match find_code s with
         | Some e => u32 (total + len e)
         | None => u32 (u32 (total + len escape) + RAW_SYMBOL_BITS)
         end)
  end.

(** The result code is kept only when [ret] is not NULL, and only then does
    an error end the loop. *)
Fixpoint encode_loop (symbols : list Z) (escape : huffmanCode_t) (has_ret : bool)
    (bs : huffmanBitstreamBuf_t) (total : Z) : option (Z * huffmanBitstreamBuf_t * Z) :=
  match symbols with
  | [] => Some (total, bs, 0)
  | f :: symbols =>
      s ← to_int16 f;
      match find_code s with
      | Some e =>
          '(rc, bs) ← write_code_value bs (code_val e) (len e);
          if (rc =? -1) && has_ret then Some (total, bs, -1)
          else encode_loop symbols escape has_ret bs (u32 (total + len e))
      | None =>
          '(rc, bs) ← write_code_value bs (code_val escape) (len escape);
          if (rc =? -1) && has_ret then Some (total, bs, -1)
          else
            let total := u32 (total + len escape) in
            '(rc, bs) ← write_code_value bs (u16 s) RAW_SYMBOL_BITS;
            if (rc =? -1) && has_ret then Some (total, bs, -1)
            else encode_loop symbols escape has_ret bs (u32 (total + RAW_SYMBOL_BITS))
      end
  end.

(** The number of bits, the stream, and the value left in [ret] (0 when
    [has_ret] is false). *)
Definition huffman_encode_static (symbols : list Z) (n : Z) (bs : huffmanBitstreamBuf_t) (check : Z)
    (has_ret : bool) : option (Z * huffmanBitstreamBuf_t * Z) :=
  match find_code ESCAPE_SYMBOL with
  | None => Some (0, bs, 0)
  | Some escape =>
      if Z.of_nat (length symbols) <? n then None
      else
        let symbols := take (Z.to_nat n) symbols in
        if negb (check =? 0)
        then
          total ← count_loop symbols escape 0;
          Some (total, bs, if (u32 (buf_size bs * 8) <? total) && has_ret then -1 else 0)
        else encode_loop symbols escape has_ret bs 0
  end.

(** ** The decoding tree *)

Section tree.
(** Does the [k]-th call of [calloc] succeed? *)
Context (calloc_ok : nat -> bool).

(** A child, allocated when it is missing; NULL is dereferenced when that
    fails. *)
Definition child (t : huffmanNode_t) (k : nat) : option (huffmanNode_t * nat) :=
  match t with
  | Null => if calloc_ok k then Some (Node INTERNAL_SYMBOL Null Null, S k) else None
  | Node _ _ _ => Some (t, k)
  end.

(** The walk of one table entry from bit [j], [n] bits to go. *)
Fixpoint insert_code (n : nat) (j : Z) (e : huffmanCode_t) (t : huffmanNode_t) (k : nat)
    : option (huffmanNode_t * nat) :=
  match t with
  | Null => None
  | Node s l r =>
      match n with
      | O => Some (Node (symbol e) l r, k)
      | S n =>
          let bit := Z.land (Z.shiftr (code_val e) (len e - 1 - j)) 0x01 in
          if bit =? 0
          then '(l, k) ← child l k; '(l, k) ← insert_code n (j + 1) e l k; Some (Node s l r, k)
          else '(r, k) ← child r k; '(r, k) ← insert_code n (j + 1) e r k; Some (Node s l r, k)
      end
  end.

Fixpoint insert_codes (es : list huffmanCode_t) (t : huffmanNode_t) (k : nat) : option huffmanNode_t :=
  match es with
  | [] => Some t
  | e :: es => '(t, k) ← insert_code (Z.to_nat (len e)) 0 e t k; insert_codes es t k
  end.

Definition build_decoding_tree : option huffmanNode_t :=
  if negb (calloc_ok 0) then Some Null
  else insert_codes PdM_Static_Table (Node INTERNAL_SYMBOL Null Null) 1.
End tree.

(** ** Reading *)

(** -1 at the end of the buffer. *)
Definition read_bit (bs : huffmanBitstreamBuf_t) : option (Z * huffmanBitstreamBuf_t) :=
  if buf_size bs <=? byte_index bs then Some (-1, bs)
  else if (byte_index bs <? Z.of_nat (length (buffer bs))) && (bit_offset bs <=? 7)
  then
    let bit := Z.land (Z.shiftr (nth (Z.to_nat (byte_index bs)) (buffer bs) 0) (7 - bit_offset bs)) 0x01 in
    Some (bit, advance bs)
  else None.

(** The loop from bit [i], [n] bits to go. *)
Fixpoint read_raw_loop (n : nat) (i : Z) (bs : huffmanBitstreamBuf_t) (s : Z)
    : option (Z * huffmanBitstreamBuf_t * Z) :=
  match n with
  | O => Some (s, bs, 0)
  | S n =>
      '(bit, bs) ← read_bit bs;
      if bit =? -1 then Some (0, bs, -1)
      else read_raw_loop n (i + 1) bs (s16 (Z.lor s (Z.shiftl bit (RAW_SYMBOL_BITS - 1 - i))))
  end.

Definition read_raw_symbol (bs : huffmanBitstreamBuf_t) : option (Z * huffmanBitstreamBuf_t * Z) :=
  read_raw_loop (Z.to_nat RAW_SYMBOL_BITS) 0 bs 0.

(** ** Decoding *)

(** The outcome of the decoder: the stream, the array, the number of symbols,
    and the value for [ret]. *)
Definition decoded : Type := huffmanBitstreamBuf_t * list Z * Z * Z.

(** [decoded_symbols[_symbol_idx++] = v] *)
Definition store (out : list Z) (idx v : Z) : option (list Z) :=
  if idx <? Z.of_nat (length out) then Some (<[Z.to_nat idx := v]> out) else None.

(** One turn of the loop: the values after it, or the outcome when it
    breaks. *)
Definition decode_turn (bs : huffmanBitstreamBuf_t) (root cur : huffmanNode_t) (out : list Z) (idx : Z)
    : option (huffmanBitstreamBuf_t * huffmanNode_t * list Z * Z + decoded) :=
  '(bit, bs) ← read_bit bs;
  if bit =? -1 then Some (inr (bs, out, idx, -1))
  else
    match cur with
    | Null => None
    | Node _ l r =>
        match (if bit =? 0 then l else r) with
        | Null => Some (inr (bs, out, idx, -2))
        | Node s l r =>
            if negb (s =? INTERNAL_SYMBOL)
            then
              if s =? ESCAPE_SYMBOL
              then
                '(tmp, bs, rc) ← read_raw_symbol bs;
                if negb (rc =? 0) then Some (inr (bs, out, idx, -1))
                else out ← store out idx tmp; Some (inl (bs, root, out, u32 (idx + 1)))
              else out ← store out idx s; Some (inl (bs, root, out, u32 (idx + 1)))
            else Some (inl (bs, Node s l r, out, idx))
        end
    end.

(** [None] also when the fuel is used up. *)
Fixpoint decode_loop (fuel : nat) (bs : huffmanBitstreamBuf_t) (root cur : huffmanNode_t) (out : list Z)
    (idx max_symbols : Z) : option decoded :=
  if idx <? max_symbols
  then
    match fuel with
    | O => None
    | S fuel =>
        r ← decode_turn bs root cur out idx;
        match r with
        | inl (bs, cur, out, idx) => decode_loop fuel bs root cur out idx max_symbols
        | inr d => Some d
        end
    end
  else Some (bs, out, idx, 0).

(** Every turn reads a bit, so one more turn than there are bits suffices. *)
Definition decode_fuel (bs : huffmanBitstreamBuf_t) : nat := S (Z.to_nat (8 * buf_size bs)).

Definition huffman_decode_static (bs : huffmanBitstreamBuf_t) (root : huffmanNode_t) (out : list Z)
    (max_symbols : Z) : option decoded :=
  decode_loop (decode_fuel bs) bs root root out 0 max_symbols.

(** ** The bits of a stream *)

Definition byte_bits (b : Z) : list bool := map (fun k => Z.testbit b (7 - Z.of_nat k)) (seq 0 8).
Definition bits_of (l : list Z) : list bool := flat_map byte_bits l.

(** The position in bits, and the bits before and after it. *)
Definition pos (bs : huffmanBitstreamBuf_t) : Z := 8 * byte_index bs + bit_offset bs.
Definition content (bs : huffmanBitstreamBuf_t) : list bool := take (Z.to_nat (pos bs)) (bits_of (buffer bs)).
Definition ahead (bs : huffmanBitstreamBuf_t) : list bool := drop (Z.to_nat (pos bs)) (bits_of (buffer bs)).

(** The buffer has its size, and the position lies in it. *)
Definition bs_ok (bs : huffmanBitstreamBuf_t) : Prop :=
  buf_size bs = Z.of_nat (length (buffer bs)) /\ 8 * buf_size bs < 2 ^ 32 /\
  0 <= bit_offset bs < 8 /\ 0 <= byte_index bs /\ pos bs <= 8 * buf_size bs /\
  Forall is_u8 (buffer bs).

(** Nothing but zeros lies ahead. *)
Definition clean (bs : huffmanBitstreamBuf_t) : Prop :=
  bs_ok bs /\ ahead bs = replicate (length (ahead bs)) false.

Lemma length_bits_of l : length (bits_of l) = (8 * length l)%nat.
Proof. induction l as [|b l IH]; [done|]. unfold bits_of in *. cbn [flat_map]. rewrite length_app, IH. simpl. lia. Qed.

Lemma bits_of_app l l' : bits_of (l ++ l') = bits_of l ++ bits_of l'.
Proof. apply flat_map_app. Qed.

Lemma bits_of_lookup l i o : (o < 8)%nat ->
  bits_of l !! (8 * i + o)%nat = (fun b => Z.testbit b (7 - Z.of_nat o)) <$> l !! i.
Proof.
  intros Ho. revert i. induction l as [|b l IH]; intros i; [by rewrite !lookup_nil|].
  change (bits_of (b :: l)) with (byte_bits b ++ bits_of l). destruct i as [|i].
  - rewrite lookup_app_l by (simpl; lia). do 8 (destruct o as [|o]; [done|]). lia.
  - rewrite lookup_app_r by (simpl; lia). change (length (byte_bits b)) with 8%nat.
    replace (8 * S i + o - 8)%nat with (8 * i + o)%nat by lia. apply IH.
Qed.

(** Setting a bit of a byte sets that bit of the stream. *)
Lemma bits_of_set l i o : (i < length l)%nat -> (o < 8)%nat ->
  bits_of (<[i := u8 (Z.lor (nth i l 0) (Z.shiftl 1 (7 - Z.of_nat o)))]> l) =
  <[(8 * i + o)%nat := true]> (bits_of l).
Proof.
  intros Hi Ho. destruct (lookup_lt_is_Some_2 l i Hi) as [b Eb].
  rewrite (nth_lookup_Some _ _ 0 _ Eb). apply list_eq. intros p.
  pose proof (Nat.div_mod_eq p 8) as Hp. pose proof (Nat.mod_upper_bound p 8 ltac:(lia)) as Hm.
  set (i' := (p / 8)%nat) in *. set (o' := (p mod 8)%nat) in *. rewrite Hp.
  rewrite bits_of_lookup by done. destruct (decide (i' = i)) as [->|Hne].
  2: { rewrite !list_lookup_insert_ne by lia. by rewrite bits_of_lookup. }
  rewrite list_lookup_insert_eq by done. cbn [fmap option_fmap option_map].
  assert (E : forall k, 0 <= k < 8 -> Z.testbit (u8 (Z.lor b (Z.shiftl 1 (7 - Z.of_nat o)))) k =
    Z.testbit b k || (k =? 7 - Z.of_nat o)).
  { intros k Hk. unfold u8. change 256 with (2 ^ 8). rewrite Z.mod_pow2_bits_low, Z.lor_spec by lia. f_equal.
    rewrite Z.shiftl_1_l, Z.pow2_bits_eqb by lia. apply eq_true_iff_eq. rewrite !Z.eqb_eq. lia. }
  rewrite E by lia. destruct (decide (o' = o)) as [->|Ho'].
  - rewrite list_lookup_insert_eq by (rewrite length_bits_of; lia). by rewrite Z.eqb_refl, orb_true_r.
  - rewrite list_lookup_insert_ne by lia. rewrite bits_of_lookup by done.
    rewrite (proj2 (Z.eqb_neq _ _)), orb_false_r by lia.
    by rewrite Eb.
Qed.

Lemma bs_ok_bits bs : bs_ok bs -> length (bits_of (buffer bs)) = Z.to_nat (8 * buf_size bs).
Proof. intros (H & _). rewrite length_bits_of. lia. Qed.

Lemma length_content bs : bs_ok bs -> Z.of_nat (length (content bs)) = pos bs.
Proof.
  intros Hok. unfold content. rewrite length_take, bs_ok_bits by done.
  destruct Hok as (_ & _ & Ho & Hi & Hp & _). unfold pos in *. lia.
Qed.
Lemma length_ahead bs : bs_ok bs -> Z.of_nat (length (ahead bs)) = 8 * buf_size bs - pos bs.
Proof.
  intros Hok. unfold ahead. rewrite length_drop, bs_ok_bits by done.
  destruct Hok as (_ & _ & Ho & Hi & Hp & _). unfold pos in *. lia.
Qed.

(** At a position inside the buffer there is a byte. *)
Lemma bs_ok_inside bs : bs_ok bs -> pos bs < 8 * buf_size bs ->
  byte_index bs < buf_size bs /\ byte_index bs < Z.of_nat (length (buffer bs)).
Proof. intros (H & _ & Ho & Hi & _ & _) Hp. unfold pos in Hp. lia. Qed.

Lemma pos_split bs : bs_ok bs ->
  Z.to_nat (pos bs) = (8 * Z.to_nat (byte_index bs) + Z.to_nat (bit_offset bs))%nat.
Proof. intros (_ & _ & Ho & Hi & _ & _). unfold pos. lia. Qed.

Lemma advance_ok bs : bs_ok bs -> pos bs < 8 * buf_size bs ->
  bs_ok (advance bs) /\ pos (advance bs) = pos bs + 1 /\ buffer (advance bs) = buffer bs /\
  buf_size (advance bs) = buf_size bs.
Proof.
  intros (H & Hb & Ho & Hi & Hp & Hu) Hlt. unfold advance, bs_ok, pos in *.
  rewrite !u32_id by (unfold is_u32; lia).
  destruct (Z.eqb_spec (bit_offset bs + 1) 8); cbn [buffer buf_size byte_index bit_offset];
    repeat split; try done; lia.
Qed.

(** The bits around the position. *)
Lemma bits_around bs : bits_of (buffer bs) = content bs ++ ahead bs.
Proof. symmetry. apply take_drop. Qed.

(** One bit is written. *)
Lemma put_bit_eq bs (b : bool) : clean bs -> pos bs < 8 * buf_size bs ->
  exists buf, (if Z.b2z b =? 1 then set_bit bs else Some (buffer bs)) = Some buf /\
    let bs1 := advance (with_buffer buf bs) in
    clean bs1 /\ content bs1 = content bs ++ [b] /\ buf_size bs1 = buf_size bs.
Proof.
  intros [Hok Hz] Hlt. pose proof (bs_ok_inside bs Hok Hlt) as [_ Hin].
  pose proof (length_content bs Hok) as Hc. pose proof (length_ahead bs Hok) as Ha.
  destruct (ahead bs) as [|z rest] eqn:E; [simpl in Ha; lia|]. cbn [length replicate] in Hz.
  injection Hz as -> Hz. pose proof (bits_around bs) as Hb. rewrite E in Hb.
  assert (exists buf, (if Z.b2z b =? 1 then set_bit bs else Some (buffer bs)) = Some buf /\
    bits_of buf = content bs ++ b :: rest /\ length buf = length (buffer bs) /\ Forall is_u8 buf)
    as (buf & Eb & Hbits & Hl & Hu).
  { destruct Hok as (Hs & H32 & Ho & Hi & Hp & Hu). destruct b; cbn [Z.b2z Z.eqb Pos.eqb].
    2: { by exists (buffer bs). }
    unfold set_bit. rewrite (proj2 (Z.ltb_lt _ _) Hin), (proj2 (Z.leb_le _ _)) by lia. cbn [andb].
    eexists. split; [done|]. split; [|by rewrite length_insert; split; [|apply Forall_u8_insert]].
    replace (bit_offset bs) with (Z.of_nat (Z.to_nat (bit_offset bs))) at 1 by lia.
    rewrite bits_of_set, Hb by lia.
    replace (8 * Z.to_nat (byte_index bs) + Z.to_nat (bit_offset bs))%nat with (length (content bs))
      by (unfold pos in Hc; lia).
    by rewrite insert_app_r_alt, Nat.sub_diag by lia. }
  exists buf. split; [done|]. cbv zeta.
  assert (Hok1 : bs_ok (with_buffer buf bs)).
  { destruct Hok as (Hs & H32 & Ho & Hi & Hp & _). unfold bs_ok, pos, with_buffer in *.
    cbn [buffer buf_size byte_index bit_offset]. by rewrite Hl. }
  destruct (advance_ok (with_buffer buf bs) Hok1 Hlt) as (Hok2 & Hp2 & Hb2 & Hs2).
  change (pos (with_buffer buf bs)) with (pos bs) in Hp2. change (buffer (with_buffer buf bs)) with buf in Hb2.
  assert (Hsplit : bits_of buf = (content bs ++ [b]) ++ rest) by (by rewrite <- app_assoc).
  assert (Hlen : Z.to_nat (pos (advance (with_buffer buf bs))) = length (content bs ++ [b])).
  { rewrite Hp2, length_app. cbn [length]. lia. }
  unfold clean, content, ahead. rewrite Hb2, Hlen, Hsplit, take_app_length, drop_app_length.
  repeat split; try done; apply Hok2.
Qed.

(** The bits of a code word, from bit [i] on. *)
Definition word_bits (v len : Z) (i : Z) (n : nat) : list bool :=
  map (fun k => Z.testbit v (len - 1 - (i + Z.of_nat k))) (seq 0 n).

Lemma word_bits_S v len i n :
  word_bits v len i (S n) = Z.testbit v (len - 1 - i) :: word_bits v len (i + 1) n.
Proof.
  unfold word_bits. cbn [seq map]. rewrite <- seq_shift, map_map. f_equal; [f_equal; lia|].
  apply map_ext. intros k. f_equal. lia.
Qed.

Lemma bit_at v k : 0 <= k -> Z.land (Z.shiftr v k) 1 = Z.b2z (Z.testbit v k).
Proof.
  intros Hk. change 1 with (Z.ones 1). rewrite Z.land_ones by lia.
  rewrite <- Z.bit0_mod, Z.shiftr_spec by lia. f_equal.
Qed.

(** A code word is written as far as it fits. *)
Lemma write_bits_eq n i bs v len : clean bs -> i + Z.of_nat n = len ->
  let room := Z.to_nat (8 * buf_size bs - pos bs) in
  exists bs', write_bits n i bs v len = Some (if (n <=? room)%nat then 0 else -1, bs') /\
    clean bs' /\ content bs' = content bs ++ take room (word_bits v len i n) /\ buf_size bs' = buf_size bs.
Proof.
  revert i bs. induction n as [|n IH]; intros i bs Hc Hi room.
  { exists bs. cbn [write_bits Nat.leb]. unfold word_bits. cbn [seq map]. by rewrite take_nil, app_nil_r. }
  pose proof Hc as [Hok _]. cbn [write_bits]. destruct (Z.leb_spec (buf_size bs) (byte_index bs)) as [Hfull|Hroom].
  - exists bs. assert (room = 0%nat) as -> by (destruct Hok as (_ & _ & Ho & Hi' & Hp & _); unfold pos in *; lia).
    cbn [Nat.leb take]. by rewrite app_nil_r.
  - assert (Hlt : pos bs < 8 * buf_size bs) by (destruct Hok as (_ & _ & Ho & Hi' & Hp & _); unfold pos in *; lia).
    rewrite bit_at by lia. destruct (put_bit_eq bs (Z.testbit v (len - 1 - i)) Hc Hlt) as (buf & -> & H).
    cbv zeta in H. cbn [mbind option_bind]. set (bs1 := advance (with_buffer buf bs)) in *.
    destruct H as (Hc1 & Hw & Hs). destruct (IH (i + 1) bs1 Hc1 ltac:(lia)) as (bs' & E & Hc' & Hw' & Hs').
    cbv zeta in E. rewrite E. exists bs'.
    assert (Hp1 : pos bs1 = pos bs + 1).
    { rewrite <- (length_content bs1), <- (length_content bs), Hw, length_app by (done || apply Hc1). cbn [length]. lia. }
    assert (Hr : room = S (Z.to_nat (8 * buf_size bs1 - pos bs1))) by (rewrite Hs, Hp1; lia).
    rewrite Hr. cbn [Nat.leb]. split; [done|]. split; [done|].
    rewrite word_bits_S. cbn [take]. rewrite Hw', Hw, <- app_assoc. cbn [app]. by rewrite Hs', Hs.
Qed.

(** ** The encoding of a list of symbols *)

Definition escape_code : huffmanCode_t := Code ESCAPE_SYMBOL 0x007f 7.
Definition code_word (v len : Z) : list bool := word_bits v len 0 (Z.to_nat len).

Definition symbol_bits (s : Z) : list bool :=
  match find_code s with
  | Some e => code_word (code_val e) (len e)
  | None => code_word (code_val escape_code) (len escape_code) ++ code_word (u16 s) RAW_SYMBOL_BITS
  end.
Definition encoding (ss : list Z) : list bool := flat_map symbol_bits ss.

(** The bits that still fit. *)
Definition room (bs : huffmanBitstreamBuf_t) : nat := Z.to_nat (8 * buf_size bs - pos bs).

Definition is_i16 (x : Z) : Prop := -32768 <= x <= 32767.

Lemma to_int16_id x : is_i16 x -> to_int16 x = Some x.
Proof. unfold is_i16, to_int16. intros H. by rewrite !(proj2 (Z.leb_le _ _)) by lia. Qed.

Lemma find_escape : find_code ESCAPE_SYMBOL = Some escape_code.
Proof. done. Qed.

Lemma find_code_len s e : find_code s = Some e -> 1 <= len e <= 8 /\ symbol e = s.
Proof.
  intros H. unfold find_code in H. apply find_some in H as [H He]. apply Z.eqb_eq in He.
  split; [|done]. clear He. revert H. apply (Forall_forall (fun e => 1 <= len e <= 8)).
  unfold PdM_Static_Table. repeat constructor; cbn [len]; lia.
Qed.

Lemma length_code_word v n : 0 <= n -> Z.of_nat (length (code_word v n)) = n.
Proof. intros H. unfold code_word, word_bits. rewrite length_map, length_seq. lia. Qed.

(** One code word. *)
Lemma write_code_value_eq bs v len : clean bs -> 0 <= len ->
  exists bs', write_code_value bs v len =
      Some (if (length (code_word v len) <=? room bs)%nat then 0 else -1, bs') /\
    clean bs' /\ content bs' = content bs ++ take (room bs) (code_word v len) /\
    buf_size bs' = buf_size bs /\ room bs' = (room bs - length (code_word v len))%nat.
Proof.
  intros Hc Hl. unfold write_code_value.
  destruct (write_bits_eq (Z.to_nat len) 0 bs v len Hc ltac:(lia)) as (bs' & E & Hc' & Hw & Hs).
  cbv zeta in E. fold (room bs) in E, Hw. fold (code_word v len) in Hw.
  pose proof (length_code_word v len Hl) as Hn. exists bs'.
  replace (length (code_word v len)) with (Z.to_nat len) by lia. split; [done|]. split; [done|].
  split; [done|]. split; [done|]. unfold room. rewrite Hs.
  rewrite <- (length_content bs'), <- (length_content bs), Hw, length_app, length_take by (apply Hc || apply Hc').
  rewrite Nat2Z.inj_add. unfold room. destruct Hc as [Hok _].
  rewrite <- (length_content bs) by done. lia.
Qed.

Section encode.
Context (has_ret : bool).

(** [m] writes the bits [r] as far as they fit and adds their number to
    [total]; without a place for the result code an overflow goes unnoticed. *)
Definition encodes (m : option (Z * huffmanBitstreamBuf_t * Z)) (bs : huffmanBitstreamBuf_t)
    (r : list bool) (total : Z) : Prop :=
  exists t bs' rc, m = Some (t, bs', rc) /\
    rc = (if (room bs <? length r)%nat && has_ret then -1 else 0) /\
    (rc = 0 -> t = u32 (total + Z.of_nat (length r))) /\
    clean bs' /\ content bs' = content bs ++ take (room bs) r /\ buf_size bs' = buf_size bs.

Lemma encodes_word bs v len total k r : clean bs -> 0 <= len ->
  (forall bs1, clean bs1 -> encodes (k bs1) bs1 r (u32 (total + len))) ->
  encodes ('(rc, bs1) ← write_code_value bs v len;
           if (rc =? -1) && has_ret then Some (total, bs1, -1) else k bs1)
    bs (code_word v len ++ r) total.
Proof.
  intros Hc Hl Hk. destruct (write_code_value_eq bs v len Hc Hl) as (bs1 & -> & Hc1 & Hw & Hs & Hr).
  cbn [mbind option_bind]. pose proof (length_code_word v len Hl) as Hlw. set (w := code_word v len) in *.
  destruct (Hk bs1 Hc1) as (t & bs2 & rc & E & Hrc & Ht & Hc2 & Hw2 & Hs2). rewrite Hr in Hrc, Hw2.
  unfold encodes. rewrite length_app, take_app, Nat2Z.inj_add, Hlw.
  assert (Hu : rc = 0 -> t = u32 (total + (len + Z.of_nat (length r)))).
  { intros H0. rewrite (Ht H0). unfold u32. rewrite Zplus_mod_idemp_l. f_equal. lia. }
  assert (Hw3 : content bs2 = content bs ++ take (room bs) w ++ take (room bs - length w) r)
    by by rewrite Hw2, Hw, <- app_assoc.
  destruct (Nat.leb_spec (length w) (room bs)) as [Hfit|Hfull].
  - cbn [Z.eqb andb]. exists t, bs2, rc. split; [exact E|]. split; [|by rewrite Hs2].
    rewrite Hrc. assert ((room bs - length w <? length r)%nat = (room bs <? length w + length r)%nat) as -> by lia.
    done.
  - destruct has_ret; cbn [Z.eqb Pos.eqb andb] in *.
    + exists total, bs1, (-1). rewrite (proj2 (Nat.ltb_lt _ _)) by lia. cbn [andb].
      replace (room bs - length w)%nat with 0%nat by lia. by rewrite take_0, app_nil_r.
    + exists t, bs2, rc. rewrite andb_false_r in *. split; [exact E|]. by rewrite Hs2.
Qed.

Lemma encode_loop_eq ss bs total : Forall is_i16 ss -> clean bs -> is_u32 total ->
  encodes (encode_loop ss escape_code has_ret bs total) bs (encoding ss) total.
Proof.
  intros Hss. revert bs total. induction Hss as [|s ss Hs _ IH]; intros bs total Hc Ht.
  { exists total, bs, 0. cbn [encode_loop encoding flat_map length Nat.ltb Nat.leb].
    rewrite take_nil, app_nil_r, Z.add_0_r, u32_id by done.
    replace (room bs <? 0)%nat with false by (symmetry; apply Nat.ltb_ge; lia). done. }
  cbn [encode_loop]. rewrite to_int16_id by done. cbn [mbind option_bind].
  change (encoding (s :: ss)) with (symbol_bits s ++ encoding ss). unfold symbol_bits.
  destruct (find_code s) as [e|] eqn:Ef.
  - destruct (find_code_len s e Ef) as [Hlen _]. apply encodes_word; [done|lia|].
    intros bs1 Hc1. apply IH; [done|apply u32_range].
  - rewrite <- app_assoc. apply encodes_word; [done|done|]. intros bs1 Hc1.
    apply encodes_word; [done|done|]. intros bs2 Hc2. apply IH; [done|apply u32_range].
Qed.
End encode.

Lemma count_loop_eq ss total : Forall is_i16 ss -> is_u32 total ->
  count_loop ss escape_code total = Some (u32 (total + Z.of_nat (length (encoding ss)))).
Proof.
  intros Hss. revert total. induction Hss as [|s ss Hs _ IH]; intros total Ht.
  { cbn [count_loop encoding flat_map length]. by rewrite Z.add_0_r, u32_id. }
  cbn [count_loop]. rewrite to_int16_id by done. cbn [mbind option_bind].
  rewrite IH by (case_match; apply u32_range). change (encoding (s :: ss)) with (symbol_bits s ++ encoding ss).
  rewrite length_app, Nat2Z.inj_add. f_equal. unfold symbol_bits, u32.
  destruct (find_code s) as [e|] eqn:Ef.
  - destruct (find_code_len s e Ef) as [Hl _]. rewrite length_code_word by lia.
    rewrite Zplus_mod_idemp_l. f_equal. lia.
  - rewrite length_app, Nat2Z.inj_add, !length_code_word by done. cbn [len escape_code].
    rewrite !Zplus_mod_idemp_l. rewrite <- Z.add_assoc, Zplus_mod_idemp_l. f_equal. unfold RAW_SYMBOL_BITS. lia.
Qed.

(** ** Reading the bits ahead *)

(** [bs'] is [bs] with the bits [r] still ahead. *)
Definition read_to (bs : huffmanBitstreamBuf_t) (r : list bool) (bs' : huffmanBitstreamBuf_t) : Prop :=
  bs_ok bs' /\ ahead bs' = r /\ buffer bs' = buffer bs /\ buf_size bs' = buf_size bs.

Lemma read_to_refl bs : bs_ok bs -> read_to bs (ahead bs) bs.
Proof. done. Qed.
Lemma read_to_trans bs r bs1 r' bs2 : read_to bs r bs1 -> read_to bs1 r' bs2 -> read_to bs r' bs2.
Proof. intros (_ & _ & Hb & Hs) (H1 & H2 & H3 & H4). by rewrite Hb in H3; rewrite Hs in H4. Qed.

Lemma read_bit_end bs : bs_ok bs -> ahead bs = [] -> read_bit bs = Some (-1, bs).
Proof.
  intros Hok E. pose proof (length_ahead bs Hok) as H. rewrite E in H. cbn [length] in H.
  unfold read_bit. rewrite (proj2 (Z.leb_le _ _)); [done|].
  destruct Hok as (_ & _ & Ho & Hi & _ & _). unfold pos in H. lia.
Qed.

Lemma read_bit_next bs b r : bs_ok bs -> ahead bs = b :: r ->
  exists bs', read_bit bs = Some (Z.b2z b, bs') /\ read_to bs r bs'.
Proof.
  intros Hok E. pose proof (length_ahead bs Hok) as H. rewrite E in H. cbn [length] in H.
  destruct (bs_ok_inside bs Hok ltac:(lia)) as [H1 H2].
  destruct (advance_ok bs Hok ltac:(lia)) as (Hok' & Hp' & Hb' & Hs').
  pose proof (pos_split bs Hok) as Hsplit. destruct Hok as (Hsz & H32 & Ho & Hi & Hp & Hu).
  unfold read_bit. rewrite (proj2 (Z.leb_gt _ _)), (proj2 (Z.ltb_lt _ _)), (proj2 (Z.leb_le _ _)) by lia.
  cbn [andb]. exists (advance bs). rewrite bit_at by lia. split.
  - do 3 f_equal. unfold ahead in E.
    assert (Hl : bits_of (buffer bs) !! Z.to_nat (pos bs) = Some b).
    { rewrite <- (Nat.add_0_r (Z.to_nat (pos bs))), <- lookup_drop, E. done. }
    rewrite Hsplit, bits_of_lookup in Hl by lia.
    destruct (buffer bs !! Z.to_nat (byte_index bs)) as [x|] eqn:Ex; [|done].
    rewrite (nth_lookup_Some _ _ 0 _ Ex). injection Hl as <-. f_equal. lia.
  - split; [done|]. split; [|done]. unfold ahead in *. rewrite Hb', Hp'.
    rewrite Z2Nat.inj_add by (unfold pos; lia). rewrite <- drop_drop. by rewrite E.
Qed.

(** The value of raw bits, from bit [i] on. *)
Fixpoint raw_value (i : Z) (l : list bool) (s : Z) : Z :=
  match l with
  | [] => s
  | b :: l => raw_value (i + 1) l (s16 (Z.lor s (Z.shiftl (Z.b2z b) (RAW_SYMBOL_BITS - 1 - i))))
  end.

Lemma b2z_not_end b : (Z.b2z b =? -1) = false.
Proof. by destruct b. Qed.

Lemma read_raw_loop_eq l i bs s r : bs_ok bs -> ahead bs = l ++ r ->
  exists bs', read_raw_loop (length l) i bs s = Some (raw_value i l s, bs', 0) /\ read_to bs r bs'.
Proof.
  revert i bs s. induction l as [|b l IH]; intros i bs s Hok E.
  { exists bs. split; [done|]. by apply read_to_refl in Hok; rewrite E in Hok. }
  cbn [length read_raw_loop raw_value]. destruct (read_bit_next bs b (l ++ r) Hok E) as (bs1 & -> & H1).
  cbn [mbind option_bind]. rewrite b2z_not_end.
  destruct (IH (i + 1) bs1 (s16 (Z.lor s (Z.shiftl (Z.b2z b) (RAW_SYMBOL_BITS - 1 - i))))) as (bs' & -> & H2);
    [apply H1|apply H1|]. exists bs'. split; [done|]. by eapply read_to_trans.
Qed.

Lemma read_raw_loop_short n i bs s : bs_ok bs -> (length (ahead bs) < n)%nat ->
  exists bs', read_raw_loop n i bs s = Some (0, bs', -1) /\ read_to bs [] bs'.
Proof.
  revert i bs s. induction n as [|n IH]; intros i bs s Hok Hl; [lia|]. cbn [read_raw_loop].
  destruct (ahead bs) as [|b r] eqn:E.
  { rewrite read_bit_end by done. cbn [mbind option_bind Z.eqb]. by exists bs. }
  destruct (read_bit_next bs b r Hok E) as (bs1 & -> & H1). cbn [mbind option_bind]. rewrite b2z_not_end.
  destruct (IH (i + 1) bs1 (s16 (Z.lor s (Z.shiftl (Z.b2z b) (RAW_SYMBOL_BITS - 1 - i))))) as (bs' & -> & H2).
  { apply H1. } { destruct H1 as (_ & -> & _). cbn [length] in Hl. lia. }
  exists bs'. split; [done|]. by eapply read_to_trans.
Qed.

Lemma s16_mod a b : a mod 65536 = b mod 65536 -> s16 a = s16 b.
Proof. unfold s16, u16. by intros ->. Qed.
Lemma s16_mod_eq a : s16 a mod 65536 = a mod 65536.
Proof. unfold s16, u16. case_match; [by rewrite Zmod_mod|]. by rewrite <- Zminus_mod_idemp_r, Z_mod_same_full, Z.sub_0_r, Zmod_mod. Qed.

Lemma s16_lor a b : s16 (Z.lor (s16 a) b) = s16 (Z.lor a b).
Proof.
  apply s16_mod. change 65536 with (2 ^ 16). rewrite <- !Z.land_ones by lia.
  rewrite !Z.land_lor_distr_l. f_equal. rewrite !Z.land_ones by lia. apply s16_mod_eq.
Qed.

Lemma s16_u16 s : is_i16 s -> s16 (u16 s) = s.
Proof. unfold is_i16, s16, u16. rewrite Zmod_mod. intros H. case_match; Z.div_mod_to_equations; lia. Qed.

(** Adding the bit [k] of [v] to its higher bits. *)
Lemma shift_next v k : 0 <= k ->
  Z.lor (Z.shiftl (Z.shiftr v (k + 1)) (k + 1)) (Z.shiftl (Z.b2z (Z.testbit v k)) k) =
  Z.shiftl (Z.shiftr v k) k.
Proof.
  intros Hk. apply Z.bits_inj'. intros i Hi. rewrite Z.lor_spec, !Z.shiftl_spec by lia.
  destruct (Z.lt_trichotomy i k) as [H|[->|H]].
  - rewrite !(Z.testbit_neg_r _ (i - _)) by lia. done.
  - rewrite (Z.testbit_neg_r _ (k - (k + 1))) by lia. rewrite Z.shiftr_spec, Z.sub_diag by lia.
    rewrite Z.add_0_l. by destruct (Z.testbit v k).
  - rewrite !Z.shiftr_spec by lia. replace (i - (k + 1) + (k + 1)) with i by lia.
    replace (i - k + k) with i by lia.
    replace (Z.testbit (Z.b2z (Z.testbit v k)) (i - k)) with false; [by rewrite orb_false_r|].
    symmetry. apply Z.bits_above_log2; destruct (Z.testbit v k); cbn [Z.b2z]; try done; simpl; lia.
Qed.

(** The raw bits of a symbol give the symbol back. *)
Lemma raw_value_word v n i : 0 <= i -> i + Z.of_nat n = 16 ->
  raw_value i (word_bits v 16 i n) (s16 (Z.shiftl (Z.shiftr v (16 - i)) (16 - i))) = s16 v.
Proof.
  revert i. induction n as [|n IH]; intros i Hi Hn.
  { cbn [word_bits seq map raw_value]. replace (16 - i) with 0 by lia. done. }
  rewrite word_bits_S. cbn [raw_value]. rewrite s16_lor.
  unfold RAW_SYMBOL_BITS. replace (16 - i) with ((16 - 1 - i) + 1) by lia.
  rewrite shift_next by lia. specialize (IH (i + 1) ltac:(lia) ltac:(lia)).
  by replace (16 - (i + 1)) with (16 - 1 - i) in IH by lia.
Qed.

Lemma raw_value_symbol s : is_i16 s -> raw_value 0 (code_word (u16 s) RAW_SYMBOL_BITS) 0 = s.
Proof.
  intros Hs. pose proof (raw_value_word (u16 s) 16 0 ltac:(lia) ltac:(lia)) as H.
  rewrite s16_u16 in H by done. rewrite <- H at 2. unfold code_word, RAW_SYMBOL_BITS. f_equal.
  rewrite Z.shiftr_div_pow2, Z.div_small by (lia || apply u16_range). done.
Qed.

(** ** The tree *)

Definition static_tree : huffmanNode_t :=
  Eval vm_compute in
  match build_decoding_tree (fun _ => true) with Some t => t | None => Null end.

Lemma child_ext f g t k : (forall k, f k = g k) -> child f t k = child g t k.
Proof. intros H. destruct t; cbn [child]; by rewrite ?H. Qed.

Lemma insert_code_ext f g n j e t k : (forall k, f k = g k) ->
  insert_code f n j e t k = insert_code g n j e t k.
Proof.
  intros H. revert j t k. induction n as [|n IH]; intros j [|s l r] k; try done. cbn [insert_code].
  rewrite !(child_ext f g) by done.
  destruct (_ =? 0); [destruct (child g l k) as [[t k']|]|destruct (child g r k) as [[t k']|]];
    cbn [mbind option_bind]; try done; by rewrite IH.
Qed.

Lemma insert_codes_ext f g es t k : (forall k, f k = g k) ->
  insert_codes f es t k = insert_codes g es t k.
Proof.
  intros H. revert t k. induction es as [|e es IH]; intros t k; [done|]. cbn [insert_codes].
  rewrite (insert_code_ext f g) by done. destruct (insert_code g _ _ _ _ _) as [[t' k']|]; [apply IH|done].
Qed.

Lemma build_decoding_tree_eq calloc_ok : (forall k, calloc_ok k = true) ->
  build_decoding_tree calloc_ok = Some static_tree.
Proof.
  intros H. unfold build_decoding_tree. rewrite H. cbn [negb].
  by rewrite (insert_codes_ext calloc_ok (fun _ => true)).
Qed.

(** Every inner node has two children. *)
Fixpoint complete (t : huffmanNode_t) : bool :=
  match t with
  | Null => false
  | Node s l r => if s =? INTERNAL_SYMBOL then complete l && complete r else true
  end.

Definition branch (t : huffmanNode_t) (b : bool) : huffmanNode_t :=
  match t with Null => Null | Node _ l r => if b then r else l end.
Definition node_symbol (t : huffmanNode_t) : Z := match t with Null => 0 | Node s _ _ => s end.

(** [p] leads from [t] through inner nodes to a leaf. *)
Fixpoint leaf_at (t : huffmanNode_t) (p : list bool) : option Z :=
  match p with
  | [] => None
  | b :: p =>
      match branch t b with
      | Null => None
      | Node s l r => if s =? INTERNAL_SYMBOL then leaf_at (Node s l r) p
                      else match p with [] => Some s | _ :: _ => None end
      end
  end.

Lemma static_tree_complete : complete static_tree = true.
Proof. done. Qed.

Lemma code_leaf s e : find_code s = Some e -> leaf_at static_tree (code_word (code_val e) (len e)) = Some s.
Proof.
  intros H. destruct (find_code_len s e H) as [_ <-]. unfold find_code in H. apply find_some in H as [H _].
  revert H. apply (Forall_forall (fun e => leaf_at static_tree (code_word (code_val e) (len e)) = Some (symbol e))).
  unfold PdM_Static_Table. repeat (constructor; [reflexivity|]). constructor.
Qed.

(** ** Decoding *)

(** The step that ends at a leaf. *)
Definition leaf_turn (bs : huffmanBitstreamBuf_t) (root : huffmanNode_t) (s : Z) (out : list Z) (idx : Z)
    : option (huffmanBitstreamBuf_t * huffmanNode_t * list Z * Z + decoded) :=
  if s =? ESCAPE_SYMBOL
  then
    '(tmp, bs, rc) ← read_raw_symbol bs;
    if negb (rc =? 0) then Some (inr (bs, out, idx, -1))
    else out ← store out idx tmp; Some (inl (bs, root, out, u32 (idx + 1)))
  else out ← store out idx s; Some (inl (bs, root, out, u32 (idx + 1))).

Lemma decode_turn_next bs root cur out idx b r :
  bs_ok bs -> ahead bs = b :: r -> cur <> Null ->
  exists bs', read_to bs r bs' /\ decode_turn bs root cur out idx =
    match branch cur b with
    | Null => Some (inr (bs', out, idx, -2))
    | Node s l r => if negb (s =? INTERNAL_SYMBOL) then leaf_turn bs' root s out idx
                    else Some (inl (bs', Node s l r, out, idx))
    end.
Proof.
  intros Hok E Hc. destruct (read_bit_next bs b r Hok E) as (bs' & Er & H). exists bs'. split; [done|].
  unfold decode_turn, leaf_turn. rewrite Er. cbn [mbind option_bind]. rewrite b2z_not_end.
  destruct cur as [|s l r']; [done|]. cbn [branch]. by destruct b.
Qed.

Section decode.
Context (root : huffmanNode_t) (max_symbols : Z).

(** Following a code word. *)
Lemma decode_path p : forall cur s bs out idx r fuel,
  leaf_at cur p = Some s -> bs_ok bs -> ahead bs = p ++ r -> idx < max_symbols ->
  exists bs', read_to bs r bs' /\
    decode_loop (length p + fuel) bs root cur out idx max_symbols =
    (t ← leaf_turn bs' root s out idx;
     match t with
     | inl (bs, cur, out, idx) => decode_loop fuel bs root cur out idx max_symbols
     | inr d => Some d
     end).
Proof.
  induction p as [|b p IH]; intros cur s bs out idx r fuel Hl Hok E Hi; [done|].
  cbn [leaf_at] in Hl. cbn [length Nat.add decode_loop]. rewrite (proj2 (Z.ltb_lt _ _) Hi).
  destruct (decode_turn_next bs root cur out idx b (p ++ r) Hok E) as (bs1 & H1 & Et);
    [by destruct cur|]. rewrite Et. clear Et. destruct (branch cur b) as [|s' l' r'] eqn:Eb; [done|].
  destruct (s' =? INTERNAL_SYMBOL) eqn:Es; cbn [negb mbind option_bind].
  - destruct (IH (Node s' l' r') s bs1 out idx r fuel Hl) as (bs' & H2 & ->); [apply H1|apply H1|done|].
    exists bs'. split; [by eapply read_to_trans|done].
  - destruct p; [|done]. injection Hl as ->. exists bs1. split; [done|]. cbn [length Nat.add].
    by destruct (leaf_turn bs1 root s out idx) as [[[[[? ?] ?] ?]|?]|].
Qed.
End decode.

Lemma store_eq out idx v : 0 <= idx < Z.of_nat (length out) ->
  store out idx v = Some (<[Z.to_nat idx := v]> out).
Proof. intros H. unfold store. by rewrite (proj2 (Z.ltb_lt _ _)) by lia. Qed.

(** A leaf that is not the escape symbol, and the escape followed by the raw
    bits of a symbol. *)
Lemma leaf_turn_symbol bs root s out idx : s <> ESCAPE_SYMBOL ->
  0 <= idx < Z.of_nat (length out) -> Z.of_nat (length out) < 2 ^ 32 ->
  leaf_turn bs root s out idx = Some (inl (bs, root, <[Z.to_nat idx := s]> out, idx + 1)).
Proof.
  intros Hs Hi Hl. unfold leaf_turn. rewrite (proj2 (Z.eqb_neq _ _) Hs), store_eq by done.
  cbn [mbind option_bind]. by rewrite u32_id by (unfold is_u32; lia).
Qed.

Lemma leaf_turn_escape bs root s out idx r : is_i16 s ->
  bs_ok bs -> ahead bs = code_word (u16 s) RAW_SYMBOL_BITS ++ r ->
  0 <= idx < Z.of_nat (length out) -> Z.of_nat (length out) < 2 ^ 32 ->
  exists bs', read_to bs r bs' /\
    leaf_turn bs root ESCAPE_SYMBOL out idx = Some (inl (bs', root, <[Z.to_nat idx := s]> out, idx + 1)).
Proof.
  intros Hs Hok E Hi Hl. destruct (read_raw_loop_eq _ 0 bs 0 r Hok E) as (bs' & Er & H).
  exists bs'. split; [done|]. unfold leaf_turn, read_raw_symbol. rewrite Z.eqb_refl.
  change (length (code_word (u16 s) RAW_SYMBOL_BITS)) with (Z.to_nat RAW_SYMBOL_BITS) in Er.
  rewrite Er. cbn [mbind option_bind Z.eqb negb]. rewrite raw_value_symbol, store_eq by done.
  cbn [mbind option_bind]. by rewrite u32_id by (unfold is_u32; lia).
Qed.

(** One symbol: its bits are read and it is stored. *)
Lemma decode_symbol s bs out idx r max_symbols fuel : is_i16 s -> s <> ESCAPE_SYMBOL ->
  bs_ok bs -> ahead bs = symbol_bits s ++ r -> 0 <= idx < Z.of_nat (length out) ->
  Z.of_nat (length out) < 2 ^ 32 -> idx < max_symbols -> (length (symbol_bits s) <= fuel)%nat ->
  exists bs' fuel', read_to bs r bs' /\ (fuel <= length (symbol_bits s) + fuel')%nat /\
    decode_loop fuel bs static_tree static_tree out idx max_symbols =
    decode_loop fuel' bs' static_tree static_tree (<[Z.to_nat idx := s]> out) (idx + 1) max_symbols.
Proof.
  intros Hs He Hok E Hi Hl Hm Hf. unfold symbol_bits in *. destruct (find_code s) as [e|] eqn:Ef.
  - pose proof (code_leaf s e Ef) as Hleaf. set (p := code_word _ _) in *.
    destruct (decode_path static_tree max_symbols p static_tree s bs out idx r (fuel - length p) Hleaf Hok E Hm)
      as (bs' & H & Ed).
    exists bs', (fuel - length p)%nat. split; [done|]. split; [lia|].
    replace (length p + (fuel - length p))%nat with fuel in Ed by lia. rewrite Ed.
    by rewrite leaf_turn_symbol by done.
  - rewrite <- app_assoc in E. rewrite length_app in *.
    pose proof (code_leaf ESCAPE_SYMBOL escape_code find_escape) as Hleaf. set (p := code_word (code_val _) _) in *.
    destruct (decode_path static_tree max_symbols p static_tree ESCAPE_SYMBOL bs out idx _ (fuel - length p) Hleaf Hok E Hm)
      as (bs' & H & Ed).
    destruct (leaf_turn_escape bs' static_tree s out idx r Hs) as (bs2 & H2 & Et); [apply H|apply H|done|done|].
    exists bs2, (fuel - length p)%nat. split; [by eapply read_to_trans|]. split; [lia|].
    replace (length p + (fuel - length p))%nat with fuel in Ed by lia. rewrite Ed, Et. done.
Qed.

Lemma take_drop_store out (n : nat) (x : Z) : (n < length out)%nat ->
  take (S n) (<[n := x]> out) = take n out ++ [x] /\ drop (S n) (<[n := x]> out) = drop (S n) out.
Proof.
  intros H. split; [|by rewrite drop_insert_lt by lia].
  erewrite take_S_r by by apply list_lookup_insert_eq. by rewrite take_insert_ge by lia.
Qed.

(** A list of symbols. *)
Lemma decode_symbols ss : forall bs out idx r fuel,
  Forall (fun s => is_i16 s /\ s <> ESCAPE_SYMBOL) ss -> bs_ok bs -> ahead bs = encoding ss ++ r ->
  0 <= idx -> idx + Z.of_nat (length ss) <= Z.of_nat (length out) -> Z.of_nat (length out) < 2 ^ 32 ->
  (length (encoding ss) <= fuel)%nat ->
  exists bs', read_to bs r bs' /\
    decode_loop fuel bs static_tree static_tree out idx (idx + Z.of_nat (length ss)) =
    Some (bs', take (Z.to_nat idx) out ++ ss ++ drop (Z.to_nat idx + length ss) out,
          idx + Z.of_nat (length ss), 0).
Proof.
  induction ss as [|s ss IH]; intros bs out idx r fuel Hss Hok E Hi Hlen Hl Hf.
  { exists bs. cbn [length app Z.of_nat]. rewrite Z.add_0_r, Nat.add_0_r, take_drop.
    cbn [encoding flat_map app] in E. split; [by rewrite <- E|].
    by destruct fuel; cbn [decode_loop]; rewrite Z.ltb_irrefl. }
  apply Forall_cons_iff in Hss as [[Hs He] Hss]. cbn [length] in *.
  change (encoding (s :: ss)) with (symbol_bits s ++ encoding ss) in *. rewrite <- app_assoc in E.
  rewrite length_app in Hf.
  destruct (decode_symbol s bs out idx (encoding ss ++ r) (idx + Z.of_nat (S (length ss))) fuel Hs He Hok E)
    as (bs1 & fuel1 & H1 & Hf1 & ->); [lia|done|lia|lia|].
  replace (idx + Z.of_nat (S (length ss))) with ((idx + 1) + Z.of_nat (length ss)) by lia.
  destruct (IH bs1 (<[Z.to_nat idx := s]> out) (idx + 1) r fuel1 Hss) as (bs' & H2 & ->);
    [apply H1|apply H1|lia|rewrite length_insert; lia|by rewrite length_insert|lia|].
  exists bs'. split; [by eapply read_to_trans|].
  destruct (take_drop_store out (Z.to_nat idx) s ltac:(lia)) as [Ht Hd].
  replace (Z.to_nat (idx + 1)) with (S (Z.to_nat idx)) by lia.
  rewrite Ht, <- app_assoc, <- drop_drop, Hd, drop_drop.
  by replace (Z.to_nat idx + S (length ss))%nat with (S (Z.to_nat idx) + length ss)%nat by lia.
Qed.

(** Any leaf: a symbol is stored, or the stream ends in the raw bits. *)
Lemma leaf_turn_any bs root s out idx : bs_ok bs ->
  0 <= idx < Z.of_nat (length out) -> Z.of_nat (length out) < 2 ^ 32 ->
  exists bs' r, read_to bs r bs' /\ (length r <= length (ahead bs))%nat /\
    ((exists v, leaf_turn bs root s out idx =
        Some (inl (bs', root, <[Z.to_nat idx := v]> out, idx + 1))) \/
     r = [] /\ leaf_turn bs root s out idx = Some (inr (bs', out, idx, -1))).
Proof.
  intros Hok Hi Hl. destruct (decide (s = ESCAPE_SYMBOL)) as [->|Hs].
  2: { exists bs, (ahead bs). split; [done|]. split; [done|]. left. exists s. by apply leaf_turn_symbol. }
  unfold leaf_turn, read_raw_symbol. rewrite Z.eqb_refl.
  destruct (decide (length (ahead bs) < Z.to_nat RAW_SYMBOL_BITS)%nat) as [Hsh|Hlong].
  - destruct (read_raw_loop_short _ 0 bs 0 Hok Hsh) as (bs' & -> & H). exists bs', [].
    split; [done|]. split; [simpl; lia|]. by right.
  - destruct (read_raw_loop_eq (take (Z.to_nat RAW_SYMBOL_BITS) (ahead bs)) 0 bs 0
      (drop (Z.to_nat RAW_SYMBOL_BITS) (ahead bs)) Hok) as (bs' & E & H); [by rewrite take_drop|].
    rewrite length_take_le in E by lia. rewrite E. cbn [mbind option_bind Z.eqb negb].
    rewrite store_eq by done. cbn [mbind option_bind]. rewrite u32_id by (unfold is_u32; lia).
    eexists _, _. split; [exact H|]. split; [rewrite length_drop; lia|]. left. by eexists.
Qed.

(** A node from which the walk can go on. *)
Definition inner (t : huffmanNode_t) : Prop := complete t = true /\ node_symbol t = INTERNAL_SYMBOL.

Lemma inner_branch t b : inner t -> exists s l r, branch t b = Node s l r /\
  (s = INTERNAL_SYMBOL -> inner (Node s l r)).
Proof.
  intros [Hc Hs]. destruct t as [|s l r]; [done|]. cbn [node_symbol] in Hs. cbn [complete] in Hc.
  rewrite Hs, Z.eqb_refl in Hc. apply andb_true_iff in Hc as [Hl Hr]. cbn [branch].
  destruct b; [destruct r as [|s' l' r']|destruct l as [|s' l' r']]; try done;
    by exists s', l', r'.
Qed.

(** What holds of every outcome. *)
Definition outcome_ok (bs : huffmanBitstreamBuf_t) (out : list Z) (idx max_symbols : Z) (d : option decoded) : Prop :=
  exists bs' out' idx' rc r, d = Some (bs', out', idx', rc) /\ read_to bs r bs' /\
    length out' = length out /\ drop (Z.to_nat idx') out' = drop (Z.to_nat idx') out /\
    idx <= idx' /\ (rc = 0 /\ idx' = max_symbols \/ rc = -1 /\ idx' < max_symbols /\ r = []).

Lemma decode_total root max_symbols fuel : inner root -> forall cur bs out idx,
  inner cur -> bs_ok bs -> 0 <= idx <= max_symbols -> max_symbols <= Z.of_nat (length out) ->
  Z.of_nat (length out) < 2 ^ 32 -> (length (ahead bs) < fuel)%nat ->
  outcome_ok bs out idx max_symbols (decode_loop fuel bs root cur out idx max_symbols).
Proof.
  intros Hroot. induction fuel as [|fuel IH]; intros cur bs out idx Hcur Hok Hi Hm Hl Hf; [lia|].
  cbn [decode_loop]. destruct (Z.ltb_spec idx max_symbols) as [Hlt|Hge].
  2: { exists bs, out, idx, 0, (ahead bs). do 5 (split; [done|]). left. split; [done|lia]. }
  destruct (ahead bs) as [|b r] eqn:E.
  { unfold decode_turn. rewrite read_bit_end by done. cbn [mbind option_bind Z.eqb Pos.eqb].
    exists bs, out, idx, (-1), []. by repeat (split; [done|]); right. }
  destruct (decode_turn_next bs root cur out idx b r Hok E) as (bs1 & H1 & ->).
  { destruct Hcur as [Hc _]. by destruct cur. }
  destruct (inner_branch cur b Hcur) as (s & l & r' & -> & Hin). cbn [length] in Hf.
  assert (Hok1 : bs_ok bs1) by apply H1. assert (Ha1 : ahead bs1 = r) by apply H1.
  destruct (Z.eqb_spec s INTERNAL_SYMBOL) as [Hs|_]; cbn [negb mbind option_bind].
  - destruct (IH (Node s l r') bs1 out idx) as (bs' & o & i & rc & r2 & -> & H2 & H3);
      [by apply Hin|done|done|done|done|rewrite Ha1; lia|].
    exists bs', o, i, rc, r2. split; [done|]. split; [by eapply read_to_trans|done].
  - destruct (leaf_turn_any bs1 root s out idx Hok1 ltac:(lia) Hl) as (bs2 & r2 & H2 & Hr2 & [[v ->]|[-> ->]]);
      cbn [mbind option_bind].
    + destruct (IH root bs2 (<[Z.to_nat idx := v]> out) (idx + 1)) as (bs' & o & i & rc & r3 & -> & H3 & H4 & H5 & H6 & H7);
        [done|apply H2|lia|by rewrite length_insert|by rewrite length_insert| |].
      { destruct H2 as (_ & -> & _). rewrite Ha1 in Hr2. lia. }
      exists bs', o, i, rc, r3. split; [done|].
      split; [eapply read_to_trans; [eassumption|by eapply read_to_trans]|].
      rewrite length_insert in H4. split; [done|]. split; [|split; [lia|done]].
      rewrite H5. by apply drop_insert_lt; lia.
    + exists bs2, out, idx, (-1), []. split; [done|]. split; [by eapply read_to_trans|].
      do 2 (split; [done|]). split; [lia|]. by right.
Qed.

(** ** The codec *)

Lemma fuel_enough bs : bs_ok bs -> (length (ahead bs) < decode_fuel bs)%nat.
Proof.
  intros Hok. pose proof (length_ahead bs Hok) as H. unfold decode_fuel.
  destruct Hok as (_ & _ & Ho & Hi & _ & _). unfold pos in H. lia.
Qed.

(** The stream [bs'] read again from the position of [bs]. *)
Definition rewind (bs bs' : huffmanBitstreamBuf_t) : huffmanBitstreamBuf_t :=
  Bitstream (buffer bs') (buf_size bs') (byte_index bs) (bit_offset bs).

Lemma rewind_ahead bs bs' l : bs_ok bs -> bs_ok bs' -> content bs' = content bs ++ l ->
  buf_size bs' = buf_size bs ->
  bs_ok (rewind bs bs') /\ ahead (rewind bs bs') = l ++ ahead bs'.
Proof.
  intros Hok Hok' Hc Hs. split.
  - destruct Hok as (_ & _ & Ho & Hi & Hp & _), Hok' as (Hs' & H32 & _ & _ & _ & Hu).
    unfold bs_ok, pos in *. cbn [rewind buffer buf_size byte_index bit_offset]. by rewrite <- Hs in Hp.
  - unfold ahead at 1. change (buffer (rewind bs bs')) with (buffer bs').
    change (pos (rewind bs bs')) with (pos bs). rewrite bits_around, Hc, <- app_assoc.
    replace (Z.to_nat (pos bs)) with (length (content bs)) by (pose proof (length_content bs Hok); lia).
    by rewrite drop_app_length.
Qed.

Lemma encode_static_eq ss bs has_ret : Forall is_i16 ss -> clean bs ->
  encodes has_ret (huffman_encode_static ss (Z.of_nat (length ss)) bs 0 has_ret) bs (encoding ss) 0.
Proof.
  intros Hss Hc. unfold huffman_encode_static. rewrite find_escape, Z.ltb_irrefl.
  rewrite Nat2Z.id, firstn_all. cbn [Z.eqb negb]. by apply encode_loop_eq.
Qed.

(** what the encoder writes. From a position of a stream with only
    zeros ahead, the encoder is defined for every list of 16-bit symbols and any
    buffer: it appends exactly the code words that fit, cut off at the end of the
    buffer, and leaves zeros ahead. With a place for the result code, an overflow
    gives -1; without one (NULL) the encoder goes on, the overflow is not
    reported, and the returned length counts bits that were never written. *)
Theorem encoder_output ss bs has_ret : Forall is_i16 ss -> clean bs ->
  exists total bs' rc, huffman_encode_static ss (Z.of_nat (length ss)) bs 0 has_ret = Some (total, bs', rc) /\
    rc = (if (room bs <? length (encoding ss))%nat && has_ret then -1 else 0) /\
    (rc = 0 -> total = u32 (Z.of_nat (length (encoding ss)))) /\
    content bs' = content bs ++ take (room bs) (encoding ss) /\
    clean bs' /\ buf_size bs' = buf_size bs.
Proof.
  intros Hss Hc. destruct (encode_static_eq ss bs has_ret Hss Hc) as (t & bs' & rc & E & Hrc & Ht & Hc' & Hw & Hs).
  exists t, bs', rc. rewrite Z.add_0_l in Ht. done.
Qed.

(** A cleared stream of [n] bytes, from its start. *)
Definition cleared (n : nat) : huffmanBitstreamBuf_t := Bitstream (replicate n 0) (Z.of_nat n) 0 0.

Lemma bits_of_zeros n : bits_of (replicate n 0) = replicate (8 * n) false.
Proof.
  induction n as [|n IH]; [done|]. change (bits_of (replicate (S n) 0)) with (byte_bits 0 ++ bits_of (replicate n 0)).
  rewrite IH. replace (8 * S n)%nat with (8 + 8 * n)%nat by lia. by rewrite replicate_add.
Qed.

Lemma clean_cleared n : Z.of_nat n < 2 ^ 29 -> clean (cleared n).
Proof.
  intros Hn. split.
  - unfold bs_ok, pos, cleared. cbn [buffer buf_size byte_index bit_offset]. rewrite length_replicate.
    repeat split; try lia. apply Forall_u8_replicate.
  - unfold ahead, pos, cleared. cbn [buffer byte_index bit_offset Z.mul Z.add Z.to_nat].
    by rewrite drop_0, bits_of_zeros, length_replicate.
Qed.

Lemma encoder_output_witness :
  exists total bs' rc, huffman_encode_static [5; 300] 2 (cleared 2) 0 false = Some (total, bs', rc) /\
    rc = 0 /\ total = 26 /\ length (content bs') = 16%nat.
Proof.
  destruct (encoder_output [5; 300] (cleared 2) false) as (t & bs' & rc & E & Hrc & Ht & Hw & _);
    [repeat constructor; unfold is_i16; lia|by apply clean_cleared|].
  rewrite andb_false_r in Hrc. exists t, bs', rc. split; [exact E|]. split; [done|]. split; [by rewrite (Ht Hrc)|].
  by rewrite Hw.
Defined.

(** C28: the codec loses nothing. Whatever the position in the stream, when
    16-bit symbols other than the escape symbol 32767 are encoded and fit, the
    encoder reports success and the number of bits, and the decoder, with the tree
    built from the table, started where the encoder started, returns exactly these
    symbols, leaves the rest of the array alone, and stops where the encoder
    stopped. *)
Theorem huffman_roundtrip ss bs calloc_ok out : Forall (fun s => is_i16 s /\ s <> ESCAPE_SYMBOL) ss ->
  clean bs -> (length (encoding ss) <= room bs)%nat -> (forall k, calloc_ok k = true) ->
  (length ss <= length out)%nat -> Z.of_nat (length out) < 2 ^ 32 ->
  exists bs' root bs2,
    huffman_encode_static ss (Z.of_nat (length ss)) bs 0 true =
      Some (Z.of_nat (length (encoding ss)), bs', 0) /\
    build_decoding_tree calloc_ok = Some root /\
    huffman_decode_static (rewind bs bs') root out (Z.of_nat (length ss)) =
      Some (bs2, ss ++ drop (length ss) out, Z.of_nat (length ss), 0) /\
    ahead bs2 = ahead bs' /\ buffer bs2 = buffer bs'.
Proof.
  intros Hss Hc Hfit Hcall Hlen Hl. pose proof Hc as [Hok _].
  destruct (encode_static_eq ss bs true) as (t & bs' & rc & E & Hrc & Ht & Hc' & Hw & Hs); [|done|].
  { eapply list.Forall_impl; [exact Hss|]. by intros s [H _]. }
  rewrite take_ge in Hw by done. rewrite (proj2 (Nat.ltb_ge _ _)) in Hrc by done. subst rc.
  assert (Hroom : is_u32 (Z.of_nat (length (encoding ss)))).
  { destruct Hok as (_ & H32 & Ho & Hi & Hp & _). unfold room, is_u32, pos in *. lia. }
  rewrite Z.add_0_l, u32_id in Ht by done. rewrite (Ht eq_refl) in E. exists bs', static_tree.
  destruct (rewind_ahead bs bs' (encoding ss) Hok (proj1 Hc') Hw Hs) as [Hok2 Ha].
  pose proof (fuel_enough _ Hok2) as Hfuel. rewrite Ha, length_app in Hfuel.
  destruct (decode_symbols ss (rewind bs bs') out 0 (ahead bs') (decode_fuel (rewind bs bs')) Hss Hok2 Ha)
    as (bs2 & H2 & Ed); [lia|lia|done|lia|].
  exists bs2. split; [exact E|]. split; [by apply build_decoding_tree_eq|]. split; [exact Ed|].
  split; [apply H2|apply H2].
Qed.

Lemma huffman_roundtrip_witness :
  exists bs' root bs2,
    huffman_encode_static [0; -7; 300; -32768] 4 (cleared 8) 0 true = Some (52, bs', 0) /\
    build_decoding_tree (fun _ => true) = Some root /\
    huffman_decode_static (rewind (cleared 8) bs') root [1; 1; 1; 1; 1] 4 =
      Some (bs2, [0; -7; 300; -32768; 1], 4, 0).
Proof.
  destruct (huffman_roundtrip [0; -7; 300; -32768] (cleared 8) (fun _ => true) [1; 1; 1; 1; 1])
    as (bs' & root & bs2 & E1 & E2 & E3 & _).
  - repeat (constructor; [unfold is_i16, ESCAPE_SYMBOL; lia|]). constructor.
  - by apply clean_cleared.
  - vm_compute. lia.
  - reflexivity.
  - simpl. lia.
  - reflexivity.
  - exists bs', root, bs2. split; [exact E1|]. by split.
Defined.

(** C29: the decoder is total. On any stream (of at most 2^29 bytes), with the
    tree built from the table and room for the symbols, the decoder terminates
    within the fuel, never leaves the tree (the -2 of an invalid code path does not
    occur), never writes behind the symbols it reports, and returns 0 exactly when
    it decoded all of them; otherwise the stream is used up and the result is
    -1. *)
Theorem decoder_total bs calloc_ok out max_symbols : bs_ok bs -> (forall k, calloc_ok k = true) ->
  0 <= max_symbols <= Z.of_nat (length out) -> Z.of_nat (length out) < 2 ^ 32 ->
  exists root bs' out' cnt rc, build_decoding_tree calloc_ok = Some root /\
    huffman_decode_static bs root out max_symbols = Some (bs', out', cnt, rc) /\
    length out' = length out /\ drop (Z.to_nat cnt) out' = drop (Z.to_nat cnt) out /\
    bs_ok bs' /\ 0 <= cnt /\
    (rc = 0 /\ cnt = max_symbols \/ rc = -1 /\ cnt < max_symbols /\ ahead bs' = []).
Proof.
  intros Hok Hcall Hm Hl. exists static_tree.
  assert (Hin : inner static_tree) by done.
  destruct (decode_total static_tree max_symbols (decode_fuel bs) Hin static_tree bs out 0 Hin Hok)
    as (bs' & out' & cnt & rc & r & E & (H1 & H2 & _) & H3 & H4 & H5 & H6);
    [lia|lia|done|by apply fuel_enough|].
  exists bs', out', cnt, rc. split; [by apply build_decoding_tree_eq|]. by subst r.
Qed.

Lemma decoder_total_witness :
  exists root bs' out' cnt rc, build_decoding_tree (fun _ => true) = Some root /\
    huffman_decode_static (cleared 1) root (replicate 9 7) 9 = Some (bs', out', cnt, rc) /\
    rc = -1 /\ cnt = 8 /\ out' = [0; 0; 0; 0; 0; 0; 0; 0; 7].
Proof.
  destruct (decoder_total (cleared 1) (fun _ => true) (replicate 9 7) 9)
    as (root & bs' & out' & cnt & rc & E1 & E2 & _); [by apply clean_cleared|done|simpl; lia|done|].
  exists root, bs', out', cnt, rc. split; [exact E1|]. split; [exact E2|].
  rewrite build_decoding_tree_eq in E1 by done. injection E1 as <-. vm_compute in E2. by simplify_eq.
Defined.

(** the check mode agrees with the encoder. At the start of a cleared
    stream the check mode changes nothing and announces the very length and
    result code that encoding then has: 0 exactly when the code words fit into
    the buffer. *)
Theorem check_mode_agrees ss bs : Forall is_i16 ss -> clean bs -> pos bs = 0 ->
  Z.of_nat (length (encoding ss)) < 2 ^ 32 ->
  exists total rc t bs', huffman_encode_static ss (Z.of_nat (length ss)) bs 1 true = Some (total, bs, rc) /\
    huffman_encode_static ss (Z.of_nat (length ss)) bs 0 true = Some (t, bs', rc) /\
    total = Z.of_nat (length (encoding ss)) /\ (rc = 0 <-> total <= 8 * buf_size bs) /\ (rc = 0 -> t = total).
Proof.
  intros Hss Hc Hp Hlen. pose proof Hc as [(_ & H32 & _ & Hi & Hp' & _) _].
  destruct (encode_static_eq ss bs true Hss Hc) as (t & bs' & rc & E & Hrc & Ht & _).
  exists (Z.of_nat (length (encoding ss))), rc, t, bs'. unfold room in Hrc. rewrite Hp, andb_true_r in Hrc.
  split.
  { unfold huffman_encode_static. rewrite find_escape, Z.ltb_irrefl, Nat2Z.id, firstn_all. cbn [Z.eqb negb].
    rewrite count_loop_eq by done. cbn [mbind option_bind]. rewrite Z.add_0_l, u32_id by (unfold is_u32; lia).
    rewrite u32_id, andb_true_r by (unfold is_u32, pos in *; lia). subst rc.
    by assert ((buf_size bs * 8 <? Z.of_nat (length (encoding ss))) =
      (Z.to_nat (8 * buf_size bs - 0) <? length (encoding ss))%nat) as -> by lia. }
  split; [exact E|]. split; [done|]. split; [subst rc; case_match; lia|].
  intros H0. rewrite (Ht H0), Z.add_0_l. apply u32_id. unfold is_u32. lia.
Qed.

Lemma check_mode_agrees_witness :
  exists t bs', huffman_encode_static [10; 300] 2 (cleared 3) 1 true = Some (31, cleared 3, -1) /\
    huffman_encode_static [10; 300] 2 (cleared 3) 0 true = Some (t, bs', -1).
Proof.
  destruct (check_mode_agrees [10; 300] (cleared 3)) as (total & rc & t & bs' & E1 & E2 & Ht & Hrc & _);
    [repeat constructor; unfold is_i16; lia|by apply clean_cleared|done|done|].
  assert (E3 : huffman_encode_static [10; 300] 2 (cleared 3) 1 true = Some (31, cleared 3, -1)) by done.
  exists t, bs'. split; [exact E3|]. change (Z.of_nat (length [10; 300])) with 2 in E1, E2.
  rewrite E3 in E1. injection E1 as _ <-. exact E2.
Defined.

(** the escape symbol itself is lost. The value 32767 has a table entry,
    the escape code, so it is written without raw bits: the stream of the 15
    symbols 32767, 5, 0, ..., 0 is the stream of the single symbol -32768, and is
    decoded to it. *)
Theorem escape_symbol_is_lost bs calloc_ok out : clean bs -> (23 <= room bs)%nat ->
  (forall k, calloc_ok k = true) -> (0 < length out)%nat -> Z.of_nat (length out) < 2 ^ 32 ->
  let ss := ESCAPE_SYMBOL :: 5 :: replicate 13 0 in
  exists bs' root bs2,
    huffman_encode_static ss 15 bs 0 true = Some (23, bs', 0) /\
    build_decoding_tree calloc_ok = Some root /\
    huffman_decode_static (rewind bs bs') root out 1 = Some (bs2, -32768 :: drop 1 out, 1, 0) /\
    ahead bs2 = ahead bs'.
Proof.
  intros Hc Hroom Hcall Hlen Hl ss. pose proof Hc as [Hok _].
  destruct (encode_static_eq ss bs true) as (t & bs' & rc & E & Hrc & Ht & Hc' & Hw & Hs); [|done|].
  { repeat (constructor; [unfold is_i16, ESCAPE_SYMBOL; lia|]). constructor. }
  change (encoding ss) with (encoding [-32768]) in *. change (length (encoding [-32768])) with 23%nat in *.
  rewrite take_ge in Hw by done. rewrite (proj2 (Nat.ltb_ge _ _)) in Hrc by done. subst rc.
  rewrite (Ht eq_refl) in E. exists bs', static_tree.
  destruct (rewind_ahead bs bs' (encoding [-32768]) Hok (proj1 Hc') Hw Hs) as [Hok2 Ha].
  pose proof (fuel_enough _ Hok2) as Hfuel. rewrite Ha, length_app in Hfuel.
  destruct (decode_symbols [-32768] (rewind bs bs') out 0 (ahead bs') (decode_fuel (rewind bs bs')))
    as (bs2 & H2 & Ed); [by repeat constructor|done|done|done|simpl; lia|done|lia|].
  exists bs2. split; [exact E|]. split; [by apply build_decoding_tree_eq|]. split; [exact Ed|apply H2].
Qed.

Lemma escape_symbol_is_lost_witness :
  exists bs' root bs2,
    huffman_encode_static [32767; 5; 0; 0; 0; 0; 0; 0; 0; 0; 0; 0; 0; 0; 0] 15 (cleared 4) 0 true = Some (23, bs', 0) /\
    build_decoding_tree (fun _ => true) = Some root /\
    huffman_decode_static (rewind (cleared 4) bs') root [1] 1 = Some (bs2, [-32768], 1, 0).
Proof.
  destruct (escape_symbol_is_lost (cleared 4) (fun _ => true) [1]) as (bs' & root & bs2 & E1 & E2 & E3 & _);
    [by apply clean_cleared|vm_compute; lia|done|simpl; lia|done|].
  exists bs', root, bs2. split; [exact E1|]. by split.
Defined.
