(* ===== verification/Dwt.v ===== *)
(** * Dwt: the Haar wavelet transform and the quantisation

    [dwt.c]: the transform in place, its inverse, quantisation with threshold,
    and the inverse quantisation. Every value these functions store has gone
    through [round], or is a sum, a difference or a product of whole numbers:
    on whole-number input the [float] arrays hold whole numbers. They are
    modelled as [Z], and a result beyond the 2^24 up to which a [float] holds
    every whole number is [None]; the theorems show that this does not occur. *)

From S2P Require Import Prelude.
From Stdlib Require Import ZArith Lia ZifyBool List Bool.
From stdpp Require Import base list numbers option.
Open Scope Z_scope.

Definition DWT_LEVELS : Z := 5.
Definition DWT_QUANT_THRESHOLD : Z := 200.
Definition DWT_QUANT_STEP : Z := 5.

(** ** Arithmetic *)

(** A whole number as a [float]. *)
Definition float (x : Z) : option Z := if Z.abs x <=? 2 ^ 24 then Some x else None.

(** [round(s / 2.0f)]: halves are rounded away from zero. *)
Definition round_half (s : Z) : Z := Z.sgn s * ((Z.abs s + 1) / 2).

(** The quotient of two positive whole numbers as a [float]: 24 bits, ties to
    even; the result is [m / 2 ^ s]. *)
Definition float_quotient (a q : Z) : Z * Z :=
  let s0 := 23 + Z.log2 q - Z.log2 a in
  let s := if a * 2 ^ s0 <? 2 ^ 23 * q then s0 + 1 else s0 in
  let d := a * 2 ^ s / q in
  let r := (a * 2 ^ s) mod q in
  (if (2 * r <? q) || ((2 * r =? q) && Z.even d) then d else d + 1, s).

(** [round(x / q)] *)
Definition round_quotient (x q : Z) : Z :=
  if x =? 0 then 0
  else let (m, s) := float_quotient (Z.abs x) q in Z.sgn x * ((2 * m + 2 ^ s) / 2 ^ (s + 1)).

(** ** Arrays *)

(** [data[i]] *)
Definition get (data : list Z) (i : Z) : option Z := if i <? 0 then None else data !! Z.to_nat i.
Definition set (data : list Z) (i v : Z) : option (list Z) :=
  if (0 <=? i) && (i <? Z.of_nat (length data)) then Some (<[Z.to_nat i := v]> data) else None.

(** [memmove(&data[dst], &data[src], n * sizeof(data[0]))] *)
Definition memmove (data : list Z) (dst src n : Z) : option (list Z) :=
  if (0 <=? dst) && (0 <=? src) && (0 <=? n) && (src + n <=? Z.of_nat (length data))
     && (dst + n <=? Z.of_nat (length data))
  then Some (take (Z.to_nat dst) data ++ take (Z.to_nat n) (drop (Z.to_nat src) data)
             ++ drop (Z.to_nat (dst + n)) data)
  else None.

(** ** [haar_transform] *)

(** The body of the inner loop, for the pair at [i]. *)
Definition haar_pair (data : list Z) (i : Z) : option (list Z) :=
  a ← get data i;
  b ← get data (i + 1);
  s ← float (a + b);
  d ← float (a - b);
  data ← memmove data (i / 2 + 1) (i / 2) (i / 2);
  data ← set data (i / 2) (round_half s);
  set data (i + 1) (round_half d).

(** The inner loop; an odd number of values leaves the last one alone. *)
Fixpoint haar_loop (fuel : nat) (i current_n : Z) (data : list Z) : option (list Z) :=
  if (if Z.land current_n 0x01 =? 1 then i + 1 <? current_n else i <? current_n)
  then
    match fuel with
    | O => None
    | S fuel => data ← haar_pair data i; haar_loop fuel (i + 2) current_n data
    end
  else Some data.

(** The outer loop, from level [l], [k] levels to go. The shift is undefined
    from 31 on. *)
Fixpoint haar_levels (k : nat) (l : Z) (data : list Z) (n : Z) : option (list Z) :=
  match k with
  | O => Some data
  | S k =>
      if 31 <=? l then None
      else
        let step := Z.shiftl 1 l in
        let current_n := n / step in
        if current_n <? 2 then Some data
        else
          data ← haar_loop (Z.to_nat current_n) 0 current_n data;
          haar_levels k (l + 1) data n
  end.

Definition haar_transform (data : list Z) (n levels : Z) : option (list Z) :=
  haar_levels (Z.to_nat levels) 0 data n.

(** ** [inverse_haar_transform] *)

(** The body of the inner loop. *)
Definition inverse_pair (coeffs : list Z) (i current_n : Z) : option (list Z) :=
  a ← get coeffs (i * 2);
  d ← get coeffs (i + current_n / 2);
  coeffs ← memmove coeffs (i * 2 + 2) (i * 2 + 1) (current_n / 2 - i - 1);
  s ← float (a + d);
  coeffs ← set coeffs (i * 2) s;
  t ← float (a - d);
  set coeffs (i * 2 + 1) t.

(** The inner loop from [i], [k] rounds to go. *)
Fixpoint inverse_loop (k : nat) (i current_n : Z) (coeffs : list Z) : option (list Z) :=
  match k with
  | O => Some coeffs
  | S k => coeffs ← inverse_pair coeffs i current_n; inverse_loop k (i + 1) current_n coeffs
  end.

(** The outer loop, from level [k - 1] down to 0; a level with fewer than two
    values ends it. *)
Fixpoint inverse_levels (k : nat) (coeffs : list Z) (n : Z) : option (list Z) :=
  match k with
  | O => Some coeffs
  | S k =>
      if 31 <=? Z.of_nat k then None
      else
        let step := Z.shiftl 1 (Z.of_nat k) in
        let current_n := n / step in
        if current_n <? 2 then Some coeffs
        else
          coeffs ← inverse_loop (Z.to_nat (current_n / 2)) 0 current_n coeffs;
          inverse_levels k coeffs n
  end.

Definition inverse_haar_transform (coeffs : list Z) (n levels : Z) : option (list Z) :=
  inverse_levels (Z.to_nat levels) coeffs n.

(** ** Quantisation *)

(** A loop over [i], ..., [i + k - 1] that replaces each value. *)
Fixpoint for_each (k : nat) (i : Z) (f : Z -> option Z) (data : list Z) : option (list Z) :=
  match k with
  | O => Some data
  | S k => x ← get data i; y ← f x; data ← set data i y; for_each k (i + 1) f data
  end.

Definition quantize_and_threshold (coeffs : list Z) (n threshold quant_step : Z) : option (list Z) :=
  let i := n / Z.shiftl 1 DWT_LEVELS in
  coeffs ← for_each (Z.to_nat (n - i)) i
             (fun x => Some (if Z.abs x <? threshold then 0 else x)) coeffs;
  for_each (Z.to_nat n) 0 (fun x => Some (round_quotient x quant_step)) coeffs.

Definition inverse_quantize (decoded_coeffs : list Z) (n quant_step : Z) : option (list Z) :=
  for_each (Z.to_nat n) 0 (fun x => float (x * quant_step)) decoded_coeffs.

(** ** Access lemmas *)

(** A position written as the length of what precedes it. *)
Lemma get_here (l : list Z) x r i : i = Z.of_nat (length l) -> get (l ++ x :: r) i = Some x.
Proof.
  intros ->. unfold get. rewrite (proj2 (Z.ltb_ge _ _)), Nat2Z.id by lia.
  by rewrite lookup_app_r, Nat.sub_diag by lia.
Qed.

Lemma set_here (l : list Z) x r i v : i = Z.of_nat (length l) -> set (l ++ x :: r) i v = Some (l ++ v :: r).
Proof.
  intros ->. unfold set. rewrite (proj2 (Z.leb_le _ _)), (proj2 (Z.ltb_lt _ _)) by (rewrite ?length_app; simpl; lia).
  cbn [andb]. by rewrite Nat2Z.id, insert_app_here.
Qed.

(** Moving the block [m] onto what follows [l]. *)
Lemma memmove_eq data dst src n : 0 <= dst -> 0 <= src -> 0 <= n ->
  src + n <= Z.of_nat (length data) -> dst + n <= Z.of_nat (length data) ->
  memmove data dst src n = Some (take (Z.to_nat dst) data ++ take (Z.to_nat n) (drop (Z.to_nat src) data)
    ++ drop (Z.to_nat (dst + n)) data).
Proof. intros. unfold memmove. by rewrite !(proj2 (Z.leb_le _ _)) by done. Qed.

Lemma float_id x : Z.abs x <= 2 ^ 24 -> float x = Some x.
Proof. intros H. unfold float. by rewrite (proj2 (Z.leb_le _ _) H). Qed.

Lemma round_half_range s m : Z.abs s <= 2 * m -> Z.abs (round_half s) <= m.
Proof. unfold round_half. intros H. destruct (Z.sgn_spec s) as [(?&->)|[(?&->)|(?&->)]]; Z.div_mod_to_equations; lia. Qed.

(** A sum and a difference give the two values back up to one. *)
Lemma round_half_pair a b :
  Z.abs (round_half (a + b) + round_half (a - b) - a) <= 1 /\
  Z.abs (round_half (a + b) - round_half (a - b) - b) <= 1.
Proof.
  unfold round_half.
  destruct (Z.sgn_spec (a + b)) as [(?&->)|[(?&->)|(?&->)]];
    destruct (Z.sgn_spec (a - b)) as [(?&->)|[(?&->)|(?&->)]]; Z.div_mod_to_equations; lia.
Qed.

(** ** What one level of the transform computes *)

(** The approximations and the details of the pairs, and the value without a
    partner. *)
Fixpoint averages (xs : list Z) : list Z :=
  match xs with a :: b :: xs => round_half (a + b) :: averages xs | _ => [] end.
Fixpoint details (xs : list Z) : list Z :=
  match xs with a :: b :: xs => round_half (a - b) :: details xs | _ => [] end.
Fixpoint unpaired (xs : list Z) : list Z :=
  match xs with _ :: _ :: xs => unpaired xs | xs => xs end.

Lemma pair_ind (P : list Z -> Prop) :
  P [] -> (forall x, P [x]) -> (forall a b xs, P xs -> P (a :: b :: xs)) -> forall xs, P xs.
Proof.
  intros H0 H1 H2 xs. enough (P xs /\ forall x, P (x :: xs)) by tauto.
  induction xs as [|a xs [IH1 IH2]]; [done|]. split; [apply IH2|]. intros x. by apply H2.
Qed.

Lemma length_averages xs : length (averages xs) = (length xs / 2)%nat.
Proof.
  induction xs as [|x|a b xs IH] using pair_ind; [done|done|]. cbn [averages length]. rewrite IH.
  replace (S (S (length xs))) with (length xs + 1 * 2)%nat by lia. rewrite Nat.div_add by lia. lia.
Qed.
Lemma length_details xs : length (details xs) = (length xs / 2)%nat.
Proof. rewrite <- length_averages. induction xs using pair_ind; [done|done|]. cbn [details averages length]. lia. Qed.
Lemma length_unpaired xs : length (unpaired xs) = (length xs mod 2)%nat.
Proof.
  induction xs as [|x|a b xs IH] using pair_ind; [done|done|]. cbn [unpaired length]. rewrite IH.
  replace (S (S (length xs))) with (length xs + 1 * 2)%nat by lia. by rewrite Nat.Div0.mod_add.
Qed.

Definition within (m : Z) (xs : list Z) : Prop := Forall (fun x => Z.abs x <= m) xs.

Lemma averages_within m xs : within m xs -> within m (averages xs).
Proof.
  unfold within. induction xs as [|x|a b xs IH] using pair_ind; intros H; [constructor|constructor|].
  do 2 (apply Forall_cons_iff in H as [? H]). constructor; [|by apply IH]. apply round_half_range. lia.
Qed.
Lemma details_within m xs : within m xs -> within m (details xs).
Proof.
  unfold within. induction xs as [|x|a b xs IH] using pair_ind; intros H; [constructor|constructor|].
  do 2 (apply Forall_cons_iff in H as [? H]). constructor; [|by apply IH]. apply round_half_range. lia.
Qed.
Lemma unpaired_within m xs : within m xs -> within m (unpaired xs).
Proof.
  unfold within. induction xs as [|x|a b xs IH] using pair_ind; intros H; [done|done|].
  do 2 (apply Forall_cons_iff in H as [? H]). by apply IH.
Qed.

(** The body of the loop, with the values before [i] already split. *)
Lemma haar_pair_eq As Ds a b rest m : length As = length Ds -> Z.abs a <= m -> Z.abs b <= m -> m <= 2 ^ 23 ->
  haar_pair (As ++ Ds ++ a :: b :: rest) (2 * Z.of_nat (length As)) =
  Some ((As ++ [round_half (a + b)]) ++ (Ds ++ [round_half (a - b)]) ++ rest).
Proof.
  intros HD Ha Hb Hm. set (data := As ++ Ds ++ a :: b :: rest). set (j := Z.of_nat (length As)).
  assert (Hj : 2 * j / 2 = j) by (rewrite Z.mul_comm; apply Z.div_mul; lia).
  unfold haar_pair. rewrite Hj.
  assert (get data (2 * j) = Some a) as ->.
  { unfold data. rewrite app_assoc. apply get_here. rewrite length_app. lia. }
  assert (get data (2 * j + 1) = Some b) as ->.
  { unfold data. change (a :: b :: rest) with ([a] ++ b :: rest). rewrite !app_assoc. apply get_here.
    rewrite !length_app. cbn [length]. lia. }
  cbn [mbind option_bind]. rewrite !float_id by lia. cbn [mbind option_bind].
  assert (memmove data (j + 1) j j = Some (As ++ hd a Ds :: Ds ++ b :: rest)) as ->.
  { rewrite memmove_eq by (unfold data, j; rewrite ?length_app; cbn [length]; lia).
    unfold data, j. replace (Z.to_nat (Z.of_nat (length As) + 1)) with (length As + 1)%nat by lia.
    replace (Z.to_nat (Z.of_nat (length As) + 1 + Z.of_nat (length As)))
      with (length As + (length Ds + 1))%nat by lia.
    rewrite Nat2Z.id, take_app_add, !drop_app_add, drop_app_length, HD, take_app_length.
    rewrite <- app_assoc. destruct Ds; [done|]. cbn [hd app take]. by rewrite take_0. }
  cbn [mbind option_bind]. rewrite (set_here As (hd a Ds)) by done. cbn [mbind option_bind].
  change (round_half (a + b) :: Ds ++ b :: rest) with ([round_half (a + b)] ++ Ds ++ b :: rest).
  rewrite !app_assoc. rewrite set_here by (rewrite !length_app; cbn [length]; lia).
  by rewrite <- !app_assoc.
Qed.

Lemma land1 x : Z.land x 0x01 = x mod 2.
Proof. change 0x01 with (Z.ones 1). by rewrite Z.land_ones by lia. Qed.

Lemma haar_loop_eq m xs : m <= 2 ^ 23 -> forall fuel As Ds rest cur, length As = length Ds -> within m xs ->
  cur = 2 * Z.of_nat (length As) + Z.of_nat (length xs) -> (length xs <= fuel)%nat ->
  haar_loop fuel (2 * Z.of_nat (length As)) cur (As ++ Ds ++ xs ++ rest) =
  Some (As ++ averages xs ++ Ds ++ details xs ++ unpaired xs ++ rest).
Proof.
  intros Hm. induction xs as [|x|a b xs IH] using pair_ind; intros fuel As Ds rest cur HD Hw Hc Hf;
    cbn [length] in *; destruct fuel as [|fuel]; cbn [haar_loop]; rewrite land1; try lia.
  1, 2: replace (cur mod 2 =? 1) with false by (Z.div_mod_to_equations; lia);
    by rewrite (proj2 (Z.ltb_ge _ _)) by lia.
  { replace (cur mod 2 =? 1) with true by (Z.div_mod_to_equations; lia). by rewrite (proj2 (Z.ltb_ge _ _)) by lia. }
  replace (if cur mod 2 =? 1 then _ else _) with true by (case_match; lia).
  do 2 (apply Forall_cons_iff in Hw as [? Hw]). cbn [app].
  rewrite (haar_pair_eq As Ds a b (xs ++ rest) m) by done. cbn [mbind option_bind].
  replace (2 * Z.of_nat (length As) + 2) with (2 * Z.of_nat (length (As ++ [round_half (a + b)])))
    by (rewrite length_app; cbn [length]; lia).
  rewrite IH; [|by rewrite !length_app, HD|done|rewrite length_app; cbn [length]; lia|lia].
  cbn [averages details unpaired]. by rewrite <- !app_assoc.
Qed.

(** ** The whole transform *)

Fixpoint haar_spec (k : nat) (xs : list Z) : list Z :=
  match k with
  | O => xs
  | S k => if (length xs <? 2)%nat then xs
           else haar_spec k (averages xs) ++ details xs ++ unpaired xs
  end.

Lemma length_haar_spec k xs : length (haar_spec k xs) = length xs.
Proof.
  revert xs. induction k as [|k IH]; intros xs; [done|]. cbn [haar_spec]. case_match; [done|].
  rewrite !length_app, IH, length_averages, length_details, length_unpaired.
  pose proof (Nat.div_mod_eq (length xs) 2). lia.
Qed.

Lemma haar_spec_within m k xs : within m xs -> within m (haar_spec k xs).
Proof.
  revert xs. induction k as [|k IH]; intros xs H; [done|]. cbn [haar_spec]. case_match; [done|].
  unfold within in *. rewrite !list.Forall_app.
  split; [by apply IH, averages_within|]. split; [by apply details_within|by apply unpaired_within].
Qed.

(** The values at level [l] of [n] are [n / 2 ^ l]; the next level has half. *)
Lemma level_half n l : 0 <= l -> n / Z.shiftl 1 (l + 1) = (n / Z.shiftl 1 l) / 2.
Proof.
  intros Hl. rewrite !Z.shiftl_1_l, Z.pow_add_r by lia. change (2 ^ 1) with 2.
  by rewrite Z.div_div by lia.
Qed.

Lemma haar_levels_eq m k : m <= 2 ^ 23 -> forall l xs rest n, within m xs -> 0 <= l -> l + Z.of_nat k <= 31 ->
  Z.of_nat (length xs) = n / Z.shiftl 1 l ->
  haar_levels k l (xs ++ rest) n = Some (haar_spec k xs ++ rest).
Proof.
  intros Hm. induction k as [|k IH]; intros l xs rest n Hw Hl Hk Hn; [done|].
  cbn [haar_levels haar_spec]. rewrite (proj2 (Z.leb_gt _ _)) by lia. rewrite <- Hn.
  replace (Z.of_nat (length xs) <? 2) with (length xs <? 2)%nat by lia. case_match eqn:E; [done|].
  pose proof (haar_loop_eq m xs Hm (Z.to_nat (Z.of_nat (length xs))) [] [] rest (Z.of_nat (length xs))) as Hloop.
  cbn [length app] in Hloop. change (2 * Z.of_nat 0) with 0 in Hloop. rewrite Hloop by (done || lia). cbn [mbind option_bind].
  rewrite IH; [by rewrite <- !app_assoc|by apply averages_within|lia|lia|].
  rewrite level_half, <- Hn, length_averages by done. rewrite Nat2Z.inj_div. done.
Qed.

Lemma haar_transform_eq m xs levels : within m xs -> m <= 2 ^ 23 -> 0 <= levels <= 31 ->
  haar_transform xs (Z.of_nat (length xs)) levels = Some (haar_spec (Z.to_nat levels) xs).
Proof.
  intros Hw Hm Hl. unfold haar_transform. rewrite <- (app_nil_r xs) at 1.
  rewrite (haar_levels_eq m); [by rewrite app_nil_r|done|done|lia|lia|].
  change (Z.shiftl 1 0) with 1. by rewrite Z.div_1_r.
Qed.

(** ** What one level of the inverse computes *)

Fixpoint unpairs (As Ds : list Z) : list Z :=
  match As, Ds with
  | a :: As, d :: Ds => a + d :: a - d :: unpairs As Ds
  | _, _ => []
  end.

Lemma length_unpairs As Ds : length As = length Ds -> length (unpairs As Ds) = (2 * length As)%nat.
Proof. revert Ds. induction As as [|a As IH]; intros [|d Ds] H; try done. cbn [unpairs length] in *. rewrite IH; lia. Qed.

Lemma unpairs_within ma md As Ds : within ma As -> within md Ds -> within (ma + md) (unpairs As Ds).
Proof.
  unfold within. intros HA. revert Ds. induction HA as [|a As Ha _ IH]; intros Ds HD; [by destruct Ds|].
  destruct HD as [|d Ds Hd HD]; [constructor|]. cbn [unpairs]. do 2 (constructor; [lia|]). by apply IH.
Qed.

(** The body of the loop: the pair [a], [d] is put behind the values [Os]
    that are done. *)
Lemma inverse_pair_eq Os a As d Ds rest i cur :
  length Os = Z.to_nat (2 * i) -> 0 <= i -> length As = length Ds ->
  cur / 2 = i + Z.of_nat (S (length As)) -> Z.abs a + Z.abs d <= 2 ^ 24 ->
  inverse_pair (Os ++ (a :: As) ++ (d :: Ds) ++ rest) i cur =
  Some ((Os ++ [a + d; a - d]) ++ As ++ Ds ++ rest).
Proof.
  intros HO Hi HD Hc Hb. unfold inverse_pair. rewrite Hc. set (data := Os ++ (a :: As) ++ (d :: Ds) ++ rest).
  assert (get data (i * 2) = Some a) as ->.
  { unfold data. cbn [app]. apply get_here. lia. }
  assert (get data (i + (i + Z.of_nat (S (length As)))) = Some d) as ->.
  { unfold data. cbn [app]. rewrite app_comm_cons, app_assoc. apply get_here. rewrite length_app. cbn [length]. lia. }
  cbn [mbind option_bind].
  assert (memmove data (i * 2 + 2) (i * 2 + 1) (i + Z.of_nat (S (length As)) - i - 1) =
    Some (Os ++ a :: hd d As :: As ++ Ds ++ rest)) as ->.
  { rewrite memmove_eq by (unfold data; rewrite ?length_app; cbn [length]; lia).
    replace (Z.to_nat (i * 2 + 2)) with (length Os + 2)%nat by lia.
    replace (Z.to_nat (i * 2 + 1)) with (length Os + 1)%nat by lia.
    replace (Z.to_nat (i + Z.of_nat (S (length As)) - i - 1)) with (length As) by lia.
    replace (Z.to_nat (i * 2 + 2 + (i + Z.of_nat (S (length As)) - i - 1)))
      with (length Os + (S (length As) + 1))%nat by lia.
    unfold data. rewrite take_app_add, !drop_app_add.
    change ((a :: As) ++ (d :: Ds) ++ rest) with ((a :: As) ++ d :: Ds ++ rest).
    rewrite (drop_app_add (a :: As) _ 1). cbn [app]. rewrite !skipn_cons, !drop_0, take_app_length.
    rewrite <- app_assoc. destruct As; cbn [hd app firstn]; by rewrite ?take_0. }
  cbn [mbind option_bind]. rewrite !float_id by lia. cbn [mbind option_bind].
  rewrite (set_here Os a) by lia. cbn [mbind option_bind].
  change (a + d :: hd d As :: As ++ Ds ++ rest) with ([a + d] ++ hd d As :: As ++ Ds ++ rest).
  rewrite app_assoc, set_here by (rewrite length_app; cbn [length]; lia). by rewrite <- !app_assoc.
Qed.

Lemma inverse_loop_eq As : forall Os Ds rest i cur m, within m As -> within m Ds -> m <= 2 ^ 23 ->
  length Os = Z.to_nat (2 * i) -> 0 <= i -> length As = length Ds -> cur / 2 = i + Z.of_nat (length As) ->
  inverse_loop (length As) i cur (Os ++ As ++ Ds ++ rest) = Some (Os ++ unpairs As Ds ++ rest).
Proof.
  induction As as [|a As IH]; intros Os [|d Ds] rest i cur m HA HDs Hm HO Hi HD Hc; try done.
  apply Forall_cons_iff in HA as [Ha HA], HDs as [Hd HDs]. cbn [length inverse_loop] in *.
  rewrite inverse_pair_eq by (lia || done). cbn [mbind option_bind unpairs].
  rewrite (IH _ _ _ (i + 1) cur m); try done; [by rewrite <- !app_assoc| |lia|lia|lia].
  rewrite length_app. cbn [length]. lia.
Qed.

(** ** The whole inverse *)

Fixpoint inverse_spec (k : nat) (cs : list Z) : list Z :=
  match k with
  | O => cs
  | S k =>
      let h := (length cs / 2)%nat in
      unpairs (inverse_spec k (take h cs)) (take h (drop h cs)) ++ drop (2 * h) cs
  end.

Lemma half_le n : (2 * (n / 2) <= n)%nat.
Proof. apply Nat.Div0.mul_div_le. Qed.

Lemma length_inverse_spec k cs : length (inverse_spec k cs) = length cs.
Proof.
  revert cs. induction k as [|k IH]; intros cs; [done|]. cbn [inverse_spec].
  pose proof (half_le (length cs)). set (h := (length cs / 2)%nat) in *.
  rewrite length_app, length_drop, length_unpairs; rewrite IH, ?length_take, ?length_drop; lia.
Qed.

Lemma inverse_spec_within m k cs : 0 <= m -> within m cs -> within (m * (Z.of_nat k + 1)) (inverse_spec k cs).
Proof.
  intros Hm. revert cs. induction k as [|k IH]; intros cs H.
  { cbn [inverse_spec]. eapply list.Forall_impl; [exact H|]. simpl. lia. }
  cbn [inverse_spec]. unfold within. apply list.Forall_app. split.
  - replace (m * (Z.of_nat (S k) + 1)) with (m * (Z.of_nat k + 1) + m) by lia.
    apply unpairs_within; [by apply IH, Forall_take|by apply Forall_take, Forall_drop].
  - eapply list.Forall_impl; [by apply Forall_drop|]. cbv beta. nia.
Qed.

Lemma inverse_levels_unfold k cs n : Z.of_nat k < 31 ->
  inverse_levels (S k) cs n =
  if n / 2 ^ Z.of_nat k <? 2 then Some cs
  else cs ← inverse_loop (Z.to_nat (n / 2 ^ Z.of_nat k / 2)) 0 (n / 2 ^ Z.of_nat k) cs;
       inverse_levels k cs n.
Proof. intros Hk. cbn [inverse_levels]. by rewrite (proj2 (Z.leb_gt _ _)), Z.shiftl_1_l by lia. Qed.

(** One more level at the bottom: the inverse of half of the values, then the
    loop over all of them. *)
Lemma inverse_levels_S k cs n : 0 <= n -> 2 <= n / 2 ^ Z.of_nat k -> Z.of_nat k < 31 ->
  inverse_levels (S k) cs n =
  (cs ← inverse_levels k cs (n / 2); inverse_loop (Z.to_nat (n / 2)) 0 n cs).
Proof.
  intros Hn. revert cs. induction k as [|k IH]; intros cs Hk H31.
  { change (2 ^ Z.of_nat 0) with 1 in Hk. rewrite Z.div_1_r in Hk. rewrite inverse_levels_unfold by done.
    change (2 ^ Z.of_nat 0) with 1. rewrite Z.div_1_r, (proj2 (Z.ltb_ge _ _)) by lia.
    cbn [inverse_levels mbind option_bind]. by destruct (inverse_loop _ _ _ _). }
  assert (Hhalf : n / 2 / 2 ^ Z.of_nat k = n / 2 ^ Z.of_nat (S k)).
  { rewrite Z.div_div, <- Z.pow_succ_r by lia. do 2 f_equal. lia. }
  assert (Hk' : 2 <= n / 2 ^ Z.of_nat k).
  { etransitivity; [exact Hk|]. apply Z.div_le_compat_l; [lia|]. split; [lia|]. apply Z.pow_le_mono_r; lia. }
  rewrite (inverse_levels_unfold (S k)), (inverse_levels_unfold k cs (n / 2)), Hhalf by lia.
  rewrite (proj2 (Z.ltb_ge _ _)) by lia.
  destruct (inverse_loop _ _ _ cs) as [cs'|]; cbn [mbind option_bind]; [|done]. apply IH; [done|lia].
Qed.

Lemma inverse_levels_eq m k : forall cs rest, within m cs -> 0 <= m -> m * (Z.of_nat k + 1) <= 2 ^ 23 ->
  Z.of_nat k <= 31 -> 2 ^ Z.of_nat k <= Z.of_nat (length cs) ->
  inverse_levels k (cs ++ rest) (Z.of_nat (length cs)) = Some (inverse_spec k cs ++ rest).
Proof.
  induction k as [|k IH]; intros cs rest Hw Hm Hb H31 Hl; [done|].
  set (n := Z.of_nat (length cs)) in *. set (h := (length cs / 2)%nat).
  assert (Hpow : 2 ^ Z.of_nat (S k) = 2 * 2 ^ Z.of_nat k) by (rewrite <- Z.pow_succ_r by lia; f_equal; lia).
  assert (0 < 2 ^ Z.of_nat k) by (apply Z.pow_pos_nonneg; lia).
  assert (Hh : n / 2 = Z.of_nat h) by (unfold n, h; by rewrite Nat2Z.inj_div).
  assert (Hh2 : (2 * h <= length cs)%nat) by apply half_le.
  rewrite inverse_levels_S; [|lia|apply Z.div_le_lower_bound; lia|lia].
  assert (Hsplit : cs ++ rest = take h cs ++ drop h cs ++ rest) by by rewrite app_assoc, take_drop.
  assert (Htake : length (take h cs) = h) by (rewrite length_take; lia).
  pose proof (IH (take h cs) (drop h cs ++ rest)) as IH'. rewrite Htake, <- Hsplit, <- Hh in IH'.
  rewrite IH'; [|by apply Forall_take|done|nia|lia|Z.div_mod_to_equations; lia].
  cbn [mbind option_bind]. rewrite Hh, Nat2Z.id.
  assert (Hd : drop h cs = take h (drop h cs) ++ drop (2 * h) cs).
  { rewrite <- (take_drop h (drop h cs)) at 1. by rewrite drop_drop, Nat.add_0_r || rewrite drop_drop; do 2 f_equal; lia. }
  cbn [inverse_spec]. fold h. rewrite Hd at 1. rewrite <- !app_assoc.
  pose proof (inverse_loop_eq (inverse_spec k (take h cs)) [] (take h (drop h cs)) (drop (2 * h) cs ++ rest) 0 n
    (m * (Z.of_nat k + 1))) as Hloop. rewrite length_inverse_spec, Htake in Hloop. cbn [app] in Hloop.
  apply Hloop; try done.
  - by apply inverse_spec_within, Forall_take.
  - eapply list.Forall_impl; [by apply Forall_take, Forall_drop|]. cbv beta. nia.
  - nia.
  - rewrite length_take, length_drop. lia.
Qed.

Lemma inverse_haar_transform_eq m cs levels : within m cs -> 0 <= m -> m * (levels + 1) <= 2 ^ 23 ->
  0 <= levels <= 31 -> 2 ^ levels <= Z.of_nat (length cs) ->
  inverse_haar_transform cs (Z.of_nat (length cs)) levels = Some (inverse_spec (Z.to_nat levels) cs).
Proof.
  intros Hw Hm Hb Hl Hn. unfold inverse_haar_transform. rewrite <- (app_nil_r cs) at 1.
  rewrite (inverse_levels_eq m); [by rewrite app_nil_r|done|done|rewrite Z2Nat.id; lia|lia|rewrite Z2Nat.id; lia].
Qed.

(** ** How far the inverse is from the original *)

Definition near (e x y : Z) : Prop := Z.abs (x - y) <= e.

(** The first [p] coefficients (the approximations) lie within [ea], the
    others within [ed]. *)
Definition close (p : nat) (ea ed : Z) (cs ys : list Z) : Prop :=
  Forall2 (near ea) (take p cs) (take p ys) /\ Forall2 (near ed) (drop p cs) (drop p ys).

Lemma near_mono e e' cs ys : e <= e' -> Forall2 (near e) cs ys -> Forall2 (near e') cs ys.
Proof. intros He. apply Forall2_impl. unfold near. lia. Qed.

Lemma unpairs_near ea ed As Ds xs :
  Forall2 (near ea) As (averages xs) -> Forall2 (near ed) Ds (details xs) ->
  Forall2 (near (ea + ed + 1)) (unpairs As Ds) (take (2 * length As) xs).
Proof.
  revert As Ds. induction xs as [|x|a b xs IH] using pair_ind; intros As Ds HA HD;
    cbn [averages details] in *; [by inversion HA; constructor|by inversion HA; constructor|].
  inversion HA as [|c ? As' ? Hc HA']. inversion HD as [|d ? Ds' ? Hd HD']. subst.
  cbn [unpairs length]. replace (2 * S (length As'))%nat with (S (S (2 * length As'))) by lia. cbn [firstn].
  pose proof (round_half_pair a b) as [H1 H2]. unfold near in *.
  constructor; [lia|]. constructor; [lia|]. by apply IH.
Qed.

Lemma close_split p h ea ed cs ys : (p <= h)%nat -> close p ea ed cs ys ->
  close p ea ed (take h cs) (take h ys) /\ Forall2 (near ed) (drop h cs) (drop h ys).
Proof.
  intros Hp [HA HD]. unfold close. rewrite !take_take, !skipn_firstn_comm, !(Nat.min_l p h) by done. split.
  - split; [done|]. by apply Forall2_take.
  - replace h with (p + (h - p))%nat by lia. rewrite <- !drop_drop. by apply Forall2_drop.
Qed.

Lemma drop_unpaired xs : drop (2 * (length xs / 2)) xs = unpaired xs.
Proof.
  induction xs as [|x|a b xs IH] using pair_ind; [done|done|]. cbn [length unpaired].
  replace (S (S (length xs))) with (length xs + 1 * 2)%nat by lia. rewrite Nat.div_add by lia.
  by replace (2 * (length xs / 2 + 1))%nat with (S (S (2 * (length xs / 2)))) by lia.
Qed.

(** Each level adds the error of its details and the rounding of one sum. *)
Lemma inverse_spec_near k ea ed : 0 <= ea -> 0 <= ed -> forall cs xs, (2 ^ k <= length xs)%nat ->
  close (length xs / 2 ^ k) ea ed cs (haar_spec k xs) ->
  Forall2 (near (ea + Z.of_nat k * (ed + 1))) (inverse_spec k cs) xs.
Proof.
  intros Hea Hed. induction k as [|k IH]; intros cs xs Hn Hc.
  { destruct Hc as [HA HD]. cbn [haar_spec inverse_spec] in *. change (2 ^ 0)%nat with 1%nat in *.
    rewrite !Nat.div_1_r in HA, HD. rewrite (drop_ge xs) in HD by lia. rewrite (take_ge xs) in HA by lia.
    apply Forall2_nil_inv_r in HD. rewrite <- (take_drop (length xs) cs), HD, app_nil_r.
    eapply near_mono; [|exact HA]. lia. }
  rewrite Nat.pow_succ_r' in *. pose proof (half_le (length xs)) as Hhalf.
  set (h := (length xs / 2)%nat) in *. set (p := (length xs / (2 * 2 ^ k))%nat) in *.
  assert (Hp : p = (h / 2 ^ k)%nat) by (unfold p, h; by rewrite Nat.Div0.div_div).
  assert (Hpow : (0 < 2 ^ k)%nat) by (apply Nat.neq_0_lt_0, Nat.pow_nonzero; lia).
  assert (Hph : (p <= h)%nat) by (rewrite Hp; apply Nat.Div0.div_le_upper_bound; nia).
  assert (Hkh : (2 ^ k <= h)%nat) by (unfold h; apply Nat.div_le_lower_bound; lia).
  pose proof (length_averages xs) as Hla. fold h in Hla.
  assert (Hlen : length cs = length xs).
  { destruct Hc as [HA HD]. apply Forall2_length in HA, HD. rewrite !length_take, !length_drop, length_haar_spec in *. lia. }
  cbn [haar_spec] in Hc. rewrite (proj2 (Nat.ltb_ge _ _)) in Hc by lia.
  destruct (close_split p h ea ed cs _ Hph Hc) as [Htop Hrest].
  rewrite take_app_length' in Htop by by rewrite length_haar_spec, Hla.
  rewrite drop_app_length' in Hrest by by rewrite length_haar_spec, Hla.
  cbn [inverse_spec]. rewrite Hlen. fold h. rewrite <- (take_drop (2 * h) xs).
  pose proof (unpairs_near (ea + Z.of_nat k * (ed + 1)) ed (inverse_spec k (take h cs)) (take h (drop h cs)) xs) as Hup.
  rewrite length_inverse_spec, length_take, Nat.min_l in Hup by lia.
  apply Forall2_app.
  - eapply near_mono; [|apply Hup]; [lia| |].
    + by apply IH; [rewrite Hla|rewrite Hla, <- Hp].
    + pose proof (Forall2_take _ _ _ h Hrest) as H.
      by rewrite take_app_length' in H by by rewrite length_details, <- length_averages.
  - pose proof (Forall2_drop _ _ _ h Hrest) as H.
    rewrite drop_app_length', drop_drop in H by by rewrite length_details, <- length_averages.
    rewrite (drop_unpaired xs : drop (2 * h) xs = _). replace (2 * h)%nat with (h + h)%nat by lia.
    eapply near_mono; [|exact H]. lia.
Qed.

(** ** Quantisation *)

Lemma for_each_eq f mid ys : Forall2 (fun x y => f x = Some y) mid ys -> forall pre post,
  for_each (length mid) (Z.of_nat (length pre)) f (pre ++ mid ++ post) = Some (pre ++ ys ++ post).
Proof.
  induction 1 as [|x y mid ys Hxy _ IH]; intros pre post; [done|]. cbn [length for_each app].
  rewrite get_here by done. cbn [mbind option_bind]. rewrite Hxy. cbn [mbind option_bind].
  rewrite set_here by done. cbn [mbind option_bind]. specialize (IH (pre ++ [y]) post).
  rewrite length_app, <- !app_assoc in IH. cbn [length app] in IH.
  by replace (Z.of_nat (length pre) + 1) with (Z.of_nat (length pre + 1)) by lia.
Qed.

Lemma for_each_map f g (i : nat) xs n : (forall x, x ∈ drop i xs -> f x = Some (g x)) -> (i <= length xs)%nat ->
  n = (length xs - i)%nat ->
  for_each n (Z.of_nat i) f xs = Some (take i xs ++ map g (drop i xs)).
Proof.
  intros Hf Hi ->.
  assert (HF : Forall2 (fun x y => f x = Some y) (drop i xs) (map g (drop i xs))).
  { clear Hi. induction (drop i xs) as [|x l IH]; constructor; [apply Hf; left|].
    apply IH. intros y Hy. apply Hf. by right. }
  pose proof (for_each_eq f _ _ HF (take i xs) []) as H.
  rewrite !app_nil_r, take_drop, length_take, length_drop, Nat.min_l in H by done. exact H.
Qed.

(** The quotient of the [float]s, rounded, is the rounded quotient. *)
Lemma round_quotient_5 x : Z.abs x <= 2 ^ 20 -> round_quotient x 5 = Z.sgn x * ((2 * Z.abs x + 5) / 10).
Proof.
  intros Hx. unfold round_quotient. destruct (Z.eqb_spec x 0) as [->|Hne]; [done|].
  assert (Ha : 0 < Z.abs x) by lia. revert Hx Ha. generalize (Z.abs x). intros a Hx Ha. f_equal.
  unfold float_quotient. pose proof (Z.log2_spec a Ha) as [Hlo Hhi]. pose proof (Z.log2_nonneg a) as Hl0.
  assert (Hl : Z.log2 a <= 20) by (apply Z.log2_le_mono in Hx; exact Hx).
  change (Z.log2 5) with 2. set (s0 := 23 + 2 - Z.log2 a). set (s := if _ <? _ then s0 + 1 else s0).
  assert (Hs : 3 <= s) by (unfold s, s0; case_match; lia).
  set (m := if _ || _ then _ else _). cbv zeta.
  assert (Hm : Z.abs (5 * m - a * 2 ^ s) * 2 <= 5).
  { unfold m. pose proof (Z.div_mod (a * 2 ^ s) 5 ltac:(lia)).
    pose proof (Z.mod_pos_bound (a * 2 ^ s) 5 ltac:(lia)).
    generalize dependent (a * 2 ^ s). intros N. generalize (N / 5), (N mod 5). intros d r Hd Hr. case_match; lia. }
  clearbody m s. clear s0 Hlo Hhi Hl Hl0. rewrite Z.pow_add_r by lia. change (2 ^ 1) with 2.
  assert (HT : 8 <= 2 ^ s) by (change 8 with (2 ^ 3); apply Z.pow_le_mono_r; lia).
  revert Hm HT. generalize (2 ^ s). intros T Hm HT.
  pose proof (Z.div_mod (2 * a + 5) 10 ltac:(lia)) as Hk.
  pose proof (Z.mod_pos_bound (2 * a + 5) 10 ltac:(lia)) as Hr.
  set (k := (2 * a + 5) / 10) in *. symmetry. apply (Z.div_unique_pos _ _ _ (2 * m + T - T * 2 * k)); [|lia].
  assert (Hlow : 5 * k - 2 <= a) by lia. assert (Hup : a <= 5 * k + 2) by lia.
  assert (5 * k * T - 2 * T <= a * T) by nia. assert (a * T <= 5 * k * T + 2 * T) by nia.
  nia.
Qed.

Definition threshold_at (threshold x : Z) : Z := if Z.abs x <? threshold then 0 else x.

Lemma quantize_eq cs threshold quant_step (p := (length cs / 32)%nat) :
  quantize_and_threshold cs (Z.of_nat (length cs)) threshold quant_step =
  Some (map (fun x => round_quotient x quant_step) (take p cs ++ map (threshold_at threshold) (drop p cs))).
Proof.
  unfold quantize_and_threshold. change (Z.shiftl 1 DWT_LEVELS) with (Z.of_nat 32).
  rewrite <- Nat2Z.inj_div. fold p. assert (Hp : (p <= length cs)%nat) by (apply Nat.Div0.div_le_upper_bound; lia).
  rewrite (for_each_map _ (threshold_at threshold)) by (done || lia). cbn [mbind option_bind].
  set (l := take p cs ++ _). assert (Hl : length l = length cs) by (unfold l; rewrite length_app, length_map, length_take, length_drop; lia).
  change 0 with (Z.of_nat 0). rewrite (for_each_map _ (fun x => round_quotient x quant_step)); [|done|lia|lia].
  by rewrite take_0, drop_0.
Qed.

Lemma inverse_quantize_eq m cs quant_step : within m cs -> m * Z.abs quant_step <= 2 ^ 24 -> 0 <= m ->
  inverse_quantize cs (Z.of_nat (length cs)) quant_step = Some (map (fun x => x * quant_step) cs).
Proof.
  intros Hw Hm Hm0. unfold inverse_quantize. change 0 with (Z.of_nat 0).
  rewrite (for_each_map _ (fun x => x * quant_step)); [by rewrite take_0, drop_0| |lia|lia].
  rewrite drop_0. intros x Hx. apply float_id. unfold within in Hw. rewrite Forall_forall in Hw.
  apply list_elem_of_In in Hx. specialize (Hw x Hx). rewrite Z.abs_mul. nia.
Qed.

(** ** The properties of the transform *)

(** C33: the transform computes the wavelet coefficients. For whole numbers of
    at most 2^23 and up to 31 levels the transform in place is defined (no
    access outside the array, every value exact) and yields the recursive Haar
    transform: the approximations of the last level, then level by level the
    details and the value that had no partner. No coefficient is larger than the
    largest sample. *)
Theorem haar_transform_correct m xs levels : within m xs -> m <= 2 ^ 23 -> 0 <= levels <= 31 ->
  haar_transform xs (Z.of_nat (length xs)) levels = Some (haar_spec (Z.to_nat levels) xs) /\
  length (haar_spec (Z.to_nat levels) xs) = length xs /\ within m (haar_spec (Z.to_nat levels) xs).
Proof.
  intros Hw Hm Hl. split; [by apply (haar_transform_eq m)|].
  split; [apply length_haar_spec|by apply haar_spec_within].
Qed.

Lemma haar_transform_correct_witness :
  haar_transform [10; 4; -3; 8; 1] 5 2 = Some (haar_spec 2 [10; 4; -3; 8; 1]) /\
  haar_spec 2 [10; 4; -3; 8; 1] = [5; 2; 3; -6; 1].
Proof.
  split; [|done]. apply (haar_transform_correct 10); [|done|done].
  unfold within. repeat (constructor; [simpl; lia|]). constructor.
Defined.

Lemma close_refl p ea ed cs : 0 <= ea -> 0 <= ed -> close p ea ed cs cs.
Proof.
  intros Ha Hd. assert (R : forall e l, 0 <= e -> Forall2 (near e) l l).
  { intros e l He. induction l as [|x l IH]; constructor; [|done]. unfold near. rewrite Z.sub_diag. simpl. lia. }
  split; by apply R.
Qed.

(** the inverse transform undoes the transform up to the rounding. On a
    wave of at least 2^levels samples the inverse is defined on the coefficients
    and gives every sample back with an error of at most one per level. *)
Theorem haar_roundtrip_error m xs levels : within m xs -> 0 <= m -> m * (levels + 1) <= 2 ^ 23 ->
  0 <= levels <= 31 -> 2 ^ levels <= Z.of_nat (length xs) ->
  exists cs ys, haar_transform xs (Z.of_nat (length xs)) levels = Some cs /\
    inverse_haar_transform cs (Z.of_nat (length xs)) levels = Some ys /\
    Forall2 (near levels) ys xs.
Proof.
  intros Hw Hm0 Hm Hl Hn. exists (haar_spec (Z.to_nat levels) xs), (inverse_spec (Z.to_nat levels) (haar_spec (Z.to_nat levels) xs)).
  split; [apply (haar_transform_eq m); [done|nia|done]|].
  pose proof (length_haar_spec (Z.to_nat levels) xs) as Hlen. rewrite <- Hlen at 1. split.
  - apply (inverse_haar_transform_eq m); [by apply haar_spec_within|done|done|done|by rewrite Hlen].
  - pose proof (inverse_spec_near (Z.to_nat levels) 0 0 ltac:(done) ltac:(done) (haar_spec (Z.to_nat levels) xs) xs) as H.
    rewrite Z2Nat.id, Z.add_0_l, Z.mul_1_r in H by lia. apply H; [|by apply close_refl].
    apply Nat2Z.inj_le. rewrite Nat2Z.inj_pow, Z2Nat.id by lia. exact Hn.
Qed.

Lemma haar_roundtrip_error_witness :
  exists cs ys, haar_transform [10; 4; -3; 8; 1] 5 2 = Some cs /\
    inverse_haar_transform cs 5 2 = Some ys /\ Forall2 (near 2) ys [10; 4; -3; 8; 1].
Proof.
  apply (haar_roundtrip_error 10 [10; 4; -3; 8; 1] 2); [|done|done|done|done].
  unfold within. repeat (constructor; [simpl; lia|]). constructor.
Defined.

(** short waves are not restored. The loop of the inverse starts at the
    highest level and leaves at the first level with fewer than two values, where
    the transform stopped: for a wave of fewer than 2^levels samples the inverse
    returns the coefficients unchanged, however many levels were transformed. *)
Theorem short_wave_not_inverted m xs levels : within m xs -> m <= 2 ^ 23 -> 1 <= levels <= 31 ->
  Z.of_nat (length xs) < 2 ^ levels ->
  exists cs, haar_transform xs (Z.of_nat (length xs)) levels = Some cs /\
    inverse_haar_transform cs (Z.of_nat (length xs)) levels = Some cs /\
    cs = haar_spec (Z.to_nat levels) xs.
Proof.
  intros Hw Hm Hl Hn. exists (haar_spec (Z.to_nat levels) xs).
  split; [by apply (haar_transform_eq m); [| |lia]|]. split; [|done]. unfold inverse_haar_transform.
  replace (Z.to_nat levels) with (S (Z.to_nat (levels - 1))) by lia.
  rewrite inverse_levels_unfold, Z2Nat.id by lia. rewrite (proj2 (Z.ltb_lt _ _)); [done|].
  apply Z.div_lt_upper_bound; [apply Z.pow_pos_nonneg; lia|].
  rewrite Z.mul_comm, <- Z.pow_succ_r by lia. by replace (Z.succ (levels - 1)) with levels by lia.
Qed.

Lemma short_wave_not_inverted_witness :
  exists cs, haar_transform [100; 20; 60; 60] 4 5 = Some cs /\
    inverse_haar_transform cs 4 5 = Some cs /\ cs = [60; 0; 40; 0].
Proof.
  destruct (short_wave_not_inverted 100 [100; 20; 60; 60] 5) as (cs & E1 & E2 & E3); [|done|done|done|].
  - unfold within. repeat (constructor; [simpl; lia|]). constructor.
  - exists cs. split; [exact E1|]. by split.
Defined.
