(* ===== verification/WaveSnap.v ===== *)
(** * WaveSnap: compression and decompression of a wave

    [main.c] of [DWT_Huffman]: the wave is transformed and quantised, encoded
    in chunks of 100 coefficients through a stream buffer of 1024 bytes into a
    byte array, decoded in chunks again, and transformed back. The printing, the
    symbol statistics and the root mean square error are left out; the memory
    that [main] asks for is granted. *)

From S2P Require Import Prelude Huffman Dwt.
From Stdlib Require Import ZArith Lia ZifyBool List Bool.
From stdpp Require Import base list numbers option.
Open Scope Z_scope.

Definition SZ_TMP_BUF : Z := 1024.
Definition CHUNK : Z := 100.

(** [memcpy(&dst[i], &src[j], n)] *)
Definition copy (dst : list Z) (i : Z) (src : list Z) (j n : Z) : option (list Z) :=
  if (0 <=? i) && (0 <=? j) && (0 <=? n) && (j + n <=? Z.of_nat (length src)) && (i + n <=? Z.of_nat (length dst))
  then Some (take (Z.to_nat i) dst ++ take (Z.to_nat n) (drop (Z.to_nat j) src) ++ drop (Z.to_nat (i + n)) dst)
  else None.

(** [(100 < (N - _i)) ? 100 : (N - _i)] *)
Definition chunk_len (n i : Z) : Z := if CHUNK <? n - i then CHUNK else n - i.

(** ** Checking, chunk by chunk: 0 or -1, and the number of bits *)

Fixpoint check_chunks (fuel : nat) (data : list Z) (n i : Z) (bs : huffmanBitstreamBuf_t) (total : Z)
    : option (Z * Z) :=
  if i <? n
  then
    match fuel with
    | O => None
    | S fuel =>
        let len := chunk_len n i in
        '(bits, bs, ret) ← huffman_encode_static (drop (Z.to_nat i) data) len bs 1 true;
        if ret =? 0 then check_chunks fuel data n (i + len) bs (u32 (total + bits)) else Some (-1, total)
    end
  else Some (0, total).

(** ** Encoding *)

(** After a chunk: the whole bytes and the begun one are copied, the begun one
    becomes the first of the buffer. *)
Definition flush_chunk (bits : Z) (bs : huffmanBitstreamBuf_t) (encoded : list Z) (total : Z)
    : option (huffmanBitstreamBuf_t * list Z) :=
  encoded ← copy encoded (total / 8) (buffer bs) 0
              (bits / 8 + 1 + (if (total mod 8 + bits) mod 8 =? 0 then 0 else 1));
  b ← get (buffer bs) (byte_index bs);
  Some (Bitstream (b :: replicate (Z.to_nat (buf_size bs - 1)) 0) (buf_size bs) 0 (bit_offset bs), encoded).

Fixpoint encode_chunks (fuel : nat) (data : list Z) (n i : Z) (bs : huffmanBitstreamBuf_t)
    (encoded : list Z) (total : Z) : option (Z * list Z * Z) :=
  if i <? n
  then
    match fuel with
    | O => None
    | S fuel =>
        let len := chunk_len n i in
        '(bits, bs, ret) ← huffman_encode_static (drop (Z.to_nat i) data) len bs 0 true;
        if ret =? 0
        then
          '(bs, encoded) ← flush_chunk bits bs encoded total;
          encode_chunks fuel data n (i + len) bs encoded (u32 (total + bits))
        else Some (-1, encoded, total)
    end
  else Some (0, encoded, total).

(** ** Decoding *)

(** Before a chunk: the unread bytes are moved to the front and the buffer is
    filled up from the stream. *)
Definition refill (bs : huffmanBitstreamBuf_t) (encoded : list Z) (stream_length read : Z)
    : option (huffmanBitstreamBuf_t * Z) :=
  let len_bs := if byte_index bs <? stream_length - read then byte_index bs else stream_length - read in
  b ← memmove (buffer bs) 0 (byte_index bs) (buf_size bs - byte_index bs);
  b ← copy b (buf_size bs - byte_index bs) encoded read len_bs;
  Some (Bitstream b (buf_size bs) 0 (bit_offset bs), len_bs).

Fixpoint decode_chunks (fuel : nat) (n i : Z) (bs : huffmanBitstreamBuf_t) (root : huffmanNode_t)
    (encoded : list Z) (stream_length read : Z) (out : list Z) (count : Z) : option (Z * list Z) :=
  if i <? n
  then
    match fuel with
    | O => None
    | S fuel =>
        let len := chunk_len n i in
        '(bs, len_bs) ← refill bs encoded stream_length read;
        '(bs, o, cnt, ret) ← huffman_decode_static bs root (drop (Z.to_nat count) out) len;
        let out := take (Z.to_nat count) out ++ o in
        if ret =? 0
        then
          if negb (cnt =? len) then Some (-2, out)
          else decode_chunks fuel n (i + len) bs root encoded stream_length (u32 (read + len_bs)) out
                 (u32 (count + cnt))
        else Some (-1, out)
    end
  else Some (0, out).

(** ** The program *)

Definition stream_length_of (total : Z) : Z := total / 8 + (if total mod 8 =? 0 then 0 else 1).

(** Every round of a loop over chunks takes at least one coefficient. *)
Definition chunk_fuel (n : Z) : nat := S (Z.to_nat n).

Section program.
(** What the arrays from [malloc] and the stream buffer hold at first. *)
Context (encoded0 decoded0 tmp_buf0 : list Z) (calloc_ok : nat -> bool).

Definition compress (original : list Z) : option (Z * list Z * Z) :=
  let n := Z.of_nat (length original) in
  data ← haar_transform original n DWT_LEVELS;
  data ← quantize_and_threshold data n DWT_QUANT_THRESHOLD DWT_QUANT_STEP;
  '(rc, total) ← check_chunks (chunk_fuel n) data n 0 (Bitstream tmp_buf0 SZ_TMP_BUF 0 0) 0;
  if negb (rc =? 0) then Some (-1, encoded0, total)
  else
    let bs := Bitstream (replicate (Z.to_nat SZ_TMP_BUF) 0) SZ_TMP_BUF 0 0 in
    encode_chunks (chunk_fuel n) data n 0 bs encoded0 0.

(** The result of [main] and the recovered wave; [tmp] is what the encoder
    left in the stream buffer. *)
Definition decompress (n : Z) (encoded : list Z) (total : Z) (tmp : list Z) : option (Z * list Z) :=
  root ← build_decoding_tree calloc_ok;
  match root with
  | Null => Some (1, decoded0)
  | Node _ _ _ =>
      '(rc, decoded) ← decode_chunks (chunk_fuel n) n 0 (Bitstream tmp SZ_TMP_BUF SZ_TMP_BUF 0) root encoded
                         (stream_length_of total) 0 decoded0 0;
      if negb (rc =? 0) then Some (rc, decoded)
      else
        decoded ← inverse_quantize decoded n DWT_QUANT_STEP;
        decoded ← inverse_haar_transform decoded n DWT_LEVELS;
        Some (0, decoded)
  end.
End program.

(** ** Lengths *)

Lemma length_symbol_bits s : (1 <= length (symbol_bits s) <= 23)%nat.
Proof.
  unfold symbol_bits. destruct (find_code s) as [e|] eqn:E.
  - destruct (find_code_len s e E) as [Hl _]. pose proof (length_code_word (code_val e) (len e)). lia.
  - rewrite length_app. change (length (code_word (code_val escape_code) (len escape_code))) with 7%nat.
    change (length (code_word (u16 s) RAW_SYMBOL_BITS)) with 16%nat. lia.
Qed.

Lemma encoding_app a b : encoding (a ++ b) = encoding a ++ encoding b.
Proof. apply flat_map_app. Qed.

Lemma length_encoding ss : (length ss <= length (encoding ss) <= 23 * length ss)%nat.
Proof.
  induction ss as [|s ss IH]; [simpl; lia|]. change (encoding (s :: ss)) with (symbol_bits s ++ encoding ss).
  rewrite length_app. cbn [length]. pose proof (length_symbol_bits s). lia.
Qed.

Lemma encode_static_take ss n bs check has_ret : 0 <= n <= Z.of_nat (length ss) ->
  huffman_encode_static ss n bs check has_ret =
  huffman_encode_static (take (Z.to_nat n) ss) (Z.of_nat (length (take (Z.to_nat n) ss))) bs check has_ret.
Proof.
  intros Hn. unfold huffman_encode_static.
  rewrite find_escape, Z.ltb_irrefl, (proj2 (Z.ltb_ge (Z.of_nat (length ss)) n)) by lia.
  by rewrite Nat2Z.id, firstn_all.
Qed.

Lemma check_static_eq ss bs : Forall is_i16 ss ->
  huffman_encode_static ss (Z.of_nat (length ss)) bs 1 true =
  Some (u32 (Z.of_nat (length (encoding ss))), bs,
        if u32 (buf_size bs * 8) <? u32 (Z.of_nat (length (encoding ss))) then -1 else 0).
Proof.
  intros Hss. unfold huffman_encode_static. rewrite find_escape, Z.ltb_irrefl, Nat2Z.id, firstn_all.
  cbn [Z.eqb negb]. rewrite count_loop_eq by done. cbn [mbind option_bind]. by rewrite Z.add_0_l, andb_true_r.
Qed.

Lemma chunk_len_range n i : i < n -> 1 <= chunk_len n i <= 100 /\ i + chunk_len n i <= n.
Proof. unfold chunk_len, CHUNK. intros H. case_match; lia. Qed.

(** The chunk at [i] and what follows it. *)
Definition chunk (data : list Z) (i : nat) : list Z :=
  take (Z.to_nat (chunk_len (Z.of_nat (length data)) (Z.of_nat i))) (drop i data).

Lemma chunk_split data i : (i < length data)%nat ->
  exists j, j = (i + length (chunk data i))%nat /\ (i < j <= length data)%nat /\
    Z.of_nat (length (chunk data i)) = chunk_len (Z.of_nat (length data)) (Z.of_nat i) /\
    (length (chunk data i) <= 100)%nat /\
    take j data = take i data ++ chunk data i /\ drop i data = chunk data i ++ drop j data.
Proof.
  intros Hi. destruct (chunk_len_range (Z.of_nat (length data)) (Z.of_nat i)) as [H1 H2]; [lia|].
  assert (Hl : length (chunk data i) = Z.to_nat (chunk_len (Z.of_nat (length data)) (Z.of_nat i))).
  { unfold chunk. rewrite length_take, length_drop. lia. }
  eexists. split; [done|]. rewrite Hl. split; [lia|]. split; [lia|]. split; [lia|].
  unfold chunk. by rewrite <- drop_drop, take_drop, take_take_drop.
Qed.

Lemma encode_chunk_eq data i bs check : (i < length data)%nat ->
  huffman_encode_static (drop (Z.to_nat (Z.of_nat i)) data) (chunk_len (Z.of_nat (length data)) (Z.of_nat i)) bs check true =
  huffman_encode_static (chunk data i) (Z.of_nat (length (chunk data i))) bs check true.
Proof.
  intros Hi. rewrite Nat2Z.id. apply encode_static_take.
  destruct (chunk_len_range (Z.of_nat (length data)) (Z.of_nat i)); rewrite ?length_drop; lia.
Qed.

Lemma chunk_encoding_length data i : (length (chunk data i) <= 100)%nat ->
  Z.of_nat (length (encoding (chunk data i))) <= 2300.
Proof. pose proof (length_encoding (chunk data i)). lia. Qed.

(** ** The check never objects *)

Lemma check_chunks_eq data bs : Forall is_i16 data -> buf_size bs = SZ_TMP_BUF ->
  forall fuel i total, (length data - i < fuel)%nat -> (i <= length data)%nat -> is_u32 total ->
  check_chunks fuel data (Z.of_nat (length data)) (Z.of_nat i) bs total =
  Some (0, u32 (total + Z.of_nat (length (encoding (drop i data))))).
Proof.
  intros Hd Hb fuel. induction fuel as [|fuel IH]; intros i total Hf Hi Ht; [lia|]. cbn [check_chunks].
  destruct (Z.ltb_spec (Z.of_nat i) (Z.of_nat (length data))) as [Hlt|Hge].
  2: { rewrite drop_ge by lia. cbn [encoding flat_map length]. by rewrite Z.add_0_r, u32_id. }
  destruct (chunk_split data i) as (j & Hj & Hij & Hc & H100 & _ & Hdrop); [lia|].
  rewrite encode_chunk_eq, check_static_eq by (lia || by apply Forall_take, Forall_drop). cbn [mbind option_bind].
  pose proof (chunk_encoding_length data i H100) as Hlen. rewrite Hb.
  rewrite (u32_id (Z.of_nat _)) by (unfold is_u32; lia). change (u32 (SZ_TMP_BUF * 8)) with 8192.
  rewrite (proj2 (Z.ltb_ge _ _)) by lia. cbn [Z.eqb]. rewrite <- Hc, <- Nat2Z.inj_add, <- Hj.
  rewrite IH by (lia || apply u32_range). rewrite Hdrop, encoding_app, length_app, Nat2Z.inj_add.
  unfold u32. rewrite Zplus_mod_idemp_l. do 3 f_equal. lia.
Qed.

(** ** Encoding *)

Lemma copy_eq dst i src j n : 0 <= i -> 0 <= j -> 0 <= n -> j + n <= Z.of_nat (length src) ->
  copy dst i src j n =
  if i + n <=? Z.of_nat (length dst)
  then Some (take (Z.to_nat i) dst ++ take (Z.to_nat n) (drop (Z.to_nat j) src) ++ drop (Z.to_nat (i + n)) dst)
  else None.
Proof. intros. unfold copy. by rewrite !(proj2 (Z.leb_le _ _)) by done. Qed.

Lemma bits_of_take l k : bits_of (take k l) = take (8 * k) (bits_of l).
Proof.
  destruct (decide (k <= length l)%nat) as [Hk|Hk].
  - rewrite <- (take_drop k l) at 2. rewrite bits_of_app, take_app_length'; [done|].
    rewrite length_bits_of, length_take. lia.
  - rewrite !take_ge; [done|rewrite length_bits_of; lia|lia].
Qed.
Lemma bits_of_drop l k : bits_of (drop k l) = drop (8 * k) (bits_of l).
Proof.
  destruct (decide (k <= length l)%nat) as [Hk|Hk].
  - rewrite <- (take_drop k l) at 2. rewrite bits_of_app, drop_app_length'; [done|].
    rewrite length_bits_of, length_take. lia.
  - rewrite !drop_ge; [done|rewrite length_bits_of; lia|lia].
Qed.

(** The bits of one byte of a list. *)
Lemma byte_bits_lookup l i b : l !! i = Some b -> byte_bits b = take 8 (drop (8 * i) (bits_of l)).
Proof.
  intros H. rewrite <- bits_of_drop. rewrite (drop_S l b i H).
  change (bits_of (b :: drop (S i) l)) with (byte_bits b ++ bits_of (drop (S i) l)). done.
Qed.

(** The stream after the encoding [E] of what was handled so far. *)
Definition flushed (E : list bool) (bs : huffmanBitstreamBuf_t) (encoded : list Z) (total : Z) : Prop :=
  total = Z.of_nat (length E) /\ clean bs /\ buf_size bs = SZ_TMP_BUF /\
  byte_index bs = 0 /\ bit_offset bs = total mod 8 /\
  content bs = drop (8 * (length E / 8)) E /\ take (length E) (bits_of encoded) = E /\ Forall is_u8 encoded.

(** The bytes of a chunk that are copied. *)
Definition copied (total bits : Z) : Z := bits / 8 + 1 + (if (total mod 8 + bits) mod 8 =? 0 then 0 else 1).

Lemma copied_range total bits : 0 <= bits ->
  total mod 8 + bits <= 8 * copied total bits /\ 8 * (total / 8 + copied total bits) <= 8 * ((total + bits) / 8 + 2).
Proof.
  intros Hb. unfold copied. case_match; Z.div_mod_to_equations; lia.
Qed.

(** The part of a buffer that remains after the whole bytes are gone. *)
Lemma carry_ok bs b : clean bs -> buf_size bs = SZ_TMP_BUF ->
  buffer bs !! Z.to_nat (byte_index bs) = Some b ->
  let bs' := Bitstream (b :: replicate (Z.to_nat (buf_size bs - 1)) 0) (buf_size bs) 0 (bit_offset bs) in
  clean bs' /\ content bs' = drop (8 * Z.to_nat (byte_index bs)) (content bs).
Proof.
  intros [Hok Hz] Hs Hb bs'. pose proof (byte_bits_lookup _ _ _ Hb) as Hbits.
  pose proof (pos_split bs Hok) as Hsplit. unfold content at 2. unfold ahead in Hz.
  destruct Hok as (Hl & H32 & Ho & Hi & Hp & Hu).
  assert (Hpos : Z.to_nat (pos bs') = Z.to_nat (bit_offset bs)) by (unfold pos; cbn; lia).
  assert (Hall : bits_of (buffer bs') = byte_bits b ++ replicate (8 * Z.to_nat (buf_size bs - 1)) false)
    by (unfold bs'; cbn [buffer]; by rewrite <- bits_of_zeros).
  split; [split|].
  - unfold bs_ok, pos. unfold bs'. cbn [buffer buf_size byte_index bit_offset length].
    rewrite length_replicate. unfold SZ_TMP_BUF in *. repeat split; try lia.
    constructor; [|apply Forall_u8_replicate]. by eapply list.Forall_lookup_1.
  - unfold ahead. rewrite Hpos, Hall, drop_app_le by (simpl; lia).
    rewrite length_app, length_replicate, replicate_add. f_equal.
    rewrite Hbits, skipn_firstn_comm, drop_drop, <- Hsplit, Hz, take_replicate.
    by rewrite length_replicate.
  - unfold content. rewrite Hpos, Hall, take_app_le by (simpl; lia).
    rewrite Hbits, take_take, Nat.min_l by lia. rewrite Hsplit.
    by rewrite skipn_firstn_comm, Nat.add_comm, Nat.add_sub.
Qed.

Section flush.
Context (E r : list bool) (bs bs1 : huffmanBitstreamBuf_t) (encoded : list Z) (total : Z)
  (Hfl : flushed E bs encoded total) (Hr : Z.of_nat (length r) <= 2300)
  (Hc1 : clean bs1) (Hcon1 : content bs1 = content bs ++ r) (Hs1 : buf_size bs1 = buf_size bs).

(** Where the encoder stopped. *)
Lemma flush_pos : pos bs1 = total mod 8 + Z.of_nat (length r) /\ buf_size bs1 = 1024 /\
  Z.of_nat (length (buffer bs1)) = 1024 /\ 0 <= bit_offset bs1 < 8 /\ 0 <= byte_index bs1 < 1024 /\
  length (content bs1) = (8 * Z.to_nat (byte_index bs1) + Z.to_nat (bit_offset bs1))%nat /\
  (pos bs1 = 8 * byte_index bs1 + bit_offset bs1).
Proof.
  destruct Hfl as (Ht & Hc & Hs & Hi & Ho & _). pose proof (length_content bs1 (proj1 Hc1)) as Hp1.
  pose proof (length_content bs (proj1 Hc)) as Hp. pose proof (pos_split bs1 (proj1 Hc1)) as Hsplit.
  destruct (proj1 Hc1) as (Hl1 & _ & Ho1 & Hi1 & Hpp & _).
  assert (Hpos : pos bs1 = total mod 8 + Z.of_nat (length r)).
  { rewrite <- Hp1, Hcon1, length_app, Nat2Z.inj_add, Hp. unfold pos. lia. }
  rewrite Hs1, Hs in *. unfold SZ_TMP_BUF in *.
  assert (byte_index bs1 < 1024) by (unfold pos in Hpos; Z.div_mod_to_equations; lia).
  split; [done|]. split; [done|]. split; [lia|]. split; [done|]. split; [done|]. split; [lia|done].
Qed.

(** The encoded bytes after the copy of [n] bytes, and the buffer with the
    begun byte [b] only. *)
Definition flushed_bytes (n : Z) : list Z :=
  take (Z.to_nat (total / 8)) encoded ++ take (Z.to_nat n) (buffer bs1) ++
  drop (Z.to_nat (total / 8 + n)) encoded.
Definition carried (b : Z) : huffmanBitstreamBuf_t :=
  Bitstream (b :: replicate (Z.to_nat (buf_size bs1 - 1)) 0) (buf_size bs1) 0 (bit_offset bs1).

Lemma flushed_prefix : E ++ r = take (8 * (length E / 8)) E ++ content bs1.
Proof. destruct Hfl as (_ & _ & _ & _ & _ & Hcon & _ & _). by rewrite Hcon1, Hcon, app_assoc, take_drop. Qed.

Lemma flushed_bits n : total / 8 + n <= Z.of_nat (length encoded) -> 0 <= n <= 1024 ->
  total mod 8 + Z.of_nat (length r) <= 8 * n ->
  take (length (E ++ r)) (bits_of (flushed_bytes n)) = E ++ r.
Proof.
  intros Hfit Hn Hn1. destruct flush_pos as (Hp & _ & Hl & Ho & Hi & Hlen & Hp').
  destruct Hfl as (Ht & _ & _ & _ & _ & _ & Henc & _).
  assert (Hk : Z.to_nat (total / 8) = (length E / 8)%nat) by (rewrite Ht; change 8 with (Z.of_nat 8) at 1; rewrite <- Nat2Z.inj_div; lia).
  pose proof (Nat.div_mod_eq (length E) 8) as HE8.
  unfold flushed_bytes. rewrite flushed_prefix. rewrite !bits_of_app, !bits_of_take, Hk.
  replace (take (8 * (length E / 8)) (bits_of encoded)) with (take (8 * (length E / 8)) E).
  2: { rewrite <- Henc at 2. by rewrite take_take, Nat.min_l by lia. }
  rewrite length_app, take_app_add. f_equal.
  rewrite take_app_le by (rewrite length_take, length_bits_of; lia).
  rewrite take_take, Nat.min_l by lia. unfold content at 2. f_equal. lia.
Qed.

Lemma flushed_u8 n : Forall is_u8 (flushed_bytes n).
Proof.
  destruct Hfl as (_ & _ & _ & _ & _ & _ & _ & He). destruct (proj1 Hc1) as (_ & _ & _ & _ & _ & Hu).
  unfold flushed_bytes. rewrite !list.Forall_app. auto using Forall_take, Forall_drop.
Qed.

Lemma flush_state n b : total / 8 + n <= Z.of_nat (length encoded) -> 0 <= n <= 1024 ->
  total mod 8 + Z.of_nat (length r) <= 8 * n -> buffer bs1 !! Z.to_nat (byte_index bs1) = Some b ->
  flushed (E ++ r) (carried b) (flushed_bytes n) (total + Z.of_nat (length r)).
Proof.
  intros Hfit Hn Hn1 Hb. destruct flush_pos as (Hp & Hs & Hl & Ho & Hi & Hlen & Hp').
  destruct Hfl as (Ht & _). destruct (carry_ok bs1 b Hc1 Hs Hb) as [Hc2 Hcon2].
  fold (carried b) in Hc2, Hcon2.
  assert (Htake : length (take (8 * (length E / 8)) E) = (8 * (length E / 8))%nat).
  { rewrite length_take. pose proof (Nat.div_mod_eq (length E) 8). lia. }
  assert (Hdiv : (length (E ++ r) / 8 = length E / 8 + Z.to_nat (byte_index bs1))%nat).
  { rewrite flushed_prefix, length_app, Htake, Hlen.
    replace (8 * (length E / 8) + (8 * Z.to_nat (byte_index bs1) + Z.to_nat (bit_offset bs1)))%nat
      with (Z.to_nat (bit_offset bs1) + (length E / 8 + Z.to_nat (byte_index bs1)) * 8)%nat by lia.
    rewrite Nat.div_add, Nat.div_small by lia. lia. }
  split; [rewrite length_app; lia|]. split; [done|]. split; [done|]. split; [done|].
  split; [cbn [bit_offset carried]; Z.div_mod_to_equations; lia|].
  split; [|split; [by apply flushed_bits|by apply flushed_u8]].
  rewrite Hcon2, Hdiv, flushed_prefix, Nat.mul_add_distr_l, <- drop_drop. by rewrite drop_app_length' by done.
Qed.

(** The chunk is copied when the array has room for it. *)
Lemma flush_chunk_eq : let n := copied total (Z.of_nat (length r)) in
  exists b, flush_chunk (Z.of_nat (length r)) bs1 encoded total =
      (if total / 8 + n <=? Z.of_nat (length encoded) then Some (carried b, flushed_bytes n) else None) /\
    (total / 8 + n <= Z.of_nat (length encoded) ->
     flushed (E ++ r) (carried b) (flushed_bytes n) (total + Z.of_nat (length r)) /\
     length (flushed_bytes n) = length encoded).
Proof.
  intros n. destruct flush_pos as (Hp & Hs & Hl & Ho & Hi & Hlen & Hp').
  pose proof (copied_range total (Z.of_nat (length r)) ltac:(lia)) as [Hn1 Hn2]. fold n in Hn1, Hn2.
  assert (Ht : 0 <= total) by (destruct Hfl as (-> & _); lia).
  assert (Hn : 0 <= n <= 1024) by (unfold n, copied in *; case_match; Z.div_mod_to_equations; lia).
  destruct (lookup_lt_is_Some_2 (buffer bs1) (Z.to_nat (byte_index bs1))) as [b Hb]; [lia|].
  exists b. split.
  - unfold flush_chunk. fold (copied total (Z.of_nat (length r))). fold n.
    rewrite copy_eq by (Z.div_mod_to_equations; lia).
    change (drop (Z.to_nat 0) (buffer bs1)) with (buffer bs1). fold (flushed_bytes n).
    case_match; [|done]. cbn [mbind option_bind]. unfold get.
    by rewrite (proj2 (Z.ltb_ge _ _)), Hb by lia.
  - intros Hfit. split; [by apply flush_state|]. unfold flushed_bytes.
    rewrite !length_app, !length_take, length_drop. Z.div_mod_to_equations. lia.
Qed.
End flush.

(** A chunk always fits into the stream buffer. *)
Lemma encode_chunk_fits E data i bs encoded total : Forall is_i16 data -> (i < length data)%nat ->
  flushed E bs encoded total -> (length (chunk data i) <= 100)%nat ->
  exists bs1, huffman_encode_static (chunk data i) (Z.of_nat (length (chunk data i))) bs 0 true =
      Some (Z.of_nat (length (encoding (chunk data i))), bs1, 0) /\
    clean bs1 /\ content bs1 = content bs ++ encoding (chunk data i) /\ buf_size bs1 = buf_size bs.
Proof.
  intros Hd Hi Hfl H100. pose proof (chunk_encoding_length data i H100) as Hlen.
  destruct Hfl as (Ht & Hc & Hs & Hbi & Ho & _).
  assert (Hroom : (length (encoding (chunk data i)) <= room bs)%nat).
  { unfold room, pos. rewrite Hs, Hbi, Ho. unfold SZ_TMP_BUF. Z.div_mod_to_equations. lia. }
  destruct (encode_static_eq (chunk data i) bs true) as (t & bs1 & rc & E1 & Hrc & Htot & Hc1 & Hw & Hs1);
    [by apply Forall_take, Forall_drop|done|].
  rewrite (proj2 (Nat.ltb_ge _ _)) in Hrc by done. subst rc. rewrite take_ge in Hw by done.
  rewrite Z.add_0_l, u32_id in Htot by (unfold is_u32; lia). rewrite (Htot eq_refl) in E1. by exists bs1.
Qed.

Lemma encode_chunks_eq data : Forall is_i16 data -> Z.of_nat (length (encoding data)) < 2 ^ 32 ->
  forall fuel i bs encoded total, (length data - i < fuel)%nat -> (i <= length data)%nat ->
  flushed (encoding (take i data)) bs encoded total ->
  let r := encode_chunks fuel data (Z.of_nat (length data)) (Z.of_nat i) bs encoded total in
  (Z.of_nat (length (encoding data)) / 8 + 2 <= Z.of_nat (length encoded) -> is_Some r) /\
  (forall rc encoded' total', r = Some (rc, encoded', total') ->
     rc = 0 /\ total' = Z.of_nat (length (encoding data)) /\ length encoded' = length encoded /\
     take (length (encoding data)) (bits_of encoded') = encoding data /\ Forall is_u8 encoded').
Proof.
  intros Hd H32 fuel. induction fuel as [|fuel IH]; intros i bs encoded total Hf Hi Hfl r; [lia|].
  unfold r. clear r. cbn [encode_chunks].
  destruct (Z.ltb_spec (Z.of_nat i) (Z.of_nat (length data))) as [Hlt|Hge].
  2: { rewrite take_ge in Hfl by lia. split; [by eexists|]. intros rc e t [= <- <- <-].
       destruct Hfl as (-> & _ & _ & _ & _ & _ & H). done. }
  destruct (chunk_split data i) as (j & Hj & Hij & Hc & H100 & Htk & Hdrop); [lia|].
  rewrite encode_chunk_eq by lia.
  destruct (encode_chunk_fits _ data i bs encoded total Hd ltac:(lia) Hfl H100) as (bs1 & -> & Hc1 & Hw & Hs1).
  cbn [mbind option_bind Z.eqb]. pose proof (chunk_encoding_length data i H100) as Hlen.
  destruct (flush_chunk_eq _ _ bs bs1 encoded total Hfl Hlen Hc1 Hw Hs1) as (b & -> & Hst).
  assert (Hall : length (encoding data) =
    (length (encoding (take i data)) + length (encoding (chunk data i)) + length (encoding (drop j data)))%nat).
  { rewrite <- (take_drop i data) at 1. rewrite Hdrop, !encoding_app, !length_app. lia. }
  pose proof (proj1 Hfl) as Ht. set (n := copied _ _) in *.
  pose proof (copied_range total (Z.of_nat (length (encoding (chunk data i)))) ltac:(lia)) as [_ Hn]. fold n in Hn.
  destruct (Z.leb_spec (total / 8 + n) (Z.of_nat (length encoded))) as [Hfit|Hno].
  - destruct (Hst Hfit) as [Hfl2 Hle]. rewrite <- encoding_app, <- Htk in Hfl2.
    cbn [mbind option_bind]. rewrite <- Hc, <- Nat2Z.inj_add, <- Hj, u32_id by (unfold is_u32; lia).
    rewrite <- Hle. apply IH; [lia|lia|exact Hfl2].
  - cbn [mbind option_bind]. split; [|done]. intros Hbig. exfalso.
    assert ((total + Z.of_nat (length (encoding (chunk data i)))) / 8 <= Z.of_nat (length (encoding data)) / 8)
      by (apply Z.div_le_mono; lia). lia.
Qed.

(** ** Decoding *)

(** A buffer [buf] of [n] bytes whose bytes from [q] on are those of the
    stream from [Q] on, as far as there are any: after the refill this holds of
    the whole buffer. *)
Lemma refill_bytes (buf enc : list Z) (n q Q L : nat) :
  let read := (L `min` (Q + n - q))%nat in
  let k := (q `min` (L - read))%nat in
  let m := drop q buf ++ drop (n - q) buf in
  let b := drop q buf ++ take k (drop read enc) ++ drop (n - q + k) m in
  length buf = n -> (q <= n)%nat -> (Q <= L <= length enc)%nat ->
  take ((n - q) `min` (L - Q)) (drop q buf) = take ((n - q) `min` (L - Q)) (drop Q enc) ->
  length m = n /\ length b = n /\ take (n `min` (L - Q)) b = take (n `min` (L - Q)) (drop Q enc).
Proof.
  intros read k m b Hl Hq HQ Hv.
  assert (Hd : length (drop q buf) = (n - q)%nat) by (rewrite length_drop; lia).
  assert (Hm : length m = n) by (unfold m; rewrite length_app, Hd, length_drop; lia).
  split; [done|]. split; [unfold b; rewrite !length_app, Hd, length_take, !length_drop, Hm; lia|].
  unfold b. clear b. destruct (decide (L - Q <= n - q)%nat) as [Hend|Hmore].
  - rewrite take_app_le by lia. rewrite !Nat.min_r in * by lia. done.
  - rewrite (Nat.min_l (n - q)) in Hv by lia. rewrite take_ge in Hv by lia. rewrite Hv.
    assert (Hread : read = (Q + (n - q))%nat) by lia.
    rewrite Hread, <- drop_drop, app_assoc, take_take_drop.
    rewrite take_app_le by (rewrite length_take, length_drop; lia). rewrite take_take. f_equal. lia.
Qed.

(** The bits of a window of the stream. *)
Lemma window_bits (buf enc : list Z) (v Q o n : nat) : take v buf = take v (drop Q enc) -> (o + n <= 8 * v)%nat ->
  take n (drop o (bits_of buf)) = take n (drop (8 * Q + o) (bits_of enc)).
Proof.
  intros E Hn.
  assert (H : forall B, take n (drop o B) = take n (drop o (take (8 * v) B)) :> list bool).
  { intros B. rewrite skipn_firstn_comm, take_take. f_equal. lia. }
  by rewrite H, <- bits_of_take, E, bits_of_take, <- H, bits_of_drop, drop_drop.
Qed.

Lemma window_drop (buf enc : list Z) (v Q k : nat) : take v buf = take v (drop Q enc) ->
  take (v - k) (drop k buf) = take (v - k) (drop (Q + k) enc).
Proof. intros E. by rewrite <- skipn_firstn_comm, E, skipn_firstn_comm, drop_drop. Qed.

(** The numbers of bytes, as the code computes them. *)
Lemma refill_numbers bi read sl a n : 0 <= bi <= 1024 -> Z.of_nat n = 1024 -> 0 <= a <= sl ->
  read = Z.min sl (a + 1024 - bi) ->
  let q := Z.to_nat bi in let Q := Z.to_nat a in let L := Z.to_nat sl in
  (L `min` (Q + n - q))%nat = Z.to_nat read /\
  (q `min` (L - L `min` (Q + n - q)))%nat = Z.to_nat (if bi <? sl - read then bi else sl - read) /\
  ((n - q) `min` (L - Q))%nat = Z.to_nat (Z.min (1024 - bi) (sl - a)) /\
  (n `min` (L - Q))%nat = Z.to_nat (Z.min (1024 - 0) (sl - a)) /\
  0 <= (if bi <? sl - read then bi else sl - read) <= bi /\
  read + (if bi <? sl - read then bi else sl - read) = Z.min sl (a + 1024 - 0).
Proof.
  intros Hb Hn Ha Hr q Q L.
  assert (E : (L `min` (Q + n - q))%nat = Z.to_nat read) by lia.
  split; [done|]. rewrite E. split; [clear E; case_match; lia|]. clear E. split; [lia|]. split; [lia|].
  split; case_match; lia.
Qed.

Lemma take_middle (B P e r : list bool) : take (length ((P ++ e) ++ r)) B = (P ++ e) ++ r ->
  take (length e) (drop (length P) B) = e.
Proof.
  intros H. rewrite <- (take_drop (length ((P ++ e) ++ r)) B), H, <- !app_assoc.
  by rewrite drop_app_length, take_app_length.
Qed.

Section decode.
Context (data encoded : list Z) (stream_length : Z)
  (Hdata : Forall (fun s => is_i16 s /\ s <> ESCAPE_SYMBOL) data)
  (Hu8 : Forall is_u8 encoded) (Hbits : take (length (encoding data)) (bits_of encoded) = encoding data)
  (Hsl : stream_length = stream_length_of (Z.of_nat (length (encoding data))))
  (Hcap : stream_length <= Z.of_nat (length encoded)) (H31 : Z.of_nat (length encoded) < 2 ^ 31).

(** The byte of the stream at which the decoder stands. *)
Definition at_byte (i : nat) : Z := Z.of_nat (length (encoding (take i data))) / 8.

(** Before the [i]-th symbol: the buffer holds the stream from that byte on. *)
Definition buffered (i : nat) (bs : huffmanBitstreamBuf_t) (read : Z) : Prop :=
  buf_size bs = 1024 /\ Z.of_nat (length (buffer bs)) = 1024 /\ Forall is_u8 (buffer bs) /\
  0 <= byte_index bs <= 1024 /\ bit_offset bs = Z.of_nat (length (encoding (take i data))) mod 8 /\
  read = Z.min stream_length (at_byte i + 1024 - byte_index bs) /\
  let v := Z.to_nat (Z.min (1024 - byte_index bs) (stream_length - at_byte i)) in
  take v (drop (Z.to_nat (byte_index bs)) (buffer bs)) = take v (drop (Z.to_nat (at_byte i)) encoded).

Lemma at_byte_range i : (i <= length data)%nat -> 0 <= at_byte i <= stream_length.
Proof.
  intros Hi. unfold at_byte. rewrite Hsl. unfold stream_length_of.
  pose proof (encoding_app (take i data) (drop i data)) as H. rewrite take_drop in H. rewrite H, length_app.
  case_match; Z.div_mod_to_equations; lia.
Qed.

Lemma refill_eq i bs read : buffered i bs read -> (i <= length data)%nat ->
  exists b len_bs, refill bs encoded stream_length read = Some (Bitstream b 1024 0 (bit_offset bs), len_bs) /\
    buffered i (Bitstream b 1024 0 (bit_offset bs)) (read + len_bs).
Proof.
  intros (Hs & Hl & Hu & Hbi & Ho & Hr & Hv) Hi. pose proof (at_byte_range i Hi) as HQ. cbv zeta in Hv.
  destruct (refill_numbers _ _ _ _ _ Hbi Hl HQ Hr) as (E1 & E2 & E3 & E4 & E5 & E6).
  pose proof (refill_bytes (buffer bs) encoded (length (buffer bs)) (Z.to_nat (byte_index bs))
    (Z.to_nat (at_byte i)) (Z.to_nat stream_length)) as Hbytes. cbv zeta in Hbytes.
  rewrite E2, E1, E3, E4 in Hbytes. unfold refill. set (k := if _ <? _ then _ else _) in *.
  clear E1 E2 E3 E4. clearbody k. rewrite Hs.
  set (q := Z.to_nat (byte_index bs)) in *. set (m := drop q (buffer bs) ++ _) in Hbytes.
  destruct Hbytes as (Hm & Hlb & Hb); [done|lia|lia|exact Hv|].
  set (b := drop q (buffer bs) ++ _) in Hlb, Hb. exists b, k.
  assert (Hr0 : 0 <= read) by lia. clear Hbits Hdata Hsl H31 Hr. split.
  - rewrite memmove_eq by lia. cbn [mbind option_bind].
    change (take (Z.to_nat 0) (buffer bs)) with (@nil Z). cbn [app].
    rewrite (take_ge (drop _ _)) by (rewrite length_drop; lia).
    replace (Z.to_nat (0 + (1024 - byte_index bs))) with (length (buffer bs) - q)%nat by lia. fold q m.
    rewrite copy_eq, Hm, (proj2 (Z.leb_le _ _)) by lia. cbn [mbind option_bind].
    replace (Z.to_nat (1024 - byte_index bs)) with (length (drop q (buffer bs))) by (rewrite length_drop; lia).
    replace (Z.to_nat (1024 - byte_index bs + k)) with (length (buffer bs) - q + Z.to_nat k)%nat by lia.
    unfold m at 1. by rewrite take_app_length.
  - unfold buffered. cbn [buf_size buffer byte_index bit_offset]. split; [done|]. split; [by rewrite Hlb|].
    split; [unfold b, m; rewrite !list.Forall_app; auto 8 using Forall_take, Forall_drop, list.Forall_app_2|].
    by change (drop (Z.to_nat 0) b) with b.
Qed.

(** The buffer, refilled, begins with the code words of the next chunk. *)
Lemma chunk_ahead i j bs read : (i <= j <= length data)%nat -> buffered i bs read -> byte_index bs = 0 ->
  encoding (take j data) = encoding (take i data) ++ encoding (chunk data i) ->
  Z.of_nat (length (encoding (chunk data i))) <= 2300 ->
  bs_ok bs /\ exists r, ahead bs = encoding (chunk data i) ++ r.
Proof.
  intros Hij (Hs & Hl & Hu & _ & Ho & _ & Hv) Hbi Hj Hlen. rewrite Hbi in Hv. cbv zeta in Hv.
  set (e := encoding (chunk data i)) in *. set (P := encoding (take i data)) in *.
  assert (Hok : bs_ok bs).
  { unfold bs_ok, pos. rewrite Hs, Hl, Hbi, Ho. repeat split; try (Z.div_mod_to_equations; lia); done. }
  split; [done|]. exists (drop (length e) (ahead bs)). rewrite <- (take_drop (length e) (ahead bs)) at 1. f_equal.
  unfold ahead. rewrite (pos_split bs Hok), Hbi. change (Z.to_nat 0) with 0%nat in *. rewrite Nat.mul_0_r, Nat.add_0_l.
  pose proof (encoding_app (take j data) (drop j data)) as Hall. rewrite take_drop, Hj in Hall.
  assert (HP : at_byte i = Z.of_nat (length P) / 8) by done.
  assert (HT : Z.of_nat (length P + length e) <= 8 * stream_length).
  { rewrite Hsl. unfold stream_length_of. rewrite Hall, !length_app. clear. case_match; Z.div_mod_to_equations; lia. }
  rewrite Hall in Hbits. rewrite (window_bits _ _ _ _ _ _ Hv) by (clear -Ho HP HT Hlen; Z.div_mod_to_equations; lia).
  replace (8 * Z.to_nat (at_byte i) + Z.to_nat (bit_offset bs))%nat with (length P)
    by (clear -Ho HP; Z.div_mod_to_equations; lia).
  by apply take_middle in Hbits.
Qed.

Lemma buffered_next i j b r bs2 read : (i <= j <= length data)%nat ->
  let bs := Bitstream b 1024 0 (Z.of_nat (length (encoding (take i data))) mod 8) in
  buffered i bs read -> encoding (take j data) = encoding (take i data) ++ encoding (chunk data i) ->
  bs_ok bs -> ahead bs = encoding (chunk data i) ++ r -> read_to bs r bs2 -> buffered j bs2 read.
Proof.
  intros Hij bs (Hs & Hl & Hu & _ & Ho & Hr & Hv) Hj Hok Ha (Hok2 & Ha2 & Hb2 & Hs2).
  pose proof (length_ahead bs Hok) as Hp. pose proof (length_ahead bs2 Hok2) as Hp2.
  rewrite Ha2, Hs2 in Hp2. rewrite Ha, length_app in Hp.
  pose proof (at_byte_range j ltac:(lia)) as HQ. pose proof (at_byte_range i ltac:(lia)) as HQi. cbv zeta in Hv.
  unfold buffered. rewrite Hs2, Hb2. unfold at_byte in *. rewrite Hj, length_app in *.
  set (P := length (encoding (take i data))) in *. set (e := length (encoding (chunk data i))) in *.
  destruct Hok2 as (_ & _ & Ho2 & Hi2 & Hle & _). unfold pos in Hp, Hp2, Hle. unfold bs in *.
  cbn [buf_size buffer byte_index bit_offset] in *. clear Hbits Hdata Hj Ha Ha2 Hok Hcap H31 Hsl.
  assert (E : (Z.of_nat (P + e)) / 8 = Z.of_nat P / 8 + byte_index bs2) by (clear -Hp Hp2 Ho2; Z.div_mod_to_equations; lia).
  assert (byte_index bs2 <= 1024) by (clear -Hle Ho2 Hs2; rewrite Hs2 in Hle; lia).
  split; [done|]. split; [done|]. split; [done|]. split; [lia|].
  split; [clear -Hp Hp2 Ho2; Z.div_mod_to_equations; lia|].
  rewrite E in *. split; [lia|]. cbv zeta. apply window_drop with (k := Z.to_nat (byte_index bs2)) in Hv.
  replace (Z.to_nat (Z.of_nat P / 8 + byte_index bs2)) with (Z.to_nat (Z.of_nat P / 8) + Z.to_nat (byte_index bs2))%nat
    by (clear -HQi Hi2; lia).
  replace (Z.to_nat (Z.min (1024 - byte_index bs2) (stream_length - (Z.of_nat P / 8 + byte_index bs2))))
    with (Z.to_nat (Z.min (1024 - 0) (stream_length - Z.of_nat P / 8)) - Z.to_nat (byte_index bs2))%nat
    by (clear -HQi Hi2; lia).
  exact Hv.
Qed.

(** One chunk: refill and decode. *)
Lemma decode_chunk i j bs read out : (i <= j <= length data)%nat -> buffered i bs read ->
  encoding (take j data) = encoding (take i data) ++ encoding (chunk data i) ->
  Z.of_nat (length (encoding (chunk data i))) <= 2300 ->
  (length (chunk data i) <= length out)%nat -> Z.of_nat (length out) < 2 ^ 32 ->
  exists bs1 len_bs bs2, refill bs encoded stream_length read = Some (bs1, len_bs) /\
    huffman_decode_static bs1 static_tree out (Z.of_nat (length (chunk data i))) =
      Some (bs2, chunk data i ++ drop (length (chunk data i)) out, Z.of_nat (length (chunk data i)), 0) /\
    buffered j bs2 (u32 (read + len_bs)).
Proof.
  intros Hij Hb Hj H2300 Hout H32. destruct (refill_eq i bs read Hb) as (b & len_bs & E & Hb1); [lia|].
  assert (Ho : bit_offset bs = Z.of_nat (length (encoding (take i data))) mod 8) by apply Hb.
  rewrite Ho in E, Hb1. eexists _, len_bs. 
  destruct (chunk_ahead i j _ _ Hij Hb1 eq_refl Hj H2300) as (Hok & r & Ha).
  pose proof (fuel_enough _ Hok) as Hfuel. rewrite Ha, length_app in Hfuel.
  assert (Hss : Forall (fun s => is_i16 s /\ s <> ESCAPE_SYMBOL) (chunk data i)) by (by apply Forall_take, Forall_drop).
  destruct (decode_symbols _ _ out 0 r (decode_fuel (Bitstream b 1024 0 (Z.of_nat (length (encoding (take i data))) mod 8)))
    Hss Hok Ha) as (bs2 & H2 & Ed); [lia|lia|done|lia|].
  exists bs2. split; [exact E|]. split; [exact Ed|].
  pose proof (buffered_next i j b r bs2 _ Hij Hb1 Hj Hok Ha H2) as Hn.
  rewrite u32_id; [exact Hn|]. destruct Hn as (_ & _ & _ & _ & _ & -> & _).
  pose proof (at_byte_range j ltac:(lia)). destruct H2 as ((_ & _ & Ho2 & Hi2 & Hp2 & _) & _ & _ & Hs2).
  unfold pos in Hp2. rewrite Hs2 in Hp2. cbn [buf_size] in Hp2. unfold is_u32.
  clear -Ho2 Hi2 Hp2 H Hcap H31. lia.
Qed.

Lemma decode_chunks_eq : forall fuel i bs read out, (length data - i < fuel)%nat -> (i <= length data)%nat ->
  buffered i bs read -> (length data <= length out)%nat -> Z.of_nat (length out) < 2 ^ 32 ->
  take i out = take i data ->
  decode_chunks fuel (Z.of_nat (length data)) (Z.of_nat i) bs static_tree encoded stream_length read out (Z.of_nat i) =
  Some (0, data ++ drop (length data) out).
Proof.
  intros fuel. induction fuel as [|fuel IH]; intros i bs read out Hf Hi Hb Hout H32 Ht; [lia|]. cbn [decode_chunks].
  destruct (Z.ltb_spec (Z.of_nat i) (Z.of_nat (length data))) as [Hlt|Hge].
  2: { assert (i = length data) as -> by lia. rewrite (take_ge data) in Ht by lia.
       rewrite <- (take_drop (length data) out) at 1. by rewrite Ht. }
  destruct (chunk_split data i) as (j & Hj & Hij & Hc & H100 & Htk & Hdrop); [lia|].
  rewrite Nat2Z.id, <- Hc.
  destruct (decode_chunk i j bs read (drop i out)) as (bs1 & len_bs & bs2 & -> & Ed & Hb2);
    [lia|done|by rewrite Htk, encoding_app|by apply chunk_encoding_length|rewrite length_drop; lia|rewrite length_drop; lia|].
  cbn [mbind option_bind]. rewrite Ed. cbn [mbind option_bind Z.eqb]. rewrite Z.eqb_refl. cbn [negb].
  rewrite <- Nat2Z.inj_add, <- Hj, (u32_id (Z.of_nat j)) by (unfold is_u32; lia).
  rewrite drop_drop, <- Hj, Ht, app_assoc, <- Htk.
  assert (Hl : length (take j data) = j) by (rewrite length_take; lia).
  rewrite IH; [|lia|lia|done|rewrite length_app, Hl, length_drop; lia|rewrite length_app, Hl, length_drop; lia|].
  - do 3 f_equal. rewrite drop_app_ge by lia. rewrite Hl, drop_drop. f_equal. lia.
  - by rewrite take_app_length'.
Qed.
End decode.

(** ** The whole program *)

(** What [haar_transform] and [quantize_and_threshold] make of the wave. *)
Definition quantised (original : list Z) : list Z :=
  let cs := haar_spec (Z.to_nat DWT_LEVELS) original in
  let p := (length cs / 32)%nat in
  map (fun x => round_quotient x DWT_QUANT_STEP) (take p cs ++ map (threshold_at DWT_QUANT_THRESHOLD) (drop p cs)).

Definition symbol_ok (s : Z) : Prop := is_i16 s /\ s <> ESCAPE_SYMBOL.

Lemma i16_within original : Forall is_i16 original -> within 32768 original.
Proof. intros H. eapply list.Forall_impl; [exact H|]. unfold is_i16. lia. Qed.

Lemma quantise_one x : Z.abs x <= 32768 ->
  Z.abs (round_quotient x DWT_QUANT_STEP) <= 6554 /\ Z.abs (round_quotient x DWT_QUANT_STEP * DWT_QUANT_STEP - x) <= 2.
Proof.
  intros Hx. change DWT_QUANT_STEP with 5. rewrite round_quotient_5 by lia.
  Z.div_mod_to_equations. nia.
Qed.

Lemma length_quantised original : length (quantised original) = length original.
Proof.
  unfold quantised. rewrite length_map, length_app, length_map, length_take, length_drop, length_haar_spec.
  pose proof (Nat.Div0.div_le_upper_bound (length original) 32 (length original)). lia.
Qed.

Lemma quantise_threshold x : Z.abs x <= 32768 ->
  let y := round_quotient (threshold_at DWT_QUANT_THRESHOLD x) DWT_QUANT_STEP in
  Z.abs y <= 6554 /\ Z.abs (y * DWT_QUANT_STEP - x) <= 199.
Proof.
  intros Hx. pose proof (quantise_one x Hx). unfold threshold_at, DWT_QUANT_THRESHOLD. case_match; [|cbv zeta; lia].
  change (round_quotient 0 DWT_QUANT_STEP) with 0. cbv zeta. lia.
Qed.

Lemma quantised_small original : Forall is_i16 original -> within 6554 (quantised original).
Proof.
  intros H. apply i16_within in H. apply (haar_spec_within _ (Z.to_nat DWT_LEVELS)) in H.
  unfold quantised. set (cs := haar_spec _ _) in *. unfold within in *.
  apply Forall_map, list.Forall_app. split; [|apply Forall_map].
  - apply Forall_take. eapply list.Forall_impl; [exact H|]. intros x Hx. by apply quantise_one.
  - apply Forall_drop. eapply list.Forall_impl; [exact H|]. intros x Hx. by apply quantise_threshold.
Qed.

Lemma quantised_symbols original : Forall is_i16 original -> Forall symbol_ok (quantised original).
Proof.
  intros H. apply quantised_small in H. eapply list.Forall_impl; [exact H|].
  intros x Hx. cbv beta in Hx. unfold symbol_ok, is_i16, ESCAPE_SYMBOL. lia.
Qed.

Lemma map_near (f : Z -> Z) e cs : Forall (fun x => near e (f x) x) cs -> Forall2 (near e) (map f cs) cs.
Proof. induction 1; by constructor. Qed.

(** Quantisation and its inverse are off by 2, by 199 below the threshold. *)
Lemma quantised_close original : Forall is_i16 original ->
  close (length original / 32) 2 199 (map (fun x => x * DWT_QUANT_STEP) (quantised original))
    (haar_spec (Z.to_nat DWT_LEVELS) original).
Proof.
  intros H. apply i16_within in H. apply (haar_spec_within _ (Z.to_nat DWT_LEVELS)) in H.
  rewrite <- (length_haar_spec (Z.to_nat DWT_LEVELS) original). unfold quantised. cbv zeta.
  set (cs := haar_spec _ _) in *. clearbody cs. set (p := (length cs / 32)%nat).
  assert (Hp : length (take p cs) = p) by (rewrite length_take; apply Nat.min_l, Nat.Div0.div_le_upper_bound; lia).
  rewrite map_map, map_app, map_map. unfold close.
  rewrite take_app_length', drop_app_length' by by rewrite length_map.
  split; apply map_near; [apply Forall_take|apply Forall_drop]; (eapply list.Forall_impl; [exact H|]);
    intros x Hx; [by apply quantise_one|by apply quantise_threshold].
Qed.

(** The decoder's buffer before the first chunk. *)
Lemma buffered_start data tmp stream_length encoded : Z.of_nat (length tmp) = 1024 -> Forall is_u8 tmp ->
  0 <= stream_length -> buffered data encoded stream_length 0 (Bitstream tmp 1024 1024 0) 0.
Proof.
  intros Hl Hu Hs. unfold buffered, at_byte. cbn [buf_size buffer byte_index bit_offset]. rewrite take_0.
  change (length (encoding [])) with 0%nat. change (Z.of_nat 0 / 8) with 0. change (Z.of_nat 0 mod 8) with 0.
  split; [done|]. split; [done|]. split; [done|]. split; [lia|]. split; [done|]. split; [lia|].
  cbv zeta. by replace (Z.to_nat (Z.min (1024 - 1024) (stream_length - 0))) with 0%nat by lia.
Qed.

Lemma flushed_start encoded : Forall is_u8 encoded ->
  flushed [] (Bitstream (replicate (Z.to_nat SZ_TMP_BUF) 0) SZ_TMP_BUF 0 0) encoded 0.
Proof.
  intros Hu. split; [done|]. split; [by apply (clean_cleared 1024)|]. done.
Qed.

Section whole.
Context (encoded0 decoded0 tmp_buf0 : list Z) (calloc_ok : nat -> bool) (original : list Z)
  (Ho : Forall is_i16 original) (Hn : Z.of_nat (length original) < 2 ^ 27) (Hu : Forall is_u8 encoded0).

(** The check never objects. *)
Lemma check_passes : let n := Z.of_nat (length original) in
  check_chunks (chunk_fuel n) (quantised original) n 0 (Bitstream tmp_buf0 SZ_TMP_BUF 0 0) 0 =
  Some (0, Z.of_nat (length (encoding (quantised original)))).
Proof.
  intros n. assert (Hi : Forall is_i16 (quantised original))
    by (eapply list.Forall_impl; [by apply quantised_symbols|]; by intros x [H _]).
  pose proof (length_quantised original) as Hq. unfold n.
  pose proof (check_chunks_eq (quantised original) (Bitstream tmp_buf0 SZ_TMP_BUF 0 0) Hi eq_refl
    (chunk_fuel (Z.of_nat (length original))) 0%nat 0) as Hck.
  rewrite Hq in Hck. change (Z.of_nat 0) with 0 in Hck.
  rewrite Hck; [|unfold chunk_fuel; lia|lia|done]. rewrite drop_0, u32_id; [done|].
  pose proof (length_encoding (quantised original)). unfold is_u32. lia.
Qed.

(** The transform, the quantisation and the check always succeed. *)
Lemma compress_encodes : compress encoded0 tmp_buf0 original =
  encode_chunks (chunk_fuel (Z.of_nat (length original))) (quantised original) (Z.of_nat (length original)) 0
    (Bitstream (replicate (Z.to_nat SZ_TMP_BUF) 0) SZ_TMP_BUF 0 0) encoded0 0.
Proof.
  unfold compress. cbv zeta. rewrite (haar_transform_eq 32768) by (done || by apply i16_within). cbn [mbind option_bind].
  pose proof (length_haar_spec (Z.to_nat DWT_LEVELS) original) as Hl. rewrite <- Hl at 1. rewrite quantize_eq.
  fold (quantised original). cbn [mbind option_bind]. by rewrite check_passes.
Qed.

Lemma compress_eq : let total := Z.of_nat (length (encoding (quantised original))) in
  (total / 8 + 2 <= Z.of_nat (length encoded0) -> is_Some (compress encoded0 tmp_buf0 original)) /\
  (forall rc encoded total', compress encoded0 tmp_buf0 original = Some (rc, encoded, total') ->
    rc = 0 /\ total' = total /\ length encoded = length encoded0 /\
    take (length (encoding (quantised original))) (bits_of encoded) = encoding (quantised original) /\
    Forall is_u8 encoded).
Proof.
  intros total. rewrite compress_encodes. rewrite <- (length_quantised original).
  refine (encode_chunks_eq (quantised original) _ _ _ 0%nat _ encoded0 0 _ _ _).
  - eapply list.Forall_impl; [by apply quantised_symbols|]. by intros x [H _].
  - pose proof (length_encoding (quantised original)). pose proof (length_quantised original). lia.
  - unfold chunk_fuel. lia.
  - lia.
  - by apply flushed_start.
Qed.

(** Decompression of a stream of the quantised coefficients. *)
Lemma decompress_eq encoded tmp : (32 <= length original)%nat -> Forall is_u8 encoded ->
  (forall k, calloc_ok k = true) -> length decoded0 = length original ->
  Z.of_nat (length tmp) = 1024 -> Forall is_u8 tmp ->
  take (length (encoding (quantised original))) (bits_of encoded) = encoding (quantised original) ->
  let total := Z.of_nat (length (encoding (quantised original))) in
  total / 8 + 1 <= Z.of_nat (length encoded) -> Z.of_nat (length encoded) < 2 ^ 31 ->
  exists ys, decompress decoded0 calloc_ok (Z.of_nat (length original)) encoded total tmp = Some (0, ys) /\
    Forall2 (near 1002) ys original.
Proof.
  intros H32 Hue Hcall Hl Htmp Hut Hbits total Hcap Hlen. unfold decompress.
  rewrite build_decoding_tree_eq by done. cbn [mbind option_bind].
  assert (Hsl : 0 <= stream_length_of total <= Z.of_nat (length encoded))
    by (unfold stream_length_of; case_match; Z.div_mod_to_equations; lia).
  pose proof (length_quantised original) as Hq. pose proof (quantised_symbols original Ho) as Hs.
  pose proof (decode_chunks_eq (quantised original) encoded (stream_length_of total) Hs Hue Hbits eq_refl
    (proj2 Hsl) Hlen (chunk_fuel (Z.of_nat (length original))) 0%nat (Bitstream tmp SZ_TMP_BUF SZ_TMP_BUF 0) 0 decoded0) as Hd.
  rewrite Hq in Hd. change (Z.of_nat 0) with 0 in Hd.
  destruct static_tree eqn:Et; [discriminate Et|]. rewrite <- Et in Hd |- *. clear Et.
  rewrite Hd; [|unfold chunk_fuel; lia|lia|apply buffered_start; [done|done|apply Hsl]|lia|lia|by rewrite !take_0].
  clear Hd. rewrite drop_ge, app_nil_r by lia. cbn [mbind option_bind Z.eqb negb].
  pose proof (quantised_small original Ho) as Hw.
  pose proof (inverse_quantize_eq 6554 (quantised original) DWT_QUANT_STEP Hw ltac:(done) ltac:(done)) as Hiq.
  rewrite Hq in Hiq. rewrite Hiq. cbn [mbind option_bind].
  set (cs := map (fun x => x * DWT_QUANT_STEP) (quantised original)).
  assert (Hlc : length cs = length original) by (unfold cs; by rewrite length_map).
  assert (Hwc : within 32770 cs).
  { unfold cs, within. apply Forall_map. eapply list.Forall_impl; [exact Hw|]. intros x Hx. cbv beta in Hx.
    unfold compose, DWT_QUANT_STEP. lia. }
  pose proof (inverse_haar_transform_eq 32770 cs DWT_LEVELS Hwc ltac:(done) ltac:(done) ltac:(done)) as Hih.
  rewrite Hlc in Hih. exists (inverse_spec (Z.to_nat DWT_LEVELS) cs). split.
  - rewrite Hih; [done|]. change (2 ^ DWT_LEVELS) with 32. lia.
  - apply (inverse_spec_near 5 2 199); [done|done|exact H32|]. by apply quantised_close.
Qed.
End whole.

(** C32: the recovered wave is near the original. For a wave of at least 32 and
    fewer than 2^27 16-bit samples whose quantised coefficients encode into two
    bytes less than the array that [main] allocates, compression succeeds through
    all its chunks and reports the length of the stream; decompression of that
    stream, whatever the stream buffer and the array of samples held, succeeds and gives
    every sample back with an error of at most 1002: no chunk boundary
    loses or alters a bit, so the error is that of the threshold, the step and the
    rounding of five levels. *)
Theorem wave_recovered original encoded0 decoded0 tmp0 tmp calloc_ok :
  Forall is_i16 original -> (32 <= length original)%nat -> Z.of_nat (length original) < 2 ^ 27 ->
  Forall is_u8 encoded0 -> length encoded0 = (2 * length original)%nat -> length decoded0 = length original ->
  Z.of_nat (length tmp) = SZ_TMP_BUF -> Forall is_u8 tmp -> (forall k, calloc_ok k = true) ->
  Z.of_nat (length (encoding (quantised original))) / 8 + 2 <= 2 * Z.of_nat (length original) ->
  exists encoded total ys,
    compress encoded0 tmp0 original = Some (0, encoded, total) /\
    total = Z.of_nat (length (encoding (quantised original))) /\
    decompress decoded0 calloc_ok (Z.of_nat (length original)) encoded total tmp = Some (0, ys) /\
    Forall2 (near 1002) ys original.
Proof.
  intros Ho H32 Hn Hu He Hd Ht Hut Hc Hcap.
  destruct (compress_eq encoded0 tmp0 original Ho Hn Hu) as [Hsome Hres].
  destruct Hsome as [[[rc encoded] total] E]; [lia|].
  destruct (Hres rc encoded total E) as (-> & -> & Hl & Hbits & Hue).
  destruct (decompress_eq decoded0 calloc_ok original Ho Hn encoded tmp) as (ys & Ey & Hnear); try done; [lia|lia|].
  exists encoded, (Z.of_nat (length (encoding (quantised original)))), ys. done.
Qed.

(** A wave of 64 samples: a step from 1000 to -1000. *)
Definition sample_wave : list Z := replicate 40 1000 ++ replicate 24 (-1000).

Lemma wave_recovered_witness : exists encoded total ys,
  compress (replicate 128 0) (replicate 1024 0) sample_wave = Some (0, encoded, total) /\ total = 152 /\
  decompress (replicate 64 7) (fun _ => true) 64 encoded total (replicate 1024 9) = Some (0, ys) /\
  Forall2 (near 1002) ys sample_wave.
Proof.
  destruct (wave_recovered sample_wave (replicate 128 0) (replicate 64 7) (replicate 1024 0) (replicate 1024 9) (fun _ => true))
    as (encoded & total & ys & E1 & E2 & E3 & E4).
  - unfold sample_wave. apply list.Forall_app. split; apply Forall_replicate; unfold is_i16; lia.
  - vm_compute. lia.
  - reflexivity.
  - apply Forall_replicate. unfold is_u8. lia.
  - reflexivity.
  - reflexivity.
  - reflexivity.
  - apply Forall_replicate. unfold is_u8. lia.
  - reflexivity.
  - vm_compute. discriminate.
  - exists encoded, total, ys. split; [exact E1|]. split; [rewrite E2; vm_compute; reflexivity|]. by split.
Defined.

(** a wave that does not compress overflows the array. The check before
    encoding compares each chunk of at most 100 symbols, hence at most 2300 bits,
    with the stream buffer of 8192 bits, so it never objects; the array of 16 bits per sample
    is not considered. When the code words of the quantised coefficients
    are longer than that, the check passes and the encoder writes outside the
    array. *)
Theorem dense_wave_overflows original encoded0 tmp0 (n := Z.of_nat (length original)) :
  Forall is_i16 original -> n < 2 ^ 27 -> Forall is_u8 encoded0 -> Z.of_nat (length encoded0) = 2 * n ->
  8 * (2 * n) < Z.of_nat (length (encoding (quantised original))) ->
  check_chunks (chunk_fuel n) (quantised original) n 0 (Bitstream tmp0 SZ_TMP_BUF 0 0) 0 =
    Some (0, Z.of_nat (length (encoding (quantised original)))) /\
  compress encoded0 tmp0 original = None.
Proof.
  intros Ho Hn Hu He Hlong. split; [by apply check_passes|].
  destruct (compress encoded0 tmp0 original) as [[[rc encoded] total]|] eqn:E; [|done]. exfalso.
  destruct (compress_eq encoded0 tmp0 original Ho Hn Hu) as [_ Hres].
  destruct (Hres rc encoded total E) as (_ & _ & Hl & Hbits & _).
  apply (f_equal length) in Hbits. rewrite length_take, length_bits_of in Hbits. lia.
Qed.

(** 32 samples whose coefficients are all 5000. *)
Definition dense_wave : list Z := inverse_spec 5 (replicate 32 5000).

Lemma dense_wave_i16 : Forall is_i16 dense_wave.
Proof.
  apply list.Forall_forall. intros x Hx.
  assert (H : forallb (fun x => (-32768 <=? x) && (x <=? 32767)) dense_wave = true) by (vm_compute; reflexivity).
  rewrite forallb_forall in H. apply list_elem_of_In, H in Hx. unfold is_i16. lia.
Qed.

Lemma dense_wave_overflows_witness : Forall is_i16 dense_wave /\
  check_chunks (chunk_fuel 32) (quantised dense_wave) 32 0 (Bitstream (replicate 1024 0) SZ_TMP_BUF 0 0) 0 = Some (0, 736) /\
  compress (replicate 64 0) (replicate 1024 0) dense_wave = None.
Proof.
  split; [exact dense_wave_i16|]. apply (dense_wave_overflows dense_wave (replicate 64 0) (replicate 1024 0)).
  - exact dense_wave_i16.
  - reflexivity.
  - apply Forall_replicate. unfold is_u8. lia.
  - reflexivity.
  - vm_compute. reflexivity.
Defined.
